(* ===== verification/_CoqProject ===== *)
-Q . S2P
Prelude.v
Decimal.v
Charset.v
Odbc.v
Errors.v
Diag.v
Dynamic.v
LinkedList.v
Parse.v
Unescape.v
Dsn.v
SqlTypes.v
Desc.v
Ird.v
StmtAttr.v
Cursor.v
Numeric.v
StrBuild.v
SetPos.v
DataAtExec.v
TypeConv.v
Escape.v
FloatText.v
ParamText.v
Params.v
ClientLib.v
StmtState.v
Execute.v
ExecProps.v
Results.v
Prepare.v
Lifecycle.v
Conn.v
Connect.v
ConnProps.v
ConnectProps.v
GetData.v
GetDataProps.v
RowFetch.v
RowFetchProps.v
CatalogText.v
Catalog.v
CatalogProps.v
