(* ===== verification/Prelude.v ===== *)
(** * A verification development of the SingleStore ODBC connector

    The connector ([src/ma_*.c], [src/odbc_3_api.c]) is an ODBC driver in C: an
    application links its entry points and talks through environment, connection,
    statement and descriptor handles to a SingleStore server, reached with a vendored
    MariaDB client library ([src/libmariadb]).  This library models the driver's own
    logic, function by function under the C names, and proves what makes it correct.

    ** Components and files

    - [Prelude]: machine integers ([wrapu], [wraps]), bytes, C strings in buffers,
      the C locale, shared list lemmas, the tactics and the hint database [cstring].
    - [Decimal]: decimal text of integers, as [printf] and [strtol] use it.
    - [Charset] ([ma_string.c], [ma_common.c], [ma_platform_posix.c]): lengths of
      multi-byte, UTF-16 and UTF-32 strings, lower case.
    - [Odbc]: the constants of the ODBC headers and of the client library.
    - [Errors] ([ma_error.c], [ma_error.h]): the table of SQL states, the error record
      of a handle and every function that writes it.
    - [Diag] ([ma_error.c], [ma_environment.c]): reading the record back, environment
      attributes.
    - [Dynamic], [LinkedList] ([ma_legacy_helpers.c]): growing strings and arrays over
      an allocator that may fail; doubly linked lists in an explicit heap.
    - [Parse] ([ma_parse.c]): the query tokenizer: statements of a batch, statement
      types, parameter markers.  [Unescape]: ODBC escape sequences and the preparation
      of a query text; the generated lexer and parser are a parameter.
    - [Dsn] ([ma_dsn.c]): the data source record, its key table, connection strings
      parsed and printed, options and their dependents, reading and saving through the
      installer library, which is a record of functions ([installer]).
    - [SqlTypes], [Numeric] ([ma_helper.c]): type mapping, sizes, SQL_NUMERIC values.
    - [TypeConv] ([ma_typeconv.c]): conversions between C types, text and the
      client library's values.
    - [Desc] ([ma_desc.c]): descriptors.  State: [world], with descriptors, statements,
      the connection's list and the heap blocks of texts; a handle is an address, so
      that sharing and freeing are visible.
    - [Ird] ([ma_desc.c]): the columns of a result described in the implementation row
      descriptor, from the metadata of the client library or corrected for the
      driver's own results, on the records and heap blocks of [Desc].
    - [StmtAttr] ([ma_statement.c]): statement attributes, assignment of explicit
      descriptors, SQLBindCol, SQL_UNBIND, on the [world] of [Desc].
    - [Cursor] ([ma_statement.c], [ma_result.c]): SQLFetch, SQLFetchScroll, dynamic
      cursors and SQL_POSITION over a result set with the client library's cursor.
    - [StrBuild] ([ma_string.c]): the statement texts the driver writes itself, on the
      dynamic strings of [Dynamic], and the quoting of identifier arguments.
    - [SetPos] ([ma_statement.c], [ma_helper.c]): SQLSetPos and SQLBulkOperations, with
      the inner statement ([DaeStmt]), the default values of columns, the statements
      sent and the depth of the connection's lock.  State: [pos_state], which contains
      the cursor state of [Cursor].
    - [DataAtExec] ([ma_statement.c]): SQLParamData and SQLPutData, for a statement and
      its inner statement.
    - [Escape] ([libmariadb/ma_charset.c], [mariadb_lib.c]): escaping of values for string
      literals.  [FloatText] ([ma_typeconv.c]): the text of SQL_NUMERIC and floating point
      parameters.  [ParamText]: filling the markers of a text and what that does to the
      pieces the scanner of [Parse] sees.  [Params] ([ma_statement.c]): the literal of
      every type of parameter and [MADB_InsertParams].
    - [ClientLib] ([mariadb_lib.c]): a connection's text protocol (queries, results,
      further results) over a server, which is a type class ([Server]).
    - [StmtState], [Execute] ([ma_statement.c], [ma_result.c], [ma_helper.c]): the state
      of a statement handle with its [MYSQL_STMT]s, results and lock, and
      [MADB_StmtExecute] of client-side prepared statements with parameter arrays,
      rewritten INSERTs and batches, and SQLMoreResults.  [ExecProps], [Results]: their
      theorems.
    - [Prepare] ([ma_statement.c], [ma_helper.c]): SQLPrepare, SQLExecDirect, resetting,
      closing and dropping a statement, the structures of a batch, on the state of
      [StmtState].  [Lifecycle]: their theorems.
    - [Conn] ([ma_connection.c], [odbc_3_api.c], [mariadb_lib.c]): the connection handle
      ([MADB_Dbc]) with its attributes, the end of a transaction, the check of the
      connection and SQLGetFunctions, on the connection of [ClientLib]; commands other
      than queries are answered by a second class ([Commands]).  [ConnProps]: theorems.
    - [Connect] ([ma_connection.c], [ma_helper.c], [odbc_3_api.c]): connecting with a data
      source, a name or a connection string: the options set, the call of
      [mysql_real_connect] and what is sent to the server afterwards; what is outside is a
      record ([connect_env]).  [ConnectProps]: theorems.
    - [GetData] ([ma_statement.c], [odbc_3_api.c], [ma_platform_posix.c]): SQLGetData for
      every target type and bookmarks.  State: [get_stmt].  [GetDataProps]: theorems.
    - [RowFetch] ([ma_statement.c], [mariadb_stmt.c]): the columns of one row of a fetch,
      from the bind structures to the buffers, lengths and indicators in the memory of the
      application.  State: [row_state].  [RowFetchProps]: theorems.
    - [CatalogText] ([ma_statement.h]), [Catalog] ([ma_statement.c],
      [ma_platform_posix.c]): the fixed texts of the catalog queries, and the ten catalog
      functions that ask INFORMATION_SCHEMA, which build their queries in arrays, blocks
      and dynamic strings and hand them to SQLExecDirect, an argument.  [CatalogProps]: a
      specification of each call ([plan_of]) and the theorems.

    They call each other as the code does: [Errors] is used by every component that
    reports errors, [Charset] and [Decimal] by the text ones, [SqlTypes] by [Desc],
    [TypeConv], [Ird] and [Cursor], [Desc] by [Ird] and [StmtAttr], the options of
    [StmtAttr] by [Cursor], [Dynamic] and [Numeric] by [StrBuild], [StrBuild] and [Cursor]
    by [SetPos]; [SetPos] also runs the tokenizer of [Parse] on the text it builds.
    [Params] uses the descriptors of [Desc], the strings of [Dynamic], [TypeConv], [Escape]
    and [FloatText]; [Execute] uses [Params], [ClientLib], [Parse], [Desc] and [Ird];
    [Prepare] uses [Parse], [Unescape] and [Execute], which it calls to execute directly.
    [Conn] uses [ClientLib]; [Connect] uses [Conn] and the data source of [Dsn].
    [GetData] uses [Desc], [TypeConv], [Numeric] and [Charset]; [RowFetch] uses these and the
    memory of [Params].  [Catalog] uses [Dynamic], [StrBuild], [Escape] and [Ird].

    ** What the theorems show

    - Texts: the one-pass tokenizer finds the parameter markers a reference scanner
      finds, terminates, and its offsets are in bounds and in order; escape processing
      is, for any escape parser, a one-pass translation with a stack, succeeds only on
      balanced braces and leaves other text alone.
    - Data sources: printing and parsing a connection string is a round trip under
      stated conditions (their necessity is shown by examples); parsing any string
      terminates and keeps options, bitmap and dependents consistent.
    - Values: timestamps, integers and SQL_NUMERIC are converted exactly or with the
      right diagnosis, with the exceptions the theorems name (numbers beyond 64 bits,
      decimal texts without a point or with digits beyond the scale).
    - Memory: dynamic strings and arrays refine their mathematical counterparts, also
      when allocations fail; list operations preserve the heap shape; error records
      stay well formed under every sequence of writers, no write leaves their arrays
      and no message overwrites a prefix; [MADB_SetError] stores what its code says.
    - Descriptors: sharing between statements never dangles under any sequence of
      allocating, assigning and freeing; fields, attributes and bindings are read back.
    - Cursors: scrolling refines the table of SQLFetchScroll from every place of the
      cursor; reading to the end delivers every row once and in order.
    - Positioned and bulk operations: the INSERT of SQL_ADD has, for the driver's own
      tokenizer, one parameter marker for each column bound, and these columns are bound
      to them in order; SQL_DELETE sends one statement for each row, with its condition.
      The builders write the whole text or, when memory runs out, a part of it and an
      error.
    - Data at execution: SQLParamData asks for the right parameters in order and ends;
      SQLPutData concatenates the pieces.
    - Descriptions of columns: filling a record frees and owns its texts correctly and
      stores types, flags and the sizes ODBC defines for the declared column, with two
      exceptions; correcting columns is idempotent.
    - Parameters: no value of any type changes the structure of the query it is inserted
      into, except a negative number directly behind a minus sign; the query sent is the prepared text with the literals in the places of the
      markers; escaped values read back.
    - Execution: with arrays of parameters one query per row, or one INSERT per batch of
      rows, is sent in order, and counters, row statuses, the return code, the error and
      the affected rows are what the answers of the server imply; SQLMoreResults makes
      the statements of a batch current one after the other; closing a statement ends exactly on the stated lists of answers.
    - Life of a statement: resetting, closing and dropping free every structure and result
      once, and exactly the uncounted pieces of a batch are lost; SQLPrepare keeps the text and counts its markers; when preparing gives the lock
      back and when not; what a refused SQLExecDirect sends again.
    - Connections: setting an attribute changes that attribute or fails, and is read back;
      connecting ends with an answer, sends the stated commands and requires TLS as
      configured; over any sequence of operations without automatic reconnection the
      session of the server has the autocommit mode of the handle; a printed connection string connects to the same
      place; the three forms of SQLGetFunctions agree.
    - Rows: what a fetch leaves in the memory of the application is the row, column by
      column, and nothing else; a value read with SQLGetData in pieces is complete.
    - Catalog functions: the query that is executed is the one of the specification while
      the buffers are large enough, and names without quotes and backslashes, or escaped
      ones, cannot change its structure.
    - Where the code does something else than its comments or ODBC say, the theorem
      states what it does (for instance [scroll_result_first_row],
      [SetPos_ADD_refused], [ParamData_add_again], [PutData_null_accepted],
      [SetIrdRecord_bigint_size], [MADB_DescCopyDesc_double_free], [CspsFreeResult_ends],
      [insert_first_row_ignored], [Prepare_lock], [ExecDirect_repeats],
      [batch_statement_lost], [autocommit_unchecked], [refused_version_left_open],
      [isolation_before_connecting], [text_not_terminated], [wide_text_overrun],
      [default_type_lost], [overflow_not_reported], [name_changes_query],
      [long_name_cuts_query], [escaped_name_overruns], [types_need_no_database],
      [MADB_CharToSQLNumeric_uninitialised]).

    ** Conventions, fuel and bounds

    [None] is undefined behaviour of C (a dangling handle, a read out of bounds) unless
    a definition says otherwise; an allocator's answer is an argument.  A store past the end
    of an array of an error record makes the list longer, so that keeping its length is a theorem.  Bytes are [Z]
    from 0 to 255, integers are [Z] with their width written out where it matters.
    Loops that are not structural take fuel computed from the length of their input;
    the theorems about them show that it is enough ([ParseQuery_arrays],
    [MADB_ParseConnString_invariant], [MbstrCharLen_chunks]); the number of calls of
    SQLFetch in [SQLFetch_scan] is one more than the number of rows, that of SQLParamData
    in [ParamData_asks_in_order] one more than the number of parameters.  The loop that reads
    the remaining answers of a connection has fuel, and [CspsFreeResult_ends] says when any
    fuel beyond the number of answers is enough and when none is.  [long] has 64
    bits, [char] is signed; a result set has less than [2 ^ 62] rows.

    ** Not modelled

    Server-side prepared statements (the binary protocol), positioned updates, SQLGetInfo,
    the variants of SQLColumns and SQLPrimaryKeys that use SHOW statements, and
    SQLGetTypeInfo: they drive structures of the client library and the server.  The
    conditions of [assert] are not modelled.
    Binding and converting the columns of one row are arguments of [Cursor] and [Execute];
    [RowFetch] models them for the text protocol.  Connecting is modelled up to the client library's
    [mysql_real_connect], which is an argument like the browser login, the driver's own
    reconnecting in [CheckConnection] and the installer's profile; there is no dialog on posix.
    The client library of [ClientLib] never reconnects by itself (MYSQL_OPT_RECONNECT): the theorem
    on sessions excludes data sources that ask for it.  Preparing and executing the inner statement of [SetPos], reading the
    current row for a condition, escaping, and the conversion of wide characters are
    arguments of the definitions that use them.  [MADB_GetInsertStatement] is called by
    nothing.  The wide-character entry points, logging, Windows code, the browser
    authentication plugin and vendored or generated code are I/O, glue or third-party. *)

From stdpp Require Import base list strings numbers option.
From Stdlib Require Import ZArith Lia.

(** ** Scope and notations *)

Declare Scope cchar_scope.
Delimit Scope cchar_scope with C.

(** The bytes of a C string literal, without the terminating NUL. *)
Definition chars (s : string) : list Z :=
  (fun a => Z.of_N (Ascii.N_of_ascii a)) <$> String.list_ascii_of_string s.

(** A character constant ['c'] is the byte of a one-letter literal. *)
Definition chr (s : string) : Z :=
  match chars s with c :: _ => c | [] => 0%Z end.

Notation "'$' s" := (chr s) (at level 1, s at level 0, format "'$' s") : cchar_scope.

Open Scope Z_scope.
Open Scope cchar_scope.

(** ** Machine integers *)

(** Conversion of a mathematical integer to an unsigned or a two's complement
    integer of [w] bits. *)
Definition wrapu (w z : Z) : Z := z mod 2 ^ w.
Definition wraps (w z : Z) : Z := (z + 2 ^ (w - 1)) mod 2 ^ w - 2 ^ (w - 1).

Definition in_u (w z : Z) : bool := (0 <=? z) && (z <? 2 ^ w).
Definition in_s (w z : Z) : bool := (- 2 ^ (w - 1) <=? z) && (z <? 2 ^ (w - 1)).

(** A stored [char] read through a signed [char] lvalue (x86, ARM macOS). *)
Definition schar (c : Z) : Z := wraps 8 c.

Definition byte_ok (c : Z) : Prop := 0 <= c < 256.

(** ** Character classes of the C locale *)

Definition isspace (c : Z) : bool := ((9 <=? c) && (c <=? 13)) || (c =? 32).
Definition isdigit (c : Z) : bool := (48 <=? c) && (c <=? 57).
Definition isupper (c : Z) : bool := (65 <=? c) && (c <=? 90).
Definition islower (c : Z) : bool := (97 <=? c) && (c <=? 122).
Definition isalpha (c : Z) : bool := isupper c || islower c.
Definition tolower (c : Z) : Z := if isupper c then c + 32 else c.
Definition toupper (c : Z) : Z := if islower c then c - 32 else c.

(** ** C strings in a buffer

    A buffer is a list of bytes, a pointer into it an offset.  Reading at or
    past the end of the list gives NUL: every buffer the driver scans is
    NUL-terminated, and the bytes after the terminator are never looked at. *)

Definition rd (b : list Z) (p : nat) : Z := default 0 (b !! p).

(** The string that starts at the head of [l]: the bytes before the first NUL. *)
Fixpoint cstr (l : list Z) : list Z :=
  match l with
  | [] => []
  | c :: l' => if c =? 0 then [] else c :: cstr l'
  end.

Definition cstr_at (b : list Z) (p : nat) : list Z := cstr (drop p b).

Definition strlen (b : list Z) (p : nat) : nat := length (cstr_at b p).

(** [strchr] and [strstr] on a NUL-free string: the offset of the first match. *)
Fixpoint strchr (l : list Z) (c : Z) : option nat :=
  match l with
  | [] => None
  | x :: l' => if x =? c then Some 0%nat else S <$> strchr l' c
  end.

Fixpoint starts_with (pre l : list Z) : bool :=
  match pre, l with
  | [], _ => true
  | c :: pre', x :: l' => (c =? x) && starts_with pre' l'
  | _ :: _, [] => false
  end.

Fixpoint strstr (l pat : list Z) : option nat :=
  if starts_with pat l then Some 0%nat
  else match l with
       | [] => None
       | _ :: l' => S <$> strstr l' pat
       end.

(** [_strnicmp(a, b, n) == 0]: the first [n] characters agree up to case, or
    both strings end before that. *)
Fixpoint strnicmp_eq (a b : list Z) (n : nat) : bool :=
  match n with
  | O => true
  | S n' =>
      match a, b with
      | [], [] => true
      | x :: a', y :: b' => (tolower x =? tolower y) && strnicmp_eq a' b' n'
      | _, _ => false
      end
  end.

(** [_stricmp(a, b) == 0]. *)
Fixpoint stricmp_eq (a b : list Z) : bool :=
  match a, b with
  | [], [] => true
  | x :: a', y :: b' => (tolower x =? tolower y) && stricmp_eq a' b'
  | _, _ => false
  end.

(** [memset] over an interval of a buffer, and [memcpy] of bytes to an offset. *)
Definition fill (b : list Z) (p n : nat) (c : Z) : list Z :=
  take p b ++ replicate (Nat.min n (length b - p)) c ++ drop (p + n) b.

Definition blit (b : list Z) (p : nat) (src : list Z) : list Z :=
  take p b ++ take (length b - p) src ++ drop (p + length src) b.

(** [ma_common.c]: [ltrim] and [trim] as functions of the string's content;
    [trim] writes NULs over the trailing blanks, which ends the string there. *)
Fixpoint ltrim_n (l : list Z) : nat :=
  match l with
  | c :: l' => if isspace c then S (ltrim_n l') else 0%nat
  | [] => 0%nat
  end.

Definition ltrim (l : list Z) : list Z := drop (ltrim_n l) l.
Definition rtrim (l : list Z) : list Z := reverse (ltrim (reverse l)).
Definition trim (l : list Z) : list Z := rtrim (ltrim l).

(** ** Automation *)

Create HintDb cstring.

(** Case analysis on the boolean tests a C condition is made of. *)
Ltac bool_case :=
  match goal with
  | |- context [if ?b then _ else _] => destruct b eqn:?
  | H : context [if ?b then _ else _] |- _ => destruct b eqn:?
  end.

Ltac bprop :=
  repeat match goal with
  | H : (_ && _)%bool = true |- _ => apply andb_true_iff in H; destruct H
  | H : (_ && _)%bool = false |- _ => apply andb_false_iff in H
  | H : (_ || _)%bool = true |- _ => apply orb_true_iff in H
  | H : (_ || _)%bool = false |- _ => apply orb_false_iff in H; destruct H
  | H : negb _ = true |- _ => apply negb_true_iff in H
  | H : negb _ = false |- _ => apply negb_false_iff in H
  | H : (_ =? _) = true |- _ => apply Z.eqb_eq in H
  | H : (_ =? _) = false |- _ => apply Z.eqb_neq in H
  | H : (_ <=? _) = true |- _ => apply Z.leb_le in H
  | H : (_ <=? _) = false |- _ => apply Z.leb_gt in H
  | H : (_ <? _) = true |- _ => apply Z.ltb_lt in H
  | H : (_ <? _) = false |- _ => apply Z.ltb_ge in H
  | H : (_ =? _)%nat = true |- _ => apply Nat.eqb_eq in H
  | H : (_ =? _)%nat = false |- _ => apply Nat.eqb_neq in H
  | H : (_ <=? _)%nat = true |- _ => apply Nat.leb_le in H
  | H : (_ <=? _)%nat = false |- _ => apply Nat.leb_gt in H
  | H : (_ <? _)%nat = true |- _ => apply Nat.ltb_lt in H
  | H : (_ <? _)%nat = false |- _ => apply Nat.ltb_ge in H
  end.

(** ** Lemmas on strings and buffers *)

Lemma rd_lookup b p c : b !! p = Some c -> rd b p = c.
Proof. unfold rd. by intros ->. Qed.

Lemma rd_lt b p : rd b p <> 0 -> (p < length b)%nat.
Proof.
  unfold rd. destruct (b !! p) eqn:E; simpl; [|done].
  intros _. by eapply lookup_lt_Some.
Qed.

Lemma rd_drop b p q : rd (drop p b) q = rd b (p + q).
Proof. unfold rd. by rewrite lookup_drop. Qed.

Lemma length_fill b p n c : (p <= length b)%nat -> length (fill b p n c) = length b.
Proof.
  intros. unfold fill. rewrite !length_app, length_replicate, length_take, length_drop. lia.
Qed.

Lemma length_blit b p src : (p <= length b)%nat -> length (blit b p src) = length b.
Proof.
  intros. unfold blit. rewrite !length_app, !length_take, length_drop. lia.
Qed.

Lemma length_cstr l : (length (cstr l) <= length l)%nat.
Proof. induction l as [|c l IH]; simpl; [lia|]. case_match; simpl; lia. Qed.

Lemma cstr_nonzero l : Forall (fun c => c <> 0) (cstr l).
Proof.
  induction l as [|c l IH]; simpl; [constructor|].
  case_match; bprop; [constructor|]. by constructor.
Qed.

Lemma cstr_id l : Forall (fun c => c <> 0) l -> cstr l = l.
Proof.
  induction 1 as [|c l Hc _ IH]; simpl; [done|].
  destruct (Z.eqb_spec c 0); [done|]. by rewrite IH.
Qed.

Lemma cstr_app_nul l k : Forall (fun c => c <> 0) l -> cstr (l ++ 0 :: k) = l.
Proof.
  induction 1 as [|c l Hc _ IH]; simpl; [done|].
  destruct (Z.eqb_spec c 0); [done|]. by rewrite IH.
Qed.

Lemma rd_strlen b p : rd b (p + strlen b p) = 0.
Proof.
  unfold strlen, cstr_at. rewrite <- rd_drop.
  induction (drop p b) as [|c l IH]; simpl; [done|].
  destruct (Z.eqb_spec c 0) as [->|]; simpl; [done|]. exact IH.
Qed.

Lemma strlen_le b p : (p + strlen b p <= Nat.max p (length b))%nat.
Proof.
  unfold strlen, cstr_at. pose proof (length_cstr (drop p b)) as H.
  rewrite length_drop in H. lia.
Qed.

Lemma strlen_zero b p : rd b p = 0 -> strlen b p = 0%nat.
Proof.
  unfold strlen, cstr_at. replace (rd b p) with (rd (drop p b) 0) by (by rewrite rd_drop, Nat.add_0_r).
  destruct (drop p b) as [|c l]; simpl; [done|]. unfold rd; simpl. by intros ->.
Qed.

Lemma strchr_Some l c i :
  strchr l c = Some i -> l !! i = Some c /\ Forall (fun x => x <> c) (take i l).
Proof.
  revert i. induction l as [|x l IH]; intros i; simpl; [done|].
  destruct (Z.eqb_spec x c) as [->|Hne].
  - intros [= <-]. split; [done|constructor].
  - destruct (strchr l c) as [j|]; simpl; [|done]. intros [= <-].
    destruct (IH j eq_refl). split; [done|]. by constructor.
Qed.

Lemma strchr_None l c : strchr l c = None <-> Forall (fun x => x <> c) l.
Proof.
  induction l as [|x l IH]; simpl; [by split|].
  rewrite Forall_cons_iff. destruct (Z.eqb_spec x c) as [->|Hne]; [naive_solver|].
  rewrite fmap_None, IH. naive_solver.
Qed.

Lemma strchr_lt l c i : strchr l c = Some i -> (i < length l)%nat.
Proof. intros [H _]%strchr_Some. by eapply lookup_lt_Some. Qed.

Lemma starts_with_length pre l : starts_with pre l = true -> (length pre <= length l)%nat.
Proof.
  revert l. induction pre as [|c pre IH]; intros [|x l]; simpl; try done; try lia.
  intros H. bprop. specialize (IH l ltac:(done)). lia.
Qed.

Lemma starts_with_app pre l : starts_with pre (pre ++ l) = true.
Proof. induction pre as [|c pre IH]; simpl; [done|]. by rewrite Z.eqb_refl, IH. Qed.

Lemma starts_with_prefix pre l : starts_with pre l = true -> exists k, l = pre ++ k.
Proof.
  revert l. induction pre as [|c pre IH]; intros [|x l]; simpl; try done; [by exists []|by exists (x :: l)|].
  intros H; bprop; subst. destruct (IH l ltac:(done)) as [k ->]. by exists k.
Qed.

Lemma strstr_lt l pat i : strstr l pat = Some i -> (i + length pat <= length l)%nat.
Proof.
  revert i. induction l as [|x l IH]; intros i; cbn [strstr].
  - destruct (starts_with pat []) eqn:E; [|done]. apply starts_with_length in E.
    intros [= <-]. simpl in *. lia.
  - destruct (starts_with pat (x :: l)) eqn:E; [apply starts_with_length in E; intros [= <-]; lia|].
    destruct (strstr l pat) as [j|]; simpl; [|done]. intros [= <-]. specialize (IH j eq_refl). lia.
Qed.

Lemma tolower_idem c : tolower (tolower c) = tolower c.
Proof. unfold tolower. repeat bool_case; try done; unfold isupper in *; bprop; lia. Qed.

Lemma strnicmp_eq_refl l n : strnicmp_eq l l n = true.
Proof. revert n. induction l as [|c l IH]; intros [|n]; simpl; try done. by rewrite Z.eqb_refl, IH. Qed.

Lemma strnicmp_eq_lower a b n : strnicmp_eq (tolower <$> a) b n = strnicmp_eq a b n.
Proof.
  revert b n. induction a as [|x a IH]; intros [|y b] [|n]; simpl; try done.
  by rewrite tolower_idem, IH.
Qed.

Lemma ltrim_n_le l : (ltrim_n l <= length l)%nat.
Proof. induction l; simpl; [lia|]. case_match; lia. Qed.

Lemma ltrim_head l c k : ltrim l = c :: k -> isspace c = false.
Proof.
  unfold ltrim. induction l as [|x l IH]; simpl; [done|].
  destruct (isspace x) eqn:E; simpl; [apply IH|]. intros [= -> ->]. done.
Qed.

Lemma ltrim_id l : isspace (rd l 0) = false -> ltrim l = l.
Proof. destruct l as [|c l]; simpl; [done|]. unfold ltrim, rd; simpl. by intros ->. Qed.

Lemma wraps_id w z : 0 < w -> - 2 ^ (w - 1) <= z < 2 ^ (w - 1) -> wraps w z = z.
Proof.
  intros Hw Hz. unfold wraps.
  assert (2 ^ w = 2 * 2 ^ (w - 1)) as E by (rewrite <- Z.pow_succ_r by lia; f_equal; lia).
  rewrite Z.mod_small by lia. lia.
Qed.

Lemma wrapu_id w z : 0 <= z < 2 ^ w -> wrapu w z = z.
Proof. apply Z.mod_small. Qed.

Lemma wrapu_wraps w z : 0 < w -> wrapu w (wraps w z) = wrapu w z.
Proof.
  intros. unfold wrapu, wraps. rewrite Zminus_mod_idemp_l.
  f_equal. lia.
Qed.

Lemma wraps_wrapu w z : 0 < w -> wraps w (wrapu w z) = wraps w z.
Proof.
  intros. unfold wraps, wrapu. by rewrite Zplus_mod_idemp_l.
Qed.

#[export] Hint Resolve length_fill length_blit strlen_le ltrim_n_le : cstring.
#[export] Hint Rewrite @length_app @length_take @length_drop @length_replicate : cstring.
