(* ===== verification/Decimal.v ===== *)
(** * Decimal: the C library's decimal conversions

    [printf("%d")] and [strtol]/[strtoul]/[atoi] as the driver uses them, with
    their saturation at 64 bits, and the round trip between them. *)

From Stdlib Require Import ZArith Lia.
From stdpp Require Import base strings numbers option list.
From S2P Require Import Prelude.

(** ** Printing *)

Fixpoint dec_loop (fuel : nat) (n : Z) : list Z :=
  match fuel with
  | O => []
  | S fuel' => if n <? 10 then [48 + n] else dec_loop fuel' (n / 10) ++ [48 + n mod 10]
  end.

(** The digits of a number that is not negative; a digit takes more than one
    bit, so the binary logarithm bounds their number. *)
Definition dec_u (n : Z) : list Z := dec_loop (S (Z.to_nat (Z.log2 n))) n.

(** [%d], [%lld]. *)
Definition dec (z : Z) : list Z := if z <? 0 then $"-" :: dec_u (- z) else dec_u z.

(** ** Scanning *)

Fixpoint scan_digits (acc : Z) (l : list Z) : Z * list Z :=
  match l with
  | c :: l' => if isdigit c then scan_digits (acc * 10 + (c - 48)) l' else (acc, l)
  | [] => (acc, [])
  end.

Definition scan_sign (l : list Z) : bool * list Z :=
  match l with
  | c :: l' => if c =? $"-" then (true, l') else if c =? $"+" then (false, l') else (false, l)
  | [] => (false, [])
  end.

(** Blanks, a sign, digits: the value and what is left; [None] when there is no
    digit. *)
Definition scan_int (l : list Z) : option (bool * Z * list Z) :=
  let '(neg, l2) := scan_sign (ltrim l) in
  match l2 with
  | c :: _ =>
      if isdigit c then let '(v, r) := scan_digits 0 l2 in Some (neg, v, r) else None
  | [] => None
  end.

(** [strtoul(s, NULL, 10)] and [strtoull]: saturated, a minus sign negates modulo 2^64. *)
Definition strtoul (l : list Z) : Z :=
  match scan_int l with
  | None => 0
  | Some (neg, v, _) =>
      if 2 ^ 64 <=? v then 2 ^ 64 - 1 else if neg then wrapu 64 (- v) else v
  end.

(** [strtol], [strtoll]. *)
Definition strtol (l : list Z) : Z :=
  match scan_int l with
  | None => 0
  | Some (neg, v, _) =>
      let z := if neg then - v else v in
      Z.max (- 2 ^ 63) (Z.min z (2 ^ 63 - 1))
  end.

Definition atoi (l : list Z) : Z := wraps 32 (strtol l).

(** ** Words *)

(** The characters a number is printed with, the names of its special values included. *)
Definition word_char (c : Z) : bool := isdigit c || isalpha c || (c =? $"-") || (c =? $"+") || (c =? $".").

(** No two dashes in a row and none at the end. *)
Fixpoint dashes_single (l : list Z) : bool :=
  match l with
  | [] => true
  | c :: l' => negb ((c =? $"-") && match l' with [] => true | d :: _ => d =? $"-" end) && dashes_single l'
  end.

(** ** The round trip *)

Definition digit_list (l : list Z) : Prop := Forall (fun c => isdigit c = true) l.

Lemma isdigit_range c : isdigit c = true <-> 48 <= c <= 57.
Proof. unfold isdigit. rewrite andb_true_iff, !Z.leb_le. lia. Qed.

Lemma dec_loop_digits fuel : forall n, 0 <= n -> digit_list (dec_loop fuel n).
Proof.
  induction fuel as [|fuel IH]; intros n Hn; cbn [dec_loop]; [constructor|].
  destruct (Z.ltb_spec n 10).
  - constructor; [|constructor]. apply isdigit_range. lia.
  - apply Forall_app. split; [apply IH, Z.div_pos; lia|]. constructor; [|constructor].
    apply isdigit_range. pose proof (Z.mod_pos_bound n 10). lia.
Qed.

Lemma scan_digits_app l : forall acc r, digit_list l ->
  scan_digits acc (l ++ r) = scan_digits (fst (scan_digits acc l)) r.
Proof.
  induction l as [|c l IH]; intros acc r HF; cbn [app scan_digits]; [done|].
  apply Forall_cons in HF as [Hc HF]. rewrite Hc. by apply IH.
Qed.

Lemma scan_digits_loop fuel : forall n, 0 <= n < 2 ^ Z.of_nat fuel ->
  scan_digits 0 (dec_loop fuel n) = (n, []).
Proof.
  induction fuel as [|fuel IH]; intros n Hn.
  { cbn in *. f_equal. lia. }
  cbn [dec_loop]. destruct (Z.ltb_spec n 10).
  - cbn [scan_digits]. rewrite (proj2 (isdigit_range (48 + n))) by lia. f_equal. lia.
  - assert (0 <= n / 10 < 2 ^ Z.of_nat fuel) as Hd.
    { split; [apply Z.div_pos; lia|]. apply Z.div_lt_upper_bound; [lia|].
      rewrite Nat2Z.inj_succ, Z.pow_succ_r in Hn by lia. lia. }
    rewrite scan_digits_app by (apply dec_loop_digits; lia). rewrite IH by done. cbn [fst scan_digits].
    pose proof (Z.mod_pos_bound n 10 ltac:(lia)).
    rewrite (proj2 (isdigit_range (48 + n mod 10))) by lia. f_equal.
    pose proof (Z.div_mod n 10 ltac:(lia)). lia.
Qed.

Lemma dec_u_bound n : 0 <= n -> n < 2 ^ Z.of_nat (S (Z.to_nat (Z.log2 n))).
Proof.
  intros Hn. rewrite Nat2Z.inj_succ, Z2Nat.id by apply Z.log2_nonneg.
  destruct (decide (n = 0)) as [->|]; [done|]. apply Z.log2_spec. lia.
Qed.

Lemma dec_u_digits n : 0 <= n -> digit_list (dec_u n).
Proof. apply dec_loop_digits. Qed.

Lemma scan_digits_dec n r : 0 <= n -> isdigit (rd r 0) = false -> scan_digits 0 (dec_u n ++ r) = (n, r).
Proof.
  intros Hn Hr. rewrite scan_digits_app by (by apply dec_u_digits). unfold dec_u.
  rewrite scan_digits_loop by (split; [done|by apply dec_u_bound]). cbn [fst].
  destruct r as [|c r]; [done|]. cbn [scan_digits]. by rewrite (Hr : isdigit c = false).
Qed.

Lemma dec_u_cons n : 0 <= n -> exists c l, dec_u n = c :: l /\ isdigit c = true.
Proof.
  intros Hn. pose proof (dec_u_digits n Hn) as HF. destruct (dec_u n) as [|c l] eqn:E.
  - unfold dec_u in E. cbn [dec_loop] in E. destruct (n <? 10); [done|]. by destruct (dec_loop _ _).
  - exists c, l. apply Forall_cons in HF. naive_solver.
Qed.

Lemma isdigit_plain c : isdigit c = true -> isspace c = false /\ (c =? $"-") = false /\ (c =? $"+") = false.
Proof.
  intros H%isdigit_range. split_and!; [|apply Z.eqb_neq; cbn; lia..].
  unfold isspace. apply orb_false_iff. split; [apply andb_false_iff; right; apply Z.leb_gt; lia|apply Z.eqb_neq; lia].
Qed.

Lemma scan_int_dec z r : isdigit (rd r 0) = false ->
  scan_int (dec z ++ r) = Some (z <? 0, Z.abs z, r).
Proof.
  intros Hr. unfold scan_int, dec. destruct (Z.ltb_spec z 0) as [Hz|Hz].
  - assert (ltrim (($"-" :: dec_u (- z)) ++ r) = ($"-" :: dec_u (- z)) ++ r) as -> by (by apply ltrim_id).
    cbn [app scan_sign]. rewrite Z.eqb_refl.
    destruct (dec_u_cons (- z) ltac:(lia)) as (c & l & E & Hc). rewrite E. cbn [app]. rewrite Hc.
    change (c :: l ++ r) with ((c :: l) ++ r). rewrite <- E, scan_digits_dec by (done || lia).
    do 2 f_equal. f_equal. lia.
  - destruct (dec_u_cons z ltac:(lia)) as (c & l & E & Hc). rewrite E.
    destruct (isdigit_plain c Hc) as (H1 & H2 & H3).
    rewrite ltrim_id by done. cbn [app scan_sign]. rewrite H2, H3, Hc.
    change (c :: l ++ r) with ((c :: l) ++ r). rewrite <- E, scan_digits_dec by (done || lia).
    do 2 f_equal. f_equal. lia.
Qed.

Lemma strtol_dec z : - 2 ^ 63 <= z < 2 ^ 63 -> strtol (dec z) = z.
Proof.
  intros Hz. unfold strtol. rewrite <- (app_nil_r (dec z)), scan_int_dec by done.
  destruct (Z.ltb_spec z 0); lia.
Qed.

Lemma strtoul_dec z : - 2 ^ 63 <= z < 2 ^ 64 -> strtoul (dec z) = wrapu 64 z.
Proof.
  intros Hz. unfold strtoul. rewrite <- (app_nil_r (dec z)), scan_int_dec by done.
  destruct (Z.leb_spec (2 ^ 64) (Z.abs z)); [lia|]. destruct (Z.ltb_spec z 0).
  - f_equal. lia.
  - rewrite wrapu_id by lia. lia.
Qed.

Lemma atoi_dec z : - 2 ^ 31 <= z < 2 ^ 31 -> atoi (dec z) = z.
Proof. intros. unfold atoi. rewrite strtol_dec by lia. by apply wraps_id. Qed.

Lemma dec_chars z : Forall (fun c => c = $"-" \/ isdigit c = true) (dec z).
Proof.
  unfold dec. destruct (Z.ltb_spec z 0).
  - constructor; [by left|]. eapply Forall_impl; [apply dec_u_digits; lia|]. auto.
  - eapply Forall_impl; [apply dec_u_digits; lia|]. auto.
Qed.

(** Numbers are words. *)
Lemma digits_word l : digit_list l -> forallb word_char l = true.
Proof.
  intros H. apply forallb_forall. intros c Hc. unfold digit_list in H. rewrite List.Forall_forall in H.
  unfold word_char. by rewrite (H c Hc).
Qed.

Lemma dashes_single_app l r : Forall (fun c => c <> $"-") l -> dashes_single (l ++ r) = dashes_single r.
Proof.
  induction 1 as [|c l Hc _ IH]; [done|]. cbn [app dashes_single]. apply Z.eqb_neq in Hc. by rewrite Hc, IH.
Qed.

Lemma digits_no_dash l : digit_list l -> Forall (fun c => c <> $"-") l.
Proof. intros H. eapply Forall_impl; [exact H|]. intros c Hc%isdigit_range. cbn. lia. Qed.

Lemma dashes_single_digits l : digit_list l -> dashes_single l = true.
Proof. intros H. rewrite <- (app_nil_r l). by apply dashes_single_app, digits_no_dash. Qed.

Lemma dec_word z : forallb word_char (dec z) = true /\ dashes_single (dec z) = true /\ dec z <> [].
Proof.
  unfold dec. destruct (Z.ltb_spec z 0).
  - pose proof (dec_u_digits (- z) ltac:(lia)) as Hd. destruct (dec_u_cons (- z) ltac:(lia)) as (c & l & E & Hc). rewrite E in *.
    split_and!; [| |done].
    + change (forallb word_char ($"-" :: c :: l)) with (word_char ($"-") && forallb word_char (c :: l)). by rewrite digits_word.
    + change (dashes_single ($"-" :: c :: l)) with (negb (c =? $"-") && dashes_single (c :: l)).
      apply isdigit_plain in Hc as (_ & -> & _). by apply dashes_single_digits.
  - pose proof (dec_u_digits z ltac:(lia)) as Hd. destruct (dec_u_cons z ltac:(lia)) as (c & l & E & Hc).
    split_and!; [by apply digits_word|by apply dashes_single_digits|congruence].
Qed.

Lemma dec_loop_length fuel : forall n k, 0 <= n < 10 ^ Z.of_nat k -> (0 < k)%nat ->
  (length (dec_loop fuel n) <= k)%nat.
Proof.
  induction fuel as [|fuel IH]; intros n k Hn Hk; cbn [dec_loop]; [cbn; lia|].
  destruct (Z.ltb_spec n 10); [cbn; lia|]. rewrite length_app. cbn [length].
  destruct k as [|[|k]]; [lia|cbn in Hn; lia|].
  specialize (IH (n / 10) (S k)). rewrite Nat2Z.inj_succ, Z.pow_succ_r in Hn by lia.
  assert (0 <= n / 10 < 10 ^ Z.of_nat (S k)).
  { split; [apply Z.div_pos; lia|]. apply Z.div_lt_upper_bound; lia. }
  specialize (IH ltac:(done) ltac:(lia)). lia.
Qed.
