(* ===== verification/Charset.v ===== *)
(** * Charset: lengths of multi-byte and UTF-16 strings

    Models the length functions of [ma_string.c] ([MbstrOctetLen],
    [MbstrCharLen], [SqlwcsCharLen], [SqlwcsLen], [SafeStrlen], [MADB_ToLower]),
    the UTF-16 helpers of [ma_common.c] and [SqlwcsOctetLen] of
    [ma_platform_posix.c].  A charset is the pair of fields of
    [MARIADB_CHARSET_INFO] the driver consults; its [mb_charlen] callback
    belongs to the client library and is an argument.

    The loops advance by what the callback returns, so they take fuel; a result
    [None] means the fuel was used up. *)

From stdpp Require Import base list strings numbers option.
From Stdlib Require Import ZArith Lia.
From S2P Require Import Prelude.

Record charset := Charset {
  mb_charlen : option (Z -> Z);
  char_maxlen : Z;
}.

Module Wide.

(** [ma_common.c]: the argument is a SQLWCHAR unit, cast to [unsigned char]. *)
Definition UTF16_HIGH_HEAD (x : Z) : bool := Z.land (wrapu 8 x) 0xFC =? 0xD8.
Definition UTF16_LOW_HEAD (x : Z) : bool := Z.land (wrapu 8 x) 0xFC =? 0xDC.
Definition CharOctetLen16 (utf16 : Z) : Z := if UTF16_HIGH_HEAD utf16 then 4 else 2.
Definition CharOctetLen32 (utf32 : Z) : Z := 4.

(** [ValidChar16 start end], on the bytes from [start] to [end]. *)
Definition ValidChar16 (bytes : list Z) : Z :=
  if (length bytes <? 2)%nat then 0
  else if UTF16_HIGH_HEAD (rd bytes 0) then
    if (4 <=? length bytes)%nat && UTF16_LOW_HEAD (rd bytes 2) then 4 else 0
  else if UTF16_LOW_HEAD (rd bytes 0) then 0
  else 2.

Definition ValidChar32 (bytes : list Z) : Z := 4.

Definition sizeof_SQLWCHAR : Z := 2.

(** [SqlwcsLen]: [--buff_length != -1 && *str]. *)
Fixpoint SqlwcsLen (str : list Z) (buff_length : Z) : Z :=
  match str with
  | [] => 0
  | c :: str' =>
      if negb (buff_length - 1 =? -1) && negb (c =? 0)
      then 1 + SqlwcsLen str' (buff_length - 1) else 0
  end.

(** [SafeStrlen] is the same loop over bytes. *)
Fixpoint SafeStrlen (str : list Z) (buff_length : Z) : Z :=
  match str with
  | [] => 0
  | c :: str' =>
      if negb (buff_length - 1 =? -1) && negb (c =? 0)
      then 1 + SafeStrlen str' (buff_length - 1) else 0
  end.

Section with_charlen.
(** [DmUnicodeCs->mb_charlen]. *)
Variable charlenFn : Z -> Z.

(** [SqlwcsCharLen]: [octets] is -1 for a NUL-terminated string, else the
    length of the buffer in bytes. *)
Fixpoint SqlwcsCharLen_loop (fuel : nat) (str : list Z) (p : nat) (endp : option nat) (result : Z)
  : option Z :=
  match fuel with
  | O => None
  | S fuel' =>
      let before q := match endp with Some e => (q <? e)%nat | None => true end in
      if before p && negb (rd str p =? 0) then
        let p' := (p + Z.to_nat (charlenFn (rd str p) / sizeof_SQLWCHAR))%nat in
        let past := match endp with Some e => (e <? p')%nat | None => false end in
        if past then Some result
        else SqlwcsCharLen_loop fuel' str p' endp (result + 1)
      else Some result
  end.

Definition SqlwcsCharLen (fuel : nat) (str : list Z) (octets : Z) : option Z :=
  SqlwcsCharLen_loop fuel str 0
    (if octets =? -1 then None else Some (Z.to_nat (octets / sizeof_SQLWCHAR))) 0.

(** [SqlwcsOctetLen]: the octet length and the updated [*CharLen]. *)
Fixpoint SqlwcsOctetLen_loop (fuel : nat) (str : list Z) (p : nat) (inChars result : Z)
  : option (Z * Z) :=
  match fuel with
  | O => None
  | S fuel' =>
      if negb (inChars =? 0) && negb (rd str p =? 0) then
        let charlen := charlenFn (rd str p) in
        SqlwcsOctetLen_loop fuel' str (p + Z.to_nat (charlen / sizeof_SQLWCHAR))
          (inChars - 1) (result + charlen)
      else Some (result, inChars)
  end.

Definition SqlwcsOctetLen (fuel : nat) (str : list Z) (CharLen : Z) : option (Z * Z) :=
  match SqlwcsOctetLen_loop fuel str 0 CharLen 0 with
  | None => None
  | Some (result, inChars) =>
      Some (result, if CharLen <? 0 then CharLen - inChars else CharLen)
  end.
End with_charlen.

End Wide.

Module Mbstr.

(** A [char] passed to the [unsigned int] parameter of [mb_charlen] without a
    cast is sign-extended first. *)
Definition char_arg (c : Z) : Z := wrapu 32 (schar c).

(** [MbstrOctetLen]: returns the octet length and the updated [*CharLen]. *)
Fixpoint MbstrOctetLen_loop (fuel : nat) (mbcl : Z -> Z) (str : list Z) (p : nat)
    (inChars result : Z) : option (Z * Z) :=
  match fuel with
  | O => None
  | S fuel' =>
      if (0 <? inChars) || ((inChars <? 0) && negb (rd str p =? 0)) then
        let n := mbcl (char_arg (rd str p)) in
        MbstrOctetLen_loop fuel' mbcl str (p + Z.to_nat n) (inChars - 1) (result + n)
      else Some (result, inChars)
  end.

Definition MbstrOctetLen (fuel : nat) (str : option (list Z)) (CharLen : Z) (cs : charset)
    : option (Z * Z) :=
  let finish result inChars :=
    (result, if CharLen <? 0 then CharLen - inChars else CharLen) in
  match str with
  | None => Some (finish 0 CharLen)
  | Some s =>
      match mb_charlen cs with
      | None =>
          if CharLen <? 0 then
            let result := Z.of_nat (length (cstr s)) in Some (result, result)
          else Some (CharLen, CharLen)
      | Some mbcl =>
          match MbstrOctetLen_loop fuel mbcl s 0 CharLen 0 with
          | None => None
          | Some (result, inChars) => Some (finish result inChars)
          end
      end
  end.

(** The inner loop of [MbstrCharLen] that steps over the zero bytes of the
    current character: the number left and the new position. *)
Fixpoint skip_zeros (str : list Z) (p : nat) (charlen : nat) : nat * nat :=
  match charlen with
  | O => (O, p)
  | S n => if rd str p =? 0 then skip_zeros str (S p) n else (charlen, p)
  end.

Fixpoint MbstrCharLen_loop (fuel : nat) (mbcl : Z -> Z) (str : list Z) (p : nat)
    (OctetLen : Z) (result : Z) : option Z :=
  match fuel with
  | O => None
  | S fuel' =>
      if Z.of_nat p <? OctetLen then
        let n := mbcl (wrapu 8 (rd str p)) in
        let charlen := if n =? 0 then 1 else n in
        let '(left_, p') := skip_zeros str p (Z.to_nat charlen) in
        if (left_ =? 0)%nat then Some result
        else MbstrCharLen_loop fuel' mbcl str (p' + left_) OctetLen (result + 1)
      else Some result
  end.

(** [OctetLen + 1] iterations always suffice (see [MbstrCharLen_total]). *)
Definition MbstrCharLen (str : option (list Z)) (OctetLen : Z) (cs : charset) : option Z :=
  match str with
  | None => Some 0
  | Some s =>
      match mb_charlen cs with
      | None => Some OctetLen
      | Some mbcl =>
          if char_maxlen cs =? 1 then Some OctetLen
          else MbstrCharLen_loop (S (Z.to_nat OctetLen)) mbcl s 0 OctetLen 0
      end
  end.

(** [MADB_ToLower src buff buff_size] on the content of the buffer. *)
Fixpoint ToLower_loop (src : list Z) (room : nat) : list Z :=
  match room, src with
  | S room', c :: src' => if c =? 0 then [] else tolower c :: ToLower_loop src' room'
  | _, _ => []
  end.

Definition MADB_ToLower (src buff : list Z) (buff_size : nat) : list Z :=
  if (0 <? buff_size)%nat then
    let w := ToLower_loop src buff_size in
    let i := length w in
    <[ (if (i =? buff_size)%nat then i - 1 else i)%nat := 0 ]> (blit buff 0 w)
  else buff.

(** The UTF-8 callback of the client library ([libmariadb/ma_charset.c]). *)
Definition mysql_mbcharlen_utf8 (utf8 : Z) : Z :=
  if utf8 <? 0x80 then 1 else if utf8 <? 0xC2 then 0 else if utf8 <? 0xE0 then 2
  else if utf8 <? 0xF0 then 3 else if utf8 <? 0xF8 then 4 else 0.

Definition utf8_cs : charset := Charset (Some mysql_mbcharlen_utf8) 4.

End Mbstr.

(** ** Properties *)

Module CharsetProps.
Import Wide Mbstr.

Lemma skip_zeros_spec str n p left_ p' :
  skip_zeros str p n = (left_, p') ->
  (left_ + p' = n + p)%nat /\ (p <= p')%nat /\ ((0 < left_)%nat -> rd str p' <> 0).
Proof.
  revert p. induction n as [|n IH]; intros p; simpl.
  - intros [= <- <-]. lia.
  - destruct (Z.eqb_spec (rd str p) 0) as [E|E].
    + intros H%IH. lia.
    + intros [= <- <-]. by repeat split; try lia.
Qed.

Lemma MbstrCharLen_loop_total mbcl str OctetLen fuel p result :
  (forall c, 0 <= mbcl c) ->
  OctetLen <= Z.of_nat p + Z.of_nat fuel ->
  is_Some (MbstrCharLen_loop (S fuel) mbcl str p OctetLen result).
Proof.
  intros Hpos. revert p result. induction fuel as [|fuel IH]; intros p result Hf;
    cbn [MbstrCharLen_loop]; destruct (Z.ltb_spec (Z.of_nat p) OctetLen) as [Hp|Hp];
    try (eexists; reflexivity); [lia|].
  destruct (skip_zeros str p _) as [left_ p'] eqn:E.
  apply skip_zeros_spec in E as (E1 & E2 & _).
  destruct (Nat.eqb_spec left_ 0); [by eexists|].
  specialize (Hpos (wrapu 8 (rd str p))). apply IH. lia.
Qed.

(** [MbstrCharLen] terminates on every input: whatever the bytes and the
    length, [OctetLen + 1] iterations of its loop reach a result, for every
    callback that returns no negative length. *)
Theorem MbstrCharLen_total str OctetLen cs :
  (forall mbcl c, mb_charlen cs = Some mbcl -> 0 <= mbcl c) ->
  is_Some (MbstrCharLen str OctetLen cs).
Proof.
  intros Hpos. unfold MbstrCharLen. destruct str as [s|]; [|by eexists].
  destruct (mb_charlen cs) as [mbcl|] eqn:E; [|by eexists].
  destruct (char_maxlen cs =? 1); [by eexists|].
  apply MbstrCharLen_loop_total; [intros c; by eapply Hpos|lia].
Qed.

Lemma MbstrCharLen_total_witness :
  is_Some (MbstrCharLen (Some (chars "abc")) 3 utf8_cs).
Proof.
  apply (MbstrCharLen_total (Some (chars "abc")) 3 utf8_cs).
  intros mbcl c [= <-]. unfold mysql_mbcharlen_utf8. repeat case_match; lia.
Defined.

(** A chunk is one encoded character: its first byte is not NUL and announces
    its length. *)
Definition chunk_ok (mbcl : Z -> Z) (ch : list Z) : Prop :=
  match ch with
  | [] => False
  | c :: _ => 0 < c < 256 /\ mbcl c = Z.of_nat (length ch)
  end.

Lemma rd_app_r (l k : list Z) : rd (l ++ k) (length l) = rd k 0.
Proof. unfold rd. by rewrite lookup_app_r, Nat.sub_diag by lia. Qed.

Lemma skip_zeros_nonzero str p n : rd str p <> 0 -> (0 < n)%nat -> skip_zeros str p n = (n, p).
Proof. intros H Hn. destruct n; [lia|]. simpl. by destruct (Z.eqb_spec (rd str p) 0). Qed.

Lemma length_concat_ge (mbcl : Z -> Z) (cs : list (list Z)) :
  Forall (chunk_ok mbcl) cs -> (length cs <= length (concat cs))%nat.
Proof.
  induction 1 as [|ch cs Hc _ IH]; simpl; [lia|]. rewrite length_app.
  destruct ch; simpl in *; [done|lia].
Qed.

Lemma MbstrCharLen_loop_chunks mbcl pre cs fuel result :
  Forall (chunk_ok mbcl) cs ->
  (length cs <= fuel)%nat ->
  MbstrCharLen_loop (S fuel) mbcl (pre ++ concat cs) (length pre)
    (Z.of_nat (length pre + length (concat cs))) result = Some (result + Z.of_nat (length cs)).
Proof.
  intros Hcs. revert pre fuel result.
  induction Hcs as [|ch cs Hc Hcs IH]; intros pre fuel result Hf; cbn [MbstrCharLen_loop concat].
  - rewrite (proj2 (Z.ltb_ge _ _)) by (simpl; lia). f_equal. simpl. lia.
  - destruct ch as [|c ch]; [done|]. destruct Hc as [Hb Hl].
    rewrite (proj2 (Z.ltb_lt _ _)) by (simpl; lia).
    rewrite rd_app_r. change (rd ((c :: ch) ++ concat cs) 0) with c.
    rewrite (wrapu_id 8 c) by (simpl; lia). rewrite Hl.
    rewrite (proj2 (Z.eqb_neq _ _)) by (simpl; lia). rewrite Nat2Z.id.
    rewrite skip_zeros_nonzero by (rewrite ?rd_app_r; change (rd ((c :: ch) ++ concat cs) 0) with c; simpl; lia).
    destruct fuel as [|fuel]; [simpl in Hf; lia|]. simpl (_ =? _)%nat. cbv iota.
    rewrite <- length_app, app_assoc.
    replace (length pre + length ((c :: ch) ++ concat cs))%nat
      with (length (pre ++ c :: ch) + length (concat cs))%nat by (rewrite !length_app; lia).
    rewrite IH by (simpl in Hf; lia). f_equal. simpl length. lia.
Qed.

(** [MbstrCharLen] counts characters: on a string made of [n] well-formed
    encoded characters it answers [n]. *)
Theorem MbstrCharLen_chunks mbcl maxlen cs :
  maxlen <> 1 ->
  Forall (chunk_ok mbcl) cs ->
  MbstrCharLen (Some (concat cs)) (Z.of_nat (length (concat cs))) (Charset (Some mbcl) maxlen)
    = Some (Z.of_nat (length cs)).
Proof.
  intros Hm Hcs. unfold MbstrCharLen. simpl mb_charlen. cbv iota. simpl char_maxlen.
  rewrite (proj2 (Z.eqb_neq _ _) Hm), Nat2Z.id.
  pose proof (length_concat_ge _ _ Hcs).
  rewrite (MbstrCharLen_loop_chunks mbcl [] cs) by done. f_equal.
Qed.

(** "aé€": one character of one byte, one of two, one of three. *)
Lemma MbstrCharLen_chunks_witness :
  MbstrCharLen (Some (concat [[97]; [195; 169]; [226; 130; 172]])) 6 utf8_cs = Some 3.
Proof.
  apply (MbstrCharLen_chunks mysql_mbcharlen_utf8 4 [[97]; [195; 169]; [226; 130; 172]]);
    [lia|repeat constructor].
Defined.

Lemma char_arg_high c : 128 <= c < 256 -> char_arg c = 2 ^ 32 - 256 + c.
Proof.
  intros H. unfold char_arg, schar, wraps, wrapu.
  replace (c + 2 ^ (8 - 1)) with (c - 128 + 1 * 2 ^ 8) by (simpl; lia).
  rewrite Z.mod_add by done. rewrite (Z.mod_small (c - 128)) by (simpl; lia).
  replace (c - 128 - 2 ^ (8 - 1)) with (2 ^ 32 - 256 + c + (-1) * 2 ^ 32) by (simpl; lia).
  rewrite Z.mod_add by done. apply Z.mod_small. simpl; lia.
Qed.

Lemma char_arg_low c : 0 <= c < 128 -> char_arg c = c.
Proof.
  intros H. unfold char_arg, schar. rewrite wraps_id by (simpl; lia). apply wrapu_id. simpl; lia.
Qed.

(** [MbstrOctetLen] passes a plain [char] to the callback: a byte above 127 is
    sign-extended, the UTF-8 callback rejects it with 0, and the loop over a
    NUL-terminated string makes no progress: it has no result whatever the fuel. *)
Theorem MbstrOctetLen_nonascii_diverges fuel c s :
  128 <= c < 256 -> MbstrOctetLen fuel (Some (c :: s)) (-1) utf8_cs = None.
Proof.
  intros Hc. unfold MbstrOctetLen. simpl mb_charlen. cbv iota.
  assert (forall n k r, k < 0 -> MbstrOctetLen_loop n mysql_mbcharlen_utf8 (c :: s) 0 k r = None) as ->;
    [|done|lia].
  induction n as [|n IH]; intros k r Hk; cbn [MbstrOctetLen_loop]; [done|].
  change (rd (c :: s) 0) with c.
  rewrite (proj2 (Z.ltb_ge 0 k)), (proj2 (Z.ltb_lt k 0)), (proj2 (Z.eqb_neq c 0)) by lia.
  simpl (_ || _)%bool. cbv iota.
  assert (mysql_mbcharlen_utf8 (char_arg c) = 0) as ->.
  { rewrite char_arg_high by done. unfold mysql_mbcharlen_utf8.
    repeat (rewrite (proj2 (Z.ltb_ge _ _)) by (simpl; lia)). done. }
  simpl Nat.add. apply IH. lia.
Qed.

Lemma MbstrOctetLen_nonascii_diverges_witness :
  MbstrOctetLen 1000 (Some [195; 169]) (-1) utf8_cs = None.
Proof. apply (MbstrOctetLen_nonascii_diverges 1000 195 [169]). lia. Defined.

(** On NUL-terminated ASCII text [MbstrOctetLen] returns the number of bytes
    before the NUL and stores the same number of characters in [*CharLen]. *)
Theorem MbstrOctetLen_ascii s k :
  Forall (fun c => 0 < c < 128) s ->
  MbstrOctetLen (S (length s)) (Some (s ++ 0 :: k)) (-1) utf8_cs
    = Some (Z.of_nat (length s), Z.of_nat (length s)).
Proof.
  intros Hs. unfold MbstrOctetLen. simpl mb_charlen. cbv iota.
  assert (forall fuel pre m r, m < 0 -> (length s < fuel)%nat ->
    MbstrOctetLen_loop fuel mysql_mbcharlen_utf8 (pre ++ s ++ 0 :: k) (length pre) m r
      = Some (r + Z.of_nat (length s), m - Z.of_nat (length s))) as H.
  { induction Hs as [|c s Hc Hs IH]; intros [|fuel] pre m r Hm Hf; try (simpl in Hf; lia);
      cbn [MbstrOctetLen_loop app length].
    - rewrite rd_app_r. change (rd (0 :: k) 0) with 0.
      rewrite (proj2 (Z.ltb_ge 0 m)), (proj2 (Z.ltb_lt m 0)) by lia. simpl. do 2 f_equal; lia.
    - rewrite rd_app_r. change (rd (c :: s ++ 0 :: k) 0) with c.
      rewrite (proj2 (Z.ltb_ge 0 m)), (proj2 (Z.ltb_lt m 0)), (proj2 (Z.eqb_neq c 0)) by lia.
      simpl (_ || _)%bool. cbv iota. rewrite char_arg_low by lia.
      assert (mysql_mbcharlen_utf8 c = 1) as ->
        by (unfold mysql_mbcharlen_utf8; by rewrite (proj2 (Z.ltb_lt _ _)) by lia).
      change (Z.to_nat 1) with 1%nat.
      replace (length pre + 1)%nat with (length (pre ++ [c])) by (rewrite length_app; simpl; lia).
      replace (pre ++ c :: s ++ 0 :: k) with ((pre ++ [c]) ++ s ++ 0 :: k) by (by rewrite <- app_assoc).
      rewrite IH by (simpl in Hf; lia). do 2 f_equal; lia. }
  rewrite (H _ [] (-1) 0) by lia. f_equal. simpl. f_equal. lia.
Qed.

Lemma MbstrOctetLen_ascii_witness :
  MbstrOctetLen 4 (Some (chars "abc" ++ [0; 7])) (-1) utf8_cs = Some (3, 3).
Proof.
  apply (MbstrOctetLen_ascii (chars "abc") [7]).
  apply (bool_decide_eq_true_1 _). vm_compute. reflexivity.
Defined.

(** The UTF-16 length test looks at the low byte of the unit: a surrogate pair
    counts as two characters of two bytes, and the letters U+00D8..U+00DB count
    as four bytes. *)
Lemma CharOctetLen16_low_byte u :
  CharOctetLen16 u = 4 <-> 0xD8 <= u mod 256 <= 0xDB.
Proof.
  unfold CharOctetLen16, UTF16_HIGH_HEAD, wrapu. change (2 ^ 8) with 256.
  pose proof (Z.mod_pos_bound u 256 ltac:(lia)) as Hb.
  set (x := u mod 256) in *. clearbody x.
  assert (Z.land x 0xFC = x - x mod 4) as ->.
  { assert (x = 4 * (x / 4) + x mod 4) as E by (apply Z.div_mod; lia).
    change 0xFC with (Z.shiftl 63 2).
    replace (x - x mod 4) with (Z.shiftl (x / 4) 2) by (rewrite Z.shiftl_mul_pow2; lia).
    apply Z.bits_inj'. intros n Hn. rewrite Z.land_spec, !Z.shiftl_spec by lia.
    destruct (Z.lt_ge_cases n 2) as [Hn2|Hn2].
    - rewrite !(Z.testbit_neg_r _ (n - 2)) by lia. by rewrite andb_false_r.
    - change 4 with (2 ^ 2). rewrite <- Z.shiftr_div_pow2, Z.shiftr_spec by lia.
      replace (n - 2 + 2) with n by lia.
      change 63 with (Z.ones 6). rewrite Z.testbit_ones_nonneg by lia.
      destruct (Z.ltb_spec (n - 2) 6); [by rewrite andb_true_r|].
      rewrite andb_false_r. symmetry. apply Z.bits_above_log2; [lia|].
      destruct (decide (x = 0)) as [->|]; [simpl; lia|].
      apply Z.log2_lt_pow2; [lia|]. apply Z.lt_le_trans with (2 ^ 8); [simpl; lia|].
      apply Z.pow_le_mono_r; lia. }
  pose proof (Z.mod_pos_bound x 4 ltac:(lia)). pose proof (Z.div_mod x 4 ltac:(lia)).
  destruct (Z.eqb_spec (x - x mod 4) 0xD8); split; intros; try lia; try done.
Qed.

(** A NUL-terminated wide string that ends in such a letter is read past its
    terminator: the units behind the NUL decide the length. *)
Theorem SqlwcsOctetLen_overrun u x k :
  0xD8 <= u mod 256 <= 0xDB -> ~ (0xD8 <= x mod 256 <= 0xDB) -> x <> 0 ->
  SqlwcsOctetLen CharOctetLen16 3 (u :: 0 :: x :: 0 :: k) (-1) = Some (6, 2).
Proof.
  intros Hu Hx Hx0. assert (u <> 0) as Hu0 by (intros ->; change (0 mod 256) with 0 in Hu; lia).
  assert (CharOctetLen16 x = 2) as Ex.
  { unfold CharOctetLen16. destruct (UTF16_HIGH_HEAD x) eqn:E; [|done].
    exfalso. apply Hx, CharOctetLen16_low_byte. unfold CharOctetLen16. by rewrite E. }
  apply CharOctetLen16_low_byte in Hu.
  set (l := u :: 0 :: x :: 0 :: k). unfold SqlwcsOctetLen. cbn [SqlwcsOctetLen_loop].
  change (rd l 0) with u. rewrite Hu, (proj2 (Z.eqb_neq u 0)) by done.
  change (0 + Z.to_nat (4 / sizeof_SQLWCHAR))%nat with 2%nat.
  change (rd l 2) with x. rewrite Ex, (proj2 (Z.eqb_neq x 0)) by done. done.
Qed.

(** The one-letter string "Ø", followed in memory by "A". *)
Lemma SqlwcsOctetLen_overrun_witness :
  SqlwcsOctetLen CharOctetLen16 3 [0xD8; 0; 65; 0] (-1) = Some (6, 2).
Proof. apply (SqlwcsOctetLen_overrun 0xD8 65 []); vm_compute; intuition discriminate. Defined.

(** [SqlwcsLen] and [SafeStrlen] never count past the buffer and stop at NUL. *)
Lemma SqlwcsLen_bound str n : 0 <= n ->
  SqlwcsLen str n = Z.of_nat (Nat.min (Z.to_nat n) (length (cstr str))).
Proof.
  revert n. induction str as [|c str IH]; intros n Hn; simpl; [lia|].
  destruct (Z.eqb_spec c 0); simpl; [rewrite andb_false_r; lia|]. rewrite andb_true_r.
  destruct (Z.eqb_spec (n - 1) (-1)); simpl; [lia|]. rewrite IH by lia. lia.
Qed.

Lemma SqlwcsLen_unbounded str n : n < 0 -> SqlwcsLen str n = Z.of_nat (length (cstr str)).
Proof.
  revert n. induction str as [|c str IH]; intros n Hn; simpl; [lia|].
  destruct (Z.eqb_spec (n - 1) (-1)); [lia|]. simpl.
  destruct (Z.eqb_spec c 0); simpl; [lia|]. rewrite IH by lia. lia.
Qed.

Lemma SafeStrlen_SqlwcsLen str n : SafeStrlen str n = SqlwcsLen str n.
Proof. revert n. induction str as [|c str IH]; intros n; simpl; [done|]. by rewrite IH. Qed.

Lemma ToLower_loop_spec src room :
  ToLower_loop src room = tolower <$> take room (cstr src).
Proof.
  revert src. induction room as [|room IH]; intros [|c src]; simpl; try done.
  destruct (c =? 0); simpl; [done|]. by rewrite IH.
Qed.

Lemma tolower_nonzero c : c <> 0 -> tolower c <> 0.
Proof. unfold tolower, isupper. intros. case_match; bprop; lia. Qed.

(** [MADB_ToLower] stays inside its buffer and leaves a NUL-terminated
    lower-case copy of the longest prefix that fits. *)
Theorem MADB_ToLower_spec src buff :
  (0 < length buff)%nat ->
  length (MADB_ToLower src buff (length buff)) = length buff /\
  cstr (MADB_ToLower src buff (length buff)) = tolower <$> take (length buff - 1) (cstr src).
Proof.
  intros Hb. unfold MADB_ToLower. rewrite (proj2 (Nat.ltb_lt _ _) Hb). rewrite ToLower_loop_spec.
  set (w := tolower <$> take (length buff) (cstr src)).
  split; [rewrite length_insert; apply length_blit; lia|].
  assert (length w <= length buff)%nat as Hw
    by (unfold w; rewrite length_fmap, length_take; lia).
  assert (Forall (fun c => c <> 0) w) as Hnz.
  { unfold w. apply Forall_fmap, Forall_take. eapply Forall_impl; [|apply cstr_nonzero].
    intros c. apply tolower_nonzero. }
  unfold blit. rewrite take_0, Nat.sub_0_r. simpl. rewrite (take_ge w) by done.
  assert (forall i, (i < length buff)%nat -> (i <= length w)%nat ->
    cstr (<[i := 0]> (w ++ drop (length w) buff)) = take i w) as Hins.
  { intros i Hi Hiw. rewrite insert_take_drop by (rewrite length_app, length_drop; lia).
    rewrite cstr_app_nul; [by rewrite take_app_le|].
    rewrite take_app_le by done. by apply Forall_take. }
  destruct (Nat.eqb_spec (length w) (length buff)) as [E|E]; rewrite Hins by lia.
  - rewrite E. unfold w. rewrite <- fmap_take, take_take. do 2 f_equal. lia.
  - rewrite take_ge by lia. unfold w. f_equal. unfold w in E. rewrite length_fmap, length_take in E.
    rewrite !take_ge by lia. done.
Qed.

Lemma MADB_ToLower_spec_witness :
  length (MADB_ToLower (chars "SELECT") (chars "....") 4) = 4%nat /\
  cstr (MADB_ToLower (chars "SELECT") (chars "....") 4) = chars "sel".
Proof. apply (MADB_ToLower_spec (chars "SELECT") (chars "....")). simpl. lia. Defined.

End CharsetProps.
