(* ===== verification/Odbc.v ===== *)
(** * Odbc: the constants of the ODBC headers the driver uses

    Return codes, handle types, SQL and C data types and diagnostic field
    identifiers, with their values from [sql.h], [sqlext.h] and [sqlucode.h],
    the column types of [mariadb_com.h], and the [switch] notation of the models. *)

From stdpp Require Import base list numbers.
From Stdlib Require Import ZArith.
Open Scope Z_scope.

(** [switch (z) { case l1: case l2: ... }] reads as [if case z [l1; l2] then ..]. *)
Definition case (z : Z) (labels : list Z) : bool := existsb (Z.eqb z) labels.

Definition SQL_SUCCESS := 0.
Definition SQL_SUCCESS_WITH_INFO := 1.
Definition SQL_NEED_DATA := 99.
Definition SQL_NO_DATA := 100.
Definition SQL_ERROR := -1.
Definition SQL_INVALID_HANDLE := -2.
Definition MYSQL_DATA_TRUNCATED := 101.
Definition SQL_SUCCEEDED (rc : Z) : bool := Z.land rc (Z.lnot 1) =? 0.

Definition SQL_NTS := -3.
Definition SQL_NULL_DATA := -1.
Definition SQL_DATA_AT_EXEC := -2.
Definition SQL_LEN_DATA_AT_EXEC_OFFSET := -100.
Definition SQL_COLUMN_IGNORE := -6.
Definition SQL_NO_TOTAL := -4.
Definition SQL_SQLSTATE_SIZE : nat := 5.
Definition SQL_MAX_MESSAGE_LENGTH : nat := 512.
Definition SQL_MAX_NUMERIC_LEN : nat := 16.

Definition SQL_HANDLE_ENV := 1.
Definition SQL_HANDLE_DBC := 2.
Definition SQL_HANDLE_STMT := 3.
Definition SQL_HANDLE_DESC := 4.
Definition SQL_OV_ODBC2 := 2.
Definition SQL_OV_ODBC3 := 3.
Definition SQL_TRUE := 1.

Definition SQL_ATTR_ODBC_VERSION := 200.
Definition SQL_ATTR_CONNECTION_POOLING := 201.
Definition SQL_ATTR_OUTPUT_NTS := 10001.
Definition SQL_CP_OFF := 0.

Definition SQL_DIAG_CURSOR_ROW_COUNT := -1249.
Definition SQL_DIAG_ROW_NUMBER := -1248.
Definition SQL_DIAG_COLUMN_NUMBER := -1247.
Definition SQL_DIAG_RETURNCODE := 1.
Definition SQL_DIAG_NUMBER := 2.
Definition SQL_DIAG_ROW_COUNT := 3.
Definition SQL_DIAG_SQLSTATE := 4.
Definition SQL_DIAG_NATIVE := 5.
Definition SQL_DIAG_MESSAGE_TEXT := 6.
Definition SQL_DIAG_DYNAMIC_FUNCTION := 7.
Definition SQL_DIAG_CLASS_ORIGIN := 8.
Definition SQL_DIAG_SUBCLASS_ORIGIN := 9.
Definition SQL_DIAG_CONNECTION_NAME := 10.
Definition SQL_DIAG_SERVER_NAME := 11.
Definition SQL_DIAG_DYNAMIC_FUNCTION_CODE := 12.
Definition SQL_COLUMN_NUMBER_UNKNOWN := -2.
Definition SQL_ROW_NUMBER_UNKNOWN := -2.

(** SQL data types. *)
Definition SQL_UNKNOWN_TYPE := 0.
Definition SQL_CHAR := 1.
Definition SQL_NUMERIC := 2.
Definition SQL_DECIMAL := 3.
Definition SQL_INTEGER := 4.
Definition SQL_SMALLINT := 5.
Definition SQL_FLOAT := 6.
Definition SQL_REAL := 7.
Definition SQL_DOUBLE := 8.
Definition SQL_DATETIME := 9.
Definition SQL_DATE := 9.
Definition SQL_TIME := 10.
Definition SQL_INTERVAL := 10.
Definition SQL_TIMESTAMP := 11.
Definition SQL_VARCHAR := 12.
Definition SQL_TYPE_DATE := 91.
Definition SQL_TYPE_TIME := 92.
Definition SQL_TYPE_TIMESTAMP := 93.
Definition SQL_LONGVARCHAR := -1.
Definition SQL_BINARY := -2.
Definition SQL_VARBINARY := -3.
Definition SQL_LONGVARBINARY := -4.
Definition SQL_BIGINT := -5.
Definition SQL_TINYINT := -6.
Definition SQL_BIT := -7.
Definition SQL_WCHAR := -8.
Definition SQL_WVARCHAR := -9.
Definition SQL_WLONGVARCHAR := -10.
Definition SQL_GUID := -11.

(** C data types. *)
Definition SQL_C_CHAR := 1.
Definition SQL_C_NUMERIC := 2.
Definition SQL_C_LONG := 4.
Definition SQL_C_SHORT := 5.
Definition SQL_C_FLOAT := 7.
Definition SQL_C_DOUBLE := 8.
Definition SQL_C_DATE := 9.
Definition SQL_C_TIME := 10.
Definition SQL_C_TIMESTAMP := 11.
Definition SQL_C_TYPE_DATE := 91.
Definition SQL_C_TYPE_TIME := 92.
Definition SQL_C_TYPE_TIMESTAMP := 93.
Definition SQL_C_DEFAULT := 99.
Definition SQL_C_INTERVAL_YEAR := 101.
Definition SQL_C_INTERVAL_MONTH := 102.
Definition SQL_C_INTERVAL_DAY := 103.
Definition SQL_C_INTERVAL_HOUR := 104.
Definition SQL_C_INTERVAL_MINUTE := 105.
Definition SQL_C_INTERVAL_SECOND := 106.
Definition SQL_C_INTERVAL_YEAR_TO_MONTH := 107.
Definition SQL_C_INTERVAL_DAY_TO_HOUR := 108.
Definition SQL_C_INTERVAL_DAY_TO_MINUTE := 109.
Definition SQL_C_INTERVAL_DAY_TO_SECOND := 110.
Definition SQL_C_INTERVAL_HOUR_TO_MINUTE := 111.
Definition SQL_C_INTERVAL_HOUR_TO_SECOND := 112.
Definition SQL_C_INTERVAL_MINUTE_TO_SECOND := 113.
Definition SQL_C_BINARY := -2.
Definition SQL_C_TINYINT := -6.
Definition SQL_C_BIT := -7.
Definition SQL_C_WCHAR := -8.
Definition SQL_C_GUID := -11.
Definition SQL_C_SSHORT := -15.
Definition SQL_C_SLONG := -16.
Definition SQL_C_USHORT := -17.
Definition SQL_C_ULONG := -18.
Definition SQL_C_SBIGINT := -25.
Definition SQL_C_STINYINT := -26.
Definition SQL_C_UBIGINT := -27.
Definition SQL_C_UTINYINT := -28.

(** Column types of the client library ([enum enum_field_types]). *)
Definition MYSQL_TYPE_DECIMAL := 0.
Definition MYSQL_TYPE_TINY := 1.
Definition MYSQL_TYPE_SHORT := 2.
Definition MYSQL_TYPE_LONG := 3.
Definition MYSQL_TYPE_FLOAT := 4.
Definition MYSQL_TYPE_DOUBLE := 5.
Definition MYSQL_TYPE_NULL := 6.
Definition MYSQL_TYPE_TIMESTAMP := 7.
Definition MYSQL_TYPE_LONGLONG := 8.
Definition MYSQL_TYPE_INT24 := 9.
Definition MYSQL_TYPE_DATE := 10.
Definition MYSQL_TYPE_TIME := 11.
Definition MYSQL_TYPE_DATETIME := 12.
Definition MYSQL_TYPE_YEAR := 13.
Definition MYSQL_TYPE_NEWDATE := 14.
Definition MYSQL_TYPE_VARCHAR := 15.
Definition MYSQL_TYPE_BIT := 16.
Definition MYSQL_TYPE_JSON := 245.
Definition MYSQL_TYPE_NEWDECIMAL := 246.
Definition MYSQL_TYPE_ENUM := 247.
Definition MYSQL_TYPE_SET := 248.
Definition MYSQL_TYPE_TINY_BLOB := 249.
Definition MYSQL_TYPE_MEDIUM_BLOB := 250.
Definition MYSQL_TYPE_LONG_BLOB := 251.
Definition MYSQL_TYPE_BLOB := 252.
Definition MYSQL_TYPE_VAR_STRING := 253.
Definition MYSQL_TYPE_STRING := 254.
Definition MYSQL_TYPE_GEOMETRY := 255.

Definition NOT_NULL_FLAG := 1.
Definition PRI_KEY_FLAG := 2.
Definition UNIQUE_KEY_FLAG := 4.
Definition UNSIGNED_FLAG := 32.
Definition NUM_FLAG := 32768.

Definition SQL_FALSE := 0.
Definition BINARY_FLAG := 128.
Definition AUTO_INCREMENT_FLAG := 512.

(** Descriptor fields. *)
Definition SQL_DESC_CONCISE_TYPE := 2.
Definition SQL_DESC_DISPLAY_SIZE := 6.
Definition SQL_DESC_UNSIGNED := 8.
Definition SQL_DESC_FIXED_PREC_SCALE := 9.
Definition SQL_DESC_UPDATABLE := 10.
Definition SQL_DESC_AUTO_UNIQUE_VALUE := 11.
Definition SQL_DESC_CASE_SENSITIVE := 12.
Definition SQL_DESC_SEARCHABLE := 13.
Definition SQL_DESC_TYPE_NAME := 14.
Definition SQL_DESC_TABLE_NAME := 15.
Definition SQL_DESC_SCHEMA_NAME := 16.
Definition SQL_DESC_CATALOG_NAME := 17.
Definition SQL_DESC_LABEL := 18.
Definition SQL_DESC_ARRAY_SIZE := 20.
Definition SQL_DESC_ARRAY_STATUS_PTR := 21.
Definition SQL_DESC_BASE_COLUMN_NAME := 22.
Definition SQL_DESC_BASE_TABLE_NAME := 23.
Definition SQL_DESC_BIND_OFFSET_PTR := 24.
Definition SQL_DESC_BIND_TYPE := 25.
Definition SQL_DESC_DATETIME_INTERVAL_PRECISION := 26.
Definition SQL_DESC_LITERAL_PREFIX := 27.
Definition SQL_DESC_LITERAL_SUFFIX := 28.
Definition SQL_DESC_LOCAL_TYPE_NAME := 29.
Definition SQL_DESC_NUM_PREC_RADIX := 32.
Definition SQL_DESC_PARAMETER_TYPE := 33.
Definition SQL_DESC_ROWS_PROCESSED_PTR := 34.
Definition SQL_DESC_ROWVER := 35.
Definition SQL_DESC_COUNT := 1001.
Definition SQL_DESC_TYPE := 1002.
Definition SQL_DESC_LENGTH := 1003.
Definition SQL_DESC_OCTET_LENGTH_PTR := 1004.
Definition SQL_DESC_PRECISION := 1005.
Definition SQL_DESC_SCALE := 1006.
Definition SQL_DESC_DATETIME_INTERVAL_CODE := 1007.
Definition SQL_DESC_NULLABLE := 1008.
Definition SQL_DESC_INDICATOR_PTR := 1009.
Definition SQL_DESC_DATA_PTR := 1010.
Definition SQL_DESC_NAME := 1011.
Definition SQL_DESC_UNNAMED := 1012.
Definition SQL_DESC_OCTET_LENGTH := 1013.
Definition SQL_DESC_ALLOC_TYPE := 1099.

Definition SQL_NAMED := 0.
Definition SQL_NO_NULLS := 0.
Definition SQL_NULLABLE := 1.
Definition SQL_NULLABLE_UNKNOWN := 2.
Definition SQL_PARAM_INPUT := 1.
Definition SQL_PRED_CHAR := 1.
Definition SQL_SEARCHABLE := 3.
Definition SQL_ATTR_READONLY := 0.
Definition SQL_ATTR_READWRITE_UNKNOWN := 2.
Definition SQL_CODE_DATE := 1.
Definition SQL_CODE_TIME := 2.
Definition SQL_CODE_TIMESTAMP := 3.

(** Statement attributes. *)
Definition SQL_ATTR_CURSOR_SENSITIVITY := -2.
Definition SQL_ATTR_CURSOR_SCROLLABLE := -1.
Definition SQL_ATTR_QUERY_TIMEOUT := 0.
Definition SQL_ATTR_MAX_ROWS := 1.
Definition SQL_ATTR_NOSCAN := 2.
Definition SQL_ATTR_MAX_LENGTH := 3.
Definition SQL_ATTR_ASYNC_ENABLE := 4.
Definition SQL_ATTR_ROW_BIND_TYPE := 5.
Definition SQL_ATTR_CURSOR_TYPE := 6.
Definition SQL_ATTR_CONCURRENCY := 7.
Definition SQL_ROWSET_SIZE := 9.
Definition SQL_ATTR_SIMULATE_CURSOR := 10.
Definition SQL_ATTR_RETRIEVE_DATA := 11.
Definition SQL_ATTR_USE_BOOKMARKS := 12.
Definition SQL_ATTR_ENABLE_AUTO_IPD := 15.
Definition SQL_ATTR_FETCH_BOOKMARK_PTR := 16.
Definition SQL_ATTR_PARAM_BIND_OFFSET_PTR := 17.
Definition SQL_ATTR_PARAM_BIND_TYPE := 18.
Definition SQL_ATTR_PARAM_OPERATION_PTR := 19.
Definition SQL_ATTR_PARAM_STATUS_PTR := 20.
Definition SQL_ATTR_PARAMS_PROCESSED_PTR := 21.
Definition SQL_ATTR_PARAMSET_SIZE := 22.
Definition SQL_ATTR_ROW_BIND_OFFSET_PTR := 23.
Definition SQL_ATTR_ROW_OPERATION_PTR := 24.
Definition SQL_ATTR_ROW_STATUS_PTR := 25.
Definition SQL_ATTR_ROWS_FETCHED_PTR := 26.
Definition SQL_ATTR_ROW_ARRAY_SIZE := 27.
Definition SQL_ATTR_APP_ROW_DESC := 10010.
Definition SQL_ATTR_APP_PARAM_DESC := 10011.
Definition SQL_ATTR_IMP_ROW_DESC := 10012.
Definition SQL_ATTR_IMP_PARAM_DESC := 10013.
Definition SQL_ATTR_METADATA_ID := 10014.

Definition SQL_ASYNC_ENABLE_OFF := 0.
Definition SQL_NONSCROLLABLE := 0.
Definition SQL_SCROLLABLE : Z := 1.
Definition SQL_UNSPECIFIED := 0.
Definition SQL_CURSOR_FORWARD_ONLY := 0.
Definition SQL_CURSOR_KEYSET_DRIVEN := 1.
Definition SQL_CURSOR_DYNAMIC := 2.
Definition SQL_CURSOR_STATIC := 3.
Definition SQL_CONCUR_READ_ONLY := 1.
Definition SQL_NOSCAN_ON := 1.
Definition SQL_RD_ON := 1.
Definition SQL_UB_OFF := 0.
Definition SQL_UB_VARIABLE := 2.
Definition SQL_C_BOOKMARK := SQL_C_ULONG.
Definition SQL_C_VARBOOKMARK := SQL_C_BINARY.

(** Fetch orientations and row states. *)
Definition SQL_FETCH_NEXT := 1.
Definition SQL_FETCH_FIRST := 2.
Definition SQL_FETCH_LAST := 3.
Definition SQL_FETCH_PRIOR := 4.
Definition SQL_FETCH_ABSOLUTE := 5.
Definition SQL_FETCH_RELATIVE := 6.
Definition SQL_FETCH_BOOKMARK := 8.
Definition SQL_ROW_SUCCESS := 0.
Definition SQL_ROW_NOROW := 3.
Definition SQL_ROW_ERROR := 5.
Definition SQL_ROW_SUCCESS_WITH_INFO := 6.
Definition MYSQL_NO_DATA := 100.
Definition SQL_LOCK_NO_CHANGE := 0.
Definition SQL_POSITION := 0.
