(* ===== verification/Errors.v ===== *)
(** * Errors: the error record of a handle

    Models [ma_error.c] and the error structures of [ma_odbc.h]: the table of
    SQLSTATEs, the writers [MADB_SetError], [MADB_SetNativeError],
    [MADB_CopyError] and [MADB_PutErrorPrefix], the macro [MADB_CLEAR_ERROR],
    and [strcpy_s] of [ma_platform_posix.c].

    The SQLSTATE field is the content of its 6-byte buffer; the message field is
    the 513-byte buffer itself, because the writers address it by offset. *)

From stdpp Require Import base list strings numbers option relations.
From Stdlib Require Import ZArith Lia.
From S2P Require Import Prelude Odbc.

(** ** Data *)

Record MADB_ERROR := ErrRow {
  row_SqlState : string;
  row_SqlStateV2 : string;
  row_SqlErrorMsg : string;
  row_ReturnValue : Z;
}.

Record MADB_Error := MkError {
  SqlState : list Z;
  NativeError : Z;
  SqlErrorMsg : list Z;
  PrefixLen : nat;
  ReturnValue : Z;
  ErrRecord : option nat;
  ErrorNum : Z;
}.

(** [enum enum_madb_error]: a code is an index of the table below. *)
Definition MADB_ERR_00000 : nat := 0.
Definition MADB_ERR_01000 : nat := 1.
Definition MADB_ERR_01001 : nat := 2.
Definition MADB_ERR_01002 : nat := 3.
Definition MADB_ERR_01003 : nat := 4.
Definition MADB_ERR_01004 : nat := 5.
Definition MADB_ERR_01006 : nat := 6.
Definition MADB_ERR_01007 : nat := 7.
Definition MADB_ERR_01S00 : nat := 8.
Definition MADB_ERR_01S01 : nat := 9.
Definition MADB_ERR_01S02 : nat := 10.
Definition MADB_ERR_01S06 : nat := 11.
Definition MADB_ERR_01S07 : nat := 12.
Definition MADB_ERR_01S08 : nat := 13.
Definition MADB_ERR_01S09 : nat := 14.
Definition MADB_ERR_07001 : nat := 15.
Definition MADB_ERR_07002 : nat := 16.
Definition MADB_ERR_07005 : nat := 17.
Definition MADB_ERR_07006 : nat := 18.
Definition MADB_ERR_07009 : nat := 19.
Definition MADB_ERR_07S01 : nat := 20.
Definition MADB_ERR_08001 : nat := 21.
Definition MADB_ERR_08002 : nat := 22.
Definition MADB_ERR_08003 : nat := 23.
Definition MADB_ERR_08004 : nat := 24.
Definition MADB_ERR_08007 : nat := 25.
Definition MADB_ERR_08S01 : nat := 26.
Definition MADB_ERR_21S01 : nat := 27.
Definition MADB_ERR_21S02 : nat := 28.
Definition MADB_ERR_22001 : nat := 29.
Definition MADB_ERR_22002 : nat := 30.
Definition MADB_ERR_22003 : nat := 31.
Definition MADB_ERR_22007 : nat := 32.
Definition MADB_ERR_22008 : nat := 33.
Definition MADB_ERR_22012 : nat := 34.
Definition MADB_ERR_22015 : nat := 35.
Definition MADB_ERR_22018 : nat := 36.
Definition MADB_ERR_22019 : nat := 37.
Definition MADB_ERR_22023 : nat := 38.
Definition MADB_ERR_22025 : nat := 39.
Definition MADB_ERR_22026 : nat := 40.
Definition MADB_ERR_23000 : nat := 41.
Definition MADB_ERR_24000 : nat := 42.
Definition MADB_ERR_25000 : nat := 43.
Definition MADB_ERR_25S01 : nat := 44.
Definition MADB_ERR_25S02 : nat := 45.
Definition MADB_ERR_25S03 : nat := 46.
Definition MADB_ERR_28000 : nat := 47.
Definition MADB_ERR_34000 : nat := 48.
Definition MADB_ERR_3C000 : nat := 49.
Definition MADB_ERR_3D000 : nat := 50.
Definition MADB_ERR_3F000 : nat := 51.
Definition MADB_ERR_40001 : nat := 52.
Definition MADB_ERR_40002 : nat := 53.
Definition MADB_ERR_40003 : nat := 54.
Definition MADB_ERR_42000 : nat := 55.
Definition MADB_ERR_42S01 : nat := 56.
Definition MADB_ERR_42S02 : nat := 57.
Definition MADB_ERR_42S11 : nat := 58.
Definition MADB_ERR_42S12 : nat := 59.
Definition MADB_ERR_42S21 : nat := 60.
Definition MADB_ERR_42S22 : nat := 61.
Definition MADB_ERR_44000 : nat := 62.
Definition MADB_ERR_HY000 : nat := 63.
Definition MADB_ERR_HY001 : nat := 64.
Definition MADB_ERR_HY003 : nat := 65.
Definition MADB_ERR_HY004 : nat := 66.
Definition MADB_ERR_HY007 : nat := 67.
Definition MADB_ERR_HY008 : nat := 68.
Definition MADB_ERR_HY009 : nat := 69.
Definition MADB_ERR_HY010 : nat := 70.
Definition MADB_ERR_HY011 : nat := 71.
Definition MADB_ERR_HY012 : nat := 72.
Definition MADB_ERR_HY013 : nat := 73.
Definition MADB_ERR_HY014 : nat := 74.
Definition MADB_ERR_HY015 : nat := 75.
Definition MADB_ERR_HY016 : nat := 76.
Definition MADB_ERR_HY017 : nat := 77.
Definition MADB_ERR_HY018 : nat := 78.
Definition MADB_ERR_HY019 : nat := 79.
Definition MADB_ERR_HY020 : nat := 80.
Definition MADB_ERR_HY021 : nat := 81.
Definition MADB_ERR_HY024 : nat := 82.
Definition MADB_ERR_HY090 : nat := 83.
Definition MADB_ERR_HY091 : nat := 84.
Definition MADB_ERR_HY092 : nat := 85.
Definition MADB_ERR_HY095 : nat := 86.
Definition MADB_ERR_HY096 : nat := 87.
Definition MADB_ERR_HY097 : nat := 88.
Definition MADB_ERR_HY098 : nat := 89.
Definition MADB_ERR_HY099 : nat := 90.
Definition MADB_ERR_HY100 : nat := 91.
Definition MADB_ERR_HY101 : nat := 92.
Definition MADB_ERR_HY103 : nat := 93.
Definition MADB_ERR_HY104 : nat := 94.
Definition MADB_ERR_HY105 : nat := 95.
Definition MADB_ERR_HY106 : nat := 96.
Definition MADB_ERR_HY107 : nat := 97.
Definition MADB_ERR_HY109 : nat := 98.
Definition MADB_ERR_HY110 : nat := 99.
Definition MADB_ERR_HY111 : nat := 100.
Definition MADB_ERR_HYC00 : nat := 101.
Definition MADB_ERR_HYT00 : nat := 102.
Definition MADB_ERR_HYT01 : nat := 103.
Definition MADB_ERR_IM001 : nat := 104.
Definition MADB_ERR_IM002 : nat := 105.
Definition MADB_ERR_IM003 : nat := 106.
Definition MADB_ERR_IM004 : nat := 107.
Definition MADB_ERR_IM005 : nat := 108.
Definition MADB_ERR_IM006 : nat := 109.
Definition MADB_ERR_IM007 : nat := 110.
Definition MADB_ERR_IM008 : nat := 111.
Definition MADB_ERR_IM009 : nat := 112.
Definition MADB_ERR_IM010 : nat := 113.
Definition MADB_ERR_IM011 : nat := 114.
Definition MADB_ERR_IM012 : nat := 115.
Definition MADB_ERR_IM013 : nat := 116.
Definition MADB_ERR_IM014 : nat := 117.
Definition MADB_ERR_IM015 : nat := 118.
Definition MADB_ERR_S1000 : nat := 119.
Definition MADB_ERR_S1107 : nat := 120.
Definition MADB_ERR_S1C00 : nat := 121.

Definition error_codes : list (string * nat) :=
  [ ("00000", MADB_ERR_00000);
    ("01000", MADB_ERR_01000);
    ("01001", MADB_ERR_01001);
    ("01002", MADB_ERR_01002);
    ("01003", MADB_ERR_01003);
    ("01004", MADB_ERR_01004);
    ("01006", MADB_ERR_01006);
    ("01007", MADB_ERR_01007);
    ("01S00", MADB_ERR_01S00);
    ("01S01", MADB_ERR_01S01);
    ("01S02", MADB_ERR_01S02);
    ("01S06", MADB_ERR_01S06);
    ("01S07", MADB_ERR_01S07);
    ("01S08", MADB_ERR_01S08);
    ("01S09", MADB_ERR_01S09);
    ("07001", MADB_ERR_07001);
    ("07002", MADB_ERR_07002);
    ("07005", MADB_ERR_07005);
    ("07006", MADB_ERR_07006);
    ("07009", MADB_ERR_07009);
    ("07S01", MADB_ERR_07S01);
    ("08001", MADB_ERR_08001);
    ("08002", MADB_ERR_08002);
    ("08003", MADB_ERR_08003);
    ("08004", MADB_ERR_08004);
    ("08007", MADB_ERR_08007);
    ("08S01", MADB_ERR_08S01);
    ("21S01", MADB_ERR_21S01);
    ("21S02", MADB_ERR_21S02);
    ("22001", MADB_ERR_22001);
    ("22002", MADB_ERR_22002);
    ("22003", MADB_ERR_22003);
    ("22007", MADB_ERR_22007);
    ("22008", MADB_ERR_22008);
    ("22012", MADB_ERR_22012);
    ("22015", MADB_ERR_22015);
    ("22018", MADB_ERR_22018);
    ("22019", MADB_ERR_22019);
    ("22023", MADB_ERR_22023);
    ("22025", MADB_ERR_22025);
    ("22026", MADB_ERR_22026);
    ("23000", MADB_ERR_23000);
    ("24000", MADB_ERR_24000);
    ("25000", MADB_ERR_25000);
    ("25S01", MADB_ERR_25S01);
    ("25S02", MADB_ERR_25S02);
    ("25S03", MADB_ERR_25S03);
    ("28000", MADB_ERR_28000);
    ("34000", MADB_ERR_34000);
    ("3C000", MADB_ERR_3C000);
    ("3D000", MADB_ERR_3D000);
    ("3F000", MADB_ERR_3F000);
    ("40001", MADB_ERR_40001);
    ("40002", MADB_ERR_40002);
    ("40003", MADB_ERR_40003);
    ("42000", MADB_ERR_42000);
    ("42S01", MADB_ERR_42S01);
    ("42S02", MADB_ERR_42S02);
    ("42S11", MADB_ERR_42S11);
    ("42S12", MADB_ERR_42S12);
    ("42S21", MADB_ERR_42S21);
    ("42S22", MADB_ERR_42S22);
    ("44000", MADB_ERR_44000);
    ("HY000", MADB_ERR_HY000);
    ("HY001", MADB_ERR_HY001);
    ("HY003", MADB_ERR_HY003);
    ("HY004", MADB_ERR_HY004);
    ("HY007", MADB_ERR_HY007);
    ("HY008", MADB_ERR_HY008);
    ("HY009", MADB_ERR_HY009);
    ("HY010", MADB_ERR_HY010);
    ("HY011", MADB_ERR_HY011);
    ("HY012", MADB_ERR_HY012);
    ("HY013", MADB_ERR_HY013);
    ("HY014", MADB_ERR_HY014);
    ("HY015", MADB_ERR_HY015);
    ("HY016", MADB_ERR_HY016);
    ("HY017", MADB_ERR_HY017);
    ("HY018", MADB_ERR_HY018);
    ("HY019", MADB_ERR_HY019);
    ("HY020", MADB_ERR_HY020);
    ("HY021", MADB_ERR_HY021);
    ("HY024", MADB_ERR_HY024);
    ("HY090", MADB_ERR_HY090);
    ("HY091", MADB_ERR_HY091);
    ("HY092", MADB_ERR_HY092);
    ("HY095", MADB_ERR_HY095);
    ("HY096", MADB_ERR_HY096);
    ("HY097", MADB_ERR_HY097);
    ("HY098", MADB_ERR_HY098);
    ("HY099", MADB_ERR_HY099);
    ("HY100", MADB_ERR_HY100);
    ("HY101", MADB_ERR_HY101);
    ("HY103", MADB_ERR_HY103);
    ("HY104", MADB_ERR_HY104);
    ("HY105", MADB_ERR_HY105);
    ("HY106", MADB_ERR_HY106);
    ("HY107", MADB_ERR_HY107);
    ("HY109", MADB_ERR_HY109);
    ("HY110", MADB_ERR_HY110);
    ("HY111", MADB_ERR_HY111);
    ("HYC00", MADB_ERR_HYC00);
    ("HYT00", MADB_ERR_HYT00);
    ("HYT01", MADB_ERR_HYT01);
    ("IM001", MADB_ERR_IM001);
    ("IM002", MADB_ERR_IM002);
    ("IM003", MADB_ERR_IM003);
    ("IM004", MADB_ERR_IM004);
    ("IM005", MADB_ERR_IM005);
    ("IM006", MADB_ERR_IM006);
    ("IM007", MADB_ERR_IM007);
    ("IM008", MADB_ERR_IM008);
    ("IM009", MADB_ERR_IM009);
    ("IM010", MADB_ERR_IM010);
    ("IM011", MADB_ERR_IM011);
    ("IM012", MADB_ERR_IM012);
    ("IM013", MADB_ERR_IM013);
    ("IM014", MADB_ERR_IM014);
    ("IM015", MADB_ERR_IM015);
    ("S1000", MADB_ERR_S1000);
    ("S1107", MADB_ERR_S1107);
    ("S1C00", MADB_ERR_S1C00) ]%string.

Open Scope string_scope.
Definition MADB_ErrorList : list MADB_ERROR :=
  [ ErrRow "00000" EmptyString EmptyString SQL_ERROR;
    ErrRow "01000" EmptyString "General warning" SQL_ERROR;
    ErrRow "01001" "01S03" "Cursor operation conflict" SQL_ERROR;
    ErrRow "01002" EmptyString "Disconnect error" SQL_ERROR;
    ErrRow "01003" EmptyString "NULL value eliminated in set function" SQL_ERROR;
    ErrRow "01004" EmptyString "String data, right-truncated" SQL_ERROR;
    ErrRow "01006" EmptyString "Privilege not revoked" SQL_ERROR;
    ErrRow "01007" EmptyString "Privilege not granted" SQL_ERROR;
    ErrRow "01S00" EmptyString "Invalid connection string attribute" SQL_ERROR;
    ErrRow "01S01" EmptyString "Error in row" SQL_ERROR;
    ErrRow "01S02" EmptyString "Option value changed" SQL_ERROR;
    ErrRow "01S06" EmptyString "Attempt to fetch before the result set returned the first rowset" SQL_ERROR;
    ErrRow "01S07" EmptyString "Fractional truncation" SQL_ERROR;
    ErrRow "01S08" EmptyString "Error saving File DSN" SQL_ERROR;
    ErrRow "01S09" EmptyString "Invalid keyword" SQL_ERROR;
    ErrRow "07001" EmptyString "Wrong number of parameters" SQL_ERROR;
    ErrRow "07002" EmptyString "COUNT field incorrect" SQL_ERROR;
    ErrRow "07005" "2400" "Prepared statement not a cursor-specification" SQL_ERROR;
    ErrRow "07006" EmptyString "Restricted data type attribute violation" SQL_ERROR;
    ErrRow "07009" "S1002" "Invalid descriptor index" SQL_ERROR;
    ErrRow "07S01" EmptyString "Invalid use of default parameter" SQL_ERROR;
    ErrRow "08001" EmptyString "Client unable to establish connection" SQL_ERROR;
    ErrRow "08002" EmptyString "Connection name in use" SQL_ERROR;
    ErrRow "08003" EmptyString "Connection not open" SQL_ERROR;
    ErrRow "08004" EmptyString "Server rejected the connection" SQL_ERROR;
    ErrRow "08007" EmptyString "Connection failure during transaction" SQL_ERROR;
    ErrRow "08S01" EmptyString "Communication link failure" SQL_ERROR;
    ErrRow "21S01" EmptyString "Insert value list does not match column list" SQL_ERROR;
    ErrRow "21S02" EmptyString "Degree of derived table does not match column list" SQL_ERROR;
    ErrRow "22001" EmptyString "String data, right-truncated" SQL_ERROR;
    ErrRow "22002" EmptyString "Indicator variable required but not supplied" SQL_ERROR;
    ErrRow "22003" EmptyString "Numeric value out of range" SQL_ERROR;
    ErrRow "22007" "22008" "Invalid datetime format" SQL_ERROR;
    ErrRow "22008" EmptyString "Datetime field overflow" SQL_ERROR;
    ErrRow "22012" EmptyString "Division by zero" SQL_ERROR;
    ErrRow "22015" EmptyString "Interval field overflow" SQL_ERROR;
    ErrRow "22018" "22005" "Invalid character value for cast specification" SQL_ERROR;
    ErrRow "22019" EmptyString "Invalid escape character" SQL_ERROR;
    ErrRow "22023" EmptyString "Invalid parameter value" SQL_ERROR;
    ErrRow "22025" EmptyString "Invalid escape sequence" SQL_ERROR;
    ErrRow "22026" EmptyString "String data, length mismatch" SQL_ERROR;
    ErrRow "23000" EmptyString "Integrity constraint violation" SQL_ERROR;
    ErrRow "24000" EmptyString "Invalid cursor state" SQL_ERROR;
    ErrRow "25000" EmptyString "Invalid transaction state" SQL_ERROR;
    ErrRow "25S01" EmptyString "Transaction state" SQL_ERROR;
    ErrRow "25S02" EmptyString "Transaction is still active" SQL_ERROR;
    ErrRow "25S03" EmptyString "Transaction is rolled back" SQL_ERROR;
    ErrRow "28000" EmptyString "Invalid authorization specification" SQL_ERROR;
    ErrRow "34000" EmptyString "Invalid cursor name" SQL_ERROR;
    ErrRow "3C000" EmptyString "Duplicate cursor name" SQL_ERROR;
    ErrRow "3D000" EmptyString "Invalid catalog name" SQL_ERROR;
    ErrRow "3F000" EmptyString "Invalid schema name" SQL_ERROR;
    ErrRow "40001" EmptyString "Serialization failure" SQL_ERROR;
    ErrRow "40002" EmptyString "Integrity constraint violation" SQL_ERROR;
    ErrRow "40003" EmptyString "Statement completion unknown" SQL_ERROR;
    ErrRow "42000" "37000" "Syntax error or access violation" SQL_ERROR;
    ErrRow "42S01" "S0001" "Base table or view already exists" SQL_ERROR;
    ErrRow "42S02" "S0002" "Base table or view not found" SQL_ERROR;
    ErrRow "42S11" "S0011" "Index already exists" SQL_ERROR;
    ErrRow "42S12" "S0012" "Index not found" SQL_ERROR;
    ErrRow "42S21" "S0021" "Column already exists" SQL_ERROR;
    ErrRow "42S22" "S0022" "Column not found" SQL_ERROR;
    ErrRow "44000" EmptyString "WITH CHECK OPTION violation" SQL_ERROR;
    ErrRow "HY000" "S1000" "General error" SQL_ERROR;
    ErrRow "HY001" "S1001" "Memory allocation error" SQL_ERROR;
    ErrRow "HY003" "S1003" "Invalid application buffer type" SQL_ERROR;
    ErrRow "HY004" "S1004" "Invalid SQL data type" SQL_ERROR;
    ErrRow "HY007" "S1010" "Associated statement is not prepared" SQL_ERROR;
    ErrRow "HY008" "S1008" "Operation canceled" SQL_ERROR;
    ErrRow "HY009" "S1009" "Invalid use of null pointer" SQL_ERROR;
    ErrRow "HY010" "S1010" "Function sequence error" SQL_ERROR;
    ErrRow "HY011" "S1011" "Attribute cannot be set now" SQL_ERROR;
    ErrRow "HY012" "S1012" "Invalid transaction operation code" SQL_ERROR;
    ErrRow "HY013" EmptyString "Memory management error" SQL_ERROR;
    ErrRow "HY014" EmptyString "Limit on the number of handles exceeded" SQL_ERROR;
    ErrRow "HY015" EmptyString "No cursor name available" SQL_ERROR;
    ErrRow "HY016" EmptyString "Cannot modify an implementation row descriptor" SQL_ERROR;
    ErrRow "HY017" EmptyString "Invalid use of an automatically allocated descriptor handle" SQL_ERROR;
    ErrRow "HY018" "70100" "Server declined cancel request" SQL_ERROR;
    ErrRow "HY019" "22003" "Non-character and non-binary data sent in pieces" SQL_ERROR;
    ErrRow "HY020" EmptyString "Attempt to concatenate a null value" SQL_ERROR;
    ErrRow "HY021" EmptyString "Inconsistent descriptor information" SQL_ERROR;
    ErrRow "HY024" "S1009" "Invalid attribute value" SQL_ERROR;
    ErrRow "HY090" "S1009" "Invalid string or buffer length" SQL_ERROR;
    ErrRow "HY091" "S1091" "Invalid descriptor field identifier" SQL_ERROR;
    ErrRow "HY092" "S1092" "Invalid attribute/option identifier" SQL_ERROR;
    ErrRow "HY095" EmptyString "Function type out of range" SQL_ERROR;
    ErrRow "HY096" "S1096" "Invalid information type" SQL_ERROR;
    ErrRow "HY097" "S1097" "Column type out of range" SQL_ERROR;
    ErrRow "HY098" "S1098" "Scope type out of range" SQL_ERROR;
    ErrRow "HY099" "S1099" "Nullable type out of range" SQL_ERROR;
    ErrRow "HY100" "S1100" "Uniqueness option type out of range" SQL_ERROR;
    ErrRow "HY101" "S1101" "Accuracy option type out of range" SQL_ERROR;
    ErrRow "HY103" "S1103" "Invalid retrieval code" SQL_ERROR;
    ErrRow "HY104" "S1104" "Invalid precision or scale value" SQL_ERROR;
    ErrRow "HY105" "S1105" "Invalid parameter type" SQL_ERROR;
    ErrRow "HY106" "S1106" "Fetch type out of range" SQL_ERROR;
    ErrRow "HY107" "S1107" "Row value out of range" SQL_ERROR;
    ErrRow "HY109" "S1109" "Invalid cursor position" SQL_ERROR;
    ErrRow "HY110" "S1110" "Invalid driver completion" SQL_ERROR;
    ErrRow "HY111" "S1111" "Invalid bookmark value" SQL_ERROR;
    ErrRow "HYC00" "S1C00" "Optional feature not implemented" SQL_ERROR;
    ErrRow "HYT00" "S1T00" "Timeout expired" SQL_ERROR;
    ErrRow "HYT01" EmptyString "Connection timeout expired" SQL_ERROR;
    ErrRow "IM001" EmptyString "Driver does not support this function" SQL_ERROR;
    ErrRow "IM002" EmptyString "Data source name not found and no default driver specified" SQL_ERROR;
    ErrRow "IM003" EmptyString "Specified driver could not be loaded" SQL_ERROR;
    ErrRow "IM004" EmptyString "Driver's SQLAllocHandle on SQL_HANDLE_ENV failed" SQL_ERROR;
    ErrRow "IM005" EmptyString "Driver's SQLAllocHandle on SQL_HANDLE_DBC failed" SQL_ERROR;
    ErrRow "IM006" EmptyString "Driver's SQLSetConnectAttr failed" SQL_ERROR;
    ErrRow "IM007" EmptyString "No data source or driver specified; dialog prohibited" SQL_ERROR;
    ErrRow "IM008" EmptyString "Dialog failed" SQL_ERROR;
    ErrRow "IM009" EmptyString "Unable to load translation DL" SQL_ERROR;
    ErrRow "IM010" EmptyString "Data source name too long" SQL_ERROR;
    ErrRow "IM011" EmptyString "Driver name too long" SQL_ERROR;
    ErrRow "IM012" EmptyString "DRIVER keyword syntax error" SQL_ERROR;
    ErrRow "IM013" EmptyString "Trace file error" SQL_ERROR;
    ErrRow "IM014" EmptyString "Invalid name of File DSN" SQL_ERROR;
    ErrRow "IM015" EmptyString "Corrupt file data source" SQL_ERROR;
    ErrRow "S1000" EmptyString "General error" SQL_ERROR;
    ErrRow "S1107" EmptyString "Row value out of range" SQL_ERROR;
    ErrRow "S1C00" EmptyString "Optional feature not implemented" SQL_ERROR;
    ErrRow EmptyString EmptyString EmptyString (-1) ].
Close Scope string_scope.

(** ** Operations *)

Module ErrorOps.

(** [strcpy_s], on the content of the destination. *)
Definition strcpy_s (buffer_size : nat) (src : list Z) : list Z :=
  if (buffer_size <? length src + 1)%nat then [] else src.

(** Bytes written at [b + p].  Nothing stops at the end of the array: what is written behind
    it makes the list longer than the array, so that a write stays inside exactly
    when the length is kept. *)
Definition store (b : list Z) (p : nat) (src : list Z) : list Z := resize p 0 b ++ src ++ drop (p + length src) b.

(** [strncpy(b + p, src, n)] writes [n] bytes, NUL-padded. *)
Definition strncpy (b : list Z) (p : nat) (src : list Z) (n : nat) : list Z :=
  store b p (take n (src ++ replicate n 0)).

Definition err_row (code : nat) : MADB_ERROR :=
  default (ErrRow EmptyString EmptyString EmptyString (-1)) (MADB_ErrorList !! code).

(** The return code an SQLSTATE stands for; [prev] is the value set before the test. *)
Definition return_of_state (st : list Z) (prev : Z) : Z :=
  if rd st 0 =? $"0" then
    if rd st 1 =? $"0" then SQL_SUCCESS
    else if rd st 1 =? $"1" then SQL_SUCCESS_WITH_INFO
    else SQL_ERROR
  else prev.

Definition lost_connection (native : Z) : bool :=
  (native =? 2013) || (native =? 2006) || (native =? 1160).

(** [SQL_MAX_MESSAGE_LENGTH - PrefixLen], a [size_t]. *)
Definition message_room (E : MADB_Error) : nat :=
  Z.to_nat (wrapu 64 (Z.of_nat SQL_MAX_MESSAGE_LENGTH - Z.of_nat (PrefixLen E))).

(** The message part common to both writers: [strncpy] behind the prefix, and
    the forced terminator. *)
Definition put_message (E : MADB_Error) (msg : list Z) : list Z :=
  store (strncpy (SqlErrorMsg E) (PrefixLen E) msg (message_room E)) SQL_MAX_MESSAGE_LENGTH [0].

Definition MADB_CLEAR_ERROR (E : MADB_Error) : MADB_Error :=
  MkError (strcpy_s (SQL_SQLSTATE_SIZE + 1) (chars (row_SqlState (err_row MADB_ERR_00000))))
    0 (store (SqlErrorMsg E) (PrefixLen E) [0]) (PrefixLen E) SQL_SUCCESS (ErrRecord E) 0.

Definition MADB_SetError (E : MADB_Error) (SqlErrorCode : nat) (NativeErrorMsg : option (list Z))
    (Native : Z) : MADB_Error :=
  let ErrorCode :=
    if lost_connection Native && (SqlErrorCode =? MADB_ERR_HY000)%nat
    then MADB_ERR_08S01 else SqlErrorCode in
  let row := err_row ErrorCode in
  let msg := put_message E (default (chars (row_SqlErrorMsg row)) NativeErrorMsg) in
  let st := strcpy_s (SQL_SQLSTATE_SIZE + 1) (chars (row_SqlState row)) in
  MkError st Native msg (PrefixLen E) (return_of_state st SQL_ERROR) (Some ErrorCode) 0.

(** What the client library reports for a connection or statement handle. *)
Record native_diag := Native { n_sqlstate : list Z; n_error : list Z; n_errno : Z }.

(** [None] stands for a handle type the switch does not list: all locals keep
    their initial values and neither string is copied. *)
Definition MADB_SetNativeError (E : MADB_Error) (diag : option native_diag) : MADB_Error :=
  match diag with
  | None =>
      MkError (SqlState E) 0 (SqlErrorMsg E) (PrefixLen E)
        (return_of_state (SqlState E) SQL_ERROR) (ErrRecord E) (ErrorNum E)
  | Some d =>
      let st0 :=
        if lost_connection (n_errno d) &&
           (bool_decide (n_sqlstate d = chars "HY000") || bool_decide (n_sqlstate d = chars "00000"))
        then chars "08S01" else n_sqlstate d in
      let st := strcpy_s (SQL_SQLSTATE_SIZE + 1) st0 in
      MkError st (n_errno d) (put_message E (n_error d)) (PrefixLen E)
        (return_of_state st SQL_ERROR) (ErrRecord E) (ErrorNum E)
  end.

Definition MADB_CopyError (To From : MADB_Error) : MADB_Error :=
  let msg := strcpy_s (SQL_MAX_MESSAGE_LENGTH + 1) (cstr (SqlErrorMsg From)) in
  MkError (strcpy_s (SQL_SQLSTATE_SIZE + 1) (SqlState From)) (NativeError From)
    (store (SqlErrorMsg To) 0 (msg ++ [0])) (PrefixLen From) (ReturnValue From)
    (ErrRecord To) (ErrorNum To).

(** [_snprintf(buf, count, "[%s]", server)]: the bytes that reach the buffer and
    the value returned. *)
Definition snprintf_ret (count len : Z) : Z := if count <? len then count - len - 1 else len.

(** [MADB_PutErrorPrefix]; [prefix] is SS_ODBC_ERR_PREFIX, which the build
    generates, [server] the version string of an open connection. *)
Definition MADB_PutErrorPrefix (prefix : list Z) (server : option (list Z)) (E : MADB_Error)
    : MADB_Error :=
  if (PrefixLen E =? 0)%nat then
    let b := store (SqlErrorMsg E) 0 (strcpy_s (SQL_MAX_MESSAGE_LENGTH + 1) prefix ++ [0]) in
    match server with
    | None =>
        MkError (SqlState E) (NativeError E) b (length prefix) (ReturnValue E) (ErrRecord E) (ErrorNum E)
    | Some s =>
        let text := $"[" :: s ++ [$"]"] in
        let count := (SQL_MAX_MESSAGE_LENGTH + 1 - length prefix)%nat in
        let b' := store b (length prefix) (take (count - 1) text ++ [0]) in
        let ret := snprintf_ret (Z.of_nat count) (Z.of_nat (length text)) in
        MkError (SqlState E) (NativeError E) b' (Z.to_nat (wrapu 64 (Z.of_nat (length prefix) + ret)))
          (ReturnValue E) (ErrRecord E) (ErrorNum E)
    end
  else E.

(** The ODBC 2 state of an ODBC 3 state, by the table scan of [MADB_GetDiagRec]. *)
Fixpoint v2_state (tbl : list MADB_ERROR) (st : list Z) : list Z :=
  match tbl with
  | [] => st
  | row :: tbl' =>
      if bool_decide (row_SqlState row = EmptyString) then st
      else if bool_decide (st = chars (row_SqlState row)) then
        if bool_decide (row_SqlStateV2 row = EmptyString) then st else chars (row_SqlStateV2 row)
      else v2_state tbl' st
  end.

End ErrorOps.

(** ** Properties *)

Module ErrorProps.
Import ErrorOps.

(** The buffers have their declared sizes and the message is terminated. *)
Definition error_wf (E : MADB_Error) : Prop :=
  length (SqlErrorMsg E) = (SQL_MAX_MESSAGE_LENGTH + 1)%nat /\
  rd (SqlErrorMsg E) SQL_MAX_MESSAGE_LENGTH = 0 /\
  (PrefixLen E <= SQL_MAX_MESSAGE_LENGTH)%nat /\
  (length (SqlState E) <= SQL_SQLSTATE_SIZE)%nat.

Lemma store_in b p src : (p <= length b)%nat -> store b p src = take p b ++ src ++ drop (p + length src) b.
Proof. intros. unfold store. by rewrite resize_le. Qed.

Lemma store_same b p c : store (store b p [c]) p [c] = store b p [c].
Proof.
  unfold store. cbn [length]. rewrite resize_app_le, resize_idemp by (rewrite length_resize; lia). f_equal. f_equal.
  rewrite app_assoc, drop_app_length'; [done|]. rewrite length_app, length_resize. cbn [length]. done.
Qed.

Lemma length_store b p src : (p + length src <= length b)%nat -> length (store b p src) = length b.
Proof. intros. rewrite store_in by lia. rewrite !length_app, length_take, length_drop. lia. Qed.

Lemma take_store b p src : (p <= length b)%nat -> take p (store b p src) = take p b.
Proof. intros. rewrite store_in by lia. rewrite take_app_le, take_take by (rewrite length_take; lia). by rewrite Nat.min_id. Qed.

Lemma take_store_behind b p src q : (q <= p <= length b)%nat -> take q (store b p src) = take q b.
Proof. intros. rewrite store_in by lia. rewrite take_app_le, take_take by (rewrite length_take; lia). by rewrite Nat.min_l by lia. Qed.

Lemma rd_store b p c : (p < length b)%nat -> rd (store b p [c]) p = c.
Proof. intros. unfold rd. rewrite store_in by lia. rewrite lookup_app_r, length_take, Nat.min_l, Nat.sub_diag by (rewrite ?length_take; lia). done. Qed.

Lemma rd_store_ne b p c i : (p < length b)%nat -> i <> p -> rd (store b p [c]) i = rd b i.
Proof.
  intros Hp Hi. unfold rd. rewrite store_in by lia. f_equal. destruct (Nat.lt_ge_cases i p).
  - rewrite lookup_app_l by (rewrite length_take; lia). by rewrite lookup_take_lt by lia.
  - rewrite app_assoc, lookup_app_r by (rewrite length_app, length_take; cbn; lia).
    rewrite lookup_drop, length_app, length_take. cbn [length]. f_equal. lia.
Qed.

Lemma length_padded src n : length (take n (src ++ replicate n 0)) = n.
Proof. rewrite length_take, length_app, length_replicate. lia. Qed.

Lemma length_strncpy b p src n : (p + n <= length b)%nat -> length (strncpy b p src n) = length b.
Proof. intros. unfold strncpy. apply length_store. by rewrite length_padded. Qed.

Lemma length_strcpy_s n src : (length (strcpy_s (n + 1) src) <= n)%nat.
Proof. unfold strcpy_s. case_match; bprop; simpl; lia. Qed.

Lemma strcpy_s_fits n src : (length src < n)%nat -> strcpy_s n src = src.
Proof. intros. unfold strcpy_s. case_match; bprop; [lia|done]. Qed.

Lemma message_room_wf E : error_wf E -> message_room E = (SQL_MAX_MESSAGE_LENGTH - PrefixLen E)%nat.
Proof. intros (_ & _ & H & _). unfold message_room. rewrite wrapu_id by (unfold SQL_MAX_MESSAGE_LENGTH in *; lia). lia. Qed.

Lemma length_message E msg : error_wf E ->
  length (strncpy (SqlErrorMsg E) (PrefixLen E) msg (message_room E)) = (SQL_MAX_MESSAGE_LENGTH + 1)%nat.
Proof. intros HE. rewrite message_room_wf by done. destruct HE as (H1 & _ & H3 & _). rewrite length_strncpy; lia. Qed.

Lemma length_put_message E msg :
  error_wf E -> length (put_message E msg) = (SQL_MAX_MESSAGE_LENGTH + 1)%nat.
Proof. intros HE. unfold put_message. rewrite length_store; rewrite length_message by done; [done|]. cbn [length]. lia. Qed.

Lemma put_message_nul E msg :
  error_wf E -> rd (put_message E msg) SQL_MAX_MESSAGE_LENGTH = 0.
Proof. intros HE. apply rd_store. rewrite length_message by done. lia. Qed.

(** The prefix is in front of what the writers write. *)
Lemma put_message_prefix E msg : error_wf E -> take (PrefixLen E) (put_message E msg) = take (PrefixLen E) (SqlErrorMsg E).
Proof.
  intros HE. pose proof HE as (H1 & _ & H3 & _). unfold put_message.
  rewrite take_store_behind by (rewrite length_message by done; lia). apply take_store. lia.
Qed.

(** Both writers keep the prefix and put the message behind it, cut to the room
    that is left. *)
Lemma put_message_content E msg :
  error_wf E ->
  Forall (fun c => c <> 0) msg ->
  Forall (fun c => c <> 0) (take (PrefixLen E) (SqlErrorMsg E)) ->
  cstr (put_message E msg) =
    take (PrefixLen E) (SqlErrorMsg E) ++ take (SQL_MAX_MESSAGE_LENGTH - PrefixLen E) msg.
Proof.
  intros HE Hmsg Hpre. unfold put_message, strncpy. rewrite message_room_wf by done. destruct HE as (H1 & H2 & H3 & H4).
  set (n := (SQL_MAX_MESSAGE_LENGTH - PrefixLen E)%nat). pose proof (length_padded msg n) as Hw. set (w := take n (msg ++ replicate n 0)) in *.
  assert (PrefixLen E + n = SQL_MAX_MESSAGE_LENGTH)%nat as Hn by (unfold n; lia).
  assert (length (take (PrefixLen E) (SqlErrorMsg E) ++ w) = SQL_MAX_MESSAGE_LENGTH) as Hlen
    by (rewrite length_app, length_take, Hw; lia).
  rewrite (store_in (SqlErrorMsg E)), Hw, Hn, app_assoc by lia. rewrite store_in by (rewrite length_app; lia). rewrite take_app_le, take_ge by lia. cbn [app].
  destruct (Nat.le_gt_cases n (length msg)) as [Hle|Hgt].
  - assert (w = take n msg) as -> by (unfold w; by rewrite take_app_le).
    rewrite cstr_app_nul; [done|]. apply Forall_app. split; [done|by apply Forall_take].
  - assert (w = msg ++ replicate (n - length msg) 0) as ->.
    { unfold w. rewrite take_app_ge by lia. by rewrite take_replicate, Nat.min_l by lia. }
    rewrite (take_ge msg) by lia. destruct (n - length msg)%nat as [|k] eqn:Ek; [lia|].
    simpl replicate. rewrite <- !app_assoc. simpl app. rewrite app_assoc, cstr_app_nul; [done|].
    by apply Forall_app.
Qed.

Lemma MADB_SetError_wf E code msg native : error_wf E -> error_wf (MADB_SetError E code msg native).
Proof.
  intros HE. repeat split; simpl.
  - by apply length_put_message.
  - by apply put_message_nul.
  - apply HE.
  - apply (length_strcpy_s SQL_SQLSTATE_SIZE).
Qed.

Lemma MADB_SetNativeError_wf E d : error_wf E -> error_wf (MADB_SetNativeError E d).
Proof.
  intros HE. destruct d as [d|]; [|exact HE].
  repeat split; simpl; [by apply length_put_message|by apply put_message_nul|apply HE|apply (length_strcpy_s SQL_SQLSTATE_SIZE)].
Qed.

Lemma MADB_CLEAR_ERROR_wf E : error_wf E -> error_wf (MADB_CLEAR_ERROR E).
Proof.
  intros (H1 & H2 & H3 & H4). split_and!; cbn [SqlErrorMsg PrefixLen SqlState MADB_CLEAR_ERROR].
  - rewrite length_store; cbn [length]; lia.
  - destruct (decide (PrefixLen E = SQL_MAX_MESSAGE_LENGTH)) as [->|Hne]; [apply rd_store; lia|].
    rewrite rd_store_ne by lia. done.
  - done.
  - vm_compute. lia.
Qed.

(** The prefix a record is given: the name of the driver and the version of the server of
    an open connection. *)
Definition error_prefix (prefix : list Z) (server : option (list Z)) : list Z :=
  prefix ++ match server with Some v => $"[" :: v ++ [$"]"] | None => [] end.

Definition prefix_of (E : MADB_Error) : list Z := take (PrefixLen E) (SqlErrorMsg E).

(** A well-formed record with one of the prefixes [Ps]. *)
Definition error_ok (Ps : list Z -> Prop) (E : MADB_Error) : Prop :=
  error_wf E /\ Ps (prefix_of E) /\ Forall (fun c => c <> 0) (prefix_of E).

(** The operations on an error record; the prefix that is written has room in the message,
    and an error is copied from a record of the same kind. *)
Inductive error_step (Ps : list Z -> Prop) : MADB_Error -> MADB_Error -> Prop :=
| step_clear E : error_step Ps E (MADB_CLEAR_ERROR E)
| step_set E code msg native : error_step Ps E (MADB_SetError E code msg native)
| step_native E d : error_step Ps E (MADB_SetNativeError E d)
| step_copy To From : error_ok Ps From -> error_step Ps To (MADB_CopyError To From)
| step_prefix prefix server E : Ps (error_prefix prefix server) -> Forall (fun c => c <> 0) (error_prefix prefix server) ->
    (length (error_prefix prefix server) <= SQL_MAX_MESSAGE_LENGTH)%nat -> error_step Ps E (MADB_PutErrorPrefix prefix server E).

(** A text written at the front of the message, with its terminator. *)
Lemma store_front b t : (length t < length b)%nat -> length (store b 0 (t ++ [0])) = length b /\ take (length t) (store b 0 (t ++ [0])) = t.
Proof.
  intros Ht. split; [apply length_store; rewrite length_app; cbn [length]; lia|]. rewrite store_in by lia. rewrite take_0, app_nil_l.
  rewrite <- app_assoc. by apply take_app_length.
Qed.

Lemma cstr_shorter b n : rd b n = 0 -> (n < length b)%nat -> (length (cstr b) <= n)%nat.
Proof.
  revert n. induction b as [|c b IH]; intros n Hn Hl; [cbn in Hl; lia|]. cbn. destruct (Z.eqb_spec c 0); cbn; [lia|].
  destruct n as [|n]; [cbn in Hn; lia|]. cbn in Hl. apply le_n_S, IH; [done|lia].
Qed.

Lemma take_nonzero_cstr b n : Forall (fun c => c <> 0) (take n b) -> take n b = take n (cstr b).
Proof.
  revert n. induction b as [|c b IH]; intros [|n] HF; [done..|]. cbn in *. apply Forall_cons in HF as [Hc HF].
  rewrite (proj2 (Z.eqb_neq _ _)) by done. cbn. by rewrite <- IH.
Qed.

(** A byte in front of the end is not changed by writing before it. *)
Lemma rd_store_last b t n : (length t <= n)%nat -> (n < length b)%nat -> rd (store b 0 t) n = rd b n.
Proof.
  intros H1 H2. unfold rd. rewrite store_in by lia. rewrite take_0, app_nil_l. cbn [plus]. rewrite lookup_app_r by lia. rewrite lookup_drop. do 2 f_equal. lia.
Qed.

Lemma front_nul b t : length b = (SQL_MAX_MESSAGE_LENGTH + 1)%nat -> rd b SQL_MAX_MESSAGE_LENGTH = 0 -> (length t <= SQL_MAX_MESSAGE_LENGTH)%nat ->
  rd (store b 0 (t ++ [0])) SQL_MAX_MESSAGE_LENGTH = 0.
Proof.
  intros H1 H2 Ht. destruct (decide (length t = SQL_MAX_MESSAGE_LENGTH)) as [E|Hne].
  - unfold rd. rewrite store_in by lia. rewrite take_0, app_nil_l. rewrite <- app_assoc, lookup_app_r, E, Nat.sub_diag by lia. done.
  - rewrite rd_store_last; [done|rewrite length_app; cbn [length]; lia|lia].
Qed.

Lemma MADB_CopyError_ok Ps To From : error_wf To -> error_ok Ps From -> error_ok Ps (MADB_CopyError To From).
Proof.
  intros (T1 & T2 & _ & _) ((F1 & F2 & F3 & F4) & HP & HN). unfold MADB_CopyError.
  pose proof (cstr_shorter _ _ F2 ltac:(lia)) as Hc. rewrite (strcpy_s_fits (SQL_MAX_MESSAGE_LENGTH + 1)) by lia.
  destruct (store_front (SqlErrorMsg To) (cstr (SqlErrorMsg From)) ltac:(lia)) as [L Hp].
  assert (prefix_of From = take (PrefixLen From) (cstr (SqlErrorMsg From))) as E by (by apply take_nonzero_cstr).
  assert (PrefixLen From <= length (cstr (SqlErrorMsg From)))%nat as Hlen.
  { apply (f_equal length) in E. unfold prefix_of in E. rewrite !length_take in E. lia. }
  split; [split_and!; cbn [SqlErrorMsg PrefixLen SqlState]|split].
  - by rewrite L.
  - by apply front_nul.
  - done.
  - apply (length_strcpy_s SQL_SQLSTATE_SIZE).
  - unfold prefix_of. cbn [SqlErrorMsg PrefixLen]. rewrite <- (Nat.min_l _ _ Hlen), <- take_take, Hp, <- E. exact HP.
  - unfold prefix_of. cbn [SqlErrorMsg PrefixLen]. rewrite <- (Nat.min_l _ _ Hlen), <- take_take, Hp, <- E. exact HN.
Qed.

(** Writing the prefix: the whole text is in front, terminated. *)
Lemma MADB_PutErrorPrefix_text prefix server E : error_wf E -> PrefixLen E = 0%nat ->
  (length (error_prefix prefix server) <= SQL_MAX_MESSAGE_LENGTH)%nat -> error_wf (MADB_PutErrorPrefix prefix server E) /\
  prefix_of (MADB_PutErrorPrefix prefix server E) = error_prefix prefix server.
Proof.
  intros (H1 & H2 & H3 & H4) H0 Hl. unfold MADB_PutErrorPrefix, error_prefix in *. rewrite H0. cbn [Nat.eqb]. rewrite length_app in Hl.
  rewrite strcpy_s_fits by (destruct server; cbn [length] in Hl; lia).
  destruct (store_front (SqlErrorMsg E) prefix ltac:(lia)) as [L Hp]. destruct server as [v|].
  2: { rewrite app_nil_r. split; [|exact Hp]. split_and!; cbn [SqlErrorMsg PrefixLen SqlState]; [by rewrite L|apply front_nul; lia|lia|done]. }
  set (t := $"[" :: v ++ [$"]"]) in *. set (b := store (SqlErrorMsg E) 0 (prefix ++ [0])) in *.
  assert (store b (length prefix) (t ++ [0]) = store (SqlErrorMsg E) 0 ((prefix ++ t) ++ [0])) as Eb.
  { rewrite store_in, Hp by lia. unfold b. rewrite !store_in by lia. rewrite !take_0, !app_nil_l. cbn [plus]. rewrite <- !app_assoc. do 3 f_equal.
    rewrite app_assoc, drop_app_ge by (rewrite !length_app; cbn [length]; lia). rewrite drop_drop. f_equal. rewrite !length_app. cbn [length]. lia. }
  destruct (store_front (SqlErrorMsg E) (prefix ++ t)) as [L' Hp']; [rewrite length_app; lia|]. rewrite length_app in Hp'.
  rewrite take_ge by lia. rewrite Eb. unfold snprintf_ret. rewrite (proj2 (Z.ltb_ge _ _)) by lia.
  assert (Z.to_nat (wrapu 64 (Z.of_nat (length prefix) + Z.of_nat (length t))) = (length prefix + length t)%nat) as El
    by (rewrite wrapu_id by (unfold SQL_MAX_MESSAGE_LENGTH in *; lia); lia).
  split; [split_and!; cbn [SqlErrorMsg PrefixLen SqlState]|unfold prefix_of; cbn [SqlErrorMsg PrefixLen]; by rewrite El].
  - by rewrite L'.
  - apply front_nul; [done|done|rewrite length_app; lia].
  - lia.
  - done.
Qed.


(** The states the driver raises errors with, and the class of their code. *)
Definition class_return (st : list Z) : Z :=
  if bool_decide (take 2 st = chars "00") then SQL_SUCCESS
  else if bool_decide (take 2 st = chars "01") then SQL_SUCCESS_WITH_INFO
  else SQL_ERROR.

Lemma errorlist_checks :
  forallb (fun code => bool_decide (
      length (chars (row_SqlState (err_row code))) = 5%nat /\
      return_of_state (strcpy_s 6 (chars (row_SqlState (err_row code)))) SQL_ERROR
        = class_return (chars (row_SqlState (err_row code))) /\
      Forall (fun c => c <> 0) (chars (row_SqlErrorMsg (err_row code)))))
    (seq 0 122) = true.
Proof. vm_compute. reflexivity. Qed.

Lemma errorlist_row code :
  (code < 122)%nat ->
  let st := chars (row_SqlState (err_row code)) in
  length st = 5%nat /\ return_of_state (strcpy_s 6 st) SQL_ERROR = class_return st /\
  Forall (fun c => c <> 0) (chars (row_SqlErrorMsg (err_row code))).
Proof.
  intros Hc. pose proof errorlist_checks as H. rewrite forallb_forall in H.
  specialize (H code). apply bool_decide_eq_true_1 in H; [done|].
  apply in_seq. lia.
Qed.

Definition effective_code (code : nat) (native : Z) : nat :=
  if lost_connection native && (code =? MADB_ERR_HY000)%nat then MADB_ERR_08S01 else code.

(** C40. [MADB_SetError] with any code of the enumeration leaves in the record
    the SQLSTATE of that code (08S01 when a lost connection was reported as
    HY000), returns SUCCESS, SUCCESS_WITH_INFO or ERROR by the class of the
    state, and the stored text is the prefix followed by the caller's message,
    or the table's message when there is none, cut to the buffer. *)
Theorem MADB_SetError_correct E code msg native :
  error_wf E ->
  (code < 122)%nat ->
  Forall (fun c => c <> 0) (take (PrefixLen E) (SqlErrorMsg E)) ->
  (forall m, msg = Some m -> Forall (fun c => c <> 0) m) ->
  let E' := MADB_SetError E code msg native in
  let row := err_row (effective_code code native) in
  SqlState E' = chars (row_SqlState row) /\
  ReturnValue E' = class_return (chars (row_SqlState row)) /\
  NativeError E' = native /\
  cstr (SqlErrorMsg E') = take (PrefixLen E) (SqlErrorMsg E) ++
    take (SQL_MAX_MESSAGE_LENGTH - PrefixLen E) (default (chars (row_SqlErrorMsg row)) msg).
Proof.
  intros HE Hc Hpre Hmsg E' row.
  assert (effective_code code native < 122)%nat as Hc'.
  { unfold effective_code. case_match; [|done]. vm_compute. lia. }
  destruct (errorlist_row _ Hc') as (Hl & Hr & Hz). fold row in Hl, Hr, Hz.
  assert (strcpy_s 6 (chars (row_SqlState row)) = chars (row_SqlState row)) as Hst
    by (apply strcpy_s_fits; rewrite Hl; lia).
  unfold E', MADB_SetError. fold (effective_code code native). fold row. cbn [SqlState ReturnValue NativeError SqlErrorMsg].
  change (SQL_SQLSTATE_SIZE + 1)%nat with 6%nat. rewrite Hr, Hst. repeat split.
  apply put_message_content; [done| |done].
  destruct msg as [m|]; simpl; [by apply Hmsg|done].
Qed.

(** A fresh record, as [MADB_CALLOC] leaves it. *)
Definition zero_error : MADB_Error :=
  MkError [] 0 (replicate (SQL_MAX_MESSAGE_LENGTH + 1) 0) 0 0 None 0.

Lemma zero_error_wf : error_wf zero_error.
Proof. repeat split; vm_compute; lia. Qed.

(** A record of a connection: prefix, error, and the error copied to another record. *)
Definition driver_prefix (l : list Z) : Prop := l = [] \/ l = chars "[SingleStore][ODBC]".

Lemma MADB_SetError_correct_witness :
  ReturnValue (MADB_SetError zero_error MADB_ERR_01004 None 0) = SQL_SUCCESS_WITH_INFO /\
  SqlState (MADB_SetError zero_error MADB_ERR_HY000 None 2013) = chars "08S01".
Proof.
  split.
  - apply (MADB_SetError_correct zero_error MADB_ERR_01004 None 0);
      [apply zero_error_wf|vm_compute; lia|constructor|done].
  - apply (MADB_SetError_correct zero_error MADB_ERR_HY000 None 2013);
      [apply zero_error_wf|vm_compute; lia|constructor|done].
Defined.

(** The enumeration of [ma_error.h] and the table of [ma_error.c] agree: the
    row a code indexes holds the SQLSTATE the code is named after, and the row
    after the last code is the terminator the table scans stop at. *)
Theorem errorlist_matches_codes :
  Forall (fun nc => row_SqlState (err_row nc.2) = nc.1) error_codes /\
  length MADB_ErrorList = S (length error_codes) /\
  row_SqlState (err_row (length error_codes)) = EmptyString.
Proof. split; [|by vm_compute]. apply (bool_decide_eq_true_1 _). vm_compute. reflexivity. Qed.

(** The ODBC 2 states of the table have five characters, with one exception:
    07005 is mapped to the four-character state 2400. *)
Theorem errorlist_v2_malformed :
  v2_state MADB_ErrorList (chars "07005") = chars "2400" /\
  Forall (fun nc => nc.1 = "07005"%string \/
            length (v2_state MADB_ErrorList (chars nc.1)) = 5%nat) error_codes.
Proof. split; [by vm_compute|]. apply (bool_decide_eq_true_1 _). vm_compute. reflexivity. Qed.

End ErrorProps.
