(* ===== verification/Diag.v ===== *)
(** * Diag: reading diagnostics, and the environment attributes

    Models [MADB_SetString] of [ma_platform_posix.c] for the ANSI driver (no
    client character set), [MADB_GetDiagRec] and [MADB_GetDiagField] of
    [ma_error.c], and the attribute functions of [ma_environment.c].  An output
    buffer of the application is an optional list of bytes; what the client
    library knows of a handle is an argument. *)

From Stdlib Require Import ZArith Lia.
From stdpp Require Import base strings numbers option list.
From S2P Require Import Prelude Odbc Errors.
Import ErrorOps.

Module Diag.

(** [MADB_SetString] with [cc] NULL: the length returned, the destination and the
    error record.  [SrcLength] is SQL_NTS or not negative. *)
Definition MADB_SetString (Dest : option (list Z)) (DestLength : Z) (Src : option (list Z)) (SrcLength : Z)
    (Error : MADB_Error) : Z * option (list Z) * MADB_Error :=
  let SrcLength :=
    if SrcLength =? SQL_NTS then Z.of_nat (length (cstr (default [] Src))) else SrcLength in
  match Dest with
  | None => (SrcLength, None, Error)
  | Some d =>
      if DestLength =? 0 then (SrcLength, Some d, MADB_SetError Error MADB_ERR_01004 None 0)
      else if (SrcLength =? 0) || bool_decide (cstr (default [] Src) = []) then (0, Some (<[0%nat := 0]> d), Error)
      else
        let d1 := strncpy d 0 (cstr (default [] Src)) (Z.to_nat DestLength) in
        (SrcLength, Some (<[Z.to_nat (Z.min SrcLength (DestLength - 1)) := 0]> d1),
         if DestLength <=? SrcLength then MADB_SetError Error MADB_ERR_01004 None 0 else Error)
  end.

(** What [MADB_GetDiagRec] writes for the application. *)
Record diag_rec := MkDiagRec {
  dr_state : option (list Z);
  dr_native : option Z;
  dr_message : option (list Z);
  dr_length : option Z;
}.

(** An error record on the stack of the callee, cleared; its other bytes are unknown. *)
Definition InternalError (junk : list Z) : MADB_Error :=
  MADB_CLEAR_ERROR (MkError [] 0 junk 0 0 None 0).

(** [MADB_GetDiagRec]: the return code and, unless it is [None], the outputs.
    [SQLState] and [MessageText] are the buffers given, [want_native] and
    [want_length] whether the pointers for the numbers are. *)
Definition MADB_GetDiagRec (junk : list Z) (Err : MADB_Error) (RecNumber : Z) (SQLState MessageText : option (list Z))
    (want_native want_length : bool) (BufferLength OdbcVersion : Z) : Z * option diag_rec :=
  if (1 <? RecNumber) || (ReturnValue Err =? SQL_SUCCESS) then (SQL_NO_DATA, None)
  else if BufferLength <? 0 then (SQL_ERROR, None)
  else
    let SqlStateVersion :=
      if OdbcVersion =? SQL_OV_ODBC2 then v2_state MADB_ErrorList (SqlState Err) else SqlState Err in
    let '(st, E1) :=
      match SQLState with
      | None => (None, InternalError junk)
      | Some b =>
          let '(_, b', E1) := MADB_SetString (Some b) (Z.of_nat (SQL_SQLSTATE_SIZE + 1)) (Some SqlStateVersion)
                                (Z.of_nat SQL_SQLSTATE_SIZE) (InternalError junk) in (b', E1)
      end in
    let msg := cstr (SqlErrorMsg Err) in
    let '(txt, E2) :=
      match MessageText with
      | None => (None, E1)
      | Some b =>
          let '(_, b', E2) := MADB_SetString (Some b) BufferLength (Some (SqlErrorMsg Err)) (Z.of_nat (length msg)) E1 in
          (b', E2)
      end in
    let out := MkDiagRec st (if want_native then Some (NativeError Err) else None) txt
                 (if want_length then Some (wraps 16 (Z.of_nat (length msg))) else None) in
    ((if bool_decide (MessageText = None) || (BufferLength =? 0) then SQL_SUCCESS else ReturnValue E2), Some out).

(** A handle, as far as diagnostics look at it: its error record, and for a
    connection or a statement the host of the server and the row counts the client
    library keeps. *)
Inductive diag_handle :=
| HEnv (Err : MADB_Error)
| HDbc (Err : MADB_Error) (host : option (list Z))
| HStmt (Err : MADB_Error) (num_rows affected_rows : option Z) (host : option (list Z))
| HDesc (Err : MADB_Error).

Definition handle_error (h : diag_handle) : MADB_Error :=
  match h with HEnv e | HDbc e _ | HStmt e _ _ _ | HDesc e => e end.

(** What is written through [DiagInfoPtr]: nothing, a number of the given size in
    bytes, or a buffer. *)
Inductive diag_info :=
| DiagNothing
| DiagNumber (bytes : Z) (v : Z)
| DiagString (b : option (list Z)).

(** [MADB_GetDiagField] on a valid handle: the return code, the value, and the
    length stored in [*StringLengthPtr]. *)
Definition MADB_GetDiagField (junk : list Z) (h : diag_handle) (RecNumber DiagIdentifier : Z)
    (DiagInfoPtr : option (list Z)) (BufferLength : Z) : Z * diag_info * Z :=
  let Err := handle_error h in
  let fail := (SQL_ERROR, DiagNothing, 0) in
  let number bytes v := (SQL_SUCCESS, DiagNumber bytes v, 0) in
  let string (Src : list Z) (SrcLength : Z) :=
    if BufferLength <? 0 then fail
    else
      let '(len, b, E) := MADB_SetString DiagInfoPtr BufferLength (Some Src) SrcLength (InternalError junk) in
      (ReturnValue E, DiagString b, wraps 16 len) in
  let is_stmt := match h with HStmt _ _ _ _ => true | _ => false end in
  if 1 <? RecNumber then (SQL_NO_DATA, DiagNothing, 0)
  else if case DiagIdentifier [SQL_DIAG_CURSOR_ROW_COUNT] then
    match h with HStmt _ n _ _ => number 8 (default 0 n) | _ => fail end
  else if case DiagIdentifier [SQL_DIAG_DYNAMIC_FUNCTION] then
    if is_stmt then (SQL_SUCCESS, DiagNothing, 0) else fail
  else if case DiagIdentifier [SQL_DIAG_DYNAMIC_FUNCTION_CODE] then
    if is_stmt then number 4 0 else fail
  else if case DiagIdentifier [SQL_DIAG_NUMBER] then number 4 (if ReturnValue Err =? SQL_SUCCESS then 0 else 1)
  else if case DiagIdentifier [SQL_DIAG_RETURNCODE] then number 2 (ReturnValue Err)
  else if case DiagIdentifier [SQL_DIAG_ROW_COUNT] then
    match h with HStmt _ _ n _ => number 8 (default 0 n) | _ => fail end
  else if case DiagIdentifier [SQL_DIAG_CLASS_ORIGIN] then
    string (if starts_with (chars "IM") (SqlState Err) then chars "ODBC 3.0" else chars "ISO 9075") SQL_NTS
  else if case DiagIdentifier [SQL_DIAG_COLUMN_NUMBER] then number 4 SQL_COLUMN_NUMBER_UNKNOWN
  else if case DiagIdentifier [SQL_DIAG_CONNECTION_NAME] then
    if BufferLength <? 0 then fail else (SQL_SUCCESS, DiagNothing, 0)
  else if case DiagIdentifier [SQL_DIAG_MESSAGE_TEXT] then
    string (SqlErrorMsg Err) (Z.of_nat (length (cstr (SqlErrorMsg Err))))
  else if case DiagIdentifier [SQL_DIAG_NATIVE] then number 4 (NativeError Err)
  else if case DiagIdentifier [SQL_DIAG_ROW_NUMBER] then
    if negb is_stmt || (RecNumber <? 1) then fail else number 8 SQL_ROW_NUMBER_UNKNOWN
  else if case DiagIdentifier [SQL_DIAG_SERVER_NAME] then
    let ServerName := match h with HStmt _ _ _ s | HDbc _ s => default [] s | _ => [] end in
    string ServerName (Z.of_nat (length (cstr ServerName)))
  else if case DiagIdentifier [SQL_DIAG_SQLSTATE] then string (SqlState Err) (Z.of_nat (length (SqlState Err)))
  else if case DiagIdentifier [SQL_DIAG_SUBCLASS_ORIGIN] then string (chars "ODBC 3.0") 8
  else fail.

(** ** The environment *)

Record MADB_Env := MkEnv { OdbcVersion : Z; Dbcs : list positive; env_Error : MADB_Error }.

Definition MADB_EnvSetAttr (Env : MADB_Env) (Attribute ValuePtr : Z) : Z * MADB_Env :=
  let E := MADB_CLEAR_ERROR (env_Error Env) in
  let done v E := (ReturnValue E, MkEnv v (Dbcs Env) E) in
  let keep := done (OdbcVersion Env) in
  if case Attribute [SQL_ATTR_ODBC_VERSION] then
    match Dbcs Env with
    | _ :: _ => keep (MADB_SetError E MADB_ERR_HYC00 None 0)
    | [] => done (wraps 32 ValuePtr) E
    end
  else if case Attribute [SQL_ATTR_OUTPUT_NTS] then
    keep (if wraps 32 ValuePtr =? SQL_TRUE then E else MADB_SetError E MADB_ERR_S1C00 None 0)
  else keep (MADB_SetError E MADB_ERR_HYC00 None 0).

(** [MADB_EnvGetAttr]: the code, the value written if any, the environment. *)
Definition MADB_EnvGetAttr (Env : MADB_Env) (Attribute : Z) : Z * option Z * MADB_Env :=
  let E := MADB_CLEAR_ERROR (env_Error Env) in
  let done v E := (ReturnValue E, v, MkEnv (OdbcVersion Env) (Dbcs Env) E) in
  if case Attribute [SQL_ATTR_CONNECTION_POOLING] then done (Some SQL_CP_OFF) E
  else if case Attribute [SQL_ATTR_ODBC_VERSION] then done (Some (OdbcVersion Env)) E
  else if case Attribute [SQL_ATTR_OUTPUT_NTS] then done (Some SQL_TRUE) E
  else done None (MADB_SetError E MADB_ERR_HYC00 None 0).

End Diag.

(** ** Properties *)

Module DiagProps.
Import Diag.

Lemma strncpy_whole d src n : length d = n -> strncpy d 0 src n = take n (src ++ replicate n 0).
Proof.
  intros <-. unfold strncpy. rewrite ErrorProps.store_in, ErrorProps.length_padded, drop_ge, take_0 by lia. by rewrite app_nil_r.
Qed.

(** A string copied into a buffer of [n > 0] bytes: the buffer keeps its size and
    holds the longest prefix that fits, terminated; the length returned is that of
    the whole string. *)
Lemma MADB_SetString_spec d src E :
  (0 < length d)%nat ->
  exists d', MADB_SetString (Some d) (Z.of_nat (length d)) (Some src) (Z.of_nat (length (cstr src))) E
    = (Z.of_nat (length (cstr src)), Some d',
       if (length d <=? length (cstr src))%nat then MADB_SetError E MADB_ERR_01004 None 0 else E) /\
    length d' = length d /\ cstr d' = take (length d - 1) (cstr src).
Proof.
  intros Hd. unfold MADB_SetString. rewrite (proj2 (Z.eqb_neq _ SQL_NTS)) by (unfold SQL_NTS; lia).
  rewrite (proj2 (Z.eqb_neq _ 0)) by lia. cbn [default from_option id].
  set (s := cstr src). assert (Forall (fun c => c <> 0) s) as Hs by apply cstr_nonzero. clearbody s.
  destruct (bool_decide_reflect (s = [])) as [->|Hne].
  - rewrite orb_true_r, (proj2 (Nat.leb_gt (length d) _)) by (cbn; lia). eexists. split; [reflexivity|]. rewrite length_insert. split; [done|].
    destruct d as [|c d]; [cbn in Hd; lia|]. cbn. by destruct (length d).
  - assert (0 < length s)%nat as Hs0 by (destruct s; [done|cbn; lia]).
    rewrite (proj2 (Z.eqb_neq _ 0)) by lia. cbn [orb]. rewrite Nat2Z.id, strncpy_whole by done.
    assert (Z.to_nat (Z.min (Z.of_nat (length s)) (Z.of_nat (length d) - 1)) = Nat.min (length s) (length d - 1)) as -> by lia.
    set (k := Nat.min (length s) (length d - 1)).
    assert ((Z.of_nat (length d) <=? Z.of_nat (length s)) = (length d <=? length s)%nat) as ->
      by (destruct (Z.leb_spec (Z.of_nat (length d)) (Z.of_nat (length s))), (Nat.leb_spec (length d) (length s)); lia).
    eexists. split; [reflexivity|].
    assert (length (take (length d) (s ++ replicate (length d) 0)) = length d) as Hl
      by (rewrite length_take, length_app, length_replicate; lia).
    rewrite length_insert. split; [exact Hl|]. rewrite insert_take_drop by lia.
    assert (take k (take (length d) (s ++ replicate (length d) 0)) = take k s) as ->
      by (rewrite take_take, take_app_le by lia; f_equal; lia).
    rewrite cstr_app_nul by by apply Forall_take. unfold k.
    destruct (Nat.le_gt_cases (length s) (length d - 1)); [rewrite !take_ge by lia; done|f_equal; lia].
Qed.

(** A record with an error or a warning. *)
Definition has_record (Err : MADB_Error) : Prop := ReturnValue Err <> SQL_SUCCESS.

(** [MADB_GetDiagRec] on the first record, with a state buffer of six bytes and
    a message buffer of [n > 0] bytes, for an ODBC 3 application: the state is
    returned whole; the message is cut to the buffer and terminated; the
    length reported is that of the whole message; the code is a success, with
    information exactly when the message did not fit. *)
Theorem MADB_GetDiagRec_correct junk Err st msg v :
  ErrorProps.error_wf Err -> has_record Err -> length (SqlState Err) = SQL_SQLSTATE_SIZE ->
  Forall (fun c => c <> 0) (SqlState Err) ->
  v <> SQL_OV_ODBC2 -> length st = (SQL_SQLSTATE_SIZE + 1)%nat -> (0 < length msg)%nat ->
  exists st' msg',
    MADB_GetDiagRec junk Err 1 (Some st) (Some msg) true true (Z.of_nat (length msg)) v
      = ((if (length msg <=? length (cstr (SqlErrorMsg Err)))%nat then SQL_SUCCESS_WITH_INFO else SQL_SUCCESS),
         Some (MkDiagRec (Some st') (Some (NativeError Err)) (Some msg')
                 (Some (Z.of_nat (length (cstr (SqlErrorMsg Err))))))) /\
    length st' = length st /\ cstr st' = SqlState Err /\
    length msg' = length msg /\ cstr msg' = take (length msg - 1) (cstr (SqlErrorMsg Err)).
Proof.
  intros (Hl & _ & _ & _) Hr Hs5 Hsz Hv Hst Hmsg. unfold MADB_GetDiagRec.
  rewrite (proj2 (Z.eqb_neq _ _) Hr). change (1 <? 1) with false. cbn [orb].
  rewrite (proj2 (Z.ltb_ge _ _)) by lia. rewrite (proj2 (Z.eqb_neq _ _) Hv).
  rewrite <- Hst. destruct (MADB_SetString_spec st (SqlState Err) (InternalError junk)) as (st' & E1 & L1 & C1);
    [rewrite Hst; cbn; lia|].
  rewrite (cstr_id _ Hsz), Hs5 in *. rewrite E1. rewrite (proj2 (Nat.leb_gt (length st) SQL_SQLSTATE_SIZE)) by (rewrite Hst; lia).
  destruct (MADB_SetString_spec msg (SqlErrorMsg Err) (InternalError junk)) as (msg' & E2 & L2 & C2); [done|].
  rewrite E2. rewrite (bool_decide_eq_false_2 (Some msg = None)) by done.
  rewrite (proj2 (Z.eqb_neq (Z.of_nat (length msg)) 0)) by lia. cbn [orb].
  exists st', msg'. pose proof (length_cstr (SqlErrorMsg Err)). rewrite Hl in *.
  rewrite (wraps_id 16) by (cbn in *; lia). split.
  - f_equal. by destruct (length msg <=? length (cstr (SqlErrorMsg Err)))%nat.
  - rewrite C1, take_ge by (rewrite Hst, Hs5; lia). by rewrite L1.
Qed.

Lemma MADB_GetDiagRec_correct_witness :
  exists st' msg',
    MADB_GetDiagRec [] (MADB_SetError ErrorProps.zero_error MADB_ERR_HY001 None 0) 1 (Some (replicate 6 1))
      (Some (replicate 7 1)) true true 7 SQL_OV_ODBC3
      = (SQL_SUCCESS_WITH_INFO, Some (MkDiagRec (Some st') (Some 0) (Some msg') (Some 23))) /\
    cstr st' = chars "HY001" /\ cstr msg' = chars "Memory".
Proof.
  destruct (MADB_GetDiagRec_correct [] (MADB_SetError ErrorProps.zero_error MADB_ERR_HY001 None 0)
    (replicate 6 1) (replicate 7 1) SQL_OV_ODBC3) as (st' & msg' & E & _ & H1 & _ & H2);
    [vm_compute; repeat split; lia|vm_compute; discriminate|reflexivity|
     apply (bool_decide_eq_true_1 _); vm_compute; reflexivity|done|reflexivity|cbn; lia|].
  exists st', msg'. split; [exact E|]. split; [rewrite H1|rewrite H2]; vm_compute; reflexivity.
Defined.

(** Setting an environment attribute and reading it back: the ODBC version set
    while there is no connection is returned, with a connection it is refused with
    HYC00 and unchanged; both calls leave a clean or a fresh error. *)
Theorem MADB_Env_version_roundtrip Env v :
  - 2 ^ 31 <= v < 2 ^ 31 ->
  let '(rc, Env') := MADB_EnvSetAttr Env SQL_ATTR_ODBC_VERSION v in
  MADB_EnvGetAttr Env' SQL_ATTR_ODBC_VERSION
    = (SQL_SUCCESS, Some (if bool_decide (Dbcs Env = []) then v else OdbcVersion Env),
       MkEnv (OdbcVersion Env') (Dbcs Env) (MADB_CLEAR_ERROR (env_Error Env'))) /\
  (rc = SQL_SUCCESS <-> Dbcs Env = []) /\ (rc = SQL_ERROR <-> Dbcs Env <> []).
Proof.
  intros Hv. unfold MADB_EnvSetAttr, MADB_EnvGetAttr. cbn [case existsb].
  destruct (Dbcs Env) as [|c l] eqn:E; cbn [case existsb].
  - cbn. rewrite wraps_id by lia. done.
  - cbn. split_and!; try done.
Qed.

Lemma MADB_Env_version_roundtrip_witness :
  MADB_EnvGetAttr (snd (MADB_EnvSetAttr (MkEnv 0 [] ErrorProps.zero_error) SQL_ATTR_ODBC_VERSION 3)) SQL_ATTR_ODBC_VERSION
    = (SQL_SUCCESS, Some 3, MkEnv 3 [] (MADB_CLEAR_ERROR (MADB_CLEAR_ERROR ErrorProps.zero_error))).
Proof. apply (MADB_Env_version_roundtrip (MkEnv 0 [] ErrorProps.zero_error) 3). lia. Defined.

End DiagProps.
