(* ===== verification/Dynamic.v ===== *)
(** * Dynamic: growing strings and arrays

    Models [MADB_DynString] and [MADB_DynArray] of [ma_legacy_helpers.c].  The
    allocated block is explicit, [malloc] and [realloc] succeed or fail by an
    argument [ok], fresh memory holds an unknown byte, sizes wrap at their
    width, and a store outside the block has no result ([None]). *)

From stdpp Require Import base list strings numbers option.
From Stdlib Require Import ZArith Lia.
From S2P Require Import Prelude.

Module DynString.

Record MADB_DynString := Dyn {
  str : option (list Z);
  length_ : Z;
  max_length : Z;
  alloc_increment : Z;
}.

(** [memcpy] into an allocated block; outside of it the behaviour is undefined. *)
Definition memcpy (b : list Z) (p : Z) (src : list Z) : option (list Z) :=
  if (0 <=? p) && (p + Z.of_nat (length src) <=? Z.of_nat (length b))
  then Some (blit b (Z.to_nat p) src) else None.

Section ops.
(** The unknown content of fresh memory. *)
Variable junk : Z.

Definition malloc (ok : bool) (n : Z) : option (list Z) :=
  if ok then Some (replicate (Z.to_nat n) junk) else None.

Definition realloc (ok : bool) (b : option (list Z)) (n : Z) : option (list Z) :=
  if ok then
    let old := default [] b in
    Some (take (Z.to_nat n) old ++ replicate (Z.to_nat n - length old) junk)
  else None.

(** Results: [None] for undefined behaviour, else the returned [my_bool]
    (TRUE on failure) and the new structure. *)
Definition MADB_InitDynamicString (ok : bool) (init_str : option (list Z))
    (init_alloc alloc_inc : Z) : option (bool * MADB_DynString) :=
  let inc := if alloc_inc =? 0 then 128 else alloc_inc in
  let len := match init_str with
             | None => 1
             | Some s => wrapu 32 (Z.of_nat (length s) + 1)
             end in
  let alloc1 :=
    match init_str with
    | Some _ => if len <? init_alloc then wrapu 64 ((len + inc - 1) / inc * inc) else init_alloc
    | None => init_alloc
    end in
  let alloc := if alloc1 =? 0 then inc else alloc1 in
  match malloc ok alloc with
  | None => Some (true, Dyn None 0 0 0)
  | Some b =>
      match init_str with
      | None => Some (false, Dyn (Some b) (wrapu 32 (len - 1)) alloc inc)
      | Some s =>
          b' ← memcpy b 0 (take (Z.to_nat len) (s ++ [0]));
          Some (false, Dyn (Some b') (wrapu 32 (len - 1)) alloc inc)
      end
  end.

Definition MADB_DynstrSet (ok : bool) (d : MADB_DynString) (init_str : option (list Z))
    : option (bool * MADB_DynString) :=
  match init_str with
  | None => Some (false, Dyn (str d) 0 (max_length d) (alloc_increment d))
  | Some s =>
      let len := wrapu 32 (Z.of_nat (length s) + 1) in
      let src := take (Z.to_nat len) (s ++ [0]) in
      if max_length d <? len then
        let inc := alloc_increment d in
        let m1 := wrapu 64 ((len + inc - 1) / inc * inc) in
        let m := if m1 =? 0 then inc else m1 in
        match realloc ok (str d) m with
        | None => Some (true, Dyn None (length_ d) m inc)
        | Some b =>
            b' ← memcpy b 0 src;
            Some (false, Dyn (Some b') (wrapu 32 (len - 1)) m inc)
        end
      else
        b' ← memcpy (default [] (str d)) 0 src;
        Some (false, Dyn (Some b') (wrapu 32 (len - 1)) (max_length d) (alloc_increment d))
  end.

Definition MADB_DynstrRealloc (ok : bool) (d : MADB_DynString) (additional_size : Z)
    : bool * MADB_DynString :=
  if additional_size =? 0 then (false, d)
  else if max_length d <? wrapu 64 (length_ d + additional_size) then
    let inc := alloc_increment d in
    let m := wrapu 64 (wrapu 64 (length_ d + additional_size + inc - 1) / inc * inc) in
    match realloc ok (str d) m with
    | None => (true, Dyn None (length_ d) m inc)
    | Some b => (false, Dyn (Some b) (length_ d) m inc)
    end
  else (false, d).

Definition MADB_DynstrAppendMem (ok : bool) (d : MADB_DynString) (append : list Z)
    : option (bool * MADB_DynString) :=
  let n := Z.of_nat (length append) in
  let inc := alloc_increment d in
  let grown :=
    if max_length d <=? wrapu 64 (length_ d + n) then
      let new_length := wrapu 64 (wrapu 64 (length_ d + n + inc) / inc * inc) in
      match realloc ok (str d) new_length with
      | None => None
      | Some b => Some (Dyn (Some b) (length_ d) new_length inc)
      end
    else Some d in
  match grown with
  | None => Some (true, d)
  | Some d1 =>
      b1 ← memcpy (default [] (str d1)) (length_ d1) append;
      b2 ← memcpy b1 (length_ d1 + n) [0];
      Some (false, Dyn (Some b2) (wrapu 64 (length_ d1 + n)) (max_length d1) inc)
  end.

Definition MADB_DynstrAppend (ok : bool) (d : MADB_DynString) (append : list Z)
    : option (bool * MADB_DynString) :=
  MADB_DynstrAppendMem ok d append.

Definition MADB_DynstrFree (d : MADB_DynString) : MADB_DynString :=
  Dyn None (length_ d) (max_length d) (alloc_increment d).
End ops.

(** [MADB_DynstrMake(dst, src, length)]: the bytes written and the offset returned. *)
Fixpoint MADB_DynstrMake (src : list Z) (n : nat) : list Z * nat :=
  match n with
  | O => ([0], 0%nat)
  | S n' =>
      let c := rd src 0 in
      if c =? 0 then ([0], 0%nat)
      else let '(w, e) := MADB_DynstrMake (drop 1 src) n' in (c :: w, S e)
  end.

(** ** Abstraction: the byte string the structure stands for. *)

Definition contents (d : MADB_DynString) : list Z :=
  take (Z.to_nat (length_ d)) (default [] (str d)).

(** The representation invariant: the block has the recorded size, holds the
    string and one more byte for the terminator, which is in place. *)
Definition wf (d : MADB_DynString) : Prop :=
  exists b, str d = Some b /\ Z.of_nat (length b) = max_length d /\
    0 <= length_ d < max_length d /\ max_length d < 2 ^ 63 /\
    0 < alloc_increment d < 2 ^ 32 /\
    rd b (Z.to_nat (length_ d)) = 0.

Lemma memcpy_Some b p src :
  0 <= p -> p + Z.of_nat (length src) <= Z.of_nat (length b) ->
  memcpy b p src = Some (blit b (Z.to_nat p) src).
Proof.
  intros H1 H2. unfold memcpy.
  by rewrite (proj2 (Z.leb_le _ _) H1), (proj2 (Z.leb_le _ _) H2).
Qed.

Lemma take_blit (b : list Z) p src :
  (p + length src <= length b)%nat -> take (p + length src) (blit b p src) = take p b ++ src.
Proof.
  intros H. unfold blit. rewrite (take_ge src) by lia.
  rewrite app_assoc, take_app_le by (rewrite length_app, length_take; lia).
  apply take_ge. rewrite length_app, length_take. lia.
Qed.

Lemma rd_blit_last (b : list Z) p c : (p < length b)%nat -> rd (blit b p [c]) p = c.
Proof.
  intros H. unfold blit, rd. rewrite (take_ge [c]) by (simpl; lia).
  rewrite lookup_app_r by (rewrite length_take; lia).
  rewrite length_take, Nat.min_l, Nat.sub_diag by lia. done.
Qed.

Lemma take_blit_before (b : list Z) p src n :
  (n <= p)%nat -> (p <= length b)%nat -> take n (blit b p src) = take n b.
Proof.
  intros H1 H2. unfold blit. rewrite take_app_le by (rewrite length_take; lia).
  rewrite take_take. f_equal. lia.
Qed.

(** The two stores of an append: the bytes, then the terminator. *)
Lemma append_store b l x :
  (l + length x < length b)%nat ->
  exists b2,
    (b1 ← memcpy b (Z.of_nat l) x; memcpy b1 (Z.of_nat l + Z.of_nat (length x)) [0]) = Some b2 /\
    length b2 = length b /\ take (l + length x) b2 = take l b ++ x /\ rd b2 (l + length x) = 0.
Proof.
  intros H. rewrite memcpy_Some by lia. simpl mbind. rewrite Nat2Z.id.
  assert (length (blit b l x) = length b) as Hl by (apply length_blit; lia).
  rewrite memcpy_Some by (rewrite ?Hl; simpl; lia).
  replace (Z.to_nat (Z.of_nat l + Z.of_nat (length x))) with (l + length x)%nat by lia.
  eexists. split; [done|]. split; [|split].
  - rewrite length_blit; lia.
  - rewrite take_blit_before by lia. apply take_blit. lia.
  - apply rd_blit_last. lia.
Qed.

Lemma grown_length_bound l n inc :
  0 <= l -> 0 <= n -> 0 < inc < 2 ^ 32 -> l + n < 2 ^ 62 ->
  let m := wrapu 64 (wrapu 64 (l + n + inc) / inc * inc) in l + n < m < 2 ^ 63.
Proof.
  intros Hl Hn Hinc Hb m. unfold m.
  rewrite (wrapu_id 64 (l + n + inc)) by lia.
  pose proof (Z.div_mod (l + n + inc) inc ltac:(lia)).
  pose proof (Z.mod_pos_bound (l + n + inc) inc ltac:(lia)).
  rewrite wrapu_id; nia.
Qed.

(** The tail of an append, once the block has room. *)
Lemma append_finish b l m inc x :
  0 <= l -> l + Z.of_nat (length x) < m < 2 ^ 63 -> Z.of_nat (length b) = m -> 0 < inc < 2 ^ 32 ->
  exists d',
    (b1 ← memcpy b l x; b2 ← memcpy b1 (l + Z.of_nat (length x)) [0];
     Some (false, Dyn (Some b2) (wrapu 64 (l + Z.of_nat (length x))) m inc)) = Some (false, d') /\
    wf d' /\ contents d' = take (Z.to_nat l) b ++ x.
Proof.
  intros Hl Hm Hb Hinc.
  destruct (append_store b (Z.to_nat l) x) as (b2 & Hst & H1 & H2 & H3); [lia|].
  rewrite Z2Nat.id in Hst by lia.
  destruct (memcpy b l x) as [b1|]; simpl in *; [|done]. rewrite Hst. simpl.
  assert (Z.to_nat (l + Z.of_nat (length x)) = Z.to_nat l + length x)%nat as Heq by lia.
  eexists. split; [done|]. rewrite (wrapu_id 64) by lia. split.
  - exists b2. simpl. rewrite Heq. by repeat split; try lia.
  - unfold contents. simpl. by rewrite Heq.
Qed.

(** Appending refines concatenation: on a well-formed string, when the
    allocator answers, [MADB_DynstrAppendMem] makes no store outside its block,
    keeps the invariant and the string becomes the old one followed by the
    appended bytes; when the allocator fails the old string is left untouched. *)
Lemma MADB_DynstrAppendMem_refines junk ok d x :
  wf d -> length_ d + Z.of_nat (length x) < 2 ^ 62 ->
  exists failed d',
    MADB_DynstrAppendMem junk ok d x = Some (failed, d') /\ wf d' /\
    (failed = true -> ok = false /\ d' = d) /\
    (failed = false -> contents d' = contents d ++ x).
Proof.
  intros Hwf Hx. pose proof Hwf as (b & Hb & Hlen & [Hl0 Hl1] & Hm & Hinc & Hnul).
  unfold MADB_DynstrAppendMem, contents. rewrite (wrapu_id 64 (length_ d + _)) by lia.
  rewrite Hb. simpl default.
  destruct (Z.leb_spec (max_length d) (length_ d + Z.of_nat (length x))) as [Hg|Hg].
  - destruct ok; cbn [realloc default length_ max_length str]; [|by exists true, d].
    pose proof (grown_length_bound (length_ d) (Z.of_nat (length x)) (alloc_increment d)
                  Hl0 ltac:(lia) Hinc Hx) as Hm'; cbv zeta in Hm'.
    set (m := wrapu 64 _) in *. unfold id.
    destruct (append_finish (take (Z.to_nat m) b ++ replicate (Z.to_nat m - length b) junk)
                (length_ d) m (alloc_increment d) x) as (d' & -> & Hd & Hc); try done.
    { rewrite length_app, length_take, length_replicate. lia. }
    exists false, d'. repeat split; try done. intros _. etransitivity; [exact Hc|]. f_equal.
    simpl. rewrite take_app_le by (rewrite length_take; lia). rewrite take_take. f_equal. lia.
  - rewrite Hb. cbn [default]. unfold id. destruct (append_finish b (length_ d) (max_length d) (alloc_increment d) x)
      as (d' & -> & Hd & Hc); try done.
    by exists false, d'.
Qed.

(** Both cases of an initial string. *)
Lemma MADB_InitDynamicString_cases junk s a inc :
  Z.of_nat (length s) + 1 < 2 ^ 32 -> 0 <= a < 2 ^ 32 -> 0 < inc < 2 ^ 32 ->
  let need := Z.of_nat (length s) + 1 in
  let unsafe := a < need /\ (a = 0 -> inc < need) in
  (unsafe -> MADB_InitDynamicString junk true (Some s) a inc = None) /\
  (~ unsafe -> exists d, MADB_InitDynamicString junk true (Some s) a inc = Some (false, d) /\
                 wf d /\ contents d = s).
Proof.
  intros Hs Ha Hinc need unsafe. unfold MADB_InitDynamicString.
  rewrite (proj2 (Z.eqb_neq inc 0)) by lia. rewrite (wrapu_id 32 (Z.of_nat (length s) + 1)) by lia.
  fold need. rewrite take_ge by (rewrite length_app; simpl; unfold need; lia).
  pose proof (Z.div_mod (need + inc - 1) inc ltac:(lia)) as Hdm.
  pose proof (Z.mod_pos_bound (need + inc - 1) inc ltac:(lia)) as Hmb.
  set (r := (need + inc - 1) / inc * inc) in *.
  assert (need <= r < 2 ^ 34) as Hr by (unfold need in *; lia).
  rewrite (wrapu_id 64 r) by lia. cbn [malloc].
  assert (Z.of_nat (length (s ++ [0])) = need) as Hlen by (rewrite length_app; simpl; unfold need; lia).
  set (alloc := if (if need <? a then r else a) =? 0 then inc else if need <? a then r else a).
  assert (0 <= alloc < 2 ^ 34 /\ (unsafe <-> alloc < need)) as [Hal Hsafe].
  { unfold alloc, unsafe. destruct (Z.ltb_spec need a); destruct (Z.eqb_spec (if need <? a then r else a) 0);
      repeat case_match; bprop; try lia. }
  unfold memcpy. rewrite length_replicate, Hlen, Z2Nat.id by lia. rewrite Z.leb_refl, Z.add_0_l.
  split; intros H.
  - apply Hsafe in H. by rewrite (proj2 (Z.leb_gt _ _)).
  - assert (need <= alloc) as Hge by (destruct (Z.le_gt_cases need alloc); [done|tauto]).
    rewrite (proj2 (Z.leb_le _ _) Hge). simpl mbind. cbn [andb].
    eexists. split; [done|]. unfold need. replace (Z.of_nat (length s) + 1 - 1) with (Z.of_nat (length s)) by lia.
    rewrite wrapu_id by lia. split.
    + eexists. split; [reflexivity|]. cbn [length_ max_length alloc_increment]. rewrite length_blit by lia.
      rewrite length_replicate, Nat2Z.id.
      repeat split; try (unfold need in *; lia).
      unfold blit, rd. rewrite take_0, Nat.sub_0_r, length_replicate. simpl.
      rewrite take_ge by lia. rewrite lookup_app_l by (rewrite length_app; simpl; lia).
      rewrite lookup_app_r, Nat.sub_diag by lia. done.
    + unfold contents. simpl. rewrite Nat2Z.id. unfold blit.
      rewrite take_0, Nat.sub_0_r, length_replicate. simpl. rewrite (take_ge (s ++ [0])) by lia.
      rewrite <- app_assoc. by rewrite take_app_length.
Qed.

(** [MADB_InitDynamicString] with an initial string either writes outside
    its block or produces a well-formed string with that content; it writes
    outside exactly when the requested allocation is smaller than the string
    with its terminator (a request of 0 stands for the increment). *)
Theorem MADB_InitDynamicString_safe_iff junk s a inc :
  Z.of_nat (length s) + 1 < 2 ^ 32 -> 0 <= a < 2 ^ 32 -> 0 < inc < 2 ^ 32 ->
  let need := Z.of_nat (length s) + 1 in
  let unsafe := a < need /\ (a = 0 -> inc < need) in
  (unsafe -> MADB_InitDynamicString junk true (Some s) a inc = None) /\
  (~ unsafe -> exists d, MADB_InitDynamicString junk true (Some s) a inc = Some (false, d) /\
                 wf d /\ contents d = s).
Proof. apply MADB_InitDynamicString_cases. Qed.

(** A chain of appends, as the statement builders write them with [||]: each
    step with the answer of the allocator, stopping at the first failure. *)
Fixpoint append_all (junk : Z) (d : MADB_DynString) (xs : list (bool * list Z))
    : option (bool * MADB_DynString) :=
  match xs with
  | [] => Some (false, d)
  | (ok, x) :: xs' =>
      '(failed, d') ← MADB_DynstrAppend junk ok d x;
      if (failed : bool) then Some (true, d') else append_all junk d' xs'
  end.

Lemma length_contents d : wf d -> Z.of_nat (length (contents d)) = length_ d.
Proof.
  intros (b & Hb & Hlen & Hl & _). unfold contents. rewrite Hb. simpl. rewrite length_take. lia.
Qed.

(** C39. Dynamic strings refine byte strings: a chain of appends on a well-formed
    string never stores outside the allocated block and keeps the invariant; if
    the allocator always answers, the result is the concatenation of all the
    pieces, and if it fails, the pieces before the failure are intact. *)
Theorem append_all_refines junk d xs :
  wf d -> length_ d + Z.of_nat (length (concat xs.*2)) < 2 ^ 62 ->
  exists failed d' k, append_all junk d xs = Some (failed, d') /\ wf d' /\
    contents d' = contents d ++ concat (take k xs.*2) /\
    (failed = false -> k = length xs) /\
    (failed = true -> xs.*1 !! k = Some false).
Proof.
  revert d. induction xs as [|[ok x] xs IH]; intros d Hd Hl; csimpl in *.
  - exists false, d, 0%nat. by rewrite app_nil_r.
  - rewrite length_app in Hl.
    destruct (MADB_DynstrAppendMem_refines junk ok d x) as (f & d1 & E & Hd1 & Hf & Hs); [done|lia|].
    unfold MADB_DynstrAppend. rewrite E. simpl. destruct f.
    + destruct Hf as [-> ->]; [done|]. exists true, d, 0%nat. by rewrite app_nil_r.
    + specialize (Hs eq_refl).
      assert (length_ d1 = length_ d + Z.of_nat (length x)) as El.
      { rewrite <- (length_contents d1), <- (length_contents d), Hs, length_app by done. lia. }
      destruct (IH d1 Hd1) as (f & d' & k & -> & Hd' & Hc' & H1 & H2); [lia|].
      exists f, d', (S k). simpl. rewrite Hc', Hs, <- app_assoc. repeat split; auto.
Qed.

Definition sample_string : MADB_DynString :=
  Dyn (Some (chars "INSERT INTO " ++ [0; 170; 170; 170])) 12 16 16.

Lemma sample_string_wf : wf sample_string.
Proof. eexists. split; [reflexivity|]. vm_compute. by repeat split. Qed.

Lemma append_all_refines_witness :
  exists failed d' k,
    append_all 170 sample_string [(true, chars "`t`"); (false, chars " SET a=?")] = Some (failed, d') /\
    wf d' /\ contents d' = contents sample_string ++ concat (take k [chars "`t`"; chars " SET a=?"]) /\
    (failed = false -> k = 2%nat) /\ (failed = true -> [true; false] !! k = Some false).
Proof.
  apply (append_all_refines 170 sample_string [(true, chars "`t`"); (false, chars " SET a=?")]);
    [apply sample_string_wf|by vm_compute].
Defined.

Lemma MADB_InitDynamicString_safe_iff_witness :
  MADB_InitDynamicString 170 true (Some (chars "INSERT INTO ")) 8 128 = None.
Proof.
  apply (MADB_InitDynamicString_safe_iff 170 (chars "INSERT INTO ") 8 128); by vm_compute.
Defined.

End DynString.

(** ** Arrays

    All offsets of [MADB_DynArray] are multiples of the element size, so the
    block is modelled by elements: it holds as many as fit in the bytes asked
    for, and that product is computed in 32 bits. *)

Module DynArray.
Section ops.
Context {A : Type}.
(** The all-zero-bytes element, the content of fresh memory, and sizeof. *)
Variables (zero junk : A) (element_size : Z).

Record MADB_DynArray := Arr {
  buffer : option (list A);
  elements : Z;
  max_element : Z;
  alloc_increment : Z;
}.

(** How many elements fit in a block of [n * element_size] bytes, the size
    taken modulo [2^32]. *)
Definition capacity (n : Z) : nat := Z.to_nat (wrapu 32 (element_size * n) / element_size).

Definition realloc_elems (ok : bool) (b : option (list A)) (n : Z) : option (list A) :=
  if ok then
    let old := default [] b in
    Some (take (capacity n) old ++ replicate (capacity n - length old) junk)
  else None.

Definition store (a : MADB_DynArray) (i : Z) (x : A) : option MADB_DynArray :=
  match buffer a with
  | Some b =>
      if (0 <=? i) && (i <? Z.of_nat (length b)) then
        Some (Arr (Some (<[Z.to_nat i := x]> b)) (elements a) (max_element a) (alloc_increment a))
      else None
  | None => None
  end.

Definition MADB_InitDynamicArray (ok : bool) (init_alloc alloc_inc : Z) : bool * MADB_DynArray :=
  let inc :=
    if alloc_inc =? 0 then
      let i0 := Z.max ((8192 - 8) / element_size) 16 in
      if (8 <? init_alloc) && (init_alloc * 2 <? i0) then init_alloc * 2 else i0
    else alloc_inc in
  let init := if init_alloc =? 0 then inc else init_alloc in
  match realloc_elems ok None init with
  | None => (true, Arr None 0 0 inc)
  | Some b => (false, Arr (Some b) 0 init inc)
  end.

(** [MADB_AllocDynamic]: the index of the new element, [None] for NULL. *)
Definition MADB_AllocDynamic (ok : bool) (a : MADB_DynArray) : option Z * MADB_DynArray :=
  if elements a =? max_element a then
    match realloc_elems ok (buffer a) (wrapu 32 (max_element a + alloc_increment a)) with
    | None => (None, a)
    | Some b =>
        (Some (elements a),
         Arr (Some b) (wrapu 32 (elements a + 1)) (wrapu 32 (max_element a + alloc_increment a))
           (alloc_increment a))
    end
  else (Some (elements a),
        Arr (buffer a) (wrapu 32 (elements a + 1)) (max_element a) (alloc_increment a)).

Definition MADB_InsertDynamic (ok : bool) (a : MADB_DynArray) (x : A) : option (bool * MADB_DynArray) :=
  if elements a =? max_element a then
    match MADB_AllocDynamic ok a with
    | (None, _) => Some (true, a)
    | (Some i, a') => a'' ← store a' i x; Some (false, a'')
    end
  else
    let i := elements a in
    a' ← store (Arr (buffer a) (wrapu 32 (i + 1)) (max_element a) (alloc_increment a)) i x;
    Some (false, a').

(** [MADB_PopDynamic]: the index of the element removed. *)
Definition MADB_PopDynamic (a : MADB_DynArray) : option Z * MADB_DynArray :=
  if elements a =? 0 then (None, a)
  else (Some (elements a - 1), Arr (buffer a) (elements a - 1) (max_element a) (alloc_increment a)).

(** [memset] of the elements from [i] to [j - 1] to zero. *)
Fixpoint zero_fill (a : MADB_DynArray) (i : Z) (n : nat) : option MADB_DynArray :=
  match n with
  | O => Some a
  | S n' => a' ← store a i zero; zero_fill a' (i + 1) n'
  end.

Definition MADB_SetDynamic (ok : bool) (a : MADB_DynArray) (x : A) (idx : Z)
    : option (bool * MADB_DynArray) :=
  if elements a <=? idx then
    let grown :=
      if max_element a <=? idx then
        let size := wrapu 32 (wrapu 32 (idx + alloc_increment a) / alloc_increment a * alloc_increment a) in
        match realloc_elems ok (buffer a) size with
        | None => None
        | Some b => Some (Arr (Some b) (elements a) size (alloc_increment a))
        end
      else Some a in
    match grown with
    | None => Some (true, a)
    | Some a1 =>
        a2 ← zero_fill a1 (elements a1) (Z.to_nat (idx - elements a1));
        a3 ← store (Arr (buffer a2) (wrapu 32 (idx + 1)) (max_element a2) (alloc_increment a2)) idx x;
        Some (false, a3)
    end
  else a' ← store a idx x; Some (false, a').

(** [MADB_GetDynamic]: [None] is a read outside the block. *)
Definition MADB_GetDynamic (a : MADB_DynArray) (idx : Z) : option A :=
  if elements a <=? idx then Some zero
  else match buffer a with Some b => b !! Z.to_nat idx | None => None end.

Definition MADB_DeleteDynamic (a : MADB_DynArray) : MADB_DynArray :=
  match buffer a with
  | Some _ => Arr None 0 0 (alloc_increment a)
  | None => a
  end.

(** [MADB_DeleteDynamicElement]: [memmove] of the tail over the element. *)
Definition MADB_DeleteDynamicElement (a : MADB_DynArray) (idx : Z) : MADB_DynArray :=
  let e := wrapu 32 (elements a - 1) in
  let n := Z.to_nat (wrapu 32 (e - idx)) in
  let i := Z.to_nat idx in
  let b := default [] (buffer a) in
  Arr (Some (take i b ++ take n (drop (S i) b) ++ drop (i + n) b)) e (max_element a) (alloc_increment a).

Definition MADB_FreezeSizeDynamic (ok : bool) (a : MADB_DynArray) : MADB_DynArray :=
  let n := Z.max (elements a) 1 in
  match buffer a with
  | Some _ =>
      if max_element a =? n then a
      else Arr (realloc_elems ok (buffer a) n) (elements a) n (alloc_increment a)
  | None => a
  end.

(** The sequence an array stands for, and its invariant. *)
Definition to_list (a : MADB_DynArray) : list A :=
  take (Z.to_nat (elements a)) (default [] (buffer a)).

Definition arr_wf (a : MADB_DynArray) : Prop :=
  exists b, buffer a = Some b /\ Z.of_nat (length b) = max_element a /\
    0 <= elements a <= max_element a /\ 0 < alloc_increment a /\
    element_size * (max_element a + alloc_increment a) < 2 ^ 32.

Hypothesis size_pos : 0 < element_size.

Lemma capacity_exact n : 0 <= n -> element_size * n < 2 ^ 32 -> capacity n = Z.to_nat n.
Proof.
  intros Hn Hb. unfold capacity. rewrite wrapu_id by nia.
  rewrite Z.mul_comm, Z.div_mul by lia. done.
Qed.

Lemma store_Some a b i x :
  buffer a = Some b -> 0 <= i < Z.of_nat (length b) ->
  store a i x = Some (Arr (Some (<[Z.to_nat i := x]> b)) (elements a) (max_element a) (alloc_increment a)).
Proof.
  intros Hb Hi. unfold store. rewrite Hb.
  by rewrite (proj2 (Z.leb_le _ _)), (proj2 (Z.ltb_lt _ _)) by lia.
Qed.

Lemma take_insert_snoc (b : list A) n x :
  (n < length b)%nat -> take (S n) (<[n := x]> b) = take n b ++ [x].
Proof.
  intros H. rewrite (take_S_r _ _ x) by (by apply list_lookup_insert_eq). by rewrite take_insert_ge by lia.
Qed.

(** Room for one more element, whichever branch provides it. *)
Lemma insert_room (b : list A) (n : Z) (x : A) :
  (Z.to_nat n < length b)%nat -> 0 <= n ->
  take (Z.to_nat (n + 1)) (<[Z.to_nat n := x]> b) = take (Z.to_nat n) b ++ [x].
Proof. intros. replace (Z.to_nat (n + 1)) with (S (Z.to_nat n)) by lia. by apply take_insert_snoc. Qed.

Lemma MADB_InsertDynamic_spec ok a x :
  arr_wf a -> element_size * (max_element a + 2 * alloc_increment a) < 2 ^ 32 ->
  exists failed a', MADB_InsertDynamic ok a x = Some (failed, a') /\ arr_wf a' /\
    alloc_increment a' = alloc_increment a /\
    max_element a' <= max_element a + alloc_increment a /\
    (failed = true -> ok = false /\ a' = a) /\
    (failed = false -> to_list a' = to_list a ++ [x]).
Proof.
  intros Hwf Hcap. pose proof Hwf as (b & Hb & Hlen & He & Hinc & Hm).
  assert (max_element a + 2 * alloc_increment a < 2 ^ 32) as Hm32 by nia.
  unfold MADB_InsertDynamic, MADB_AllocDynamic, to_list. rewrite Hb. cbn [default]. unfold id.
  destruct (Z.eqb_spec (elements a) (max_element a)) as [E|E].
  - destruct ok; cbn [realloc_elems]; [|exists true, a; by repeat split; try lia].
    rewrite (wrapu_id 32 (max_element a + _)), (wrapu_id 32 (elements a + 1)) by lia.
    cbn [default]. unfold id. rewrite capacity_exact by lia.
    set (b' := take _ b ++ _).
    assert (length b' = Z.to_nat (max_element a + alloc_increment a)) as Hb'
      by (unfold b'; rewrite length_app, length_take, length_replicate; lia).
    erewrite store_Some; [|reflexivity|lia]. cbn. eexists false, _. split; [done|]. split; [|cbn; repeat split; try lia; try done].
    + exists (<[Z.to_nat (elements a):=x]> b'). cbn. rewrite length_insert. by repeat split; try lia.
    + intros _. rewrite insert_room by lia. f_equal. unfold b'.
      rewrite take_app_le by (rewrite length_take; lia). rewrite take_take. f_equal. lia.
  - rewrite (wrapu_id 32 (elements a + 1)) by lia.
    erewrite store_Some; [|reflexivity|lia]. cbn. eexists false, _. split; [done|]. split; [|cbn; repeat split; try lia; try done].
    + exists (<[Z.to_nat (elements a):=x]> b). cbn. rewrite length_insert. by repeat split; try lia.
    + intros _. by apply insert_room; lia.
Qed.

(** Reading back: inside the array the element, outside the zero element. *)
Lemma MADB_GetDynamic_spec a idx :
  arr_wf a -> 0 <= idx ->
  MADB_GetDynamic a idx = Some (default zero (to_list a !! Z.to_nat idx)).
Proof.
  intros (b & Hb & Hlen & He & _) Hi. unfold MADB_GetDynamic, to_list. rewrite Hb. cbn. unfold id.
  destruct (Z.leb_spec (elements a) idx).
  - by rewrite lookup_take_ge by lia.
  - rewrite lookup_take_lt by lia. destruct (lookup_lt_is_Some_2 b (Z.to_nat idx)) as [v ->]; [lia|done].
Qed.

Lemma MADB_PopDynamic_spec a l x :
  arr_wf a -> to_list a = l ++ [x] ->
  exists i a', MADB_PopDynamic a = (Some i, a') /\ arr_wf a' /\ to_list a' = l /\
    default [] (buffer a') !! Z.to_nat i = Some x.
Proof.
  intros (b & Hb & Hlen & He & Hinc & Hm) Hl. unfold to_list in *. rewrite Hb in Hl. cbn in Hl. unfold id in Hl.
  assert (length (take (Z.to_nat (elements a)) b) = Z.to_nat (elements a)) as HL by (rewrite length_take; lia).
  rewrite Hl, length_app in HL. simpl in HL.
  unfold MADB_PopDynamic. rewrite (proj2 (Z.eqb_neq _ _)) by lia.
  eexists _, _. split; [done|]. cbn. rewrite Hb. cbn. unfold id.
  assert (Z.to_nat (elements a - 1) = length l) as -> by lia.
  split; [|split].
  - exists b. cbn. by repeat split; try lia.
  - replace (take (length l) b) with (take (length l) (take (Z.to_nat (elements a)) b))
      by (rewrite take_take; f_equal; lia). rewrite Hl. apply take_app_length.
  - rewrite <- (lookup_take_lt b (Z.to_nat (elements a))) by lia.
    rewrite Hl, lookup_app_r, Nat.sub_diag by lia. done.
Qed.

Lemma MADB_DeleteDynamicElement_spec a idx :
  arr_wf a -> 0 <= idx < elements a -> elements a < 2 ^ 32 ->
  to_list (MADB_DeleteDynamicElement a idx) = delete (Z.to_nat idx) (to_list a).
Proof.
  intros (b & Hb & Hlen & He & _) Hi H32. unfold MADB_DeleteDynamicElement, to_list.
  rewrite Hb. cbn. unfold id. rewrite (wrapu_id 32 (elements a - 1)) by lia. rewrite wrapu_id by lia.
  rewrite delete_take_drop.
  set (i := Z.to_nat idx). set (n := Z.to_nat (elements a - 1 - idx)).
  replace (Z.to_nat (elements a - 1)) with (i + n)%nat by lia.
  replace (Z.to_nat (elements a)) with (S i + n)%nat by lia.
  rewrite app_assoc, take_app_le, take_ge by (rewrite length_app, !length_take, length_drop; lia).
  rewrite take_take, Nat.min_l by lia. f_equal. by rewrite skipn_firstn_comm, Nat.add_comm, Nat.add_sub.
Qed.

(** Pushing a list of elements, as the query parser does for its tokens. *)
Fixpoint insert_all (a : MADB_DynArray) (xs : list A) : option (bool * MADB_DynArray) :=
  match xs with
  | [] => Some (false, a)
  | x :: xs' =>
      '(failed, a') ← MADB_InsertDynamic true a x;
      if (failed : bool) then Some (true, a') else insert_all a' xs'
  end.

(** Dynamic arrays refine sequences: pushing elements one by one extends
    the sequence in order, keeps the invariant without a store outside the
    block, and [MADB_GetDynamic] reads every element back, and the zero
    element past the end. *)
Theorem insert_all_get a xs :
  arr_wf a ->
  element_size * (max_element a + (1 + Z.of_nat (length xs)) * alloc_increment a) < 2 ^ 32 ->
  exists a', insert_all a xs = Some (false, a') /\ arr_wf a' /\ to_list a' = to_list a ++ xs /\
    forall idx, 0 <= idx ->
      MADB_GetDynamic a' idx = Some (default zero ((to_list a ++ xs) !! Z.to_nat idx)).
Proof.
  revert a. induction xs as [|x xs IH]; intros a Hwf Hb.
  - exists a. rewrite app_nil_r. repeat split; try done. intros. by apply MADB_GetDynamic_spec.
  - cbn [insert_all]. pose proof Hwf as (b & _ & _ & _ & Hinc & _).
    destruct (MADB_InsertDynamic_spec true a x) as (f & a1 & -> & Hwf1 & Hi & Hm & Hf & Hs); [done|cbn in Hb; nia|].
    destruct f; [by destruct Hf|]. cbn. specialize (Hs eq_refl).
    destruct (IH a1 Hwf1) as (a' & -> & Hwf' & Hl & Hg); [rewrite Hi; cbn in Hb; nia|].
    exists a'. rewrite Hs in *. rewrite <- app_assoc in *. done.
Qed.
End ops.

Arguments MADB_DynArray : clear implicits.

Lemma insert_all_get_witness :
  exists a', insert_all 255 4 (Arr (Some [7; 255]) 1 2 2) [10; 20; 30] = Some (false, a') /\
    arr_wf 4 a' /\ to_list a' = [7; 10; 20; 30] /\
    forall idx, 0 <= idx ->
      MADB_GetDynamic 0 a' idx = Some (default 0 ([7; 10; 20; 30] !! Z.to_nat idx)).
Proof.
  apply (insert_all_get 0 255 4 ltac:(lia) (Arr (Some [7; 255]) 1 2 2) [10; 20; 30]).
  - exists [7; 255]. by repeat split.
  - by vm_compute.
Defined.

End DynArray.
