(* ===== verification/LinkedList.v ===== *)
(** * LinkedList: the doubly linked lists of handles

    Models [MADB_List] of [ma_legacy_helpers.c], which chains the connections of
    an environment and the statements and descriptors of a connection.  Nodes
    live in a heap; a pointer is NULL or a location, and an access through a
    pointer that is not in the heap has no result. *)

From Stdlib Require Import ZArith Lia.
From stdpp Require Import base numbers option gmap list.

Section lists.
Context {V : Type}.

Abbreviation loc := positive.

Record MADB_List := Node { prev : option loc; next : option loc; data : V }.

Abbreviation heap := (gmap loc MADB_List).

Definition set_prev (h : heap) (p q : option loc) : option heap :=
  match p with
  | None => None
  | Some x => match h !! x with
              | Some n => Some (<[x := Node q (next n) (data n)]> h)
              | None => None
              end
  end.

Definition set_next (h : heap) (p q : option loc) : option heap :=
  match p with
  | None => None
  | Some x => match h !! x with
              | Some n => Some (<[x := Node (prev n) q (data n)]> h)
              | None => None
              end
  end.

Definition get (h : heap) (p : option loc) : option MADB_List := x ← p; h !! x.

(** [MADB_ListAdd]: the heap and the new root. *)
Definition MADB_ListAdd (h : heap) (root : option loc) (element : loc) : option (heap * option loc) :=
  h2 ←
    match root with
    | Some _ =>
        r ← get h root;
        h0 ← match prev r with
             | Some _ => set_next h (prev r) (Some element)
             | None => Some h
             end;
        h1 ← set_prev h0 (Some element) (prev r);
        set_prev h1 root (Some element)
    | None => set_prev h (Some element) None
    end;
  h3 ← set_next h2 (Some element) root;
  Some (h3, Some element).

(** [MADB_ListDelete]: the heap and the root. *)
Definition MADB_ListDelete (h : heap) (root : option loc) (element : loc) : option (heap * option loc) :=
  e ← h !! element;
  '(h1, root') ←
    match prev e with
    | Some _ => h' ← set_next h (prev e) (next e); Some (h', root)
    | None => Some (h, next e)
    end;
  h2 ← match next e with
       | Some _ => set_prev h1 (next e) (prev e)
       | None => Some h1
       end;
  Some (h2, root').

(** [MADB_ListCons]: [fresh] is what [malloc] answers. *)
Definition MADB_ListCons (fresh : option loc) (d : V) (h : heap) (l : option loc)
    : option (heap * option loc) :=
  match fresh with
  | None => Some (h, None)
  | Some x => MADB_ListAdd (<[x := Node None None d]> h) l x
  end.

(** The loops take fuel; the length of the list is enough. *)
Fixpoint MADB_ListReverse_loop (fuel : nat) (h : heap) (root last : option loc)
    : option (heap * option loc) :=
  match root with
  | None => Some (h, last)
  | Some x =>
      match fuel with
      | O => None
      | S fuel' =>
          n ← h !! x;
          MADB_ListReverse_loop fuel' (<[x := Node (next n) (prev n) (data n)]> h) (next n) root
      end
  end.

Definition MADB_ListReverse (fuel : nat) (h : heap) (root : option loc) : option (heap * option loc) :=
  MADB_ListReverse_loop fuel h root root.

Fixpoint MADB_ListLength (fuel : nat) (h : heap) (l : option loc) : option nat :=
  match l with
  | None => Some 0
  | Some x => match fuel with
              | O => None
              | S fuel' => n ← h !! x; S <$> MADB_ListLength fuel' h (next n)
              end
  end.

(** [MADB_ListWalk]: stops at the first action that answers non-zero; the
    action changes a state of its own. *)
Fixpoint MADB_ListWalk {S} (fuel : nat) (h : heap) (l : option loc) (action : V -> S -> Z * S) (s : S)
    : option (Z * S) :=
  match l with
  | None => Some (0%Z, s)
  | Some x => match fuel with
              | O => None
              | Datatypes.S fuel' =>
                  n ← h !! x;
                  let '(error, s') := action (data n) s in
                  if Z.eqb error 0 then MADB_ListWalk fuel' h (next n) action s' else Some (error, s')
              end
  end.

Fixpoint MADB_ListFree (fuel : nat) (h : heap) (root : option loc) : option heap :=
  match root with
  | None => Some h
  | Some x => match fuel with
              | O => None
              | S fuel' => n ← h !! x; MADB_ListFree fuel' (delete x h) (next n)
              end
  end.

(** ** The sequence a chain of nodes stands for *)

(** [dseg h p root l q]: from [root], whose predecessor is [p], the nodes of
    [l] follow each other in both directions, and the last one points to [q]. *)
Fixpoint dseg (h : heap) (p root : option loc) (l : list (loc * V)) (q : option loc) : Prop :=
  match l with
  | [] => root = q
  | (x, d) :: l' =>
      root = Some x /\ exists nx, h !! x = Some (Node p nx d) /\ dseg h (Some x) nx l' q
  end.

Definition locs (l : list (loc * V)) : list loc := l.*1.

Definition last_loc (p : option loc) (l : list (loc * V)) : option loc :=
  match last l with Some (x, _) => Some x | None => p end.

(** A whole list: no predecessor, NULL at the end, no node twice. *)
Definition dll (h : heap) (root : option loc) (l : list (loc * V)) : Prop :=
  dseg h None root l None /\ NoDup (locs l).

(** The segment only depends on its own nodes. *)
Lemma dseg_frame h h' p root l q :
  (forall x, x ∈ locs l -> h' !! x = h !! x) -> dseg h p root l q -> dseg h' p root l q.
Proof.
  revert p root. induction l as [|[y d] l IH]; intros p root Hx; simpl; [done|].
  intros (-> & nx & Hy & Hl). unfold locs in *. csimpl in *.
  split; [done|]. exists nx. split; [rewrite Hx; [done|set_solver]|].
  apply IH; [|done]. intros. apply Hx. set_solver.
Qed.

Lemma dseg_app h p root l1 l2 q :
  dseg h p root (l1 ++ l2) q <->
  exists mid, dseg h p root l1 mid /\ dseg h (last_loc p l1) mid l2 q.
Proof.
  revert p root. induction l1 as [|[y d] l IH]; intros p root.
  - simpl. unfold last_loc; simpl. naive_solver.
  - simpl. setoid_rewrite IH.
    assert (last_loc p ((y, d) :: l) = last_loc (Some y) l) as ->.
    { unfold last_loc. destruct l as [|e l]; [done|].
      rewrite last_cons_cons. destruct (last (e :: l)) eqn:E; [done|].
      by apply last_None in E. }
    naive_solver.
Qed.

(** Redirecting the first node's predecessor. *)
Lemma dseg_set_prev h p q root x d l e :
  x ∉ locs l -> dseg h p root ((x, d) :: l) e ->
  exists h', set_prev h root q = Some h' /\ dseg h' q root ((x, d) :: l) e /\
    (forall y, y <> x -> h' !! y = h !! y).
Proof.
  simpl. intros Hx (-> & nx & Hl & Hd). unfold set_prev. rewrite Hl. eexists. split; [done|]. split.
  - split; [done|]. exists nx. rewrite lookup_insert_eq. split; [done|].
    eapply dseg_frame; [|done]. intros y Hy. apply lookup_insert_ne. congruence.
  - intros y Hy. by rewrite lookup_insert_ne.
Qed.

(** Redirecting the last node's successor. *)
Lemma dseg_set_next h p root l x d e q :
  x ∉ locs l -> dseg h p root (l ++ [(x, d)]) e ->
  exists h', set_next h (Some x) q = Some h' /\ dseg h' p root (l ++ [(x, d)]) q /\
    (forall y, y <> x -> h' !! y = h !! y).
Proof.
  intros Hx. rewrite dseg_app. simpl. intros (mid & H1 & -> & nx & Hl & ->).
  unfold set_next. rewrite Hl. eexists. split; [done|]. split.
  - apply dseg_app. exists (Some x). split.
    + eapply dseg_frame; [|done]. intros y Hy. apply lookup_insert_ne. congruence.
    + simpl. split; [done|]. exists q. by rewrite lookup_insert_eq.
  - intros y Hy. by rewrite lookup_insert_ne.
Qed.

Lemma last_loc_snoc p l x d : last_loc p (l ++ [(x, d)]) = Some x.
Proof. unfold last_loc. by rewrite last_snoc. Qed.

(** [MADB_ListAdd] puts a new node in front of a list: in the resulting
    heap the root is the node and the list is the old one with it in front. *)
Theorem MADB_ListAdd_cons h root l x n0 :
  dll h root l -> x ∉ locs l -> h !! x = Some n0 ->
  exists h', MADB_ListAdd h root x = Some (h', Some x) /\ dll h' (Some x) ((x, data n0) :: l).
Proof.
  intros [Hd Hnd] Hx Hn0. unfold MADB_ListAdd.
  assert (NoDup (locs ((x, data n0) :: l))) as Hnd' by (apply NoDup_cons; done).
  destruct l as [|[y d] l].
  - simpl in Hd. subst root. unfold set_prev, set_next. rewrite Hn0. cbn.
    rewrite lookup_insert_eq. cbn. eexists. split; [done|]. split; [|done].
    simpl. split; [done|]. eexists. by rewrite lookup_insert_eq.
  - unfold locs in Hx, Hnd; csimpl in *. apply not_elem_of_cons in Hx as [Hxy Hx].
    apply NoDup_cons in Hnd as [Hy Hnd].
    pose proof Hd as Hd0. destruct Hd0 as (-> & nx & Hl & Hd0). cbn [get mbind option_bind].
    rewrite Hl. cbn [mbind option_bind prev].
    rewrite Hn0. cbn [mbind option_bind].
    destruct (dseg_set_prev (<[x := Node None (next n0) (data n0)]> h) None (Some x) (Some y) y d l None)
      as (h1 & -> & Hd1 & Hne); [done| |].
    { eapply dseg_frame; [|exact Hd]. intros z Hz. apply lookup_insert_ne.
      unfold locs in Hz; csimpl in Hz. set_solver. }
    cbn. rewrite Hne by done. rewrite lookup_insert_eq. cbn.
    eexists. split; [done|]. split; [|done].
    refine (conj eq_refl (ex_intro _ (Some y) (conj _ _))); [by rewrite lookup_insert_eq|].
    apply (dseg_frame h1 _ (Some x) (Some y) ((y, d) :: l)); [|exact Hd1]. intros z Hz. apply lookup_insert_ne.
    unfold locs in Hz; csimpl in Hz. set_solver.
Qed.

(** [MADB_ListDelete] unlinks any node of a list, first, last or in the
    middle: what remains is the list without that node. *)
Theorem MADB_ListDelete_remove h root l1 x d l2 :
  dll h root (l1 ++ (x, d) :: l2) ->
  exists h' root', MADB_ListDelete h root x = Some (h', root') /\ dll h' root' (l1 ++ l2).
Proof.
  intros [Hd Hnd]. unfold locs in Hnd. rewrite fmap_app, fmap_cons in Hnd. simpl in Hnd.
  apply NoDup_app in Hnd as (Hn1 & H12 & Hn2). apply NoDup_cons in Hn2 as [Hx2 Hn2].
  assert (x ∉ l1.*1) as Hx1 by (intros H; apply (H12 x H); set_solver).
  assert (NoDup (locs (l1 ++ l2))) as Hnd'
    by (unfold locs; rewrite fmap_app; apply NoDup_app; set_solver).
  apply dseg_app in Hd as (mid & Hd1 & Hd2). simpl in Hd2. destruct Hd2 as (-> & nx & Hl & Hd2).
  unfold MADB_ListDelete. rewrite Hl. cbn [mbind option_bind prev next].
  assert (exists h1 root1,
    match last_loc None l1 with
    | Some _ => h' ← set_next h (last_loc None l1) nx; Some (h', root)
    | None => Some (h, nx)
    end = Some (h1, root1) /\ dseg h1 None root1 l1 nx /\
    forall y, y ∉ l1.*1 -> h1 !! y = h !! y) as (h1 & root1 & -> & Hs1 & Hf1).
  { destruct l1 as [|[y e] l1 _] using rev_ind; [by exists h, nx|].
    rewrite last_loc_snoc. rewrite fmap_app in Hn1. cbn in Hn1.
    apply NoDup_app in Hn1 as (Hn1 & Hy1 & _).
    destruct (dseg_set_next h None root l1 y e (Some x) nx) as (h1 & -> & Hs & Hf); [|done|].
    { intros H. apply (Hy1 y H). set_solver. }
    exists h1, root. split; [done|]. split; [done|]. intros z Hz. rewrite fmap_app in Hz. apply Hf. set_solver. }
  cbn [mbind option_bind].
  assert (exists h2,
    match nx with Some _ => set_prev h1 nx (last_loc None l1) | None => Some h1 end = Some h2 /\
    dseg h2 (last_loc None l1) nx l2 None /\ forall y, y ∉ l2.*1 -> h2 !! y = h1 !! y)
    as (h2 & -> & Hs2 & Hf2).
  { assert (dseg h1 (Some x) nx l2 None) as Hd2'.
    { eapply dseg_frame; [|exact Hd2]. intros y Hy. apply Hf1. intros H. apply (H12 y H). set_solver. }
    destruct l2 as [|[y e] l2]; [simpl in Hd2'; subst nx; by exists h1|].
    destruct (dseg_set_prev h1 (Some x) (last_loc None l1) nx y e l2 None) as (h2 & E & Hs & Hf); [|done|].
    { apply NoDup_cons in Hn2 as [? _]. done. }
    exists h2. simpl in Hd2'. destruct Hd2' as [-> _]. split; [done|]. split; [done|].
    intros z Hz. apply Hf. csimpl in Hz. set_solver. }
  cbn. eexists h2, root1. split; [done|]. split; [|done].
  apply dseg_app. exists nx. split; [|done].
  eapply dseg_frame; [|exact Hs1]. intros y Hy. apply Hf2. intros H. apply (H12 y Hy). set_solver.
Qed.

Lemma last_loc_cons p x d l : last_loc p ((x, d) :: l) = last_loc (Some x) l.
Proof.
  unfold last_loc. destruct l as [|e l]; [done|]. rewrite last_cons_cons.
  destruct (last (e :: l)) eqn:E; [done|]. by apply last_None in E.
Qed.

(** The reversal loop with the nodes of [r] already turned around behind it. *)
Lemma MADB_ListReverse_loop_spec l : forall h root prv lst r,
  dseg h prv root l None -> dseg h root prv r None -> NoDup (locs (l ++ r)) ->
  (l = [] -> lst = prv) ->
  exists h', MADB_ListReverse_loop (length l) h root lst = Some (h', last_loc prv l) /\
    dseg h' None (last_loc prv l) (reverse l ++ r) None.
Proof.
  induction l as [|[x d] l IH]; intros h root prv lst r Hl Hr Hnd Hlst.
  - simpl in Hl. subst root. rewrite Hlst by done. exists h. done.
  - simpl in Hl. destruct Hl as (-> & nx & Hx & Hl).
    cbn [MADB_ListReverse_loop length]. rewrite Hx. cbn [mbind option_bind next prev data].
    unfold locs in Hnd. rewrite <- app_comm_cons, fmap_cons in Hnd. cbn in Hnd.
    apply NoDup_cons in Hnd as [Hxn Hnd]. rewrite fmap_app in Hxn.
    assert (forall k p' r' q', x ∉ k.*1 -> dseg h p' r' k q' ->
              dseg (<[x := Node nx prv d]> h) p' r' k q') as Hfr.
    { intros k p' r' q' Hk. apply dseg_frame. intros y Hy. apply lookup_insert_ne. unfold locs in Hy. set_solver. }
    destruct (IH (<[x := Node nx prv d]> h) nx (Some x) (Some x) ((x, d) :: r)) as (h' & E & Hd).
    + apply Hfr; [set_solver|done].
    + simpl. split; [done|]. exists prv. rewrite lookup_insert_eq. split; [done|].
      apply Hfr; [set_solver|done].
    + unfold locs. rewrite fmap_app, fmap_cons. cbn. rewrite fmap_app in Hnd.
      apply NoDup_app in Hnd as (H1 & H2 & H3). apply NoDup_app.
      split; [done|]. split; [set_solver|]. apply NoDup_cons. set_solver.
    + done.
    + exists h'. rewrite last_loc_cons, reverse_cons, <- app_assoc. split; [exact E|exact Hd].
Qed.

(** [MADB_ListReverse] terminates after as many steps as the list has
    nodes and leaves the nodes in reverse order, linked in both directions. *)
Theorem MADB_ListReverse_reverse h root l :
  dll h root l ->
  exists h' root', MADB_ListReverse (length l) h root = Some (h', root') /\ dll h' root' (reverse l).
Proof.
  intros [Hd Hnd].
  destruct (MADB_ListReverse_loop_spec l h root None root []) as (h' & E & Hd').
  - done.
  - done.
  - by rewrite app_nil_r.
  - intros ->. exact Hd.
  - exists h', (last_loc None l). split; [exact E|]. rewrite app_nil_r in Hd'. split; [done|].
    unfold locs. rewrite fmap_reverse. by rewrite reverse_Permutation.
Qed.

(** The traversals compute on the sequence. *)
Lemma MADB_ListLength_spec h p root l :
  dseg h p root l None -> MADB_ListLength (length l) h root = Some (length l).
Proof.
  revert p root. induction l as [|[x d] l IH]; intros p root; simpl; [by intros ->|].
  intros (-> & nx & Hx & Hl). rewrite Hx. cbn. by rewrite (IH _ _ Hl).
Qed.

(** [MADB_ListFree] releases exactly the nodes of the list. *)
Lemma MADB_ListFree_spec l : forall h p root,
  dseg h p root l None -> NoDup (locs l) ->
  exists h', MADB_ListFree (length l) h root = Some h' /\
    (forall x, x ∈ locs l -> h' !! x = None) /\ (forall x, x ∉ locs l -> h' !! x = h !! x).
Proof.
  induction l as [|[x d] l IH]; intros h p root; simpl.
  - intros -> _. exists h. split; [done|]. unfold locs; simpl. set_solver.
  - intros (-> & nx & Hx & Hl) Hnd. rewrite Hx. cbn. unfold locs in *; csimpl in *.
    apply NoDup_cons in Hnd as [Hxl Hnd].
    destruct (IH (delete x h) (Some x) nx) as (h' & -> & H1 & H2); [|done|].
    { eapply dseg_frame; [|done]. intros y Hy. apply lookup_delete_ne. unfold locs in Hy. set_solver. }
    exists h'. split; [done|]. split.
    + intros y [->|Hy]%elem_of_cons; [|by apply H1]. rewrite H2 by done. apply lookup_delete_eq.
    + intros y [Hy1 Hy2]%not_elem_of_cons. rewrite H2 by done. by rewrite lookup_delete_ne.
Qed.

(** Walking with an action that always answers 0 visits the nodes in order. *)
Lemma MADB_ListWalk_all {S} (f : V -> S -> S) h p root l s :
  dseg h p root l None ->
  MADB_ListWalk (length l) h root (fun d s => (0%Z, f d s)) s =
    Some (0%Z, fold_left (fun s e => f e.2 s) l s).
Proof.
  revert p root s. induction l as [|[x d] l IH]; intros p root s; simpl; [by intros ->|].
  intros (-> & nx & Hx & Hl). rewrite Hx. cbn. by rewrite (IH _ _ _ Hl).
Qed.
End lists.

Arguments MADB_List : clear implicits.

(** Two statements on a connection. *)
Definition sample_heap : gmap positive (MADB_List Z) :=
  {[ 1%positive := Node None (Some 2%positive) 10%Z;
     2%positive := Node (Some 1%positive) None 20%Z;
     3%positive := Node None None 30%Z ]}.

Lemma sample_dll : dll sample_heap (Some 1%positive) [(1%positive, 10%Z); (2%positive, 20%Z)].
Proof.
  split; [|apply (bool_decide_eq_true_1 _); by vm_compute].
  simpl. split; [done|]. exists (Some 2%positive). split; [done|].
  split; [done|]. by exists None.
Qed.

Lemma MADB_ListAdd_cons_witness :
  exists h', MADB_ListAdd sample_heap (Some 1%positive) 3%positive = Some (h', Some 3%positive) /\
    dll h' (Some 3%positive) [(3%positive, 30%Z); (1%positive, 10%Z); (2%positive, 20%Z)].
Proof.
  apply (MADB_ListAdd_cons sample_heap (Some 1%positive) [(1%positive, 10%Z); (2%positive, 20%Z)]
           3%positive (Node None None 30%Z)); [apply sample_dll| |done].
  apply (bool_decide_eq_true_1 _). by vm_compute.
Defined.

Lemma MADB_ListDelete_remove_witness :
  exists h' root', MADB_ListDelete sample_heap (Some 1%positive) 1%positive = Some (h', root') /\
    dll h' root' [(2%positive, 20%Z)].
Proof.
  apply (MADB_ListDelete_remove sample_heap (Some 1%positive) [] 1%positive 10%Z [(2%positive, 20%Z)]).
  apply sample_dll.
Defined.

Lemma MADB_ListReverse_reverse_witness :
  exists h' root', MADB_ListReverse 2 sample_heap (Some 1%positive) = Some (h', root') /\
    dll h' root' [(2%positive, 20%Z); (1%positive, 10%Z)].
Proof.
  apply (MADB_ListReverse_reverse sample_heap (Some 1%positive) [(1%positive, 10%Z); (2%positive, 20%Z)]).
  apply sample_dll.
Defined.
