(* ===== verification/Parse.v ===== *)
(** * Parse: the query tokenizer

    Models [ma_parse.c] and the two helpers of [ma_helper.c] it uses
    ([QueryIsPossiblyMultistmt], [SqlRtrim]).  The query text is one
    NUL-terminated buffer that the parser rewrites in place (comments become
    blanks, separators of a batch become NULs, CALL becomes ECHO); pointers into
    it are offsets from the start of the allocated area.  The token, subquery
    and parameter arrays are sequences: [Dynamic] shows that the array operations
    refine them. *)

From Stdlib Require Import ZArith Lia.
From stdpp Require Import base strings numbers option sorting sets list.
From S2P Require Import Prelude.

(** ** Data *)

(** [enum enum_madb_query_type], in the order of its values. *)
Inductive enum_madb_query_type :=
| MADB_QUERY_NO_RESULT | MADB_QUERY_INSERT | MADB_QUERY_UPDATE | MADB_QUERY_DELETE
| MADB_QUERY_CREATE_PROC | MADB_QUERY_CREATE_FUNC | MADB_QUERY_CREATE_DEFINER
| MADB_QUERY_SET | MADB_QUERY_SET_NAMES | MADB_QUERY_SELECT_INTO | MADB_QUERY_SELECT
| MADB_QUERY_SHOW | MADB_QUERY_ECHO | MADB_QUERY_CALL | MADB_QUERY_ANALYZE
| MADB_QUERY_EXPLAIN | MADB_QUERY_CHECK | MADB_QUERY_EXECUTE | MADB_QUERY_OPTIMIZE
| MADB_QUERY_DESCRIBE | MADB_NOT_ATOMIC_BLOCK | MADB_ANONYMOUS_CODE_BLOCKS.

#[export] Instance query_type_eq_dec : EqDecision enum_madb_query_type.
Proof. solve_decision. Defined.

(** The integer values: UPDATE and DELETE are SQL_UPDATE (2) and SQL_DELETE (3),
    which continues the numbering. *)
Definition query_type_num (t : enum_madb_query_type) : Z :=
  match t with
  | MADB_QUERY_NO_RESULT => 0 | MADB_QUERY_INSERT => 1 | MADB_QUERY_UPDATE => 2
  | MADB_QUERY_DELETE => 3 | MADB_QUERY_CREATE_PROC => 4 | MADB_QUERY_CREATE_FUNC => 5
  | MADB_QUERY_CREATE_DEFINER => 6 | MADB_QUERY_SET => 7 | MADB_QUERY_SET_NAMES => 8
  | MADB_QUERY_SELECT_INTO => 9 | MADB_QUERY_SELECT => 10 | MADB_QUERY_SHOW => 11
  | MADB_QUERY_ECHO => 12 | MADB_QUERY_CALL => 13 | MADB_QUERY_ANALYZE => 14
  | MADB_QUERY_EXPLAIN => 15 | MADB_QUERY_CHECK => 16 | MADB_QUERY_EXECUTE => 17
  | MADB_QUERY_OPTIMIZE => 18 | MADB_QUERY_DESCRIBE => 19 | MADB_NOT_ATOMIC_BLOCK => 20
  | MADB_ANONYMOUS_CODE_BLOCKS => 21
  end.

Definition QUERY_DOESNT_RETURN_RESULT (t : enum_madb_query_type) : bool :=
  query_type_num t <? query_type_num MADB_QUERY_SELECT.

Record SINGLE_QUERY := SingleQuery { QueryText : nat; sq_QueryType : enum_madb_query_type }.

Record MADB_QUERY := Query {
  text : list Z;              (** the allocated area, NUL-terminated *)
  Original : list Z;
  RefinedText : nat;          (** offset of the refined text in [text] *)
  RefinedLength : Z;          (** a [size_t] *)
  Tokens : list nat;          (** offsets from [RefinedText] *)
  SubQuery : list SINGLE_QUERY;
  HasParameters : bool;
  ParamPositions : list nat;  (** offsets from [RefinedText] *)
  ReturnsResult : bool;
  QueryType : enum_madb_query_type;
  BatchAllowed : bool;
}.

(** [memset] of the structure to zero, as [MADB_DeleteQuery] leaves it. *)
Definition empty_query : MADB_QUERY :=
  Query [] [] 0 0 [] [] false [] false MADB_QUERY_NO_RESULT false.

Definition STMT_COUNT (q : MADB_QUERY) : nat := length (SubQuery q).
Definition QUERY_IS_MULTISTMT (q : MADB_QUERY) : bool := (1 <? STMT_COUNT q)%nat.

Module Scan.

(** ** Scanning helpers *)

(** Subtraction on [size_t], and a pointer plus a [size_t] (a length that went
    below zero moves the pointer back). *)
Definition size_sub (a b : Z) : Z := wrapu 64 (a - b).
Definition ptr_add (p : nat) (len : Z) : nat := Z.to_nat (wrapu 64 (Z.of_nat p + len)).

(** [SkipQuotedString(&p, End, Quote)] with [n = End - p]. *)
Fixpoint SkipQuotedString (n : nat) (b : list Z) (p : nat) (quote : Z) : nat :=
  match n with
  | O => p
  | S n' =>
      if rd b p =? quote then p
      else if rd b p =? 92 then
        match n' with
        | O => S p
        | S n'' => SkipQuotedString n'' b (S (S p)) quote
        end
      else SkipQuotedString n' b (S p) quote
  end.

Fixpoint SkipQuotedString_Noescapes (n : nat) (b : list Z) (p : nat) (quote : Z) : nat :=
  match n with
  | O => p
  | S n' => if rd b p =? quote then p else SkipQuotedString_Noescapes n' b (S p) quote
  end.

Definition skip_quoted (quote : Z) (n : nat) (b : list Z) (p : nat) : nat :=
  if quote =? $"`" then SkipQuotedString_Noescapes n b p quote
  else SkipQuotedString n b p quote.

(** [StripLeadingComments(Str, &Length, OverWrite)]: the new position, length
    and buffer. *)
Definition StripLeadingComments (b : list Z) (p : nat) (len : Z) (overwrite : bool) : nat * Z * list Z :=
  if len =? 0 then (p, len, b)
  else
    let s := cstr_at b p in
    let found : option (option nat * nat) :=
      if starts_with (chars "--") s then Some ((fun i => p + 2 + i)%nat <$> strchr (drop 2 s) 10, 1%nat)
      else if rd b p =? $"#" then Some ((fun i => p + 1 + i)%nat <$> strchr (drop 1 s) 10, 1%nat)
      else if starts_with (chars "/*") s then
        Some ((fun i => p + 2 + i)%nat <$> strstr (drop 2 s) (chars "*/"), 2%nat)
      else None in
    match found with
    | None => (p, len, b)
    | Some (res, closing) =>
        let '(p', len') :=
          match res with
          | Some r => ((r + closing)%nat, size_sub len (Z.of_nat (r + closing - p)))
          | None => (ptr_add p len, 0)
          end in
        (p', len', if overwrite then fill b p (p' - p) 32 else b)
    end.

(** [SkipSpacesAndComments]: at most one iteration per byte, then one more to
    see that nothing moves. *)
Fixpoint SkipSpaces_loop (fuel : nat) (b : list Z) (p : nat) (len : Z) (stop : nat) (prev : option nat)
    (overwrite : bool) : option (nat * Z * list Z) :=
  match fuel with
  | O => None
  | S fuel' =>
      if (p <? stop)%nat && negb (bool_decide (prev = Some p)) then
        let '(p1, _, b1) := StripLeadingComments b p len overwrite in
        let p2 := (p1 + ltrim_n (cstr_at b1 p1))%nat in
        SkipSpaces_loop fuel' b1 p2 (Z.of_nat (strlen b1 p2)) stop (Some p) overwrite
      else Some (p, len, b)
  end.

Definition SkipSpacesAndComments (b : list Z) (p : nat) (len : Z) (overwrite : bool) : nat * Z * list Z :=
  default (p, len, b) (SkipSpaces_loop (length b + 2) b p len (ptr_add p len) None overwrite).

(** [SqlRtrim(StmtStr, Length)]: cuts trailing blanks and semicolons, never the
    first character. *)
Fixpoint SqlRtrim_loop (n : nat) (b : list Z) (start : nat) : nat * list Z :=
  match n with
  | O => (0%nat, b)
  | S n' =>
      let e := (start + n')%nat in
      if (start <? e)%nat && (isspace (rd b e) || (rd b e =? $";"))
      then SqlRtrim_loop n' (<[e := 0]> b) start
      else (n, b)
  end.

Definition SqlRtrim (b : list Z) (start : nat) (len : Z) : Z * list Z :=
  if 0 <? len then let '(n, b') := SqlRtrim_loop (Z.to_nat len) b start in (Z.of_nat n, b')
  else (len, b).

(** [FixIsoFormat(StmtString, &Length)]. *)
Definition FixIsoFormat (b : list Z) (p : nat) (len : Z) : nat * Z * list Z :=
  if (0 <? len) && (rd b p =? $"{") && (rd b (ptr_add p (len - 1)) =? $"}") then
    let p1 := S p in
    let b1 := <[ptr_add p1 (len - 1) := 0]> b in
    let s := cstr_at b1 p1 in
    let p2 := (p1 + ltrim_n s)%nat in
    let t := trim s in
    let b2 := fill b1 (p2 + length t) (length s - ltrim_n s - length t) 0 in
    (p2, Z.of_nat (strlen b2 p2), b2)
  else (p, len, b).

(** ** Query type *)

(** The loop that steps over a leading parenthesis and the like. *)
Fixpoint skip_nonalpha (l : list Z) : list Z :=
  match l with
  | c :: l' => if isalpha c then l else skip_nonalpha l'
  | [] => []
  end.

Definition MADB_GetQueryType (Token1 Token2 : list Z) : enum_madb_query_type :=
  let t := skip_nonalpha Token1 in
  let kw1 kw n := strnicmp_eq t (chars kw) n in
  let kw2 kw n := strnicmp_eq Token2 (chars kw) n in
  if kw1 "DO" 2%nat then MADB_ANONYMOUS_CODE_BLOCKS
  else if kw1 "SELECT" 6%nat || kw1 "WITH" 4%nat then MADB_QUERY_SELECT
  else if kw1 "INSERT" 6%nat || kw1 "REPLACE" 7%nat then MADB_QUERY_INSERT
  else if kw1 "UPDATE" 6%nat then MADB_QUERY_UPDATE
  else if kw1 "DELETE" 6%nat then MADB_QUERY_DELETE
  else if kw1 "CALL" 4%nat then MADB_QUERY_CALL
  else if kw1 "ECHO" 4%nat then MADB_QUERY_ECHO
  else if kw1 "SHOW" 4%nat then MADB_QUERY_SHOW
  else if kw1 "ANALYZE" 7%nat then MADB_QUERY_ANALYZE
  else if kw1 "EXPLAIN" 7%nat then MADB_QUERY_EXPLAIN
  else if kw1 "CHECK" 5%nat then MADB_QUERY_CHECK
  else if kw1 "EXECUTE" 7%nat then MADB_QUERY_EXECUTE
  else if kw1 "OPTIMIZE" 7%nat then MADB_QUERY_OPTIMIZE
  else if kw1 "CREATE" 6%nat && kw2 "PROCEDURE" 9%nat then MADB_QUERY_CREATE_PROC
  else if kw1 "CREATE" 6%nat && kw2 "FUNCTION" 8%nat then MADB_QUERY_CREATE_FUNC
  else if kw1 "CREATE" 6%nat && kw2 "DEFINER" 7%nat then MADB_QUERY_CREATE_DEFINER
  else if kw1 "SET" 3%nat then
    if kw2 "NAMES" 5%nat then MADB_QUERY_SET_NAMES else MADB_QUERY_SET
  else if kw1 "DESC" 4%nat then MADB_QUERY_DESCRIBE
  else if kw1 "BEGIN" 5%nat && kw2 "NOT" 3%nat then MADB_NOT_ATOMIC_BLOCK
  else MADB_QUERY_NO_RESULT.

Definition MADB_QueryTypeUnsupportedBySsps (t : enum_madb_query_type) : bool :=
  match t with
  | MADB_QUERY_SHOW | MADB_QUERY_ANALYZE | MADB_QUERY_EXPLAIN | MADB_QUERY_CHECK
  | MADB_QUERY_OPTIMIZE | MADB_QUERY_DESCRIBE | MADB_QUERY_EXECUTE => true
  | _ => false
  end.

Definition QueryIsPossiblyMultistmt (t : enum_madb_query_type) : bool :=
  match t with
  | MADB_QUERY_CREATE_PROC | MADB_QUERY_CREATE_FUNC | MADB_QUERY_CREATE_DEFINER
  | MADB_NOT_ATOMIC_BLOCK | MADB_ANONYMOUS_CODE_BLOCKS => false
  | _ => true
  end.

(** [MADB_ValidateStmt] ([ma_string.c]). *)
Definition MADB_ValidateStmt (q : MADB_QUERY) : bool :=
  negb (bool_decide (QueryType q = MADB_QUERY_SET_NAMES)).

End Scan.

Module Tokenizer.
Import Scan.

(** ** Token access *)

(** [MADB_Token]: the absolute position of a token, [None] for NULL. *)
Definition MADB_Token (q : MADB_QUERY) (idx : nat) : option nat :=
  if (length (Tokens q) =? 0)%nat then None
  else if (length (Tokens q) <=? idx)%nat then None
  else Some (RefinedText q + nth idx (Tokens q) 0)%nat.

(** [MADB_CompareToken]: [Some offset] for TRUE. *)
Definition MADB_CompareToken (q : MADB_QUERY) (idx : nat) (compare : list Z) (len : nat) : option nat :=
  match MADB_Token q idx with
  | None => None
  | Some p =>
      if strnicmp_eq (cstr_at (text q) p) compare len then Some (p - RefinedText q)%nat else None
  end.

(** [MADB_FindToken]: 0 when there is none. *)
Fixpoint FindToken_loop (q : MADB_QUERY) (compare : list Z) (i n : nat) : nat :=
  match n with
  | O => 0%nat
  | S n' =>
      match MADB_CompareToken q i compare (length compare) with
      | Some off => off
      | None => FindToken_loop q compare (S i) n'
      end
  end.

Definition MADB_FindToken (q : MADB_QUERY) (compare : list Z) : nat :=
  FindToken_loop q compare 0 (length (Tokens q)).

(** [MADB_ParseCursorName]: the position of the name behind WHERE CURRENT OF,
    and the offset of WHERE. *)
Fixpoint ParseCursorName_loop (q : MADB_QUERY) (i n : nat) : option (nat * nat) :=
  match n with
  | O => None
  | S n' =>
      match MADB_CompareToken q i (chars "WHERE") 5,
            MADB_CompareToken q (S i) (chars "CURRENT") 7,
            MADB_CompareToken q (S (S i)) (chars "OF") 2 with
      | Some off, Some _, Some _ =>
          match MADB_Token q (i + 3) with Some name => Some (name, off) | None => None end
      | _, _, _ => ParseCursorName_loop q (S i) n'
      end
  end.

Definition MADB_ParseCursorName (q : MADB_QUERY) : option (nat * nat) :=
  if (length (Tokens q) <? 4)%nat then None
  else ParseCursorName_loop q 0 (length (Tokens q) - 3).

(** ** The query structure *)

Definition set_text (q : MADB_QUERY) (b : list Z) : MADB_QUERY :=
  Query b (Original q) (RefinedText q) (RefinedLength q) (Tokens q) (SubQuery q) (HasParameters q)
    (ParamPositions q) (ReturnsResult q) (QueryType q) (BatchAllowed q).

Definition add_token (q : MADB_QUERY) (p : nat) : MADB_QUERY :=
  Query (text q) (Original q) (RefinedText q) (RefinedLength q) (Tokens q ++ [(p - RefinedText q)%nat])
    (SubQuery q) (HasParameters q) (ParamPositions q) (ReturnsResult q) (QueryType q) (BatchAllowed q).

Definition add_param (q : MADB_QUERY) (p : nat) : MADB_QUERY :=
  Query (text q) (Original q) (RefinedText q) (RefinedLength q) (Tokens q) (SubQuery q) true
    (ParamPositions q ++ [(p - RefinedText q)%nat]) (ReturnsResult q) (QueryType q) (BatchAllowed q).

Definition set_query_type (q : MADB_QUERY) (t : enum_madb_query_type) : MADB_QUERY :=
  Query (text q) (Original q) (RefinedText q) (RefinedLength q) (Tokens q) (SubQuery q) (HasParameters q)
    (ParamPositions q) (ReturnsResult q) t (BatchAllowed q).

(** [MADB_AddSubQuery], with the update of [ReturnsResult] before it. *)
Definition MADB_AddSubQuery (q : MADB_QUERY) (p : nat) (t : enum_madb_query_type) : MADB_QUERY :=
  Query (text q) (Original q) (RefinedText q) (RefinedLength q) (Tokens q)
    (SubQuery q ++ [SingleQuery p t]) (HasParameters q) (ParamPositions q)
    (ReturnsResult q) (QueryType q) (BatchAllowed q).

Definition set_returns_result (q : MADB_QUERY) (v : bool) : MADB_QUERY :=
  Query (text q) (Original q) (RefinedText q) (RefinedLength q) (Tokens q) (SubQuery q) (HasParameters q)
    (ParamPositions q) v (QueryType q) (BatchAllowed q).

Definition MADB_ChangeSubQueryType (q : MADB_QUERY) (t : enum_madb_query_type) (idx : nat) : MADB_QUERY :=
  let old := default (SingleQuery 0 MADB_QUERY_NO_RESULT) (SubQuery q !! idx) in
  Query (text q) (Original q) (RefinedText q) (RefinedLength q) (Tokens q)
    (<[idx := SingleQuery (QueryText old) t]> (SubQuery q)) (HasParameters q) (ParamPositions q)
    (ReturnsResult q) (QueryType q) (BatchAllowed q).

(** [MADB_DeleteQuery] frees the text and the arrays and clears the structure. *)
Definition MADB_DeleteQuery (q : MADB_QUERY) : MADB_QUERY := empty_query.

(** ** The tokenizer loop *)

(** The locals of [ParseQuery]. *)
Record pstate := PState {
  ps_q : MADB_QUERY;
  ps_p : nat;
  ReadingToken : bool;
  StmtTokensCount : nat;
  CurQuery : nat;
  StmtType : enum_madb_query_type;
}.

(** The bookkeeping done when a token starts at [p]: the three branches on the
    number of tokens of the current statement. *)
Definition start_token (endp : nat) (q0 : MADB_QUERY) (p count cur : nat) (stype : enum_madb_query_type)
    : MADB_QUERY * nat * enum_madb_query_type :=
  let q := add_token q0 p in
  let n := length (Tokens q) in
  if (count =? 1)%nat then (q, p, stype)
  else if (count =? 2)%nat then
    let prev_tok := default 0%nat (MADB_Token q (n - 2)) in
    let t := MADB_GetQueryType (cstr_at (text q) prev_tok) (cstr_at (text q) p) in
    let q1 := set_returns_result q (ReturnsResult q || negb (QUERY_DOESNT_RETURN_RESULT t)) in
    let q2 := MADB_AddSubQuery q1 cur t in
    (if (length (SubQuery q2) =? 1)%nat then set_query_type q2 t else q2, cur, t)
  else if bool_decide (stype = MADB_QUERY_SELECT)
          && (default 0%nat (MADB_Token q (n - 2)) + 4 <? endp)%nat
          && bool_decide (is_Some (MADB_CompareToken q (n - 1) (chars "INTO") 4)) then
    let q1 := MADB_ChangeSubQueryType q MADB_QUERY_SELECT_INTO (length (SubQuery q) - 1) in
    (if (length (SubQuery q1) =? 1)%nat then set_query_type q1 MADB_QUERY_SELECT_INTO else q1,
     cur, MADB_QUERY_SELECT_INTO)
  else (q, cur, stype).

Definition is_quote (c : Z) : bool := (c =? 34) || (c =? $"'") || (c =? $"`").

(** The characters that end a token. *)
Definition is_delimiter (c : Z) : bool :=
  (c =? $"?") || is_quote c || (c =? 32) || (c =? 9) || (c =? 13) || (c =? 10)
  || (c =? $"-") || (c =? $"#") || (c =? $"/") || (c =? $";").

(** One iteration of the loop, entered with [p < end]. *)
Definition ParseQuery_step (replaceCall : bool) (endp : nat) (s : pstate) : pstate :=
  let q := ps_q s in
  if ReadingToken s then
    if is_delimiter (rd (text q) (ps_p s)) then
      PState q (ps_p s) false (StmtTokensCount s) (CurQuery s) (StmtType s)
    else PState q (S (ps_p s)) true (StmtTokensCount s) (CurQuery s) (StmtType s)
  else
    let '(p, _, b) := SkipSpacesAndComments (text q) (ps_p s) (Z.of_nat (endp - ps_p s)) true in
    let b' :=
      if replaceCall && (StmtTokensCount s =? 0)%nat && strnicmp_eq (cstr_at b p) (chars "CALL") 4
      then blit b p (chars "ECHO") else b in
    let count := S (StmtTokensCount s) in
    let '(q1, cur, stype) := start_token endp (set_text q b') p count (CurQuery s) (StmtType s) in
    let c := rd (text q1) p in
    if is_quote c then
      let p1 := skip_quoted c (endp - S p) (text q1) (S p) in
      if (endp <=? p1)%nat then PState q1 (S (S p)) false count cur stype
      else PState q1 (S p1) true count cur stype
    else if c =? $"?" then PState (add_param q1 p) (S p) false count cur stype
    else if c =? $";" then
      if QueryIsPossiblyMultistmt (QueryType q1) then
        PState (if BatchAllowed q1 then set_text q1 (<[p := 0]> (text q1)) else q1) (S p) false 0 cur stype
      else PState q1 (S p) false count cur stype
    else PState q1 (S p) true count cur stype.

Fixpoint ParseQuery_loop (fuel : nat) (replaceCall : bool) (endp : nat) (s : pstate) : option pstate :=
  match fuel with
  | O => None
  | S fuel' =>
      if (ps_p s <? endp)%nat then ParseQuery_loop fuel' replaceCall endp (ParseQuery_step replaceCall endp s)
      else Some s
  end.

(** [ParseQuery]: the arrays start empty; a byte takes at most two iterations. *)
Definition ParseQuery_init (q : MADB_QUERY) : pstate :=
  PState (Query (text q) (Original q) (RefinedText q) (RefinedLength q) [] [] (HasParameters q) []
            (ReturnsResult q) (QueryType q) (BatchAllowed q))
    (RefinedText q) false 0 0 MADB_QUERY_NO_RESULT.

Definition ParseQuery (q : MADB_QUERY) (replaceCall : bool) : option MADB_QUERY :=
  ps_q <$> ParseQuery_loop (2 * length (text q) + 2) replaceCall
             (ptr_add (RefinedText q) (RefinedLength q)) (ParseQuery_init q).

(** [MADB_ParseQuery]: trimming, the copy of the executable text, and the
    tokenizer. *)
Definition MADB_ParseQuery (q : MADB_QUERY) (replaceCall : bool) : option MADB_QUERY :=
  let '(len0, b1) := SqlRtrim (text q) (RefinedText q) (wraps 32 (RefinedLength q)) in
  let len1 := wrapu 64 len0 in
  let p1 := (RefinedText q + ltrim_n (cstr_at b1 (RefinedText q)))%nat in
  let '(p2, len2, b2) := FixIsoFormat b1 p1 len1 in
  let len3 := size_sub len2 (Z.of_nat p2) in
  let orig := let s := cstr_at b2 p2 in take (Z.to_nat (Z.min len3 (Z.of_nat (length s)))) s in
  let '(p4, len4, b4) := SkipSpacesAndComments b2 p2 len3 false in
  ParseQuery (Query b4 orig p4 len4 (Tokens q) (SubQuery q) (HasParameters q) (ParamPositions q)
                (ReturnsResult q) (QueryType q) (BatchAllowed q)) replaceCall.

End Tokenizer.

(** ** Properties *)

Module ParseProps.
Import Scan Tokenizer.

(** [agree p q b b']: the two buffers have the same length and differ at most
    between [p] and [q]. *)
Definition agree (p q : nat) (b b' : list Z) : Prop :=
  length b' = length b /\ forall i, ~ (p <= i < q)%nat -> b' !! i = b !! i.

Lemma agree_refl p q b : agree p q b b.
Proof. by split. Qed.

Lemma agree_trans p q r b1 b2 b3 :
  (p <= q <= r)%nat -> agree p q b1 b2 -> agree q r b2 b3 -> agree p r b1 b3.
Proof.
  intros H [L1 H1] [L2 H2]. split; [congruence|]. intros i Hi. rewrite H2, H1 by lia. done.
Qed.

Lemma agree_rd p q b b' i : agree p q b b' -> ~ (p <= i < q)%nat -> rd b' i = rd b i.
Proof. intros [_ H] Hi. unfold rd. by rewrite H. Qed.

Lemma fill_agree b p n c : (p + n <= length b)%nat -> agree p (p + n) b (fill b p n c).
Proof.
  intros H. split; [apply length_fill; lia|]. intros i Hi. unfold fill.
  destruct (decide (i < p)%nat).
  - rewrite lookup_app_l by (rewrite length_take; lia). by rewrite lookup_take_lt.
  - rewrite lookup_app_r by (rewrite length_take; lia).
    rewrite lookup_app_r by (rewrite length_replicate, length_take; lia).
    rewrite length_take, length_replicate, lookup_drop. f_equal. lia.
Qed.

Lemma blit_agree b p src : (p + length src <= length b)%nat -> agree p (p + length src) b (blit b p src).
Proof.
  intros H. split; [apply length_blit; lia|]. intros i Hi. unfold blit.
  destruct (decide (i < p)%nat).
  - rewrite lookup_app_l by (rewrite length_take; lia). by rewrite lookup_take_lt.
  - rewrite lookup_app_r by (rewrite length_take; lia).
    rewrite lookup_app_r by (rewrite !length_take; lia).
    rewrite !length_take, lookup_drop. f_equal. lia.
Qed.

Lemma insert_agree b p c : agree p (S p) b (<[p := c]> b).
Proof.
  split; [apply length_insert|]. intros i Hi. apply list_lookup_insert_ne. lia.
Qed.

(** A NUL ahead bounds the string. *)
Lemma strlen_bound b p e : rd b e = 0 -> (p <= e)%nat -> (p + strlen b p <= e)%nat.
Proof.
  intros He Hp. unfold strlen, cstr_at.
  assert (rd (drop p b) (e - p) = 0) as H by (rewrite rd_drop; by replace (p + (e - p))%nat with e by lia).
  enough (length (cstr (drop p b)) <= e - p)%nat by lia.
  generalize dependent (e - p)%nat. induction (drop p b) as [|c l IH]; simpl; intros n Hn; [lia|].
  destruct (Z.eqb_spec c 0); simpl; [lia|]. destruct n as [|n]; [done|].
  specialize (IH n Hn). lia.
Qed.

Lemma cstr_agree b b' p q r : agree p q b b' -> (q <= r)%nat -> cstr_at b' r = cstr_at b r.
Proof.
  intros [L H] Hr. unfold cstr_at. f_equal. apply list_eq. intros i. rewrite !lookup_drop. apply H. lia.
Qed.

Lemma ptr_add_id p len : 0 <= Z.of_nat p + len < 2 ^ 64 -> ptr_add p len = Z.to_nat (Z.of_nat p + len).
Proof. intros H. unfold ptr_add. by rewrite wrapu_id. Qed.

(** The number of characters of the comment a string starts with: to the end of
    the line, to the closing mark, or to the end when there is none. *)
Definition comment_len (l : list Z) : nat :=
  if starts_with (chars "--") l then default (length l) ((fun i => i + 3)%nat <$> strchr (drop 2 l) 10)
  else if starts_with (chars "#") l then default (length l) ((fun i => i + 2)%nat <$> strchr (drop 1 l) 10)
  else if starts_with (chars "/*") l then
    default (length l) ((fun i => i + 4)%nat <$> strstr (drop 2 l) (chars "*/"))
  else 0%nat.

Lemma comment_len_le l : (comment_len l <= length l)%nat.
Proof.
  unfold comment_len.
  destruct (starts_with (chars "--") l) eqn:E1; [apply starts_with_length in E1; simpl in E1|
    destruct (starts_with (chars "#") l) eqn:E2; [apply starts_with_length in E2; simpl in E2|
      destruct (starts_with (chars "/*") l) eqn:E3; [apply starts_with_length in E3; simpl in E3|lia]]].
  - destruct (strchr _ _) as [i|] eqn:Ei; simpl; [|lia]. apply strchr_lt in Ei. rewrite length_drop in Ei. lia.
  - destruct (strchr _ _) as [i|] eqn:Ei; simpl; [|lia]. apply strchr_lt in Ei. rewrite length_drop in Ei. lia.
  - destruct (strstr _ _) as [i|] eqn:Ei; simpl; [|lia]. apply strstr_lt in Ei.
    rewrite length_drop in Ei. simpl in Ei. lia.
Qed.

Lemma cstr_at_cons b p :
  cstr_at b p = if rd b p =? 0 then [] else rd b p :: cstr_at b (S p).
Proof.
  unfold cstr_at, rd. destruct (b !! p) as [c|] eqn:E; simpl.
  - rewrite (drop_S _ _ _ E). simpl. by destruct (c =? 0).
  - apply lookup_ge_None in E. by rewrite drop_ge.
Qed.

Lemma cstr_at_drop b p n : (n <= strlen b p)%nat -> cstr_at b (p + n) = drop n (cstr_at b p).
Proof.
  revert p. induction n as [|n IH]; intros p Hn; [by rewrite Nat.add_0_r|].
  unfold strlen in Hn. rewrite (cstr_at_cons b p) in *. destruct (rd b p =? 0); simpl in *; [lia|].
  rewrite <- IH by (unfold strlen; lia). f_equal. lia.
Qed.

Lemma starts_hash b p : (rd b p =? $"#") = starts_with (chars "#") (cstr_at b p).
Proof.
  rewrite cstr_at_cons. destruct (Z.eqb_spec (rd b p) 0) as [->|]; [done|].
  change (chars "#") with [35]. cbn [starts_with]. rewrite andb_true_r. apply Z.eqb_sym.
Qed.

(** [StripLeadingComments], when it is told a length within the string's bounds,
    steps over the comment and blanks it out.  A length shorter than the string
    matters only for a comment that is not closed. *)
Lemma StripLeadingComments_eq b p len ow :
  0 <= len -> Z.of_nat p + len < 2 ^ 64 ->
  exists p' len',
    StripLeadingComments b p len ow = (p', len', if ow then fill b p (p' - p) 32 else b) /\
    ((p' = p /\ (len = 0 \/ comment_len (cstr_at b p) = 0%nat)) \/
     (p < p')%nat /\ ((p' = p + comment_len (cstr_at b p))%nat \/ p' = (p + Z.to_nat len)%nat)) /\
    (len = Z.of_nat (strlen b p) -> p' = (p + comment_len (cstr_at b p))%nat).
Proof.
  intros H0 H1. unfold StripLeadingComments.
  assert (forall ow : bool, (if ow then fill b p (p - p) 32 else b) = b) as Hid.
  { intros []; [|done]. unfold fill. rewrite Nat.sub_diag, Nat.add_0_r. simpl. apply take_drop. }
  destruct (Z.eqb_spec len 0) as [->|Hl].
  { eexists _, _. rewrite Hid. split_and!; [done|by left; auto|]. intros E.
    assert (strlen b p = 0)%nat as E' by lia.
    pose proof (comment_len_le (cstr_at b p)). unfold strlen in E'. lia. }
  rewrite starts_hash. unfold comment_len, strlen.
  destruct (starts_with (chars "--") (cstr_at b p)) eqn:E1; [apply starts_with_length in E1; simpl in E1|
    destruct (starts_with (chars "#") _) eqn:E2; [apply starts_with_length in E2; simpl in E2|
      destruct (starts_with (chars "/*") _) eqn:E3; [apply starts_with_length in E3; simpl in E3|]]].
  all: try (destruct (strchr _ _) as [i|] eqn:Ei); try (destruct (strstr _ _) as [i|] eqn:Ei); simpl fmap;
    cbn [default]; unfold id.
  all: try (rewrite ptr_add_id by lia).
  all: eexists _, _; split_and!; [first [reflexivity|by rewrite Hid]|lia..].
Qed.

(** The bounds: forward, not past the terminator, writing only what is passed. *)
Lemma StripLeadingComments_spec b p len e ow p' len' b' :
  rd b e = 0 -> (e < length b)%nat -> Z.of_nat e < 2 ^ 64 -> 0 <= len -> Z.of_nat p + len <= Z.of_nat e ->
  StripLeadingComments b p len ow = (p', len', b') ->
  (p <= p' <= e)%nat /\ agree p p' b b' /\ (p' = p -> b' = b).
Proof.
  intros He Hlen He64 Hl Hp E.
  destruct (StripLeadingComments_eq b p len ow) as (p1 & l1 & E1 & Hc & _); [lia..|].
  rewrite E in E1. injection E1 as <- <- ->.
  pose proof (strlen_bound b p e He ltac:(lia)) as Hs.
  pose proof (comment_len_le (cstr_at b p)) as Hcl. unfold strlen in Hs.
  assert (p <= p' <= e)%nat as Hb by lia. split; [done|].
  pose proof (fill_agree b p (p' - p) 32 ltac:(lia)) as Hf.
  replace (p + (p' - p))%nat with p' in Hf by lia.
  split; [by destruct ow; [|apply agree_refl]|]. intros ->. destruct ow; [|done].
  unfold fill. rewrite Nat.sub_diag, Nat.add_0_r. simpl. apply take_drop.
Qed.

(** Nothing to skip: neither a blank nor a comment. *)
Definition at_token (l : list Z) : Prop := comment_len l = 0%nat /\ ltrim_n l = 0%nat.

Lemma SkipSpaces_loop_total e ow stop : forall fuel b p len prev,
  rd b e = 0 -> (e < length b)%nat -> Z.of_nat e < 2 ^ 64 -> 0 <= len -> Z.of_nat p + len <= Z.of_nat e ->
  ((if bool_decide (prev = Some p) then 1 else e - p + 2) <= fuel)%nat ->
  exists p' len' b',
    SkipSpaces_loop fuel b p len stop prev ow = Some (p', len', b') /\
    (p <= p' <= e)%nat /\ agree p p' b b' /\ 0 <= len' /\ Z.of_nat p' + len' <= Z.of_nat e.
Proof.
  induction fuel as [|fuel IH]; intros b p len prev He Hlen He64 Hl Hp Hf.
  { by destruct (bool_decide _); lia. }
  cbn [SkipSpaces_loop]. destruct (p <? stop)%nat; cbn [andb];
    [|exists p, len, b; split_and!; auto using agree_refl; lia].
  destruct (bool_decide _) eqn:Ep; cbn [negb];
    [exists p, len, b; split_and!; auto using agree_refl; lia|].
  destruct (StripLeadingComments b p len ow) as [[p1 l1] b1] eqn:E.
  eapply StripLeadingComments_spec in E as (Hp1 & Ha & Hs); [|eauto..].
  set (p2 := (p1 + ltrim_n (cstr_at b1 p1))%nat).
  assert (rd b1 e = 0) as He1 by (erewrite agree_rd; [eauto..|lia]).
  pose proof (proj1 Ha) as HL.
  assert (p2 <= e)%nat as Hp2.
  { pose proof (strlen_bound b1 p1 e He1 ltac:(lia)). pose proof (ltrim_n_le (cstr_at b1 p1)).
    unfold strlen in *. lia. }
  pose proof (strlen_bound b1 p2 e He1 Hp2) as Hs2.
  destruct (IH b1 p2 (Z.of_nat (strlen b1 p2)) (Some p)) as (p' & len' & b' & E' & Hp' & Ha' & Hl' & Hpl').
  all: try done; try lia.
  { destruct (bool_decide (Some p = Some p2)) eqn:Eq; [lia|]. apply bool_decide_eq_false in Eq.
    assert (p2 <> p) by congruence. lia. }
  exists p', len', b'. split_and!; try done; try lia.
  apply (agree_trans p p1 p' b b1 b'); [lia|done|].
  destruct Ha' as [La Ha']. split; [done|]. intros i Hi. apply Ha'. lia.
Qed.

Lemma SkipSpacesAndComments_spec b p len e ow :
  rd b e = 0 -> (e < length b)%nat -> Z.of_nat e < 2 ^ 64 -> 0 <= len -> Z.of_nat p + len <= Z.of_nat e ->
  exists p' len' b',
    SkipSpacesAndComments b p len ow = (p', len', b') /\
    (p <= p' <= e)%nat /\ agree p p' b b' /\ 0 <= len' /\ Z.of_nat p' + len' <= Z.of_nat e.
Proof.
  intros. unfold SkipSpacesAndComments.
  edestruct (SkipSpaces_loop_total e ow (ptr_add p len) (length b + 2) b p len None)
    as (p' & len' & b' & -> & H'); eauto.
  rewrite bool_decide_eq_false_2 by done. lia.
Qed.

(** *** One iteration of the tokenizer *)

Lemma SkipQuotedString_bound n : forall b p c,
  (p <= SkipQuotedString n b p c <= p + n)%nat.
Proof.
  induction n as [n IH] using lt_wf_ind. intros b p c. destruct n as [|n]; simpl; [lia|].
  destruct (rd b p =? c); [lia|]. destruct (rd b p =? 92).
  - destruct n as [|n]; [lia|]. specialize (IH n ltac:(lia) b (S (S p)) c). lia.
  - specialize (IH n ltac:(lia) b (S p) c). lia.
Qed.

Lemma SkipQuotedString_Noescapes_bound n : forall b p c,
  (p <= SkipQuotedString_Noescapes n b p c <= p + n)%nat.
Proof.
  induction n as [|n IH]; intros b p c; simpl; [lia|]. destruct (rd b p =? c); [lia|].
  specialize (IH b (S p) c). lia.
Qed.

Lemma skip_quoted_bound c n b p : (p <= skip_quoted c n b p <= p + n)%nat.
Proof.
  unfold skip_quoted. destruct (_ =? _);
    [apply SkipQuotedString_Noescapes_bound|apply SkipQuotedString_bound].
Qed.

(** What starting a token changes. *)
Record token_started (q : MADB_QUERY) (p : nat) (q' : MADB_QUERY) : Prop := {
  tk_text : text q' = text q;
  tk_orig : Original q' = Original q;
  tk_ref : RefinedText q' = RefinedText q;
  tk_len : RefinedLength q' = RefinedLength q;
  tk_batch : BatchAllowed q' = BatchAllowed q;
  tk_tokens : Tokens q' = Tokens q ++ [(p - RefinedText q)%nat];
  tk_params : ParamPositions q' = ParamPositions q;
  tk_has : HasParameters q' = HasParameters q;
}.

Lemma start_token_spec endp q p count cur stype q' cur' stype' :
  start_token endp q p count cur stype = (q', cur', stype') -> token_started q p q'.
Proof.
  unfold start_token. intros E.
  repeat (case_match; simplify_eq); by constructor.
Qed.

(** The subqueries and the statement pointer under the same operation. *)
Lemma start_token_subqueries endp q p count cur stype q' cur' stype' (P : nat -> Prop) :
  start_token endp q p count cur stype = (q', cur', stype') ->
  P p -> (count <> 1%nat -> P cur) -> Forall (fun sq => P (QueryText sq)) (SubQuery q) ->
  P cur' /\ Forall (fun sq => P (QueryText sq)) (SubQuery q').
Proof.
  unfold start_token. intros E Hp Hcur HF.
  destruct (Nat.eqb_spec count 1) as [->|Hc1]; [by simplify_eq|]. specialize (Hcur Hc1).
  destruct (Nat.eqb_spec count 2) as [->|Hc2].
  { case_match; simplify_eq; split; auto; apply Forall_app; split; auto. }
  case_match; simplify_eq; [|by auto]. split; [done|].
  assert (Forall (fun sq => P (QueryText sq))
    (<[(length (SubQuery q) - 1)%nat := SingleQuery
        (QueryText (default (SingleQuery 0 MADB_QUERY_NO_RESULT) (SubQuery q !! (length (SubQuery q) - 1)%nat)))
        MADB_QUERY_SELECT_INTO]> (SubQuery q))) as HF'.
  { destruct (SubQuery q !! (length (SubQuery q) - 1)%nat) as [sq|] eqn:El.
    - apply Forall_insert; [done|]. simpl. by eapply Forall_lookup_1 in HF.
    - rewrite list_insert_ge; [done|]. by apply lookup_ge_None. }
  case_match; exact HF'.
Qed.

Section TokenizerStep.
Context (replaceCall : bool) (endp : nat).
Hypothesis end64 : Z.of_nat endp < 2 ^ 64.

Definition buffer_ok (s : pstate) : Prop :=
  rd (text (ps_q s)) endp = 0 /\ (endp < length (text (ps_q s)))%nat.

(** A step either reads on inside a token, or starts one token at [t] in the
    area not read before; it writes only from the old position to the end. *)
Definition step_shape (s s' : pstate) : Prop :=
  let q := ps_q s in let q' := ps_q s' in
  agree (ps_p s) endp (text q) (text q') /\
  RefinedText q' = RefinedText q /\ RefinedLength q' = RefinedLength q /\ Original q' = Original q /\
  ((Tokens q' = Tokens q /\ ParamPositions q' = ParamPositions q /\ HasParameters q' = HasParameters q /\
    (ps_p s <= ps_p s')%nat /\ (2 * (endp - ps_p s') + Nat.b2n (ReadingToken s') < 2 * (endp - ps_p s) + 1)%nat /\
    ReadingToken s = true)
   \/ exists t, (ps_p s <= t <= endp)%nat /\ (t < ps_p s')%nat /\
      Tokens q' = Tokens q ++ [(t - RefinedText q)%nat] /\
      ((ParamPositions q' = ParamPositions q /\ HasParameters q' = HasParameters q)
       \/ ParamPositions q' = ParamPositions q ++ [(t - RefinedText q)%nat] /\ HasParameters q' = true
          /\ rd (text q') t = $"?")).

Lemma blit_call_agree b p : rd b endp = 0 -> (endp < length b)%nat -> (p <= endp)%nat ->
  strnicmp_eq (cstr_at b p) (chars "CALL") 4 = true -> agree p endp b (blit b p (chars "ECHO")).
Proof.
  intros He Hl Hp Hc.
  assert (4 <= strlen b p)%nat as H4.
  { unfold strlen. destruct (cstr_at b p) as [|c1 [|c2 [|c3 [|c4 l]]]]; simpl in *; try lia;
      rewrite ?andb_false_r in Hc; done. }
  pose proof (strlen_bound b p endp He Hp).
  destruct (blit_agree b p (chars "ECHO")) as [L H']; [simpl; lia|].
  split; [done|]. intros i Hi. apply H'. simpl. lia.
Qed.

Lemma ParseQuery_step_shape s :
  buffer_ok s -> (ps_p s < endp)%nat -> step_shape s (ParseQuery_step replaceCall endp s).
Proof.
  intros [He Hl] Hp. unfold step_shape, ParseQuery_step.
  destruct (ReadingToken s) eqn:ER.
  { destruct (is_delimiter _); cbn; split_and!; auto using agree_refl; left; split_and!; auto; lia. }
  destruct (SkipSpacesAndComments_spec (text (ps_q s)) (ps_p s) (Z.of_nat (endp - ps_p s)) endp true)
    as (p & len' & b & -> & Hpp & Ha & _); [done|done|done|lia..|].
  assert (rd b endp = 0) as Heb by (erewrite agree_rd; [eauto..|lia]).
  assert (agree (ps_p s) endp (text (ps_q s)) b) as Hab
    by (destruct Ha as [L Ha]; split; [done|]; intros; apply Ha; lia).
  set (b' := if replaceCall && _ && _ then _ else b).
  assert (agree (ps_p s) endp (text (ps_q s)) b') as Hab'.
  { subst b'. case_match; [|done]. bprop.
    eapply (agree_trans _ p); [|exact Ha|apply blit_call_agree]; try done; try lia.
    by rewrite (proj1 Ha). }
  destruct (start_token endp (set_text (ps_q s) b') p _ _ _) as [[q1 cur] stype] eqn:Es.
  apply start_token_spec in Es. destruct Es as [Et Eo Er El Eb Etk Epa Eh]. simpl in *.
  assert (forall t, rd b' t = $";" -> (ps_p s <= t <= endp)%nat ->
    agree (ps_p s) endp (text (ps_q s)) (<[t:=0]> b')) as Hsemi.
  { intros t Ht Htp. assert (t <> endp) as Hne.
    { intros ->. rewrite (agree_rd _ _ _ _ endp Hab'), He in Ht by lia. discriminate Ht. }
    split; [rewrite length_insert; apply Hab'|]. intros i Hi.
    rewrite list_lookup_insert_ne by lia. by apply Hab'. }
  destruct (is_quote _) eqn:Eq; [|destruct (_ =? $"?") eqn:E1; [|destruct (_ =? $";") eqn:E2]].
  - rewrite Et. pose proof (skip_quoted_bound (rd b' p) (endp - S p) b' (S p)) as Hsq.
    destruct (_ <=? _)%nat; cbn; rewrite Et; split_and!; auto; right; exists p; split_and!; auto; lia.
  - bprop. cbn. rewrite Et, Er, El, Eo. split_and!; auto. right. exists p. split_and!; auto; [lia..|].
    right. rewrite Epa, <- Et. auto.
  - bprop. rewrite Et in E2. destruct (QueryIsPossiblyMultistmt _); [destruct (BatchAllowed q1)|].
    all: cbn; rewrite ?Et; split_and!; auto; right; exists p; split_and!; auto; lia.
  - cbn. rewrite Et. split_and!; auto. right. exists p. split_and!; auto; lia.
Qed.

(** The loop ends: two iterations per byte at most. *)
Definition remaining (s : pstate) : nat := (2 * (endp - ps_p s) + Nat.b2n (ReadingToken s))%nat.

Lemma step_shape_remaining s s' :
  step_shape s s' -> (ps_p s < endp)%nat -> (remaining s' < remaining s)%nat.
Proof.
  unfold step_shape, remaining. intros (_ & _ & _ & _ & H) Hp.
  destruct H as [(_ & _ & _ & H1 & H2 & ->)|(t & H1 & H2 & _)]; [simpl; lia|].
  destruct (ReadingToken s'), (ReadingToken s); simpl; lia.
Qed.

Lemma step_shape_ok s s' : buffer_ok s -> step_shape s s' -> buffer_ok s'.
Proof.
  intros [He Hl] (Ha & _). split; [|by rewrite (proj1 Ha)].
  by rewrite (agree_rd _ _ _ _ _ Ha) by lia.
Qed.

(** Any property the steps preserve holds of the result, and there is one. *)
Lemma ParseQuery_loop_ind (I : pstate -> Prop) fuel s :
  buffer_ok s -> I s -> (remaining s < fuel)%nat ->
  (forall s, buffer_ok s -> (ps_p s < endp)%nat -> I s -> I (ParseQuery_step replaceCall endp s)) ->
  exists s', ParseQuery_loop fuel replaceCall endp s = Some s' /\ buffer_ok s' /\ I s' /\ (endp <= ps_p s')%nat.
Proof.
  intros Hb Hi Hf Hstep. revert s Hb Hi Hf. induction fuel as [|fuel IH]; intros s Hb Hi Hf; [lia|].
  cbn [ParseQuery_loop]. destruct (Nat.ltb_spec (ps_p s) endp) as [Hp|Hp]; [|by exists s].
  pose proof (ParseQuery_step_shape s Hb Hp) as Hs.
  apply IH; [by eapply step_shape_ok|by apply Hstep|].
  pose proof (step_shape_remaining _ _ Hs Hp). lia.
Qed.

(** *** The token arrays *)

(** What holds of the arrays when the scan has reached [ps_p s]. *)
Record arrays_ok (q0 : MADB_QUERY) (s : pstate) : Prop := {
  ao_ref : RefinedText (ps_q s) = RefinedText q0;
  ao_len : RefinedLength (ps_q s) = RefinedLength q0;
  ao_frame : agree (RefinedText q0) endp (text q0) (text (ps_q s));
  ao_pos : (RefinedText q0 <= ps_p s)%nat;
  ao_sorted : StronglySorted lt (Tokens (ps_q s));
  ao_tokens : Forall (fun t => RefinedText q0 + t < ps_p s /\ RefinedText q0 + t <= endp)%nat (Tokens (ps_q s));
  ao_params : Forall (fun t => t ∈ Tokens (ps_q s) /\ rd (text (ps_q s)) (RefinedText q0 + t) = $"?")
                (ParamPositions (ps_q s));
  ao_psorted : StronglySorted lt (ParamPositions (ps_q s));
  ao_has : HasParameters (ps_q s) = HasParameters q0 || negb (bool_decide (ParamPositions (ps_q s) = []));
}.

Lemma sorted_snoc (l : list nat) x : StronglySorted lt l -> Forall (fun y => y < x)%nat l -> StronglySorted lt (l ++ [x]).
Proof.
  induction 1 as [|y l _ IH Hy]; simpl; intros HF; [repeat constructor|].
  apply Forall_cons in HF as [Hyx HF]. constructor; [by apply IH|]. apply Forall_app. auto.
Qed.

Lemma arrays_ok_step q0 s :
  buffer_ok s -> (ps_p s < endp)%nat -> arrays_ok q0 s -> arrays_ok q0 (ParseQuery_step replaceCall endp s).
Proof.
  intros Hb Hp [Er El Ef Hpos Hsort Htk Hpa Hps Hh].
  pose proof (ParseQuery_step_shape s Hb Hp) as (Ha & Er' & El' & _ & Hc).
  set (s' := ParseQuery_step replaceCall endp s) in *.
  assert (agree (RefinedText q0) endp (text q0) (text (ps_q s'))) as Hfr.
  { destruct Ef as [L1 F1], Ha as [L2 F2]. split; [congruence|]. intros i Hi. rewrite F2, F1 by lia. done. }
  assert (forall t, (RefinedText q0 + t < ps_p s)%nat ->
    rd (text (ps_q s')) (RefinedText q0 + t) = rd (text (ps_q s)) (RefinedText q0 + t)) as Hrd
    by (intros t Ht; eapply agree_rd; [eauto|lia]).
  rewrite Er in Er', Hc. rewrite El in El'.
  destruct Hc as [(E1 & E2 & E3 & Hle & _)|(t & Ht & Htp & E1 & Hc)].
  { constructor; rewrite ?E1, ?E2, ?E3; auto; [lia|..].
    - eapply Forall_impl; [exact Htk|]. cbn. lia.
    - eapply Forall_impl; [exact Hpa|]. cbn. intros x [Hx Hq]. split; [done|].
      rewrite Hrd; [done|]. rewrite Forall_forall in Htk. by apply Htk. }
  set (t0 := (t - RefinedText q0)%nat) in *.
  assert (Forall (fun y => y < t0)%nat (Tokens (ps_q s))) as Hlt
    by (eapply Forall_impl; [exact Htk|]; cbn; intros; subst t0; lia).
  assert (Forall (fun t => t ∈ Tokens (ps_q s) ++ [t0] /\ rd (text (ps_q s')) (RefinedText q0 + t) = $"?")
            (ParamPositions (ps_q s))) as Hpa'.
  { eapply Forall_impl; [exact Hpa|]. cbn. intros x [Hx Hq]. split; [set_solver|].
    rewrite Hrd; [done|]. rewrite Forall_forall in Htk. by apply Htk. }
  assert (Forall (fun y => y < t0)%nat (ParamPositions (ps_q s))) as Hplt.
  { eapply Forall_impl; [exact Hpa|]. cbn. intros x [Hx _]. rewrite Forall_forall in Hlt. by apply Hlt. }
  constructor; rewrite ?E1; auto; [lia|by apply sorted_snoc|..].
  - apply Forall_app. split; [|repeat constructor; subst t0; lia].
    eapply Forall_impl; [exact Htk|]. cbn. lia.
  - destruct Hc as [[-> _]|(-> & _ & Hq)]; [done|]. apply Forall_app. split; [done|].
    repeat constructor; [set_solver|]. subst t0. by replace (RefinedText q0 + (t - RefinedText q0))%nat with t by lia.
  - destruct Hc as [[-> _]|(-> & _)]; [done|by apply sorted_snoc].
  - destruct Hc as [[-> ->]|(-> & -> & _)]; [done|].
    rewrite bool_decide_eq_false_2; [by rewrite orb_true_r|]. by destruct (ParamPositions (ps_q s)).
Qed.

(** *** The sub-queries *)

Definition starts (q : MADB_QUERY) : list nat := QueryText <$> SubQuery q.

Lemma start_token_starts q p count cur stype q' cur' stype' :
  start_token endp q p count cur stype = (q', cur', stype') ->
  cur' = (if (count =? 1)%nat then p else cur) /\ starts q' = starts q ++ (if (count =? 2)%nat then [cur] else []).
Proof.
  unfold start_token, starts. destruct (Nat.eqb_spec count 1) as [->|_]; [intros [= <- <- <-]; by rewrite app_nil_r|].
  destruct (Nat.eqb_spec count 2) as [->|_].
  { intros [= <- <- <-]. split; [done|]. case_match; cbn; by rewrite fmap_app. }
  case_match; [|intros [= <- <- <-]; by rewrite app_nil_r]. intros [= <- <- <-]. split; [done|]. rewrite app_nil_r.
  assert (forall (l : list SINGLE_QUERY) i t, QueryText <$> <[i := SingleQuery (QueryText (default (SingleQuery 0 MADB_QUERY_NO_RESULT) (l !! i))) t]> l
    = QueryText <$> l) as Hi.
  { intros l i t. rewrite list_fmap_insert. apply list_insert_id'. rewrite length_fmap. intros Hl.
    destruct (lookup_lt_is_Some_2 l i Hl) as [x Hx]. by rewrite list_lookup_fmap, Hx. }
  case_match; cbn [SubQuery MADB_ChangeSubQueryType set_query_type]; apply Hi.
Qed.

(** A step reads on inside a token, or starts a token at [t]. *)
Lemma ParseQuery_step_starts s : buffer_ok s -> (ps_p s < endp)%nat ->
  let s' := ParseQuery_step replaceCall endp s in let n := S (StmtTokensCount s) in
  (Tokens (ps_q s') = Tokens (ps_q s) /\ starts (ps_q s') = starts (ps_q s) /\ CurQuery s' = CurQuery s /\ StmtTokensCount s' = StmtTokensCount s)
  \/ exists t, (ps_p s <= t)%nat /\ Tokens (ps_q s') = Tokens (ps_q s) ++ [(t - RefinedText (ps_q s))%nat] /\
    CurQuery s' = (if (n =? 1)%nat then t else CurQuery s) /\ starts (ps_q s') = starts (ps_q s) ++ (if (n =? 2)%nat then [CurQuery s] else []) /\
    (StmtTokensCount s' = n \/ StmtTokensCount s' = 0%nat).
Proof.
  intros [He Hl] Hp. cbv zeta. unfold ParseQuery_step. destruct (ReadingToken s); [destruct (is_delimiter _); by left|]. right.
  destruct (SkipSpacesAndComments_spec (text (ps_q s)) (ps_p s) (Z.of_nat (endp - ps_p s)) endp true)
    as (p & len' & b & -> & Hpp & _); [done|done|done|lia..|].
  set (b' := if replaceCall && _ && _ then _ else b). clearbody b'.
  destruct (start_token endp (set_text (ps_q s) b') p _ _ _) as [[q1 cur] stype] eqn:Es. exists p.
  pose proof (start_token_starts _ _ _ _ _ _ _ _ Es) as [H1 H2]. pose proof (tk_tokens _ _ _ (start_token_spec _ _ _ _ _ _ _ _ _ Es)) as H3.
  change (starts (set_text (ps_q s) b')) with (starts (ps_q s)) in H2.
  change (Tokens (set_text (ps_q s) b')) with (Tokens (ps_q s)) in H3. change (RefinedText (set_text (ps_q s) b')) with (RefinedText (ps_q s)) in H3.
  split; [lia|]. repeat case_match; split_and!; auto.
Qed.

(** The starts of the sub-queries are tokens, in order; the statement being read starts
    behind them when it has one token. *)
Record starts_ok (q0 : MADB_QUERY) (s : pstate) : Prop := {
  so_sorted : StronglySorted lt (starts (ps_q s));
  so_tokens : Forall (fun a => exists t, t ∈ Tokens (ps_q s) /\ a = RefinedText q0 + t)%nat (starts (ps_q s));
  so_current : StmtTokensCount s = 1%nat -> Forall (fun a => a < CurQuery s)%nat (starts (ps_q s)) /\
    exists t, t ∈ Tokens (ps_q s) /\ CurQuery s = (RefinedText q0 + t)%nat;
}.

Lemma starts_ok_step q0 s : buffer_ok s -> (ps_p s < endp)%nat -> arrays_ok q0 s -> starts_ok q0 s ->
  starts_ok q0 (ParseQuery_step replaceCall endp s).
Proof.
  intros Hb Hp [Er _ _ Hpos _ Htk _ _ _] [S1 S2 S3].
  destruct (ParseQuery_step_starts s Hb Hp) as [(E1 & E2 & E3 & E4)|(t & Ht & E1 & E2 & E3 & E4)];
    [constructor; rewrite ?E1, ?E2, ?E3, ?E4; done|]. rewrite Er in E1.
  assert (Forall (fun a => a < t)%nat (starts (ps_q s))) as Hlt.
  { eapply Forall_impl; [exact S2|]. cbn. intros a (t0 & Hin & ->). rewrite Forall_forall in Htk. destruct (Htk _ Hin). lia. }
  assert (Forall (fun a => exists t, t ∈ Tokens (ps_q (ParseQuery_step replaceCall endp s)) /\ a = RefinedText q0 + t)%nat (starts (ps_q s))) as S2'
    by (rewrite E1; eapply Forall_impl; [exact S2|]; cbn; set_solver).
  destruct (StmtTokensCount s) as [|[|k]]; cbn [Nat.eqb] in E2, E3; rewrite ?app_nil_r in E3.
  - constructor; rewrite ?E3; [done|done|]. intros _. rewrite E2. split; [done|]. exists (t - RefinedText q0)%nat. rewrite E1. split; [set_solver|lia].
  - destruct (S3 eq_refl) as [Hc (t0 & Hin & Ec)]. constructor; rewrite ?E3; [by apply sorted_snoc| |lia].
    apply Forall_app. split; [done|]. repeat constructor. exists t0. rewrite E1. set_solver.
  - constructor; rewrite ?E3; [done|done|lia].
Qed.

End TokenizerStep.

(** A query the tokenizer can be run on: the refined text ends with a NUL inside
    the allocated area. *)
Definition query_ok (q : MADB_QUERY) : Prop :=
  0 <= RefinedLength q /\
  Z.of_nat (RefinedText q) + RefinedLength q < Z.of_nat (length (text q)) < 2 ^ 64 /\
  rd (text q) (RefinedText q + Z.to_nat (RefinedLength q)) = 0.

Lemma query_ok_end q : query_ok q ->
  ptr_add (RefinedText q) (RefinedLength q) = (RefinedText q + Z.to_nat (RefinedLength q))%nat.
Proof. intros (H0 & H1 & _). rewrite ptr_add_id by lia. lia. Qed.

(** C20. On every NUL-terminated query text [ParseQuery] terminates within two
    iterations per byte; it writes only inside the refined text; the tokens it
    records are strictly increasing offsets within that text, and every
    parameter position is one of the tokens, in order, and the finished text has
    a question mark there; [HasParameters] is set exactly when there is one; the
    sub-queries start at tokens of the text, in order. *)
Theorem ParseQuery_arrays q replaceCall : query_ok q ->
  let e := (RefinedText q + Z.to_nat (RefinedLength q))%nat in
  exists q', ParseQuery q replaceCall = Some q' /\
    agree (RefinedText q) e (text q) (text q') /\ rd (text q') e = 0 /\
    StronglySorted lt (Tokens q') /\
    Forall (fun t => Z.of_nat t <= RefinedLength q) (Tokens q') /\
    StronglySorted lt (ParamPositions q') /\
    Forall (fun t => t ∈ Tokens q' /\ rd (text q') (RefinedText q + t) = $"?") (ParamPositions q') /\
    HasParameters q' = HasParameters q || negb (bool_decide (ParamPositions q' = [])) /\
    StronglySorted lt (starts q') /\
    Forall (fun a => RefinedText q <= a <= e /\ (a - RefinedText q)%nat ∈ Tokens q')%nat (starts q').
Proof.
  intros Hq e. pose proof Hq as (H0 & H1 & H2). unfold ParseQuery. rewrite query_ok_end by done.
  fold e in H2 |- *.
  destruct (ParseQuery_loop_ind replaceCall e ltac:(subst e; lia) (fun s => arrays_ok e q s /\ starts_ok q s)
    (2 * length (text q) + 2) (ParseQuery_init q)) as (s' & -> & [Hz _] & [[? ? ? ? ? Htk ? ? ?] [? St _]] & _).
  - split; [done|]. cbn. subst e. lia.
  - split; constructor; cbn; auto using agree_refl; try (by constructor). by rewrite orb_false_r.
  - unfold remaining. cbn. subst e. lia.
  - intros s Hb Hp [HA HS]. assert (Z.of_nat e < 2 ^ 64) by (subst e; lia).
    split; [by apply arrays_ok_step|by apply starts_ok_step].
  - exists (ps_q s'). split_and!; auto; [eapply Forall_impl; [exact Htk|]; cbn; subst e; lia|].
    eapply Forall_impl; [exact St|]. cbn. intros a (t & Hin & ->). rewrite Forall_forall in Htk. specialize (Htk t Hin).
    split; [lia|]. by replace (RefinedText q + t - RefinedText q)%nat with t by lia.
Qed.

Definition sample_query (s : string) (batch : bool) : MADB_QUERY :=
  Query (chars s ++ [0]) [] 0 (Z.of_nat (String.length s)) [] [] false [] false MADB_QUERY_NO_RESULT batch.

Lemma ParseQuery_arrays_witness :
  exists q', ParseQuery (sample_query "select a from t where b=? -- ? and '?'" false) false = Some q' /\
    ParamPositions q' = [24%nat] /\ StronglySorted lt (Tokens q').
Proof.
  destruct (ParseQuery_arrays (sample_query "select a from t where b=? -- ? and '?'" false) false)
    as (q' & E & _ & _ & H & _).
  - split_and!; [done|vm_compute; done..].
  - exists q'. split_and!; [done| |done]. vm_compute in E. injection E as <-. reflexivity.
Defined.

(** *** Parameter markers against a reference scanner *)

(** The distance to the closing quote, where a backslash hides the character
    behind it ([esc]). *)
Fixpoint closing (esc : bool) (quote : Z) (l : list Z) : option nat :=
  match l with
  | [] => None
  | c :: l' =>
      if c =? quote then Some 0%nat
      else if esc && (c =? 92) then
        match l' with [] => None | _ :: l'' => (fun k => k + 2)%nat <$> closing esc quote l'' end
      else S <$> closing esc quote l'
  end.

(** What an opening quote takes with it: the string and its closing quote, or,
    when the string is not closed, one character. *)
Definition quoted_len (c : Z) (l : list Z) : nat :=
  match closing (negb (c =? $"`")) c l with Some k => S k | None => 1%nat end.

(** The offsets of the question marks outside comments and quoted strings. *)
Fixpoint placeholders (fuel pos : nat) (l : list Z) : list nat :=
  match fuel, l with
  | S n, c :: l' =>
      if (0 <? comment_len l)%nat then placeholders n (pos + comment_len l) (drop (comment_len l) l)
      else if is_quote c then placeholders n (S pos + quoted_len c l') (drop (quoted_len c l') l')
      else if c =? $"?" then pos :: placeholders n (S pos) l'
      else placeholders n (S pos) l'
  | _, _ => []
  end.

Lemma placeholders_fuel n : forall m pos l, (length l <= n)%nat -> (length l <= m)%nat ->
  placeholders n pos l = placeholders m pos l.
Proof.
  induction n as [|n IH]; intros [|m] pos [|c l] Hn Hm; try done; try (simpl in *; lia).
  cbn [placeholders]. cbn [length] in *. destruct (Nat.ltb_spec 0 (comment_len (c :: l))).
  - apply IH; rewrite length_drop; cbn [length]; lia.
  - rewrite (IH m (S pos) l) by lia.
    rewrite (IH m _ (drop (quoted_len c l) l)) by (rewrite length_drop; lia). done.
Qed.

Lemma SkipQuotedString_closing n : forall b p c, strlen b p = n ->
  SkipQuotedString n b p c = (match closing true c (cstr_at b p) with Some k => p + k | None => p + n end)%nat.
Proof.
  induction n as [n IH] using lt_wf_ind. intros b p c Hn. unfold strlen in Hn. pose proof (cstr_at_cons b p) as E.
  destruct n as [|n]; simpl.
  { destruct (cstr_at b p); simpl in *; [lia|done]. }
  destruct (Z.eqb_spec (rd b p) 0) as [E0|E0]; rewrite E in Hn |- *; [done|]. simpl in *. injection Hn as Hn.
  destruct (rd b p =? c); [lia|]. destruct (rd b p =? 92); simpl.
  - pose proof (cstr_at_cons b (S p)) as E'. destruct n as [|n].
    { destruct (cstr_at b (S p)); simpl in *; [lia|done]. }
    destruct (Z.eqb_spec (rd b (S p)) 0) as [E1|E1]; rewrite E' in Hn |- *; [done|]. simpl in *. injection Hn as Hn.
    rewrite IH by (auto; lia). destruct (closing _ _ _); simpl; lia.
  - rewrite IH by (auto; lia). destruct (closing _ _ _); simpl; lia.
Qed.

Lemma SkipQuotedString_Noescapes_closing n : forall b p c, strlen b p = n ->
  SkipQuotedString_Noescapes n b p c =
    (match closing false c (cstr_at b p) with Some k => p + k | None => p + n end)%nat.
Proof.
  induction n as [|n IH]; intros b p c Hn; unfold strlen in Hn; pose proof (cstr_at_cons b p) as E; simpl.
  { destruct (cstr_at b p); simpl in *; [lia|done]. }
  destruct (Z.eqb_spec (rd b p) 0) as [E0|E0]; rewrite E in Hn |- *; [done|]. simpl in *. injection Hn as Hn.
  destruct (rd b p =? c); [lia|]. rewrite IH by auto. destruct (closing _ _ _); simpl; lia.
Qed.

Lemma skip_quoted_closing b p c :
  skip_quoted c (strlen b p) b p =
    (match closing (negb (c =? $"`")%Z) c (cstr_at b p) with Some k => p + k | None => p + strlen b p end)%nat.
Proof.
  unfold skip_quoted. destruct (c =? $"`"); simpl;
    [by apply SkipQuotedString_Noescapes_closing|by apply SkipQuotedString_closing].
Qed.

Lemma closing_lt esc c : forall l k, closing esc c l = Some k -> (k < length l)%nat.
Proof.
  fix IH 1. intros [|x l] k; simpl; [done|]. destruct (x =? c); [intros [= <-]; lia|].
  destruct (esc && (x =? 92)).
  - destruct l as [|y l]; [done|]. destruct (closing esc c l) eqn:E; simpl; [|done]. intros [= <-].
    apply IH in E. lia.
  - destruct (closing esc c l) eqn:E; simpl; [|done]. intros [= <-]. apply IH in E. lia.
Qed.

Section Placeholders.
Context (C : list Z).   (** the content of the query *)

Definition params_from (i : nat) : list nat := placeholders (length C) i (drop i C).

Lemma params_from_unfold i : params_from i =
  match drop i C with
  | [] => []
  | c :: l' =>
      if (0 <? comment_len (c :: l'))%nat then params_from (i + comment_len (c :: l'))
      else if is_quote c then params_from (S i + quoted_len c l')
      else if c =? $"?" then i :: params_from (S i)
      else params_from (S i)
  end.
Proof.
  unfold params_from. destruct (drop i C) as [|c l'] eqn:E; [by destruct (length C)|].
  assert (forall k, drop k l' = drop (S i + k) C) as Ed.
  { intros k. replace (S i + k)%nat with (i + S k)%nat by lia. by rewrite <- drop_drop, E. }
  assert (S (length l') <= length C)%nat as Hl.
  { pose proof (length_drop C i) as H. rewrite E in H. simpl in H. lia. }
  destruct (length C) as [|n] eqn:En; [lia|]. cbn [placeholders].
  assert (forall j k, placeholders n j (drop k l') = placeholders (S n) j (drop k l')) as Hf
    by (intros; apply placeholders_fuel; rewrite length_drop; lia).
  pose proof (Ed 0%nat) as E0. rewrite drop_0, Nat.add_0_r in E0. pose proof (Hf (S i) 0%nat) as H0.
  rewrite drop_0 in H0. rewrite H0, <- E0, <- Ed.
  destruct (0 <? comment_len _)%nat eqn:Ec; [|by rewrite Hf].
  apply Nat.ltb_lt in Ec. destruct (comment_len (c :: l')) as [|k]; [lia|].
  cbn [drop]. rewrite Hf, Ed. by replace (i + S k)%nat with (S i + k)%nat by lia.
Qed.

Lemma params_from_end i : (length C <= i)%nat -> params_from i = [].
Proof. intros H. rewrite params_from_unfold, drop_ge by done. done. Qed.

Lemma params_from_comment i : params_from (i + comment_len (drop i C)) = params_from i.
Proof.
  rewrite (params_from_unfold i). destruct (drop i C) as [|c l'] eqn:E.
  { rewrite params_from_end; [done|]. apply drop_eq_nil in E || (assert (length (drop i C) = 0)%nat as H by (by rewrite E);
      rewrite length_drop in H); lia. }
  destruct (Nat.ltb_spec 0 (comment_len (c :: l'))) as [H|H]; [done|].
  rewrite params_from_unfold. replace (comment_len (c :: l')) with 0%nat by lia. rewrite Nat.add_0_r, E.
  destruct (Nat.ltb_spec 0 (comment_len (c :: l'))); [lia|done].
Qed.

(** A character that opens nothing and marks nothing. *)
Lemma params_from_plain i c l' : drop i C = c :: l' -> is_quote c = false -> (c =? $"?") = false ->
  (c =? $"-") = false -> (c =? $"#") = false -> (c =? $"/") = false -> params_from i = params_from (S i).
Proof.
  intros E H1 H2 H3 H4 H5. rewrite (params_from_unfold i), E, H1, H2.
  assert (comment_len (c :: l') = 0%nat) as ->; [|done].
  unfold comment_len. rewrite (Z.eqb_sym c) in H3, H4, H5. unfold chr in *. cbn in H3, H4, H5. cbn.
  by rewrite H3, H4, H5.
Qed.

Lemma params_from_ltrim i : params_from (i + ltrim_n (drop i C)) = params_from i.
Proof.
  remember (drop i C) as l eqn:E. revert i E. induction l as [|c l IH]; intros i E; simpl; [by rewrite Nat.add_0_r|].
  destruct (isspace c) eqn:Es; [|by rewrite Nat.add_0_r].
  assert (c = 9 \/ c = 10 \/ c = 11 \/ c = 12 \/ c = 13 \/ c = 32) as Hc
    by (unfold isspace in Es; bprop; destruct Es; bprop; lia).
  rewrite (params_from_plain i c l); [|by rewrite <- E|by destruct_or! Hc; subst c..].
  rewrite <- (IH (S i)); [f_equal; lia|]. replace (S i) with (i + 1)%nat by lia. rewrite <- drop_drop, <- E. done.
Qed.

Context (R : nat).      (** where the refined text starts *)
Let endp := (R + length C)%nat.
Hypothesis end64 : Z.of_nat endp < 2 ^ 64.

(** The buffer still holds the content from [p] on. *)
Definition unread (b : list Z) (p : nat) : Prop :=
  (R <= p)%nat /\ ((p <= endp)%nat -> cstr_at b p = drop (p - R) C).

Lemma unread_strlen b p : unread b p -> (p <= endp)%nat -> strlen b p = (endp - p)%nat.
Proof. intros [H0 H] Hp. unfold strlen. rewrite H, length_drop by done. unfold endp in *. lia. Qed.

Lemma unread_forward b p n : unread b p -> unread b (p + n).
Proof.
  intros [H0 H]. split; [lia|]. intros Hn. rewrite cstr_at_drop.
  - rewrite H by lia. rewrite drop_drop. f_equal. lia.
  - rewrite (unread_strlen b p); [lia|done|lia].
Qed.

Lemma unread_agree b b' p q r : unread b r -> agree p q b b' -> (q <= r)%nat -> unread b' r.
Proof. intros [H0 H] Ha Hr. split; [done|]. intros Hp. rewrite (cstr_agree _ _ _ _ _ Ha Hr). by apply H. Qed.

Lemma SkipSpaces_params fuel : forall b p prev ow p' len' b',
  unread b p -> (p <= endp)%nat -> (endp < length b)%nat -> (prev = Some p -> at_token (cstr_at b p)) ->
  SkipSpaces_loop fuel b p (Z.of_nat (strlen b p)) endp prev ow = Some (p', len', b') ->
  unread b' p' /\ (p <= p' <= endp)%nat /\ params_from (p' - R) = params_from (p - R) /\
  (p' = endp \/ at_token (cstr_at b' p')).
Proof.
  induction fuel as [|fuel IH]; intros b p prev ow p' len' b' Hu Hp Hl Hprev; [done|].
  cbn [SkipSpaces_loop]. destruct (Nat.ltb_spec p endp) as [Hlt|Hge]; cbn [andb];
    [|intros [= <- <- <-]; split_and!; auto; left; lia].
  destruct (bool_decide _) eqn:Ep; cbn [negb];
    [apply bool_decide_eq_true in Ep; intros [= <- <- <-]; split_and!; auto|].
  pose proof (unread_strlen b p Hu Hp) as Hs. pose proof (proj1 Hu) as HR.
  destruct (StripLeadingComments_eq b p (Z.of_nat (strlen b p)) ow) as (p1 & l1 & -> & _ & E1); [lia..|].
  specialize (E1 eq_refl). pose proof (comment_len_le (cstr_at b p)) as Hc. fold (strlen b p) in Hc.
  set (b1 := if ow then _ else b).
  assert (agree p p1 b b1) as Ha.
  { subst b1. destruct ow; [|apply agree_refl]. pose proof (fill_agree b p (p1 - p) 32 ltac:(lia)) as Hf.
    by replace (p + (p1 - p))%nat with p1 in Hf by lia. }
  assert (unread b1 p1) as Hu1
    by (eapply (unread_agree b); [rewrite E1; by apply unread_forward|exact Ha|done]).
  pose proof (unread_strlen b1 p1 Hu1 ltac:(lia)) as Hs1.
  pose proof (ltrim_n_le (cstr_at b1 p1)) as Ht. fold (strlen b1 p1) in Ht.
  set (p2 := (p1 + ltrim_n (cstr_at b1 p1))%nat).
  assert (params_from (p2 - R) = params_from (p - R)) as Epf.
  { subst p2. rewrite (proj2 Hu1) by lia. replace (p1 + _ - R)%nat with (p1 - R + ltrim_n (drop (p1 - R) C))%nat by lia.
    rewrite params_from_ltrim, E1, (proj2 Hu) by lia.
    replace (p + _ - R)%nat with (p - R + comment_len (drop (p - R) C))%nat by lia. apply params_from_comment. }
  intros E. apply IH in E as (H1 & H2 & H3 & H4).
  - split_and!; auto; [lia..|congruence].
  - by apply unread_forward.
  - lia.
  - by rewrite (proj1 Ha).
  - intros [= E2]. subst p2. assert (comment_len (cstr_at b p) = 0%nat) as E0 by lia.
    assert (p1 = p) as -> by lia. rewrite <- E2. split; [|lia].
    by rewrite (cstr_agree _ _ _ _ p Ha).
Qed.

(** The invariant of the loop: what is recorded and what the reference scanner
    finds in the rest make up what it finds in the whole content. *)
Definition params_inv (s : pstate) : Prop :=
  unread (text (ps_q s)) (ps_p s) /\ RefinedText (ps_q s) = R /\
  ParamPositions (ps_q s) ++ params_from (ps_p s - R) = params_from 0.

Lemma params_inv_step s :
  buffer_ok endp s -> (ps_p s < endp)%nat -> params_inv s -> params_inv (ParseQuery_step false endp s).
Proof.
  intros [He Hl] Hp (Hu & ER & Ep). unfold params_inv, ParseQuery_step.
  pose proof (unread_strlen _ _ Hu ltac:(lia)) as Hs. pose proof (proj1 Hu) as HR.
  destruct (ReadingToken s).
  { destruct (is_delimiter _) eqn:Ed; cbn; split_and!; auto.
    - rewrite <- Nat.add_1_r. by apply unread_forward.
    - rewrite <- Ep. f_equal. replace (S (ps_p s) - R)%nat with (S (ps_p s - R)) by lia. symmetry.
      pose proof (cstr_at_cons (text (ps_q s)) (ps_p s)) as Ec. rewrite (proj2 Hu) in Ec by lia.
      destruct (rd _ _ =? 0) eqn:E0.
      { apply (f_equal length) in Ec. rewrite length_drop in Ec. cbn in Ec. unfold endp in *. lia. }
      unfold is_delimiter in Ed. repeat (apply orb_false_iff in Ed as [Ed ?]).
      by eapply params_from_plain. }
  destruct (SkipSpacesAndComments (text (ps_q s)) (ps_p s) (Z.of_nat (endp - ps_p s)) true) as [[p len'] b] eqn:E.
  unfold SkipSpacesAndComments in E. rewrite ptr_add_id in E by lia.
  replace (Z.to_nat _) with endp in E by lia. rewrite <- Hs in E.
  destruct (SkipSpaces_loop_total endp true endp (length (text (ps_q s)) + 2) (text (ps_q s)) (ps_p s)
    (Z.of_nat (strlen (text (ps_q s)) (ps_p s))) None) as (p0 & l0 & b0 & E0 & _ & Ha0 & _); [done|done|done|lia|lia|..].
  { rewrite bool_decide_eq_false_2 by done. lia. }
  rewrite E0 in E. cbn in E. injection E as -> -> ->.
  apply SkipSpaces_params in E0 as (Hu1 & Hp1 & Epf & Hat); [|done|lia|done|done]. clear len'.
  cbn [andb].
  destruct (start_token endp (set_text (ps_q s) b) p _ _ _) as [[q1 cur] stype] eqn:Es.
  apply start_token_spec in Es. destruct Es as [Et _ Er _ _ _ Epa _]. cbn in Et, Er, Epa.
  rewrite Et. rewrite <- Epf, <- Epa in Ep. rewrite params_from_unfold in Ep.
  pose proof (cstr_at_cons b p) as Ec. rewrite (proj2 Hu1) in Ec by lia.
  assert (forall n, (p + n - R = p - R + n)%nat) as Hpn by (pose proof (proj1 Hu1); lia).
  assert (forall n, unread b (p + n)) as Hun by (intros; by apply unread_forward).
  pose proof (Hun 1%nat) as Hu2. rewrite Nat.add_1_r in Hu2.
  pose proof (Hpn 1%nat) as Hp2. rewrite !Nat.add_1_r in Hp2.
  destruct (Z.eqb_spec (rd b p) 0) as [E0|E0].
  { rewrite E0, Ec in *. change (is_quote 0) with false. change (0 =? $"?") with false.
    change (0 =? $";") with false. cbn. split_and!; [by rewrite Et|congruence|].
    rewrite app_nil_r in Ep. rewrite params_from_end, app_nil_r; [done|].
    apply (f_equal length) in Ec. rewrite length_drop in Ec. cbn in Ec. lia. }
  assert (p < endp)%nat as Hpe.
  { destruct (decide (p = endp)) as [->|]; [|lia]. exfalso. apply (f_equal length) in Ec.
    rewrite length_drop in Ec. unfold endp in *. cbn in Ec. lia. }
  destruct Hat as [->|[Hcl _]]; [lia|]. rewrite (proj2 Hu1), Ec in Hcl by lia.
  rewrite Ec in Ep. replace (0 <? comment_len _)%nat with false in Ep by (by rewrite Hcl).
  destruct (is_quote (rd b p)) eqn:Eq; [|destruct (rd b p =? $"?") eqn:E1; [|destruct (rd b p =? $";") eqn:E2]].
  - replace (endp - S p)%nat with (strlen b (S p)) by (apply unread_strlen; [done|lia]).
    rewrite skip_quoted_closing. unfold quoted_len in Ep.
    destruct (closing _ _ (cstr_at b (S p))) as [k|] eqn:Ek.
    + apply closing_lt in Ek. fold (strlen b (S p)) in Ek. rewrite unread_strlen in Ek by (done || lia).
      destruct (Nat.leb_spec endp (S p + k)); [lia|]. cbn.
      replace (S (S (p + k))) with (p + S (S k))%nat by lia. split_and!; [rewrite Et; auto|congruence|].
      rewrite Hpn. replace (p - R + S (S k))%nat with (S (p - R) + S k)%nat by lia. done.
    + rewrite unread_strlen by (done || lia). destruct (Nat.leb_spec endp (S p + (endp - S p))); [|lia]. cbn.
      replace (S (S p)) with (p + 2)%nat by lia. split_and!; [rewrite Et; auto|congruence|].
      rewrite Hpn. replace (p - R + 2)%nat with (S (p - R) + 1)%nat by lia. done.
  - cbn. split_and!; [by rewrite Et|congruence|]. rewrite Er, ER, Hp2, <- app_assoc. done.
  - destruct (QueryIsPossiblyMultistmt _); [destruct (BatchAllowed q1)|]; cbn; rewrite ?Et.
    all: split_and!; try congruence; try done.
    eapply (unread_agree b); [done|apply insert_agree|lia].
  - cbn. split_and!; [by rewrite Et|congruence|]. by rewrite Hp2.
Qed.

End Placeholders.

(** The invariant at the end of the loop. *)
Lemma ParseQuery_placeholders q C :
  query_ok q -> cstr_at (text q) (RefinedText q) = C -> RefinedLength q = Z.of_nat (length C) ->
  exists q', ParseQuery q false = Some q' /\ ParamPositions q' = placeholders (length C) 0 C.
Proof.
  intros Hq HC HL. pose proof Hq as (H0 & H1 & H2). unfold ParseQuery. rewrite query_ok_end by done.
  rewrite HL, Nat2Z.id in *.
  destruct (ParseQuery_loop_ind false (RefinedText q + length C) ltac:(lia)
    (params_inv C (RefinedText q)) (2 * length (text q) + 2) (ParseQuery_init q)) as (s' & -> & _ & (Hu & _ & Ep) & He).
  - split; [done|]. cbn. lia.
  - unfold params_inv, unread. cbn. rewrite Nat.sub_diag, drop_0. auto.
  - unfold remaining. cbn. lia.
  - apply params_inv_step. lia.
  - exists (ps_q s'). split; [done|]. rewrite (params_from_end C (ps_p s' - _)), app_nil_r in Ep by lia. done.
Qed.

(** The tokenizer keeps the executable text, and says that there are parameters
    exactly when it recorded some. *)
Lemma ParseQuery_original q q' replaceCall : query_ok q -> HasParameters q = false -> ParseQuery q replaceCall = Some q' ->
  Original q' = Original q /\ (HasParameters q' = true <-> ParamPositions q' <> []).
Proof.
  intros Hq Hh. pose proof Hq as (H0 & H1 & H2). unfold ParseQuery. rewrite query_ok_end by done.
  destruct (ParseQuery_loop_ind replaceCall (RefinedText q + Z.to_nat (RefinedLength q)) ltac:(lia)
    (fun s => Original (ps_q s) = Original q /\ (HasParameters (ps_q s) = true <-> ParamPositions (ps_q s) <> []))
    (2 * length (text q) + 2) (ParseQuery_init q)) as (s' & -> & _ & Hi & _).
  - split; [done|]. cbn. lia.
  - cbn. by rewrite Hh.
  - unfold remaining. cbn. lia.
  - intros s Hb Hp [Ho Hhp]. destruct (ParseQuery_step_shape replaceCall (RefinedText q + Z.to_nat (RefinedLength q)) ltac:(lia) s Hb Hp) as (_ & _ & _ & E & Hs).
    rewrite E. split; [done|]. destruct Hs as [(_ & -> & -> & _)|(t & _ & _ & _ & [[-> ->]|(-> & -> & _)])]; try done.
    split; [|done]. intros _. by destruct (ParamPositions (ps_q s)).
  - intros [= <-]. exact Hi.
Qed.

(** C1. The parameter markers the tokenizer records are exactly the question marks
    that a character-level scan finds outside comments and quoted strings,
    whatever the token boundaries and statement separators are. *)
Theorem ParseQuery_params q C :
  query_ok q -> cstr_at (text q) (RefinedText q) = C -> RefinedLength q = Z.of_nat (length C) ->
  exists q', ParseQuery q false = Some q' /\ ParamPositions q' = placeholders (length C) 0 C.
Proof. apply ParseQuery_placeholders. Qed.

Definition sample_text : string := "insert into t values(?, '?', 'x?') /* ? */, ?".

Lemma ParseQuery_params_witness :
  exists q', ParseQuery (sample_query sample_text false) false = Some q' /\
    ParamPositions q' = [21%nat; 44%nat].
Proof.
  destruct (ParseQuery_params (sample_query sample_text false) (chars sample_text)
    ltac:(split_and!; vm_compute; done) ltac:(by vm_compute) ltac:(by vm_compute)) as (q' & E & Hq).
  exists q'. split; [exact E|]. rewrite Hq. vm_compute. reflexivity.
Defined.

(** *** Classification *)

Lemma isalpha_tolower c : isalpha (tolower c) = isalpha c.
Proof.
  unfold tolower. destruct (isupper c) eqn:E; [|done]. unfold isalpha. rewrite E. simpl.
  unfold isupper, islower in *. bprop. apply orb_true_iff. right. apply andb_true_iff.
  split; apply Z.leb_le; lia.
Qed.

Lemma skip_nonalpha_lower l : skip_nonalpha (tolower <$> l) = tolower <$> skip_nonalpha l.
Proof.
  induction l as [|c l IH]; [done|]. cbn [fmap list_fmap skip_nonalpha]. rewrite isalpha_tolower.
  by destruct (isalpha c).
Qed.

(** The statement type does not depend on the case of the query's letters. *)
Theorem MADB_GetQueryType_nocase t1 t2 :
  MADB_GetQueryType (tolower <$> t1) (tolower <$> t2) = MADB_GetQueryType t1 t2.
Proof. unfold MADB_GetQueryType. cbv zeta. by rewrite skip_nonalpha_lower, !strnicmp_eq_lower. Qed.

(** [FixIsoFormat] keeps the closing brace, and the length correction that
    follows in [MADB_ParseQuery] is by the offset in the allocated area: the text
    kept for execution loses as many characters as there are blanks behind the
    opening brace. *)
Theorem FixIsoFormat_truncates :
  (Original <$> MADB_ParseQuery (sample_query "{select 1}" false) false) = Some (chars "select 1") /\
  (Original <$> MADB_ParseQuery (sample_query "{  select 1}" false) false) = Some (chars "select") /\
  (text <$> MADB_ParseQuery (sample_query "{select 1}" false) false) = Some (chars "{select 1}" ++ [0]).
Proof. split_and!; vm_compute; reflexivity. Qed.

(** A batch whose last statement is one word is not seen as a batch: a
    statement is only registered at its second token. *)
Theorem one_word_statement_not_counted :
  (QUERY_IS_MULTISTMT <$> ParseQuery (sample_query "delete from t;commit work" true) false) = Some true /\
  (QUERY_IS_MULTISTMT <$> ParseQuery (sample_query "delete from t;commit" true) false) = Some false.
Proof. split; vm_compute; reflexivity. Qed.

End ParseProps.
