(* ===== verification/Unescape.v ===== *)
(** * Unescape: the ODBC escape sequences and the front end of the parser

    Models [MADB_UnescapeQuery] and [MADB_ResetParser] of [ma_parse.c] and their
    composition with [MADB_ParseQuery].  The translation of the text between one
    pair of braces is done by the generated parser ([yyparse] on
    [escape_sequences/parser.y]), which is a parameter here: it gets the text and
    returns its translation, or an error record.  Allocations succeed. *)

From Stdlib Require Import ZArith Lia.
From stdpp Require Import base strings numbers option sorting sets list.
From S2P Require Import Prelude Odbc Errors Parse.
Import Scan Tokenizer ErrorOps.

Module Unescape.

Section WithParser.
Context (yyparse : MADB_Error -> list Z -> list Z + MADB_Error).

(** [MADB_UnescapeQuery]: the text produced and the position reached, or the
    error.  [res] is the content of the dynamic string built so far; the
    recursive call on an opening brace starts with an empty one.  Allocations
    succeed, and [yyparse] is any function: the theorems hold for every parser. *)
Fixpoint UnescapeQuery_loop (fuel : nat) (error : MADB_Error) (b : list Z) (srcEnd src : nat)
    (openCurlyBrackets : nat) (res : list Z) : option ((list Z * nat) + MADB_Error) :=
  match fuel with
  | O => None
  | S fuel' =>
      if (src <? srcEnd)%nat then
        let c := rd b src in
        if c =? $"{" then
          match UnescapeQuery_loop fuel' error b srcEnd (S src) (S openCurlyBrackets) [] with
          | Some (inl (subquery, src')) =>
              UnescapeQuery_loop fuel' error b srcEnd src' openCurlyBrackets (res ++ cstr subquery)
          | r => r
          end
        else if c =? $"}" then
          if (openCurlyBrackets =? 0)%nat then
            Some (inr (MADB_SetError error MADB_ERR_42000
              (Some (chars "Failed to find a pair for a closing curly bracket")) 0))
          else
            match yyparse error (cstr res) with
            | inl r => Some (inl (r, S src))
            | inr e => Some (inr e)
            end
        else if is_quote c then
          let quotedString := skip_quoted c (srcEnd - S src) b (S src) in
          let stringLength :=
            if (quotedString =? srcEnd)%nat then (quotedString - src)%nat else S (quotedString - src) in
          UnescapeQuery_loop fuel' error b srcEnd (src + stringLength) openCurlyBrackets
            (res ++ take stringLength (drop src b))
        else UnescapeQuery_loop fuel' error b srcEnd (S src) openCurlyBrackets (res ++ [c])
      else if (openCurlyBrackets =? 0)%nat then Some (inl (res, src))
      else Some (inr (MADB_SetError error MADB_ERR_42000
             (Some (chars "Failed to find a pair for an opening curly bracket")) 0))
  end.

Definition MADB_UnescapeQuery (error : MADB_Error) (b : list Z) (src srcEnd openCurlyBrackets : nat)
    : option ((list Z * nat) + MADB_Error) :=
  UnescapeQuery_loop (S (srcEnd - src)) error b srcEnd src openCurlyBrackets [].

(** [MADB_ResetParser]: the query is cleared, then takes the unescaped text.
    [None] as [OriginalQuery] is a NULL pointer; [multi] is the connection's
    MULTI_STATEMENTS option. *)
Definition MADB_ResetParser (multi : bool) (error : MADB_Error) (q : MADB_QUERY)
    (OriginalQuery : option (list Z)) (OriginalLength : nat) : option (MADB_QUERY + MADB_Error) :=
  let q0 := MADB_DeleteQuery q in
  match OriginalQuery with
  | None => Some (inl q0)
  | Some b =>
      match MADB_UnescapeQuery error b 0 OriginalLength 0 with
      | None => None
      | Some (inr e) => Some (inr e)
      | Some (inl (res, _)) =>
          Some (inl (Query (res ++ [0]) (Original q0) 0 (Z.of_nat (length res)) (Tokens q0) (SubQuery q0)
            (HasParameters q0) (ParamPositions q0) (ReturnsResult q0) (QueryType q0) multi))
      end
  end.

End WithParser.
End Unescape.

(** ** Properties *)

Module UnescapeProps.
Import Unescape ParseProps.

(** The text without its quoted strings.  The mode is [None] outside a string;
    inside, the quote it was opened with and whether the next character is
    hidden by a backslash. *)
Fixpoint unquoted (mode : option (Z * bool)) (l : list Z) : list Z :=
  match l with
  | [] => []
  | c :: l' =>
      match mode with
      | None => if is_quote c then unquoted (Some (c, false)) l' else c :: unquoted None l'
      | Some (q, true) => unquoted (Some (q, false)) l'
      | Some (q, false) =>
          if c =? q then unquoted None l'
          else unquoted (Some (q, (c =? 92) && negb (q =? $"`"))) l'
      end
  end.

(** The nesting depth at the end of a text entered at depth [d]; [None] when a
    closing brace has no partner. *)
Fixpoint brace_depth (l : list Z) (d : nat) : option nat :=
  match l with
  | [] => Some d
  | c :: l' =>
      if c =? $"{" then brace_depth l' (S d)
      else if c =? $"}" then match d with O => None | S d' => brace_depth l' d' end
      else brace_depth l' d
  end.

Definition balanced (l : list Z) : Prop := brace_depth (unquoted None l) 0 = Some 0%nat.

(** The window of the buffer from [p] to [e]. *)
Definition window (b : list Z) (e p : nat) : list Z := take (e - p) (drop p b).

Lemma window_cons b e p : (p < e <= length b)%nat -> window b e p = rd b p :: window b e (S p).
Proof.
  intros H. unfold window, rd. destruct (lookup_lt_is_Some_2 b p ltac:(lia)) as [c Hc].
  rewrite (drop_S _ _ _ Hc), Hc. replace (e - p)%nat with (S (e - S p)) by lia. done.
Qed.

Lemma window_nil b e p : (e <= p)%nat -> window b e p = [].
Proof. intros H. unfold window. by replace (e - p)%nat with 0%nat by lia. Qed.

(** A skipped string is one the automaton leaves out. *)
Definition past (e p : nat) : nat := if (p =? e)%nat then p else S p.

(** Every character with a flag: does it belong to a quoted string (quotes included)? *)
Fixpoint mark (mode : option (Z * bool)) (l : list Z) : list (Z * bool) :=
  match l with
  | [] => []
  | c :: l' =>
      match mode with
      | None => if is_quote c then (c, true) :: mark (Some (c, false)) l' else (c, false) :: mark None l'
      | Some (q, true) => (c, true) :: mark (Some (q, false)) l'
      | Some (q, false) =>
          (c, true) :: (if c =? q then mark None l' else mark (Some (q, (c =? 92) && negb (q =? $"`"))) l')
      end
  end.

Definition outside (m : list (Z * bool)) : list Z := omap (fun '(c, s) => if s : bool then None else Some c) m.

Lemma unquoted_mark l : forall mode, unquoted mode l = outside (mark mode l).
Proof.
  induction l as [|c l IH]; intros mode; [done|]. unfold outside. cbn [unquoted mark].
  destruct mode as [[q [|]]|]; cbn; [apply IH| |].
  - destruct (c =? q); apply IH.
  - destruct (is_quote c); cbn; [apply IH|f_equal; apply IH].
Qed.

Lemma outside_string (l : list Z) m : outside (map (fun c => (c, true)) l ++ m) = outside m.
Proof. induction l as [|c l IH]; [done|]. exact IH. Qed.

Lemma SkipQuotedString_mark e b c : forall n p, (p + n = e)%nat -> (e <= length b)%nat -> c <> $"`" ->
  let stop := past e (SkipQuotedString n b p c) in
  mark (Some (c, false)) (window b e p) = map (fun x => (x, true)) (window b stop p) ++ mark None (window b e stop).
Proof.
  induction n as [n IH] using lt_wf_ind. intros p Hn He Hc. destruct n as [|n].
  { unfold past; cbn [SkipQuotedString]. destruct (Nat.eqb_spec p e); [|lia]. by rewrite !window_nil by lia. }
  rewrite (window_cons b e p) by lia. cbn [mark SkipQuotedString].
  destruct (rd b p =? c) eqn:Ec.
  { unfold past. destruct (Nat.eqb_spec p e); [lia|]. rewrite (window_cons b (S p) p), (window_nil b (S p) (S p)) by lia.
    done. }
  pose proof Hc as Hc'. apply Z.eqb_neq in Hc'. rewrite Hc', andb_true_r.
  assert (forall n' p', (S p <= p')%nat -> (p' + n' = e)%nat -> (p' <= past e (SkipQuotedString n' b p' c) <= e)%nat) as Hb.
  { intros n' p' H1 H2. pose proof (SkipQuotedString_bound n' b p' c). unfold past. destruct (Nat.eqb_spec (SkipQuotedString n' b p' c) e); lia. }
  destruct (rd b p =? 92).
  2:{ cbv zeta. rewrite (IH n ltac:(lia) (S p)) by lia || done. pose proof (Hb n (S p) ltac:(lia) ltac:(lia)).
      by rewrite (window_cons b (past _ _) p) by lia. }
  destruct n as [|n].
  - cbv zeta. rewrite (window_nil b e (S p)) by lia. unfold past. destruct (Nat.eqb_spec (S p) e); [|lia].
    rewrite (window_cons b (S p) p), !window_nil by lia. done.
  - rewrite (window_cons b e (S p)) by lia. cbn [mark]. cbv zeta. rewrite (IH n ltac:(lia) (S (S p))) by lia || done.
    pose proof (Hb n (S (S p)) ltac:(lia) ltac:(lia)).
    by rewrite (window_cons b (past _ _) p), (window_cons b (past _ _) (S p)) by lia.
Qed.

Lemma SkipQuotedString_Noescapes_mark e b : forall n p, (p + n = e)%nat -> (e <= length b)%nat ->
  let stop := past e (SkipQuotedString_Noescapes n b p ($"`")) in
  mark (Some ($"`", false)) (window b e p) = map (fun x => (x, true)) (window b stop p) ++ mark None (window b e stop).
Proof.
  induction n as [|n IH]; intros p Hn He.
  { unfold past; cbn [SkipQuotedString_Noescapes]. destruct (Nat.eqb_spec p e); [|lia]. by rewrite !window_nil by lia. }
  rewrite (window_cons b e p) by lia. cbn [mark SkipQuotedString_Noescapes].
  destruct (rd b p =? $"`").
  { unfold past. destruct (Nat.eqb_spec p e); [lia|]. rewrite (window_cons b (S p) p), (window_nil b (S p) (S p)) by lia.
    done. }
  rewrite Z.eqb_refl. cbn [negb]. rewrite andb_false_r. cbv zeta. rewrite IH by lia.
  pose proof (SkipQuotedString_Noescapes_bound n b (S p) ($"`")).
  rewrite (window_cons b (past _ _) p); [done|]. unfold past. destruct (Nat.eqb_spec (SkipQuotedString_Noescapes n b (S p) ($"`")) e); lia.
Qed.

Lemma skip_quoted_mark e b c p : (p <= e <= length b)%nat ->
  let stop := past e (skip_quoted c (e - p) b p) in
  mark (Some (c, false)) (window b e p) = map (fun x => (x, true)) (window b stop p) ++ mark None (window b e stop).
Proof.
  intros H. unfold skip_quoted. destruct (Z.eqb_spec c ($"`")) as [->|Hc];
    [apply SkipQuotedString_Noescapes_mark|apply SkipQuotedString_mark]; auto; lia.
Qed.

Lemma skip_quoted_unquoted e b c p : (p <= e <= length b)%nat ->
  unquoted (Some (c, false)) (window b e p) = unquoted None (window b e (past e (skip_quoted c (e - p) b p))).
Proof. intros H. by rewrite !unquoted_mark, skip_quoted_mark, outside_string by done. Qed.

(** The translation as one pass with a stack of the texts begun: a brace opens
    a text, its partner hands the text to the escape parser and appends what it
    returns to the text around it; the characters of strings are copied. *)
Section Translate.
Context (yyparse : MADB_Error -> list Z -> list Z + MADB_Error) (error : MADB_Error).

Definition unpaired (msg : string) : MADB_Error := MADB_SetError error MADB_ERR_42000 (Some (chars msg)) 0.

Fixpoint translate (l : list (Z * bool)) (top : list Z) (outer : list (list Z)) : list Z + MADB_Error :=
  match l with
  | [] => match outer with [] => inl top | _ => inr (unpaired "Failed to find a pair for an opening curly bracket") end
  | (c, true) :: l' => translate l' (top ++ [c]) outer
  | (c, false) :: l' =>
      if c =? $"{" then translate l' [] (top :: outer)
      else if c =? $"}" then
        match outer with
        | [] => inr (unpaired "Failed to find a pair for a closing curly bracket")
        | o :: outer' =>
            match yyparse error (cstr top) with inl r => translate l' (o ++ cstr r) outer' | inr er => inr er end
        end
      else translate l' (top ++ [c]) outer
  end.

Lemma translate_string s : forall m top outer,
  translate (map (fun c => (c, true)) s ++ m) top outer = translate m (top ++ s) outer.
Proof.
  induction s as [|c s IH]; intros m top outer; cbn [map app translate]; [by rewrite app_nil_r|].
  by rewrite IH, <- app_assoc.
Qed.

(** A translation means balanced braces; a refusal comes from a brace without a
    partner or from the parser. *)
Lemma translate_balanced l : forall top outer,
  match translate l top outer with
  | inl _ => brace_depth (outside l) (length outer) = Some 0%nat
  | inr er =>
      (brace_depth (outside l) (length outer) <> Some 0%nat /\ exists msg, er = unpaired msg) \/
      exists t, yyparse error t = inr er
  end.
Proof.
  induction l as [|[c s] l IH]; intros top outer; cbn [translate].
  { destruct outer; [done|]. left. split; [done|by eexists]. }
  destruct s; [apply IH|]. change (outside ((c, false) :: l)) with (c :: outside l). cbn [brace_depth].
  destruct (c =? $"{"); [apply (IH [] (top :: outer))|]. destruct (c =? $"}"); [|apply IH].
  destruct outer as [|o outer]; cbn [length]; [left; split; [done|by eexists]|].
  destruct (yyparse error (cstr top)) as [r|er] eqn:Ey; [apply IH|]. right. by eexists.
Qed.

End Translate.

Section Loop.
Context (yyparse : MADB_Error -> list Z -> list Z + MADB_Error) (error : MADB_Error) (b : list Z) (e : nat).
Hypothesis Hlen : (e <= length b)%nat.

Let loop fuel src d res := UnescapeQuery_loop yyparse fuel error b e src d res.

(** The number of characters a quoted string takes. *)
Lemma string_span src : (src < e)%nat ->
  let q := skip_quoted (rd b src) (e - S src) b (S src) in
  let n := if (q =? e)%nat then (q - src)%nat else S (q - src) in
  (0 < n)%nat /\ (src + n <= e)%nat /\ (src + n = past e q)%nat.
Proof.
  intros Hs q n. pose proof (skip_quoted_bound (rd b src) (e - S src) b (S src)) as Hq. fold q in Hq.
  subst n. unfold past. destruct (Nat.eqb_spec q e); lia.
Qed.

(** Every run ends, at a position behind the start; inside braces strictly. *)
Lemma UnescapeQuery_loop_total fuel : forall src d res, (src <= e)%nat -> (e - src < fuel)%nat ->
  exists r, loop fuel src d res = Some r /\
    forall t src', r = inl (t, src') -> (src <= src' <= e)%nat.
Proof.
  subst loop. induction fuel as [|fuel IH]; intros src d res Hs Hf; [lia|]. cbn [UnescapeQuery_loop].
  destruct (Nat.ltb_spec src e) as [Hlt|Hge].
  2:{ destruct (d =? 0)%nat; eexists; split; try done. intros t src' [= <- <-]. lia. }
  destruct (rd b src =? $"{").
  { destruct (IH (S src) (S d) [] ltac:(lia) ltac:(lia)) as ([[sub src1]|er] & -> & Hr).
    - specialize (Hr _ _ eq_refl).
      destruct (IH src1 d (res ++ cstr sub) ltac:(lia) ltac:(lia)) as (r & -> & Hr').
      exists r. split; [done|]. intros t src' E. specialize (Hr' _ _ E). lia.
    - by eexists. }
  destruct (rd b src =? $"}").
  { destruct (d =? 0)%nat; [by eexists|]. destruct (yyparse error (cstr res)); eexists; split; try done.
    intros t src' [= <- <-]. lia. }
  destruct (is_quote (rd b src)).
  - destruct (string_span src Hlt) as (H1 & H2 & _). cbv zeta in *.
    edestruct IH as (r & -> & Hr); [exact H2|lia|]. exists r. split; [done|].
    intros t src' E. specialize (Hr _ _ E). lia.
  - edestruct IH as (r & -> & Hr); [|lia|]; [lia|]. exists r. split; [done|].
    intros t src' E. specialize (Hr _ _ E). lia.
Qed.

(** The recursion of [MADB_UnescapeQuery] is the pass with a stack. *)
Lemma UnescapeQuery_loop_translate fuel : forall src res outer r, (src <= e)%nat ->
  loop fuel src (length outer) res = Some r ->
  match r with
  | inl (t, src') =>
      (src <= src' <= e)%nat /\
      match outer with
      | [] => src' = e /\ translate yyparse error (mark None (window b e src)) res [] = inl t
      | o :: outer' => translate yyparse error (mark None (window b e src)) res outer
                       = translate yyparse error (mark None (window b e src')) (o ++ cstr t) outer'
      end
  | inr er => translate yyparse error (mark None (window b e src)) res outer = inr er
  end.
Proof.
  subst loop. induction fuel as [|fuel IH]; intros src res outer r Hs; [done|]. cbn [UnescapeQuery_loop].
  destruct (Nat.ltb_spec src e) as [Hlt|Hge].
  2:{ rewrite window_nil by lia. destruct outer; intros [= <-]; [|done]. split; [lia|split; [lia|done]]. }
  destruct (is_quote (rd b src)) eqn:Eq.
  { assert ((rd b src =? $"{") = false /\ (rd b src =? $"}") = false) as [-> ->].
    { unfold is_quote in Eq. bprop. destruct Eq as [Eq|Eq]; bprop; [destruct Eq as [Eq|Eq]; bprop|]; rewrite Eq; done. }
    destruct (string_span src Hlt) as (H1 & H2 & H3). cbv zeta in *.
    match type of H1 with (0 < ?x)%nat => set (n := x) in * end. intros E. apply IH in E; [|lia].
    assert (mark None (window b e src) = map (fun x => (x, true)) (take n (drop src b)) ++ mark None (window b e (src + n)))
      as ->.
    2:{ destruct r as [[t src']|er]; [destruct E as [E1 E]; split; [lia|destruct outer]|]; by rewrite translate_string. }
    rewrite (window_cons b e src) by lia. cbn [mark]. rewrite Eq, skip_quoted_mark, <- H3 by lia.
    assert (take n (drop src b) = window b (src + n) src) as -> by (unfold window; f_equal; lia).
    by rewrite (window_cons b (src + n) src) by lia. }
  assert (mark None (window b e src) = (rd b src, false) :: mark None (window b e (S src))) as ->
    by (rewrite (window_cons b e src) by lia; cbn [mark]; by rewrite Eq).
  cbn [translate]. destruct (rd b src =? $"{").
  { destruct (UnescapeQuery_loop yyparse fuel error b e (S src) (S (length outer)) []) as [[[sub src1]|er]|] eqn:E1; [..|done].
    - apply (IH _ _ (res :: outer)) in E1 as [H1 Hi]; [|lia]. intros E. apply IH in E; [|lia].
      destruct r as [[t src']|er]; [|by rewrite Hi]. destruct E as [H2 H3]. split; [lia|]. by destruct outer; rewrite Hi.
    - apply (IH _ _ (res :: outer)) in E1; [|lia]. by intros [= <-]. }
  destruct (rd b src =? $"}").
  { destruct outer as [|o outer]; cbn [length Nat.eqb]; [by intros [= <-]|].
    destruct (yyparse error (cstr res)) as [t|er]; intros [= <-]; [|done]. split; [lia|done]. }
  intros E. apply IH in E; [|lia]. destruct r as [[t src']|er]; [|done]. destruct E as [H1 H2]. split; [lia|by destruct outer].
Qed.

End Loop.

Lemma window_0 b e : window b e 0 = take e b.
Proof. unfold window. by rewrite Nat.sub_0_r, drop_0. Qed.

(** C35. [MADB_UnescapeQuery], for any escape parser, translates the query as one
    pass with a stack of begun texts does: it always ends, what is in quotes is
    copied, and the parser gets the text of every pair of braces, inner ones
    first and already replaced by their translation.  It succeeds, at the end of
    the query, only when the braces outside quoted strings are balanced, and it
    fails only with SQLSTATE 42000 for a brace without a partner or with the
    error of the parser on a text it was given. *)
Theorem MADB_UnescapeQuery_balanced yyparse error b e : (e <= length b)%nat ->
  match MADB_UnescapeQuery yyparse error b 0 e 0 with
  | Some (inl (t, src)) => src = e /\ translate yyparse error (mark None (take e b)) [] [] = inl t /\ balanced (take e b)
  | Some (inr er) =>
      translate yyparse error (mark None (take e b)) [] [] = inr er /\
      ((~ balanced (take e b) /\ exists msg, er = MADB_SetError error MADB_ERR_42000 (Some msg) 0) \/
       exists t, yyparse error t = inr er)
  | None => False
  end.
Proof.
  intros Hl. unfold MADB_UnescapeQuery, balanced. rewrite <- window_0, unquoted_mark.
  destruct (UnescapeQuery_loop_total yyparse error b e Hl (S (e - 0)) 0 0 [] ltac:(lia) ltac:(lia)) as (r & E & _).
  rewrite E. apply (UnescapeQuery_loop_translate _ _ _ _ Hl _ _ _ []) in E; [|lia].
  pose proof (translate_balanced yyparse error (mark None (window b e 0)) [] []) as Hb. cbn [length] in Hb.
  destruct r as [[t src']|er].
  - destruct E as (_ & -> & E). rewrite E in Hb. done.
  - rewrite E in Hb. split; [done|]. destruct Hb as [[H1 [msg ->]]|H]; [left|by right]. split; [done|by eexists].
Qed.

(** An escape parser for the witness: it drops a known keyword and refuses any other. *)
Definition drop_keyword (er : MADB_Error) (t : list Z) : list Z + MADB_Error :=
  if starts_with (chars "fn ") t then inl (drop 3 t)
  else if starts_with (chars "d ") t then inl (drop 2 t)
  else inr (MADB_SetError er MADB_ERR_42000 (Some (chars "Incorrect syntax for the escape sequence")) 0).

Lemma MADB_UnescapeQuery_balanced_witness :
  (exists t, MADB_UnescapeQuery drop_keyword ErrorProps.zero_error (chars "select {fn abs({d '}'})}") 0 24 0
     = Some (inl (t, 24%nat)) /\ t = chars "select abs('}')") /\
  (exists er, MADB_UnescapeQuery drop_keyword ErrorProps.zero_error (chars "select {x 1}") 0 12 0 = Some (inr er)).
Proof.
  split.
  - pose proof (MADB_UnescapeQuery_balanced drop_keyword ErrorProps.zero_error (chars "select {fn abs({d '}'})}") 24
      ltac:(vm_compute; lia)) as H.
    destruct (MADB_UnescapeQuery _ _ _ _ _ _) as [[[t src]|er]|]; [|exfalso|done].
    + destruct H as (-> & E & _). exists t. split; [done|]. vm_compute in E. by injection E as <-.
    + destruct H as [E _]. vm_compute in E. done.
  - pose proof (MADB_UnescapeQuery_balanced drop_keyword ErrorProps.zero_error (chars "select {x 1}") 12
      ltac:(vm_compute; lia)) as H.
    destruct (MADB_UnescapeQuery _ _ _ _ _ _) as [[[t src]|er]|]; [exfalso|by eexists|done].
    destruct H as (_ & E & _). vm_compute in E. done.
Defined.

(** Text without braces outside strings is copied. *)
Lemma UnescapeQuery_loop_plain yyparse error b e (Hl : (e <= length b)%nat) fuel : forall src res,
  (src <= e)%nat -> (e - src < fuel)%nat ->
  Forall (fun c => c <> $"{" /\ c <> $"}") (unquoted None (window b e src)) ->
  UnescapeQuery_loop yyparse fuel error b e src 0 res = Some (inl (res ++ window b e src, e)).
Proof.
  induction fuel as [|fuel IH]; intros src res Hs Hf HF; [lia|]. cbn [UnescapeQuery_loop].
  destruct (Nat.ltb_spec src e) as [Hlt|Hge].
  2:{ rewrite window_nil, app_nil_r by lia. cbn. repeat f_equal. lia. }
  rewrite window_cons in HF by lia. cbn [unquoted] in HF. destruct (is_quote (rd b src)) eqn:Eq.
  - assert ((rd b src =? $"{") = false /\ (rd b src =? $"}") = false) as [-> ->].
    { unfold is_quote in Eq. bprop. destruct Eq as [Eq|Eq]; bprop; [destruct Eq as [Eq|Eq]; bprop|]; rewrite Eq; done. }
    rewrite skip_quoted_unquoted in HF by lia.
    destruct (string_span b e Hl src Hlt) as (H1 & H2 & H3). cbv zeta in *.
    rewrite <- H3 in HF. rewrite IH by (done || lia). do 2 f_equal. f_equal. rewrite <- app_assoc. f_equal.
    match type of H1 with (0 < ?x)%nat => set (n := x) in * end. unfold window. rewrite <- (take_drop n (take (e - src) (drop src b))).
    rewrite take_take, Nat.min_l by lia. f_equal. rewrite skipn_firstn_comm, drop_drop. f_equal. lia.
  - apply Forall_cons in HF as [[H1 H2] HF]. apply Z.eqb_neq in H1, H2. rewrite H1, H2.
    rewrite IH by (done || lia). rewrite (window_cons b e src) by lia. by rewrite <- app_assoc.
Qed.

(** A query with no brace outside quoted strings goes through
    [MADB_UnescapeQuery] unchanged, whatever the escape parser does. *)
Theorem MADB_UnescapeQuery_identity yyparse error b e : (e <= length b)%nat ->
  Forall (fun c => c <> $"{" /\ c <> $"}") (unquoted None (take e b)) ->
  MADB_UnescapeQuery yyparse error b 0 e 0 = Some (inl (take e b, e)).
Proof.
  intros Hl HF. unfold MADB_UnescapeQuery. rewrite <- window_0 in HF |- *.
  by rewrite UnescapeQuery_loop_plain by (done || lia).
Qed.

Lemma MADB_UnescapeQuery_identity_witness :
  MADB_UnescapeQuery (fun e _ => inr e) ErrorProps.zero_error (chars "select '{' from t") 0 17 0
    = Some (inl (chars "select '{' from t", 17%nat)).
Proof.
  rewrite (MADB_UnescapeQuery_identity (fun e _ => inr e)); [reflexivity|vm_compute; lia|].
  apply (bool_decide_eq_true_1 _). vm_compute. reflexivity.
Defined.

(** *** The front end: trimming before the tokenizer *)

Definition trailing (c : Z) : bool := isspace c || (c =? $";").

Lemma SqlRtrim_loop_spec n : forall b n' b', (n <= length b)%nat -> SqlRtrim_loop n b 0 = (n', b') ->
  (n' <= n)%nat /\ agree n' n b b' /\ (forall i, (n' <= i < n)%nat -> rd b' i = 0 /\ trailing (rd b i) = true) /\
  ((1 < n')%nat -> trailing (rd b (n' - 1)) = false) /\ ((0 < n)%nat -> (0 < n')%nat).
Proof.
  induction n as [|n IH]; intros b n' b' Hn; cbn [SqlRtrim_loop].
  { intros [= <- <-]. split_and!; auto using agree_refl; lia. }
  rewrite Nat.add_0_l. fold (trailing (rd b n)).
  destruct (Nat.ltb_spec 0 n) as [H0|H0]; cbn [andb].
  2:{ intros [= <- <-]. split_and!; auto using agree_refl; lia. }
  destruct (trailing (rd b n)) eqn:Et.
  2:{ intros [= <- <-]. split_and!; auto using agree_refl; [lia|]. intros _. by replace (S n - 1)%nat with n by lia. }
  intros E. apply IH in E as (H1 & [L H2] & H3 & H4 & H5); [|rewrite length_insert; lia].
  rewrite length_insert in L.
  assert (forall i, (i < n)%nat -> rd (<[n:=0]> b) i = rd b i) as Hr
    by (intros i Hi; unfold rd; by rewrite list_lookup_insert_ne by lia).
  split_and!; [lia| | | |intros _; by apply H5].
  - split; [done|]. intros i Hi. rewrite H2 by lia. by rewrite list_lookup_insert_ne by lia.
  - intros i Hi. destruct (decide (i = n)) as [->|Hne].
    + split; [|done]. unfold rd. rewrite H2 by lia. by rewrite list_lookup_insert_eq by lia.
    + destruct (H3 i ltac:(lia)) as [H6 H7]. rewrite Hr in H7 by lia. done.
  - intros H6. specialize (H4 H6). rewrite Hr in H4 by lia. done.
Qed.

Lemma cstr_at_content l : forall b p, (forall i, (i < length l)%nat -> b !! (p + i)%nat = l !! i) ->
  Forall (fun c => c <> 0) l -> rd b (p + length l) = 0 -> cstr_at b p = l.
Proof.
  induction l as [|c l IH]; intros b p Hb HF Hz; rewrite cstr_at_cons.
  - rewrite Nat.add_0_r in Hz. by rewrite Hz.
  - apply Forall_cons in HF as [Hc HF]. pose proof (Hb 0%nat ltac:(simpl; lia)) as H0.
    rewrite Nat.add_0_r in H0. rewrite (rd_lookup _ _ _ H0). destruct (Z.eqb_spec c 0); [done|].
    f_equal. apply IH; [|done|by rewrite <- Hz; simpl; f_equal; lia].
    intros i Hi. pose proof (Hb (S i) ltac:(simpl; lia)) as H. simpl in H. rewrite <- H. f_equal. lia.
Qed.

Lemma StripLeadingComments_keeps b p len : snd (StripLeadingComments b p len false) = b.
Proof. unfold StripLeadingComments. repeat case_match; simplify_eq; done. Qed.

Lemma SkipSpaces_loop_keeps fuel : forall b p stop prev p' len' b',
  SkipSpaces_loop fuel b p (Z.of_nat (strlen b p)) stop prev false = Some (p', len', b') ->
  b' = b /\ len' = Z.of_nat (strlen b p').
Proof.
  induction fuel as [|fuel IH]; intros b p stop prev p' len' b'; [done|]. cbn [SkipSpaces_loop].
  case_match; [|by intros [= <- <- <-]].
  pose proof (StripLeadingComments_keeps b p (Z.of_nat (strlen b p))) as Hk.
  destruct (StripLeadingComments _ _ _ _) as [[p1 l1] b1]. cbn in Hk. subst b1. apply IH.
Qed.

Lemma ltrim_take_head n l c k : ltrim (take n l) = c :: k -> exists k', ltrim l = c :: k'.
Proof.
  unfold ltrim. revert n. induction l as [|x l IH]; intros [|n]; cbn; try done.
  destruct (isspace x); cbn; [apply IH|]. intros [= -> _]. by eexists.
Qed.

(** The text without trailing blanks and semicolons; its first character stays. *)
Fixpoint strip_tail (l : list Z) : list Z :=
  match l with
  | [] => []
  | c :: l' => match strip_tail l' with [] => if trailing c then [] else [c] | r => c :: r end
  end.

Definition without_tail (C : list Z) : list Z := match C with [] => [] | c :: l => c :: strip_tail l end.

Lemma strip_tail_all l : Forall (fun c => trailing c = true) l -> strip_tail l = [].
Proof. induction 1 as [|c l Hc _ IH]; [done|]. cbn. by rewrite IH, Hc. Qed.

Lemma strip_tail_take n l : (n <= length l)%nat -> Forall (fun c => trailing c = true) (drop n l) ->
  ((0 < n)%nat -> trailing (rd l (n - 1)) = false) -> strip_tail l = take n l.
Proof.
  revert n. induction l as [|c l IH]; intros [|n] Hn HF Hl; try done; [by apply strip_tail_all|].
  cbn [drop length] in *. cbn [strip_tail take]. destruct n as [|n].
  - rewrite strip_tail_all by (by rewrite drop_0 in HF). by rewrite (Hl ltac:(lia) : trailing c = false).
  - rewrite (IH (S n)) by (lia || done || (intros _; rewrite <- (Hl ltac:(lia)); unfold rd; cbn; by rewrite Nat.sub_0_r)).
    destruct l as [|d l]; [cbn in Hn; lia|done].
Qed.

Lemma without_tail_take n C : (n <= length C)%nat -> ((0 < length C)%nat -> (0 < n)%nat) ->
  Forall (fun c => trailing c = true) (drop n C) -> ((1 < n)%nat -> trailing (rd C (n - 1)) = false) ->
  take n C = without_tail C.
Proof.
  intros Hn H0 HF Hl. destruct C as [|c C]; [by rewrite take_nil|]. destruct n as [|n]; [cbn in H0; lia|].
  cbn [take without_tail drop length] in *. f_equal. symmetry. apply strip_tail_take; [lia|done|].
  intros H. rewrite <- (Hl ltac:(lia)). unfold rd. destruct n; [lia|]. cbn. by rewrite Nat.sub_0_r.
Qed.

(** The text behind the comments and blanks at its beginning. *)
Fixpoint strip_front (fuel : nat) (l : list Z) : list Z :=
  match fuel with
  | O => l
  | S fuel' =>
      if ((comment_len l =? 0) && (ltrim_n l =? 0))%nat then l else strip_front fuel' (ltrim (drop (comment_len l) l))
  end.

Lemma strip_front_fuel n : forall m l, (length l <= n)%nat -> (length l <= m)%nat -> strip_front n l = strip_front m l.
Proof.
  induction n as [|n IH]; intros m l Hn Hm.
  { destruct l; [|cbn in Hn; lia]. by destruct m. }
  destruct m as [|m]; [destruct l; [done|cbn in Hm; lia]|]. cbn [strip_front].
  destruct (Nat.eqb_spec (comment_len l) 0) as [H|H]; destruct (Nat.eqb_spec (ltrim_n l) 0) as [H'|H']; cbn [andb]; [done|..].
  all: pose proof (ltrim_n_le l); pose proof (comment_len_le l); pose proof (ltrim_n_le (drop (comment_len l) l)).
  all: apply IH; unfold ltrim; rewrite ?H, ?drop_0 in *; rewrite !length_drop in *; lia.
Qed.

(** The skipping loop of the parser on a buffer it does not overwrite. *)
Lemma SkipSpaces_loop_front stop fuel : forall b p prev p' len' b', rd b stop = 0 -> (stop < length b)%nat ->
  Z.of_nat stop < 2 ^ 64 -> (p + strlen b p = stop)%nat ->
  (prev = Some p -> comment_len (cstr_at b p) = 0%nat /\ ltrim_n (cstr_at b p) = 0%nat) ->
  SkipSpaces_loop fuel b p (Z.of_nat (strlen b p)) stop prev false = Some (p', len', b') ->
  cstr_at b p' = strip_front (strlen b p) (cstr_at b p).
Proof.
  induction fuel as [|fuel IH]; intros b p prev p' len' b' Hz Hlen H64 Hs Hp; [done|]. cbn [SkipSpaces_loop].
  destruct (Nat.ltb_spec p stop) as [Hlt|Hge]; cbn [andb].
  2:{ intros [= <- _ _]. assert (strlen b p = 0)%nat as -> by lia. done. }
  destruct (bool_decide_reflect (prev = Some p)) as [Hpr|Hpr]; cbn [negb].
  { intros [= <- _ _]. destruct (Hp Hpr) as [H1 H2]. destruct (strlen b p); [done|]. cbn [strip_front]. by rewrite H1, H2. }
  destruct (StripLeadingComments_eq b p (Z.of_nat (strlen b p)) false) as (p1 & l1 & -> & _ & H1); [lia..|].
  specialize (H1 eq_refl). pose proof (comment_len_le (cstr_at b p)) as Hcl. fold (strlen b p) in Hcl.
  assert (cstr_at b p1 = drop (comment_len (cstr_at b p)) (cstr_at b p)) as E1 by (by rewrite H1, cstr_at_drop).
  set (p2 := (p1 + ltrim_n (cstr_at b p1))%nat).
  pose proof (ltrim_n_le (cstr_at b p1)) as Hlt1.
  assert (strlen b p1 = stop - p1)%nat as Hs1 by (unfold strlen in *; rewrite E1, length_drop; lia).
  assert (cstr_at b p2 = ltrim (cstr_at b p1)) as E2 by (subst p2; by rewrite cstr_at_drop by done).
  assert (p2 + strlen b p2 = stop)%nat as Hs2.
  { unfold strlen in *. rewrite E2. unfold ltrim. rewrite length_drop. lia. }
  intros E. apply IH in E; [|done..|].
  - rewrite E, E2, E1. symmetry. destruct (strlen b p) as [|n] eqn:En; [lia|]. cbn [strip_front].
    destruct ((_ =? 0) && _)%nat eqn:Ez.
    + apply andb_true_iff in Ez as [Ez1 Ez2]. apply Nat.eqb_eq in Ez1, Ez2.
      assert (p2 = p) as E3 by (subst p2; rewrite E1, Ez1, drop_0; lia).
      rewrite Ez1, drop_0. unfold ltrim. rewrite Ez2, drop_0, E3, En. cbn [strip_front]. by rewrite Ez1, Ez2.
    + rewrite <- E1, <- E2. apply strip_front_fuel; unfold strlen in *; [|done].
      apply andb_false_iff in Ez. destruct (decide (p2 = p)) as [E3|]; [|lia]. exfalso.
      assert (comment_len (cstr_at b p) = 0)%nat as Ec by lia. rewrite Ec, drop_0 in E1. subst p2. rewrite E1 in E3.
      destruct Ez as [Ez|Ez]; apply Nat.eqb_neq in Ez; lia.
  - intros [= E3]. rewrite <- E3. subst p2. assert (comment_len (cstr_at b p) = 0)%nat as Ec by lia.
    split; [done|]. rewrite Ec, drop_0 in E1. rewrite E1 in E3. lia.
Qed.

(** What [MADB_ParseQuery] keeps for execution, and what the tokenizer scans. *)
Definition kept_text (C : list Z) : list Z := ltrim (without_tail C).
Definition scanned_text (C : list Z) : list Z := strip_front (length (kept_text C)) (kept_text C).

(** The text the tokenizer works on. *)
Definition refined_text (q : MADB_QUERY) : list Z := cstr_at (text q) (RefinedText q).

Lemma ParseQuery_front_text q replaceCall C :
  text q = C ++ [0] -> RefinedText q = 0%nat -> RefinedLength q = Z.of_nat (length C) ->
  Forall (fun c => c <> 0) C -> Z.of_nat (length C) < 2 ^ 31 -> starts_with (chars "{") (ltrim C) = false ->
  exists q1,
    MADB_ParseQuery q replaceCall = ParseQuery q1 replaceCall /\ query_ok q1 /\
    RefinedLength q1 = Z.of_nat (strlen (text q1) (RefinedText q1)) /\ HasParameters q1 = HasParameters q /\
    Original q1 = kept_text C /\ refined_text q1 = scanned_text C.
Proof.
  intros Ht Hr Hl HF H31 Hbr. unfold MADB_ParseQuery. rewrite Ht, Hr, Hl, wraps_id by lia.
  assert (length (C ++ [0]) = S (length C)) as HL by (rewrite length_app; cbn; lia).
  assert (forall i, (i < length C)%nat -> rd (C ++ [0]) i = rd C i) as HrdC
    by (intros i Hi; unfold rd; by rewrite lookup_app_l).
  assert (exists n b1, SqlRtrim (C ++ [0]) 0 (Z.of_nat (length C)) = (Z.of_nat n, b1) /\
    SqlRtrim_loop (length C) (C ++ [0]) 0 = (n, b1)) as (n & b1 & -> & El).
  { unfold SqlRtrim. destruct (SqlRtrim_loop (length C) (C ++ [0]) 0) as [n b1] eqn:E. exists n, b1.
    rewrite Nat2Z.id, E. split; [|done]. destruct (Z.ltb_spec 0 (Z.of_nat (length C))) as [H|H]; [done|].
    assert (length C = 0)%nat as E0 by lia. rewrite E0 in E |- *. by injection E as <- <-. }
  apply SqlRtrim_loop_spec in El as (Hn & [La Ha] & Hz & Hlast & Hpos); [|lia]. rewrite wrapu_id by lia.
  assert (rd b1 n = 0) as Hzn.
  { destruct (decide (n = length C)) as [->|]; [|apply Hz; lia]. unfold rd. rewrite Ha by lia.
    by rewrite lookup_app_r, Nat.sub_diag by lia. }
  assert (cstr_at b1 0 = take n C) as Ec.
  { apply cstr_at_content; rewrite ?length_take, ?Nat.min_l by lia; [|by apply Forall_take|done].
    intros i Hi. rewrite Ha, lookup_app_l, lookup_take_lt by lia. done. }
  rewrite Ec, Nat.add_0_l. set (p1 := ltrim_n (take n C)).
  assert (p1 <= n)%nat as Hp1
    by (pose proof (ltrim_n_le (take n C)) as H; rewrite length_take in H; subst p1; lia).
  assert (cstr_at b1 p1 = ltrim (take n C)) as Ec1.
  { rewrite <- (Nat.add_0_l p1), cstr_at_drop, Ec; [done|]. unfold strlen. rewrite Ec, length_take. lia. }
  assert (strlen b1 p1 = n - p1)%nat as Es1.
  { unfold strlen. rewrite Ec1. unfold ltrim. rewrite length_drop, length_take. subst p1. lia. }
  assert ((rd b1 p1 =? $"{") = false) as Hnb.
  { apply Z.eqb_neq. intros Hc. pose proof (cstr_at_cons b1 p1) as E. rewrite Ec1, Hc in E. cbn in E.
    apply ltrim_take_head in E as [k' E]. by rewrite E in Hbr. }
  unfold FixIsoFormat. rewrite Hnb, andb_false_r. cbn [andb]. unfold size_sub. rewrite wrapu_id by lia.
  assert (Z.of_nat n - Z.of_nat p1 = Z.of_nat (strlen b1 p1)) as -> by lia.
  unfold SkipSpacesAndComments.
  destruct (SkipSpaces_loop_total n false (ptr_add p1 (Z.of_nat (strlen b1 p1))) (length b1 + 2) b1 p1
    (Z.of_nat (strlen b1 p1)) None) as (p4 & l4 & b4 & E4 & Hp4 & _ & Hl4 & Hpl);
    [done|lia|lia|lia|lia|rewrite bool_decide_eq_false_2 by done; lia|].
  rewrite E4. pose proof E4 as E5. apply SkipSpaces_loop_keeps in E4 as [-> ->]. cbn [default].
  assert (take n C = without_tail C) as Hw.
  { apply without_tail_take; [lia|exact Hpos| |intros H1; specialize (Hlast H1); by rewrite HrdC in Hlast by lia].
    apply Forall_lookup. intros i c Hi. rewrite lookup_drop in Hi.
    pose proof (lookup_lt_Some _ _ _ Hi). destruct (Hz (n + i)%nat ltac:(lia)) as [_ Htr].
    by rewrite HrdC, (rd_lookup _ _ _ Hi) in Htr by lia. }
  rewrite ptr_add_id in E5 by lia. replace (Z.to_nat (Z.of_nat p1 + Z.of_nat (strlen b1 p1))) with n in E5 by lia.
  apply SkipSpaces_loop_front in E5; [|exact Hzn|lia|lia|lia|done].
  eexists _. split; [reflexivity|]. cbn. unfold id, scanned_text, kept_text in *. rewrite <- Hw. split_and!; try done.
  - split_and!; cbn; [lia..|]. rewrite Nat2Z.id. apply rd_strlen.
  - rewrite Z.min_r, Nat2Z.id, Ec1, take_ge; [done|lia|]. unfold strlen. rewrite Ec1. lia.
  - etrans; [exact E5|]. unfold strlen. by rewrite Ec1.
Qed.

(** [MADB_ParseQuery] on a text that is not in ISO braces: it keeps for
    execution the query without leading blanks and without trailing blanks and
    semicolons (the first character always stays), and hands the tokenizer a
    well-formed query whose length is that of its text: the kept text behind the
    comments and blanks at its beginning. *)
Theorem MADB_ParseQuery_front q replaceCall C :
  text q = C ++ [0] -> RefinedText q = 0%nat -> RefinedLength q = Z.of_nat (length C) ->
  Forall (fun c => c <> 0) C -> Z.of_nat (length C) < 2 ^ 31 -> starts_with (chars "{") (ltrim C) = false ->
  exists q1,
    MADB_ParseQuery q replaceCall = ParseQuery q1 replaceCall /\ query_ok q1 /\
    RefinedLength q1 = Z.of_nat (strlen (text q1) (RefinedText q1)) /\ HasParameters q1 = HasParameters q /\
    Original q1 = kept_text C /\ refined_text q1 = scanned_text C.
Proof. apply ParseQuery_front_text. Qed.

Lemma MADB_ParseQuery_front_witness :
  exists q1, MADB_ParseQuery (sample_query "  select 1 ; " false) false = ParseQuery q1 false /\ query_ok q1.
Proof.
  destruct (MADB_ParseQuery_front (sample_query "  select 1 ; " false) false (chars "  select 1 ; "))
    as (q1 & E & H & _).
  1-3: reflexivity.
  1: apply (bool_decide_eq_true_1 _); vm_compute; reflexivity.
  1-2: vm_compute; reflexivity.
  exists q1. split; [exact E|exact H].
Defined.

End UnescapeProps.
