(* ===== verification/Dsn.v ===== *)
(** * Dsn: connection strings and data source options

    Models [ma_dsn.c]: the table of connection string keys, the store operation
    with its dependent switches, the parser and the printer of connection
    strings, and reading and saving a data source.  The structure [MADB_Dsn] is
    its character pointers ([None] for NULL) and its numbers, by field; the
    [offsetof] of the table is the field.  The odbcinst profile functions are not
    part of the repository: reading a profile is a parameter. *)

From Stdlib Require Import ZArith Lia.
From stdpp Require Import base strings numbers option functions list.
From S2P Require Import Prelude Decimal Odbc Errors.

(** ** Data *)

Inductive dsn_field :=
| DSNName | Description | Driver | Options | IsNamedPipe | IsTcpIp
| ServerName | UserName | Password | Catalog | Port | InitCommand
| ConnectionTimeout | Reconnect | ConnectPrompt | CharacterSet | TraceFile | ConnCPluginsDir
| SslKey | SslCert | SslCa | SslCaPath | SslCipher | SslVerify
| TlsPeerFp | TlsPeerFpList | SslCrl | SslCrlPath | Socket | SaveFile
| ReadMycnf | TlsVersion | ForceTls | ServerKey | TlsKeyPwd | InteractiveClient
| ForceForwardOnly | CompatMode | NoSsps | NoCache | App | ConnAttrs
| IsBrowserAuth | IgnoreKeyring | JWT | RewriteCallSP | UseWcharTypes | FallbackCspsStmt
| TestMode | ReadTimeout | WriteTimeout.

#[export] Instance dsn_field_eq_dec : EqDecision dsn_field.
Proof. solve_decision. Defined.

Inductive enum_dsn_item_type :=
| DSN_TYPE_STRING | DSN_TYPE_INT | DSN_TYPE_BOOL | DSN_TYPE_COMBO | DSN_TYPE_OPTION | DSN_TYPE_CBOXGROUP.

#[export] Instance dsn_item_type_eq_dec : EqDecision enum_dsn_item_type.
Proof. solve_decision. Defined.

(** The [DsnOffset] of a key: a field, or the index of the aliased key. *)
Inductive dsn_offset := Offset (f : dsn_field) | Alias (idx : nat).

Record MADB_DsnKey := DsnKeyRow {
  DsnKey : string;
  DsnOffset : dsn_offset;
  Type_ : enum_dsn_item_type;
  FlagValue : Z;
  IsAlias : bool;
}.

(** The fields behind pointers and the numeric fields; an [int] field is kept as
    its unsigned 32-bit pattern, a [my_bool] and a [char] as a signed byte. *)
Record MADB_Dsn := MkDsn {
  str : dsn_field -> option (list Z);
  num : dsn_field -> Z;
}.

Definition set_str (d : MADB_Dsn) (f : dsn_field) (v : option (list Z)) : MADB_Dsn :=
  MkDsn (<[f := v]> (str d)) (num d).
Definition set_num (d : MADB_Dsn) (f : dsn_field) (v : Z) : MADB_Dsn :=
  MkDsn (str d) (<[f := v]> (num d)).

Definition DSNKEY_OPTIONS_INDEX : nat := 3.
Definition DSNKEY_OPTION_INDEX : nat := 4.
Definition DSNKEY_NAMEDPIPE_INDEX : nat := 5.
Definition DSNKEY_TCPIP_INDEX : nat := 6.
Definition DSNKEY_SERVER_INDEX : nat := 7.
Definition DSNKEY_UID_INDEX : nat := 8.
Definition DSNKEY_PWD_INDEX : nat := 9.
Definition DSNKEY_DATABASE_INDEX : nat := 10.
Definition DSNKEY_FP_INDEX : nat := 25.
Definition DSNKEY_FPLIST_INDEX : nat := 26.

Definition MADB_OPT_FLAG_NO_PROMPT : Z := 16.
Definition MADB_OPT_FLAG_NAMED_PIPE : Z := 8192.
Definition MADB_OPT_FLAG_USE_CNF : Z := 65536.
Definition MADB_OPT_FLAG_NO_CACHE : Z := 1048576.
Definition MADB_OPT_FLAG_FORWARD_CURSOR : Z := 2097152.
Definition MADB_OPT_FLAG_AUTO_RECONNECT : Z := 4194304.

(** The key table, without its terminating row. *)
Definition DsnKeys : list MADB_DsnKey := [
    DsnKeyRow "DSN" (Offset DSNName) DSN_TYPE_STRING 0 false;
    DsnKeyRow "DESCRIPTION" (Offset Description) DSN_TYPE_STRING 0 false;
    DsnKeyRow "DRIVER" (Offset Driver) DSN_TYPE_STRING 0 false;
    DsnKeyRow "OPTIONS" (Offset Options) DSN_TYPE_INT 0 false;
    DsnKeyRow "OPTION" (Alias DSNKEY_OPTIONS_INDEX) DSN_TYPE_INT 0 true;
    DsnKeyRow "NamedPipe" (Offset IsNamedPipe) DSN_TYPE_OPTION MADB_OPT_FLAG_NAMED_PIPE false;
    DsnKeyRow "TCPIP" (Offset IsTcpIp) DSN_TYPE_BOOL 0 false;
    DsnKeyRow "SERVER" (Offset ServerName) DSN_TYPE_STRING 0 false;
    DsnKeyRow "UID" (Offset UserName) DSN_TYPE_STRING 0 false;
    DsnKeyRow "PWD" (Offset Password) DSN_TYPE_STRING 0 false;
    DsnKeyRow "DATABASE" (Offset Catalog) DSN_TYPE_COMBO 0 false;
    DsnKeyRow "PORT" (Offset Port) DSN_TYPE_INT 0 false;
    DsnKeyRow "INITSTMT" (Offset InitCommand) DSN_TYPE_STRING 0 false;
    DsnKeyRow "CONN_TIMEOUT" (Offset ConnectionTimeout) DSN_TYPE_INT 0 false;
    DsnKeyRow "AUTO_RECONNECT" (Offset Reconnect) DSN_TYPE_OPTION MADB_OPT_FLAG_AUTO_RECONNECT false;
    DsnKeyRow "NO_PROMPT" (Offset ConnectPrompt) DSN_TYPE_OPTION MADB_OPT_FLAG_NO_PROMPT false;
    DsnKeyRow "CHARSET" (Offset CharacterSet) DSN_TYPE_COMBO 0 false;
    DsnKeyRow "TRACE" (Offset TraceFile) DSN_TYPE_STRING 0 false;
    DsnKeyRow "PLUGIN_DIR" (Offset ConnCPluginsDir) DSN_TYPE_STRING 0 false;
    DsnKeyRow "SSLKEY" (Offset SslKey) DSN_TYPE_STRING 0 false;
    DsnKeyRow "SSLCERT" (Offset SslCert) DSN_TYPE_STRING 0 false;
    DsnKeyRow "SSLCA" (Offset SslCa) DSN_TYPE_STRING 0 false;
    DsnKeyRow "SSLCAPATH" (Offset SslCaPath) DSN_TYPE_STRING 0 false;
    DsnKeyRow "SSLCIPHER" (Offset SslCipher) DSN_TYPE_STRING 0 false;
    DsnKeyRow "SSLVERIFY" (Offset SslVerify) DSN_TYPE_BOOL 0 false;
    DsnKeyRow "TLSPEERFP" (Offset TlsPeerFp) DSN_TYPE_STRING 0 false;
    DsnKeyRow "TLSPEERFPLIST" (Offset TlsPeerFpList) DSN_TYPE_STRING 0 false;
    DsnKeyRow "SSLCRL" (Offset SslCrl) DSN_TYPE_STRING 0 false;
    DsnKeyRow "SSLCRLPATH" (Offset SslCrlPath) DSN_TYPE_STRING 0 false;
    DsnKeyRow "SOCKET" (Offset Socket) DSN_TYPE_STRING 0 false;
    DsnKeyRow "SAVEFILE" (Offset SaveFile) DSN_TYPE_STRING 0 false;
    DsnKeyRow "USE_MYCNF" (Offset ReadMycnf) DSN_TYPE_OPTION MADB_OPT_FLAG_USE_CNF false;
    DsnKeyRow "TLSVERSION" (Offset TlsVersion) DSN_TYPE_CBOXGROUP 0 false;
    DsnKeyRow "FORCETLS" (Offset ForceTls) DSN_TYPE_BOOL 0 false;
    DsnKeyRow "SERVERKEY" (Offset ServerKey) DSN_TYPE_STRING 0 false;
    DsnKeyRow "TLSKEYPWD" (Offset TlsKeyPwd) DSN_TYPE_STRING 0 false;
    DsnKeyRow "INTERACTIVE" (Offset InteractiveClient) DSN_TYPE_BOOL 0 false;
    DsnKeyRow "FORWARDONLY" (Offset ForceForwardOnly) DSN_TYPE_OPTION MADB_OPT_FLAG_FORWARD_CURSOR false;
    DsnKeyRow "COMPAT_MODE" (Offset CompatMode) DSN_TYPE_BOOL 0 false;
    DsnKeyRow "NO_SSPS" (Offset NoSsps) DSN_TYPE_BOOL 0 false;
    DsnKeyRow "NO_CACHE" (Offset NoCache) DSN_TYPE_OPTION MADB_OPT_FLAG_NO_CACHE false;
    DsnKeyRow "APP" (Offset App) DSN_TYPE_STRING 0 false;
    DsnKeyRow "CONN_ATTRS" (Offset ConnAttrs) DSN_TYPE_STRING 0 false;
    DsnKeyRow "BROWSER_SSO" (Offset IsBrowserAuth) DSN_TYPE_BOOL 0 false;
    DsnKeyRow "IGNORE_KEYRING_SSO" (Offset IgnoreKeyring) DSN_TYPE_BOOL 0 false;
    DsnKeyRow "JWT" (Offset JWT) DSN_TYPE_STRING 0 false;
    DsnKeyRow "REWRITE_CALL_SP" (Offset RewriteCallSP) DSN_TYPE_BOOL 0 false;
    DsnKeyRow "USE_WCHAR_TYPES" (Offset UseWcharTypes) DSN_TYPE_BOOL 0 false;
    DsnKeyRow "FALLBACK_CSPS_STMT" (Offset FallbackCspsStmt) DSN_TYPE_BOOL 0 false;
    DsnKeyRow "TEST_MODE" (Offset TestMode) DSN_TYPE_INT 0 false;
    DsnKeyRow "READ_TIMEOUT" (Offset ReadTimeout) DSN_TYPE_INT 0 false;
    DsnKeyRow "WRITE_TIMEOUT" (Offset WriteTimeout) DSN_TYPE_INT 0 false;
    DsnKeyRow "SERVERNAME" (Alias DSNKEY_SERVER_INDEX) DSN_TYPE_STRING 0 true;
    DsnKeyRow "USER" (Alias DSNKEY_UID_INDEX) DSN_TYPE_STRING 0 true;
    DsnKeyRow "PASSWORD" (Alias DSNKEY_PWD_INDEX) DSN_TYPE_STRING 0 true;
    DsnKeyRow "DB" (Alias DSNKEY_DATABASE_INDEX) DSN_TYPE_COMBO 0 true;
    DsnKeyRow "SSLFP" (Alias DSNKEY_FP_INDEX) DSN_TYPE_STRING 0 true;
    DsnKeyRow "SSLFPLIST" (Alias DSNKEY_FPLIST_INDEX) DSN_TYPE_STRING 0 true].

Definition MADB_TLSV11 : Z := 1.
Definition MADB_TLSV12 : Z := 2.
Definition MADB_TLSV13 : Z := 4.

Definition TlsVersions : list (string * Z) :=
  [("TLSv1.1", MADB_TLSV11); ("TLSv1.2", MADB_TLSV12); ("TLSv1.3", MADB_TLSV13)].

Record MADB_DsnKeyDep := KeyDep { Dep_Key : nat; Dependent : nat; Same : Z }.

Definition DsnKeysSwitch : list MADB_DsnKeyDep := [
  KeyDep DSNKEY_NAMEDPIPE_INDEX DSNKEY_TCPIP_INDEX 0;
  KeyDep DSNKEY_TCPIP_INDEX DSNKEY_NAMEDPIPE_INDEX 0].

Module DsnOps.
Import ErrorOps.

(** ** Defaults and fields *)

Definition MADB_DSN_SetDefaults (d : MADB_Dsn) : MADB_Dsn :=
  set_num (set_num (set_num d IsTcpIp 1) NoSsps 1) NoCache 1.

Definition MADB_DSN_Init : MADB_Dsn := MADB_DSN_SetDefaults (MkDsn (fun _ => None) (fun _ => 0)).

(** [MADB_DSN_Free] releases the strings the table's string fields hold. *)
Definition MADB_DSN_Free (d : MADB_Dsn) : MADB_Dsn := MkDsn (fun _ => None) (num d).

Definition key_row (i : nat) : MADB_DsnKey :=
  default (DsnKeyRow EmptyString (Alias 0) DSN_TYPE_BOOL 0 false) (DsnKeys !! i).

(** [GET_FIELD_PTR] on a row: the field; the placeholder is never reached, since
    the callers have ruled out aliases. *)
Definition field_of (row : MADB_DsnKey) : dsn_field :=
  match DsnOffset row with Offset f => f | Alias _ => DSNName end.

Definition DSN_OPTION (d : MADB_Dsn) (flag : Z) : Z := Z.land (num d Options) flag.

Definition MADB_SetOptionValue (d : MADB_Dsn) (row : MADB_DsnKey) (value : Z) : MADB_Dsn :=
  let d1 := set_num d (field_of row) value in
  if negb (value =? 0) then set_num d1 Options (Z.lor (num d1 Options) (FlagValue row))
  else set_num d1 Options (wrapu 32 (Z.land (num d1 Options) (Z.lnot (FlagValue row)))).

(** Whether the changed key is set, by the type of its field. *)
Definition key_set (d : MADB_Dsn) (row : MADB_DsnKey) : Z :=
  match Type_ row with
  | DSN_TYPE_STRING | DSN_TYPE_COMBO =>
      match str d (field_of row) with Some (c :: _) => 1 | _ => 0 end
  | DSN_TYPE_OPTION | DSN_TYPE_BOOL | DSN_TYPE_CBOXGROUP => num d (field_of row)
  | DSN_TYPE_INT => if num d (field_of row) =? 0 then 0 else 1
  end.

Fixpoint SwitchDependents_loop (deps : list MADB_DsnKeyDep) (d : MADB_Dsn) (Changed : nat) : bool * MADB_Dsn :=
  match deps with
  | [] => (true, d)
  | dep :: deps' =>
      if (Dep_Key dep =? Changed)%nat then
        let KeySet := key_set d (key_row Changed) in
        let drow := key_row (Dependent dep) in
        let v := if Same dep =? KeySet then 1 else 0 in
        if IsAlias drow then (false, d)
        else
          match Type_ drow with
          | DSN_TYPE_BOOL => SwitchDependents_loop deps' (set_num d (field_of drow) v) Changed
          | DSN_TYPE_OPTION => SwitchDependents_loop deps' (MADB_SetOptionValue d drow v) Changed
          | _ => (false, d)
          end
      else SwitchDependents_loop deps' d Changed
  end.

Definition MADB_DsnSwitchDependents (d : MADB_Dsn) (Changed : nat) : bool * MADB_Dsn :=
  SwitchDependents_loop DsnKeysSwitch d Changed.

(** ** Storing a value *)

(** [strcasestr(a, b) != NULL]. *)
Fixpoint strcasestr (l pat : list Z) : bool :=
  strnicmp_eq (take (length pat) l) pat (length pat)
  || match l with [] => false | _ :: l' => strcasestr l' pat end.

Definition tls_bits (value : list Z) : Z :=
  foldl (fun acc '(name, bit) => if strcasestr value (chars name) then Z.lor acc bit else acc) 0 TlsVersions.

(** The switch of [MADB_DsnStoreValue] on the type of the key. *)
Definition store_field (d : MADB_Dsn) (row : MADB_DsnKey) (Value : list Z) (OverWrite : bool) : MADB_Dsn :=
  let f := field_of row in
  match Type_ row with
  | DSN_TYPE_STRING | DSN_TYPE_COMBO =>
      if bool_decide (is_Some (str d f)) && negb OverWrite then d else set_str d f (Some Value)
  | DSN_TYPE_BOOL =>
      if negb (num d f =? 0) && negb OverWrite then d else set_num d f (wraps 8 (atoi Value))
  | DSN_TYPE_CBOXGROUP =>
      if negb (num d f =? 0) && negb OverWrite then d
      else
        let IntValue := wraps 8 (atoi Value) in
        set_num d f (if IntValue =? 0 then tls_bits Value else IntValue)
  | DSN_TYPE_INT =>
      if negb (num d f =? 0) && negb OverWrite then d else set_num d f (wrapu 32 (strtoul Value))
  | DSN_TYPE_OPTION =>
      if negb (num d f =? 0) && negb OverWrite then d
      else MADB_SetOptionValue d row (if strtoul Value =? 0 then 0 else 1)
  end.

Definition MADB_DsnStoreValue (d : MADB_Dsn) (DsnKeyIdx : nat) (Value : list Z) (OverWrite : bool)
    : bool * MADB_Dsn :=
  let row := key_row DsnKeyIdx in
  if IsAlias row then (false, d)
  else MADB_DsnSwitchDependents (store_field d row Value OverWrite) DsnKeyIdx.

(** [MADB_DsnUpdateOptionsFields]: one row after the other, from index [i]. *)
Fixpoint UpdateOptions_loop (rows : list MADB_DsnKey) (i : nat) (d : MADB_Dsn) : MADB_Dsn :=
  match rows with
  | [] => d
  | row :: rows' =>
      let d' :=
        if negb (IsAlias row) && bool_decide (Type_ row = DSN_TYPE_OPTION) then
          snd (MADB_DsnSwitchDependents
                 (set_num d (field_of row) (if DSN_OPTION d (FlagValue row) =? 0 then 0 else 1)) i)
        else d in
      UpdateOptions_loop rows' (S i) d'
  end.

Definition MADB_DsnUpdateOptionsFields (d : MADB_Dsn) : MADB_Dsn := UpdateOptions_loop DsnKeys 0 d.

(** ** Data sources *)

(** [MADB_ReadDSN]; [profile name key] is what [SQLGetPrivateProfileString]
    copies, the empty string when there is no entry. *)
Fixpoint ReadDSN_loop (profile : list Z -> string -> list Z) (rows : list MADB_DsnKey) (i : nat)
    (d : MADB_Dsn) (OverWrite : bool) : bool * MADB_Dsn :=
  match rows with
  | [] => (true, d)
  | row :: rows' =>
      let KeyIdx := match DsnOffset row with Alias j => j | Offset _ => i end in
      let KeyVal := profile (default [] (str d DSNName)) (DsnKey row) in
      if (0 <? length KeyVal)%nat then
        match MADB_DsnStoreValue d KeyIdx KeyVal OverWrite with
        | (false, d') => (false, d')
        | (true, d') => ReadDSN_loop profile rows' (S i) d' OverWrite
        end
      else if bool_decide (Type_ row = DSN_TYPE_OPTION) then
        ReadDSN_loop profile rows' (S i)
          (set_num d (field_of (key_row KeyIdx)) (if DSN_OPTION d (FlagValue (key_row KeyIdx)) =? 0 then 0 else 1))
          OverWrite
      else ReadDSN_loop profile rows' (S i) d OverWrite
  end.

Definition MADB_ReadDSN (profile : list Z -> string -> list Z) (d : MADB_Dsn) (KeyValue : option (list Z))
    (OverWrite : bool) : bool * MADB_Dsn :=
  let d1 :=
    match KeyValue with
    | None => d
    | Some kv => match strchr kv ($"=") with Some i => set_str d DSNName (Some (drop (S i) kv)) | None => d end
    end in
  let has_value :=
    match KeyValue with
    | None => bool_decide (is_Some (str d DSNName))
    | Some kv => bool_decide (is_Some (strchr kv ($"=")))
    end in
  if has_value then ReadDSN_loop profile (drop 1 DsnKeys) 1 d1 OverWrite else (false, d1).

(** The answers of the odbcinst installer: is the name valid, is the old section
    removed, is the new one created, is an entry written. *)
Record installer := Installer {
  SQLValidDSN : list Z -> bool;
  SQLRemoveDSNFromIni : list Z -> bool;
  SQLWriteDSNToIni : list Z -> bool;
  SQLWritePrivateProfileString : string -> list Z -> bool;
}.

(** The entry a row is saved as, if any. *)
Definition save_row (d : MADB_Dsn) (row : MADB_DsnKey) : list (string * list Z) :=
  if IsAlias row then []
  else
    let f := field_of row in
    match Type_ row with
    | DSN_TYPE_BOOL => [(DsnKey row, if num d f =? 0 then chars "0" else chars "1")]
    | DSN_TYPE_INT => [(DsnKey row, dec (wraps 32 (num d f)))]
    | DSN_TYPE_CBOXGROUP => [(DsnKey row, dec (wrapu 16 (num d f)))]
    | DSN_TYPE_STRING | DSN_TYPE_COMBO =>
        match str d f with Some (c :: v) => [(DsnKey row, c :: v)] | _ => [] end
    | DSN_TYPE_OPTION => []
    end.

(** The entries are written in order up to the first one the installer refuses. *)
Fixpoint save_entries (inst : installer) (es : list (string * list Z)) : bool * list (string * list Z) :=
  match es with
  | [] => (true, [])
  | (k, v) :: es' =>
      if SQLWritePrivateProfileString inst k v
      then let '(ok, done) := save_entries inst es' in (ok, (k, v) :: done)
      else (false, [])
  end.

(** [MADB_SaveDSN]: the result and the section of the data source, [None] when
    there is none; [old] is the section before the call. *)
Definition MADB_SaveDSN (inst : installer) (d : MADB_Dsn) (old : option (list (string * list Z)))
    : bool * option (list (string * list Z)) :=
  let name := default [] (str d DSNName) in
  if negb (SQLValidDSN inst name) then (false, old)
  else if negb (SQLRemoveDSNFromIni inst name) then (false, old)
  else if negb (SQLWriteDSNToIni inst name) then (false, None)
  else
    let '(ok, es) := save_entries inst
      (concat (save_row d <$> drop 1 DsnKeys) ++ [("OPTIONS", dec (wraps 32 (num d Options)))]) in
    (ok, Some es).

(** [MADB_DSN_Exists]: [profile_size] is what [SQLGetPrivateProfileString]
    returns for the whole section. *)
Definition MADB_DSN_Exists (profile_size : list Z -> Z) (name : option (list Z)) : bool :=
  match name with None => false | Some n => 0 <? profile_size n end.

(** [MADB_DSN_PossibleConnect] (posix). *)
Definition MADB_DSN_PossibleConnect (d : MADB_Dsn) : bool :=
  bool_decide (is_Some (str d Socket))
  || (bool_decide (is_Some (str d ServerName)) && (0 <? num d Port) && negb (num d IsTcpIp =? 0)).

(** ** Connection strings *)

(** [ConnStringLength]: with a NUL delimiter the pairs are NUL-terminated and an
    empty one ends the list. *)
Fixpoint nul_list_length (fuel : nat) (b : list Z) (p : nat) : nat :=
  match fuel with
  | O => p
  | S fuel' => if rd b p =? 0 then p else nul_list_length fuel' b (p + strlen b p + 1)
  end.

Definition ConnStringLength (b : list Z) (Delimiter : Z) : nat :=
  let result := strlen b 0 in
  if negb (Delimiter =? 0) then result else nul_list_length (length b) b (result + 1).

(** [_stricmp] over the table. *)
Fixpoint find_key (rows : list MADB_DsnKey) (i : nat) (key : list Z) : option nat :=
  match rows with
  | [] => None
  | row :: rows' => if stricmp_eq (chars (DsnKey row)) key then Some i else find_key rows' (S i) key
  end.

(** The loop that takes a value out of its braces: the value, and the offset of
    the character behind the closing brace. *)
Fixpoint unbrace (fuel : nat) (l : list Z) : list Z * option nat :=
  match fuel with
  | O => ([], None)
  | S fuel' =>
      match strchr l ($"}") with
      | None => ([], None)
      | Some i =>
          if rd l (i + 1) =? $"}" then
            let '(v, p) := unbrace fuel' (drop (i + 2) l) in
            (take i l ++ $"}" :: v, (fun k => i + 2 + k)%nat <$> p)
          else (take i l, Some (i + 1)%nat)
      end
  end.

(** [strchr(s, Delimiter)], which finds the terminator for a NUL. *)
Definition find_delim (s : list Z) (Delimiter : Z) : option nat :=
  if Delimiter =? 0 then Some (length s) else strchr s Delimiter.

(** The value at the head of [v] (the buffer behind the equals sign): its text
    and what is left behind the delimiter, [None] when [Key] becomes NULL. *)
Definition read_value (v : list Z) (Delimiter : Z) : list Z * option (list Z) :=
  let v1 := drop (ltrim_n (cstr v)) v in
  match v1 with
  | c :: v2 =>
      if c =? $"{" then
        let '(val, p) := unbrace (S (length v2)) (cstr v2) in
        (trim val, (fun k => drop (k + 1) v2) <$> p)
      else
        let s := cstr v1 in
        match find_delim s Delimiter with
        | Some i => (trim (take i s), Some (drop (i + 1) v1))
        | None => (trim s, None)
        end
  | [] => (([] : list Z), match find_delim ([] : list Z) Delimiter with Some _ => Some [] | None => None end)
  end.

(** The loop of [MADB_ParseConnString] on what is left of the buffer; every
    iteration consumes at least one character. *)
Fixpoint ParseConnString_loop (fuel : nat) (d : MADB_Dsn) (l : list Z) (Delimiter : Z)
    : option (bool * MADB_Dsn) :=
  match fuel with
  | O => None
  | S fuel' =>
      match l with
      | [] => Some (true, d)
      | c :: l' =>
          if negb (Delimiter =? 0) && (c =? Delimiter) then ParseConnString_loop fuel' d l' Delimiter
          else
            match strchr (cstr l) ($"=") with
            | None => Some (false, d)
            | Some i =>
                let key := trim (take i l) in
                let v := drop (S i) l in
                match find_key DsnKeys 0 key with
                | Some k =>
                    let idx := match DsnOffset (key_row k) with Alias j => j | Offset _ => k end in
                    let '(value, rest) := read_value v Delimiter in
                    match MADB_DsnStoreValue d idx value true with
                    | (false, d') => Some (false, d')
                    | (true, d') =>
                        let d'' := if (idx =? DSNKEY_OPTIONS_INDEX)%nat then MADB_DsnUpdateOptionsFields d' else d' in
                        match rest with
                        | None => Some (true, d'')
                        | Some r => ParseConnString_loop fuel' d'' r Delimiter
                        end
                    end
                | None =>
                    match find_delim (cstr v) Delimiter with
                    | Some j => ParseConnString_loop fuel' d (drop (S j) v) Delimiter
                    | None => Some (true, d)
                    end
                end
            end
      end
  end.

(** [String] is [None] for NULL; a [Length] of SQL_NTS is computed.  Values are read
    without the buffer of [Length - 4] bytes the code collects braced values in, which
    they fit unless the string is nothing but a key of two letters and ["={"]. *)
Definition MADB_ParseConnString (d : MADB_Dsn) (String : option (list Z)) (Length : Z) (Delimiter : Z)
    : option (bool * MADB_Dsn) :=
  match String with
  | None => Some (false, d)
  | Some b =>
      let len := if Length =? SQL_NTS then ConnStringLength b Delimiter else Z.to_nat Length in
      let buf := take len b in
      ParseConnString_loop (S (length buf)) d buf Delimiter
  end.

Definition MADB_ReadConnString (profile : list Z -> string -> list Z) (d : MADB_Dsn) (String : option (list Z))
    (Length Delimiter : Z) : option (bool * MADB_Dsn) :=
  match MADB_ParseConnString d String Length Delimiter with
  | None => None
  | Some (false, d') => Some (false, d')
  | Some (true, d') =>
      let driver_empty := match str d' Driver with None => true | Some v => (length v =? 0)%nat end in
      if bool_decide (is_Some (str d' DSNName)) && driver_empty then
        let d2 := snd (MADB_ReadDSN profile d' None true) in
        match MADB_ParseConnString d2 String Length Delimiter with
        | None => None
        | Some (_, d3) => Some (true, d3)
        end
      else Some (true, d')
  end.

(** ** Printing *)

(** The value [MADB_DsnToString] prints for a row. *)
Definition row_value (d : MADB_Dsn) (row : MADB_DsnKey) : option (list Z) :=
  if IsAlias row then None
  else
    let f := field_of row in
    match Type_ row with
    | DSN_TYPE_STRING | DSN_TYPE_COMBO => match str d f with Some (c :: v) => Some (c :: v) | _ => None end
    | DSN_TYPE_INT => if num d f =? 0 then None else Some (dec (wraps 32 (num d f)))
    | DSN_TYPE_BOOL => if num d f =? 0 then None else Some (chars "1")
    | DSN_TYPE_CBOXGROUP => if num d f =? 0 then None else Some (dec (wrapu 16 (num d f)))
    | DSN_TYPE_OPTION => None
    end.

Definition isSpecial (v : list Z) : bool :=
  bool_decide (is_Some (strchr v 32)) || bool_decide (is_Some (strchr v ($";")))
  || bool_decide (is_Some (strchr v ($"@"))).

Definition pair_text (key : string) (v : list Z) : list Z :=
  chars key ++ $"=" :: (if isSpecial v then $"{" :: v ++ [$"}"] else v).

(** One [_snprintf] into [TmpStr]; [None] when the position is outside the array. *)
Definition tmp_append (tmp : list Z) (total : Z) (txt : list Z) : option (list Z * Z) :=
  if (0 <=? total) && (total <=? 2048) then
    let count := 2048 - total in
    let tmp' := if 0 <? count then blit tmp (Z.to_nat total) (take (Z.to_nat (count - 1)) txt ++ [0]) else tmp in
    Some (tmp', total + snprintf_ret count (Z.of_nat (length txt)))
  else None.

Fixpoint DsnToString_loop (rows : list MADB_DsnKey) (d : MADB_Dsn) (tmp : list Z) (total : Z)
    : option (list Z * Z) :=
  match rows with
  | [] => Some (tmp, total)
  | row :: rows' =>
      match row_value d row with
      | None => DsnToString_loop rows' d tmp total
      | Some v =>
          match tmp_append tmp total ((if total =? 0 then [] else [$";"]) ++ pair_text (DsnKey row) v) with
          | None => None
          | Some (tmp', total') => DsnToString_loop rows' d tmp' total'
          end
      end
  end.

(** The output buffer gets [OutLength] bytes of the text, NUL-padded; the result
    is the length printed. *)
Definition MADB_DsnToString (d : MADB_Dsn) (OutLength : nat) : option (list Z * Z) :=
  match DsnToString_loop DsnKeys d (replicate 2048 0) 0 with
  | None => None
  | Some (tmp, total) =>
      let s := cstr tmp in Some (take OutLength (s ++ replicate OutLength 0), total)
  end.

End DsnOps.

(** ** Properties *)

Module DsnProps.
Import ErrorOps DsnOps.

(** *** The table *)

Definition row_type_num (t : enum_dsn_item_type) : Z :=
  match t with
  | DSN_TYPE_STRING => 0 | DSN_TYPE_INT => 1 | DSN_TYPE_BOOL => 2
  | DSN_TYPE_COMBO => 3 | DSN_TYPE_OPTION => 4 | DSN_TYPE_CBOXGROUP => 5
  end.

Definition row_ok (i : nat) (row : MADB_DsnKey) : bool :=
  bool_decide (find_key DsnKeys 0 (chars (DsnKey row)) = Some i) &&
  match DsnOffset row with
  | Offset f => negb (IsAlias row)
  | Alias j => IsAlias row && (j <? length DsnKeys)%nat && negb (IsAlias (key_row j)) && bool_decide (Type_ (key_row j) = Type_ row)
  end.

Lemma DsnKeys_rows_ok : Forall (fun '(i, row) => row_ok i row = true) (imap pair DsnKeys).
Proof. apply (bool_decide_eq_true_1 _). vm_compute. reflexivity. Qed.

Lemma key_row_ok i row : DsnKeys !! i = Some row -> row_ok i row = true.
Proof.
  intros H. pose proof DsnKeys_rows_ok as HF. rewrite Forall_lookup in HF.
  apply (HF i (i, row)). by rewrite list_lookup_imap, H.
Qed.

(** The key table is consistent: a key, in any case, is found at its own row,
    an alias leads to a key of the same type that is not an alias, and the index
    constants the code uses name the keys they are called after. *)
Theorem DsnKeys_consistent :
  (forall i row, DsnKeys !! i = Some row ->
     find_key DsnKeys 0 (chars (DsnKey row)) = Some i /\
     forall j, DsnOffset row = Alias j ->
       IsAlias row = true /\ IsAlias (key_row j) = false /\ Type_ (key_row j) = Type_ row) /\
  (fun i => DsnKey (key_row i)) <$>
    [DSNKEY_OPTIONS_INDEX; DSNKEY_OPTION_INDEX; DSNKEY_NAMEDPIPE_INDEX; DSNKEY_TCPIP_INDEX; DSNKEY_SERVER_INDEX;
     DSNKEY_UID_INDEX; DSNKEY_PWD_INDEX; DSNKEY_DATABASE_INDEX; DSNKEY_FP_INDEX; DSNKEY_FPLIST_INDEX]
  = ["OPTIONS"; "OPTION"; "NamedPipe"; "TCPIP"; "SERVER"; "UID"; "PWD"; "DATABASE"; "TLSPEERFP"; "TLSPEERFPLIST"].
Proof.
  split; [|reflexivity]. intros i row H%key_row_ok. unfold row_ok in H. bprop.
  split; [by apply bool_decide_eq_true in H|]. intros j Ej. rewrite Ej in *. bprop.
  split_and!; try done. by eapply bool_decide_eq_true_1.
Qed.

(** *** The option bits and the transport switch *)

Definition option_fields : list (dsn_field * Z) :=
  [(IsNamedPipe, 13); (Reconnect, 22); (ConnectPrompt, 4); (ReadMycnf, 16); (ForceForwardOnly, 21)].

(** The fields of the option keys repeat their bits of OPTIONS (NO_CACHE may be
    on without its bit: that is its default), and of the two transports exactly
    one is selected. *)
Record dsn_ok (d : MADB_Dsn) : Prop := {
  ok_options : 0 <= num d Options < 2 ^ 32;
  ok_bits : Forall (fun '(f, k) => num d f = Z.b2z (Z.testbit (num d Options) k)) option_fields;
  ok_cache : Z.testbit (num d Options) 20 = true -> num d NoCache = 1;
  ok_transport : num d IsNamedPipe = 0 <-> num d IsTcpIp <> 0;
}.

Definition ok_footprint : list dsn_field :=
  [Options; IsNamedPipe; IsTcpIp; Reconnect; ConnectPrompt; ReadMycnf; ForceForwardOnly; NoCache].

Lemma dsn_ok_frame d d' : (forall f, f ∈ ok_footprint -> num d' f = num d f) -> dsn_ok d -> dsn_ok d'.
Proof.
  intros H [H1 H2 H3 H4]. unfold ok_footprint in H.
  assert (num d' Options = num d Options) as EO by (apply H; by left).
  constructor; rewrite ?EO.
  - done.
  - rewrite Forall_forall in *. intros [f k] Hin. rewrite H; [exact (H2 _ Hin)|].
    unfold option_fields in Hin. rewrite !elem_of_cons, elem_of_nil in Hin.
    destruct_or! Hin; simplify_eq; repeat constructor.
  - rewrite (H NoCache) by (repeat constructor). done.
  - rewrite (H IsNamedPipe), (H IsTcpIp) by (repeat constructor). done.
Qed.

Lemma DSN_OPTION_bit d k : 0 <= k -> (if DSN_OPTION d (2 ^ k) =? 0 then 0 else 1) = Z.b2z (Z.testbit (num d Options) k).
Proof.
  intros Hk. unfold DSN_OPTION.
  assert (Z.land (num d Options) (2 ^ k) = if Z.testbit (num d Options) k then 2 ^ k else 0) as ->.
  { apply Z.bits_inj'. intros n Hn. rewrite Z.land_spec, Z.pow2_bits_eqb by done.
    destruct (Z.eqb_spec k n) as [->|Hne].
    - destruct (Z.testbit (num d Options) n); [by rewrite Z.pow2_bits_true|by rewrite Z.bits_0].
    - rewrite andb_false_r. destruct (Z.testbit (num d Options) k); [by rewrite Z.pow2_bits_false|by rewrite Z.bits_0]. }
  destruct (Z.testbit (num d Options) k); [|done]. destruct (Z.eqb_spec (2 ^ k) 0); [|done]. lia.
Qed.

Lemma lor_bits x k n : 0 <= k -> 0 <= n -> Z.testbit (Z.lor x (2 ^ k)) n = Z.testbit x n || (k =? n).
Proof. intros. by rewrite Z.lor_spec, Z.pow2_bits_eqb. Qed.

Lemma clear_bits x k n : 0 <= k -> 0 <= n < 32 ->
  Z.testbit (wrapu 32 (Z.land x (Z.lnot (2 ^ k)))) n = Z.testbit x n && negb (k =? n).
Proof.
  intros. unfold wrapu. rewrite Z.mod_pow2_bits_low by lia.
  by rewrite Z.land_spec, Z.lnot_spec, Z.pow2_bits_eqb by lia.
Qed.

Lemma lor_range x k : 0 <= x < 2 ^ 32 -> 0 <= k < 32 -> 0 <= Z.lor x (2 ^ k) < 2 ^ 32.
Proof.
  intros Hx Hk. assert (0 <= Z.lor x (2 ^ k)) as H0 by (apply Z.lor_nonneg; lia). split; [done|].
  destruct (Z.eq_dec (Z.lor x (2 ^ k)) 0); [lia|]. apply Z.log2_lt_pow2; [lia|].
  rewrite Z.log2_lor, Z.log2_pow2 by lia. apply Z.max_lub_lt; [|lia].
  destruct (Z.eq_dec x 0); [subst; done|]. by apply Z.log2_lt_pow2; lia.
Qed.

(** The rows fall into the option keys, with one bit each, the two special rows,
    and rows whose field the invariant does not look at. *)
Definition option_bits : list (dsn_field * Z) := (NoCache, 20) :: option_fields.

Definition row_class (i : nat) (row : MADB_DsnKey) : bool :=
  if IsAlias row then true
  else if bool_decide (Type_ row = DSN_TYPE_OPTION) then
    bool_decide (Exists (fun '(f, k) => field_of row = f /\ FlagValue row = 2 ^ k) option_bits)
    && bool_decide (field_of row = IsNamedPipe <-> i = DSNKEY_NAMEDPIPE_INDEX)
    && negb (i =? DSNKEY_TCPIP_INDEX)%nat && negb (i =? DSNKEY_OPTIONS_INDEX)%nat
  else bool_decide (i = DSNKEY_OPTIONS_INDEX) || bool_decide (i = DSNKEY_TCPIP_INDEX)
    || (bool_decide (field_of row ∉ ok_footprint) && negb (i =? DSNKEY_NAMEDPIPE_INDEX)%nat).

Lemma DsnKeys_classes : Forall (fun '(i, row) => row_class i row = true) (imap pair DsnKeys).
Proof. apply (bool_decide_eq_true_1 _). vm_compute. reflexivity. Qed.

Lemma key_row_class i row : DsnKeys !! i = Some row -> row_class i row = true.
Proof.
  intros H. pose proof DsnKeys_classes as HF. rewrite Forall_lookup in HF.
  apply (HF i (i, row)). by rewrite list_lookup_imap, H.
Qed.

Lemma switch_other d i : i <> DSNKEY_NAMEDPIPE_INDEX -> i <> DSNKEY_TCPIP_INDEX ->
  MADB_DsnSwitchDependents d i = (true, d).
Proof.
  intros H1 H2. unfold MADB_DsnSwitchDependents, DsnKeysSwitch. cbn [SwitchDependents_loop Dep_Key].
  apply not_eq_sym, Nat.eqb_neq in H1. apply not_eq_sym, Nat.eqb_neq in H2. by rewrite H1, H2.
Qed.

Lemma switch_true d i : fst (MADB_DsnSwitchDependents d i) = true.
Proof.
  destruct (decide (i = DSNKEY_NAMEDPIPE_INDEX)) as [->|H1]; [done|].
  destruct (decide (i = DSNKEY_TCPIP_INDEX)) as [->|H2]; [done|]. by rewrite switch_other.
Qed.

Lemma set_num_ne d f g v : f <> g -> num (set_num d f v) g = num d g.
Proof. intros. cbn. by rewrite fn_lookup_insert_ne. Qed.
Lemma set_num_eq d f v : num (set_num d f v) f = v.
Proof. cbn. by rewrite fn_lookup_insert. Qed.

Lemma store_field_frame d row v ow f : Type_ row <> DSN_TYPE_OPTION -> f <> field_of row ->
  num (store_field d row v ow) f = num d f.
Proof.
  intros Ht Hf. unfold store_field. destruct (Type_ row); try done; case_match; try done; by rewrite set_num_ne.
Qed.

Lemma store_field_int d row v : Type_ row = DSN_TYPE_INT ->
  num (store_field d row v true) (field_of row) = wrapu 32 (strtoul v).
Proof. intros Ht. unfold store_field. rewrite Ht, andb_false_r. apply set_num_eq. Qed.

(** What setting an option does to the numbers. *)
Lemma SetOptionValue_field d row v : field_of row <> Options -> num (MADB_SetOptionValue d row v) (field_of row) = v.
Proof. intros H. unfold MADB_SetOptionValue. case_match; rewrite set_num_ne by done; by rewrite set_num_eq. Qed.

Lemma SetOptionValue_other d row v f : f <> field_of row -> f <> Options ->
  num (MADB_SetOptionValue d row v) f = num d f.
Proof. intros H1 H2. unfold MADB_SetOptionValue. case_match; by rewrite !set_num_ne. Qed.

Lemma SetOptionValue_bits d row v k n : field_of row <> Options -> FlagValue row = 2 ^ k ->
  0 <= k -> 0 <= n < 32 ->
  Z.testbit (num (MADB_SetOptionValue d row v) Options) n
    = if k =? n then negb (v =? 0) else Z.testbit (num d Options) n.
Proof.
  intros Hf HF Hk Hn. unfold MADB_SetOptionValue. rewrite HF. destruct (v =? 0); cbn [negb].
  - rewrite set_num_eq, set_num_ne, clear_bits by done. destruct (k =? n); [by rewrite andb_false_r|by rewrite andb_true_r].
  - rewrite set_num_eq, set_num_ne, lor_bits by (done || lia). destruct (k =? n); [by rewrite orb_true_r|by rewrite orb_false_r].
Qed.

Lemma SetOptionValue_range d row v k : field_of row <> Options -> FlagValue row = 2 ^ k -> 0 <= k < 32 ->
  0 <= num d Options < 2 ^ 32 -> 0 <= num (MADB_SetOptionValue d row v) Options < 2 ^ 32.
Proof.
  intros Hf HF Hk Ho. unfold MADB_SetOptionValue. rewrite HF. destruct (v =? 0); cbn [negb].
  - rewrite set_num_eq. apply Z.mod_pos_bound. lia.
  - rewrite set_num_eq, set_num_ne by done. by apply lor_range.
Qed.

Lemma option_bits_bound f k : (f, k) ∈ option_bits -> 0 <= k < 32 /\ f <> Options /\ f <> IsTcpIp.
Proof.
  unfold option_bits, option_fields. rewrite !elem_of_cons, elem_of_nil. intros H.
  destruct_or! H; simplify_eq; split_and!; (lia || done).
Qed.

(** An option other than a field's own does not touch its bit. *)
Lemma option_bits_inj f k g n : (f, k) ∈ option_bits -> (g, n) ∈ option_bits -> f = g <-> k = n.
Proof.
  unfold option_bits, option_fields. rewrite !elem_of_cons, !elem_of_nil. intros H1 H2.
  destruct_or! H1; destruct_or! H2; simplify_eq; split; (done || lia).
Qed.

(** The part of the invariant about the bits survives setting any option. *)
Definition bits_ok (d : MADB_Dsn) : Prop :=
  0 <= num d Options < 2 ^ 32 /\
  (forall f k, (f, k) ∈ option_fields -> num d f = Z.b2z (Z.testbit (num d Options) k)) /\
  (Z.testbit (num d Options) 20 = true -> num d NoCache = 1).

Lemma dsn_ok_bits d : dsn_ok d <-> bits_ok d /\ (num d IsNamedPipe = 0 <-> num d IsTcpIp <> 0).
Proof.
  unfold bits_ok. split.
  - intros [H1 H2 H3 H4]. rewrite Forall_forall in H2. split; [split; [done|split; [|done]]|done].
    intros f k Hin. exact (H2 _ Hin).
  - intros [(H1 & H2 & H3) H4]. constructor; auto. apply Forall_forall. intros [f k]. apply H2.
Qed.

Lemma SetOptionValue_bits_ok d row k v : (field_of row, k) ∈ option_bits -> FlagValue row = 2 ^ k ->
  v = 0 \/ v = 1 -> bits_ok d -> bits_ok (MADB_SetOptionValue d row v).
Proof.
  intros Hin HF Hv (H1 & H2 & H3). destruct (option_bits_bound _ _ Hin) as (Hk & Hfo & _). split; [by eapply SetOptionValue_range|split].
  - intros f n Hfn. assert ((f, n) ∈ option_bits) as Hfn' by (by right).
    destruct (option_bits_bound _ _ Hfn') as (Hn & Hfo' & _). erewrite SetOptionValue_bits by (eauto; lia).
    pose proof (option_bits_inj _ _ _ _ Hin Hfn') as Hinj.
    destruct (Z.eqb_spec k n) as [->|Hne].
    + assert (field_of row = f) as <- by (by apply Hinj). rewrite SetOptionValue_field by done.
      by destruct Hv; subst v.
    + assert (f <> field_of row) by (intros ->; apply Hne; by apply Hinj).
      rewrite SetOptionValue_other by done. by apply H2.
  - erewrite SetOptionValue_bits by (eauto; lia).
    assert ((NoCache, 20) ∈ option_bits) as Hc by (by left). pose proof (option_bits_inj _ _ _ _ Hin Hc) as Hinj.
    destruct (Z.eqb_spec k 20) as [->|Hne].
    + assert (field_of row = NoCache) as <- by (by apply Hinj). rewrite SetOptionValue_field by done.
      destruct Hv; subst v; done.
    + assert (NoCache <> field_of row) by (intros E; apply Hne; by apply Hinj).
      by rewrite SetOptionValue_other.
Qed.

Lemma switch_namedpipe d : MADB_DsnSwitchDependents d DSNKEY_NAMEDPIPE_INDEX =
  (true, set_num d IsTcpIp (if 0 =? num d IsNamedPipe then 1 else 0)).
Proof. reflexivity. Qed.

Lemma switch_tcpip d : MADB_DsnSwitchDependents d DSNKEY_TCPIP_INDEX =
  (true, MADB_SetOptionValue d (key_row DSNKEY_NAMEDPIPE_INDEX) (if 0 =? num d IsTcpIp then 1 else 0)).
Proof. reflexivity. Qed.

Lemma bits_ok_frame d f v : f ∉ Options :: (fst <$> option_bits) -> bits_ok d -> bits_ok (set_num d f v).
Proof.
  intros Hf (H1 & H2 & H3).
  assert (forall g, g ∈ Options :: (fst <$> option_bits) -> num (set_num d f v) g = num d g) as Hg
    by (intros g Hg; apply set_num_ne; intros ->; done).
  assert (num (set_num d f v) Options = num d Options) as EO by (apply Hg; by left).
  unfold bits_ok. rewrite EO. split; [done|split].
  - intros g k Hin. rewrite Hg; [by apply H2|]. right. apply list_elem_of_fmap. exists (g, k). split; [done|by right].
  - rewrite Hg; [done|]. right. by left.
Qed.

Lemma key_row_lookup i row : DsnKeys !! i = Some row -> key_row i = row.
Proof. intros H. unfold key_row. by rewrite H. Qed.

(** Storing any value under any key but OPTIONS keeps the invariant. *)
Lemma StoreValue_ok d i row v ow : DsnKeys !! i = Some row -> IsAlias row = false -> i <> DSNKEY_OPTIONS_INDEX ->
  dsn_ok d -> dsn_ok (snd (MADB_DsnStoreValue d i v ow)).
Proof.
  intros Hi Ha Ho Hd. pose proof (key_row_class i row Hi) as Hc. unfold row_class in Hc. rewrite Ha in Hc.
  unfold MADB_DsnStoreValue. rewrite (key_row_lookup _ _ Hi), Ha.
  destruct (bool_decide (Type_ row = DSN_TYPE_OPTION)) eqn:Et.
  - apply bool_decide_eq_true in Et. apply andb_true_iff in Hc as [Hc _]. apply andb_true_iff in Hc as [Hc Ht].
    apply andb_true_iff in Hc as [He Hn]. apply bool_decide_eq_true in He, Hn.
    apply Exists_exists in He as ([f k] & Hin & Ef & Ek). subst f. apply negb_true_iff, Nat.eqb_neq in Ht.
    apply dsn_ok_bits in Hd as [Hb Htr]. destruct (option_bits_bound _ _ Hin) as (_ & Hfo & Hft).
    assert (bits_ok (store_field d row v ow) /\
      (field_of row <> IsNamedPipe -> num (store_field d row v ow) IsNamedPipe = num d IsNamedPipe) /\
      num (store_field d row v ow) IsTcpIp = num d IsTcpIp) as (Hb' & Hp' & Ht').
    { unfold store_field. rewrite Et. destruct (_ && _); [done|]. split_and!.
      - eapply SetOptionValue_bits_ok; eauto. case_match; auto.
      - intros Hne. by rewrite SetOptionValue_other.
      - by rewrite SetOptionValue_other. }
    destruct (decide (i = DSNKEY_NAMEDPIPE_INDEX)) as [->|Hin'].
    + rewrite switch_namedpipe. cbn [snd]. apply dsn_ok_bits. split.
      * apply bits_ok_frame; [|done]. apply (bool_decide_eq_true_1 _). vm_compute. reflexivity.
      * rewrite set_num_eq, set_num_ne by done. destruct (Z.eqb_spec 0 (num (store_field d row v ow) IsNamedPipe)); lia.
    + rewrite switch_other by done. cbn [snd]. apply dsn_ok_bits. split; [done|].
      rewrite Hp' by (intros E; apply Hin'; by apply Hn). by rewrite Ht'.
  - apply bool_decide_eq_false in Et. apply orb_true_iff in Hc as [Hc|Hc].
    + apply orb_true_iff in Hc as [Hc|Hc]; apply bool_decide_eq_true in Hc; [done|]. subst i.
      rewrite switch_tcpip. cbn [snd]. injection Hi as <-.
      assert (bits_ok (store_field d (key_row DSNKEY_TCPIP_INDEX) v ow)) as Hb.
      { apply dsn_ok_bits in Hd as [Hb _]. unfold store_field. cbn [Type_ key_row]. cbn. destruct (_ && _); [done|].
        apply bits_ok_frame; [|done]. apply (bool_decide_eq_true_1 _). vm_compute. reflexivity. }
      set (d1 := store_field d _ v ow) in *. apply dsn_ok_bits. split.
      * apply (SetOptionValue_bits_ok _ _ 13); [|done| |done]; [right; by left|case_match; auto].
      * rewrite (SetOptionValue_field d1 (key_row DSNKEY_NAMEDPIPE_INDEX)) by done.
        rewrite SetOptionValue_other by done. destruct (Z.eqb_spec 0 (num d1 IsTcpIp)); lia.
    + apply andb_true_iff in Hc as [Hc Hn]. apply bool_decide_eq_true in Hc. apply negb_true_iff, Nat.eqb_neq in Hn.
      assert (i <> DSNKEY_TCPIP_INDEX) as Hnt.
      { intros ->. injection Hi as <-. apply Hc. apply (bool_decide_eq_true_1 _). vm_compute. reflexivity. }
      rewrite switch_other by done. cbn [snd]. eapply dsn_ok_frame; [|exact Hd]. intros f Hf.
      apply store_field_frame; [done|]. intros ->. done.
Qed.

Lemma UpdateOptions_num d f : num (MADB_DsnUpdateOptionsFields d) f =
  let bit k := if DSN_OPTION d (2 ^ k) =? 0 then 0 else 1 in
  match f with
  | IsNamedPipe => bit 13 | IsTcpIp => if 0 =? bit 13 then 1 else 0
  | Reconnect => bit 22 | ConnectPrompt => bit 4 | ReadMycnf => bit 16 | ForceForwardOnly => bit 21
  | NoCache => bit 20 | _ => num d f
  end.
Proof. destruct f; reflexivity. Qed.

(** Setting OPTIONS and updating the fields from it establishes the invariant. *)
Lemma UpdateOptions_ok d : 0 <= num d Options < 2 ^ 32 -> dsn_ok (MADB_DsnUpdateOptionsFields d).
Proof.
  intros Ho. constructor.
  - by rewrite UpdateOptions_num.
  - unfold option_fields. repeat constructor; rewrite !UpdateOptions_num; cbv beta iota zeta; by apply DSN_OPTION_bit.
  - rewrite !UpdateOptions_num. cbv beta iota zeta. intros H. by rewrite DSN_OPTION_bit, H.
  - rewrite !UpdateOptions_num. cbv beta iota zeta. destruct (DSN_OPTION d (2 ^ 13) =? 0); cbn; lia.
Qed.

(** *** Parsing a connection string *)

Lemma find_key_Some rows key : forall i k, find_key rows i key = Some k ->
  (i <= k)%nat /\ is_Some (rows !! (k - i)%nat).
Proof.
  induction rows as [|row rows IH]; intros i k; cbn [find_key]; [done|].
  case_match; [intros [= <-]; rewrite Nat.sub_diag; split; [lia|by eexists]|].
  intros [H1 H2]%IH. split; [lia|]. by replace (k - i)%nat with (S (k - S i)) by lia.
Qed.

(** The row a key resolves to: never an alias. *)
Definition resolve (k : nat) : nat := match DsnOffset (key_row k) with Alias j => j | Offset _ => k end.

Lemma resolve_row k : is_Some (DsnKeys !! k) ->
  exists row, DsnKeys !! resolve k = Some row /\ IsAlias row = false.
Proof.
  intros [row Hk]. pose proof (key_row_ok k row Hk) as Hr. unfold row_ok in Hr. apply andb_true_iff in Hr as [_ Hr].
  unfold resolve. rewrite (key_row_lookup _ _ Hk). destruct (DsnOffset row) as [f|j].
  - exists row. by apply negb_true_iff in Hr.
  - bprop. destruct (lookup_lt_is_Some_2 DsnKeys j) as [row' Hj]; [done|].
    exists row'. split; [done|]. by rewrite (key_row_lookup _ _ Hj) in *.
Qed.

Lemma StoreValue_true d i row v ow : DsnKeys !! i = Some row -> IsAlias row = false ->
  fst (MADB_DsnStoreValue d i v ow) = true.
Proof.
  intros Hi Ha. unfold MADB_DsnStoreValue. rewrite (key_row_lookup _ _ Hi), Ha. apply switch_true.
Qed.

(** What the parser does with one pair: store, and spread OPTIONS. *)
Definition apply_pair (d : MADB_Dsn) (idx : nat) (v : list Z) : MADB_Dsn :=
  let d' := snd (MADB_DsnStoreValue d idx v true) in
  if (idx =? DSNKEY_OPTIONS_INDEX)%nat then MADB_DsnUpdateOptionsFields d' else d'.

Lemma apply_pair_ok d k v : is_Some (DsnKeys !! k) -> dsn_ok d -> dsn_ok (apply_pair d (resolve k) v).
Proof.
  intros Hk Hd. destruct (resolve_row k Hk) as (row & Hr & Ha). unfold apply_pair.
  destruct (Nat.eqb_spec (resolve k) DSNKEY_OPTIONS_INDEX) as [E|Hne]; [|by eapply StoreValue_ok].
  rewrite E. apply UpdateOptions_ok. unfold MADB_DsnStoreValue. rewrite switch_other by done.
  change (IsAlias (key_row DSNKEY_OPTIONS_INDEX)) with false. cbn [snd].
  change Options with (field_of (key_row DSNKEY_OPTIONS_INDEX)). rewrite store_field_int by done.
  apply Z.mod_pos_bound. lia.
Qed.

Lemma read_value_shorter v D val r : read_value v D = (val, Some r) -> (length r <= length v)%nat.
Proof.
  unfold read_value. pose proof (length_drop v (ltrim_n (cstr v))) as Hl.
  destruct (drop (ltrim_n (cstr v)) v) as [|c v2].
  - destruct (find_delim [] D); intros [= _ <-]. cbn. lia.
  - cbn [length] in Hl. destruct (c =? $"{").
    + destruct (unbrace _ _) as [w [p|]]; cbn; intros [= _ <-]. rewrite length_drop. lia.
    + destruct (find_delim _ _); intros [= _ <-]. rewrite length_drop. cbn. lia.
Qed.

Lemma ParseConnString_loop_spec fuel : forall d l D, (length l < fuel)%nat ->
  exists r d', ParseConnString_loop fuel d l D = Some (r, d') /\ (dsn_ok d -> dsn_ok d').
Proof.
  induction fuel as [|fuel IH]; intros d l D Hf; [lia|]. cbn [ParseConnString_loop].
  destruct l as [|c l']; [by eexists _, _|]. set (l := c :: l') in *.
  destruct (negb (D =? 0) && (c =? D)); [apply IH; subst l; cbn in *; lia|].
  destruct (strchr (cstr l) ($"=")) as [i|]; [|by eexists _, _].
  pose proof (length_drop l (S i)) as Hl. assert (0 < length l)%nat by (subst l; cbn; lia).
  destruct (find_key DsnKeys 0 (trim (take i l))) as [k|] eqn:Ek.
  - apply find_key_Some in Ek as [_ Hk]. rewrite Nat.sub_0_r in Hk. fold (resolve k).
    destruct (read_value (drop (S i) l) D) as [val rest] eqn:Er.
    pose proof (apply_pair_ok d k val Hk) as Hok. destruct (resolve_row k Hk) as (row & Hrow & Ha).
    pose proof (StoreValue_true d _ row val true Hrow Ha) as Ht. unfold apply_pair in Hok.
    destruct (MADB_DsnStoreValue d (resolve k) val true) as [b d']. cbn [fst snd] in Ht, Hok. subst b.
    destruct rest as [r|]; [|eexists _, _; split; [reflexivity|exact Hok]]. apply read_value_shorter in Er.
    edestruct (IH (if (resolve k =? DSNKEY_OPTIONS_INDEX)%nat then MADB_DsnUpdateOptionsFields d' else d') r D)
      as (r' & d2 & -> & H2); [lia|]. exists r', d2. split; [reflexivity|]. intros Hd. exact (H2 (Hok Hd)).
  - destruct (find_delim _ _); [|by eexists _, _]. apply IH. rewrite length_drop. lia.
Qed.

(** C32. [MADB_ParseConnString] terminates on every string with every delimiter,
    and leaves the structure consistent: each option field equals its bit of
    OPTIONS, and exactly one of the named pipe and TCP/IP transports is on. *)
Theorem MADB_ParseConnString_invariant d String Length D :
  exists r d', MADB_ParseConnString d String Length D = Some (r, d') /\ (dsn_ok d -> dsn_ok d').
Proof.
  unfold MADB_ParseConnString. destruct String as [b|]; [|by eexists _, _].
  apply ParseConnString_loop_spec. lia.
Qed.

(** The structure a connection starts from is consistent. *)
Lemma MADB_DSN_Init_ok : dsn_ok MADB_DSN_Init.
Proof. constructor; [split; vm_compute; done|repeat constructor|done|]. split; [|done]. by vm_compute. Qed.

Lemma MADB_ParseConnString_invariant_witness :
  exists r d', MADB_ParseConnString MADB_DSN_Init (Some (chars "OPTION=8192;AUTO_RECONNECT=1")) 28 ($";") = Some (r, d')
    /\ dsn_ok d'.
Proof.
  destruct (MADB_ParseConnString_invariant MADB_DSN_Init (Some (chars "OPTION=8192;AUTO_RECONNECT=1")) 28 ($";"))
    as (r & d' & E & H).
  exists r, d'. split; [exact E|]. apply H. exact MADB_DSN_Init_ok.
Defined.

(** *** Printing and parsing *)

Lemma strchr_app a c b : Forall (fun x => x <> c) a -> strchr (a ++ c :: b) c = Some (length a).
Proof.
  induction 1 as [|x a Hx _ IH]; cbn; [by rewrite Z.eqb_refl|].
  destruct (Z.eqb_spec x c); [done|]. by rewrite IH.
Qed.

Lemma cstr_app a b : Forall (fun x => x <> 0) a -> cstr (a ++ b) = a ++ cstr b.
Proof. induction 1 as [|x a Hx _ IH]; cbn; [done|]. destruct (Z.eqb_spec x 0); [done|]. by rewrite IH. Qed.

Lemma trim_fixed_head v : trim v = v -> ltrim_n v = 0%nat.
Proof.
  intros H. assert (length (trim v) = length v) as E by (by rewrite H). unfold trim, rtrim in E.
  rewrite length_reverse in E. unfold ltrim at 1 in E. rewrite length_drop, length_reverse in E.
  unfold ltrim in E. rewrite length_drop in E. pose proof (ltrim_n_le v). lia.
Qed.

Lemma ltrim_n_app v b : v <> [] -> ltrim_n v = 0%nat -> ltrim_n (v ++ b) = 0%nat.
Proof. destruct v as [|c v]; [done|]. cbn. by destruct (isspace c). Qed.

(** The values that survive: no NUL, no blank at either end, no closing brace,
    and no opening brace at the start unless the value gets braces anyway. *)
Record value_ok (v : list Z) : Prop := {
  vo_nul : Forall (fun c => c <> 0) v;
  vo_trim : trim v = v;
  vo_some : v <> [];
  vo_brace : Forall (fun c => c <> $"}") v;
  vo_open : isSpecial v = false -> rd v 0 <> $"{";
}.

(** What may follow a pair. *)
Definition tail_rest (tail : list Z) : list Z := drop 1 tail.
Definition tail_ok (tail : list Z) : Prop := tail = [] \/ exists r, tail = $";" :: r.

Lemma unbrace_plain fuel v x : (0 < fuel)%nat -> Forall (fun c => c <> $"}") v -> rd x 0 <> $"}" ->
  unbrace fuel (v ++ $"}" :: x) = (v, Some (length v + 1)%nat).
Proof.
  intros Hf Hv Hx. destruct fuel as [|fuel]; [lia|]. cbn [unbrace]. rewrite strchr_app by done.
  assert (rd (v ++ $"}" :: x) (length v + 1) = rd x 0) as E.
  { unfold rd. rewrite lookup_app_r by lia. replace (length v + 1 - length v)%nat with 1%nat by lia. done. }
  apply Z.eqb_neq in Hx. rewrite E, Hx. f_equal. by rewrite take_app_length.
Qed.

Lemma special_chars v : isSpecial v = false -> Forall (fun c => c <> $";") v.
Proof.
  unfold isSpecial. intros H. bprop. apply bool_decide_eq_false in H1. apply strchr_None.
  destruct (strchr v ($";")); [|done]. destruct H1. by eexists.
Qed.

Lemma read_value_pair v tail : value_ok v -> tail_ok tail ->
  read_value ((if isSpecial v then $"{" :: v ++ [$"}"] else v) ++ tail) ($";") =
    (v, if bool_decide (tail = []) && negb (isSpecial v) then None else Some (tail_rest tail)).
Proof.
  intros [Hn Ht Hs Hb Ho] Htl. unfold read_value, tail_rest. destruct (isSpecial v) eqn:Esp.
  - rewrite andb_false_r. cbn [app cstr].
    change ($"{" =? 0) with false. cbv iota. cbn [ltrim_n]. change (isspace ($"{")) with false. cbn [drop].
    rewrite Z.eqb_refl, <- app_assoc, cstr_app by done. cbn [app cstr]. change ($"}" =? 0) with false. cbv iota.
    rewrite unbrace_plain; [|lia|done|by destruct Htl as [->|[r ->]]].
    rewrite Ht. f_equal. cbn [fmap option_fmap option_map]. f_equal.
    replace (length v + 1 + 1)%nat with (length v + 2)%nat by lia. rewrite drop_app_ge by lia.
    by replace (length v + 2 - length v)%nat with 2%nat by lia.
  - pose proof (trim_fixed_head v Ht) as Hh. rewrite cstr_app, ltrim_n_app by done. rewrite !drop_0.
    pose proof (special_chars v Esp) as Hsemi. specialize (Ho eq_refl).
    destruct v as [|c v]; [done|]. cbn [app]. replace (c =? $"{") with false by (symmetry; by apply Z.eqb_neq).
    change (c :: v ++ tail) with ((c :: v) ++ tail). rewrite cstr_app by done. unfold find_delim.
    change ($";" =? 0) with false. cbv iota.
    destruct Htl as [->|[r ->]].
    + cbn [cstr]. rewrite app_nil_r, (proj2 (strchr_None _ _)) by done. by rewrite Ht.
    + cbn [cstr]. change ($";" =? 0) with false. cbv iota. rewrite strchr_app by done.
      rewrite take_app_length, Ht. rewrite bool_decide_eq_false_2 by done. cbn [andb]. do 2 f_equal.
      rewrite drop_app_ge by lia. by replace (length (c :: v) + 1 - length (c :: v))%nat with 1%nat by lia.
Qed.

(** The text of a list of pairs, and the effect of storing them in order. *)
Fixpoint pairs_text (ps : list (nat * list Z)) : list Z :=
  match ps with
  | [] => []
  | (i, v) :: ps' =>
      pair_text (DsnKey (key_row i)) v ++ match ps' with [] => [] | _ => $";" :: pairs_text ps' end
  end.

Definition store_all (d : MADB_Dsn) (ps : list (nat * list Z)) : MADB_Dsn :=
  foldl (fun d '(i, v) => apply_pair d (resolve i) v) d ps.

Definition pair_ok (p : nat * list Z) : Prop := (fst p < length DsnKeys)%nat /\ value_ok (snd p).

Definition key_plain (row : MADB_DsnKey) : bool :=
  let k := chars (DsnKey row) in
  bool_decide (Forall (fun c => c <> 0 /\ c <> $"=" /\ c <> $";") k) && bool_decide (trim k = k)
  && bool_decide (k <> []).

Lemma DsnKeys_plain : Forall (fun row => key_plain row = true) DsnKeys.
Proof. apply (bool_decide_eq_true_1 _). vm_compute. reflexivity. Qed.

Lemma key_row_plain i : (i < length DsnKeys)%nat ->
  let k := chars (DsnKey (key_row i)) in
  Forall (fun c => c <> 0) k /\ Forall (fun c => c <> $"=") k /\ trim k = k /\
  (exists c k', k = c :: k' /\ c <> $";") /\ find_key DsnKeys 0 k = Some i.
Proof.
  intros Hi k. destruct (lookup_lt_is_Some_2 DsnKeys i Hi) as [row Hr].
  pose proof (key_row_lookup _ _ Hr) as Ek. pose proof (key_row_ok _ _ Hr) as Ho. unfold row_ok in Ho.
  apply andb_true_iff in Ho as [Ho _]. apply bool_decide_eq_true in Ho.
  pose proof (proj1 (Forall_lookup _ _) DsnKeys_plain i row Hr) as Hp. cbn beta in Hp. unfold key_plain in Hp.
  apply andb_true_iff in Hp as [Hp H3]. apply andb_true_iff in Hp as [H1 H2].
  apply bool_decide_eq_true in H1, H2, H3. rewrite <- Ek in H1, H2, H3, Ho. fold k in H1, H2, H3, Ho.
  split_and!; auto.
  - eapply Forall_impl; [exact H1|]. naive_solver.
  - eapply Forall_impl; [exact H1|]. naive_solver.
  - destruct k as [|c k']; [done|]. exists c, k'. apply Forall_cons in H1. naive_solver.
Qed.

Lemma parse_pair_step fuel d i v tail : pair_ok (i, v) -> tail_ok tail ->
  ParseConnString_loop (S fuel) d (pair_text (DsnKey (key_row i)) v ++ tail) ($";") =
    let d' := apply_pair d (resolve i) v in
    if bool_decide (tail = []) && negb (isSpecial v) then Some (true, d')
    else ParseConnString_loop fuel d' (tail_rest tail) ($";").
Proof.
  intros [Hi Hv] Ht. cbn [fst snd] in *.
  destruct (key_row_plain i Hi) as (Hk0 & Hke & Hkt & (c & k' & Ek & Hc) & Hfk).
  set (k := chars (DsnKey (key_row i))) in *. unfold pair_text. fold k.
  set (w := if isSpecial v then _ else v).
  assert ((k ++ $"=" :: w) ++ tail = k ++ $"=" :: (w ++ tail)) as -> by (by rewrite <- app_assoc).
  set (l := k ++ $"=" :: w ++ tail). cbn [ParseConnString_loop].
  assert (l = c :: (k' ++ $"=" :: w ++ tail)) as El by (subst l; by rewrite Ek).
  rewrite El at 1. rewrite El at 1. replace (c =? $";") with false by (symmetry; by apply Z.eqb_neq).
  rewrite andb_false_r, <- El. subst l. rewrite cstr_app by done. cbn [cstr]. change ($"=" =? 0) with false. cbv iota.
  rewrite strchr_app by done. rewrite take_app_length, Hkt, Hfk. fold (resolve i).
  assert (drop (S (length k)) (k ++ $"=" :: w ++ tail) = w ++ tail) as ->
    by (rewrite drop_app_ge by lia; by replace (S (length k) - length k)%nat with 1%nat by lia).
  subst w. rewrite read_value_pair by done. unfold apply_pair.
  destruct (resolve_row i (lookup_lt_is_Some_2 _ _ Hi)) as (row & Hr & Ha).
  pose proof (StoreValue_true d _ row v true Hr Ha) as Hst.
  destruct (MADB_DsnStoreValue d (resolve i) v true) as [b d']. cbn [fst snd] in *. subst b. cbv zeta.
  by destruct (bool_decide (tail = []) && negb (isSpecial v)).
Qed.

Lemma ParseConnString_pairs ps : forall fuel d, Forall pair_ok ps -> (length (pairs_text ps) < fuel)%nat ->
  ParseConnString_loop fuel d (pairs_text ps) ($";") = Some (true, store_all d ps).
Proof.
  induction ps as [|[i v] ps IH]; intros fuel d HF Hf; destruct fuel as [|fuel]; try lia; [done|].
  apply Forall_cons in HF as [Hp HF]. cbn [pairs_text] in *. destruct ps as [|p ps].
  - rewrite parse_pair_step by (done || by left). cbv zeta. cbn [andb]. unfold tail_rest. cbn [drop].
    destruct (negb (isSpecial v)); [done|]. destruct fuel; [|done].
    unfold pair_text in Hf. rewrite !length_app in Hf. cbn in Hf. lia.
  - rewrite parse_pair_step; [|done|right; by eexists]. cbv zeta. rewrite bool_decide_eq_false_2 by done.
    cbn [andb tail_rest drop]. rewrite IH; [done|done|]. rewrite length_app in Hf. cbn [length] in Hf. lia.
Qed.

(** The pairs [MADB_DsnToString] prints. *)
Fixpoint printed (rows : list MADB_DsnKey) (i : nat) (d : MADB_Dsn) : list (nat * list Z) :=
  match rows with
  | [] => []
  | row :: rows' =>
      match row_value d row with Some v => [(i, v)] | None => [] end ++ printed rows' (S i) d
  end.

Definition dsn_pairs (d : MADB_Dsn) : list (nat * list Z) := printed DsnKeys 0 d.

(** A piece that fits is appended. *)
Lemma tmp_append_fits s txt pad : (length s + length txt < 2048)%nat -> (length s + pad = 2048)%nat ->
  exists pad', tmp_append (s ++ replicate pad 0) (Z.of_nat (length s)) txt
    = Some ((s ++ txt) ++ replicate pad' 0, Z.of_nat (length (s ++ txt))) /\ (length (s ++ txt) + pad' = 2048)%nat.
Proof.
  intros H1 H2. unfold tmp_append. exists (pad - length txt)%nat. rewrite length_app. split; [|lia].
  destruct (Z.leb_spec 0 (Z.of_nat (length s))); [|lia]. destruct (Z.leb_spec (Z.of_nat (length s)) 2048); [|lia].
  cbn [andb]. destruct (Z.ltb_spec 0 (2048 - Z.of_nat (length s))); [|lia]. f_equal. f_equal.
  - unfold blit. rewrite Nat2Z.id, take_app_length. rewrite (take_ge txt) by lia.
    rewrite (take_ge (txt ++ [0])) by (rewrite !length_app, length_replicate; cbn; lia).
    rewrite <- !app_assoc. do 2 f_equal. rewrite length_app. cbn [length].
    rewrite drop_app_ge by lia. rewrite drop_replicate. cbn.
    replace (pad - length txt)%nat with (S (pad - (length s + (length txt + 1) - length s))) by lia. done.
  - unfold snprintf_ret. destruct (Z.ltb_spec (2048 - Z.of_nat (length s)) (Z.of_nat (length txt))); lia.
Qed.

Definition separator (ps : list (nat * list Z)) : list Z := match ps with [] => [] | _ => [$";"] end.

Lemma pairs_text_snoc ps i v :
  pairs_text (ps ++ [(i, v)]) = pairs_text ps ++ separator ps ++ pair_text (DsnKey (key_row i)) v.
Proof.
  induction ps as [|[j w] ps IH]; [cbn [app pairs_text separator]; by rewrite app_nil_r|].
  cbn [app pairs_text]. destruct ps as [|p ps].
  - cbn [app separator pairs_text]. by rewrite !app_nil_r.
  - rewrite IH. cbn [app separator]. rewrite <- !app_assoc. done.
Qed.

Lemma pairs_text_app_length ps qs : (length (pairs_text ps) <= length (pairs_text (ps ++ qs)))%nat.
Proof.
  revert ps. induction qs as [|[i v] qs IH]; intros ps; [by rewrite app_nil_r|].
  specialize (IH (ps ++ [(i, v)])). rewrite <- app_assoc in IH. cbn [app] in IH.
  rewrite pairs_text_snoc, !length_app in IH. lia.
Qed.

Lemma pairs_text_nil ps : pairs_text ps = [] -> ps = [].
Proof.
  destruct ps as [|[i v] ps]; [done|]. cbn [pairs_text]. unfold pair_text. intros H.
  by destruct (chars (DsnKey (key_row i))).
Qed.

Lemma DsnToString_loop_spec d rows : forall i ps pad,
  rows = drop i DsnKeys ->
  (length (pairs_text (ps ++ printed rows i d)) < 2048)%nat -> (length (pairs_text ps) + pad = 2048)%nat ->
  exists pad', DsnToString_loop rows d (pairs_text ps ++ replicate pad 0) (Z.of_nat (length (pairs_text ps)))
    = Some (pairs_text (ps ++ printed rows i d) ++ replicate pad' 0,
            Z.of_nat (length (pairs_text (ps ++ printed rows i d)))).
Proof.
  induction rows as [|row rows IH]; intros i ps pad Er Hl Hp; cbn [DsnToString_loop printed] in *.
  { rewrite app_nil_r. by exists pad. }
  assert (DsnKeys !! i = Some row) as Hi.
  { rewrite <- (Nat.add_0_r i), <- lookup_drop, <- Er. done. }
  assert (rows = drop (S i) DsnKeys) as Er'.
  { replace (S i) with (i + 1)%nat by lia. by rewrite <- drop_drop, <- Er. }
  destruct (row_value d row) as [v|]; [|by apply (IH (S i))].
  cbn [app] in *. replace (ps ++ (i, v) :: printed rows (S i) d)
    with ((ps ++ [(i, v)]) ++ printed rows (S i) d) in * by (by rewrite <- app_assoc).
  pose proof (pairs_text_app_length (ps ++ [(i, v)]) (printed rows (S i) d)) as Hle.
  pose proof (pairs_text_snoc ps i v) as Es. rewrite (key_row_lookup _ _ Hi) in Es.
  assert ((if Z.of_nat (length (pairs_text ps)) =? 0 then [] else [$";"]) = separator ps) as ->.
  { destruct (Z.eqb_spec (Z.of_nat (length (pairs_text ps))) 0) as [H0|H0].
    - assert (pairs_text ps = []) as En by (apply nil_length_inv; lia). by apply pairs_text_nil in En as ->.
    - by destruct ps. }
  destruct (tmp_append_fits (pairs_text ps) (separator ps ++ pair_text (DsnKey row) v) pad)
    as (pad' & -> & Hp'); [|done|].
  { rewrite <- length_app, <- Es. lia. }
  rewrite <- Es in Hp' |- *. by apply IH.
Qed.

Lemma isSpecial_pair_nonzero i v : pair_ok (i, v) -> Forall (fun c => c <> 0) (pair_text (DsnKey (key_row i)) v).
Proof.
  intros [Hi Hv]. cbn [fst snd] in *. destruct (key_row_plain i Hi) as (Hk & _). destruct Hv as [Hv _ _ _ _].
  unfold pair_text. apply Forall_app. split; [done|]. constructor; [done|]. destruct (isSpecial v); [|done].
  constructor; [done|]. apply Forall_app. split; [done|]. by constructor.
Qed.

Lemma pairs_text_nonzero ps : Forall pair_ok ps -> Forall (fun c => c <> 0) (pairs_text ps).
Proof.
  induction 1 as [|[i v] ps Hp HF IH]; [constructor|]. cbn [pairs_text]. apply Forall_app.
  split; [by apply isSpecial_pair_nonzero|]. destruct ps; [constructor|]. by constructor.
Qed.

Lemma DsnToString_parse d d0 n :
  Forall pair_ok (dsn_pairs d) -> (length (pairs_text (dsn_pairs d)) < 2048)%nat ->
  (length (pairs_text (dsn_pairs d)) < n)%nat ->
  exists out, MADB_DsnToString d n = Some (out, Z.of_nat (length (pairs_text (dsn_pairs d)))) /\
    MADB_ParseConnString d0 (Some out) SQL_NTS ($";") = Some (true, store_all d0 (dsn_pairs d)).
Proof.
  intros HF Hl Hn. unfold MADB_DsnToString. pose proof (pairs_text_nonzero _ HF) as Hz.
  destruct (DsnToString_loop_spec d DsnKeys 0 [] 2048 eq_refl) as [pad' E]; [exact Hl|done|].
  cbn [app pairs_text length] in E. fold (dsn_pairs d) in E. change (Z.of_nat 0) with 0 in E. rewrite E.
  set (s := pairs_text (dsn_pairs d)) in *.
  assert (cstr (s ++ replicate pad' 0) = s) as ->.
  { rewrite cstr_app by done. destruct pad'; cbn; by rewrite app_nil_r. }
  eexists. split; [reflexivity|]. unfold MADB_ParseConnString. rewrite Z.eqb_refl. unfold ConnStringLength.
  change (negb ($";" =? 0)) with true. cbv iota.
  assert (exists k, take n (s ++ replicate n 0) = s ++ 0 :: k) as [k ->].
  { rewrite take_app_ge by lia. rewrite take_replicate, Nat.min_l by lia.
    destruct (n - length s)%nat as [|m] eqn:Em; [lia|]. by exists (replicate m 0). }
  assert (strlen (s ++ 0 :: k) 0 = length s) as -> by (unfold strlen, cstr_at; rewrite drop_0; by rewrite cstr_app_nul).
  rewrite take_app_length. apply ParseConnString_pairs; [done|]. subst s. lia.
Qed.

(** *** What the round trip restores *)

Definition is_string (row : MADB_DsnKey) : bool :=
  bool_decide (Type_ row = DSN_TYPE_STRING) || bool_decide (Type_ row = DSN_TYPE_COMBO).

(** Two keys that are not aliases have different fields. *)
Definition fields_distinct (i : nat) (row : MADB_DsnKey) : bool :=
  IsAlias row || bool_decide (Forall (fun '(j, row') =>
    IsAlias row' = true \/ j = i \/ field_of row' <> field_of row) (imap pair DsnKeys)).

Lemma DsnKeys_distinct : Forall (fun '(i, row) => fields_distinct i row = true) (imap pair DsnKeys).
Proof. apply (bool_decide_eq_true_1 _). vm_compute. reflexivity. Qed.

Lemma field_inj i j row row' : DsnKeys !! i = Some row -> DsnKeys !! j = Some row' ->
  IsAlias row = false -> IsAlias row' = false -> field_of row' = field_of row -> j = i.
Proof.
  intros Hi Hj Ha Ha' Ef. pose proof DsnKeys_distinct as HF. rewrite Forall_lookup in HF.
  specialize (HF i (i, row)). rewrite list_lookup_imap, Hi in HF. specialize (HF eq_refl). cbn beta iota in HF.
  unfold fields_distinct in HF. rewrite Ha in HF. cbn [orb] in HF. apply bool_decide_eq_true in HF.
  rewrite Forall_lookup in HF. specialize (HF j (j, row')). rewrite list_lookup_imap, Hj in HF.
  specialize (HF eq_refl). cbn beta iota in HF. destruct HF as [H|[H|H]]; congruence.
Qed.

Lemma switch_str d i : str (snd (MADB_DsnSwitchDependents d i)) = str d.
Proof.
  destruct (decide (i = DSNKEY_NAMEDPIPE_INDEX)) as [->|H1]; [by rewrite switch_namedpipe|].
  destruct (decide (i = DSNKEY_TCPIP_INDEX)) as [->|H2]; [|by rewrite switch_other].
  rewrite switch_tcpip. cbn [snd]. unfold MADB_SetOptionValue. by case_match.
Qed.

Lemma UpdateOptions_str d : str (MADB_DsnUpdateOptionsFields d) = str d.
Proof. reflexivity. Qed.

Lemma store_field_str d row v f :
  str (store_field d row v true) f = if is_string row && bool_decide (field_of row = f) then Some v else str d f.
Proof.
  unfold store_field, is_string. rewrite !andb_false_r. unfold MADB_SetOptionValue.
  destruct (Type_ row); rewrite ?andb_false_r; cbn; repeat case_match; try done.
  all: unfold insert, fn_insert; repeat case_decide; naive_solver.
Qed.

Lemma apply_pair_str d i row v f : DsnKeys !! i = Some row -> IsAlias row = false ->
  str (apply_pair d i v) f = if is_string row && bool_decide (field_of row = f) then Some v else str d f.
Proof.
  intros Hi Ha. unfold apply_pair, MADB_DsnStoreValue. rewrite (key_row_lookup _ _ Hi), Ha.
  rewrite <- store_field_str. destruct (i =? DSNKEY_OPTIONS_INDEX)%nat; [rewrite UpdateOptions_str|]; by rewrite switch_str.
Qed.

(** The numbers outside the option machinery. *)
Lemma switch_num d i f : f ∉ ok_footprint -> num (snd (MADB_DsnSwitchDependents d i)) f = num d f.
Proof.
  intros Hf.
  assert (f <> IsTcpIp /\ f <> IsNamedPipe /\ f <> Options) as (H1 & H2 & H3)
    by (split_and!; intros ->; apply Hf; apply (bool_decide_eq_true_1 _); vm_compute; reflexivity).
  destruct (decide (i = DSNKEY_NAMEDPIPE_INDEX)) as [->|Hn].
  { rewrite switch_namedpipe. cbn [snd]. by apply set_num_ne. }
  destruct (decide (i = DSNKEY_TCPIP_INDEX)) as [->|Ht]; [|by rewrite switch_other].
  rewrite switch_tcpip. cbn [snd]. by apply SetOptionValue_other.
Qed.

Lemma UpdateOptions_num_other d f : f ∉ ok_footprint -> num (MADB_DsnUpdateOptionsFields d) f = num d f.
Proof.
  intros Hf. rewrite UpdateOptions_num. destruct f; try done; exfalso; apply Hf;
    apply (bool_decide_eq_true_1 _); vm_compute; reflexivity.
Qed.

(** The number a value is stored as. *)
Definition stored_num (row : MADB_DsnKey) (v : list Z) : Z :=
  match Type_ row with
  | DSN_TYPE_BOOL => wraps 8 (atoi v)
  | DSN_TYPE_CBOXGROUP => if wraps 8 (atoi v) =? 0 then tls_bits v else wraps 8 (atoi v)
  | _ => wrapu 32 (strtoul v)
  end.
Definition is_number (row : MADB_DsnKey) : bool :=
  bool_decide (Type_ row = DSN_TYPE_INT) || bool_decide (Type_ row = DSN_TYPE_BOOL) || bool_decide (Type_ row = DSN_TYPE_CBOXGROUP).

Lemma store_field_num d row v f : f ∉ ok_footprint -> field_of row <> f \/ is_number row = true ->
  num (store_field d row v true) f = if bool_decide (field_of row = f) then stored_num row v else num d f.
Proof.
  intros Hf Hor. case_bool_decide as E.
  - destruct Hor as [Hor|Ht]; [done|]. rewrite <- E. unfold store_field, stored_num, is_number in *.
    destruct (Type_ row); try done; rewrite andb_false_r; apply set_num_eq.
  - destruct (decide (Type_ row = DSN_TYPE_OPTION)) as [Et|Et]; [|by apply store_field_frame].
    unfold store_field. rewrite Et, andb_false_r. apply SetOptionValue_other; [done|].
    intros ->. apply Hf. by left.
Qed.

Lemma apply_pair_num d i row v f : DsnKeys !! i = Some row -> IsAlias row = false -> f ∉ ok_footprint ->
  field_of row <> f \/ is_number row = true ->
  num (apply_pair d i v) f = if bool_decide (field_of row = f) then stored_num row v else num d f.
Proof.
  intros Hi Ha Hf Hor. unfold apply_pair, MADB_DsnStoreValue. rewrite (key_row_lookup _ _ Hi), Ha.
  rewrite <- (store_field_num d row v f) by done.
  destruct (i =? DSNKEY_OPTIONS_INDEX)%nat; [rewrite UpdateOptions_num_other by done|]; by rewrite switch_num.
Qed.

(** The pairs printed come from rows that are not aliases, each from its own. *)
Definition from_row (p : nat * list Z) : Prop :=
  exists row, DsnKeys !! fst p = Some row /\ IsAlias row = false.

Lemma printed_from rows : forall i d, rows = drop i DsnKeys ->
  Forall (fun p => from_row p /\ (i <= fst p)%nat) (printed rows i d).
Proof.
  induction rows as [|row rows IH]; intros i d Er; cbn [printed]; [constructor|].
  assert (DsnKeys !! i = Some row) as Hi by (rewrite <- (Nat.add_0_r i), <- lookup_drop, <- Er; done).
  apply Forall_app. split.
  - destruct (row_value d row) as [v|] eqn:Ev; [|constructor].
    constructor; [|constructor]. split; [|cbn; lia].
    exists row. split; [done|]. unfold row_value in Ev. by destruct (IsAlias row).
  - eapply Forall_impl; [apply (IH (S i) d)|cbn; intros p [H1 H2]; split; [done|lia]].
    replace (S i) with (i + 1)%nat by lia. by rewrite <- drop_drop, <- Er.
Qed.

Lemma printed_split d i row : DsnKeys !! i = Some row ->
  exists p1 p2, dsn_pairs d = p1 ++ match row_value d row with Some v => [(i, v)] | None => [] end ++ p2 /\
    Forall (fun p => from_row p /\ fst p <> i) p1 /\ Forall (fun p => from_row p /\ fst p <> i) p2.
Proof.
  intros Hi. unfold dsn_pairs.
  assert (forall rows j, rows = drop j DsnKeys -> (j <= i)%nat -> exists p1 p2,
    printed rows j d = p1 ++ match row_value d row with Some v => [(i, v)] | None => [] end ++ p2 /\
    Forall (fun p => from_row p /\ fst p <> i) p1 /\ Forall (fun p => from_row p /\ fst p <> i) p2) as H.
  { induction rows as [|r rows IH]; intros j Er Hj.
    { apply lookup_lt_Some in Hi. assert (length (drop j DsnKeys) = 0)%nat as H0 by (by rewrite <- Er).
      rewrite length_drop in H0. lia. }
    assert (DsnKeys !! j = Some r) as Hr by (rewrite <- (Nat.add_0_r j), <- lookup_drop, <- Er; done).
    assert (rows = drop (S j) DsnKeys) as Er'
      by (replace (S j) with (j + 1)%nat by lia; by rewrite <- drop_drop, <- Er).
    cbn [printed]. destruct (decide (j = i)) as [->|Hne].
    - assert (r = row) as -> by congruence. exists [], (printed rows (S i) d). cbn [app]. split_and!; [done|constructor|].
      eapply Forall_impl; [by apply (printed_from rows (S i) d)|]. cbn. intros p [? ?]. split; [done|lia].
    - destruct (IH (S j) Er' ltac:(lia)) as (p1 & p2 & E & H1 & H2). rewrite E.
      exists (match row_value d r with Some v => [(j, v)] | None => [] end ++ p1), p2.
      split_and!; [by rewrite <- app_assoc| |done]. apply Forall_app. split; [|done].
      destruct (row_value d r) as [v|] eqn:Ev; [|constructor].
      constructor; [|constructor]. split; [|done].
      exists r. split; [done|]. unfold row_value in Ev. by destruct (IsAlias r). }
  apply (H DsnKeys 0%nat); [done|lia].
Qed.

Lemma resolve_self i row : DsnKeys !! i = Some row -> IsAlias row = false -> resolve i = i.
Proof.
  intros Hi Ha. pose proof (key_row_ok _ _ Hi) as H. unfold row_ok in H. rewrite Ha in H.
  unfold resolve. rewrite (key_row_lookup _ _ Hi). destruct (DsnOffset row); [done|].
  by rewrite andb_false_r in H.
Qed.

(** Pairs of other rows leave a field alone. *)
Lemma store_all_frame i row ps : forall d0, DsnKeys !! i = Some row -> IsAlias row = false ->
  Forall (fun p => from_row p /\ fst p <> i) ps ->
  str (store_all d0 ps) (field_of row) = str d0 (field_of row) /\
  (field_of row ∉ ok_footprint -> num (store_all d0 ps) (field_of row) = num d0 (field_of row)).
Proof.
  induction ps as [|[j v] ps IH]; intros d0 Hi Ha HF; [done|].
  apply Forall_cons in HF as [[(row' & Hj & Ha') Hne] HF]. cbn [fst] in *. unfold store_all. cbn [foldl].
  fold (store_all (apply_pair d0 (resolve j) v) ps). rewrite (resolve_self _ _ Hj Ha').
  assert (field_of row' <> field_of row) as Hf by (intros E; by eapply Hne, (field_inj i j)).
  destruct (IH (apply_pair d0 j v) Hi Ha HF) as [H1 H2]. split.
  - rewrite H1, (apply_pair_str _ _ _ _ _ Hj Ha'), (bool_decide_eq_false_2 _ Hf), andb_false_r. done.
  - intros Hfp. rewrite H2 by done. rewrite (apply_pair_num _ _ _ _ _ Hj Ha' Hfp) by auto.
    by rewrite (bool_decide_eq_false_2 _ Hf).
Qed.

Lemma roundtrip_fields d d0 i row : DsnKeys !! i = Some row -> IsAlias row = false ->
  (is_string row = true -> str (store_all d0 (dsn_pairs d)) (field_of row) =
     match row_value d row with Some v => Some v | None => str d0 (field_of row) end) /\
  (is_number row = true -> field_of row ∉ ok_footprint -> num (store_all d0 (dsn_pairs d)) (field_of row) =
     match row_value d row with Some v => stored_num row v | None => num d0 (field_of row) end).
Proof.
  intros Hi Ha. destruct (printed_split d i row Hi) as (p1 & p2 & -> & H1 & H2).
  unfold store_all. rewrite !foldl_app. fold (store_all d0 p1).
  set (d1 := store_all d0 p1). set (d2 := foldl _ d1 _). fold (store_all d2 p2).
  destruct (store_all_frame i row p1 d0 Hi Ha H1) as [E1 E1']. fold d1 in E1, E1'.
  destruct (store_all_frame i row p2 d2 Hi Ha H2) as [E2 E2']. split.
  - intros Hs. rewrite E2, <- E1. subst d2. destruct (row_value d row); [|done]. cbn [foldl].
    rewrite (resolve_self _ _ Hi Ha), (apply_pair_str _ _ _ _ _ Hi Ha), Hs, bool_decide_eq_true_2 by done. done.
  - intros Ht Hf. rewrite E2', <- E1' by done. subst d2. destruct (row_value d row); [|done]. cbn [foldl].
    rewrite (resolve_self _ _ Hi Ha), (apply_pair_num _ _ _ _ _ Hi Ha Hf), bool_decide_eq_true_2 by auto. done.
Qed.

(** The defaults of the numbers. *)
Definition number_default (f : dsn_field) : Z := match f with NoSsps | IsTcpIp | NoCache => 1 | _ => 0 end.
Lemma number_defaults f : num MADB_DSN_Init f = number_default f.
Proof. by destruct f. Qed.

Lemma wrapu_strtoul_dec z : 0 <= z < 2 ^ 32 -> wrapu 32 (strtoul (dec (wraps 32 z))) = z.
Proof.
  intros Hz.
  assert (- 2 ^ 31 <= wraps 32 z < 2 ^ 31) as Hr.
  { unfold wraps. pose proof (Z.mod_pos_bound (z + 2 ^ (32 - 1)) (2 ^ 32) ltac:(lia)). lia. }
  rewrite strtoul_dec by lia. unfold wrapu, wraps.
  assert (forall x, (x mod 2 ^ 64) mod 2 ^ 32 = x mod 2 ^ 32) as Hm.
  { intros x. rewrite <- Znumtheory.Zmod_div_mod; [done|lia|lia|]. exists (2 ^ 32). lia. }
  rewrite Hm. rewrite Zminus_mod_idemp_l. replace (z + 2 ^ (32 - 1) - 2 ^ (32 - 1)) with z by lia.
  apply Z.mod_small. lia.
Qed.

(** *** OPTIONS and the fields that go with it *)

(** Pairs of other rows than OPTIONS and TCPIP leave these fields alone; the option keys
    themselves are never printed. *)
Definition quiet_pair (p : nat * list Z) : Prop :=
  exists row, DsnKeys !! fst p = Some row /\ IsAlias row = false /\ Type_ row <> DSN_TYPE_OPTION /\
    fst p <> DSNKEY_OPTIONS_INDEX /\ fst p <> DSNKEY_TCPIP_INDEX.

Lemma apply_pair_quiet d p f : quiet_pair p -> f ∈ ok_footprint -> num (apply_pair d (resolve p.1) p.2) f = num d f.
Proof.
  intros (row & Hi & Ha & Ht & Ho & Htcp) Hf. rewrite (resolve_self _ _ Hi Ha). pose proof (key_row_class _ row Hi) as Hc. unfold row_class in Hc.
  rewrite Ha, (bool_decide_eq_false_2 _ Ht), (bool_decide_eq_false_2 _ Ho), (bool_decide_eq_false_2 _ Htcp) in Hc. cbn [orb] in Hc.
  apply andb_true_iff in Hc as [Hc Hn]. apply bool_decide_eq_true in Hc. apply negb_true_iff, Nat.eqb_neq in Hn.
  unfold apply_pair, MADB_DsnStoreValue. rewrite (proj2 (Nat.eqb_neq _ _) Ho), (key_row_lookup _ _ Hi), Ha, switch_other by done.
  apply store_field_frame; [done|]. by intros ->.
Qed.

Lemma store_all_quiet ps : forall d f, Forall quiet_pair ps -> f ∈ ok_footprint -> num (store_all d ps) f = num d f.
Proof.
  induction ps as [|[j v] ps IH]; intros d f HF Hf; [done|]. apply Forall_cons in HF as [Hp HF]. unfold store_all. cbn [foldl].
  fold (store_all (apply_pair d (resolve j) v) ps). rewrite IH by done. exact (apply_pair_quiet d (j, v) f Hp Hf).
Qed.

Definition row_pair (d : MADB_Dsn) (i : nat) : list (nat * list Z) :=
  match row_value d (key_row i) with Some v => [(i, v)] | None => [] end.

Lemma row_pair_quiet d i : i <> DSNKEY_OPTIONS_INDEX -> i <> DSNKEY_TCPIP_INDEX -> (i < length DsnKeys)%nat -> Forall quiet_pair (row_pair d i).
Proof.
  intros Ho Ht [row Hi]%lookup_lt_is_Some_2. unfold row_pair. rewrite (key_row_lookup _ _ Hi). destruct (row_value d row) as [v|] eqn:Ev; [|constructor].
  constructor; [|constructor]. exists row. unfold row_value in Ev. destruct (IsAlias row); [done|]. split_and!; try done. by destruct (Type_ row).
Qed.

Lemma printed_quiet rows : forall i d, rows = drop i DsnKeys -> (DSNKEY_TCPIP_INDEX < i)%nat -> Forall quiet_pair (printed rows i d).
Proof.
  induction rows as [|row rows IH]; intros i d Er Hi; cbn [printed]; [constructor|].
  assert (DsnKeys !! i = Some row) as Hr by (rewrite <- (Nat.add_0_r i), <- lookup_drop, <- Er; done).
  apply Forall_app. split.
  - pose proof (row_pair_quiet d i ltac:(unfold DSNKEY_TCPIP_INDEX, DSNKEY_OPTIONS_INDEX in *; lia) ltac:(lia) (lookup_lt_Some _ _ _ Hr)) as H.
    unfold row_pair in H. by rewrite (key_row_lookup _ _ Hr) in H.
  - apply IH; [|lia]. replace (S i) with (i + 1)%nat by lia. by rewrite <- drop_drop, <- Er.
Qed.

Lemma dsn_pairs_front d : dsn_pairs d =
  (row_pair d 0 ++ row_pair d 1 ++ row_pair d 2) ++ row_pair d DSNKEY_OPTIONS_INDEX ++ row_pair d DSNKEY_TCPIP_INDEX ++ printed (drop 7 DsnKeys) 7 d.
Proof. rewrite <- !app_assoc. reflexivity. Qed.

Lemma store_all_app d ps qs : store_all d (ps ++ qs) = store_all (store_all d ps) qs.
Proof. apply foldl_app. Qed.

(** What OPTIONS and TCPIP leave, when they were printed from a consistent data source. *)
Lemma options_stored d d0 : dsn_ok d -> (forall f, f ∈ ok_footprint -> num d0 f = number_default f) ->
  let d1 := store_all d0 (row_pair d DSNKEY_OPTIONS_INDEX) in
  num d1 Options = num d Options /\ (forall f k, (f, k) ∈ option_fields -> num d1 f = num d f) /\
  num d1 IsTcpIp = (if Z.testbit (num d Options) 13 then 0 else 1) /\
  num d1 NoCache = (if num d Options =? 0 then 1 else Z.b2z (Z.testbit (num d Options) 20)).
Proof.
  intros [O1 O2 O3 O4] H0. cbv zeta. rewrite Forall_forall in O2.
  assert (row_pair d DSNKEY_OPTIONS_INDEX = if num d Options =? 0 then [] else [(DSNKEY_OPTIONS_INDEX, dec (wraps 32 (num d Options)))]) as ->.
  { unfold row_pair, row_value. cbn [key_row DsnKeys lookup list_lookup DSNKEY_OPTIONS_INDEX IsAlias Type_ field_of DsnOffset default from_option id].
    by destruct (num d Options =? 0). }
  destruct (Z.eqb_spec (num d Options) 0) as [E0|E0]; cbn [store_all foldl].
  - rewrite E0 in *. rewrite !H0 by (apply (bool_decide_eq_true_1 _); vm_compute; reflexivity). rewrite !Z.testbit_0_l. split_and!; try done.
    intros f k Hin. rewrite (O2 _ Hin), Z.testbit_0_l. rewrite H0; unfold option_fields in Hin; rewrite !elem_of_cons, elem_of_nil in Hin;
      destruct_or! Hin; simplify_eq; (done || (apply (bool_decide_eq_true_1 _); vm_compute; reflexivity)).
  - change (resolve DSNKEY_OPTIONS_INDEX) with DSNKEY_OPTIONS_INDEX. unfold apply_pair. rewrite Nat.eqb_refl. unfold MADB_DsnStoreValue.
    rewrite switch_other by done. change (IsAlias (key_row DSNKEY_OPTIONS_INDEX)) with false. cbn [snd].
    set (d' := store_field d0 _ _ true). assert (num d' Options = num d Options) as EO.
    { subst d'. change Options with (field_of (key_row DSNKEY_OPTIONS_INDEX)) at 1. rewrite store_field_int by done. by apply wrapu_strtoul_dec. }
    rewrite !UpdateOptions_num. cbv beta iota zeta. rewrite EO. rewrite !DSN_OPTION_bit, EO by lia.
    split_and!; [done| |by destruct (Z.testbit _ 13)|done]. intros f k Hin. rewrite (O2 _ Hin), UpdateOptions_num. cbv beta iota zeta. rewrite !DSN_OPTION_bit, EO by lia.
    unfold option_fields in Hin. rewrite !elem_of_cons, elem_of_nil in Hin. destruct_or! Hin; simplify_eq; done.
Qed.

Lemma clear_clear x k : 0 <= x < 2 ^ 32 -> 0 <= k < 32 -> Z.testbit x k = false -> wrapu 32 (Z.land x (Z.lnot (2 ^ k))) = x.
Proof.
  intros Hx Hk Hb. apply Z.bits_inj'. intros n Hn. destruct (Z.ltb_spec n 32).
  - rewrite clear_bits by lia. destruct (Z.eqb_spec k n) as [->|]; [by rewrite Hb|by rewrite andb_true_r].
  - unfold wrapu. rewrite Z.mod_pow2_bits_high by lia. symmetry. apply Z.bits_above_log2; [lia|].
    destruct (Z.eq_dec x 0) as [->|]; [cbn; lia|]. pose proof (proj1 (Z.log2_lt_pow2 x 32 ltac:(lia)) (proj2 Hx)). lia.
Qed.

Lemma footprint_restored d : dsn_ok d -> let d' := store_all MADB_DSN_Init (dsn_pairs d) in
  num d' Options = num d Options /\ (forall f k, (f, k) ∈ option_fields -> num d' f = num d f) /\
  num d' IsTcpIp = (if num d IsTcpIp =? 0 then 0 else 1) /\
  num d' NoCache = (if num d Options =? 0 then 1 else Z.b2z (Z.testbit (num d Options) 20)).
Proof.
  intros Hd. cbv zeta. rewrite dsn_pairs_front, !store_all_app.
  set (d0 := store_all (store_all (store_all MADB_DSN_Init _) _) _).
  assert (forall f, f ∈ ok_footprint -> num d0 f = number_default f) as H0.
  { intros f Hf. subst d0. rewrite !store_all_quiet by (try apply row_pair_quiet; done || (vm_compute; lia)). apply number_defaults. }
  destruct (options_stored d d0 Hd H0) as (A1 & A2 & A3 & A4). set (d1 := store_all d0 _) in *. clearbody d1. clear H0 d0.
  assert (forall d2 f, f ∈ ok_footprint -> num (store_all d2 (printed (drop 7 DsnKeys) 7 d)) f = num d2 f) as Hlast.
  { intros d2 f Hf. apply store_all_quiet; [|done]. apply printed_quiet; [done|]. vm_compute. lia. }
  assert (forall f k, (f, k) ∈ option_fields -> f ∈ ok_footprint) as Hin.
  { intros f k H. unfold option_fields in H. rewrite !elem_of_cons, elem_of_nil in H.
    destruct_or! H; simplify_eq; apply (bool_decide_eq_true_1 _); vm_compute; reflexivity. }
  assert (Options ∈ ok_footprint /\ IsTcpIp ∈ ok_footprint /\ NoCache ∈ ok_footprint) as (I1 & I2 & I3)
    by (split_and!; apply (bool_decide_eq_true_1 _); vm_compute; reflexivity).
  assert (num d IsNamedPipe = Z.b2z (Z.testbit (num d Options) 13)) as Hpipe.
  { pose proof (ok_bits d Hd) as HF. rewrite Forall_forall in HF. apply (HF (IsNamedPipe, 13)). by left. }
  pose proof (ok_transport d Hd) as Htr.
  assert (row_pair d DSNKEY_TCPIP_INDEX = if num d IsTcpIp =? 0 then [] else [(DSNKEY_TCPIP_INDEX, chars "1")]) as ->.
  { unfold row_pair, row_value. cbn [key_row DsnKeys lookup list_lookup DSNKEY_TCPIP_INDEX IsAlias Type_ field_of DsnOffset default from_option id].
    by destruct (num d IsTcpIp =? 0). }
  rewrite !Hlast by done. destruct (Z.eqb_spec (num d IsTcpIp) 0) as [E0|E0]; cbn [store_all foldl].
  - assert (Z.testbit (num d Options) 13 = true) as Hb by (destruct (Z.testbit (num d Options) 13); [done|]; cbn in Hpipe; lia).
    rewrite A1, A3, A4, Hb. split_and!; try done. intros f k H. rewrite Hlast by eauto. eauto.
  - assert (Z.testbit (num d Options) 13 = false) as Hb by (destruct (Z.testbit (num d Options) 13); [|done]; cbn in Hpipe; lia).
    change (resolve DSNKEY_TCPIP_INDEX) with DSNKEY_TCPIP_INDEX. unfold apply_pair, MADB_DsnStoreValue.
    change (DSNKEY_TCPIP_INDEX =? DSNKEY_OPTIONS_INDEX)%nat with false. change (IsAlias (key_row DSNKEY_TCPIP_INDEX)) with false. cbv iota zeta.
    rewrite switch_tcpip. cbn [snd]. assert (store_field d1 (key_row DSNKEY_TCPIP_INDEX) (chars "1") true = set_num d1 IsTcpIp 1) as ->.
    { unfold store_field. cbn [Type_ key_row DsnKeys lookup list_lookup DSNKEY_TCPIP_INDEX default from_option id field_of DsnOffset]. rewrite andb_false_r. done. }
    rewrite set_num_eq. change (0 =? 1) with false. cbv iota. set (row5 := key_row DSNKEY_NAMEDPIPE_INDEX).
    assert (num (MADB_SetOptionValue (set_num d1 IsTcpIp 1) row5 0) Options = num d Options) as EO.
    { unfold MADB_SetOptionValue. cbn [Z.eqb negb]. rewrite set_num_eq, !set_num_ne, A1 by done. change (FlagValue row5) with (2 ^ 13).
      apply clear_clear; [apply (ok_options d Hd)|lia|done]. }
    rewrite EO. rewrite !(SetOptionValue_other _ row5) by done. rewrite set_num_eq, !set_num_ne by done. split_and!; try done.
    intros f k H. rewrite Hlast by eauto. destruct (decide (f = IsNamedPipe)) as [->|Hne].
    + change IsNamedPipe with (field_of row5) at 1. rewrite SetOptionValue_field by done. rewrite Hpipe, Hb. done.
    + assert (f <> Options /\ f <> IsTcpIp) as [? ?] by (apply (option_bits_bound f k); by right).
      rewrite SetOptionValue_other, set_num_ne by done. eauto.
Qed.

(** What the numbers of the table are after printing and parsing. *)
Definition restored (d : MADB_Dsn) (row : MADB_DsnKey) : Z :=
  match field_of row, Type_ row with
  | NoSsps, _ => 1
  | NoCache, _ => if num d Options =? 0 then 1 else Z.b2z (Z.testbit (num d Options) 20)
  | f, DSN_TYPE_BOOL => if num d f =? 0 then 0 else 1
  | f, _ => num d f
  end.

(** A number outside the footprint of OPTIONS. *)
Lemma plain_restored d row : is_number row = true -> field_of row ∉ ok_footprint -> IsAlias row = false ->
  (Type_ row = DSN_TYPE_INT -> 0 <= num d (field_of row) < 2 ^ 32) -> (Type_ row = DSN_TYPE_CBOXGROUP -> 0 <= num d (field_of row) < 128) ->
  (Type_ row = DSN_TYPE_BOOL \/ field_of row <> NoSsps) ->
  match row_value d row with Some v => stored_num row v | None => num MADB_DSN_Init (field_of row) end = restored d row.
Proof.
  intros Hn Hf Ha Hi Hc Hs. unfold row_value, stored_num, restored, is_number in *. rewrite Ha, number_defaults.
  assert (field_of row <> NoCache /\ field_of row <> IsTcpIp) as [Hf1 Hf2]
    by (split; intros E; apply Hf; rewrite E; apply (bool_decide_eq_true_1 _); vm_compute; reflexivity).
  assert (forall x : Z, (field_of row <> NoSsps -> x = num d (field_of row)) -> field_of row <> NoSsps ->
    x = match field_of row with NoSsps => 1 | NoCache => if num d Options =? 0 then 1 else Z.b2z (Z.testbit (num d Options) 20) | f => num d f end) as Hsame.
  { intros x Hx Hne. specialize (Hx Hne). by destruct (field_of row). }
  destruct (Type_ row); try done.
  - specialize (Hi eq_refl). assert (field_of row <> NoSsps) as Hne by (by destruct Hs). apply Hsame; [intros _|done].
    destruct (Z.eqb_spec (num d (field_of row)) 0) as [E|E]; [rewrite E; by destruct (field_of row)|by apply wrapu_strtoul_dec].
  - destruct (Z.eqb_spec (num d (field_of row)) 0) as [E|E].
    + destruct (field_of row); try done; by rewrite E.
    + change (wraps 8 (atoi (chars "1"))) with 1. apply Z.eqb_neq in E. destruct (field_of row); try done; by rewrite E.
  - specialize (Hc eq_refl). assert (field_of row <> NoSsps) as Hne by (by destruct Hs). apply Hsame; [intros _|done].
    destruct (Z.eqb_spec (num d (field_of row)) 0) as [E|E]; [rewrite E; by destruct (field_of row)|].
    rewrite wrapu_id, atoi_dec by lia. rewrite (wraps_id 8) by lia. by rewrite (proj2 (Z.eqb_neq _ _) E).
Qed.

Definition row_numbers (row : MADB_DsnKey) : bool :=
  IsAlias row || is_string row ||
  (if bool_decide (Type_ row = DSN_TYPE_OPTION) then bool_decide (field_of row = NoCache \/ Exists (fun x => x.1 = field_of row) option_fields)
   else is_number row && (bool_decide (field_of row ∈ [Options; IsTcpIp]) || bool_decide (field_of row ∉ ok_footprint))
        && (bool_decide (Type_ row = DSN_TYPE_BOOL) || bool_decide (field_of row <> NoSsps)) && bool_decide (field_of row = IsTcpIp -> Type_ row = DSN_TYPE_BOOL)
        && bool_decide (field_of row = Options -> Type_ row = DSN_TYPE_INT)).
Lemma DsnKeys_numbers : Forall (fun row => row_numbers row = true) DsnKeys.
Proof. apply (bool_decide_eq_true_1 _). vm_compute. reflexivity. Qed.

Lemma number_restored d i row : DsnKeys !! i = Some row -> IsAlias row = false -> is_string row = false -> dsn_ok d ->
  (Type_ row = DSN_TYPE_INT -> 0 <= num d (field_of row) < 2 ^ 32) -> (Type_ row = DSN_TYPE_CBOXGROUP -> 0 <= num d (field_of row) < 128) ->
  num (store_all MADB_DSN_Init (dsn_pairs d)) (field_of row) = restored d row.
Proof.
  intros Hi Ha Hs Hd HI HC. pose proof (proj1 (Forall_lookup _ _) DsnKeys_numbers i row Hi) as Hr. unfold row_numbers in Hr. rewrite Ha, Hs in Hr. cbn [orb] in Hr.
  destruct (footprint_restored d Hd) as (A1 & A2 & A3 & A4). case_bool_decide as Et.
  - apply bool_decide_eq_true in Hr as [E|E]; [unfold restored; rewrite E; exact A4|]. apply Exists_exists in E as ([f k] & Hin & Ef). cbn in Ef. subst f.
    rewrite (A2 _ _ Hin). unfold restored. rewrite Et. unfold option_fields in Hin. rewrite !elem_of_cons, elem_of_nil in Hin.
    destruct_or! Hin; injection Hin as -> _; done.
  - apply andb_true_iff in Hr as [Hr HO%bool_decide_eq_true_1]. apply andb_true_iff in Hr as [Hr HT%bool_decide_eq_true_1].
    apply andb_true_iff in Hr as [Hr HN]. apply andb_true_iff in Hr as [Hr [HF|HF]%orb_true_iff]; apply bool_decide_eq_true in HF.
    + unfold restored. rewrite !elem_of_cons, elem_of_nil in HF. destruct HF as [E|[E|[]]]; rewrite E; [rewrite (HO E); exact A1|rewrite (HT E); exact A3].
    + destruct (roundtrip_fields d MADB_DSN_Init i row Hi Ha) as [_ HR]. rewrite HR by done. apply plain_restored; try done.
      apply orb_true_iff in HN as [HN|HN]; apply bool_decide_eq_true in HN; auto.
Qed.

(** C2. Printing a consistent data source with [MADB_DsnToString] and parsing the result with
    [MADB_ParseConnString] into fresh defaults succeeds and restores every field of the
    table ([restored]): the strings, the numbers with OPTIONS and the fields of its bits, the TLS versions,
    the switches as 0 or 1; with two exceptions: NO_SSPS always comes back as 1, since
    0 is not printed and 1 is the default, and NO_CACHE comes back as its bit of OPTIONS, or as its
    default 1 when OPTIONS is 0.  Conditions: the text has less than 2048 bytes and fits the buffer of the
    caller, and no printed value has a closing brace, blanks at its
    ends, or an opening brace in front (unless a blank, a semicolon or an at sign puts it into braces). *)
Theorem connection_string_roundtrip d n :
  Forall pair_ok (dsn_pairs d) -> (length (pairs_text (dsn_pairs d)) < 2048)%nat ->
  (length (pairs_text (dsn_pairs d)) < n)%nat -> dsn_ok d ->
  (forall i row, DsnKeys !! i = Some row -> Type_ row = DSN_TYPE_INT -> 0 <= num d (field_of row) < 2 ^ 32) -> 0 <= num d TlsVersion < 128 ->
  exists out d', MADB_DsnToString d n = Some (out, Z.of_nat (length (pairs_text (dsn_pairs d)))) /\
    MADB_ParseConnString MADB_DSN_Init (Some out) SQL_NTS ($";") = Some (true, d') /\
    forall i row, DsnKeys !! i = Some row -> IsAlias row = false ->
      if is_string row then default [] (str d' (field_of row)) = default [] (str d (field_of row))
      else num d' (field_of row) = restored d row.
Proof.
  intros HF Hl Hn Hd Hr Ht. destruct (DsnToString_parse d MADB_DSN_Init n HF Hl Hn) as (out & E1 & E2).
  exists out, (store_all MADB_DSN_Init (dsn_pairs d)). split; [exact E1|]. split; [exact E2|].
  intros i row Hi Ha. destruct (is_string row) eqn:Hs.
  - destruct (roundtrip_fields d MADB_DSN_Init i row Hi Ha) as [H1 _]. rewrite H1 by done. unfold row_value. rewrite Ha. unfold is_string in Hs.
    destruct (Type_ row); try done; destruct (str d (field_of row)) as [[|c v]|]; done.
  - apply (number_restored d i row); try done; [by apply (Hr i)|]. intros Ec.
    assert (field_of row = TlsVersion) as ->; [|done].
    assert (Forall (fun row => Type_ row = DSN_TYPE_CBOXGROUP -> field_of row = TlsVersion) DsnKeys) as HT
      by (apply (bool_decide_eq_true_1 _); vm_compute; reflexivity).
    by apply (proj1 (Forall_lookup _ _) HT i row).
Qed.

#[export] Instance value_ok_dec v : Decision (value_ok v).
Proof.
  refine (cast_if (decide ((Forall (fun c => c <> 0) v /\ trim v = v) /\ (v <> [] /\ Forall (fun c => c <> $"}") v) /\
    (isSpecial v = false -> rd v 0 <> $"{")))).
  - abstract (destruct a as ([? ?] & [? ?] & ?); by constructor).
  - abstract (intros [? ? ? ? ?]; naive_solver).
Defined.

#[export] Instance pair_ok_dec p : Decision (pair_ok p).
Proof. unfold pair_ok. apply _. Defined.

Definition sample_dsn : MADB_Dsn :=
  set_num (set_num (set_num (set_num (set_num (set_num (set_str (set_str MADB_DSN_Init ServerName (Some (chars "db.example.org"))) Password
    (Some (chars "{p w;d@"))) Port 3306) Options 4194304) Reconnect 1) SslVerify 1) TlsVersion 6) NoCache 0.

Lemma sample_dsn_ok : dsn_ok sample_dsn.
Proof.
  constructor.
  - vm_compute. done.
  - apply (bool_decide_eq_true_1 _). vm_compute. reflexivity.
  - vm_compute. discriminate.
  - vm_compute. split; [discriminate|done].
Qed.

Lemma connection_string_roundtrip_witness :
  exists out len d', MADB_DsnToString sample_dsn 1024 = Some (out, len) /\
    MADB_ParseConnString MADB_DSN_Init (Some out) SQL_NTS ($";") = Some (true, d') /\
    default [] (str d' Password) = chars "{p w;d@" /\ num d' SslVerify = 1 /\ num d' TlsVersion = 6 /\ num d' Reconnect = 1.
Proof.
  destruct (connection_string_roundtrip sample_dsn 1024) as (out & d' & E1 & E2 & H).
  - apply (bool_decide_eq_true_1 _). vm_compute. reflexivity.
  - vm_compute. lia.
  - vm_compute. lia.
  - exact sample_dsn_ok.
  - assert (Forall (fun row => Type_ row = DSN_TYPE_INT -> 0 <= num sample_dsn (field_of row) < 2 ^ 32) DsnKeys) as HF
      by (apply (bool_decide_eq_true_1 _); vm_compute; reflexivity).
    intros i row Hi. exact (proj1 (Forall_lookup _ _) HF i row Hi).
  - vm_compute. done.
  - eexists out, _, d'. split; [exact E1|]. split; [exact E2|]. split_and!.
    + exact (H 9%nat (key_row 9) eq_refl eq_refl).
    + exact (H 24%nat (key_row 24) eq_refl eq_refl).
    + exact (H 32%nat (key_row 32) eq_refl eq_refl).
    + exact (H 14%nat (key_row 14) eq_refl eq_refl).
Defined.

(** What does not survive printing and parsing: a value with a closing brace
    is cut there (it is not doubled on output), NO_SSPS=0 comes back as the
    default 1, and the default of NO_CACHE is lost as soon as OPTIONS is printed. *)
Theorem connection_string_losses :
  (exists out len d', MADB_DsnToString (set_str MADB_DSN_Init Password (Some (chars "a b}c"))) 256 = Some (out, len) /\
     MADB_ParseConnString MADB_DSN_Init (Some out) SQL_NTS ($";") = Some (true, d') /\
     str d' Password = Some (chars "a b")) /\
  (exists out len d', MADB_DsnToString (set_num MADB_DSN_Init NoSsps 0) 256 = Some (out, len) /\
     MADB_ParseConnString MADB_DSN_Init (Some out) SQL_NTS ($";") = Some (true, d') /\ num d' NoSsps = 1) /\
  (exists out len d', num (set_num MADB_DSN_Init Options 1) NoCache = 1 /\
     MADB_DsnToString (set_num MADB_DSN_Init Options 1) 256 = Some (out, len) /\
     MADB_ParseConnString MADB_DSN_Init (Some out) SQL_NTS ($";") = Some (true, d') /\ num d' NoCache = 0).
Proof.
  split; [|split]; eexists _, _, _; split_and!; try (vm_compute; reflexivity).
Qed.

(** [MADB_DsnToString] does not keep within its buffer: a value of 2048
    characters and more makes the running length negative, and the next pair is
    written before the start of the array. *)
Theorem DsnToString_overflow :
  MADB_DsnToString (set_str (set_str MADB_DSN_Init App (Some (replicate 2100 97))) JWT (Some (chars "x"))) 4096 = None.
Proof. vm_compute. reflexivity. Qed.

(** *** The buffer for braced values *)

Lemma unbrace_length fuel : forall l, (length (fst (unbrace fuel l)) <= length l)%nat /\
  (is_Some (strchr l ($"}")) -> (length (fst (unbrace fuel l)) < length l)%nat \/ fuel = 0%nat).
Proof.
  induction fuel as [|fuel IH]; intros l; cbn [unbrace]; [cbn; split; [lia|auto]|].
  destruct (strchr l ($"}")) as [i|] eqn:Ei; [|cbn; split; [lia|by intros [? ?]]].
  apply strchr_lt in Ei as Hi. destruct (rd l (i + 1) =? $"}") eqn:En.
  - assert (i + 1 < length l)%nat as Hi'.
    { apply rd_lt. apply Z.eqb_eq in En. by rewrite En. }
    destruct (IH (drop (i + 2) l)) as [H1 _]. destruct (unbrace fuel (drop (i + 2) l)) as [v p]. cbn [fst] in *.
    rewrite length_drop in H1. rewrite !length_app, length_take. cbn [length]. split; [|left]; lia.
  - cbn [fst]. rewrite length_take. split; [|left]; lia.
Qed.

Lemma find_key_short rows c k : forall i,
  Forall (fun row => (2 <= length (chars (DsnKey row)))%nat) rows -> find_key rows i [c] <> Some k.
Proof.
  induction rows as [|row rows IH]; intros i HF; cbn [find_key]; [done|]. apply Forall_cons in HF as [H2 HF].
  destruct (chars (DsnKey row)) as [|a [|b x]]; cbn in H2; try lia. cbn [stricmp_eq].
  rewrite andb_false_r. exact (IH (S i) HF).
Qed.

(** [ValueBuf], [Length - 4] bytes, holds every braced value with its NUL: the
    shortest key has two characters, and the brace that ends a piece is not
    copied.  It takes one closing brace in the string: the four bytes [DB={] leave no room
    even for the NUL that is written first. *)
Theorem ValueBuf_fits key v k :
  find_key DsnKeys 0 key = Some k -> is_Some (strchr v ($"}")) ->
  (length (fst (unbrace (S (length v)) v)) + 1 <= length (key ++ $"=" :: $"{" :: v) - 4)%nat.
Proof.
  intros Hk Hv. destruct (unbrace_length (S (length v)) v) as [_ H]. destruct (H Hv) as [Hlt|]; [|done].
  assert (2 <= length key)%nat as H2.
  { destruct key as [|c1 [|c2 key]]; cbn [length]; try lia; exfalso; [by vm_compute in Hk|].
    by apply find_key_short in Hk; [|apply (bool_decide_eq_true_1 _); vm_compute; reflexivity]. }
  rewrite length_app. cbn [length]. lia.
Qed.

Lemma ValueBuf_fits_witness :
  (length (fst (unbrace 7 (chars "a}}b} "))) + 1 <= length (chars "DB={a}}b} ") - 4)%nat.
Proof.
  apply (ValueBuf_fits (chars "db") (chars "a}}b} ") 55); [vm_compute; reflexivity|].
  vm_compute. by eexists.
Defined.

End DsnProps.
