(* ===== verification/SqlTypes.v ===== *)
(** * SqlTypes: the type tables

    Models the functions of [ma_helper.c] that map between SQL types, C types and
    the column types of the client library, and the sizes they report. *)

From Stdlib Require Import ZArith Lia.
From stdpp Require Import base strings numbers option list.
From S2P Require Import Prelude Decimal Odbc.

Module SqlTypes.

(** What the functions read of a [MYSQL_FIELD]. *)
Record MYSQL_FIELD := MkField {
  ftype : Z;
  flags : Z;
  charsetnr : Z;
  flength : Z;      (** unsigned long *)
  decimals : Z;
}.

Definition BINARY_CHARSETNR : Z := 63.
Definition S2_1_GB : Z := 1073741823.
Definition SQL_DATE_LEN : Z := 10.
Definition SQL_TIME_LEN : Z := 8.
Definition SQL_TIMESTAMP_LEN : Z := 19.

(** The sizes of the ODBC structures on 64-bit Linux. *)
Definition sizeof_SQLINTEGER : Z := 4.
Definition sizeof_longlong : Z := 8.
Definition sizeof_SQLDOUBLE : Z := 8.
Definition sizeof_SQLFLOAT : Z := 8.
Definition sizeof_SQL_NUMERIC_STRUCT : Z := 19.
Definition sizeof_SQL_TIME_STRUCT : Z := 6.
Definition sizeof_SQL_DATE_STRUCT : Z := 6.
Definition sizeof_SQL_TIMESTAMP_STRUCT : Z := 16.
Definition sizeof_SQL_INTERVAL_STRUCT : Z := 28.

Definition flag (f : MYSQL_FIELD) (bit : Z) : bool := negb (Z.land (flags f) bit =? 0).
Definition MADB_FIELD_IS_BINARY (f : MYSQL_FIELD) : bool := charsetnr f =? BINARY_CHARSETNR.
Definition MADB_FRACTIONAL_PART (d : Z) : Z := if 0 <? d then d + 1 else 0.

(** [MADB_CheckPtrLength]: [None] is a NULL pointer. *)
Definition MADB_CheckPtrLength (MaxLength : Z) (Ptr : option (list Z)) (NameLen : Z) : bool :=
  match Ptr with
  | None => true
  | Some b =>
      negb (((NameLen =? SQL_NTS) && (wrapu 64 MaxLength <? Z.of_nat (strlen b 0))) || (MaxLength <? NameLen))
  end.

Definition MADB_GetWCharType (Type_ : Z) : Z :=
  if case Type_ [SQL_CHAR] then SQL_WCHAR
  else if case Type_ [SQL_VARCHAR] then SQL_WVARCHAR
  else if case Type_ [SQL_LONGVARCHAR] then SQL_WLONGVARCHAR
  else Type_.

Definition MADB_CheckODBCType (Type_ : Z) : bool :=
  case Type_ [SQL_C_CHAR; SQL_C_WCHAR; SQL_C_SSHORT; SQL_C_SHORT; SQL_C_USHORT; SQL_C_SLONG; SQL_C_LONG;
    SQL_C_ULONG; SQL_C_FLOAT; SQL_C_DOUBLE; SQL_C_BIT; SQL_C_STINYINT; SQL_C_TINYINT; SQL_C_UTINYINT;
    SQL_C_SBIGINT; SQL_C_UBIGINT; SQL_C_BINARY; SQL_C_TYPE_DATE; SQL_C_TYPE_TIME; SQL_C_TYPE_TIMESTAMP;
    SQL_C_NUMERIC; SQL_C_GUID; SQL_C_DEFAULT].

Definition MADB_GetTypeFromConciseType (ConciseType : Z) : Z :=
  if case ConciseType [SQL_C_DATE; SQL_C_TIME; SQL_C_TIMESTAMP; SQL_TYPE_DATE; SQL_TYPE_TIME; SQL_TYPE_TIMESTAMP]
  then SQL_DATETIME
  else if case ConciseType [SQL_C_INTERVAL_YEAR; SQL_C_INTERVAL_YEAR_TO_MONTH; SQL_C_INTERVAL_MONTH;
    SQL_C_INTERVAL_DAY; SQL_C_INTERVAL_DAY_TO_HOUR; SQL_C_INTERVAL_DAY_TO_MINUTE; SQL_C_INTERVAL_DAY_TO_SECOND;
    SQL_C_INTERVAL_HOUR; SQL_C_INTERVAL_HOUR_TO_MINUTE; SQL_C_INTERVAL_HOUR_TO_SECOND; SQL_C_INTERVAL_MINUTE;
    SQL_C_INTERVAL_MINUTE_TO_SECOND; SQL_C_INTERVAL_SECOND]
  then SQL_INTERVAL
  else ConciseType.

Definition MADB_GetTypeName (f : MYSQL_FIELD) : string :=
  let t := ftype f in
  if case t [MYSQL_TYPE_DECIMAL; MYSQL_TYPE_NEWDECIMAL] then "decimal"
  else if case t [MYSQL_TYPE_NULL] then "null"
  else if case t [MYSQL_TYPE_TINY] then
    if flag f NUM_FLAG then (if flag f UNSIGNED_FLAG then "tinyint unsigned" else "tinyint") else "char"
  else if case t [MYSQL_TYPE_SHORT] then (if flag f UNSIGNED_FLAG then "smallint unsigned" else "smallint")
  else if case t [MYSQL_TYPE_LONG] then (if flag f UNSIGNED_FLAG then "int unsigned" else "int")
  else if case t [MYSQL_TYPE_FLOAT] then "float"
  else if case t [MYSQL_TYPE_DOUBLE] then "double"
  else if case t [MYSQL_TYPE_TIMESTAMP] then "timestamp"
  else if case t [MYSQL_TYPE_LONGLONG] then (if flag f UNSIGNED_FLAG then "bigint unsigned" else "bigint")
  else if case t [MYSQL_TYPE_INT24] then (if flag f UNSIGNED_FLAG then "mediumint unsigned" else "mediumint")
  else if case t [MYSQL_TYPE_DATE] then "date"
  else if case t [MYSQL_TYPE_TIME] then "time"
  else if case t [MYSQL_TYPE_DATETIME] then "datetime"
  else if case t [MYSQL_TYPE_YEAR] then "year"
  else if case t [MYSQL_TYPE_NEWDATE] then "date"
  else if case t [MYSQL_TYPE_VARCHAR; MYSQL_TYPE_VAR_STRING] then
    (if MADB_FIELD_IS_BINARY f then "varbinary" else "varchar")
  else if case t [MYSQL_TYPE_BIT] then "bit"
  else if case t [MYSQL_TYPE_ENUM] then "enum"
  else if case t [MYSQL_TYPE_SET] then "set"
  else if case t [MYSQL_TYPE_TINY_BLOB] then (if MADB_FIELD_IS_BINARY f then "tinyblob" else "tinytext")
  else if case t [MYSQL_TYPE_MEDIUM_BLOB] then (if MADB_FIELD_IS_BINARY f then "mediumblob" else "mediumtext")
  else if case t [MYSQL_TYPE_LONG_BLOB] then (if MADB_FIELD_IS_BINARY f then "longblob" else "longtext")
  else if case t [MYSQL_TYPE_BLOB] then (if MADB_FIELD_IS_BINARY f then "blob" else "text")
  else if case t [MYSQL_TYPE_STRING] then (if MADB_FIELD_IS_BINARY f then "binary" else "char")
  else if case t [MYSQL_TYPE_GEOMETRY] then "geometry"
  else if case t [MYSQL_TYPE_JSON] then "json"
  else EmptyString.

Definition MADB_GetDecimalDigits (f : MYSQL_FIELD) : Z :=
  let t := ftype f in
  if case t [MYSQL_TYPE_DECIMAL; MYSQL_TYPE_NEWDECIMAL; MYSQL_TYPE_DATETIME; MYSQL_TYPE_TIMESTAMP; MYSQL_TYPE_TIME]
  then wraps 16 (decimals f)
  else if case t [MYSQL_TYPE_TINY; MYSQL_TYPE_SHORT; MYSQL_TYPE_LONG; MYSQL_TYPE_LONGLONG; MYSQL_TYPE_INT24] then 0
  else SQL_NO_TOTAL.

Definition MADB_GetDataSize (SqlType OctetLength : Z) (isSigned : bool) (Precision Scale CharMaxLen : Z) : Z :=
  if case SqlType [SQL_BIT] then 1
  else if case SqlType [SQL_TINYINT] then 3
  else if case SqlType [SQL_SMALLINT] then 5
  else if case SqlType [SQL_INTEGER] then 10
  else if case SqlType [SQL_BIGINT] then 20 - Z.b2z isSigned
  else if case SqlType [SQL_REAL] then 7
  else if case SqlType [SQL_DOUBLE; SQL_FLOAT] then 15
  else if case SqlType [SQL_DECIMAL; SQL_NUMERIC] then Precision
  else if case SqlType [SQL_TYPE_DATE] then SQL_DATE_LEN
  else if case SqlType [SQL_TYPE_TIME] then SQL_TIME_LEN + MADB_FRACTIONAL_PART Scale
  else if case SqlType [SQL_TYPE_TIMESTAMP] then SQL_TIMESTAMP_LEN + MADB_FRACTIONAL_PART Scale
  else if case SqlType [SQL_BINARY; SQL_VARBINARY; SQL_LONGVARBINARY; SQL_LONGVARCHAR; SQL_WLONGVARCHAR]
  then Z.min OctetLength S2_1_GB
  else if case SqlType [SQL_GUID] then 36
  else if CharMaxLen <? 2 then Z.min OctetLength S2_1_GB
  else Z.min (Z.quot OctetLength CharMaxLen) S2_1_GB.

(** The precision both size functions compute for a decimal, on [size_t]. *)
Definition decimal_size (f : MYSQL_FIELD) : Z :=
  let Precision := wrapu 64 (flength f - Z.b2z (negb (flag f UNSIGNED_FLAG)) - Z.b2z (negb (decimals f =? 0))) in
  flength f + Z.b2z (Precision =? decimals f).

(** [char_maxlen] is [None] for a NULL character set. *)
Definition MADB_GetDisplaySize (f : MYSQL_FIELD) (char_maxlen : option Z) : Z :=
  let t := ftype f in
  if case t [MYSQL_TYPE_NULL] then 1
  else if case t [MYSQL_TYPE_BIT] then 16
  else if case t [MYSQL_TYPE_TINY] then 4 - Z.b2z (flag f UNSIGNED_FLAG)
  else if case t [MYSQL_TYPE_SHORT; MYSQL_TYPE_YEAR] then 6 - Z.b2z (flag f UNSIGNED_FLAG)
  else if case t [MYSQL_TYPE_INT24] then 9 - Z.b2z (flag f UNSIGNED_FLAG)
  else if case t [MYSQL_TYPE_LONG] then 11 - Z.b2z (flag f UNSIGNED_FLAG)
  else if case t [MYSQL_TYPE_LONGLONG] then 20
  else if case t [MYSQL_TYPE_DOUBLE] then 15
  else if case t [MYSQL_TYPE_FLOAT] then 7
  else if case t [MYSQL_TYPE_DECIMAL; MYSQL_TYPE_NEWDECIMAL] then decimal_size f
  else if case t [MYSQL_TYPE_DATE] then SQL_DATE_LEN
  else if case t [MYSQL_TYPE_TIME] then SQL_TIME_LEN + MADB_FRACTIONAL_PART (decimals f)
  else if case t [MYSQL_TYPE_NEWDATE; MYSQL_TYPE_TIMESTAMP; MYSQL_TYPE_DATETIME]
  then SQL_TIMESTAMP_LEN + MADB_FRACTIONAL_PART (decimals f)
  else if case t [MYSQL_TYPE_TINY_BLOB; MYSQL_TYPE_BLOB; MYSQL_TYPE_MEDIUM_BLOB; MYSQL_TYPE_LONG_BLOB]
  then Z.min (flength f) S2_1_GB
  else if case t [MYSQL_TYPE_VAR_STRING; MYSQL_TYPE_STRING] then
    if MADB_FIELD_IS_BINARY f then Z.min (flength f) S2_1_GB * 2
    else
      match char_maxlen with
      | None => Z.min (flength f) S2_1_GB
      | Some m => if m <? 2 then Z.min (flength f) S2_1_GB else Z.min (flength f / m) S2_1_GB
      end
  else wrapu 64 SQL_NO_TOTAL.

Definition MADB_GetOctetLength (f : MYSQL_FIELD) : Z :=
  let t := ftype f in
  let Length := Z.min S2_1_GB (flength f) in
  if case t [MYSQL_TYPE_NULL] then 1
  else if case t [MYSQL_TYPE_BIT] then 8
  else if case t [MYSQL_TYPE_TINY] then 1
  else if case t [MYSQL_TYPE_YEAR; MYSQL_TYPE_SHORT] then 2
  else if case t [MYSQL_TYPE_INT24; MYSQL_TYPE_LONG] then 4
  else if case t [MYSQL_TYPE_LONGLONG] then 8
  else if case t [MYSQL_TYPE_DOUBLE] then 8
  else if case t [MYSQL_TYPE_FLOAT] then 4
  else if case t [MYSQL_TYPE_DECIMAL; MYSQL_TYPE_NEWDECIMAL] then decimal_size f
  else if case t [MYSQL_TYPE_DATE] then sizeof_SQL_DATE_STRUCT
  else if case t [MYSQL_TYPE_TIME] then sizeof_SQL_TIME_STRUCT
  else if case t [MYSQL_TYPE_NEWDATE; MYSQL_TYPE_TIMESTAMP; MYSQL_TYPE_DATETIME] then sizeof_SQL_TIMESTAMP_STRUCT
  else if case t [MYSQL_TYPE_BLOB; MYSQL_TYPE_ENUM; MYSQL_TYPE_GEOMETRY; MYSQL_TYPE_LONG_BLOB;
    MYSQL_TYPE_MEDIUM_BLOB; MYSQL_TYPE_TINY_BLOB] then Length
  else if case t [MYSQL_TYPE_SET; MYSQL_TYPE_STRING; MYSQL_TYPE_VARCHAR; MYSQL_TYPE_VAR_STRING] then Length
  else wrapu 64 SQL_NO_TOTAL.

Definition MADB_GetDefaultType (SQLDataType : Z) : Z :=
  let t := SQLDataType in
  if case t [SQL_BIGINT] then SQL_C_SBIGINT
  else if case t [SQL_BINARY] then SQL_C_BINARY
  else if case t [SQL_BIT] then SQL_C_BIT
  else if case t [SQL_CHAR] then SQL_C_CHAR
  else if case t [SQL_DATE; SQL_TYPE_DATE] then SQL_C_DATE
  else if case t [SQL_DECIMAL] then SQL_C_CHAR
  else if case t [SQL_DOUBLE] then SQL_C_DOUBLE
  else if case t [SQL_FLOAT] then SQL_C_FLOAT
  else if case t [SQL_INTEGER] then SQL_C_LONG
  else if case t [SQL_LONGVARBINARY] then SQL_C_BINARY
  else if case t [SQL_LONGVARCHAR] then SQL_C_CHAR
  else if case t [SQL_NUMERIC] then SQL_C_CHAR
  else if case t [SQL_REAL] then SQL_C_FLOAT
  else if case t [SQL_SMALLINT] then SQL_C_SHORT
  else if case t [SQL_TIME; SQL_TYPE_TIME] then SQL_C_TIME
  else if case t [SQL_TIMESTAMP; SQL_TYPE_TIMESTAMP] then SQL_C_TIMESTAMP
  else if case t [SQL_TINYINT] then SQL_C_TINYINT
  else if case t [SQL_VARBINARY] then SQL_C_BINARY
  else if case t [SQL_VARCHAR] then SQL_C_CHAR
  else if case t [SQL_WCHAR; SQL_WVARCHAR; SQL_WLONGVARCHAR] then SQL_WCHAR
  else SQL_C_CHAR.

Definition MapMariadDbToOdbcType (f : MYSQL_FIELD) : Z :=
  let t := ftype f in
  if case t [MYSQL_TYPE_BIT] then SQL_BINARY
  else if case t [MYSQL_TYPE_NULL] then SQL_VARCHAR
  else if case t [MYSQL_TYPE_TINY] then (if flag f NUM_FLAG then SQL_TINYINT else SQL_CHAR)
  else if case t [MYSQL_TYPE_YEAR; MYSQL_TYPE_SHORT] then SQL_SMALLINT
  else if case t [MYSQL_TYPE_INT24; MYSQL_TYPE_LONG] then SQL_INTEGER
  else if case t [MYSQL_TYPE_FLOAT] then SQL_REAL
  else if case t [MYSQL_TYPE_DOUBLE] then SQL_DOUBLE
  else if case t [MYSQL_TYPE_TIMESTAMP; MYSQL_TYPE_DATETIME] then SQL_TYPE_TIMESTAMP
  else if case t [MYSQL_TYPE_NEWDATE; MYSQL_TYPE_DATE] then SQL_TYPE_DATE
  else if case t [MYSQL_TYPE_TIME] then SQL_TYPE_TIME
  else if case t [MYSQL_TYPE_TINY_BLOB; MYSQL_TYPE_BLOB; MYSQL_TYPE_MEDIUM_BLOB; MYSQL_TYPE_LONG_BLOB]
  then (if MADB_FIELD_IS_BINARY f then SQL_LONGVARBINARY else SQL_LONGVARCHAR)
  else if case t [MYSQL_TYPE_LONGLONG] then SQL_BIGINT
  else if case t [MYSQL_TYPE_STRING] then (if MADB_FIELD_IS_BINARY f then SQL_BINARY else SQL_CHAR)
  else if case t [MYSQL_TYPE_VAR_STRING] then (if MADB_FIELD_IS_BINARY f then SQL_VARBINARY else SQL_VARCHAR)
  else if case t [MYSQL_TYPE_SET; MYSQL_TYPE_ENUM] then SQL_CHAR
  else if case t [MYSQL_TYPE_GEOMETRY] then SQL_LONGVARBINARY
  else if case t [MYSQL_TYPE_JSON] then SQL_LONGVARCHAR
  else if case t [MYSQL_TYPE_DECIMAL; MYSQL_TYPE_NEWDECIMAL] then SQL_DECIMAL
  else SQL_UNKNOWN_TYPE.

Definition MapToV2Type (t : Z) : Z :=
  if case t [SQL_TYPE_TIMESTAMP] then SQL_TIMESTAMP
  else if case t [SQL_TYPE_DATE] then SQL_DATE
  else if case t [SQL_TYPE_TIME] then SQL_TIME
  else t.

Definition MADB_GetTypeLength (SqlDataType Length : Z) : Z :=
  let t := SqlDataType in
  if case t [SQL_C_BIT; SQL_C_TINYINT; SQL_C_STINYINT; SQL_C_UTINYINT] then 1
  else if case t [SQL_C_SHORT; SQL_C_SSHORT; SQL_C_USHORT] then 2
  else if case t [SQL_C_LONG; SQL_C_SLONG; SQL_C_ULONG] then sizeof_SQLINTEGER
  else if case t [SQL_C_UBIGINT; SQL_C_SBIGINT] then sizeof_longlong
  else if case t [SQL_C_DOUBLE] then sizeof_SQLDOUBLE
  else if case t [SQL_C_FLOAT] then sizeof_SQLFLOAT
  else if case t [SQL_C_NUMERIC] then sizeof_SQL_NUMERIC_STRUCT
  else if case t [SQL_C_TYPE_TIME; SQL_C_TIME] then sizeof_SQL_TIME_STRUCT
  else if case t [SQL_C_TYPE_DATE; SQL_C_DATE] then sizeof_SQL_DATE_STRUCT
  else if case t [SQL_C_TYPE_TIMESTAMP; SQL_C_TIMESTAMP] then sizeof_SQL_TIMESTAMP_STRUCT
  else Length.

(** [MADB_GetMaDBTypeAndLength]: the column type, [*Unsigned] and [*Length]
    (which keeps its value [Length0] where the code does not set it). *)
Definition MADB_GetMaDBTypeAndLength (SqlDataType Length0 : Z) : Z * bool * Z :=
  let t := SqlDataType in
  if case t [SQL_C_BIT; SQL_C_TINYINT; SQL_C_STINYINT; SQL_C_UTINYINT]
  then (MYSQL_TYPE_TINY, t =? SQL_C_UTINYINT, 1)
  else if case t [SQL_C_SHORT; SQL_C_SSHORT; SQL_C_USHORT] then (MYSQL_TYPE_SHORT, t =? SQL_C_USHORT, 2)
  else if case t [SQL_C_LONG; SQL_C_SLONG; SQL_C_ULONG]
  then (MYSQL_TYPE_LONG, t =? SQL_C_ULONG, sizeof_SQLINTEGER)
  else if case t [SQL_BIGINT] then (MYSQL_TYPE_LONGLONG, false, sizeof_longlong)
  else if case t [SQL_C_UBIGINT; SQL_C_SBIGINT] then (MYSQL_TYPE_LONGLONG, t =? SQL_C_UBIGINT, sizeof_longlong)
  else if case t [SQL_C_DOUBLE] then (MYSQL_TYPE_DOUBLE, false, sizeof_SQLDOUBLE)
  else if case t [SQL_C_FLOAT] then (MYSQL_TYPE_FLOAT, false, sizeof_SQLFLOAT)
  else if case t [SQL_C_NUMERIC] then (MYSQL_TYPE_DECIMAL, false, Length0)
  else if case t [SQL_C_TYPE_TIME; SQL_C_TIME] then (MYSQL_TYPE_TIME, false, sizeof_SQL_TIME_STRUCT)
  else if case t [SQL_C_TYPE_DATE; SQL_C_DATE] then (MYSQL_TYPE_DATE, false, sizeof_SQL_DATE_STRUCT)
  else if case t [SQL_C_TYPE_TIMESTAMP; SQL_C_TIMESTAMP]
  then (MYSQL_TYPE_TIMESTAMP, false, sizeof_SQL_TIMESTAMP_STRUCT)
  else if case t [SQL_C_INTERVAL_HOUR_TO_MINUTE; SQL_C_INTERVAL_HOUR_TO_SECOND]
  then (MYSQL_TYPE_TIME, false, sizeof_SQL_INTERVAL_STRUCT)
  else if case t [SQL_C_CHAR] then (MYSQL_TYPE_STRING, false, Length0)
  else (MYSQL_TYPE_BLOB, false, Length0).

Definition MADB_IsIntType (t : Z) : bool :=
  case t [SQL_C_TINYINT; SQL_C_STINYINT; SQL_C_UTINYINT; SQL_C_SHORT; SQL_C_SSHORT; SQL_C_USHORT; SQL_C_LONG;
    SQL_C_SLONG; SQL_C_ULONG; SQL_C_UBIGINT; SQL_C_SBIGINT; SQL_BIGINT].

Definition MADB_IsNumericType (t : Z) : bool :=
  case t [SQL_C_DOUBLE; SQL_C_FLOAT; SQL_DECIMAL] || MADB_IsIntType t.

End SqlTypes.

(** ** Properties *)

Module SqlTypesProps.
Import SqlTypes.

(** A number of at most [k] digits, with room for the sign when it is negative. *)
Lemma dec_length z k : (0 < k)%nat -> - 10 ^ Z.of_nat k < z < 10 ^ Z.of_nat k ->
  (length (dec z) <= k + (if (z <? 0)%Z then 1 else 0))%nat.
Proof.
  intros Hk Hz. unfold dec, dec_u. destruct (Z.ltb_spec z 0); cbn [length].
  - pose proof (dec_loop_length (S (Z.to_nat (Z.log2 (- z)))) (- z) k ltac:(lia) Hk). lia.
  - pose proof (dec_loop_length (S (Z.to_nat (Z.log2 z))) z k ltac:(lia) Hk). lia.
Qed.

(** The widths of the integer column types. *)
Definition int_width (t : Z) : option Z :=
  if t =? MYSQL_TYPE_TINY then Some 8 else if t =? MYSQL_TYPE_SHORT then Some 16
  else if t =? MYSQL_TYPE_INT24 then Some 24 else if t =? MYSQL_TYPE_LONG then Some 32
  else if t =? MYSQL_TYPE_LONGLONG then Some 64 else None.

Definition int_range (w : Z) (unsigned : bool) (z : Z) : Prop :=
  if unsigned then 0 <= z < 2 ^ w else - 2 ^ (w - 1) <= z < 2 ^ (w - 1).

(** The display size reported for an integer column has room for every value
    of the column as text: a minus sign and all digits. *)
Theorem MADB_GetDisplaySize_int f cs w z :
  int_width (ftype f) = Some w -> int_range w (flag f UNSIGNED_FLAG) z ->
  Z.of_nat (length (dec z)) <= MADB_GetDisplaySize f cs.
Proof.
  destruct f as [t fl ch ln dc]. set (f := MkField t fl ch ln dc).
  unfold int_width, int_range, MADB_GetDisplaySize. cbn [ftype f]. intros Hw Hz.
  destruct (Z.eqb_spec t MYSQL_TYPE_TINY) as [->|_]; [|destruct (Z.eqb_spec t MYSQL_TYPE_SHORT) as [->|_];
    [|destruct (Z.eqb_spec t MYSQL_TYPE_INT24) as [->|_]; [|destruct (Z.eqb_spec t MYSQL_TYPE_LONG) as [->|_];
    [|destruct (Z.eqb_spec t MYSQL_TYPE_LONGLONG) as [->|_]; [|done]]]]]; injection Hw as <-.
  all: unfold case; cbn [existsb Z.eqb Pos.eqb orb MYSQL_TYPE_NULL MYSQL_TYPE_TINY MYSQL_TYPE_SHORT
    MYSQL_TYPE_INT24 MYSQL_TYPE_LONG MYSQL_TYPE_LONGLONG MYSQL_TYPE_BIT MYSQL_TYPE_YEAR].
  all: destruct (flag f UNSIGNED_FLAG); cbn [Z.b2z].
  1: pose proof (dec_length z 3 ltac:(lia) ltac:(lia)) as H'.
  2: pose proof (dec_length z 3 ltac:(lia) ltac:(lia)) as H'.
  3: pose proof (dec_length z 5 ltac:(lia) ltac:(lia)) as H'.
  4: pose proof (dec_length z 5 ltac:(lia) ltac:(lia)) as H'.
  5: pose proof (dec_length z 8 ltac:(lia) ltac:(lia)) as H'.
  6: pose proof (dec_length z 7 ltac:(lia) ltac:(lia)) as H'.
  7: pose proof (dec_length z 10 ltac:(lia) ltac:(lia)) as H'.
  8: pose proof (dec_length z 10 ltac:(lia) ltac:(lia)) as H'.
  9: pose proof (dec_length z 20 ltac:(lia) ltac:(lia)) as H'.
  10: pose proof (dec_length z 19 ltac:(lia) ltac:(lia)) as H'.
  all: destruct (Z.ltb_spec z 0); lia.
Qed.

Lemma MADB_GetDisplaySize_int_witness :
  Z.of_nat (length (dec (- 2 ^ 63))) <= MADB_GetDisplaySize (MkField MYSQL_TYPE_LONGLONG 0 0 20 0) None.
Proof. apply (MADB_GetDisplaySize_int _ None 64 (- 2 ^ 63)); [reflexivity|vm_compute; split; congruence]. Defined.

(** The two functions that size a C buffer agree on every type but four: for
    SQL_C_NUMERIC, SQL_BIGINT and the two hour intervals only one of them knows
    the size. *)
Theorem type_lengths_agree t L :
  case t [SQL_C_NUMERIC; SQL_BIGINT; SQL_C_INTERVAL_HOUR_TO_MINUTE; SQL_C_INTERVAL_HOUR_TO_SECOND] = false ->
  snd (MADB_GetMaDBTypeAndLength t L) = MADB_GetTypeLength t L.
Proof.
  unfold MADB_GetMaDBTypeAndLength, MADB_GetTypeLength. intros H.
  assert (case t [SQL_BIGINT] = false /\ case t [SQL_C_NUMERIC] = false /\
    case t [SQL_C_INTERVAL_HOUR_TO_MINUTE; SQL_C_INTERVAL_HOUR_TO_SECOND] = false) as (-> & -> & ->).
  { unfold case in *. cbn [existsb] in *. rewrite !orb_false_r in *.
    repeat (apply orb_false_iff in H as [? H]). split_and!; try done. by apply orb_false_iff. }
  repeat (case_match; [done|]). done.
Qed.

Lemma type_lengths_agree_witness :
  snd (MADB_GetMaDBTypeAndLength SQL_C_TYPE_TIMESTAMP 7) = MADB_GetTypeLength SQL_C_TYPE_TIMESTAMP 7.
Proof. apply (type_lengths_agree SQL_C_TYPE_TIMESTAMP 7). reflexivity. Defined.

End SqlTypesProps.
