(* ===== verification/Desc.v ===== *)
(** * Desc: descriptors and the statements that use them

    Models [ma_desc.c] (the access table, descriptor records, field access, copy,
    allocation and release) and [RemoveStmtRefFromDesc] of [ma_statement.c].

    Descriptors and statements live in one [world]: an explicit descriptor is
    shared by the statements it is assigned to, and keeps a list of them.  Handles
    are keys of finite maps; a handle that is not in its map is dangling, and an
    operation that follows it, frees a string twice or indexes an array out of
    range has no result ([None]).  The strings of a record are pointers: a
    literal, or a block of the heap.  The connection's list of explicit
    descriptors is the sequence its linked list stands for (see LinkedList.v).
    Only the ANSI interface is modelled ([isWChar] false). *)

From Stdlib Require Import ZArith Lia.
From stdpp Require Import base strings numbers option functions gmap list.
From S2P Require Import Prelude Odbc Errors Diag SqlTypes.
Import ErrorOps Diag SqlTypes.

(** ** Data *)

Definition MADB_DESC_NONE : Z := 0.
Definition MADB_DESC_READ : Z := 1.
Definition MADB_DESC_WRITE : Z := 2.
Definition MADB_DESC_RW : Z := 3.

Definition MADB_DESC_APD : Z := 0.
Definition MADB_DESC_ARD : Z := 1.
Definition MADB_DESC_IPD : Z := 2.
Definition MADB_DESC_IRD : Z := 3.
Definition MADB_DESC_UNKNOWN : Z := 254.

(** Who may read and write a field: by descriptor type, in the order APD, ARD,
    IPD, IRD. *)
Definition MADB_DESC_FLDID : list (Z * list Z) := [
  (SQL_DESC_ALLOC_TYPE, [MADB_DESC_READ; MADB_DESC_READ; MADB_DESC_NONE; MADB_DESC_NONE]);
  (SQL_DESC_ARRAY_SIZE, [MADB_DESC_RW; MADB_DESC_RW; MADB_DESC_NONE; MADB_DESC_NONE]);
  (SQL_DESC_ARRAY_STATUS_PTR, [MADB_DESC_RW; MADB_DESC_RW; MADB_DESC_RW; MADB_DESC_RW]);
  (SQL_DESC_BIND_OFFSET_PTR, [MADB_DESC_RW; MADB_DESC_RW; MADB_DESC_NONE; MADB_DESC_NONE]);
  (SQL_DESC_BIND_TYPE, [MADB_DESC_RW; MADB_DESC_RW; MADB_DESC_NONE; MADB_DESC_NONE]);
  (SQL_DESC_COUNT, [MADB_DESC_RW; MADB_DESC_RW; MADB_DESC_NONE; MADB_DESC_READ]);
  (SQL_DESC_ROWS_PROCESSED_PTR, [MADB_DESC_NONE; MADB_DESC_NONE; MADB_DESC_RW; MADB_DESC_RW]);
  (SQL_DESC_AUTO_UNIQUE_VALUE, [MADB_DESC_NONE; MADB_DESC_NONE; MADB_DESC_NONE; MADB_DESC_READ]);
  (SQL_DESC_BASE_COLUMN_NAME, [MADB_DESC_NONE; MADB_DESC_NONE; MADB_DESC_NONE; MADB_DESC_READ]);
  (SQL_DESC_BASE_TABLE_NAME, [MADB_DESC_NONE; MADB_DESC_NONE; MADB_DESC_NONE; MADB_DESC_READ]);
  (SQL_DESC_CASE_SENSITIVE, [MADB_DESC_NONE; MADB_DESC_NONE; MADB_DESC_NONE; MADB_DESC_READ]);
  (SQL_DESC_CATALOG_NAME, [MADB_DESC_NONE; MADB_DESC_NONE; MADB_DESC_NONE; MADB_DESC_READ]);
  (SQL_DESC_CONCISE_TYPE, [MADB_DESC_RW; MADB_DESC_RW; MADB_DESC_RW; MADB_DESC_RW]);
  (SQL_DESC_DATA_PTR, [MADB_DESC_RW; MADB_DESC_RW; MADB_DESC_NONE; MADB_DESC_NONE]);
  (SQL_DESC_DATETIME_INTERVAL_CODE, [MADB_DESC_RW; MADB_DESC_RW; MADB_DESC_RW; MADB_DESC_READ]);
  (SQL_DESC_DATETIME_INTERVAL_PRECISION, [MADB_DESC_RW; MADB_DESC_RW; MADB_DESC_RW; MADB_DESC_READ]);
  (SQL_DESC_DISPLAY_SIZE, [MADB_DESC_NONE; MADB_DESC_NONE; MADB_DESC_NONE; MADB_DESC_NONE]);
  (SQL_DESC_FIXED_PREC_SCALE, [MADB_DESC_NONE; MADB_DESC_NONE; MADB_DESC_RW; MADB_DESC_RW]);
  (SQL_DESC_INDICATOR_PTR, [MADB_DESC_RW; MADB_DESC_RW; MADB_DESC_NONE; MADB_DESC_NONE]);
  (SQL_DESC_LABEL, [MADB_DESC_NONE; MADB_DESC_NONE; MADB_DESC_NONE; MADB_DESC_NONE]);
  (SQL_DESC_LENGTH, [MADB_DESC_RW; MADB_DESC_RW; MADB_DESC_RW; MADB_DESC_READ]);
  (SQL_DESC_LITERAL_PREFIX, [MADB_DESC_NONE; MADB_DESC_NONE; MADB_DESC_NONE; MADB_DESC_READ]);
  (SQL_DESC_LITERAL_SUFFIX, [MADB_DESC_NONE; MADB_DESC_NONE; MADB_DESC_NONE; MADB_DESC_READ]);
  (SQL_DESC_LOCAL_TYPE_NAME, [MADB_DESC_NONE; MADB_DESC_NONE; MADB_DESC_READ; MADB_DESC_READ]);
  (SQL_DESC_NAME, [MADB_DESC_NONE; MADB_DESC_NONE; MADB_DESC_RW; MADB_DESC_READ]);
  (SQL_DESC_NULLABLE, [MADB_DESC_NONE; MADB_DESC_NONE; MADB_DESC_READ; MADB_DESC_READ]);
  (SQL_DESC_NUM_PREC_RADIX, [MADB_DESC_RW; MADB_DESC_RW; MADB_DESC_RW; MADB_DESC_READ]);
  (SQL_DESC_OCTET_LENGTH, [MADB_DESC_RW; MADB_DESC_RW; MADB_DESC_RW; MADB_DESC_READ]);
  (SQL_DESC_OCTET_LENGTH_PTR, [MADB_DESC_RW; MADB_DESC_RW; MADB_DESC_NONE; MADB_DESC_NONE]);
  (SQL_DESC_PARAMETER_TYPE, [MADB_DESC_NONE; MADB_DESC_NONE; MADB_DESC_RW; MADB_DESC_NONE]);
  (SQL_DESC_PRECISION, [MADB_DESC_RW; MADB_DESC_RW; MADB_DESC_RW; MADB_DESC_READ]);
  (SQL_DESC_ROWVER, [MADB_DESC_NONE; MADB_DESC_NONE; MADB_DESC_READ; MADB_DESC_READ]);
  (SQL_DESC_SCALE, [MADB_DESC_RW; MADB_DESC_RW; MADB_DESC_RW; MADB_DESC_READ]);
  (SQL_DESC_SCHEMA_NAME, [MADB_DESC_NONE; MADB_DESC_NONE; MADB_DESC_NONE; MADB_DESC_READ]);
  (SQL_DESC_SEARCHABLE, [MADB_DESC_NONE; MADB_DESC_NONE; MADB_DESC_NONE; MADB_DESC_READ]);
  (SQL_DESC_TABLE_NAME, [MADB_DESC_NONE; MADB_DESC_NONE; MADB_DESC_NONE; MADB_DESC_READ]);
  (SQL_DESC_TYPE, [MADB_DESC_RW; MADB_DESC_RW; MADB_DESC_RW; MADB_DESC_READ]);
  (SQL_DESC_TYPE_NAME, [MADB_DESC_NONE; MADB_DESC_NONE; MADB_DESC_READ; MADB_DESC_READ]);
  (SQL_DESC_UNSIGNED, [MADB_DESC_NONE; MADB_DESC_NONE; MADB_DESC_READ; MADB_DESC_READ]);
  (SQL_DESC_UPDATABLE, [MADB_DESC_NONE; MADB_DESC_NONE; MADB_DESC_NONE; MADB_DESC_READ]);
  (SQL_DESC_UNNAMED, [MADB_DESC_NONE; MADB_DESC_NONE; MADB_DESC_RW; MADB_DESC_READ])].

Record MADB_Header := MkHeader {
  AllocType : Z;
  ArraySize : Z;
  ArrayStatusPtr : Z;
  BindOffsetPtr : Z;
  BindType : Z;
  Count : Z;
  RowsProcessedPtr : Z;
}.

(** The numeric fields of a record, addresses included. *)
Inductive rec_field :=
| AutoUniqueValue | CaseSensitive | ConciseType | DataPtr | DateTimeIntervalCode | DateTimeIntervalPrecision
| DescLength | DisplaySize | FixedPrecScale | IndicatorPtr | Length | Nullable | NumPrecRadix | OctetLength
| OctetLengthPtr | ParameterType | Precision | RowVer | Scale | Searchable | Type_ | Unnamed | Unsigned
| Updateable | inUse.

(** Its pointers to text. *)
Inductive text_field :=
| BaseCatalogName | BaseColumnName | BaseTableName | CatalogName | ColumnName | LiteralPrefix | LiteralSuffix
| LocalTypeName | SchemaName | TableName | TypeName | InternalBuffer | DefaultValue.

#[export] Instance rec_field_eq_dec : EqDecision rec_field.
Proof. solve_decision. Defined.
#[export] Instance text_field_eq_dec : EqDecision text_field.
Proof. solve_decision. Defined.

(** A pointer to text: NULL is [None]. *)
Inductive text_ptr := Literal (s : list Z) | Block (b : positive).

Record MADB_DescRecord := MkRecord {
  num : rec_field -> Z;
  text : text_field -> option text_ptr;
}.

Definition set_num (r : MADB_DescRecord) (f : rec_field) (v : Z) : MADB_DescRecord :=
  MkRecord (<[f := v]> (num r)) (text r).
Definition set_text (r : MADB_DescRecord) (f : text_field) (p : option text_ptr) : MADB_DescRecord :=
  MkRecord (num r) (<[f := p]> (text r)).

(** The record after [memset] with 0. *)
Definition zero_record : MADB_DescRecord := MkRecord (fun _ => 0) (fun _ => None).

Record MADB_Desc := MkDesc {
  Header : MADB_Header;
  DescType : Z;
  AppType : bool;
  Records : list MADB_DescRecord;
  Stmts : list positive;
  desc_Error : MADB_Error;
}.

(** The descriptors a statement uses now and the ones it was created with. *)
Record stmt_descs := MkStmtDescs {
  Apd : positive; Ard : positive; Ipd : positive; Ird : positive;
  IApd : positive; IArd : positive;
}.

Record world := MkWorld {
  descs : gmap positive MADB_Desc;
  stmts : gmap positive stmt_descs;
  Descrs : list positive;
  blocks : gmap positive (list Z);
}.

Module DescOps.

(** ** Shorthands *)

(** The entry of a key in a table, as a linear scan finds it. *)
Fixpoint assoc {A} (k : Z) (l : list (Z * A)) : option A :=
  match l with
  | [] => None
  | (k', x) :: l' => if k =? k' then Some x else assoc k l'
  end.

Definition put_desc (w : world) (h : positive) (d : MADB_Desc) : world :=
  MkWorld (<[h := d]> (descs w)) (stmts w) (Descrs w) (blocks w).
Definition put_stmts (w : world) (s : gmap positive stmt_descs) : world :=
  MkWorld (descs w) s (Descrs w) (blocks w).
Definition put_blocks (w : world) (b : gmap positive (list Z)) : world :=
  MkWorld (descs w) (stmts w) (Descrs w) b.

Definition with_header (d : MADB_Desc) (hd : MADB_Header) : MADB_Desc :=
  MkDesc hd (DescType d) (AppType d) (Records d) (Stmts d) (desc_Error d).
Definition with_records (d : MADB_Desc) (rs : list MADB_DescRecord) : MADB_Desc :=
  MkDesc (Header d) (DescType d) (AppType d) rs (Stmts d) (desc_Error d).
Definition with_error (d : MADB_Desc) (E : MADB_Error) : MADB_Desc :=
  MkDesc (Header d) (DescType d) (AppType d) (Records d) (Stmts d) E.
Definition with_stmts (d : MADB_Desc) (l : list positive) : MADB_Desc :=
  MkDesc (Header d) (DescType d) (AppType d) (Records d) l (desc_Error d).
Definition with_type (d : MADB_Desc) (t : Z) : MADB_Desc :=
  MkDesc (Header d) t (AppType d) (Records d) (Stmts d) (desc_Error d).

Definition set_Count (hd : MADB_Header) (n : Z) : MADB_Header :=
  MkHeader (AllocType hd) (ArraySize hd) (ArrayStatusPtr hd) (BindOffsetPtr hd) (BindType hd) n (RowsProcessedPtr hd).
Definition set_ArraySize (hd : MADB_Header) (n : Z) : MADB_Header :=
  MkHeader (AllocType hd) n (ArrayStatusPtr hd) (BindOffsetPtr hd) (BindType hd) (Count hd) (RowsProcessedPtr hd).
Definition set_ArrayStatusPtr (hd : MADB_Header) (n : Z) : MADB_Header :=
  MkHeader (AllocType hd) (ArraySize hd) n (BindOffsetPtr hd) (BindType hd) (Count hd) (RowsProcessedPtr hd).
Definition set_BindOffsetPtr (hd : MADB_Header) (n : Z) : MADB_Header :=
  MkHeader (AllocType hd) (ArraySize hd) (ArrayStatusPtr hd) n (BindType hd) (Count hd) (RowsProcessedPtr hd).
Definition set_BindType (hd : MADB_Header) (n : Z) : MADB_Header :=
  MkHeader (AllocType hd) (ArraySize hd) (ArrayStatusPtr hd) (BindOffsetPtr hd) n (Count hd) (RowsProcessedPtr hd).
Definition set_RowsProcessedPtr (hd : MADB_Header) (n : Z) : MADB_Header :=
  MkHeader (AllocType hd) (ArraySize hd) (ArrayStatusPtr hd) (BindOffsetPtr hd) (BindType hd) (Count hd) n.

Definition set_Ard (x : stmt_descs) (h : positive) : stmt_descs := MkStmtDescs (Apd x) h (Ipd x) (Ird x) (IApd x) (IArd x).
Definition set_Apd (x : stmt_descs) (h : positive) : stmt_descs := MkStmtDescs h (Ard x) (Ipd x) (Ird x) (IApd x) (IArd x).

(** [SetError] on the record of a descriptor, and the descriptor put back. *)
Definition desc_fail (w : world) (h : positive) (d : MADB_Desc) (code : nat) : world :=
  put_desc w h (with_error d (MADB_SetError (desc_Error d) code None 0)).

(** ** Strings *)

(** An address [strdup] may return: the first one above all blocks in use. *)
Definition new_block (bl : gmap positive (list Z)) : positive :=
  Pos.succ (map_fold (fun b _ m => Pos.max b m) 1%positive bl).

Definition strdup (bl : gmap positive (list Z)) (s : list Z) : gmap positive (list Z) * text_ptr :=
  let b := new_block bl in (<[b := s]> bl, Block b).

(** [free] of a text pointer: neither a literal nor a block that is gone. *)
Definition release (bl : gmap positive (list Z)) (p : option text_ptr) : option (gmap positive (list Z)) :=
  match p with
  | None => Some bl
  | Some (Literal _) => None
  | Some (Block b) => match bl !! b with Some _ => Some (delete b bl) | None => None end
  end.

(** The text behind a pointer. *)
Definition text_of (bl : gmap positive (list Z)) (p : option text_ptr) : option (option (list Z)) :=
  match p with
  | None => Some None
  | Some (Literal s) => Some (Some s)
  | Some (Block b) => match bl !! b with Some s => Some (Some s) | None => None end
  end.

(** ** Allocation and release *)

(** The memory [calloc] hands out holds a zeroed error record. *)
Definition calloc_error : MADB_Error := MkError [] 0 (replicate (SQL_MAX_MESSAGE_LENGTH + 1) 0) 0 0 None 0.

(** [MADB_DescInit]: [addr] is what [calloc] returns, [ok_records] and [ok_stmts]
    the answers for the two arrays; [prefix] and [server] make the message prefix. *)
Definition MADB_DescInit (prefix : list Z) (server : option (list Z)) (w : world) (addr : option positive)
    (ok_records ok_stmts : bool) (type : Z) (isExternal : bool) : option (world * option positive) :=
  match addr with
  | None => Some (w, None)
  | Some h =>
      if bool_decide (is_Some (descs w !! h)) then None
      else if negb ok_records then Some (w, None)
      else if isExternal && negb ok_stmts then Some (w, None)
      else
        let d := MkDesc (MkHeader 0 1 0 0 0 0 0) type isExternal [] []
                   (MADB_PutErrorPrefix prefix server calloc_error) in
        Some (MkWorld (<[h := d]> (descs w)) (stmts w) (if isExternal then h :: Descrs w else Descrs w) (blocks w),
              Some h)
  end.

(** The pointers [MADB_DescFree] frees in every record, in order. *)
Definition freed_fields (type : Z) : list text_field :=
  [InternalBuffer; DefaultValue] ++
  (if type =? MADB_DESC_IRD then
     [CatalogName; BaseCatalogName; BaseColumnName; BaseTableName; ColumnName; TableName; TypeName]
   else if type =? MADB_DESC_IPD then [TypeName] else []).

Fixpoint release_all (bl : gmap positive (list Z)) (ps : list (option text_ptr)) : option (gmap positive (list Z)) :=
  match ps with
  | [] => Some bl
  | p :: ps' => bl' ← release bl p; release_all bl' ps'
  end.

Definition release_records (bl : gmap positive (list Z)) (type : Z) (rs : list MADB_DescRecord)
    : option (gmap positive (list Z)) :=
  release_all bl (r ← rs; text r <$> freed_fields type).

(** The statements of an explicit descriptor go back to their own ones. *)
Fixpoint detach_all (st : gmap positive stmt_descs) (type : Z) (l : list positive) : option (gmap positive stmt_descs) :=
  match l with
  | [] => Some st
  | s :: l' =>
      x ← st !! s;
      detach_all
        (<[s := if type =? MADB_DESC_ARD then set_Ard x (IArd x)
                else if type =? MADB_DESC_APD then set_Apd x (IApd x) else x]> st) type l'
  end.

(** [MADB_ListDelete] on the connection's list; the links of a node that was
    already removed are stale. *)
Definition unlink (l : list positive) (h : positive) : option (list positive) :=
  if bool_decide (h ∈ l) then Some (filter (fun x => x <> h) l) else None.

Definition MADB_DescFree (w : world) (h : positive) (RecordsOnly : bool) : option world :=
  d ← descs w !! h;
  bl ← release_records (blocks w) (DescType d) (Records d);
  let d1 := with_header (with_records d []) (set_Count (Header d) 0) in
  let finish d2 st ds := MkWorld (if RecordsOnly then <[h := d2]> (descs w) else delete h (descs w)) st ds bl in
  if AppType d then
    st ← detach_all (stmts w) (DescType d) (Stmts d);
    ds ← unlink (Descrs w) h;
    Some (finish (with_stmts d1 []) st ds)
  else Some (finish d1 (stmts w) (Descrs w)).

(** [RemoveStmtRefFromDesc]: after a removal the loop steps over the element that
    moved into the place. *)
Fixpoint remove_ref (all : bool) (s : positive) (l : list positive) : list positive :=
  match l with
  | [] => []
  | x :: l' =>
      if bool_decide (x = s) then
        if all then match l' with [] => [] | y :: l'' => y :: remove_ref all s l'' end else l'
      else x :: remove_ref all s l'
  end.

Definition RemoveStmtRefFromDesc (w : world) (h s : positive) (all : bool) : option world :=
  d ← descs w !! h;
  Some (if AppType d then put_desc w h (with_stmts d (remove_ref all s (Stmts d))) else w).

(** ** Records *)

(** [MADB_DescSetRecordDefaults] on a zeroed record. *)
Definition MADB_DescSetRecordDefaults (bl : gmap positive (list Z)) (type : Z)
    : gmap positive (list Z) * MADB_DescRecord :=
  let r := zero_record in
  if case type [MADB_DESC_APD; MADB_DESC_ARD] then
    (bl, set_num (set_num r Type_ SQL_C_DEFAULT) ConciseType SQL_C_DEFAULT)
  else if type =? MADB_DESC_IPD then
    let '(bl', name) := strdup bl (chars "VARCHAR") in
    (bl', set_text (set_text (set_text (set_num (set_num (set_num (set_num r FixedPrecScale SQL_FALSE)
             Nullable SQL_NULLABLE) ParameterType SQL_PARAM_INPUT) Unsigned SQL_FALSE)
             LocalTypeName (Some (Literal []))) TypeName (Some name)) ColumnName (Some (Literal [])))
  else if type =? MADB_DESC_IRD then
    let '(bl', name) := strdup bl (chars "VARCHAR") in
    (bl', set_text (set_num (set_num (set_num (set_num (set_num (set_num (set_num r Nullable SQL_NULLABLE_UNKNOWN)
             FixedPrecScale SQL_FALSE) CaseSensitive SQL_TRUE) ConciseType SQL_VARCHAR) AutoUniqueValue SQL_FALSE)
             Type_ SQL_VARCHAR) Unsigned SQL_FALSE) TypeName (Some name))
  else (bl, r).

(** The loop that allocates records up to the one asked for; [mem] of them can be
    had.  The flag tells whether it got there. *)
Fixpoint grow_records (k mem : nat) (bl : gmap positive (list Z)) (type : Z) (rs : list MADB_DescRecord)
    : bool * gmap positive (list Z) * list MADB_DescRecord :=
  match k with
  | O => (true, bl, rs)
  | S k' =>
      match mem with
      | O => (false, bl, rs)
      | S mem' =>
          let '(bl', r) := MADB_DescSetRecordDefaults bl type in
          grow_records k' mem' bl' type (rs ++ [r])
      end
  end.

(** [MADB_DescGetInternalRecord]: the position of the record, or NULL. *)
Definition MADB_DescGetInternalRecord (mem : nat) (w : world) (h : positive) (RecordNumber mode : Z)
    : option (world * option Z) :=
  d ← descs w !! h;
  let elements := Z.of_nat (length (Records d)) in
  if (elements <? RecordNumber) && (mode =? MADB_DESC_READ) then Some (desc_fail w h d MADB_ERR_07009, None)
  else
    let '(ok, bl, rs) :=
      grow_records (Z.to_nat (RecordNumber + 1 - elements)) mem (blocks w) (DescType d) (Records d) in
    let d1 := with_records d rs in
    if ok then
      let hd := if Count (Header d) <? RecordNumber + 1 then set_Count (Header d) (wraps 16 (RecordNumber + 1))
                else Header d in
      Some (put_desc (put_blocks w bl) h (with_header d1 hd), Some RecordNumber)
    else Some (desc_fail (put_blocks w bl) h d1 MADB_ERR_HY001, None).

(** Following a record pointer. *)
Definition get_record (w : world) (h : positive) (i : Z) : option MADB_DescRecord :=
  d ← descs w !! h; if i <? 0 then None else Records d !! Z.to_nat i.

Definition put_record (w : world) (h : positive) (i : Z) (r : MADB_DescRecord) : option world :=
  d ← descs w !! h; Some (put_desc w h (with_records d (<[Z.to_nat i := r]> (Records d)))).

(** [MADB_DeskCheckFldId]: the index into the access list is the descriptor type. *)
Definition MADB_DeskCheckFldId (w : world) (h : positive) (FieldIdentifier mode : Z) : option (world * Z) :=
  d ← descs w !! h;
  let fail := Some (desc_fail w h d MADB_ERR_HY091, SQL_ERROR) in
  match assoc FieldIdentifier MADB_DESC_FLDID with
  | None => fail
  | Some Access =>
      a ← Access !! Z.to_nat (DescType d);
      if Z.land a mode =? 0 then fail else Some (w, SQL_SUCCESS)
  end.

(** ** Reading a field *)

(** What is written for the application: nothing, a number of so many bytes, a text
    pointer, or a buffer with the length of the text. *)
Inductive desc_out :=
| OutNothing
| OutNumber (bytes v : Z)
| OutPointer (p : option text_ptr)
| OutText (b : option (list Z)) (len : Z).

Definition header_fields : list (Z * (Z * (MADB_Header -> Z))) := [
  (SQL_DESC_ALLOC_TYPE, (4, AllocType)); (SQL_DESC_ARRAY_SIZE, (8, ArraySize));
  (SQL_DESC_ARRAY_STATUS_PTR, (8, ArrayStatusPtr)); (SQL_DESC_BIND_OFFSET_PTR, (8, BindOffsetPtr));
  (SQL_DESC_BIND_TYPE, (8, BindType)); (SQL_DESC_COUNT, (2, Count));
  (SQL_DESC_ROWS_PROCESSED_PTR, (8, RowsProcessedPtr))].

(** The numbers: the size of the type each one is written as, and the field. *)
Definition number_fields : list (Z * (Z * rec_field)) := [
  (SQL_DESC_AUTO_UNIQUE_VALUE, (4, AutoUniqueValue)); (SQL_DESC_CASE_SENSITIVE, (4, CaseSensitive));
  (SQL_DESC_CONCISE_TYPE, (2, ConciseType)); (SQL_DESC_DATA_PTR, (8, DataPtr));
  (SQL_DESC_DATETIME_INTERVAL_CODE, (2, DateTimeIntervalCode));
  (SQL_DESC_DATETIME_INTERVAL_PRECISION, (4, DateTimeIntervalPrecision));
  (SQL_DESC_FIXED_PREC_SCALE, (2, FixedPrecScale)); (SQL_DESC_INDICATOR_PTR, (8, IndicatorPtr));
  (SQL_DESC_LENGTH, (4, DescLength)); (SQL_DESC_NULLABLE, (4, Nullable)); (SQL_DESC_NUM_PREC_RADIX, (4, NumPrecRadix));
  (SQL_DESC_OCTET_LENGTH, (8, OctetLength)); (SQL_DESC_OCTET_LENGTH_PTR, (8, OctetLengthPtr));
  (SQL_DESC_PARAMETER_TYPE, (2, ParameterType)); (SQL_DESC_PRECISION, (4, Precision)); (SQL_DESC_ROWVER, (8, RowVer));
  (SQL_DESC_SCALE, (4, Scale)); (SQL_DESC_SEARCHABLE, (4, Searchable)); (SQL_DESC_TYPE, (4, Type_));
  (SQL_DESC_UNSIGNED, (4, Unsigned)); (SQL_DESC_UPDATABLE, (4, Updateable))].

Definition pointer_fields : list (Z * text_field) := [
  (SQL_DESC_LITERAL_PREFIX, LiteralPrefix); (SQL_DESC_LITERAL_SUFFIX, LiteralSuffix)].

Definition string_fields : list (Z * text_field) := [
  (SQL_DESC_BASE_COLUMN_NAME, BaseColumnName); (SQL_DESC_BASE_TABLE_NAME, BaseTableName);
  (SQL_DESC_CATALOG_NAME, BaseCatalogName); (SQL_DESC_LOCAL_TYPE_NAME, LocalTypeName); (SQL_DESC_NAME, BaseColumnName);
  (SQL_DESC_SCHEMA_NAME, SchemaName); (SQL_DESC_TABLE_NAME, TableName); (SQL_DESC_TYPE_NAME, TypeName)].

(** The switch of [MADB_DescGetField]: [rec] is the record pointer, NULL when the
    record number is 0; [Buffer] and [BufferLength] take a text, [has_len] tells
    whether [StringLengthPtr] is given. *)
Definition get_field (w : world) (h : positive) (rec : option Z) (FieldIdentifier : Z) (Buffer : option (list Z))
    (BufferLength : Z) (has_len : bool) : option (world * desc_out) :=
  d ← descs w !! h;
  match assoc FieldIdentifier header_fields with
  | Some (bytes, f) => Some (w, OutNumber bytes (f (Header d)))
  | None =>
      match assoc FieldIdentifier number_fields with
      | Some (bytes, f) => i ← rec; r ← get_record w h i; Some (w, OutNumber bytes (num r f))
      | None =>
          match assoc FieldIdentifier pointer_fields with
          | Some f => i ← rec; r ← get_record w h i; Some (w, OutPointer (text r f))
          | None =>
              match assoc FieldIdentifier string_fields with
              | Some f =>
                  i ← rec; r ← get_record w h i; src ← text_of (blocks w) (text r f);
                  let '(len, b, E) := MADB_SetString Buffer BufferLength src SQL_NTS (desc_Error d) in
                  let w1 := put_desc w h (with_error d E) in
                  w2 ← (if FieldIdentifier =? SQL_DESC_NAME then put_record w1 h i (set_num r Unnamed SQL_NAMED)
                        else Some w1);
                  if (FieldIdentifier =? SQL_DESC_TYPE_NAME) && negb has_len then None
                  else Some (w2, OutText b (wraps 32 len))
              | None => Some (w, OutNothing)
              end
          end
      end
  end.

Definition MADB_DescGetField (mem : nat) (w : world) (h : positive) (RecNumber FieldIdentifier : Z)
    (Buffer : option (list Z)) (BufferLength : Z) (has_len : bool) : option (world * Z * desc_out) :=
  '(w0, ret) ← MADB_DeskCheckFldId w h FieldIdentifier MADB_DESC_READ;
  if negb (SQL_SUCCEEDED ret) then Some (w0, ret, OutNothing)
  else
    d ← descs w0 !! h;
    let w1 := put_desc w0 h (with_error d (MADB_CLEAR_ERROR (desc_Error d))) in
    '(w2, rec) ← (if RecNumber =? 0 then Some (w1, None)
                  else MADB_DescGetInternalRecord mem w1 h (RecNumber - 1) MADB_DESC_READ);
    if negb (RecNumber =? 0) && bool_decide (rec = None) then Some (w2, SQL_ERROR, OutNothing)
    else '(w3, out) ← get_field w2 h rec FieldIdentifier Buffer BufferLength has_len; Some (w3, ret, out).

(** ** Writing a field *)

Definition header_setters : list (Z * (MADB_Header -> Z -> MADB_Header)) := [
  (SQL_DESC_ARRAY_SIZE, fun hd v => set_ArraySize hd (wrapu 64 v));
  (SQL_DESC_ARRAY_STATUS_PTR, fun hd v => set_ArrayStatusPtr hd (wrapu 64 v));
  (SQL_DESC_BIND_OFFSET_PTR, fun hd v => set_BindOffsetPtr hd (wrapu 64 v));
  (SQL_DESC_BIND_TYPE, fun hd v => set_BindType hd (wrapu 64 (wraps 32 v)));
  (SQL_DESC_COUNT, fun hd v => set_Count hd (wraps 16 v));
  (SQL_DESC_ROWS_PROCESSED_PTR, fun hd v => set_RowsProcessedPtr hd (wrapu 64 v))].

Definition number_setters : list (Z * (MADB_DescRecord -> Z -> MADB_DescRecord)) := [
  (SQL_DESC_CONCISE_TYPE, fun r v =>
     let c := wraps 16 v in
     let t := MADB_GetTypeFromConciseType c in
     let r' := set_num (set_num r ConciseType c) Type_ t in
     if t =? SQL_INTERVAL then set_num r' DateTimeIntervalCode (wraps 16 (c - 100)) else r');
  (SQL_DESC_DATA_PTR, fun r v => set_num r DataPtr (wrapu 64 v));
  (SQL_DESC_DATETIME_INTERVAL_CODE, fun r v => set_num r DateTimeIntervalCode (wraps 16 v));
  (SQL_DESC_DATETIME_INTERVAL_PRECISION, fun r v => set_num r DateTimeIntervalPrecision (wraps 32 v));
  (SQL_DESC_FIXED_PREC_SCALE, fun r v => set_num r FixedPrecScale (wraps 16 v));
  (SQL_DESC_INDICATOR_PTR, fun r v => set_num r IndicatorPtr (wrapu 64 v));
  (SQL_DESC_LENGTH, fun r v => set_num r DescLength (wraps 32 v));
  (SQL_DESC_NUM_PREC_RADIX, fun r v => set_num r NumPrecRadix (wraps 32 v));
  (SQL_DESC_OCTET_LENGTH, fun r v => set_num r OctetLength (wraps 64 v));
  (SQL_DESC_OCTET_LENGTH_PTR, fun r v => set_num r OctetLengthPtr (wrapu 64 v));
  (SQL_DESC_PARAMETER_TYPE, fun r v => set_num r ParameterType (wraps 16 v));
  (SQL_DESC_PRECISION, fun r v => set_num r Precision (wraps 16 v));
  (SQL_DESC_SCALE, fun r v => set_num r Scale (wraps 16 v));
  (SQL_DESC_TYPE, fun r v => set_num (set_num r Type_ (wraps 16 v)) ConciseType (wraps 16 v))].

(** What follows the switch: a field that is no buffer unbinds the column of an
    ARD, and a record with a buffer is in use. *)
Definition after_set (type FieldIdentifier : Z) (r : MADB_DescRecord) : MADB_DescRecord :=
  let r1 :=
    if case FieldIdentifier [SQL_DESC_DATA_PTR; SQL_DESC_OCTET_LENGTH_PTR; SQL_DESC_INDICATOR_PTR] then r
    else if (type =? MADB_DESC_ARD) && negb (num r DataPtr =? 0) then set_num r DataPtr 0 else r in
  if negb (num r1 DataPtr =? 0) || negb (num r1 OctetLengthPtr =? 0) || negb (num r1 IndicatorPtr =? 0)
  then set_num r1 inUse 1 else r1.

Definition MADB_DescSetField (mem : nat) (w : world) (h : positive) (RecNumber FieldIdentifier ValuePtr : Z)
    : option (world * Z) :=
  '(w0, ret0) ← MADB_DeskCheckFldId w h FieldIdentifier MADB_DESC_WRITE;
  d0 ← descs w0 !! h;
  let named := (FieldIdentifier =? SQL_DESC_UNNAMED) && (wraps 16 ValuePtr =? SQL_NAMED) in
  let w1 := if named then desc_fail w0 h d0 MADB_ERR_HY092 else w0 in
  let ret := if named then ReturnValue (MADB_SetError (desc_Error d0) MADB_ERR_HY092 None 0) else ret0 in
  if negb (SQL_SUCCEEDED ret) then Some (w1, ret)
  else
    let d := with_error d0 (MADB_CLEAR_ERROR (desc_Error d0)) in
    let w2 := put_desc w1 h d in
    match assoc FieldIdentifier header_setters with
    | Some f => Some (put_desc w2 h (with_header d (f (Header d) ValuePtr)), SQL_SUCCESS)
    | None =>
        if 0 <? RecNumber then
          '(w3, rec) ← MADB_DescGetInternalRecord mem w2 h (RecNumber - 1) MADB_DESC_WRITE;
          match rec with
          | None => Some (w3, SQL_ERROR)
          | Some i =>
              r ← get_record w3 h i;
              let r1 := match assoc FieldIdentifier number_setters with Some f => f r ValuePtr | None => r end in
              w4 ← put_record w3 h i (after_set (DescType d) FieldIdentifier r1);
              Some (w4, ret)
          end
        else Some (w2, ret)
    end.

(** ** Copying, and the record interface *)

Fixpoint clear_buffers (n : nat) (i : Z) (w : world) (h : positive) : option world :=
  match n with
  | O => Some w
  | S n' =>
      '(w1, rec) ← MADB_DescGetInternalRecord 0 w h (wraps 16 i) MADB_DESC_READ;
      w2 ← match rec with
           | Some j => r ← get_record w1 h j; put_record w1 h j (set_text r InternalBuffer None)
           | None => Some w1
           end;
      clear_buffers n' (i + 1) w2 h
  end.

(** [MADB_DescCopyDesc]; [ok] is the answer of the allocator.  The source is read
    after the records of the destination are gone, as the two may be the same. *)
Definition MADB_DescCopyDesc (ok : bool) (w : world) (Src : option positive) (Dest : positive) : option (world * Z) :=
  match Src with
  | None => Some (w, SQL_INVALID_HANDLE)
  | Some src =>
      d ← descs w !! Dest;
      s ← descs w !! src;
      if DescType d =? MADB_DESC_IRD then Some (desc_fail w Dest d MADB_ERR_HY016, SQL_ERROR)
      else if (DescType s =? MADB_DESC_IRD) && (Count (Header s) =? 0) then
        Some (desc_fail w Dest d MADB_ERR_HY007, SQL_ERROR)
      else
        let d1 := with_records d [] in
        let w1 := put_desc w Dest d1 in
        if negb ok then Some (desc_fail w1 Dest d1 MADB_ERR_HY001, SQL_ERROR)
        else
          s1 ← descs w1 !! src;
          let d2 := MkDesc (Header s1) (DescType s1) (AppType d1) (Records s1) (Stmts d1) (desc_Error s1) in
          w3 ← clear_buffers (length (Records d2)) 0 (put_desc w1 Dest d2) Dest;
          Some (w3, SQL_SUCCESS)
  end.

(** What [MADB_DescGetRec] writes: the name, the type, the interval code, the octet
    length, the precision, the scale and the nullability. *)
Record rec_out := MkRecOut {
  ro_name : option (list Z); ro_length : Z;
  ro_type : Z; ro_subtype : Z; ro_octets : Z; ro_precision : Z; ro_scale : Z; ro_nullable : Z;
}.

Definition MADB_DescGetRec (mem : nat) (w : world) (h : positive) (RecNumber : Z) (Buffer : option (list Z)) (BufferLength : Z)
    : option (world * Z * option rec_out) :=
  d ← descs w !! h;
  let w1 := put_desc w h (with_error d (MADB_CLEAR_ERROR (desc_Error d))) in
  '(w2, rec) ← MADB_DescGetInternalRecord mem w1 h RecNumber MADB_DESC_READ;
  d2 ← descs w2 !! h;
  match rec with
  | None =>
      Some (desc_fail w2 h d2 MADB_ERR_07009, ReturnValue (MADB_SetError (desc_Error d2) MADB_ERR_07009 None 0), None)
  | Some i =>
      r ← get_record w2 h i;
      src ← text_of (blocks w2) (text r BaseColumnName);
      let '(len, b, E) := MADB_SetString Buffer BufferLength src SQL_NTS (desc_Error d2) in
      w3 ← put_record (put_desc w2 h (with_error d2 E)) h i (set_num r Unnamed SQL_NAMED);
      Some (w3, SQL_SUCCESS,
            Some (MkRecOut b (wraps 16 len) (num r Type_) (num r DateTimeIntervalCode) (num r OctetLength)
                    (num r Precision) (num r Scale) (num r Nullable)))
  end.

End DescOps.

(** ** Properties *)

Module DescProps.
Import DescOps.

(** *** Records are found where they were put *)

Lemma grow_records_spec k : forall mem bl type rs, (k <= mem)%nat ->
  exists bl' new, grow_records k mem bl type rs = (true, bl', rs ++ new) /\ length new = k.
Proof.
  induction k as [|k IH]; intros mem bl type rs Hm; cbn [grow_records].
  - exists bl, []. by rewrite app_nil_r.
  - destruct mem as [|mem]; [lia|]. destruct (MADB_DescSetRecordDefaults bl type) as [bl1 r].
    destruct (IH mem bl1 type (rs ++ [r])) as (bl' & new & -> & Hn); [lia|].
    exists bl', (r :: new). rewrite <- app_assoc. cbn. split; [done|lia].
Qed.

(** The record number asked for is there afterwards, and so are all records before
    it, unchanged; the descriptor keeps its type, its owner and its users. *)
Lemma MADB_DescGetInternalRecord_spec mem w h d i mode :
  descs w !! h = Some d -> 0 <= i < 32767 -> (mode = MADB_DESC_READ -> i <= Z.of_nat (length (Records d))) ->
  (Z.to_nat (i + 1) <= length (Records d) + mem)%nat ->
  exists w' d' new, MADB_DescGetInternalRecord mem w h i mode = Some (w', Some i) /\
    descs w' = <[h := d']> (descs w) /\ stmts w' = stmts w /\ Descrs w' = Descrs w /\
    Records d' = Records d ++ new /\ length (Records d') = Nat.max (length (Records d)) (Z.to_nat (i + 1)) /\
    Count (Header d') = Z.max (Count (Header d)) (i + 1) /\
    DescType d' = DescType d /\ AppType d' = AppType d /\ Stmts d' = Stmts d /\ desc_Error d' = desc_Error d.
Proof.
  intros Hd Hi Hr Hm. unfold MADB_DescGetInternalRecord. rewrite Hd. cbn [mbind option_bind].
  assert ((Z.of_nat (length (Records d)) <? i) && (mode =? MADB_DESC_READ) = false) as ->.
  { destruct (Z.eqb_spec mode MADB_DESC_READ) as [E|]; [|by rewrite andb_false_r].
    rewrite (proj2 (Z.ltb_ge _ _)); [done|auto]. }
  destruct (grow_records_spec (Z.to_nat (i + 1 - Z.of_nat (length (Records d)))) mem (blocks w) (DescType d) (Records d))
    as (bl & new & -> & Hn); [lia|].
  eexists _, _, new. split; [reflexivity|]. cbn -[Z.max Nat.max].
  split; [reflexivity|]. cbn -[Z.max Nat.max]. rewrite length_app. split_and!; try done; try lia.
  destruct (Z.ltb_spec (Count (Header d)) (i + 1)); cbn -[wraps Z.max]; [rewrite wraps_id by lia|]; lia.
Qed.

Lemma get_record_at w h d i : descs w !! h = Some d -> 0 <= i -> get_record w h i = Records d !! Z.to_nat i.
Proof. intros Hd Hi. unfold get_record. rewrite Hd. cbn. by rewrite (proj2 (Z.ltb_ge _ _)) by lia. Qed.

(** Reading a record: one beyond the end is reported as 07009, except the first
    one, which is created: the descriptor then has one record more and counts it. *)
Theorem MADB_DescGetInternalRecord_read w h d i mem :
  descs w !! h = Some d -> 0 <= i < 32767 -> (0 < mem)%nat ->
  exists w' d', descs w' !! h = Some d' /\
  MADB_DescGetInternalRecord mem w h i MADB_DESC_READ
    = Some (w', if Z.of_nat (length (Records d)) <? i then None else Some i) /\
  length (Records d') = (length (Records d) + Nat.b2n (i =? Z.of_nat (length (Records d)))%Z)%nat /\
  (i = Z.of_nat (length (Records d)) -> i + 1 <= Count (Header d')) /\
  (Z.of_nat (length (Records d)) < i -> desc_Error d' = MADB_SetError (desc_Error d) MADB_ERR_07009 None 0).
Proof.
  intros Hd Hi Hm. destruct (Z.ltb_spec (Z.of_nat (length (Records d))) i) as [Hl|Hl].
  - unfold MADB_DescGetInternalRecord. rewrite Hd. cbn [mbind option_bind]. rewrite (proj2 (Z.ltb_lt _ _) Hl).
    eexists _, _. split; [|split; [reflexivity|]]; [apply lookup_insert_eq|].
    rewrite (proj2 (Z.eqb_neq _ _)) by lia. cbn. split_and!; try done; lia.
  - destruct (MADB_DescGetInternalRecord_spec mem w h d i MADB_DESC_READ) as (w' & d' & new & E & Hw & _ & _ & _ & HL & HC & _);
      [done|done|lia|lia|].
    exists w', d'. rewrite Hw, lookup_insert_eq. split; [done|]. split; [exact E|].
    rewrite HL, HC. split_and!; try lia. destruct (Z.eqb_spec i (Z.of_nat (length (Records d)))); cbn; lia.
Qed.

(** A world with one descriptor of the given type and [n] records. *)
Definition sample_desc (type : Z) (app : bool) (n : nat) : MADB_Desc :=
  MkDesc (MkHeader 0 1 0 0 0 (Z.of_nat n) 0) type app (replicate n zero_record) [] ErrorProps.zero_error.
Definition sample_world (type : Z) (n : nat) : world := MkWorld {[ 1%positive := sample_desc type false n ]} ∅ [] ∅.

(** Column 3 of a row descriptor with two records. *)
Lemma MADB_DescGetInternalRecord_read_witness :
  exists w' d', descs w' !! 1%positive = Some d' /\
    MADB_DescGetInternalRecord 5 (sample_world MADB_DESC_ARD 2) 1 2 MADB_DESC_READ = Some (w', Some 2) /\
    length (Records d') = 3%nat.
Proof.
  destruct (MADB_DescGetInternalRecord_read (sample_world MADB_DESC_ARD 2) 1 (sample_desc MADB_DESC_ARD false 2) 2 5)
    as (w' & d' & H1 & H2 & H3 & _); [reflexivity|lia|lia|].
  exists w', d'. split; [exact H1|]. split; [exact H2|exact H3].
Defined.

(** *** Writing a field and reading it back *)

(** The value a field keeps of the pointer-sized argument, by its C type. *)
Definition canonical (id v : Z) : Z :=
  if case id [SQL_DESC_DATA_PTR; SQL_DESC_INDICATOR_PTR; SQL_DESC_OCTET_LENGTH_PTR] then wrapu 64 v
  else if case id [SQL_DESC_DATETIME_INTERVAL_PRECISION; SQL_DESC_LENGTH; SQL_DESC_NUM_PREC_RADIX] then wraps 32 v
  else if case id [SQL_DESC_OCTET_LENGTH] then wraps 64 v
  else wraps 16 v.

(** The fields that are written into a record. *)
Definition settable : list Z := number_setters.*1.

Lemma num_set_eq r f v : num (set_num r f v) f = v.
Proof. cbn. apply fn_lookup_insert. Qed.
Lemma num_set_ne r f g v : f <> g -> num (set_num r f v) g = num r g.
Proof. intros. cbn. by apply fn_lookup_insert_ne. Qed.

(** What follows the switch changes only [inUse], and [DataPtr] when another field
    is written. *)
Lemma after_set_num type id r g :
  g <> inUse -> g <> DataPtr \/ id = SQL_DESC_DATA_PTR -> num (after_set type id r) g = num r g.
Proof.
  intros Hu Hg. unfold after_set.
  assert (forall r1, num (if negb (num r1 DataPtr =? 0) || negb (num r1 OctetLengthPtr =? 0)
      || negb (num r1 IndicatorPtr =? 0) then set_num r1 inUse 1 else r1) g = num r1 g) as ->.
  { intros r1. case_match; [by apply num_set_ne|done]. }
  destruct Hg as [Hg| ->]; [|done].
  repeat case_match; try done; by apply num_set_ne.
Qed.

(** A setter puts the canonical value in the field the reader looks at, and the
    unbinding that follows leaves it there. *)
Lemma setter_value id v type r : id ∈ settable ->
  exists f g bytes, assoc id number_setters = Some f /\ assoc id number_fields = Some (bytes, g) /\
    assoc id header_setters = None /\ assoc id header_fields = None /\
    num (after_set type id (f r v)) g = canonical id v.
Proof.
  intros Hid. unfold settable, number_setters in Hid. cbn [fmap list_fmap fst] in Hid.
  apply elem_of_cons in Hid as [->|Hid].
  { eexists _, _, _. do 4 (split; [reflexivity|]). rewrite after_set_num by (try left; discriminate).
    change (canonical SQL_DESC_CONCISE_TYPE v) with (wraps 16 v). cbv beta zeta.
    case_match; rewrite ?(num_set_ne _ DateTimeIntervalCode), (num_set_ne _ Type_), num_set_eq by discriminate; done. }
  repeat (apply elem_of_cons in Hid as [->|Hid];
    [eexists _, _, _; do 4 (split; [reflexivity|]);
     rewrite after_set_num by first [discriminate|left; discriminate|right; reflexivity];
     cbv beta; rewrite ?(num_set_ne _ ConciseType Type_) by discriminate; apply num_set_eq|]).
  by apply elem_of_nil in Hid.
Qed.

(** The access list of a field lets descriptor type [t] do [mode]. *)
Definition allowed (id t mode : Z) : Prop :=
  exists acc a, assoc id MADB_DESC_FLDID = Some acc /\ acc !! Z.to_nat t = Some a /\ Z.land a mode <> 0.

Lemma MADB_DeskCheckFldId_allowed w h d id mode :
  descs w !! h = Some d -> allowed id (DescType d) mode -> MADB_DeskCheckFldId w h id mode = Some (w, SQL_SUCCESS).
Proof.
  intros Hd (acc & a & Ha & Hi & Hm). unfold MADB_DeskCheckFldId. rewrite Hd. cbn [mbind option_bind].
  rewrite Ha. cbn [mbind option_bind]. rewrite Hi. cbn [mbind option_bind]. by rewrite (proj2 (Z.eqb_neq _ _) Hm).
Qed.

(** Writing record [n] of a descriptor that allows it. *)
Lemma MADB_DescSetField_spec mem w h d n id v :
  descs w !! h = Some d -> 1 <= n <= 32767 -> (Z.to_nat n <= length (Records d) + mem)%nat ->
  id ∈ settable -> allowed id (DescType d) MADB_DESC_WRITE ->
  exists w' d' r f, assoc id number_setters = Some f /\
    MADB_DescSetField mem w h n id v = Some (w', SQL_SUCCESS) /\
    descs w' = <[h := d']> (descs w) /\ stmts w' = stmts w /\ Descrs w' = Descrs w /\
    Records d' !! Z.to_nat (n - 1) = Some (after_set (DescType d) id (f r v)) /\
    (forall r0, Records d !! Z.to_nat (n - 1) = Some r0 -> r = r0) /\
    (forall j, j <> Z.to_nat (n - 1) -> (j < length (Records d))%nat -> Records d' !! j = Records d !! j) /\
    length (Records d') = Nat.max (length (Records d)) (Z.to_nat n) /\
    Count (Header d') = Z.max (Count (Header d)) n /\
    DescType d' = DescType d /\ AppType d' = AppType d /\ Stmts d' = Stmts d.
Proof.
  intros Hd Hn Hm Hid Hal. unfold MADB_DescSetField.
  rewrite (MADB_DeskCheckFldId_allowed _ _ _ _ _ Hd Hal). cbn [mbind option_bind]. rewrite Hd. cbn [mbind option_bind].
  assert ((id =? SQL_DESC_UNNAMED) = false) as ->.
  { unfold settable in Hid. apply (proj2 (Z.eqb_neq _ _)). intros ->. revert Hid.
    apply (bool_decide_eq_false_1 _). vm_compute. reflexivity. }
  cbn [andb]. change (SQL_SUCCEEDED SQL_SUCCESS) with true. cbn [negb].
  destruct (setter_value id v (DescType d) zero_record Hid) as (f & g & bytes & Hf & _ & -> & _).
  rewrite Hf. rewrite (proj2 (Z.ltb_lt _ _)) by lia.
  set (d1 := with_error d _). set (w1 := put_desc w h d1).
  destruct (MADB_DescGetInternalRecord_spec mem w1 h d1 (n - 1) MADB_DESC_WRITE)
    as (w2 & d2 & new & -> & Hw & Hs & HD & HR & HL & HC & HT & HA & HS & _);
    [apply lookup_insert_eq|lia|done|cbn; lia|]. cbn [mbind option_bind].
  assert (descs w2 !! h = Some d2) as Hd2 by (rewrite Hw; apply lookup_insert_eq).
  rewrite (get_record_at _ _ _ _ Hd2) by lia.
  destruct (lookup_lt_is_Some_2 (Records d2) (Z.to_nat (n - 1))) as [r Hr]; [rewrite HL; lia|].
  rewrite Hr. cbn [mbind option_bind]. unfold put_record. rewrite Hd2. cbn [mbind option_bind].
  eexists _, _, r, f. split; [done|]. split; [reflexivity|]. cbn -[Nat.max Z.max].
  split; [rewrite Hw; cbn; by rewrite !insert_insert_eq|]. cbn -[Nat.max Z.max].
  rewrite length_insert. replace (Z.to_nat n) with (Z.to_nat (n - 1 + 1)) by lia.
  split_and!; try done; try (by rewrite Hs); try (by rewrite HD).
  - rewrite list_lookup_insert_eq by (rewrite HL; lia). done.
  - intros r0 H0. rewrite HR, lookup_app_l in Hr by (by eapply lookup_lt_Some). cbn in Hr. congruence.
  - intros j Hj Hlt. rewrite list_lookup_insert_ne by done. rewrite HR. cbn. by rewrite lookup_app_l.
  - rewrite HC. cbn. lia.
Qed.

(** Reading a number of a record that is there. *)
Lemma MADB_DescGetField_number mem w h d n id bytes g buf len hl r :
  descs w !! h = Some d -> 1 <= n <= 32767 -> Records d !! Z.to_nat (n - 1) = Some r ->
  assoc id header_fields = None -> assoc id number_fields = Some (bytes, g) -> allowed id (DescType d) MADB_DESC_READ ->
  exists w', MADB_DescGetField mem w h n id buf len hl = Some (w', SQL_SUCCESS, OutNumber bytes (num r g)).
Proof.
  intros Hd Hn Hr Hh Hg Hal. unfold MADB_DescGetField.
  rewrite (MADB_DeskCheckFldId_allowed _ _ _ _ _ Hd Hal). cbn [mbind option_bind].
  change (SQL_SUCCEEDED SQL_SUCCESS) with true. cbn [negb]. rewrite Hd. cbn [mbind option_bind].
  rewrite (proj2 (Z.eqb_neq n 0)) by lia. cbn [negb andb].
  pose proof (lookup_lt_Some _ _ _ Hr) as Hlt.
  set (d1 := with_error d _). set (w1 := put_desc w h d1).
  destruct (MADB_DescGetInternalRecord_spec mem w1 h d1 (n - 1) MADB_DESC_READ)
    as (w2 & d2 & new & -> & Hw & _ & _ & HR & _); [apply lookup_insert_eq|lia|cbn; lia|cbn; lia|].
  cbn [mbind option_bind]. rewrite bool_decide_eq_false_2 by done.
  assert (descs w2 !! h = Some d2) as Hd2 by (rewrite Hw; apply lookup_insert_eq).
  unfold get_field. rewrite Hd2. cbn [mbind option_bind]. rewrite Hh, Hg. cbn [mbind option_bind].
  rewrite (get_record_at _ _ _ _ Hd2) by lia. rewrite HR. cbn [Records with_error d1].
  rewrite lookup_app_l by done. rewrite Hr. cbn [mbind option_bind]. by eexists.
Qed.

(** C34. A number written into a record with [MADB_DescSetField], where the access
    table allows writing and reading it, is read back by [MADB_DescGetField] as the
    value converted to the type of the field; the write creates the record if it is
    not there, and succeeds whenever memory lasts. *)
Theorem SetField_GetField_roundtrip mem mem' w h d n id v buf len hl :
  descs w !! h = Some d -> 1 <= n <= 32767 -> (Z.to_nat n <= length (Records d) + mem)%nat -> id ∈ settable ->
  allowed id (DescType d) MADB_DESC_WRITE -> allowed id (DescType d) MADB_DESC_READ ->
  exists w1 w2 bytes, MADB_DescSetField mem w h n id v = Some (w1, SQL_SUCCESS) /\
    MADB_DescGetField mem' w1 h n id buf len hl = Some (w2, SQL_SUCCESS, OutNumber bytes (canonical id v)).
Proof.
  intros Hd Hn Hm Hid Hw Hr.
  destruct (MADB_DescSetField_spec mem w h d n id v Hd Hn Hm Hid Hw)
    as (w1 & d1 & r & f & Hf & E & Hw1 & _ & _ & Hrec & _ & _ & _ & _ & HT & _).
  destruct (setter_value id v (DescType d) r Hid) as (f' & g & bytes & Hf' & Hg & _ & Hh & Hv).
  replace f' with f in Hv by congruence.
  destruct (MADB_DescGetField_number mem' w1 h d1 n id bytes g buf len hl (after_set (DescType d) id (f r v)))
    as [w2 E2]; try done; [rewrite Hw1; apply lookup_insert_eq|by rewrite HT|].
  exists w1, w2, bytes. by rewrite E2, Hv.
Qed.

Lemma SetField_GetField_roundtrip_witness :
  exists w1 w2 bytes, MADB_DescSetField 40 (sample_world MADB_DESC_ARD 2) 1 4 SQL_DESC_PRECISION 70000 = Some (w1, SQL_SUCCESS) /\
    MADB_DescGetField 0 w1 1 4 SQL_DESC_PRECISION None 0 false = Some (w2, SQL_SUCCESS, OutNumber bytes 4464).
Proof.
  destruct (SetField_GetField_roundtrip 40 0 (sample_world MADB_DESC_ARD 2) 1 (sample_desc MADB_DESC_ARD false 2)
    4 SQL_DESC_PRECISION 70000 None 0 false) as (w1 & w2 & bytes & H1 & H2);
    [reflexivity|lia|cbn; lia|apply (bool_decide_eq_true_1 _); vm_compute; reflexivity|
     eexists _, _; do 2 (split; [reflexivity|]); discriminate|
     eexists _, _; do 2 (split; [reflexivity|]); discriminate|].
  exists w1, w2, bytes. split; [exact H1|exact H2].
Defined.

(** *** Where the two record interfaces disagree *)

(** [MADB_DescGetRec] counts records from 0, [MADB_DescGetField] from 1: for
    record number [n] the first returns the type the second returns for [n + 1],
    though both get the number of the application unchanged. *)
Theorem MADB_DescGetRec_off_by_one mem w h d n r buf len hl :
  descs w !! h = Some d -> 0 <= n < 32767 -> Records d !! Z.to_nat n = Some r -> text r BaseColumnName = None ->
  allowed SQL_DESC_TYPE (DescType d) MADB_DESC_READ ->
  exists w1 w2 out, MADB_DescGetRec mem w h n buf len = Some (w1, SQL_SUCCESS, Some out) /\
    MADB_DescGetField mem w h (n + 1) SQL_DESC_TYPE buf len hl = Some (w2, SQL_SUCCESS, OutNumber 4 (num r Type_)) /\
    ro_type out = num r Type_.
Proof.
  intros Hd Hn Hr Ht Hal.
  destruct (MADB_DescGetField_number mem w h d (n + 1) SQL_DESC_TYPE 4 Type_ buf len hl r) as [w2 E2];
    try done; [lia|by replace (n + 1 - 1) with n by lia|].
  pose proof (lookup_lt_Some _ _ _ Hr) as Hlt.
  unfold MADB_DescGetRec. rewrite Hd. cbn [mbind option_bind]. set (d1 := with_error d _). set (w1 := put_desc w h d1).
  destruct (MADB_DescGetInternalRecord_spec mem w1 h d1 n MADB_DESC_READ)
    as (w3 & d3 & new & -> & Hw & _ & _ & HR & _); [apply lookup_insert_eq|lia|cbn; lia|cbn; lia|].
  cbn [mbind option_bind]. assert (descs w3 !! h = Some d3) as Hd3 by (rewrite Hw; apply lookup_insert_eq).
  rewrite Hd3. cbn [mbind option_bind]. rewrite (get_record_at _ _ _ _ Hd3), HR by lia. cbn [Records with_error d1].
  rewrite lookup_app_l, Hr by done. cbn [mbind option_bind]. rewrite Ht. cbn [text_of mbind option_bind].
  destruct (MADB_SetString buf len None SQL_NTS (desc_Error d3)) as [[l b] E].
  unfold put_record. cbn [put_desc descs]. rewrite lookup_insert_eq. cbn [mbind option_bind].
  eexists _, w2, _. split; [reflexivity|]. done.
Qed.

Definition two_types : MADB_Desc :=
  MkDesc (MkHeader 0 1 0 0 0 2 0) MADB_DESC_ARD false
    [set_num zero_record Type_ SQL_C_LONG; set_num zero_record Type_ SQL_C_CHAR] [] ErrorProps.zero_error.

(** The first record of the application is SQL_C_LONG, [MADB_DescGetRec] answers SQL_C_CHAR. *)
Lemma MADB_DescGetRec_off_by_one_witness :
  exists w1 w2 out,
    MADB_DescGetRec 0 (MkWorld {[ 1%positive := two_types ]} ∅ [] ∅) 1 1 None 0 = Some (w1, SQL_SUCCESS, Some out) /\
    MADB_DescGetField 0 (MkWorld {[ 1%positive := two_types ]} ∅ [] ∅) 1 2 SQL_DESC_TYPE None 0 false
      = Some (w2, SQL_SUCCESS, OutNumber 4 SQL_C_CHAR) /\ ro_type out = SQL_C_CHAR.
Proof.
  apply (MADB_DescGetRec_off_by_one 0 (MkWorld {[ 1%positive := two_types ]} ∅ [] ∅) 1 two_types 1
    (set_num zero_record Type_ SQL_C_CHAR) None 0 false);
    [reflexivity|lia|reflexivity|reflexivity|eexists _, _; do 2 (split; [reflexivity|]); discriminate].
Defined.

(** A descriptor the application allocates has no role until it is assigned to a
    statement; its type is then no index of the access table, and checking any
    field reads out of range. *)
Theorem fresh_descriptor_unchecked prefix server w h w' r id acc mode :
  MADB_DescInit prefix server w (Some h) true true MADB_DESC_UNKNOWN true = Some (w', r) ->
  assoc id MADB_DESC_FLDID = Some acc -> MADB_DeskCheckFldId w' h id mode = None.
Proof.
  unfold MADB_DescInit. case_match; [done|]. intros [= <- <-] Hid. unfold MADB_DeskCheckFldId. cbn [descs].
  rewrite lookup_insert_eq. cbn [mbind option_bind]. rewrite Hid. cbn [mbind option_bind DescType].
  assert (Forall (fun e => length (snd e) = 4%nat) MADB_DESC_FLDID) as HF
    by (apply (bool_decide_eq_true_1 _); vm_compute; reflexivity).
  assert (length acc = 4%nat) as HL.
  { clear -Hid HF. induction HF as [|[k x] l Hx HF IH]; cbn in Hid; [done|]. destruct (id =? k); [|auto].
    injection Hid as ->. exact Hx. }
  rewrite lookup_ge_None_2; [done|]. rewrite HL. vm_compute. lia.
Qed.

(** *** Copying a descriptor *)

Lemma release_all_live bl ps bl' b :
  release_all bl ps = Some bl' -> Some (Block b) ∈ ps -> is_Some (bl !! b) /\ bl' !! b = None.
Proof.
  assert (forall ps bl bl' c, release_all bl ps = Some bl' -> is_Some (bl' !! c) -> is_Some (bl !! c)) as Hmono.
  { clear. induction ps as [|p ps IH]; intros bl bl' c H Hc; cbn in H; [by injection H as ->|].
    destruct (release bl p) as [bl1|] eqn:E; cbn in H; [|done]. apply (IH _ _ _ H) in Hc.
    destruct p as [[s|x]|]; cbn in E; simplify_eq; [|done].
    destruct (bl !! x); simplify_eq. destruct Hc as [y Hc]. apply lookup_delete_Some in Hc as [_ Hc]. by eexists. }
  revert bl. induction ps as [|p ps IH]; intros bl H Hin; [by apply elem_of_nil in Hin|]. cbn in H.
  destruct (release bl p) as [bl1|] eqn:E; cbn in H; [|done].
  apply elem_of_cons in Hin as [<-|Hin].
  - cbn in E. destruct (bl !! b) eqn:Eb; simplify_eq. split; [by eexists|].
    destruct (bl' !! b) eqn:E'; [|done]. destruct (Hmono _ _ _ b H) as [y Hy]; [by eexists|].
    by rewrite lookup_delete_eq in Hy.
  - destruct (IH _ H Hin) as [H1 H2]. split; [|done].
    destruct p as [[s|x]|]; cbn in E; simplify_eq; [|done].
    destruct (bl !! x); simplify_eq. destruct H1 as [y H1]. apply lookup_delete_Some in H1 as [_ H1]. by eexists.
Qed.

Lemma MADB_DescGetInternalRecord_in mem w h d i mode :
  descs w !! h = Some d -> 0 <= i < Z.of_nat (length (Records d)) ->
  exists hd, MADB_DescGetInternalRecord mem w h i mode = Some (put_desc w h (with_header d hd), Some i).
Proof.
  intros Hd Hi. unfold MADB_DescGetInternalRecord. rewrite Hd. cbn [mbind option_bind].
  rewrite (proj2 (Z.ltb_ge _ _)) by lia. cbn [andb].
  replace (Z.to_nat (i + 1 - Z.of_nat (length (Records d)))) with 0%nat by lia. cbn [grow_records].
  by eexists.
Qed.

(** The loop clears one pointer of every record and touches no block. *)
Lemma clear_buffers_spec n : forall i w h d,
  descs w !! h = Some d -> 0 <= i -> i + Z.of_nat n = Z.of_nat (length (Records d)) -> Z.of_nat (length (Records d)) <= 32767 ->
  exists d', clear_buffers n i w h = Some (put_desc w h d') /\ DescType d' = DescType d /\ AppType d' = AppType d /\
    Stmts d' = Stmts d /\ length (Records d') = length (Records d) /\
    forall j r, Records d !! j = Some r -> exists r', Records d' !! j = Some r' /\
      forall f, f <> InternalBuffer -> text r' f = text r f.
Proof.
  induction n as [|n IH]; intros i w h d Hd Hi Hn Hs; cbn [clear_buffers].
  - exists d. split_and!; try done; [|by eauto]. f_equal. unfold put_desc. rewrite insert_id by done. by destruct w.
  - rewrite wraps_id by lia.
    destruct (MADB_DescGetInternalRecord_in 0 w h d i MADB_DESC_READ Hd) as [hd ->]; [lia|]. cbn [mbind option_bind].
    destruct (lookup_lt_is_Some_2 (Records d) (Z.to_nat i)) as [r Hr]; [lia|].
    rewrite (get_record_at _ _ (with_header d hd) i) by (done || apply lookup_insert_eq). cbn [Records with_header].
    rewrite Hr. cbn [mbind option_bind]. unfold put_record. cbn [put_desc descs]. rewrite lookup_insert_eq.
    cbn [mbind option_bind]. set (d1 := with_records _ _). set (w1 := put_desc _ h d1).
    destruct (IH (i + 1) w1 h d1) as (d' & -> & HT & HA & HS & HL & Hf); try lia;
      [apply lookup_insert_eq|cbn; rewrite length_insert; lia|cbn; rewrite length_insert; lia|].
    exists d'. cbn in HL. rewrite length_insert in HL. split_and!; try done.
    + f_equal. unfold w1, put_desc. cbn. by rewrite !insert_insert_eq.
    + intros j r0 Hj. destruct (decide (j = Z.to_nat i)) as [->|Hne].
      * destruct (Hf (Z.to_nat i) (set_text r InternalBuffer None)) as (r' & Hr' & Ht).
        { cbn. rewrite list_lookup_insert_eq by lia. done. }
        exists r'. split; [done|]. intros f Hne. rewrite Ht by done. cbn.
        rewrite fn_lookup_insert_ne by done. by simplify_eq.
      * destruct (Hf j r0) as (r' & Hr' & Ht); [cbn; by rewrite list_lookup_insert_ne|]. by eauto.
Qed.

Lemma elem_of_freed r rs type f p : r ∈ rs -> f ∈ freed_fields type -> text r f = p ->
  p ∈ (r ← rs; text r <$> freed_fields type).
Proof. intros Hr Hf <-. apply list_elem_of_bind. exists r. split; [|done]. by apply list_elem_of_fmap_2. Qed.

(** Two descriptors whose records share a block that freeing either of them frees
    cannot both be freed. *)
Lemma free_twice w y z t u b w2 :
  y <> z -> descs w !! y = Some t -> descs w !! z = Some u ->
  Some (Block b) ∈ (r ← Records t; text r <$> freed_fields (DescType t)) ->
  Some (Block b) ∈ (r ← Records u; text r <$> freed_fields (DescType u)) ->
  MADB_DescFree w y false = Some w2 -> MADB_DescFree w2 z false = None.
Proof.
  intros Hyz Hy Hz My Mz F1. unfold MADB_DescFree in F1. rewrite Hy in F1. cbn [mbind option_bind] in F1.
  unfold release_records in F1. destruct (release_all (blocks w) _) as [bl|] eqn:R1; [|done].
  cbn [mbind option_bind] in F1.
  assert (descs w2 !! z = Some u /\ blocks w2 = bl) as [Hz2 Hbl].
  { destruct (AppType t).
    - destruct (detach_all _ _ _); [|done]. cbn [mbind option_bind] in F1. destruct (unlink _ _); [|done].
      cbn [mbind option_bind] in F1. injection F1 as <-. cbn [descs blocks]. by rewrite lookup_delete_ne.
    - injection F1 as <-. cbn [descs blocks]. by rewrite lookup_delete_ne. }
  apply release_all_live with (b := b) in R1 as [_ Hgone]; [|done].
  unfold MADB_DescFree, release_records. rewrite Hz2. cbn [mbind option_bind].
  rewrite Hbl. destruct (release_all bl _) eqn:R2; [|done].
  apply release_all_live with (b := b) in R2 as [[? Hlive] _]; [|done]. congruence.
Qed.

(** What a successful copy leaves in the two descriptors. *)
Lemma MADB_DescCopyDesc_spec w src dest s d w1 :
  src <> dest -> descs w !! src = Some s -> descs w !! dest = Some d -> Z.of_nat (length (Records s)) <= 32767 ->
  MADB_DescCopyDesc true w (Some src) dest = Some (w1, SQL_SUCCESS) ->
  exists d', descs w1 = <[dest := d']> (descs w) /\ stmts w1 = stmts w /\ Descrs w1 = Descrs w /\ blocks w1 = blocks w /\
    DescType d' = DescType s /\ AppType d' = AppType d /\ Stmts d' = Stmts d /\
    forall j r, Records s !! j = Some r -> exists r', Records d' !! j = Some r' /\
      forall f, f <> InternalBuffer -> text r' f = text r f.
Proof.
  intros Hne Hs Hd Hlen Hc. unfold MADB_DescCopyDesc in Hc. rewrite Hd, Hs in Hc.
  cbn [mbind option_bind] in Hc. destruct (DescType d =? MADB_DESC_IRD); [done|].
  destruct ((DescType s =? MADB_DESC_IRD) && (Count (Header s) =? 0)); [done|]. cbn [negb] in Hc.
  cbn [put_desc descs] in Hc. rewrite lookup_insert_ne, Hs in Hc by done. cbn [mbind option_bind] in Hc.
  set (d2 := MkDesc _ _ _ _ _ _) in Hc. set (w0 := put_desc _ dest d2) in Hc.
  destruct (clear_buffers_spec (length (Records d2)) 0 w0 dest d2) as (d' & E & HT' & HA & HS & _ & Hf);
    [apply lookup_insert_eq|lia|cbn; lia|done|].
  rewrite E in Hc. cbn [mbind option_bind] in Hc. injection Hc as <-. exists d'.
  cbn. split_and!; try done. by rewrite !insert_insert_eq.
Qed.

(** Copying an implementation descriptor copies the pointers of its records but
    not the names behind them ("Since we never allocate pointers we can just copy
    content"): whichever of the two descriptors is freed first, freeing the other
    one frees a name twice. *)
Theorem MADB_DescCopyDesc_double_free w src dest s d i r b w1 w2 x :
  src <> dest -> descs w !! src = Some s -> descs w !! dest = Some d ->
  DescType s = MADB_DESC_IPD \/ DescType s = MADB_DESC_IRD ->
  Z.of_nat (length (Records s)) <= 32767 -> Records s !! i = Some r -> text r TypeName = Some (Block b) ->
  MADB_DescCopyDesc true w (Some src) dest = Some (w1, SQL_SUCCESS) ->
  x = src \/ x = dest -> MADB_DescFree w1 x false = Some w2 ->
  MADB_DescFree w2 (if bool_decide (x = src) then dest else src) false = None.
Proof.
  intros Hne Hs Hd HT Hlen Hr Hb Hc Hx H1.
  destruct (MADB_DescCopyDesc_spec _ _ _ _ _ _ Hne Hs Hd Hlen Hc) as (d' & Hw & _ & _ & _ & HT' & _ & _ & Hf).
  destruct (Hf i r Hr) as (r' & Hr' & Ht'). specialize (Ht' TypeName ltac:(done)). rewrite Hb in Ht'.
  assert (TypeName ∈ freed_fields (DescType s)) as Hin
    by (destruct HT as [-> | ->]; apply (bool_decide_eq_true_1 _); vm_compute; reflexivity).
  assert (descs w1 !! src = Some s) as Hs1 by (rewrite Hw; by rewrite lookup_insert_ne).
  assert (descs w1 !! dest = Some d') as Hd1 by (rewrite Hw; apply lookup_insert_eq).
  assert (Some (Block b) ∈ (r ← Records s; text r <$> freed_fields (DescType s))) as Ms
    by (eapply elem_of_freed; [by eapply list_elem_of_lookup_2|done|done]).
  assert (Some (Block b) ∈ (r ← Records d'; text r <$> freed_fields (DescType d'))) as Md
    by (rewrite HT'; eapply elem_of_freed; [by eapply list_elem_of_lookup_2|done|done]).
  destruct Hx as [-> | ->].
  - rewrite bool_decide_eq_true_2 by done. by eapply (free_twice w1 src dest).
  - rewrite bool_decide_eq_false_2 by done. by eapply (free_twice w1 dest src).
Qed.

(** A parameter descriptor of a statement copied to one of the application. *)
Definition copy_world : world :=
  MkWorld {[ 1%positive := MkDesc (MkHeader 0 1 0 0 0 1 0) MADB_DESC_IPD false
               [set_text zero_record TypeName (Some (Block 7))] [] ErrorProps.zero_error;
             2%positive := sample_desc MADB_DESC_UNKNOWN true 0 ]} ∅ [2%positive] {[ 7%positive := chars "VARCHAR" ]}.

Lemma MADB_DescCopyDesc_double_free_witness :
  exists w1 w2, MADB_DescCopyDesc true copy_world (Some 1%positive) 2 = Some (w1, SQL_SUCCESS) /\
    MADB_DescFree w1 1 false = Some w2 /\ MADB_DescFree w2 2 false = None.
Proof.
  eexists _, _. split; [vm_compute; reflexivity|]. split; [vm_compute; reflexivity|].
  eapply (MADB_DescCopyDesc_double_free copy_world 1 2 _ _ 0 _ 7 _ _ 1);
    [done|reflexivity|reflexivity|left; reflexivity|cbn; lia|reflexivity|reflexivity|
     vm_compute; reflexivity|left; reflexivity|vm_compute; reflexivity].
Defined.

End DescProps.
