(* ===== verification/Ird.v ===== *)
(** * Ird: describing the columns of a result

    Models the functions of [ma_desc.c] that fill the implementation row descriptor
    from the metadata of a result ([MADB_SetIrdRecord], [MADB_DescSetIrdMetadata]) and
    that correct it for results the driver makes up ([MADB_FixOctetLength],
    [MADB_FixDisplaySize], [MADB_FixDataSize], [MADB_FixIrdRecord],
    [MADB_FixColumnDataTypes]), on the records of Desc.v and the type tables of
    SqlTypes.v.  The number of bytes a character of a character set takes at most is a
    function of the set's number, [maxlen]; the connection's set has [mbmaxlen]. *)

From Stdlib Require Import ZArith Lia.
From stdpp Require Import base strings numbers option gmap list functions.
From S2P Require Import Prelude Decimal Odbc Errors SqlTypes Desc.
Import ErrorOps SqlTypes DescOps.

(** A column of the result. *)
Record column := MkColumnInfo {
  co_field : MYSQL_FIELD;
  co_db : option (list Z);
  co_table : option (list Z);
  co_name : option (list Z);
  co_org_table : option (list Z);
  co_org_name : option (list Z);
}.

(** What the functions read of statement and connection. *)
Record ird_config := MkIrdConfig {
  IsAnsi : bool;
  UseWcharTypes : bool;
  maxlen : Z -> option Z;
  mbmaxlen : Z;
  ic_fake_result : bool;
}.

(** How the driver wants a column of its own results described. *)
Record MADB_ShortTypeInfo := MkShort {
  SqlType : Z;
  st_Unsigned : bool;
  st_Nullable : Z;
  st_OctetLength : Z;
  st_CharacterLength : Z;
}.

Module Ird.

Notation "r '.[' f ']'" := (num r f) (at level 2, format "r .[ f ]").
Notation "r '.[' f ':=' v ']'" := (set_num r f v) (at level 2, left associativity, format "r .[ f := v ]").

Definition truth (b : bool) : Z := if b then SQL_TRUE else SQL_FALSE.

(** ** The parts both fillers share *)

(** The verbose type, the code of date and time types, and whether a column can be
    searched. *)
Definition verbose_type (ConciseType : Z) : Z :=
  if case ConciseType [SQL_TYPE_DATE; SQL_DATE; SQL_TYPE_TIME; SQL_TIME; SQL_TYPE_TIMESTAMP; SQL_TIMESTAMP]
  then SQL_DATETIME else ConciseType.

Definition interval_code (ConciseType old : Z) : Z :=
  if case ConciseType [SQL_TYPE_DATE] then SQL_CODE_DATE
  else if case ConciseType [SQL_TYPE_TIME] then SQL_CODE_TIME
  else if case ConciseType [SQL_TYPE_TIMESTAMP] then SQL_CODE_TIMESTAMP
  else old.

Definition searchable (ConciseType : Z) : Z :=
  if case ConciseType [SQL_LONGVARCHAR; SQL_WLONGVARCHAR; SQL_LONGVARBINARY] then SQL_PRED_CHAR else SQL_SEARCHABLE.

Definition set_type_fields (r : MADB_DescRecord) : MADB_DescRecord :=
  let t := r.[ConciseType] in
  r.[Type_ := verbose_type t].[DateTimeIntervalCode := interval_code t r.[DateTimeIntervalCode]].[Searchable := searchable t].

Definition set_literals (r : MADB_DescRecord) (prefix suffix : string) : MADB_DescRecord :=
  set_text (set_text r LiteralPrefix (Some (Literal (chars prefix)))) LiteralSuffix (Some (Literal (chars suffix))).

(** ** From the metadata of a result *)

(** [MADB_RESET] of a text with one that is stored elsewhere. *)
Definition MADB_RESET (f : text_field) (s : option (list Z)) (x : gmap positive (list Z) * MADB_DescRecord)
    : option (gmap positive (list Z) * MADB_DescRecord) :=
  let '(bl, r) := x in
  bl1 ← release bl (text r f);
  Some (match s with
        | Some l => let '(bl2, p) := strdup bl1 l in (bl2, set_text r f (Some p))
        | None => (bl1, set_text r f None)
        end).

(** The numbers that come with the type of the column. *)
Definition set_numbers (f : MYSQL_FIELD) (r : MADB_DescRecord) : MADB_DescRecord :=
  let t := ftype f in
  if case t [MYSQL_TYPE_DECIMAL; MYSQL_TYPE_NEWDECIMAL] then
    let r1 := r.[NumPrecRadix := 10].[Scale := wraps 16 (decimals f)] in
    let p := wraps 16 (wraps 16 (flength f) - Z.b2z (r1.[Unsigned] =? SQL_FALSE) - Z.b2z (0 <? r1.[Scale])) in
    r1.[Precision := if p =? 0 then r1.[Scale] else p]
  else if case t [MYSQL_TYPE_DOUBLE] then r.[NumPrecRadix := 10].[Precision := 15]
  else if case t [MYSQL_TYPE_FLOAT] then r.[NumPrecRadix := 10].[Precision := 7]
  else if case t [MYSQL_TYPE_TINY; MYSQL_TYPE_SHORT; MYSQL_TYPE_INT24; MYSQL_TYPE_LONG; MYSQL_TYPE_LONGLONG; MYSQL_TYPE_YEAR]
  then r.[NumPrecRadix := 10]
  else if case t [MYSQL_TYPE_TIMESTAMP; MYSQL_TYPE_TIME; MYSQL_TYPE_DATETIME]
  then r.[Scale := wraps 16 (decimals f)].[NumPrecRadix := 0]
  else r.[NumPrecRadix := 0].

Definition is_text_type (t : Z) : bool :=
  case t [MYSQL_TYPE_BLOB; MYSQL_TYPE_LONG_BLOB; MYSQL_TYPE_MEDIUM_BLOB; MYSQL_TYPE_STRING; MYSQL_TYPE_TINY_BLOB; MYSQL_TYPE_VAR_STRING].

(** The concise type: wide for the Unicode driver. *)
Definition concise_type (c : ird_config) (f : MYSQL_FIELD) : Z :=
  let t := MapMariadDbToOdbcType f in
  if negb (IsAnsi c) && UseWcharTypes c && is_text_type (ftype f) && negb (flag f BINARY_FLAG) then MADB_GetWCharType t else t.

Definition column_literals (f : MYSQL_FIELD) (r : MADB_DescRecord) : MADB_DescRecord :=
  if is_text_type (ftype f) && flag f BINARY_FLAG then set_literals r "0x" ""
  else if is_text_type (ftype f) || case (ftype f) [MYSQL_TYPE_DATE; MYSQL_TYPE_DATETIME; MYSQL_TYPE_NEWDATE; MYSQL_TYPE_TIME;
       MYSQL_TYPE_TIMESTAMP; MYSQL_TYPE_YEAR] then set_literals r "'" "'"
  else set_literals r "" "".

(** What the flags of the column say. *)
Definition set_flags (co : column) (r : MADB_DescRecord) : MADB_DescRecord :=
  let f := co_field co in
  r.[AutoUniqueValue := truth (flag f AUTO_INCREMENT_FLAG)].[CaseSensitive := truth (flag f BINARY_FLAG)]
   .[Nullable := if flag f NOT_NULL_FLAG then SQL_NO_NULLS else SQL_NULLABLE].[Unsigned := truth (flag f UNSIGNED_FLAG)]
   .[Updateable := match co_table co with Some (x :: _) => if x =? 0 then SQL_ATTR_READONLY else SQL_ATTR_READWRITE_UNKNOWN
                                        | _ => SQL_ATTR_READONLY end].

(** The sizes; they are stored in 64-bit signed variables. *)
Definition set_sizes (c : ird_config) (f : MYSQL_FIELD) (r : MADB_DescRecord) : MADB_DescRecord :=
  let r1 := r.[DisplaySize := wraps 64 (MADB_GetDisplaySize f (maxlen c (charsetnr f)))]
             .[OctetLength := wraps 64 (MADB_GetOctetLength f)] in
  r1.[Length := wrapu 64 (MADB_GetDataSize r1.[ConciseType] (wraps 64 (flength f)) (r1.[Unsigned] =? SQL_TRUE) r1.[Precision]
        r1.[Scale] (default 1 (maxlen c (charsetnr f))))].

Definition MADB_SetIrdRecord (c : ird_config) (co : column) (bl : gmap positive (list Z)) (r : MADB_DescRecord)
    : option (gmap positive (list Z) * MADB_DescRecord) :=
  let f := co_field co in
  x1 ← MADB_RESET CatalogName (co_db co) (bl, r);
  x2 ← MADB_RESET TableName (co_table co) x1;
  x3 ← MADB_RESET ColumnName (co_name co) x2;
  x4 ← MADB_RESET BaseTableName (co_org_table co) x3;
  '(bl5, r5) ← MADB_RESET BaseColumnName (co_org_name co) x4;
  let r6 := set_numbers f (set_flags co r5) in
  let r7 := set_sizes c f (set_type_fields r6.[ConciseType := concise_type c f]) in
  '(bl8, r8) ← MADB_RESET TypeName (Some (chars (MADB_GetTypeName f))) (bl5, r7);
  Some (bl8, column_literals f r8).

(** The columns of a result, one after the other; [true] when a record could not be
    had. *)
Fixpoint set_columns (c : ird_config) (mem : nat) (h : positive) (i : Z) (cols : list column) (w : world) : option (bool * world) :=
  match cols with
  | [] => Some (false, w)
  | co :: cols' =>
      '(w1, p) ← MADB_DescGetInternalRecord mem w h i MADB_DESC_WRITE;
      match p with
      | None => Some (true, w1)
      | Some j =>
          r ← get_record w1 h j;
          '(bl, r') ← MADB_SetIrdRecord c co (blocks w1) r;
          w2 ← put_record (put_blocks w1 bl) h j r';
          set_columns c mem h (i + 1) cols' w2
      end
  end.

Definition MADB_DescSetIrdMetadata (c : ird_config) (mem : nat) (h : positive) (cols : list column) (w : world)
    : option (bool * world) :=
  d ← descs w !! h;
  set_columns c mem h 0 cols (put_desc w h (with_header d (set_Count (Header d) 0))).

(** ** For the driver's own results *)

Definition fixed_octets (t old : Z) : Z :=
  if case t [SQL_BIT; SQL_TINYINT] then 1
  else if case t [SQL_SMALLINT] then 2
  else if case t [SQL_INTEGER; SQL_REAL] then 4
  else if case t [SQL_BIGINT; SQL_DOUBLE] then 8
  else if case t [SQL_TYPE_DATE] then sizeof_SQL_DATE_STRUCT
  else if case t [SQL_TYPE_TIME] then sizeof_SQL_TIME_STRUCT
  else if case t [SQL_TYPE_TIMESTAMP] then sizeof_SQL_TIMESTAMP_STRUCT
  else Z.min S2_1_GB old.

Definition MADB_FixOctetLength (r : MADB_DescRecord) : MADB_DescRecord :=
  r.[OctetLength := fixed_octets r.[ConciseType] r.[OctetLength]].

(** [charset] is the number of bytes of a character, [None] for no character set. *)
Definition fixed_display (charset : option Z) (t : Z) (unsigned : bool) (precision scale octets : Z) : Z :=
  if case t [SQL_BIT] then 1
  else if case t [SQL_TINYINT] then 4 - Z.b2z unsigned
  else if case t [SQL_SMALLINT] then 6 - Z.b2z unsigned
  else if case t [SQL_INTEGER] then 11 - Z.b2z unsigned
  else if case t [SQL_REAL] then 14
  else if case t [SQL_BIGINT] then 20
  else if case t [SQL_FLOAT; SQL_DOUBLE] then 24
  else if case t [SQL_DECIMAL; SQL_NUMERIC] then precision + 2
  else if case t [SQL_TYPE_DATE] then SQL_DATE_LEN
  else if case t [SQL_TYPE_TIME] then SQL_TIME_LEN + MADB_FRACTIONAL_PART scale
  else if case t [SQL_TYPE_TIMESTAMP] then SQL_TIMESTAMP_LEN + MADB_FRACTIONAL_PART scale
  else if case t [SQL_BINARY; SQL_VARBINARY; SQL_LONGVARBINARY] then wraps 64 (octets * 2)
  else if case t [SQL_GUID] then 36
  else match charset with
       | None => octets
       | Some m => if m <? 2 then octets else Z.quot octets m
       end.

Definition MADB_FixDisplaySize (charset : option Z) (r : MADB_DescRecord) : MADB_DescRecord :=
  r.[DisplaySize := fixed_display charset r.[ConciseType] (r.[Unsigned] =? SQL_TRUE) r.[Precision] r.[Scale] r.[OctetLength]].

Definition MADB_FixDataSize (mbmaxlen : Z) (r : MADB_DescRecord) : MADB_DescRecord :=
  r.[Length := wrapu 64 (MADB_GetDataSize r.[ConciseType] r.[OctetLength] (r.[Unsigned] =? 1) r.[Precision] r.[Scale] mbmaxlen)].

Definition fixed_radix (t : Z) : Z :=
  if case t [SQL_DECIMAL; SQL_DOUBLE; SQL_REAL; SQL_TINYINT; SQL_SMALLINT; SQL_INTEGER; SQL_BIGINT] then 10 else 0.
Definition fixed_precision (t octets old : Z) : Z :=
  if case t [SQL_DECIMAL] then wraps 16 (wraps 16 octets - 2)
  else if case t [SQL_DOUBLE] then 15
  else if case t [SQL_REAL] then 7
  else old.

Definition fix_numbers (r : MADB_DescRecord) : MADB_DescRecord :=
  let t := r.[ConciseType] in
  r.[NumPrecRadix := fixed_radix t].[Precision := fixed_precision t r.[OctetLength] r.[Precision]].

Definition fix_literals (r : MADB_DescRecord) : MADB_DescRecord :=
  let t := r.[ConciseType] in
  if case t [SQL_BINARY; SQL_VARBINARY; SQL_LONGVARBINARY] then set_literals r "0x" ""
  else if case t [SQL_TYPE_DATE; SQL_TYPE_TIME; SQL_TYPE_TIMESTAMP] then set_literals r "'" "'"
  else set_literals r "" "".

Definition MADB_FixIrdRecord (c : ird_config) (r : MADB_DescRecord) : MADB_DescRecord :=
  let r1 := MADB_FixDisplaySize (Some (mbmaxlen c)) (set_type_fields (fix_numbers (MADB_FixOctetLength r))) in
  fix_literals (if ic_fake_result c then r1 else MADB_FixDataSize (mbmaxlen c) r1).

(** What [MADB_FixColumnDataTypes] does to one record. *)
Definition fix_column (c : ird_config) (i : MADB_ShortTypeInfo) (r : MADB_DescRecord) : MADB_DescRecord :=
  if SqlType i =? 0 then r
  else
    let r1 := r.[ConciseType := SqlType i].[Nullable := st_Nullable i].[Unsigned := truth (st_Unsigned i)] in
    let r2 := MADB_FixIrdRecord c (if 0 <? st_OctetLength i then r1.[OctetLength := st_OctetLength i] else r1) in
    if 0 <? st_CharacterLength i then r2.[Length := st_CharacterLength i] else r2.

(** [MADB_FixColumnDataTypes]: the types of the columns from [i] on; [None] when the
    array is shorter than the descriptor says. *)
Fixpoint fix_columns (c : ird_config) (infos : nat -> option MADB_ShortTypeInfo) (n i : nat) (rs : list MADB_DescRecord)
    : option (list MADB_DescRecord) :=
  match n with
  | O => Some rs
  | S n' =>
      info ← infos i;
      if SqlType info =? 0 then fix_columns c infos n' (S i) rs
      else r ← rs !! i; fix_columns c infos n' (S i) (<[i := fix_column c info r]> rs)
  end.

Definition MADB_FixColumnDataTypes (c : ird_config) (infos : nat -> option MADB_ShortTypeInfo) (d : MADB_Desc) : option MADB_Desc :=
  rs ← fix_columns c infos (Z.to_nat (Count (Header d))) 0 (Records d); Some (with_records d rs).

End Ird.

(** ** Properties *)

Module IrdProps.
Import Ird DescProps.

Ltac read_fields := repeat first [rewrite num_set_eq | rewrite num_set_ne by discriminate].

(** *** Correcting a column *)

(** What each step does to the fields of a record. *)
Lemma FixOctetLength_num r f : num (MADB_FixOctetLength r) f =
  match f with OctetLength => fixed_octets (num r ConciseType) (num r OctetLength) | f => num r f end.
Proof. unfold MADB_FixOctetLength. by destruct f; read_fields. Qed.
Lemma fix_numbers_num r f : num (fix_numbers r) f =
  match f with
  | NumPrecRadix => fixed_radix (num r ConciseType)
  | Precision => fixed_precision (num r ConciseType) (num r OctetLength) (num r Precision)
  | f => num r f
  end.
Proof. unfold fix_numbers. by destruct f; read_fields. Qed.
Lemma set_type_fields_num r f : num (set_type_fields r) f =
  match f with
  | Type_ => verbose_type (num r ConciseType)
  | DateTimeIntervalCode => interval_code (num r ConciseType) (num r DateTimeIntervalCode)
  | Searchable => searchable (num r ConciseType)
  | f => num r f
  end.
Proof. unfold set_type_fields. by destruct f; read_fields. Qed.
Lemma FixDisplaySize_num m r f : num (MADB_FixDisplaySize m r) f =
  match f with
  | DisplaySize => fixed_display m (num r ConciseType) (num r Unsigned =? SQL_TRUE) (num r Precision) (num r Scale) (num r OctetLength)
  | f => num r f
  end.
Proof. unfold MADB_FixDisplaySize. by destruct f; read_fields. Qed.
Lemma FixDataSize_num m r f : num (MADB_FixDataSize m r) f =
  match f with
  | Length => wrapu 64 (MADB_GetDataSize (num r ConciseType) (num r OctetLength) (num r Unsigned =? 1) (num r Precision) (num r Scale) m)
  | f => num r f
  end.
Proof. unfold MADB_FixDataSize. by destruct f; read_fields. Qed.
Lemma fix_literals_num r f : num (fix_literals r) f = num r f.
Proof. unfold fix_literals. by repeat case_match. Qed.

Ltac step_fields := rewrite ?fix_literals_num, ?FixDataSize_num, ?FixDisplaySize_num, ?set_type_fields_num, ?fix_numbers_num,
  ?FixOctetLength_num; cbv iota.

Lemma truth_eqb b : (truth b =? SQL_TRUE) = b.
Proof. by destruct b. Qed.

(** The fields of a corrected record, one by one. *)
Section Fields.
Context (c : ird_config) (i : MADB_ShortTypeInfo) (r : MADB_DescRecord).
Hypothesis typed : SqlType i <> 0.

Definition new_octets : Z := fixed_octets (SqlType i) (if 0 <? st_OctetLength i then st_OctetLength i else num r OctetLength).
Definition new_precision : Z := fixed_precision (SqlType i) new_octets (num r Precision).

Definition new_field (f : rec_field) : Z :=
  match f with
  | ConciseType => SqlType i
  | Nullable => st_Nullable i
  | Unsigned => truth (st_Unsigned i)
  | OctetLength => new_octets
  | NumPrecRadix => fixed_radix (SqlType i)
  | Precision => new_precision
  | Type_ => verbose_type (SqlType i)
  | DateTimeIntervalCode => interval_code (SqlType i) (num r DateTimeIntervalCode)
  | Searchable => searchable (SqlType i)
  | DisplaySize => fixed_display (Some (mbmaxlen c)) (SqlType i) (st_Unsigned i) new_precision (num r Scale) new_octets
  | Length =>
      if 0 <? st_CharacterLength i then st_CharacterLength i
      else if ic_fake_result c then num r Length
      else wrapu 64 (MADB_GetDataSize (SqlType i) new_octets (st_Unsigned i) new_precision (num r Scale) (mbmaxlen c))
  | f => num r f
  end.

Lemma fix_column_num f : num (fix_column c i r) f = new_field f.
Proof.
  unfold fix_column. rewrite (proj2 (Z.eqb_neq _ _)) by done.
  set (r1 := if 0 <? st_OctetLength i then _ else _).
  assert (num r1 ConciseType = SqlType i /\ num r1 Nullable = st_Nullable i /\ num r1 Unsigned = truth (st_Unsigned i) /\
    num r1 OctetLength = (if 0 <? st_OctetLength i then st_OctetLength i else num r OctetLength) /\
    forall g, g <> ConciseType -> g <> Nullable -> g <> Unsigned -> g <> OctetLength -> num r1 g = num r g) as (H1 & H2 & H3 & H4 & H5).
  { subst r1. destruct (0 <? st_OctetLength i); split_and!; try (by read_fields); intros g ????; by rewrite !num_set_ne. }
  clearbody r1. unfold MADB_FixIrdRecord.
  destruct (0 <? st_CharacterLength i) eqn:EC, (ic_fake_result c) eqn:EF, f; cbn [new_field]; rewrite ?EC, ?EF; read_fields;
    repeat (progress step_fields); rewrite ?H1, ?H2, ?H3, ?H4, ?H5 by discriminate; by rewrite ?truth_eqb.
Qed.

Definition literals (t : Z) : string * string :=
  if case t [SQL_BINARY; SQL_VARBINARY; SQL_LONGVARBINARY] then ("0x", "")%string
  else if case t [SQL_TYPE_DATE; SQL_TYPE_TIME; SQL_TYPE_TIMESTAMP] then ("'", "'")%string else ("", "")%string.

Definition new_text (f : text_field) : option text_ptr :=
  match f with
  | LiteralPrefix => Some (Literal (chars (literals (SqlType i)).1))
  | LiteralSuffix => Some (Literal (chars (literals (SqlType i)).2))
  | f => text r f
  end.

Lemma fix_literals_text x f : text (fix_literals x) f =
  match f with
  | LiteralPrefix => Some (Literal (chars (literals (num x ConciseType)).1))
  | LiteralSuffix => Some (Literal (chars (literals (num x ConciseType)).2))
  | f => text x f
  end.
Proof.
  unfold fix_literals, literals, set_literals. repeat case_match; by destruct f.
Qed.

Lemma fix_column_text f : text (fix_column c i r) f = new_text f.
Proof.
  unfold fix_column. rewrite (proj2 (Z.eqb_neq _ _)) by done. set (r1 := if 0 <? st_OctetLength i then _ else _).
  assert (num r1 ConciseType = SqlType i /\ text r1 = text r) as [H1 H2].
  { subst r1. destruct (0 <? st_OctetLength i); split; by read_fields. }
  clearbody r1. unfold MADB_FixIrdRecord. destruct (0 <? st_CharacterLength i), (ic_fake_result c), f; cbn [new_text text set_num];
    rewrite fix_literals_text; repeat (progress step_fields); rewrite ?H1; try done; cbn; by rewrite ?H2.
Qed.
End Fields.

(** Two records with the same fields. *)
Definition same_record (r r' : MADB_DescRecord) : Prop := (forall f, num r f = num r' f) /\ forall f, text r f = text r' f.

Lemma fixed_octets_again t x : fixed_octets t (fixed_octets t x) = fixed_octets t x.
Proof. unfold fixed_octets. repeat case_match; lia. Qed.

Lemma new_octets_again c i r : SqlType i <> 0 -> new_octets i (fix_column c i r) = new_octets i r.
Proof.
  intros H. unfold new_octets. rewrite fix_column_num by done. cbn [new_field]. unfold new_octets.
  destruct (0 <? st_OctetLength i); [done|]. apply fixed_octets_again.
Qed.

Lemma new_precision_again c i r : SqlType i <> 0 -> new_precision i (fix_column c i r) = new_precision i r.
Proof.
  intros H. unfold new_precision. rewrite new_octets_again, fix_column_num by done. cbn [new_field]. unfold new_precision, fixed_precision.
  by repeat case_match.
Qed.

(** Correcting a column again changes nothing. *)
Lemma fix_column_again c i r : same_record (fix_column c i (fix_column c i r)) (fix_column c i r).
Proof.
  destruct (decide (SqlType i = 0)) as [H|H].
  { unfold fix_column. by rewrite H. }
  split; intros f.
  - rewrite fix_column_num, (fix_column_num c i r H f) by done. destruct f; cbn [new_field];
      rewrite ?new_octets_again, ?new_precision_again, ?fix_column_num by done; cbn [new_field]; try done.
    + unfold interval_code. by repeat case_match.
    + by repeat case_match.
  - rewrite fix_column_text, (fix_column_text c i r H f) by done. destruct f; cbn [new_text]; try done; by rewrite fix_column_text by done.
Qed.

(** All columns. *)
Lemma fix_columns_lookup c infos n : forall i rs,
  (forall j, (i <= j < i + n)%nat -> is_Some (infos j)) -> (i + n <= length rs)%nat ->
  exists rs', fix_columns c infos n i rs = Some rs' /\ length rs' = length rs /\
    forall j, rs' !! j = (if decide (i <= j < i + n)%nat then (fun r => from_option (fun x => fix_column c x r) r (infos j)) <$> rs !! j else rs !! j).
Proof.
  induction n as [|n IH]; intros i rs Hi Hl; cbn [fix_columns].
  { exists rs. split_and!; try done. intros j. by rewrite decide_False by lia. }
  destruct (Hi i ltac:(lia)) as [x Hx]. rewrite Hx. cbn [mbind option_bind].
  destruct (lookup_lt_is_Some_2 rs i ltac:(lia)) as [r Hr].
  set (rs1 := <[i := fix_column c x r]> rs).
  assert (exists rs', fix_columns c infos n (S i) rs1 = Some rs' /\ length rs' = length rs /\ forall j, rs' !! j =
    (if decide (S i <= j < S i + n)%nat then (fun r => from_option (fun x => fix_column c x r) r (infos j)) <$> rs1 !! j else rs1 !! j))
    as (rs' & E & L & H).
  { destruct (IH (S i) rs1) as (rs' & E & L & H); [intros; apply Hi; lia|subst rs1; rewrite length_insert; lia|].
    exists rs'. split_and!; try done. subst rs1. by rewrite L, length_insert. }
  exists rs'. split.
  - destruct (SqlType x =? 0) eqn:E0; [|by rewrite Hr]. rewrite <- E. f_equal. subst rs1. symmetry. apply list_insert_id.
    rewrite Hr. f_equal. unfold fix_column. by rewrite E0.
  - split; [done|]. intros j. rewrite H. subst rs1. destruct (decide (j = i)) as [->|Hj].
    + rewrite decide_False, decide_True by lia. rewrite list_lookup_insert_eq by lia. by rewrite Hr, Hx.
    + rewrite list_lookup_insert_ne by done. destruct (decide (S i <= j < S i + n)%nat), (decide (i <= j < i + S n)%nat); try done; lia.
Qed.

(** [MADB_FixColumnDataTypes] brings the columns of the driver's own results into
    the wanted types, all of them when the array covers the descriptor, and doing it again, as the source
    intends for statements that are executed again, changes no field of any record. *)
Theorem MADB_FixColumnDataTypes_again c infos d :
  (forall j, (j < Z.to_nat (Count (Header d)))%nat -> is_Some (infos j)) -> (Z.to_nat (Count (Header d)) <= length (Records d))%nat ->
  exists d' d'', MADB_FixColumnDataTypes c infos d = Some d' /\ MADB_FixColumnDataTypes c infos d' = Some d'' /\
    Forall2 same_record (Records d'') (Records d') /\
    forall j r' x, (j < Z.to_nat (Count (Header d)))%nat -> Records d' !! j = Some r' -> infos j = Some x -> SqlType x <> 0 ->
      num r' ConciseType = SqlType x /\ num r' Type_ = verbose_type (SqlType x) /\ num r' OctetLength <= S2_1_GB.
Proof.
  intros Hi Hl. unfold MADB_FixColumnDataTypes.
  destruct (fix_columns_lookup c infos (Z.to_nat (Count (Header d))) 0 (Records d)) as (rs' & -> & L1 & H1);
    [intros; apply Hi; lia|lia|]. cbn [mbind option_bind].
  destruct (fix_columns_lookup c infos (Z.to_nat (Count (Header d))) 0 rs') as (rs'' & E & L2 & H2);
    [intros; apply Hi; lia|lia|].
  exists (with_records d rs'), (with_records (with_records d rs') rs''). split; [done|]. split; [cbn; by rewrite E|]. cbn [Records with_records]. split.
  - apply Forall2_same_length_lookup_2; [lia|]. intros j r2 r1 Hr2 Hr1. rewrite H2, Hr1 in Hr2.
    destruct (decide _) as [Hj|Hj]; [|simplify_eq; by split].
    rewrite H1, decide_True in Hr1 by done. destruct (Records d !! j) as [r|]; [|done]. cbn in *. simplify_eq.
    destruct (infos j) as [x|]; [apply fix_column_again|by split].
  - intros j r' x Hj Hr Hx H0. rewrite H1, decide_True in Hr by lia. rewrite Hx in Hr. destruct (Records d !! j) as [r|]; [|done].
    cbn in Hr. injection Hr as <-. rewrite !fix_column_num by done. cbn [new_field]. split; [done|]. split; [done|].
    unfold new_octets, fixed_octets, sizeof_SQL_DATE_STRUCT, sizeof_SQL_TIME_STRUCT, sizeof_SQL_TIMESTAMP_STRUCT.
    unfold S2_1_GB in *; repeat case_match; lia.
Qed.

(** *** Describing a column *)

Lemma new_block_fresh bl : bl !! new_block bl = None.
Proof.
  assert (forall b, is_Some (bl !! b) -> (b <= map_fold (fun b _ m => Pos.max b m) 1 bl)%positive) as H.
  { apply (map_fold_weak_ind (fun (m : positive) (bl : gmap positive (list Z)) => forall b, is_Some (bl !! b) -> (b <= m)%positive)).
    - intros b [x Hx]. by rewrite lookup_empty in Hx.
    - intros k x m r Hm IH b Hb. destruct (decide (b = k)) as [->|Hk]; [lia|]. rewrite lookup_insert_ne in Hb by done.
      specialize (IH b Hb). lia. }
  unfold new_block. destruct (bl !! _) as [x|] eqn:E; [|done]. specialize (H _ (ex_intro _ x E)). lia.
Qed.

(** The texts of a record that the filler replaces. *)
Definition reset_fields : list text_field := [CatalogName; TableName; ColumnName; BaseTableName; BaseColumnName; TypeName].

(** They are allocated, each for itself. *)
Record owned (bl : gmap positive (list Z)) (t : text_field -> option text_ptr) : Prop := {
  ow_live : forall f p, f ∈ reset_fields -> t f = Some p -> exists b, p = Block b /\ is_Some (bl !! b);
  ow_apart : forall f g b, f ∈ reset_fields -> g ∈ reset_fields -> t f = Some (Block b) -> t g = Some (Block b) -> f = g;
}.

(** A block that none of them points at. *)
Definition elsewhere (t : text_field -> option text_ptr) (b : positive) : Prop := forall f, f ∈ reset_fields -> t f <> Some (Block b).

Lemma text_set_eq r f p : text (set_text r f p) f = p.
Proof. cbn. apply fn_lookup_insert. Qed.
Lemma text_set_ne r f g p : f <> g -> text (set_text r f p) g = text r g.
Proof. intros. cbn. by apply fn_lookup_insert_ne. Qed.

Lemma release_owned bl r f : owned bl (text r) -> f ∈ reset_fields ->
  exists bl', release bl (text r f) = Some bl' /\ owned bl' (text (set_text r f None)) /\
    (forall g, g ∈ reset_fields -> g <> f -> text_of bl' (text r g) = text_of bl (text r g)) /\
    (forall b x, elsewhere (text r) b -> bl !! b = Some x -> bl' !! b = Some x).
Proof.
  intros HO Hf. destruct (text r f) as [p|] eqn:E.
  - destruct (ow_live _ _ HO f p Hf E) as (b & -> & [x Hx]). exists (delete b bl). cbn [release]. rewrite Hx. split; [done|].
    assert (forall g p', g ∈ reset_fields -> g <> f -> text r g = Some p' -> exists b', p' = Block b' /\ b' <> b /\ is_Some (bl !! b')) as Hne.
    { intros g p' Hg Hgf Ep. destruct (ow_live _ _ HO g p' Hg Ep) as (b' & -> & H). exists b'. split_and!; try done. intros ->.
      by apply Hgf, (ow_apart _ _ HO g f b). }
    split; [|split].
    + split.
      * intros g p' Hg. destruct (decide (g = f)) as [->|Hgf]; [by rewrite text_set_eq|]. rewrite text_set_ne by done. intros Ep.
        destruct (Hne g p' Hg Hgf Ep) as (b' & -> & Hb & H). exists b'. split; [done|]. by rewrite lookup_delete_ne.
      * intros g g' b' Hg Hg'. destruct (decide (g = f)) as [->|?]; [by rewrite text_set_eq|].
        destruct (decide (g' = f)) as [->|?]; [by rewrite text_set_eq|]. rewrite !text_set_ne by done. by apply (ow_apart _ _ HO).
    + intros g Hg Hgf. destruct (text r g) as [p'|] eqn:Eg; [|done]. destruct (Hne g p' Hg Hgf Eg) as (b' & -> & Hb & _). cbn.
      by rewrite lookup_delete_ne.
    + intros b' y He Hy. rewrite lookup_delete_ne; [done|]. intros ->. by apply (He f Hf).
  - exists bl. cbn [release]. split_and!; try done. split.
    + intros g p Hg. destruct (decide (g = f)) as [->|?]; [by rewrite text_set_eq|]. rewrite text_set_ne by done. by apply (ow_live _ _ HO).
    + intros g g' b Hg Hg'. destruct (decide (g = f)) as [->|?]; [by rewrite text_set_eq|].
      destruct (decide (g' = f)) as [->|?]; [by rewrite text_set_eq|]. rewrite !text_set_ne by done. by apply (ow_apart _ _ HO).
Qed.

(** What [MADB_RESET] does to a record that owns its texts. *)
Lemma MADB_RESET_ok bl r f s : owned bl (text r) -> f ∈ reset_fields ->
  exists bl' p, MADB_RESET f s (bl, r) = Some (bl', set_text r f p) /\ owned bl' (text (set_text r f p)) /\ text_of bl' p = Some s /\
    (forall g, g ∈ reset_fields -> g <> f -> text_of bl' (text r g) = text_of bl (text r g)) /\
    (forall b x, elsewhere (text r) b -> bl !! b = Some x -> bl' !! b = Some x /\ elsewhere (text (set_text r f p)) b).
Proof.
  intros HO Hf. destruct (release_owned bl r f HO Hf) as (bl1 & E & HO1 & Ht & Hb). unfold MADB_RESET. rewrite E. cbn [mbind option_bind].
  destruct s as [l|].
  - unfold strdup. pose proof (new_block_fresh bl1) as Hnew. set (b := new_block bl1) in *. clearbody b.
    exists (<[b := l]> bl1), (Some (Block b)). split; [done|].
    assert (forall g p, g ∈ reset_fields -> g <> f -> text r g = Some p -> exists b', p = Block b' /\ b' <> b /\ is_Some (bl1 !! b')) as Hne.
    { intros g p Hg Hgf Ep. destruct (ow_live _ _ HO1 g p Hg) as (b' & -> & H); [by rewrite text_set_ne|]. exists b'. split_and!; try done.
      intros ->. rewrite Hnew in H. by destruct H. }
    split_and!.
    + split.
      * intros g p Hg. destruct (decide (g = f)) as [->|?].
        { rewrite text_set_eq. intros [= <-]. exists b. split; [done|]. by rewrite lookup_insert_eq. }
        rewrite text_set_ne by done. intros Ep. destruct (Hne g p) as (b' & -> & Hb' & H); try done. exists b'. split; [done|]. by rewrite lookup_insert_ne.
      * intros g g' b' Hg Hg'. destruct (decide (g = f)) as [->|Hgf], (decide (g' = f)) as [->|Hgf']; try done;
          rewrite ?text_set_eq, ?text_set_ne by done; intros E1 E2.
        -- simplify_eq. destruct (Hne g' _ Hg' Hgf' E2) as (b2 & ? & ? & _). by simplify_eq.
        -- simplify_eq. destruct (Hne g _ Hg Hgf E1) as (b2 & ? & ? & _). by simplify_eq.
        -- apply (ow_apart _ _ HO1 g g' b'); try done; by rewrite text_set_ne.
    + cbn. by rewrite lookup_insert_eq.
    + intros g Hg Hgf. rewrite <- (Ht g Hg Hgf). destruct (text r g) as [p|] eqn:Eg; [|done].
      destruct (Hne g p Hg Hgf Eg) as (b' & -> & Hb' & _). cbn. by rewrite lookup_insert_ne.
    + intros b' x He Hx. assert (b' <> b) as Hbb by (intros ->; specialize (Hb b x He Hx); congruence). split.
      * rewrite lookup_insert_ne by done. by apply Hb.
      * intros g Hg. destruct (decide (g = f)) as [->|?]; [rewrite text_set_eq; congruence|]. rewrite text_set_ne by done. by apply He.
  - exists bl1, None. split_and!; try done. intros b x He Hx. split; [by apply Hb|]. intros g Hg.
    destruct (decide (g = f)) as [->|?]; [by rewrite text_set_eq|]. rewrite text_set_ne by done. by apply He.
Qed.

(** Several texts. *)
Fixpoint reset_all (l : list (text_field * option (list Z))) (x : gmap positive (list Z) * MADB_DescRecord)
    : option (gmap positive (list Z) * MADB_DescRecord) :=
  match l with
  | [] => Some x
  | (f, s) :: l' => x' ← MADB_RESET f s x; reset_all l' x'
  end.

(** The record has the texts of the list, and of its blocks nobody else's changed. *)
Definition resets (l : list (text_field * option (list Z))) (bl : gmap positive (list Z)) (t : text_field -> option text_ptr)
    (bl' : gmap positive (list Z)) (t' : text_field -> option text_ptr) : Prop :=
  owned bl' t' /\ (forall f s, (f, s) ∈ l -> text_of bl' (t' f) = Some s) /\
  (forall g, g ∈ reset_fields -> g ∉ fst <$> l -> text_of bl' (t' g) = text_of bl (t g)) /\
  (forall b x, elsewhere t b -> bl !! b = Some x -> bl' !! b = Some x /\ elsewhere t' b).

Lemma reset_all_ok l : forall bl r, owned bl (text r) -> NoDup (fst <$> l) -> Forall (fun x => fst x ∈ reset_fields) l ->
  exists bl' r', reset_all l (bl, r) = Some (bl', r') /\ num r' = num r /\ resets l bl (text r) bl' (text r').
Proof.
  induction l as [|[f s] l IH]; intros bl r HO Hd HF; cbn [reset_all].
  { exists bl, r. split_and!; try done. split_and!; try done. intros f s H. by apply not_elem_of_nil in H. }
  inversion Hd as [|? ? Hf Hd']; subst. inversion HF as [|? ? Hfr HF']; subst. cbn [fst] in *.
  destruct (MADB_RESET_ok bl r f s HO Hfr) as (bl1 & p & -> & HO1 & Hs & Ht & Hb). cbn [mbind option_bind].
  destruct (IH bl1 (set_text r f p) HO1 Hd' HF') as (bl' & r' & -> & Hn & HO' & Hl & Hk & Hb'). exists bl', r'. split; [done|].
  split; [done|]. split_and!; try done.
  - intros g s' [[= -> ->]|Hin]%elem_of_cons; [|by apply Hl]. rewrite Hk by done. by rewrite text_set_eq.
  - intros g Hg Hgl. cbn in Hgl. apply not_elem_of_cons in Hgl as [Hgf Hgl]. rewrite Hk by done. rewrite text_set_ne by done. by apply Ht.
  - intros b x He Hx. destruct (Hb b x He Hx) as [Hx1 He1]. by apply Hb'.
Qed.

(** The steps on numbers keep the texts. *)
Lemma set_numbers_text f r : text (set_numbers f r) = text r.
Proof. unfold set_numbers. by repeat case_match. Qed.
Lemma set_sizes_text c f r : text (set_sizes c f r) = text r.
Proof. done. Qed.
Lemma column_literals_text f r g : g ∈ reset_fields -> text (column_literals f r) g = text r g.
Proof. intros Hg. unfold column_literals, set_literals. repeat case_match; rewrite !text_set_ne; try done; by intros <-; set_solver. Qed.
Lemma column_literals_num f r : num (column_literals f r) = num r.
Proof. unfold column_literals. by repeat case_match. Qed.

(** The numbers of a described column. *)
Definition described (c : ird_config) (co : column) (r : MADB_DescRecord) : MADB_DescRecord :=
  set_sizes c (co_field co) (set_type_fields (set_num (set_numbers (co_field co) (set_flags co r)) ConciseType (concise_type c (co_field co)))).

Definition column_texts (co : column) : list (text_field * option (list Z)) :=
  [(CatalogName, co_db co); (TableName, co_table co); (ColumnName, co_name co); (BaseTableName, co_org_table co);
   (BaseColumnName, co_org_name co)].

Lemma MADB_SetIrdRecord_steps c co bl r : MADB_SetIrdRecord c co bl r =
  ('(bl5, r5) ← reset_all (column_texts co) (bl, r);
   '(bl8, r8) ← MADB_RESET TypeName (Some (chars (MADB_GetTypeName (co_field co)))) (bl5, described c co r5);
   Some (bl8, column_literals (co_field co) r8)).
Proof.
  unfold MADB_SetIrdRecord, column_texts, reset_all, described.
  destruct (MADB_RESET CatalogName _ _) as [x1|]; [cbn [mbind option_bind]|done].
  destruct (MADB_RESET TableName _ _) as [x2|]; [cbn [mbind option_bind]|done].
  destruct (MADB_RESET ColumnName _ _) as [x3|]; [cbn [mbind option_bind]|done].
  destruct (MADB_RESET BaseTableName _ _) as [x4|]; [cbn [mbind option_bind]|done].
  by destruct (MADB_RESET BaseColumnName _ _) as [[bl5 r5]|].
Qed.

Lemma described_text c co r : text (described c co r) = text r.
Proof. unfold described. rewrite set_sizes_text. cbn [set_type_fields set_num text]. by rewrite set_numbers_text. Qed.

(** The record of a column: all texts and numbers. *)
Lemma SetIrdRecord_ok c co bl r : owned bl (text r) ->
  exists bl' r' r5, MADB_SetIrdRecord c co bl r = Some (bl', r') /\ num r5 = num r /\ num r' = num (described c co r5) /\
    resets (column_texts co ++ [(TypeName, Some (chars (MADB_GetTypeName (co_field co))))]) bl (text r) bl' (text r').
Proof.
  intros HO. rewrite MADB_SetIrdRecord_steps.
  destruct (reset_all_ok (column_texts co) bl r HO) as (bl5 & r5 & -> & Hn & HO5 & Hl5 & Hk5 & Hb5).
  { cbn. repeat (constructor; [set_solver|]). constructor. }
  { repeat (constructor; [cbn; set_solver|]). constructor. }
  cbn [mbind option_bind].
  destruct (MADB_RESET_ok bl5 (described c co r5) TypeName (Some (chars (MADB_GetTypeName (co_field co)))))
    as (bl' & p & -> & HO' & Hs & Ht & Hb); [by rewrite described_text|set_solver|]. cbn [mbind option_bind].
  rewrite described_text in Ht, Hb.
  set (r8 := set_text (described c co r5) TypeName p) in *. exists bl', (column_literals (co_field co) r8), r5.
  split; [done|]. split; [done|]. split; [by rewrite column_literals_num|].
  assert (forall g, g ∈ reset_fields -> text (column_literals (co_field co) r8) g = text r8 g) as Hg by (intros; by apply column_literals_text).
  assert (forall g, g ∈ reset_fields -> g <> TypeName -> text_of bl' (text (column_literals (co_field co) r8) g) = text_of bl5 (text r5 g)) as Hg5.
  { intros g H1 H2. rewrite Hg by done. subst r8. rewrite text_set_ne, described_text by done. by apply Ht. }
  split_and!.
  - split.
    + intros g q H. rewrite Hg by done. by apply (ow_live _ _ HO').
    + intros g g' b H H'. rewrite !Hg by done. by apply (ow_apart _ _ HO').
  - intros g s [H|H]%elem_of_app.
    + rewrite Hg5; [by apply Hl5| |]; unfold column_texts in H; set_solver.
    + apply list_elem_of_singleton in H. injection H as -> ->. rewrite Hg by set_solver. subst r8. by rewrite text_set_eq.
  - intros g H1 H2. rewrite fmap_app in H2. rewrite Hg5 by set_solver. apply Hk5; set_solver.
  - intros b x He Hx. destruct (Hb5 b x He Hx) as [Hx5 He5]. destruct (Hb b x) as [H1 H2]; [done|done|]. split; [done|].
    intros g H. rewrite Hg by done. by apply H2.
Qed.

(** The numbers of a described column, from those of its record before. *)
Lemma set_numbers_num f r g : g <> NumPrecRadix -> g <> Precision -> g <> Scale -> num (set_numbers f r) g = num r g.
Proof. intros. unfold set_numbers. repeat case_match; by rewrite !num_set_ne. Qed.

Lemma set_sizes_num c f r g : num (set_sizes c f r) g =
  match g with
  | DisplaySize => wraps 64 (MADB_GetDisplaySize f (maxlen c (charsetnr f)))
  | OctetLength => wraps 64 (MADB_GetOctetLength f)
  | Length => wrapu 64 (MADB_GetDataSize (num r ConciseType) (wraps 64 (flength f)) (num r Unsigned =? SQL_TRUE) (num r Precision)
                (num r Scale) (default 1 (maxlen c (charsetnr f))))
  | g => num r g
  end.
Proof. unfold set_sizes. by destruct g; read_fields. Qed.

Definition updateable (table : option (list Z)) : Z :=
  match table with
  | Some (x :: _) => if x =? 0 then SQL_ATTR_READONLY else SQL_ATTR_READWRITE_UNKNOWN
  | _ => SQL_ATTR_READONLY
  end.

Lemma updateable_named table : updateable table = SQL_ATTR_READWRITE_UNKNOWN <-> exists x t, table = Some (x :: t) /\ x <> 0.
Proof.
  split.
  - destruct table as [[|x t]|]; try done. cbn. destruct (Z.eqb_spec x 0); [done|]. intros _. by exists x, t.
  - intros (x & t & -> & Hx). cbn. by rewrite (proj2 (Z.eqb_neq _ _)).
Qed.

Lemma set_flags_num co r : let f := co_field co in
  num (set_flags co r) Nullable = (if flag f NOT_NULL_FLAG then SQL_NO_NULLS else SQL_NULLABLE) /\
  num (set_flags co r) Unsigned = truth (flag f UNSIGNED_FLAG) /\
  num (set_flags co r) AutoUniqueValue = truth (flag f AUTO_INCREMENT_FLAG) /\
  num (set_flags co r) CaseSensitive = truth (flag f BINARY_FLAG) /\
  num (set_flags co r) Updateable = updateable (co_table co) /\
  forall g, g ∈ [Precision; Scale; DateTimeIntervalCode] -> num (set_flags co r) g = num r g.
Proof.
  cbv zeta. unfold set_flags. split_and!; try (by read_fields). intros g Hg.
  repeat (apply elem_of_cons in Hg as [->|Hg]; [by read_fields|]). by apply not_elem_of_nil in Hg.
Qed.

(** On the types a column can have, the verbose type is the one of the type tables. *)
Lemma concise_type_verbose c f : verbose_type (concise_type c f) = MADB_GetTypeFromConciseType (concise_type c f).
Proof. unfold concise_type, MapMariadDbToOdbcType. destruct (_ && negb _); by repeat case_match. Qed.

(** *** Sizes

    The columns a table can declare, the metadata a server sends for them, and
    their octet length, display size and column size as ODBC defines them. *)
Inductive declared :=
| DInt (w : Z) (unsigned : bool)
| DDecimal (p s : Z) (unsigned : bool)
| DFloat | DDouble
| DDate | DTime (d : Z) | DTimestamp (d : Z)
| DChar (n m : Z)      (** [n] characters of at most [m] bytes *)
| DText (n : Z)        (** a long text of [n] bytes *)
| DBinary (n : Z).

Definition int_type (w : Z) : Z :=
  if w =? 8 then MYSQL_TYPE_TINY else if w =? 16 then MYSQL_TYPE_SHORT else if w =? 32 then MYSQL_TYPE_LONG else MYSQL_TYPE_LONGLONG.

Definition declares (c : ird_config) (f : MYSQL_FIELD) (D : declared) : Prop :=
  match D with
  | DInt w u => w ∈ [8; 16; 32; 64] /\ ftype f = int_type w /\ flag f UNSIGNED_FLAG = u /\ flag f NUM_FLAG = true
  | DDecimal p s u => ftype f ∈ [MYSQL_TYPE_DECIMAL; MYSQL_TYPE_NEWDECIMAL] /\ 0 < p <= 65 /\ 0 <= s <= p /\ decimals f = s /\
      flag f UNSIGNED_FLAG = u /\ flength f = p + Z.b2z (negb u) + Z.b2z (0 <? s)
  | DFloat => ftype f = MYSQL_TYPE_FLOAT
  | DDouble => ftype f = MYSQL_TYPE_DOUBLE
  | DDate => ftype f = MYSQL_TYPE_DATE
  | DTime d => ftype f = MYSQL_TYPE_TIME /\ decimals f = d /\ 0 <= d <= 6
  | DTimestamp d => ftype f ∈ [MYSQL_TYPE_TIMESTAMP; MYSQL_TYPE_DATETIME] /\ decimals f = d /\ 0 <= d <= 6
  | DChar n m => ftype f ∈ [MYSQL_TYPE_STRING; MYSQL_TYPE_VAR_STRING] /\ MADB_FIELD_IS_BINARY f = false /\
      maxlen c (charsetnr f) = Some m /\ 1 <= m <= 4 /\ 0 <= n /\ flength f = n * m /\ n * m <= S2_1_GB
  | DText n => ftype f ∈ [MYSQL_TYPE_TINY_BLOB; MYSQL_TYPE_BLOB; MYSQL_TYPE_MEDIUM_BLOB; MYSQL_TYPE_LONG_BLOB] /\
      MADB_FIELD_IS_BINARY f = false /\ flength f = n /\ 0 <= n <= S2_1_GB
  | DBinary n => ftype f ∈ [MYSQL_TYPE_STRING; MYSQL_TYPE_VAR_STRING] /\ MADB_FIELD_IS_BINARY f = true /\
      flength f = n /\ 0 <= n <= S2_1_GB
  end.

(** The length of a number as text; a point and the digits behind it. *)
Definition text_size (z : Z) : Z := Z.of_nat (length (Decimal.dec z)).
Definition fraction_size (d : Z) : Z := if d =? 0 then 0 else d + 1.

Record column_sizes := MkSizes { octets : Z; display : Z; size : Z }.

(** The text of an integer is longest for the smallest signed and the largest
    unsigned value; a decimal smaller than one is written with a zero. *)
Definition odbc_sizes (D : declared) : column_sizes :=
  match D with
  | DInt w true => MkSizes (w / 8) (text_size (2 ^ w - 1)) (text_size (2 ^ w - 1))
  | DInt w false => MkSizes (w / 8) (text_size (- 2 ^ (w - 1))) (text_size (2 ^ (w - 1) - 1))
  | DDecimal p s u =>
      let n := p + Z.b2z (negb u) + Z.b2z (0 <? s) + Z.b2z (p =? s) in MkSizes n n p
  | DFloat => MkSizes 4 14 7
  | DDouble => MkSizes 8 24 15
  | DDate => MkSizes 6 10 10
  | DTime d => MkSizes 6 (8 + fraction_size d) (8 + fraction_size d)
  | DTimestamp d => MkSizes 16 (19 + fraction_size d) (19 + fraction_size d)
  | DChar n m => MkSizes (n * m) n n
  | DText n => MkSizes n n n
  | DBinary n => MkSizes n (2 * n) n
  end.

(** What is stored: the display size of a floating-point column is its precision,
    and the column size of a BIGINT that of the other signedness. *)
Definition stored_display (D : declared) : Z :=
  match D with DFloat | DDouble => size (odbc_sizes D) | D => display (odbc_sizes D) end.

Definition stored_size (D : declared) : Z :=
  match D with
  | DInt w u => size (odbc_sizes (DInt w (if w =? 64 then negb u else u)))
  | D => size (odbc_sizes D)
  end.

Ltac eval_case := repeat match goal with |- context [case ?a ?l] =>
  let b := eval vm_compute in (case a l) in match b with true => idtac | false => idtac end; change (case a l) with b end; cbv iota.

Ltac in_list H := repeat (apply elem_of_cons in H as [H|H]); [..|by apply not_elem_of_nil in H].

(** The concise type of a declared column, up to the wide variant. *)
Definition declared_types (D : declared) : list Z :=
  match D with
  | DInt w _ => [if w =? 8 then SQL_TINYINT else if w =? 16 then SQL_SMALLINT else if w =? 32 then SQL_INTEGER else SQL_BIGINT]
  | DDecimal _ _ _ => [SQL_DECIMAL]
  | DFloat => [SQL_REAL]
  | DDouble => [SQL_DOUBLE]
  | DDate => [SQL_TYPE_DATE]
  | DTime _ => [SQL_TYPE_TIME]
  | DTimestamp _ => [SQL_TYPE_TIMESTAMP]
  | DChar _ _ => [SQL_CHAR; SQL_VARCHAR; SQL_WCHAR; SQL_WVARCHAR]
  | DText _ => [SQL_LONGVARCHAR; SQL_WLONGVARCHAR]
  | DBinary _ => [SQL_BINARY; SQL_VARBINARY]
  end.

Lemma concise_type_declared c f D : declares c f D -> concise_type c f ∈ declared_types D.
Proof.
  intros H. unfold concise_type, MapMariadDbToOdbcType, is_text_type. destruct D; cbn [declares] in H.
  1: destruct H as (Hw & Ht & _ & Hn); in_list Hw; subst w; rewrite Ht; unfold int_type; cbn [Z.eqb Pos.eqb].
  5: destruct H as ([Ht|[Ht|[]%not_elem_of_nil]%elem_of_cons]%elem_of_cons & _); rewrite Ht.
  7-9: rewrite H.
  10: destruct H as [Ht _]; rewrite Ht.
  11: destruct H as ([Ht|[Ht|[]%not_elem_of_nil]%elem_of_cons]%elem_of_cons & _); rewrite Ht.
  13: destruct H as ([Ht|[Ht|[]%not_elem_of_nil]%elem_of_cons]%elem_of_cons & Hb & _); rewrite Ht, Hb.
  15: destruct H as (Ht & Hb & _); in_list Ht; rewrite Ht, Hb.
  19: destruct H as ([Ht|[Ht|[]%not_elem_of_nil]%elem_of_cons]%elem_of_cons & Hb & _); rewrite Ht, Hb.
  all: eval_case; rewrite ?Hn, ?andb_false_r; destruct (negb (IsAnsi c) && UseWcharTypes c); cbn [andb]; try destruct (negb (flag f BINARY_FLAG)); cbn [declared_types]; set_solver.
Qed.

(** Scale and precision that the column size is computed from. *)
Lemma declared_numbers c co r D : declares c (co_field co) D ->
  match D with
  | DDecimal p s _ => num (set_numbers (co_field co) (set_flags co r)) Precision = p /\ num (set_numbers (co_field co) (set_flags co r)) Scale = s
  | DTime d | DTimestamp d => num (set_numbers (co_field co) (set_flags co r)) Scale = d
  | DFloat => num (set_numbers (co_field co) (set_flags co r)) Precision = 7
  | DDouble => num (set_numbers (co_field co) (set_flags co r)) Precision = 15
  | _ => True
  end.
Proof.
  intros H. destruct (set_flags_num co r) as (_ & F2 & _). unfold set_numbers. destruct D; cbn [declares] in H; try done.
  - destruct H as (Ht & Hp & Hs & Hd & Hu & Hl).
    assert (case (ftype (co_field co)) [MYSQL_TYPE_DECIMAL; MYSQL_TYPE_NEWDECIMAL] = true) as -> by (in_list Ht; by rewrite Ht).
    read_fields. rewrite F2, Hd, Hl, Hu, (wraps_id 16 s) by lia. rewrite (wraps_id 16 (p + _ + _)) by (destruct unsigned, (0 <? s); cbn; lia).
    assert ((truth unsigned =? SQL_FALSE) = negb unsigned) as -> by (by destruct unsigned).
    replace (p + Z.b2z (negb unsigned) + Z.b2z (0 <? s) - Z.b2z (negb unsigned) - Z.b2z (0 <? s)) with p by lia.
    rewrite wraps_id by lia. destruct (Z.eqb_spec p 0); [lia|done].
  - rewrite H. eval_case. by read_fields.
  - rewrite H. eval_case. by read_fields.
  - destruct H as (-> & -> & Hd). eval_case. read_fields. by rewrite wraps_id by lia.
  - destruct H as (Ht & -> & Hd). in_list Ht; rewrite Ht; eval_case; read_fields; by rewrite wraps_id by lia.
Qed.

(** The stored sizes of a declared column. *)
Lemma decimal_size_declared c f p s u : declares c f (DDecimal p s u) -> decimal_size f = display (odbc_sizes (DDecimal p s u)).
Proof.
  intros (_ & Hp & Hs & Hd & Hu & Hl). unfold decimal_size. rewrite Hl, Hu, Hd.
  assert (negb (s =? 0) = (0 <? s)) as -> by (destruct (Z.eqb_spec s 0), (Z.ltb_spec 0 s); done || lia).
  replace (p + Z.b2z (negb u) + Z.b2z (0 <? s) - Z.b2z (negb u) - Z.b2z (0 <? s)) with p by lia.
  by rewrite wrapu_id by lia.
Qed.

Lemma fraction_part d : 0 <= d -> MADB_FRACTIONAL_PART d = fraction_size d.
Proof. intros H. unfold MADB_FRACTIONAL_PART, fraction_size. destruct (Z.ltb_spec 0 d), (Z.eqb_spec d 0); done || lia. Qed.

Lemma fraction_small d : 0 <= d <= 6 -> 0 <= fraction_size d <= 7.
Proof. intros H. unfold fraction_size. destruct (Z.eqb_spec d 0); lia. Qed.

Lemma display_declared c f D : declares c f D -> wraps 64 (MADB_GetDisplaySize f (maxlen c (charsetnr f))) = stored_display D.
Proof.
  intros H. unfold MADB_GetDisplaySize. destruct D; cbn [declares] in H.
  - destruct H as (Hw & -> & -> & _). by in_list Hw; subst w; unfold int_type; cbn [Z.eqb Pos.eqb]; eval_case; destruct unsigned.
  - pose proof H as (Ht & Hp & Hs & Hd & Hu & Hl).
    pose proof (decimal_size_declared c f p s unsigned H) as E. in_list Ht; rewrite Ht; eval_case; rewrite E; cbn [odbc_sizes display octets stored_display]; apply wraps_id; try lia;
      destruct unsigned, (0 <? s), (p =? s); cbn; lia.
  - rewrite H. by eval_case.
  - rewrite H. by eval_case.
  - rewrite H. by eval_case.
  - destruct H as (-> & -> & Hd). eval_case. rewrite fraction_part by lia. pose proof (fraction_small d Hd).
    cbn [odbc_sizes display stored_display]. unfold SQL_TIME_LEN. apply wraps_id; lia.
  - destruct H as (Ht & -> & Hd). pose proof (fraction_small d Hd).
    in_list Ht; rewrite Ht; eval_case; rewrite fraction_part by lia; cbn [odbc_sizes display stored_display]; unfold SQL_TIMESTAMP_LEN; apply wraps_id; lia.
  - destruct H as (Ht & Hb & -> & Hm & Hn & Hl & Hg). rewrite Hb, Hl. unfold S2_1_GB in *.
    assert (wraps 64 (if m <? 2 then Z.min (n * m) 1073741823 else Z.min (n * m / m) 1073741823) = n) as E.
    { destruct (Z.ltb_spec m 2); [replace m with 1 in * by lia; rewrite Z.mul_1_r in *|rewrite Z.div_mul by lia];
        rewrite Z.min_l by nia; apply wraps_id; cbn; nia. }
    in_list Ht; rewrite Ht; eval_case; exact E.
  - destruct H as (Ht & _ & Hl & Hn). in_list Ht; rewrite Ht, Hl; eval_case; rewrite Z.min_l by lia; unfold S2_1_GB in *; apply wraps_id; cbn; lia.
  - destruct H as (Ht & Hb & Hl & Hn). rewrite Hb, Hl. unfold S2_1_GB in *. in_list Ht; rewrite Ht; eval_case; rewrite Z.min_l by lia;
      cbn [odbc_sizes display stored_display]; rewrite wraps_id by (cbn; lia); lia.
Qed.

Lemma size_declared c co r D : declares c (co_field co) D -> let f := co_field co in let r1 := set_numbers f (set_flags co r) in
  wrapu 64 (MADB_GetDataSize (concise_type c f) (wraps 64 (flength f)) (flag f UNSIGNED_FLAG) (num r1 Precision) (num r1 Scale)
    (default 1 (maxlen c (charsetnr f)))) = stored_size D.
Proof.
  intros H f r1. pose proof (concise_type_declared c f D H) as Hc. pose proof (declared_numbers c co r D H) as Hn.
  fold f in H, Hn. fold r1 in Hn. unfold MADB_GetDataSize. destruct D; cbn [declares declared_types] in H, Hc, Hn.
  - destruct H as (Hw & Ht & Hu & _). apply list_elem_of_singleton in Hc. rewrite Hc, Hu.
    by in_list Hw; subst w; cbn [Z.eqb Pos.eqb]; eval_case; destruct unsigned.
  - apply list_elem_of_singleton in Hc as ->. destruct Hn as [-> _]. eval_case. destruct H as (_ & Hp & _). cbn [stored_size odbc_sizes size]. apply wrapu_id; lia.
  - apply list_elem_of_singleton in Hc as ->. by eval_case.
  - apply list_elem_of_singleton in Hc as ->. by eval_case.
  - apply list_elem_of_singleton in Hc as ->. by eval_case.
  - apply list_elem_of_singleton in Hc as ->. rewrite Hn. destruct H as (_ & _ & Hd). eval_case. rewrite fraction_part by lia.
    pose proof (fraction_small d Hd). cbn [stored_size odbc_sizes size]. unfold SQL_TIME_LEN. apply wrapu_id; lia.
  - apply list_elem_of_singleton in Hc as ->. rewrite Hn. destruct H as (_ & _ & Hd). eval_case. rewrite fraction_part by lia.
    pose proof (fraction_small d Hd). cbn [stored_size odbc_sizes size]. unfold SQL_TIMESTAMP_LEN. apply wrapu_id; lia.
  - destruct H as (_ & _ & -> & Hm & Hn0 & -> & Hg). cbn [default]. unfold S2_1_GB in *. rewrite (wraps_id 64 (n * m)) by (cbn; nia).
    assert (wrapu 64 (if m <? 2 then Z.min (n * m) 1073741823 else Z.min (Z.quot (n * m) m) 1073741823) = n) as E.
    { destruct (Z.ltb_spec m 2); [replace m with 1 in * by lia; rewrite Z.mul_1_r in *|rewrite Z.quot_mul by lia];
        rewrite Z.min_l by nia; apply wrapu_id; nia. }
    in_list Hc; rewrite Hc; eval_case; exact E.
  - destruct H as (_ & _ & -> & Hg). unfold S2_1_GB in *. rewrite (wraps_id 64 n), Z.min_l by (cbn; lia).
    in_list Hc; rewrite Hc; eval_case; cbn [stored_size odbc_sizes size]; apply wrapu_id; lia.
  - destruct H as (_ & _ & -> & Hg). unfold S2_1_GB in *. rewrite (wraps_id 64 n), Z.min_l by (cbn; lia).
    in_list Hc; rewrite Hc; eval_case; cbn [stored_size odbc_sizes size]; apply wrapu_id; lia.
Qed.

Lemma octets_declared c f D : declares c f D -> wraps 64 (MADB_GetOctetLength f) = octets (odbc_sizes D).
Proof.
  intros H. unfold MADB_GetOctetLength, S2_1_GB in *. destruct D; cbn [declares] in H.
  - destruct H as (Hw & -> & Hu & _). by in_list Hw; subst w; unfold int_type; cbn [Z.eqb Pos.eqb]; eval_case; destruct unsigned.
  - pose proof H as (Ht & Hp & Hs & Hd & Hu & Hl).
    pose proof (decimal_size_declared c f p s unsigned H) as E. in_list Ht; rewrite Ht; eval_case; rewrite E; cbn [odbc_sizes display octets stored_display]; apply wraps_id; try lia;
      destruct unsigned, (0 <? s), (p =? s); cbn; lia.
  - rewrite H. by eval_case.
  - rewrite H. by eval_case.
  - rewrite H. by eval_case.
  - destruct H as (-> & _). by eval_case.
  - destruct H as (Ht & _). by in_list Ht; rewrite Ht; eval_case.
  - destruct H as (Ht & _ & _ & Hm & Hn & Hl & Hg). in_list Ht; rewrite Ht, Hl; eval_case; unfold S2_1_GB in *; rewrite Z.min_r by nia; apply wraps_id; cbn; nia.
  - destruct H as (Ht & _ & Hl & Hn). in_list Ht; rewrite Ht, Hl; eval_case; unfold S2_1_GB in *; rewrite Z.min_r by lia; apply wraps_id; cbn; lia.
  - destruct H as (Ht & _ & Hl & Hn). in_list Ht; rewrite Ht, Hl; eval_case; unfold S2_1_GB in *; rewrite Z.min_r by lia; apply wraps_id; cbn; lia.
Qed.

(** C18. Describing a column: from any record that owns its texts, whatever they were,
    [MADB_SetIrdRecord] frees each text once and leaves a record that owns its
    new ones, the names and the type name of the column, without touching any other block.
    Concise and verbose type fit each other, nullability, sign, automatic values,
    case sensitivity and updatability follow the flags, and for integer, decimal,
    floating-point, date and time, character, long text and binary columns octet length,
    display size and column size are those ODBC defines for the declared type, except
    that the display size of floating-point columns is their precision and the
    column size of a BIGINT that of the other signedness. *)
Theorem MADB_SetIrdRecord_describes c co bl r : owned bl (text r) -> let f := co_field co in
  exists bl' r', MADB_SetIrdRecord c co bl r = Some (bl', r') /\ owned bl' (text r') /\
    text_of bl' (text r' CatalogName) = Some (co_db co) /\ text_of bl' (text r' TableName) = Some (co_table co) /\
    text_of bl' (text r' ColumnName) = Some (co_name co) /\ text_of bl' (text r' BaseTableName) = Some (co_org_table co) /\
    text_of bl' (text r' BaseColumnName) = Some (co_org_name co) /\
    text_of bl' (text r' TypeName) = Some (Some (chars (MADB_GetTypeName f))) /\
    (forall b x, elsewhere (text r) b -> bl !! b = Some x -> bl' !! b = Some x) /\
    num r' ConciseType = concise_type c f /\ num r' Type_ = MADB_GetTypeFromConciseType (num r' ConciseType) /\
    num r' Nullable = (if flag f NOT_NULL_FLAG then SQL_NO_NULLS else SQL_NULLABLE) /\
    num r' Unsigned = truth (flag f UNSIGNED_FLAG) /\ num r' AutoUniqueValue = truth (flag f AUTO_INCREMENT_FLAG) /\
    num r' CaseSensitive = truth (flag f BINARY_FLAG) /\
    (num r' Updateable = SQL_ATTR_READWRITE_UNKNOWN <-> exists x t, co_table co = Some (x :: t) /\ x <> 0) /\
    forall D, declares c f D ->
      num r' ConciseType ∈ declared_types D /\ num r' OctetLength = octets (odbc_sizes D) /\
      num r' DisplaySize = stored_display D /\ num r' Length = stored_size D.
Proof.
  intros HO f. destruct (SetIrdRecord_ok c co bl r HO) as (bl' & r' & r5 & E & Hn5 & Hn & HO' & Hl & _ & Hb).
  exists bl', r'. split; [done|]. split; [done|].
  do 6 (split; [apply Hl; unfold column_texts; set_solver|]). split; [intros b x He Hx; by apply (Hb b x)|].
  rewrite Hn. unfold described. rewrite !set_sizes_num, !set_type_fields_num. cbv iota. read_fields.
  rewrite !set_numbers_num by done. destruct (set_flags_num co r5) as (F1 & F2 & F3 & F4 & F5 & _). rewrite F1, F2, F3, F4, F5.
  split_and!; try done; [apply concise_type_verbose|apply updateable_named|]. intros D HD. rewrite truth_eqb.
  split; [by apply concise_type_declared|]. split; [by eapply octets_declared|]. split; [by eapply display_declared|by apply size_declared].
Qed.

(** The column size of a BIGINT column is 20 when it is signed and 19 when it is
    unsigned, because the flag for unsigned is passed where the flag for signed is
    expected: the largest unsigned value has one digit more than the size says. *)
Theorem SetIrdRecord_bigint_size c co bl r : owned bl (text r) -> ftype (co_field co) = MYSQL_TYPE_LONGLONG ->
  exists bl' r', MADB_SetIrdRecord c co bl r = Some (bl', r') /\
    num r' Length = (if flag (co_field co) UNSIGNED_FLAG then 19 else 20) /\
    length (Decimal.dec (2 ^ 64 - 1)) = 20%nat /\ length (Decimal.dec (2 ^ 63 - 1)) = 19%nat.
Proof.
  intros HO Ht. destruct (SetIrdRecord_ok c co bl r HO) as (bl' & r' & r5 & E & Hn5 & Hn & _).
  exists bl', r'. split; [done|]. rewrite Hn. unfold described. rewrite set_sizes_num, !set_type_fields_num. cbv iota. read_fields.
  rewrite set_numbers_num by done. destruct (set_flags_num co r5) as (_ & F2 & _). rewrite F2, truth_eqb.
  assert (concise_type c (co_field co) = SQL_BIGINT) as ->.
  { unfold concise_type, MapMariadDbToOdbcType, is_text_type. rewrite Ht. by rewrite andb_false_r. }
  split; [by destruct (flag _ _)|]. split; by vm_compute.
Qed.

(** Precision and scale of a text column are what the record had before. *)
Lemma SetIrdRecord_stale c co bl r g : owned bl (text r) -> is_text_type (ftype (co_field co)) = true -> g ∈ [Precision; Scale] ->
  exists bl' r', MADB_SetIrdRecord c co bl r = Some (bl', r') /\ num r' g = num r g.
Proof.
  intros HO Ht Hg. destruct (SetIrdRecord_ok c co bl r HO) as (bl' & r' & r5 & E & Hn5 & Hn & _).
  exists bl', r'. split; [done|]. rewrite Hn, <- Hn5. destruct (set_flags_num co r5) as (_ & _ & _ & _ & _ & F).
  rewrite <- F by set_solver. unfold described. rewrite set_sizes_num, !set_type_fields_num.
  assert (set_numbers (co_field co) (set_flags co r5) = set_num (set_flags co r5) NumPrecRadix 0) as ->.
  { unfold is_text_type in Ht. unfold case in Ht. cbn [existsb] in Ht. unfold set_numbers.
    repeat (apply orb_true_iff in Ht as [Ht|Ht]; [apply Z.eqb_eq in Ht; by rewrite Ht|]). done. }
  repeat (apply elem_of_cons in Hg as [->|Hg]; [by read_fields|]). by apply not_elem_of_nil in Hg.
Qed.

(** *** All columns of a result *)

(** The texts the records of a row descriptor own are allocated, each for itself. *)
Definition ird_fields : list text_field := freed_fields MADB_DESC_IRD.

Record texts_apart (bl : gmap positive (list Z)) (rs : list MADB_DescRecord) : Prop := {
  ta_live : forall i r f p, rs !! i = Some r -> f ∈ ird_fields -> text r f = Some p -> exists b, p = Block b /\ is_Some (bl !! b);
  ta_apart : forall i j r r' f g b, rs !! i = Some r -> rs !! j = Some r' -> f ∈ ird_fields -> g ∈ ird_fields ->
    text r f = Some (Block b) -> text r' g = Some (Block b) -> i = j /\ f = g;
}.

(** Texts that stay what they are. *)
Definition same_texts (bl bl' : gmap positive (list Z)) (r : MADB_DescRecord) : Prop :=
  forall f, f ∈ ird_fields -> text_of bl' (text r f) = text_of bl (text r f).

Lemma reset_ird_fields f : f ∈ reset_fields -> f ∈ ird_fields.
Proof. intros H. unfold ird_fields, freed_fields. cbn. unfold reset_fields in H. set_solver. Qed.

Lemma release_all_ok ps : forall bl, (forall k p, ps !! k = Some (Some p) -> exists b, p = Block b /\ is_Some (bl !! b)) ->
  (forall k l b, ps !! k = Some (Some (Block b)) -> ps !! l = Some (Some (Block b)) -> k = l) -> is_Some (release_all bl ps).
Proof.
  induction ps as [|p ps IH]; intros bl Hl Ha; cbn [release_all]; [done|]. destruct p as [p|]; cbn [release].
  - destruct (Hl 0%nat p eq_refl) as (b & -> & [x Hx]). rewrite Hx. cbn [mbind option_bind]. apply IH.
    + intros k q Hq. destruct (Hl (S k) q Hq) as (b' & -> & Hb). exists b'. split; [done|].
      rewrite lookup_delete_ne; [done|]. intros <-. by specialize (Ha 0%nat (S k) b eq_refl Hq).
    + intros k l b' Hk Hl'. specialize (Ha (S k) (S l) b' Hk Hl'). lia.
  - cbn [mbind option_bind]. apply IH; [intros k; apply (Hl (S k))|]. intros k l b Hk Hl'. specialize (Ha (S k) (S l) b Hk Hl'). lia.
Qed.

(** Where a pointer of the list comes from. *)
Lemma texts_lookup (fl : list text_field) rs : forall k p, (rs ≫= fun r => text r <$> fl) !! k = Some p ->
  exists i j r f, rs !! i = Some r /\ fl !! j = Some f /\ p = text r f /\ (k = i * length fl + j)%nat.
Proof.
  induction rs as [|r rs IH]; intros k p; [done|]. cbn [mbind list_bind]. intros [H|[Hk H]]%lookup_app_Some.
  - rewrite list_lookup_fmap in H. destruct (fl !! k) as [f|] eqn:E; [|done]. injection H as <-. by exists 0%nat, k, r, f.
  - rewrite length_fmap in Hk, H. apply IH in H as (i & j & r' & f & H1 & H2 & -> & H3). exists (S i), j, r', f. split_and!; try done. lia.
Qed.

Lemma texts_release bl rs : texts_apart bl rs -> is_Some (release_records bl MADB_DESC_IRD rs).
Proof.
  intros [Hl Ha]. apply release_all_ok.
  - intros k p (i & j & r & f & H1 & H2 & H3 & _)%texts_lookup. apply (Hl i r f); [done|by eapply list_elem_of_lookup_2|done].
  - intros k l b (i & j & r & f & H1 & H2 & H3 & ->)%texts_lookup (i' & j' & r' & f' & H1' & H2' & H3' & ->)%texts_lookup.
    destruct (Ha i i' r r' f f' b) as [<- <-]; try done; [by eapply list_elem_of_lookup_2..|].
    assert (NoDup (freed_fields MADB_DESC_IRD)) as Hn by (apply (bool_decide_unpack _); by vm_compute).
    by rewrite (NoDup_lookup _ _ _ _ Hn H2 H2').
Qed.

(** The texts that are not replaced. *)
Lemma MADB_RESET_other f t bl r bl' r' g : MADB_RESET f t (bl, r) = Some (bl', r') -> g <> f -> text r' g = text r g.
Proof.
  unfold MADB_RESET. destruct (release bl (text r f)) as [bl1|]; [|done]. cbn [mbind option_bind].
  destruct t; [unfold strdup|]; intros [= _ <-] Hg; by rewrite text_set_ne.
Qed.

Lemma SetIrdRecord_other c co bl r bl' r' g : MADB_SetIrdRecord c co bl r = Some (bl', r') ->
  g ∈ ird_fields -> g ∉ reset_fields -> text r' g = text r g.
Proof.
  intros H Hi Hg. rewrite MADB_SetIrdRecord_steps in H.
  assert (forall l x y, reset_all l x = Some y -> g ∉ fst <$> l -> text y.2 g = text x.2 g) as Hall.
  { induction l as [|[f t] l IH]; intros x y; cbn [reset_all]; [by intros [= ->]|].
    destruct (MADB_RESET f t x) as [x1|] eqn:E; [|done]. cbn [mbind option_bind]. intros Hl Hn. cbn in Hn. apply not_elem_of_cons in Hn as [H1 H2].
    rewrite (IH _ _ Hl H2). destruct x as [b0 r0], x1 as [b1 r1]. by apply (MADB_RESET_other f t b0 r0 b1 r1). }
  destruct (reset_all (column_texts co) (bl, r)) as [[bl5 r5]|] eqn:E5; [|done]. cbn [mbind option_bind] in H.
  destruct (MADB_RESET TypeName _ _) as [[bl8 r8]|] eqn:E8; [|done]. cbn [mbind option_bind] in H. injection H as _ <-.
  assert (text (column_literals (co_field co) r8) g = text r8 g) as ->.
  { unfold column_literals, set_literals. repeat case_match; rewrite !text_set_ne; try done; by intros <-; cbv in Hi; set_solver. }
  rewrite (MADB_RESET_other _ _ _ _ _ _ g E8), described_text by (intros ->; set_solver). apply Hall in E5; [done|]. unfold column_texts. cbn. set_solver.
Qed.

Lemma texts_owned bl rs j r : texts_apart bl rs -> rs !! j = Some r -> owned bl (text r).
Proof.
  intros [Hl Ha] Hj. split.
  - intros f p Hf. apply (Hl j r f p Hj). by apply reset_ird_fields.
  - intros f g b Hf Hg H1 H2. by apply (Ha j j r r f g b); try apply reset_ird_fields.
Qed.

(** Describing one record keeps the texts of all records in order, and those of the others. *)
Lemma texts_described bl rs j r c co : texts_apart bl rs -> rs !! j = Some r ->
  exists bl' r', MADB_SetIrdRecord c co bl r = Some (bl', r') /\ texts_apart bl' (<[j := r']> rs) /\
    text_of bl' (text r' ColumnName) = Some (co_name co) /\ num r' ConciseType = concise_type c (co_field co) /\
    forall i r0, i <> j -> rs !! i = Some r0 -> same_texts bl bl' r0.
Proof.
  intros Hta Hj. destruct (SetIrdRecord_ok c co bl r (texts_owned _ _ _ _ Hta Hj)) as (bl' & r' & r5 & E & _ & Hn & [HL' HA'] & Hs & _ & Hb).
  exists bl', r'. split; [done|]. pose proof Hta as [Hl Ha].
  pose proof (lookup_lt_Some _ _ _ Hj) as Hjl.
  assert (forall i r0 f b, rs !! i = Some r0 -> f ∈ ird_fields -> (i <> j \/ f ∉ reset_fields) -> text r0 f = Some (Block b) ->
    elsewhere (text r) b /\ is_Some (bl' !! b) /\ bl' !! b = bl !! b /\ elsewhere (text r') b) as Hkept.
  { intros i r0 f b Hi Hf Hk Ht. assert (elsewhere (text r) b) as He.
    { intros g Hg Hgb. destruct (Ha i j r0 r f g b) as [-> ->]; try done; [by apply reset_ird_fields|]. by destruct Hk. }
    destruct (Hl i r0 f (Block b) Hi Hf Ht) as (? & [= <-] & [x Hx]). destruct (Hb b x He Hx) as [H1 H2]. rewrite H1, Hx. by split_and!. }
  assert (forall i r0 f, <[j := r']> rs !! i = Some r0 -> f ∈ ird_fields -> (i <> j \/ f ∉ reset_fields) ->
    exists r1, rs !! i = Some r1 /\ text r0 f = text r1 f) as Hold.
  { intros i r0 f Hi Hf Hk. destruct (decide (i = j)) as [->|Hij].
    - rewrite list_lookup_insert_eq in Hi by done. injection Hi as <-. destruct Hk as [?|Hk]; [done|]. exists r. split; [done|].
      by eapply SetIrdRecord_other.
    - rewrite list_lookup_insert_ne in Hi by done. by exists r0. }
  assert (forall i f, {i = j /\ f ∈ reset_fields} + {i <> j \/ f ∉ reset_fields}) as Hdec.
  { intros i f. destruct (decide (i = j)); [|right; by left]. destruct (decide (f ∈ reset_fields)); [by left|right; by right]. }
  split_and!.
  - split.
    + intros i r0 f p Hi Hf Hp. destruct (Hdec i f) as [[-> Hr]|Hk].
      * rewrite list_lookup_insert_eq in Hi by done. injection Hi as <-. by apply (HL' f).
      * destruct (Hold i r0 f Hi Hf Hk) as (r1 & H1 & H2). rewrite H2 in Hp. destruct (Hl i r1 f p H1 Hf Hp) as (b & -> & _).
        exists b. split; [done|]. by apply (Hkept i r1 f b).
    + intros i i' r0 r0' f g b Hi Hi' Hf Hg H1 H2.
      assert (forall i i' r0 r0' f g, <[j := r']> rs !! i = Some r0 -> <[j := r']> rs !! i' = Some r0' -> f ∈ ird_fields -> g ∈ ird_fields ->
        text r0 f = Some (Block b) -> text r0' g = Some (Block b) -> i = j /\ f ∈ reset_fields -> i' <> j \/ g ∉ reset_fields -> False) as Hmix.
      { clear -Hold Hkept Hjl. intros i i' r0 r0' f g Hi Hi' Hf Hg H1 H2 [-> Hr] Hk. rewrite list_lookup_insert_eq in Hi by done. injection Hi as <-.
        destruct (Hold i' r0' g Hi' Hg Hk) as (r1 & H3 & H4). rewrite H4 in H2. destruct (Hkept i' r1 g b H3 Hg Hk H2) as (_ & _ & _ & He). by apply (He f). }
      destruct (Hdec i f) as [Hr|Hk], (Hdec i' g) as [Hr'|Hk'].
      * destruct Hr as [-> Hr], Hr' as [-> Hr']. rewrite list_lookup_insert_eq in Hi, Hi' by done. injection Hi as <-. injection Hi' as <-.
        split; [done|]. by apply (HA' f g b).
      * exfalso. by apply (Hmix i i' r0 r0' f g).
      * exfalso. by apply (Hmix i' i r0' r0 g f).
      * destruct (Hold i r0 f Hi Hf Hk) as (r1 & H3 & H4), (Hold i' r0' g Hi' Hg Hk') as (r1' & H3' & H4').
        rewrite H4 in H1. rewrite H4' in H2. by apply (Ha i i' r1 r1' f g b).
  - apply Hs. unfold column_texts. set_solver.
  - rewrite Hn. unfold described. rewrite set_sizes_num, set_type_fields_num. cbv iota. by read_fields.
  - intros i r0 Hij Hi f Hf. destruct (text r0 f) as [[l|b]|] eqn:E1; [done| |done]. cbn.
    destruct (Hkept i r0 f b Hi Hf (or_introl Hij) E1) as (_ & _ & -> & _). done.
Qed.

(** A record that is created gets a type name of its own. *)
Lemma texts_grown bl rs : texts_apart bl rs ->
  exists bl' r, MADB_DescSetRecordDefaults bl MADB_DESC_IRD = (bl', r) /\ texts_apart bl' (rs ++ [r]) /\
    forall i r0, rs !! i = Some r0 -> same_texts bl bl' r0.
Proof.
  intros [Hl Ha]. pose proof (new_block_fresh bl) as Hnew. unfold MADB_DescSetRecordDefaults. cbn [case existsb]. eval_case. cbn [Z.eqb orb].
  change (MADB_DESC_IRD =? MADB_DESC_IPD) with false. change (MADB_DESC_IRD =? MADB_DESC_IRD) with true. unfold strdup. set (b := new_block bl) in *. clearbody b.
  eexists _, _. split; [reflexivity|]. set (r := set_text _ _ _).
  assert (forall f p, text r f = Some p -> f = TypeName /\ p = Block b) as Hr.
  { intros f p. destruct (decide (f = TypeName)) as [->|Hf]; subst r; [rewrite text_set_eq; by intros [= <-]|]. by rewrite text_set_ne. }
  assert (forall i r0 f b', rs !! i = Some r0 -> f ∈ ird_fields -> text r0 f = Some (Block b') -> b' <> b) as Hne.
  { intros i r0 f b' Hi Hf Ht ->. destruct (Hl i r0 f _ Hi Hf Ht) as (? & [= <-] & [x Hx]). congruence. }
  split; [split|].
  - intros i r0 f p [Hi|[Hi Hx]]%lookup_app_Some Hf Hp.
    + destruct (Hl i r0 f p Hi Hf Hp) as (b' & -> & Hb'). exists b'. split; [done|]. rewrite lookup_insert_ne; [done|]. intros <-. by apply (Hne i r0 f b).
    + apply list_lookup_singleton_Some in Hx as [_ <-]. destruct (Hr f p Hp) as [_ ->]. exists b. split; [done|]. by rewrite lookup_insert_eq.
  - intros i i' r0 r0' f g b' [Hi|[Hi Hx]]%lookup_app_Some [Hi'|[Hi' Hx']]%lookup_app_Some Hf Hg H1 H2.
    + by apply (Ha i i' r0 r0' f g b').
    + apply list_lookup_singleton_Some in Hx' as [_ <-]. apply Hr in H2 as [_ [= ->]]. by destruct (Hne i r0 f b Hi Hf H1).
    + apply list_lookup_singleton_Some in Hx as [_ <-]. apply Hr in H1 as [_ [= ->]]. by destruct (Hne i' r0' g b Hi' Hg H2).
    + apply list_lookup_singleton_Some in Hx as [E1 <-]. apply list_lookup_singleton_Some in Hx' as [E2 <-].
      apply Hr in H1 as [-> _]. apply Hr in H2 as [-> _]. split; [lia|done].
  - intros i r0 Hi f Hf. destruct (text r0 f) as [[l|b']|] eqn:E1; [done| |done]. cbn.
    rewrite lookup_insert_ne; [done|]. intros <-. by apply (Hne i r0 f b).
Qed.

(** The record of the next column: an old one or one that is created. *)
Lemma next_record mem w h d k : descs w !! h = Some d -> DescType d = MADB_DESC_IRD -> texts_apart (blocks w) (Records d) ->
  (k <= length (Records d))%nat -> Z.of_nat k < 32767 -> (1 <= mem)%nat ->
  exists w1 d1 r, MADB_DescGetInternalRecord mem w h (Z.of_nat k) MADB_DESC_WRITE = Some (w1, Some (Z.of_nat k)) /\
    descs w1 = <[h := d1]> (descs w) /\ stmts w1 = stmts w /\ Descrs w1 = Descrs w /\ texts_apart (blocks w1) (Records d1) /\
    Records d1 !! k = Some r /\ (forall i, (i < k)%nat -> Records d1 !! i = Records d !! i) /\
    (forall i r0, Records d !! i = Some r0 -> same_texts (blocks w) (blocks w1) r0) /\
    Count (Header d1) = Z.max (Count (Header d)) (Z.of_nat k + 1) /\ DescType d1 = DescType d /\ AppType d1 = AppType d.
Proof.
  intros Hd Ht Hta Hk H32 Hm. unfold MADB_DescGetInternalRecord. rewrite Hd. cbn [mbind option_bind]. rewrite andb_false_r.
  assert (exists bl rs r, grow_records (Z.to_nat (Z.of_nat k + 1 - Z.of_nat (length (Records d)))) mem (blocks w) (DescType d) (Records d)
      = (true, bl, rs) /\ texts_apart bl rs /\ rs !! k = Some r /\ (forall i, (i < k)%nat -> rs !! i = Records d !! i) /\
      (forall i r0, Records d !! i = Some r0 -> same_texts (blocks w) bl r0)) as (bl & rs & r & -> & G1 & G2 & G3 & G4).
  { destruct (decide (k < length (Records d))%nat) as [Hlt|Hge].
    - destruct (lookup_lt_is_Some_2 _ _ Hlt) as [r Hr]. exists (blocks w), (Records d), r.
      replace (Z.to_nat _) with 0%nat by lia. by split_and!.
    - assert (k = length (Records d)) as Ek by lia. replace (Z.to_nat _) with 1%nat by lia. destruct mem as [|mem]; [lia|]. cbn [grow_records]. rewrite Ht.
      destruct (texts_grown _ _ Hta) as (bl & r & -> & Hta' & Hs). exists bl, (Records d ++ [r]), r. split_and!; try done.
      + rewrite Ek. apply list_lookup_middle. done.
      + intros i Hi. by rewrite lookup_app_l by lia. }
  eexists _, _, r. split; [reflexivity|]. cbn [descs put_desc put_blocks stmts Descrs blocks]. split; [done|]. split_and!; try done.
  cbn. destruct (Z.ltb_spec (Count (Header d)) (Z.of_nat k + 1)); cbn; [rewrite wraps_id by lia|]; lia.
Qed.

(** The row descriptor describes its columns: each has its record, with its name and type. *)
Definition describes (c : ird_config) (cols : list column) (bl : gmap positive (list Z)) (d : MADB_Desc) (k : nat) : Prop :=
  forall j co, cols !! j = Some co -> exists r, Records d !! (k + j)%nat = Some r /\ text_of bl (text r ColumnName) = Some (co_name co) /\
    num r ConciseType = concise_type c (co_field co).

Lemma set_columns_ok c mem h cols : forall k w d, descs w !! h = Some d -> DescType d = MADB_DESC_IRD -> AppType d = false ->
  texts_apart (blocks w) (Records d) -> (k <= length (Records d))%nat -> Count (Header d) = Z.of_nat k ->
  Z.of_nat (k + length cols) < 32767 -> (1 <= mem)%nat ->
  exists w' d', set_columns c mem h (Z.of_nat k) cols w = Some (false, w') /\ descs w' = <[h := d']> (descs w) /\ stmts w' = stmts w /\
    Descrs w' = Descrs w /\ DescType d' = MADB_DESC_IRD /\ AppType d' = false /\ texts_apart (blocks w') (Records d') /\
    Count (Header d') = Z.of_nat (k + length cols) /\ describes c cols (blocks w') d' k /\
    (forall i r, (i < k)%nat -> Records d !! i = Some r -> Records d' !! i = Some r /\ same_texts (blocks w) (blocks w') r).
Proof.
  induction cols as [|co cols IH]; intros k w d Hd Ht Hap Hta Hk Hc H32 Hm; cbn [set_columns length] in *.
  { exists w, d. split_and!; try done; [by rewrite insert_id|by rewrite Nat.add_0_r]. }
  destruct (next_record mem w h d k Hd Ht Hta Hk ltac:(lia) Hm) as (w1 & d1 & r & -> & E1 & E2 & E3 & Hta1 & Hr & Hold & Hsame & HC & Ht1 & Ha1).
  cbn [mbind option_bind]. assert (descs w1 !! h = Some d1) as Hd1 by (rewrite E1; apply lookup_insert_eq).
  rewrite (get_record_at w1 h d1) by (done || lia). rewrite Nat2Z.id, Hr. cbn [mbind option_bind].
  destruct (texts_described _ _ _ _ c co Hta1 Hr) as (bl & r' & -> & Hta2 & Hname & Hty & Hsame2). cbn [mbind option_bind].
  unfold put_record. cbn [descs put_blocks]. rewrite Hd1. cbn [mbind option_bind]. rewrite Nat2Z.id.
  set (d2 := with_records d1 (<[k := r']> (Records d1))). set (w2 := put_desc (put_blocks w1 bl) h d2).
  pose proof (lookup_lt_Some _ _ _ Hr) as Hkl. replace (Z.of_nat k + 1) with (Z.of_nat (S k)) by lia.
  destruct (IH (S k) w2 d2) as (w' & d' & E & F1 & F2 & F3 & F4 & F5 & F6 & F7 & F8 & F9); try done.
  { apply lookup_insert_eq. } { by rewrite <- Ht. } { by rewrite <- Hap. } { cbn. rewrite length_insert. lia. }
  { change (Count (Header d2)) with (Count (Header d1)). lia. } { lia. }
  exists w', d'. split; [done|]. split; [rewrite F1; cbn; rewrite E1, !insert_insert_eq; done|]. split; [by rewrite F2|]. split; [by rewrite F3|].
  split_and!; try done; [by rewrite F7; f_equal; lia| |].
  - intros [|j] co' Hj; cbn in Hj.
    + injection Hj as <-. exists r'. destruct (F9 k r') as [G1 G2]; [lia|cbn; by rewrite list_lookup_insert_eq|].
      rewrite Nat.add_0_r. split; [done|]. split; [|done]. rewrite G2 by (cbv; set_solver). done.
    + destruct (F8 j co' Hj) as (r0 & ? & ? & ?). exists r0. by replace (k + S j)%nat with (S k + j)%nat by lia.
  - intros i r0 Hi Hr0. assert (Records d1 !! i = Some r0) as Hr1 by (by rewrite Hold).
    destruct (F9 i r0) as [G1 G2]; [lia|cbn; by rewrite list_lookup_insert_ne by lia|]. split; [done|].
    intros f Hf. rewrite G2 by done. cbn. rewrite (Hsame2 i r0) by (done || lia). by apply (Hsame i).
Qed.

(** [MADB_DescSetIrdMetadata] on a descriptor in order. *)
Lemma DescSetIrdMetadata_ok c mem h cols w d : descs w !! h = Some d -> DescType d = MADB_DESC_IRD -> AppType d = false ->
  texts_apart (blocks w) (Records d) -> Z.of_nat (length cols) < 32767 -> (1 <= mem)%nat ->
  exists w' d', MADB_DescSetIrdMetadata c mem h cols w = Some (false, w') /\ descs w' = <[h := d']> (descs w) /\ stmts w' = stmts w /\
    DescType d' = MADB_DESC_IRD /\ AppType d' = false /\ texts_apart (blocks w') (Records d') /\
    Count (Header d') = Z.of_nat (length cols) /\ describes c cols (blocks w') d' 0.
Proof.
  intros Hd Ht Ha Hta H32 Hm. unfold MADB_DescSetIrdMetadata. rewrite Hd. cbn [mbind option_bind].
  set (d0 := with_header d (set_Count (Header d) 0)).
  destruct (set_columns_ok c mem h cols 0 (put_desc w h d0) d0) as (w' & d' & E & F1 & F2 & _ & F4 & F5 & F6 & F7 & F8 & _); try done; [apply lookup_insert_eq|cbn; lia|].
  exists w', d'. split; [exact E|]. split; [by rewrite F1; cbn; rewrite insert_insert_eq|]. by split_and!.
Qed.

(** [MADB_DescFree] of the records only. *)
Lemma DescFree_ird w h d : descs w !! h = Some d -> DescType d = MADB_DESC_IRD -> AppType d = false -> texts_apart (blocks w) (Records d) ->
  exists w' d', MADB_DescFree w h true = Some w' /\ descs w' = <[h := d']> (descs w) /\ stmts w' = stmts w /\
    DescType d' = MADB_DESC_IRD /\ AppType d' = false /\ Records d' = [] /\ Count (Header d') = 0.
Proof.
  intros Hd Ht Ha Hta. unfold MADB_DescFree. rewrite Hd. cbn [mbind option_bind]. rewrite Ht.
  destruct (texts_release _ _ Hta) as [bl ->]. cbn [mbind option_bind]. rewrite Ha. eexists _, _. split; [reflexivity|]. split; [reflexivity|]. by split_and!.
Qed.

Lemma texts_none bl : texts_apart bl [].
Proof. by split. Qed.

(** *** Samples *)

Definition sample_column : column :=
  MkColumnInfo (MkField MYSQL_TYPE_LONGLONG (Z.lor UNSIGNED_FLAG NUM_FLAG) 63 20 0) (Some (chars "d")) (Some (chars "t")) (Some (chars "c"))
    (Some (chars "t0")) None.
Definition sample_config : ird_config := MkIrdConfig false true (fun _ => Some 1) 4 false.
Definition sample_record : MADB_DescRecord := set_text zero_record TypeName (Some (Block 1)).

Lemma sample_owned : owned {[1%positive := chars "VARCHAR"]} (text sample_record).
Proof.
  split.
  - intros f p Hf. destruct (decide (f = TypeName)) as [->|Hne].
    + unfold sample_record. rewrite text_set_eq. intros [= <-]. exists 1%positive. split; [done|]. by rewrite lookup_singleton_eq.
    + unfold sample_record. by rewrite text_set_ne.
  - intros f g b Hf Hg. unfold sample_record. destruct (decide (f = TypeName)) as [->|Hne]; [|by rewrite text_set_ne].
    destruct (decide (g = TypeName)) as [->|Hne']; [done|]. intros _. by rewrite text_set_ne.
Qed.

Lemma MADB_SetIrdRecord_describes_witness : exists bl' r',
  MADB_SetIrdRecord sample_config sample_column {[1%positive := chars "VARCHAR"]} sample_record = Some (bl', r') /\
  text_of bl' (text r' ColumnName) = Some (Some (chars "c")) /\ text_of bl' (text r' TypeName) = Some (Some (chars "bigint unsigned")) /\
  num r' ConciseType = SQL_BIGINT /\ num r' OctetLength = 8 /\ num r' DisplaySize = 20 /\ num r' Length = 19.
Proof.
  destruct (MADB_SetIrdRecord_describes sample_config sample_column {[1%positive := chars "VARCHAR"]} sample_record sample_owned)
    as (bl' & r' & H0 & _ & _ & _ & H1 & _ & _ & H2 & _ & H3 & _ & _ & _ & _ & _ & _ & H4).
  destruct (H4 (DInt 64 true)) as (_ & H5 & H6 & H7).
  { split; [set_solver|]. split_and!; by vm_compute. }
  exists bl', r'. rewrite H0, H1, H2, H3, H5, H6, H7. split; [done|]. vm_compute. split_and!; reflexivity.
Defined.

Lemma SetIrdRecord_bigint_size_witness : exists bl' r',
  MADB_SetIrdRecord sample_config sample_column {[1%positive := chars "VARCHAR"]} sample_record = Some (bl', r') /\ num r' Length = 19.
Proof.
  destruct (SetIrdRecord_bigint_size sample_config sample_column {[1%positive := chars "VARCHAR"]} sample_record sample_owned eq_refl)
    as (bl' & r' & H0 & H1 & _). exists bl', r'. split; [exact H0|exact H1].
Defined.

Definition sample_infos (j : nat) : option MADB_ShortTypeInfo :=
  [MkShort SQL_VARCHAR false SQL_NO_NULLS 64 0; MkShort 0 false 0 0 0; MkShort SQL_DECIMAL true SQL_NULLABLE 0 7] !! j.
Definition sample_desc : MADB_Desc :=
  MkDesc (MkHeader 0 1 0 0 0 3 0) MADB_DESC_IRD false (replicate 3 (set_num zero_record OctetLength 2000000000)) [] ErrorProps.zero_error.

Lemma MADB_FixColumnDataTypes_again_witness : exists d' d'',
  MADB_FixColumnDataTypes sample_config sample_infos sample_desc = Some d' /\
  MADB_FixColumnDataTypes sample_config sample_infos d' = Some d'' /\ Forall2 same_record (Records d'') (Records d').
Proof.
  destruct (MADB_FixColumnDataTypes_again sample_config sample_infos sample_desc) as (d' & d'' & H1 & H2 & H3 & _).
  - intros j Hj. apply lookup_lt_is_Some_2. cbn in *. lia.
  - cbn. lia.
  - exists d', d''. split; [exact H1|]. split; [exact H2|exact H3].
Defined.

End IrdProps.
