(* ===== verification/StmtAttr.v ===== *)
(** * StmtAttr: statement attributes and the assignment of descriptors

    Models [MADB_StmtSetStmtAttr], [MADB_StmtGetStmtAttr] and [MADB_StmtBindCol] of
    [ma_statement.c] and the descriptor part of its SQL_UNBIND.  A statement is its
    entry in the [world] of Desc.v, its options and its error record; the
    descriptors it shares with other statements are reached through the world.  A
    pointer-sized argument is an integer; a descriptor handle is its address. *)

From Stdlib Require Import ZArith Lia.
From stdpp Require Import base strings numbers option gmap list.
From S2P Require Import Prelude Odbc Errors SqlTypes Desc.
Import ErrorOps SqlTypes DescOps.

Record MADB_StmtOptions := MkOptions {
  MaxRows : Z;
  MaxLength : Z;
  CursorType : Z;
  UseBookmarks : Z;
  BookmarkPtr : Z;
  BookmarkLength : Z;
  BookmarkType : Z;
  MetadataId : Z;
  SimulateCursor : Z;
}.

(** The connection settings the attributes depend on. *)
Record cursor_settings := MkSettings { CURSOR_FORWARD_ONLY : bool; CURSOR_DYNAMIC : bool }.

(** Statement [self], with the handles it shares. *)
Record stmt_state := MkStmt {
  st_world : world;
  self : positive;
  Options : MADB_StmtOptions;
  st_Error : MADB_Error;
}.

Module StmtAttr.

Definition with_world (s : stmt_state) (w : world) : stmt_state := MkStmt w (self s) (Options s) (st_Error s).
Definition with_options (s : stmt_state) (o : MADB_StmtOptions) : stmt_state := MkStmt (st_world s) (self s) o (st_Error s).
Definition fail (s : stmt_state) (code : nat) (msg : option string) : stmt_state :=
  MkStmt (st_world s) (self s) (Options s) (MADB_SetError (st_Error s) code (chars <$> msg) 0).

Definition set_CursorType (o : MADB_StmtOptions) (v : Z) : MADB_StmtOptions :=
  MkOptions (MaxRows o) (MaxLength o) v (UseBookmarks o) (BookmarkPtr o) (BookmarkLength o) (BookmarkType o)
    (MetadataId o) (SimulateCursor o).
Definition set_UseBookmarks (o : MADB_StmtOptions) (v : Z) : MADB_StmtOptions :=
  MkOptions (MaxRows o) (MaxLength o) (CursorType o) v (BookmarkPtr o) (BookmarkLength o) (BookmarkType o)
    (MetadataId o) (SimulateCursor o).
Definition set_MaxRows (o : MADB_StmtOptions) (v : Z) : MADB_StmtOptions :=
  MkOptions v (MaxLength o) (CursorType o) (UseBookmarks o) (BookmarkPtr o) (BookmarkLength o) (BookmarkType o)
    (MetadataId o) (SimulateCursor o).
Definition set_MaxLength (o : MADB_StmtOptions) (v : Z) : MADB_StmtOptions :=
  MkOptions (MaxRows o) v (CursorType o) (UseBookmarks o) (BookmarkPtr o) (BookmarkLength o) (BookmarkType o)
    (MetadataId o) (SimulateCursor o).
Definition set_MetadataId (o : MADB_StmtOptions) (v : Z) : MADB_StmtOptions :=
  MkOptions (MaxRows o) (MaxLength o) (CursorType o) (UseBookmarks o) (BookmarkPtr o) (BookmarkLength o)
    (BookmarkType o) v (SimulateCursor o).
Definition set_SimulateCursor (o : MADB_StmtOptions) (v : Z) : MADB_StmtOptions :=
  MkOptions (MaxRows o) (MaxLength o) (CursorType o) (UseBookmarks o) (BookmarkPtr o) (BookmarkLength o)
    (BookmarkType o) (MetadataId o) v.

(** ** Descriptors *)

(** The two roles of a descriptor of the application. *)
Inductive app_role := RowDesc | ParamDesc.

#[export] Instance app_role_eq_dec : EqDecision app_role.
Proof. solve_decision. Defined.

Definition role_type (r : app_role) : Z := match r with RowDesc => MADB_DESC_ARD | ParamDesc => MADB_DESC_APD end.
Definition current (r : app_role) (x : stmt_descs) : positive := match r with RowDesc => Ard x | ParamDesc => Apd x end.
Definition implicit (r : app_role) (x : stmt_descs) : positive := match r with RowDesc => IArd x | ParamDesc => IApd x end.
Definition set_current (r : app_role) (x : stmt_descs) (h : positive) : stmt_descs :=
  match r with RowDesc => set_Ard x h | ParamDesc => set_Apd x h end.

(** The cases SQL_ATTR_APP_PARAM_DESC and SQL_ATTR_APP_ROW_DESC: an error code, or
    the new world; [mem] is the answer of [MADB_AllocDynamic] for the reference. *)
Definition assign_desc (mem : bool) (w : world) (s : positive) (r : app_role) (ValuePtr : option positive)
    : option (nat + world) :=
  x ← stmts w !! s;
  match ValuePtr with
  | Some h =>
      d ← descs w !! h;
      if negb (AppType d) && negb (bool_decide (h = implicit r x)) then Some (inl MADB_ERR_HY017)
      else if negb (DescType d =? role_type r) && negb (DescType d =? MADB_DESC_UNKNOWN) then Some (inl MADB_ERR_HY024)
      else
        w1 ← RemoveStmtRefFromDesc w (current r x) s false;
        let w2 := put_stmts w1 (<[s := set_current r x h]> (stmts w1)) in
        d2 ← descs w2 !! h;
        let w3 := put_desc w2 h (with_type d2 (role_type r)) in
        if bool_decide (h = implicit r x) then Some (inr w3)
        else if mem then Some (inr (put_desc w3 h (with_stmts (with_type d2 (role_type r)) (Stmts d2 ++ [s]))))
        else None
  | None =>
      w1 ← RemoveStmtRefFromDesc w (current r x) s false;
      Some (inr (put_stmts w1 (<[s := set_current r x (implicit r x)]> (stmts w1))))
  end.

Definition address (v : Z) : option positive := if v =? 0 then None else Some (Z.to_pos v).

(** A header field of one of the statement's descriptors is written. *)
Definition set_header (s : stmt_state) (which : stmt_descs -> positive) (f : MADB_Header -> MADB_Header)
    : option (Z * stmt_state) :=
  x ← stmts (st_world s) !! self s;
  d ← descs (st_world s) !! which x;
  Some (SQL_SUCCESS, with_world s (put_desc (st_world s) (which x) (with_header d (f (Header d))))).

Definition get_header (s : stmt_state) (which : stmt_descs -> positive) : option MADB_Header :=
  x ← stmts (st_world s) !! self s; d ← descs (st_world s) !! which x; Some (Header d).

(** The options the driver does not let the application change. *)
Definition fixed_option (s : stmt_state) (unchanged : bool) (msg : string) : option (Z * stmt_state) :=
  Some (if unchanged then (SQL_SUCCESS, s) else (SQL_SUCCESS_WITH_INFO, fail s MADB_ERR_01S02 (Some msg))).

Definition refuse (s : stmt_state) (code : nat) : option (Z * stmt_state) :=
  let s' := fail s code None in Some (ReturnValue (st_Error s'), s').

Definition set_cursor_type (c : cursor_settings) (s : stmt_state) (v : Z) : option (Z * stmt_state) :=
  let forward :=
    let s' := fail (with_options s (set_CursorType (Options s) SQL_CURSOR_FORWARD_ONLY)) MADB_ERR_01S02
                (Some "Option value changed to default (SQL_CURSOR_FORWARD_ONLY)"%string) in
    Some (ReturnValue (st_Error s'), s') in
  let take := Some (SQL_SUCCESS, with_options s (set_CursorType (Options s) (wrapu 32 v))) in
  if CURSOR_FORWARD_ONLY c && negb (v =? SQL_CURSOR_FORWARD_ONLY) then forward
  else if CURSOR_DYNAMIC c then if v =? SQL_CURSOR_KEYSET_DRIVEN then forward else take
  else if negb (v =? SQL_CURSOR_FORWARD_ONLY) && negb (v =? SQL_CURSOR_STATIC) then forward
  else take.

Definition MADB_StmtSetStmtAttr (mem : bool) (c : cursor_settings) (s : stmt_state) (Attribute ValuePtr : Z)
    : option (Z * stmt_state) :=
  let v := wrapu 64 ValuePtr in
  let option f := Some (SQL_SUCCESS, with_options s (f (Options s))) in
  let assign r :=
    res ← assign_desc mem (st_world s) (self s) r (address v);
    match res with inl code => refuse s code | inr w => Some (SQL_SUCCESS, with_world s w) end in
  if case Attribute [SQL_ATTR_APP_PARAM_DESC] then assign ParamDesc
  else if case Attribute [SQL_ATTR_APP_ROW_DESC] then assign RowDesc
  else if case Attribute [SQL_ATTR_PARAM_BIND_OFFSET_PTR] then set_header s Apd (fun hd => set_BindOffsetPtr hd v)
  else if case Attribute [SQL_ATTR_PARAM_BIND_TYPE] then set_header s Apd (fun hd => set_BindType hd (wrapu 64 (wraps 32 v)))
  else if case Attribute [SQL_ATTR_PARAM_OPERATION_PTR] then set_header s Apd (fun hd => set_ArrayStatusPtr hd v)
  else if case Attribute [SQL_ATTR_PARAM_STATUS_PTR] then set_header s Ipd (fun hd => set_ArrayStatusPtr hd v)
  else if case Attribute [SQL_ATTR_PARAMS_PROCESSED_PTR] then set_header s Ipd (fun hd => set_RowsProcessedPtr hd v)
  else if case Attribute [SQL_ATTR_PARAMSET_SIZE] then set_header s Apd (fun hd => set_ArraySize hd v)
  else if case Attribute [SQL_ATTR_ROW_ARRAY_SIZE; SQL_ROWSET_SIZE] then set_header s Ard (fun hd => set_ArraySize hd v)
  else if case Attribute [SQL_ATTR_ROW_BIND_OFFSET_PTR] then set_header s Ard (fun hd => set_BindOffsetPtr hd v)
  else if case Attribute [SQL_ATTR_ROW_BIND_TYPE] then set_header s Ard (fun hd => set_BindType hd (wrapu 64 (wraps 32 v)))
  else if case Attribute [SQL_ATTR_ROW_OPERATION_PTR] then set_header s Ard (fun hd => set_ArrayStatusPtr hd v)
  else if case Attribute [SQL_ATTR_ROW_STATUS_PTR] then set_header s Ird (fun hd => set_ArrayStatusPtr hd v)
  else if case Attribute [SQL_ATTR_ROWS_FETCHED_PTR] then set_header s Ird (fun hd => set_RowsProcessedPtr hd v)
  else if case Attribute [SQL_ATTR_ASYNC_ENABLE] then
    fixed_option s (v =? SQL_ASYNC_ENABLE_OFF) "Option value changed to default (SQL_ATTR_ASYNC_ENABLE)"
  else if case Attribute [SQL_ATTR_SIMULATE_CURSOR] then option (fun o => set_SimulateCursor o v)
  else if case Attribute [SQL_ATTR_CURSOR_SCROLLABLE] then
    option (fun o => set_CursorType o (if v =? SQL_NONSCROLLABLE then SQL_CURSOR_FORWARD_ONLY else SQL_CURSOR_STATIC))
  else if case Attribute [SQL_ATTR_CURSOR_SENSITIVITY] then
    fixed_option s (v =? SQL_UNSPECIFIED) "Option value changed to default cursor sensitivity"
  else if case Attribute [SQL_ATTR_CURSOR_TYPE] then set_cursor_type c s v
  else if case Attribute [SQL_ATTR_CONCURRENCY] then
    fixed_option s (v =? SQL_CONCUR_READ_ONLY) "Option value changed to default (SQL_CONCUR_READ_ONLY). "
  else if case Attribute [SQL_ATTR_ENABLE_AUTO_IPD] then refuse s MADB_ERR_HYC00
  else if case Attribute [SQL_ATTR_MAX_LENGTH] then option (fun o => set_MaxLength o (wraps 64 v))
  else if case Attribute [SQL_ATTR_MAX_ROWS] then option (fun o => set_MaxRows o (wraps 64 v))
  else if case Attribute [SQL_ATTR_METADATA_ID] then option (fun o => set_MetadataId o v)
  else if case Attribute [SQL_ATTR_NOSCAN] then
    fixed_option s (v =? SQL_NOSCAN_ON) "Option value changed to default (SQL_NOSCAN_ON)"
  else if case Attribute [SQL_ATTR_QUERY_TIMEOUT] then
    fixed_option s (v =? 0) "Option value changed to default (no timeout)"
  else if case Attribute [SQL_ATTR_RETRIEVE_DATA] then
    fixed_option s (v =? SQL_RD_ON) "Option value changed to default (SQL_RD_ON)"
  else if case Attribute [SQL_ATTR_USE_BOOKMARKS] then option (fun o => set_UseBookmarks o (wrapu 32 v))
  else if case Attribute [SQL_ATTR_FETCH_BOOKMARK_PTR] then refuse s MADB_ERR_HYC00
  else refuse s MADB_ERR_HY024.

(** [MADB_StmtGetStmtAttr]: what is left in the application's variable, as an
    unsigned 64-bit number; [None] inside when nothing is written.  The case
    SQL_ATTR_USE_BOOKMARKS falls through to the next one. *)
Definition MADB_StmtGetStmtAttr (s : stmt_state) (Attribute : Z) : option (option Z) :=
  let handle f := x ← stmts (st_world s) !! self s; Some (Some (Zpos (f x))) in
  let header which f := hd ← get_header s which; Some (Some (f hd)) in
  let value v := Some (Some v) in
  let o := Options s in
  if case Attribute [SQL_ATTR_APP_PARAM_DESC] then handle Apd
  else if case Attribute [SQL_ATTR_APP_ROW_DESC] then handle Ard
  else if case Attribute [SQL_ATTR_IMP_PARAM_DESC] then handle Ipd
  else if case Attribute [SQL_ATTR_IMP_ROW_DESC] then handle Ird
  else if case Attribute [SQL_ATTR_PARAM_BIND_OFFSET_PTR] then header Apd BindOffsetPtr
  else if case Attribute [SQL_ATTR_PARAM_BIND_TYPE] then header Apd BindType
  else if case Attribute [SQL_ATTR_PARAM_OPERATION_PTR] then header Apd ArrayStatusPtr
  else if case Attribute [SQL_ATTR_PARAM_STATUS_PTR] then header Ipd ArrayStatusPtr
  else if case Attribute [SQL_ATTR_PARAMS_PROCESSED_PTR] then header Ipd BindType
  else if case Attribute [SQL_ATTR_PARAMSET_SIZE] then header Apd ArraySize
  else if case Attribute [SQL_ATTR_ASYNC_ENABLE] then value SQL_ASYNC_ENABLE_OFF
  else if case Attribute [SQL_ATTR_ROW_ARRAY_SIZE; SQL_ROWSET_SIZE] then header Ard ArraySize
  else if case Attribute [SQL_ATTR_ROW_BIND_OFFSET_PTR] then header Ard BindOffsetPtr
  else if case Attribute [SQL_ATTR_ROW_BIND_TYPE] then header Ard BindType
  else if case Attribute [SQL_ATTR_ROW_OPERATION_PTR] then header Ard ArrayStatusPtr
  else if case Attribute [SQL_ATTR_ROW_STATUS_PTR] then header Ird ArrayStatusPtr
  else if case Attribute [SQL_ATTR_ROWS_FETCHED_PTR] then header Ird RowsProcessedPtr
  else if case Attribute [SQL_ATTR_USE_BOOKMARKS; SQL_ATTR_SIMULATE_CURSOR] then value (SimulateCursor o)
  else if case Attribute [SQL_ATTR_CURSOR_SCROLLABLE] then value (CursorType o)
  else if case Attribute [SQL_ATTR_CURSOR_SENSITIVITY] then value SQL_UNSPECIFIED
  else if case Attribute [SQL_ATTR_CURSOR_TYPE] then value (CursorType o)
  else if case Attribute [SQL_ATTR_CONCURRENCY] then value SQL_CONCUR_READ_ONLY
  else if case Attribute [SQL_ATTR_ENABLE_AUTO_IPD] then value SQL_FALSE
  else if case Attribute [SQL_ATTR_MAX_LENGTH] then value (wrapu 64 (MaxLength o))
  else if case Attribute [SQL_ATTR_MAX_ROWS] then value (wrapu 64 (MaxRows o))
  else if case Attribute [SQL_ATTR_METADATA_ID] then value (MetadataId o)
  else if case Attribute [SQL_ATTR_NOSCAN] then value SQL_NOSCAN_ON
  else if case Attribute [SQL_ATTR_QUERY_TIMEOUT] then value 0
  else if case Attribute [SQL_ATTR_RETRIEVE_DATA] then value SQL_RD_ON
  else Some None.

(** ** Binding columns *)

(** The recount after a column is unbound: down from the last record to one in use. *)
Fixpoint recount (i : nat) (w : world) (h : positive) : option world :=
  match i with
  | O => d ← descs w !! h; Some (put_desc w h (with_header d (set_Count (Header d) 0)))
  | S j =>
      '(w1, rec) ← MADB_DescGetInternalRecord 0 w h (Z.of_nat j) MADB_DESC_READ;
      used ← match rec with Some k => r ← get_record w1 h k; Some (negb (num r inUse =? 0)) | None => Some false end;
      if (used : bool) then
        d ← descs w1 !! h; Some (put_desc w1 h (with_header d (set_Count (Header d) (wraps 16 (Z.of_nat i)))))
      else recount j w1 h
  end.

(** Fields written one after the other up to the first failure. *)
Fixpoint set_fields (mem : nat) (w : world) (h : positive) (n : Z) (l : list (Z * Z)) : option (bool * world) :=
  match l with
  | [] => Some (true, w)
  | (id, v) :: l' =>
      '(w1, ret) ← MADB_DescSetField mem w h n id v;
      if SQL_SUCCEEDED ret then set_fields mem w1 h n l' else Some (false, w1)
  end.

Definition set_bookmark (o : MADB_StmtOptions) (p l t : Z) : MADB_StmtOptions :=
  MkOptions (MaxRows o) (MaxLength o) (CursorType o) (UseBookmarks o) p l t (MetadataId o) (SimulateCursor o).

(** The error of a descriptor is passed on to the statement. *)
Definition pass_error (s : stmt_state) (w : world) (h : positive) : option (Z * stmt_state) :=
  d ← descs w !! h;
  let E := MADB_CopyError (st_Error s) (desc_Error d) in
  Some (ReturnValue E, MkStmt w (self s) (Options s) E).

(** [MADB_StmtBindCol]; [columns] is the number of columns of an executed
    statement that returns rows. *)
Definition MADB_StmtBindCol (mem : nat) (columns : option Z) (s : stmt_state) (ColumnNumber TargetType TargetValuePtr
    BufferLength StrLen_or_Ind : Z) : option (Z * stmt_state) :=
  x ← stmts (st_world s) !! self s;
  let h := Ard x in
  if ((ColumnNumber <? 1) && (UseBookmarks (Options s) =? SQL_UB_OFF))
     || match columns with Some n => n <? ColumnNumber | None => false end
  then Some (SQL_ERROR, fail s MADB_ERR_07009 None)
  else if ColumnNumber =? 0 then
    if case TargetType [SQL_C_BOOKMARK; SQL_C_VARBOOKMARK] then
      Some (SQL_SUCCESS, with_options s (set_bookmark (Options s) TargetValuePtr BufferLength TargetType))
    else refuse s MADB_ERR_07006
  else
    '(w1, rec) ← MADB_DescGetInternalRecord mem (st_world s) h (ColumnNumber - 1) MADB_DESC_WRITE;
    match rec with
    | None => pass_error s w1 h
    | Some i =>
        if (TargetValuePtr =? 0) && (StrLen_or_Ind =? 0) then
          r ← get_record w1 h i;
          w2 ← put_record w1 h i (set_num r inUse 0);
          d ← descs w2 !! h;
          w3 ← recount (length (Records d)) w2 h;
          Some (SQL_SUCCESS, with_world s w3)
        else
          '(ok, w2) ← set_fields mem w1 h ColumnNumber [
             (SQL_DESC_TYPE, TargetType); (SQL_DESC_OCTET_LENGTH_PTR, StrLen_or_Ind);
             (SQL_DESC_INDICATOR_PTR, StrLen_or_Ind);
             (SQL_DESC_OCTET_LENGTH, MADB_GetTypeLength TargetType BufferLength); (SQL_DESC_DATA_PTR, TargetValuePtr)];
          if (ok : bool) then Some (SQL_SUCCESS, with_world s w2) else pass_error s w2 h
    end.

(** SQL_UNBIND of [MADB_StmtFree], as far as descriptors go. *)
Definition StmtFree_UNBIND (w : world) (s : positive) : option world :=
  x ← stmts w !! s; MADB_DescFree w (Ard x) true.

(** SQLFreeHandle on a descriptor: only one the application allocated. *)
Definition SQLFreeHandle_DESC (w : world) (h : positive) : option (Z * world) :=
  d ← descs w !! h;
  if negb (AppType d) then
    Some (ReturnValue (MADB_SetError (desc_Error d) MADB_ERR_HY017 None 0), desc_fail w h d MADB_ERR_HY017)
  else w' ← MADB_DescFree w h false; Some (SQL_SUCCESS, w').

End StmtAttr.

(** ** Properties *)

Module StmtAttrProps.
Import StmtAttr DescProps.

(** *** Attributes *)

(** The attributes whose value is stored and returned as it is, and those of
    integer type. *)
Definition stored_attributes : list Z := [
  SQL_ATTR_PARAM_BIND_OFFSET_PTR; SQL_ATTR_PARAM_OPERATION_PTR; SQL_ATTR_PARAM_STATUS_PTR; SQL_ATTR_PARAMSET_SIZE;
  SQL_ATTR_ROW_ARRAY_SIZE; SQL_ROWSET_SIZE; SQL_ATTR_ROW_BIND_OFFSET_PTR; SQL_ATTR_ROW_OPERATION_PTR;
  SQL_ATTR_ROW_STATUS_PTR; SQL_ATTR_ROWS_FETCHED_PTR; SQL_ATTR_SIMULATE_CURSOR; SQL_ATTR_MAX_LENGTH;
  SQL_ATTR_MAX_ROWS; SQL_ATTR_METADATA_ID].

Definition stmt_ok (s : stmt_state) : Prop :=
  exists x, stmts (st_world s) !! self s = Some x /\
    is_Some (descs (st_world s) !! Apd x) /\ is_Some (descs (st_world s) !! Ard x) /\
    is_Some (descs (st_world s) !! Ipd x) /\ is_Some (descs (st_world s) !! Ird x).

Lemma set_header_get s which f s' hd : set_header s which f = Some (SQL_SUCCESS, s') ->
  get_header s which = Some hd -> get_header s' which = Some (f hd).
Proof.
  unfold set_header, get_header. destruct (stmts (st_world s) !! self s) as [x|] eqn:Ex; [|done].
  cbn [mbind option_bind]. destruct (descs (st_world s) !! which x) as [d|] eqn:Ed; [|done].
  cbn [mbind option_bind]. intros [= <-] [= <-]. cbn. rewrite Ex. cbn. by rewrite lookup_insert_eq.
Qed.

Lemma header_exists s : stmt_ok s -> forall which f, which = Apd \/ which = Ard \/ which = Ipd \/ which = Ird ->
  exists s' hd, set_header s which f = Some (SQL_SUCCESS, s') /\ get_header s' which = Some (f hd).
Proof.
  intros (x & Hx & Hd) which f Hw.
  assert (is_Some (descs (st_world s) !! which x)) as [d Hd'] by (destruct Hw as [->|[->|[->| ->]]]; tauto).
  unfold set_header, get_header. rewrite Hx. cbn [mbind option_bind]. rewrite Hd'. cbn [mbind option_bind].
  eexists _, (Header d). split; [reflexivity|]. cbn. rewrite Hx. cbn. by rewrite lookup_insert_eq.
Qed.

(** An attribute that is stored is returned: [MADB_StmtSetStmtAttr] with a 64-bit
    value followed by [MADB_StmtGetStmtAttr] gives that value, through the
    descriptor headers and the options alike. *)
Theorem StmtAttr_roundtrip mem c s a v :
  stmt_ok s -> a ∈ stored_attributes -> 0 <= v < 2 ^ 64 ->
  exists s', MADB_StmtSetStmtAttr mem c s a v = Some (SQL_SUCCESS, s') /\ MADB_StmtGetStmtAttr s' a = Some (Some v).
Proof.
  intros Hok Ha Hv. unfold MADB_StmtSetStmtAttr. rewrite (wrapu_id 64 v Hv).
  pose proof (header_exists s Hok) as Hh. unfold stored_attributes in Ha.
  repeat (apply elem_of_cons in Ha as [->|Ha]; [
    first [
      match goal with |- exists s', ?e = _ /\ _ => let e' := eval cbn [case existsb] in e in change e with e' end;
      match goal with |- context [set_header s ?w ?f] =>
        destruct (Hh w f) as (s' & hd & E & G); [tauto|]; exists s'; split; [exact E|];
        unfold MADB_StmtGetStmtAttr; cbn [case existsb]; cbn; rewrite G; reflexivity end
    | eexists; split; [reflexivity|]; unfold MADB_StmtGetStmtAttr; cbn -[wraps wrapu];
      rewrite ?wrapu_wraps, ?wrapu_id by lia; reflexivity ]
  |]).
  by apply elem_of_nil in Ha.
Qed.

(** *** Shared descriptors *)

(** Statement [s] with entry [x] uses, in role [r], its own descriptor or an
    explicit one of that role that knows about it. *)
Definition uses (w : world) (s : positive) (x : stmt_descs) (r : app_role) : Prop :=
  exists d, descs w !! current r x = Some d /\
    (AppType d = false /\ current r x = implicit r x \/ AppType d = true /\ DescType d = role_type r /\ s ∈ Stmts d).

Definition no_text (r : MADB_DescRecord) : Prop := forall f, text r f = None.

(** No handle dangles: every descriptor a statement uses exists, the explicit ones
    list exactly the statements that use them, in one role, and the connection
    lists the explicit ones. *)
Record refs_ok (w : world) : Prop := {
  ro_uses : forall s x r, stmts w !! s = Some x -> uses w s x r;
  ro_implicit : forall s x r, stmts w !! s = Some x ->
    exists d, descs w !! implicit r x = Some d /\ AppType d = false /\ DescType d = role_type r;
  ro_desc : forall h d, descs w !! h = Some d -> AppType d = true ->
    h ∈ Descrs w /\ NoDup (Stmts d) /\ Forall no_text (Records d) /\
    (DescType d = MADB_DESC_UNKNOWN /\ Stmts d = [] \/
     exists r, DescType d = role_type r /\ forall s, s ∈ Stmts d -> exists x, stmts w !! s = Some x /\ current r x = h);
  ro_nodup : NoDup (Descrs w);
  ro_list : forall h, h ∈ Descrs w -> exists d, descs w !! h = Some d /\ AppType d = true;
}.

(** The operations of the application on explicit descriptors. *)
Inductive desc_step (w : world) : world -> Prop :=
| step_alloc prefix server addr ok_r ok_s w' res :
    MADB_DescInit prefix server w addr ok_r ok_s MADB_DESC_UNKNOWN true = Some (w', res) -> desc_step w w'
| step_assign mem s r v res :
    assign_desc mem w s r v = Some res -> desc_step w (match res with inl _ => w | inr w' => w' end)
| step_free h rc w' : SQLFreeHandle_DESC w h = Some (rc, w') -> desc_step w w'.

Lemma role_type_inj r r' : role_type r = role_type r' -> r = r'.
Proof. by destruct r, r'. Qed.
Lemma role_type_known r : role_type r <> MADB_DESC_UNKNOWN.
Proof. by destruct r. Qed.
Lemma current_set r x h : current r (set_current r x h) = h.
Proof. by destruct r. Qed.
Lemma current_set_ne r r' x h : r <> r' -> current r' (set_current r x h) = current r' x.
Proof. by destruct r, r'. Qed.
Lemma implicit_set r r' x h : implicit r' (set_current r x h) = implicit r' x.
Proof. by destruct r, r'. Qed.

Lemma remove_ref_spec s l : NoDup l -> NoDup (remove_ref false s l) /\ forall y, y ∈ remove_ref false s l <-> y ∈ l /\ y <> s.
Proof.
  induction 1 as [|x l Hx Hl [IH1 IH2]]; cbn [remove_ref].
  - split; [constructor|]. intros y. rewrite elem_of_nil. tauto.
  - destruct (bool_decide_reflect (x = s)) as [->|Hne].
    + split; [done|]. intros y. rewrite elem_of_cons. split; [|naive_solver].
      intros Hy. split; [by right|]. by intros ->.
    + split; [constructor; [rewrite IH2; tauto|done]|]. intros y. rewrite !elem_of_cons, IH2. naive_solver.
Qed.

(** What an assignment does to the descriptor [d] at [k]: the old one forgets the
    statement, the new one gets the role and remembers it. *)
Definition reassigned (s : positive) (r : app_role) (x : stmt_descs) (h k : positive) (d : MADB_Desc) : MADB_Desc :=
  let d1 := if bool_decide (k = current r x) && AppType d then with_stmts d (remove_ref false s (Stmts d)) else d in
  if bool_decide (k = h) then
    if bool_decide (h = implicit r x) then with_type d1 (role_type r)
    else with_stmts (with_type d1 (role_type r)) (Stmts d1 ++ [s])
  else d1.

Lemma RemoveStmtRefFromDesc_lookup w c s w1 : RemoveStmtRefFromDesc w c s false = Some w1 ->
  stmts w1 = stmts w /\ Descrs w1 = Descrs w /\
  forall k, descs w1 !! k = (fun d => if bool_decide (k = c) && AppType d then with_stmts d (remove_ref false s (Stmts d)) else d)
                           <$> descs w !! k.
Proof.
  unfold RemoveStmtRefFromDesc. destruct (descs w !! c) as [d|] eqn:Ed; [|done]. cbn [mbind option_bind].
  intros [= <-]. destruct (AppType d) eqn:Ea; cbn; split_and!; try done; intros k.
  - destruct (decide (k = c)) as [->|Hne].
    + rewrite lookup_insert_eq, Ed. cbn. rewrite bool_decide_eq_true_2 by done. by rewrite Ea.
    + rewrite lookup_insert_ne, bool_decide_eq_false_2 by done. cbn. by destruct (descs w !! k).
  - destruct (decide (k = c)) as [->|Hne]; [rewrite Ed; cbn; by rewrite Ea, andb_false_r|].
    rewrite bool_decide_eq_false_2 by done. cbn. by destruct (descs w !! k).
Qed.

Lemma with_type_id d : with_type d (DescType d) = d.
Proof. by destruct d. Qed.

(** The result of a successful assignment, to a given descriptor or back to the
    implicit one. *)
Lemma assign_desc_spec mem w s r v w' : refs_ok w -> assign_desc mem w s r v = Some (inr w') ->
  exists x h d, stmts w !! s = Some x /\ descs w !! h = Some d /\
    (AppType d = true \/ h = implicit r x) /\ (DescType d = role_type r \/ DescType d = MADB_DESC_UNKNOWN) /\
    stmts w' = <[s := set_current r x h]> (stmts w) /\ Descrs w' = Descrs w /\
    forall k, descs w' !! k = reassigned s r x h k <$> descs w !! k.
Proof.
  intros Hok. unfold assign_desc. destruct (stmts w !! s) as [x|] eqn:Ex; [|done]. cbn [mbind option_bind].
  destruct v as [h|].
  - destruct (descs w !! h) as [d|] eqn:Ed; [|done]. cbn [mbind option_bind].
    destruct (negb (AppType d) && _) eqn:E1; [done|]. destruct (negb (DescType d =? _) && _) eqn:E2; [done|].
    destruct (RemoveStmtRefFromDesc w (current r x) s false) as [w1|] eqn:ER; [|done]. cbn [mbind option_bind].
    apply RemoveStmtRefFromDesc_lookup in ER as (Hst & HD & Hlk). cbn [put_stmts descs]. rewrite (Hlk h), Ed.
    cbn [fmap option_fmap option_map mbind option_bind]. intros H. exists x, h, d. split_and!; try done.
    + destruct (AppType d); [by left|]. destruct (bool_decide_reflect (h = implicit r x)); [by right|done].
    + destruct (Z.eqb_spec (DescType d) (role_type r)); [by left|].
      destruct (Z.eqb_spec (DescType d) MADB_DESC_UNKNOWN); [by right|done].
    + destruct (bool_decide (h = implicit r x)); [|destruct mem; [|done]]; injection H as <-; cbn; by rewrite Hst.
    + destruct (bool_decide (h = implicit r x)); [|destruct mem; [|done]]; injection H as <-; cbn; by rewrite HD.
    + intros k. unfold reassigned. destruct (bool_decide (h = implicit r x)) eqn:Ei; [|destruct mem; [|done]];
        injection H as <-; cbn [put_desc descs]; (destruct (decide (k = h)) as [->|Hk];
        [rewrite lookup_insert_eq, Ed, (bool_decide_eq_true_2 (h = h)) by done; reflexivity
        |rewrite !lookup_insert_ne, Hlk, (bool_decide_eq_false_2 (k = h)) by done; reflexivity]).
  - destruct (RemoveStmtRefFromDesc w (current r x) s false) as [w1|] eqn:ER; [|done]. cbn [mbind option_bind].
    apply RemoveStmtRefFromDesc_lookup in ER as (Hst & HD & Hlk). intros [= <-].
    destruct (ro_implicit w Hok s x r Ex) as (d & Hd & Ha & Ht). exists x, (implicit r x), d.
    split_and!; try done; [by right|by left|cbn; by rewrite Hst|].
    intros k. cbn [put_stmts descs]. rewrite Hlk. unfold reassigned. rewrite (bool_decide_eq_true_2 (implicit r x = _)) by done.
    destruct (decide (k = implicit r x)) as [->|Hk]; [|by rewrite (bool_decide_eq_false_2 (k = implicit r x)) by done].
    rewrite Hd, (bool_decide_eq_true_2 (implicit r x = implicit r x)) by done. cbn. rewrite Ha, andb_false_r, <- Ht.
    by rewrite with_type_id.
Qed.

Lemma reassigned_AppType s r x h k d : AppType (reassigned s r x h k d) = AppType d.
Proof. unfold reassigned. by repeat case_match. Qed.
Lemma reassigned_DescType s r x h k d :
  DescType (reassigned s r x h k d) = if bool_decide (k = h) then role_type r else DescType d.
Proof. unfold reassigned. by repeat case_match. Qed.
Lemma reassigned_Records s r x h k d : Records (reassigned s r x h k d) = Records d.
Proof. unfold reassigned. by repeat case_match. Qed.

(** Who uses the descriptor at [k] after the assignment: everybody but [s] as
    before; [s] when it is the new one, and not when it was the old one. *)
Lemma reassigned_Stmts s r x h k d : AppType d = true -> NoDup (Stmts d) -> h <> implicit r x \/ k <> h ->
  forall y, y ∈ Stmts (reassigned s r x h k d) <->
    y = s /\ k = h \/ y ∈ Stmts d /\ (y = s -> k <> current r x).
Proof.
  intros Ha Hn Hi y. destruct (remove_ref_spec s _ Hn) as [_ Hr]. unfold reassigned. rewrite Ha, andb_true_r.
  destruct (bool_decide_reflect (k = current r x)) as [Hc|Hc]; destruct (bool_decide_reflect (k = h)) as [Hk|Hk];
    try (rewrite (bool_decide_eq_false_2 (h = implicit r x)) by naive_solver);
    cbn [Stmts with_stmts with_type]; rewrite ?elem_of_app, ?list_elem_of_singleton, ?Hr; naive_solver.
Qed.

Lemma reassigned_NoDup s r x h k d : AppType d = true -> NoDup (Stmts d) -> h <> implicit r x \/ k <> h ->
  (s ∈ Stmts d -> k = h -> k = current r x) -> NoDup (Stmts (reassigned s r x h k d)).
Proof.
  intros Ha Hn Hi Hs. destruct (remove_ref_spec s _ Hn) as [Hn' Hr]. unfold reassigned. rewrite Ha, andb_true_r.
  destruct (bool_decide_reflect (k = current r x)) as [Hc|Hc]; destruct (bool_decide_reflect (k = h)) as [Hk|Hk];
    try (rewrite (bool_decide_eq_false_2 (h = implicit r x)) by naive_solver);
    cbn [Stmts with_stmts with_type]; try done; apply NoDup_app; split_and!; try done;
    try (intros y Hy Hy'; apply list_elem_of_singleton in Hy' as ->); try apply NoDup_singleton.
  - apply Hr in Hy. tauto.
  - by apply Hc, Hs.
Qed.

Lemma explicit_not_implicit w s x r h d : refs_ok w -> stmts w !! s = Some x -> descs w !! h = Some d ->
  AppType d = true -> h <> implicit r x.
Proof. intros Hok Hx Hd Ha ->. destruct (ro_implicit w Hok s x r Hx) as (d' & H1 & H2 & _). congruence. Qed.

(** An assignment keeps the references in order. *)
Section Assigned.
Context (w w' : world) (s : positive) (r : app_role) (x : stmt_descs) (h : positive) (d : MADB_Desc).
Hypothesis Hok : refs_ok w.
Hypothesis Hx : stmts w !! s = Some x.
Hypothesis Hd : descs w !! h = Some d.
Hypothesis Happ : AppType d = true \/ h = implicit r x.
Hypothesis Htype : DescType d = role_type r \/ DescType d = MADB_DESC_UNKNOWN.
Hypothesis Hst : stmts w' = <[s := set_current r x h]> (stmts w).
Hypothesis HD : Descrs w' = Descrs w.
Hypothesis Hlk : forall k, descs w' !! k = reassigned s r x h k <$> descs w !! k.

(** The descriptor at the target has the role from then on. *)
Lemma target_role d' r' : descs w !! h = Some d' -> DescType d' = role_type r' -> r' = r.
Proof.
  intros Hd' Ht. assert (d' = d) as -> by congruence. destruct Htype as [E|E]; rewrite Ht in E;
    [by apply role_type_inj in E|by apply role_type_known in E].
Qed.

Lemma target_explicit k dk : descs w !! k = Some dk -> AppType dk = true -> h <> implicit r x \/ k <> h.
Proof.
  intros Hk Ha. destruct (decide (k = h)) as [->|]; [|by right]. left. by eapply explicit_not_implicit.
Qed.

Lemma uses_assigned : forall s' x' r', stmts w' !! s' = Some x' -> uses w' s' x' r'.
Proof.
  intros s' x' r' Hx'. rewrite Hst in Hx'. destruct (decide (s' = s)) as [->|Hs].
  + rewrite lookup_insert_eq in Hx'. injection Hx' as <-. unfold uses.
    destruct (decide (r' = r)) as [->|Hr].
    * rewrite current_set, implicit_set. eexists. split; [by rewrite Hlk, Hd|].
      rewrite reassigned_AppType, reassigned_DescType, bool_decide_eq_true_2 by done.
      destruct (AppType d) eqn:Ea; [|left; naive_solver]. right. split_and!; try done.
      destruct (ro_desc w Hok h d Hd Ea) as (_ & Hn & _). apply reassigned_Stmts; eauto using target_explicit.
    * rewrite current_set_ne, implicit_set by done. destruct (ro_uses w Hok s x r' Hx) as (d' & Hd' & HU).
      eexists. split; [by rewrite Hlk, Hd'|]. rewrite reassigned_AppType, reassigned_DescType.
      destruct HU as [[Ha Hi]|(Ha & Ht & Hin)]; [by left|]. right.
      assert (current r' x <> h) as Hne.
      { intros E. rewrite E in Hd'. by apply Hr, (target_role d'). }
      rewrite bool_decide_eq_false_2 by done. split_and!; try done.
      destruct (ro_desc w Hok _ d' Hd' Ha) as (_ & Hn & _). apply reassigned_Stmts; eauto using target_explicit. right. split; [done|].
      intros _ E. destruct (ro_uses w Hok s x r Hx) as (d2 & Hd2 & [[Ha2 _]|(_ & Ht2 & _)]); rewrite <- E in *;
        assert (d2 = d') as -> by congruence; [congruence|]. rewrite Ht in Ht2. by apply role_type_inj in Ht2.
  + rewrite lookup_insert_ne in Hx' by done. destruct (ro_uses w Hok s' x' r' Hx') as (d' & Hd' & HU).
    eexists. split; [by rewrite Hlk, Hd'|]. rewrite reassigned_AppType, reassigned_DescType.
    destruct HU as [[Ha Hi]|(Ha & Ht & Hin)]; [by left|]. right. split; [done|]. split.
    * destruct (bool_decide_reflect (current r' x' = h)) as [E|E]; [|done]. rewrite E in Hd'.
      by rewrite (target_role d' r').
    * destruct (ro_desc w Hok _ d' Hd' Ha) as (_ & Hn & _). apply reassigned_Stmts; eauto using target_explicit.
Qed.

Lemma implicit_assigned : forall s' x' r', stmts w' !! s' = Some x' ->
  exists d, descs w' !! implicit r' x' = Some d /\ AppType d = false /\ DescType d = role_type r'.
Proof.
  intros s' x' r' Hx'. assert (exists y, stmts w !! s' = Some y /\ implicit r' x' = implicit r' y) as (y & Hy & ->).
  { rewrite Hst in Hx'. destruct (decide (s' = s)) as [->|Hs].
    - rewrite lookup_insert_eq in Hx'. injection Hx' as <-. exists x. by rewrite implicit_set.
    - rewrite lookup_insert_ne in Hx' by done. eauto using target_explicit. }
  destruct (ro_implicit w Hok s' y r' Hy) as (d' & Hd' & Ha & Ht). eexists. split; [by rewrite Hlk, Hd'|].
  rewrite reassigned_AppType, reassigned_DescType. split; [done|].
  destruct (bool_decide_reflect (implicit r' y = h)) as [E|E]; [|done]. rewrite E in Hd'.
  by rewrite (target_role d' r').
Qed.

Lemma users_assigned : forall k dk, descs w' !! k = Some dk -> AppType dk = true ->
  k ∈ Descrs w' /\ NoDup (Stmts dk) /\ Forall no_text (Records dk) /\
  (DescType dk = MADB_DESC_UNKNOWN /\ Stmts dk = [] \/
   exists r, DescType dk = role_type r /\ forall s, s ∈ Stmts dk -> exists x, stmts w' !! s = Some x /\ current r x = k).
Proof.
  intros k dk Hk Ha. rewrite Hlk in Hk. destruct (descs w !! k) as [d0|] eqn:Ed0; [|done]. cbn in Hk. injection Hk as <-.
  rewrite reassigned_AppType in Ha. destruct (ro_desc w Hok k d0 Ed0 Ha) as (H1 & H2 & H3 & H4).
  assert (s ∈ Stmts d0 -> k = h -> k = current r x) as Hs.
  { intros Hin ->. assert (d0 = d) as -> by congruence. destruct H4 as [[_ E]|(r0 & Ht & Hall)];
      [rewrite E in Hin; by apply elem_of_nil in Hin|]. destruct (Hall s Hin) as (x0 & Hx0 & Hc).
    rewrite (target_role d r0 Hd Ht) in Hc. congruence. }
  rewrite HD, reassigned_Records, reassigned_DescType. split_and!; try done; [eapply reassigned_NoDup; eauto using target_explicit|].
  pose proof (reassigned_Stmts s r x h k d0 Ha H2 (target_explicit _ _ Ed0 Ha)) as HS.
  destruct (bool_decide_reflect (k = h)) as [->|Hkh].
  + right. exists r. split; [done|]. intros y Hy. apply HS in Hy as [[-> _]|[Hy Hne]].
    * exists (set_current r x h). rewrite Hst, lookup_insert_eq, current_set. done.
    * assert (d0 = d) as -> by congruence. destruct H4 as [[_ E]|(r0 & Ht & Hall)]; [rewrite E in Hy; by apply elem_of_nil in Hy|].
      rewrite (target_role d r0 Hd Ht) in Hall.
      destruct (Hall y Hy) as (xy & Hxy & Hc). destruct (decide (y = s)) as [->|Hys].
      { exfalso. apply Hne; [done|]. congruence. }
      exists xy. by rewrite Hst, lookup_insert_ne.
  + destruct H4 as [[Hu HE]|(r0 & Ht & Hall)].
    * left. split; [done|]. destruct (Stmts (reassigned s r x h k d0)) as [|y l] eqn:E; [done|].
      destruct (HS y) as [HS1 _]. destruct HS1 as [[_ ?]|[Hin _]]; [by left|done|]. rewrite HE in Hin. by apply elem_of_nil in Hin.
    * right. exists r0. split; [done|]. intros y Hy. apply HS in Hy as [[_ ?]|[Hy Hne]]; [done|].
      destruct (Hall y Hy) as (xy & Hxy & Hc). destruct (decide (y = s)) as [->|Hys]; [|exists xy; by rewrite Hst, lookup_insert_ne].
      assert (xy = x) as -> by congruence. exists (set_current r x h). rewrite Hst, lookup_insert_eq. split; [done|].
      rewrite current_set_ne; [done|]. intros <-. by apply Hne.
Qed.

Lemma refs_assigned : refs_ok w'.
Proof.
  split; [apply uses_assigned|apply implicit_assigned|apply users_assigned|rewrite HD; apply (ro_nodup w Hok)|].
  intros k Hk. rewrite HD in Hk. destruct (ro_list w Hok k Hk) as (d0 & Hd0 & Ha). eexists. split; [by rewrite Hlk, Hd0|].
  by rewrite reassigned_AppType.
Qed.

End Assigned.

Lemma assign_desc_ok mem w s r v w' : refs_ok w -> assign_desc mem w s r v = Some (inr w') -> refs_ok w'.
Proof.
  intros Hok H. destruct (assign_desc_spec _ _ _ _ _ _ Hok H) as (x & h & d & ? & ? & ? & ? & ? & ? & ?).
  by eapply refs_assigned.
Qed.

(** Freeing an explicit descriptor: its records own no memory, and each of its
    statements goes back to its own descriptor. *)
Lemma release_none bl ps : Forall (fun p => p = None) ps -> release_all bl ps = Some bl.
Proof. induction 1 as [|p ps -> _ IH]; [done|]. cbn. apply IH. Qed.

Lemma release_no_text bl t rs : Forall no_text rs -> release_records bl t rs = Some bl.
Proof.
  intros H. apply release_none, Forall_forall. intros p Hp. apply list_elem_of_bind in Hp as (r & Hp & Hr).
  rewrite Forall_forall in H. apply list_elem_of_fmap in Hp as (f & -> & _). by apply H.
Qed.

Definition detached (r : app_role) (x : stmt_descs) : stmt_descs := set_current r x (implicit r x).

Lemma detach_all_spec r l : forall st, (forall s, s ∈ l -> is_Some (st !! s)) ->
  exists st', detach_all st (role_type r) l = Some st' /\
    forall s, st' !! s = (fun x => if bool_decide (s ∈ l) then detached r x else x) <$> st !! s.
Proof.
  induction l as [|a l IH]; intros st Hl; cbn [detach_all].
  - exists st. split; [done|]. intros s. rewrite bool_decide_eq_false_2 by set_solver. by destruct (st !! s).
  - destruct (Hl a) as [x Hx]; [by left|]. rewrite Hx. cbn [mbind option_bind].
    match goal with |- context [detach_all (<[a := ?e]> st)] =>
      replace e with (detached r x) by (by destruct r) end.
    destruct (IH (<[a := detached r x]> st)) as (st' & E & H).
    { intros s Hs. destruct (decide (s = a)) as [->|]; [by rewrite lookup_insert_eq|].
      rewrite lookup_insert_ne by done. apply Hl. by right. }
    exists st'. split; [done|]. intros s. rewrite H. destruct (decide (s = a)) as [->|Hne].
    + rewrite lookup_insert_eq, Hx. cbn. rewrite (bool_decide_eq_true_2 (a ∈ a :: l)) by (by left).
      by case_bool_decide; destruct r.
    + rewrite lookup_insert_ne by done. destruct (st !! s); [|done]. cbn.
      by rewrite (bool_decide_ext (s ∈ a :: l) (s ∈ l)) by set_solver.
Qed.

(** The whole free of an explicit descriptor, where the references are in order:
    it succeeds, the descriptor is gone from both lists, and the statements that
    used it are back at their own. *)
Lemma MADB_DescFree_spec w h d : refs_ok w -> descs w !! h = Some d -> AppType d = true ->
  exists w' r, MADB_DescFree w h false = Some w' /\ descs w' = delete h (descs w) /\
    Descrs w' = filter (fun x => x <> h) (Descrs w) /\
    (forall s, s ∈ Stmts d -> DescType d = role_type r /\ exists x, stmts w !! s = Some x /\ current r x = h) /\
    forall s, stmts w' !! s = (fun x => if bool_decide (s ∈ Stmts d) then detached r x else x) <$> stmts w !! s.
Proof.
  intros Hok Hd Ha. destruct (ro_desc w Hok h d Hd Ha) as (H1 & H2 & H3 & H4). unfold MADB_DescFree.
  rewrite Hd. cbn [mbind option_bind]. rewrite (release_no_text _ _ _ H3). cbn [mbind option_bind]. rewrite Ha.
  unfold unlink. rewrite (bool_decide_eq_true_2 (h ∈ Descrs w)) by done.
  destruct H4 as [[Ht Hs]|(r & Ht & Hs)].
  - rewrite Hs. eexists _, RowDesc. cbn. split_and!; try done; [intros s []%elem_of_nil|].
    intros s. rewrite bool_decide_eq_false_2 by apply not_elem_of_nil. cbn. by destruct (stmts w !! s).
  - destruct (detach_all_spec r (Stmts d) (stmts w)) as (st' & E & H).
    { intros s Hin. destruct (Hs s Hin) as (x & Hx & _). by exists x. }
    rewrite Ht, E. eexists _, r. cbn. split_and!; try done. intros s Hin. by split; [|apply Hs].
Qed.

Lemma current_detached_ne r r' x : r <> r' -> current r' (detached r x) = current r' x.
Proof. apply current_set_ne. Qed.

(** A statement that no longer has the freed descriptor keeps what it has. *)
Section Freed.
Context (w w' : world) (h : positive) (d : MADB_Desc) (r : app_role).
Hypothesis Hok : refs_ok w.
Hypothesis Hd : descs w !! h = Some d.
Hypothesis Ha : AppType d = true.
Hypothesis HD : descs w' = delete h (descs w).
Hypothesis HL : Descrs w' = filter (fun x => x <> h) (Descrs w).
Hypothesis Huse : forall s, s ∈ Stmts d -> DescType d = role_type r /\ exists x, stmts w !! s = Some x /\ current r x = h.
Hypothesis Hst : forall s, stmts w' !! s = (fun x => if bool_decide (s ∈ Stmts d) then detached r x else x) <$> stmts w !! s.

Lemma freed_stmt s x' : stmts w' !! s = Some x' -> exists x, stmts w !! s = Some x /\
  (forall r', implicit r' x' = implicit r' x) /\
  forall r', current r' x' <> h /\ (current r' x' = current r' x \/ current r' x' = implicit r' x).
Proof.
  rewrite Hst. destruct (stmts w !! s) as [x|] eqn:Ex; [|done]. cbn. intros [= <-]. exists x. split; [done|].
  split; [intros r'; case_bool_decide; [apply implicit_set|done]|]. intros r'.
  pose proof (explicit_not_implicit w s x r' h d Hok Ex Hd Ha) as Hni.
  assert (s ∉ Stmts d \/ r <> r' -> current r' x <> h) as Hcur.
  { intros Hc E. destruct (ro_uses w Hok s x r' Ex) as (d' & Hd' & [[Hf _]|(_ & Ht & Hin)]); rewrite E in Hd';
      assert (d' = d) as -> by congruence; [congruence|]. destruct Hc as [Hc|Hc]; [done|].
    destruct (Huse s Hin) as [Hr _]. apply Hc, role_type_inj. congruence. }
  case_bool_decide as Hin; [|by split; [apply Hcur; left|left]].
  destruct (decide (r = r')) as [->|Hr].
  - unfold detached. rewrite current_set. split; [congruence|by right].
  - rewrite current_detached_ne by done. split; [apply Hcur; by right|by left].
Qed.

Lemma freed_desc k dk : k <> h -> descs w' !! k = Some dk <-> k <> h /\ descs w !! k = Some dk.
Proof. rewrite HD. intros Hk. rewrite lookup_delete_ne by done. tauto. Qed.

Lemma refs_freed : refs_ok w'.
Proof.
  split.
  - intros s x' r' Hx'. destruct (freed_stmt s x' Hx') as (x & Hx & Hi & Hc). destruct (Hc r') as [Hne Hc']. unfold uses.
    rewrite Hi. destruct Hc' as [E|E]; rewrite E in *.
    + destruct (ro_uses w Hok s x r' Hx) as (d' & Hd' & HU). exists d'. rewrite HD, lookup_delete_ne by done. done.
    + destruct (ro_implicit w Hok s x r' Hx) as (d' & Hd' & Hf & _). exists d'. rewrite HD, lookup_delete_ne by done.
      split; [done|by left].
  - intros s x' r' Hx'. destruct (freed_stmt s x' Hx') as (x & Hx & Hi & _). rewrite Hi.
    destruct (ro_implicit w Hok s x r' Hx) as (d' & Hd' & Hf & Ht). exists d'. split; [|done].
    rewrite HD, lookup_delete_ne; [done|]. by eapply explicit_not_implicit.
  - intros k dk Hk Hak. rewrite HD in Hk. apply lookup_delete_Some in Hk as [Hkh Hk].
    destruct (ro_desc w Hok k dk Hk Hak) as (H1 & H2 & H3 & H4). rewrite HL, list_elem_of_filter.
    split_and!; try done. destruct H4 as [H4|(r0 & Ht & Hall)]; [by left|]. right. exists r0. split; [done|].
    intros s Hs. destruct (Hall s Hs) as (x & Hx & Hc). rewrite Hst, Hx. cbn. eexists. split; [done|].
    case_bool_decide as Hin; [|done]. destruct (Huse s Hin) as (_ & x0 & Hx0 & Hc0).
    rewrite current_detached_ne; [done|]. intros <-. congruence.
  - rewrite HL. apply NoDup_filter, (ro_nodup w Hok).
  - intros k Hk. rewrite HL, list_elem_of_filter in Hk. destruct Hk as [Hkh Hk].
    destruct (ro_list w Hok k Hk) as (dk & Hdk & Hak). exists dk. by rewrite HD, lookup_delete_ne.
Qed.

End Freed.

(** A descriptor whose error record alone changes. *)
Lemma refs_with_error w h d E : refs_ok w -> descs w !! h = Some d -> refs_ok (put_desc w h (with_error d E)).
Proof.
  intros Hok Hd. assert (forall k d', descs (put_desc w h (with_error d E)) !! k = Some d' ->
    exists d0, descs w !! k = Some d0 /\ AppType d' = AppType d0 /\ DescType d' = DescType d0 /\
      Records d' = Records d0 /\ Stmts d' = Stmts d0) as Hback.
  { intros k d' Hk. cbn in Hk. destruct (decide (k = h)) as [->|Hne].
    - rewrite lookup_insert_eq in Hk. injection Hk as <-. by exists d.
    - rewrite lookup_insert_ne in Hk by done. by exists d'. }
  assert (forall k d0, descs w !! k = Some d0 -> exists d', descs (put_desc w h (with_error d E)) !! k = Some d' /\
      AppType d' = AppType d0 /\ DescType d' = DescType d0 /\ Stmts d' = Stmts d0) as Hforth.
  { intros k d0 Hk. cbn. destruct (decide (k = h)) as [->|Hne].
    - rewrite lookup_insert_eq. eexists. split; [done|]. assert (d0 = d) as -> by congruence. done.
    - rewrite lookup_insert_ne by done. by exists d0. }
  split.
  - intros s x r Hx. destruct (ro_uses w Hok s x r Hx) as (d0 & Hd0 & HU).
    destruct (Hforth _ _ Hd0) as (d' & Hd' & E1 & E2 & E3). exists d'. by rewrite E1, E2, E3.
  - intros s x r Hx. destruct (ro_implicit w Hok s x r Hx) as (d0 & Hd0 & HU).
    destruct (Hforth _ _ Hd0) as (d' & Hd' & E1 & E2 & E3). exists d'. by rewrite E1, E2.
  - intros k dk Hk Hak. destruct (Hback _ _ Hk) as (d0 & Hd0 & E1 & E2 & E3 & E4).
    rewrite E2, E3, E4. apply (ro_desc w Hok k d0 Hd0). congruence.
  - apply (ro_nodup w Hok).
  - intros k Hk. destruct (ro_list w Hok k Hk) as (d0 & Hd0 & Ha). destruct (Hforth _ _ Hd0) as (d' & Hd' & E1 & _).
    exists d'. by rewrite E1.
Qed.

(** A descriptor the application allocates, at an address [calloc] may return. *)
Lemma refs_alloc prefix server w addr ok_r ok_s w' res : refs_ok w ->
  MADB_DescInit prefix server w addr ok_r ok_s MADB_DESC_UNKNOWN true = Some (w', res) -> refs_ok w'.
Proof.
  intros Hok. unfold MADB_DescInit. destruct addr as [h|]; [|by intros [= <- _]].
  case_bool_decide as Hh; [done|]. apply eq_None_not_Some in Hh.
  destruct ok_r; [|by intros [= <- _]]. destruct ok_s; [|by intros [= <- _]]. cbn [negb andb]. intros [= <- _].
  assert (forall k d, descs w !! k = Some d -> k <> h) as Hne by (intros k d Hk ->; congruence).
  split; cbn.
  - intros s x r Hx. destruct (ro_uses w Hok s x r Hx) as (d & Hd & HU). exists d. cbn.
    rewrite lookup_insert_ne by (by apply not_eq_sym; eauto). done.
  - intros s x r Hx. destruct (ro_implicit w Hok s x r Hx) as (d & Hd & HU). exists d.
    rewrite lookup_insert_ne by (by apply not_eq_sym; eauto). done.
  - intros k dk Hk Hak. destruct (decide (k = h)) as [->|Hkh].
    + rewrite lookup_insert_eq in Hk. injection Hk as <-. cbn. split_and!; [by left|constructor|constructor|by left].
    + rewrite lookup_insert_ne in Hk by done. destruct (ro_desc w Hok k dk Hk Hak) as (H1 & H2 & H3 & H4).
      split_and!; [by right|done|done|done].
  - constructor; [|apply (ro_nodup w Hok)]. intros Hin. destruct (ro_list w Hok h Hin) as (d & Hd & _). congruence.
  - intros k Hk. apply elem_of_cons in Hk as [->|Hk].
    + rewrite lookup_insert_eq. eauto.
    + destruct (ro_list w Hok k Hk) as (d & Hd & Ha). exists d.
      rewrite lookup_insert_ne by (by apply not_eq_sym; eauto). done.
Qed.

Lemma desc_step_ok w w' : refs_ok w -> desc_step w w' -> refs_ok w'.
Proof.
  intros Hok [prefix server addr ok_r ok_s w1 res H|mem s r v res H|h rc w1 H].
  - by eapply refs_alloc.
  - destruct res; [done|]. by eapply assign_desc_ok.
  - unfold SQLFreeHandle_DESC in H. destruct (descs w !! h) as [d|] eqn:Hd; [|done]. cbn [mbind option_bind] in H.
    destruct (AppType d) eqn:Ha; cbn [negb] in H.
    + destruct (MADB_DescFree_spec w h d Hok Hd Ha) as (w2 & r & E & H1 & H2 & H3 & H4). rewrite E in H.
      cbn in H. injection H as <- <-. by eapply (refs_freed w).
    + injection H as <- <-. by apply refs_with_error.
Qed.

(** C15. Explicit descriptors never dangle: from a state where the references are in
    order, any sequence of allocating descriptors, assigning them to statements
    (accepted or refused) and freeing them leaves the references in order, and in
    every such state SQLFreeHandle on an explicit descriptor has a defined result
    after which no statement refers to it. *)
Theorem desc_refs_invariant w w' : refs_ok w -> rtc desc_step w w' ->
  refs_ok w' /\ forall h d, descs w' !! h = Some d -> AppType d = true ->
    exists w'', SQLFreeHandle_DESC w' h = Some (SQL_SUCCESS, w'') /\ descs w'' !! h = None /\
      forall s x r, stmts w'' !! s = Some x -> current r x <> h /\ is_Some (descs w'' !! current r x).
Proof.
  intros Hok Hsteps. assert (refs_ok w') as Hok' by (induction Hsteps; eauto using desc_step_ok).
  split; [done|]. intros h d Hd Ha.
  destruct (MADB_DescFree_spec w' h d Hok' Hd Ha) as (w2 & r & E & H1 & H2 & H3 & H4).
  assert (SQLFreeHandle_DESC w' h = Some (SQL_SUCCESS, w2)) as Efree.
  { unfold SQLFreeHandle_DESC. rewrite Hd. cbn [mbind option_bind]. by rewrite Ha, E. }
  assert (refs_ok w2) as Hok2 by (eapply desc_step_ok; [exact Hok'|by eapply step_free]).
  exists w2. split; [done|]. rewrite H1. split; [apply lookup_delete_eq|]. intros s x r' Hx.
  destruct (ro_uses w2 Hok2 s x r' Hx) as (d' & Hd' & _). rewrite H1 in Hd'. rewrite Hd'. split; [|by exists d'].
  intros Ec. rewrite Ec in Hd'. by rewrite lookup_delete_eq in Hd'.
Qed.

(** *** Binding a column *)

Definition setter (id : Z) : MADB_DescRecord -> Z -> MADB_DescRecord :=
  default (fun r _ => r) (assoc id number_setters).

(** Several fields of one record written one after the other. *)
Lemma set_fields_spec mem h n l : 1 <= n <= 32767 -> forall w d r,
  descs w !! h = Some d -> Records d !! Z.to_nat (n - 1) = Some r ->
  Forall (fun '(id, _) => id ∈ settable /\ allowed id (DescType d) MADB_DESC_WRITE) l ->
  exists w' d', set_fields mem w h n l = Some (true, w') /\ descs w' = <[h := d']> (descs w) /\ stmts w' = stmts w /\
    Records d' !! Z.to_nat (n - 1)
      = Some (fold_left (fun r '(id, v) => after_set (DescType d) id (setter id r v)) l r) /\
    (forall j, j <> Z.to_nat (n - 1) -> (j < length (Records d))%nat -> Records d' !! j = Records d !! j) /\
    (l <> [] -> Count (Header d') = Z.max (Count (Header d)) n).
Proof.
  intros Hn. induction l as [|[id v] l IH]; intros w d r Hd Hr Hl; cbn [set_fields fold_left].
  - exists w, d. rewrite insert_id by done. split_and!; done.
  - apply Forall_cons in Hl as [[Hid Hal] Hl']. pose proof (lookup_lt_Some _ _ _ Hr) as Hlt.
    destruct (MADB_DescSetField_spec mem w h d n id v) as
      (w1 & d1 & r1 & f & Hf & -> & Hw1 & Hs1 & _ & Hr1 & Hr0 & Ho1 & HL1 & HC1 & HT1 & _); try done; [lia|].
    cbn [mbind option_bind]. change (SQL_SUCCEEDED SQL_SUCCESS) with true. cbn match.
    apply Hr0 in Hr as ->. destruct (IH w1 d1 (after_set (DescType d) id (f r v)))
      as (w' & d' & E & Hw' & Hs' & Hr' & Ho' & HC'); [rewrite Hw1; apply lookup_insert_eq|done|by rewrite HT1|].
    exists w', d'. rewrite E, Hw', Hw1, insert_insert_eq, Hs', Hs1, Hr', HT1. unfold setter. rewrite Hf. cbn [default].
    split_and!; try done.
    + intros j Hj Hjl. rewrite Ho' by (rewrite ?HL1; lia). by apply Ho1.
    + intros _. destruct l as [|p l]; [|rewrite HC' by done; lia]. cbn in E. injection E as E. rewrite <- E in Hw'.
      assert (descs w1 !! h = Some d') as Hd' by (rewrite Hw', lookup_insert_eq; done).
      rewrite Hw1, lookup_insert_eq in Hd'. by injection Hd' as <-.
Qed.

(** The fields [MADB_StmtBindCol] writes, the data pointer last. *)
Definition bind_fields (type ptr size ind : Z) : list (Z * Z) := [
  (SQL_DESC_TYPE, type); (SQL_DESC_OCTET_LENGTH_PTR, ind); (SQL_DESC_INDICATOR_PTR, ind);
  (SQL_DESC_OCTET_LENGTH, MADB_GetTypeLength type size); (SQL_DESC_DATA_PTR, ptr)].

Lemma bind_fields_allowed type ptr size ind :
  Forall (fun '(id, _) => id ∈ settable /\ allowed id MADB_DESC_ARD MADB_DESC_WRITE) (bind_fields type ptr size ind).
Proof.
  unfold bind_fields.
  repeat constructor; try (apply (bool_decide_eq_true_1 _); vm_compute; reflexivity);
    (eexists _, _; split; [reflexivity|]; split; [reflexivity|]; vm_compute; discriminate).
Qed.

(** What a record says after a column was bound to it. *)
Definition bound_to (r : MADB_DescRecord) (type ptr size ind : Z) : Prop :=
  num r Type_ = wraps 16 type /\ num r ConciseType = wraps 16 type /\ num r OctetLengthPtr = ind /\
  num r IndicatorPtr = ind /\ num r OctetLength = wraps 64 (MADB_GetTypeLength type size) /\ num r DataPtr = ptr /\
  num r inUse = 1.

Lemma after_set_inUse t id r : num (after_set t id r) OctetLengthPtr <> 0 \/ num (after_set t id r) DataPtr <> 0 ->
  num (after_set t id r) inUse = 1.
Proof.
  unfold after_set. set (r1 := if case id _ then r else _).
  destruct (negb (num r1 DataPtr =? 0) || negb (num r1 OctetLengthPtr =? 0) || negb (num r1 IndicatorPtr =? 0)) eqn:E;
    [by rewrite num_set_eq|].
  apply orb_false_iff in E as [E _]. apply orb_false_iff in E as [E1 E2]. apply negb_false_iff, Z.eqb_eq in E1, E2. tauto.
Qed.

Lemma bind_fields_bound r type ptr size ind : 0 <= ptr < 2 ^ 64 -> 0 <= ind < 2 ^ 64 -> ptr <> 0 \/ ind <> 0 ->
  bound_to (fold_left (fun r '(id, v) => after_set MADB_DESC_ARD id (setter id r v)) (bind_fields type ptr size ind) r)
    type ptr size ind.
Proof.
  intros Hp Hi Hpi. unfold bound_to, bind_fields. cbn [fold_left].
  assert (forall r v, setter SQL_DESC_TYPE r v = set_num (set_num r Type_ (wraps 16 v)) ConciseType (wraps 16 v)) as Ht by done.
  assert (forall r v, setter SQL_DESC_OCTET_LENGTH_PTR r v = set_num r OctetLengthPtr (wrapu 64 v)) as Ho by done.
  assert (forall r v, setter SQL_DESC_INDICATOR_PTR r v = set_num r IndicatorPtr (wrapu 64 v)) as Hn by done.
  assert (forall r v, setter SQL_DESC_OCTET_LENGTH r v = set_num r OctetLength (wraps 64 v)) as Hl by done.
  assert (forall r v, setter SQL_DESC_DATA_PTR r v = set_num r DataPtr (wrapu 64 v)) as Hd by done.
  rewrite Ht, Ho, Hn, Hl, Hd, (wrapu_id 64 ptr), (wrapu_id 64 ind) by done.
  set (r4 := after_set MADB_DESC_ARD SQL_DESC_OCTET_LENGTH _).
  assert (forall g, g <> inUse -> g <> DataPtr -> num (after_set MADB_DESC_ARD SQL_DESC_DATA_PTR (set_num r4 DataPtr ptr)) g
    = num r4 g) as Hlast.
  { intros g H1 H2. rewrite after_set_num by auto. by apply num_set_ne. }
  assert (num (after_set MADB_DESC_ARD SQL_DESC_DATA_PTR (set_num r4 DataPtr ptr)) DataPtr = ptr) as Hdp.
  { rewrite after_set_num by auto. apply num_set_eq. }
  assert (num r4 OctetLengthPtr = ind) as Hop.
  { unfold r4. rewrite after_set_num, num_set_ne, after_set_num, num_set_ne, after_set_num by (try left; discriminate).
    apply num_set_eq. }
  split_and!; rewrite ?Hlast, ?Hdp, ?Hop by discriminate; try done.
  1-4: unfold r4; repeat (rewrite after_set_num by (try left; discriminate); rewrite ?num_set_eq; try reflexivity;
         rewrite num_set_ne by discriminate; rewrite ?num_set_eq; try reflexivity).
  apply after_set_inUse. rewrite Hdp, Hlast by discriminate. rewrite Hop. tauto.
Qed.

(** [MADB_StmtBindCol] with a buffer or an indicator, on a column the result has
    or before there is one, succeeds when memory lasts: the record of the column in
    the statement's current row descriptor, shared or not, holds the type, the
    length the type has, the buffer and the indicator and is in use; the records of
    the other columns are untouched, and the count covers the column. *)
Theorem MADB_StmtBindCol_binds mem columns s x d n type ptr size ind :
  stmts (st_world s) !! self s = Some x -> descs (st_world s) !! Ard x = Some d -> DescType d = MADB_DESC_ARD ->
  1 <= n <= 32767 -> (Z.to_nat n <= length (Records d) + mem)%nat ->
  (forall c, columns = Some c -> n <= c) -> 0 <= ptr < 2 ^ 64 -> 0 <= ind < 2 ^ 64 -> ptr <> 0 \/ ind <> 0 ->
  exists s' d' r, MADB_StmtBindCol mem columns s n type ptr size ind = Some (SQL_SUCCESS, s') /\
    descs (st_world s') = <[Ard x := d']> (descs (st_world s)) /\ stmts (st_world s') = stmts (st_world s) /\
    Options s' = Options s /\ Records d' !! Z.to_nat (n - 1) = Some r /\ bound_to r type ptr size ind /\
    (forall j, j <> Z.to_nat (n - 1) -> (j < length (Records d))%nat -> Records d' !! j = Records d !! j) /\
    Count (Header d') = Z.max (Count (Header d)) n.
Proof.
  intros Hx Hd Ht Hn Hm Hc Hp Hi Hpi. unfold MADB_StmtBindCol. rewrite Hx. cbn [mbind option_bind].
  rewrite (proj2 (Z.ltb_ge n 1)) by lia. cbn [andb orb].
  assert (match columns with Some c => c <? n | None => false end = false) as ->.
  { destruct columns as [c|]; [|done]. apply Z.ltb_ge. by apply Hc. }
  rewrite (proj2 (Z.eqb_neq n 0)) by lia.
  destruct (MADB_DescGetInternalRecord_spec mem (st_world s) (Ard x) d (n - 1) MADB_DESC_WRITE)
    as (w1 & d1 & new & -> & Hw1 & Hs1 & _ & HR1 & HL1 & HC1 & HT1 & _); [done|lia|done|lia|]. cbn [mbind option_bind].
  assert ((ptr =? 0) && (ind =? 0) = false) as -> by (destruct (Z.eqb_spec ptr 0), (Z.eqb_spec ind 0); tauto).
  destruct (lookup_lt_is_Some_2 (Records d1) (Z.to_nat (n - 1))) as [r Hr]; [rewrite HL1; lia|].
  destruct (set_fields_spec mem (Ard x) n (bind_fields type ptr size ind) Hn w1 d1 r)
    as (w2 & d2 & E & Hw2 & Hs2 & Hr2 & Ho2 & HC2); [rewrite Hw1; apply lookup_insert_eq|done| |].
  { rewrite HT1, Ht. apply bind_fields_allowed. }
  unfold bind_fields in E at 1. rewrite E. cbn [mbind option_bind]. rewrite HT1, Ht in Hr2.
  eexists _, d2, _. split; [reflexivity|]. cbn [st_world with_world Options].
  rewrite Hw2, Hw1, insert_insert_eq, Hs2, Hs1. split_and!; try done; [by apply bind_fields_bound| |].
  - intros j Hj Hjl. rewrite Ho2 by (rewrite ?HR1, ?length_app; lia). rewrite HR1. by apply lookup_app_l.
  - rewrite HC2 by done. rewrite HC1. lia.
Qed.

(** Three attributes are not read back: SQL_ATTR_USE_BOOKMARKS reads the cursor
    simulation instead, whatever was stored; SQL_ATTR_PARAMS_PROCESSED_PTR reads the
    binding type of the parameter descriptor instead of the pointer;
    SQL_ATTR_CURSOR_SCROLLABLE reads the cursor type, which for a scrollable cursor
    is not the value SQL_SCROLLABLE that was set. *)
Theorem StmtAttr_misread mem c s v hd :
  stmt_ok s -> 0 <= v < 2 ^ 64 -> get_header s Ipd = Some hd ->
  (exists s1, MADB_StmtSetStmtAttr mem c s SQL_ATTR_USE_BOOKMARKS v = Some (SQL_SUCCESS, s1) /\
     UseBookmarks (Options s1) = wrapu 32 v /\
     MADB_StmtGetStmtAttr s1 SQL_ATTR_USE_BOOKMARKS = Some (Some (SimulateCursor (Options s)))) /\
  (exists s2, MADB_StmtSetStmtAttr mem c s SQL_ATTR_PARAMS_PROCESSED_PTR v = Some (SQL_SUCCESS, s2) /\
     (RowsProcessedPtr <$> get_header s2 Ipd) = Some v /\
     MADB_StmtGetStmtAttr s2 SQL_ATTR_PARAMS_PROCESSED_PTR = Some (Some (BindType hd))) /\
  (exists s3, MADB_StmtSetStmtAttr mem c s SQL_ATTR_CURSOR_SCROLLABLE SQL_SCROLLABLE = Some (SQL_SUCCESS, s3) /\
     MADB_StmtGetStmtAttr s3 SQL_ATTR_CURSOR_SCROLLABLE = Some (Some SQL_CURSOR_STATIC) /\
     SQL_CURSOR_STATIC <> SQL_SCROLLABLE).
Proof.
  intros Hok Hv Hhd. split_and!.
  - eexists. split; [reflexivity|]. cbn -[wrapu]. rewrite (wrapu_id 64 v Hv). done.
  - destruct (header_exists s Hok Ipd (fun hd => set_RowsProcessedPtr hd v)) as (s2 & hd' & E & G); [tauto|].
    pose proof (set_header_get _ _ _ _ _ E Hhd) as G'.
    exists s2. split; [|split; [by rewrite G'|]].
    + unfold MADB_StmtSetStmtAttr. rewrite (wrapu_id 64 v Hv). exact E.
    + unfold MADB_StmtGetStmtAttr. cbn. by rewrite G'.
  - eexists. split; [reflexivity|]. split; [reflexivity|discriminate].
Qed.

(** SQL_UNBIND on one statement takes an explicit row descriptor away from every
    statement that uses it, not only its bindings: all of them are back at their own
    descriptors, and the descriptor, though still allocated, is gone from the
    connection's list. *)
Theorem UNBIND_detaches_all w s x h d :
  refs_ok w -> stmts w !! s = Some x -> Ard x = h -> descs w !! h = Some d -> AppType d = true ->
  exists w' d', StmtFree_UNBIND w s = Some w' /\ descs w' !! h = Some d' /\ AppType d' = true /\ Stmts d' = [] /\
    h ∉ Descrs w' /\ forall s' x', s' ∈ Stmts d -> stmts w !! s' = Some x' ->
      stmts w' !! s' = Some (set_Ard x' (IArd x')).
Proof.
  intros Hok Hx Hh Hd Ha. destruct (ro_desc w Hok h d Hd Ha) as (H1 & H2 & H3 & H4).
  assert (DescType d = role_type RowDesc /\ s ∈ Stmts d) as [Ht Hs].
  { destruct (ro_uses w Hok s x RowDesc Hx) as (d' & Hd' & HU). cbn in Hd'. rewrite Hh in Hd'.
    assert (d' = d) as -> by congruence. destruct HU as [[? _]|(_ & ? & ?)]; [congruence|done]. }
  unfold StmtFree_UNBIND. rewrite Hx. cbn [mbind option_bind]. rewrite Hh. unfold MADB_DescFree. rewrite Hd.
  cbn [mbind option_bind]. rewrite (release_no_text _ _ _ H3). cbn [mbind option_bind]. rewrite Ha, Ht.
  destruct (detach_all_spec RowDesc (Stmts d) (stmts w)) as (st' & -> & Hst').
  { intros s' Hin. destruct H4 as [[_ E]|(r & _ & Hall)]; [rewrite E in Hin; by apply elem_of_nil in Hin|].
    destruct (Hall s' Hin) as (y & Hy & _). by exists y. }
  cbn [mbind option_bind]. unfold unlink. rewrite bool_decide_eq_true_2 by done. cbn [mbind option_bind].
  eexists _, _. split; [reflexivity|]. cbn. rewrite lookup_insert_eq. split_and!; try done.
  - rewrite list_elem_of_filter. tauto.
  - intros s' x' Hin Hx'. rewrite Hst', Hx'. cbn. by rewrite bool_decide_eq_true_2.
Qed.

(** *** Samples *)

(** A connection with two statements, each with its own four descriptors. *)
Definition own (t : Z) : MADB_Desc := sample_desc t false 0.
Definition two_stmts : world :=
  MkWorld (list_to_map [(1, own MADB_DESC_APD); (2, own MADB_DESC_ARD); (3, own MADB_DESC_IPD); (4, own MADB_DESC_IRD);
                        (5, own MADB_DESC_APD); (6, own MADB_DESC_ARD); (7, own MADB_DESC_IPD); (8, own MADB_DESC_IRD)])%positive
    (list_to_map [(101, MkStmtDescs 1 2 3 4 1 2); (102, MkStmtDescs 5 6 7 8 5 6)])%positive [] ∅.

Lemma two_stmts_cases s x : stmts two_stmts !! s = Some x ->
  x = MkStmtDescs 1 2 3 4 1 2 \/ x = MkStmtDescs 5 6 7 8 5 6.
Proof.
  unfold two_stmts. cbn [stmts]. intros H. apply elem_of_list_to_map_2 in H.
  apply elem_of_cons in H as [[= _ ->]|H]; [by left|]. apply elem_of_cons in H as [[= _ ->]|H]; [by right|].
  by apply elem_of_nil in H.
Qed.

Lemma two_stmts_own h d : descs two_stmts !! h = Some d -> AppType d = false.
Proof.
  unfold two_stmts. cbn [descs]. intros H. apply elem_of_list_to_map_2 in H.
  repeat (apply elem_of_cons in H as [[= _ ->]|H]; [done|]). by apply elem_of_nil in H.
Qed.

Lemma two_stmts_ok : refs_ok two_stmts.
Proof.
  split.
  - intros s x r Hx. unfold uses.
    destruct (two_stmts_cases s x Hx) as [->| ->], r; (eexists; split; [reflexivity|by left]).
  - intros s x r Hx. destruct (two_stmts_cases s x Hx) as [->| ->], r; (eexists; split; [reflexivity|done]).
  - intros h d Hd Ha. by rewrite (two_stmts_own h d Hd) in Ha.
  - constructor.
  - intros h Hh. by apply elem_of_nil in Hh.
Qed.

Definition sample_options : MADB_StmtOptions := MkOptions 0 0 SQL_CURSOR_STATIC 0 0 0 0 0 7.
Definition sample_stmt : stmt_state := MkStmt two_stmts 101 sample_options ErrorProps.zero_error.

Lemma sample_stmt_ok : stmt_ok sample_stmt.
Proof. eexists. split; [reflexivity|]. split_and!; by eexists. Qed.

Lemma StmtAttr_roundtrip_witness : exists s',
  MADB_StmtSetStmtAttr true (MkSettings false false) sample_stmt SQL_ATTR_ROW_ARRAY_SIZE 25 = Some (SQL_SUCCESS, s') /\
  MADB_StmtGetStmtAttr s' SQL_ATTR_ROW_ARRAY_SIZE = Some (Some 25).
Proof.
  apply (StmtAttr_roundtrip true (MkSettings false false) sample_stmt SQL_ATTR_ROW_ARRAY_SIZE 25 sample_stmt_ok);
    [apply (bool_decide_eq_true_1 _); vm_compute; reflexivity|lia].
Defined.

Lemma MADB_StmtBindCol_binds_witness : exists s' d' r,
  MADB_StmtBindCol 40 (Some 3) sample_stmt 2 SQL_C_CHAR 4096 100 5000 = Some (SQL_SUCCESS, s') /\
  descs (st_world s') !! 2%positive = Some d' /\ Records d' !! 1%nat = Some r /\
  num r DataPtr = 4096 /\ num r IndicatorPtr = 5000 /\ num r inUse = 1 /\ Count (Header d') = 2.
Proof.
  destruct (MADB_StmtBindCol_binds 40 (Some 3) sample_stmt (MkStmtDescs 1 2 3 4 1 2) (own MADB_DESC_ARD) 2 SQL_C_CHAR
    4096 100 5000) as (s' & d' & r & E & Hd & _ & _ & Hr & Hb & _ & HC);
    [reflexivity|reflexivity|reflexivity|lia|cbn; lia|intros c [= <-]; lia|lia|lia|left; discriminate|].
  exists s', d', r. rewrite Hd, lookup_insert_eq. split; [exact E|]. split; [reflexivity|]. split; [exact Hr|].
  destruct Hb as (_ & _ & _ & H1 & _ & H2 & H3). rewrite H1, H2, H3, HC. split_and!; reflexivity.
Defined.

Lemma StmtAttr_misread_witness : exists s1,
  MADB_StmtSetStmtAttr true (MkSettings false false) sample_stmt SQL_ATTR_USE_BOOKMARKS SQL_UB_VARIABLE = Some (SQL_SUCCESS, s1) /\
  MADB_StmtGetStmtAttr s1 SQL_ATTR_USE_BOOKMARKS = Some (Some 7).
Proof.
  destruct (StmtAttr_misread true (MkSettings false false) sample_stmt SQL_UB_VARIABLE (Header (own MADB_DESC_IPD)))
    as ((s1 & E & _ & G) & _); [apply sample_stmt_ok|unfold SQL_UB_VARIABLE; lia|reflexivity|].
  exists s1. by split.
Defined.

(** Descriptor 20 is allocated and given to both statements. *)
Definition shared_desc : MADB_Desc :=
  MkDesc (MkHeader 0 1 0 0 0 0 0) MADB_DESC_ARD true [] [101; 102]%positive (MADB_PutErrorPrefix [] None calloc_error).
Definition shared_world : world :=
  MkWorld (<[20%positive := shared_desc]> (descs two_stmts))
    (list_to_map [(101, MkStmtDescs 1 20 3 4 1 2); (102, MkStmtDescs 5 20 7 8 5 6)])%positive [20%positive] ∅.

Lemma shared_world_reached : rtc desc_step two_stmts shared_world.
Proof.
  eapply rtc_l; [eapply (step_alloc _ [] None (Some 20%positive) true true); vm_compute; reflexivity|].
  eapply rtc_l; [eapply (step_assign _ true 101 RowDesc (Some 20%positive)); vm_compute; reflexivity|].
  eapply rtc_l; [eapply (step_assign _ true 102 RowDesc (Some 20%positive)); vm_compute; reflexivity|].
  vm_compute. apply rtc_refl.
Qed.

Lemma desc_refs_invariant_witness : exists w'', SQLFreeHandle_DESC shared_world 20 = Some (SQL_SUCCESS, w'') /\
  descs w'' !! 20%positive = None /\
  forall s x r, stmts w'' !! s = Some x -> current r x <> 20%positive /\ is_Some (descs w'' !! current r x).
Proof.
  exact (proj2 (desc_refs_invariant two_stmts shared_world two_stmts_ok shared_world_reached) 20%positive shared_desc
    eq_refl eq_refl).
Defined.

Lemma shared_world_ok : refs_ok shared_world.
Proof.
  pose proof shared_world_reached as H. revert H. generalize two_stmts_ok. generalize two_stmts.
  intros w Hok H. induction H; eauto using desc_step_ok.
Qed.

Lemma UNBIND_detaches_all_witness : exists w' d', StmtFree_UNBIND shared_world 101 = Some w' /\
  descs w' !! 20%positive = Some d' /\ AppType d' = true /\ 20%positive ∉ Descrs w' /\
  stmts w' !! 102%positive = Some (MkStmtDescs 5 6 7 8 5 6).
Proof.
  destruct (UNBIND_detaches_all shared_world 101 (MkStmtDescs 1 20 3 4 1 2) 20 shared_desc shared_world_ok)
    as (w' & d' & E & Hd & Ha & _ & Hl & Hs); [reflexivity|reflexivity|reflexivity|reflexivity|].
  exists w', d'. split; [exact E|]. split; [exact Hd|]. split; [exact Ha|]. split; [exact Hl|].
  rewrite (Hs 102%positive (MkStmtDescs 5 20 7 8 5 6)); [reflexivity| |reflexivity].
  right. left.
Defined.

End StmtAttrProps.
