(* ===== verification/Cursor.v ===== *)
(** * Cursor: fetching rowsets and scrolling

    Models [MADB_StmtFetch], [MADB_StmtFetchScroll], [MADB_RefreshDynamicCursor],
    [MADB_FetchCsps], [FetchRowCsps], [MADB_MapToRowStatus], [MADB_InitStatusPtr] and
    the SQL_POSITION case of [MADB_StmtSetPos] of [ma_statement.c], with [MoveNext],
    [MADB_StmtDataSeek] and [MADB_RowsToFetch] of [ma_result.c] and the row cursor of
    the client library ([mariadb_stmt.c]).

    A result set is the list of its rows.  The library's cursor, a pointer into a
    linked list of rows, is the index of the row it points at; behind the last row
    it is NULL, which is the length of the list.  What happens to the columns of one
    row (binding, conversion) is a record of functions, [row_io]; every theorem
    holds for all of them that it does not restrict. *)

From Stdlib Require Import ZArith Lia.
From stdpp Require Import base strings numbers option gmap list.
From S2P Require Import Prelude Odbc Errors SqlTypes Desc StmtAttr.
Import ErrorOps SqlTypes.

(** A column whose value did not fit its buffer, as the check for MYSQL_DATA_TRUNCATED
    looks at it. *)
Record trunc_col := MkTrunc {
  tc_error : bool;
  tc_dummy : bool;
  ard_type : Z; ard_octets : Z;
  ird_type : Z; ird_octets : Z;
}.

(** What the driver does with the columns of one row.  [convert] lists what
    [MADB_CspsConvertSql2C] returns for the bound columns that are not NULL,
    [stmt_rc] is the answer of [mysql_stmt_fetch], [net_error] the message and the
    code of a failed read from the server and [fix_values] is
    [MADB_FixFetchedValues]. *)
Record row_io (A : Type) := MkIo {
  prepare_bind : nat -> Z;
  convert : A -> list Z;
  stmt_rc : A -> Z;
  stmt_diag : native_diag;
  net_error : nat -> option (list Z * Z);
  trunc_cols : A -> list trunc_col;
  fix_values : nat -> A -> MADB_Error -> Z * MADB_Error;
}.
Arguments MkIo {A}. Arguments prepare_bind {A}. Arguments convert {A}. Arguments stmt_rc {A}. Arguments stmt_diag {A}.
Arguments net_error {A}. Arguments trunc_cols {A}. Arguments fix_values {A}.

(** What does not change while fetching. *)
Record fetch_config := MkConfig {
  fc_Options : MADB_StmtOptions;
  NoCache : bool;
  ssps_disabled : bool;
  fake_result : bool;
  OdbcVersion3 : bool;
}.

(** The variables of the application: the count of rows, the two status arrays, the
    bookmarks by their offset in units of [long], and the row in each slot. *)
Record app_vars (A : Type) := MkApp {
  RowsFetched : option Z;
  RowStatus : option (list Z);
  RowOperation : option (list Z);
  Bookmarks : gmap Z Z;
  Slots : gmap nat A;
}.
Arguments MkApp {A}. Arguments RowsFetched {A}. Arguments RowStatus {A}. Arguments RowOperation {A}.
Arguments Bookmarks {A}. Arguments Slots {A}.

Record fetch_state (A : Type) := MkFetch {
  rows : list A;
  result_cursor : nat;
  Position : Z;
  RowsetSize : Z;
  Next : option nat;
  LastRowFetched : Z;
  PositionedCursor : Z;
  AffectedRows : Z;
  has_result : bool;
  column_count : Z;
  fs_ArraySize : Z;
  fs_Error : MADB_Error;
  app : app_vars A;
}.
Arguments MkFetch {A}. Arguments rows {A}. Arguments result_cursor {A}. Arguments Position {A}. Arguments RowsetSize {A}.
Arguments Next {A}. Arguments LastRowFetched {A}. Arguments PositionedCursor {A}. Arguments AffectedRows {A}.
Arguments has_result {A}. Arguments column_count {A}. Arguments fs_ArraySize {A}. Arguments fs_Error {A}. Arguments app {A}.

Module Cursor.

Section Fetch.
Context {A : Type}.
Implicit Types (st : fetch_state A) (io : row_io A) (c : fetch_config).

(** ** Updates *)

Definition set_cursor st (i : nat) : fetch_state A :=
  MkFetch (rows st) i (Position st) (RowsetSize st) (Next st) (LastRowFetched st) (PositionedCursor st)
    (AffectedRows st) (has_result st) (column_count st) (fs_ArraySize st) (fs_Error st) (app st).
Definition set_Position st (p : Z) : fetch_state A :=
  MkFetch (rows st) (result_cursor st) p (RowsetSize st) (Next st) (LastRowFetched st) (PositionedCursor st)
    (AffectedRows st) (has_result st) (column_count st) (fs_ArraySize st) (fs_Error st) (app st).
Definition set_RowsetSize st (n : Z) : fetch_state A :=
  MkFetch (rows st) (result_cursor st) (Position st) n (Next st) (LastRowFetched st) (PositionedCursor st)
    (AffectedRows st) (has_result st) (column_count st) (fs_ArraySize st) (fs_Error st) (app st).
Definition set_Next st (o : option nat) : fetch_state A :=
  MkFetch (rows st) (result_cursor st) (Position st) (RowsetSize st) o (LastRowFetched st) (PositionedCursor st)
    (AffectedRows st) (has_result st) (column_count st) (fs_ArraySize st) (fs_Error st) (app st).
Definition set_LastRowFetched st (n : Z) : fetch_state A :=
  MkFetch (rows st) (result_cursor st) (Position st) (RowsetSize st) (Next st) n (PositionedCursor st)
    (AffectedRows st) (has_result st) (column_count st) (fs_ArraySize st) (fs_Error st) (app st).
Definition set_AffectedRows st (n : Z) : fetch_state A :=
  MkFetch (rows st) (result_cursor st) (Position st) (RowsetSize st) (Next st) (LastRowFetched st) (PositionedCursor st)
    n (has_result st) (column_count st) (fs_ArraySize st) (fs_Error st) (app st).
Definition set_has_result st (b : bool) : fetch_state A :=
  MkFetch (rows st) (result_cursor st) (Position st) (RowsetSize st) (Next st) (LastRowFetched st) (PositionedCursor st)
    (AffectedRows st) b (column_count st) (fs_ArraySize st) (fs_Error st) (app st).
Definition set_Error st (E : MADB_Error) : fetch_state A :=
  MkFetch (rows st) (result_cursor st) (Position st) (RowsetSize st) (Next st) (LastRowFetched st) (PositionedCursor st)
    (AffectedRows st) (has_result st) (column_count st) (fs_ArraySize st) E (app st).
Definition set_app st (a : app_vars A) : fetch_state A :=
  MkFetch (rows st) (result_cursor st) (Position st) (RowsetSize st) (Next st) (LastRowFetched st) (PositionedCursor st)
    (AffectedRows st) (has_result st) (column_count st) (fs_ArraySize st) (fs_Error st) a.

(** One row more: both counters step, the second one as a pointer to a statement. *)
Definition count_row st : fetch_state A :=
  MkFetch (rows st) (result_cursor st) (Position st) (RowsetSize st) (Next st) (LastRowFetched st + 1)
    (PositionedCursor st + 1) (AffectedRows st) (has_result st) (column_count st) (fs_ArraySize st) (fs_Error st) (app st).

Definition add_fetched (d : Z) st : fetch_state A :=
  let a := app st in
  set_app st (MkApp ((fun n => wrapu 64 (n + d)) <$> RowsFetched a) (RowStatus a) (RowOperation a) (Bookmarks a) (Slots a)).
Definition put_status (i : nat) (v : Z) st : fetch_state A :=
  let a := app st in
  set_app st (MkApp (RowsFetched a) (<[i := v]> <$> RowStatus a) (RowOperation a) (Bookmarks a) (Slots a)).
Definition put_bookmark (i v : Z) st : fetch_state A :=
  let a := app st in
  set_app st (MkApp (RowsFetched a) (RowStatus a) (RowOperation a) (<[i := v]> (Bookmarks a)) (Slots a)).
Definition put_slot (i : nat) (r : A) st : fetch_state A :=
  let a := app st in
  set_app st (MkApp (RowsFetched a) (RowStatus a) (RowOperation a) (Bookmarks a) (<[i := r]> (Slots a))).

Definition fail (st : fetch_state A) (code : nat) (msg : option (list Z)) : Z * fetch_state A :=
  let E := MADB_SetError (fs_Error st) code msg 0 in (ReturnValue E, set_Error st E).

Definition NO_CACHE (c : fetch_config) : bool :=
  (CursorType (fc_Options c) =? SQL_CURSOR_FORWARD_ONLY) && NoCache c.
Definition MADB_STMT_FORGET_NEXT_POS st : fetch_state A := set_Next st None.
Definition MADB_STMT_RESET_CURSOR st : fetch_state A := set_Next (set_Position st (-1)) None.

(** ** The cursor of the client library *)

Definition mysql_stmt_num_rows st : Z := Z.of_nat (length (rows st)).
Definition mysql_stmt_row_tell st : option nat :=
  if (result_cursor st <? length (rows st))%nat then Some (result_cursor st) else None.
Definition mysql_stmt_row_seek st (o : option nat) : fetch_state A := set_cursor st (default (length (rows st)) o).
Definition mysql_stmt_data_seek st (offset : Z) : fetch_state A :=
  set_cursor st (Z.to_nat (Z.min (wrapu 64 offset) (mysql_stmt_num_rows st))).

Definition MADB_StmtDataSeek st (FetchOffset : Z) : Z * fetch_state A :=
  match rows st with
  | [] => (SQL_NO_DATA, st)
  | _ => (SQL_SUCCESS, mysql_stmt_data_seek st FetchOffset)
  end.

(** ** One row *)

(** [FetchRowCsps]: the row at the cursor, which moves on.  Without a cache the row
    comes from the server, and an error of the connection is recorded. *)
Definition FetchRowCsps c io st : option A * fetch_state A :=
  let next := match rows st !! result_cursor st with
              | Some r => (Some r, set_cursor st (S (result_cursor st)))
              | None => (None, st)
              end in
  if NO_CACHE c then
    match net_error io (result_cursor st) with
    | Some (msg, errno) => (None, set_Error st (MADB_SetError (fs_Error st) MADB_ERR_HY000 (Some msg) errno))
    | None => next
    end
  else next.

(** [CALC_ALL_FLDS_RC] over the columns whose conversion did not succeed. *)
Fixpoint fields_rc (rc : Z) (rets : list Z) : Z :=
  match rets with
  | [] => rc
  | ret :: rets' =>
      fields_rc (if negb (SQL_SUCCEEDED ret)
                 then if negb (ret =? SQL_SUCCESS) && negb (rc =? SQL_ERROR) then ret else rc
                 else rc) rets'
  end.

Definition MADB_FetchCsps c io st : Z * option A * fetch_state A :=
  let '(row, st1) := FetchRowCsps c io st in
  match row with
  | None => (if SQL_SUCCEEDED (ReturnValue (fs_Error st1)) then MYSQL_NO_DATA else 1, None, st1)
  | Some r => (fields_rc SQL_SUCCESS (convert io r), Some r, st1)
  end.

(** [mysql_stmt_fetch]: the row at the cursor goes to the bound buffers. *)
Definition mysql_stmt_fetch io st : Z * option A * fetch_state A :=
  match rows st !! result_cursor st with
  | Some r => (stmt_rc io r, Some r, set_cursor st (S (result_cursor st)))
  | None => (MYSQL_NO_DATA, None, st)
  end.

Definition fetch_row c io st : Z * option A * fetch_state A :=
  if ssps_disabled c && negb (fake_result c) then MADB_FetchCsps c io st else mysql_stmt_fetch io st.

(** [MoveNext]: [ok] is the answer for the array of saved flags; the buffers are
    dummies meanwhile. *)
Fixpoint MoveNext (ok : bool) c io st (Offset : nat) : Z * fetch_state A :=
  if negb (has_result st) then (SQL_SUCCESS, st)
  else if negb ok then (SQL_ERROR, st)
  else
    match Offset with
    | O => (SQL_SUCCESS, st)
    | S k =>
        let '(rc, _, st1) := if ssps_disabled c && negb (fake_result c)
                             then let '(row, st1) := FetchRowCsps c io st in
                                  (match row with
                                   | Some _ => SQL_SUCCESS
                                   | None => if SQL_SUCCEEDED (ReturnValue (fs_Error st1)) then MYSQL_NO_DATA else 1
                                   end, row, st1)
                             else mysql_stmt_fetch io st in
        if (if ssps_disabled c && negb (fake_result c) then negb (SQL_SUCCEEDED rc) else rc =? 1)
        then (SQL_ERROR, st1) else MoveNext ok c io st1 k
    end.

(** ** A rowset *)

Definition MADB_RowsToFetch st (RowsInResultst : Z) : Z :=
  let P := if 0 <=? Position st then Position st else 0 in
  if RowsInResultst <? wrapu 64 (P + RowsetSize st) then
    if P <? RowsInResultst then RowsInResultst - P else 1
  else wrapu 64 (RowsetSize st).

Definition MADB_MapToRowStatus (rc : Z) : Z :=
  if rc =? SQL_SUCCESS_WITH_INFO then SQL_ROW_SUCCESS_WITH_INFO
  else if rc =? SQL_ERROR then SQL_ROW_ERROR else SQL_ROW_SUCCESS.

(** [MADB_InitStatusPtr] on an array of the application, which has at least [Size]
    elements. *)
Definition MADB_InitStatusPtr (Ptr : list Z) (Size : nat) (v : Z) : list Z := replicate Size v ++ drop Size Ptr.

Definition CALC_ALL_ROWS_RC (acc cur : Z) (row_num : nat) : Z :=
  if (row_num =? 0)%nat then cur else if negb (cur =? acc) then SQL_SUCCESS_WITH_INFO else acc.

(** The first truncated column that is reported, and how. *)
Fixpoint truncation_code (cols : list trunc_col) : option nat :=
  match cols with
  | [] => None
  | t :: cols' =>
      if tc_error t && negb (tc_dummy t) &&
         negb ((ard_octets t =? ird_octets t) && MADB_IsIntType (ird_type t) && MADB_IsIntType (ard_type t))
      then Some (if MADB_IsNumericType (ard_type t)
                 then if MADB_IsIntType (ird_type t) then MADB_ERR_22003 else MADB_ERR_01S07
                 else MADB_ERR_01004)
      else truncation_code cols'
  end.

(** The bookmark of a row: a stride of [BookmarkLength] longs. *)
Definition write_bookmark c (RowNum : nat) st : fetch_state A :=
  let o := fc_Options c in
  if negb (UseBookmarks o =? 0) && negb (BookmarkPtr o =? 0)
  then put_bookmark (Z.of_nat RowNum * BookmarkLength o) (Position st) st else st.

(** A row that arrived in slot [RowNum] with the answer [rc] of the fetch: its
    result and the state with the slot, the counters and the status. *)
Definition finish_row io (RowNum : nat) (rc : Z) (row : option A) (Result : Z) st : Z * fetch_state A :=
  let '(RowResult, st1) :=
    if rc =? MYSQL_DATA_TRUNCATED then
      match row ≫= (fun r => truncation_code (trunc_cols io r)) with
      | Some code => fail st code None
      | None => (SQL_SUCCESS, st)
      end
    else (SQL_SUCCESS, st) in
  let st2 := count_row (from_option (fun r => put_slot RowNum r st1) st1 row) in
  let '(fixed, E) := from_option (fun r => fix_values io RowNum r (fs_Error st2)) (SQL_SUCCESS, fs_Error st2) row in
  let RowResult' := if case fixed [SQL_ERROR; SQL_SUCCESS_WITH_INFO] then fixed else RowResult in
  (CALC_ALL_ROWS_RC Result RowResult' RowNum, put_status RowNum (MADB_MapToRowStatus RowResult') (set_Error st2 E)).

(** The loop over the rows of a rowset, [k] of them left: where the cursor has to
    go back to the first row of the rowset, that one is read last. *)
Fixpoint fetch_loop c io (SaveCursor : option nat) (Rows2Fetch : nat) (k j : nat) (Result : Z) st : Z * fetch_state A :=
  match k with
  | O => (Result, st)
  | S k' =>
      let '(RowNum, st1) :=
        match SaveCursor with
        | Some _ =>
            if (S j =? Rows2Fetch)%nat
            then (0%nat, mysql_stmt_row_seek (set_Next st (mysql_stmt_row_tell st)) SaveCursor)
            else (S j, st)
        | None => (j, st)
        end in
      let rcb := prepare_bind io RowNum in
      if negb (SQL_SUCCEEDED rcb) then (rcb, st1)
      else
        let '(rc, row, st2) := fetch_row c io (write_bookmark c RowNum st1) in
        let st3 := add_fetched 1 st2 in
        let st4 := if Position st3 <? 0 then set_Position st3 0 else st3 in
        if rc =? 1 then
          if ssps_disabled c then (SQL_ERROR, put_status RowNum SQL_ROW_ERROR st4)
          else
            let E := MADB_SetNativeError (fs_Error st4) (Some (stmt_diag io)) in
            let RowResult := ReturnValue E in
            (CALC_ALL_ROWS_RC Result RowResult RowNum,
             put_status RowNum (MADB_MapToRowStatus RowResult) (set_Error st4 E))
        else if rc =? MYSQL_NO_DATA then
          let st5 := add_fetched (-1) st4 in
          if (0 <? RowNum)%nat then fetch_loop c io SaveCursor Rows2Fetch k' (S j) Result st5 else (SQL_NO_DATA, st5)
        else
          let '(Result', st5) := finish_row io RowNum rc row Result st4 in
          fetch_loop c io SaveCursor Rows2Fetch k' (S j) Result' st5
  end.

(** The arrays and the counter before the rows are read. *)
Definition init_status st : fetch_state A :=
  let a := app st in
  let size := Z.to_nat (fs_ArraySize st) in
  set_app st (MkApp ((fun _ => 0) <$> RowsFetched a)
    ((fun p => MADB_InitStatusPtr p size SQL_ROW_NOROW) <$> RowStatus a)
    ((fun p => MADB_InitStatusPtr p size SQL_NO_DATA) <$> RowOperation a) (Bookmarks a) (Slots a)).

(** [MADB_StmtFetch]; [ok_result] and [ok_flags] are the answers of the allocator for
    the bind structures and the saved flags. *)
Definition MADB_StmtFetch (ok_result ok_flags : bool) c io st : Z * fetch_state A :=
  let o := fc_Options c in
  let st0 := set_Error st (MADB_CLEAR_ERROR (fs_Error st)) in
  if negb (0 <? column_count st0) then fail st0 MADB_ERR_24000 None
  else if ((UseBookmarks o =? SQL_UB_VARIABLE) && (BookmarkType o =? SQL_C_BOOKMARK))
       || (negb (UseBookmarks o =? SQL_UB_VARIABLE) && (BookmarkType o =? SQL_C_VARBOOKMARK))
  then fail st0 MADB_ERR_07006 None
  else if fs_ArraySize st0 =? 0 then (SQL_SUCCESS, st0)
  else
    let st1 := set_RowsetSize (set_LastRowFetched st0 0) (wraps 64 (fs_ArraySize st0)) in
    let Rows2Fetch := if NO_CACHE c then wrapu 64 (RowsetSize st1)
                      else MADB_RowsToFetch st1 (mysql_stmt_num_rows st1) in
    if Rows2Fetch =? 0 then (SQL_NO_DATA, st1)
    else if negb (has_result st1) && negb ok_result then fail st1 MADB_ERR_HY001 None
    else
      let st2 := init_status (set_has_result st1 true) in
      let n := Z.to_nat Rows2Fetch in
      if (1 <? Rows2Fetch) && negb (CursorType o =? SQL_CURSOR_FORWARD_ONLY) then
        let save := mysql_stmt_row_tell st2 in
        let '(_, st3) := MoveNext ok_flags c io st2 1 in
        fetch_loop c io save n n 0 SQL_SUCCESS st3
      else fetch_loop c io None n n 0 SQL_SUCCESS st2.

(** ** Scrolling *)

(** [MADB_StmtResetResultStructures], as far as the cursor goes. *)
Definition MADB_StmtResetResultStructures st : fetch_state A := MADB_STMT_RESET_CURSOR (set_LastRowFetched st 0).

(** [MADB_RefreshDynamicCursor]: [execute] is the Execute method of the statement. *)
Definition MADB_RefreshDynamicCursor (execute : fetch_state A -> Z * fetch_state A) st : Z * fetch_state A :=
  let '(ret, st1) := execute st in
  let n := mysql_stmt_num_rows st1 in
  let p := if (0 <? Position st) && (n <=? Position st) then n - 1 else Position st in
  (ret, set_Position (set_AffectedRows (set_LastRowFetched st1 (LastRowFetched st)) (AffectedRows st))
          (if p <? 0 then 0 else p)).

(** The position asked for, or the error; [mark] is the [long] at the bookmark
    pointer. *)
Definition scroll_target c (mark : Z) st (FetchOrientation FetchOffset : Z) : nat + Z :=
  let o := fc_Options c in
  let p := Position st in
  let size := fs_ArraySize st in
  let n := mysql_stmt_num_rows st in
  if FetchOrientation =? SQL_FETCH_NEXT then inr (if p <? 0 then 0 else wraps 64 (p + LastRowFetched st))
  else if FetchOrientation =? SQL_FETCH_PRIOR then inr (if p <? 0 then -1 else wraps 64 (p - Z.max 1 size))
  else if FetchOrientation =? SQL_FETCH_RELATIVE then
    let q := wraps 64 (p + FetchOffset) in
    inr (if (q <? 0) && (0 <? p) && (- FetchOffset <=? wraps 32 size) then 0 else q)
  else if FetchOrientation =? SQL_FETCH_ABSOLUTE then
    inr (if FetchOffset <? 0 then
           if (n - 1 + FetchOffset <? 0) && (wrapu 64 (- FetchOffset) <=? size) then 0
           else wraps 64 (n + FetchOffset)
         else FetchOffset - 1)
  else if FetchOrientation =? SQL_FETCH_FIRST then inr 0
  else if FetchOrientation =? SQL_FETCH_LAST then inr (wraps 64 (n - Z.max 1 size))
  else if FetchOrientation =? SQL_FETCH_BOOKMARK then
    if UseBookmarks o =? SQL_UB_OFF then inl MADB_ERR_HY106
    else if BookmarkPtr o =? 0 then inl MADB_ERR_HY111
    else inr (if OdbcVersion3 c then wraps 64 (mark + FetchOffset) else mark)
  else inl MADB_ERR_HY106.

(** What follows the choice of the position. *)
Definition fetch_at (ok_result ok_flags : bool) c io st (FetchOrientation : Z) (RowsProcessed P : Z) : Z * fetch_state A :=
  let n := mysql_stmt_num_rows st in
  let ct := CursorType (fc_Options c) in
  let st1 := if P <? 0 then MADB_STMT_RESET_CURSOR st
             else if negb (NO_CACHE c) then set_Position st (Z.min P n) else st in
  if (P <? 0) || (negb (NO_CACHE c) && (wrapu 64 (n - 1) <? P)) then
    (SQL_NO_DATA, if P <? 0 then snd (MADB_StmtDataSeek st1 0) else st1)
  else
    let '(ret, st2) :=
      if negb (FetchOrientation =? SQL_FETCH_NEXT)
         || ((1 <? RowsProcessed) && negb (ct =? SQL_CURSOR_FORWARD_ONLY)) || (ct =? SQL_CURSOR_DYNAMIC)
      then match Next st1 with
           | Some i => (SQL_SUCCESS, mysql_stmt_row_seek st1 (Some i))
           | None => MADB_StmtDataSeek st1 (Position st1)
           end
      else (SQL_SUCCESS, st1) in
    let '(ret', st3) := if ret =? SQL_SUCCESS then MADB_StmtFetch ok_result ok_flags c io st2 else (ret, st2) in
    (if (ret' =? SQL_NO_DATA) && (0 <? LastRowFetched st3) then SQL_SUCCESS else ret', st3).

Definition MADB_StmtFetchScroll (ok_result ok_flags : bool) (execute : fetch_state A -> Z * fetch_state A) (mark : Z)
    c io st (FetchOrientation FetchOffset : Z) : Z * fetch_state A :=
  let ct := CursorType (fc_Options c) in
  let RowsProcessed := LastRowFetched st in
  if (ct =? SQL_CURSOR_FORWARD_ONLY) && negb (FetchOrientation =? SQL_FETCH_NEXT) then fail st MADB_ERR_HY106 None
  else
    let '(rc, st1) := if ct =? SQL_CURSOR_DYNAMIC then MADB_RefreshDynamicCursor execute st else (SQL_SUCCESS, st) in
    if negb (SQL_SUCCEEDED rc) then (ReturnValue (fs_Error st1), st1)
    else
      let st2 := if negb (FetchOrientation =? SQL_FETCH_NEXT) then MADB_STMT_FORGET_NEXT_POS st1 else st1 in
      match scroll_target c mark st2 FetchOrientation FetchOffset with
      | inl code => fail st2 code None
      | inr P => fetch_at ok_result ok_flags c io st2 FetchOrientation RowsProcessed P
      end.

(** [SQLFetch]. *)
Definition SQLFetch (ok_result ok_flags : bool) (execute : fetch_state A -> Z * fetch_state A) c io st : Z * fetch_state A :=
  MADB_StmtFetchScroll ok_result ok_flags execute 0 c io (set_Error st (MADB_CLEAR_ERROR (fs_Error st))) SQL_FETCH_NEXT 1.

(** [MADB_StmtSetPos] up to the case SQL_POSITION; [None] for the operations that
    change data.  [fields] tells whether the statement has metadata. *)
Definition MADB_StmtSetPos (execute : fetch_state A -> Z * fetch_state A) (fields : bool) c st
    (RowNumber Operation LockType : Z) : option (Z * fetch_state A) :=
  if negb (has_result st) && negb fields then Some (fail st MADB_ERR_24000 None)
  else if NO_CACHE c then
    Some (fail st MADB_ERR_HY109 (Some (chars (
      "SQL_FORWARD_ONLY cursor is used with NO_CACHE option. Cursor with this options can't be positioned within the rowset. "
      +:+ "Use other cursor type or set NO_CACHE connection option to 0 to set the cursor position."))))
  else if negb (LockType =? SQL_LOCK_NO_CHANGE) then Some (fail st MADB_ERR_HYC00 None)
  else if Operation =? SQL_POSITION then
    if (RowNumber <? 1) || (mysql_stmt_num_rows st <? RowNumber) then Some (fail st MADB_ERR_HY109 None)
    else
      let '(rc, st1) := if CursorType (fc_Options c) =? SQL_CURSOR_DYNAMIC then MADB_RefreshDynamicCursor execute st
                        else (SQL_SUCCESS, st) in
      if negb (SQL_SUCCEEDED rc) then Some (ReturnValue (fs_Error st1), st1)
      else
        let st2 := set_Position st1 (wraps 64 (Position st1 + (RowNumber - 1))) in
        Some (SQL_SUCCESS, snd (MADB_StmtDataSeek st2 (Position st2)))
  else None.

End Fetch.

End Cursor.

(** ** Properties *)

Module CursorProps.
Import Cursor.

Section Props.
Context {A : Type}.
Implicit Types (st : fetch_state A) (io : row_io A) (c : fetch_config).

(** Rows without incident: every column is bound and converted, and the server
    keeps answering. *)
Record quiet io : Prop := {
  q_bind : forall i, SQL_SUCCEEDED (prepare_bind io i) = true;
  q_convert : forall r, fields_rc SQL_SUCCESS (convert io r) = SQL_SUCCESS;
  q_stmt : forall r, stmt_rc io r = SQL_SUCCESS;
  q_net : forall i, net_error io i = None;
  q_fix : forall i r E, fix_values io i r E = (SQL_SUCCESS, E);
}.

(** *** One row after the other *)

(** The row at the cursor arrives in a slot. *)
Definition deliver c (slot : nat) (r : A) st : fetch_state A :=
  let st1 := write_bookmark c slot st in
  let st2 := add_fetched 1 (set_cursor st1 (S (result_cursor st1))) in
  let st3 := if Position st2 <? 0 then set_Position st2 0 else st2 in
  put_status slot SQL_ROW_SUCCESS (count_row (put_slot slot r st3)).

Fixpoint deliver_run c (slot k : nat) st : fetch_state A :=
  match k with
  | O => st
  | S k' => match rows st !! result_cursor st with
            | Some r => deliver_run c (S slot) k' (deliver c slot r st)
            | None => st
            end
  end.

Lemma fetch_row_quiet c io st r : quiet io -> rows st !! result_cursor st = Some r ->
  fetch_row c io st = (SQL_SUCCESS, Some r, set_cursor st (S (result_cursor st))).
Proof.
  intros Hq Hr. unfold fetch_row, MADB_FetchCsps, FetchRowCsps, mysql_stmt_fetch. rewrite Hr, (q_net _ Hq).
  rewrite (q_stmt _ Hq). repeat case_match; simplify_eq; try done; by rewrite (q_convert _ Hq).
Qed.

Lemma write_bookmark_same c i st :
  rows (write_bookmark c i st) = rows st /\ result_cursor (write_bookmark c i st) = result_cursor st.
Proof. unfold write_bookmark. by case_match. Qed.

Lemma set_Error_id st : set_Error st (fs_Error st) = st.
Proof. by destruct st. Qed.

Lemma finish_row_quiet io i r st : quiet io ->
  finish_row io i SQL_SUCCESS (Some r) SQL_SUCCESS st
    = (SQL_SUCCESS, put_status i SQL_ROW_SUCCESS (count_row (put_slot i r st))).
Proof.
  intros Hq. unfold finish_row. cbn [from_option]. change (SQL_SUCCESS =? MYSQL_DATA_TRUNCATED) with false. cbn match.
  rewrite (q_fix _ Hq), set_Error_id. by destruct i.
Qed.

(** An iteration of the loop that reads row [r] into slot [i]. *)
Lemma fetch_loop_step c io save N k j st (i : nat) st1 r :
  quiet io ->
  match save with
  | Some _ => if (S j =? N)%nat then (0%nat, mysql_stmt_row_seek (set_Next st (mysql_stmt_row_tell st)) save) else (S j, st)
  | None => (j, st)
  end = (i, st1) ->
  rows st1 !! result_cursor st1 = Some r ->
  fetch_loop c io save N (S k) j SQL_SUCCESS st = fetch_loop c io save N k (S j) SQL_SUCCESS (deliver c i r st1).
Proof.
  intros Hq Hi Hr. cbn [fetch_loop]. rewrite Hi, (q_bind _ Hq). cbn [negb].
  destruct (write_bookmark_same c i st1) as [E1 E2].
  rewrite (fetch_row_quiet c io _ r Hq) by (by rewrite E1, E2).
  change (SQL_SUCCESS =? 1) with false. change (SQL_SUCCESS =? MYSQL_NO_DATA) with false. cbn match.
  rewrite finish_row_quiet by done. reflexivity.
Qed.

Lemma deliver_same c i r st :
  rows (deliver c i r st) = rows st /\ result_cursor (deliver c i r st) = S (result_cursor st) /\
  RowsetSize (deliver c i r st) = RowsetSize st /\ Next (deliver c i r st) = Next st /\
  Position (deliver c i r st) = Z.max 0 (Position st) /\
  LastRowFetched (deliver c i r st) = LastRowFetched st + 1 /\
  has_result (deliver c i r st) = has_result st /\ column_count (deliver c i r st) = column_count st /\
  fs_ArraySize (deliver c i r st) = fs_ArraySize st /\ fs_Error (deliver c i r st) = fs_Error st /\
  Slots (app (deliver c i r st)) = <[i := r]> (Slots (app st)) /\
  RowStatus (app (deliver c i r st)) = <[i := SQL_ROW_SUCCESS]> <$> RowStatus (app st) /\
  RowsFetched (app (deliver c i r st)) = (fun n => wrapu 64 (n + 1)) <$> RowsFetched (app st).
Proof.
  unfold deliver, write_bookmark. destruct (negb _ && negb _); cbn -[Z.max];
    (destruct (Z.ltb_spec (Position st) 0); cbn -[Z.max]; split_and!; try done; lia).
Qed.

(** Rows [q] to [q + k - 1] in the slots from [slot] on. *)
Record ran (slot k : nat) st st' : Prop := {
  ran_rows : rows st' = rows st;
  ran_cursor : result_cursor st' = (result_cursor st + k)%nat;
  ran_size : RowsetSize st' = RowsetSize st;
  ran_next : Next st' = Next st;
  ran_pos : Position st' = if (k =? 0)%nat then Position st else Z.max 0 (Position st);
  ran_last : LastRowFetched st' = LastRowFetched st + Z.of_nat k;
  ran_has : has_result st' = has_result st;
  ran_columns : column_count st' = column_count st;
  ran_array : fs_ArraySize st' = fs_ArraySize st;
  ran_error : fs_Error st' = fs_Error st;
  ran_slots : forall i, Slots (app st') !! i = if bool_decide (slot <= i < slot + k)%nat
                                          then rows st !! (result_cursor st + (i - slot))%nat else Slots (app st) !! i;
  ran_status : forall l, RowStatus (app st) = Some l -> exists l', RowStatus (app st') = Some l' /\ length l' = length l /\
    forall i, (i < length l)%nat -> l' !! i = if bool_decide (slot <= i < slot + k)%nat then Some SQL_ROW_SUCCESS else l !! i;
  ran_fetched : forall m, RowsFetched (app st) = Some m -> 0 <= m -> m + Z.of_nat k < 2 ^ 64 ->
    RowsFetched (app st') = Some (m + Z.of_nat k);
}.

Lemma deliver_run_ran c k : forall slot st, (result_cursor st + k <= length (rows st))%nat ->
  ran slot k st (deliver_run c slot k st).
Proof.
  induction k as [|k IH]; intros slot st Hle; cbn [deliver_run].
  - split; try done; try (cbn; lia).
    + intros i. by rewrite bool_decide_eq_false_2 by lia.
    + intros l Hl. exists l. split_and!; try done. intros i _. by rewrite bool_decide_eq_false_2 by lia.
    + intros m Hm _ _. rewrite Hm. f_equal. lia.
  - destruct (lookup_lt_is_Some_2 (rows st) (result_cursor st)) as [r Hr]; [lia|]. rewrite Hr.
    destruct (deliver_same c slot r st) as (E1 & E2 & E3 & E4 & E5 & E6 & E7 & E8 & E9 & E10 & E11 & E12 & E13).
    destruct (IH (S slot) (deliver c slot r st)) as [H1 H2 H3 H4 H5 H6 H7 H8 H9 H10 H11 H12 H13]; [rewrite E1, E2; lia|].
    split; try congruence.
    + rewrite H2, E2. lia.
    + rewrite H5, E5. destruct k; cbn -[Z.max]; lia.
    + rewrite H6, E6. lia.
    + intros i. rewrite H11, E1, E2, E11. destruct (decide (i = slot)) as [->|Hi].
      * rewrite (bool_decide_eq_false_2 (S slot <= slot < _)%nat) by lia. rewrite bool_decide_eq_true_2 by lia.
        rewrite lookup_insert_eq, Nat.sub_diag, Nat.add_0_r. done.
      * rewrite lookup_insert_ne by done. repeat case_bool_decide; try lia; try done. f_equal. lia.
    + intros l Hl. rewrite Hl in E12. destruct (H12 _ E12) as (l' & Hl' & Hlen & Hi). exists l'.
      rewrite length_insert in Hlen, Hi. split_and!; try done. intros i Hil. rewrite (Hi i Hil).
      destruct (decide (i = slot)) as [->|Hne].
      * rewrite (bool_decide_eq_true_2 (slot <= slot < _)%nat) by lia. case_bool_decide; [done|].
        by rewrite list_lookup_insert_eq.
      * rewrite list_lookup_insert_ne by done. repeat case_bool_decide; try lia; done.
    + intros m Hm H0 Hmax. rewrite Hm in E13. cbn in E13. rewrite wrapu_id in E13 by lia.
      rewrite (H13 _ E13) by lia. f_equal. lia.
Qed.

(** *** A rowset *)

(** The loop without and with a return to the first row. *)
Lemma fetch_loop_forward c io N : quiet io -> forall k j st, (result_cursor st + k <= length (rows st))%nat ->
  fetch_loop c io None N k j SQL_SUCCESS st = (SQL_SUCCESS, deliver_run c j k st).
Proof.
  intros Hq. induction k as [|k IH]; intros j st Hle; [done|].
  destruct (lookup_lt_is_Some_2 (rows st) (result_cursor st)) as [r Hr]; [lia|].
  rewrite (fetch_loop_step c io None N k j st j st r) by done. cbn [deliver_run]. rewrite Hr. apply IH.
  destruct (deliver_same c j r st) as (E1 & E2 & _). rewrite E1, E2. lia.
Qed.

Lemma fetch_loop_back c io p rp : quiet io -> forall k j st, (result_cursor st + k <= length (rows st))%nat ->
  rows st !! p = Some rp ->
  fetch_loop c io (Some p) (S (j + k)) (S k) j SQL_SUCCESS st =
    let st1 := deliver_run c (S j) k st in
    (SQL_SUCCESS, deliver c 0 rp (mysql_stmt_row_seek (set_Next st1 (mysql_stmt_row_tell st1)) (Some p))).
Proof.
  intros Hq. induction k as [|k IH]; intros j st Hle Hp.
  - rewrite Nat.add_0_r. erewrite fetch_loop_step; [|done|by rewrite Nat.eqb_refl|done]. reflexivity.
  - destruct (lookup_lt_is_Some_2 (rows st) (result_cursor st)) as [r Hr]; [lia|].
    rewrite (fetch_loop_step c io (Some p) (S (j + S k)) (S k) j st (S j) st r); [|done| |done].
    + destruct (deliver_same c (S j) r st) as (E1 & E2 & _). cbn [deliver_run]. rewrite Hr.
      replace (S (j + S k)) with (S (S j + k)) by lia. apply IH; [rewrite E1, E2; lia|by rewrite E1].
    + by rewrite (proj2 (Nat.eqb_neq (S j) (S (j + S k)))) by lia.
Qed.

Definition forward_only c : bool := CursorType (fc_Options c) =? SQL_CURSOR_FORWARD_ONLY.

(** The statement has columns, its bookmarks are of the type they are bound as, and
    the rowset is not empty. *)
Record fetchable c st : Prop := {
  f_columns : 0 < column_count st;
  f_bookmark : ((UseBookmarks (fc_Options c) =? SQL_UB_VARIABLE) && (BookmarkType (fc_Options c) =? SQL_C_BOOKMARK))
    || (negb (UseBookmarks (fc_Options c) =? SQL_UB_VARIABLE) && (BookmarkType (fc_Options c) =? SQL_C_VARBOOKMARK)) = false;
  f_array : 1 <= fs_ArraySize st < 2 ^ 63;
  f_rows : Z.of_nat (length (rows st)) < 2 ^ 62;
}.

Definition rowset_length st (p : nat) : nat := Nat.min (Z.to_nat (fs_ArraySize st)) (length (rows st) - p).

(** The rowset of [k] rows that starts at row [p] is with the application: the rows
    are in their slots, counted and marked, the rest of the status array says that
    there is no row; the cursor is ready for the next rowset. *)
Record rowset c (p k : nat) st st' : Prop := {
  rs_rows : rows st' = rows st;
  rs_pos : Position st' = Z.of_nat p;
  rs_last : LastRowFetched st' = Z.of_nat k;
  rs_columns : column_count st' = column_count st;
  rs_array : fs_ArraySize st' = fs_ArraySize st;
  rs_cursor : result_cursor st' = if forward_only c || (k =? 1)%nat then (p + k)%nat else S p;
  rs_next : Next st' = if forward_only c || (k =? 1)%nat then Next st
                       else if (p + k <? length (rows st))%nat then Some (p + k)%nat else None;
  rs_slots : forall i, Slots (app st') !! i = if (i <? k)%nat then rows st !! (p + i)%nat else Slots (app st) !! i;
  rs_status : forall l, RowStatus (app st) = Some l -> (Z.to_nat (fs_ArraySize st) <= length l)%nat ->
    exists l', RowStatus (app st') = Some l' /\ length l' = length l /\
      forall i, (i < length l)%nat -> l' !! i = if (i <? k)%nat then Some SQL_ROW_SUCCESS
                else if (i <? Z.to_nat (fs_ArraySize st))%nat then Some SQL_ROW_NOROW else l !! i;
  rs_fetched : is_Some (RowsFetched (app st)) -> RowsFetched (app st') = Some (Z.of_nat k);
}.

Lemma MADB_RowsToFetch_spec st (p : nat) :
  Position st = Z.of_nat p -> (p < length (rows st))%nat -> 1 <= RowsetSize st < 2 ^ 63 ->
  Z.of_nat (length (rows st)) < 2 ^ 63 ->
  MADB_RowsToFetch st (mysql_stmt_num_rows st) = Z.min (RowsetSize st) (Z.of_nat (length (rows st) - p)).
Proof.
  intros Hp Hlt Ha Hn. unfold MADB_RowsToFetch, mysql_stmt_num_rows. rewrite Hp.
  rewrite (proj2 (Z.leb_le 0 _)) by lia. rewrite !wrapu_id by lia.
  destruct (Z.ltb_spec (Z.of_nat (length (rows st))) (Z.of_nat p + RowsetSize st)); [|lia].
  rewrite (proj2 (Z.ltb_lt (Z.of_nat p) _)) by lia. lia.
Qed.

(** The status array after its initialisation. *)
Lemma InitStatus_lookup l n v i : (n <= length l)%nat -> (i < length l)%nat ->
  MADB_InitStatusPtr l n v !! i = if (i <? n)%nat then Some v else l !! i.
Proof.
  intros Hn Hi. unfold MADB_InitStatusPtr. destruct (Nat.ltb_spec i n).
  - rewrite lookup_app_l by (rewrite length_replicate; lia). by apply lookup_replicate_2.
  - rewrite lookup_app_r by (rewrite length_replicate; lia). rewrite length_replicate, lookup_drop. f_equal. lia.
Qed.

(** From the initialised state [s2] the rows of the rowset were run into the slots. *)
Lemma rowset_of_ran c p k st st2 st' :
  fetchable c st -> (p + k <= length (rows st))%nat -> (1 <= k)%nat ->
  st2 = init_status (set_has_result (set_RowsetSize (set_LastRowFetched
          (set_Error st (MADB_CLEAR_ERROR (fs_Error st))) 0) (wraps 64 (fs_ArraySize st))) true) ->
  Position st = Z.of_nat p -> result_cursor st = p ->
  (forward_only c || (k =? 1)%nat = true) -> ran 0 k st2 st' -> rowset c p k st st'.
Proof.
  intros Hf Hle Hk -> Hp Hc Hfw [H1 H2 H3 H4 H5 H6 H7 H8 H9 H10 H11 H12 H13]. cbn -[Z.max] in *.
  split; try done; try congruence.
  - rewrite H5, (proj2 (Nat.eqb_neq k 0)) by lia. cbn -[Z.max]. lia.
  - rewrite H2, Hfw. cbn. lia.
  - rewrite H4, Hfw. done.
  - intros i. rewrite H11. destruct (Nat.ltb_spec i k); [rewrite bool_decide_eq_true_2 by lia|by rewrite bool_decide_eq_false_2 by lia].
    rewrite Hc. f_equal. lia.
  - intros l Hl Hal. rewrite Hl in H12. destruct (H12 _ eq_refl) as (l' & E1 & E2 & E3). exists l'.
    assert (length (MADB_InitStatusPtr l (Z.to_nat (fs_ArraySize st)) SQL_ROW_NOROW) = length l) as EL.
    { unfold MADB_InitStatusPtr. rewrite length_app, length_replicate, length_drop. lia. }
    rewrite EL in E2, E3. split_and!; try done. intros i Hi. rewrite (E3 i Hi).
    destruct (Nat.ltb_spec i k); [by rewrite bool_decide_eq_true_2 by lia|].
    rewrite bool_decide_eq_false_2 by lia. by apply InitStatus_lookup.
  - intros [m Hm]. rewrite Hm in H13. pose proof (f_rows _ _ Hf). rewrite (H13 0); [f_equal|done|lia|lia].
Qed.

(** The same, with the first row read last. *)
Lemma rowset_of_back c p k rp st st2 st3 :
  fetchable c st -> (p + S k <= length (rows st))%nat -> (1 <= k)%nat -> forward_only c = false ->
  st2 = init_status (set_has_result (set_RowsetSize (set_LastRowFetched
          (set_Error st (MADB_CLEAR_ERROR (fs_Error st))) 0) (wraps 64 (fs_ArraySize st))) true) ->
  Position st = Z.of_nat p -> result_cursor st = p -> rows st !! p = Some rp -> ran 1 k (set_cursor st2 (S p)) st3 ->
  rowset c p (S k) st (deliver c 0 rp (mysql_stmt_row_seek (set_Next st3 (mysql_stmt_row_tell st3)) (Some p))).
Proof.
  intros Hf Hle Hk Hfw -> Hp Hc Hrp [H1 H2 H3 H4 H5 H6 H7 H8 H9 H10 H11 H12 H13]. cbn -[Z.max] in *.
  set (st4 := mysql_stmt_row_seek _ _).
  destruct (deliver_same c 0 rp st4) as (E1 & E2 & E3 & E4 & E5 & E6 & E7 & E8 & E9 & E10 & E11 & E12 & E13).
  assert (forward_only c || (S k =? 1)%nat = false) as Hcase by (rewrite Hfw; by destruct k; [lia|]).
  split; try (rewrite ?E1, ?E8, ?E9; cbn -[Z.max]; congruence).
  - rewrite E5. cbn -[Z.max]. rewrite H5. case_match; lia.
  - rewrite E6. cbn -[Z.max]. rewrite H6. lia.
  - by rewrite E2, Hcase.
  - rewrite E4, Hcase. unfold st4. cbn [Next mysql_stmt_row_seek set_cursor set_Next]. unfold mysql_stmt_row_tell.
    rewrite H1, H2. by replace (S (p + k))%nat with (p + S k)%nat by lia.
  - intros i. rewrite E11. change (Slots (app st4)) with (Slots (app st3)). destruct i as [|i].
    + rewrite lookup_insert_eq, Nat.add_0_r. done.
    + rewrite lookup_insert_ne by done. rewrite H11. destruct (Nat.ltb_spec (S i) (S k)).
      * rewrite bool_decide_eq_true_2 by lia. f_equal. lia.
      * by rewrite bool_decide_eq_false_2 by lia.
  - intros l Hl Hal. rewrite Hl in H12. destruct (H12 _ eq_refl) as (l' & F1 & F2 & F3).
    assert (length (MADB_InitStatusPtr l (Z.to_nat (fs_ArraySize st)) SQL_ROW_NOROW) = length l) as EL.
    { unfold MADB_InitStatusPtr. rewrite length_app, length_replicate, length_drop. lia. }
    rewrite EL in F2, F3. exists (<[0%nat := SQL_ROW_SUCCESS]> l'). rewrite E12. change (RowStatus (app st4)) with (RowStatus (app st3)).
    rewrite F1, length_insert. split_and!; try done. intros i Hi. destruct i as [|i].
    + rewrite list_lookup_insert_eq by lia. done.
    + rewrite list_lookup_insert_ne by done. rewrite (F3 _ Hi). destruct (Nat.ltb_spec (S i) (S k)).
      * by rewrite bool_decide_eq_true_2 by lia.
      * rewrite bool_decide_eq_false_2 by lia. by apply InitStatus_lookup.
  - intros [m Hm]. rewrite Hm in H13. pose proof (f_rows _ _ Hf). rewrite E13. cbn.
    rewrite (H13 0) by (done || lia). cbn. rewrite wrapu_id by lia. f_equal. lia.
Qed.

Lemma MoveNext_one c io st : quiet io -> has_result st = true -> (result_cursor st < length (rows st))%nat ->
  MoveNext true c io st 1 = (SQL_SUCCESS, set_cursor st (S (result_cursor st))).
Proof.
  intros Hq Hr Hlt. destruct (lookup_lt_is_Some_2 (rows st) (result_cursor st) Hlt) as [r Er].
  cbn [MoveNext]. rewrite Hr. cbn [negb]. unfold FetchRowCsps, mysql_stmt_fetch. rewrite (q_net _ Hq), Er.
  destruct (ssps_disabled c && negb (fake_result c)); [destruct (NO_CACHE c)|]; cbn; rewrite ?(q_stmt _ Hq), ?Hr; done.
Qed.

(** [MADB_StmtFetch] of a stored result with the library's cursor at the position. *)
Lemma MADB_StmtFetch_rowset c io st (p : nat) :
  quiet io -> fetchable c st -> NO_CACHE c = false ->
  Position st = Z.of_nat p -> result_cursor st = p -> (p < length (rows st))%nat ->
  exists st', MADB_StmtFetch true true c io st = (SQL_SUCCESS, st') /\ rowset c p (rowset_length st p) st st'.
Proof.
  intros Hq Hf Hnc Hp Hc Hlt. pose proof (f_array _ _ Hf) as Ha. pose proof (f_rows _ _ Hf) as Hn.
  unfold MADB_StmtFetch. cbn -[Z.mul wraps wrapu MADB_RowsToFetch init_status MoveNext fetch_loop Z.to_nat].
  rewrite (proj2 (Z.ltb_lt 0 _) (f_columns _ _ Hf)), (f_bookmark _ _ Hf). cbn [negb].
  rewrite (proj2 (Z.eqb_neq (fs_ArraySize st) 0)) by lia. rewrite Hnc.
  set (st1 := set_RowsetSize _ _).
  assert (RowsetSize st1 = fs_ArraySize st) as Hs by (cbn; apply wraps_id; lia).
  assert (MADB_RowsToFetch st1 (mysql_stmt_num_rows st1) = Z.of_nat (rowset_length st p)) as ->.
  { rewrite (MADB_RowsToFetch_spec st1 p) by (rewrite ?Hs; cbn; done || lia). rewrite Hs. unfold rowset_length. cbn. lia. }
  assert (1 <= rowset_length st p)%nat as Hk by (unfold rowset_length; lia).
  assert (p + rowset_length st p <= length (rows st))%nat as Hle by (unfold rowset_length; lia).
  rewrite (proj2 (Z.eqb_neq _ 0)) by lia. rewrite andb_false_r. rewrite Nat2Z.id.
  set (st2 := init_status _).
  destruct (Z.ltb_spec 1 (Z.of_nat (rowset_length st p))) as [H1|H1]; cbn [andb].
  - destruct (forward_only c) eqn:Hfw; unfold forward_only in Hfw; rewrite Hfw; cbn [negb].
    + eexists. split; [by apply fetch_loop_forward; [|cbn; rewrite Hc]|].
      eapply rowset_of_ran; eauto; [by unfold forward_only; rewrite Hfw|]. apply deliver_run_ran. cbn. by rewrite Hc.
    + assert (mysql_stmt_row_tell st2 = Some p) as ->.
      { unfold mysql_stmt_row_tell. change (result_cursor st2) with (result_cursor st). change (rows st2) with (rows st).
        rewrite Hc. by rewrite (proj2 (Nat.ltb_lt _ _) Hlt). }
      rewrite MoveNext_one by (try done; cbn; lia). cbv iota beta.
      destruct (lookup_lt_is_Some_2 (rows st) p Hlt) as [rp Hrp].
      destruct (rowset_length st p) as [|k] eqn:Ek; [lia|].
      pose proof (fetch_loop_back c io p rp Hq k 0 (set_cursor st2 (S (result_cursor st2)))) as HB.
      cbn [Nat.add] in HB. rewrite HB; [|cbn; lia|done]. eexists. split; [reflexivity|].
      eapply rowset_of_back; eauto; [lia|]. cbn. rewrite Hc. apply deliver_run_ran. cbn. lia.
  - eexists. split; [by apply fetch_loop_forward; [|cbn; rewrite Hc]|].
    eapply rowset_of_ran; eauto; [|apply deliver_run_ran; cbn; by rewrite Hc].
    rewrite (proj2 (Nat.eqb_eq (rowset_length st p) 1)) by lia. apply orb_true_r.
Qed.

(** *** Where the cursor is *)

(** Before the first row, on a rowset of [k] rows from row [p] on, behind the last
    row. *)
Inductive place := Before | On (p k : nat) | After.

(** The state a statement is in at such a place; the library's cursor and the saved
    pointer are where the next rowset can be read from. *)
Definition at_place c st (x : place) : Prop :=
  0 <= LastRowFetched st <= Z.of_nat (length (rows st)) /\
  match x with
  | Before => Position st = -1 /\ result_cursor st = 0%nat /\ Next st = None
  | On p k =>
      Position st = Z.of_nat p /\ LastRowFetched st = Z.of_nat k /\ (1 <= k)%nat /\ (p + k <= length (rows st))%nat /\
      result_cursor st = (if forward_only c || (k =? 1)%nat then (p + k)%nat else S p) /\
      (forward_only c || (k =? 1)%nat = false ->
         Next st = if (p + k <? length (rows st))%nat then Some (p + k)%nat else None)
  | After => Position st = Z.of_nat (length (rows st))
  end.

(** What the application sees of a rowset. *)
Record shown (p k : nat) st st' : Prop := {
  sh_slots : forall i, Slots (app st') !! i = if (i <? k)%nat then rows st !! (p + i)%nat else Slots (app st) !! i;
  sh_status : forall l, RowStatus (app st) = Some l -> (Z.to_nat (fs_ArraySize st) <= length l)%nat ->
    exists l', RowStatus (app st') = Some l' /\ length l' = length l /\
      forall i, (i < length l)%nat -> l' !! i = if (i <? k)%nat then Some SQL_ROW_SUCCESS
                else if (i <? Z.to_nat (fs_ArraySize st))%nat then Some SQL_ROW_NOROW else l !! i;
  sh_fetched : is_Some (RowsFetched (app st)) -> RowsFetched (app st') = Some (Z.of_nat k);
}.

(** The result set and the settings stay. *)
Definition same_set st st' : Prop :=
  rows st' = rows st /\ column_count st' = column_count st /\ fs_ArraySize st' = fs_ArraySize st.

Lemma fetchable_same c st st' : same_set st st' -> fetchable c st -> fetchable c st'.
Proof. intros (E1 & E2 & E3) [H1 H2 H3 H4]. split; rewrite ?E1, ?E2, ?E3; done. Qed.

(** What a fetch to target [t] does. *)
Definition reached c (t : place) st (res : Z * fetch_state A) : Prop :=
  same_set st res.2 /\ at_place c res.2 t /\
  match t with
  | On p k => res.1 = SQL_SUCCESS /\ shown p k st res.2
  | _ => res.1 = SQL_NO_DATA /\ app res.2 = app st
  end.

Lemma DataSeek_row st (p : nat) : Position st = Z.of_nat p -> (p < length (rows st))%nat ->
  Z.of_nat (length (rows st)) < 2 ^ 63 -> MADB_StmtDataSeek st (Position st) = (SQL_SUCCESS, set_cursor st p).
Proof.
  intros Hp Hlt Hn. unfold MADB_StmtDataSeek. destruct (rows st) as [|r l] eqn:Er; [cbn in Hlt; lia|]. rewrite <- Er in *.
  unfold mysql_stmt_data_seek, mysql_stmt_num_rows. rewrite Hp, wrapu_id, Z.min_l, Nat2Z.id by lia. done.
Qed.

Section FetchAt.
Context (c : fetch_config) (io : row_io A) (st st0 : fetch_state A) (o RowsProcessed P : Z).
Hypothesis Hq : quiet io.
Hypothesis Hf : fetchable c st0.
Hypothesis Hnc : NO_CACHE c = false.
Hypothesis Hsame : same_set st0 st.
Hypothesis Happ : app st = app st0.
Hypothesis Hn : (0 < length (rows st0))%nat.
Hypothesis Hlast : 0 <= LastRowFetched st <= Z.of_nat (length (rows st0)).

Definition seeks : bool :=
  negb (o =? SQL_FETCH_NEXT) || ((1 <? RowsProcessed) && negb (forward_only c))
    || (CursorType (fc_Options c) =? SQL_CURSOR_DYNAMIC).

Lemma fetch_at_row (p : nat) : P = Z.of_nat p -> (p < length (rows st0))%nat ->
  (if seeks then Next st = None \/ Next st = Some p else result_cursor st = p) ->
  reached c (On p (rowset_length st0 p)) st0 (fetch_at true true c io st o RowsProcessed P).
Proof.
  intros -> Hp Hseek. pose proof (f_rows _ _ Hf) as Hrows. destruct Hsame as (E1 & E2 & E3). unfold fetch_at, mysql_stmt_num_rows.
  rewrite Hnc, E1, (proj2 (Z.ltb_ge (Z.of_nat p) 0)) by lia. cbn [negb andb orb].
  rewrite (wrapu_id 64) by lia. rewrite (proj2 (Z.ltb_ge _ (Z.of_nat p))) by lia. rewrite Z.min_l by lia.
  fold (forward_only c). fold seeks. set (st1 := set_Position st (Z.of_nat p)).
  assert ((if seeks then match Next st1 with
           | Some i => (SQL_SUCCESS, mysql_stmt_row_seek st1 (Some i))
           | None => MADB_StmtDataSeek st1 (Position st1)
           end else (SQL_SUCCESS, st1)) = (SQL_SUCCESS, set_cursor st1 p)) as ->.
  { destruct seeks; [|cbn in Hseek; subst st1; cbn; rewrite <- Hseek; by destruct st].
    change (Next st1) with (Next st). destruct Hseek as [-> | ->]; [|done].
    rewrite (DataSeek_row st1 p); [done|done| |]; change (rows st1) with (rows st); rewrite E1; lia. }
  cbv iota beta. change (SQL_SUCCESS =? SQL_SUCCESS) with true. cbv iota.
  destruct (MADB_StmtFetch_rowset c io (set_cursor st1 p) p) as (st' & -> & HR); try done;
    [eapply fetchable_same; [|exact Hf]; done|cbn; by rewrite E1|].
  destruct HR as [H1 H2 H3 H4 H5 H6 H7 H8 H9 H10].
  assert (rowset_length (set_cursor st1 p) p = rowset_length st0 p) as Ek by (unfold rowset_length; cbn; by rewrite E1, E3).
  rewrite Ek in *. cbn in H1, H4, H5, H7, H8, H9, H10. rewrite E1, E2, E3, Happ in *.
  cbv iota beta. change (SQL_SUCCESS =? SQL_NO_DATA) with false. cbn [andb]. cbv iota.
  unfold reached. cbn [fst snd]. split; [done|]. split; [|split; [done|by split]].
  assert (1 <= rowset_length st0 p)%nat by (pose proof (f_array _ _ Hf); unfold rowset_length; lia).
  unfold at_place. rewrite H1, H3. split; [unfold rowset_length; lia|]. split_and!; try done; [unfold rowset_length; lia|].
  intros Hfw. rewrite Hfw in H7. done.
Qed.

Lemma fetch_at_before : P < 0 -> reached c Before st0 (fetch_at true true c io st o RowsProcessed P).
Proof.
  intros HP. destruct Hsame as (E1 & E2 & E3). unfold fetch_at. rewrite (proj2 (Z.ltb_lt P 0) HP). cbn [orb].
  unfold MADB_StmtDataSeek. destruct (rows (MADB_STMT_RESET_CURSOR st)) as [|r l] eqn:Er; [cbn in Er; rewrite E1 in Er; rewrite Er in Hn; cbn in Hn; lia|].
  split; [done|]. split; [|done]. split; [cbn -[Z.le]; by rewrite E1|]. split_and!; try done. cbn [result_cursor snd mysql_stmt_data_seek set_cursor].
  rewrite wrapu_id by lia. unfold mysql_stmt_num_rows. rewrite Z.min_l by lia. done.
Qed.

Lemma fetch_at_after : Z.of_nat (length (rows st0)) <= P ->
  reached c After st0 (fetch_at true true c io st o RowsProcessed P).
Proof.
  intros HP. pose proof (f_rows _ _ Hf) as Hrows. destruct Hsame as (E1 & E2 & E3). unfold fetch_at, mysql_stmt_num_rows.
  rewrite Hnc, E1, (proj2 (Z.ltb_ge P 0)) by lia. cbn [negb andb orb].
  rewrite (wrapu_id 64) by lia. rewrite (proj2 (Z.ltb_lt _ P)) by lia.
  split; [done|]. split; [|done]. split; [cbn -[Z.le]; by rewrite E1|]. cbn -[Z.min]. rewrite E1. lia.
Qed.

End FetchAt.

(** *** Scrolling as ODBC defines it *)

(** Where the documentation of SQLFetchScroll says a fetch goes, in terms of the
    place of the cursor, the number [n] of rows and the rowset size [a]; rows count
    from 1.  A rowset that the end of the result cuts short ends at the last row. *)
Inductive scroll_to := ToBefore | ToRow (start : Z) | ToAfter.

Definition odbc_absolute (off n a : Z) : scroll_to :=
  if off <? 0 then
    if - off <=? n then ToRow (n + off + 1) else if a <? - off then ToBefore else ToRow 1
  else if off =? 0 then ToBefore else if off <=? n then ToRow off else ToAfter.

Definition odbc_scroll (o off : Z) (x : place) (n a : Z) : option scroll_to :=
  if o =? SQL_FETCH_NEXT then
    Some (match x with
          | Before => ToRow 1
          | On p k => let start := Z.of_nat p + 1 in if start + Z.of_nat k <=? n then ToRow (start + Z.of_nat k) else ToAfter
          | After => ToAfter
          end)
  else if o =? SQL_FETCH_PRIOR then
    Some (match x with
          | Before => ToBefore
          | On p _ => let start := Z.of_nat p + 1 in
              if start =? 1 then ToBefore else if start <=? a then ToRow 1 else ToRow (start - a)
          | After => if n <? a then ToRow 1 else ToRow (n - a + 1)
          end)
  else if o =? SQL_FETCH_RELATIVE then
    Some (match x with
          | Before => if 0 <? off then odbc_absolute off n a else ToBefore
          | On p _ => let start := Z.of_nat p + 1 in
              if start + off <? 1 then
                if (start =? 1) || (a <? - off) then ToBefore else ToRow 1
              else if start + off <=? n then ToRow (start + off) else ToAfter
          | After => if off <? 0 then odbc_absolute off n a else ToAfter
          end)
  else if o =? SQL_FETCH_ABSOLUTE then Some (odbc_absolute off n a)
  else if o =? SQL_FETCH_FIRST then Some (ToRow 1)
  else if o =? SQL_FETCH_LAST then Some (if a <=? n then ToRow (n - a + 1) else ToRow 1)
  else None.

(** The cases in which the driver has no first partial rowset to go to. *)
Definition short_scroll (o : Z) (x : place) (n a : Z) : bool :=
  if o =? SQL_FETCH_PRIOR then
    match x with Before => false | On p _ => (1 <=? Z.of_nat p) && (Z.of_nat p <? a) | After => n <? a end
  else (o =? SQL_FETCH_LAST) && (n <? a).

Definition to_place st (t : scroll_to) : place :=
  match t with
  | ToBefore => Before
  | ToRow start => let p := Z.to_nat (start - 1) in On p (rowset_length st p)
  | ToAfter => After
  end.

(** The position the driver computes, against the target: a row, or one of the ends. *)
Definition hits (P : Z) (n : Z) (t : scroll_to) : Prop :=
  match t with ToBefore => P < 0 | ToRow start => P = start - 1 /\ 1 <= start <= n | ToAfter => n <= P end.

Definition orientation_allowed c (o : Z) : Prop :=
  CursorType (fc_Options c) = SQL_CURSOR_STATIC \/ CursorType (fc_Options c) = SQL_CURSOR_FORWARD_ONLY /\ o = SQL_FETCH_NEXT.

Lemma MADB_StmtFetchScroll_unfold execute mark c io st o off P : orientation_allowed c o ->
  scroll_target c mark st o off = inr P ->
  MADB_StmtFetchScroll true true execute mark c io st o off =
    fetch_at true true c io (if negb (o =? SQL_FETCH_NEXT) then MADB_STMT_FORGET_NEXT_POS st else st) o (LastRowFetched st) P.
Proof.
  intros Ho Ht. unfold MADB_StmtFetchScroll.
  assert ((CursorType (fc_Options c) =? SQL_CURSOR_FORWARD_ONLY) && negb (o =? SQL_FETCH_NEXT) = false) as ->.
  { destruct Ho as [->|[-> ->]]; done. }
  assert ((CursorType (fc_Options c) =? SQL_CURSOR_DYNAMIC) = false) as -> by (by destruct Ho as [->|[-> _]]).
  cbv iota beta. change (SQL_SUCCEEDED SQL_SUCCESS) with true. cbn [negb]. cbv iota.
  assert (scroll_target c mark (if negb (o =? SQL_FETCH_NEXT) then MADB_STMT_FORGET_NEXT_POS st else st) o off = inr P) as ->
    by (by destruct (negb _)). done.
Qed.

(** The targets of the driver and of ODBC. *)
Lemma absolute_hits (n a off : Z) : 0 < n < 2 ^ 62 -> 1 <= a < 2 ^ 31 -> - 2 ^ 62 < off < 2 ^ 62 ->
  hits (if off <? 0 then if (n - 1 + off <? 0) && (wrapu 64 (- off) <=? a) then 0 else wraps 64 (n + off) else off - 1)
    n (odbc_absolute off n a).
Proof.
  intros Hn Ha Ho. unfold odbc_absolute. destruct (Z.ltb_spec off 0).
  - rewrite wrapu_id by lia. rewrite wraps_id by lia.
    destruct (Z.leb_spec (- off) n); cbn [hits].
    + destruct (Z.ltb_spec (n - 1 + off) 0), (Z.leb_spec (- off) a); cbn [andb]; lia.
    + rewrite (proj2 (Z.ltb_lt (n - 1 + off) 0)) by lia.
      destruct (Z.ltb_spec a (- off)), (Z.leb_spec (- off) a); cbn [andb hits]; lia.
  - destruct (Z.eqb_spec off 0); cbn [hits]; [lia|]. destruct (Z.leb_spec off n); cbn [hits]; lia.
Qed.

Lemma scroll_target_hits c mark st o off x t :
  fetchable c st -> fs_ArraySize st < 2 ^ 31 -> (0 < length (rows st))%nat -> - 2 ^ 62 < off < 2 ^ 62 ->
  at_place c st x -> odbc_scroll o off x (Z.of_nat (length (rows st))) (fs_ArraySize st) = Some t ->
  exists P, scroll_target c mark st o off = inr P /\
    hits P (Z.of_nat (length (rows st)))
      (if short_scroll o x (Z.of_nat (length (rows st))) (fs_ArraySize st) then ToBefore else t).
Proof.
  intros [_ _ Ha Hn] Ha' Hpos Ho [HL Hx]. unfold odbc_scroll, short_scroll, scroll_target, mysql_stmt_num_rows.
  set (n := Z.of_nat (length (rows st))) in *. set (a := fs_ArraySize st) in *. assert (0 < n < 2 ^ 62) as Hn' by lia.
  assert (Hp : match x with Before => Position st = -1 | On p _ => Position st = Z.of_nat p /\ Z.of_nat p < n
                     | After => Position st = n end).
  { destruct x; [tauto| |tauto]. destruct Hx as (-> & _ & ? & ? & _). lia. }
  destruct (Z.eqb_spec o SQL_FETCH_NEXT) as [->|_].
  { intros [= <-]. eexists. split; [reflexivity|]. change (SQL_FETCH_NEXT =? SQL_FETCH_PRIOR) with false.
    change (SQL_FETCH_NEXT =? SQL_FETCH_LAST) with false. cbn [andb]. destruct x as [|p k|]; cbn [hits].
    - rewrite Hp. cbn. lia.
    - destruct Hp as [-> Hpn]. destruct Hx as (_ & -> & Hk & Hle & _). rewrite (proj2 (Z.ltb_ge _ 0)) by lia.
      rewrite wraps_id by lia. destruct (Z.leb_spec (Z.of_nat p + 1 + Z.of_nat k) n); cbn [hits]; lia.
    - rewrite Hp, (proj2 (Z.ltb_ge _ 0)) by lia. rewrite wraps_id by lia. lia. }
  destruct (Z.eqb_spec o SQL_FETCH_PRIOR) as [->|_].
  { intros [= <-]. eexists. split; [reflexivity|]. destruct x as [|p k|].
    - rewrite Hp. cbn. lia.
    - destruct Hp as [-> Hpn]. rewrite (proj2 (Z.ltb_ge _ 0)), Z.max_r, wraps_id by lia.
      destruct (Z.leb_spec 1 (Z.of_nat p)), (Z.ltb_spec (Z.of_nat p) a); cbn [andb hits]; try lia;
        destruct (Z.eqb_spec (Z.of_nat p + 1) 1), (Z.leb_spec (Z.of_nat p + 1) a); cbn [hits]; lia.
    - rewrite Hp, (proj2 (Z.ltb_ge n 0)), Z.max_r, wraps_id by lia. destruct (Z.ltb_spec n a); cbn [hits]; lia. }
  destruct (Z.eqb_spec o SQL_FETCH_RELATIVE) as [->|_].
  { intros [= <-]. eexists. split; [reflexivity|]. change (SQL_FETCH_RELATIVE =? SQL_FETCH_LAST) with false. cbn [andb].
    rewrite (wraps_id 32 a) by lia. pose proof (absolute_hits n a off Hn' ltac:(lia) Ho) as HA. destruct x as [|p k|].
    - rewrite Hp, wraps_id by lia. rewrite andb_false_r. cbn [andb]. destruct (Z.ltb_spec 0 off); [|cbn; lia].
      rewrite (proj2 (Z.ltb_ge off 0)) in HA by lia. by replace (-1 + off) with (off - 1) by lia.
    - destruct Hp as [-> Hpn]. rewrite wraps_id by lia.
      destruct (Z.ltb_spec (Z.of_nat p + off) 0), (Z.ltb_spec 0 (Z.of_nat p)), (Z.leb_spec (- off) a),
        (Z.ltb_spec (Z.of_nat p + 1 + off) 1); cbn [andb hits]; try lia;
        destruct (Z.eqb_spec (Z.of_nat p + 1) 1), (Z.ltb_spec a (- off)), (Z.leb_spec (Z.of_nat p + 1 + off) n);
        cbn [orb hits]; lia.
    - rewrite Hp, wraps_id by lia. rewrite (proj2 (Z.ltb_lt 0 n)) by lia. rewrite andb_true_r.
      destruct (Z.ltb_spec off 0).
      + unfold odbc_absolute. rewrite (proj2 (Z.ltb_lt off 0)) by lia.
        destruct (Z.ltb_spec (n + off) 0), (Z.leb_spec (- off) a), (Z.leb_spec (- off) n), (Z.ltb_spec a (- off));
          cbn [andb hits]; lia.
      + rewrite (proj2 (Z.ltb_ge (n + off) 0)) by lia. cbn [andb hits]. lia. }
  destruct (Z.eqb_spec o SQL_FETCH_ABSOLUTE) as [->|_].
  { intros [= <-]. eexists. split; [reflexivity|]. by apply absolute_hits; try lia. }
  destruct (Z.eqb_spec o SQL_FETCH_FIRST) as [->|_].
  { intros [= <-]. eexists. split; [reflexivity|]. cbn. lia. }
  destruct (Z.eqb_spec o SQL_FETCH_LAST) as [->|_]; [|done].
  intros [= <-]. eexists. split; [reflexivity|]. cbn [andb]. rewrite Z.max_r, wraps_id by lia.
  destruct (Z.ltb_spec n a), (Z.leb_spec a n); cbn [hits]; lia.
Qed.

(** The fetch goes where the position computed for it hits. *)
Lemma FetchScroll_hits execute mark c io st o off x P t :
  quiet io -> fetchable c st -> NO_CACHE c = false -> orientation_allowed c o -> (0 < length (rows st))%nat ->
  at_place c st x -> scroll_target c mark st o off = inr P -> hits P (Z.of_nat (length (rows st))) t ->
  (o = SQL_FETCH_NEXT -> odbc_scroll o off x (Z.of_nat (length (rows st))) (fs_ArraySize st) = Some t) ->
  reached c (to_place st t) st (MADB_StmtFetchScroll true true execute mark c io st o off).
Proof.
  intros Hq Hf Hnc Hal Hn Hx HP HH Ht.
  rewrite (MADB_StmtFetchScroll_unfold execute mark c io st o off P Hal HP).
  set (st1 := if negb (o =? SQL_FETCH_NEXT) then _ else _).
  assert (same_set st st1 /\ app st1 = app st /\ LastRowFetched st1 = LastRowFetched st) as (Hs & Happ & HL1)
    by (subst st1; by destruct (negb _)).
  destruct Hx as [HL Hx]. rewrite <- HL1 in HL.
  destruct t as [|start|] eqn:Et; cbn [hits to_place] in *; [by apply fetch_at_before| |by apply fetch_at_after].
  destruct HH as [-> Hs1]. apply fetch_at_row; try done; [lia|lia|].
  unfold seeks. destruct (Z.eqb_spec o SQL_FETCH_NEXT) as [->|Hne]; cbn [negb orb] in *;
    [|left; reflexivity].
  specialize (Ht eq_refl). cbn in Ht. injection Ht as Ht. subst st1.
  assert ((CursorType (fc_Options c) =? SQL_CURSOR_DYNAMIC) = false) as -> by (by destruct Hal as [->|[-> _]]).
  rewrite orb_false_r. destruct x as [|p k|].
  - injection Ht as <-. destruct Hx as (_ & Hc & HN). case_match; [by left|done].
  - destruct (Z.leb_spec (Z.of_nat p + 1 + Z.of_nat k) (Z.of_nat (length (rows st)))); [|done]. injection Ht as <-.
    replace (Z.to_nat (Z.of_nat p + 1 + Z.of_nat k - 1)) with (p + k)%nat by lia.
    destruct Hx as (_ & HLk & Hk & Hle & Hc & HN). cbn [negb]. rewrite HLk.
    destruct (forward_only c) eqn:Hfw; cbn [orb negb] in *; [by rewrite andb_false_r|]. rewrite andb_true_r.
    destruct (Z.ltb_spec 1 (Z.of_nat k)).
    + right. rewrite HN; [|apply Nat.eqb_neq; lia]. by rewrite (proj2 (Nat.ltb_lt (p + k) _)) by lia.
    + rewrite Hc, (proj2 (Nat.eqb_eq k 1)) by lia. done.
  - done.
Qed.

(** C14. [MADB_StmtFetchScroll] on a stored result refines the table of SQLFetchScroll:
    with a static cursor (or SQL_FETCH_NEXT with a forward-only one), from any place
    the cursor can be at, it goes to the row, or to the end, that ODBC defines for
    the orientation and offset; the rowset found there is in the application's slots,
    counted and marked, and the cursor is at a proper place again.  In one group of
    cases, a previous or last rowset with fewer rows in front of it than the rowset
    size, it goes before the first row and returns SQL_NO_DATA instead of returning
    the rowset at row 1. *)
Theorem MADB_StmtFetchScroll_odbc execute mark c io st o off x t :
  quiet io -> fetchable c st -> fs_ArraySize st < 2 ^ 31 -> NO_CACHE c = false -> orientation_allowed c o ->
  (0 < length (rows st))%nat -> - 2 ^ 62 < off < 2 ^ 62 -> at_place c st x ->
  odbc_scroll o off x (Z.of_nat (length (rows st))) (fs_ArraySize st) = Some t ->
  reached c (to_place st (if short_scroll o x (Z.of_nat (length (rows st))) (fs_ArraySize st) then ToBefore else t)) st
    (MADB_StmtFetchScroll true true execute mark c io st o off).
Proof.
  intros Hq Hf Ha Hnc Hal Hn Ho Hx Ht.
  destruct (scroll_target_hits c mark st o off x t Hf Ha Hn Ho Hx Ht) as (P & HP & HH).
  eapply FetchScroll_hits; eauto. intros ->. by rewrite Ht.
Qed.

(** *** Reading a whole result *)

(** The rows in the first slots after a fetch. *)
Definition collected st : list A := omap (fun i => Slots (app st) !! i) (seq 0 (Z.to_nat (LastRowFetched st))).

(** SQLFetch until there is no more data; [None] when something else is returned or
    [fuel] calls were not enough. *)
Fixpoint scan (fuel : nat) (execute : fetch_state A -> Z * fetch_state A) c io st : option (list A) :=
  match fuel with
  | O => None
  | S f =>
      let '(ret, st') := SQLFetch true true execute c io st in
      if ret =? SQL_NO_DATA then Some []
      else if ret =? SQL_SUCCESS then List.app (collected st') <$> scan f execute c io st' else None
  end.

Lemma collected_shown p k st st' : shown p k st st' -> (p + k <= length (rows st))%nat -> LastRowFetched st' = Z.of_nat k ->
  collected st' = take k (drop p (rows st)).
Proof.
  intros [Hs _ _] Hle HL. unfold collected. rewrite HL, Nat2Z.id.
  assert (forall m, (m <= k)%nat -> omap (fun i => Slots (app st') !! i) (seq 0 m) = take m (drop p (rows st))) as H;
    [|by apply H].
  induction m as [|m IH]; intros Hm; [done|]. rewrite seq_S, omap_app, IH by lia. cbn [Nat.add].
  destruct (lookup_lt_is_Some_2 (rows st) (p + m)) as [r Hr]; [lia|].
  rewrite (take_S_r _ m r) by (by rewrite lookup_drop). f_equal. cbn. rewrite Hs, (proj2 (Nat.ltb_lt m k)) by lia. by rewrite Hr.
Qed.

(** SQLFetch from a place in the result, and on an empty result. *)
Lemma at_place_Error c st E x : at_place c (set_Error st E) x <-> at_place c st x.
Proof. done. Qed.

Definition sequential c : Prop :=
  CursorType (fc_Options c) = SQL_CURSOR_STATIC \/ CursorType (fc_Options c) = SQL_CURSOR_FORWARD_ONLY.

Lemma SQLFetch_next execute c io st x t : quiet io -> fetchable c st -> NO_CACHE c = false -> sequential c ->
  (0 < length (rows st))%nat -> at_place c st x ->
  odbc_scroll SQL_FETCH_NEXT 1 x (Z.of_nat (length (rows st))) (fs_ArraySize st) = Some t ->
  reached c (to_place st t) st (SQLFetch true true execute c io st).
Proof.
  intros Hq Hf Hnc Hs Hn Hx Ht. unfold SQLFetch. set (st0 := set_Error st _).
  assert (fetchable c st0) as Hf0 by (by apply (fetchable_same c st)).
  assert (exists P, scroll_target c 0 st0 SQL_FETCH_NEXT 1 = inr P /\ hits P (Z.of_nat (length (rows st0))) t) as (P & HP & HH).
  { eexists. split; [reflexivity|]. destruct Hx as [HL Hx]. pose proof (f_rows _ _ Hf). cbn in Ht. injection Ht as <-.
    change (Position st0) with (Position st). change (LastRowFetched st0) with (LastRowFetched st).
    change (rows st0) with (rows st). destruct x as [|p k|].
    - destruct Hx as [-> _]. cbn. lia.
    - destruct Hx as (-> & -> & Hk & Hle & _). rewrite (proj2 (Z.ltb_ge _ 0)), wraps_id by lia.
      destruct (Z.leb_spec (Z.of_nat p + 1 + Z.of_nat k) (Z.of_nat (length (rows st)))); cbn; lia.
    - rewrite Hx. rewrite (proj2 (Z.ltb_ge _ 0)), wraps_id by lia. cbn. lia. }
  destruct (FetchScroll_hits execute 0 c io st0 SQL_FETCH_NEXT 1 x P t) as (H1 & H2 & H3); try done;
    [by destruct Hs as [?|?]; [left|right]|].
  split; [done|]. split; [done|]. destruct t; [done| |done]. cbn in *. destruct H3 as [? [? ? ?]]. by split; [|split].
Qed.

Lemma SQLFetch_empty execute c io st : quiet io -> fetchable c st -> NO_CACHE c = false -> sequential c ->
  rows st = [] -> at_place c st Before -> fst (SQLFetch true true execute c io st) = SQL_NO_DATA.
Proof.
  intros Hq [Hc Hb Ha Hn] Hnc Hs Hr [HL (Hp & Hcur & HN)]. rewrite Hr in HL. cbn in HL.
  assert (LastRowFetched st = 0) as HL0 by lia.
  unfold SQLFetch, MADB_StmtFetchScroll. rewrite andb_false_r.
  assert ((CursorType (fc_Options c) =? SQL_CURSOR_DYNAMIC) = false) as -> by (by destruct Hs as [->| ->]).
  cbn -[MADB_StmtFetch wrapu wraps Z.min]. rewrite Hp. cbn -[MADB_StmtFetch wrapu wraps Z.min].
  unfold fetch_at. rewrite Hnc, HL0. unfold mysql_stmt_num_rows. cbn -[MADB_StmtFetch wrapu Z.min]. rewrite Hr.
  assert ((CursorType (fc_Options c) =? SQL_CURSOR_DYNAMIC) = false) as -> by (by destruct Hs as [->| ->]).
  cbn -[MADB_StmtFetch]. unfold MADB_StmtFetch. cbn -[MADB_RowsToFetch fetch_loop init_status wraps].
  rewrite (proj2 (Z.ltb_lt 0 _) Hc), Hb, (proj2 (Z.eqb_neq (fs_ArraySize st) 0)), Hnc by lia.
  assert (forall s : fetch_state A, Position s = 0 -> RowsetSize s = fs_ArraySize st -> rows s = [] ->
    MADB_RowsToFetch s (mysql_stmt_num_rows s) = 1) as HRT.
  { intros s E1 E2 E3. unfold MADB_RowsToFetch, mysql_stmt_num_rows. rewrite E1, E2, E3. cbn -[wrapu].
    rewrite wrapu_id by lia. by rewrite (proj2 (Z.ltb_lt 0 _)) by lia. }
  cbn [negb]. rewrite HRT; [|done|cbn; apply wraps_id; lia|done].
  rewrite andb_false_r. change (SQL_SUCCEEDED SQL_SUCCESS) with true. cbn [negb].
  change (wrapu 64 (Z.of_nat 0 - 1) <? 0) with false. cbv iota. change (Z.to_nat 1) with 1%nat. cbn [fetch_loop].
  rewrite (q_bind _ Hq). cbn [negb].
  assert (forall s : fetch_state A, rows s = [] -> ReturnValue (fs_Error s) = 0 -> fetch_row c io s = (MYSQL_NO_DATA, None, s)) as HF.
  { intros s E1 E2. unfold fetch_row, MADB_FetchCsps, FetchRowCsps, mysql_stmt_fetch. rewrite Hnc, E1, lookup_nil, E2.
    by destruct (ssps_disabled c && _). }
  rewrite HF; [|unfold write_bookmark; by case_match|unfold write_bookmark; by case_match].
  change (1 =? 0) with false. change (1 <? 1) with false. cbn [andb]. cbv iota.
  unfold write_bookmark. by destruct (negb _ && negb _).
Qed.

(** From a rowset on, the rest of the rows follow. *)
Lemma scan_rest execute c io fuel : quiet io -> NO_CACHE c = false -> sequential c -> forall st p k,
  fetchable c st -> at_place c st (On p k) -> (length (rows st) - (p + k) < fuel)%nat ->
  scan fuel execute c io st = Some (drop (p + k) (rows st)).
Proof.
  intros Hq Hnc Hs. induction fuel as [|fuel IH]; intros st p k Hf Hx Hfuel; [lia|]. cbn [scan].
  pose proof Hx as [HL (Hp & HLk & Hk & Hle & Hrest)].
  pose proof (SQLFetch_next execute c io st (On p k) _ Hq Hf Hnc Hs ltac:(lia) Hx eq_refl) as HR.
  cbn -[Z.leb] in HR. destruct (Z.leb_spec (Z.of_nat p + 1 + Z.of_nat k) (Z.of_nat (length (rows st)))).
  - cbn in HR. replace (Z.to_nat (Z.of_nat p + 1 + Z.of_nat k - 1)) with (p + k)%nat in HR by lia.
    destruct (SQLFetch true true execute c io st) as [ret st']. destruct HR as (HS & HP & Hret & Hsh). cbn in HS, HP, Hret, Hsh.
    rewrite Hret. cbn -[scan]. pose proof HP as [_ (_ & HL' & Hk' & Hle' & _)]. destruct HS as (E1 & E2 & E3).
    rewrite (IH st' (p + k)%nat (rowset_length st (p + k))); [|by apply (fetchable_same c st)|done|rewrite E1; lia].
    cbn. f_equal. rewrite E1 in Hle'. rewrite (collected_shown _ _ st st' Hsh) by done. rewrite E1.
    rewrite <- (drop_drop (rows st) _ (p + k)). apply take_drop.
  - destruct (SQLFetch true true execute c io st) as [ret st']. destruct HR as (_ & _ & Hret & _). cbn in Hret. rewrite Hret.
    cbn. by rewrite drop_ge by lia.
Qed.

(** C19. A stored result is read completely and in order by SQLFetch, whatever the
    rowset size, with a static and with a forward-only cursor: calling it until it
    returns SQL_NO_DATA, which it does after at most one call more than there are
    rows, the rows in the slots, one rowset after the other, are exactly the rows of
    the result. *)
Theorem SQLFetch_scan execute c io st :
  quiet io -> NO_CACHE c = false -> sequential c -> fetchable c st -> at_place c st Before ->
  scan (S (length (rows st))) execute c io st = Some (rows st).
Proof.
  intros Hq Hnc Hs Hf Hx. destruct (decide (rows st = [])) as [Hr|Hr].
  - cbn [scan]. pose proof (SQLFetch_empty execute c io st Hq Hf Hnc Hs Hr Hx) as H0.
    destruct (SQLFetch true true execute c io st) as [ret st']. cbn in H0. rewrite H0, Hr. done.
  - assert (0 < length (rows st))%nat as Hn by (destruct (rows st); [done|cbn; lia]). cbn [scan].
    pose proof (SQLFetch_next execute c io st Before _ Hq Hf Hnc Hs Hn Hx eq_refl) as HR. cbn in HR.
    destruct (SQLFetch true true execute c io st) as [ret st']. destruct HR as (HS & HP & Hret & Hsh). cbn in HS, HP, Hret, Hsh.
    rewrite Hret. cbn -[scan]. pose proof HP as [_ (_ & HL' & Hk' & Hle' & _)]. destruct HS as (E1 & E2 & E3).
    change (Z.to_nat (1 - 1)) with 0%nat in *.
    rewrite (scan_rest execute c io _ Hq Hnc Hs st' 0 (rowset_length st 0)); [|by apply (fetchable_same c st)|done|rewrite E1; lia].
    cbn. f_equal. rewrite E1 in *. rewrite (collected_shown _ _ st st' Hsh) by done. apply take_drop.
Qed.

(** *** Errors of single rows *)

(** Rows that arrive, whatever their conversion says. *)
Record arrives io : Prop := {
  a_bind : forall i, SQL_SUCCEEDED (prepare_bind io i) = true;
  a_convert : forall r, fields_rc SQL_SUCCESS (convert io r) = SQL_SUCCESS;
  a_stmt : forall r, stmt_rc io r = SQL_SUCCESS;
  a_net : forall i, net_error io i = None;
}.

(** The result of a row whose conversion returned [fixed]. *)
Definition row_result (fixed : Z) : Z := if case fixed [SQL_ERROR; SQL_SUCCESS_WITH_INFO] then fixed else SQL_SUCCESS.

Lemma finish_row_arrives io i r Result st : exists E,
  finish_row io i SQL_SUCCESS (Some r) Result st =
    (CALC_ALL_ROWS_RC Result (row_result (fst (fix_values io i r (fs_Error st)))) i,
     put_status i (MADB_MapToRowStatus (row_result (fst (fix_values io i r (fs_Error st)))))
       (set_Error (count_row (put_slot i r st)) E)).
Proof.
  unfold finish_row. change (SQL_SUCCESS =? MYSQL_DATA_TRUNCATED) with false. cbn [from_option]. cbv iota beta.
  change (fs_Error (count_row (put_slot i r st))) with (fs_Error st).
  destruct (fix_values io i r (fs_Error st)) as [fixed E] eqn:EF. exists E. reflexivity.
Qed.

Lemma fetch_row_arrives c io st r : arrives io -> rows st !! result_cursor st = Some r ->
  fetch_row c io st = (SQL_SUCCESS, Some r, set_cursor st (S (result_cursor st))).
Proof.
  intros Hq Hr. unfold fetch_row, MADB_FetchCsps, FetchRowCsps, mysql_stmt_fetch. rewrite Hr, (a_net _ Hq).
  rewrite (a_stmt _ Hq). repeat case_match; simplify_eq; try done; by rewrite (a_convert _ Hq).
Qed.

(** The loop that comes back to the first row returns what that row gives. *)
Lemma fetch_loop_back_result c io p rp res : arrives io -> (forall E, row_result (fst (fix_values io 0 rp E)) = res) ->
  forall k j Result st, (result_cursor st + k <= length (rows st))%nat -> rows st !! p = Some rp ->
  fst (fetch_loop c io (Some p) (S (j + k)) (S k) j Result st) = res.
Proof.
  intros Ha Hres. induction k as [|k IH]; intros j Result st Hle Hp; cbn [fetch_loop].
  - rewrite Nat.add_0_r, Nat.eqb_refl, (a_bind _ Ha). cbn [negb].
    set (st1 := write_bookmark c 0 _). destruct (write_bookmark_same c 0 (mysql_stmt_row_seek (set_Next st (mysql_stmt_row_tell st)) (Some p))) as [E1 E2].
    rewrite (fetch_row_arrives c io st1 rp Ha) by (subst st1; rewrite E1, E2; done).
    change (SQL_SUCCESS =? 1) with false. change (SQL_SUCCESS =? MYSQL_NO_DATA) with false. cbv iota.
    match goal with |- context [finish_row io 0 SQL_SUCCESS (Some rp) Result ?s] =>
      destruct (finish_row_arrives io 0 rp Result s) as [E ->] end. cbn [fst CALC_ALL_ROWS_RC Nat.eqb]. apply Hres.
  - rewrite (proj2 (Nat.eqb_neq (S j) (S (j + S k)))) by lia. rewrite (a_bind _ Ha). cbn [negb].
    destruct (lookup_lt_is_Some_2 (rows st) (result_cursor st)) as [r Hr]; [lia|].
    set (st1 := write_bookmark c (S j) st). destruct (write_bookmark_same c (S j) st) as [E1 E2].
    fold st1 in E1, E2. rewrite (fetch_row_arrives c io st1 r Ha) by (by rewrite E1, E2).
    change (SQL_SUCCESS =? 1) with false. change (SQL_SUCCESS =? MYSQL_NO_DATA) with false. cbv iota.
    match goal with |- context [finish_row io (S j) SQL_SUCCESS (Some r) Result ?s] => set (s3 := s);
      destruct (finish_row_arrives io (S j) r Result s3) as [E ->] end. cbv iota.
    replace (S (j + S k)) with (S (S j + k)) by lia. cbn [fetch_loop] in IH.
    assert (rows s3 = rows st /\ result_cursor s3 = S (result_cursor st)) as [F1 F2].
    { subst s3. rewrite <- E1, <- E2. clearbody st1. by destruct (Position _ <? 0). }
    apply IH; cbn; [rewrite F1, F2; lia|by rewrite F1].
Qed.

(** With a scrollable cursor and more than one row in the rowset, the return
    code of [MADB_StmtFetch] is the result of the first row alone: a failed
    conversion in any other row is visible in its row status only. *)
Theorem scroll_result_first_row c io st (p : nat) rp res :
  arrives io -> fetchable c st -> NO_CACHE c = false -> forward_only c = false ->
  Position st = Z.of_nat p -> result_cursor st = p -> rows st !! p = Some rp ->
  (2 <= rowset_length st p)%nat -> (forall E, row_result (fst (fix_values io 0 rp E)) = res) ->
  fst (MADB_StmtFetch true true c io st) = res.
Proof.
  intros Ha Hf Hnc Hfw Hp Hc Hrp Hk Hres. pose proof (f_array _ _ Hf) as Har. pose proof (f_rows _ _ Hf) as Hn.
  pose proof (lookup_lt_Some _ _ _ Hrp) as Hlt.
  unfold MADB_StmtFetch. cbn -[Z.mul wraps wrapu MADB_RowsToFetch init_status MoveNext fetch_loop Z.to_nat].
  rewrite (proj2 (Z.ltb_lt 0 _) (f_columns _ _ Hf)), (f_bookmark _ _ Hf). cbn [negb].
  rewrite (proj2 (Z.eqb_neq (fs_ArraySize st) 0)) by lia. rewrite Hnc.
  set (st1 := set_RowsetSize _ _).
  assert (RowsetSize st1 = fs_ArraySize st) as Hs by (cbn; apply wraps_id; lia).
  assert (MADB_RowsToFetch st1 (mysql_stmt_num_rows st1) = Z.of_nat (rowset_length st p)) as ->.
  { rewrite (MADB_RowsToFetch_spec st1 p) by (rewrite ?Hs; cbn; done || lia). rewrite Hs. unfold rowset_length. cbn. lia. }
  assert (p + rowset_length st p <= length (rows st))%nat as Hle by (unfold rowset_length; lia).
  rewrite (proj2 (Z.eqb_neq _ 0)) by lia. rewrite andb_false_r, Nat2Z.id. rewrite (proj2 (Z.ltb_lt 1 _)) by lia.
  unfold forward_only in Hfw. rewrite Hfw. cbn [negb andb]. set (st2 := init_status _).
  assert (mysql_stmt_row_tell st2 = Some p) as ->.
  { unfold mysql_stmt_row_tell. change (result_cursor st2) with (result_cursor st). change (rows st2) with (rows st).
    rewrite Hc. by rewrite (proj2 (Nat.ltb_lt _ _) Hlt). }
  assert (exists rc, MoveNext true c io st2 1 = (rc, set_cursor st2 (S p))) as [rc ->].
  { cbn [MoveNext]. change (has_result st2) with true. cbn [negb]. unfold FetchRowCsps, mysql_stmt_fetch.
    rewrite (a_net _ Ha). change (result_cursor st2) with (result_cursor st). change (rows st2) with (rows st).
    rewrite Hc, Hrp, (a_stmt _ Ha). destruct (ssps_disabled c && _); [destruct (NO_CACHE c)|]; by eexists. }
  cbv iota beta. destruct (rowset_length st p) as [|k] eqn:Ek; [lia|].
  apply (fetch_loop_back_result c io p rp res Ha Hres k 0); cbn; [lia|done].
Qed.

(** *** Positioning in the rowset *)

(** SQLSetPos with SQL_POSITION moves the position that the next SQLFetch counts
    from: on a rowset of [k] rows from row [p] on, after positioning on its row
    [m > 1], a result that ends less than [m] rows behind the rowset is over for
    SQLFetch, although the rows behind the rowset were never fetched and the same
    call without the positioning returns them. *)
Theorem SetPos_skips_rows execute c io st (p k : nat) m :
  quiet io -> fetchable c st -> CursorType (fc_Options c) = SQL_CURSOR_STATIC -> at_place c st (On p k) ->
  2 <= m <= Z.of_nat k -> (p + k < length (rows st))%nat -> Z.of_nat (length (rows st)) < Z.of_nat (p + k) + m ->
  Z.of_nat k <= fs_ArraySize st ->
  (exists st1, MADB_StmtSetPos execute true c st m SQL_POSITION SQL_LOCK_NO_CHANGE = Some (SQL_SUCCESS, st1) /\
     fst (SQLFetch true true execute c io st1) = SQL_NO_DATA) /\
  fst (SQLFetch true true execute c io st) = SQL_SUCCESS /\
  collected (snd (SQLFetch true true execute c io st)) = drop (p + k) (rows st).
Proof.
  intros Hq Hf Hct Hx Hm Hlt Hend Hka. assert (NO_CACHE c = false) as Hnc by (unfold NO_CACHE; by rewrite Hct).
  pose proof (f_rows _ _ Hf) as Hn. pose proof Hx as [HL (Hp & HLk & Hk & Hle & _)]. split.
  - unfold MADB_StmtSetPos. rewrite andb_false_r, Hnc. change (SQL_LOCK_NO_CHANGE =? SQL_LOCK_NO_CHANGE) with true.
    change (SQL_POSITION =? SQL_POSITION) with true. cbn [negb]. cbv iota. unfold mysql_stmt_num_rows.
    rewrite (proj2 (Z.ltb_ge m 1)), (proj2 (Z.ltb_ge (Z.of_nat (length (rows st))) m)) by lia. cbn [orb]. cbv iota.
    rewrite Hct. change (SQL_CURSOR_STATIC =? SQL_CURSOR_DYNAMIC) with false. cbv iota.
    change (SQL_SUCCEEDED SQL_SUCCESS) with true. cbn [negb]. cbv iota. eexists. split; [reflexivity|].
    set (st1 := set_Position st _). set (st2 := snd (MADB_StmtDataSeek st1 _)).
    assert (same_set st st2 /\ LastRowFetched st2 = LastRowFetched st /\ app st2 = app st /\
            Position st2 = Z.of_nat p + (m - 1)) as (HS & HL2 & Ha2 & HP2).
    { subst st2. unfold MADB_StmtDataSeek. case_match; cbn -[wraps]; rewrite Hp, wraps_id by lia; done. }
    assert (scroll_target c 0 (set_Error st2 (MADB_CLEAR_ERROR (fs_Error st2))) SQL_FETCH_NEXT 1
            = inr (Z.of_nat p + (m - 1) + Z.of_nat k)) as HT.
    { cbn -[wraps]. rewrite HP2, HL2, HLk, (proj2 (Z.ltb_ge _ 0)), wraps_id by lia. done. }
    unfold SQLFetch. rewrite (MADB_StmtFetchScroll_unfold _ _ _ _ _ _ _ _ (or_introl Hct) HT).
    change (negb (SQL_FETCH_NEXT =? SQL_FETCH_NEXT)) with false. cbv iota.
    destruct (fetch_at_after c io (set_Error st2 (MADB_CLEAR_ERROR (fs_Error st2))) st SQL_FETCH_NEXT
      (LastRowFetched (set_Error st2 (MADB_CLEAR_ERROR (fs_Error st2)))) (Z.of_nat p + (m - 1) + Z.of_nat k))
      as (_ & _ & H & _); try done; [lia|change (0 <= LastRowFetched st2 <= Z.of_nat (length (rows st))); lia|lia].
  - pose proof (SQLFetch_next execute c io st (On p k) _ Hq Hf Hnc (or_introl Hct) ltac:(lia) Hx eq_refl) as HR.
    cbn -[Z.leb] in HR. rewrite (proj2 (Z.leb_le _ _)) in HR by lia. cbn in HR.
    replace (Z.to_nat (Z.of_nat p + 1 + Z.of_nat k - 1)) with (p + k)%nat in HR by lia.
    destruct HR as (HS & [_ (_ & HL' & _ & Hle' & _)] & Hret & Hsh). split; [done|]. destruct HS as (E1 & _).
    rewrite E1 in Hle'. rewrite (collected_shown _ _ _ _ Hsh Hle' HL'). apply take_ge.
    rewrite length_drop. unfold rowset_length. lia.
Qed.

End Props.

(** *** Samples *)

Definition plain_io : row_io Z :=
  MkIo (fun _ => SQL_SUCCESS) (fun _ => []) (fun _ => SQL_SUCCESS) (Native [] [] 0) (fun _ => None) (fun _ => [])
    (fun _ _ E => (SQL_SUCCESS, E)).

Lemma plain_io_quiet : quiet plain_io.
Proof. by split. Qed.

Definition config (ct : Z) : fetch_config := MkConfig (MkOptions 0 0 ct SQL_UB_OFF 0 0 0 0 0) false true false true.

(** Seven rows, in rowsets of three. *)
Definition seven (status : list Z) : fetch_state Z :=
  MkFetch [10; 11; 12; 13; 14; 15; 16] 0 (-1) 0 None 0 0 0 false 2 3 ErrorProps.zero_error (MkApp (Some 0) (Some status) None ∅ ∅).

Definition no_execute (st : fetch_state Z) : Z * fetch_state Z := (SQL_SUCCESS, st).

Lemma seven_fetchable ct l : fetchable (config ct) (seven l).
Proof. split; cbn; try lia; done. Qed.

Lemma SQLFetch_scan_witness :
  scan 8 no_execute (config SQL_CURSOR_STATIC) plain_io (seven [9; 9; 9]) = Some [10; 11; 12; 13; 14; 15; 16].
Proof.
  apply (SQLFetch_scan no_execute (config SQL_CURSOR_STATIC) plain_io (seven [9; 9; 9]));
    [apply plain_io_quiet|reflexivity|by left|apply seven_fetchable|split; [cbn; lia|done]].
Defined.

(** The last rowset is the one from row 5 on. *)
Lemma MADB_StmtFetchScroll_odbc_witness :
  reached (config SQL_CURSOR_STATIC) (On 4 3) (seven [9; 9; 9])
    (MADB_StmtFetchScroll true true no_execute 0 (config SQL_CURSOR_STATIC) plain_io (seven [9; 9; 9]) SQL_FETCH_LAST 0).
Proof.
  apply (MADB_StmtFetchScroll_odbc no_execute 0 (config SQL_CURSOR_STATIC) plain_io (seven [9; 9; 9]) SQL_FETCH_LAST 0
    Before (ToRow 5)); [apply plain_io_quiet|apply seven_fetchable|cbn; lia|reflexivity|by left|cbn; lia|lia
    |split; [cbn; lia|done]|reflexivity].
Defined.

(** The second row of three cannot be converted: the call still returns success. *)
Definition bad_second : row_io Z :=
  MkIo (fun _ => SQL_SUCCESS) (fun _ => []) (fun _ => SQL_SUCCESS) (Native [] [] 0) (fun _ => None) (fun _ => [])
    (fun i _ E => if (i =? 1)%nat then (SQL_ERROR, MADB_SetError E MADB_ERR_22018 None 0) else (SQL_SUCCESS, E)).

Definition on_first (st : fetch_state Z) : fetch_state Z := Cursor.set_Position st 0.

Lemma scroll_result_first_row_witness :
  fst (MADB_StmtFetch true true (config SQL_CURSOR_STATIC) bad_second (on_first (seven [9; 9; 9]))) = SQL_SUCCESS /\
  RowStatus (app (snd (MADB_StmtFetch true true (config SQL_CURSOR_STATIC) bad_second (on_first (seven [9; 9; 9])))))
    = Some [SQL_ROW_SUCCESS; SQL_ROW_ERROR; SQL_ROW_SUCCESS].
Proof.
  split; [|vm_compute; reflexivity].
  apply (scroll_result_first_row (config SQL_CURSOR_STATIC) bad_second (on_first (seven [9; 9; 9])) 0 10 SQL_SUCCESS);
    [by split|split; cbn; try lia; done|reflexivity|reflexivity|reflexivity|reflexivity|reflexivity|apply Nat.leb_le; reflexivity|reflexivity].
Defined.

(** Rows 4 to 6 are fetched; positioning on the second of them loses row 7. *)
Definition on_second : fetch_state Z :=
  MkFetch [10; 11; 12; 13; 14; 15; 16] 4 3 3 (Some 6%nat) 3 0 0 true 2 3 ErrorProps.zero_error (MkApp (Some 3) None None ∅ ∅).

Lemma SetPos_skips_rows_witness :
  (exists st1, MADB_StmtSetPos no_execute true (config SQL_CURSOR_STATIC) on_second 2 SQL_POSITION SQL_LOCK_NO_CHANGE
      = Some (SQL_SUCCESS, st1) /\
     fst (SQLFetch true true no_execute (config SQL_CURSOR_STATIC) plain_io st1) = SQL_NO_DATA) /\
  fst (SQLFetch true true no_execute (config SQL_CURSOR_STATIC) plain_io on_second) = SQL_SUCCESS /\
  collected (snd (SQLFetch true true no_execute (config SQL_CURSOR_STATIC) plain_io on_second)) = [16].
Proof.
  apply (SetPos_skips_rows no_execute (config SQL_CURSOR_STATIC) plain_io on_second 3 3 2);
    [apply plain_io_quiet|split; cbn; try lia; done|reflexivity|split; [cbn; lia|cbn; split_and!; try lia; done]
    |lia|cbn; lia|cbn; lia|cbn; lia].
Defined.

End CursorProps.
