(* ===== verification/Numeric.v ===== *)
(** * Numeric: SQL_NUMERIC_STRUCT, bind offsets and hexadecimal text

    Models [MADB_NumericInit], [MADB_CharToSQLNumeric], [MADB_GetHexString],
    [GetBindOffset] and [MADB_ColumnIgnoredInAllRows] of [ma_helper.c]. *)

From Stdlib Require Import ZArith Lia.
From stdpp Require Import base strings numbers option list.
From S2P Require Import Prelude Decimal Odbc Errors.

Module Numeric.

Record SQL_NUMERIC_STRUCT := MkNumeric {
  precision : Z;   (** SQLCHAR *)
  scale : Z;       (** SQLSCHAR *)
  sign : Z;        (** 1 for positive, 0 for negative *)
  val : list Z;    (** little-endian magnitude *)
}.

Definition MADB_DEFAULT_PRECISION : Z := 38.

Definition MADB_NumericInit (Precision Scale : Z) (n : SQL_NUMERIC_STRUCT) : SQL_NUMERIC_STRUCT :=
  MkNumeric (wrapu 8 Precision) (wraps 8 Scale) (sign n) (replicate SQL_MAX_NUMERIC_LEN 0).

(** ** From decimal digits to bytes *)

(** The inner loop over [digits[sta .. digits_count)]: one division by two.
    [lead] is the test [i == sta]: a leading zero of the quotient moves [sta]. *)
Fixpoint half_pass (dig : Z) (lead : bool) (l : list Z) : list Z * Z :=
  match l with
  | [] => ([], dig)
  | d :: l' =>
      let tv := dig * 10 + d - 48 in
      let skip := lead && (tv <? 2) in
      let '(r, rem) := half_pass (Z.rem tv 2) skip l' in
      (if skip then r else (Z.quot tv 2 + 48) :: r, rem)
  end.

(** The outer loop: a bit per division, a byte per eight bits, 15 bytes at most.
    Every division takes a bit off the number, so 8 * 15 passes are enough. *)
Fixpoint bits_loop (fuel : nat) (digits : list Z) (hval bit : Z) (olen : nat) (v : list Z) : Z * nat * list Z :=
  match fuel with
  | O => (hval, olen, v)
  | S fuel' =>
      match digits with
      | [] => (hval, olen, v)
      | _ =>
          let '(digits', dig) := half_pass 0 true digits in
          let hval' := if 0 <? dig then Z.lor hval bit else hval in
          let bit' := Z.shiftl bit 1 in
          if 256 <=? bit' then
            let v' := <[olen := hval']> v in
            if (SQL_MAX_NUMERIC_LEN - 1 <=? S olen)%nat then (0, S olen, v')
            else bits_loop fuel' digits' 0 1 (S olen) v'
          else bits_loop fuel' digits' hval' bit' olen v
      end
  end.

Definition store_digits (digits v : list Z) : list Z :=
  let '(hval, olen, v') := bits_loop 121 digits 0 1 0 v in
  if negb (hval =? 0) && (olen <? SQL_MAX_NUMERIC_LEN - 1)%nat then <[olen := hval]> v' else v'.

(** ** The text *)

Fixpoint skip_zeros (l : list Z) : list Z :=
  match l with c :: l' => if c =? $"0" then skip_zeros l' else l | [] => [] end.

(** The digits behind the point: how many, and up to which the last that is not zero. *)
Fixpoint count_fraction (l : list Z) (total significant : nat) : nat * nat :=
  match l with
  | c :: l' =>
      if isdigit c then count_fraction l' (S total) (if c =? $"0" then significant else S total)
      else (total, significant)
  | [] => (total, significant)
  end.

Fixpoint count_digits (l : list Z) : nat :=
  match l with c :: l' => if isdigit c then S (count_digits l') else 0%nat | [] => 0%nat end.

(** The text collected in [digits] (100 bytes that start with whatever is on the
    stack): [inl] is the error code, [inr] the array, its count and the scale. *)
Definition collect_digits (stack p : list Z) (prec sc Scale : Z) : Z + (list Z * Z * Z) :=
  let dot := strchr p ($".") in
  let too_long := match dot with Some i => (0 <? prec) && (prec <? Z.of_nat i) | None => false end in
  if too_long then inl (Z.of_nat MADB_ERR_22003)
  else
    match dot, 0 <? sc with
    | Some i, true =>
        let frac := drop (S i) p in
        let '(_, sig) := count_fraction frac 0 0 in
        if (prec <? Z.of_nat i + sc) && existsb (fun c => negb (c =? $"0")) (take sig frac) then
          inl (Z.of_nat MADB_ERR_22003)
        else
          let d1 := blit (blit stack 0 (take i p)) i (take sig frac) in
          if Z.of_nat sig <? sc then
            let stop := Z.to_nat (Z.min prec (Z.of_nat i + sc)) in
            inr (fill d1 (i + sig) (stop - (i + sig)) ($"0"), Z.of_nat i + sc, sc)
          else inr (d1, Z.of_nat i + Z.of_nat sig, sc)
    | _, _ =>
        let n := count_digits p in
        if prec <? Z.of_nat n then inl (Z.of_nat MADB_ERR_22003)
        else inr (blit stack 0 (take n p), Z.of_nat n, wraps 8 Scale)
    end.

(** The rounding for a negative scale, on 64-bit integers. *)
Definition round_digits (digits : list Z) (count prec sc : Z) : Z + (list Z * Z) :=
  if sc <? 0 then
    let RoundNumber := 10 ^ (- sc) in
    let d1 := <[Z.to_nat prec := 0]> digits in
    let Val := strtol (cstr d1) in
    let Val' := Z.quot (Val + Z.quot RoundNumber 2) RoundNumber * RoundNumber in
    if negb (Val =? Val') then inl (Z.of_nat MADB_ERR_22003)
    else
      let d2 := blit d1 0 (dec Val' ++ [0]) in
      if prec <? Z.of_nat (length (dec Val')) then inl (Z.of_nat MADB_ERR_22003)
      else inr (d2, Z.of_nat (length (dec Val')))
  else inr (digits, count).

(** [MADB_CharToSQLNumeric] into [dst]; the result code and the structure.
    [Precision] and [Scale] are those of the descriptor record. *)
Definition MADB_CharToSQLNumeric (stack : list Z) (buffer : option (list Z)) (Precision Scale : Z)
    (dst : option SQL_NUMERIC_STRUCT) : Z * option SQL_NUMERIC_STRUCT :=
  match buffer, dst with
  | Some b, Some dst0 =>
      let p := trim b in
      let n0 := MADB_NumericInit Precision Scale dst0 in
      let neg := rd p 0 =? $"-" in
      let p1 := if neg then drop 1 p else p in
      let sg := if neg then 0 else 1 in
      match p1 with
      | [] => (0, Some (MkNumeric (precision n0) (scale n0) sg (val n0)))
      | _ =>
          let prec := if precision n0 =? 0 then MADB_DEFAULT_PRECISION else precision n0 in
          let n1 := MkNumeric prec (scale n0) sg (val n0) in
          match skip_zeros p1 with
          | [] => (0, Some n1)
          | p2 =>
              match collect_digits stack p2 prec (scale n0) Scale with
              | inl err => (err, Some n1)
              | inr (digits, count, sc) =>
                  let n2 := MkNumeric prec sc sg (val n0) in
                  match round_digits digits count prec sc with
                  | inl err => (err, Some n2)
                  | inr (digits', count') =>
                      let used := take (Z.to_nat (Z.min count' MADB_DEFAULT_PRECISION)) digits' in
                      (0, Some (MkNumeric prec sc sg (store_digits used (val n0))))
                  end
              end
          end
      end
  | _, _ => (0, dst)
  end.

(** ** Hexadecimal text *)

Definition HexDigits : list Z := chars "0123456789ABCDEF".

(** The two characters of a byte; [None] when the index is outside the array:
    the byte is read as a signed [char]. *)
Definition hex_pair (c : Z) : option (list Z) :=
  let s := schar c in
  let hi := Z.shiftr s 4 in
  if hi <? 0 then None else Some [rd HexDigits (Z.to_nat hi); rd HexDigits (Z.to_nat (Z.land s 15))].

Fixpoint MADB_GetHexString (bin : list Z) (CurrentLength : Z) : option (list Z) :=
  match bin with
  | [] => Some []
  | c :: bin' =>
      if 2 <? CurrentLength then
        match hex_pair c, MADB_GetHexString bin' (CurrentLength - 2) with
        | Some h, Some r => Some (h ++ r)
        | _, _ => None
        end
      else Some []
  end.

(** ** Bind offsets *)

Definition SQL_BIND_BY_COLUMN : Z := 0.

(** [GetBindOffset] on addresses ([None] is NULL): [BindOffset] is the value
    behind [BindOffsetPtr], 0 without one. *)
Definition GetBindOffset (BindType BindOffset : Z) (Ptr : option Z) (RowNumber PtrSize : Z) : option Z :=
  match Ptr with
  | None => None
  | Some a =>
      let step := if BindType =? SQL_BIND_BY_COLUMN then PtrSize * RowNumber else BindType * RowNumber in
      Some (wrapu 64 (a + wrapu 64 (BindOffset + step)))
  end.

(** [MADB_ColumnIgnoredInAllRows]: [mem] reads an indicator of the application. *)
Fixpoint ignored_loop (mem : Z -> Z) (BindType BindOffset : Z) (IndicatorPtr : option Z) (row : Z) (n : nat) : bool :=
  match n with
  | O => true
  | S n' =>
      match GetBindOffset BindType BindOffset IndicatorPtr row 8 with
      | None => false
      | Some a =>
          if mem a =? SQL_COLUMN_IGNORE then ignored_loop mem BindType BindOffset IndicatorPtr (row + 1) n'
          else false
      end
  end.

Definition MADB_ColumnIgnoredInAllRows (mem : Z -> Z) (BindType BindOffset : Z) (IndicatorPtr : option Z)
    (ArraySize : nat) : bool :=
  ignored_loop mem BindType BindOffset IndicatorPtr 0 ArraySize.

End Numeric.

(** ** Properties *)

Module NumericProps.
Import Numeric.

(** The number a list of digit characters stands for, and a byte list. *)
Fixpoint dval (l : list Z) : Z :=
  match l with [] => 0 | d :: l' => (d - 48) * 10 ^ Z.of_nat (length l') + dval l' end.

Fixpoint le_value (l : list Z) : Z :=
  match l with [] => 0 | b :: l' => b + 256 * le_value l' end.

Lemma dval_bound l : digit_list l -> 0 <= dval l < 10 ^ Z.of_nat (length l).
Proof.
  induction 1 as [|d l Hd _ IH]; cbn [dval length]; [lia|]. apply isdigit_range in Hd.
  rewrite Nat2Z.inj_succ, Z.pow_succ_r by lia. nia.
Qed.

(** One pass halves the number; without leading zeros to drop it keeps the
    length, and what it leaves of a number is empty or starts with a digit that
    is not zero. *)
Lemma half_pass_spec l : forall dig lead, digit_list l -> 0 <= dig <= 1 ->
  let '(r, rem) := half_pass dig lead l in
  digit_list r /\ 0 <= rem <= 1 /\ dig * 10 ^ Z.of_nat (length l) + dval l = 2 * dval r + rem /\
  (lead = false -> length r = length l).
Proof.
  induction l as [|d l IH]; intros dig lead HF Hd; cbn [half_pass].
  { split_and!; try done; cbn; lia. }
  apply Forall_cons in HF as [Hdd HF]. apply isdigit_range in Hdd.
  set (tv := dig * 10 + d - 48). assert (0 <= tv < 20) as Htv by (subst tv; lia).
  pose proof (Z.quot_rem tv 2 ltac:(lia)) as Hqr. pose proof (Z.rem_bound_pos tv 2 ltac:(lia) ltac:(lia)) as Hrb.
  assert (0 <= Z.quot tv 2 <= 9) as Hq by lia.
  specialize (IH (Z.rem tv 2) (lead && (tv <? 2)) HF ltac:(lia)).
  destruct (half_pass (Z.rem tv 2) (lead && (tv <? 2)) l) as [r rem]. destruct IH as (H1 & H2 & H3 & H4).
  cbn [dval length]. rewrite Nat2Z.inj_succ, Z.pow_succ_r by lia.
  assert (dig * (10 * 10 ^ Z.of_nat (length l)) + ((d - 48) * 10 ^ Z.of_nat (length l) + dval l)
          = 2 * (Z.quot tv 2 * 10 ^ Z.of_nat (length l)) + (Z.rem tv 2 * 10 ^ Z.of_nat (length l) + dval l)) as E
    by (subst tv; nia).
  destruct (lead && (tv <? 2)) eqn:Es.
  - apply andb_true_iff in Es as [-> Et]. apply Z.ltb_lt in Et. split; [done|split; [done|split; [|done]]].
    assert (Z.quot tv 2 = 0) as Eq by lia. rewrite E, Eq. lia.
  - split; [|split; [done|split]].
    + constructor; [apply isdigit_range; lia|done].
    + cbn [dval length]. rewrite (H4 eq_refl). rewrite E. lia.
    + intros _. cbn [length]. by rewrite H4.
Qed.

Lemma half_pass_lead l : forall dig, digit_list l -> 0 <= dig <= 1 ->
  fst (half_pass dig true l) <> [] -> 0 < dval (fst (half_pass dig true l)).
Proof.
  induction l as [|d l IH]; intros dig HF Hd; cbn [half_pass]; [done|].
  apply Forall_cons in HF as [Hdd HF]. apply isdigit_range in Hdd.
  set (tv := dig * 10 + d - 48). assert (0 <= tv < 20) as Htv by (subst tv; lia).
  pose proof (Z.rem_bound_pos tv 2 ltac:(lia) ltac:(lia)) as Hrb.
  cbn [andb]. destruct (Z.ltb_spec tv 2) as [Ht|Ht].
  - specialize (IH (Z.rem tv 2) HF ltac:(lia)). by destruct (half_pass (Z.rem tv 2) true l).
  - pose proof (half_pass_spec l (Z.rem tv 2) false HF ltac:(lia)) as H.
    destruct (half_pass (Z.rem tv 2) false l) as [r rem]. cbn [fst]. destruct H as (H1 & _). intros _. cbn [dval].
    pose proof (dval_bound r H1). pose proof (Z.quot_rem tv 2 ltac:(lia)).
    assert (1 <= Z.quot tv 2) by lia. nia.
Qed.

Lemma lor_pow2_add a k : 0 <= k -> 0 <= a < 2 ^ k -> Z.lor a (2 ^ k) = a + 2 ^ k.
Proof.
  intros Hk Ha.
  assert (Z.land a (2 ^ k) = 0) as H.
  { apply Z.bits_inj'. intros n Hn. rewrite Z.land_spec, Z.bits_0, Z.pow2_bits_eqb by lia.
    destruct (Z.eqb_spec k n) as [<-|]; [|by rewrite andb_false_r]. rewrite andb_true_r.
    destruct (Z.eq_dec a 0) as [->|]; [apply Z.bits_0|]. apply Z.bits_above_log2; [lia|]. apply Z.log2_lt_pow2; lia. }
  rewrite Z.add_nocarry_lxor by done. symmetry. by apply Z.lxor_lor.
Qed.

Lemma le_value_insert w : forall o h, w !! o = Some 0 -> le_value (<[o := h]> w) = le_value w + h * 256 ^ Z.of_nat o.
Proof.
  induction w as [|b w IH]; intros [|o] h Hl; try done.
  - injection Hl as ->. cbn. lia.
  - change (<[S o:=h]> (b :: w)) with (b :: <[o:=h]> w). cbn [le_value]. cbn in Hl. rewrite (IH o h Hl).
    rewrite Nat2Z.inj_succ, Z.pow_succ_r by lia. lia.
Qed.

(** The state of the outer loop after [8 * olen + k] divisions. *)
Record bits_inv (hval k : Z) (olen : nat) (v : list Z) : Prop := {
  bi_k : 0 <= k < 8;
  bi_h : 0 <= hval < 2 ^ k;
  bi_o : (olen < 15)%nat;
  bi_len : length v = 16%nat;
  bi_v : 0 <= le_value v < 256 ^ Z.of_nat olen;
  bi_rest : forall i, (olen <= i < 16)%nat -> v !! i = Some 0;
}.

Definition bits_result (total : Z) (r : Z * nat * list Z) : Prop :=
  let '(hval, olen, v) := r in
  le_value v + hval * 256 ^ Z.of_nat olen = total mod 2 ^ 120 /\ length v = 16%nat /\
  (hval <> 0 -> (olen < 15)%nat /\ v !! olen = Some 0).

Lemma pow256 n : 256 ^ Z.of_nat n = 2 ^ (8 * Z.of_nat n).
Proof. rewrite Z.pow_mul_r by lia. done. Qed.

Lemma bits_inv_small hval k olen v : bits_inv hval k olen v ->
  0 <= le_value v + hval * 256 ^ Z.of_nat olen < 2 ^ (8 * Z.of_nat olen + k).
Proof.
  intros [Hk Hh Ho Hl Hv Hr]. rewrite Z.pow_add_r, <- pow256 by lia. nia.
Qed.

Lemma bits_loop_spec fuel : forall digits hval k olen v, digit_list digits -> bits_inv hval k olen v ->
  (120 - (8 * Z.of_nat olen + k) < Z.of_nat fuel) ->
  bits_result (le_value v + hval * 256 ^ Z.of_nat olen + 2 ^ (8 * Z.of_nat olen + k) * dval digits)
    (bits_loop fuel digits hval (2 ^ k) olen v).
Proof.
  induction fuel as [|fuel IH]; intros digits hval k olen v HF Hi Hf.
  { destruct Hi as [? ? ? _ _ _]. lia. }
  pose proof (bits_inv_small _ _ _ _ Hi) as Hs. pose proof Hi as [Hk Hh Ho Hl Hv Hr].
  assert (2 ^ (8 * Z.of_nat olen + k) <= 2 ^ 120) as Hp by (apply Z.pow_le_mono_r; lia).
  cbn [bits_loop]. destruct digits as [|d digits].
  { cbn [dval]. rewrite Z.mul_0_r, Z.add_0_r. unfold bits_result. rewrite Z.mod_small by lia.
    split; [done|split; [done|]]. intros _. split; [done|]. apply Hr. lia. }
  pose proof (half_pass_spec (d :: digits) 0 true HF ltac:(lia)) as Hhp.
  destruct (half_pass 0 true (d :: digits)) as [r rem]. destruct Hhp as (HFr & Hrem & Eval & _).
  rewrite Z.mul_0_l, Z.add_0_l in Eval.
  assert ((if 0 <? rem then Z.lor hval (2 ^ k) else hval) = hval + rem * 2 ^ k) as Eh.
  { destruct (Z.ltb_spec 0 rem); [|nia]. assert (rem = 1) as -> by lia. rewrite lor_pow2_add by lia. lia. }
  rewrite Eh. rewrite Z.shiftl_mul_pow2 by lia. change (2 ^ 1) with 2.
  assert (2 ^ (k + 1) = 2 ^ k * 2) as Ek by (rewrite Z.pow_add_r by lia; done).
  assert (0 <= hval + rem * 2 ^ k < 2 ^ (k + 1)) as Hh' by nia.
  set (total := le_value v + hval * 256 ^ Z.of_nat olen + 2 ^ (8 * Z.of_nat olen + k) * dval (d :: digits)).
  assert (total = le_value v + (hval + rem * 2 ^ k) * 256 ^ Z.of_nat olen
                  + 2 ^ (8 * Z.of_nat olen + (k + 1)) * dval r) as Et.
  { subst total. rewrite Eval, Z.add_assoc, (Z.pow_add_r 2 (8 * Z.of_nat olen + k) 1) by lia.
    rewrite (Z.pow_add_r 2 (8 * Z.of_nat olen) k) by lia. rewrite <- pow256. ring. }
  rewrite Et. rewrite <- Ek. destruct (Z.leb_spec 256 (2 ^ (k + 1))) as [H8|H8].
  - assert (k = 7) as ->.
    { destruct (Z.eq_dec k 7); [done|]. assert (2 ^ (k + 1) < 2 ^ 8) by (apply Z.pow_lt_mono_r; lia). lia. }
    assert (le_value (<[olen := hval + rem * 2 ^ 7]> v) = le_value v + (hval + rem * 2 ^ 7) * 256 ^ Z.of_nat olen) as Ev
      by (apply le_value_insert, Hr; lia).
    assert (8 * Z.of_nat olen + (7 + 1) = 8 * Z.of_nat (S olen)) as E8 by lia. rewrite E8, <- pow256, <- Ev.
    assert (0 <= le_value (<[olen := hval + rem * 2 ^ 7]> v) < 256 ^ Z.of_nat (S olen)) as Hb
      by (rewrite Ev, Nat2Z.inj_succ, Z.pow_succ_r by lia; nia).
    change (SQL_MAX_NUMERIC_LEN - 1)%nat with 15%nat.
    destruct (Nat.leb_spec 15 (S olen)) as [H15|H15].
    + assert (olen = 14%nat) as -> by lia. unfold bits_result. rewrite length_insert.
      split_and!; [|done|done]. change (256 ^ Z.of_nat 15) with (2 ^ 120) in *.
      rewrite Z.mul_0_l, Z.add_0_r, (Z.mul_comm (2 ^ 120)), Z_mod_plus_full by lia. by rewrite Z.mod_small by lia.
    + assert (bits_inv 0 0 (S olen) (<[olen := hval + rem * 2 ^ 7]> v)) as Hi'.
      { constructor; try done; try lia; [by rewrite length_insert|].
        intros i Hi'. rewrite list_lookup_insert_ne by lia. apply Hr. lia. }
      specialize (IH r 0 0 (S olen) (<[olen := hval + rem * 2 ^ 7]> v) HFr Hi' ltac:(lia)).
      rewrite Z.mul_0_l, !Z.add_0_r, <- pow256 in IH. exact IH.
  - apply IH; [done| |lia]. constructor; try done; try lia.
    assert (2 ^ (k + 1) < 2 ^ 8) by done. apply Z.pow_lt_mono_r_iff in H; lia.
Qed.

Lemma store_digits_value l : digit_list l ->
  le_value (store_digits l (replicate 16 0)) = dval l mod 2 ^ 120.
Proof.
  intros HF. unfold store_digits.
  assert (bits_inv 0 0 0 (replicate 16 0)) as Hi.
  { constructor; try done; try lia; try (cbn; lia). intros i Hi. apply lookup_replicate. split; [done|lia]. }
  pose proof (bits_loop_spec 121 l 0 0 0 (replicate 16 0) HF Hi ltac:(lia)) as H.
  change (2 ^ 0) with 1 in H. change (le_value (replicate 16 0)) with 0 in H.
  replace (0 + 0 * 256 ^ Z.of_nat 0 + 2 ^ (8 * Z.of_nat 0 + 0) * dval l) with (dval l) in H by (cbn; lia).
  destruct (bits_loop 121 l 0 1 0 (replicate 16 0)) as [[hval olen] v]. destruct H as (H1 & H2 & H3).
  change (SQL_MAX_NUMERIC_LEN - 1)%nat with 15%nat. rewrite <- H1.
  destruct (Z.eqb_spec hval 0) as [->|Hne]; cbn [negb andb]; [lia|].
  destruct (H3 Hne) as [Ho Hz]. destruct (Nat.ltb_spec olen 15); [|lia]. by apply le_value_insert.
Qed.

(** *** The text around the digits *)

Lemma trim_nospace l : Forall (fun c => isspace c = false) l -> trim l = l.
Proof.
  intros HF. assert (forall k, Forall (fun c => isspace c = false) k -> ltrim k = k) as Hl.
  { intros k Hk. apply ltrim_id. destruct Hk as [|c k Hc _]; [done|exact Hc]. }
  unfold trim, rtrim. rewrite (Hl l HF), Hl; [apply reverse_involutive|].
  by rewrite reverse_Permutation.
Qed.

Lemma dval_app a b : dval (a ++ b) = dval a * 10 ^ Z.of_nat (length b) + dval b.
Proof.
  induction a as [|d a IH]; cbn [app dval]; [lia|]. rewrite IH, length_app, Nat2Z.inj_add, Z.pow_add_r by lia. ring.
Qed.

Lemma dval_zeros n : dval (replicate n 48) = 0.
Proof. induction n as [|n IH]; cbn [replicate dval]; [done|]. rewrite IH. lia. Qed.

Lemma blit_next a rest src : (length src <= length rest)%nat ->
  blit (a ++ rest) (length a) src = (a ++ src) ++ drop (length src) rest.
Proof.
  intros H. unfold blit. rewrite take_app_length, length_app, take_ge by lia.
  rewrite drop_app_ge by lia. rewrite <- app_assoc. do 3 f_equal. lia.
Qed.

Lemma fill_next a rest n c : (n <= length rest)%nat ->
  fill (a ++ rest) (length a) n c = (a ++ replicate n c) ++ drop n rest.
Proof.
  intros H. unfold fill. rewrite take_app_length, length_app, Nat.min_l by lia.
  rewrite drop_app_ge by lia. rewrite <- app_assoc. do 3 f_equal. lia.
Qed.

(** Behind the significant digits of a fraction there are only zeros. *)
Lemma count_fraction_spec F : forall total sig, digit_list F -> (sig <= total)%nat ->
  let '(t, s) := count_fraction F total sig in
  t = (total + length F)%nat /\ (sig <= s <= t)%nat /\ (s = sig \/ (total < s)%nat) /\
  (exists k, drop (s - total) F = replicate k 48).
Proof.
  induction F as [|c F IH]; intros total sig HF Hs; cbn [count_fraction].
  { split_and!; try (cbn; lia). exists 0%nat. by rewrite drop_nil. }
  apply Forall_cons in HF as [Hc HF]. rewrite Hc.
  destruct (Z.eqb_spec c ($"0")) as [->|Hne].
  - specialize (IH (S total) sig HF ltac:(lia)). destruct (count_fraction F (S total) sig) as [t s].
    destruct IH as (-> & H2 & H3 & k & H4). split_and!; try (cbn; lia).
    destruct (decide (s <= total)%nat).
    + exists (S k). replace (s - S total)%nat with 0%nat in H4 by lia. replace (s - total)%nat with 0%nat by lia.
      cbn. by rewrite <- H4.
    + exists k. by replace (s - total)%nat with (S (s - S total)) by lia.
  - specialize (IH (S total) (S total) HF ltac:(lia)). destruct (count_fraction F (S total) (S total)) as [t s].
    destruct IH as (-> & H2 & H3 & k & H4). split_and!; try (cbn; lia).
    exists k. by replace (s - total)%nat with (S (s - S total)) by lia.
Qed.

(** The last significant digit is not zero. *)
Lemma count_fraction_last F : forall total sig, digit_list F ->
  snd (count_fraction F total sig) = sig \/
  (total < snd (count_fraction F total sig))%nat /\
  exists d, F !! (snd (count_fraction F total sig) - S total)%nat = Some d /\ d <> $"0".
Proof.
  induction F as [|c F IH]; intros total sig HF; cbn [count_fraction]; [by left|].
  apply Forall_cons in HF as [Hc HF]. rewrite Hc. destruct (Z.eqb_spec c ($"0")) as [->|Hne].
  - destruct (IH (S total) sig HF) as [H|(H1 & d & H2 & H3)]; [by left|]. right. split; [lia|].
    exists d. split; [|done]. by replace (_ - S total)%nat with (S (snd (count_fraction F (S total) sig) - S (S total)))
      by lia.
  - right. destruct (IH (S total) (S total) HF) as [->|(H1 & d & H2 & H3)].
    + split; [lia|]. exists c. split; [|done]. by rewrite Nat.sub_diag.
    + split; [lia|]. exists d. split; [|done].
      by replace (_ - S total)%nat with (S (snd (count_fraction F (S total) (S total)) - S (S total))) by lia.
Qed.

Lemma significant_last F : digit_list F -> (0 < snd (count_fraction F 0 0))%nat ->
  exists d, F !! (snd (count_fraction F 0 0) - 1)%nat = Some d /\ d <> $"0".
Proof. intros HF H. destruct (count_fraction_last F 0 0 HF) as [?|[_ ?]]; [lia|done]. Qed.

Lemma strchr_dot I r : digit_list I -> strchr (I ++ $"." :: r) ($".") = Some (length I).
Proof.
  induction 1 as [|c I Hc _ IH]; cbn [app strchr]; [by rewrite Z.eqb_refl|].
  destruct (Z.eqb_spec c ($".")) as [->|]; [done|]. by rewrite IH.
Qed.

(** The digits kept of [I.F] at scale [sc]: the integer part, the fraction up to
    its last digit that is not zero, and zeros up to the scale. *)
Definition kept_digits (I F : list Z) (sc : nat) : list Z :=
  let sig := snd (count_fraction F 0 0) in I ++ take sig F ++ replicate (sc - sig) 48.

Lemma significant_le F : digit_list F -> (snd (count_fraction F 0 0) <= length F)%nat.
Proof.
  intros HF. pose proof (count_fraction_spec F 0 0 HF ltac:(lia)) as Hc.
  destruct (count_fraction F 0 0) as [t s]. destruct Hc as (-> & ? & _). cbn. lia.
Qed.

Lemma kept_digits_length I F sc : digit_list F ->
  length (kept_digits I F sc) = (length I + Nat.max (snd (count_fraction F 0 0)) sc)%nat.
Proof.
  intros HF. pose proof (significant_le F HF). unfold kept_digits.
  rewrite !length_app, length_take, length_replicate. lia.
Qed.

Lemma kept_digits_digits I F sc : digit_list I -> digit_list F -> digit_list (kept_digits I F sc).
Proof.
  intros HI HF. apply Forall_app. split; [done|]. apply Forall_app.
  split; [by apply Forall_take|by apply Forall_replicate].
Qed.

Lemma collect_digits_dot stack I F sc prec Scale :
  digit_list I -> digit_list F -> (0 < sc)%nat -> (length I + sc <= prec)%nat ->
  (prec <= length stack)%nat -> (length I + length F <= length stack)%nat ->
  exists rest, collect_digits stack (I ++ $"." :: F) (Z.of_nat prec) (Z.of_nat sc) Scale
    = inr (kept_digits I F sc ++ rest, Z.of_nat (length (kept_digits I F sc)), Z.of_nat sc).
Proof.
  intros HI HF H0 H2 H3 H4. rewrite kept_digits_length by done. pose proof (significant_le F HF) as Hsig.
  unfold collect_digits, kept_digits. rewrite strchr_dot by done.
  destruct (Z.ltb_spec (Z.of_nat prec) (Z.of_nat (length I))); [lia|]. rewrite andb_false_r.
  destruct (Z.ltb_spec 0 (Z.of_nat sc)); [|lia].
  assert (drop (S (length I)) (I ++ $"." :: F) = F) as ->
    by (rewrite drop_app_ge by lia; by replace (S (length I) - length I)%nat with 1%nat by lia).
  destruct (count_fraction F 0 0) as [t sig]. cbn [snd] in *.
  destruct (Z.ltb_spec (Z.of_nat prec) (Z.of_nat (length I) + Z.of_nat sc)); [lia|]. cbn [andb].
  rewrite take_app_length.
  pose proof (blit_next [] stack I ltac:(lia)) as B1. cbn [app length] in B1. rewrite B1.
  rewrite blit_next by (rewrite length_take, length_drop; lia).
  set (rest := drop (length (take sig F)) (drop (length I) stack)).
  assert (length (I ++ take sig F) = length I + sig)%nat as HL by (rewrite length_app, length_take; lia).
  destruct (Z.ltb_spec (Z.of_nat sig) (Z.of_nat sc)) as [Hlt|Hge].
  - rewrite Z.min_r by lia. exists (drop (sc - sig) rest). rewrite <- HL.
    replace (Z.to_nat (Z.of_nat (length I) + Z.of_nat sc) - length (I ++ take sig F))%nat with (sc - sig)%nat by lia.
    rewrite fill_next; [|subst rest; rewrite !length_drop, length_take; lia].
    change ($"0") with 48. rewrite <- (app_assoc I). do 2 f_equal. f_equal. lia.
  - replace (sc - sig)%nat with 0%nat by lia. cbn [replicate]. rewrite app_nil_r.
    exists rest. do 2 f_equal. f_equal. lia.
Qed.

(** Behind the integer digits comes nothing or a point and the fraction. *)
Definition point_text (F : option (list Z)) : list Z := match F with Some f => $"." :: f | None => [] end.
Definition fraction_digits (F : option (list Z)) : list Z := match F with Some f => f | None => [] end.

(** A decimal text: a sign, [z] leading zeros, the integer digits and the fraction. *)
Definition decimal_text (neg : bool) (z : nat) (I : list Z) (F : option (list Z)) : list Z :=
  (if neg then [$"-"] else []) ++ replicate z ($"0") ++ I ++ point_text F.

(** The digits behind the point up to the last that is not zero. *)
Definition significant (F : option (list Z)) : nat := snd (count_fraction (fraction_digits F) 0 0).

Lemma count_digits_int I F : digit_list I -> count_digits (I ++ point_text F) = length I.
Proof. induction 1 as [|c I Hc _ IH]; [by destruct F|]. cbn [app count_digits length]. by rewrite Hc, IH. Qed.

Lemma strchr_nodot I : digit_list I -> strchr I ($".") = None.
Proof.
  induction 1 as [|c I Hc _ IH]; [done|]. cbn [strchr].
  destruct (Z.eqb_spec c ($".")) as [->|]; [done|]. by rewrite IH.
Qed.

(** Without a point, or at scale 0, the integer digits alone are kept. *)
Lemma collect_digits_int stack I F sc prec :
  digit_list I -> F = None \/ sc = 0%nat -> (length I <= prec)%nat -> (prec <= length stack)%nat -> (sc < 128)%nat ->
  exists rest, collect_digits stack (I ++ point_text F) (Z.of_nat prec) (Z.of_nat sc) (Z.of_nat sc)
    = inr (I ++ rest, Z.of_nat (length I), Z.of_nat sc).
Proof.
  intros HI HF Hp Hs H128. exists (drop (length I) stack). unfold collect_digits.
  rewrite count_digits_int by done. rewrite wraps_id by (cbn; lia).
  pose proof (blit_next [] stack I ltac:(lia)) as B. cbn [app length] in B.
  assert (take (length I) (I ++ point_text F) = I) as -> by apply take_app_length.
  rewrite B. destruct (Z.ltb_spec (Z.of_nat prec) (Z.of_nat (length I))); [lia|].
  destruct F as [f|]; cbn [point_text].
  - destruct HF as [?| ->]; [done|]. rewrite strchr_dot by done.
    destruct (Z.ltb_spec (Z.of_nat prec) (Z.of_nat (length I))); [lia|]. by rewrite andb_false_r.
  - rewrite app_nil_r, strchr_nodot by done. reflexivity.
Qed.

(** More digits than the precision is error 22003. *)
Lemma collect_digits_error stack I F prec sc Scale : digit_list I -> digit_list (fraction_digits F) -> (0 < prec)%nat ->
  (prec < length I)%nat \/ (0 < significant F /\ 0 < sc /\ prec < length I + sc)%nat ->
  collect_digits stack (I ++ point_text F) (Z.of_nat prec) (Z.of_nat sc) Scale = inl (Z.of_nat MADB_ERR_22003).
Proof.
  intros HI HF H0 H. unfold collect_digits. rewrite count_digits_int by done.
  destruct F as [f|]; cbn [point_text fraction_digits] in *.
  2:{ rewrite app_nil_r, strchr_nodot by done. destruct H as [H|[H _]]; [|cbn in H; lia].
      by destruct (Z.ltb_spec (Z.of_nat prec) (Z.of_nat (length I))); [|lia]. }
  rewrite strchr_dot by done. destruct (Z.ltb_spec 0 (Z.of_nat prec)); [|lia].
  destruct (Z.ltb_spec (Z.of_nat prec) (Z.of_nat (length I))); [done|]. cbn [andb].
  destruct H as [?|(Hsig & Hsc & Hp)]; [lia|]. destruct (Z.ltb_spec 0 (Z.of_nat sc)); [|lia].
  assert (drop (S (length I)) (I ++ $"." :: f) = f) as ->
    by (rewrite drop_app_ge by lia; by replace (S (length I) - length I)%nat with 1%nat by lia).
  pose proof (significant_last f HF Hsig) as (d & Hd & Hd0). unfold significant, fraction_digits in *. cbn in Hsig.
  destruct (count_fraction f 0 0) as [t sig]. cbn [snd] in *.
  destruct (Z.ltb_spec (Z.of_nat prec) (Z.of_nat (length I) + Z.of_nat sc)); [|lia].
  replace (existsb _ _) with true; [done|]. symmetry. apply existsb_exists. exists d. split.
  - apply list_elem_of_In, list_elem_of_lookup. exists (sig - 1)%nat. rewrite lookup_take_lt by lia. done.
  - apply negb_true_iff. by apply Z.eqb_neq.
Qed.

Lemma decimal_text_trim neg z I F : digit_list I -> digit_list (fraction_digits F) ->
  trim (decimal_text neg z I F) = decimal_text neg z I F.
Proof.
  intros HI HF. apply trim_nospace. unfold decimal_text. apply Forall_app. split; [destruct neg; by repeat constructor|].
  assert (forall l, digit_list l -> Forall (fun c => isspace c = false) l) as H
    by (intros l Hl; eapply Forall_impl; [exact Hl|]; intros c Hc; by apply isdigit_plain in Hc as [? _]).
  apply Forall_app. split; [by apply Forall_replicate|]. apply Forall_app. split; [by apply H|].
  destruct F; [|constructor]. constructor; [done|by apply H].
Qed.

(** *** The number *)

Lemma significant_value I F : digit_list F ->
  dval (I ++ F) = dval (I ++ take (snd (count_fraction F 0 0)) F)
    * 10 ^ (Z.of_nat (length F) - Z.of_nat (snd (count_fraction F 0 0))).
Proof.
  intros HF. pose proof (significant_le F HF) as Hle.
  pose proof (count_fraction_spec F 0 0 HF ltac:(lia)) as Hc.
  destruct (count_fraction F 0 0) as [t s]. cbn [snd] in *. destruct Hc as (_ & _ & _ & k & Hk).
  rewrite Nat.sub_0_r in Hk. rewrite <- (take_drop s F) at 1. rewrite Hk, app_assoc, dval_app, dval_zeros, length_replicate.
  apply (f_equal length) in Hk. rewrite length_drop, length_replicate in Hk.
  rewrite Z.add_0_r. do 2 f_equal. lia.
Qed.

(** The digits kept stand for the number at the scale when the fraction fits it. *)
Lemma kept_digits_value I F sc : digit_list F -> (snd (count_fraction F 0 0) <= sc)%nat ->
  dval (kept_digits I F sc) * 10 ^ Z.of_nat (length F) = dval (I ++ F) * 10 ^ Z.of_nat sc.
Proof.
  intros HF Hsc. rewrite significant_value by done. pose proof (significant_le F HF) as Hle. unfold kept_digits.
  rewrite app_assoc, dval_app, dval_zeros, length_replicate. set (sig := snd _) in *.
  replace (Z.of_nat sc) with (Z.of_nat sig + Z.of_nat (sc - sig)) by lia.
  replace (Z.of_nat (length F)) with (Z.of_nat sig + (Z.of_nat (length F) - Z.of_nat sig)) at 1 by lia.
  rewrite !Z.pow_add_r by lia. ring.
Qed.

(** With more significant fraction digits than the scale no mantissa is right. *)
Lemma inexact_value I F sc m : digit_list F -> (sc < snd (count_fraction F 0 0))%nat ->
  m * 10 ^ Z.of_nat (length F) <> dval (I ++ F) * 10 ^ Z.of_nat sc.
Proof.
  intros HF Hsc. rewrite significant_value by done. pose proof (significant_le F HF) as Hle.
  destruct (significant_last F HF ltac:(lia)) as (d & Hd & Hd0).
  assert (Hdd : isdigit d = true) by (exact (Forall_lookup_1 _ F _ d HF Hd)). apply isdigit_range in Hdd.
  set (sig := snd _) in *. replace sig with (S (sig - 1)) at 1 by lia.
  rewrite (take_S_r _ _ _ Hd), app_assoc, dval_app. set (X := dval (I ++ take (sig - 1) F)).
  cbn [dval length]. change (10 ^ Z.of_nat 1) with 10. change (10 ^ Z.of_nat 0) with 1. intros E.
  replace (Z.of_nat (length F)) with (Z.of_nat sc + (1 + Z.of_nat (sig - sc - 1))
    + (Z.of_nat (length F) - Z.of_nat sig)) in E at 1 by lia.
  rewrite !Z.pow_add_r in E by lia. change (10 ^ 1) with 10 in E.
  set (P := 10 ^ Z.of_nat sc) in *. set (Q := 10 ^ (Z.of_nat (length F) - Z.of_nat sig)) in *.
  set (R := 10 ^ Z.of_nat (sig - sc - 1)) in *.
  assert (0 < P * Q) as HPQ by (subst P Q; apply Z.mul_pos_pos; apply Z.pow_pos_nonneg; lia).
  assert ((m * (10 * R)) * (P * Q) = (X * 10 + ((d - 48) * 1 + 0)) * (P * Q)) as E2 by lia.
  apply Z.mul_cancel_r in E2; [|lia]. change ($"0") with 48 in Hd0. lia.
Qed.

(** No integer digits, or a first one that is not zero. *)
Definition no_leading_zero (I : list Z) : bool := match I with c :: _ => negb (c =? $"0") | [] => true end.

Lemma skip_zeros_text z I F : no_leading_zero I = true ->
  skip_zeros (replicate z ($"0") ++ I ++ point_text F) = I ++ point_text F.
Proof.
  intros H. induction z as [|z IH]; cbn [replicate app skip_zeros]; [|done].
  destruct I as [|c I]; [by destruct F|]. cbn [app skip_zeros]. apply negb_true_iff in H. by rewrite H.
Qed.

(** What [MADB_CharToSQLNumeric] does with a decimal text, down to the digits. *)
Lemma CharToSQLNumeric_text stack neg z I F prec sc dst :
  digit_list I -> digit_list (fraction_digits F) -> no_leading_zero I = true -> (0 < prec <= 38)%nat -> (sc < 128)%nat ->
  MADB_CharToSQLNumeric stack (Some (decimal_text neg z I F)) (Z.of_nat prec) (Z.of_nat sc) (Some dst) =
  let zero := replicate 16 0 in
  let num v := Some (MkNumeric (Z.of_nat prec) (Z.of_nat sc) (if neg then 0 else 1) v) in
  if decide (I ++ point_text F = []) then (0, num zero)
  else match collect_digits stack (I ++ point_text F) (Z.of_nat prec) (Z.of_nat sc) (Z.of_nat sc) with
  | inl e => (e, num zero)
  | inr (digits, count, sc') =>
      match round_digits digits count (Z.of_nat prec) sc' with
      | inl e => (e, Some (MkNumeric (Z.of_nat prec) sc' (if neg then 0 else 1) zero))
      | inr (digits', count') =>
          (0, Some (MkNumeric (Z.of_nat prec) sc' (if neg then 0 else 1)
            (store_digits (take (Z.to_nat (Z.min count' 38)) digits') zero)))
      end
  end.
Proof.
  intros HI HF Hnz Hp Hsc. unfold MADB_CharToSQLNumeric. rewrite decimal_text_trim by done.
  unfold MADB_NumericInit. cbn [precision scale val]. rewrite wrapu_id, wraps_id by (cbn; lia).
  set (body := replicate z ($"0") ++ I ++ point_text F).
  assert ((rd (decimal_text neg z I F) 0 =? $"-") = neg) as ->.
  { destruct neg; [done|]. unfold decimal_text, rd. cbn [app]. destruct z; [|done]. cbn [replicate app].
    destruct HI as [|c I Hc _]; [by destruct F|]. cbn. by apply isdigit_plain in Hc as (_ & H & _). }
  assert ((if neg then drop 1 (decimal_text neg z I F) else decimal_text neg z I F) = body) as -> by (by destruct neg).
  destruct (Z.eqb_spec (Z.of_nat prec) 0); [lia|]. change MADB_DEFAULT_PRECISION with 38.
  change SQL_MAX_NUMERIC_LEN with 16%nat. cbv zeta.
  assert (skip_zeros body = I ++ point_text F) as Hsk by (by apply skip_zeros_text).
  destruct body as [|c body'] eqn:Eb.
  { cbn in Hsk. by rewrite <- Hsk, decide_True by done. }
  rewrite Hsk. destruct (I ++ point_text F) as [|d r]; [by rewrite decide_True|]. by rewrite decide_False.
Qed.

(** The stored number: the digits kept with a point and a scale, the integer
    digits alone otherwise. *)
Lemma CharToSQLNumeric_stored stack neg z I F prec sc dst :
  digit_list I -> digit_list (fraction_digits F) -> no_leading_zero I = true -> (0 < prec <= 38)%nat ->
  (length I + sc <= prec)%nat -> (length I + length (fraction_digits F) <= 100)%nat -> length stack = 100%nat ->
  exists v, MADB_CharToSQLNumeric stack (Some (decimal_text neg z I F)) (Z.of_nat prec) (Z.of_nat sc) (Some dst)
      = (0, Some (MkNumeric (Z.of_nat prec) (Z.of_nat sc) (if neg then 0 else 1) v)) /\
    le_value v = dval (match F with Some f => if decide (sc = 0%nat) then I else take 38 (kept_digits I f sc)
                       | None => I end) mod 2 ^ 120.
Proof.
  intros HI HF Hnz Hp Hsc H100 Hst. rewrite CharToSQLNumeric_text by (done || lia). cbv zeta.
  destruct (decide (I ++ point_text F = [])) as [He|Hne].
  { apply app_eq_nil in He as [-> He]. destruct F; [done|]. by eexists. }
  assert (exists V rest, collect_digits stack (I ++ point_text F) (Z.of_nat prec) (Z.of_nat sc) (Z.of_nat sc)
      = inr (V ++ rest, Z.of_nat (length V), Z.of_nat sc) /\ digit_list V /\
      take 38 V = match F with Some f => if decide (sc = 0%nat) then I else take 38 (kept_digits I f sc) | None => I end)
    as (V & rest & -> & HV & HVe).
  { destruct F as [f|]; [destruct (decide (sc = 0%nat)) as [Hz|Hz]|].
    - destruct (collect_digits_int stack I (Some f) sc prec) as [rest E]; [done|by right|lia..|].
      exists I, rest. split; [exact E|]. split; [done|]. apply take_ge. lia.
    - destruct (collect_digits_dot stack I f sc prec (Z.of_nat sc)) as [rest E]; [done..|lia|lia|lia|cbn in H100; lia|].
      exists (kept_digits I f sc), rest. split; [exact E|]. split; [|done]. by apply kept_digits_digits.
    - destruct (collect_digits_int stack I None sc prec) as [rest E]; [done|by left|lia..|].
      exists I, rest. split; [exact E|]. split; [done|]. apply take_ge. lia. }
  unfold round_digits. destruct (Z.ltb_spec (Z.of_nat sc) 0); [lia|]. eexists. split; [reflexivity|].
  assert (take (Z.to_nat (Z.min (Z.of_nat (length V)) 38)) (V ++ rest) = take 38 V) as ->.
  { replace (Z.to_nat _) with (Nat.min 38 (length V)) by lia. rewrite take_app_le by lia.
    destruct (Nat.le_ge_cases 38 (length V)); [by rewrite Nat.min_l|]. rewrite Nat.min_r, !take_ge by lia. done. }
  rewrite <- HVe. apply store_digits_value. by apply Forall_take.
Qed.

(** The case analysis on the text: exactly these numbers are stored exactly. *)
Lemma stored_exact_iff I F sc :
  digit_list I -> digit_list (fraction_digits F) -> no_leading_zero I = true -> (length I + sc <= 38)%nat ->
  dval (I ++ fraction_digits F) * 10 ^ Z.of_nat sc < 2 ^ 120 * 10 ^ Z.of_nat (length (fraction_digits F)) ->
  (dval (match F with Some f => if decide (sc = 0%nat) then I else take 38 (kept_digits I f sc) | None => I end)
     mod 2 ^ 120 * 10 ^ Z.of_nat (length (fraction_digits F)) = dval (I ++ fraction_digits F) * 10 ^ Z.of_nat sc
   <-> (F <> None \/ sc = 0%nat \/ I = []) /\ (significant F <= sc)%nat).
Proof.
  intros HI HF Hnz H38 Hbig. set (P := 10 ^ Z.of_nat (length (fraction_digits F))) in *.
  assert (0 < P) as HP by (apply Z.pow_pos_nonneg; lia).
  assert (forall V, digit_list V -> dval V * P = dval (I ++ fraction_digits F) * 10 ^ Z.of_nat sc ->
    dval V mod 2 ^ 120 = dval V) as Hmod.
  { intros V HV E. apply Z.mod_small. pose proof (dval_bound V HV). split; [lia|].
    apply (Z.mul_lt_mono_pos_r P); [done|]. lia. }
  destruct (decide (sc < significant F)%nat) as [Hgt|Hle].
  { split; [|lia]. intros E. exfalso. revert E. by apply inexact_value. }
  destruct F as [f|]; cbn [fraction_digits] in *.
  - pose proof (kept_digits_value I f sc HF ltac:(unfold significant in Hle; cbn in Hle; lia)) as Hv. fold P in Hv.
    assert (length (kept_digits I f sc) = length I + sc)%nat as HL
      by (rewrite kept_digits_length by done; unfold significant in Hle; cbn in Hle; lia).
    split; [intros _; split; [by left|lia]|]. intros _. rewrite take_ge by lia.
    destruct (decide (sc = 0%nat)) as [->|_].
    + assert (kept_digits I f 0 = I) as Hk.
      { rewrite <- (app_nil_r I) at 2. unfold kept_digits. f_equal. apply length_zero_iff_nil.
        unfold kept_digits in HL. rewrite length_app in HL. lia. }
      rewrite Hk in Hv. rewrite (Hmod I HI Hv). exact Hv.
    + rewrite (Hmod _ (kept_digits_digits _ _ _ HI HF) Hv). exact Hv.
  - rewrite app_nil_r in *. subst P. cbn [length] in *. change (10 ^ Z.of_nat 0) with 1 in *. rewrite !Z.mul_1_r in *.
    pose proof (dval_bound I HI) as [Hd0 _]. assert (1 <= 10 ^ Z.of_nat sc) as H10 by (pose proof (Z.pow_pos_nonneg 10 (Z.of_nat sc)); lia).
    rewrite Z.mod_small by nia. split.
    + intros E. split; [|cbn; lia]. right. destruct (decide (sc = 0%nat)); [by left|]. right.
      destruct I as [|c I]; [done|]. exfalso. apply Forall_cons in HI as [Hc HI]. apply isdigit_range in Hc.
      cbn in Hnz. apply negb_true_iff, Z.eqb_neq in Hnz. pose proof (dval_bound I HI). cbn [dval] in E.
      assert (1 <= 10 ^ Z.of_nat (length I)) by (pose proof (Z.pow_pos_nonneg 10 (Z.of_nat (length I))); lia).
      assert (10 <= 10 ^ Z.of_nat sc) by (replace 10 with (10 ^ 1) at 1 by done; apply Z.pow_le_mono_r; lia).
      change ($"0") with 48 in Hnz. nia.
    + intros [[?|[->| ->]] _]; [done|cbn; lia|cbn; lia].
Qed.

(** C36. [MADB_CharToSQLNumeric] on every decimal text (a sign, leading zeros,
    integer digits, a fraction or none) into a numeric of precision 1 to 38 and
    a scale that is not negative. More integer digits than the precision, or a
    fraction that is not zero where the integer digits and the scale exceed the
    precision, is error 22003. Where they fit the precision the call succeeds, keeps
    precision and scale and stores the sign, and the stored magnitude over
    [10 ^ scale] is the number exactly when the fraction has no significant
    digit beyond the scale and, at a scale above zero, the text of a number with
    integer digits has a decimal point: without one the digits are stored
    unscaled. Magnitudes are below [2 ^ 120] and the digits fit [digits[100]]; a
    whole number with no room for its scale is left to
    [MADB_CharToSQLNumeric_uninitialised]. *)
Theorem MADB_CharToSQLNumeric_value stack neg z I F prec sc dst :
  digit_list I -> digit_list (fraction_digits F) -> no_leading_zero I = true -> (0 < prec <= 38)%nat -> (sc < 128)%nat ->
  length stack = 100%nat -> (length I + length (fraction_digits F) <= 100)%nat ->
  dval (I ++ fraction_digits F) * 10 ^ Z.of_nat sc < 2 ^ 120 * 10 ^ Z.of_nat (length (fraction_digits F)) ->
  let '(err, n) :=
    MADB_CharToSQLNumeric stack (Some (decimal_text neg z I F)) (Z.of_nat prec) (Z.of_nat sc) (Some dst) in
  ((prec < length I)%nat \/ (0 < significant F /\ 0 < sc /\ prec < length I + sc)%nat ->
   err = Z.of_nat MADB_ERR_22003) /\
  ((length I + sc <= prec)%nat ->
   err = 0 /\ exists v, n = Some (MkNumeric (Z.of_nat prec) (Z.of_nat sc) (if neg then 0 else 1) v) /\
     (le_value v * 10 ^ Z.of_nat (length (fraction_digits F)) = dval (I ++ fraction_digits F) * 10 ^ Z.of_nat sc
      <-> (F <> None \/ sc = 0%nat \/ I = []) /\ (significant F <= sc)%nat)).
Proof.
  intros HI HF Hnz Hp H128 Hst H100 Hbig. destruct (MADB_CharToSQLNumeric _ _ _ _ _) as [err n] eqn:E. split.
  - intros Hov. rewrite CharToSQLNumeric_text in E by done. cbv zeta in E.
    rewrite decide_False, collect_digits_error in E; [by injection E|done|done|lia|done|].
    intros He. apply app_eq_nil in He as [-> He]. destruct F; [done|]. cbn in Hov. lia.
  - intros Hfit. destruct (CharToSQLNumeric_stored stack neg z I F prec sc dst) as (v & E' & Hv); [done..|].
    rewrite E' in E. injection E as <- <-. split; [done|]. exists v. split; [done|]. rewrite Hv.
    apply stored_exact_iff; [done..|lia|done].
Qed.

Lemma MADB_CharToSQLNumeric_value_witness :
  (exists v, snd (MADB_CharToSQLNumeric (replicate 100 255) (Some (decimal_text true 2 (chars "123") (Some (chars "450"))))
      10 4 (Some (MkNumeric 0 0 0 []))) = Some (MkNumeric 10 4 0 v) /\ le_value v * 10 ^ 3 = 123450 * 10 ^ 4) /\
  (exists v, snd (MADB_CharToSQLNumeric (replicate 100 255) (Some (decimal_text false 0 (chars "12") None))
      10 2 (Some (MkNumeric 0 0 0 []))) = Some (MkNumeric 10 2 1 v) /\ le_value v <> 12 * 10 ^ 2).
Proof.
  split.
  - pose proof (MADB_CharToSQLNumeric_value (replicate 100 255) true 2 (chars "123") (Some (chars "450")) 10 4
      (MkNumeric 0 0 0 []) ltac:(repeat constructor) ltac:(repeat constructor) eq_refl ltac:(lia) ltac:(lia)
      eq_refl ltac:(vm_compute; lia) ltac:(vm_compute; done)) as H.
    destruct (MADB_CharToSQLNumeric _ _ _ _ _) as [err n]. destruct H as [_ H].
    destruct (H ltac:(vm_compute; lia)) as (_ & v & -> & [_ Hv]). exists v. split; [done|]. apply Hv.
    split; [by left|vm_compute; lia].
  - pose proof (MADB_CharToSQLNumeric_value (replicate 100 255) false 0 (chars "12") None 10 2
      (MkNumeric 0 0 0 []) ltac:(repeat constructor) ltac:(repeat constructor) eq_refl ltac:(lia) ltac:(lia)
      eq_refl ltac:(vm_compute; lia) ltac:(vm_compute; done)) as H.
    destruct (MADB_CharToSQLNumeric _ _ _ _ _) as [err n]. destruct H as [_ H].
    destruct (H ltac:(vm_compute; lia)) as (_ & v & -> & [Hv _]). exists v. split; [done|]. intros Ev.
    destruct Hv as [[?|[?|?]] _]; try done. rewrite Z.mul_1_r. exact Ev.
Defined.

(** A whole number with no room for its scale: the digits behind the precision are
    never written, and what was on the stack is converted. *)
Theorem MADB_CharToSQLNumeric_uninitialised :
  let le v := match v with Some n => le_value (val n) | None => 0 end in
  le (snd (MADB_CharToSQLNumeric (replicate 100 48) (Some (chars "12.0")) 3 2 (Some (MkNumeric 0 0 0 [])))) = 1200 /\
  le (snd (MADB_CharToSQLNumeric (replicate 100 57) (Some (chars "12.0")) 3 2 (Some (MkNumeric 0 0 0 [])))) = 1209.
Proof. split; vm_compute; reflexivity. Qed.

(** Two ways the number is wrong: fraction digits beyond the scale are kept
    (1.2345 at scale 2 is stored as 12345, that is 123.45), and a number of 2^120
    and more, which SQL_NUMERIC_STRUCT can hold, loses its high bits. *)
Theorem MADB_CharToSQLNumeric_wrong :
  MADB_CharToSQLNumeric (replicate 100 0) (Some (chars "1.2345")) 10 2 (Some (MkNumeric 0 0 0 []))
    = (0, Some (MkNumeric 10 2 1 (57 :: 48 :: replicate 14 0))) /\ le_value (57 :: 48 :: replicate 14 0) = 12345 /\
  MADB_CharToSQLNumeric (replicate 100 0) (Some (dec (2 ^ 120))) 38 0 (Some (MkNumeric 0 0 0 []))
    = (0, Some (MkNumeric 38 0 1 (replicate 16 0))).
Proof. split_and!; vm_compute; reflexivity. Qed.

(** *** Hexadecimal text *)

Lemma byte_hi c : 0 <= c < 256 -> schar c = if c <? 128 then c else c - 256.
Proof.
  intros H. unfold schar, wraps. destruct (Z.ltb_spec c 128).
  - rewrite Z.mod_small by lia. lia.
  - change (2 ^ (8 - 1)) with 128. change (2 ^ 8) with 256. rewrite <- (Z_mod_plus_full _ (-1)).
    rewrite Z.mod_small by lia. lia.
Qed.

(** [MADB_GetHexString] is defined on the bytes below 0x80 only: for the others the
    shift of the signed [char] indexes before the digit table. *)
Theorem hex_pair_defined c : 0 <= c < 256 ->
  hex_pair c = if c <? 128 then Some [rd HexDigits (Z.to_nat (c / 16)); rd HexDigits (Z.to_nat (c mod 16))] else None.
Proof.
  intros H. unfold hex_pair. rewrite byte_hi by done. destruct (Z.ltb_spec c 128).
  - rewrite Z.shiftr_div_pow2 by lia. change (2 ^ 4) with 16.
    destruct (Z.ltb_spec (c / 16) 0); [pose proof (Z.div_pos c 16); lia|].
    do 3 f_equal. change 15 with (Z.ones 4). by rewrite Z.land_ones by lia.
  - rewrite Z.shiftr_div_pow2 by lia. change (2 ^ 4) with 16.
    destruct (Z.ltb_spec ((c - 256) / 16) 0) as [|H1]; [done|].
    assert ((c - 256) / 16 < 0) by (apply Z.div_lt_upper_bound; lia). lia.
Qed.

Lemma hex_pair_defined_witness : hex_pair 200 = None.
Proof. rewrite (hex_pair_defined 200); [reflexivity|lia]. Defined.

End NumericProps.
