(* ===== verification/StrBuild.v ===== *)
(** * StrBuild: the statement texts the driver writes itself

    Models the builders of [ma_string.c] for positioned and bulk operations
    ([MADB_GetTableName] to [MADB_DynStrGetValues], [ProcessIdentifierString]) and the
    texts [MADB_DaeStmt] of [ma_helper.c] and the SQL_ADD case of [MADB_StmtSetPos]
    of [ma_statement.c] put together with them, on the dynamic strings of Dynamic.v.
    The answers of the allocator are a list, one for each append. *)

From Stdlib Require Import ZArith Lia.
From stdpp Require Import base strings numbers option list.
From S2P Require Import Prelude Odbc Errors Dynamic Numeric Parse.
Import ErrorOps DynString Numeric.

(** A string under construction, with the statement's error record. *)
Record builder := MkBuilder {
  answers : list bool;
  dyn : MADB_DynString;
  sb_Error : MADB_Error;
}.

(** A column of the result: its metadata and its record in the row descriptor. *)
Record bound_column := MkColumn {
  org_table : option (list Z);
  db : list Z;
  org_name : list Z;
  key_flags : Z;
  in_use : bool;
  indicator : option Z;
}.

(** The row descriptor's header and the application's indicators. *)
Record bound_rows := MkRows {
  sb_BindType : Z;
  sb_BindOffset : Z;
  sb_ArraySize : nat;
  DaeRowNumber : Z;
  indicators : Z -> Z;
}.

Module StrBuild.

Definition IDENTIFIER_BUFFER_OVERHEAD : nat := 3.

(** ** Names *)

(** The loop of [MADB_GetTableName] and [MADB_GetCatalogName]: the one name of the
    columns that belong to a table, or the fact that there are two. *)
Fixpoint unique_name (name : bound_column -> list Z) (found : option (list Z)) (cols : list bound_column)
    : option (option (list Z)) :=
  match cols with
  | [] => Some found
  | c :: cols' =>
      match org_table c with
      | None => unique_name name found cols'
      | Some _ =>
          let t := default (name c) found in
          if bool_decide (t = name c) then unique_name name (Some t) cols' else None
      end
  end.

(** The name that is returned, the one that is kept in the statement, and the error
    record. *)
Definition cached_name (name : bound_column -> list Z) (msg : string) (cached : option (list Z))
    (cols : list bound_column) (E : MADB_Error) : option (list Z) * option (list Z) * MADB_Error :=
  match cached with
  | Some (x :: l) => (cached, cached, E)
  | _ =>
      match cols with
      | [] => (None, cached, E)
      | _ =>
          match unique_name name None cols with
          | None => (None, cached, MADB_SetError E MADB_ERR_HY000 (Some (chars msg)) 0)
          | Some None => (cached, cached, E)
          | Some (Some t) => (Some t, Some t, E)
          end
      end
  end.

Definition MADB_GetTableName := cached_name (fun c => default [] (org_table c)) "Couldn't identify unique table name".
Definition MADB_GetCatalogName := cached_name db "Couldn't identify unique catalog name".

Section Build.
Context (junk : Z).

(** ** Appending *)

(** One call of [MADB_DynstrAppend]. *)
Definition append (s : list Z) (b : builder) : option (bool * builder) :=
  '(failed, d) ← MADB_DynstrAppend junk (hd true (answers b)) (dyn b) s;
  Some (failed, MkBuilder (tl (answers b)) d (sb_Error b)).

(** The [||] of C on calls that return TRUE for failure. *)
Definition or_else (f g : builder -> option (bool * builder)) (b : builder) : option (bool * builder) :=
  '(failed, b1) ← f b; if (failed : bool) then Some (true, b1) else g b1.

Notation "f '||!' g" := (or_else f g) (at level 66, left associativity).

Definition set_error (code : nat) (msg : option (list Z)) (b : builder) : builder :=
  MkBuilder (answers b) (dyn b) (MADB_SetError (sb_Error b) code msg 0).

(** A failure is reported as out of memory. *)
Definition memory (f : builder -> option (bool * builder)) (b : builder) : option (bool * builder) :=
  '(failed, b1) ← f b; Some (failed, if (failed : bool) then set_error MADB_ERR_HY001 None b1 else b1).

Definition skip (b : builder) : option (bool * builder) := Some (false, b).

Definition MADB_DynStrAppendQuoted (s : list Z) : builder -> option (bool * builder) :=
  append (chars "`") ||! append s ||! append (chars "`").

(** A loop over the columns whose body may stop it. *)
Fixpoint each {X} (body : nat -> X -> builder -> option (bool * builder)) (i : nat) (l : list X) (b : builder)
    : option (bool * builder) :=
  match l with
  | [] => Some (false, b)
  | x :: l' => '(failed, b1) ← body i x b; if (failed : bool) then Some (true, b1) else each body (S i) l' b1
  end.

(** ** The parts of a statement *)

(** Whether SQL_UPDATE leaves a column out: it is not bound, or its indicator in the
    current row says so. *)
Definition ignored_in_row (r : bound_rows) (c : bound_column) : bool :=
  match (match indicator c with
         | Some a => GetBindOffset (sb_BindType r) (sb_BindOffset r) (Some a)
                       (if 1 <? DaeRowNumber r then DaeRowNumber r - 1 else 0) 8
         | None => None
         end) with
  | Some a => indicators r a =? SQL_COLUMN_IGNORE
  | None => false
  end || negb (in_use c).

Fixpoint update_columns (r : bound_rows) (i ignored : nat) (cols : list bound_column) (b : builder)
    : option (bool * nat * builder) :=
  match cols with
  | [] => Some (false, ignored, b)
  | c :: cols' =>
      if ignored_in_row r c then update_columns r (S i) (S ignored) cols' b
      else
        '(failed, b1) ← memory ((if (i - ignored =? 0)%nat then skip else append (chars ",")) ||!
                                MADB_DynStrAppendQuoted (org_name c) ||! append (chars "=?")) b;
        if (failed : bool) then Some (true, ignored, b1) else update_columns r (S i) ignored cols' b1
  end.

Definition MADB_DynStrUpdateSet (r : bound_rows) (cols : list bound_column) (b : builder) : option (bool * builder) :=
  '(failed, b1) ← memory (append (chars " SET ")) b;
  if (failed : bool) then Some (true, b1)
  else
    '(failed, ignored, b2) ← update_columns r 0 0 cols b1;
    if (failed : bool) then Some (true, b2)
    else if (ignored =? length cols)%nat then Some (true, set_error MADB_ERR_21S02 None b2)
    else Some (false, b2).

(** Whether SQL_ADD uses a column: it is bound and not ignored in all rows. *)
Definition used_column (r : bound_rows) (c : bound_column) : bool :=
  in_use c &&
  negb (MADB_ColumnIgnoredInAllRows (indicators r) (sb_BindType r) (sb_BindOffset r) (indicator c) (sb_ArraySize r)).

(** An append to the list of values that is built beside the statement. *)
Definition append_vals (s : list Z) (vals : MADB_DynString) (b : builder) : option (bool * MADB_DynString * builder) :=
  '(failed, v) ← MADB_DynstrAppend junk (hd true (answers b)) vals s;
  Some (failed, v, MkBuilder (tl (answers b)) (dyn b) (sb_Error b)).

(** The loop of [MADB_DynStrInsertSet]: columns to the statement, question marks to
    the values. *)
Fixpoint insert_columns (r : bound_rows) (comma : bool) (cols : list bound_column) (vals : MADB_DynString) (b : builder)
    : option (bool * MADB_DynString * builder) :=
  match cols with
  | [] => Some (false, vals, b)
  | c :: cols' =>
      if negb (used_column r c) then insert_columns r comma cols' vals b
      else
        '(failed, b1) ← (if comma then append (chars ",") else skip) b;
        if (failed : bool) then Some (true, vals, b1)
        else
          '(failed, vals1, b2) ← if comma then append_vals (chars ",") vals b1 else Some (false, vals, b1);
          if (failed : bool) then Some (true, vals1, b2)
          else
            '(failed, b3) ← MADB_DynStrAppendQuoted (org_name c) b2;
            if (failed : bool) then Some (true, vals1, b3)
            else
              '(failed, vals2, b4) ← append_vals (chars "?") vals1 b3;
              if (failed : bool) then Some (true, vals2, b4) else insert_columns r true cols' vals2 b4
  end.

(** [MADB_DynStrInsertSet]; [ok] is the allocator's answer for the values, whose
    absence the code does not look at. *)
Definition MADB_DynStrInsertSet (ok : bool) (r : bound_rows) (cols : list bound_column) (b : builder)
    : option (bool * builder) :=
  '(_, vals) ← MADB_InitDynamicString junk ok (Some (chars "VALUES (")) 32 32;
  let dynerror b := Some (true, set_error MADB_ERR_HY001 None b) in
  '(failed, b1) ← append (chars " (") b;
  if (failed : bool) then dynerror b1
  else
    '(failed, vals1, b2) ← insert_columns r false cols vals b1;
    if (failed : bool) then dynerror b2
    else
      '(failed, b3) ← append (chars ") ") b2;
      if (failed : bool) then dynerror b3
      else
        '(failed, vals2, b4) ← append_vals (chars ")") vals1 b3;
        if (failed : bool) then dynerror b4
        else
          '(failed, b5) ← append (cstr (default [] (str vals2))) b4;
          if (failed : bool) then dynerror b5 else Some (false, b5).

Definition MADB_DynStrGetColumns (cols : list bound_column) : builder -> option (bool * builder) :=
  memory (append (chars " (") ||!
    each (fun i c => (if (i =? 0)%nat then skip else append (chars ", ")) ||! MADB_DynStrAppendQuoted (org_name c)) 0 cols
    ||! append (chars " )")).

Definition MADB_DynStrGetValues (cols : list bound_column) : builder -> option (bool * builder) :=
  memory (append (chars " VALUES(") ||!
    each (fun i (_ : bound_column) => append (chars (if (i =? 0)%nat then "?" else ",?"))) 0 cols ||! append (chars ")")).

(** What the builder of a WHERE clause asks others for: the number of columns in the
    keys of a table, the number of columns of the table, the text of a column of the
    current row (failed, NULL or a value), and the escaping of the client library. *)
Record where_source := MkWhere {
  KeyTypeCount : list Z -> Z -> Z;
  FieldCount : list Z -> Z;
  GetData : nat -> option (option (list Z));
  real_escape : list Z -> list Z;
}.

Definition count_flag (flag : Z) (cols : list bound_column) : Z :=
  Z.of_nat (length (filter (fun c => Z.land (key_flags c) flag <> 0) cols)).

(** One column of the condition. *)
Definition where_column (w : where_source) (ParameterMarkers : bool) (i : nat) (c : bound_column) (b : builder)
    : option (bool * builder) :=
  let named := append (chars " AND ") ||! MADB_DynStrAppendQuoted (org_name c) in
  if ParameterMarkers then memory (named ||! append (chars "=?")) b
  else
    '(failed, b1) ← memory named b;
    if (failed : bool) then Some (true, b1)
    else
      match GetData w i with
      | None => Some (true, b1)
      | Some None => memory (append (chars " IS NULL")) b1
      | Some (Some v) =>
          memory (append (chars "= '") ||! append (cstr (real_escape w v)) ||! append (chars "'")) b1
      end.

(** [MADB_DynStrGetWhere]; its variable [Flag] is never set, so that every column is
    part of the condition. *)
Definition MADB_DynStrGetWhere (w : where_source) (TableName : list Z) (ParameterMarkers : bool)
    (cols : list bound_column) (b : builder) : option (bool * builder) :=
  let key flag := let n := count_flag flag cols in
                  negb (n =? 0) && (n =? KeyTypeCount w TableName flag) in
  if negb (key PRI_KEY_FLAG) && negb (key UNIQUE_KEY_FLAG) &&
     negb (FieldCount w TableName =? Z.of_nat (length cols))
  then Some (true, set_error MADB_ERR_S1000 (Some (chars "Can't build index for update/delete")) b)
  else
    (memory (append (chars " WHERE 1")) ||! each (where_column w ParameterMarkers) 0 cols ||!
     memory (append (chars " LIMIT 1"))) b.

(** ** Whole statements *)

(** A new dynamic string with the first word. *)
Definition start (ok : bool) (word : string) (size : Z) (b : builder) : option (bool * builder) :=
  '(failed, d) ← MADB_InitDynamicString junk ok (Some (chars word)) size 1024;
  Some (failed, MkBuilder (answers b) d (sb_Error b)).

(** A name that may be missing: the code takes the length of a null pointer then. *)
Definition quoted_name (name : option (list Z)) : builder -> option (bool * builder) :=
  match name with
  | Some s => MADB_DynStrAppendQuoted s
  | None => append (chars "`") ||! (fun _ => None)
  end.

Definition table_name (CatalogName TableName : option (list Z)) : builder -> option (bool * builder) :=
  quoted_name CatalogName ||! append (chars ".") ||! quoted_name TableName.

(** The text of SQL_ADD in [MADB_StmtSetPos]. *)
Definition SetPos_insert (ok ok_vals : bool) (CatalogName TableName : option (list Z)) (r : bound_rows) (cols : list bound_column)
    : builder -> option (bool * builder) :=
  start ok "INSERT INTO " 8192 ||! table_name CatalogName TableName ||! MADB_DynStrInsertSet ok_vals r cols.

Inductive dae_operation := SQL_ADD | SQL_DELETE | SQL_UPDATE.

(** The texts of [MADB_DaeStmt]. *)
Definition dae_text (ok : bool) (op : dae_operation) (CatalogName TableName : option (list Z)) (r : bound_rows)
    (w : where_source) (cols : list bound_column) : builder -> option (bool * builder) :=
  match op with
  | SQL_ADD => start ok "INSERT INTO " 1024 ||! table_name CatalogName TableName ||! MADB_DynStrUpdateSet r cols
  | SQL_DELETE =>
      start ok "DELETE FROM " 1024 ||! table_name CatalogName TableName ||! MADB_DynStrGetWhere w (default [] TableName) false cols
  | SQL_UPDATE =>
      start ok "UPDATE " 1024 ||! table_name CatalogName TableName ||! MADB_DynStrUpdateSet r cols
        ||! MADB_DynStrGetWhere w (default [] TableName) false cols
  end.

End Build.

(** ** Identifier arguments *)

Definition QUOTE_IN : Z := $"`".
Definition QUOTE_OUT : Z := $"'".
Definition ESCAPE : Z := 92.

(** From the end of the string to the last character that is no blank; [None] at a
    NUL. *)
Fixpoint last_char (r : list Z) : option (list Z) :=
  match r with
  | [] => Some []
  | c :: r' => if c =? 0 then None else if isspace c then last_char r' else Some r
  end.

(** What follows the opening quote. *)
Fixpoint after_quote (l : list Z) : option (list Z) :=
  match l with
  | [] => None
  | c :: l' => if c =? 0 then None else if isspace c then after_quote l' else if c =? QUOTE_IN then Some l' else None
  end.

(** No NUL and no quote without a backslash in front. *)
Fixpoint body_ok (prev : Z) (l : list Z) : bool :=
  match l with
  | [] => true
  | c :: l' => negb ((c =? 0) || ((c =? QUOTE_IN) && negb (prev =? ESCAPE))) && body_ok c l'
  end.

(** [ProcessIdentifierString]: the string written before the NUL, [None] for TRUE. *)
Definition ProcessIdentifierString (s : list Z) : option (list Z) :=
  r ← last_char (rev s);
  match r with
  | [] => Some [QUOTE_OUT; QUOTE_OUT]
  | c :: r' =>
      if (c =? QUOTE_IN) && match r' with [] => true | p :: _ => negb (p =? ESCAPE) end then
        body ← after_quote (rev r');
        if body_ok QUOTE_IN body then Some (QUOTE_OUT :: body ++ [QUOTE_OUT]) else None
      else if hd 0 s =? QUOTE_IN then None
      else if body_ok 0 (rev r) then Some (QUOTE_OUT :: (toupper <$> rev r) ++ [QUOTE_OUT]) else None
  end.

End StrBuild.

(** ** Properties *)

Module StrBuildProps.
Import StrBuild Scan Tokenizer ParseProps.

(** *** Builders write texts *)

(** Whatever the allocator answers, [f] keeps the string well formed; it fails only
    when an allocation failed, and then it wrote a part of [t]; otherwise it wrote
    [t] and the error record is as before. *)
Definition produces (f : builder -> option (bool * builder)) (t : list Z) : Prop :=
  forall b, wf (dyn b) -> length_ (dyn b) + Z.of_nat (length t) < 2 ^ 62 ->
  exists failed b' t', f b = Some (failed, b') /\ wf (dyn b') /\
    contents (dyn b') = contents (dyn b) ++ t' /\ answers b' `suffix_of` answers b /\
    if (failed : bool) then t' `prefix_of` t /\ false ∈ answers b else t' = t /\ sb_Error b' = sb_Error b.

Lemma suffix_elem (l k : list bool) x : l `suffix_of` k -> x ∈ l -> x ∈ k.
Proof. intros [p ->] H. apply elem_of_app. by right. Qed.

Lemma suffix_tl (l : list bool) : tl l `suffix_of` l.
Proof. destruct l; [done|]. by exists [b]. Qed.

Lemma produces_append junk s : produces (append junk s) s.
Proof.
  intros b Hw Hl. unfold append, MADB_DynstrAppend.
  destruct (MADB_DynstrAppendMem_refines junk (hd true (answers b)) (dyn b) s Hw Hl) as (f & d' & -> & Hw' & Hf & Hs).
  cbn. destruct f.
  - destruct (Hf eq_refl) as [Ha ->]. eexists true, _, []. split; [reflexivity|]. cbn. rewrite app_nil_r.
    split_and!; try done; [apply suffix_tl|apply prefix_nil|]. destruct (answers b) as [|x l]; [done|]. cbn in Ha. subst. by left.
  - eexists false, _, s. split; [reflexivity|]. cbn. split_and!; try done; [by apply Hs|apply suffix_tl].
Qed.

Lemma produces_skip : produces skip [].
Proof. intros b Hw _. eexists false, b, []. by rewrite app_nil_r. Qed.

Lemma produces_or f g s t : produces f s -> produces g t -> produces (or_else f g) (s ++ t).
Proof.
  intros Hf Hg b Hw Hl. rewrite length_app in Hl. unfold or_else.
  destruct (Hf b Hw ltac:(lia)) as ([] & b1 & s' & -> & Hw1 & Hc1 & Ha1 & Hr1); cbn.
  - destruct Hr1 as [Hp Hin]. eexists true, b1, s'. split_and!; try done. by apply prefix_app_r.
  - destruct Hr1 as [-> He1]. pose proof (length_contents (dyn b) Hw) as HL. pose proof (length_contents (dyn b1) Hw1) as HL1.
    rewrite Hc1, length_app in HL1.
    destruct (Hg b1 Hw1 ltac:(lia)) as (failed & b2 & t' & -> & Hw2 & Hc2 & Ha2 & Hr2).
    eexists failed, b2, (s ++ t'). split; [done|]. rewrite Hc2, Hc1, app_assoc. split_and!; try done; [by etrans|].
    destruct failed; destruct Hr2 as [Hp Hr2].
    + split; [by apply prefix_app|by eapply suffix_elem].
    + split; congruence.
Qed.

Lemma produces_memory f t : produces f t -> produces (memory f) t.
Proof.
  intros Hf b Hw Hl. unfold memory. destruct (Hf b Hw Hl) as (failed & b1 & t' & -> & Hw1 & Hc1 & Ha1 & Hr1). cbn.
  eexists failed, _, t'. split; [reflexivity|]. by destruct failed.
Qed.

Lemma produces_each {X} (body : nat -> X -> builder -> option (bool * builder)) (txt : nat -> X -> list Z) l : forall i,
  (forall j x, l !! j = Some x -> produces (body (i + j)%nat x) (txt (i + j)%nat x)) ->
  produces (each body i l) (concat (imap (fun j x => txt (i + j)%nat x) l)).
Proof.
  induction l as [|x l IH]; intros i Hb; [apply produces_skip|]. cbn [each imap concat].
  replace (imap ((fun j x => txt (i + j)%nat x) ∘ S) l) with (imap (fun j x => txt (S i + j)%nat x) l).
  - pose proof (Hb 0%nat x eq_refl) as H0. rewrite !Nat.add_0_r in *. refine (produces_or _ _ _ _ H0 (IH (S i) _)).
    intros j y Hj. rewrite Nat.add_succ_comm. by apply Hb.
  - apply imap_ext. intros j y _. cbn. by rewrite Nat.add_succ_r.
Qed.

Create HintDb produces.
#[local] Hint Resolve produces_append produces_skip produces_or produces_memory : produces.

(** The quoted name, and names and marks in a list. *)
Definition quoted (s : list Z) : list Z := $"`" :: s ++ [$"`"].

Lemma produces_quoted junk s : produces (MADB_DynStrAppendQuoted junk s) (quoted s).
Proof.
  unfold MADB_DynStrAppendQuoted, quoted. change ($"`" :: s ++ [$"`"]) with ((chars "`" ++ s) ++ chars "`").
  auto with produces.
Qed.

(** When no allocation fails the text is there. *)
Lemma produces_ok f t b : produces f t -> wf (dyn b) -> length_ (dyn b) + Z.of_nat (length t) < 2 ^ 62 ->
  false ∉ answers b -> exists b', f b = Some (false, b') /\ wf (dyn b') /\ contents (dyn b') = contents (dyn b) ++ t /\
    sb_Error b' = sb_Error b /\ false ∉ answers b'.
Proof.
  intros Hf Hw Hl Ha. destruct (Hf b Hw Hl) as ([] & b' & t' & E & Hw' & Hc & Hs & Hr); [by destruct Hr|].
  destruct Hr as [-> He]. exists b'. split_and!; try done. intros Hin. by eapply Ha, suffix_elem.
Qed.

(** *** The SET and WHERE clauses *)

(** The assignments of the columns that are not left out. *)
Fixpoint assignments (r : bound_rows) (first : bool) (cols : list bound_column) : list Z :=
  match cols with
  | [] => []
  | c :: cols' =>
      if ignored_in_row r c then assignments r first cols'
      else (if first then [] else chars ",") ++ quoted (org_name c) ++ chars "=?" ++ assignments r false cols'
  end.

Lemma produces_assignment junk (first : bool) s :
  produces (memory (or_else (or_else (if first then skip else append junk (chars ",")) (MADB_DynStrAppendQuoted junk s))
              (append junk (chars "=?"))))
    ((if first then [] else chars ",") ++ quoted s ++ chars "=?").
Proof. rewrite app_assoc. destruct first; auto using produces_quoted with produces. Qed.

Lemma update_columns_produces junk r cols : forall i ignored, (ignored <= i)%nat ->
  produces (fun b => '(failed, ig, b1) ← update_columns junk r i ignored cols b; Some (failed, b1))
    (assignments r (i - ignored =? 0)%nat cols) /\
  forall b ig b1, update_columns junk r i ignored cols b = Some (false, ig, b1) ->
    ig = (ignored + length (filter (fun c => ignored_in_row r c = true) cols))%nat.
Proof.
  induction cols as [|c cols IH]; intros i ignored Hi; cbn [update_columns assignments].
  - split; [apply produces_skip|]. intros b ig b1 [= <- <-]. cbn. lia.
  - rewrite filter_cons. destruct (ignored_in_row r c) eqn:Ei.
    + rewrite decide_True by done. destruct (IH (S i) (S ignored) ltac:(lia)) as [H1 H2]. split; [exact H1|].
      intros b ig b1 E. apply H2 in E. cbn. lia.
    + rewrite decide_False by done. destruct (IH (S i) ignored ltac:(lia)) as [H1 H2].
      rewrite (proj2 (Nat.eqb_neq (S i - ignored) 0)) in H1 by lia. split.
      * intros b Hw Hl. pose proof (produces_assignment junk (i - ignored =? 0)%nat (org_name c)) as Ha.
        rewrite !app_assoc in Hl |- *. rewrite <- (app_assoc _ _ (chars "=?")) in Hl |- *.
        destruct (produces_or _ _ _ _ Ha H1 b Hw Hl) as (failed & b' & t' & E & Hrest). exists failed, b', t'.
        split; [|exact Hrest]. revert E. unfold or_else.
        destruct (memory _ b) as [[[] b1]|]; cbn; [by intros [= <- <-]|done|done].
      * intros b ig b1 E. destruct (memory _ b) as [[[] b0]|]; cbn in E; [done| |done]. by apply H2 in E.
Qed.

Lemma DynStrUpdateSet_produces junk r cols : (exists c, c ∈ cols /\ ignored_in_row r c = false) ->
  produces (MADB_DynStrUpdateSet junk r cols) (chars " SET " ++ assignments r true cols).
Proof.
  intros (c & Hc & Hi) b Hw Hl. destruct (update_columns_produces junk r cols 0 0 ltac:(lia)) as [H1 H2].
  destruct (produces_or _ _ _ _ (produces_memory _ _ (produces_append junk (chars " SET "))) H1 b Hw Hl)
    as (failed & b' & t' & E & Hrest). exists failed, b', t'. split; [|exact Hrest]. revert E.
  unfold or_else, MADB_DynStrUpdateSet. destruct (memory _ b) as [[[] b1]|]; [done| |done]. cbn [mbind option_bind].
  destruct (update_columns junk r 0 0 cols b1) as [[[[] ig] b2]|] eqn:EU; [done| |done]. cbn [mbind option_bind].
  intros [= <- <-]. apply H2 in EU. rewrite (proj2 (Nat.eqb_neq ig (length cols))); [done|].
  rewrite EU. cbn. pose proof (length_filter_lt (fun c => ignored_in_row r c = true) cols c Hc) as Hlt.
  specialize (Hlt ltac:(congruence)). lia.
Qed.

(** The condition on one column. *)
Definition condition (w : where_source) (markers : bool) (i : nat) (c : bound_column) : list Z :=
  chars " AND " ++ quoted (org_name c) ++
  (if markers then chars "=?"
   else match GetData w i with
        | Some (Some v) => chars "= '" ++ cstr (real_escape w v) ++ chars "'"
        | _ => chars " IS NULL"
        end).

Lemma where_column_produces junk w markers i c : (markers = false -> is_Some (GetData w i)) ->
  produces (where_column junk w markers i c) (condition w markers i c).
Proof.
  intros Hg. unfold where_column, condition. rewrite app_assoc.
  pose proof (produces_or _ _ _ _ (produces_append junk (chars " AND ")) (produces_quoted junk (org_name c))) as Hn.
  destruct markers; [auto with produces|]. destruct Hg as [[v|] Hg]; [done| |]; rewrite Hg.
  - apply produces_or; [by apply produces_memory|]. rewrite app_assoc. auto with produces.
  - apply produces_or; auto with produces.
Qed.

(** The key of the table is in the result, or all its columns are. *)
Definition has_key (w : where_source) (T : list Z) (cols : list bound_column) : Prop :=
  (count_flag PRI_KEY_FLAG cols <> 0 /\ count_flag PRI_KEY_FLAG cols = KeyTypeCount w T PRI_KEY_FLAG) \/
  (count_flag UNIQUE_KEY_FLAG cols <> 0 /\ count_flag UNIQUE_KEY_FLAG cols = KeyTypeCount w T UNIQUE_KEY_FLAG) \/
  FieldCount w T = Z.of_nat (length cols).

Definition where_text (w : where_source) (markers : bool) (cols : list bound_column) : list Z :=
  (chars " WHERE 1" ++ concat (imap (condition w markers) cols)) ++ chars " LIMIT 1".

Lemma DynStrGetWhere_produces junk w T markers cols : has_key w T cols ->
  (markers = false -> forall i, (i < length cols)%nat -> is_Some (GetData w i)) ->
  produces (MADB_DynStrGetWhere junk w T markers cols) (where_text w markers cols).
Proof.
  intros Hk Hg b Hw Hl. unfold MADB_DynStrGetWhere.
  match goal with |- context [if ?e then Some _ else _] => assert (e = false) as -> end.
  { destruct Hk as [[H1 H2]|[[H1 H2]|H1]].
    - rewrite (proj2 (Z.eqb_neq _ 0) H1), (proj2 (Z.eqb_eq _ _) H2). done.
    - rewrite (proj2 (Z.eqb_neq (count_flag UNIQUE_KEY_FLAG cols) 0) H1), (proj2 (Z.eqb_eq (count_flag UNIQUE_KEY_FLAG cols) _) H2).
      cbn. by rewrite andb_false_r.
    - rewrite (proj2 (Z.eqb_eq _ _) H1). by rewrite andb_false_r. }
  revert b Hw Hl. fold (produces (or_else (or_else (memory (append junk (chars " WHERE 1"))) (each (where_column junk w markers) 0 cols))
    (memory (append junk (chars " LIMIT 1")))) (where_text w markers cols)).
  unfold where_text. apply produces_or; [|auto with produces]. apply produces_or; [auto with produces|].
  apply (produces_each (where_column junk w markers) (condition w markers) cols 0). intros j c Hj.
  apply where_column_produces. intros Hm. apply Hg; [done|]. by eapply lookup_lt_Some.
Qed.

(** *** The columns and values of an INSERT *)

(** A list of texts with commas between them. *)
Fixpoint listed (first : bool) (l : list (list Z)) : list Z :=
  match l with
  | [] => []
  | t :: l' => (if first then [] else chars ",") ++ t ++ listed false l'
  end.

Definition used_names (r : bound_rows) (cols : list bound_column) : list (list Z) :=
  org_name <$> filter (fun c => used_column r c = true) cols.

Lemma append_vals_ok junk s vals b : wf vals -> length_ vals + Z.of_nat (length s) < 2 ^ 62 -> false ∉ answers b ->
  exists vals' b', append_vals junk s vals b = Some (false, vals', b') /\ wf vals' /\ contents vals' = contents vals ++ s /\
    dyn b' = dyn b /\ sb_Error b' = sb_Error b /\ false ∉ answers b'.
Proof.
  intros Hw Hl Ha. unfold append_vals, MADB_DynstrAppend.
  destruct (MADB_DynstrAppendMem_refines junk (hd true (answers b)) vals s Hw Hl) as (f & v' & -> & Hw' & Hf & Hs). cbn.
  destruct f.
  { destruct (Hf eq_refl) as [Hh _]. destruct (answers b) as [|x l]; [done|]. cbn in Hh. subst. destruct Ha. by left. }
  eexists v', _. split; [reflexivity|]. cbn. split_and!; try done; [by apply Hs|].
  intros Hin. by eapply Ha, suffix_elem; [apply suffix_tl|].
Qed.

Lemma insert_columns_ok junk r cols : forall comma vals b,
  wf vals -> wf (dyn b) -> false ∉ answers b ->
  length_ (dyn b) + Z.of_nat (length (listed (negb comma) (quoted <$> used_names r cols))) < 2 ^ 62 ->
  length_ vals + Z.of_nat (length (listed (negb comma) ((fun _ => chars "?") <$> used_names r cols))) < 2 ^ 62 ->
  exists vals' b', insert_columns junk r comma cols vals b = Some (false, vals', b') /\ wf vals' /\ wf (dyn b') /\
    contents vals' = contents vals ++ listed (negb comma) ((fun _ => chars "?") <$> used_names r cols) /\
    contents (dyn b') = contents (dyn b) ++ listed (negb comma) (quoted <$> used_names r cols) /\
    sb_Error b' = sb_Error b /\ false ∉ answers b'.
Proof.
  induction cols as [|c cols IH]; intros comma vals b Hv Hw Ha Hl1 Hl2; cbn [insert_columns].
  { exists vals, b. cbn. by rewrite !app_nil_r. }
  unfold used_names in *. rewrite filter_cons in *. destruct (used_column r c) eqn:Eu; cbn [negb].
  2: { rewrite decide_False in * by done. by apply IH. }
  rewrite decide_True in * by done. cbn [fmap list_fmap listed] in *. rewrite !length_app in Hl1, Hl2.
  assert (exists b1, (if comma then append junk (chars ",") else skip) b = Some (false, b1) /\ wf (dyn b1) /\
    contents (dyn b1) = contents (dyn b) ++ (if negb comma then [] else chars ",") /\ sb_Error b1 = sb_Error b /\ false ∉ answers b1)
    as (b1 & -> & Hw1 & Hc1 & He1 & Ha1).
  { destruct comma; cbn [negb] in *; apply produces_ok; auto using produces_append, produces_skip; cbn [length] in *; lia. }
  cbn [mbind option_bind].
  assert (exists v1 b2, (if comma then append_vals junk (chars ",") vals b1 else Some (false, vals, b1)) = Some (false, v1, b2) /\
    wf v1 /\ contents v1 = contents vals ++ (if negb comma then [] else chars ",") /\ dyn b2 = dyn b1 /\ sb_Error b2 = sb_Error b1 /\
    false ∉ answers b2) as (v1 & b2 & -> & Hv1 & Hcv1 & Hd2 & He2 & Ha2).
  { destruct comma; cbn [negb] in *; [apply append_vals_ok; auto; lia|]. exists vals, b1. by rewrite app_nil_r. }
  cbn [mbind option_bind].
  pose proof (length_contents _ Hw) as L0. pose proof (length_contents _ Hw1) as L1. pose proof (length_contents _ Hv) as V0.
  pose proof (length_contents _ Hv1) as V1. rewrite Hc1, length_app in L1. rewrite Hcv1, length_app in V1.
  destruct (produces_ok _ _ b2 (produces_quoted junk (org_name c))) as (b3 & -> & Hw3 & Hc3 & He3 & Ha3);
    [by rewrite Hd2|rewrite Hd2; lia|done|]. cbn [mbind option_bind].
  destruct (append_vals_ok junk (chars "?") v1 b3) as (v2 & b4 & -> & Hv2 & Hcv2 & Hd4 & He4 & Ha4); [done|lia|done|].
  cbn [mbind option_bind]. pose proof (length_contents _ Hw3) as L3. pose proof (length_contents _ Hv2) as V2.
  rewrite Hc3, Hd2, Hc1, !length_app in L3. rewrite Hcv2, Hcv1, !length_app in V2.
  destruct (IH true v2 b4) as (v' & b' & E & Hv' & Hw' & Hcv' & Hc' & He' & Ha'); try done; [by rewrite Hd4| | |].
  1-2: cbn [negb]; rewrite ?Hd4; lia.
  exists v', b'. split; [done|]. split_and!; try done; try congruence.
  - rewrite Hcv', Hcv2, Hcv1. cbn [negb]. by rewrite <- !app_assoc.
  - rewrite Hc', Hd4, Hc3, Hd2, Hc1. cbn [negb]. by rewrite <- !app_assoc.
Qed.

(** The string the values end up as has no NUL inside. *)
Lemma cstr_of_wf d : wf d -> Forall (fun c => c <> 0) (contents d) -> cstr (default [] (str d)) = contents d.
Proof.
  intros (b & Hb & Hlen & Hl & Hm & Hi & Hz) Hn. unfold contents in *. rewrite Hb in *. cbn [default] in *.
  rewrite <- (take_drop (Z.to_nat (length_ d)) b) at 1.
  assert (drop (Z.to_nat (length_ d)) b = 0 :: drop (S (Z.to_nat (length_ d))) b) as ->.
  { unfold rd in Hz. destruct (b !! Z.to_nat (length_ d)) as [x|] eqn:Ex; [|apply lookup_ge_None in Ex; lia].
    cbn in Hz. rewrite Hz in Ex. by apply drop_S. }
  apply cstr_app_nul, Hn.
Qed.

(** *** Markers in a text *)

(** The number of parameter markers the scanner finds. *)
Definition markers (l : list Z) : nat := length (placeholders (length l) 0 l).

Lemma placeholders_pos n : forall p p' l, length (placeholders n p l) = length (placeholders n p' l).
Proof.
  induction n as [|n IH]; intros p p' l; [done|]. destruct l as [|c l]; [done|]. cbn [placeholders].
  repeat case_match; cbn; try apply IH. by rewrite (IH (S p) (S p')).
Qed.

Lemma markers_eq n p l : (length l <= n)%nat -> length (placeholders n p l) = markers l.
Proof. intros H. unfold markers. rewrite (placeholders_fuel n (length l)) by lia. apply placeholders_pos. Qed.

(** A character that neither opens anything nor is a marker. *)
Definition plain (c : Z) : bool :=
  negb (is_quote c) && negb (c =? $"?") && negb (c =? $"-") && negb (c =? $"#") && negb (c =? $"/").

Lemma comment_len_plain c l : c <> $"-" -> c <> $"#" -> c <> $"/" -> comment_len (c :: l) = 0%nat.
Proof.
  intros H1 H2 H3. unfold comment_len, starts_with. cbn.
  rewrite !(proj2 (Z.eqb_neq _ _)) by (cbn in *; lia). done.
Qed.

Lemma markers_plain c l : plain c = true -> markers (c :: l) = markers l.
Proof.
  intros Hc. unfold plain in Hc. repeat (apply andb_true_iff in Hc as [Hc ?]). rewrite !negb_true_iff, ?Z.eqb_neq in *.
  unfold markers at 1. cbn [length placeholders]. rewrite comment_len_plain by done. cbn [Nat.ltb Nat.leb].
  rewrite Hc, (proj2 (Z.eqb_neq c _)) by done. by apply markers_eq.
Qed.

Lemma markers_plain_app s l : forallb plain s = true -> markers (s ++ l) = markers l.
Proof.
  induction s as [|c s IH]; [done|]. cbn [forallb]. rewrite andb_true_iff. intros [Hc Hs]. cbn [app].
  rewrite markers_plain by done. by apply IH.
Qed.

Lemma markers_mark l : markers ($"?" :: l) = S (markers l).
Proof.
  unfold markers at 1. cbn [length placeholders]. rewrite comment_len_plain by done. cbn [Nat.ltb Nat.leb].
  change (is_quote ($"?")) with false. change ($"?" =? $"?") with true. cbn. by rewrite markers_eq.
Qed.

Lemma closing_name s l : ($"`" ∉ s) -> closing false ($"`") (s ++ $"`" :: l) = Some (length s).
Proof.
  induction s as [|c s IH]; intros Hs; cbn [app closing]; [done|]. apply not_elem_of_cons in Hs as [Hc Hs].
  rewrite (proj2 (Z.eqb_neq c _)) by done. cbn [andb]. by rewrite IH.
Qed.

Lemma markers_quoted s l : ($"`" ∉ s) -> markers (quoted s ++ l) = markers l.
Proof.
  intros Hs. unfold markers at 1, quoted. cbn [app length placeholders]. rewrite comment_len_plain by done.
  cbn [Nat.ltb Nat.leb]. change (is_quote ($"`")) with true. rewrite <- app_assoc. cbn [app].
  unfold quoted_len. change (negb ($"`" =? $"`")) with false. rewrite closing_name by done.
  replace (drop (S (length s)) (s ++ $"`" :: l)) with l; [apply markers_eq|].
  - rewrite !length_app. cbn. lia.
  - replace (S (length s)) with (length s + 1)%nat by lia. by rewrite drop_app_add.
Qed.

Lemma markers_names first names l : Forall (fun s => $"`" ∉ s) names ->
  markers (listed first (quoted <$> names) ++ l) = markers l.
Proof.
  intros H. revert first. induction H as [|s names Hs _ IH]; intros first; [done|].
  cbn [fmap list_fmap listed]. rewrite <- !app_assoc.
  rewrite markers_plain_app by (by destruct first). rewrite markers_quoted by done. apply IH.
Qed.

Lemma markers_marks {X} first (names : list X) l :
  markers (listed first ((fun _ => chars "?") <$> names) ++ l) = (length names + markers l)%nat.
Proof.
  revert first. induction names as [|s names IH]; intros first; [done|].
  cbn [fmap list_fmap listed]. rewrite <- !app_assoc. rewrite markers_plain_app by (by destruct first).
  change (chars "?" ++ ?x) with ($"?" :: x). rewrite markers_mark. cbn [length Nat.add]. f_equal. apply IH.
Qed.

(** *** Whole statements *)

Definition query_of (t : list Z) : MADB_QUERY :=
  Query (t ++ [0]) [] 0 (Z.of_nat (length t)) [] [] false [] false MADB_QUERY_NO_RESULT false.

(** The text of an INSERT with one marker for each used column. *)
Definition insert_text (C T : list Z) (names : list (list Z)) : list Z :=
  chars "INSERT INTO " ++ (quoted C ++ chars ".") ++ quoted T ++ chars " (" ++ listed true (quoted <$> names) ++
  chars ") " ++ chars "VALUES (" ++ listed true ((fun _ => chars "?") <$> names) ++ chars ")".

Definition name_ok (s : list Z) : Prop := Forall (fun c => c <> 0) s /\ $"`" ∉ s.

Lemma insert_text_markers C T names : name_ok C -> name_ok T -> Forall name_ok names ->
  markers (insert_text C T names) = length names.
Proof.
  intros [_ HC] [_ HT] Hn. unfold insert_text. rewrite <- !app_assoc.
  rewrite markers_plain_app by reflexivity. rewrite markers_quoted by done. rewrite markers_plain_app by reflexivity.
  rewrite markers_quoted by done. rewrite markers_plain_app by reflexivity.
  rewrite markers_names by (eapply Forall_impl; [exact Hn|]; by intros s [_ ?]).
  rewrite !markers_plain_app by reflexivity. rewrite markers_marks. change (markers (chars ")")) with 0%nat. lia.
Qed.

Lemma query_of_markers t : Forall (fun c => c <> 0) t -> Z.of_nat (length t) + 1 < 2 ^ 64 ->
  exists q, ParseQuery (query_of t) false = Some q /\ length (ParamPositions q) = markers t.
Proof.
  intros Ht Hl. assert (cstr_at (t ++ [0]) 0 = t) as Hc by (unfold cstr_at; rewrite drop_0; by apply cstr_app_nul).
  destruct (ParseQuery_placeholders (query_of t) t) as (q & E & Hp).
  - unfold query_ok. cbn [RefinedLength RefinedText text query_of]. rewrite length_app. cbn [length].
    split_and!; [lia|lia|lia|]. unfold rd. rewrite Nat2Z.id. cbn [Nat.add]. by rewrite lookup_app_r, Nat.sub_diag by lia.
  - exact Hc.
  - done.
  - exists q. split; [done|]. rewrite Hp. by apply markers_eq.
Qed.

Lemma start_ok junk word size b : 13 <= size < 2 ^ 32 -> (length (chars word) < 13)%nat ->
  exists b1, start junk true word size b = Some (false, b1) /\ wf (dyn b1) /\ contents (dyn b1) = chars word /\
    answers b1 = answers b /\ sb_Error b1 = sb_Error b.
Proof.
  intros Hs Hw. unfold start.
  destruct (MADB_InitDynamicString_cases junk (chars word) size 1024) as [_ H]; [lia|lia|lia|].
  destruct H as (d & -> & Hd & Hc); [lia|]. cbn. by eexists.
Qed.

Lemma produces_table junk C T : produces (table_name junk (Some C) (Some T)) ((quoted C ++ chars ".") ++ quoted T).
Proof. unfold table_name, quoted_name. auto using produces_quoted with produces. Qed.

Lemma nonzero_chars (w : string) : forallb (fun c => negb (c =? 0)) (chars w) = true -> Forall (fun c => c <> 0) (chars w).
Proof.
  rewrite forallb_forall, Forall_forall. intros H c Hc. apply Z.eqb_neq, negb_true_iff, H. by apply list_elem_of_In.
Qed.

Lemma nonzero_listed first l : Forall (Forall (fun c => c <> 0)) l -> Forall (fun c => c <> 0) (listed first l).
Proof.
  intros H. revert first. induction H as [|t l Ht _ IH]; intros first; [constructor|]. cbn [listed].
  rewrite !Forall_app. split_and!; [by destruct first; repeat constructor|done|apply IH].
Qed.

Lemma nonzero_quoted s : Forall (fun c => c <> 0) s -> Forall (fun c => c <> 0) (quoted s).
Proof. intros H. unfold quoted. constructor; [done|]. rewrite Forall_app. split; [done|]. by repeat constructor. Qed.

Lemma nonzero_insert_text C T names : name_ok C -> name_ok T -> Forall name_ok names ->
  Forall (fun c => c <> 0) (insert_text C T names).
Proof.
  intros [HC _] [HT _] Hn. unfold insert_text.
  assert (Forall (Forall (fun c => c <> 0)) (quoted <$> names)) as H1.
  { rewrite Forall_fmap. eapply Forall_impl; [exact Hn|]. intros s [Hs _]. by apply nonzero_quoted. }
  assert (Forall (Forall (fun c => c <> 0)) ((fun _ : list Z => chars "?") <$> names)) as H2.
  { rewrite Forall_fmap. eapply Forall_impl; [exact Hn|]. intros s _. by apply nonzero_chars. }
  rewrite !Forall_app. split_and!; auto using nonzero_quoted, nonzero_listed; by apply nonzero_chars.
Qed.

(** Building the list of columns and values. *)
Lemma DynStrInsertSet_ok junk r cols b : wf (dyn b) -> false ∉ answers b ->
  length_ (dyn b) + Z.of_nat (length (insert_text [] [] (used_names r cols))) < 2 ^ 62 ->
  exists b', MADB_DynStrInsertSet junk true r cols b = Some (false, b') /\ wf (dyn b') /\ sb_Error b' = sb_Error b /\
    false ∉ answers b' /\ contents (dyn b') = contents (dyn b) ++ chars " (" ++ listed true (quoted <$> used_names r cols) ++ chars ") " ++
      chars "VALUES (" ++ listed true ((fun _ => chars "?") <$> used_names r cols) ++ chars ")".
Proof.
  intros Hw Ha Hl. unfold insert_text in Hl. rewrite !length_app in Hl. unfold MADB_DynStrInsertSet.
  destruct (MADB_InitDynamicString_cases junk (chars "VALUES (") 32 32) as [_ H]; [cbn; lia|lia|lia|].
  destruct H as (vals & -> & Hv & Hcv); [cbn; lia|]. cbn [mbind option_bind].
  destruct (produces_ok _ _ b (produces_append junk (chars " (")) Hw) as (b1 & -> & Hw1 & Hc1 & He1 & Ha1); [lia|done|].
  cbn [mbind option_bind]. pose proof (length_contents _ Hw) as L0. pose proof (length_contents _ Hw1) as L1.
  pose proof (length_contents _ Hv) as V0. rewrite Hc1, length_app in L1. rewrite Hcv in V0.
  destruct (insert_columns_ok junk r cols false vals b1) as (v1 & b2 & -> & Hv1 & Hw2 & Hcv1 & Hc2 & He2 & Ha2);
    try done; cbn [negb]; [lia|lia|]. cbn [mbind option_bind negb] in *.
  pose proof (length_contents _ Hw2) as L2. pose proof (length_contents _ Hv1) as V1.
  rewrite Hc2, Hc1, !length_app in L2. rewrite Hcv1, Hcv, !length_app in V1.
  destruct (produces_ok _ _ b2 (produces_append junk (chars ") ")) Hw2) as (b3 & -> & Hw3 & Hc3 & He3 & Ha3); [lia|done|].
  cbn [mbind option_bind]. destruct (append_vals_ok junk (chars ")") v1 b3) as (v2 & b4 & -> & Hv2 & Hcv2 & Hd4 & He4 & Ha4);
    [done|lia|done|]. cbn [mbind option_bind].
  pose proof (length_contents _ Hw3) as L3. rewrite Hc3, Hc2, Hc1, !length_app in L3.
  rewrite (cstr_of_wf v2 Hv2).
  2: { rewrite Hcv2, Hcv1, Hcv, !Forall_app. split_and!; try (by apply nonzero_chars). apply nonzero_listed.
       rewrite Forall_fmap. apply Forall_true. intros x. by apply nonzero_chars. }
  rewrite Hcv2, Hcv1, Hcv.
  destruct (produces_ok _ _ b4 (produces_append junk ((chars "VALUES (" ++ listed true ((fun _ => chars "?") <$> used_names r cols)) ++ chars ")")))
    as (b5 & -> & Hw5 & Hc5 & He5 & Ha5); [by rewrite Hd4|rewrite Hd4, !length_app; lia|done|].
  cbn [mbind option_bind]. exists b5. split_and!; try done; [congruence|]. rewrite Hc5, Hd4, Hc3, Hc2, Hc1.
  by rewrite <- !app_assoc.
Qed.

(** The INSERT the driver writes for SQLSetPos and SQLBulkOperations goes through
    its own tokenizer with one parameter marker for each column that is bound and
    not ignored, for all names without backquotes: building it succeeds when memory
    lasts, its text is the expected one, and [ParseQuery] records exactly as many
    parameter positions as there are columns to bind. *)
Lemma SetPos_insert_markers junk C T r cols b :
  name_ok C -> name_ok T -> Forall name_ok (org_name <$> cols) -> false ∉ answers b ->
  Z.of_nat (length (insert_text C T (used_names r cols))) < 2 ^ 61 ->
  exists b' q, SetPos_insert junk true true (Some C) (Some T) r cols b = Some (false, b') /\ wf (dyn b') /\
    contents (dyn b') = insert_text C T (used_names r cols) /\ sb_Error b' = sb_Error b /\ false ∉ answers b' /\
    ParseQuery (query_of (contents (dyn b'))) false = Some q /\
    length (ParamPositions q) = length (filter (fun c => used_column r c = true) cols).
Proof.
  intros HC HT Hn Ha Hl. assert (Forall name_ok (used_names r cols)) as Hu.
  { unfold used_names. rewrite Forall_fmap in *. rewrite Forall_forall in *. intros c [_ Hc]%list_elem_of_filter. by apply Hn. }
  pose proof Hl as Hl'. unfold insert_text in Hl'. rewrite !length_app in Hl'.
  unfold SetPos_insert, or_else.
  destruct (start_ok junk "INSERT INTO " 8192 b ltac:(lia) ltac:(cbn; lia)) as (b1 & -> & Hw1 & Hc1 & Ha1 & He1).
  cbn [mbind option_bind]. pose proof (length_contents _ Hw1) as L1. rewrite Hc1 in L1.
  destruct (produces_ok _ _ b1 (produces_table junk C T) Hw1) as (b2 & -> & Hw2 & Hc2 & He2 & Ha2);
    [rewrite !length_app; lia|by rewrite Ha1|]. cbn [mbind option_bind].
  pose proof (length_contents _ Hw2) as L2. rewrite Hc2, Hc1, !length_app in L2.
  destruct (DynStrInsertSet_ok junk r cols b2 Hw2 Ha2) as (b3 & -> & Hw3 & He3 & Ha3 & Hc3).
  { unfold insert_text. rewrite !length_app. change (length (chars "INSERT INTO ")) with 12%nat.
    change (length (quoted [])) with 2%nat. change (length (chars ".")) with 1%nat. lia. }
  assert (contents (dyn b3) = insert_text C T (used_names r cols)) as Hc.
  { rewrite Hc3, Hc2, Hc1. unfold insert_text. by rewrite <- !app_assoc. }
  destruct (query_of_markers (insert_text C T (used_names r cols))) as (q & EQ & Hq);
    [by apply nonzero_insert_text|lia|].
  exists b3, q. rewrite Hc. split_and!; try done; [congruence|]. rewrite Hq, insert_text_markers by done.
  unfold used_names. by rewrite length_fmap.
Qed.

Definition sample_rows : bound_rows := MkRows 0 0 1 1 (fun a => if a =? 500 then SQL_COLUMN_IGNORE else 4).
Definition sample_columns : list bound_column := [
  MkColumn (Some (chars "t")) (chars "d") (chars "a?b") PRI_KEY_FLAG true (Some 100);
  MkColumn (Some (chars "t")) (chars "d") (chars "-- c") 0 true (Some 500);
  MkColumn (Some (chars "t")) (chars "d") (chars "e") 0 true None].

Lemma name_ok_bool s : forallb (fun c => negb (c =? 0) && negb (c =? $"`")) s = true -> name_ok s.
Proof.
  intros H. rewrite forallb_forall in H. split.
  - apply Forall_forall. intros c Hc. apply list_elem_of_In, H, andb_true_iff in Hc as [Hc _].
    by apply negb_true_iff, Z.eqb_neq in Hc.
  - intros Hin. apply list_elem_of_In, H in Hin. done.
Qed.

(** The UPDATE of the current row. *)
Definition update_text (C T : list Z) (r : bound_rows) (w : where_source) (cols : list bound_column) : list Z :=
  chars "UPDATE " ++ (((quoted C ++ chars ".") ++ quoted T) ++ (chars " SET " ++ assignments r true cols)) ++
  where_text w false cols.

(** The UPDATE that [MADB_DaeStmt] writes for a positioned update: with a key of
    the table, or all its columns, in the result, every column value readable and
    some column to set, whatever the allocator answers the string stays well formed;
    either its text is the expected one (the table, an assignment for each column
    that is not ignored, a condition on every column of the row, one row at most),
    or an allocation failed and it is a part of that text. *)
Lemma dae_text_update junk C T r w cols b :
  (exists c, c ∈ cols /\ ignored_in_row r c = false) -> has_key w T cols ->
  (forall i, (i < length cols)%nat -> is_Some (GetData w i)) ->
  Z.of_nat (length (update_text C T r w cols)) < 2 ^ 61 ->
  exists failed b', dae_text junk true SQL_UPDATE (Some C) (Some T) r w cols b = Some (failed, b') /\ wf (dyn b') /\
    if (failed : bool) then contents (dyn b') `prefix_of` update_text C T r w cols /\ false ∈ answers b
    else contents (dyn b') = update_text C T r w cols /\ sb_Error b' = sb_Error b.
Proof.
  intros Hset Hk Hg Hl. unfold update_text in Hl. rewrite length_app in Hl. change (length (chars "UPDATE ")) with 7%nat in Hl.
  destruct (start_ok junk "UPDATE " 1024 b ltac:(lia) ltac:(cbn; lia)) as (b1 & E1 & Hw1 & Hc1 & Ha1 & He1).
  pose proof (length_contents _ Hw1) as L1. rewrite Hc1 in L1. change (length (chars "UPDATE ")) with 7%nat in L1.
  pose proof (produces_or _ _ _ _ (produces_or _ _ _ _ (produces_table junk C T) (DynStrUpdateSet_produces junk r cols Hset))
    (DynStrGetWhere_produces junk w T false cols Hk (fun _ => Hg)) b1 Hw1 ltac:(lia)) as (failed & b' & t' & E & Hw' & Hc' & _ & Hr).
  exists failed, b'. split.
  - unfold dae_text, or_else in *. rewrite E1. cbn [mbind option_bind]. exact E.
  - split; [done|]. unfold update_text. rewrite Hc', Hc1. destruct failed; destruct Hr as [Hp Hr].
    + split; [by apply prefix_app|congruence].
    + split; [by rewrite Hp|congruence].
Qed.

Definition sample_where : where_source :=
  MkWhere (fun _ f => if f =? PRI_KEY_FLAG then 1 else 0) (fun _ => 9)
    (fun i => Some (if (i =? 2)%nat then None else Some (chars "x'y")))
    (fun v => v ≫= fun c => if c =? $"'" then [92; c] else [c]).

(** *** Identifier arguments *)

Lemma isspace_nonzero c : isspace c = true -> c <> 0.
Proof. intros H ->. done. Qed.

Lemma last_char_spaces r r' : Forall (fun c => isspace c = true) r -> last_char (r ++ r') = last_char r'.
Proof.
  induction 1 as [|c r Hc _ IH]; [done|]. cbn [app last_char].
  rewrite (proj2 (Z.eqb_neq c 0)) by (by apply isspace_nonzero). by rewrite Hc.
Qed.

Lemma after_quote_spaces r r' : Forall (fun c => isspace c = true) r -> after_quote (r ++ r') = after_quote r'.
Proof.
  induction 1 as [|c r Hc _ IH]; [done|]. cbn [app after_quote].
  rewrite (proj2 (Z.eqb_neq c 0)) by (by apply isspace_nonzero). by rewrite Hc.
Qed.

Lemma last_char_length r r' : last_char r = Some r' -> (length r' <= length r)%nat.
Proof.
  induction r as [|c r IH]; cbn; [intros [= <-]; done|]. destruct (c =? 0); [done|]. destruct (isspace c).
  - intros H. apply IH in H. lia.
  - intros [= <-]. done.
Qed.

Lemma after_quote_length r r' : after_quote r = Some r' -> (length r' < length r)%nat.
Proof.
  induction r as [|c r IH]; cbn; [done|]. destruct (c =? 0); [done|]. destruct (isspace c).
  - intros H. apply IH in H. lia.
  - case_match; [|done]. intros [= <-]. lia.
Qed.

Lemma body_ok_nonzero l : forall prev, body_ok prev l = true -> Forall (fun c => c <> 0) l.
Proof.
  induction l as [|c l IH]; intros prev; cbn; [constructor|]. rewrite andb_true_iff, negb_true_iff, orb_false_iff, Z.eqb_neq.
  intros [[H1 _] H2]. constructor; [done|by eapply IH].
Qed.

Lemma toupper_nonzero c : c <> 0 -> toupper c <> 0.
Proof. unfold toupper, islower. intros H. case_match; [|done]. bprop. lia. Qed.

(** A last quote counts unless a backslash is in front of it. *)
Definition ends_escaped (l : list Z) : bool := match rev l with p :: _ => p =? ESCAPE | [] => false end.

(** [ProcessIdentifierString], for identifier arguments of the catalog functions:
    whatever it is given, what it writes is in single quotes, has no NUL inside and
    fits, with its terminator, in the length of the argument and three bytes; an
    argument in backquotes, between blanks, is taken literally; another one loses its
    trailing blanks and is folded to upper case.  A single quote inside the argument
    is copied as it is. *)
Theorem ProcessIdentifierString_correct s :
  (forall o, ProcessIdentifierString s = Some o ->
     (length o + 1 <= length s + IDENTIFIER_BUFFER_OVERHEAD)%nat /\ Forall (fun c => c <> 0) o /\
     exists body, o = QUOTE_OUT :: body ++ [QUOTE_OUT]) /\
  (forall pre body post, s = pre ++ QUOTE_IN :: body ++ QUOTE_IN :: post ->
     Forall (fun c => isspace c = true) pre -> Forall (fun c => isspace c = true) post ->
     body_ok QUOTE_IN body = true -> ends_escaped body = false ->
     ProcessIdentifierString s = Some (QUOTE_OUT :: body ++ [QUOTE_OUT])) /\
  (forall body c post, s = (body ++ [c]) ++ post -> Forall (fun c => isspace c = true) post -> isspace c = false ->
     c <> QUOTE_IN \/ ends_escaped body = true -> hd 0 (body ++ [c]) <> QUOTE_IN -> body_ok 0 (body ++ [c]) = true ->
     ProcessIdentifierString s = Some (QUOTE_OUT :: (toupper <$> body ++ [c]) ++ [QUOTE_OUT])).
Proof.
  unfold ProcessIdentifierString, IDENTIFIER_BUFFER_OVERHEAD. split_and!.
  - intros o. destruct (last_char (rev s)) as [r|] eqn:El; [|done]. cbn [mbind option_bind].
    apply last_char_length in El. rewrite length_rev in El. destruct r as [|c r'].
    { intros [= <-]. split; [cbn; lia|]. split; [by repeat constructor|by exists []]. }
    cbn [length] in El. destruct (_ && _).
    + destruct (after_quote (rev r')) as [body|] eqn:Eq; [|done]. cbn [mbind option_bind].
      apply after_quote_length in Eq. rewrite length_rev in Eq.
      destruct (body_ok QUOTE_IN body) eqn:Eb; [|done]. intros [= <-].
      split; [cbn; rewrite length_app; cbn; lia|]. split; [|by eexists].
      constructor; [done|]. rewrite Forall_app. split; [by eapply body_ok_nonzero|by repeat constructor].
    + destruct (hd 0 s =? QUOTE_IN); [done|]. destruct (body_ok 0 (rev (c :: r'))) eqn:Eb; [|done]. intros [= <-].
      split; [cbn; rewrite length_app, length_fmap, length_app, length_rev; cbn; lia|]. split; [|by eexists].
      constructor; [done|]. rewrite Forall_app. split; [|by repeat constructor]. rewrite Forall_fmap.
      eapply Forall_impl; [by eapply body_ok_nonzero|]. intros x. apply toupper_nonzero.
  - intros pre body post -> Hpre Hpost Hb He.
    assert (rev (pre ++ QUOTE_IN :: body ++ QUOTE_IN :: post) = rev post ++ QUOTE_IN :: rev body ++ QUOTE_IN :: rev pre) as ->.
    { rewrite rev_app_distr. cbn. rewrite rev_app_distr. cbn. by rewrite <- !app_assoc. }
    rewrite last_char_spaces by (by apply Forall_rev). cbn [last_char].
    change (QUOTE_IN =? 0) with false. change (isspace QUOTE_IN) with false. cbv iota. cbn [mbind option_bind].
    change (QUOTE_IN =? QUOTE_IN) with true. unfold ends_escaped in He.
    assert (match rev body ++ QUOTE_IN :: rev pre with [] => true | p :: _ => negb (p =? ESCAPE) end = true) as ->.
    { destruct (rev body) as [|p l]; [done|]. cbn. by rewrite He. }
    cbn [andb]. rewrite rev_app_distr. cbn [rev]. rewrite rev_involutive, rev_involutive, <- app_assoc.
    rewrite after_quote_spaces by done. cbn [app after_quote]. change (QUOTE_IN =? 0) with false.
    change (isspace QUOTE_IN) with false. change (QUOTE_IN =? QUOTE_IN) with true. cbv iota. cbn [mbind option_bind].
    by rewrite Hb.
  - intros body c post -> Hpost Hc Hq Hh Hb. rewrite rev_app_distr, last_char_spaces by (by apply Forall_rev).
    rewrite rev_app_distr. cbn [rev app last_char].
    assert (c <> 0) as Hc0.
    { apply body_ok_nonzero in Hb. rewrite Forall_app in Hb. destruct Hb as [_ Hb]. by inversion Hb. }
    rewrite (proj2 (Z.eqb_neq c 0)) by done. rewrite Hc. cbn [mbind option_bind].
    assert ((c =? QUOTE_IN) && match rev body with [] => true | p :: _ => negb (p =? ESCAPE) end = false) as ->.
    { destruct Hq as [Hq|Hq]; [by rewrite (proj2 (Z.eqb_neq c _))|]. unfold ends_escaped in Hq.
      destruct (rev body) as [|p l]; [done|]. rewrite Hq. by rewrite andb_false_r. }
    assert (hd 0 ((body ++ [c]) ++ post) = hd 0 (body ++ [c])) as -> by (by destruct body).
    rewrite (proj2 (Z.eqb_neq _ QUOTE_IN)) by done. cbn [rev]. rewrite rev_involutive. by rewrite Hb.
Qed.

(** A name in backquotes with blanks around it, and one that is not quoted. *)
Lemma ProcessIdentifierString_correct_witness :
  ProcessIdentifierString (chars "  `My'Tab` ") = Some (chars "'My'Tab'") /\
  ProcessIdentifierString (chars "mytab  ") = Some (chars "'MYTAB'").
Proof.
  split.
  - apply (proj1 (proj2 (ProcessIdentifierString_correct (chars "  `My'Tab` "))) (chars "  ") (chars "My'Tab") (chars " "));
      [reflexivity|by repeat constructor|by repeat constructor|reflexivity|reflexivity].
  - apply (proj2 (proj2 (ProcessIdentifierString_correct (chars "mytab  "))) (chars "myta") ($"b") (chars "  "));
      [reflexivity|by repeat constructor|reflexivity|by left|discriminate|reflexivity].
Defined.

End StrBuildProps.
