(* ===== verification/SetPos.v ===== *)
(** * SetPos: positioned and bulk operations

    Models the data-changing operations of [MADB_StmtSetPos] (SQL_ADD, SQL_DELETE),
    [MADB_StmtBulkOperations] and the default values of columns
    ([MADB_GetDefaultColumnValues], [MADB_GetDefaultColumnValue]), and
    [MADB_DaeStmt], with the statement the driver allocates for them beside the one
    of the application.  The texts come from StrBuild.v, the cursor from Cursor.v.

    Statement handles are numbers; [live] has the ones that are allocated.  Using or
    freeing another one is undefined behaviour, the result [None].  The critical
    section of the connection is recursive: [locks] is its depth. *)

From Stdlib Require Import ZArith Lia.
From stdpp Require Import base strings numbers option gmap list.
From S2P Require Import Prelude Odbc Errors Dynamic Parse SqlTypes Desc StmtAttr Cursor Numeric StrBuild.
Import ErrorOps DynString Cursor StrBuild.

Inductive MADB_DaeType := MADB_DAE_NORMAL | MADB_DAE_ADD | MADB_DAE_UPDATE | MADB_DAE_DELETE.

#[export] Instance MADB_DaeType_eq_dec : EqDecision MADB_DaeType.
Proof. solve_decision. Defined.

(** A column of the result with its record in the row descriptor. *)
Record bound_field := MkField {
  bf_column : bound_column;
  bf_ConciseType : Z;
  bf_Type : Z;
  bf_DescLength : Z;
  bf_Precision : Z;
  bf_Scale : Z;
  bf_DataPtr : option Z;
  bf_OctetLength : Z;
  bf_OctetLengthPtr : option Z;
}.

(** A call of [BindParam]; the column size is [None] where the code passes a variable
    without a value.  [bc_Default] is stored in the record afterwards. *)
Record bind_call := MkBind {
  ParameterNumber : nat;
  bc_ValueType : Z;
  bc_ParameterType : Z;
  bc_ColumnSize : option Z;
  bc_DecimalDigits : Z;
  bc_ParameterValue : option Z;
  bc_BufferLength : Z;
  bc_Indicator : option Z;
  bc_Default : option (list Z);
}.

(** How the allocation of a statement ends: done, the connection is lost, one of its
    parts could not be allocated, or not even the statement. *)
Inductive alloc_answer := alloc_done | alloc_not_connected | alloc_incomplete | alloc_no_memory.

(** What the outside world does: allocation of the statement, the answer of the server
    when the text is prepared (the error record of the failed statement), when the
    defaults are asked for (its rows), and when the statement is executed. *)
Record dae_world := MkWorld {
  dw_alloc : alloc_answer;
  dw_prepare : list Z -> option MADB_Error;
  dw_defaults : list Z -> option (list (list Z * list Z));
  dw_execute : list bind_call -> Z * MADB_Error * Z;
}.

Record pos_state (A : Type) := MkPos {
  fetch : fetch_state A;
  DaeStmt : option nat;
  live : list nat;
  next_handle : nat;
  DataExecutionType : MADB_DaeType;
  pos_DaeRowNumber : Z;
  CatalogName : option (list Z);
  TableName : option (list Z);
  conn_Error : MADB_Error;
  locks : Z;
  sent : list (list Z);
  DefaultsResult : option (list (list Z * list Z));
  bound : list bind_call;
}.
Arguments MkPos {A}. Arguments fetch {A}. Arguments DaeStmt {A}. Arguments live {A}. Arguments next_handle {A}.
Arguments DataExecutionType {A}. Arguments pos_DaeRowNumber {A}. Arguments CatalogName {A}. Arguments TableName {A}.
Arguments conn_Error {A}. Arguments locks {A}. Arguments sent {A}.
Arguments DefaultsResult {A}. Arguments bound {A}.

Module SetPos.

Section Operations.
Context {A : Type} (junk : Z).
Implicit Types (s : pos_state A).

(** ** State *)

Definition with_fetch s (f : fetch_state A) : pos_state A :=
  MkPos f (DaeStmt s) (live s) (next_handle s) (DataExecutionType s) (pos_DaeRowNumber s) (CatalogName s) (TableName s)
    (conn_Error s) (locks s) (sent s) (DefaultsResult s) (bound s).
Definition with_dae s (h : option nat) (l : list nat) (n : nat) : pos_state A :=
  MkPos (fetch s) h l n (DataExecutionType s) (pos_DaeRowNumber s) (CatalogName s) (TableName s)
    (conn_Error s) (locks s) (sent s) (DefaultsResult s) (bound s).
Definition with_type s (t : MADB_DaeType) : pos_state A :=
  MkPos (fetch s) (DaeStmt s) (live s) (next_handle s) t (pos_DaeRowNumber s) (CatalogName s) (TableName s)
    (conn_Error s) (locks s) (sent s) (DefaultsResult s) (bound s).
Definition with_row s (n : Z) : pos_state A :=
  MkPos (fetch s) (DaeStmt s) (live s) (next_handle s) (DataExecutionType s) n (CatalogName s) (TableName s)
    (conn_Error s) (locks s) (sent s) (DefaultsResult s) (bound s).
Definition with_names s (C T : option (list Z)) : pos_state A :=
  MkPos (fetch s) (DaeStmt s) (live s) (next_handle s) (DataExecutionType s) (pos_DaeRowNumber s) C T
    (conn_Error s) (locks s) (sent s) (DefaultsResult s) (bound s).
Definition with_conn s (E : MADB_Error) : pos_state A :=
  MkPos (fetch s) (DaeStmt s) (live s) (next_handle s) (DataExecutionType s) (pos_DaeRowNumber s) (CatalogName s) (TableName s)
    E (locks s) (sent s) (DefaultsResult s) (bound s).
Definition with_locks s (n : Z) : pos_state A :=
  MkPos (fetch s) (DaeStmt s) (live s) (next_handle s) (DataExecutionType s) (pos_DaeRowNumber s) (CatalogName s) (TableName s)
    (conn_Error s) n (sent s) (DefaultsResult s) (bound s).
Definition send s (q : list Z) : pos_state A :=
  MkPos (fetch s) (DaeStmt s) (live s) (next_handle s) (DataExecutionType s) (pos_DaeRowNumber s) (CatalogName s) (TableName s)
    (conn_Error s) (locks s) (sent s ++ [q]) (DefaultsResult s) (bound s).

Definition with_defaults s (d : option (list (list Z * list Z))) : pos_state A :=
  MkPos (fetch s) (DaeStmt s) (live s) (next_handle s) (DataExecutionType s) (pos_DaeRowNumber s) (CatalogName s) (TableName s)
    (conn_Error s) (locks s) (sent s) d (bound s).
Definition with_bound s (l : list bind_call) : pos_state A :=
  MkPos (fetch s) (DaeStmt s) (live s) (next_handle s) (DataExecutionType s) (pos_DaeRowNumber s) (CatalogName s) (TableName s)
    (conn_Error s) (locks s) (sent s) (DefaultsResult s) l.

Definition pos_Error s : MADB_Error := fs_Error (fetch s).
Definition with_Error s (E : MADB_Error) : pos_state A := with_fetch s (set_Error (fetch s) E).
Definition LOCK_MARIADB s : pos_state A := with_locks s (locks s + 1).
Definition UNLOCK_MARIADB s : pos_state A := with_locks s (locks s - 1).

(** Set an error and return its return value. *)
Definition error s (code : nat) (msg : option (list Z)) (native : Z) : Z * pos_state A :=
  let E := MADB_SetError (pos_Error s) code msg native in (ReturnValue E, with_Error s E).

(** ** The inner statement *)

(** The handle is there and allocated. *)
Definition use_DaeStmt s : option nat :=
  h ← DaeStmt s; if bool_decide (h ∈ live s) then Some h else None.

(** [StmtFree] with SQL_DROP on the inner statement; a null handle is only refused.
    The caller's variable keeps its value. *)
Definition free_DaeStmt s : option (pos_state A) :=
  match DaeStmt s with
  | None => Some s
  | Some _ => h ← use_DaeStmt s; Some (with_dae s (DaeStmt s) (filter (fun x => x <> h) (live s)) (next_handle s))
  end.

(** [MA_SQLAllocHandle] for a statement, with [MADB_StmtInit]: the handle is stored
    before the statement is complete, and a failed allocation of the statement itself
    ends in the clean-up of a null pointer. *)
Definition alloc_DaeStmt (a : alloc_answer) s0 : option (Z * pos_state A) :=
  let s := with_conn s0 (MADB_CLEAR_ERROR (conn_Error s0)) in
  match a with
  | alloc_done => Some (SQL_SUCCESS, with_dae s (Some (next_handle s)) (next_handle s :: live s) (S (next_handle s)))
  | alloc_not_connected => Some (SQL_ERROR, with_conn s (MADB_SetError (conn_Error s) MADB_ERR_08003 None 0))
  | alloc_incomplete => Some (SQL_ERROR, with_dae s (Some (next_handle s)) (live s) (S (next_handle s)))
  | alloc_no_memory => None
  end.

(** The names of table and catalog, found out or remembered. *)
Definition names (cols : list bound_column) s : option (list Z) * option (list Z) * pos_state A :=
  let '(T, t, E1) := MADB_GetTableName (TableName s) cols (pos_Error s) in
  let '(C, c, E2) := MADB_GetCatalogName (CatalogName s) cols E1 in
  (C, T, with_Error (with_names s c t) E2).

(** A builder run on the statement's error record. *)
Definition build (f : builder -> option (bool * builder)) (answers : list bool) s
    : option (bool * list Z * list bool * pos_state A) :=
  '(failed, b) ← f (MkBuilder answers (Dyn None 0 0 0) (pos_Error s));
  Some (failed, contents (dyn b), StrBuild.answers b, with_Error s (sb_Error b)).

(** Prepare the text with the inner statement; when that fails its error is copied and
    it is freed. *)
Definition prepare_DaeStmt (prepare : list Z -> option MADB_Error) (t : list Z) s : option (bool * pos_state A) :=
  _ ← use_DaeStmt s;
  match prepare t with
  | None => Some (true, send s t)
  | Some E => s' ← free_DaeStmt (with_Error s (MADB_CopyError (pos_Error s) E)); Some (false, s')
  end.

Definition dae_type (op : dae_operation) : MADB_DaeType :=
  match op with SQL_ADD => MADB_DAE_ADD | SQL_DELETE => MADB_DAE_DELETE | SQL_UPDATE => MADB_DAE_UPDATE end.

(** [MADB_DaeStmt]; [ok] and [answers] are the answers of the allocator. *)
Definition MADB_DaeStmt (w : dae_world) (ok : bool) (answers : list bool) (op : dae_operation) (r : bound_rows)
    (ws : where_source) (cols : list bound_column) s : option (Z * pos_state A) :=
  let '(C, T, s0) := names cols s in
  s1 ← free_DaeStmt (with_Error s0 (MADB_CLEAR_ERROR (pos_Error s0)));
  '(rc, s2) ← alloc_DaeStmt (dw_alloc w) (with_dae s1 None (live s1) (next_handle s1));
  if negb (SQL_SUCCEEDED rc) then
    let E := MADB_CopyError (pos_Error s2) (conn_Error s2) in Some (ReturnValue E, with_Error s2 E)
  else
    '(failed, t, _, s3) ← build (dae_text junk ok op C T r ws cols) answers s2;
    if (failed : bool) then Some (ReturnValue (pos_Error s3), s3)
    else
      '(_, s4) ← prepare_DaeStmt (dw_prepare w) t (with_type s3 (dae_type op));
      Some (ReturnValue (pos_Error s4), s4).

(** ** Default values *)

(** The loop over the columns: a comma in front of every column but the first one of
    the result. *)
Definition default_name (r : bound_rows) (i : nat) (c : bound_column) : builder -> option (bool * builder) :=
  if negb (used_column r c) then skip
  else or_else (or_else (append junk (if (0 <? i)%nat then chars ",'" else chars "'")) (append junk (org_name c)))
         (append junk (chars "'")).

Definition default_condition (r : bound_rows) (C T : list Z) (cols : list bound_column) : builder -> option (bool * builder) :=
  or_else (or_else (or_else (or_else (or_else (append junk C) (append junk (chars "' AND TABLE_NAME='")))
    (append junk T)) (append junk (chars "' AND COLUMN_NAME IN (")))
    (each (default_name r) 0 cols)) (append junk (chars ") AND COLUMN_DEFAULT IS NOT NULL")).

(** The query; the failed allocation of its beginning is not looked at. *)
Definition default_query (ok : bool) (r : bound_rows) (cols : list bound_column) (b : builder)
    : option (bool * builder) :=
  '(_, d) ← MADB_InitDynamicString junk ok
    (Some (chars "SELECT COLUMN_NAME, COLUMN_DEFAULT FROM INFORMATION_SCHEMA.COLUMNS WHERE TABLE_SCHEMA='")) 512 512;
  c ← head cols;
  T ← org_table c;
  default_condition r (db c) T cols (MkBuilder (answers b) d (sb_Error b)).

(** [MADB_GetDefaultColumnValues]; the label [error] unlocks also when the lock was
    not taken. *)
Definition MADB_GetDefaultColumnValues (w : dae_world) (ok : bool) (answers : list bool) (r : bound_rows)
    (cols : list bound_column) s : option (option (list (list Z * list Z)) * list bool * pos_state A) :=
  '(failed, t, answers', s1) ← build (default_query ok r cols) answers s;
  if (failed : bool) then Some (None, answers', UNLOCK_MARIADB s1)
  else Some (dw_defaults w t, answers', UNLOCK_MARIADB (send (LOCK_MARIADB s1) t)).

(** [MADB_GetDefaultColumnValue]: the first row with the name, whatever its case. *)
Definition MADB_GetDefaultColumnValue (res : option (list (list Z * list Z))) (Column : list Z) : option (list Z) :=
  rows ← res; '(_, row) ← list_find (fun row => stricmp_eq (fst row) Column = true) rows; Some (snd row).

(** ** SQL_ADD *)

(** The column size that is passed on. *)
Definition column_size (f : bound_field) : option Z :=
  let t := bf_Type f in
  if existsb (Z.eqb t) [SQL_BINARY; SQL_VARBINARY; SQL_LONGVARBINARY; SQL_CHAR; SQL_VARCHAR; SQL_LONGVARCHAR; SQL_WCHAR;
       SQL_WLONGVARCHAR; SQL_WVARCHAR] then Some (bf_DescLength f)
  else if existsb (Z.eqb t) [SQL_FLOAT; SQL_REAL; SQL_DOUBLE; SQL_DECIMAL; SQL_NUMERIC] then Some (bf_Precision f)
  else None.

Definition bind_field (defaults : option (list (list Z * list Z))) (param : nat) (f : bound_field) : bind_call :=
  MkBind (S param) (bf_ConciseType f) (bf_Type f) (column_size f) (bf_Scale f) (bf_DataPtr f) (bf_OctetLength f)
    (bf_OctetLengthPtr f) (MADB_GetDefaultColumnValue defaults (org_name (bf_column f))).

(** The loop that binds the parameters. *)
Fixpoint bind_columns (r : bound_rows) (defaults : option (list (list Z * list Z))) (param : nat) (fields : list bound_field)
    : list bind_call :=
  match fields with
  | [] => []
  | f :: fields' =>
      if used_column r (bf_column f) then bind_field defaults param f :: bind_columns r defaults (S param) fields'
      else bind_columns r defaults param fields'
  end.

(** A dynamic cursor executes its statement again. *)
Definition refresh (c : fetch_config) (execute : fetch_state A -> Z * fetch_state A) s : Z * pos_state A :=
  if CursorType (fc_Options c) =? SQL_CURSOR_DYNAMIC then
    let '(rc, f) := MADB_RefreshDynamicCursor execute (fetch s) in (rc, with_fetch s f)
  else (SQL_SUCCESS, s).

(** The answers of the allocator: for the statement text, its values, the query for the
    defaults, and every append. *)
Record add_memory := MkAddMemory { am_text : bool; am_values : bool; am_defaults : bool; am_appends : list bool }.

(** The inner statement is allocated and prepared; a number is the code to return. *)
Definition add_prepare (w : dae_world) (m : add_memory) (r : bound_rows) (cols : list bound_column)
    (C T : option (list Z)) s : option (option Z * pos_state A) :=
  s1 ← free_DaeStmt s;
  '(_, s2) ← alloc_DaeStmt (dw_alloc w) s1;
  '(failed, t, answers, s3) ← build (SetPos_insert junk (am_text m) (am_values m) C T r cols) (am_appends m) s2;
  if (failed : bool) then Some (Some (ReturnValue (pos_Error s3)), s3)
  else
    '(d, _, s4) ← MADB_GetDefaultColumnValues w (am_defaults m) answers r cols s3;
    _ ← use_DaeStmt s4;
    '(prepared, s5) ← prepare_DaeStmt (dw_prepare w) t (with_type (with_defaults s4 d) MADB_DAE_ADD);
    Some (if (prepared : bool) then None else Some (ReturnValue (pos_Error s5)), s5).

(** The parameters are bound and the statement is executed. *)
Definition add_execute (w : dae_world) (r : bound_rows) (fields : list bound_field) s0 : option (Z * pos_state A) :=
  _ ← use_DaeStmt s0;
  let s := with_bound s0 (bind_columns r (DefaultsResult s0) 0 fields) in
  let '(ret, E, affected) := dw_execute w (bound s) in
  if negb (SQL_SUCCEEDED ret) then Some (ret, with_Error s (MADB_CopyError (pos_Error s) E))
  else
    let before := if AffectedRows (fetch s) =? -1 then 0 else AffectedRows (fetch s) in
    let s1 := with_type (with_fetch s (set_AffectedRows (fetch s) (wraps 64 (before + affected)))) MADB_DAE_NORMAL in
    s2 ← free_DaeStmt s1;
    Some (SQL_SUCCESS, with_dae s2 None (live s2) (next_handle s2)).

(** The case SQL_ADD of [MADB_StmtSetPos]. *)
Definition SetPos_ADD (w : dae_world) (c : fetch_config) (execute : fetch_state A -> Z * fetch_state A) (m : add_memory)
    (r : bound_rows) (fields : list bound_field) (RowNumber : Z) s : option (Z * pos_state A) :=
  let '(C, T, s0) := names (bf_column <$> fields) s in
  let '(rc, s1) := refresh c execute s0 in
  if negb (SQL_SUCCEEDED rc) then Some (ReturnValue (pos_Error s1), s1)
  else
    let s2 := with_row s1 RowNumber in
    '(ret, s3) ← if bool_decide (DataExecutionType s2 = MADB_DAE_ADD) then Some (None, s2)
                 else add_prepare w m r (bf_column <$> fields) C T s2;
    match ret with
    | Some code => Some (code, s3)
    | None => add_execute w r fields s3
    end.

(** ** SQL_DELETE *)

(** What a DELETE needs: the columns for the condition at the current row, the answer
    of the server to each statement (message and code of an error, or the number of rows)
    and the answers of the allocator for each row: the flags of [MoveNext], the text and
    the appends. *)
Record delete_world := MkDelete {
  dl_where : fetch_state A -> where_source;
  dl_server : list (list Z) -> (list Z * Z) + Z;
  dl_memory : nat -> bool * bool * list bool;
}.

(** The text for the current row; a failed start is not looked at. *)
Definition delete_text (d : delete_world) (i : nat) (T : list Z) (cols : list bound_column) s
    : builder -> option (bool * builder) := fun b0 =>
  '(_, b) ← start junk (snd (fst (dl_memory d i))) "DELETE FROM " 8192 b0;
  or_else (MADB_DynStrAppendQuoted junk T) (MADB_DynStrGetWhere junk (dl_where d (fetch s)) T false cols) b.

(** One round of the loop: the code to return, or none to go on. *)
Definition delete_row (d : delete_world) (c : fetch_config) (io : row_io A) (T : list Z) (cols : list bound_column)
    (i : nat) (Start : Z) s : option (option Z * pos_state A) :=
  let f := snd (MADB_StmtDataSeek (fetch s) Start) in
  let s1 := with_fetch s (snd (MoveNext (fst (fst (dl_memory d i))) c io f 1)) in
  '(failed, t, _, s2) ← build (delete_text d i T cols s1) (snd (dl_memory d i)) s1;
  if (failed : bool) then let '(rc, s3) := error s2 MADB_ERR_HY001 None 0 in Some (Some rc, s3)
  else
    let s3 := send (LOCK_MARIADB s2) t in
    match dl_server d (sent s3) with
    | inl (msg, errno) => let '(rc, s4) := error s3 MADB_ERR_HY001 (Some msg) errno in Some (Some rc, UNLOCK_MARIADB s4)
    | inr n => Some (None, with_fetch s3 (set_AffectedRows (fetch s3) (wraps 64 (AffectedRows (fetch s3) + n))))
    end.

Fixpoint delete_loop (d : delete_world) (c : fetch_config) (io : row_io A) (T : list Z) (cols : list bound_column)
    (fuel i : nat) (Start End : Z) s : option (option Z * pos_state A) :=
  if End <? Start then Some (None, s)
  else
    match fuel with
    | O => None
    | S fuel' =>
        '(ret, s1) ← delete_row d c io T cols i Start s;
        match ret with
        | Some rc => Some (Some rc, s1)
        | None => delete_loop d c io T cols fuel' (S i) (wrapu 64 (Start + 1)) End s1
        end
    end.

Definition set_ArraySize (f : fetch_state A) (n : Z) : fetch_state A :=
  MkFetch (rows f) (result_cursor f) (Position f) (RowsetSize f) (Next f) (LastRowFetched f) (PositionedCursor f)
    (AffectedRows f) (has_result f) (column_count f) n (fs_Error f) (app f).

(** The case SQL_DELETE of [MADB_StmtSetPos]. *)
Definition SetPos_DELETE (d : delete_world) (c : fetch_config) (io : row_io A) (execute : fetch_state A -> Z * fetch_state A)
    (cols : list bound_column) (RowNumber : Z) s : option (Z * pos_state A) :=
  let SaveArraySize := fs_ArraySize (fetch s) in
  let End := mysql_stmt_num_rows (fetch s) in
  let '(T, t, E) := MADB_GetTableName (TableName s) cols (pos_Error s) in
  let s0 := with_Error (with_names s (CatalogName s) t) E in
  match T with
  | None => Some (error s0 MADB_ERR_IM001 (Some (chars "Updatable Cursors with multiple tables are not supported")) 0)
  | Some T =>
      let '(rc, s1) := refresh c execute (with_fetch s0 (set_ArraySize (fetch s0) 1)) in
      if negb (SQL_SUCCEEDED rc) then Some (ReturnValue (pos_Error s1), s1)
      else
        let s2 := with_fetch s1 (set_AffectedRows (fetch s1) 0) in
        if End <? RowNumber then Some (error s2 MADB_ERR_HY109 None 0)
        else
          let Start := wrapu 64 (if RowNumber =? 0 then Position (fetch s2) else Position (fetch s2) + RowNumber - 1) in
          let End := if negb (SaveArraySize =? 0) && (RowNumber =? 0) then Z.min End (wrapu 64 (Start + SaveArraySize - 1))
                     else Start in
          '(ret, s3) ← delete_loop d c io T cols (Z.to_nat (End - Start + 1)) 0 Start End s2;
          match ret with
          | Some rc => Some (rc, s3)
          | None =>
              let s4 := UNLOCK_MARIADB s3 in
              let f := set_ArraySize (fetch s4) SaveArraySize in
              Some (SQL_SUCCESS, with_fetch s4
                (if CursorType (fc_Options c) =? SQL_CURSOR_DYNAMIC
                 then set_LastRowFetched f (wraps 64 (LastRowFetched f - wrapu 64 (AffectedRows f))) else f))
          end
  end.

(** ** The handlers *)

Definition OP_DELETE : Z := 3.
Definition OP_ADD : Z := 4.

(** [MADB_StmtSetPos], all operations; [fields_known] tells whether the statement has
    metadata. *)
Definition StmtSetPos (w : dae_world) (d : delete_world) (c : fetch_config) (io : row_io A)
    (execute : fetch_state A -> Z * fetch_state A) (m : add_memory) (r : bound_rows) (fields : list bound_field)
    (fields_known : bool) (RowNumber Operation LockType : Z) s : option (Z * pos_state A) :=
  match MADB_StmtSetPos execute fields_known c (fetch s) RowNumber Operation LockType with
  | Some (rc, f) => Some (rc, with_fetch s f)
  | None =>
      if Operation =? OP_ADD then SetPos_ADD w c execute m r fields RowNumber s
      else if Operation =? OP_DELETE then SetPos_DELETE d c io execute (bf_column <$> fields) RowNumber s
      else Some (error s MADB_ERR_HYC00 (Some (chars "Operation is not supported")) 0)
  end.

Definition MADB_StmtBulkOperations (w : dae_world) (d : delete_world) (c : fetch_config) (io : row_io A)
    (execute : fetch_state A -> Z * fetch_state A) (m : add_memory) (r : bound_rows) (fields : list bound_field)
    (fields_known : bool) (Operation : Z) s : option (Z * pos_state A) :=
  let s0 := with_Error s (MADB_CLEAR_ERROR (pos_Error s)) in
  if Operation =? OP_ADD then StmtSetPos w d c io execute m r fields fields_known 0 OP_ADD SQL_LOCK_NO_CHANGE s0
  else Some (error s0 MADB_ERR_HYC00 (Some (chars "Operation is not supported")) 0).

End Operations.
End SetPos.

(** ** Properties *)

Module SetPosProps.
Import SetPos Tokenizer StrBuildProps.

Section Props.
Context {A : Type} (junk : Z).
Implicit Types (s : pos_state A).

(** Evaluates the fields of an updated state, and nothing else. *)
Ltac fields :=
  cbn [fetch DaeStmt live next_handle DataExecutionType pos_DaeRowNumber CatalogName TableName conn_Error locks sent
       DefaultsResult bound with_fetch with_dae with_type with_row with_names with_conn with_locks with_defaults with_bound
       send with_Error LOCK_MARIADB UNLOCK_MARIADB pos_Error rows result_cursor Position LastRowFetched AffectedRows
       has_result fs_ArraySize fs_Error set_AffectedRows set_ArraySize set_Error].

(** *** The query for the defaults *)

Definition default_part (r : bound_rows) (i : nat) (c : bound_column) : list Z :=
  if used_column r c then (if (0 <? i)%nat then chars ",'" else chars "'") ++ org_name c ++ chars "'" else [].

Definition default_tail (r : bound_rows) (T : list Z) (cols : list bound_column) (C : list Z) : list Z :=
  C ++ chars "' AND TABLE_NAME='" ++ T ++ chars "' AND COLUMN_NAME IN (" ++ concat (imap (default_part r) cols) ++
  chars ") AND COLUMN_DEFAULT IS NOT NULL".

Definition default_head : list Z :=
  chars "SELECT COLUMN_NAME, COLUMN_DEFAULT FROM INFORMATION_SCHEMA.COLUMNS WHERE TABLE_SCHEMA='".

Lemma default_name_produces r i c : produces (default_name junk r i c) (default_part r i c).
Proof.
  unfold default_name, default_part. destruct (used_column r c); cbn [negb]; [|apply produces_skip].
  rewrite app_assoc. auto using produces_or, produces_append.
Qed.

Lemma default_condition_produces r C T cols : produces (default_condition junk r C T cols) (default_tail r T cols C).
Proof.
  unfold default_condition, default_tail. rewrite !app_assoc.
  repeat apply produces_or; try apply produces_append.
  apply (produces_each (default_name junk r) (default_part r) cols 0). intros j x _. apply default_name_produces.
Qed.

Lemma default_query_text r c cols T b : head cols = Some c -> org_table c = Some T -> false ∉ answers b ->
  Z.of_nat (length (default_tail r T cols (db c))) < 2 ^ 61 ->
  exists b', default_query junk true r cols b = Some (false, b') /\
    contents (dyn b') = default_head ++ default_tail r T cols (db c) /\ sb_Error b' = sb_Error b.
Proof.
  intros Hc HT Ha Hl. unfold default_query.
  destruct (MADB_InitDynamicString_cases junk default_head 512 512) as [_ H];
    [vm_compute; congruence|lia|lia|]. destruct H as (d & E & Hd & Hcd); [cbn; lia|].
  unfold default_head in E. rewrite E, Hc. cbn [mbind option_bind]. rewrite HT. cbn [mbind option_bind].
  pose proof (length_contents _ Hd) as L. rewrite Hcd in L. assert (length default_head < 100)%nat by (vm_compute; lia).
  destruct (produces_ok _ _ (MkBuilder (answers b) d (sb_Error b)) (default_condition_produces r (db c) T cols) Hd)
    as (b' & -> & _ & Hb & He & _); [cbn [dyn]; lia|exact Ha|].
  exists b'. split; [done|]. cbn [dyn sb_Error] in *. by rewrite Hb, Hcd.
Qed.

(** *** SQL_ADD *)

Lemma bind_columns_used r d fields : forall param,
  bind_columns r d param fields = imap (fun k f => bind_field d (param + k) f) (filter (fun f => used_column r (bf_column f) = true) fields).
Proof.
  induction fields as [|f fields IH]; intros param; [done|]. cbn [bind_columns]. rewrite filter_cons, !IH.
  destruct (used_column r (bf_column f)); [|by rewrite decide_False].
  rewrite decide_True by done. cbn [imap]. rewrite Nat.add_0_r. f_equal. apply imap_ext. intros k y _.
  cbn. by rewrite Nat.add_succ_r.
Qed.

Lemma filter_fresh (h : nat) (l : list nat) : h ∉ l -> filter (fun x => x <> h) l = l.
Proof.
  induction l as [|x l IH]; [done|]. rewrite not_elem_of_cons. intros [Hx Hl]. rewrite filter_cons_True by done. by rewrite IH.
Qed.

Lemma filter_columns r (fields : list bound_field) :
  filter (fun c => used_column r c = true) (bf_column <$> fields) =
  bf_column <$> filter (fun f => used_column r (bf_column f) = true) fields.
Proof.
  induction fields as [|f fields IH]; [done|]. rewrite fmap_cons, !filter_cons, IH. cbn. by destruct (decide _).
Qed.

Lemma use_live s h : DaeStmt s = Some h -> h ∈ live s -> use_DaeStmt s = Some h.
Proof. intros E H. unfold use_DaeStmt. rewrite E. cbn [mbind option_bind]. by rewrite bool_decide_true. Qed.

Lemma free_live s h : DaeStmt s = Some h -> h ∈ live s ->
  free_DaeStmt s = Some (with_dae s (DaeStmt s) (filter (fun x => x <> h) (live s)) (next_handle s)).
Proof. intros E H. unfold free_DaeStmt. rewrite (use_live s h E H), E. done. Qed.

Lemma prepare_live p t s h : DaeStmt s = Some h -> h ∈ live s -> prepare_DaeStmt p t s =
  match p t with
  | None => Some (true, send s t)
  | Some E => Some (false, with_dae (with_Error s (MADB_CopyError (pos_Error s) E)) (Some h)
                (filter (fun x => x <> h) (live s)) (next_handle s))
  end.
Proof.
  intros E H. unfold prepare_DaeStmt. rewrite (use_live s h E H). cbn [mbind option_bind].
  destruct (p t) as [F|]; [|done]. generalize (MADB_CopyError (pos_Error s) F). intros G.
  rewrite (free_live (with_Error s G) h E H). cbn [mbind option_bind]. by rewrite <- E.
Qed.

Lemma use_dead s h : DaeStmt s = Some h -> h ∉ live s -> use_DaeStmt s = None /\ free_DaeStmt s = None.
Proof.
  intros E H. unfold free_DaeStmt, use_DaeStmt. rewrite E. cbn [mbind option_bind]. by rewrite bool_decide_false.
Qed.

Lemma CopyError_return To From : ReturnValue (MADB_CopyError To From) = ReturnValue From.
Proof. done. Qed.

(** No allocation fails and the statement can be allocated. *)
Definition good_memory (w : dae_world) (m : add_memory) : Prop :=
  dw_alloc w = alloc_done /\ am_text m = true /\ am_values m = true /\ am_defaults m = true /\ false ∉ am_appends m.

(** What the texts are made of. *)
Record add_input (r : bound_rows) (cols : list bound_column) (C T : list Z) : Prop := {
  ai_catalog : name_ok C;
  ai_table : name_ok T;
  ai_names : Forall name_ok (org_name <$> cols);
  ai_short : Z.of_nat (length (insert_text C T (used_names r cols))) < 2 ^ 61;
  ai_first : exists c T1, head cols = Some c /\ org_table c = Some T1 /\
               Z.of_nat (length (default_tail r T1 cols (db c))) < 2 ^ 61;
}.

Lemma build_insert r cols C T answers s : add_input r cols C T -> false ∉ answers ->
  exists answers' E, build (SetPos_insert junk true true (Some C) (Some T) r cols) answers s =
    Some (false, insert_text C T (used_names r cols), answers', with_Error s E) /\ false ∉ answers'.
Proof.
  intros [HC HT Hn Hs _] Hm. unfold build.
  destruct (SetPos_insert_markers junk C T r cols (MkBuilder answers (Dyn None 0 0 0) (pos_Error s)) HC HT Hn Hm Hs)
    as (b1 & q & -> & _ & Hc1 & He1 & Ha1 & _).
  exists (StrBuild.answers b1), (sb_Error b1). cbn [mbind option_bind]. by rewrite Hc1.
Qed.

Lemma default_values_ok w r cols C T answers s : add_input r cols C T -> false ∉ answers ->
  exists answers' E query, MADB_GetDefaultColumnValues junk w true answers r cols s =
    Some (dw_defaults w query, answers', UNLOCK_MARIADB (send (LOCK_MARIADB (with_Error s E)) query)).
Proof.
  intros [_ _ _ _ (c & T1 & Hc & HT1 & Hd)] Ha. unfold MADB_GetDefaultColumnValues, build.
  destruct (default_query_text r c cols T1 (MkBuilder answers (Dyn None 0 0 0) (pos_Error s)) Hc HT1 Ha Hd)
    as (b3 & -> & Hc3 & He3).
  exists (StrBuild.answers b3), (sb_Error b3), (contents (dyn b3)). reflexivity.
Qed.

(** Preparing: both texts are sent, or the inner statement is gone while the variable
    still has its handle. *)
Lemma add_prepare_cases w m r cols C T s : good_memory w m -> add_input r cols C T -> DaeStmt s = None ->
  next_handle s ∉ live s ->
  let t := insert_text C T (used_names r cols) in
  exists query s', add_prepare junk w m r cols (Some C) (Some T) s =
      Some (match dw_prepare w t with None => None | Some E => Some (ReturnValue E) end, s') /\
    DaeStmt s' = Some (next_handle s) /\ DataExecutionType s' = MADB_DAE_ADD /\ DefaultsResult s' = dw_defaults w query /\
    locks s' = locks s /\ AffectedRows (fetch s') = AffectedRows (fetch s) /\
    match dw_prepare w t with
    | None => live s' = next_handle s :: live s /\ sent s' = sent s ++ [query; t]
    | Some E => live s' = live s /\ sent s' = sent s ++ [query]
    end.
Proof.
  intros (Hw & Hm1 & Hm2 & Hm3 & Hm) HI HD Hnew t. subst t. generalize (build_insert r cols C T (am_appends m)).
  generalize (insert_text C T (used_names r cols)). intros t Hb.
  unfold add_prepare, free_DaeStmt. rewrite HD. cbn [mbind option_bind]. rewrite Hw. unfold alloc_DaeStmt.
  generalize (MADB_CLEAR_ERROR (conn_Error s)). intros E0. cbn [mbind option_bind]. rewrite Hm1, Hm2, Hm3.
  set (s2 := with_dae (with_conn s E0) _ _ _). destruct (Hb s2 HI Hm) as (a & E & -> & Ha). cbn [mbind option_bind].
  destruct (default_values_ok w r cols C T a (with_Error s2 E) HI Ha) as (a' & E' & query & ->). cbn [mbind option_bind].
  set (s4 := with_Error s2 E) in *. set (s5 := UNLOCK_MARIADB _).
  assert (DaeStmt s5 = Some (next_handle s) /\ live s5 = next_handle s :: live s /\ locks s5 = locks s /\
    sent s5 = sent s ++ [query] /\ AffectedRows (fetch s5) = AffectedRows (fetch s)) as (H1 & H2 & H3 & H4 & H5).
  { subst s5 s4 s2. cbn. split_and!; try done. lia. }
  exists query. clearbody s5. rewrite (use_live s5 (next_handle s) H1) by (rewrite H2; by left). cbn [mbind option_bind].
  rewrite (prepare_live _ _ _ (next_handle s)) by (first [exact H1|cbn; rewrite H2; by left]).
  destruct (dw_prepare w t) as [F|].
  - match goal with |- context [MADB_CopyError ?a ?b] => generalize (MADB_CopyError a b) (CopyError_return a b) end.
    intros G <-. cbn [mbind option_bind]. eexists. split; [reflexivity|].
    cbn -[filter]. split_and!; try done. rewrite H2. rewrite filter_cons_False by naive_solver. by apply filter_fresh.
  - eexists. split; [reflexivity|]. cbn. split_and!; try done. by rewrite H4, <- app_assoc.
Qed.

(** Looking up the names changes nothing but the names and the error. *)
Lemma names_frame cols s C T s0 : names cols s = (C, T, s0) -> exists C' T' E, s0 = with_Error (with_names s C' T') E.
Proof.
  unfold names. destruct (MADB_GetTableName _ _ _) as [[? ?] ?]. destruct (MADB_GetCatalogName _ _ _) as [[? ?] ?].
  intros [= <- <- <-]. eauto.
Qed.

Lemma refresh_static c execute s : CursorType (fc_Options c) <> SQL_CURSOR_DYNAMIC -> refresh c execute s = (SQL_SUCCESS, s).
Proof. intros H. unfold refresh. by rewrite (proj2 (Z.eqb_neq _ _)). Qed.

Lemma SetPos_ADD_first w c execute m r fields RowNumber s C T s0 :
  names (bf_column <$> fields) s = (Some C, Some T, s0) -> CursorType (fc_Options c) <> SQL_CURSOR_DYNAMIC ->
  good_memory w m -> add_input r (bf_column <$> fields) C T -> DaeStmt s = None -> next_handle s ∉ live s ->
  DataExecutionType s <> MADB_DAE_ADD ->
  let t := insert_text C T (used_names r (bf_column <$> fields)) in
  exists query s', DaeStmt s' = Some (next_handle s) /\ DataExecutionType s' = MADB_DAE_ADD /\
    DefaultsResult s' = dw_defaults w query /\ locks s' = locks s /\ AffectedRows (fetch s') = AffectedRows (fetch s) /\
    match dw_prepare w t with
    | None => SetPos_ADD junk w c execute m r fields RowNumber s = add_execute w r fields s' /\
              live s' = next_handle s :: live s /\ sent s' = sent s ++ [query; t]
    | Some E => SetPos_ADD junk w c execute m r fields RowNumber s = Some (ReturnValue E, s') /\ live s' = live s /\
                sent s' = sent s ++ [query]
    end.
Proof.
  intros HN Hc Hm HI HD Hnew Ht t. unfold SetPos_ADD. rewrite HN. rewrite refresh_static by done.
  change (SQL_SUCCEEDED SQL_SUCCESS) with true. cbn [negb]. cbv iota.
  apply names_frame in HN as (C' & T' & E & ->). set (s2 := with_row _ _).
  rewrite bool_decide_false by done.
  destruct (add_prepare_cases w m r (bf_column <$> fields) C T s2 Hm HI HD Hnew) as (query & s' & Hs & H1 & H2 & H3 & H4 & H5 & H6).
  exists query, s'. fold t in Hs, H6. rewrite Hs. destruct (dw_prepare w t); destruct H6 as [H6 H7]; cbn [mbind option_bind]; by split_and!.
Qed.

(** The text of the INSERT has one marker for every column that is used. *)
Lemma insert_markers_used r fields C T : add_input r (bf_column <$> fields) C T ->
  exists q, ParseQuery (query_of (insert_text C T (used_names r (bf_column <$> fields)))) false = Some q /\
    length (ParamPositions q) = length (filter (fun f => used_column r (bf_column f) = true) fields).
Proof.
  intros HI. set (t := insert_text _ _ _). pose proof HI as [HC HT Hn Hlen _]. fold t in Hlen.
  assert (Forall name_ok (used_names r (bf_column <$> fields))) as Hu.
  { unfold used_names. rewrite Forall_fmap in *. rewrite Forall_forall in *. intros x [_ Hx]%list_elem_of_filter. by apply Hn. }
  destruct (query_of_markers t) as (q & HQ & Hq); [by apply nonzero_insert_text|lia|]. exists q. split; [done|]. rewrite Hq.
  unfold t. rewrite insert_text_markers by done. unfold used_names. by rewrite length_fmap, filter_columns, length_fmap.
Qed.

(** With a freed inner statement in its variable no further SQL_ADD is defined. *)
Lemma SetPos_ADD_dangling w c execute m r fields RowNumber s h : CursorType (fc_Options c) <> SQL_CURSOR_DYNAMIC ->
  DaeStmt s = Some h -> h ∉ live s -> DataExecutionType s = MADB_DAE_ADD -> SetPos_ADD junk w c execute m r fields RowNumber s = None.
Proof.
  intros Hc H1 Hdead H2. unfold SetPos_ADD. destruct (names _ s) as [[C1 T1] s2] eqn:HN2. rewrite refresh_static by done.
  change (SQL_SUCCEEDED SQL_SUCCESS) with true. cbn [negb]. cbv iota.
  apply names_frame in HN2 as (C' & T' & E' & ->). rewrite bool_decide_true by done. cbn [mbind option_bind].
  unfold add_execute. match goal with |- context [use_DaeStmt ?x] => by destruct (use_dead x h H1 Hdead) as [-> _] end.
Qed.

(** The bindings of the inner statement, in the order of the columns. *)
Definition add_bindings (w : dae_world) (query : list Z) (r : bound_rows) (fields : list bound_field) : list bind_call :=
  imap (bind_field (dw_defaults w query)) (filter (fun f => used_column r (bf_column f) = true) fields).


(** *** SQL_DELETE *)

Definition delete_statement (T : list Z) (w : where_source) (cols : list bound_column) : list Z :=
  chars "DELETE FROM " ++ quoted T ++ where_text w false cols.

(** The conditions of a DELETE can be written for every row: what is read depends on
    the row before the cursor. *)
Record delete_input (d : @delete_world A) (W : nat -> where_source) (T : list Z) (cols : list bound_column) (n : Z) : Prop := {
  di_where : forall f, dl_where d f = W (result_cursor f);
  di_key : forall i, has_key (W i) T cols;
  di_data : forall i j, (j < length cols)%nat -> is_Some (GetData (W i) j);
  di_short : forall i, Z.of_nat (length (delete_statement T (W i) cols)) < 2 ^ 61;
  di_memory : forall i, fst (dl_memory d i) = (true, true) /\ false ∉ snd (dl_memory d i);
  di_server : forall l, dl_server d l = inr n;
}.

Lemma build_delete d W T cols n i s : delete_input d W T cols n ->
  exists a E, build (delete_text junk d i T cols s) (snd (dl_memory d i)) s =
    Some (false, delete_statement T (W (result_cursor (fetch s))) cols, a, with_Error s E).
Proof.
  intros [Hw Hk Hg Hs Hm _]. destruct (Hm i) as [Hm1 Hm2]. unfold build, delete_text. rewrite Hm1, Hw. cbn [fst snd].
  set (b := MkBuilder _ _ _). destruct (start_ok junk "DELETE FROM " 8192 b ltac:(lia) ltac:(cbn; lia)) as (b1 & -> & Hw1 & Hc1 & Ha1 & He1).
  cbn [mbind option_bind]. pose proof (length_contents _ Hw1) as L1. rewrite Hc1 in L1.
  specialize (Hs (result_cursor (fetch s))). unfold delete_statement in *. rewrite length_app in Hs.
  destruct (produces_ok _ _ b1 (produces_or _ _ _ _ (produces_quoted junk T)
    (DynStrGetWhere_produces junk (W (result_cursor (fetch s))) T false cols (Hk _) (fun _ => Hg _))) Hw1)
    as (b2 & -> & _ & Hc2 & _ & _); [lia|by rewrite Ha1|].
  cbn [mbind option_bind]. exists (StrBuild.answers b2), (sb_Error b2). by rewrite Hc2, Hc1.
Qed.

Lemma MoveNext_cursor c io (f : fetch_state A) : NO_CACHE c = false -> has_result f = true ->
  snd (MoveNext true c io f 1) = set_cursor f (Nat.min (S (result_cursor f)) (Nat.max (result_cursor f) (length (rows f)))).
Proof.
  intros Hc Hr. cbn [MoveNext]. rewrite Hr. cbn [negb]. unfold FetchRowCsps, mysql_stmt_fetch. rewrite Hc.
  destruct (rows f !! result_cursor f) as [x|] eqn:Ex.
  - apply lookup_lt_Some in Ex. replace (Nat.min _ _) with (S (result_cursor f)) by lia.
    destruct (ssps_disabled c && negb (fake_result c)); cbn [fst snd]; [change (SQL_SUCCEEDED SQL_SUCCESS) with true|];
      cbn [negb]; repeat case_match; try done.
  - apply lookup_ge_None in Ex. replace (Nat.min _ _) with (result_cursor f) by lia.
    assert (set_cursor f (result_cursor f) = f) as -> by (by destruct f).
    destruct (ssps_disabled c && negb (fake_result c)); repeat case_match; try done.
Qed.

(** The row the cursor is behind after seeking row [i] and stepping. *)
Definition row_after (s : pos_state A) (i : nat) : nat := Nat.min (S i) (length (rows (fetch s))).

(** What the loop leaves alone. *)
Record same_rows (s s' : pos_state A) : Prop := {
  sr_rows : rows (fetch s') = rows (fetch s);
  sr_result : has_result (fetch s') = has_result (fetch s);
}.

Lemma delete_row_ok d c io T cols W n i Start s : delete_input d W T cols n -> NO_CACHE c = false ->
  has_result (fetch s) = true -> rows (fetch s) <> [] -> Z.of_nat Start < 2 ^ 64 ->
  exists s', delete_row junk d c io T cols i (Z.of_nat Start) s = Some (None, s') /\ same_rows s s' /\
    sent s' = sent s ++ [delete_statement T (W (row_after s Start)) cols] /\ locks s' = locks s + 1 /\
    AffectedRows (fetch s') = wraps 64 (AffectedRows (fetch s) + n).
Proof.
  intros HI Hc Hr Hne Hlt. unfold delete_row. destruct (di_memory _ _ _ _ _ HI i) as [Hm _]. rewrite Hm. cbn [fst].
  assert (snd (MADB_StmtDataSeek (fetch s) (Z.of_nat Start)) = set_cursor (fetch s) (Nat.min Start (length (rows (fetch s))))) as ->.
  { unfold MADB_StmtDataSeek, mysql_stmt_data_seek, mysql_stmt_num_rows. destruct (rows (fetch s)) as [|x l] eqn:El; [done|].
    cbn [snd]. f_equal. rewrite wrapu_id by lia. lia. }
  rewrite MoveNext_cursor by done.
  match goal with |- context [with_fetch s ?f] => set (f1 := f) end.
  assert (result_cursor f1 = row_after s Start) as Hf1.
  { subst f1. unfold row_after. cbn [set_cursor result_cursor rows]. destruct (rows (fetch s)); [done|]. cbn [length]. lia. }
  destruct (build_delete d W T cols n i (with_fetch s f1) HI) as (a & E & ->). cbn [mbind option_bind]. fields.
  rewrite (di_server _ _ _ _ _ HI), Hf1. eexists. split; [reflexivity|]. split; [done|]. fields. done.
Qed.

Lemma wraps_add_l w x y : 0 < w -> wraps w (wraps w x + y) = wraps w (x + y).
Proof.
  intros Hw. unfold wraps. f_equal. replace (x + y + 2 ^ (w - 1)) with ((x + 2 ^ (w - 1)) + y) by lia.
  rewrite <- (Z.add_mod_idemp_l (x + 2 ^ (w - 1)) y) by lia. f_equal. lia.
Qed.

Lemma delete_loop_ok d c io T cols W n End k : forall i fuel Start s, delete_input d W T cols n -> NO_CACHE c = false ->
  has_result (fetch s) = true -> rows (fetch s) <> [] -> AffectedRows (fetch s) = wraps 64 (AffectedRows (fetch s)) ->
  (k <= fuel)%nat -> End = Z.of_nat (Start + k) - 1 ->
  End + 1 < 2 ^ 64 ->
  exists s', delete_loop junk d c io T cols fuel i (Z.of_nat Start) End s = Some (None, s') /\ same_rows s s' /\
    sent s' = sent s ++ ((fun j => delete_statement T (W (row_after s j)) cols) <$> seq Start k) /\
    locks s' = locks s + Z.of_nat k /\
    AffectedRows (fetch s') = wraps 64 (AffectedRows (fetch s) + Z.of_nat k * n).
Proof.
  induction k as [|k IH]; intros i fuel Start s HI Hc Hr Hne Hw Hf HE Hlt.
  - exists s. split; [destruct fuel; cbn [delete_loop]; by rewrite (proj2 (Z.ltb_lt _ _)) by lia|].
    split; [done|]. cbn. rewrite app_nil_r. split_and!; [done|lia|]. by rewrite Z.add_0_r.
  - destruct fuel as [|fuel]; [lia|]. cbn [delete_loop]. rewrite (proj2 (Z.ltb_ge _ _)) by lia.
    destruct (delete_row_ok d c io T cols W n i Start s HI Hc Hr Hne ltac:(lia)) as (s1 & -> & [H1 H2] & H3 & H4 & H5).
    cbn [mbind option_bind]. rewrite wrapu_id by lia. replace (Z.of_nat Start + 1) with (Z.of_nat (S Start)) by lia.
    destruct (IH (S i) fuel (S Start) s1) as (s' & -> & [G1 G2] & G3 & G4 & G5); try done; try congruence; try lia.
    { rewrite H5. rewrite <- (Z.add_0_r (wraps 64 _)) at 2. by rewrite wraps_add_l, Z.add_0_r by lia. }
    exists s'. split; [done|]. split; [split; congruence|]. rewrite G3, H3, <- app_assoc, G4, H4.
    split_and!; [|lia|].
    + cbn [seq fmap list_fmap app]. do 2 f_equal. apply list_fmap_ext. intros ? x _. unfold row_after. by rewrite H1.
    + rewrite G5, H5, wraps_add_l by lia. f_equal. lia.
Qed.

(** How many statements are sent: one for a row number; for the whole rowset one for
    each of its rows, and one more when it reaches the end of the result. *)
Definition delete_count (s : pos_state A) (RowNumber : Z) : nat :=
  if negb (fs_ArraySize (fetch s) =? 0) && (RowNumber =? 0)
  then Z.to_nat (Z.min (Z.of_nat (length (rows (fetch s))) - Position (fetch s) + 1) (fs_ArraySize (fetch s)))
  else 1.

Definition delete_start (s : pos_state A) (RowNumber : Z) : nat :=
  Z.to_nat (if RowNumber =? 0 then Position (fetch s) else Position (fetch s) + RowNumber - 1).

(** C33. SQLSetPos with SQL_DELETE on a positioned cursor, with memory and server in
    order: it sends one DELETE for the row asked for, or for each row of the rowset,
    in order, every one with the condition read from its row, adds up the rows deleted
    and restores the size of the rowset.  Two deviations show in the counts: the lock of
    the connection is taken for every statement and released once, so that it stays
    locked after several; and a rowset that reaches the end of the result makes one round
    more, which sends the statement of the last row again. *)
Theorem SetPos_DELETE_rows d c io execute cols RowNumber s T t E W n :
  MADB_GetTableName (TableName s) cols (pos_Error s) = (Some T, t, E) ->
  CursorType (fc_Options c) <> SQL_CURSOR_DYNAMIC -> NO_CACHE c = false -> has_result (fetch s) = true ->
  delete_input d W T cols n -> 0 <= RowNumber <= Z.of_nat (length (rows (fetch s))) ->
  0 <= Position (fetch s) < Z.of_nat (length (rows (fetch s))) -> Z.of_nat (length (rows (fetch s))) < 2 ^ 62 ->
  0 <= fs_ArraySize (fetch s) < 2 ^ 62 ->
  let k := delete_count s RowNumber in
  exists s', SetPos_DELETE junk d c io execute cols RowNumber s = Some (SQL_SUCCESS, s') /\
    sent s' = sent s ++ ((fun i => delete_statement T (W (row_after s i)) cols) <$> seq (delete_start s RowNumber) k) /\
    locks s' = locks s + (Z.of_nat k - 1) /\ AffectedRows (fetch s') = wraps 64 (Z.of_nat k * n) /\
    fs_ArraySize (fetch s') = fs_ArraySize (fetch s).
Proof.
  intros HT Hc Hn Hr HI HR HP Hl HA k. unfold SetPos_DELETE. rewrite HT, refresh_static by done.
  change (SQL_SUCCEEDED SQL_SUCCESS) with true. cbn [negb]. cbv iota. unfold mysql_stmt_num_rows.
  rewrite (proj2 (Z.ltb_ge _ _)) by lia. fields.
  assert (wrapu 64 (if RowNumber =? 0 then Position (fetch s) else Position (fetch s) + RowNumber - 1)
          = Z.of_nat (delete_start s RowNumber)) as ->.
  { unfold delete_start. destruct (Z.eqb_spec RowNumber 0); rewrite wrapu_id; lia. }
  assert ((if negb (fs_ArraySize (fetch s) =? 0) && (RowNumber =? 0)
           then Z.min (Z.of_nat (length (rows (fetch s)))) (wrapu 64 (Z.of_nat (delete_start s RowNumber) + fs_ArraySize (fetch s) - 1))
           else Z.of_nat (delete_start s RowNumber)) = Z.of_nat (delete_start s RowNumber + k) - 1) as ->.
  { unfold k, delete_count, delete_start. destruct (Z.eqb_spec (fs_ArraySize (fetch s)) 0), (Z.eqb_spec RowNumber 0);
      cbn [negb andb]; try lia. rewrite wrapu_id; lia. }
  edestruct (delete_loop_ok d c io T cols W n (Z.of_nat (delete_start s RowNumber + k) - 1) k 0)
    as (s3 & -> & [S1 S2] & S3 & S4 & S5); try done.
  { cbn. intros Hx. rewrite Hx in HP. cbn in HP. lia. }
  { lia. }
  { unfold k, delete_count, delete_start. destruct (Z.eqb_spec RowNumber 0), (negb _); cbn [negb andb]; lia. }
  cbn [mbind option_bind]. rewrite (proj2 (Z.eqb_neq _ _)) by done. eexists. split; [reflexivity|]. fields.
  rewrite S3, S4, S5. fields. split_and!; try done. lia.
Qed.

End Props.

(** *** Samples *)

(** Three rows, the rowset at the second one; the second column is ignored, and the
    names hide a question mark and a comment. *)
Definition sample_fetch : fetch_state Z :=
  MkFetch [7; 8; 9] 0 1 2 None 2 0 (-1) true 3 3 ErrorProps.zero_error (MkApp None None None ∅ ∅).
Definition sample_pos : pos_state Z :=
  MkPos sample_fetch None [3]%nat 5 MADB_DAE_NORMAL 0 None None ErrorProps.zero_error 0 [] None [].
Definition sample_fields : list bound_field :=
  (fun c => MkField c SQL_INTEGER SQL_INTEGER 0 0 0 (Some 1000) 4 (Some 100)) <$> sample_columns.
Definition sample_world (refused : option MADB_Error) : dae_world :=
  MkWorld alloc_done (fun _ => refused) (fun _ => Some [(chars "E", chars "0")])
    (fun _ => (SQL_SUCCESS, ErrorProps.zero_error, 1)).
Definition sample_memory : add_memory := MkAddMemory true true true [true; true].
Definition sample_names : pos_state Z :=
  with_Error (with_names sample_pos (Some (chars "d")) (Some (chars "t"))) ErrorProps.zero_error.
Definition sample_config : fetch_config := CursorProps.config SQL_CURSOR_STATIC.
Definition sample_execute (f : fetch_state Z) : Z * fetch_state Z := (SQL_SUCCESS, f).

Lemma sample_good E : good_memory (sample_world E) sample_memory.
Proof. split_and!; try done. cbn. rewrite !not_elem_of_cons. split_and!; try done. apply not_elem_of_nil. Qed.

Lemma sample_input : add_input sample_rows (bf_column <$> sample_fields) (chars "d") (chars "t").
Proof.
  split.
  - by apply name_ok_bool.
  - by apply name_ok_bool.
  - do 3 (constructor; [by apply name_ok_bool|]). constructor.
  - apply Z.ltb_lt. vm_compute. reflexivity.
  - exists (MkColumn (Some (chars "t")) (chars "d") (chars "a?b") PRI_KEY_FLAG true (Some 100)), (chars "t").
    split; [reflexivity|]. split; [reflexivity|]. apply Z.ltb_lt. vm_compute. reflexivity.
Qed.


(** When the server refuses the INSERT, the next SQL_ADD uses the inner statement that was
    freed. *)
Theorem SetPos_ADD_refused : match SetPos_ADD 0 (sample_world (Some ErrorProps.zero_error)) sample_config sample_execute sample_memory sample_rows
    sample_fields 0 sample_pos with
  | Some (_, s') => SetPos_ADD 0 (sample_world None) sample_config sample_execute sample_memory sample_rows sample_fields 0 s' = None
  | None => False
  end.
Proof. vm_compute. reflexivity. Qed.

(** A rowset of three at the last two rows of the result: the last row is deleted twice,
    and the connection stays locked. *)
Definition sample_where_of (i : nat) : where_source :=
  MkWhere (fun _ f => if f =? PRI_KEY_FLAG then 1 else 0) (fun _ => 9) (fun _ => Some (Some [48 + Z.of_nat i])) id.
Definition sample_delete : @delete_world Z :=
  MkDelete (fun f => sample_where_of (result_cursor f)) (fun _ => inr 1) (fun _ => (true, true, [])).

Lemma sample_delete_input : delete_input sample_delete sample_where_of (chars "t") (take 1 sample_columns) 1.
Proof.
  split; try done.
  - intros i. left. split; [discriminate|reflexivity].
  - intros i. unfold delete_statement, where_text. rewrite !length_app. cbn -[Z.of_nat Z.add Z.pow].
    case_match; cbn -[Z.pow]; lia.
  - intros i. split; [done|apply not_elem_of_nil].
Qed.

Lemma SetPos_DELETE_rows_witness : exists s',
  SetPos_DELETE 0 sample_delete sample_config (CursorProps.plain_io) sample_execute (take 1 sample_columns) 0 sample_pos
    = Some (SQL_SUCCESS, s') /\
  sent s' = (fun v => chars ("DELETE FROM `t` WHERE 1 AND `a?b`= '" +:+ v +:+ "' LIMIT 1")) <$> ["2"; "3"; "3"]%string /\
  locks s' = 2 /\ AffectedRows (fetch s') = 3 /\ fs_ArraySize (fetch s') = 3.
Proof.
  destruct (SetPos_DELETE_rows 0 sample_delete sample_config CursorProps.plain_io sample_execute (take 1 sample_columns) 0
    sample_pos (chars "t") (Some (chars "t")) ErrorProps.zero_error sample_where_of 1) as (s' & H1 & H2 & H3 & H4 & H5).
  - reflexivity.
  - discriminate.
  - reflexivity.
  - reflexivity.
  - apply sample_delete_input.
  - cbn. lia.
  - cbn. lia.
  - cbn. lia.
  - cbn. lia.
  - exists s'. rewrite H2, H3, H4, H5. split; [exact H1|]. vm_compute. split_and!; reflexivity.
Defined.

End SetPosProps.
