(* ===== verification/DataAtExec.v ===== *)
(** * DataAtExec: parameters whose data come at execution

    Models [MADB_StmtParamData], [MADB_StmtPutData], [MADB_CspsFreeDAE] and
    [ResetInternalLength] of [ma_statement.c] and [MADB_FindNextDaeParam] of
    [ma_helper.c], for a statement and the inner statement SQLSetPos works with
    (SetPos.v).  The conversion of wide characters and the execution are functions
    the definitions take as arguments. *)

From Stdlib Require Import ZArith Lia.
From stdpp Require Import base strings numbers option list relations.
From S2P Require Import Prelude Odbc Errors SqlTypes Desc StmtAttr Cursor Numeric StrBuild SetPos.
Import ErrorOps Numeric.

(** A parameter's record in the application descriptor. *)
Record apd_record := MkApd {
  ar_ConciseType : Z;
  ar_Type : Z;
  ar_OctetLengthPtr : option Z;
  ar_DataPtr : option Z;
  ar_OctetLength : Z;
  ar_InternalLength : Z;
}.

(** Its record in the implementation descriptor, where the data are collected. *)
Record ipd_record := MkIpd {
  ir_Data : option (list Z);
  ir_InternalLength : Z;
  ir_OctetLength : Z;
}.

Record dae_stmt := MkDaeStmt {
  ParamCount : Z;
  PutParam : Z;
  Status : Z;
  apd : list apd_record;
  ipd : list ipd_record;
  ds_BindType : Z;
  ds_BindOffset : Z;
  ds_ArraySize : Z;
}.

(** The application's statement, the inner one, and what of the statement tells which
    of them is meant; [memory] reads an indicator of the application. *)
Record dae_state := MkDaeState {
  outer : dae_stmt;
  inner : option dae_stmt;
  da_type : MADB_DaeType;
  da_row : Z;
  da_Error : MADB_Error;
}.

Module DataAtExec.

Definition SQL_TYPE_NULL : Z := 0.

Definition set_apd (d : dae_stmt) (l : list apd_record) : dae_stmt :=
  MkDaeStmt (ParamCount d) (PutParam d) (Status d) l (ipd d) (ds_BindType d) (ds_BindOffset d) (ds_ArraySize d).
Definition set_ipd (d : dae_stmt) (l : list ipd_record) : dae_stmt :=
  MkDaeStmt (ParamCount d) (PutParam d) (Status d) (apd d) l (ds_BindType d) (ds_BindOffset d) (ds_ArraySize d).
Definition set_progress (d : dae_stmt) (put status : Z) : dae_stmt :=
  MkDaeStmt (ParamCount d) put status (apd d) (ipd d) (ds_BindType d) (ds_BindOffset d) (ds_ArraySize d).

Definition RESET_DAE_STATUS (d : dae_stmt) : dae_stmt := set_progress d (-1) 0.
Definition MARK_DAE_DONE (d : dae_stmt) : dae_stmt := set_progress d (ParamCount d) 0.
Definition DAE_DONE (d : dae_stmt) : bool := ParamCount d <=? PutParam d.

Definition set_outer (s : dae_state) (d : dae_stmt) : dae_state := MkDaeState d (inner s) (da_type s) (da_row s) (da_Error s).
Definition set_inner (s : dae_state) (d : dae_stmt) : dae_state := MkDaeState (outer s) (Some d) (da_type s) (da_row s) (da_Error s).
Definition set_Error (s : dae_state) (E : MADB_Error) : dae_state := MkDaeState (outer s) (inner s) (da_type s) (da_row s) E.

Definition error (s : dae_state) (code : nat) (msg : option (list Z)) : Z * dae_state :=
  let E := MADB_SetError (da_Error s) code msg 0 in (ReturnValue E, set_Error s E).

(** ** Looking for the next parameter *)

Definition PARAM_IS_DAE (memory : Z -> Z) (p : option Z) : bool :=
  match p with
  | Some a => (memory a =? SQL_DATA_AT_EXEC) || (memory a <=? SQL_LEN_DATA_AT_EXEC_OFFSET)
  | None => false
  end.

(** Whether the data of a record come at execution, in the current row. *)
Definition record_is_dae (memory : Z -> Z) (d : dae_stmt) (row : Z) (r : apd_record) : bool :=
  match ar_OctetLengthPtr r with
  | Some a => PARAM_IS_DAE memory (GetBindOffset (ds_BindType d) (ds_BindOffset d) (Some a) (if 1 <? row then row - 1 else 0) 8)
  | None => false
  end.

(** A record that is missing is passed over, as is one that reading it has just created,
    which is empty. *)
Definition param_is_dae (memory : Z -> Z) (d : dae_stmt) (row : Z) (i : nat) : bool :=
  match apd d !! i with Some r => record_is_dae memory d row r | None => false end.

(** The loops of both functions: from [i], [n] parameters. *)
Fixpoint next_dae (memory : Z -> Z) (d : dae_stmt) (row : Z) (i n : nat) : option nat :=
  match n with
  | O => None
  | S n' =>
      if param_is_dae memory d row i then Some i
      else next_dae memory d row (S i) n'
  end.

(** The loop starts behind the last parameter. *)
Definition first_index (put : Z) : nat := if -1 <? put then Z.to_nat (put + 1) else 0%nat.

Definition MADB_NOPARAM : Z := -1.

Definition MADB_FindNextDaeParam (memory : Z -> Z) (d : dae_stmt) (InitialParam row : Z) : Z :=
  let i := first_index InitialParam in
  match next_dae memory d row i (length (apd d) - i) with Some k => Z.of_nat k | None => MADB_NOPARAM end.

(** ** SQLParamData *)

(** The data of the parameters are given back. *)
Definition MADB_CspsFreeDAE (s : dae_state) : dae_state :=
  set_outer s (set_ipd (outer s) ((fun _ => MkIpd None 0 0) <$> ipd (outer s))).

(** What executing a statement returns, and its error record afterwards. *)
Record dae_exec := MkExec {
  ex_outer : dae_stmt -> MADB_Error -> Z * MADB_Error;
  ex_inner : dae_stmt -> Z * MADB_Error;
  ex_update : dae_state -> Z * MADB_Error;
}.

(** All parameters have their data: the statement is executed. *)
Definition dae_finish (x : dae_exec) (s0 : dae_state) : option (Z * dae_state) :=
  let s1 := set_outer s0 (MARK_DAE_DONE (outer s0)) in
  '(ret, s2) ←
    match da_type s1 with
    | MADB_DAE_NORMAL =>
        let '(ret, E) := ex_outer x (outer s1) (da_Error s1) in
        Some (ret, set_Error (set_outer s1 (RESET_DAE_STATUS (outer s1))) E)
    | MADB_DAE_UPDATE =>
        d ← inner s1;
        let s2 := set_inner s1 (MARK_DAE_DONE d) in
        let '(ret, E) := ex_update x s2 in
        Some (ret, set_Error (set_outer s2 (RESET_DAE_STATUS (outer s2))) E)
    | MADB_DAE_ADD =>
        d ← inner s1;
        let '(ret, E) := ex_inner x (MARK_DAE_DONE d) in
        Some (ret, set_Error (set_inner s1 (RESET_DAE_STATUS d)) (MADB_CopyError (da_Error s1) E))
    | MADB_DAE_DELETE => Some (SQL_ERROR, s1)
    end;
  Some (ret, MADB_CspsFreeDAE s2).

(** The statement the data are for. *)
Definition my_stmt (s : dae_state) : option dae_stmt :=
  match da_type s with MADB_DAE_NORMAL => Some (outer s) | _ => inner s end.
Definition set_my_stmt (s : dae_state) (d : dae_stmt) : dae_state :=
  match da_type s with MADB_DAE_NORMAL => set_outer s d | _ => set_inner s d end.

(** [MADB_StmtParamData]: the return code, the value for the application and the
    state; [None] when there is no inner statement. *)
Definition MADB_StmtParamData (memory : Z -> Z) (x : dae_exec) (s : dae_state) : option (Z * option Z * dae_state) :=
  d ← my_stmt s;
  if ParamCount d =? 0 then let '(rc, s') := error s MADB_ERR_HY010 None in Some (rc, None, s')
  else
    let i := first_index (PutParam (outer s)) in
    match next_dae memory d (da_row s) i (Z.to_nat (ParamCount d) - i) with
    | Some k =>
        r ← apd d !! k;
        Some (SQL_NEED_DATA,
              GetBindOffset (ds_BindType d) (ds_BindOffset d) (ar_DataPtr r) (if 1 <? da_row s then da_row s - 1 else 0) (ar_OctetLength r),
              set_outer s (set_progress (outer s) (Z.of_nat k) SQL_NEED_DATA))
    | None => '(rc, s') ← dae_finish x s; Some (rc, None, s')
    end.

(** [ResetInternalLength]. *)
Definition ResetInternalLength (d : dae_stmt) (ParamOffset : nat) : dae_stmt :=
  set_apd d (imap (fun i r =>
    if (ParamOffset <=? i)%nat && (Z.of_nat i <? Z.of_nat ParamOffset + ParamCount d)
    then MkApd (ar_ConciseType r) (ar_Type r) (ar_OctetLengthPtr r) (ar_DataPtr r) (ar_OctetLength r) 0 else r) (apd d)).

(** ** SQLPutData *)

Definition is_string_type (t : Z) : bool :=
  existsb (Z.eqb t) [SQL_C_CHAR; SQL_VARCHAR; SQL_LONGVARCHAR; SQL_C_WCHAR; SQL_WVARCHAR; SQL_WLONGVARCHAR; SQL_C_BINARY;
    SQL_VARBINARY; SQL_LONGVARBINARY].

(** [MADB_DescGetInternalRecord] for writing: missing records are created. *)
Definition ipd_write (l : list ipd_record) (i : nat) : list ipd_record * ipd_record :=
  let l' := l ++ replicate (S i - length l) (MkIpd None 0 0) in (l', default (MkIpd None 0 0) (l' !! i)).

(** The bytes to store and their number. *)
Definition put_bytes (from_wchar : list Z -> Z -> option (list Z)) (wchar_size ConciseType : Z) (DataPtr : option (list Z)) (StrLen : Z)
    : option (list Z) :=
  if ConciseType =? SQL_C_WCHAR then
    Some (default [] (p ← DataPtr; from_wchar p (wraps 32 (wrapu 64 StrLen / wchar_size))))
  else if StrLen =? SQL_NTS then cstr <$> DataPtr
  else
    let n := Z.to_nat StrLen in
    if (n =? 0)%nat then Some []
    else p ← DataPtr; if (n <=? length p)%nat then Some (take n p) else None.

(** The data are stored with the parameter: a new block for the first piece, a longer
    one for a further piece. *)
Definition store_piece (ok string : bool) (rec : ipd_record) (bytes : list Z) : nat * option (list Z) + ipd_record :=
  let n := Z.of_nat (length bytes) in
  let done b := inr (MkIpd (Some b) (wrapu 64 (ir_InternalLength rec + n)) (wrapu 64 (ir_InternalLength rec + n))) in
  if ir_InternalLength rec =? 0 then
    if negb ok then inl (MADB_ERR_HY001, Some (chars "Failed to allocate memory for the long data"))
    else done (bytes ++ if string then [0] else [])
  else if negb string then inl (MADB_ERR_HY019, Some (chars "Non-character and non-binary data sent in pieces"))
  else if negb ok then inl (MADB_ERR_HY001, Some (chars "Failed to allocate memory for the long data"))
  else done (take (Z.to_nat (ir_InternalLength rec)) (default [] (ir_Data rec)) ++ bytes ++ [0]).

(** [MADB_StmtPutData] in text protocol mode ([ssps_off]) or with prepared statements of
    the server; [long_data] is the library's flag, [ok] the answer of the allocator.
    [None] when there is no record for the parameter or the buffer is shorter than the
    length says. *)
Definition MADB_StmtPutData (ok ssps_off long_data : bool) (wchar_size : Z)
    (from_wchar : list Z -> Z -> option (list Z)) (s0 : dae_state)
    (DataPtr : option (list Z)) (StrLen_or_Ind : Z) : option (Z * dae_state) :=
  let s := set_Error s0 (MADB_CLEAR_ERROR (da_Error s0)) in
  if match DataPtr with Some _ => true | None => false end && (StrLen_or_Ind <? 0) && negb (StrLen_or_Ind =? SQL_NTS) &&
     negb (StrLen_or_Ind =? SQL_NULL_DATA)
  then Some (error s MADB_ERR_HY090 None)
  else
    d ← my_stmt s;
    let i := Z.to_nat (PutParam (outer s)) in
    r ← if 0 <=? PutParam (outer s) then apd d !! i else None;
    if StrLen_or_Ind =? SQL_NULL_DATA then
      if long_data || (0 <? ar_InternalLength r) then
        Some (error s MADB_ERR_HY020 (Some (chars "Concatenation of a null value is forbidden")))
      else Some (SQL_SUCCESS, set_my_stmt s (set_apd d (<[i := MkApd (ar_ConciseType r) SQL_TYPE_NULL (ar_OctetLengthPtr r)
             (ar_DataPtr r) (ar_OctetLength r) (ar_InternalLength r)]> (apd d))))
    else if match DataPtr with None => true | Some _ => false end && negb (StrLen_or_Ind =? 0) then
      Some (error s MADB_ERR_HY009 None)
    else
      bytes ← put_bytes from_wchar wchar_size (ar_ConciseType r) DataPtr StrLen_or_Ind;
      if (ar_ConciseType r =? SQL_C_WCHAR) && (length bytes =? 0)%nat && (0 <? StrLen_or_Ind) then Some (error s MADB_ERR_HY001 None)
      else if negb ssps_off then
        Some (error s MADB_ERR_HYC00 (Some (chars "'Long Data' feature is not supported in the binary protocol")))
      else if 1 <? ds_ArraySize d then
        Some (error s MADB_ERR_HY000
          (Some (chars "SQLPutData for paramsets of size > 1 is not supported in the text protocol mode")))
      else
        let '(l, rec) := ipd_write (ipd d) i in
        match store_piece ok (is_string_type (ar_ConciseType r)) rec bytes with
        | inl (code, msg) => Some (error (set_my_stmt s (set_ipd d l)) code msg)
        | inr rec' => Some (SQL_SUCCESS, set_my_stmt s (set_ipd d (<[i := rec']> l)))
        end.

End DataAtExec.

(** ** Properties *)

Module DataAtExecProps.
Import DataAtExec.

(** *** SQLParamData asks for the parameters in order *)

(** The parameters from [i] on whose data come at execution. *)
Definition dae_from (memory : Z -> Z) (d : dae_stmt) (row : Z) (i n : nat) : list nat :=
  filter (fun k => param_is_dae memory d row k = true) (seq i n).

Lemma next_dae_head memory d row n : forall i, next_dae memory d row i n = head (dae_from memory d row i n).
Proof.
  induction n as [|n IH]; intros i; [done|]. cbn [next_dae]. unfold dae_from. cbn [seq]. rewrite filter_cons.
  destruct (param_is_dae memory d row i); [by rewrite decide_True|rewrite decide_False by done; apply IH].
Qed.

Lemma dae_from_tail memory d row n : forall i k l, dae_from memory d row i n = k :: l ->
  (i <= k < i + n)%nat /\ param_is_dae memory d row k = true /\ dae_from memory d row (S k) (i + n - S k) = l.
Proof.
  induction n as [|n IH]; intros i k l; [done|]. unfold dae_from. cbn [seq]. rewrite filter_cons.
  destruct (param_is_dae memory d row i) eqn:E.
  - rewrite decide_True by done. intros [= -> <-]. replace (k + S n - S k)%nat with n by lia. split_and!; [lia|lia|done|done].
  - rewrite decide_False by done. intros H. apply IH in H as (H1 & H2 & H3).
    replace (i + S n - S k)%nat with (S i + n - S k)%nat by lia. split_and!; [lia|lia|done|done].
Qed.

(** What the application does between two calls leaves the parameters as they are:
    which statement is meant, where the data and their lengths are. *)
Definition place (r : apd_record) := (ar_OctetLengthPtr r, ar_DataPtr r, ar_OctetLength r).
Definition stmt_place (d : dae_stmt) := (ParamCount d, ds_BindType d, ds_BindOffset d, place <$> apd d).
Definition same_params (s s' : dae_state) : Prop :=
  da_type s' = da_type s /\ da_row s' = da_row s /\ ParamCount (outer s') = ParamCount (outer s) /\
  PutParam (outer s') = PutParam (outer s) /\ stmt_place <$> my_stmt s' = stmt_place <$> my_stmt s.

Lemma param_is_dae_place memory row d d' i : stmt_place d = stmt_place d' -> param_is_dae memory d row i = param_is_dae memory d' row i.
Proof.
  unfold stmt_place. intros [= _ H1 H2 H3]. apply (f_equal (fun l => l !! i)) in H3. rewrite !list_lookup_fmap in H3.
  unfold param_is_dae. destruct (apd d !! i) as [r|], (apd d' !! i) as [r'|]; try done. injection H3 as H3 _ _.
  unfold record_is_dae. by rewrite H1, H2, H3.
Qed.

Lemma dae_from_place memory row d d' i n : stmt_place d = stmt_place d' -> dae_from memory d row i n = dae_from memory d' row i n.
Proof.
  intros H. unfold dae_from. apply list_filter_iff. intros k. by rewrite (param_is_dae_place memory row d d' k H).
Qed.

(** SQLParamData until it does not ask for data: the parameters asked for, the last
    return code and the state.  [put] is what the application does with the
    parameter. *)
Fixpoint param_loop (memory : Z -> Z) (x : dae_exec) (put : dae_state -> dae_state) (fuel : nat) (s : dae_state)
    : option (list Z * Z * dae_state) :=
  match fuel with
  | O => None
  | S fuel' =>
      '(rc, _, s1) ← MADB_StmtParamData memory x s;
      if rc =? SQL_NEED_DATA then
        '(l, rc', s2) ← param_loop memory x put fuel' (put s1); Some (PutParam (outer s1) :: l, rc', s2)
      else Some ([], rc, s1)
  end.

(** The state after the application was asked for the parameters [l] one after the other
    and has stored their data. *)
Definition ask_all (put : dae_state -> dae_state) (s : dae_state) (l : list nat) : dae_state :=
  foldl (fun s k => put (set_outer s (set_progress (outer s) (Z.of_nat k) SQL_NEED_DATA))) s l.

Section Loop.
Context (memory : Z -> Z) (x : dae_exec) (put : dae_state -> dae_state).
Hypothesis put_same : forall s, same_params s (put s).
Hypothesis outer_done : forall d E, fst (ex_outer x d E) <> SQL_NEED_DATA.
Hypothesis inner_done : forall d, fst (ex_inner x d) <> SQL_NEED_DATA.

Lemma finish_defined s d : da_type s = MADB_DAE_NORMAL \/ da_type s = MADB_DAE_ADD -> my_stmt s = Some d ->
  exists rc s', dae_finish x s = Some (rc, s') /\ rc <> SQL_NEED_DATA.
Proof.
  intros HT Hd. unfold dae_finish, my_stmt in *. cbn [da_type inner set_outer].
  destruct HT as [HT|HT]; rewrite HT in *.
  - destruct (ex_outer x _ _) as [rc E] eqn:EX. eexists rc, _. split; [done|].
    intros ->. eapply outer_done. by rewrite EX.
  - rewrite Hd. cbn [mbind option_bind]. destruct (ex_inner x _) as [rc E] eqn:EX. eexists rc, _. split; [done|].
    intros ->. eapply inner_done. by rewrite EX.
Qed.

(** Asking for a parameter keeps the places. *)
Lemma my_stmt_progress s k st : stmt_place <$> my_stmt (set_outer s (set_progress (outer s) k st)) = stmt_place <$> my_stmt s.
Proof. unfold my_stmt. cbn [da_type outer inner set_outer]. by destruct (da_type s). Qed.

Lemma param_loop_asks d : forall fuel s l,
  da_type s = MADB_DAE_NORMAL \/ da_type s = MADB_DAE_ADD ->
  stmt_place <$> my_stmt s = Some (stmt_place d) -> 0 < ParamCount d ->
  dae_from memory d (da_row s) (first_index (PutParam (outer s))) (Z.to_nat (ParamCount d) - first_index (PutParam (outer s))) = l ->
  (length l < fuel)%nat ->
  let s1 := ask_all put s l in
  exists rc s2, param_loop memory x put fuel s = Some (Z.of_nat <$> l, rc, s2) /\ rc <> SQL_NEED_DATA /\
    dae_finish x s1 = Some (rc, s2) /\ da_type s1 = da_type s /\ da_row s1 = da_row s /\
    ParamCount (outer s1) = ParamCount (outer s) /\ stmt_place <$> my_stmt s1 = Some (stmt_place d).
Proof.
  induction fuel as [|fuel IH]; intros s l HT Hd Hpos Hl Hf; [lia|]. cbv zeta. cbn [param_loop]. unfold MADB_StmtParamData.
  destruct (my_stmt s) as [d0|] eqn:Ed; [|done]. apply (inj Some) in Hd. cbn [mbind option_bind].
  assert (ParamCount d0 = ParamCount d) as Hp by (unfold stmt_place in Hd; congruence).
  rewrite Hp, (proj2 (Z.eqb_neq _ _)) by lia. rewrite next_dae_head, (dae_from_place memory _ d0 d) by done. rewrite Hl.
  destruct l as [|k l]; cbn [head].
  - destruct (finish_defined s d0 HT Ed) as (rc & s2 & HF & Hrc). rewrite HF. cbn [mbind option_bind].
    rewrite (proj2 (Z.eqb_neq _ _)) by done. exists rc, s2. cbn [ask_all foldl]. rewrite Ed. cbn. split_and!; try done. by rewrite <- Hd.
  - apply dae_from_tail in Hl as (Hk & HD & Hl). rewrite <- (param_is_dae_place memory _ d0 d) in HD by done.
    unfold param_is_dae in HD. destruct (apd d0 !! k) as [r|] eqn:Er; [|done]. cbn [mbind option_bind].
    change (SQL_NEED_DATA =? SQL_NEED_DATA) with true. cbv iota. set (s1 := set_outer _ _).
    destruct (put_same s1) as (T1 & R1 & C1 & P1 & M1).
    assert (stmt_place <$> my_stmt s1 = Some (stmt_place d)) as M0.
    { subst s1. rewrite my_stmt_progress, Ed. cbn. by rewrite Hd. }
    destruct (IH (put s1) l) as (rc & s2 & -> & Hrc & HF & T3 & R3 & C3 & M3).
    + by rewrite T1.
    + by rewrite M1.
    + done.
    + rewrite R1, P1. replace (first_index (PutParam (outer s1))) with (S k).
      * rewrite <- Hl. f_equal. lia.
      * subst s1. cbn. unfold first_index. rewrite (proj2 (Z.ltb_lt _ _)) by lia. lia.
    + cbn in Hf. lia.
    + cbn [mbind option_bind]. change (ask_all put s (k :: l)) with (ask_all put (put s1) l). exists rc, s2. split; [done|]. split_and!; try done; [by rewrite T3, T1|by rewrite R3, R1|by rewrite C3, C1].
Qed.
Lemma dae_from_length d row i n : (length (dae_from memory d row i n) <= n)%nat.
Proof. unfold dae_from. etrans; [apply length_filter|]. by rewrite length_seq. Qed.

Lemma finish_normal s rc s' : da_type s = MADB_DAE_NORMAL -> dae_finish x s = Some (rc, s') ->
  exists E, ex_outer x (MARK_DAE_DONE (outer s)) (da_Error s) = (rc, E) /\ PutParam (outer s') = -1 /\ Status (outer s') = 0 /\
    ParamCount (outer s') = ParamCount (outer s) /\ da_Error s' = E /\ Forall (fun r => r = MkIpd None 0 0) (ipd (outer s')).
Proof.
  intros HT. unfold dae_finish. cbn [da_type outer da_Error set_outer]. rewrite HT. destruct (ex_outer x _ _) as [rc0 E].
  intros [= <- <-]. exists E. split_and!; try done. cbn. rewrite Forall_fmap. by apply Forall_true.
Qed.

Lemma finish_add s rc s' d : da_type s = MADB_DAE_ADD -> stmt_place <$> my_stmt s = Some (stmt_place d) ->
  dae_finish x s = Some (rc, s') ->
  da_type s' = MADB_DAE_ADD /\ da_row s' = da_row s /\ PutParam (outer s') = ParamCount (outer s) /\
  stmt_place <$> my_stmt s' = Some (stmt_place d).
Proof.
  intros HT. unfold my_stmt at 1, dae_finish. cbn [da_type set_outer inner]. rewrite HT.
  destruct (inner s) as [d0|]; [|done]. intros Hd%(inj Some). cbn [mbind option_bind]. destruct (ex_inner x _) as [rc0 E].
  intros [= <- <-]. unfold my_stmt. cbn. rewrite HT. cbn. split_and!; try done. f_equal. by rewrite <- Hd.
Qed.

(** C16. A statement that needs data at execution: from the state SQLExecute leaves, SQLParamData
    asks for exactly the parameters whose indicator says so, each once, in the
    order of their numbers, whatever the application stores for them.  Then it executes the
    statement with all the data stored so far: the code of the last call and the error record are
    what this execution returns; the stored data are given back, and the statement is ready for the
    next execution. *)
Theorem ParamData_asks_in_order s fuel : da_type s = MADB_DAE_NORMAL -> 0 < ParamCount (outer s) -> PutParam (outer s) = -1 ->
  (Z.to_nat (ParamCount (outer s)) < fuel)%nat ->
  let asked := dae_from memory (outer s) (da_row s) 0 (Z.to_nat (ParamCount (outer s))) in
  let s1 := ask_all put s asked in
  let '(rc, E) := ex_outer x (MARK_DAE_DONE (outer s1)) (da_Error s1) in
  exists s', param_loop memory x put fuel s = Some (Z.of_nat <$> asked, rc, s') /\
    rc <> SQL_NEED_DATA /\ da_Error s' = E /\ ParamCount (outer s') = ParamCount (outer s) /\ PutParam (outer s') = -1 /\
    Status (outer s') = 0 /\ Forall (fun r => r = MkIpd None 0 0) (ipd (outer s')).
Proof.
  intros HT Hc Hp Hf asked s1.
  assert (stmt_place <$> my_stmt s = Some (stmt_place (outer s))) as Hm by (unfold my_stmt; by rewrite HT).
  destruct (param_loop_asks (outer s) fuel s asked (or_introl HT) Hm Hc) as (rc & s2 & HL & Hrc & HF & T1 & _ & C1 & _).
  - rewrite Hp. change (first_index (-1)) with 0%nat. by rewrite Nat.sub_0_r.
  - eapply Nat.le_lt_trans; [apply dae_from_length|]. lia.
  - fold s1 in HF, T1, C1. rewrite HT in T1. destruct (finish_normal s1 rc s2 T1 HF) as (E & EX & P & S & CO & ER & F).
    rewrite EX. exists s2. split_and!; congruence || done.
Qed.

(** Data at execution for SQL_ADD: the first time all parameters of the inner
    statement are asked for, but the position of the outer statement is left at its
    own number of parameters, so that the next SQL_ADD asks only for
    the parameters behind that number: the first one never again. *)
Theorem ParamData_add_again s d fuel : da_type s = MADB_DAE_ADD -> inner s = Some d -> 0 < ParamCount d ->
  0 <= ParamCount (outer s) -> PutParam (outer s) = -1 -> (Z.to_nat (ParamCount d) < fuel)%nat ->
  let n := Z.to_nat (ParamCount d) in let c := Z.to_nat (ParamCount (outer s)) in
  exists rc1 s1 rc2 s2,
    param_loop memory x put fuel s = Some (Z.of_nat <$> dae_from memory d (da_row s) 0 n, rc1, s1) /\ da_type s1 = MADB_DAE_ADD /\
    param_loop memory x put fuel s1 = Some (Z.of_nat <$> dae_from memory d (da_row s) (S c) (n - S c), rc2, s2).
Proof.
  intros HT Hd Hc Ho Hp Hf n c.
  assert (stmt_place <$> my_stmt s = Some (stmt_place d)) as Hm by (unfold my_stmt; by rewrite HT, Hd).
  destruct (param_loop_asks d fuel s _ (or_intror HT) Hm Hc eq_refl) as (rc & s1 & HL & Hrc & HF & T1 & R1 & C1 & M1).
  - eapply Nat.le_lt_trans; [apply dae_from_length|]. lia.
  - rewrite Hp in HL. change (first_index (-1)) with 0%nat in HL. rewrite Nat.sub_0_r in HL.
    destruct (finish_add _ rc s1 d ltac:(by rewrite T1) M1 HF) as (T2 & R2 & P2 & M2).
    destruct (param_loop_asks d fuel s1 _ (or_intror T2) M2 Hc eq_refl) as (rc2 & s2 & HL2 & _).
    { eapply Nat.le_lt_trans; [apply dae_from_length|]. lia. }
    exists rc, s1, rc2, s2. split; [done|]. split; [done|]. rewrite HL2, R2, R1, P2, C1.
    assert (first_index (ParamCount (outer s)) = S c) as -> by (unfold first_index; rewrite (proj2 (Z.ltb_lt _ _)) by lia; lia). done.
Qed.
End Loop.

(** *** SQLPutData collects the data *)

Lemma set_my_same s d d' : my_stmt s = Some d -> stmt_place d' = stmt_place d -> PutParam d' = PutParam d ->
  same_params s (set_my_stmt s d') /\ my_stmt (set_my_stmt s d') = Some d'.
Proof.
  intros Hd Hp HP. assert (ParamCount d' = ParamCount d) as Hc by (unfold stmt_place in Hp; congruence).
  unfold same_params, set_my_stmt, my_stmt in *. destruct (da_type s) eqn:HT; [apply (inj Some) in Hd as <-|..]; cbn;
    rewrite HT, ?Hd; cbn; by rewrite ?Hp, ?HP, ?Hc.
Qed.

Lemma same_params_trans s1 s2 s3 : same_params s1 s2 -> same_params s2 s3 -> same_params s1 s3.
Proof. unfold same_params. intuition congruence. Qed.

Lemma same_error s E : same_params s (set_Error s E).
Proof. by unfold same_params, my_stmt. Qed.

(** Storing data does not change where they are looked for. *)
Lemma PutData_same ok ssps long ws wc s p n rc s' : MADB_StmtPutData ok ssps long ws wc s p n = Some (rc, s') -> same_params s s'.
Proof.
  unfold MADB_StmtPutData. set (s0 := set_Error s _). intros H. apply (same_params_trans s s0); [apply same_error|].
  revert H. clearbody s0. destruct (_ && negb (n =? SQL_NULL_DATA)); [intros [= <- <-]; apply same_error|].
  destruct (my_stmt s0) as [d|] eqn:Ed; [|done]. cbn [mbind option_bind].
  destruct (0 <=? PutParam (outer s0)); [|done]. destruct (apd d !! _) as [r|] eqn:Er; [|done]. cbn [mbind option_bind].
  destruct (n =? SQL_NULL_DATA).
  { destruct (long || _); intros [= <- <-]; [apply same_error|]. apply (set_my_same s0 d); try done.
    unfold stmt_place, set_apd. cbn [ParamCount ds_BindType ds_BindOffset apd]. f_equal.
    rewrite list_fmap_insert. apply list_insert_id. by rewrite list_lookup_fmap, Er. }
  destruct (_ && negb (n =? 0)); [intros [= <- <-]; apply same_error|].
  destruct (put_bytes _ _ _ _ _) as [bytes|]; [|done]. cbn [mbind option_bind].
  destruct (_ && (0 <? n)); [intros [= <- <-]; apply same_error|].
  destruct (negb ssps); [intros [= <- <-]; apply same_error|].
  destruct (1 <? ds_ArraySize d); [intros [= <- <-]; apply same_error|].
  destruct (ipd_write (ipd d) _) as [l rec]. destruct (store_piece ok _ rec bytes) as [[code msg]|rec']; intros [= <- <-].
  - eapply same_params_trans; [|apply same_error]. by apply (set_my_same s0 d).
  - by apply (set_my_same s0 d).
Qed.

(** A call for each piece of a character or binary parameter. *)
Fixpoint put_pieces (wc : list Z -> Z -> option (list Z)) (ws : Z) (s : dae_state) (pieces : list (list Z)) : option (list Z * dae_state) :=
  match pieces with
  | [] => Some ([], s)
  | p :: pieces' =>
      '(rc, s1) ← MADB_StmtPutData true true false ws wc s (Some p) (Z.of_nat (length p));
      '(l, s2) ← put_pieces wc ws s1 pieces'; Some (rc :: l, s2)
  end.

(** The data of the parameter so far. *)
Definition collected (d : dae_stmt) (i : nat) (data : list Z) : Prop :=
  exists r, ipd d !! i = Some r /\ ir_InternalLength r = Z.of_nat (length data) /\ ir_OctetLength r = Z.of_nat (length data) /\
    ir_Data r = Some (data ++ [0]).

Definition nothing_yet (d : dae_stmt) (i : nat) : Prop := forall r, ipd d !! i = Some r -> ir_InternalLength r = 0.

(** What stays when pieces are stored. *)
Definition string_param (s : dae_state) (d : dae_stmt) (i : nat) : Prop :=
  my_stmt s = Some d /\ PutParam (outer s) = Z.of_nat i /\ ds_ArraySize d <= 1 /\
  exists r, apd d !! i = Some r /\ is_string_type (ar_ConciseType r) = true /\ ar_ConciseType r <> SQL_C_WCHAR.

Lemma put_bytes_piece wc ws t p : t <> SQL_C_WCHAR -> put_bytes wc ws t (Some p) (Z.of_nat (length p)) = Some p.
Proof.
  intros Ht. unfold put_bytes. rewrite (proj2 (Z.eqb_neq _ _)) by done. rewrite (proj2 (Z.eqb_neq _ SQL_NTS)) by (unfold SQL_NTS; lia).
  rewrite Nat2Z.id. destruct p as [|x p]; [done|]. rewrite (proj2 (Nat.eqb_neq _ _)) by (cbn; lia). cbn [mbind option_bind].
  by rewrite (proj2 (Nat.leb_le _ _)), take_ge.
Qed.

Lemma ipd_write_lookup l i : exists rec, ipd_write l i = (l ++ replicate (S i - length l) (MkIpd None 0 0), rec) /\
  (l ++ replicate (S i - length l) (MkIpd None 0 0)) !! i = Some rec /\ (l !! i = Some rec \/ rec = MkIpd None 0 0).
Proof.
  unfold ipd_write. set (l' := l ++ _). destruct (l' !! i) as [rec|] eqn:E.
  - exists rec. split; [done|]. split; [done|]. subst l'. apply lookup_app_Some in E as [E|[_ E]]; [by left|].
    apply lookup_replicate in E as [-> _]. by right.
  - apply lookup_ge_None in E. subst l'. rewrite length_app, length_replicate in E. lia.
Qed.

Lemma store_piece_string rec data p :
  (ir_InternalLength rec = Z.of_nat (length data) /\ ir_Data rec = Some (data ++ [0])) \/ (data = [] /\ ir_InternalLength rec = 0) ->
  Z.of_nat (length (data ++ p)) < 2 ^ 62 ->
  store_piece true true rec p =
    inr (MkIpd (Some ((data ++ p) ++ [0])) (Z.of_nat (length (data ++ p))) (Z.of_nat (length (data ++ p)))).
Proof.
  intros H Hl. rewrite length_app in *. unfold store_piece.
  assert (ir_InternalLength rec = Z.of_nat (length data)) as E by (destruct H as [[H _]|[-> H]]; [done|by rewrite H]).
  rewrite E. cbn [negb]. rewrite wrapu_id by lia. rewrite <- Nat2Z.inj_add. destruct data as [|x data]; [done|].
  rewrite (proj2 (Z.eqb_neq _ _)) by (cbn; lia). destruct H as [[_ ->]|[? _]]; [|done].
  change (default [] (Some ?a)) with a. rewrite Nat2Z.id, take_app_length. by rewrite <- app_assoc.
Qed.

Lemma PutData_piece ws wc s d i data p : string_param s d i -> collected d i data \/ (data = [] /\ nothing_yet d i) ->
  Z.of_nat (length (data ++ p)) < 2 ^ 62 ->
  exists s' d', MADB_StmtPutData true true false ws wc s (Some p) (Z.of_nat (length p)) = Some (SQL_SUCCESS, s') /\
    string_param s' d' i /\ collected d' i (data ++ p).
Proof.
  intros (Hd & HP & HA & r & Hr & Ht & Hw) Hc Hl. unfold MADB_StmtPutData.
  rewrite (proj2 (Z.ltb_ge (Z.of_nat _) 0)) by lia. cbn [andb]. set (s0 := set_Error s _).
  change (my_stmt s0) with (my_stmt s). change (outer s0) with (outer s). rewrite Hd, HP. cbn [mbind option_bind].
  rewrite (proj2 (Z.leb_le _ _)), Nat2Z.id, Hr by lia. cbn [mbind option_bind].
  rewrite (proj2 (Z.eqb_neq _ SQL_NULL_DATA)) by (unfold SQL_NULL_DATA; lia). rewrite put_bytes_piece by done.
  cbn [mbind option_bind andb]. rewrite (proj2 (Z.eqb_neq _ SQL_C_WCHAR)) by done. cbn [andb negb].
  rewrite (proj2 (Z.ltb_ge 1 _)) by lia. destruct (ipd_write_lookup (ipd d) i) as (rec & -> & Hrec & Hold). rewrite Ht.
  rewrite (store_piece_string rec data p).
  - set (d' := set_ipd d _). destruct (set_my_same s0 d d') as [(T1 & R1 & C1 & P1 & _) M1]; [done|done|done|].
    eexists _, d'. split; [reflexivity|]. split.
    + split; [done|]. split; [by rewrite P1|]. split; [done|]. by exists r.
    + eexists. split; [by apply list_lookup_insert_eq, (lookup_lt_Some _ _ _ Hrec)|]. done.
  - destruct Hc as [(r0 & Hr0 & H1 & H2 & H3)|[-> Hn]].
    + destruct Hold as [Ho|Ho]; [left; naive_solver|]. exfalso.
      rewrite lookup_app_l in Hrec by (by eapply lookup_lt_Some). rewrite Hr0 in Hrec. injection Hrec as ->. by rewrite Ho in H3.
    + right. split; [done|]. destruct Hold as [Ho| ->]; [by apply Hn|done].
  - done.
Qed.

Lemma put_pieces_collect ws wc i pieces : forall s d data, string_param s d i -> collected d i data ->
  Z.of_nat (length (data ++ concat pieces)) < 2 ^ 62 ->
  exists s' d', put_pieces wc ws s pieces = Some (replicate (length pieces) SQL_SUCCESS, s') /\ string_param s' d' i /\
    collected d' i (data ++ concat pieces).
Proof.
  induction pieces as [|p pieces IH]; intros s d data Hs Hc Hl; cbn [put_pieces concat length] in *.
  - rewrite app_nil_r. by exists s, d.
  - rewrite app_assoc in Hl. destruct (PutData_piece ws wc s d i data p Hs (or_introl Hc)) as (s1 & d1 & -> & Hs1 & Hc1);
      [rewrite length_app in Hl; lia|]. cbn [mbind option_bind].
    destruct (IH s1 d1 (data ++ p) Hs1 Hc1 Hl) as (s2 & d2 & -> & Hs2 & Hc2). exists s2, d2. by rewrite app_assoc.
Qed.

(** C17. Data sent in pieces: for a character or binary parameter in the text protocol
    SQLPutData accepts any number of pieces, and what is stored for the
    parameter afterwards is their concatenation in order, with a NUL behind it and its length in
    the record, also when pieces are empty. *)
Theorem PutData_concatenates ws wc i pieces s d : string_param s d i -> nothing_yet d i -> pieces <> [] ->
  Z.of_nat (length (concat pieces)) < 2 ^ 62 ->
  exists s' d', put_pieces wc ws s pieces = Some (replicate (length pieces) SQL_SUCCESS, s') /\ my_stmt s' = Some d' /\
    collected d' i (concat pieces).
Proof.
  intros Hs Hn Hne Hl. destruct pieces as [|p pieces]; [done|]. cbn [put_pieces concat length] in *.
  destruct (PutData_piece ws wc s d i [] p Hs (or_intror (conj eq_refl Hn))) as (s1 & d1 & -> & Hs1 & Hc1);
    [rewrite length_app in Hl; cbn; lia|]. cbn [mbind option_bind].
  destruct (put_pieces_collect ws wc i pieces s1 d1 p Hs1 Hc1 Hl) as (s2 & d2 & -> & (Hm & _) & Hc2).
  by exists s2, d2.
Qed.

(** Any call of SQLPutData in the text protocol. *)
Inductive put_step : dae_state -> dae_state -> Prop :=
| put_call ok ssps ws wc s p n rc s' : MADB_StmtPutData ok ssps false ws wc s p n = Some (rc, s') -> put_step s s'.

(** The length that the check for a null value looks at. *)
Definition unmarked (s : dae_state) : Prop := forall d, my_stmt s = Some d -> Forall (fun r => ar_InternalLength r = 0) (apd d).

Lemma unmarked_set s d d' : my_stmt s = Some d -> apd d' = apd d -> unmarked s -> unmarked (set_my_stmt s d').
Proof.
  intros Hd Ha Hu e He. assert (e = d') as ->.
  { unfold my_stmt, set_my_stmt in *. destruct (da_type s) eqn:HT; cbn in He; rewrite HT in He; cbn in He; congruence. }
  rewrite Ha. by apply Hu.
Qed.

Lemma put_step_unmarked s s' : put_step s s' -> unmarked s -> unmarked s'.
Proof.
  intros [ok ssps ws wc s0 p n rc s1 H] Hu. revert H. unfold MADB_StmtPutData. set (s2 := set_Error s0 _).
  assert (unmarked s2) as Hu2 by done. clearbody s2. clear Hu. assert (forall E, unmarked (set_Error s2 E)) as HE by done.
  destruct (_ && negb (n =? SQL_NULL_DATA)); [intros [= <- <-]; apply HE|].
  destruct (my_stmt s2) as [d|] eqn:Ed; [|done]. cbn [mbind option_bind].
  destruct (0 <=? PutParam (outer s2)); [|done]. destruct (apd d !! _) as [r|] eqn:Er; [|done]. cbn [mbind option_bind].
  pose proof (Hu2 d Ed) as Hd. destruct (n =? SQL_NULL_DATA).
  { destruct (false || _); intros [= <- <-]; [apply HE|]. intros e He.
    assert (Forall (fun r => ar_InternalLength r = 0) (<[Z.to_nat (PutParam (outer s2)) :=
      MkApd (ar_ConciseType r) SQL_TYPE_NULL (ar_OctetLengthPtr r) (ar_DataPtr r) (ar_OctetLength r) (ar_InternalLength r)]> (apd d))) as HF.
    { apply Forall_insert; [done|]. exact (Forall_lookup_1 _ _ _ _ Hd Er). }
    unfold my_stmt, set_my_stmt in *. destruct (da_type s2) eqn:HT; cbn in He; rewrite HT in He; cbn in He; by simplify_eq. }
  destruct (_ && negb (n =? 0)); [intros [= <- <-]; apply HE|].
  destruct (put_bytes _ _ _ _ _) as [bytes|]; [|done]. cbn [mbind option_bind].
  destruct (_ && (0 <? n)); [intros [= <- <-]; apply HE|]. destruct (negb ssps); [intros [= <- <-]; apply HE|].
  destruct (1 <? ds_ArraySize d); [intros [= <- <-]; apply HE|].
  destruct (ipd_write (ipd d) _) as [l rec].
  destruct (store_piece ok _ rec bytes) as [[code msg]|rec']; intros [= <- <-]; by apply (unmarked_set s2 d).
Qed.

(** A null value after data: the check that should refuse it looks at a length that
    SQLPutData stores elsewhere, so that after any sequence of calls SQL_NULL_DATA is
    accepted and the parameter becomes NULL, and HY020 is never reported. *)
Theorem PutData_null_accepted s s' d r ok ssps ws wc p :
  rtc put_step s s' -> unmarked s -> my_stmt s' = Some d -> 0 <= PutParam (outer s') ->
  apd d !! Z.to_nat (PutParam (outer s')) = Some r ->
  exists s'', MADB_StmtPutData ok ssps false ws wc s' p SQL_NULL_DATA = Some (SQL_SUCCESS, s'').
Proof.
  intros HR Hu Hd HP Hr. assert (unmarked s') as Hu' by (induction HR; eauto using put_step_unmarked).
  unfold MADB_StmtPutData. change (SQL_NULL_DATA =? SQL_NULL_DATA) with true. rewrite andb_false_r.
  set (s0 := set_Error s' _). change (my_stmt s0) with (my_stmt s'). change (outer s0) with (outer s'). rewrite Hd.
  cbn [mbind option_bind]. rewrite (proj2 (Z.leb_le _ _)), Hr by done. cbn [mbind option_bind].
  pose proof (Hu' d Hd) as HF. eapply Forall_lookup_1 in HF; [|exact Hr]. rewrite HF. by eexists.
Qed.

(** *** Samples *)

(** Three parameters, the first and the last with their data at execution. *)
Definition sample_memory (a : Z) : Z := if a =? 200 then 4 else SQL_DATA_AT_EXEC.
Definition sample_stmt : dae_stmt :=
  MkDaeStmt 3 (-1) 0 ((fun a => MkApd SQL_C_CHAR SQL_C_CHAR (Some a) (Some (a + 1000)) 8 0) <$> [100; 200; 300]) [] 0 0 1.
Definition sample_exec : dae_exec :=
  MkExec (fun _ E => (SQL_SUCCESS, E)) (fun _ => (SQL_SUCCESS, ErrorProps.zero_error)) (fun s => (SQL_ERROR, da_Error s)).
Definition sample_state (t : MADB_DaeType) : dae_state :=
  MkDaeState (set_progress (MkDaeStmt (match t with MADB_DAE_NORMAL => 3 | _ => 0 end) 0 0 (apd sample_stmt) [] 0 0 1) (-1) 0)
    (Some sample_stmt) t 1 ErrorProps.zero_error.
Definition sample_put (s : dae_state) : dae_state :=
  match MADB_StmtPutData true true false 4 (fun _ _ => None) s (Some (chars "abc")) 3 with Some (_, s') => s' | None => s end.

Lemma sample_put_same s : same_params s (sample_put s).
Proof.
  unfold sample_put. destruct (MADB_StmtPutData _ _ _ _ _ _ _ _) as [[rc s']|] eqn:E; [by eapply PutData_same|]. by split_and!.
Qed.

Lemma ParamData_asks_in_order_witness : exists s',
  param_loop sample_memory sample_exec sample_put 4 (sample_state MADB_DAE_NORMAL) = Some ([0; 2], SQL_SUCCESS, s') /\
  PutParam (outer s') = -1.
Proof.
  destruct (ParamData_asks_in_order sample_memory sample_exec sample_put sample_put_same) with (s := sample_state MADB_DAE_NORMAL) (fuel := 4%nat)
    as (s' & H1 & _ & _ & _ & H2 & _);
    [discriminate|discriminate|reflexivity|cbn; lia|reflexivity|cbn; lia|].
  exists s'. split; [exact H1|exact H2].
Defined.

Lemma ParamData_add_again_witness : exists rc1 s1 rc2 s2,
  param_loop sample_memory sample_exec sample_put 4 (sample_state MADB_DAE_ADD) = Some ([0; 2], rc1, s1) /\
  param_loop sample_memory sample_exec sample_put 4 s1 = Some ([2], rc2, s2).
Proof.
  destruct (ParamData_add_again sample_memory sample_exec sample_put sample_put_same) with (s := sample_state MADB_DAE_ADD)
    (d := sample_stmt) (fuel := 4%nat) as (rc1 & s1 & rc2 & s2 & H1 & _ & H2);
    [discriminate|discriminate|reflexivity|reflexivity|cbn; lia|cbn; lia|reflexivity|cbn; lia|].
  exists rc1, s1, rc2, s2. split; [exact H1|exact H2].
Defined.

(** The first parameter gets its data in three pieces. *)
Definition sample_asked : dae_state :=
  MkDaeState (set_progress sample_stmt 0 SQL_NEED_DATA) None MADB_DAE_NORMAL 1 ErrorProps.zero_error.

Lemma PutData_concatenates_witness : exists s' d',
  put_pieces (fun _ _ => None) 4 sample_asked [chars "ab"; []; chars "c"] = Some ([SQL_SUCCESS; SQL_SUCCESS; SQL_SUCCESS], s') /\
  my_stmt s' = Some d' /\ collected d' 0 (chars "abc").
Proof.
  apply (PutData_concatenates 4 (fun _ _ => None) 0 [chars "ab"; []; chars "c"] sample_asked (outer sample_asked)).
  - split; [reflexivity|]. split; [reflexivity|]. split; [cbn; lia|]. eexists. split; [reflexivity|]. split; [reflexivity|discriminate].
  - intros r H. discriminate H.
  - discriminate.
  - cbn. lia.
Defined.

Lemma PutData_null_accepted_witness : exists s'',
  MADB_StmtPutData true true false 4 (fun _ _ => None) (sample_put sample_asked) None SQL_NULL_DATA = Some (SQL_SUCCESS, s'').
Proof.
  destruct (MADB_StmtPutData true true false 4 (fun _ _ => None) sample_asked (Some (chars "abc")) 3) as [[rc s']|] eqn:E;
    [|exfalso; revert E; vm_compute; discriminate].
  assert (sample_put sample_asked = s') as Hs by (unfold sample_put; by rewrite E). rewrite Hs.
  assert (exists d r, my_stmt s' = Some d /\ 0 <= PutParam (outer s') /\ apd d !! Z.to_nat (PutParam (outer s')) = Some r)
    as (d & r & H1 & H2 & H3).
  { rewrite <- Hs. do 2 eexists. split; [vm_compute; reflexivity|]. split; [vm_compute; discriminate|vm_compute; reflexivity]. }
  apply (PutData_null_accepted sample_asked s' d r true true 4 (fun _ _ => None) None).
  - eapply rtc_once, put_call. exact E.
  - intros e [= <-]. vm_compute. repeat constructor.
  - exact H1.
  - exact H2.
  - exact H3.
Defined.

End DataAtExecProps.
