(* ===== verification/TypeConv.v ===== *)
(** * TypeConv: conversions between C types, SQL types and text

    Models [ma_typeconv.c] (dates, times, integers; the conversions through
    floating point are left out) and the date and time copies of [ma_helper.c].
    A conversion that writes into a reused buffer takes the old content. *)

From Stdlib Require Import ZArith Lia.
From stdpp Require Import base strings numbers option list.
From S2P Require Import Prelude Decimal Odbc Errors SqlTypes.
Import ErrorOps SqlTypes.

(** ** Data *)

Record SQL_TIMESTAMP_STRUCT := MkTs {
  ts_year : Z; ts_month : Z; ts_day : Z; ts_hour : Z; ts_minute : Z; ts_second : Z; ts_fraction : Z }.
Record SQL_TIME_STRUCT := MkTimeS { t_hour : Z; t_minute : Z; t_second : Z }.
Record SQL_DATE_STRUCT := MkDateS { d_year : Z; d_month : Z; d_day : Z }.

Inductive enum_mysql_timestamp_type :=
| MYSQL_TIMESTAMP_NONE | MYSQL_TIMESTAMP_ERROR | MYSQL_TIMESTAMP_DATE
| MYSQL_TIMESTAMP_DATETIME | MYSQL_TIMESTAMP_TIME.

Record MYSQL_TIME := MkTime {
  year : Z; month : Z; day : Z; hour : Z; minute : Z; second : Z;
  second_part : Z;
  neg : bool;
  time_type : enum_mysql_timestamp_type;
}.

(** [memset] to zero; the enumeration starts at -2, so zero is DATE. *)
Definition zero_time : MYSQL_TIME := MkTime 0 0 0 0 0 0 0 false MYSQL_TIMESTAMP_DATE.

Definition VALID_TIME (h m s : Z) : bool := (h <? 24) && (m <? 60) && (s <? 60).

Module TypeConv.

(** ** From text to a time *)

(** One [%d] or [%u] of [sscanf]; [%6lu] reads at most six characters. *)
Definition scan_d (l : list Z) : option (Z * list Z) :=
  match scan_int l with
  | Some (sg, v, r) => Some (wrapu 32 (if sg then - v else v), r)
  | None => None
  end.

Definition scan_6lu (l : list Z) : option Z :=
  match scan_int (take 6 (ltrim l)) with
  | Some (sg, v, _) => Some (wrapu 64 (if sg then - v else v))
  | None => None
  end.

Definition expect (c : Z) (l : list Z) : option (list Z) :=
  match l with x :: l' => if x =? c then Some l' else None | [] => None end.

(** [sscanf(s, "%d<sep>%u<sep>%u", ...) == 3]: the three numbers and the rest. *)
Definition scan_triple (sep : Z) (l : list Z) : option (Z * Z * Z * list Z) :=
  match scan_d l with
  | None => None
  | Some (a, r1) =>
      match expect sep r1 with
      | None => None
      | Some r1' =>
          match scan_d r1' with
          | None => None
          | Some (b, r2) =>
              match expect sep r2 with
              | None => None
              | Some r2' =>
                  match scan_d r2' with
                  | None => None
                  | Some (c, r3) => Some (a, b, c, r3)
                  end
              end
          end
      end
  end.

Definition set_date (t : MYSQL_TIME) (y m d : Z) : MYSQL_TIME :=
  MkTime y m d (hour t) (minute t) (second t) (second_part t) (neg t) (time_type t).
Definition set_clock (t : MYSQL_TIME) (h m s f : Z) : MYSQL_TIME :=
  MkTime (year t) (month t) (day t) h m s f (neg t) (time_type t).

Definition Mul : list Z := [100000; 10000; 1000; 100; 10].

(** The adjustment of two-digit years at the label [check]. *)
Definition adjust_year (Interval isDate : bool) (t : MYSQL_TIME) : MYSQL_TIME :=
  if negb Interval && isDate && (0 <? year t) then
    if year t <? 70 then set_date t (year t + 2000) (month t) (day t)
    else if year t <? 100 then set_date t (year t + 1900) (month t) (day t)
    else t
  else t.

(** The time part, from [s] to the end of the text. *)
Definition scan_clock (s : list Z) (t : MYSQL_TIME) : option MYSQL_TIME :=
  match strchr s ($".") with
  | Some i =>
      match scan_triple ($":") s with
      | None => None
      | Some (h, m, sec, r) =>
          match expect ($".") r with
          | None => None
          | Some r' =>
              match scan_6lu r' with
              | None => None
              | Some f =>
                  let FracMulIdx := wrapu 64 (Z.of_nat (length s - S i) - 1) in
                  let f' := if FracMulIdx <? 5 then wrapu 64 (f * default 0 (Mul !! Z.to_nat FracMulIdx)) else f in
                  Some (set_clock t h m sec f')
              end
          end
      end
  | None =>
      match scan_triple ($":") s with
      | None => None
      | Some (h, m, sec, _) => Some (set_clock t h m sec (second_part t))
      end
  end.

(** [MADB_Str2Ts] on NUL-free text: the error, or the time and the value given to
    [*isTime] ([None] when it is left alone). *)
Definition MADB_Str2Ts (Str : list Z) (Interval : bool) (Error : MADB_Error)
    : MADB_Error + (MYSQL_TIME * option bool) :=
  match ltrim Str with
  | [] => inr (zero_time, None)
  | c :: rest =>
      let sg := c =? $"-" in
      let Start := if sg then rest else c :: rest in
      let t0 := MkTime 0 0 0 0 0 0 0 sg MYSQL_TIMESTAMP_DATE in
      let err := inl (MADB_SetError Error MADB_ERR_22008 None 0) in
      (** the time of day: from a blank behind a date, or from the start *)
      let clock (isDate : bool) (s : list Z) (t : MYSQL_TIME) :=
        match strchr s ($":") with
        | None => inr (adjust_year Interval isDate t, None)
        | Some _ =>
            match scan_clock s t with
            | None => err
            | Some t' => inr (adjust_year Interval isDate t', if isDate then None else Some true)
            end
        end in
      match strchr Start ($"-") with
      | Some _ =>
          match scan_triple ($"-") Start with
          | None => err
          | Some (y, m, d, _) =>
              let t1 := set_date t0 y m d in
              match strchr Start 32 with
              | None => inr (adjust_year Interval true t1, None)
              | Some i => clock true (drop i Start) t1
              end
          end
      | None => clock false Start t0
      end
  end.

Definition MADB_ConversionSupported (FromConcise ToType : Z) : bool :=
  if case FromConcise [SQL_C_TIMESTAMP; SQL_C_TYPE_TIMESTAMP; SQL_C_TIME; SQL_C_TYPE_TIME; SQL_C_DATE; SQL_C_TYPE_DATE]
  then negb (ToType =? SQL_INTERVAL)
  else true.

(** [MADB_ProcessIndicator]: the type, buffer and length it binds, when it takes
    the value; a NULL default binds NULL. *)
Definition MADB_ProcessIndicator (Indicator : Z) (DefaultValue : option (list Z))
    : option (Z * option (list Z) * Z) :=
  if Indicator =? SQL_COLUMN_IGNORE then
    match DefaultValue with
    | None => Some (MYSQL_TYPE_NULL, None, 0)
    | Some v => Some (MYSQL_TYPE_STRING, Some v, Z.of_nat (length v))
    end
  else if Indicator =? SQL_NULL_DATA then Some (MYSQL_TYPE_NULL, None, 0)
  else None.

(** ** Times between the two libraries *)

Definition MADB_CopyOdbcTsToMadbTime (s : SQL_TIMESTAMP_STRUCT) (d : MYSQL_TIME) : MYSQL_TIME :=
  MkTime (wrapu 32 (ts_year s)) (ts_month s) (ts_day s) (ts_hour s) (ts_minute s) (ts_second s)
    (ts_fraction s / 1000) (neg d) (time_type d).

Definition MADB_CopyMadbTimeToOdbcTs (s : MYSQL_TIME) : SQL_TIMESTAMP_STRUCT :=
  MkTs (wraps 16 (year s)) (wrapu 16 (month s)) (wrapu 16 (day s)) (wrapu 16 (hour s)) (wrapu 16 (minute s))
    (wrapu 16 (second s)) (wrapu 32 (second_part s * 1000)).

(** [MADB_TsConversionIsPossible]: [None] is SQL_SUCCESS. *)
Definition MADB_TsConversionIsPossible (ts : SQL_TIMESTAMP_STRUCT) (SqlType : Z) (Error : MADB_Error)
    (SqlState : nat) (isTime : bool) : option MADB_Error :=
  if case SqlType [SQL_TIME; SQL_TYPE_TIME] then
    if negb (ts_fraction ts =? 0) then
      Some (MADB_SetError Error MADB_ERR_22008 (Some (chars "Fractional seconds fields are nonzero")) 0)
    else if negb (VALID_TIME (ts_hour ts) (ts_minute ts) (ts_second ts)) then
      Some (MADB_SetError Error MADB_ERR_22007 (Some (chars "Invalid time")) 0)
    else None
  else if case SqlType [SQL_DATE; SQL_TYPE_DATE]
          && negb (wrapu 32 (ts_hour ts + ts_minute ts + ts_second ts + ts_fraction ts) =? 0) then
    Some (MADB_SetError Error MADB_ERR_22008 (Some (chars "Time fields are nonzero")) 0)
  else if (negb isTime && (ts_year ts =? 0)) || (ts_month ts =? 0) || (ts_day ts =? 0) then
    Some (MADB_SetError Error SqlState None 0)
  else None.

(** [MADB_Timestamp2Sql]: the value bound (in the buffer [old]) and the column type. *)
Definition MADB_Timestamp2Sql (ts : SQL_TIMESTAMP_STRUCT) (SqlConcise : Z) (old : MYSQL_TIME) (Error : MADB_Error)
    : MADB_Error + (MYSQL_TIME * Z) :=
  match MADB_TsConversionIsPossible ts SqlConcise Error MADB_ERR_22007 false with
  | Some e => inl e
  | None =>
      if case SqlConcise [SQL_TYPE_DATE; SQL_DATE] then
        if negb (wrapu 32 (ts_hour ts + ts_minute ts + ts_second ts + ts_fraction ts) =? 0) then
          inl (MADB_SetError Error MADB_ERR_22008 (Some (chars "Time fields are nonzero")) 0)
        else
          inr (MkTime (wrapu 32 (ts_year ts)) (ts_month ts) (ts_day ts) (hour old) (minute old) (second old)
                 (second_part old) (neg old) MYSQL_TIMESTAMP_DATE, MYSQL_TYPE_DATE)
      else if case SqlConcise [SQL_TYPE_TIME; SQL_TIME] then
        if negb (ts_fraction ts =? 0) then
          inl (MADB_SetError Error MADB_ERR_22008 (Some (chars "Fractional seconds fields are nonzero")) 0)
        else if negb (VALID_TIME (ts_hour ts) (ts_minute ts) (ts_second ts)) then
          inl (MADB_SetError Error MADB_ERR_22007 (Some (chars "Invalid time")) 0)
        else
          inr (MkTime (year old) (month old) (day old) (ts_hour ts) (ts_minute ts) (ts_second ts)
                 (second_part old) (neg old) MYSQL_TIMESTAMP_TIME, MYSQL_TYPE_TIME)
      else
        inr (MADB_CopyOdbcTsToMadbTime ts
               (MkTime (year old) (month old) (day old) (hour old) (minute old) (second old) (second_part old)
                  (neg old) MYSQL_TIMESTAMP_DATETIME), MYSQL_TYPE_TIMESTAMP)
  end.

Definition MADB_Time2Sql (ts : SQL_TIME_STRUCT) (SqlConcise : Z) (old : MYSQL_TIME) (Error : MADB_Error)
    : MADB_Error + (MYSQL_TIME * Z) :=
  if case SqlConcise [SQL_TYPE_TIME; SQL_TYPE_TIMESTAMP; SQL_TIME; SQL_TIMESTAMP; SQL_DATETIME]
     && negb (VALID_TIME (t_hour ts) (t_minute ts) (t_second ts)) then
    inl (MADB_SetError Error MADB_ERR_22007 None 0)
  else if case SqlConcise [SQL_TYPE_TIMESTAMP; SQL_TIMESTAMP; SQL_DATETIME] then
    inr (MkTime (year old) (month old) (day old) (t_hour ts) (t_minute ts) (t_second ts) 0 (neg old)
           MYSQL_TIMESTAMP_DATETIME, MYSQL_TYPE_TIMESTAMP)
  else
    inr (MkTime 0 0 0 (t_hour ts) (t_minute ts) (t_second ts) 0 (neg old) MYSQL_TIMESTAMP_TIME, MYSQL_TYPE_TIME).

(** [intval.day_second] of an interval structure as hour, minute, second. *)
Definition MADB_IntervalHtoMS2Sql (CConcise h m s : Z) (old : MYSQL_TIME) : MYSQL_TIME * Z :=
  (MkTime (year old) (month old) (day old) h m (if CConcise =? SQL_C_INTERVAL_HOUR_TO_SECOND then s else 0) 0
     (neg old) MYSQL_TIMESTAMP_TIME, MYSQL_TYPE_TIME).

Definition MADB_Date2Sql (ds : SQL_DATE_STRUCT) (old : MYSQL_TIME) : MYSQL_TIME * Z :=
  (MkTime (wrapu 32 (d_year ds)) (d_month ds) (d_day ds) 0 0 0 0 (neg old) MYSQL_TIMESTAMP_DATE, MYSQL_TYPE_DATE).

(** ** Times to the application *)

(** What [MADB_CopyMadbTimestamp] leaves in the application's buffer. *)
Inductive app_time := AppTs (t : SQL_TIMESTAMP_STRUCT) | AppTime (t : SQL_TIME_STRUCT) | AppDate (d : SQL_DATE_STRUCT).

(** The outcome: an error, the NULL indicator, or the value and its length; a
    warning comes with its value.  [today] is the date of [localtime]. *)
Inductive ts_outcome :=
| TsError (e : MADB_Error)
| TsNull
| TsValue (v : option app_time) (len : option Z) (warning : option MADB_Error).

Definition MADB_CopyMadbTimestamp (today : SQL_DATE_STRUCT) (tm : MYSQL_TIME) (has_data has_ind : bool)
    (CType SqlType : Z) (Error : MADB_Error) : ts_outcome :=
  let null := if has_ind then TsNull else TsError (MADB_SetError Error MADB_ERR_22002 None 0) in
  if case CType [SQL_C_TIMESTAMP; SQL_C_TYPE_TIMESTAMP] then
    if has_data then
      let from_time := case SqlType [SQL_TIME; SQL_TYPE_TIME] in
      let ts :=
        MkTs (if from_time then wraps 16 (d_year today) else wraps 16 (year tm))
             (if from_time then d_month today else wrapu 16 (month tm))
             (if from_time then d_day today else wrapu 16 (day tm))
             (wrapu 16 (hour tm)) (wrapu 16 (minute tm)) (wrapu 16 (second tm))
             (if from_time then 0 else wrapu 32 (second_part tm * 1000)) in
      if wrapu 32 (ts_year ts + ts_month ts + ts_day ts + ts_hour ts + ts_minute ts + ts_fraction ts + ts_second ts) =? 0
      then null
      else TsValue (Some (AppTs ts)) (Some sizeof_SQL_TIMESTAMP_STRUCT) None
    else TsValue None (Some sizeof_SQL_TIMESTAMP_STRUCT) None
  else if case CType [SQL_C_TIME; SQL_C_TYPE_TIME] then
    if has_data then
      if negb (VALID_TIME (hour tm) (minute tm) (second tm)) then TsError (MADB_SetError Error MADB_ERR_22007 None 0)
      else
        TsValue (Some (AppTime (MkTimeS (wrapu 16 (hour tm)) (wrapu 16 (minute tm)) (wrapu 16 (second tm)))))
          (Some sizeof_SQL_TIME_STRUCT)
          (if negb (second_part tm =? 0) then Some (MADB_SetError Error MADB_ERR_01S07 None 0) else None)
    else TsValue None None None
  else if case CType [SQL_C_DATE; SQL_TYPE_DATE] then
    if has_data then
      let ds := MkDateS (wraps 16 (year tm)) (wrapu 16 (month tm)) (wrapu 16 (day tm)) in
      if d_year ds + d_month ds + d_day ds =? 0 then null
      else TsValue (Some (AppDate ds)) (Some sizeof_SQL_DATE_STRUCT) None
    else TsValue None (Some sizeof_SQL_DATE_STRUCT) None
  else TsValue None None None.

(** ** To text *)

(** [MADB_ConvertIntegerToChar]: [src] is the bit pattern in the application's
    buffer, read at the width and signedness of the type. *)
Definition MADB_ConvertIntegerToChar (SourceType : Z) (src : Z) : list Z :=
  if case SourceType [SQL_C_UBIGINT] then dec_u (wrapu 64 src)
  else if case SourceType [SQL_C_ULONG] then dec_u (wrapu 32 src)
  else if case SourceType [SQL_C_USHORT] then dec_u (wrapu 16 src)
  else if case SourceType [SQL_C_UTINYINT] then dec_u (wrapu 8 src)
  else if case SourceType [SQL_BIGINT; SQL_C_SBIGINT] then dec (wraps 64 src)
  else if case SourceType [SQL_C_SHORT; SQL_C_SSHORT] then dec (wraps 16 src)
  else if case SourceType [SQL_C_STINYINT] then dec (wraps 8 src)
  else if case SourceType [SQL_C_TINYINT] then dec (wrapu 8 src)
  else dec (wraps 32 src).

Definition ushort_text (z : Z) : list Z := MADB_ConvertIntegerToChar SQL_C_USHORT z.

Definition clock_text (h m s : Z) : list Z :=
  ushort_text h ++ $":" :: ushort_text m ++ $":" :: ushort_text s.
Definition date_text (y m d : Z) : list Z :=
  MADB_ConvertIntegerToChar SQL_C_SHORT y ++ $"-" :: ushort_text m ++ $"-" :: ushort_text d.

(** The fraction of a timestamp in microseconds, filled with zeros to six digits. *)
Definition fraction_text (fraction : Z) : list Z :=
  if fraction / 1000 =? 0 then []
  else
    let frac := MADB_ConvertIntegerToChar SQL_C_ULONG (fraction / 1000) in
    $"." :: replicate (6 - length frac) ($"0") ++ frac.

Definition NEEDS_DATE_FIELDS (t : Z) : bool := case t [SQL_DATE; SQL_TYPE_DATE; SQL_TIMESTAMP; SQL_TYPE_TIMESTAMP].
Definition NEEDS_TIME_FIELDS (t : Z) : bool := case t [SQL_TIME; SQL_TYPE_TIME; SQL_TIMESTAMP; SQL_TYPE_TIMESTAMP].
Definition is_timestamp (t : Z) : bool := case t [SQL_TIMESTAMP; SQL_TYPE_TIMESTAMP].

Definition MADB_ConvertDatetimeToChar (SourceType SqlType : Z) (Src : app_time) (Error : MADB_Error)
    : MADB_Error + list Z :=
  match Src with
  | AppTime ts =>
      if case SourceType [SQL_C_TIME; SQL_C_TYPE_TIME] then
        if negb (VALID_TIME (t_hour ts) (t_minute ts) (t_second ts)) then
          inl (MADB_SetError Error MADB_ERR_22007 (Some (chars "Invalid time")) 0)
        else inr (clock_text (t_hour ts) (t_minute ts) (t_second ts))
      else inl (MADB_SetError Error MADB_ERR_22023 (Some (chars "Invalid date/time parameter type")) 0)
  | AppDate ds =>
      if case SourceType [SQL_C_DATE; SQL_C_TYPE_DATE] then inr (date_text (d_year ds) (d_month ds) (d_day ds))
      else inl (MADB_SetError Error MADB_ERR_22023 (Some (chars "Invalid date/time parameter type")) 0)
  | AppTs ts =>
      if case SourceType [SQL_C_TIMESTAMP; SQL_C_TYPE_TIMESTAMP] then
        match MADB_TsConversionIsPossible ts SqlType Error MADB_ERR_22007 false with
        | Some e => inl e
        | None =>
            inr ((if NEEDS_DATE_FIELDS SqlType then
                    date_text (ts_year ts) (ts_month ts) (ts_day ts) ++ (if is_timestamp SqlType then [32] else [])
                  else [])
                 ++ (if NEEDS_TIME_FIELDS SqlType then clock_text (ts_hour ts) (ts_minute ts) (ts_second ts) else [])
                 ++ (if is_timestamp SqlType then fraction_text (ts_fraction ts) else []))
        end
      else inl (MADB_SetError Error MADB_ERR_22023 (Some (chars "Invalid date/time parameter type")) 0)
  end.

(** ** Text and binary to integers *)

(** The result of a fetch conversion: the return code, the truncation flag, the
    value stored and the buffer length. *)
Record int_result := MkIntResult { ir_rc : Z; ir_error : bool; ir_value : Z; ir_length : Z }.

(** The three branches on types of 8, 16 and 32 bits: the range check and the store. *)
Definition store_int (is_unsigned partial : bool) (v w : Z) : int_result :=
  let out := if is_unsigned then (v <? 0) || (2 ^ w - 1 <? v) else (v <? - 2 ^ (w - 1)) || (2 ^ (w - 1) - 1 <? v) in
  MkIntResult (if partial || out then MYSQL_DATA_TRUNCATED else SQL_SUCCESS) (partial || out)
    (if is_unsigned then wrapu w v else wraps w v) (w / 8).

(** [MADB_ConvertCharToInteger]; [None] is the failed assertion. *)
Definition MADB_ConvertCharToInteger (buffer_type : Z) (is_unsigned : bool) (Src : list Z) (fieldLen : nat)
    : option int_result :=
  let v := wraps 64 (if is_unsigned then strtoul Src else strtol Src) in
  let used := match scan_int Src with Some (_, _, r) => (length Src - length r)%nat | None => 0%nat end in
  let partial := (used <? fieldLen)%nat in
  let store := store_int is_unsigned partial v in
  if case buffer_type [MYSQL_TYPE_TINY] then Some (store 8)
  else if case buffer_type [MYSQL_TYPE_SHORT; MYSQL_TYPE_YEAR] then Some (store 16)
  else if case buffer_type [MYSQL_TYPE_LONG; MYSQL_TYPE_INT24] then Some (store 32)
  else if case buffer_type [MYSQL_TYPE_LONGLONG] then
    Some (MkIntResult (if partial then MYSQL_DATA_TRUNCATED else SQL_SUCCESS) partial
            (if is_unsigned then wrapu 64 v else v) 8)
  else None.

(** The copy from [offset] that [MADB_ConvertBinaryToInteger] and the text branch
    of [MADB_CspsConvertSql2C] share: the buffer, the code and the flag. *)
Definition copy_from (offset buffer_length : nat) (Src buffer : list Z) : list Z * Z * bool :=
  if (offset <? length Src)%nat then
    let rest := drop offset Src in
    if (buffer_length <? length rest)%nat then (blit buffer 0 (take buffer_length rest), MYSQL_DATA_TRUNCATED, true)
    else (blit buffer 0 rest, SQL_SUCCESS, false)
  else (buffer, SQL_SUCCESS, false).

Definition MADB_ConvertBinaryToInteger (offset buffer_length : nat) (Src buffer : list Z) : list Z * Z * bool * nat :=
  let '(b, rc, e) := copy_from offset buffer_length Src buffer in (b, rc, e, length Src).

(** The default branch of [MADB_CspsConvertSql2C]: the same copy, and a NUL behind
    it where there is room. *)
Definition fetch_text (offset buffer_length : nat) (Src buffer : list Z) : list Z * Z * bool * nat :=
  let '(b, rc, e) := copy_from offset buffer_length Src buffer in
  let copyLen := Nat.min buffer_length (length Src - offset) in
  (if (offset <=? length Src)%nat && (copyLen <? buffer_length)%nat then <[copyLen := 0]> b else b, rc, e, length Src).

(** The little-endian copy of a BIT value. *)
Definition bit_value (val : list Z) : list Z :=
  let r := reverse (take 8 val) in r ++ replicate (8 - length r) 0.

(** The fields of [MYSQL_BIND] that a fetch looks at. *)
Record MYSQL_BIND := MkBind {
  buffer_type : Z;
  is_unsigned : bool;
  offset : nat;
  buffer_length : nat;
  buffer : list Z;
}.

(** What one conversion writes: an integer, raw bytes (with the truncation flag
    and the length reported), a floating point number of [size] bytes read from a
    text by [strtod], or a time. *)
Inductive fetched :=
| FetchedInt (r : int_result)
| FetchedBytes (b : list Z) (error : bool) (len : nat)
| FetchedReal (size : Z) (text : list Z)
| FetchedTime (r : MADB_Error + (MYSQL_TIME * option bool)).

(** [MADB_CspsConvertSql2C] for one value of the text protocol; [None] is the
    failed assertion of the integer conversion, which the switch rules out.  A
    BIT value is first turned to little endian. *)
Definition MADB_CspsConvertSql2C (Error : MADB_Error) (field_type : Z) (bind : MYSQL_BIND) (val : list Z)
    : option (Z * fetched) :=
  let value := if field_type =? MYSQL_TYPE_BIT then take (length val) (bit_value val) else val in
  if case (buffer_type bind) [MYSQL_TYPE_TINY; MYSQL_TYPE_SHORT; MYSQL_TYPE_YEAR; MYSQL_TYPE_INT24;
                              MYSQL_TYPE_LONG; MYSQL_TYPE_LONGLONG] then
    if case field_type [MYSQL_TYPE_BIT; MYSQL_TYPE_TINY_BLOB; MYSQL_TYPE_BLOB; MYSQL_TYPE_MEDIUM_BLOB;
                        MYSQL_TYPE_LONG_BLOB] then
      let '(b, ret, e, len) :=
        MADB_ConvertBinaryToInteger (offset bind) (buffer_length bind) value (buffer bind) in
      Some (ret, FetchedBytes b e len)
    else
      r ← MADB_ConvertCharToInteger (buffer_type bind) (is_unsigned bind) value (length val);
      Some (ir_rc r, FetchedInt r)
  else if case (buffer_type bind) [MYSQL_TYPE_FLOAT; MYSQL_TYPE_DOUBLE] then
    Some (SQL_SUCCESS, FetchedReal (if buffer_type bind =? MYSQL_TYPE_FLOAT then 4 else 8) value)
  else if case (buffer_type bind) [MYSQL_TYPE_TIME; MYSQL_TYPE_DATE; MYSQL_TYPE_TIMESTAMP] then
    let r := MADB_Str2Ts value false Error in
    Some (match r with inl e => ReturnValue e | inr _ => SQL_SUCCESS end, FetchedTime r)
  else
    let '(b, rc, e, len) := fetch_text (offset bind) (buffer_length bind) value (buffer bind) in
    Some (rc, FetchedBytes b e len).

End TypeConv.

(** ** Properties *)

Module TypeConvProps.
Import TypeConv.

(** *** Timestamps as text *)

Lemma scan_d_dec z r : 0 <= z < 2 ^ 32 -> isdigit (rd r 0) = false -> scan_d (dec z ++ r) = Some (z, r).
Proof.
  intros Hz Hr. unfold scan_d. rewrite scan_int_dec by done.
  destruct (Z.ltb_spec z 0); [lia|]. rewrite Z.abs_eq, wrapu_id by lia. done.
Qed.

Lemma scan_d_blank l : scan_d (32 :: l) = scan_d l.
Proof. reflexivity. Qed.

Lemma expect_head c l : expect c (c :: l) = Some l.
Proof. unfold expect. by rewrite Z.eqb_refl. Qed.

(** Three numbers with a separator between them. *)
Lemma scan_triple_dec sep a b c r : isdigit sep = false ->
  0 <= a < 2 ^ 32 -> 0 <= b < 2 ^ 32 -> 0 <= c < 2 ^ 32 -> isdigit (rd r 0) = false ->
  scan_triple sep (dec a ++ sep :: dec b ++ sep :: dec c ++ r) = Some (a, b, c, r).
Proof.
  intros Hs Ha Hb Hc Hr. unfold scan_triple.
  rewrite scan_d_dec by done. rewrite expect_head. rewrite scan_d_dec by done. rewrite expect_head.
  by rewrite scan_d_dec.
Qed.

Lemma scan_triple_blank sep l : scan_triple sep (32 :: l) = scan_triple sep l.
Proof. reflexivity. Qed.

Lemma dec_u_dec z : 0 <= z -> dec_u z = dec z.
Proof. intros H. unfold dec. destruct (Z.ltb_spec z 0); [lia|done]. Qed.

Lemma ushort_text_dec z : 0 <= z < 2 ^ 16 -> ushort_text z = dec z.
Proof. intros H. change (dec_u (wrapu 16 z) = dec z). rewrite wrapu_id by done. apply dec_u_dec. lia. Qed.

Lemma short_text_dec z : - 2 ^ 15 <= z < 2 ^ 15 -> MADB_ConvertIntegerToChar SQL_C_SHORT z = dec z.
Proof. intros H. change (dec (wraps 16 z) = dec z). by rewrite wraps_id. Qed.

(** A character that is no digit does not occur in a number. *)
Lemma dec_no c z : 0 <= z -> isdigit c = false -> Forall (fun x => x <> c) (dec z).
Proof.
  intros Hz Hc. rewrite <- dec_u_dec by done. eapply Forall_impl; [by apply dec_u_digits|].
  intros x Hx ->. cbn in Hx. congruence.
Qed.

Lemma strchr_skip a b c : Forall (fun x => x <> c) a ->
  strchr (a ++ b) c = (fun i => length a + i)%nat <$> strchr b c.
Proof.
  induction 1 as [|x a Hx _ IH]; cbn [app strchr length].
  - by destruct (strchr b c).
  - destruct (Z.eqb_spec x c); [done|]. rewrite IH. by destruct (strchr b c).
Qed.

(** What a printable timestamp is. *)
Record ts_printable (ts : SQL_TIMESTAMP_STRUCT) : Prop := {
  tp_year : 100 <= ts_year ts < 2 ^ 15;
  tp_month : 0 < ts_month ts < 2 ^ 16;
  tp_day : 0 < ts_day ts < 2 ^ 16;
  tp_hour : 0 <= ts_hour ts < 2 ^ 16;
  tp_minute : 0 <= ts_minute ts < 2 ^ 16;
  tp_second : 0 <= ts_second ts < 2 ^ 16;
  tp_fraction : 0 <= ts_fraction ts < 1000000000;
}.

(** The microseconds as six digits. *)
Definition micro_text (us : Z) : list Z := replicate (6 - length (dec us)) ($"0") ++ dec us.

Lemma scan_digits_zeros n : forall l, scan_digits 0 (replicate n ($"0") ++ l) = scan_digits 0 l.
Proof. induction n as [|n IH]; intros l; [done|]. cbn [replicate app scan_digits]. apply IH. Qed.

Lemma micro_text_length us : 0 <= us < 1000000 -> length (micro_text us) = 6%nat.
Proof.
  intros H. unfold micro_text. rewrite length_app, length_replicate.
  pose proof (SqlTypesProps.dec_length us 6 ltac:(lia) ltac:(lia)) as Hl. destruct (Z.ltb_spec us 0); lia.
Qed.

Lemma micro_text_digits us : 0 <= us -> digit_list (micro_text us).
Proof.
  intros H. unfold micro_text. apply Forall_app. split; [by apply Forall_replicate|].
  rewrite <- dec_u_dec by done. by apply dec_u_digits.
Qed.

Lemma scan_6lu_micro us : 0 <= us < 1000000 -> scan_6lu (micro_text us) = Some us.
Proof.
  intros H. unfold scan_6lu. pose proof (micro_text_length us H) as HL.
  pose proof (micro_text_digits us ltac:(lia)) as HD.
  destruct (micro_text us) as [|c l] eqn:E; [done|]. apply Forall_cons in HD as [Hc _].
  destruct (isdigit_plain c Hc) as (H1 & H2 & H3).
  rewrite ltrim_id by done. rewrite take_ge by lia. unfold scan_int. rewrite ltrim_id by done.
  cbn [scan_sign]. rewrite H2, H3, Hc. rewrite <- E. unfold micro_text. rewrite scan_digits_zeros.
  rewrite <- dec_u_dec, <- (app_nil_r (dec_u us)), scan_digits_dec by (done || lia).
  by rewrite wrapu_id by lia.
Qed.

Lemma fraction_text_micro f : 0 <= f < 1000000000 ->
  fraction_text f = if f / 1000 =? 0 then [] else $"." :: micro_text (f / 1000).
Proof.
  intros H. unfold fraction_text. destruct (f / 1000 =? 0); [done|].
  assert (0 <= f / 1000 < 1000000) as Hd by (split; [apply Z.div_pos; lia|apply Z.div_lt_upper_bound; lia]).
  assert (MADB_ConvertIntegerToChar SQL_C_ULONG (f / 1000) = dec (f / 1000)) as ->; [|done].
  change (dec_u (wrapu 32 (f / 1000)) = dec (f / 1000)). by rewrite wrapu_id, dec_u_dec by lia.
Qed.

(** The time of day with its fraction is read back. *)
Lemma scan_clock_text h m s f t : 0 <= h < 2 ^ 16 -> 0 <= m < 2 ^ 16 -> 0 <= s < 2 ^ 16 -> 0 <= f < 1000000000 ->
  second_part t = 0 ->
  scan_clock (32 :: clock_text h m s ++ fraction_text f) t = Some (set_clock t h m s (f / 1000)).
Proof.
  intros Hh Hm Hs Hf Ht. unfold clock_text. rewrite !ushort_text_dec, fraction_text_micro by done.
  assert (0 <= f / 1000 < 1000000) as Hd by (split; [apply Z.div_pos; lia|apply Z.div_lt_upper_bound; lia]).
  set (tail := if f / 1000 =? 0 then [] else $"." :: micro_text (f / 1000)).
  assert ((dec h ++ $":" :: dec m ++ $":" :: dec s) ++ tail = dec h ++ $":" :: dec m ++ $":" :: dec s ++ tail) as ->
    by (rewrite <- !app_assoc; cbn [app]; by rewrite <- !app_assoc).
  set (body := dec h ++ $":" :: dec m ++ $":" :: dec s ++ tail).
  assert (isdigit (rd tail 0) = false) as Htl by (subst tail; by destruct (f / 1000 =? 0)).
  set (pre := 32 :: dec h ++ $":" :: dec m ++ $":" :: dec s).
  assert (32 :: body = pre ++ tail) as Eb
    by (subst body pre; cbn [app]; rewrite <- !app_assoc; cbn [app]; by rewrite <- !app_assoc).
  assert (strchr (32 :: body) ($".") = (fun i => length pre + i)%nat <$> strchr tail ($".")) as Ep.
  { rewrite Eb. apply strchr_skip. constructor; [done|].
    repeat (apply Forall_app; split; [by apply dec_no; [lia|]|constructor; [done|]]).
    apply dec_no; [lia|done]. }
  unfold scan_clock. rewrite Ep, scan_triple_blank. unfold body. rewrite scan_triple_dec by (done || lia).
  revert Eb. subst body tail. destruct (Z.eqb_spec (f / 1000) 0) as [E0|E0]; intros Eb.
  - cbn [strchr fmap option_fmap option_map]. by rewrite Ht, E0.
  - cbn [strchr]. rewrite Z.eqb_refl. cbn [fmap option_fmap option_map].
    rewrite expect_head, scan_6lu_micro by done.
    rewrite Eb, length_app. cbn [length]. rewrite micro_text_length by done.
    replace (length pre + 7 - S (length pre + 0))%nat with 6%nat by lia.
    reflexivity.
Qed.

Lemma adjust_year_id Interval isDate t : 100 <= year t -> adjust_year Interval isDate t = t.
Proof.
  intros H. unfold adjust_year. destruct (_ && _); [|done].
  destruct (Z.ltb_spec (year t) 70); [lia|]. destruct (Z.ltb_spec (year t) 100); [lia|]. done.
Qed.

Lemma Str2Ts_text y mo d h m s f Interval Error :
  100 <= y < 2 ^ 15 -> 0 <= mo < 2 ^ 16 -> 0 <= d < 2 ^ 16 ->
  0 <= h < 2 ^ 16 -> 0 <= m < 2 ^ 16 -> 0 <= s < 2 ^ 16 -> 0 <= f < 1000000000 ->
  MADB_Str2Ts ((date_text y mo d ++ [32]) ++ clock_text h m s ++ fraction_text f) Interval Error =
    inr (MkTime y mo d h m s (f / 1000) false MYSQL_TIMESTAMP_DATE, None).
Proof.
  intros Hy Hmo Hd Hh Hm Hs Hf. set (rest := 32 :: clock_text h m s ++ fraction_text f).
  assert ((date_text y mo d ++ [32]) ++ clock_text h m s ++ fraction_text f
    = dec y ++ $"-" :: dec mo ++ $"-" :: dec d ++ rest) as ->.
  { unfold date_text. rewrite short_text_dec, !ushort_text_dec by lia. subst rest.
    rewrite <- !app_assoc. cbn [app]. by rewrite <- !app_assoc. }
  set (txt := dec y ++ $"-" :: dec mo ++ $"-" :: dec d ++ rest).
  destruct (dec_u_cons y ltac:(lia)) as (c & l & Ey & Hc). rewrite dec_u_dec in Ey by lia.
  destruct (isdigit_plain c Hc) as (H1 & H2 & _).
  assert (txt = c :: l ++ $"-" :: dec mo ++ $"-" :: dec d ++ rest) as Etxt by (subst txt; by rewrite Ey).
  unfold MADB_Str2Ts. rewrite ltrim_id by (by rewrite Etxt). rewrite Etxt at 1. rewrite H2, <- Etxt.
  assert (strchr txt ($"-") = Some (length (dec y))) as ->.
  { subst txt. rewrite strchr_skip by (apply dec_no; [lia|done]). cbn [strchr]. rewrite Z.eqb_refl. cbn.
    by rewrite Nat.add_0_r. }
  unfold txt at 1. rewrite scan_triple_dec by (done || lia).
  set (date := dec y ++ $"-" :: dec mo ++ $"-" :: dec d).
  assert (txt = date ++ rest) as Ed
    by (subst txt date; rewrite <- !app_assoc; cbn [app]; by rewrite <- !app_assoc).
  assert (strchr txt 32 = Some (length date)) as ->.
  { rewrite Ed, strchr_skip; [subst rest; cbn [strchr]; cbn; by rewrite Nat.add_0_r|].
    subst date. repeat (apply Forall_app; split; [by apply dec_no; [lia|]|constructor; [done|]]). apply dec_no; [lia|done]. }
  rewrite Ed, drop_app_length.
  assert (is_Some (strchr rest ($":"))) as [i ->].
  { subst rest. unfold clock_text. rewrite !ushort_text_dec by done.
    replace (32 :: (dec h ++ $":" :: dec m ++ $":" :: dec s) ++ fraction_text f)
      with ((32 :: dec h) ++ $":" :: (dec m ++ $":" :: dec s) ++ fraction_text f)
      by (cbn [app]; rewrite <- !app_assoc; cbn [app]; by rewrite <- !app_assoc).
    rewrite strchr_skip by (constructor; [done|]; apply dec_no; [lia|done]). cbn [strchr]. rewrite Z.eqb_refl. by eexists. }
  subst rest. rewrite scan_clock_text by done. by rewrite adjust_year_id by (cbn; lia).
Qed.

(** A timestamp written by [MADB_ConvertDatetimeToChar] is read back by
    [MADB_Str2Ts] with every field, down to the microsecond, for every year
    from 100 on (smaller years are taken for two-digit years). *)
Theorem timestamp_text_roundtrip ts e : ts_printable ts ->
  exists txt, MADB_ConvertDatetimeToChar SQL_C_TYPE_TIMESTAMP SQL_TYPE_TIMESTAMP (AppTs ts) e = inr txt /\
    MADB_Str2Ts txt false e = inr (MkTime (ts_year ts) (ts_month ts) (ts_day ts) (ts_hour ts) (ts_minute ts)
      (ts_second ts) (ts_fraction ts / 1000) false MYSQL_TIMESTAMP_DATE, None).
Proof.
  intros [H1 H2 H3 H4 H5 H6 H7]. eexists. split.
  - unfold MADB_ConvertDatetimeToChar, MADB_TsConversionIsPossible.
    change (case SQL_C_TYPE_TIMESTAMP [SQL_C_TIMESTAMP; SQL_C_TYPE_TIMESTAMP]) with true.
    change (case SQL_TYPE_TIMESTAMP [SQL_TIME; SQL_TYPE_TIME]) with false.
    change (case SQL_TYPE_TIMESTAMP [SQL_DATE; SQL_TYPE_DATE]) with false. cbn [andb negb].
    destruct (Z.eqb_spec (ts_year ts) 0); [lia|]. destruct (Z.eqb_spec (ts_month ts) 0); [lia|].
    destruct (Z.eqb_spec (ts_day ts) 0); [lia|]. reflexivity.
  - apply Str2Ts_text; lia.
Qed.

Lemma timestamp_text_roundtrip_witness :
  exists txt, MADB_ConvertDatetimeToChar SQL_C_TYPE_TIMESTAMP SQL_TYPE_TIMESTAMP
      (AppTs (MkTs 2024 2 29 23 5 59 1500999)) ErrorProps.zero_error = inr txt /\ txt = chars "2024-2-29 23:5:59.001500" /\
    MADB_Str2Ts txt false ErrorProps.zero_error = inr (MkTime 2024 2 29 23 5 59 1500 false MYSQL_TIMESTAMP_DATE, None).
Proof.
  destruct (timestamp_text_roundtrip (MkTs 2024 2 29 23 5 59 1500999) ErrorProps.zero_error) as (txt & E1 & E2).
  - constructor; cbn; lia.
  - exists txt. split_and!; [exact E1| |exact E2]. vm_compute in E1. injection E1 as <-. reflexivity.
Defined.

(** *** Text to integers *)

Lemma scan_whole z : scan_int (dec z) = Some (z <? 0, Z.abs z, []).
Proof. rewrite <- (app_nil_r (dec z)) at 1. by apply scan_int_dec. Qed.

Lemma strtol_dec_any z : strtol (dec z) = Z.max (- 2 ^ 63) (Z.min z (2 ^ 63 - 1)).
Proof. unfold strtol. rewrite scan_whole. cbv zeta iota. destruct (Z.ltb_spec z 0); lia. Qed.

Lemma strtoul_dec_any z : strtoul (dec z) = if 2 ^ 64 <=? Z.abs z then 2 ^ 64 - 1 else z mod 2 ^ 64.
Proof.
  unfold strtoul. rewrite scan_whole. destruct (Z.leb_spec (2 ^ 64) (Z.abs z)) as [H|H]; [done|]. destruct (Z.ltb_spec z 0).
  - unfold wrapu. f_equal. lia.
  - rewrite Z.mod_small by lia. lia.
Qed.

(** The integer types of a buffer with their widths. *)
Definition int_width (t : Z) : option Z :=
  if case t [MYSQL_TYPE_TINY] then Some 8 else if case t [MYSQL_TYPE_SHORT; MYSQL_TYPE_YEAR] then Some 16
  else if case t [MYSQL_TYPE_LONG; MYSQL_TYPE_INT24] then Some 32 else if case t [MYSQL_TYPE_LONGLONG] then Some 64 else None.

(** The numbers out of range that are stored as if they were in range: all of them for the
    types of 64 bits, and for the smaller unsigned types the negative ones that are small again
    modulo 2^64; and what is stored for them. *)
Definition passes_silently (w : Z) (u : bool) (z : Z) : bool :=
  (w =? 64) || u && (- 2 ^ 64 <? z) && (z <? - 2 ^ 64 + 2 ^ w).
Definition silent_value (u : bool) (z : Z) : Z :=
  if u then if (- 2 ^ 64 <? z) && (z <? 0) then z + 2 ^ 64 else 2 ^ 64 - 1
  else if z <? 0 then - 2 ^ 63 else 2 ^ 63 - 1.

(** What becomes of the number [z] in an integer of [w] bits: the value stored and whether
    truncation is reported. *)
Inductive int_delivered (w : Z) (u : bool) (z : Z) : Z -> bool -> Prop :=
| int_exact : SqlTypesProps.int_range w u z -> int_delivered w u z z false
| int_silent : ~ SqlTypesProps.int_range w u z -> passes_silently w u z = true -> int_delivered w u z (silent_value u z) false
| int_reported v : ~ SqlTypesProps.int_range w u z -> passes_silently w u z = false -> int_delivered w u z v true.

(** The 64-bit scan, in the signed variable of the code. *)
Lemma scanned_signed z : wraps 64 (strtol (dec z)) = Z.max (- 2 ^ 63) (Z.min z (2 ^ 63 - 1)).
Proof. rewrite strtol_dec_any. by rewrite wraps_id by lia. Qed.

Lemma scanned_unsigned z : let v := wraps 64 (strtoul (dec z)) in
  (0 <= z < 2 ^ 63 /\ v = z) \/ (- 2 ^ 64 < z < - 2 ^ 63 /\ v = z + 2 ^ 64) \/ (~ 0 <= z < 2 ^ 63 /\ ~ - 2 ^ 64 < z < - 2 ^ 63 /\ v < 0).
Proof.
  cbv zeta. rewrite strtoul_dec_any. destruct (Z.leb_spec (2 ^ 64) (Z.abs z)); [right; right; split_and!; [lia|lia|done]|].
  change (z mod 2 ^ 64) with (wrapu 64 z). rewrite wraps_wrapu by lia. change (2 ^ (64 - 1)) with (2 ^ 63).
  destruct (decide (0 <= z < 2 ^ 63)); [left; split; [done|]; by rewrite wraps_id by lia|]. right.
  destruct (decide (- 2 ^ 64 < z < - 2 ^ 63)); [left|right].
  - split; [done|]. unfold wraps. change (2 ^ (64 - 1)) with (2 ^ 63). replace (z + 2 ^ 63) with (z + 2 ^ 64 + 2 ^ 63 + (-1) * 2 ^ 64) by lia.
    rewrite Z_mod_plus_full, Z.mod_small by lia. lia.
  - split; [done|]. split; [done|]. unfold wraps. change (2 ^ (64 - 1)) with (2 ^ 63). destruct (decide (z < 0)).
    + rewrite Z.mod_small by lia. lia.
    + replace (z + 2 ^ 63) with (z - 2 ^ 63 + 1 * 2 ^ 64) by lia. rewrite Z_mod_plus_full, Z.mod_small by lia. lia.
Qed.

(** The types of at most 32 bits. *)
Lemma store_int_delivers w u z : w = 8 \/ w = 16 \/ w = 32 ->
  let r := store_int u false (wraps 64 (if u then strtoul (dec z) else strtol (dec z))) w in
  int_delivered w u z (ir_value r) (ir_error r) /\ ir_rc r = (if ir_error r then MYSQL_DATA_TRUNCATED else SQL_SUCCESS).
Proof.
  intros Hw. assert (2 ^ (w - 1) * 2 = 2 ^ w /\ 0 < 2 ^ (w - 1) <= 2 ^ 31) as [Hp Hp'].
  { destruct_or! Hw; subst w; split; (reflexivity || (split; [done|vm_compute; congruence])). }
  assert (w =? 64 = false) as H64 by (apply Z.eqb_neq; lia).
  unfold store_int. cbn [orb ir_rc ir_error ir_value]. cbv zeta. split; [|done]. destruct u.
  - pose proof (scanned_unsigned z) as Hv. cbv zeta in Hv. revert Hv. generalize (wraps 64 (strtoul (dec z))). intros v Hv.
    destruct ((v <? 0) || (2 ^ w - 1 <? v)) eqn:Eo.
    + apply int_reported; unfold SqlTypesProps.int_range, passes_silently; rewrite ?H64; cbn [orb andb]; lia.
    + destruct Hv as [[Hz ->]|[[Hz ->]|(_ & _ & Hv)]]; [| |lia].
      * rewrite wrapu_id by lia. apply int_exact. unfold SqlTypesProps.int_range. lia.
      * rewrite wrapu_id by lia. replace (z + 2 ^ 64) with (silent_value true z).
        -- apply int_silent; unfold SqlTypesProps.int_range, passes_silently; rewrite ?H64; cbn [orb andb]; lia.
        -- unfold silent_value. by rewrite (proj2 (Z.ltb_lt (- 2 ^ 64) z)), (proj2 (Z.ltb_lt z 0)) by lia.
  - rewrite scanned_signed. destruct ((_ <? - 2 ^ (w - 1)) || _) eqn:Eo.
    + apply int_reported; unfold SqlTypesProps.int_range, passes_silently; rewrite ?H64; cbn [orb andb]; lia.
    + replace (Z.max (- 2 ^ 63) (Z.min z (2 ^ 63 - 1))) with z by lia. rewrite wraps_id by lia. apply int_exact. unfold SqlTypesProps.int_range. lia.
Qed.

Lemma ConvertCharToInteger_delivers t u w z : int_width t = Some w ->
  exists r, MADB_ConvertCharToInteger t u (dec z) (length (dec z)) = Some r /\ int_delivered w u z (ir_value r) (ir_error r) /\
    ir_rc r = (if ir_error r then MYSQL_DATA_TRUNCATED else SQL_SUCCESS) /\ ir_length r = w / 8.
Proof.
  intros Ht. unfold MADB_ConvertCharToInteger. rewrite scan_whole. cbn [length]. rewrite Nat.sub_0_r, Nat.ltb_irrefl.
  unfold int_width in Ht. destruct (case t [MYSQL_TYPE_TINY]); [|destruct (case t [MYSQL_TYPE_SHORT; MYSQL_TYPE_YEAR]); [|destruct (case t [MYSQL_TYPE_LONG; MYSQL_TYPE_INT24])]].
  1,2,3: apply (inj Some) in Ht; destruct (store_int_delivers w u z ltac:(lia)) as [H1 H2]; subst w; eexists; (split; [reflexivity|]);
    split; [exact H1|split; [exact H2|done]].
  destruct (case t [MYSQL_TYPE_LONGLONG]); [|done]. apply (inj Some) in Ht. subst w. eexists. split; [reflexivity|]. cbn [ir_value ir_error ir_rc ir_length].
  split; [|done]. assert (2 ^ (64 - 1) = 2 ^ 63) as H63 by done. destruct u.
  - assert (wrapu 64 (wraps 64 (strtoul (dec z))) = if 2 ^ 64 <=? Z.abs z then 2 ^ 64 - 1 else z mod 2 ^ 64) as ->.
    { rewrite wrapu_wraps, strtoul_dec_any by lia. apply wrapu_id. destruct (_ <=? _); [lia|]. apply Z.mod_pos_bound. lia. }
    destruct (decide (0 <= z < 2 ^ 64)) as [Hr|Hr].
    + rewrite (proj2 (Z.leb_gt _ _)), Z.mod_small by lia. by apply int_exact.
    + replace (if 2 ^ 64 <=? Z.abs z then 2 ^ 64 - 1 else z mod 2 ^ 64) with (silent_value true z); [by apply int_silent|].
      unfold silent_value. destruct (Z.leb_spec (2 ^ 64) (Z.abs z)).
      * destruct (Z.ltb_spec (- 2 ^ 64) z), (Z.ltb_spec z 0); cbn [andb]; lia.
      * rewrite (proj2 (Z.ltb_lt (- 2 ^ 64) z)), (proj2 (Z.ltb_lt z 0)) by lia. cbn [andb].
        replace z with (z + 2 ^ 64 + (-1) * 2 ^ 64) at 2 by lia. rewrite Z_mod_plus_full, Z.mod_small by lia. done.
  - rewrite scanned_signed. destruct (decide (- 2 ^ 63 <= z < 2 ^ 63)) as [Hr|Hr].
    + replace (Z.max (- 2 ^ 63) (Z.min z (2 ^ 63 - 1))) with z by lia. by apply int_exact.
    + replace (Z.max (- 2 ^ 63) (Z.min z (2 ^ 63 - 1))) with (silent_value false z); [by apply int_silent|].
      unfold silent_value. destruct (Z.ltb_spec z 0); lia.
Qed.

(** C38. [MADB_ConvertCharToInteger] on the decimal text of any number, of any size, into an
    integer of 8, 16, 32 or 64 bits.  A number in the range of the type is stored
    exactly and reported as success.  A number out of range is reported as truncated, with
    these exceptions, which are stored with success: for the types of 64 bits every number out of range
    (the nearest limit is stored; for an unsigned type a negative number modulo
    2^64, or the largest value if it is below -2^64), and for the smaller unsigned types the numbers
    between -2^64 and -2^64 + 2^w, which are stored modulo 2^64. *)
Theorem MADB_ConvertCharToInteger_exact t u w z : int_width t = Some w ->
  exists r, MADB_ConvertCharToInteger t u (dec z) (length (dec z)) = Some r /\
    (SqlTypesProps.int_range w u z -> r = MkIntResult SQL_SUCCESS false z (w / 8)) /\
    (~ SqlTypesProps.int_range w u z -> passes_silently w u z = false -> ir_rc r = MYSQL_DATA_TRUNCATED /\ ir_error r = true) /\
    (~ SqlTypesProps.int_range w u z -> passes_silently w u z = true -> r = MkIntResult SQL_SUCCESS false (silent_value u z) (w / 8)).
Proof.
  intros Ht. destruct (ConvertCharToInteger_delivers t u w z Ht) as (r & E & HD & Hrc & Hl). exists r. split; [done|].
  destruct r as [rc err v l]. cbn [ir_value ir_error ir_rc ir_length] in *. subst rc l.
  split_and!; intros; destruct HD; try done; congruence.
Qed.

Lemma MADB_ConvertCharToInteger_exact_witness :
  (exists r, MADB_ConvertCharToInteger MYSQL_TYPE_SHORT false (dec (-40000)) 6 = Some r /\ ir_rc r = MYSQL_DATA_TRUNCATED) /\
  MADB_ConvertCharToInteger MYSQL_TYPE_TINY true (dec (-18446744073709551611)) 21 = Some (MkIntResult SQL_SUCCESS false 5 1).
Proof.
  split.
  - destruct (MADB_ConvertCharToInteger_exact MYSQL_TYPE_SHORT false 16 (-40000)) as (r & E & _ & H & _); [reflexivity|].
    exists r. split; [exact E|]. apply H; [|reflexivity]. vm_compute. intros [H1 _]. apply H1. reflexivity.
  - destruct (MADB_ConvertCharToInteger_exact MYSQL_TYPE_TINY true 8 (-18446744073709551611)) as (r & E & _ & _ & H); [reflexivity|].
    rewrite H in E; [exact E| |reflexivity]. vm_compute. intros [H1 _]. apply H1. reflexivity.
Defined.

(** A text beyond 64 bits fetched as SQL_C_SBIGINT or SQL_C_UBIGINT is clamped
    to the largest value and reported as success, unlike the smaller types. *)
Theorem bigint_clamped :
  MADB_ConvertCharToInteger MYSQL_TYPE_LONGLONG false (dec (2 ^ 63)) 19
    = Some (MkIntResult SQL_SUCCESS false (2 ^ 63 - 1) 8) /\
  MADB_ConvertCharToInteger MYSQL_TYPE_LONGLONG true (dec (2 ^ 64)) 20
    = Some (MkIntResult SQL_SUCCESS false (2 ^ 64 - 1) 8) /\
  MADB_ConvertCharToInteger MYSQL_TYPE_LONGLONG true (dec (-1)) 2
    = Some (MkIntResult SQL_SUCCESS false (2 ^ 64 - 1) 8).
Proof. split_and!; vm_compute; reflexivity. Qed.

(** The two ways a parameter bound as SQL_C_TINYINT is sent disagree on its
    sign: as text the byte 0xFF is 255, as a binary value it is typed signed. *)
Theorem tinyint_sign_differs :
  MADB_ConvertIntegerToChar SQL_C_TINYINT 255 = chars "255" /\
  MADB_ConvertIntegerToChar SQL_C_STINYINT 255 = chars "-1" /\
  MADB_GetMaDBTypeAndLength SQL_C_TINYINT 0 = MADB_GetMaDBTypeAndLength SQL_C_STINYINT 0 /\
  MADB_GetMaDBTypeAndLength SQL_C_TINYINT 0 = (MYSQL_TYPE_TINY, false, 1).
Proof. split_and!; vm_compute; reflexivity. Qed.

(** *** Fetching text in pieces *)

(** One copy of a text value into a buffer of [n] bytes from [offset]. *)
Lemma fetch_text_copy offset n Src buffer : (offset <= length Src)%nat -> length buffer = n ->
  let k := Nat.min n (length Src - offset) in
  exists b rc err, fetch_text offset n Src buffer = (b, rc, err, length Src) /\
    length b = n /\ take k b = take k (drop offset Src) /\
    ((k < n)%nat -> b !! k = Some 0) /\ (forall i, (k < i)%nat -> b !! i = buffer !! i) /\
    (rc = MYSQL_DATA_TRUNCATED /\ err = true <-> (n < length Src - offset)%nat) /\
    (rc = SQL_SUCCESS /\ err = false <-> (length Src - offset <= n)%nat).
Proof.
  intros Ho Hb k. unfold fetch_text. fold k.
  assert (exists b rc err, copy_from offset n Src buffer = (b, rc, err) /\ length b = n /\
    take k b = take k (drop offset Src) /\ (forall i, (k <= i)%nat -> b !! i = buffer !! i) /\
    (rc, err) = if (n <? length Src - offset)%nat then (MYSQL_DATA_TRUNCATED, true) else (SQL_SUCCESS, false))
    as (b & rc & err & -> & HL & Ht & Hr & Hrc).
  { assert (forall src, (length src <= n)%nat -> length (blit buffer 0 src) = n /\
      take (length src) (blit buffer 0 src) = src /\
      forall i, (length src <= i)%nat -> blit buffer 0 src !! i = buffer !! i) as Hblit.
    { intros src Hs. split; [rewrite length_blit by lia; done|]. unfold blit. rewrite take_0, app_nil_l.
      rewrite Nat.sub_0_r, (take_ge src) by lia. rewrite Nat.add_0_l. split; [apply take_app_length|].
      intros i Hi. rewrite lookup_app_r, lookup_drop by lia. f_equal. lia. }
    unfold copy_from. pose proof (length_drop Src offset) as Hd.
    destruct (Nat.ltb_spec offset (length Src)) as [H1|H1]; [|].
    - rewrite Hd. destruct (Nat.ltb_spec n (length Src - offset)) as [H2|H2].
      + assert (k = length (take n (drop offset Src))) as -> by (rewrite length_take; subst k; lia).
        destruct (Hblit (take n (drop offset Src))) as (B1 & B2 & B3); [rewrite length_take; lia|].
        eexists _, _, _. split_and!; eauto. rewrite B2, length_take. f_equal. lia.
      + assert (k = length (drop offset Src)) as -> by (subst k; lia).
        destruct (Hblit (drop offset Src)) as (B1 & B2 & B3); [lia|].
        eexists _, _, _. split_and!; eauto. by rewrite B2, take_ge.
    - assert (k = 0%nat) as -> by (subst k; lia). eexists _, _, _. split_and!; eauto.
      destruct (Nat.ltb_spec n (length Src - offset)); [lia|done]. }
  destruct (Nat.leb_spec offset (length Src)); [|lia]. cbn [andb].
  eexists _, rc, err. split; [reflexivity|].
  assert ((rc = MYSQL_DATA_TRUNCATED /\ err = true <-> (n < length Src - offset)%nat) /\
    (rc = SQL_SUCCESS /\ err = false <-> (length Src - offset <= n)%nat)) as [Hrc1 Hrc2].
  { destruct (Nat.ltb_spec n (length Src - offset)); injection Hrc as -> ->; split; split; try done; try lia; naive_solver. }
  destruct (Nat.ltb_spec k n) as [Hk|Hk].
  - rewrite length_insert. split_and!; try done.
    + by rewrite take_insert_ge.
    + intros _. apply list_lookup_insert_eq. lia.
    + intros i Hi. rewrite list_lookup_insert_ne by lia. apply Hr. lia.
  - split_and!; try done; [lia|]. intros i Hi. apply Hr. lia.
Qed.

(** The buffer types that take the value as text. *)
Definition text_buffer (t : Z) : bool :=
  negb (case t [MYSQL_TYPE_TINY; MYSQL_TYPE_SHORT; MYSQL_TYPE_YEAR; MYSQL_TYPE_INT24; MYSQL_TYPE_LONG;
                MYSQL_TYPE_LONGLONG; MYSQL_TYPE_FLOAT; MYSQL_TYPE_DOUBLE; MYSQL_TYPE_TIME; MYSQL_TYPE_DATE;
                MYSQL_TYPE_TIMESTAMP]).

(** [MADB_CspsConvertSql2C] into a text buffer of [n] bytes, from the offset of
    the bind: the buffer gets the next bytes of the value and, if there is room, a
    NUL; the rest of it is untouched; truncation is reported exactly when bytes
    remain; the length reported is that of the whole value. *)
Theorem fetch_text_spec Error field_type bind Src :
  field_type <> MYSQL_TYPE_BIT -> text_buffer (buffer_type bind) = true ->
  (offset bind <= length Src)%nat -> length (buffer bind) = buffer_length bind ->
  let n := buffer_length bind in
  let k := Nat.min n (length Src - offset bind) in
  exists b rc err, MADB_CspsConvertSql2C Error field_type bind Src = Some (rc, FetchedBytes b err (length Src)) /\
    length b = n /\ take k b = take k (drop (offset bind) Src) /\
    ((k < n)%nat -> b !! k = Some 0) /\ (forall i, (k < i)%nat -> b !! i = buffer bind !! i) /\
    (rc = MYSQL_DATA_TRUNCATED /\ err = true <-> (n < length Src - offset bind)%nat) /\
    (rc = SQL_SUCCESS /\ err = false <-> (length Src - offset bind <= n)%nat).
Proof.
  intros Hf Ht Ho Hb n k.
  destruct (fetch_text_copy (offset bind) n Src (buffer bind)) as (b & rc & err & E & H); [done..|].
  exists b, rc, err. split; [|exact H]. unfold MADB_CspsConvertSql2C.
  rewrite (proj2 (Z.eqb_neq _ _) Hf). unfold text_buffer, case in *. cbn [existsb] in *.
  repeat match type of Ht with
  | context [buffer_type bind =? ?t] => destruct (buffer_type bind =? t); [discriminate Ht|]
  end.
  cbn [orb]. fold n. rewrite E. reflexivity.
Qed.

Lemma fetch_text_spec_witness :
  exists b rc err, MADB_CspsConvertSql2C ErrorProps.zero_error MYSQL_TYPE_VAR_STRING
      (MkBind MYSQL_TYPE_STRING false 3 4 (replicate 4 0)) (chars "singlestore")
      = Some (rc, FetchedBytes b err 11) /\
    take 4 b = chars "gles" /\ rc = MYSQL_DATA_TRUNCATED.
Proof.
  destruct (fetch_text_spec ErrorProps.zero_error MYSQL_TYPE_VAR_STRING
    (MkBind MYSQL_TYPE_STRING false 3 4 (replicate 4 0)) (chars "singlestore"))
    as (b & rc & err & E & _ & H & _ & _ & H' & _); [done|reflexivity|vm_compute; lia|reflexivity|].
  exists b, rc, err. split; [exact E|]. split; [exact H|]. apply H'. vm_compute. lia.
Defined.

(** *** Timestamps between the two libraries *)

(** A timestamp parameter bound to a TIMESTAMP column and fetched back is the
    same down to the microsecond; no other field of it is touched. *)
Theorem timestamp_bind_roundtrip ts old e today :
  0 < ts_year ts < 2 ^ 15 -> 0 < ts_month ts < 2 ^ 16 -> 0 < ts_day ts < 2 ^ 16 ->
  0 <= ts_hour ts < 2 ^ 16 -> 0 <= ts_minute ts < 2 ^ 16 -> 0 <= ts_second ts < 2 ^ 16 ->
  0 <= ts_fraction ts < 1000000000 ->
  exists tm, MADB_Timestamp2Sql ts SQL_TYPE_TIMESTAMP old e = inr (tm, MYSQL_TYPE_TIMESTAMP) /\
    MADB_CopyMadbTimestamp today tm true true SQL_C_TYPE_TIMESTAMP SQL_TYPE_TIMESTAMP e =
      TsValue (Some (AppTs (MkTs (ts_year ts) (ts_month ts) (ts_day ts) (ts_hour ts) (ts_minute ts) (ts_second ts)
        (ts_fraction ts / 1000 * 1000)))) (Some 16) None.
Proof.
  intros H1 H2 H3 H4 H5 H6 H7. eexists. split.
  - unfold MADB_Timestamp2Sql, MADB_TsConversionIsPossible.
    change (case SQL_TYPE_TIMESTAMP [SQL_TIME; SQL_TYPE_TIME]) with false.
    change (case SQL_TYPE_TIMESTAMP [SQL_DATE; SQL_TYPE_DATE]) with false. cbn [andb negb].
    destruct (Z.eqb_spec (ts_year ts) 0); [lia|]. destruct (Z.eqb_spec (ts_month ts) 0); [lia|].
    destruct (Z.eqb_spec (ts_day ts) 0); [lia|]. reflexivity.
  - assert (0 <= ts_fraction ts / 1000 < 1000000) as Hd
      by (split; [apply Z.div_pos; lia|apply Z.div_lt_upper_bound; lia]).
    unfold MADB_CopyMadbTimestamp.
    change (case SQL_C_TYPE_TIMESTAMP [SQL_C_TIMESTAMP; SQL_C_TYPE_TIMESTAMP]) with true.
    change (case SQL_TYPE_TIMESTAMP [SQL_TIME; SQL_TYPE_TIME]) with false.
    unfold MADB_CopyOdbcTsToMadbTime.
    cbn [year month day hour minute second second_part ts_year ts_month ts_day ts_hour ts_minute ts_second ts_fraction].
    rewrite (wrapu_id 32 (ts_year ts)), (wraps_id 16) by lia. rewrite !(wrapu_id 16) by lia.
    rewrite (wrapu_id 32 (ts_fraction ts / 1000 * 1000)) by lia.
    rewrite wrapu_id by lia. destruct (Z.eqb_spec (ts_year ts + ts_month ts + ts_day ts + ts_hour ts + ts_minute ts +
      ts_fraction ts / 1000 * 1000 + ts_second ts) 0); [lia|]. reflexivity.
Qed.

Lemma timestamp_bind_roundtrip_witness :
  exists tm, MADB_Timestamp2Sql (MkTs 2024 2 29 23 5 59 1500999) SQL_TYPE_TIMESTAMP zero_time ErrorProps.zero_error
      = inr (tm, MYSQL_TYPE_TIMESTAMP) /\
    MADB_CopyMadbTimestamp (MkDateS 2024 1 1) tm true true SQL_C_TYPE_TIMESTAMP SQL_TYPE_TIMESTAMP ErrorProps.zero_error =
      TsValue (Some (AppTs (MkTs 2024 2 29 23 5 59 1500000))) (Some 16) None.
Proof.
  apply (timestamp_bind_roundtrip (MkTs 2024 2 29 23 5 59 1500999) zero_time ErrorProps.zero_error (MkDateS 2024 1 1));
    cbn; lia.
Defined.

End TypeConvProps.
