(* ===== verification/Escape.v ===== *)
(** * Escape: parameter values inside string literals

    Models [mysql_real_escape_string] and the two functions behind it in the client
    library ([libmariadb/ma_charset.c], [mariadb_lib.c]), with the UTF-8 callbacks of
    its charset table.  The output buffer has room for twice the input and one byte;
    every store is checked against its end, as the code does.

    The theorems relate the escaped bytes to a reader of literals: the value comes
    back, and the literal ends at its own closing quote whatever the value is. *)

From Stdlib Require Import ZArith Lia.
From stdpp Require Import base list strings numbers option sets.
From S2P Require Import Prelude Decimal Charset Parse.
Import Mbstr ParseProps.

(** The fields of [MARIADB_CHARSET_INFO] that escaping consults; the callback
    [mb_valid(start, end)] gets the bytes from [start] to [end]. *)
Record charset_info := MkCharsetInfo {
  ci_maxlen : Z;
  ci_mbcharlen : Z -> Z;
  ci_mbvalid : list Z -> nat;
}.

Module Escape.

(** ** UTF-8 *)

(** [((uchar) c ^ 0x80) < 0x40] *)
Definition continuation (c : Z) : bool := Z.lxor c 0x80 <? 0x40.

Definition check_mb_utf8mb3_sequence (l : list Z) : nat :=
  match l with
  | [] => 0%nat
  | c :: r =>
      if c <? 0x80 then 1%nat
      else if c <? 0xC2 then 0%nat
      else if c <? 0xE0 then
        match r with c1 :: _ => if continuation c1 then 2%nat else 0%nat | _ => 0%nat end
      else if c <? 0xF0 then
        match r with
        | c1 :: c2 :: _ => if continuation c1 && continuation c2 && ((0xE1 <=? c) || (0xA0 <=? c1)) then 3%nat else 0%nat
        | _ => 0%nat
        end
      else 0%nat
  end.

Definition check_mb_utf8_sequence (l : list Z) : nat :=
  match l with
  | [] => 0%nat
  | c :: r =>
      if c <? 0x80 then 1%nat
      else if c <? 0xC2 then 0%nat
      else if c <? 0xE0 then
        match r with c1 :: _ => if continuation c1 then 2%nat else 0%nat | _ => 0%nat end
      else if c <? 0xF0 then
        match r with
        | c1 :: c2 :: _ => if continuation c1 && continuation c2 && ((0xE1 <=? c) || (0xA0 <=? c1)) then 3%nat else 0%nat
        | _ => 0%nat
        end
      else if c <? 0xF5 then
        match r with
        | c1 :: c2 :: c3 :: _ =>
            if continuation c1 && continuation c2 && continuation c3 &&
               ((0xF1 <=? c) || (0x90 <=? c1)) && ((c <=? 0xF3) || (c1 <=? 0x8F)) then 4%nat else 0%nat
        | _ => 0%nat
        end
      else 0%nat
  end.

Definition check_mb_utf8mb3_valid (l : list Z) : nat :=
  let len := check_mb_utf8mb3_sequence l in if (1 <? len)%nat then len else 0%nat.
Definition check_mb_utf8_valid (l : list Z) : nat :=
  let len := check_mb_utf8_sequence l in if (1 <? len)%nat then len else 0%nat.

Definition mysql_mbcharlen_utf8mb3 (utf8 : Z) : Z :=
  if utf8 <? 0x80 then 1 else if utf8 <? 0xC2 then 0 else if utf8 <? 0xE0 then 2
  else if utf8 <? 0xF0 then 3 else 0.

(** Rows of [mariadb_compiled_charsets]; a single-byte charset has no callbacks. *)
Definition utf8mb4_info : charset_info := MkCharsetInfo 4 mysql_mbcharlen_utf8 check_mb_utf8_valid.
Definition utf8mb3_info : charset_info := MkCharsetInfo 3 mysql_mbcharlen_utf8mb3 check_mb_utf8mb3_valid.
Definition latin1_info : charset_info := MkCharsetInfo 1 (fun _ => 1) (fun _ => 0%nat).

(** ** The two escapers *)

(** The bytes one step of [mysql_cset_escape_slashes] writes for a character that is
    not a valid multi-byte sequence: [esc], when it is set, behind a backslash. *)
Definition slash_escape (ci : charset_info) (c : Z) : list Z :=
  if (1 <? ci_maxlen ci) && (1 <? ci_mbcharlen ci (char_arg c)) then [92; c]
  else if c =? 0 then [92; $"0"]
  else if c =? 10 then [92; $"n"]
  else if c =? 13 then [92; $"r"]
  else if (c =? 92) || (c =? $"'") || (c =? 34) then [92; c]
  else if c =? 26 then [92; $"Z"]
  else [c].

(** The same for [mysql_cset_escape_quotes]. *)
Definition quote_escape (c : Z) : list Z := if c =? $"'" then [c; c] else [c].

(** The loop both share: [room] bytes up to [newstr_e] are left; the flag is
    [escape_overflow]. *)
Fixpoint escape_loop (fuel : nat) (ci : charset_info) (one : Z -> list Z) (room : nat) (src : list Z)
    : list Z * bool :=
  match fuel, src with
  | S fuel', c :: src' =>
      let len := if 1 <? ci_maxlen ci then ci_mbvalid ci src else 0%nat in
      let '(out, rest) := if (0 <? len)%nat then (take len src, drop len src) else (one c, src') in
      if (room <? length out)%nat then ([], true)
      else let '(w, overflow) := escape_loop fuel' ci one (room - length out) rest in (out ++ w, overflow)
  | _, _ => ([], false)
  end.

(** The bytes stored, terminator included, and the value returned. *)
Definition escape_result (r : list Z * bool) : list Z * Z :=
  (r.1 ++ [0], if r.2 then 2 ^ 64 - 1 else Z.of_nat (length r.1)).

Definition mysql_cset_escape_slashes (ci : charset_info) (src : list Z) : list Z * Z :=
  escape_result (escape_loop (length src) ci (slash_escape ci) (2 * length src) src).
Definition mysql_cset_escape_quotes (ci : charset_info) (src : list Z) : list Z * Z :=
  escape_result (escape_loop (length src) ci quote_escape (2 * length src) src).

(** [no_backslash]: SERVER_STATUS_NO_BACKSLASH_ESCAPES of the connection. *)
Definition mysql_real_escape_string (no_backslash : bool) (ci : charset_info) (src : list Z) : list Z * Z :=
  if no_backslash then mysql_cset_escape_quotes ci src else mysql_cset_escape_slashes ci src.

End Escape.

(** ** Properties *)

Module EscapeProps.
Import Escape.

(** What the escapers need of a charset: a multi-byte sequence lies inside the
    string and consists of bytes outside ASCII, and so does the first byte of one. *)
Class AsciiSafe (ci : charset_info) : Prop := {
  valid_inside l : 1 < ci_maxlen ci -> Forall byte_ok l -> (ci_mbvalid ci l <= length l)%nat;
  valid_high l : 1 < ci_maxlen ci -> Forall byte_ok l -> Forall (fun c => 128 <= c) (take (ci_mbvalid ci l) l);
  head_high c : 1 < ci_maxlen ci -> byte_ok c -> 1 < ci_mbcharlen ci (char_arg c) -> 128 <= c;
}.

Lemma byte_cases (P : Z -> bool) c : byte_ok c -> forallb (fun n => P (Z.of_nat n)) (seq 0 256) = true -> P c = true.
Proof.
  intros Hc H. rewrite forallb_forall in H. specialize (H (Z.to_nat c)). rewrite Z2Nat.id in H by (unfold byte_ok in Hc; lia).
  apply H. apply in_seq. unfold byte_ok in Hc. lia.
Qed.

Lemma continuation_high c : byte_ok c -> continuation c = true -> 128 <= c.
Proof.
  intros Hc H. pose proof (byte_cases (fun c => implb (continuation c) (128 <=? c)) c Hc ltac:(by vm_compute)) as E.
  cbn beta in E. rewrite H in E. by apply Z.leb_le.
Qed.

Definition high (c : Z) : Prop := 128 <= c.

(** The tests of a UTF-8 sequence, one after the other. *)
Ltac utf8_cases :=
  repeat match goal with
  | |- context [match ?l with [] => _ | _ :: _ => _ end] => destruct l
  | |- context [if ?b then _ else _] => destruct b eqn:?
  end.

Ltac bytes_high :=
  bprop;
  repeat match goal with
  | H : Forall byte_ok (_ :: _) |- _ => apply Forall_cons in H as [? H]
  | |- Forall _ (_ :: _) => apply Forall_cons; split
  | |- Forall _ [] => apply Forall_nil_2
  end; unfold high in *; first [by apply continuation_high | lia].

Lemma utf8_sequence l : Forall byte_ok l ->
  (check_mb_utf8_sequence l <= length l)%nat /\
  ((1 < check_mb_utf8_sequence l)%nat -> Forall high (take (check_mb_utf8_sequence l) l)).
Proof.
  intros Hl. unfold check_mb_utf8_sequence. utf8_cases; cbn [length take]; (split; [lia|]); intros H; try lia; cbn [take]; rewrite ?take_0; bytes_high.
Qed.

Lemma utf8mb3_sequence l : Forall byte_ok l ->
  (check_mb_utf8mb3_sequence l <= length l)%nat /\
  ((1 < check_mb_utf8mb3_sequence l)%nat -> Forall high (take (check_mb_utf8mb3_sequence l) l)).
Proof.
  intros Hl. unfold check_mb_utf8mb3_sequence. utf8_cases; cbn [length take]; (split; [lia|]); intros H; try lia; cbn [take]; rewrite ?take_0; bytes_high.
Qed.

(** Discharging the class for a charset whose [mb_valid] is a checked sequence. *)
Ltac sequence_safe lem cl :=
  split; cbn;
  [ intros l _ Hl; destruct (lem l Hl) as [H1 H2]; unfold cl; cbv zeta; case_match; bprop; lia
  | intros l _ Hl; destruct (lem l Hl) as [H1 H2]; unfold cl; cbv zeta; case_match;
      [by apply H2, Nat.ltb_lt|apply Forall_nil_2]
  | ].

#[export] Instance utf8mb4_safe : AsciiSafe utf8mb4_info.
Proof.
  sequence_safe utf8_sequence check_mb_utf8_valid. intros c _ Hc H.
  pose proof (byte_cases (fun c => implb (1 <? mysql_mbcharlen_utf8 (char_arg c)) (128 <=? c)) c Hc ltac:(by vm_compute)) as E.
  cbn beta in E. apply Z.ltb_lt in H. rewrite H in E. by apply Z.leb_le.
Qed.

#[export] Instance utf8mb3_safe : AsciiSafe utf8mb3_info.
Proof.
  sequence_safe utf8mb3_sequence check_mb_utf8mb3_valid. intros c _ Hc H.
  pose proof (byte_cases (fun c => implb (1 <? mysql_mbcharlen_utf8mb3 (char_arg c)) (128 <=? c)) c Hc ltac:(by vm_compute)) as E.
  cbn beta in E. apply Z.ltb_lt in H. rewrite H in E. by apply Z.leb_le.
Qed.

#[export] Instance latin1_safe : AsciiSafe latin1_info.
Proof. split; cbn; intros; lia. Qed.

(** *** What the loop does, without its buffer *)

Inductive escaped (one : Z -> list Z) : list Z -> list Z -> Prop :=
| escaped_nil : escaped one [] []
| escaped_char h src out : Forall high h -> escaped one src out -> escaped one (h ++ src) (h ++ out)
| escaped_byte c src out : byte_ok c -> escaped one src out -> escaped one (c :: src) (one c ++ out).

Section Loop.
Context (ci : charset_info) `{!AsciiSafe ci} (one : Z -> list Z) (Hone : forall c, (length (one c) <= 2)%nat).

Lemma escape_loop_escaped fuel : forall room src,
  Forall byte_ok src -> (length src <= fuel)%nat -> (2 * length src <= room)%nat ->
  exists out, escape_loop fuel ci one room src = (out, false) /\ escaped one src out /\ (length out <= 2 * length src)%nat.
Proof using All.
  induction fuel as [|fuel IH]; intros room [|c src] Hb Hf Hr; cbn [length] in *;
    try (exists []; split_and!; [done|constructor|cbn; lia]); [lia|].
  cbn [escape_loop]. set (len := if 1 <? ci_maxlen ci then ci_mbvalid ci (c :: src) else 0%nat).
  destruct (Nat.ltb_spec 0 len) as [Hlen|_].
  - assert (1 < ci_maxlen ci /\ len = ci_mbvalid ci (c :: src)) as [Hm El].
    { unfold len in *. destruct (Z.ltb_spec 1 (ci_maxlen ci)); [done|lia]. }
    pose proof (valid_inside (c :: src) Hm Hb) as Hin. pose proof (valid_high (c :: src) Hm Hb) as Hh.
    rewrite <- El in Hin, Hh. cbn [length] in Hin.
    assert (length (take len (c :: src)) = len) as Et by (rewrite length_take; cbn [length]; lia).
    rewrite Et. destruct (Nat.ltb_spec room len); [lia|].
    destruct (IH (room - len)%nat (drop len (c :: src))) as (out & -> & He & Hl);
      [by apply Forall_drop|rewrite length_drop; cbn [length]; lia..|].
    exists (take len (c :: src) ++ out). split_and!; [done| |].
    + rewrite <- (take_drop len (c :: src)) at 1. by constructor.
    + rewrite length_drop in Hl. rewrite length_app, Et. cbn [length] in Hl. lia.
  - pose proof (Hone c). destruct (Nat.ltb_spec room (length (one c))); [lia|]. apply Forall_cons in Hb as [Hc Hb].
    destruct (IH (room - length (one c))%nat src) as (out & -> & He & Hl); [done|lia..|].
    exists (one c ++ out). split_and!; [done|by constructor|rewrite length_app; lia].
Qed.

End Loop.

Lemma slash_escape_length ci c : (length (slash_escape ci c) <= 2)%nat.
Proof. unfold slash_escape. repeat case_match; cbn; lia. Qed.
Lemma quote_escape_length c : (length (quote_escape c) <= 2)%nat.
Proof. unfold quote_escape. case_match; cbn; lia. Qed.

(** *** Reading a literal back *)

(** The characters a backslash stands in front of, as the server's manual lists them. *)
Definition unescape_char (c : Z) : Z :=
  if c =? $"0" then 0 else if c =? $"n" then 10 else if c =? $"r" then 13 else if c =? $"t" then 9
  else if c =? $"b" then 8 else if c =? $"Z" then 26 else c.

(** The value of the text between the quotes of a literal, with backslash escapes. *)
Fixpoint literal_value (l : list Z) : list Z :=
  match l with
  | [] => []
  | c :: l' =>
      if c =? 92 then match l' with [] => [c] | d :: l'' => unescape_char d :: literal_value l'' end
      else c :: literal_value l'
  end.

(** The same without backslash escapes: a quote is doubled.  The end of the literal
    is a quote that is not; [None] when there is none. *)
Fixpoint doubled_value (l : list Z) : option (list Z * list Z) :=
  match l with
  | [] => None
  | c :: l' =>
      if c =? $"'" then
        match l' with
        | d :: l'' => if d =? $"'" then (fun r => (c :: r.1, r.2)) <$> doubled_value l'' else Some ([], l')
        | [] => Some ([], [])
        end
      else (fun r => (c :: r.1, r.2)) <$> doubled_value l'
  end.

(** What each character of a value becomes: two bytes behind a backslash, or itself. *)
Inductive slash_form (c : Z) : list Z -> Prop :=
| slash_pair d : unescape_char d = c -> d <> 0 -> slash_form c [92; d]
| slash_plain : c <> 92 -> c <> $"'" -> c <> 0 -> slash_form c [c].

Lemma slash_escape_form ci c : AsciiSafe ci -> byte_ok c -> slash_form c (slash_escape ci c).
Proof.
  intros Hci Hc. unfold slash_escape. destruct (_ && _) eqn:E.
  - bprop. pose proof (head_high c ltac:(done) Hc ltac:(done)) as Hh. apply slash_pair; [|lia].
    pose proof (byte_cases (fun c => implb (128 <=? c) (unescape_char c =? c)) c Hc ltac:(by vm_compute)) as E.
    cbn beta in E. apply Z.leb_le in Hh. rewrite Hh in E. by apply Z.eqb_eq in E.
  - change ($"'") with 39.
    destruct (Z.eqb_spec c 0) as [->|]; [by apply slash_pair|]. destruct (Z.eqb_spec c 10) as [->|]; [by apply slash_pair|].
    destruct (Z.eqb_spec c 13) as [->|]; [by apply slash_pair|]. destruct (Z.eqb_spec c 92) as [->|]; [by apply slash_pair|].
    destruct (Z.eqb_spec c 39) as [->|]; [by apply slash_pair|]. destruct (Z.eqb_spec c 34) as [->|]; [by apply slash_pair|].
    destruct (Z.eqb_spec c 26) as [->|]; [by apply slash_pair|by apply slash_plain].
Qed.

Lemma literal_value_high h l : Forall high h -> literal_value (h ++ l) = h ++ literal_value l.
Proof.
  induction 1 as [|c h Hc _ IH]; [done|]. cbn [app literal_value]. unfold high in Hc.
  destruct (Z.eqb_spec c 92); [lia|]. by rewrite IH.
Qed.

Lemma closing_high q h l : q < 128 -> Forall high h ->
  closing true q (h ++ l) = (fun k => length h + k)%nat <$> closing true q l.
Proof.
  intros Hq. induction 1 as [|c h Hc _ IH]; cbn [app closing length]; [by destruct (closing _ _ _)|]. unfold high in Hc.
  destruct (Z.eqb_spec c q); [lia|]. destruct (Z.eqb_spec c 92); [lia|]. cbn [andb]. rewrite IH. by destruct (closing true q l).
Qed.

Section Slashes.
Context (ci : charset_info) `{!AsciiSafe ci}.

Lemma escaped_value src out : escaped (slash_escape ci) src out -> literal_value out = src.
Proof using All.
  induction 1 as [|h src out Hh _ IH|c src out Hc _ IH]; [done|by rewrite literal_value_high, IH|].
  destruct (slash_escape_form ci c _ Hc) as [d Hd _|H1 _ _]; cbn; [by rewrite Hd, IH|].
  destruct (Z.eqb_spec c 92); [done|]. by rewrite IH.
Qed.

Lemma escaped_closing src out l : escaped (slash_escape ci) src out ->
  closing true ($"'") (out ++ $"'" :: l) = Some (length out).
Proof using All.
  induction 1 as [|h src out Hh _ IH|c src out Hc _ IH]; [done| |].
  - rewrite <- app_assoc, closing_high, IH by done. cbn. by rewrite length_app.
  - destruct (slash_escape_form ci c _ Hc) as [d _ _|H1 H2 _]; cbn [app closing length].
    + change (92 =? $"'") with false. cbn [andb]. rewrite Z.eqb_refl, IH. cbn. f_equal. lia.
    + apply Z.eqb_neq in H1, H2. rewrite H2, H1. cbn [andb]. by rewrite IH.
Qed.

Lemma escaped_nonzero src out : escaped (slash_escape ci) src out -> Forall (fun c => c <> 0) out.
Proof using All.
  induction 1 as [|h src out Hh _ IH|c src out Hc _ IH]; [constructor| |]; apply Forall_app; split; try done.
  - eapply Forall_impl; [exact Hh|]. unfold high. lia.
  - destruct (slash_escape_form ci c _ Hc); repeat constructor; lia.
Qed.

Lemma mysql_cset_escape_slashes_spec src : Forall byte_ok src ->
  exists out, mysql_cset_escape_slashes ci src = (out ++ [0], Z.of_nat (length out)) /\
    (length out <= 2 * length src)%nat /\ escaped (slash_escape ci) src out.
Proof using All.
  intros Hb. destruct (escape_loop_escaped ci (slash_escape ci) (slash_escape_length ci) (length src) (2 * length src) src)
    as (out & E & He & Hl); [done..|]. exists out. unfold mysql_cset_escape_slashes. rewrite E. done.
Qed.

End Slashes.

(** The text [mysql_real_escape_string] leaves, up to its terminator. *)
Definition escape_text (no_backslash : bool) (ci : charset_info) (src : list Z) : list Z :=
  cstr (mysql_real_escape_string no_backslash ci src).1.

Lemma escape_text_spec ci src : AsciiSafe ci -> Forall byte_ok src ->
  escaped (slash_escape ci) src (escape_text false ci src) /\
  mysql_real_escape_string false ci src = (escape_text false ci src ++ [0], Z.of_nat (length (escape_text false ci src))) /\
  (length (escape_text false ci src) <= 2 * length src)%nat.
Proof.
  intros Hci Hb. unfold escape_text, mysql_real_escape_string.
  destruct (mysql_cset_escape_slashes_spec ci src Hb) as (out & -> & Hl & He). cbn [fst].
  rewrite cstr_app_nul by (by eapply escaped_nonzero). done.
Qed.

(** C28. Escaping a value for a string literal: the buffer of twice its size is always
    enough, the text that is stored reads back as the value, and in front of a closing
    quote and any further text the literal ends exactly there, for every value of any
    bytes and every charset whose multi-byte characters avoid ASCII (UTF-8 and the
    single-byte ones do). *)
Theorem escape_roundtrip ci src rest : AsciiSafe ci -> Forall byte_ok src ->
  let '(stored, n) := mysql_real_escape_string false ci src in
  n <= 2 * Z.of_nat (length src) /\ Z.of_nat (length stored) = n + 1 /\
  Z.of_nat (length (escape_text false ci src)) = n /\
  literal_value (escape_text false ci src) = src /\
  closing true ($"'") (escape_text false ci src ++ $"'" :: rest) = Some (length (escape_text false ci src)).
Proof.
  intros Hci Hb. destruct (escape_text_spec ci src Hci Hb) as (He & -> & Hl). rewrite length_app. cbn [length].
  split_and!; [lia..|by eapply escaped_value|by eapply escaped_closing].
Qed.

Lemma escape_roundtrip_witness :
  escape_text false utf8mb4_info [39; 195; 169; 92; 0; 63] = chars "\'" ++ [195; 169] ++ chars "\\\0?" /\
  literal_value (escape_text false utf8mb4_info [39; 195; 169; 92; 0; 63]) = [39; 195; 169; 92; 0; 63].
Proof.
  split; [by vm_compute|].
  pose proof (escape_roundtrip utf8mb4_info [39; 195; 169; 92; 0; 63] [] _ ltac:(repeat constructor; vm_compute; congruence)) as H.
  destruct (mysql_real_escape_string false utf8mb4_info [39; 195; 169; 92; 0; 63]). apply H.
Defined.

(** A word needs no escaping. *)
Lemma word_char_ascii c : word_char c = true -> 0 <= c < 128.
Proof.
  unfold word_char, isdigit, isalpha, isupper, islower. intros H. cbn in H.
  repeat (apply orb_true_iff in H as [H|H]); bprop; lia.
Qed.

Lemma slash_escape_word ci c : AsciiSafe ci -> word_char c = true -> slash_escape ci c = [c].
Proof.
  intros Hci Hw. pose proof (word_char_ascii c Hw) as Hc. unfold slash_escape. destruct (_ && _) eqn:E.
  { bprop. pose proof (head_high c ltac:(done) ltac:(unfold byte_ok; lia) ltac:(done)). lia. }
  repeat match goal with |- context [c =? ?d] => destruct (Z.eqb_spec c d) as [->|]; [by vm_compute in Hw|] end. done.
Qed.

Lemma escape_text_word ci t : AsciiSafe ci -> forallb word_char t = true -> escape_text false ci t = t.
Proof.
  intros Hci Hw. assert (Forall (fun c => word_char c = true) t) as HF by (apply Forall_forall; intros c Hc;
    rewrite forallb_forall in Hw; by apply Hw, list_elem_of_In).
  assert (Forall byte_ok t) as Hb by (eapply Forall_impl; [exact HF|]; intros c Hc%word_char_ascii; unfold byte_ok; lia).
  destruct (escape_text_spec ci t Hci Hb) as [He _]. revert HF He. generalize (escape_text false ci t). intros out HF He. clear Hw Hb.
  induction He as [|h src out Hh _ IH|c src out _ _ IH]; [done| |].
  - apply Forall_app in HF as [H1 H2]. by rewrite IH.
  - apply Forall_cons in HF as [H1 H2]. by rewrite slash_escape_word, IH.
Qed.

(** *** Without backslash escapes *)

Lemma doubled_high h l : Forall high h ->
  doubled_value (h ++ l) = (fun r => (h ++ r.1, r.2)) <$> doubled_value l.
Proof.
  induction 1 as [|c h Hc _ IH]; cbn [app doubled_value]; [by destruct (doubled_value l) as [[]|]|]. unfold high in Hc.
  destruct (Z.eqb_spec c ($"'")) as [E|_]; [cbn in E; lia|]. rewrite IH. by destruct (doubled_value l).
Qed.

Lemma escaped_doubled src out rest : escaped quote_escape src out -> (forall r, rest <> $"'" :: r) ->
  doubled_value (out ++ $"'" :: rest) = Some (src, rest).
Proof.
  intros He Hr. induction He as [|h src out Hh _ IH|c src out _ _ IH].
  - cbn [app doubled_value]. rewrite Z.eqb_refl. destruct rest as [|d rest]; [done|].
    destruct (Z.eqb_spec d ($"'")) as [->|]; [by destruct (Hr rest)|done].
  - rewrite <- app_assoc, doubled_high, IH by done. done.
  - unfold quote_escape. destruct (Z.eqb_spec c ($"'")) as [->|Hc]; cbn [app doubled_value].
    + by rewrite !Z.eqb_refl, IH.
    + apply Z.eqb_neq in Hc. by rewrite Hc, IH.
Qed.

(** Under NO_BACKSLASH_ESCAPES the quotes of a value are doubled, and the value
    comes back when the literal is read that way; but the terminator-based append of
    the driver only sees the text up to the first zero byte of the value. *)
Theorem escape_doubled ci src rest : AsciiSafe ci -> Forall byte_ok src -> (forall r, rest <> $"'" :: r) ->
  let '(stored, n) := mysql_real_escape_string true ci src in
  n <= 2 * Z.of_nat (length src) /\
  doubled_value (take (Z.to_nat n) stored ++ $"'" :: rest) = Some (src, rest) /\
  (0%Z ∈ src -> length (escape_text true ci src) < length stored - 1)%nat.
Proof.
  intros Hci Hb Hr. unfold escape_text, mysql_real_escape_string, mysql_cset_escape_quotes, escape_result.
  destruct (escape_loop_escaped ci quote_escape quote_escape_length (length src) (2 * length src) src)
    as (out & E & He & Hl); [done..|]. rewrite E. cbn [fst snd].
  rewrite Nat2Z.id, take_app_length, length_app. cbn [length]. split_and!; [lia|by apply escaped_doubled|].
  intros Hz. assert (0 ∈ out) as Ho.
  { clear -He Hz. induction He as [|h src out Hh _ IH|c src out _ _ IH]; [done| |].
    - apply elem_of_app in Hz as [Hz|Hz]; [|set_solver]. rewrite Forall_forall in Hh. apply Hh in Hz. unfold high in Hz. lia.
    - apply elem_of_cons in Hz as [<-|Hz]; [|set_solver]. cbn. set_solver. }
  clear -Ho. induction out as [|c out IH]; [set_solver|]. cbn. destruct (Z.eqb_spec c 0); cbn; [lia|].
  apply elem_of_cons in Ho as [|Ho]; [congruence|]. apply IH in Ho. lia.
Qed.

Lemma escape_doubled_witness :
  doubled_value (chars "a''b" ++ [0] ++ chars "c';") = Some (chars "a'b" ++ [0] ++ chars "c", chars ";") /\
  escape_text true utf8mb4_info (chars "a'b" ++ [0] ++ chars "c") = chars "a''b".
Proof.
  pose proof (escape_doubled utf8mb4_info (chars "a'b" ++ [0] ++ chars "c") (chars ";") _
    ltac:(repeat constructor; vm_compute; congruence) ltac:(intros r; vm_compute; congruence)) as H.
  split; [|by vm_compute]. exact (proj1 (proj2 H)).
Defined.

End EscapeProps.
