(* ===== verification/FloatText.v ===== *)
(** * FloatText: floating-point parameters and SQL_NUMERIC values as text

    The C library's part: IEEE binary formats, rounding to the nearest even, [%.17e]
    and [%.nf] of [printf], in integer arithmetic.  On it, [MADB_ConvertNumericToChar]
    of [ma_typeconv.c], on the caller's buffer, store by store.

    [(long long) pow(10, Scale)] has a value up to a scale of 18, where the power is
    also exact as a [double]; above, the conversion is undefined ([None]). *)

From Stdlib Require Import ZArith Lia.
From stdpp Require Import base strings numbers option list.
From S2P Require Import Prelude Decimal Odbc Errors Dynamic Numeric.
Import Numeric.

Module FloatText.

(** ** IEEE formats *)

(** A finite value is [m * 2 ^ e], with its sign apart. *)
Inductive float := Finite (neg : bool) (m e : Z) | Infinite (neg : bool) | NaN (neg : bool).

Definition decode (mbits ebits bits : Z) : float :=
  let neg := Z.testbit bits (mbits + ebits) in
  let ex := Z.shiftr bits mbits mod 2 ^ ebits in
  let frac := bits mod 2 ^ mbits in
  let bias := 2 ^ (ebits - 1) - 1 in
  if ex =? 2 ^ ebits - 1 then if frac =? 0 then Infinite neg else NaN neg
  else if ex =? 0 then Finite neg frac (1 - bias - mbits)
  else Finite neg (frac + 2 ^ mbits) (ex - bias - mbits).

Definition decode_double : Z -> float := decode 52 11.
Definition decode_real : Z -> float := decode 23 8.

(** The quotient rounded to the nearest integer, half to even. *)
Definition div_even (a b : Z) : Z :=
  let q := a / b in
  let r := a mod b in
  if 2 * r <? b then q else if b <? 2 * r then q + 1 else if Z.even q then q else q + 1.

(** [2 ^ e] and [10 ^ e] as a fraction. *)
Definition up (base e : Z) : Z := base ^ Z.max e 0.
Definition down (base e : Z) : Z := base ^ Z.max (- e) 0.

(** The quotient of two positive integers as a [double]: 53 bits, [m * 2 ^ e]. *)
Definition round53 (a b : Z) : Z * Z :=
  let e0 := Z.log2 a - Z.log2 b - 52 in
  let e := if a * down 2 e0 <? 2 ^ 52 * (b * up 2 e0) then e0 - 1 else e0 in
  (div_even (a * down 2 e) (b * up 2 e), e).

(** An integer converted to [double]. *)
Definition double_of_int (a : Z) : Z * Z := if a <? 2 ^ 53 then (a, 0) else round53 a 1.

(** ** Printing *)

(** The last [n] decimal digits. *)
Fixpoint fixed_digits (n : nat) (z : Z) : list Z :=
  match n with O => [] | S n' => fixed_digits n' (z / 10) ++ [48 + z mod 10] end.

(** [%.nf] of [m * 2 ^ e], for a positive [n]. *)
Definition fixed_text (n : nat) (m e : Z) : list Z :=
  let N := div_even (m * up 2 e * 10 ^ Z.of_nat n) (down 2 e) in
  dec_u (N / 10 ^ Z.of_nat n) ++ $"." :: fixed_digits n N.

Fixpoint ilog10 (fuel : nat) (n : Z) : Z :=
  match fuel with
  | O => 0
  | S fuel' => if n <? 10 then 0 else 1 + ilog10 fuel' (n / 10)
  end.

Fixpoint tens (fuel : nat) (num den : Z) : Z :=
  match fuel with
  | O => 0
  | S fuel' => if den <=? num then 0 else 1 + tens fuel' (num * 10) den
  end.

(** The decimal exponent of a positive fraction. *)
Definition exponent10 (num den : Z) : Z :=
  if den <=? num then ilog10 (S (Z.to_nat (Z.log2 (num / den)))) (num / den)
  else - tens (S (Z.to_nat (Z.log2 den))) num den.

(** The digits and the exponent [%.17e] prints for [m * 2 ^ e]. *)
Definition scientific (m e : Z) : Z * Z :=
  let num := m * up 2 e in
  let den := down 2 e in
  let x := exponent10 num den in
  let sig := div_even (num * up 10 (17 - x)) (den * down 10 (17 - x)) in
  if sig =? 10 ^ 18 then (10 ^ 17, x + 1) else (sig, x).

Definition exponent_text (x : Z) : list Z :=
  (if x <? 0 then $"-" else $"+") :: (if Z.abs x <? 10 then [$"0"] else []) ++ dec_u (Z.abs x).

Definition signed (neg : bool) (t : list Z) : list Z := if neg then $"-" :: t else t.

(** [sprintf(converted, "%.17e", value)] *)
Definition e17_text (f : float) : list Z :=
  match f with
  | Infinite neg => signed neg (chars "inf")
  | NaN neg => signed neg (chars "nan")
  | Finite neg m e =>
      let '(sig, x) := if m =? 0 then (0, 0) else scientific m e in
      signed neg ((48 + sig / 10 ^ 17) :: $"." :: fixed_digits 17 sig ++ $"e" :: exponent_text x)
  end.

(** ** MADB_ConvertNumericToChar *)

Section Convert.
Context (junk : Z) (size : nat).   (** of the caller's buffer *)

(** The little-endian magnitude in a [long long]: the factor [ByteDenominator] is
    shifted out after eight bytes. *)
Fixpoint numerator (i : nat) (ByteDenominator acc : Z) (val : list Z) : Z :=
  match i with
  | O => acc
  | S i' => numerator i' (wraps 64 (Z.shiftl ByteDenominator 8)) (wraps 64 (acc + wraps 64 (rd val 0 * ByteDenominator))) (drop 1 val)
  end.

(** [Buffer[i]= c] and [strcat(Buffer, "0")] until the string has [n] characters,
    counted from [p]. *)
Definition put (b : list Z) (i : nat) (c : Z) : option (list Z) :=
  if (i <? length b)%nat then Some (<[i := c]> b) else None.

Fixpoint pad_zeros (fuel : nat) (b : list Z) (p : nat) (n : Z) : option (list Z) :=
  match fuel with
  | O => None
  | S fuel' =>
      let len := strlen b p in
      if Z.of_nat len <? n then
        b1 ← put b (p + len) ($"0"); b2 ← put b1 (p + len + 1) 0; pad_zeros fuel' b2 p n
      else Some b
  end.

(** The text of the value, cut to the 37 characters [_snprintf] has room for. *)
Definition numeric_text (Numerator Scale scale : Z) : list Z :=
  if 0 <? scale then
    take 37 (signed (Numerator <? 0)
      (let '(m, e) := double_of_int (Z.abs Numerator) in
       let '(q, x) := if m =? 0 then (0, 0) else round53 (m * up 2 e) (10 ^ Scale * down 2 e) in
       fixed_text (Z.to_nat scale) q x))
  else dec Numerator.

(** What is left of the checks once the text is in the buffer at [p]; the error code
    and the buffer. *)
Definition numeric_checks (n : SQL_NUMERIC_STRUCT) (Scale : Z) (left : bool) (b : list Z) (p : nat)
    : option (nat * list Z) :=
  let prec := wrapu 8 (precision n) in
  let len := Z.of_nat (strlen b p) in
  let dot := strchr (cstr_at b p) ($".") in
  let no_point :=
    b1 ← (if scale n <? 0 then pad_zeros (S size) b p (prec - scale n) else Some b);
    Some (if (prec + Scale <? Z.of_nat (strlen b1 p)) && (0 <? scale n) then MADB_ERR_01S07 else 0%nat, b1) in
  match dot with
  | Some d =>
      if prec <? Z.of_nat d - 1 then b1 ← put b (p + Z.to_nat prec) 0; Some (MADB_ERR_22003, b1)
      else if (0 <? scale n) && left && (prec <? len) then
        b1 ← put b (p + Z.to_nat prec + 1) 0; Some (MADB_ERR_01S07, b1)
      else no_point
  | None => no_point
  end.

(** The error code, the length that is returned and the buffer.  [Buffer--] of a
    negative zero leaves the buffer: [None]. *)
Definition MADB_ConvertNumericToChar (n : SQL_NUMERIC_STRUCT) : option (nat * nat * list Z) :=
  let Scale := Z.abs (scale n) in
  let N0 := numerator SQL_MAX_NUMERIC_LEN 1 0 (val n) in
  let Numerator := if sign n =? 0 then wraps 64 (- N0) else N0 in
  if 18 <? Scale then None
  else
    let left := negb (Z.quot Numerator (10 ^ Scale) =? 0) in
    b0 ← DynString.memcpy (replicate size junk) 0 (numeric_text Numerator Scale (scale n) ++ [0]);
    b1 ← (if 0 <? scale n then Some b0
          else pad_zeros (S size) b0 0 (wrapu 64 (wrapu 8 (precision n) - scale n)));
    let p := if rd b1 0 =? $"-" then 1%nat else 0%nat in
    '(code, b2) ← numeric_checks n Scale left b1 p;
    let len := strlen b2 p in
    b3 ← (if (0 <? len)%nat && (rd b2 (p + len - 1) =? $".") then put b2 (p + len - 1) 0 else Some b2);
    if sign n =? 0 then
      match p with O => None | S p' => Some (code, strlen b3 p', b3) end
    else Some (code, strlen b3 p, b3).

End Convert.

End FloatText.

(** ** Properties *)

Module FloatTextProps.
Import FloatText NumericProps.

Lemma div_even_error a b : 0 < b -> 2 * Z.abs (div_even a b * b - a) <= b.
Proof.
  intros Hb. unfold div_even. cbv zeta. pose proof (Z.div_mod a b ltac:(lia)). pose proof (Z.mod_pos_bound a b Hb).
  destruct (Z.ltb_spec (2 * (a mod b)) b); [nia|]. destruct (Z.ltb_spec b (2 * (a mod b))); [nia|]. case_match; nia.
Qed.

(** Only one integer is that near. *)
Lemma div_even_near a b n : 0 < b -> 2 * Z.abs (a - n * b) < b -> div_even a b = n.
Proof. intros Hb H. pose proof (div_even_error a b Hb). nia. Qed.

Lemma down_pos base e : 0 < base -> 0 < down base e.
Proof. intros. apply Z.pow_pos_nonneg; lia. Qed.
Lemma up_pos base e : 0 < base -> 0 < up base e.
Proof. intros. apply Z.pow_pos_nonneg; lia. Qed.

(** The fraction is the power. *)
Lemma up_down base i e : 0 < base -> 0 <= i -> 0 <= i + e -> base ^ i * up base e = base ^ (i + e) * down base e.
Proof.
  intros Hb Hi He. unfold up, down. destruct (Z.le_gt_cases 0 e).
  - rewrite Z.max_l, Z.max_r, Z.pow_add_r by lia. change (base ^ 0) with 1. lia.
  - rewrite Z.max_r, Z.max_l by lia. change (base ^ 0) with 1. rewrite <- Z.pow_add_r by lia. rewrite Z.mul_1_r. f_equal. lia.
Qed.

(** *** Rounding a quotient to 53 bits *)

Lemma round53_error a b : 0 < a -> 0 < b ->
  let '(m, e) := round53 a b in
  2 * Z.abs (m * (b * up 2 e) - a * down 2 e) <= b * up 2 e /\ 2 ^ 52 * (b * up 2 e) <= a * down 2 e.
Proof.
  intros Ha Hb. unfold round53. cbv zeta. set (e0 := Z.log2 a - Z.log2 b - 52).
  set (e := if _ : bool then _ else _). split.
  { apply div_even_error. pose proof (up_pos 2 e). nia. }
  unfold e. destruct (Z.ltb_spec (a * down 2 e0) (2 ^ 52 * (b * up 2 e0))); [|done]. clear e.
  pose proof (Z.log2_spec a Ha) as [A1 _]. pose proof (Z.log2_spec b Hb) as [_ B2].
  pose proof (Z.log2_nonneg a). pose proof (Z.log2_nonneg b).
  pose proof (up_down 2 (Z.succ (Z.log2 b) + 52) (e0 - 1) ltac:(lia) ltac:(lia) ltac:(lia)) as E.
  replace (Z.succ (Z.log2 b) + 52 + (e0 - 1)) with (Z.log2 a) in E by lia. rewrite Z.pow_add_r in E by lia.
  pose proof (up_pos 2 (e0 - 1)). pose proof (down_pos 2 (e0 - 1)). nia.
Qed.

(** A quotient of up to 52 bits by a power of ten, rounded to a [double] and printed
    with as many decimals, has the digits of the dividend. *)
Lemma fixed_text_quotient v s : 0 < v < 2 ^ 52 ->
  let '(q, x) := round53 v (10 ^ Z.of_nat s) in
  fixed_text s q x = dec_u (v / 10 ^ Z.of_nat s) ++ $"." :: fixed_digits s v.
Proof.
  intros Hv. set (d := 10 ^ Z.of_nat s). assert (0 < d) as Hd by (apply Z.pow_pos_nonneg; lia).
  pose proof (round53_error v d ltac:(lia) Hd) as H. destruct (round53 v d) as [q x]. destruct H as [H1 H2].
  unfold fixed_text. cbv zeta. fold d.
  rewrite (div_even_near _ _ v); [done|apply down_pos; lia|].
  pose proof (up_pos 2 x). pose proof (down_pos 2 x).
  replace (q * up 2 x * d - v * down 2 x) with (q * (d * up 2 x) - v * down 2 x) by ring.
  assert (v * down 2 x < 2 ^ 52 * down 2 x) by nia. lia.
Qed.

Lemma fixed_digits_length n : forall z, length (fixed_digits n z) = n.
Proof. induction n as [|n IH]; intros z; [done|]. cbn [fixed_digits]. rewrite length_app, IH. cbn. lia. Qed.

Lemma fixed_digits_zero n : fixed_digits n 0 = replicate n ($"0").
Proof.
  induction n as [|n IH]; [done|]. cbn [fixed_digits]. change (0 / 10) with 0. rewrite IH.
  change (48 + 0 mod 10) with ($"0"). by rewrite <- replicate_cons_app.
Qed.

(** The text of a number with up to 52 bits and 18 decimals: no digit is lost. *)
Lemma numeric_text_exact (neg : bool) v s : 0 <= v < 2 ^ 52 -> (0 < s <= 18)%nat ->
  numeric_text (if neg then - v else v) (Z.of_nat s) (Z.of_nat s) =
    signed (neg && negb (v =? 0)) (dec_u (v / 10 ^ Z.of_nat s) ++ $"." :: fixed_digits s v).
Proof.
  intros Hv Hs. unfold numeric_text. destruct (Z.ltb_spec 0 (Z.of_nat s)); [|lia].
  replace (Z.abs (if neg then - v else v)) with v by (destruct neg; lia).
  replace ((if neg then - v else v) <? 0) with (neg && negb (v =? 0))
    by (destruct neg; symmetry; cbn; [destruct (Z.eqb_spec v 0); [by subst|apply Z.ltb_lt; lia]|apply Z.ltb_ge; lia]).
  unfold double_of_int. destruct (Z.ltb_spec v (2 ^ 53)); [|lia]. rewrite Nat2Z.id.
  assert ((let '(q, x) := if v =? 0 then (0, 0) else round53 (v * up 2 0) (10 ^ Z.of_nat s * down 2 0) in fixed_text s q x)
    = dec_u (v / 10 ^ Z.of_nat s) ++ $"." :: fixed_digits s v) as ->.
  { destruct (Z.eqb_spec v 0) as [->|].
    - unfold fixed_text. cbn [up down]. change (up 2 0) with 1. change (down 2 0) with 1. by rewrite !Z.mul_0_l.
    - change (up 2 0) with 1. change (down 2 0) with 1. rewrite !Z.mul_1_r.
      pose proof (fixed_text_quotient v s ltac:(lia)) as E. by destruct (round53 _ _). }
  apply take_ge. assert (length (dec_u (v / 10 ^ Z.of_nat s)) <= 16)%nat as Hl.
  { apply dec_loop_length; [|lia]. pose proof (Z.pow_pos_nonneg 10 (Z.of_nat s) ltac:(lia) ltac:(lia)).
    split; [apply Z.div_pos; lia|]. apply Z.div_lt_upper_bound; [lia|]. change (10 ^ Z.of_nat 16) with (10 ^ 16). nia. }
  unfold signed. destruct (neg && _); cbn [length]; rewrite length_app; cbn [length]; rewrite fixed_digits_length; lia.
Qed.

(** *** SQL_NUMERIC to text *)

Lemma wraps_congr w a b : 0 < w -> a mod 2 ^ w = b mod 2 ^ w -> wraps w a = wraps w b.
Proof. intros Hw H. unfold wraps. by rewrite <- (Zplus_mod_idemp_l a), <- (Zplus_mod_idemp_l b), H. Qed.

(** The loop works modulo [2 ^ 64]. *)
Lemma numerator_mod i : forall D acc val,
  numerator i D acc val mod 2 ^ 64 = (acc + D * le_value (take i val)) mod 2 ^ 64.
Proof.
  assert (forall z, exists k, wraps 64 z = z + k * 2 ^ 64) as W.
  { intros z. exists (- ((z + 2 ^ (64 - 1)) / 2 ^ 64)). unfold wraps. rewrite Z.mod_eq by done. ring. }
  induction i as [|i IH]; intros D acc v; cbn [numerator]; [f_equal; rewrite take_0; cbn [le_value]; lia|]. rewrite IH.
  destruct (W (rd v 0 * D)) as [k1 ->]. destruct (W (acc + (rd v 0 * D + k1 * 2 ^ 64))) as [k2 ->].
  rewrite Z.shiftl_mul_pow2 by lia. destruct (W (D * 2 ^ 8)) as [k3 ->].
  rewrite <- (Z_mod_plus_full (acc + _) (k1 + k2 + k3 * le_value (take i (drop 1 v)))). f_equal.
  destruct v as [|b v]; cbn [drop take le_value]; [rewrite take_nil; cbn [le_value]; change (rd [] 0) with 0|change (rd (b :: v) 0) with b];
    change (2 ^ 8) with 256; rewrite ?drop_0; ring.
Qed.

Lemma numerator_range i : forall D acc val, - 2 ^ 63 <= acc < 2 ^ 63 -> - 2 ^ 63 <= numerator i D acc val < 2 ^ 63.
Proof.
  induction i as [|i IH]; intros D acc v H; cbn [numerator]; [done|]. apply IH. unfold wraps.
  pose proof (Z.mod_pos_bound (acc + ((rd v 0 * D + 2 ^ (64 - 1)) mod 2 ^ 64 - 2 ^ (64 - 1)) + 2 ^ (64 - 1)) (2 ^ 64)). lia.
Qed.

(** The magnitude, as long as it fits. *)
Lemma numerator_value val : length val = SQL_MAX_NUMERIC_LEN -> 0 <= le_value val < 2 ^ 63 ->
  numerator SQL_MAX_NUMERIC_LEN 1 0 val = le_value val.
Proof.
  intros Hl Hv. pose proof (numerator_mod SQL_MAX_NUMERIC_LEN 1 0 val) as E. rewrite take_ge in E by (by rewrite Hl).
  rewrite Z.mul_1_l, Z.add_0_l in E. pose proof (numerator_range SQL_MAX_NUMERIC_LEN 1 0 val ltac:(lia)) as Hr.
  rewrite <- (wraps_id 64 (numerator _ _ _ _)), <- (wraps_id 64 (le_value val)) by lia. by apply wraps_congr.
Qed.

(** The decimal text of [v] over [10 ^ s]. *)
Definition scaled_text (v : Z) (s : nat) : list Z := dec_u (v / 10 ^ Z.of_nat s) ++ $"." :: fixed_digits s v.

Lemma fixed_digits_digits n : forall z, digit_list (fixed_digits n z).
Proof.
  induction n as [|n IH]; intros z; [constructor|]. cbn [fixed_digits]. apply Forall_app. split; [apply IH|].
  repeat constructor. apply isdigit_range. pose proof (Z.mod_pos_bound z 10). lia.
Qed.

Lemma scaled_text_nonzero v s : 0 <= v -> Forall (fun c => c <> 0) (scaled_text v s).
Proof.
  intros Hv. assert (forall l, digit_list l -> Forall (fun c => c <> 0) l) as H.
  { intros l Hl. eapply Forall_impl; [exact Hl|]. intros c Hc%isdigit_range. lia. }
  apply Forall_app. split; [apply H, dec_u_digits|constructor; [done|apply H, fixed_digits_digits]].
  apply Z.div_pos; [done|]. apply Z.pow_pos_nonneg; lia.
Qed.

(** A string in a buffer, read from its start and behind its sign. *)
Lemma cstr_at_signed neg t r : Forall (fun c => c <> 0) t ->
  cstr_at (signed neg t ++ 0 :: r) (Nat.b2n neg) = t.
Proof.
  intros H. unfold cstr_at. assert (drop (Nat.b2n neg) (signed neg t ++ 0 :: r) = t ++ 0 :: r) as -> by (by destruct neg).
  induction H as [|c t Hc _ IH]; [done|]. cbn. destruct (Z.eqb_spec c 0); [done|]. by rewrite IH.
Qed.

Lemma scaled_text_dot v s : 0 <= v -> strchr (scaled_text v s) ($".") = Some (length (dec_u (v / 10 ^ Z.of_nat s))).
Proof.
  intros Hv. apply strchr_dot, dec_u_digits. apply Z.div_pos; [done|]. apply Z.pow_pos_nonneg; lia.
Qed.

Lemma scaled_text_last v s r neg : 0 <= v -> (0 < s)%nat ->
  (rd (signed neg (scaled_text v s) ++ r) (Nat.b2n neg + length (scaled_text v s) - 1) =? $".") = false.
Proof.
  intros Hv Hs. unfold rd. rewrite lookup_app_l by (destruct neg; cbn [signed Nat.b2n length]; unfold scaled_text;
    rewrite length_app; cbn [length]; lia).
  assert (signed neg (scaled_text v s) !! (Nat.b2n neg + length (scaled_text v s) - 1)%nat = last (fixed_digits s v)) as ->.
  { destruct s as [|s]; [lia|]. unfold scaled_text. cbn [fixed_digits]. rewrite last_snoc, app_comm_cons, app_assoc, length_app.
    cbn [length]. set (a := dec_u _ ++ _). destruct neg; cbn [signed Nat.b2n Nat.add].
    - replace (S (length a + 1) - 1)%nat with (length ($"-" :: a)) by (cbn [length]; lia).
      rewrite app_comm_cons, lookup_app_r by lia. by rewrite Nat.sub_diag.
    - replace (length a + 1 - 1)%nat with (length a) by lia. by rewrite lookup_app_r, Nat.sub_diag. }
  pose proof (fixed_digits_digits s v) as Hd. destruct (last (fixed_digits s v)) as [c|] eqn:E; [|done].
  apply last_Some_elem_of in E. unfold digit_list in Hd. rewrite Forall_forall in Hd. apply Hd in E. cbn. apply Z.eqb_neq. apply isdigit_range in E. cbn. lia.
Qed.

Lemma insert_terminator t r : <[length t := 0]> (t ++ 0 :: r) = t ++ 0 :: r.
Proof. rewrite insert_app_r_alt, Nat.sub_diag by done. done. Qed.

Lemma signed_length neg t : length (signed neg t) = (Nat.b2n neg + length t)%nat.
Proof. by destruct neg. Qed.

Lemma left_of v s : 0 <= v -> negb (Z.quot v (10 ^ s) =? 0) = (10 ^ s <=? v) \/ s < 0.
Proof.
  intros Hv. destruct (Z.le_gt_cases 0 s); [left|by right]. pose proof (Z.pow_pos_nonneg 10 s ltac:(lia) ltac:(lia)).
  rewrite Z.quot_div_nonneg by lia. destruct (Z.leb_spec (10 ^ s) v).
  - apply negb_true_iff, Z.eqb_neq. pose proof (Z.div_le_lower_bound v (10 ^ s) 1). lia.
  - rewrite Z.div_small by lia. done.
Qed.

(** The checks find nothing to cut when the digits fit the precision. *)
Lemma numeric_checks_exact size n v s prec neg r :
  precision n = prec -> scale n = Z.of_nat s -> 0 <= prec < 256 -> 0 <= v -> (0 < s)%nat ->
  Z.of_nat (length (scaled_text v s)) <= prec + 1 ->
  numeric_checks size n (Z.of_nat s) (10 ^ Z.of_nat s <=? v) (signed neg (scaled_text v s) ++ 0 :: r) (Nat.b2n neg) =
    Some (if (10 ^ Z.of_nat s <=? v) && (Z.of_nat (length (scaled_text v s)) =? prec + 1) then MADB_ERR_01S07 else 0%nat,
          signed neg (scaled_text v s) ++ 0 :: r).
Proof.
  intros Hp Hsc Hpr Hv Hs Hl. unfold numeric_checks, strlen. rewrite Hp, Hsc, wrapu_id by (cbn; lia). cbv zeta.
  rewrite cstr_at_signed by (by apply scaled_text_nonzero). rewrite scaled_text_dot by done.
  assert (Z.of_nat (length (dec_u (v / 10 ^ Z.of_nat s))) + 2 <= Z.of_nat (length (scaled_text v s))) as Hd.
  { unfold scaled_text. rewrite length_app. cbn [length]. rewrite fixed_digits_length. lia. }
  destruct (Z.ltb_spec prec (Z.of_nat (length (dec_u (v / 10 ^ Z.of_nat s))) - 1)); [lia|].
  destruct (Z.ltb_spec 0 (Z.of_nat s)); [|lia]. destruct (Z.ltb_spec (Z.of_nat s) 0); [lia|]. cbn [andb].
  destruct (10 ^ Z.of_nat s <=? v); cbn [andb].
  - destruct (Z.ltb_spec prec (Z.of_nat (length (scaled_text v s)))), (Z.eqb_spec (Z.of_nat (length (scaled_text v s))) (prec + 1)); try lia.
    + unfold put. rewrite length_app, signed_length. cbn [length]. destruct (Nat.ltb_spec (Nat.b2n neg + Z.to_nat prec + 1)
        (Nat.b2n neg + length (scaled_text v s) + S (length r))); [|lia]. cbn.
      replace (Nat.b2n neg + Z.to_nat prec + 1)%nat with (length (signed neg (scaled_text v s))) by (rewrite signed_length; lia).
      by rewrite insert_terminator.
    + cbn [mbind option_bind]. rewrite cstr_at_signed by (by apply scaled_text_nonzero). destruct (Z.ltb_spec (prec + Z.of_nat s) (Z.of_nat (length (scaled_text v s)))); [lia|done].
  - cbn [mbind option_bind]. rewrite cstr_at_signed by (by apply scaled_text_nonzero).
    destruct (Z.ltb_spec (prec + Z.of_nat s) (Z.of_nat (length (scaled_text v s)))); [lia|done].
Qed.

(** A SQL_NUMERIC parameter with a positive scale becomes its exact decimal text, when
    its magnitude has up to 52 bits and its digits fit the precision.  When they fill
    it, the code reports the truncation of fraction digits (01S07) although it cuts
    nothing. *)
Theorem ConvertNumericToChar_exact junk size (neg : bool) n v s prec :
  (38 <= size)%nat -> precision n = prec -> scale n = Z.of_nat s -> sign n = (if neg then 0 else 1) ->
  length (val n) = SQL_MAX_NUMERIC_LEN -> le_value (val n) = v -> 0 <= v < 2 ^ 52 -> (neg = true -> 0 < v) ->
  (0 < s <= 18)%nat -> 0 <= prec < 256 -> Z.of_nat (length (scaled_text v s)) <= prec + 1 ->
  exists b, MADB_ConvertNumericToChar junk size n =
      Some (if (10 ^ Z.of_nat s <=? v) && (Z.of_nat (length (scaled_text v s)) =? prec + 1) then MADB_ERR_01S07 else 0%nat,
            length (signed neg (scaled_text v s)), b) /\
    cstr b = signed neg (scaled_text v s).
Proof.
  intros Hsize Hp Hsc Hsg Hlv Hle Hv Hneg Hs Hpr Hl. unfold MADB_ConvertNumericToChar. cbv zeta.
  rewrite numerator_value, Hle, Hsg, Hsc by (rewrite ?Hle; lia).
  replace (if (if neg then 0 else 1) =? 0 then wraps 64 (- v) else v) with (if neg then - v else v)
    by (destruct neg; cbn; [by rewrite wraps_id by lia|done]).
  rewrite Z.abs_eq by lia. destruct (Z.ltb_spec 18 (Z.of_nat s)); [lia|].
  replace (negb (Z.quot (if neg then - v else v) (10 ^ Z.of_nat s) =? 0)) with (10 ^ Z.of_nat s <=? v).
  2: { destruct (left_of v (Z.of_nat s)) as [<-|]; [lia| |lia]. destruct neg; [|done].
       rewrite Z.quot_opp_l by (pose proof (Z.pow_pos_nonneg 10 (Z.of_nat s)); lia). f_equal. apply eq_bool_prop_intro.
       rewrite !Is_true_true, !Z.eqb_eq. lia. }
  rewrite numeric_text_exact by (rewrite ?Hsc; lia). fold (scaled_text v s).
  replace (neg && negb (v =? 0)) with neg by (destruct neg; cbn; [destruct (Z.eqb_spec v 0); [specialize (Hneg eq_refl); lia|done]|done]).
  set (t := scaled_text v s) in *.
  assert (length t <= 36)%nat as Ht.
  { subst t. unfold scaled_text. rewrite length_app. cbn [length]. rewrite fixed_digits_length.
    assert (length (dec_u (v / 10 ^ Z.of_nat s)) <= 16)%nat; [|lia]. apply dec_loop_length; [|lia].
    pose proof (Z.pow_pos_nonneg 10 (Z.of_nat s) ltac:(lia) ltac:(lia)).
    split; [apply Z.div_pos; lia|]. apply Z.div_lt_upper_bound; [lia|]. change (10 ^ Z.of_nat 16) with (10 ^ 16). nia. }
  rewrite DynString.memcpy_Some by (rewrite ?length_replicate, ?length_app, ?signed_length; destruct neg; cbn [length Nat.b2n]; lia).
  cbn [mbind option_bind]. destruct (Z.ltb_spec 0 (Z.of_nat s)); [|lia]. cbn [mbind option_bind].
  assert (blit (replicate size junk) (Z.to_nat 0) (signed neg t ++ [0]) = signed neg t ++ 0 :: drop (length (signed neg t ++ [0])) (replicate size junk)) as ->.
  { unfold blit. rewrite (take_ge (signed neg t ++ [0])); [cbn; by rewrite <- app_assoc|].
    rewrite length_replicate, length_app, signed_length. destruct neg; cbn [length Nat.b2n]; lia. }
  set (r := drop _ (replicate size junk)).
  replace (if rd (signed neg t ++ 0 :: r) 0 =? $"-" then 1%nat else 0%nat) with (Nat.b2n neg).
  2: { destruct neg; [done|]. subst t. unfold scaled_text. destruct (dec_u_cons (v / 10 ^ Z.of_nat s)) as (c & l & -> & Hc);
         [apply Z.div_pos; [lia|]; apply Z.pow_pos_nonneg; lia|]. change (rd _ 0) with c. cbn [Nat.b2n].
       apply isdigit_plain in Hc as (_ & -> & _). done. }
  rewrite numeric_checks_exact with (prec := prec) by (try done; lia). cbn [mbind option_bind]. cbv beta iota. fold t.
  assert (strlen (signed neg t ++ 0 :: r) (Nat.b2n neg) = length t) as ->
    by (unfold strlen; rewrite cstr_at_signed; [done|apply scaled_text_nonzero; lia]).
  replace (rd _ _ =? $".") with false by (symmetry; apply scaled_text_last; lia). rewrite andb_false_r. cbn [mbind option_bind].
  assert (cstr (signed neg t ++ 0 :: r) = signed neg t) as Ec.
  { apply (cstr_at_signed false). assert (Forall (fun c => c <> 0) t) by (apply scaled_text_nonzero; lia). by destruct neg; [constructor|]. }
  exists (signed neg t ++ 0 :: r). split; [|exact Ec].
  unfold strlen, cstr_at. destruct neg; cbn [Nat.b2n Z.eqb]; rewrite ?drop_0.
  - by rewrite Ec.
  - by rewrite Ec.
Qed.

Lemma ConvertNumericToChar_exact_witness :
  exists b, MADB_ConvertNumericToChar 170 128 (MkNumeric 6 2 0 ([57; 48] ++ replicate 14 0)) = Some (0%nat, 7%nat, b) /\
    cstr b = chars "-123.45".
Proof.
  destruct (ConvertNumericToChar_exact 170 128 true (MkNumeric 6 2 0 ([57; 48] ++ replicate 14 0)) 12345 2 6
    ltac:(lia) eq_refl eq_refl eq_refl eq_refl eq_refl ltac:(lia) ltac:(lia) ltac:(lia) ltac:(lia) ltac:(by vm_compute)) as (b & E & Hb).
  exists b. split; [exact E|exact Hb].
Defined.

(** Where the conversion goes wrong: without a scale the digits are filled up to the
    precision with zeros (5 becomes 500), the low 64 bits stand for the number, digits
    beyond the 53 bits of a [double] are lost, a negative zero reads in front of
    the buffer, and a precision above the buffer's size writes behind it. *)
Definition numeric_of (v : Z) : list Z := (fun i => Z.shiftr v (8 * Z.of_nat i) mod 256) <$> seq 0 SQL_MAX_NUMERIC_LEN.
Definition numeric_result (n : SQL_NUMERIC_STRUCT) : option (nat * list Z) :=
  (fun '(code, _, b) => (code, cstr b)) <$> MADB_ConvertNumericToChar 170 128 n.

Theorem ConvertNumericToChar_wrong :
  numeric_result (MkNumeric 3 0 1 (numeric_of 5)) = Some (0%nat, chars "500") /\
  numeric_result (MkNumeric 38 2 1 (numeric_of (2 ^ 64 + 7))) = Some (0%nat, chars "0.07") /\
  numeric_result (MkNumeric 38 2 1 (numeric_of 1234567890123456789)) = Some (0%nat, chars "12345678901234568.00") /\
  numeric_result (MkNumeric 38 2 0 (numeric_of 0)) = None /\
  numeric_result (MkNumeric 200 0 1 (numeric_of 5)) = None.
Proof. split_and!; vm_compute; reflexivity. Qed.

(** *** The digits of [%.17e] *)

Lemma ilog10_spec fuel : forall n, 0 < n < 2 ^ Z.of_nat fuel ->
  0 <= ilog10 fuel n /\ 10 ^ ilog10 fuel n <= n < 10 ^ (ilog10 fuel n + 1).
Proof.
  induction fuel as [|fuel IH]; intros n Hn; [cbn in Hn; lia|]. cbn [ilog10]. destruct (Z.ltb_spec n 10); [cbn; lia|].
  rewrite Nat2Z.inj_succ, Z.pow_succ_r in Hn by lia. pose proof (Z.div_mod n 10 ltac:(lia)). pose proof (Z.mod_pos_bound n 10 ltac:(lia)).
  destruct (IH (n / 10)) as (Hk & Hlo & Hhi); [lia|]. set (k := ilog10 fuel (n / 10)) in *.
  rewrite (Z.pow_add_r 10 (1 + k) 1), (Z.pow_add_r 10 1 k) by lia. rewrite Z.pow_add_r in Hhi by lia. lia.
Qed.

Lemma tens_spec fuel : forall num den, 0 < num -> den < num * 2 ^ Z.of_nat fuel ->
  let k := tens fuel num den in 0 <= k /\ den <= num * 10 ^ k /\ (num < den -> num * 10 ^ k < den * 10).
Proof.
  induction fuel as [|fuel IH]; intros num den Hn Hd k; subst k; [cbn in *; lia|]. cbn [tens].
  destruct (Z.leb_spec den num); [cbn; lia|]. rewrite Nat2Z.inj_succ, Z.pow_succ_r in Hd by lia.
  destruct (IH (num * 10) den) as (Hk & Hlo & Hhi); [lia|nia|]. rewrite Z.add_1_l, Z.pow_succ_r by done.
  split_and!; [lia|lia|]. intros _. destruct (Z.le_gt_cases den (num * 10)) as [H4|H4]; [|lia].
  destruct fuel; cbn [tens] in *; [cbn in *; lia|]. apply Z.leb_le in H4. rewrite H4 in *. cbn in *. lia.
Qed.

(** Scaled by [10 ^ (17 - x)], the fraction has 18 digits in front of its point. *)
Lemma exponent10_spec num den : 0 < num -> 0 < den ->
  let x := exponent10 num den in
  10 ^ 17 * (den * down 10 (17 - x)) <= num * up 10 (17 - x) < 10 ^ 18 * (den * down 10 (17 - x)).
Proof.
  intros Hn Hd x. subst x. unfold exponent10. destruct (Z.leb_spec den num) as [Hle|Hlt].
  - assert (0 < num / den) as Hq by (pose proof (Z.div_le_lower_bound num den 1); lia).
    destruct (ilog10_spec _ (num / den) (conj Hq (dec_u_bound _ (Z.lt_le_incl _ _ Hq)))) as (Hx & Hlo & Hhi).
    set (x := ilog10 _ _) in *. pose proof (Z.div_mod num den ltac:(lia)). pose proof (Z.mod_pos_bound num den Hd).
    pose proof (up_down 10 x (17 - x) ltac:(lia) Hx ltac:(lia)) as E. replace (x + (17 - x)) with 17 in E by lia.
    rewrite Z.pow_add_r in Hhi by lia. pose proof (up_pos 10 (17 - x) ltac:(lia)).
    assert (10 ^ x * den <= num) by nia. assert (num < 10 ^ x * 10 * den) by nia.
    change (10 ^ 18) with (10 * 10 ^ 17). split; nia.
  - destruct (tens_spec (S (Z.to_nat (Z.log2 den))) num den Hn) as (Hk & Hlo & Hhi).
    { pose proof (dec_u_bound den ltac:(lia)) as H. set (P := 2 ^ _) in *. nia. }
    specialize (Hhi Hlt). set (k := tens _ _ _) in *. unfold up, down.
    rewrite (Z.max_l (17 - - k)), (Z.max_r (- (17 - - k))) by lia.
    replace (17 - - k) with (k + 17) by lia. rewrite Z.pow_add_r by lia. lia.
Qed.

Lemma scientific_bounds m e : 0 < m < 2 ^ 53 ->
  let '(sig, x) := scientific m e in
  10 ^ 17 <= sig < 10 ^ 18 /\
  4 * Z.abs (sig * down 10 (17 - x) * down 2 e - m * up 2 e * up 10 (17 - x)) < up 10 (17 - x) * up 2 e.
Proof.
  intros Hm. unfold scientific. cbv zeta. set (num := m * up 2 e). set (den := down 2 e).
  assert (0 < num) as Hn by (pose proof (up_pos 2 e); nia). assert (0 < den) as Hd by (by apply down_pos).
  pose proof (exponent10_spec num den Hn Hd) as Hx. cbv zeta in Hx. set (x := exponent10 num den) in *.
  pose proof (up_pos 10 (17 - x) ltac:(lia)) as HA. pose proof (down_pos 10 (17 - x) ltac:(lia)) as HB.
  pose proof (div_even_error (num * up 10 (17 - x)) (den * down 10 (17 - x)) ltac:(nia)) as Hs.
  set (sig := div_even _ _) in *. set (A := up 10 (17 - x)) in *. set (B := down 10 (17 - x)) in *.
  assert (4 * Z.abs (sig * B * den - num * A) < A * up 2 e) as Hc.
  { replace (sig * B * den) with (sig * (den * B)) by ring. pose proof (up_pos 2 e ltac:(lia)).
    assert (num * A < 2 ^ 53 * (A * up 2 e)) by (unfold num; nia). lia. }
  assert (10 ^ 17 <= sig <= 10 ^ 18) as Hr by nia.
  destruct (Z.eqb_spec sig (10 ^ 18)) as [E|E]; [|split; [lia|exact Hc]]. split; [lia|].
  rewrite E in Hc. unfold up, down in A, B. destruct (Z.le_gt_cases (17 - x) 0) as [Hx0|Hx0].
  - unfold A, B, up, down in *. rewrite (Z.max_r (17 - x)) in * by lia. rewrite (Z.max_r (17 - (x + 1))) by lia.
    rewrite (Z.max_l (- (17 - x))) in * by lia. rewrite Z.max_l by lia.
    replace (- (17 - (x + 1))) with (- (17 - x) + 1) by lia. rewrite Z.pow_add_r by lia. fold num den in Hc |- *. lia.
  - unfold A, B, up, down in *. rewrite (Z.max_l (17 - x)) in * by lia. rewrite (Z.max_l (17 - (x + 1))) by lia.
    rewrite (Z.max_r (- (17 - x))) in * by lia. rewrite (Z.max_r (- (17 - (x + 1)))) by lia.
    replace (17 - x) with (17 - (x + 1) + 1) in Hc by lia. rewrite (Z.pow_add_r 10 (17 - (x + 1))) in Hc by lia. lia.
Qed.

Lemma scientific_digits m e : 0 < m < 2 ^ 53 -> let '(sig, x) := scientific m e in 0 <= sig < 10 ^ 18.
Proof. intros Hm. pose proof (scientific_bounds m e Hm) as H. destruct (scientific m e). lia. Qed.

(** A finite [double] printed with [%.17e] (any parameter of type SQL_C_DOUBLE): the
    text has eighteen significant digits and is nearer to the value than a quarter of
    the distance to its neighbours, so that a reader that rounds correctly gets the same
    [double] back. *)
Theorem scientific_identifies m e : 0 < m < 2 ^ 53 ->
  let '(sig, x) := scientific m e in
  10 ^ 17 <= sig < 10 ^ 18 /\
  4 * Z.abs (sig * down 10 (17 - x) * down 2 e - m * up 2 e * up 10 (17 - x)) < up 10 (17 - x) * up 2 e.
Proof. apply scientific_bounds. Qed.

Lemma scientific_identifies_witness :
  decode_double 0x3fb999999999999a = Finite false 7205759403792794 (-56) /\
  4 * Z.abs (100000000000000006 * down 10 18 * 2 ^ 56 - 7205759403792794 * 1 * 10 ^ 18) < 10 ^ 18.
Proof.
  split; [by vm_compute|]. pose proof (scientific_identifies 7205759403792794 (-56) ltac:(lia)) as H.
  change (scientific 7205759403792794 (-56)) with (100000000000000006, -1) in H. apply H.
Defined.

(** The text needs no quotes. *)
Lemma signed_word neg t : forallb word_char t = true -> Forall (fun c => c <> $"-") (take 1 t) -> t <> [] -> dashes_single t = true ->
  forallb word_char (signed neg t) = true /\ dashes_single (signed neg t) = true /\ signed neg t <> [].
Proof.
  intros H1 H2 H3 H4. destruct neg; cbn [signed]; [|done]. destruct t as [|c t]; [done|].
  cbn [take] in H2. apply Forall_cons in H2 as [Hc _]. apply Z.eqb_neq in Hc. split_and!; [| |done].
  - change (forallb word_char ($"-" :: c :: t)) with (word_char ($"-") && forallb word_char (c :: t)). by rewrite H1.
  - change (dashes_single ($"-" :: c :: t)) with (negb (c =? $"-") && dashes_single (c :: t)). by rewrite Hc.
Qed.

Lemma exponent_word x : forallb word_char (exponent_text x) = true /\ dashes_single (exponent_text x) = true.
Proof.
  assert (exists d l, (if Z.abs x <? 10 then [$"0"] else []) ++ dec_u (Z.abs x) = d :: l /\ digit_list (d :: l)) as (d & l & E & Hd).
  { destruct (dec_u_cons (Z.abs x) ltac:(lia)) as (c & l & E & Hc). pose proof (dec_u_digits (Z.abs x) ltac:(lia)) as H.
    destruct (Z.abs x <? 10); [|by exists c, l; rewrite <- E]. exists ($"0"), (dec_u (Z.abs x)). split; [done|by constructor]. }
  unfold exponent_text. rewrite E. set (sg := if x <? 0 then $"-" else $"+"). pose proof (digits_word _ Hd) as Hw. pose proof (dashes_single_digits _ Hd) as Hs.
  apply Forall_cons in Hd as [Hd _]. apply isdigit_plain in Hd as (_ & Hd & _). split.
  - change (forallb word_char (sg :: d :: l)) with (word_char sg && forallb word_char (d :: l)).
    rewrite Hw. unfold sg. by destruct (x <? 0).
  - change (dashes_single (sg :: d :: l)) with (negb ((sg =? $"-") && (d =? $"-")) && dashes_single (d :: l)).
    by rewrite Hd, andb_false_r, Hs.
Qed.

Lemma e17_text_word f : (forall neg m e, f = Finite neg m e -> 0 <= m < 2 ^ 53) ->
  forallb word_char (e17_text f) = true /\ dashes_single (e17_text f) = true /\ e17_text f <> [].
Proof.
  intros Hm. destruct f as [neg m e|neg|neg]; [|by destruct neg..]. cbn [e17_text]. specialize (Hm neg m e eq_refl).
  assert (exists sig x, (if m =? 0 then (0, 0) else scientific m e) = (sig, x) /\ 0 <= sig < 10 ^ 18) as (sig & x & -> & Hr).
  { destruct (Z.eqb_spec m 0); [by exists 0, 0|]. pose proof (scientific_digits m e ltac:(lia)) as H.
    destruct (scientific m e) as [sig x]. exists sig, x. split; [done|lia]. }
  assert (0 <= sig / 10 ^ 17 < 10) by (split; [apply Z.div_pos; lia|apply Z.div_lt_upper_bound; lia]).
  assert (isdigit (48 + sig / 10 ^ 17) = true) as Hd by (apply isdigit_range; lia).
  set (d := 48 + sig / 10 ^ 17) in *. destruct (exponent_word x) as [X1 X2].
  pose proof (fixed_digits_digits 17 sig) as H17. set (F := fixed_digits 17 sig) in *.
  assert (d <> $"-") as Hnd by (apply isdigit_range in Hd; cbn; lia).
  apply signed_word; [| |done|].
  - cbn [forallb]. rewrite forallb_app. cbn [forallb]. rewrite (digits_word F H17), X1. unfold word_char at 1. rewrite Hd. done.
  - cbn [take]. by constructor.
  - replace (d :: $"." :: F ++ $"e" :: exponent_text x) with ((d :: $"." :: F ++ [$"e"]) ++ exponent_text x)
      by (cbn [app]; by rewrite <- app_assoc).
    rewrite dashes_single_app; [done|]. constructor; [done|]. constructor; [by vm_compute|]. apply Forall_app.
    split; [by apply digits_no_dash|]. constructor; [by vm_compute|constructor].
Qed.

(** *** What is in the buffer *)

Lemma div_even_nonneg a b : 0 <= a -> 0 < b -> 0 <= div_even a b.
Proof. intros Ha Hb. pose proof (Z.div_pos a b Ha Hb). unfold div_even. cbv zeta. repeat case_match; lia. Qed.

Lemma fixed_text_word n m e : 0 <= m -> forallb word_char (fixed_text n m e) = true.
Proof.
  intros Hm. unfold fixed_text. cbv zeta. set (N := div_even _ _).
  assert (0 <= N) as HN.
  { apply div_even_nonneg; [|apply down_pos; lia]. pose proof (up_pos 2 e ltac:(lia)).
    pose proof (Z.pow_pos_nonneg 10 (Z.of_nat n) ltac:(lia) ltac:(lia)). nia. }
  rewrite forallb_app. cbn [forallb]. rewrite (digits_word (fixed_digits n N)) by apply fixed_digits_digits.
  rewrite digits_word by (apply dec_u_digits, Z.div_pos; [done|]; apply Z.pow_pos_nonneg; lia). done.
Qed.

Lemma round53_nonneg a b : 0 < a -> 0 < b -> 0 <= (round53 a b).1.
Proof.
  intros Ha Hb. unfold round53. cbv zeta. cbn [fst]. set (e := if _ : bool then _ else _).
  pose proof (up_pos 2 e ltac:(lia)). pose proof (down_pos 2 e ltac:(lia)). apply div_even_nonneg; nia.
Qed.

Lemma numeric_text_word N S s : 0 <= S -> forallb word_char (numeric_text N S s) = true.
Proof.
  intros HS. unfold numeric_text. destruct (0 <? s); [|apply dec_word].
  assert (forall l k, forallb word_char l = true -> forallb word_char (take k l) = true) as Ht.
  { intros l k. rewrite !forallb_forall. intros H x Hx. apply H. rewrite <- (take_drop k l). apply in_or_app. by left. }
  apply Ht. set (t := let '(m, e) := _ in _).
  assert (forallb word_char t = true) as E; [|destruct (N <? 0); cbn [signed forallb]; by rewrite E].
  subst t. unfold double_of_int. assert (forall m e, 0 <= m -> forallb word_char
    (let '(q, x) := if m =? 0 then (0, 0) else round53 (m * up 2 e) (10 ^ S * down 2 e) in fixed_text (Z.to_nat s) q x) = true) as H.
  { intros m e Hm. destruct (Z.eqb_spec m 0); [by apply fixed_text_word|].
    pose proof (round53_nonneg (m * up 2 e) (10 ^ S * down 2 e)) as Hr. destruct (round53 _ _) as [q x]. apply fixed_text_word, Hr.
    - pose proof (up_pos 2 e ltac:(lia)). nia.
    - pose proof (down_pos 2 e ltac:(lia)). pose proof (Z.pow_pos_nonneg 10 S ltac:(lia) HS). nia. }
  destruct (Z.abs N <? 2 ^ 53) eqn:E53; [apply H; lia|]. apply Z.ltb_ge in E53.
  pose proof (round53_nonneg (Z.abs N) 1 ltac:(lia) ltac:(lia)). destruct (round53 (Z.abs N) 1) as [m e]. by apply H.
Qed.

Section Bytes.
Context (P : Z -> Prop) (HP0 : P 0) (HP48 : P ($"0")).

Lemma put_all b i c b' : Forall P b -> P c -> put b i c = Some b' -> Forall P b'.
Proof using All. unfold put. case_match; intros Hb Hc H'; simplify_eq. by apply Forall_insert. Qed.

Lemma pad_zeros_all fuel : forall b p n b', Forall P b -> pad_zeros fuel b p n = Some b' -> Forall P b'.
Proof using All.
  induction fuel as [|fuel IH]; intros b p n b' Hb; cbn [pad_zeros]; [done|]. cbv zeta.
  destruct (_ <? n); [|by intros [= <-]]. destruct (put b _ _) as [b1|] eqn:E1; [|done]. cbn.
  destruct (put b1 _ _) as [b2|] eqn:E2; [|done]. cbn. apply IH. eapply put_all; [|exact HP0|exact E2]. eapply put_all; [exact Hb|exact HP48|exact E1].
Qed.

Lemma numeric_checks_all size n S left b p code b' : Forall P b -> numeric_checks size n S left b p = Some (code, b') -> Forall P b'.
Proof using All.
  intros Hb. unfold numeric_checks. cbv zeta.
  assert (forall o, (forall b1, o = Some b1 -> Forall P b1) ->
    (b1 ← o; Some (if (wrapu 8 (precision n) + S <? Z.of_nat (strlen b1 p)) && (0 <? scale n) then MADB_ERR_01S07 else 0%nat, b1)) = Some (code, b') ->
    Forall P b') as Hn.
  { intros [b1|] Ho; cbn; [|done]. intros [= _ <-]. by apply Ho. }
  assert (forall b1, (if scale n <? 0 then pad_zeros (Datatypes.S size) b p (wrapu 8 (precision n) - scale n) else Some b) = Some b1 -> Forall P b1) as Hpad.
  { intros b1. case_match; [by apply pad_zeros_all|by intros [= <-]]. }
  repeat case_match; try (by apply Hn, Hpad).
  all: match goal with |- (x ← put ?b ?i ?c; _) = _ -> _ => destruct (put b i c) eqn:E; [|done] end; cbn; intros [= _ <-]; eapply put_all; [exact Hb|exact HP0|exact E].
Qed.

Lemma MADB_ConvertNumericToChar_all junk size n code len b : P junk -> (forall c, word_char c = true -> P c) ->
  MADB_ConvertNumericToChar junk size n = Some (code, len, b) -> Forall P b.
Proof using All.
  intros Hj Hw. unfold MADB_ConvertNumericToChar. cbv zeta. destruct (18 <? Z.abs (scale n)); [done|].
  set (N := if sign n =? 0 then _ else _). set (t := numeric_text _ _ _).
  assert (Forall P (t ++ [0])) as Ht.
  { apply Forall_app. split; [|constructor; [done|constructor]]. apply Forall_forall. intros c Hc. apply Hw.
    pose proof (numeric_text_word N (Z.abs (scale n)) (scale n) ltac:(lia)) as H. rewrite forallb_forall in H. by apply H, list_elem_of_In. }
  unfold DynString.memcpy. destruct ((0 <=? 0) && _); [|done]. cbn [mbind option_bind].
  assert (Forall P (blit (replicate size junk) (Z.to_nat 0) (t ++ [0]))) as Hb0.
  { unfold blit. apply Forall_app; split; [by apply Forall_take, Forall_replicate|].
    apply Forall_app; split; [by apply Forall_take|by apply Forall_drop, Forall_replicate]. }
  set (b0 := blit _ _ _) in *. destruct (if 0 <? scale n then _ else _) as [b1|] eqn:E1; [|done]. cbn [mbind option_bind].
  assert (Forall P b1) as Hb1 by (destruct (0 <? scale n); [by simplify_eq|by eapply pad_zeros_all]).
  destruct (numeric_checks _ _ _ _ _ _) as [[cd b2]|] eqn:E2; [|done]. cbn [mbind option_bind]. apply numeric_checks_all in E2; [|done].
  set (p := if rd b1 0 =? _ then _ else _). destruct (if _ && _ then put _ _ _ else _) as [b3|] eqn:E3; [|done]. cbn [mbind option_bind].
  assert (Forall P b3) as Hb3 by (destruct (_ && _); [eapply put_all; [exact E2|exact HP0|exact E3]|by simplify_eq]).
  destruct (sign n =? 0); [destruct p; [done|]|]; intros [= _ _ <-]; done.
Qed.

End Bytes.

End FloatTextProps.
