(* ===== verification/ParamText.v ===== *)
(** * ParamText: what inserting literals does to the structure of a query

    A query is cut into comments, quoted strings and single characters the way the
    tokenizer of [ma_parse.c] scans it.  The theorem: replacing the parameter markers
    by literals replaces exactly these characters by whole pieces and leaves every
    other piece as it was, whatever the literals hold.  Params.v applies it to the text
    [MADB_InsertParams] builds. *)

From Stdlib Require Import ZArith Lia.
From stdpp Require Import base strings numbers option list.
From S2P Require Import Prelude Decimal Parse.
Import Tokenizer ParseProps.

Inductive piece := Comment (l : list Z) | Quoted (l : list Z) | Char (c : Z).

Definition piece_text (p : piece) : list Z := match p with Comment l | Quoted l => l | Char c => [c] end.
Definition text_of_pieces (ps : list piece) : list Z := concat (piece_text <$> ps).

Fixpoint pieces (fuel : nat) (l : list Z) : list piece :=
  match fuel, l with
  | S n, c :: l' =>
      if (0 <? comment_len l)%nat then Comment (take (comment_len l) l) :: pieces n (drop (comment_len l) l)
      else if is_quote c then Quoted (c :: take (quoted_len c l') l') :: pieces n (drop (quoted_len c l') l')
      else Char c :: pieces n l'
  | _, _ => []
  end.

(** Every quoted string of the text has its closing quote. *)
Fixpoint quotes_closed (fuel : nat) (l : list Z) : bool :=
  match fuel, l with
  | S n, c :: l' =>
      if (0 <? comment_len l)%nat then quotes_closed n (drop (comment_len l) l)
      else if is_quote c then
        match closing (negb (c =? $"`")) c l' with Some k => quotes_closed n (drop (S k) l') | None => false end
      else quotes_closed n l'
  | _, _ => true
  end.

(** The markers replaced, in order; a marker without a literal stays. *)
Fixpoint replace (ps : list piece) (lits : list (list Z)) : list piece :=
  match ps with
  | [] => []
  | Char c :: ps' =>
      if c =? $"?" then
        match lits with
        | lit :: lits' => pieces (length lit) lit ++ replace ps' lits'
        | [] => Char c :: replace ps' []
        end
      else Char c :: replace ps' lits
  | p :: ps' => p :: replace ps' lits
  end.

(** The literals the driver writes: a quoted string that ends at its last character in
    front of any text, or a word of letters, digits, points and signs. *)
Inductive literal : list Z -> Prop :=
| quoted_literal esc : (forall rest, closing true ($"'") (esc ++ $"'" :: rest) = Some (length esc)) ->
    literal ($"'" :: esc ++ [$"'"])
| word_literal l : l <> [] -> forallb word_char l = true -> dashes_single l = true -> literal l.

(** No two dashes come together by the replacement. *)
Fixpoint dashes_apart (prev : bool) (ps : list piece) (lits : list (list Z)) : bool :=
  match ps with
  | [] => true
  | Char c :: ps' =>
      if c =? $"?" then
        match lits with
        | lit :: lits' => negb (prev && starts_with (chars "-") lit) && dashes_apart false ps' lits'
        | [] => true
        end
      else dashes_apart (c =? $"-") ps' lits
  | _ :: ps' => dashes_apart false ps' lits
  end.

Definition marker (p : piece) : bool := match p with Char c => c =? $"?" | _ => false end.

(** The text with literals at the given offsets, from [from] on. *)
Fixpoint fill (C : list Z) (from : nat) (ps : list nat) (lits : list (list Z)) : list Z :=
  match ps, lits with
  | p :: ps', lit :: lits' => take (p - from) (drop from C) ++ lit ++ fill C (S p) ps' lits'
  | _, _ => drop from C
  end.

(** Offsets in order, inside a text of [len] characters. *)
Fixpoint offsets_ok (from : nat) (ps : list nat) (len : nat) : Prop :=
  match ps with [] => (from <= len)%nat | p :: ps' => (from <= p)%nat /\ offsets_ok (S p) ps' len end.

Module ParamTextProps.

Lemma quoted_len_le c l : (quoted_len c l <= length l)%nat \/ l = [].
Proof.
  unfold quoted_len. destruct (closing _ _ _) eqn:E; [left; apply closing_lt in E; lia|].
  destruct l; [by right|left; cbn; lia].
Qed.

Lemma pieces_fuel n : forall m l, (length l <= n)%nat -> (length l <= m)%nat -> pieces n l = pieces m l.
Proof.
  induction n as [|n IH]; intros [|m] [|c l] Hn Hm; try done; try (cbn in *; lia).
  cbn [pieces]. cbn [length] in *. destruct (Nat.ltb_spec 0 (comment_len (c :: l))).
  - f_equal. apply IH; rewrite length_drop; cbn [length]; lia.
  - rewrite (IH m l) by lia. rewrite (IH m (drop (quoted_len c l) l)) by (rewrite length_drop; lia). done.
Qed.

(** *** What a comment or a quoted string needs of the text behind it *)

Lemma strchr_take_app l r c k : strchr l c = Some k -> strchr (take (S k) l ++ r) c = Some k.
Proof.
  revert k. induction l as [|x l IH]; intros k; [done|]. cbn [strchr]. destruct (x =? c) eqn:E.
  - intros [= <-]. cbn. by rewrite E.
  - destruct (strchr l c) as [j|] eqn:Ej; [|done]. intros [= <-]. cbn [take app strchr]. rewrite E, (IH j) by done. done.
Qed.

Lemma starts_with_take pre : forall l n r, (length pre <= n)%nat -> (n <= length l)%nat ->
  starts_with pre (take n l ++ r) = starts_with pre l.
Proof.
  induction pre as [|c pre IH]; intros [|x l] [|n] r Hn Hl; cbn [length] in *; try done; try lia.
  cbn [take app starts_with]. by rewrite IH by lia.
Qed.

Lemma strstr_app l pat r : forall k, strstr l pat = Some k -> strstr (take (k + length pat) l ++ r) pat = Some k.
Proof.
  induction l as [|x l IH]; intros k Hk.
  - pose proof (strstr_lt _ _ _ Hk) as H. cbn [length] in H. destruct pat; [|cbn in H; lia]. cbn in Hk. injection Hk as <-.
    by destruct r.
  - pose proof (strstr_lt _ _ _ Hk) as H. cbn [strstr] in Hk. destruct (starts_with pat (x :: l)) eqn:E.
    + injection Hk as <-. cbn [Nat.add]. rewrite <- (starts_with_take pat (x :: l) (length pat) r) in E by (cbn [length] in *; lia).
      by destruct (take (length pat) (x :: l) ++ r); cbn [strstr]; rewrite E.
    + destruct (strstr l pat) as [j|] eqn:Ej; [|done]. injection Hk as <-.
      rewrite <- (starts_with_take pat (x :: l) (S j + length pat) r) in E by (cbn [length] in *; lia).
      cbn [Nat.add take app strstr] in *. rewrite E, (IH j) by done. done.
Qed.

Lemma closing_app esc q l r : forall k, closing esc q l = Some k -> closing esc q (take (S k) l ++ r) = Some k.
Proof.
  revert l. fix IH 1. intros [|c l] k; [done|]. cbn [closing]. destruct (c =? q) eqn:E.
  - intros [= <-]. cbn. by rewrite E.
  - destruct (esc && (c =? 92)) eqn:Eb.
    + destruct l as [|d l]; [done|]. destruct (closing esc q l) as [j|] eqn:Ej; [|done]. intros [= <-].
      replace (j + 2)%nat with (S (S j)) by lia. cbn [take app closing]. rewrite E, Eb, (IH l j) by done. cbn. f_equal. lia.
    + destruct (closing esc q l) as [j|] eqn:Ej; [|done]. intros [= <-]. cbn [take app closing].
      rewrite E, Eb, (IH l j) by done. done.
Qed.

(** A comment stays what it is in front of other text, unless it goes to the end. *)
Lemma comment_len_app l r : (0 < comment_len l)%nat -> (drop (comment_len l) l = [] -> r = []) ->
  comment_len (take (comment_len l) l ++ r) = comment_len l.
Proof.
  intros Hk Hr. destruct (decide (comment_len l = length l)) as [E|E].
  { rewrite E, take_ge, Hr, app_nil_r by (rewrite ?E, ?drop_ge; done). done. }
  pose proof (comment_len_le l) as Hle. clear Hr. revert Hk E Hle. unfold comment_len.
  destruct (starts_with (chars "--") l) eqn:E1.
  { intros Hk E Hle; destruct (strchr (drop 2 l) 10) as [i|] eqn:Ei; cbn [fmap option_fmap option_map default from_option id] in *; [|done].
    rewrite starts_with_take, E1 by (cbn; lia). destruct l as [|x [|y l]]; try done. replace (i + 3)%nat with (S (S (S i))) by lia.
    cbn [take app drop] in *. rewrite (drop_0 l) in Ei. rewrite drop_0, (strchr_take_app l r 10 i) by done. cbn. lia. }
  destruct (starts_with (chars "#") l) eqn:E2.
  { intros Hk E Hle; destruct (strchr (drop 1 l) 10) as [i|] eqn:Ei; cbn [fmap option_fmap option_map default from_option id] in *; [|done].
    rewrite (starts_with_take (chars "#")), E2 by (cbn; lia). rewrite (starts_with_take (chars "--")), E1 by (cbn; lia).
    destruct l as [|x l]; [done|]. replace (i + 2)%nat with (S (S i)) by lia.
    cbn [take app drop] in *. rewrite (drop_0 l) in Ei. rewrite drop_0, (strchr_take_app l r 10 i) by done. cbn. lia. }
  destruct (starts_with (chars "/*") l) eqn:E3; [|intros; lia].
  intros Hk E Hle. destruct (strstr (drop 2 l) (chars "*/")) as [i|] eqn:Ei; cbn [fmap option_fmap option_map default from_option id] in *; [|done].
  rewrite (starts_with_take (chars "#")), E2 by (cbn; lia). rewrite (starts_with_take (chars "--")), E1 by (cbn; lia).
  rewrite (starts_with_take (chars "/*")), E3 by (cbn; lia).
  destruct l as [|x [|y l]]; try done. replace (i + 4)%nat with (S (S (i + 2))) by lia.
  cbn [take app drop] in *. rewrite (drop_0 l) in Ei. pose proof (strstr_app l (chars "*/") r i Ei) as Hs.
  change (length (chars "*/")) with 2%nat in Hs. rewrite drop_0, Hs. cbn. lia.
Qed.

(** No comment starts at a character that is followed by what followed it before, or by
    nothing that makes one. *)
Definition opens (c d : Z) : bool := ((c =? $"-") && (d =? $"-")) || ((c =? $"/") && (d =? $"*")).

Lemma comment_len_zero c l :
  comment_len (c :: l) = 0%nat <-> c <> $"#" /\ forall d, head l = Some d -> opens c d = false.
Proof.
  assert (forall x y, starts_with [x; y] (c :: l) = (x =? c) && match l with d :: _ => y =? d | [] => false end) as H2.
  { intros x y. cbn. destruct l as [|d l]; cbn; [done|]. by rewrite andb_true_r. }
  assert (starts_with (chars "#") (c :: l) = (c =? $"#")) as H1 by (cbn; rewrite andb_true_r; apply Z.eqb_sym).
  unfold comment_len. change (chars "--") with [$"-"; $"-"]. change (chars "/*") with [$"/"; $"*"]. rewrite !H2, H1.
  split.
  - intros H. assert (c <> $"#" /\ (($"-" =? c) && match l with d :: _ => $"-" =? d | [] => false end) = false /\
      (($"/" =? c) && match l with d :: _ => $"*" =? d | [] => false end) = false) as (Hc & Ha & Hb).
    { destruct (_ && match l with d :: _ => $"-" =? d | [] => false end) eqn:Ea.
      { destruct (strchr _ _); cbn in H; lia. }
      destruct (Z.eqb_spec c ($"#")) as [->|]; [destruct (strchr _ _); cbn in H; lia|].
      split_and!; [done..|]. destruct (($"/" =? c) && match l with d :: _ => $"*" =? d | [] => false end) eqn:Eb; [|done].
      destruct (strstr _ _); cbn in H; lia. }
    split; [done|]. intros d Hd. destruct l as [|d' l]; [done|]. injection Hd as ->. unfold opens.
    rewrite (Z.eqb_sym c), (Z.eqb_sym d), Ha, (Z.eqb_sym c ($"/")), (Z.eqb_sym d ($"*")), Hb. done.
  - intros [Hc Hd]. destruct (Z.eqb_spec c ($"#")) as [|_]; [done|]. destruct l as [|d l]; [by rewrite !andb_false_r|].
    specialize (Hd d eq_refl). unfold opens in Hd. apply orb_false_iff in Hd as [Ha Hb].
    rewrite (Z.eqb_sym _ c), (Z.eqb_sym _ d), Ha, (Z.eqb_sym _ c), (Z.eqb_sym _ d), Hb. done.
Qed.

(** *** Pieces and their text *)

Lemma text_of_pieces_cons p ps : text_of_pieces (p :: ps) = piece_text p ++ text_of_pieces ps.
Proof. done. Qed.
Lemma text_of_pieces_app ps qs : text_of_pieces (ps ++ qs) = text_of_pieces ps ++ text_of_pieces qs.
Proof. unfold text_of_pieces. by rewrite fmap_app, concat_app. Qed.

Lemma text_pieces n : forall l, (length l <= n)%nat -> text_of_pieces (pieces n l) = l.
Proof.
  induction n as [|n IH]; intros [|c l] Hl; cbn [length] in Hl; try done; [lia|]. cbn [pieces].
  destruct (Nat.ltb_spec 0 (comment_len (c :: l))).
  - rewrite text_of_pieces_cons, IH by (rewrite length_drop; cbn [length]; lia). apply take_drop.
  - case_match; rewrite text_of_pieces_cons, IH by (rewrite ?length_drop; lia); [|done].
    cbn [piece_text app]. by rewrite take_drop.
Qed.

Lemma comment_len_plain_head c l : c <> $"-" -> c <> $"#" -> c <> $"/" -> comment_len (c :: l) = 0%nat.
Proof.
  intros H1 H2 H3. apply comment_len_zero. split; [done|]. intros d _. unfold opens.
  apply Z.eqb_neq in H1, H3. by rewrite H1, H3.
Qed.

Lemma is_quote_plain c : is_quote c = true -> c <> $"-" /\ c <> $"#" /\ c <> $"/" /\ c <> $"?".
Proof.
  unfold is_quote. intros H. apply orb_true_iff in H as [H|H]; [apply orb_true_iff in H as [H|H]|];
    apply Z.eqb_eq in H; subst c; split_and!; by vm_compute.
Qed.

Lemma literal_head lit : literal lit -> exists c l, lit = c :: l /\ c <> $"*".
Proof.
  intros [esc _|[|c l] Hne Hw _]; [by eexists _, _|done|]. exists c, l. split; [done|].
  cbn in Hw. apply andb_true_iff in Hw as [Hw _]. intros ->. by vm_compute in Hw.
Qed.

(** The first character of the text with its markers replaced. *)
Lemma replace_head n c l lits : Forall literal lits -> (length l < n)%nat ->
  head (text_of_pieces (replace (pieces n (c :: l)) lits)) =
    match lits with
    | lit :: _ => if c =? $"?" then head lit else Some c
    | [] => Some c
    end.
Proof.
  intros HF Hn. destruct n as [|n]; [lia|]. cbn [pieces]. destruct (Nat.ltb_spec 0 (comment_len (c :: l))) as [Hc|Hc].
  - assert (c =? $"?" = false) as E.
    { apply Z.eqb_neq. intros ->. rewrite comment_len_plain_head in Hc; [lia|by vm_compute..]. }
    cbn [replace]. rewrite text_of_pieces_cons. cbn [piece_text]. destruct (comment_len (c :: l)); [lia|].
    rewrite E. by destruct lits.
  - destruct (is_quote c) eqn:Eq.
    + apply is_quote_plain in Eq as (_ & _ & _ & E). apply Z.eqb_neq in E. rewrite E. by destruct lits.
    + cbn [replace]. destruct (c =? $"?") eqn:E; [|by destruct lits]. destruct lits as [|lit lits]; [done|].
      apply Forall_cons in HF as [Hlit _]. rewrite text_of_pieces_app, text_pieces by done.
      apply literal_head in Hlit as (d & l' & -> & _). done.
Qed.

(** *** A literal in front of other text *)

Lemma word_char_plain c : word_char c = true -> c <> $"#" /\ c <> $"/" /\ c <> $"?" /\ is_quote c = false.
Proof.
  intros H. unfold word_char, isdigit, isalpha, isupper, islower, is_quote in *.
  assert (c <> $"#" /\ c <> $"/" /\ c <> $"?" /\ c <> 34 /\ c <> $"'" /\ c <> $"`") as H0.
  { split_and!; intros ->; by vm_compute in H. }
  destruct H0 as (? & ? & ? & H1 & H2 & H3). apply Z.eqb_neq in H1, H2, H3. rewrite H1, H2, H3. done.
Qed.

Lemma pieces_word l r : forall m m', forallb word_char l = true -> dashes_single l = true ->
  (length l <= m')%nat -> (length (l ++ r) <= m)%nat -> pieces m (l ++ r) = pieces m' l ++ pieces m r.
Proof.
  induction l as [|c l IH]; intros m m' Hw Hd Hm' Hm; [by destruct m'|].
  cbn [forallb dashes_single] in *. apply andb_true_iff in Hw as [Hc Hw]. apply andb_true_iff in Hd as [Hd1 Hd].
  apply word_char_plain in Hc as (H1 & H2 & _ & H3).
  assert (forall k, (head (l ++ k) = head l \/ l = []) -> comment_len (c :: l ++ k) = 0%nat) as Hz.
  { intros k Hk. apply comment_len_zero. split; [done|]. intros d Hh. unfold opens.
    replace (c =? $"/") with false by (symmetry; by apply Z.eqb_neq). rewrite orb_false_r.
    destruct l as [|e l]; [by destruct (c =? $"-")|]. cbn in Hh. injection Hh as ->. by destruct (c =? $"-"), (d =? $"-"). }
  destruct m as [|m]; [cbn in Hm; lia|]. destruct m' as [|m']; [cbn in Hm'; lia|].
  rewrite (pieces_fuel (S m) m r) by (cbn [length app] in Hm; rewrite length_app in Hm; lia).
  cbn [app pieces]. rewrite (Hz r) by (destruct l; auto). pose proof (Hz [] ltac:(rewrite app_nil_r; auto)) as Hz0.
  rewrite app_nil_r in Hz0. rewrite Hz0, H3. cbn [Nat.ltb Nat.leb app]. f_equal.
  rewrite (IH m m') by (cbn [length app] in *; auto; lia). done.
Qed.

Lemma pieces_quoted esc r m : (forall rest, closing true ($"'") (esc ++ $"'" :: rest) = Some (length esc)) ->
  (length ($"'" :: esc ++ [$"'"]) + length r <= m)%nat ->
  pieces m (($"'" :: esc ++ [$"'"]) ++ r) = Quoted ($"'" :: esc ++ [$"'"]) :: pieces m r.
Proof.
  intros Hc Hm. destruct m as [|m]; [cbn in Hm; lia|].
  rewrite (pieces_fuel (S m) m r) by (cbn [length] in Hm; lia). cbn [app pieces].
  rewrite comment_len_plain_head by (by vm_compute). change (is_quote ($"'")) with true. cbn [Nat.ltb Nat.leb].
  unfold quoted_len. change (negb ($"'" =? $"`")) with true. rewrite <- app_assoc. cbn [app]. rewrite Hc.
  replace (S (length esc)) with (length (esc ++ [$"'"])) by (rewrite length_app; cbn; lia).
  replace (esc ++ $"'" :: r) with ((esc ++ [$"'"]) ++ r) by (by rewrite <- app_assoc).
  by rewrite take_app_length, drop_app_length.
Qed.

Lemma pieces_literal lit r m : literal lit -> (length lit + length r <= m)%nat ->
  pieces m (lit ++ r) = pieces (length lit) lit ++ pieces m r.
Proof.
  intros [esc Hc|l _ Hw Hd] Hm; [|by apply pieces_word; rewrite ?length_app].
  rewrite pieces_quoted by done. rewrite <- (app_nil_r ($"'" :: esc ++ [$"'"])) at 3.
  rewrite (pieces_quoted esc [] (length _)) by (cbn [length]; try done; lia). by destruct (length _).
Qed.

(** *** Replacing *)

Lemma dashes_apart_nil ps : forall prev, dashes_apart prev ps [] = true.
Proof. induction ps as [|[] ps IH]; intros prev; cbn [dashes_apart]; auto. by case_match. Qed.

(** A character stays a character in front of the replaced rest. *)
Lemma char_stays n c l lits : Forall literal lits -> (length l <= n)%nat -> comment_len (c :: l) = 0%nat ->
  dashes_apart (c =? $"-") (pieces n l) lits = true ->
  comment_len (c :: text_of_pieces (replace (pieces n l) lits)) = 0%nat.
Proof.
  intros HF Hn Hc Hd. apply comment_len_zero in Hc as [Hc Ho]. apply comment_len_zero. split; [done|].
  intros d Hh. destruct l as [|e l]; [by destruct n|]. destruct n as [|n]; [cbn in Hn; lia|].
  rewrite replace_head in Hh by (try done; cbn in Hn; lia). specialize (Ho e eq_refl).
  destruct lits as [|lit lits]; [congruence|]. destruct (Z.eqb_spec e ($"?")) as [->|]; [|congruence].
  cbn [pieces] in Hd. rewrite comment_len_plain_head in Hd by (by vm_compute). change (is_quote ($"?")) with false in Hd.
  cbn [Nat.ltb Nat.leb dashes_apart] in Hd. rewrite Z.eqb_refl in Hd. apply andb_true_iff in Hd as [Hd _].
  apply Forall_cons in HF as [Hlit _]. apply literal_head in Hlit as (e & l' & -> & He). injection Hh as ->.
  change (starts_with (chars "-") (d :: l')) with (($"-" =? d) && true) in Hd. rewrite andb_true_r, (Z.eqb_sym ($"-")) in Hd.
  unfold opens. apply Z.eqb_neq in He. rewrite He, andb_false_r, orb_false_r. by apply negb_true_iff.
Qed.

Lemma replaced_pieces n : forall l lits prev m, (length l <= n)%nat -> quotes_closed n l = true -> Forall literal lits ->
  dashes_apart prev (pieces n l) lits = true ->
  (length (text_of_pieces (replace (pieces n l) lits)) <= m)%nat ->
  pieces m (text_of_pieces (replace (pieces n l) lits)) = replace (pieces n l) lits.
Proof.
  induction n as [|n IH]; intros [|c l] lits prev m Hn Hq HF Hd Hm; cbn [length] in Hn; try (by destruct m).
  cbn [pieces quotes_closed] in *. destruct (Nat.ltb_spec 0 (comment_len (c :: l))) as [Hc|Hc].
  - set (k := comment_len (c :: l)) in *. cbn [replace dashes_apart] in *. rewrite text_of_pieces_cons in *. cbn [piece_text] in *.
    set (r := text_of_pieces (replace (pieces n (drop k (c :: l))) lits)) in *.
    assert (comment_len (take k (c :: l) ++ r) = k) as Ek.
    { apply comment_len_app; [done|]. intros E. subst r. fold k in E. rewrite E. by destruct n. }
    assert (length (take k (c :: l)) = k) as El by (rewrite length_take; pose proof (comment_len_le (c :: l)); lia).
    rewrite length_app, El in Hm. destruct m as [|m]; [lia|].
    assert (exists x y, take k (c :: l) ++ r = x :: y) as (x & y & Ex) by (destruct k; [lia|]; cbn; eauto).
    rewrite Ex in *. cbn [pieces]. rewrite Ek. destruct (Nat.ltb_spec 0 k); [|lia]. rewrite <- Ex.
    rewrite take_app_length', drop_app_length' by done. f_equal.
      apply (IH _ _ false); try done; fold r; [rewrite length_drop; cbn [length]|]; lia.
  - assert (comment_len (c :: l) = 0%nat) as Hc0 by lia. destruct (is_quote c) eqn:Eq.
    + unfold quoted_len in *. destruct (closing (negb (c =? $"`")) c l) as [j|] eqn:Ej; [|done].
      cbn [replace dashes_apart] in *. rewrite text_of_pieces_cons in *. cbn [piece_text app] in *.
      set (r := text_of_pieces _) in *. destruct m as [|m]; [cbn in Hm; lia|]. cbn [pieces].
      apply is_quote_plain in Eq as Hp. rewrite comment_len_plain_head by apply Hp. rewrite Eq. cbn [Nat.ltb Nat.leb].
      unfold quoted_len. rewrite (closing_app _ c l r j Ej). pose proof (closing_lt _ _ _ _ Ej).
      assert (length (take (S j) l) = S j) as El by (rewrite length_take; lia).
      rewrite take_app_length', drop_app_length' by done. cbn [length] in Hm. rewrite length_app, El in Hm.
      f_equal.
      apply (IH _ _ false); try done; fold r; [rewrite length_drop; cbn [length]|]; lia.
    + cbn [replace dashes_apart] in *. destruct (c =? $"?") eqn:Em.
      * apply Z.eqb_eq in Em as ->. destruct lits as [|lit lits].
        -- rewrite text_of_pieces_cons in *. cbn [piece_text app length] in *. destruct m as [|m]; [lia|]. cbn [pieces].
           rewrite comment_len_plain_head by (by vm_compute). rewrite Eq. cbn [Nat.ltb Nat.leb].
           f_equal. apply (IH _ _ true); try done; try lia. apply dashes_apart_nil.
        -- apply Forall_cons in HF as [Hl HF]. apply andb_true_iff in Hd as [_ Hd].
           rewrite text_of_pieces_app, text_pieces in * by done. rewrite length_app in Hm.
           rewrite pieces_literal by done. f_equal. apply (IH _ _ false); try done; lia.
      * rewrite text_of_pieces_cons in *. cbn [piece_text app length] in *. destruct m as [|m]; [lia|]. cbn [pieces].
        rewrite char_stays by (try done; lia). rewrite Eq. cbn [Nat.ltb Nat.leb]. f_equal.
        apply (IH _ _ (c =? $"-")); try done; lia.
Qed.

(** *** Replacing by offset *)

Lemma placeholders_ge n : forall pos l p, p ∈ placeholders n pos l -> (pos <= p)%nat.
Proof.
  induction n as [|n IH]; intros pos [|c l] p; cbn [placeholders]; try (by rewrite elem_of_nil).
  destruct (Nat.ltb_spec 0 (comment_len (c :: l))); [intros H1%IH; lia|].
  destruct (is_quote c); [intros H1%IH; lia|]. destruct (c =? $"?"); [|intros H1%IH; lia].
  rewrite elem_of_cons. intros [->|H1%IH]; lia.
Qed.

Lemma fill_skip C from k ps lits : (forall p, head ps = Some p -> from + k <= p)%nat ->
  fill C from ps lits = take k (drop from C) ++ fill C (from + k) ps lits.
Proof.
  intros H. assert (drop from C = take k (drop from C) ++ drop (from + k) C) as E by (rewrite <- drop_drop; by rewrite take_drop).
  destruct ps as [|p ps]; [done|]. destruct lits as [|lit lits]; [done|]. cbn [fill]. specialize (H p eq_refl).
  rewrite (app_assoc (take k _)). f_equal. rewrite <- drop_drop. replace (p - from)%nat with (k + (p - (from + k)))%nat by lia.
  by rewrite take_take_drop.
Qed.

Lemma fill_placeholders C n : forall pos lits, (length (drop pos C) <= n)%nat ->
  fill C pos (placeholders n pos (drop pos C)) lits = text_of_pieces (replace (pieces n (drop pos C)) lits).
Proof.
  induction n as [|n IH]; intros pos lits Hn; destruct (drop pos C) as [|c l] eqn:E; cbn [length] in Hn; try lia; try done.
  assert (forall k, drop k l = drop (pos + S k) C) as Ed by (intros k; by rewrite <- drop_drop, E).
  pose proof (Ed 0%nat) as Ed0. rewrite drop_0, Nat.add_1_r in Ed0.
  assert (forall k ps, (forall p, p ∈ ps -> (pos + k <= p)%nat) ->
    fill C pos ps lits = take k (c :: l) ++ fill C (pos + k) ps lits) as Hs.
  { intros k ps Hp. rewrite <- E. apply fill_skip. intros p Hh. apply Hp. destruct ps; [done|]. injection Hh as ->. left. }
  cbn [placeholders pieces]. destruct (Nat.ltb_spec 0 (comment_len (c :: l))) as [Hc|Hc].
  - destruct (comment_len (c :: l)) as [|k] eqn:Ek; [lia|]. rewrite (Hs (S k)) by (intros p; apply placeholders_ge).
    cbn [drop]. rewrite Ed. rewrite IH by (rewrite <- Ed, length_drop; lia). done.
  - destruct (is_quote c).
    + rewrite (Hs (S (quoted_len c l))) by (intros p Hp; apply placeholders_ge in Hp; lia).
      rewrite Ed. replace (S pos + quoted_len c l)%nat with (pos + S (quoted_len c l))%nat by lia.
      rewrite IH by (rewrite <- Ed, length_drop; lia). done.
    + cbn [replace]. destruct (c =? $"?").
      * destruct lits as [|lit lits]; cbn [fill].
        -- rewrite E, text_of_pieces_cons, Ed0, <- (IH (S pos) []) by (rewrite <- Ed0; lia). by destruct (placeholders _ _ _).
        -- rewrite Nat.sub_diag, take_0, text_of_pieces_app, text_pieces, Ed0, IH by (rewrite <- ?Ed0; lia). done.
      * rewrite (Hs 1%nat) by (intros p Hp; apply placeholders_ge in Hp; lia). rewrite Nat.add_1_r, Ed0, IH by (rewrite <- Ed0; lia). done.
Qed.

(** Two dashes are never two pieces. *)
Fixpoint double_dash (ps : list piece) : bool :=
  match ps with
  | Char c :: ps' => ((c =? $"-") && match ps' with Char d :: _ => d =? $"-" | _ => false end) || double_dash ps'
  | _ :: ps' => double_dash ps'
  | [] => false
  end.

Lemma double_dash_cons p ps : double_dash ps = true -> double_dash (p :: ps) = true.
Proof. intros H. destruct p; cbn [double_dash]; rewrite ?H, ?orb_true_r; done. Qed.
Lemma double_dash_app ps qs : double_dash qs = true -> double_dash (ps ++ qs) = true.
Proof. intros H. induction ps as [|p ps IH]; [done|]. by apply (double_dash_cons p (ps ++ qs)). Qed.

Lemma double_dash_pieces n : forall l, double_dash (pieces n l) = false.
Proof.
  induction n as [|n IH]; intros [|c l]; [done..|]. cbn [pieces]. destruct (Nat.ltb_spec 0 (comment_len (c :: l))) as [Hc|Hc]; [apply IH|].
  destruct (is_quote c); [apply IH|]. cbn [double_dash]. rewrite IH, orb_false_r. destruct (Z.eqb_spec c ($"-")) as [->|]; [|done]. cbn [andb].
  assert (comment_len ($"-" :: l) = 0%nat) as [_ Ho]%comment_len_zero by lia. destruct n as [|n], l as [|d l]; try done. specialize (Ho d eq_refl).
  cbn [pieces]. destruct (_ <? _)%nat; [done|]. destruct (is_quote d); [done|]. unfold opens in Ho. change ($"-" =? $"-") with true in Ho.
  change ($"-" =? $"/") with false in Ho. by destruct (d =? $"-").
Qed.

(** Behind a dash, a literal that starts with one makes two. *)
Lemma double_dash_literal lit ps : literal lit -> starts_with (chars "-") lit = true ->
  double_dash (Char ($"-") :: pieces (length lit) lit ++ ps) = true.
Proof.
  intros [esc _|[|c l] _ Hw Hd] Hs; [done|done|]. cbn in Hs. rewrite andb_true_r in Hs. apply Z.eqb_eq in Hs as <-. cbn [length pieces].
  cbn [dashes_single] in Hd. apply andb_true_iff in Hd as [Hd _]. rewrite (proj2 (comment_len_zero _ _)); [done|]. split; [by vm_compute|].
  intros d Hh. destruct l as [|e l]; [done|]. injection Hh as ->. unfold opens. change ($"-" =? $"-") with true in *. change ($"-" =? $"/") with false.
  cbn [andb] in *. apply negb_true_iff in Hd. by rewrite Hd.
Qed.

Lemma dashes_together ps : forall prev lits, Forall literal lits -> dashes_apart prev ps lits = false ->
  double_dash (if prev : bool then Char ($"-") :: replace ps lits else replace ps lits) = true.
Proof.
  assert (forall (prev : bool) qs, double_dash qs = true -> double_dash (if prev then Char ($"-") :: qs else qs) = true) as Hp
    by (intros [] qs; [apply double_dash_cons|done]).
  induction ps as [|[k|t|c] ps IH]; intros prev lits HF; cbn [dashes_apart replace]; [done|intros H; apply Hp, double_dash_cons; exact (IH false lits HF H)..|].
  destruct (c =? $"?").
  - destruct lits as [|lit lits]; [done|]. apply Forall_cons in HF as [Hl HF]. rewrite andb_false_iff, negb_false_iff, andb_true_iff.
    intros [[-> Hs]|H]; [by apply double_dash_literal|]. apply Hp, double_dash_app. exact (IH false lits HF H).
  - intros H. apply Hp. specialize (IH (c =? $"-") lits HF H). destruct (Z.eqb_spec c ($"-")) as [->|]; [done|]. by apply double_dash_cons.
Qed.

(** Inserting literals at the parameter markers of a query changes nothing else, exactly when
    no negative number is put directly behind a minus sign: cut into
    comments, quoted strings and characters, the new text consists of the old pieces
    with each marker replaced by the pieces of its literal.  No value can end a string,
    open a comment or add a marker.  (The quotes of the query are closed.) *)
Lemma fill_pieces C lits :
  quotes_closed (length C) C = true -> Forall literal lits ->
  let C' := fill C 0 (placeholders (length C) 0 C) lits in
  pieces (length C') C' = replace (pieces (length C) C) lits <-> dashes_apart false (pieces (length C) C) lits = true.
Proof.
  intros Hq HF C'. subst C'. pose proof (fill_placeholders C (length C) 0 lits ltac:(by rewrite drop_0)) as E.
  rewrite drop_0 in E. rewrite E. split; [|by intros Hd; apply (replaced_pieces _ _ _ false)].
  intros Hp. destruct (dashes_apart false (pieces (length C) C) lits) eqn:Hd; [done|].
  apply (dashes_together _ false) in Hd; [|done]. rewrite <- Hp, double_dash_pieces in Hd. discriminate Hd.
Qed.

(** The offsets of the markers are in order and inside the text. *)
Lemma placeholders_offsets n : forall pos l from, (length l <= n)%nat -> (from <= pos)%nat ->
  offsets_ok from (placeholders n pos l) (pos + length l).
Proof.
  assert (forall ps from from' len, (from' <= from)%nat -> offsets_ok from ps len -> offsets_ok from' ps len) as Hm.
  { intros [|p ps] from from' len H; cbn; [lia|]. intros [H1 H2]. split; [lia|done]. }
  induction n as [|n IH]; intros pos [|c l] from Hn Hf; cbn [length] in *; try (cbn; lia).
  cbn [placeholders]. destruct (Nat.ltb_spec 0 (comment_len (c :: l))) as [Hc|Hc].
  - pose proof (comment_len_le (c :: l)) as Hl. cbn [length] in Hl.
    specialize (IH (pos + comment_len (c :: l))%nat (drop (comment_len (c :: l)) (c :: l)) from).
    rewrite length_drop in IH. cbn [length] in IH.
    replace (pos + comment_len (c :: l) + (S (length l) - comment_len (c :: l)))%nat with (pos + S (length l))%nat in IH by lia.
    apply IH; lia.
  - destruct (is_quote c).
    + destruct (quoted_len_le c l) as [Hq| ->].
      * specialize (IH (S pos + quoted_len c l)%nat (drop (quoted_len c l) l) from). rewrite length_drop in IH.
        replace (S pos + quoted_len c l + (length l - quoted_len c l))%nat with (pos + S (length l))%nat in IH by lia. apply IH; lia.
      * rewrite drop_nil. destruct n; cbn; lia.
    + replace (pos + S (length l))%nat with (S pos + length l)%nat by lia.
      destruct (c =? $"?"); [split; [done|apply IH; lia]|]. apply IH; lia.
Qed.

End ParamTextProps.
