(* ===== verification/Params.v ===== *)
(** * Params: parameters inserted into the query text

    Models the client-side insertion of parameters of [ma_statement.c]
    ([MADB_InsertParam], [MADB_InsertParams], [ConstructBitValue],
    [SetUnboundParameterError]) and [MADB_CalculateLength] of [ma_typeconv.c].  The
    application's memory is a map from addresses to bytes; reading where nothing is
    stored has no result ([None]), as has following a NULL pointer.  The descriptors
    are those of Desc.v, the text grows in the dynamic strings of Dynamic.v with an
    answer of the allocator for each call.  The conversion of wide characters
    (iconv) is an argument. *)

From Stdlib Require Import ZArith Lia.
From stdpp Require Import base strings numbers option list gmap.
From S2P Require Import Prelude Decimal Charset Odbc Errors Dynamic Parse SqlTypes Desc Numeric TypeConv Escape FloatText ParamText.
Import ErrorOps DynString Numeric TypeConv Escape FloatText DescOps.

Definition memory := gmap Z Z.

(** What stays the same while a statement is executed: the connection's charset and
    server status, the conversion of wide characters, and the unknown contents of
    fresh memory and of a local variable that is never set. *)
Record param_config := MkParamConfig {
  pc_charset : charset_info;
  pc_no_backslash : bool;
  pc_wchar : list Z -> Z -> option (list Z);
  pc_junk : Z;
  pc_isTime : bool;
}.

Record param_state := MkParamState {
  pm_world : world;
  pm_memory : memory;
  pm_Error : MADB_Error;
  pm_answers : list bool;
}.

(** The statement's part: its handle, [MADB_STMT_PARAM_COUNT] and [PutParam]. *)
Record param_stmt := MkParamStmt {
  pq_descs : stmt_descs;
  pq_ParamCount : Z;
  pq_PutParam : Z;
  pq_text : list Z;            (** the buffer at [Query.RefinedText] *)
  pq_positions : list nat;     (** [Query.ParamPositions] *)
}.

Module Params.

(** ** Memory *)

Fixpoint peek (n : nat) (m : memory) (a : Z) : option (list Z) :=
  match n with
  | O => Some []
  | S n' => b ← m !! a; l ← peek n' m (a + 1); Some (b :: l)
  end.

(** The bytes up to the end of the readable area. *)
Fixpoint peek_all (fuel : nat) (m : memory) (a : Z) : list Z :=
  match fuel with
  | O => []
  | S fuel' => match m !! a with Some b => b :: peek_all fuel' m (a + 1) | None => [] end
  end.
Definition bytes_at (m : memory) (a : Z) : list Z := peek_all (size m) m a.

Fixpoint poke (m : memory) (a : Z) (l : list Z) : option memory :=
  match l with
  | [] => Some m
  | b :: l' => _ ← m !! a; poke (<[a := b]> m) (a + 1) l'
  end.

(** A little-endian integer of [n] bytes. *)
Definition peek_u (n : nat) (m : memory) (a : Z) : option Z := NumericProps.le_value <$> peek n m a.
Definition peek_len (m : memory) (a : Z) : option Z := wraps 64 <$> peek_u 8 m a.

Fixpoint wide_units (l : list Z) : list Z :=
  match l with a :: b :: l' => (a + 256 * b) :: wide_units l' | _ => [] end.

(** A pointer field of a record. *)
Definition ptr (v : Z) : option Z := if v =? 0 then None else Some v.

(** [GetBindOffset] with the offset read from where [BindOffsetPtr] points. *)
Definition bound_at (m : memory) (hd : MADB_Header) (p : option Z) (row size : Z) : option (option Z) :=
  match p with
  | None => Some None
  | Some _ =>
      off ← (if BindOffsetPtr hd =? 0 then Some 0 else peek_len m (BindOffsetPtr hd));
      Some (GetBindOffset (BindType hd) off p row size)
  end.

(** The value of an optional length or indicator. *)
Definition len_at (m : memory) (p : option Z) : option (option Z) :=
  match p with None => Some None | Some a => Some <$> peek_len m a end.

Definition IS_DAE (len : option Z) : bool :=
  match len with Some v => (v =? SQL_DATA_AT_EXEC) || (v <=? SQL_LEN_DATA_AT_EXEC_OFFSET) | None => false end.

(** ** Lengths *)

(** The result of a length loop that reads [avail] readable units: it ended at a
    terminator or at its limit, or it ran out of the readable memory. *)
Definition scanned (r limit : Z) (avail : nat) : option Z :=
  if (r <? Z.of_nat avail) || (r =? limit) then Some r else None.

(** [MADB_CalculateLength]: [len] is the value behind [OctetLengthPtr], [data] what can be
    read from [DataPtr] on.  The division by [sizeof(SQLWCHAR)] is unsigned. *)
Definition MADB_CalculateLength (len : option Z) (ConciseType OctetLength : Z) (data : list Z) : option Z :=
  if bool_decide (len = None) || bool_decide (len = Some SQL_NTS) then
    let BufferLen := if bool_decide (len = None) then OctetLength else -1 in
    if ConciseType =? SQL_C_WCHAR then
      let limit := wraps 64 (wrapu 64 BufferLen / 2 - (if BufferLen =? 0 then 1 else 0)) in
      (fun n => n * 2) <$> scanned (Wide.SqlwcsLen (wide_units data) limit) limit (length (wide_units data))
    else if case ConciseType [SQL_C_BINARY; SQL_VARBINARY; SQL_LONGVARBINARY; SQL_C_CHAR] then
      let limit := if negb (BufferLen =? 0) then BufferLen else -1 in
      scanned (Wide.SafeStrlen data limit) limit (length data)
    else Some OctetLength
  else len.

(** ** The value of one parameter *)

(** What the big switch comes to: a text, whether it is put in quotes, the return code
    so far, and how a failure to store the text is reported ([sets] tells whether it
    becomes the return code); or an early end. *)
Inductive value :=
| Text (ret : Z) (E : MADB_Error) (t : list Z) (quotes : bool) (msg : string) (sets : bool)
| Stop (ret : Z) (E : MADB_Error).

Definition stop_with (E : MADB_Error) (code : nat) (msg : string) : value :=
  let E' := MADB_SetError E code (Some (chars msg)) 0 in Stop (ReturnValue E') E'.

(** The time structures of the application. *)
Definition ushort (m : memory) (a : Z) : option Z := peek_u 2 m a.
Definition app_time_at (m : memory) (SourceType a : Z) : option app_time :=
  if case SourceType [SQL_C_TIME; SQL_C_TYPE_TIME] then
    h ← ushort m a; mi ← ushort m (a + 2); s ← ushort m (a + 4); Some (AppTime (MkTimeS h mi s))
  else if case SourceType [SQL_C_DATE; SQL_C_TYPE_DATE] then
    y ← ushort m a; mo ← ushort m (a + 2); d ← ushort m (a + 4); Some (AppDate (MkDateS (wraps 16 y) mo d))
  else
    y ← ushort m a; mo ← ushort m (a + 2); d ← ushort m (a + 4);
    h ← ushort m (a + 6); mi ← ushort m (a + 8); s ← ushort m (a + 10); f ← peek_u 4 m (a + 12);
    Some (AppTs (MkTs (wraps 16 y) mo d h mi s f)).

(** [ConstructBitValue] *)
Definition ConstructBitValue (m : memory) (a : Z) (E : MADB_Error) : option value :=
  b ← m !! a; Some (Text SQL_SUCCESS E (if b =? 0 then chars "0" else chars "1") false "Failed to append a bit parameter" false).

Definition SIZE_NUMERIC_BUFFER : nat := 128.

(** The bytes of an integer parameter the conversion reads. *)
Definition integer_size (ConciseType : Z) : nat :=
  if case ConciseType [SQL_C_UBIGINT; SQL_BIGINT; SQL_C_SBIGINT] then 8%nat
  else if case ConciseType [SQL_C_USHORT; SQL_C_SHORT; SQL_C_SSHORT] then 2%nat
  else if case ConciseType [SQL_C_UTINYINT; SQL_C_STINYINT; SQL_C_TINYINT] then 1%nat
  else 4%nat.

Section Config.
Context (c : param_config).

Definition numeric_value (m : memory) (a : Z) (ipd : MADB_DescRecord) (E : MADB_Error) : option (value * memory) :=
  m1 ← poke m a [wrapu 8 (num ipd Precision); wrapu 8 (num ipd Scale)];
  sg ← m1 !! (a + 2);
  digits ← peek SQL_MAX_NUMERIC_LEN m1 (a + 3);
  '(code, _, b) ← MADB_ConvertNumericToChar (pc_junk c) SIZE_NUMERIC_BUFFER
                    (MkNumeric (wrapu 8 (num ipd Precision)) (wraps 8 (num ipd Scale)) sg digits);
  let t := cstr b in
  let msg := "Failed to append a numeric parameter"%string in
  if (code =? 0)%nat then Some (Text SQL_SUCCESS E t true msg true, m1)
  else
    let E' := MADB_SetError E code (Some (chars "Numeric conversion failure")) 0 in
    if SQL_SUCCEEDED (ReturnValue E') then Some (Text (ReturnValue E') E' t true msg true, m1)
    else Some (Stop (ReturnValue E') E', m1).

Definition datetime_value (m : memory) (a : Z) (apd ipd : MADB_DescRecord) (E : MADB_Error) : option value :=
  if negb (MADB_ConversionSupported (num apd ConciseType) (num ipd Type_)) then
    Some (stop_with E MADB_ERR_07006 "Conversion is not supported")
  else
    src ← app_time_at m (num apd ConciseType) a;
    match MADB_ConvertDatetimeToChar (num apd ConciseType) (num ipd ConciseType) src E with
    | inl E' => Some (Stop (ReturnValue E') E')
    | inr t => Some (Text SQL_SUCCESS E t true "Failed to append a timestamp parameter" true)
    end.

(** A character value, checked first when it goes to a date or time column. *)
Definition char_value (m : memory) (a Length : Z) (ipd : MADB_DescRecord) (E : MADB_Error) : option value :=
  let msg := "Failed to append a char parameter"%string in
  if num ipd Type_ =? SQL_BIT then ConstructBitValue m a E
  else
    data ← (if Length <? 0 then None else peek (Z.to_nat Length) m a);
    if num ipd Type_ =? SQL_DATETIME then
      match MADB_Str2Ts (cstr data) false E with
      | inl E' => Some (Stop (ReturnValue E') E')
      | inr (tm, isTime) =>
          match MADB_TsConversionIsPossible (MADB_CopyMadbTimeToOdbcTs tm) (num ipd ConciseType) E MADB_ERR_22018
                  (default (pc_isTime c) isTime) with
          | Some E' => Some (Stop (ReturnValue E') E')
          | None => Some (Text SQL_SUCCESS E data true msg true)
          end
      end
    else Some (Text SQL_SUCCESS E data true msg true).

Definition wchar_value (m : memory) (a : Z) (len : option Z) (apd ipd : MADB_DescRecord) (E : MADB_Error) : option value :=
  let msg := "Failed to append a wchar parameter"%string in
  if negb (IS_DAE len) then
    Length ← MADB_CalculateLength len (num apd ConciseType) (num apd OctetLength) (bytes_at m a);
    match pc_wchar c (bytes_at m a) (wraps 32 (wrapu 64 Length / 2)) with
    | None => Some (stop_with E MADB_ERR_HY000 "Failed to convert a wchar parameter")
    | Some t => Some (Text SQL_SUCCESS E (cstr t) true msg true)
    end
  else
    data ← (if num ipd OctetLength <? 0 then None else peek (Z.to_nat (num ipd OctetLength)) m a);
    Some (Text SQL_SUCCESS E data true msg true).

Definition value_length (m : memory) (a : Z) (len : option Z) (apd ipd : MADB_DescRecord) : option Z :=
  if IS_DAE len then Some (num ipd OctetLength)
  else MADB_CalculateLength len (num apd ConciseType) (num apd OctetLength) (bytes_at m a).

(** The switch over [ApdRecord->ConciseType], with the data at [a]. *)
Definition param_value (m : memory) (a : Z) (len : option Z) (apd ipd : MADB_DescRecord) (E : MADB_Error)
    : option (value * memory) :=
  let keep (v : option value) := (fun x => (x, m)) <$> v in
  let t := num apd ConciseType in
  if t =? SQL_C_NUMERIC then numeric_value m a ipd E
  else if t =? SQL_C_FLOAT then
    keep (v ← peek_u 4 m a; Some (Text SQL_SUCCESS E (e17_text (decode_real v)) false "Failed to append a float parameter" true))
  else if case t [SQL_FLOAT; SQL_C_DOUBLE] then
    keep (v ← peek_u 8 m a; Some (Text SQL_SUCCESS E (e17_text (decode_double v)) false "Failed to append a double parameter" true))
  else if case t [SQL_C_TIME; SQL_C_DATE; SQL_C_TIMESTAMP; SQL_C_TYPE_TIME; SQL_C_TYPE_DATE; SQL_C_TYPE_TIMESTAMP] then
    keep (datetime_value m a apd ipd E)
  else if (SQL_C_INTERVAL_YEAR <=? t) && (t <=? SQL_C_INTERVAL_MINUTE_TO_SECOND) then
    keep (Some (stop_with E MADB_ERR_07006 "Conversion of INTERVAL data is not supported"))
  else if case t [SQL_CHAR; SQL_VARCHAR; SQL_LONGVARCHAR] then
    keep (Length ← value_length m a len apd ipd; char_value m a Length ipd E)
  else if case t [SQL_WCHAR; SQL_WVARCHAR; SQL_WLONGVARCHAR] then keep (wchar_value m a len apd ipd E)
  else if t =? SQL_C_BIT then keep (ConstructBitValue m a E)
  else if case t [SQL_C_BINARY; SQL_VARBINARY; SQL_LONGVARBINARY] then
    keep (Length ← value_length m a len apd ipd;
          data ← (if Length <? 0 then None else peek (Z.to_nat Length) m a);
          Some (Text SQL_SUCCESS E data true "Failed to append a binary parameter" true))
  else
    keep (v ← peek_u (integer_size t) m a;
          Some (Text SQL_SUCCESS E (MADB_ConvertIntegerToChar t v) false "Failed to append an integer parameter" false)).

(** ** MADB_InsertParam *)

(** The next answer of the allocator. *)
Definition answer (s : param_state) : bool * param_state :=
  (hd true (pm_answers s), MkParamState (pm_world s) (pm_memory s) (pm_Error s) (tl (pm_answers s))).
Definition with_error (s : param_state) (E : MADB_Error) : param_state :=
  MkParamState (pm_world s) (pm_memory s) E (pm_answers s).
Definition with_memory (s : param_state) (m : memory) : param_state :=
  MkParamState (pm_world s) m (pm_Error s) (pm_answers s).
Definition with_desc_world (s : param_state) (w : world) : param_state :=
  MkParamState w (pm_memory s) (pm_Error s) (pm_answers s).

Definition fail (s : param_state) (code : nat) (msg : string) : Z * param_state :=
  let E := MADB_SetError (pm_Error s) code (Some (chars msg)) 0 in (ReturnValue E, with_error s E).

(** One append to a dynamic string. *)
Definition append (t : list Z) (d : MADB_DynString) (s : param_state) : option (bool * MADB_DynString * param_state) :=
  let '(ok, s1) := answer s in
  '(failed, d1) ← MADB_DynstrAppendMem (pc_junk c) ok d t;
  Some (failed, d1, s1).

(** From the label [escape]: [ret] is the return code so far. *)
Definition escape_value (ret : Z) (quotes : bool) (data final : MADB_DynString) (s : param_state)
    : option (Z * MADB_DynString * param_state) :=
  let '(ok, s1) := answer s in
  if negb ok then
    let '(rc, s2) := fail s1 MADB_ERR_HY001 "Failed to allocate memory for the escaped parameter" in Some (rc, final, s2)
  else
    let esc := cstr (mysql_real_escape_string (pc_no_backslash c) (pc_charset c) (contents data)).1 in
    let give (r : bool * MADB_DynString * param_state) :=
      let '(failed, f, s') := r in
      if (failed : bool) then let '(rc, s2) := fail s' MADB_ERR_HY001 "Failed to append the escaped parameter" in (rc, f, s2)
      else (ret, f, s') in
    if quotes then
      '(b1, f1, s2) ← append (chars "'") final s1;
      if (b1 : bool) then Some (give (b1, f1, s2))
      else
        '(b2, f2, s3) ← append esc f1 s2;
        if (b2 : bool) then Some (give (b2, f2, s3)) else give <$> append (chars "'") f2 s3
    else give <$> append esc final s1.

(** The value stored in [data], then escaped. *)
Definition store_value (v : value) (data final : MADB_DynString) (s : param_state)
    : option (Z * MADB_DynString * param_state) :=
  match v with
  | Stop ret E => Some (ret, final, with_error s E)
  | Text ret E t quotes msg sets =>
      '(failed, data1, s1) ← append t data (with_error s E);
      if (failed : bool) then
        let '(rc, s2) := fail s1 MADB_ERR_HY001 msg in Some (if sets then rc else ret, final, s2)
      else escape_value ret quotes data1 final s1
  end.

Definition MADB_InsertParam (q : param_stmt) (apd ipd : MADB_DescRecord) (ParamSetIdx : Z) (final : MADB_DynString) (s : param_state)
    : option (Z * MADB_DynString * param_state) :=
  apd_hd ← Header <$> descs (pm_world s) !! Apd (pq_descs q);
  ipd_hd ← Header <$> descs (pm_world s) !! Ipd (pq_descs q);
  let m := pm_memory s in
  ind ← (bound_at m apd_hd (ptr (num apd IndicatorPtr)) ParamSetIdx 8 ≫= len_at m);
  len ← (bound_at m apd_hd (ptr (num apd OctetLengthPtr)) ParamSetIdx 8 ≫= len_at m);
  data_ptr ← (if IS_DAE len
              then bound_at m ipd_hd (ptr (num ipd DataPtr)) ParamSetIdx (num ipd OctetLength)
              else bound_at m apd_hd (ptr (num apd DataPtr)) ParamSetIdx (num apd OctetLength));
  if IS_DAE len && negb (pq_ParamCount q <=? pq_PutParam q) then Some (SQL_NEED_DATA, final, s)
  else
    let '(ok, s1) := answer s in
    '(failed, data) ← MADB_InitDynamicString (pc_junk c) ok (Some []) 16 32;
    if (failed : bool) then
      let '(rc, s2) := fail s1 MADB_ERR_HY001 "Error initializing the string for a single parameter" in Some (rc, final, s2)
    else
      default_value ← text_of (blocks (pm_world s)) (text apd DefaultValue);
      let ignored := bool_decide (ind = Some SQL_COLUMN_IGNORE) in
      if (ignored && bool_decide (default_value = None)) || bool_decide (ind = Some SQL_NULL_DATA) then
        '(failed, f1, s2) ← append (chars "NULL") final s1;
        if (failed : bool) then let '(rc, s3) := fail s2 MADB_ERR_HY001 "Failed to append the parameter" in Some (rc, f1, s3)
        else Some (SQL_SUCCESS, f1, s2)
      else if ignored then
        '(failed, data1, s2) ← append (default [] default_value) data s1;
        let '(ret, s3) := if (failed : bool) then fail s2 MADB_ERR_HY001 "Failed to append the parameter" else (SQL_SUCCESS, s2) in
        escape_value ret true data1 final s3
      else
        '(v, m1) ← param_value m (default 0 data_ptr) len apd ipd (pm_Error s1);
        store_value v data final (with_memory s1 m1).

(** ** MADB_InsertParams *)

Definition SetUnboundParameterError (s : param_state) : Z * param_state :=
  fail s MADB_ERR_07002 "Parameter was not bound before calling SQLExecute".

(** The loop over the parameters of the statement from number [i], [n] of them; [query]
    is the offset of the text not copied yet and [ret] the return code so far.  [mem] is
    the number of records that can be allocated.  An end through the label [error] has
    a return code that is not SQL_SUCCEEDED. *)
Fixpoint insert_loop (mem : nat) (q : param_stmt) (ParamSetIdx : Z) (n i query : nat) (ret : Z) (final : MADB_DynString)
    (s : param_state) : option (Z * nat * MADB_DynString * param_state) :=
  match n with
  | O => Some (ret, query, final, s)
  | S n' =>
      '(w1, ra) ← MADB_DescGetInternalRecord mem (pm_world s) (Apd (pq_descs q)) (Z.of_nat i) MADB_DESC_READ;
      '(w2, ri) ← (match ra with
                   | Some _ => MADB_DescGetInternalRecord mem w1 (Ipd (pq_descs q)) (Z.of_nat i) MADB_DESC_READ
                   | None => Some (w1, None)
                   end);
      let s1 := with_desc_world s w2 in
      match ra, ri with
      | Some ka, Some ki =>
          apd ← get_record w2 (Apd (pq_descs q)) ka;
          ipd ← get_record w2 (Ipd (pq_descs q)) ki;
          if num apd inUse =? 0 then let '(rc, s2) := SetUnboundParameterError s1 in Some (rc, query, final, s2)
          else
            let ParamIdx := default 0%nat (pq_positions q !! i) in
            let LenBeforeParam := Z.to_nat (wrapu 32 (Z.of_nat ParamIdx - Z.of_nat query)) in
            if (length (pq_text q) <? query + LenBeforeParam)%nat then None
            else
              '(_, f1, s2) ← append (take LenBeforeParam (drop query (pq_text q))) final s1;
              '(ret1, f2, s3) ← MADB_InsertParam q apd ipd ParamSetIdx f1 s2;
              if negb (SQL_SUCCEEDED ret1) then Some (ret1, query, f2, s3)
              else insert_loop mem q ParamSetIdx n' (S i) (query + LenBeforeParam + 1) ret1 f2 s3
      | _, _ => insert_loop mem q ParamSetIdx n' (S i) query ret final s1
      end
  end.

Definition MADB_InsertParams (mem : nat) (q : param_stmt) (QueryOffset : nat) (ParamSetIdx : Z) (ParamOffset : nat)
    (final : MADB_DynString) (s : param_state) : option (Z * MADB_DynString * param_state) :=
  let endp := (QueryOffset + strlen (pq_text q) QueryOffset)%nat in
  '(ret, query, f1, s1) ← insert_loop mem q ParamSetIdx (Z.to_nat (pq_ParamCount q)) ParamOffset QueryOffset SQL_SUCCESS final s;
  if negb (SQL_SUCCEEDED ret) then Some (ret, MADB_DynstrFree f1, s1)
  else if (endp <? query)%nat then None
  else
    '(failed, f2, s2) ← append (take (endp - query) (drop query (pq_text q))) f1 s1;
    if (failed : bool) then
      let '(rc, s3) := fail s2 MADB_ERR_HY001 "Failed to append the query suffix" in Some (rc, MADB_DynstrFree f2, s3)
    else Some (ret, f2, s2).

End Config.

End Params.

(** ** Properties *)

Module ParamsProps.
Import Params ParseProps EscapeProps FloatTextProps ParamTextProps.

(** The text of a literal. *)
Definition literal_text (c : param_config) (quotes : bool) (t : list Z) : list Z :=
  let esc := escape_text (pc_no_backslash c) (pc_charset c) t in
  if quotes then $"'" :: esc ++ [$"'"] else esc.

(** The specification of one parameter: the return code, the literal, and the memory and
    the error record afterwards, when nothing goes wrong and the value has less than
    [2 ^ 60] bytes. *)
Definition param_literal (c : param_config) (q : param_stmt) (apd ipd : MADB_DescRecord) (ParamSetIdx : Z) (s : param_state)
    : option (Z * list Z * memory * MADB_Error) :=
  apd_hd ← Header <$> descs (pm_world s) !! Apd (pq_descs q);
  ipd_hd ← Header <$> descs (pm_world s) !! Ipd (pq_descs q);
  let m := pm_memory s in
  let E := pm_Error s in
  ind ← (bound_at m apd_hd (ptr (num apd IndicatorPtr)) ParamSetIdx 8 ≫= len_at m);
  len ← (bound_at m apd_hd (ptr (num apd OctetLengthPtr)) ParamSetIdx 8 ≫= len_at m);
  data_ptr ← (if IS_DAE len
              then bound_at m ipd_hd (ptr (num ipd DataPtr)) ParamSetIdx (num ipd OctetLength)
              else bound_at m apd_hd (ptr (num apd DataPtr)) ParamSetIdx (num apd OctetLength));
  dv ← text_of (blocks (pm_world s)) (text apd DefaultValue);
  let short (t : list Z) (r : Z * list Z * memory * MADB_Error) :=
    if Z.of_nat (length t) <? 2 ^ 60 then Some r else None in
  if IS_DAE len && negb (pq_ParamCount q <=? pq_PutParam q) then None
  else if bool_decide (ind = Some SQL_NULL_DATA) then Some (SQL_SUCCESS, chars "NULL", m, E)
  else if bool_decide (ind = Some SQL_COLUMN_IGNORE) then
    match dv with
    | None => Some (SQL_SUCCESS, chars "NULL", m, E)
    | Some t => short t (SQL_SUCCESS, literal_text c true t, m, E)
    end
  else
    '(v, m1) ← param_value c m (default 0 data_ptr) len apd ipd E;
    match v with
    | Stop _ _ => None
    | Text ret E' t quotes _ _ => short t (ret, literal_text c quotes t, m1, E')
    end.

(** What is left alone when only answers of the allocator are used. *)
Record same_but_answers (s s' : param_state) : Prop := {
  sba_world : pm_world s' = pm_world s;
  sba_memory : pm_memory s' = pm_memory s;
  sba_Error : pm_Error s' = pm_Error s;
  sba_answers : false ∉ pm_answers s -> false ∉ pm_answers s';
}.

Lemma sba_refl s : same_but_answers s s.
Proof. by split. Qed.
Lemma sba_trans s1 s2 s3 : same_but_answers s1 s2 -> same_but_answers s2 s3 -> same_but_answers s1 s3.
Proof. intros [] []. split; try congruence. auto. Qed.

Lemma answer_ok s : false ∉ pm_answers s -> exists s', answer s = (true, s') /\ same_but_answers s s'.
Proof.
  intros H. unfold answer. destruct (pm_answers s) as [|b l] eqn:E; cbn.
  - eexists. split; [reflexivity|]. split; cbn; rewrite ?E; done.
  - assert (b = true) as -> by (destruct b; [done|]; destruct H; left). eexists. split; [reflexivity|].
    split; cbn; rewrite ?E; try done. intros _ Hl. apply H. by right.
Qed.

Lemma append_ok c t d s : wf d -> length_ d + Z.of_nat (length t) < 2 ^ 62 -> false ∉ pm_answers s ->
  exists d' s', append c t d s = Some (false, d', s') /\ wf d' /\ contents d' = contents d ++ t /\ same_but_answers s s'.
Proof.
  intros Hw Hl Ha. unfold append. destruct (answer_ok s Ha) as (s' & -> & Hs).
  destruct (MADB_DynstrAppendMem_refines (pc_junk c) true d t Hw Hl) as (f & d' & -> & Hw' & Hf & Hc). cbn.
  destruct f; [by destruct (Hf eq_refl)|]. exists d', s'. split_and!; auto.
Qed.

(** The length of a well-formed string after an append. *)
Lemma append_length d d' t : wf d -> wf d' -> contents d' = contents d ++ t -> length_ d' = length_ d + Z.of_nat (length t).
Proof.
  intros Hw Hw' Hc. pose proof (length_contents d Hw) as H. pose proof (length_contents d' Hw') as H'.
  rewrite Hc, length_app in H'. lia.
Qed.

Lemma escape_value_ok c ret quotes data final s : wf data -> wf final -> false ∉ pm_answers s ->
  length_ final + Z.of_nat (length (literal_text c quotes (contents data))) < 2 ^ 62 ->
  exists f' s', escape_value c ret quotes data final s = Some (ret, f', s') /\ wf f' /\
    contents f' = contents final ++ literal_text c quotes (contents data) /\ same_but_answers s s'.
Proof.
  intros Hd Hf Ha Hl. unfold escape_value. destruct (answer_ok s Ha) as (s1 & -> & Hs1). cbn [negb].
  fold (escape_text (pc_no_backslash c) (pc_charset c) (contents data)) in *. unfold literal_text in *.
  set (esc := escape_text _ _ _) in *. pose proof (sba_answers _ _ Hs1 Ha) as Ha1. destruct quotes.
  - cbn [length] in Hl. rewrite length_app in Hl. cbn [length] in Hl.
    destruct (append_ok c (chars "'") final s1 Hf ltac:(cbn; lia) Ha1) as (f1 & s2 & -> & Hf1 & Hc1 & Hs2).
    pose proof (append_length _ _ _ Hf Hf1 Hc1) as L1. pose proof (sba_answers _ _ Hs2 Ha1) as Ha2. cbn [mbind option_bind].
    destruct (append_ok c esc f1 s2 Hf1 ltac:(cbn in *; lia) Ha2) as (f2 & s3 & -> & Hf2 & Hc2 & Hs3).
    pose proof (append_length _ _ _ Hf1 Hf2 Hc2) as L2. pose proof (sba_answers _ _ Hs3 Ha2) as Ha3. cbn [mbind option_bind].
    destruct (append_ok c (chars "'") f2 s3 Hf2 ltac:(cbn in *; lia) Ha3) as (f3 & s4 & -> & Hf3 & Hc3 & Hs4).
    exists f3, s4. split_and!; [done|done| |by eauto using sba_trans].
    rewrite Hc3, Hc2, Hc1, <- !app_assoc. done.
  - destruct (append_ok c esc final s1 Hf ltac:(cbn; lia) Ha1) as (f1 & s2 & -> & Hf1 & Hc1 & Hs2).
    exists f1, s2. split_and!; [done..|by eauto using sba_trans].
Qed.

Lemma data_ok c : exists d, MADB_InitDynamicString (pc_junk c) true (Some []) 16 32 = Some (false, d) /\ wf d /\ contents d = [].
Proof. apply (MADB_InitDynamicString_cases (pc_junk c) [] 16 32); cbn; lia. Qed.

(** Inserting one parameter, when memory can be had, appends its literal. *)
Lemma InsertParam_literal c q apd ipd idx final s ret lit m' E' :
  param_literal c q apd ipd idx s = Some (ret, lit, m', E') -> wf final -> false ∉ pm_answers s ->
  length_ final + Z.of_nat (length lit) < 2 ^ 61 ->
  exists f' s', MADB_InsertParam c q apd ipd idx final s = Some (ret, f', s') /\ wf f' /\
    contents f' = contents final ++ lit /\ pm_world s' = pm_world s /\ pm_memory s' = m' /\ pm_Error s' = E' /\
    false ∉ pm_answers s'.
Proof.
  intros Hp Hw Ha Hl. unfold param_literal in Hp. unfold MADB_InsertParam.
  destruct (descs _ !! Apd _) as [da|]; [|done]. destruct (descs _ !! Ipd _) as [di|]; [|done].
  cbn [fmap option_fmap option_map mbind option_bind] in *. destruct (bound_at _ _ (ptr (num apd IndicatorPtr)) _ _ ≫= _) as [ind|]; [|done].
  cbn [mbind option_bind] in *. destruct (bound_at _ _ (ptr (num apd OctetLengthPtr)) _ _ ≫= _) as [len|]; [|done].
  cbn [mbind option_bind] in *. destruct (if IS_DAE len then _ else _) as [dp|]; [|done]. cbn [mbind option_bind] in *.
  destruct (text_of _ _) as [dv|]; [|done]. cbn [mbind option_bind] in *. destruct (IS_DAE len && _); [done|].
  destruct (answer_ok s Ha) as (s1 & -> & Hs1). pose proof (sba_answers _ _ Hs1 Ha) as Ha1.
  destruct (data_ok c) as (data & -> & Hdw & Hdc). cbn [mbind option_bind].
  assert (length_ data = 0) as Hd0 by (rewrite <- (length_contents data), Hdc by done; done).
  assert (forall s2 d2 t quotes, same_but_answers s s2 -> wf d2 -> contents d2 = t -> lit = literal_text c quotes t ->
    exists f' s', escape_value c ret quotes d2 final s2 = Some (ret, f', s') /\ wf f' /\ contents f' = contents final ++ lit /\
      same_but_answers s s') as Hesc.
  { intros s2 d2 t quotes Hs2 Hd2 <- ->. destruct (escape_value_ok c ret quotes d2 final s2) as (f' & s' & E & ? & ? & Hs');
      [done|done|by apply Hs2|lia|]. exists f', s'. split_and!; try done. by eapply sba_trans. }
  assert (forall P : Prop, (forall fn sn, append c (chars "NULL") final s1 = Some (false, fn, sn) -> wf fn ->
    contents fn = contents final ++ chars "NULL" -> same_but_answers s sn -> P) -> length_ final + 4 < 2 ^ 62 -> P) as Hnull.
  { intros P HP Hb. destruct (append_ok c (chars "NULL") final s1 Hw Hb Ha1) as (fn & sn & En & Hfn & Hcn & Hsn).
    apply (HP fn sn); try done. by eapply sba_trans. }
  destruct (bool_decide (ind = Some SQL_NULL_DATA)) eqn:E1.
  { injection Hp as <- <- <- <-. rewrite orb_true_r. apply Hnull; [|cbn in Hl; lia]. intros fn sn -> Hfn Hcn [? ? ? Hs]. cbn.
    exists fn, sn. split_and!; auto. }
  rewrite orb_false_r. destruct (bool_decide (ind = Some SQL_COLUMN_IGNORE)) eqn:E2.
  - destruct dv as [t|].
    + destruct (Z.ltb_spec (Z.of_nat (length t)) (2 ^ 60)); [|done]. injection Hp as <- <- <- <-. cbn [andb bool_decide_decide].
      rewrite bool_decide_eq_false_2 by done. cbn [default from_option id].
      destruct (append_ok c t data s1 Hdw ltac:(lia) Ha1) as (d2 & s2 & -> & Hd2 & Hc2 & Hs2). rewrite Hdc in Hc2. cbn [mbind option_bind].
      destruct (Hesc s2 d2 t true) as (f' & s' & -> & Hf' & Hcf & [? ? ? Hs]); [by eapply sba_trans|done..|].
      exists f', s'. split_and!; auto.
    + injection Hp as <- <- <- <-. rewrite bool_decide_eq_true_2 by done. cbn [andb].
      apply Hnull; [|cbn in Hl; lia]. intros fn sn -> Hfn Hcn [? ? ? Hs]. cbn. exists fn, sn. split_and!; auto.
  - cbn [andb]. rewrite (sba_Error _ _ Hs1). destruct (param_value _ _ _ _ _ _ _) as [[v m1]|]; [|done]. cbn [mbind option_bind] in *.
    destruct v as [ret0 E0 t quotes msg sets|]; [|done]. destruct (Z.ltb_spec (Z.of_nat (length t)) (2 ^ 60)); [|done].
    injection Hp as -> <- -> ->. cbn [store_value].
    set (s3 := Params.with_error (with_memory s1 m') E').
    assert (false ∉ pm_answers s3) as Ha3 by exact Ha1.
    destruct (append_ok c t data s3 Hdw ltac:(lia) Ha3) as (d2 & s2 & -> & Hd2 & Hc2 & Hs2). rewrite Hdc in Hc2. cbn [mbind option_bind].
    destruct (escape_value_ok c ret quotes d2 final s2) as (f' & s' & -> & Hf' & Hcf & Hs');
      [done|done|by apply Hs2|rewrite Hc2; cbn [app]; lia|]. rewrite Hc2 in Hcf.
    destruct (sba_trans _ _ _ Hs2 Hs') as [Hw' Hm' HE' Ha']. exists f', s'. split_and!; try done; [|by apply Ha'].
    rewrite Hw'. apply Hs1.
Qed.

(** *** All parameters of a statement *)

(** The literals of the parameters in turn, the return code of the last one, and what
    they leave of memory and error record. *)
Fixpoint param_literals (c : param_config) (q : param_stmt) (idx : Z) (rs : list (MADB_DescRecord * MADB_DescRecord)) (ret : Z)
    (s : param_state) : option (Z * list (list Z) * memory * MADB_Error) :=
  match rs with
  | [] => Some (ret, [], pm_memory s, pm_Error s)
  | (apd, ipd) :: rs' =>
      '(ret1, lit, m, E) ← param_literal c q apd ipd idx s;
      if SQL_SUCCEEDED ret1 then
        '(ret2, lits, m2, E2) ← param_literals c q idx rs' ret1 (MkParamState (pm_world s) m E []);
        Some (ret2, lit :: lits, m2, E2)
      else None
  end.

(** The records of the [n] parameters from number [poff] on, all of them bound. *)
Record bound_params (w : world) (q : param_stmt) (poff : nat) (rs : list (MADB_DescRecord * MADB_DescRecord)) : Prop := {
  bp_records : forall h, h = Apd (pq_descs q) \/ h = Ipd (pq_descs q) ->
    exists d, descs w !! h = Some d /\ Z.of_nat (length (Records d)) <= Count (Header d);
  bp_apd : forall j r, rs.*1 !! j = Some r -> get_record w (Apd (pq_descs q)) (Z.of_nat (poff + j)) = Some r /\ num r inUse <> 0;
  bp_ipd : forall j r, rs.*2 !! j = Some r -> get_record w (Ipd (pq_descs q)) (Z.of_nat (poff + j)) = Some r;
}.

Lemma bound_params_tail w q poff r rs : bound_params w q poff (r :: rs) -> bound_params w q (S poff) rs.
Proof.
  intros [H1 H2 H3]. split; [done|..]; intros j x Hx; replace (S poff + j)%nat with (poff + S j)%nat by lia; [by apply H2|by apply H3].
Qed.

Lemma offsets_ok_le ps : forall from len, offsets_ok from ps len -> (from <= len)%nat.
Proof. induction ps as [|p ps IH]; intros from len; cbn; [done|]. intros [H1 H2%IH]. lia. Qed.

Lemma get_existing_record mem w h r i : (exists d, descs w !! h = Some d /\ Z.of_nat (length (Records d)) <= Count (Header d)) ->
  get_record w h (Z.of_nat i) = Some r -> MADB_DescGetInternalRecord mem w h (Z.of_nat i) MADB_DESC_READ = Some (w, Some (Z.of_nat i)).
Proof.
  intros (d & Hd & Hc) Hr. unfold get_record in Hr. rewrite Hd in Hr. cbn in Hr.
  destruct (Z.ltb_spec (Z.of_nat i) 0); [lia|]. apply lookup_lt_Some in Hr. rewrite Nat2Z.id in Hr.
  unfold MADB_DescGetInternalRecord. rewrite Hd. cbn [mbind option_bind].
  rewrite (proj2 (Z.ltb_ge _ _)) by lia. cbn [andb].
  replace (Z.to_nat (Z.of_nat i + 1 - Z.of_nat (length (Records d)))) with 0%nat by lia. cbn [grow_records].
  rewrite (proj2 (Z.ltb_ge _ _)) by lia. destruct w, d. unfold put_desc. cbn in *. do 3 f_equal. by apply insert_id.
Qed.

Section Loop.
Context (c : param_config) (mem : nat) (q : param_stmt) (idx : Z) (endp : nat).
Context (Hend : (endp <= length (pq_text q))%nat) (Hlen : Z.of_nat (length (pq_text q)) < 2 ^ 32).

Local Notation T := (take endp (pq_text q)).

Lemma insert_loop_text rs : forall i query ret final s ret' lits m' E' ps,
  bound_params (pm_world s) q i rs -> take (length rs) (drop i (pq_positions q)) = ps -> length ps = length rs ->
  offsets_ok query ps endp -> param_literals c q idx rs ret s = Some (ret', lits, m', E') ->
  wf final -> false ∉ pm_answers s -> length_ final + Z.of_nat (length (fill T query ps lits)) < 2 ^ 61 ->
  exists query' f' s', insert_loop c mem q idx (length rs) i query ret final s = Some (ret', query', f', s') /\
    wf f' /\ (query' <= endp)%nat /\ contents f' ++ drop query' T = contents final ++ fill T query ps lits /\
    pm_world s' = pm_world s /\ pm_memory s' = m' /\ pm_Error s' = E' /\ false ∉ pm_answers s'.
Proof using All.
  induction rs as [|[apd ipd] rs IH]; intros i query ret final s ret' lits m' E' ps Hb Hps Hlp Ho Hp Hw Ha Hl.
  { cbn in *. destruct ps; [|done]. injection Hp as <- <- <- <-. exists query, final, s. split_and!; auto. }
  destruct ps as [|p ps]; [done|]. cbn [length insert_loop param_literals] in *. destruct Ho as [Hqp Ho].
  destruct (param_literal c q apd ipd idx s) as [[[[ret1 lit] m1] E1]|] eqn:El; [|done]. cbn [mbind option_bind] in Hp.
  destruct (SQL_SUCCEEDED ret1) eqn:Es; [|done].
  destruct (param_literals c q idx rs ret1 _) as [[[[ret2 lits2] m2] E2]|] eqn:El2; [|done]. injection Hp as <- <- <- <-.
  pose proof (bp_apd _ _ _ _ Hb 0 apd eq_refl) as [Ra Hu]. pose proof (bp_ipd _ _ _ _ Hb 0 ipd eq_refl) as Ri.
  rewrite Nat.add_0_r in Ra, Ri.
  rewrite (get_existing_record mem _ _ apd) by (auto; apply (bp_records _ _ _ _ Hb); auto). cbn [mbind option_bind].
  rewrite (get_existing_record mem _ _ ipd) by (auto; apply (bp_records _ _ _ _ Hb); auto). cbn [mbind option_bind].
  rewrite Ra, Ri. cbn [mbind option_bind]. apply Z.eqb_neq in Hu. rewrite Hu.
  assert (pq_positions q !! i = Some p /\ take (length rs) (drop (S i) (pq_positions q)) = ps) as [Hpi Hps'].
  { destruct (drop i (pq_positions q)) as [|x l] eqn:Ed; [done|]. cbn in Hps. injection Hps as -> <-.
    split; [|replace (S i) with (i + 1)%nat by lia; by rewrite <- drop_drop, Ed].
    pose proof (lookup_drop (pq_positions q) i 0) as H. by rewrite Ed, Nat.add_0_r in H. }
  rewrite Hpi. cbn [default from_option id]. pose proof (offsets_ok_le _ _ _ Ho) as Hpl.
  rewrite wrapu_id by lia. replace (Z.to_nat (Z.of_nat p - Z.of_nat query)) with (p - query)%nat by lia.
  destruct (Nat.ltb_spec (length (pq_text q)) (query + (p - query))); [lia|].
  assert (take (p - query) (drop query (pq_text q)) = take (p - query) (drop query T)) as ET.
  { rewrite !take_drop_commute, take_take. do 2 f_equal. lia. }
  cbn [fill] in Hl |- *. rewrite !length_app in Hl. rewrite ET.
  assert (same_but_answers s (with_desc_world s (pm_world s))) as Hs0 by (by split).
  destruct (append_ok c (take (p - query) (drop query T)) final (with_desc_world s (pm_world s)) Hw ltac:(lia) Ha)
    as (f1 & s2 & -> & Hf1 & Hc1 & Hs2).
  pose proof (append_length _ _ _ Hw Hf1 Hc1) as L1. destruct (sba_trans _ _ _ Hs0 Hs2) as [W2 M2 Er2 A2]. cbn [mbind option_bind].
  assert (param_literal c q apd ipd idx s2 = Some (ret1, lit, m1, E1)) as El' by (unfold param_literal; rewrite W2, M2, Er2; exact El).
  destruct (InsertParam_literal c q apd ipd idx f1 s2 _ _ _ _ El' Hf1 (A2 Ha) ltac:(lia))
    as (f2 & s3 & -> & Hf2 & Hc2 & W3 & M3 & Er3 & A3).
  pose proof (append_length _ _ _ Hf1 Hf2 Hc2) as L2. cbn [mbind option_bind]. rewrite Es. cbn [negb].
  replace (query + (p - query) + 1)%nat with (S p) by lia.
  assert (param_literals c q idx rs ret1 s3 = Some (ret2, lits2, m2, E2)) as El3.
  { rewrite <- El2. rewrite W2 in W3. clear -W3 M3 Er3. revert ret1. destruct rs as [|[a1 i1] rs]; intros ret1; cbn [param_literals].
    - by rewrite M3, Er3.
    - unfold param_literal at 1. cbn [pm_world pm_memory pm_Error]. rewrite W3, M3, Er3. reflexivity. }
  destruct (IH (S i) (S p) ret1 f2 s3 ret2 lits2 m2 E2 ps) as (query' & f' & s' & E & Hf' & Hq' & Hc' & W' & M' & Er' & A');
    try done; [rewrite W3, W2; by eapply bound_params_tail|by injection Hlp|lia|].
  exists query', f', s'. rewrite E. split_and!; try done; [|by rewrite W', W3, W2].
  rewrite Hc', Hc2, Hc1. by rewrite <- !app_assoc.
Qed.

Lemma InsertParams_fill rs off poff final s ret lits m' E' ps :
  endp = (off + strlen (pq_text q) off)%nat -> bound_params (pm_world s) q poff rs -> pq_ParamCount q = Z.of_nat (length rs) ->
  take (length rs) (drop poff (pq_positions q)) = ps -> length ps = length rs -> offsets_ok off ps endp ->
  param_literals c q idx rs SQL_SUCCESS s = Some (ret, lits, m', E') ->
  wf final -> false ∉ pm_answers s -> length_ final + Z.of_nat (length (fill T off ps lits)) < 2 ^ 61 ->
  exists f' s', MADB_InsertParams c mem q off idx poff final s = Some (ret, f', s') /\ wf f' /\
    contents f' = contents final ++ fill T off ps lits /\
    pm_world s' = pm_world s /\ pm_memory s' = m' /\ pm_Error s' = E' /\ false ∉ pm_answers s'.
Proof using All.
  intros He Hb Hn Hps Hlp Ho Hp Hw Ha Hl. unfold MADB_InsertParams. rewrite <- He, Hn, Nat2Z.id. cbv zeta.
  destruct (insert_loop_text rs poff off SQL_SUCCESS final s ret lits m' E' ps Hb Hps Hlp Ho Hp Hw Ha Hl)
    as (query & f1 & s1 & -> & Hf1 & Hq & Hc & W1 & M1 & Er1 & A1). cbn [mbind option_bind].
  assert (SQL_SUCCEEDED ret = true) as ->.
  { clear -Hp. assert (SQL_SUCCEEDED SQL_SUCCESS = true) as H by done. revert Hp H. generalize SQL_SUCCESS as r0. revert s lits.
    induction rs as [|[a i] rs IH]; intros s lits r0; cbn [param_literals]; [by intros [= <- _ _ _]|].
    destruct (param_literal _ _ _ _ _ _) as [[[[r1 l] m] E]|]; [|done]. cbn [mbind option_bind]. destruct (SQL_SUCCEEDED r1) eqn:Es; [|done].
    destruct (param_literals _ _ _ _ _ _) as [[[[r2 l2] m2] E2]|] eqn:E3; [|done]. intros [= <- <- <- <-] _. by eapply IH. }
  cbn [negb]. destruct (Nat.ltb_spec endp query); [lia|].
  assert (take (endp - query) (drop query (pq_text q)) = drop query T) as ->.
  { rewrite take_drop_commute. by replace (query + (endp - query))%nat with endp by lia. }
  assert (length_ f1 + Z.of_nat (length (drop query T)) < 2 ^ 62) as Hb1.
  { apply (f_equal length) in Hc. rewrite !length_app in Hc. pose proof (length_contents _ Hf1). pose proof (length_contents _ Hw). lia. }
  destruct (append_ok c (drop query T) f1 s1 Hf1 Hb1 A1) as (f2 & s2 & -> & Hf2 & Hc2 & [W2 M2 Er2 A2]).
  cbn [mbind option_bind]. exists f2, s2. split_and!; try done; [by rewrite Hc2|congruence..|by apply A2].
Qed.
End Loop.

(** C27. The text MADB_InsertParams builds, when memory can be had, is the statement's text
    with every parameter marker replaced by the literal of its parameter, in order: for
    any statement of a batch (from its offset, with its parameters), any row of the
    parameter arrays, and whatever has been written before. *)
Theorem InsertParams_text c mem q idx rs off poff final s ret lits m' E' :
  let endp := (off + strlen (pq_text q) off)%nat in
  let ps := take (length rs) (drop poff (pq_positions q)) in
  let filled := fill (take endp (pq_text q)) off ps lits in
  (off <= length (pq_text q))%nat -> Z.of_nat (length (pq_text q)) < 2 ^ 32 ->
  bound_params (pm_world s) q poff rs -> pq_ParamCount q = Z.of_nat (length rs) ->
  length ps = length rs -> offsets_ok off ps endp ->
  param_literals c q idx rs SQL_SUCCESS s = Some (ret, lits, m', E') ->
  wf final -> false ∉ pm_answers s -> length_ final + Z.of_nat (length filled) < 2 ^ 61 ->
  exists f' s', MADB_InsertParams c mem q off idx poff final s = Some (ret, f', s') /\ wf f' /\
    contents f' = contents final ++ filled /\ pm_world s' = pm_world s /\ pm_memory s' = m' /\ pm_Error s' = E'.
Proof.
  intros endp ps filled Ho Hl Hb Hn Hlp Hok Hp Hw Ha Hbig.
  destruct (InsertParams_fill c mem q idx endp) with (rs := rs) (off := off) (poff := poff) (final := final) (s := s) (ret := ret)
    (lits := lits) (m' := m') (E' := E') (ps := ps) as (f' & s' & ? & ? & ? & ? & ? & ? & _); try done.
  - subst endp. pose proof (strlen_le (pq_text q) off). lia.
  - by exists f', s'.
Qed.

(** *** The shape of the literals *)

(** Memory holds bytes, and so do the texts of other sources. *)
Definition memory_ok (m : memory) : Prop := forall a b, m !! a = Some b -> byte_ok b.

Record sources_ok (c : param_config) : Prop := {
  so_charset : AsciiSafe (pc_charset c);
  so_backslash : pc_no_backslash c = false;
  so_junk : byte_ok (pc_junk c);
  so_wchar : forall l n t, pc_wchar c l n = Some t -> Forall byte_ok t;
}.

Definition default_ok (w : world) (r : MADB_DescRecord) : Prop :=
  forall t, text_of (blocks w) (text r DefaultValue) = Some (Some t) -> Forall byte_ok t.

Lemma peek_bytes n : forall m a l, memory_ok m -> peek n m a = Some l -> Forall byte_ok l.
Proof.
  induction n as [|n IH]; intros m a l Hm; cbn [peek]; [by intros [= <-]|].
  destruct (m !! a) as [b|] eqn:Eb; [|done]. cbn. destruct (peek n m (a + 1)) as [l'|] eqn:El; [|done]. cbn. intros [= <-].
  constructor; [by eapply Hm|by eapply IH].
Qed.

Lemma poke_ok l : forall m a m', memory_ok m -> Forall byte_ok l -> poke m a l = Some m' -> memory_ok m'.
Proof.
  induction l as [|b l IH]; intros m a m' Hm Hl; cbn [poke]; [by intros [= <-]|]. apply Forall_cons in Hl as [Hb Hl].
  destruct (m !! a); [|done]. cbn. apply IH; [|done]. intros x y Hxy. apply (lookup_insert_Some (M := gmap Z)) in Hxy as [[_ <-]|[_ H]];
    [done|by eapply Hm].
Qed.

Lemma word_bytes t : forallb word_char t = true -> Forall byte_ok t.
Proof.
  intros H. apply Forall_forall. intros c Hc. rewrite forallb_forall in H. apply list_elem_of_In, H, word_char_ascii in Hc.
  unfold byte_ok. lia.
Qed.

Lemma quoted_text c t : sources_ok c -> Forall byte_ok t -> literal (literal_text c true t).
Proof.
  intros [Hci Hnb _ _] Ht. unfold literal_text. rewrite Hnb. apply quoted_literal. intros rest.
  destruct (escape_text_spec (pc_charset c) t Hci Ht) as [He _]. by eapply escaped_closing.
Qed.

Lemma word_text c t : sources_ok c -> forallb word_char t = true /\ dashes_single t = true /\ t <> [] ->
  literal (literal_text c false t).
Proof.
  intros [Hci Hnb _ _] (H1 & H2 & H3). unfold literal_text. rewrite Hnb, escape_text_word by done. by apply word_literal.
Qed.

Lemma decode_bound mbits ebits bits neg m e : 0 <= mbits -> decode mbits ebits bits = Finite neg m e -> 0 <= m < 2 ^ (mbits + 1).
Proof.
  intros Hb. unfold decode. pose proof (Z.mod_pos_bound bits (2 ^ mbits) ltac:(apply Z.pow_pos_nonneg; lia)).
  rewrite Z.pow_add_r by lia. repeat case_match; intros E; simplify_eq; lia.
Qed.

Lemma integer_word t v : forallb word_char (MADB_ConvertIntegerToChar t v) = true /\ dashes_single (MADB_ConvertIntegerToChar t v) = true /\
  MADB_ConvertIntegerToChar t v <> [].
Proof.
  assert (forall w z, dec_u (wrapu w z) = dec (wrapu w z) \/ w < 0) as H.
  { intros w z. destruct (Z.le_gt_cases 0 w); [left|by right]. unfold dec, wrapu.
    pose proof (Z.mod_pos_bound z (2 ^ w) ltac:(apply Z.pow_pos_nonneg; lia)). destruct (Z.ltb_spec (z mod 2 ^ w) 0); [lia|done]. }
  unfold MADB_ConvertIntegerToChar.
  repeat (destruct (case t _); [first [apply dec_word | destruct (H 64 v) as [->|]; [apply dec_word|lia] | destruct (H 32 v) as [->|]; [apply dec_word|lia]
    | destruct (H 16 v) as [->|]; [apply dec_word|lia] | destruct (H 8 v) as [->|]; [apply dec_word|lia]]|]). apply dec_word.
Qed.

Lemma integer_bytes t v : Forall byte_ok (MADB_ConvertIntegerToChar t v).
Proof. apply word_bytes, integer_word. Qed.

Lemma clock_bytes h m s : Forall byte_ok (clock_text h m s).
Proof.
  unfold clock_text. apply Forall_app. split; [apply integer_bytes|]. constructor; [by vm_compute|].
  apply Forall_app. split; [apply integer_bytes|]. constructor; [by vm_compute|apply integer_bytes].
Qed.

Lemma date_bytes y m d : Forall byte_ok (date_text y m d).
Proof.
  unfold date_text. apply Forall_app. split; [apply integer_bytes|]. constructor; [by vm_compute|].
  apply Forall_app. split; [apply integer_bytes|]. constructor; [by vm_compute|apply integer_bytes].
Qed.

Lemma fraction_bytes f : Forall byte_ok (fraction_text f).
Proof.
  unfold fraction_text. case_match; [constructor|]. constructor; [by vm_compute|]. apply Forall_app.
  split; [by apply Forall_replicate|apply integer_bytes].
Qed.

Lemma datetime_bytes st ty src E t : MADB_ConvertDatetimeToChar st ty src E = inr t -> Forall byte_ok t.
Proof.
  unfold MADB_ConvertDatetimeToChar. destruct src; repeat case_match; intros; simplify_eq;
    rewrite ?Forall_app; repeat split; auto using clock_bytes, date_bytes, fraction_bytes.
  all: repeat constructor; by vm_compute.
Qed.

(** A value of either kind, with memory that still holds bytes. *)
Definition value_ok (c : param_config) (v : value) : Prop :=
  match v with
  | Text _ _ t true _ _ => Forall byte_ok t
  | Text _ _ t false _ _ => forallb word_char t = true /\ dashes_single t = true /\ t <> []
  | Stop _ _ => True
  end.

Lemma bit_value_ok c m a E v : ConstructBitValue m a E = Some v -> value_ok c v.
Proof. unfold ConstructBitValue. destruct (m !! a) as [b|]; [|done]. cbn. intros [= <-]. cbn. by destruct (b =? 0). Qed.

Lemma wrapu_byte z : byte_ok (wrapu 8 z).
Proof. unfold byte_ok, wrapu. pose proof (Z.mod_pos_bound z (2 ^ 8)). lia. Qed.

Lemma cstr_bytes l : Forall byte_ok l -> Forall byte_ok (cstr l).
Proof. induction 1 as [|x l Hx _ IH]; [constructor|]. cbn. case_match; [constructor|by constructor]. Qed.

Section Values.
Context (c : param_config) (m : memory) (a : Z) (E : MADB_Error) (apd ipd : MADB_DescRecord).
Context (Hc : sources_ok c) (Hm : memory_ok m).

Lemma numeric_value_ok v m' : numeric_value c m a ipd E = Some (v, m') -> value_ok c v /\ memory_ok m'.
Proof using All.
  unfold numeric_value. destruct (poke _ _ _) as [m1|] eqn:Ep; [|done]. cbn [mbind option_bind].
  assert (memory_ok m1) as Hm1 by (eapply poke_ok; [exact Hm| |exact Ep]; repeat constructor; apply wrapu_byte).
  destruct (m1 !! _); [|done]. cbn [mbind option_bind]. destruct (peek _ _ _); [|done]. cbn [mbind option_bind].
  destruct (MADB_ConvertNumericToChar _ _ _) as [[[code ln] b]|] eqn:En; [|done]. cbn [mbind option_bind].
  apply (MADB_ConvertNumericToChar_all byte_ok) in En; [|by vm_compute|by vm_compute|apply Hc|].
  2: { intros x Hx%word_char_ascii. unfold byte_ok. lia. }
  pose proof (cstr_bytes b En) as Hb. set (E' := MADB_SetError _ _ _ _). destruct (code =? 0)%nat; [by intros [= <- <-]|].
  destruct (SQL_SUCCEEDED (ReturnValue E')); by intros [= <- <-].
Qed.

Lemma float_value_ok mbits ebits bits msg : 0 <= mbits <= 52 -> value_ok c (Text SQL_SUCCESS E (e17_text (decode mbits ebits bits)) false msg true).
Proof using All.
  intros Hb. apply e17_text_word. intros neg mm e He. apply decode_bound in He; [|lia].
  pose proof (Z.pow_le_mono_r 2 (mbits + 1) 53). lia.
Qed.

Lemma datetime_value_ok v : datetime_value m a apd ipd E = Some v -> value_ok c v.
Proof using All.
  unfold datetime_value. destruct (negb _); [by intros [= <-]|]. destruct (app_time_at _ _ _); [|done].
  cbn [mbind option_bind]. destruct (MADB_ConvertDatetimeToChar _ _ _ _) eqn:Ed; intros [= <-]; [done|]. by eapply datetime_bytes.
Qed.

(** Bytes taken from memory. *)
Lemma peek_value n v (k : list Z -> option value) : (forall l, Forall byte_ok l -> k l = Some v -> value_ok c v) ->
  (peek n m a ≫= k) = Some v -> value_ok c v.
Proof using All. intros Hk. destruct (peek n m a) as [l|] eqn:El; [|done]. cbn. apply Hk. by eapply peek_bytes. Qed.

Lemma char_value_ok L v : char_value c m a L ipd E = Some v -> value_ok c v.
Proof using All.
  unfold char_value. cbv zeta. destruct (_ =? SQL_BIT); [by apply bit_value_ok|]. destruct (L <? 0); [done|].
  apply peek_value. intros l Hl. destruct (_ =? SQL_DATETIME); [|by intros [= <-]].
  destruct (MADB_Str2Ts _ _ _) as [|[tm it]]; [by intros [= <-]|]. destruct (MADB_TsConversionIsPossible _ _ _ _ _); by intros [= <-].
Qed.

Lemma wchar_value_ok len v : wchar_value c m a len apd ipd E = Some v -> value_ok c v.
Proof using All.
  unfold wchar_value. cbv zeta. destruct (negb _).
  - destruct (MADB_CalculateLength _ _ _ _); [|done]. cbn [mbind option_bind]. destruct (pc_wchar c _ _) as [t|] eqn:Ew; intros [= <-]; [|done].
    apply cstr_bytes. by eapply so_wchar.
  - destruct (_ <? 0); [done|]. apply peek_value. intros l Hl. by intros [= <-].
Qed.

Lemma param_value_ok len v m' : param_value c m a len apd ipd E = Some (v, m') -> value_ok c v /\ memory_ok m'.
Proof using All.
  unfold param_value. cbv zeta.
  assert (forall o : option value, (forall x, o = Some x -> value_ok c x) -> ((fun x => (x, m)) <$> o) = Some (v, m') ->
    value_ok c v /\ memory_ok m') as Hk.
  { intros [x|] Ho; cbn; [|done]. intros [= <- <-]. split; [by apply Ho|done]. }
  destruct (_ =? SQL_C_NUMERIC); [apply numeric_value_ok|].
  destruct (_ =? SQL_C_FLOAT).
  { apply Hk. intros x. destruct (peek_u 4 m a); [|done]. cbn [mbind option_bind]. intros Hx. apply (inj Some) in Hx as <-. by apply float_value_ok. }
  destruct (case _ [SQL_FLOAT; SQL_C_DOUBLE]).
  { apply Hk. intros x. destruct (peek_u 8 m a); [|done]. cbn [mbind option_bind]. intros Hx. apply (inj Some) in Hx as <-. by apply float_value_ok. }
  destruct (case _ _); [by apply Hk, datetime_value_ok|]. destruct (_ && _); [apply Hk; by intros x [= <-]|].
  destruct (case _ [SQL_CHAR; _; _]).
  { apply Hk. intros x. destruct (value_length _ _ _ _ _) as [L|]; [|done]. cbn [mbind option_bind]. apply char_value_ok. }
  destruct (case _ [SQL_WCHAR; _; _]); [by apply Hk, wchar_value_ok|].
  destruct (_ =? SQL_C_BIT); [apply Hk; intros x; apply bit_value_ok|]. destruct (case _ _).
  { apply Hk. intros x. destruct (value_length _ _ _ _ _) as [L|]; [|done]. cbn [mbind option_bind].
    destruct (L <? 0); [done|]. apply peek_value. intros l Hl. by intros [= <-]. }
  apply Hk. intros x. destruct (peek_u _ _ _) as [z|]; [|done]. cbn [mbind option_bind]. intros Hx. apply (inj Some) in Hx as <-. apply integer_word.
Qed.

End Values.

Lemma value_literal c ret E t quotes msg sets : sources_ok c -> value_ok c (Text ret E t quotes msg sets) -> literal (literal_text c quotes t).
Proof. intros Hc. destruct quotes; cbn; [by eapply quoted_text|by eapply word_text]. Qed.

Lemma null_literal : literal (chars "NULL").
Proof. apply word_literal; by vm_compute. Qed.

Lemma param_literal_shape c q apd ipd idx s ret lit m' E' : sources_ok c -> memory_ok (pm_memory s) -> default_ok (pm_world s) apd ->
  param_literal c q apd ipd idx s = Some (ret, lit, m', E') -> literal lit /\ memory_ok m'.
Proof.
  intros Hc Hm Hd. unfold param_literal. destruct (descs _ !! Apd _); [|done]. destruct (descs _ !! Ipd _); [|done].
  cbn [fmap option_fmap option_map mbind option_bind]. destruct (bound_at _ _ (ptr (num apd IndicatorPtr)) _ _ ≫= _) as [ind|]; [|done].
  cbn [mbind option_bind]. destruct (bound_at _ _ (ptr (num apd OctetLengthPtr)) _ _ ≫= _) as [len|]; [|done].
  cbn [mbind option_bind]. destruct (if IS_DAE len then _ else _) as [dp|]; [|done]. cbn [mbind option_bind].
  destruct (text_of _ _) as [dv|] eqn:Ed; [|done]. cbn [mbind option_bind]. destruct (IS_DAE len && _); [done|].
  destruct (bool_decide (ind = Some SQL_NULL_DATA)); [intros [= <- <- <- <-]; split; [apply null_literal|done]|].
  destruct (bool_decide _).
  - destruct dv as [t|]; [|intros [= <- <- <- <-]; split; [apply null_literal|done]].
    destruct (_ <? 2 ^ 60); [|done]. intros [= <- <- <- <-]. split; [|done]. apply quoted_text; [exact Hc|]. by apply Hd.
  - destruct (param_value _ _ _ _ _ _ _) as [[v m1]|] eqn:Ev; [|done]. cbn [mbind option_bind].
    eapply param_value_ok in Ev as [Hv Hm1]; [|exact Hc|exact Hm]. destruct v as [r0 E0 t quotes msg sets|]; [|done].
    destruct (_ <? 2 ^ 60); [|done]. intros [= <- <- <- <-]. split; [by eapply value_literal|done].
Qed.

Lemma param_literals_shape c q idx rs : forall ret s ret' lits m' E', sources_ok c -> memory_ok (pm_memory s) ->
  Forall (default_ok (pm_world s)) rs.*1 -> param_literals c q idx rs ret s = Some (ret', lits, m', E') -> Forall literal lits /\ length lits = length rs.
Proof.
  induction rs as [|[apd ipd] rs IH]; intros ret s ret' lits m' E' Hc Hm Hd; cbn [param_literals]; [by intros [= <- <- <- <-]|].
  apply Forall_cons in Hd as [Hd0 Hd].
  destruct (param_literal _ _ _ _ _ _) as [[[[r1 lit] m1] E1]|] eqn:El; [|done]. cbn [mbind option_bind].
  apply param_literal_shape in El as [Hl Hm1]; [|done..]. destruct (SQL_SUCCEEDED r1); [|done].
  destruct (param_literals _ _ _ _ _ _) as [[[[r2 lits2] m2] E2]|] eqn:El2; [|done]. intros [= <- <- <- <-].
  apply IH in El2 as [H1 H2]; [|done..]. split; [by constructor|]. cbn. by rewrite H2.
Qed.

Lemma take_cstr l : take (length (cstr l)) l = cstr l.
Proof. induction l as [|x l IH]; [done|]. cbn. destruct (x =? 0); [done|]. cbn. by rewrite IH. Qed.

(** C5. What the values of parameters can do to the structure of the query they are inserted
    into.  For a query whose quotes are closed and whose parameter offsets are the markers of its text, with every
    parameter bound and a server that understands backslash escapes, [MADB_InsertParams] succeeds when memory can be had.
    Its result, cut into comments, quoted strings and characters as the driver's scanner
    does, has the pieces of the query with each marker replaced by the pieces of one
    literal, a quoted string or a word, exactly when no negative number is put directly behind a minus sign
    ([dashes_apart]): then no value of any type ends a string early, opens a
    comment or adds a marker.  A negative number directly behind a minus sign makes two dashes,
    which this scanner takes for the start of a comment. *)
Theorem InsertParams_structure c mem q idx rs C final s ret lits m' E' :
  cstr_at (pq_text q) 0 = C -> pq_positions q = placeholders (length C) 0 C -> Z.of_nat (length (pq_text q)) < 2 ^ 32 ->
  length rs = length (pq_positions q) -> bound_params (pm_world s) q 0 rs -> pq_ParamCount q = Z.of_nat (length rs) ->
  param_literals c q idx rs SQL_SUCCESS s = Some (ret, lits, m', E') -> sources_ok c -> memory_ok (pm_memory s) ->
  Forall (default_ok (pm_world s)) rs.*1 -> quotes_closed (length C) C = true ->
  wf final -> contents final = [] -> false ∉ pm_answers s -> Z.of_nat (length (fill C 0 (pq_positions q) lits)) < 2 ^ 61 ->
  exists f' s', MADB_InsertParams c mem q 0 idx 0 final s = Some (ret, f', s') /\
    (pieces (length (contents f')) (contents f') = replace (pieces (length C) C) lits <-> dashes_apart false (pieces (length C) C) lits = true) /\
    Forall literal lits /\ length lits = length (pq_positions q).
Proof.
  intros HC Hps Hlen Hrs Hb Hn Hp Hsrc Hm Hdv Hq Hw Hc0 Ha Hbig.
  destruct (param_literals_shape _ _ _ _ _ _ _ _ _ _ Hsrc Hm Hdv Hp) as [HF HL].
  assert (strlen (pq_text q) 0 = length C) as Hs by (unfold strlen; by rewrite HC).
  assert (take (length C) (pq_text q) = C) as HT by (subst C; unfold cstr_at; apply take_cstr).
  assert (length_ final = 0) as Hl0 by (rewrite <- length_contents, Hc0 by done; done).
  assert (length C <= length (pq_text q))%nat as Hend by (rewrite <- Hs; pose proof (strlen_le (pq_text q) 0); lia).
  destruct (InsertParams_fill c mem q idx (length C) Hend Hlen rs 0 0 final s ret lits m' E' (pq_positions q))
    as (f' & s' & E & Hf & Hc & _); try done.
  - by rewrite drop_0, take_ge by lia.
  - rewrite Hps. by apply (placeholders_offsets (length C) 0 C 0).
  - by rewrite HT, Hl0.
  - exists f', s'. split; [done|]. rewrite Hc, Hc0, HT, Hps. cbn [app]. split_and!; [by apply fill_pieces|done|congruence].
Qed.

(** *** A statement with an integer and a string *)

Definition sample_memory : memory :=
  list_to_map (zip (Z.add 1000 ∘ Z.of_nat <$> seq 0 4) [249; 255; 255; 255] ++
               zip (Z.add 2000 ∘ Z.of_nat <$> seq 0 8) (chars "a'; -- " ++ [0])).

Definition sample_apd (type data : Z) : MADB_DescRecord :=
  set_num (set_num (set_num zero_record ConciseType type) DataPtr data) inUse 1.
Definition sample_records : list (MADB_DescRecord * MADB_DescRecord) :=
  [(sample_apd SQL_C_LONG 1000, set_num zero_record Type_ SQL_INTEGER);
   (sample_apd SQL_C_CHAR 2000, set_num zero_record Type_ SQL_VARCHAR)].
Definition sample_param_desc (type : Z) (rs : list MADB_DescRecord) : MADB_Desc :=
  MkDesc (MkHeader 0 1 0 0 0 2 0) type false rs [] calloc_error.
Definition sample_world : world :=
  MkWorld {[ 1%positive := sample_param_desc MADB_DESC_APD sample_records.*1;
             2%positive := sample_param_desc MADB_DESC_IPD sample_records.*2 ]} ∅ [] ∅.
Definition sample_state (answers : list bool) : param_state := MkParamState sample_world sample_memory calloc_error answers.

Definition sample_query : list Z := chars "insert into t values(5 - ?, '?', ?) -- ?".
Definition sample_stmt : param_stmt :=
  MkParamStmt (MkStmtDescs 1 1 2 2 1 1) 2 0 (sample_query ++ [0]) (placeholders (length sample_query) 0 sample_query).
Definition sample_config : param_config := MkParamConfig utf8mb4_info false (fun _ _ => None) 170 false.

Definition sample_final : MADB_DynString := Dyn (Some (0 :: replicate 31 170)) 0 32 32.
Definition sample_literals : list (list Z) := [chars "-7"; chars "'a\'; -- '"].

Lemma sample_final_wf : wf sample_final.
Proof. eexists. split; [reflexivity|]. vm_compute. by repeat split. Qed.

Lemma sample_bound : bound_params sample_world sample_stmt 0 sample_records.
Proof.
  split.
  - intros h [-> | ->]; eexists; (split; [reflexivity|]); vm_compute; congruence.
  - intros [|[|j]] r Hr; [| |by destruct j]; cbn in Hr; injection Hr as <-; (split; [by vm_compute|]); vm_compute; congruence.
  - intros [|[|j]] r Hr; [| |by destruct j]; cbn in Hr; injection Hr as <-; by vm_compute.
Qed.

Lemma sample_literals_of answers :
  param_literals sample_config sample_stmt 0 sample_records SQL_SUCCESS (sample_state answers) =
    Some (SQL_SUCCESS, sample_literals, sample_memory, calloc_error).
Proof. vm_compute. reflexivity. Qed.

Lemma InsertParams_text_witness :
  exists f' s', MADB_InsertParams sample_config 0 sample_stmt 0 0 0 sample_final (sample_state []) = Some (SQL_SUCCESS, f', s') /\
    contents f' = chars "insert into t values(5 - -7, '?', 'a\'; -- ') -- ?".
Proof.
  destruct (InsertParams_text sample_config 0 sample_stmt 0 sample_records 0 0 sample_final (sample_state []) SQL_SUCCESS
    sample_literals sample_memory calloc_error ltac:(lia) ltac:(by vm_compute) sample_bound eq_refl eq_refl
    ltac:(vm_compute; lia) (sample_literals_of []) sample_final_wf ltac:(by apply not_elem_of_nil) ltac:(by vm_compute))
    as (f' & s' & E & _ & Hc & _).
  exists f', s'. split; [exact E|]. rewrite Hc. vm_compute. reflexivity.
Defined.

Lemma sample_sources : sources_ok sample_config.
Proof. split; [apply utf8mb4_safe|done|by vm_compute|done]. Qed.

Lemma sample_memory_ok : memory_ok sample_memory.
Proof.
  intros a b H. assert (forall x, x ∈ map_to_list sample_memory -> byte_ok x.2) as HF.
  { apply Forall_forall. vm_compute. repeat constructor; congruence. }
  apply (HF (a, b)). by apply elem_of_map_to_list.
Qed.

Lemma sample_defaults : Forall (default_ok sample_world) sample_records.*1.
Proof. repeat constructor; intros t Ht; by vm_compute in Ht. Qed.

Lemma InsertParams_structure_witness :
  exists f' s', MADB_InsertParams sample_config 0 sample_stmt 0 0 0 sample_final (sample_state []) = Some (SQL_SUCCESS, f', s') /\
    pieces (length (contents f')) (contents f') = replace (pieces (length sample_query) sample_query) sample_literals.
Proof.
  destruct (InsertParams_structure sample_config 0 sample_stmt 0 sample_records sample_query sample_final (sample_state []) SQL_SUCCESS
    sample_literals sample_memory calloc_error ltac:(by vm_compute) ltac:(reflexivity) ltac:(by vm_compute) ltac:(by vm_compute) sample_bound ltac:(by vm_compute)
    (sample_literals_of []) sample_sources sample_memory_ok sample_defaults
    ltac:(by vm_compute) sample_final_wf ltac:(by vm_compute) ltac:(by apply not_elem_of_nil) ltac:(by vm_compute))
    as (f' & s' & E & Hp & _).
  exists f', s'. split; [exact E|]. apply Hp. vm_compute. reflexivity.
Defined.

(** A negative number directly behind a minus sign: to the scanner of the driver what follows
    it in the query is a comment. *)
Theorem negative_opens_comment :
  (fun '(ret, f, _) => (ret, contents f, pieces (length (contents f)) (contents f))) <$>
    MADB_InsertParams sample_config 0
      (MkParamStmt (MkStmtDescs 1 1 2 2 1 1) 1 0 (chars "select 5-? from t" ++ [0]) [9]%nat) 0 0 0 sample_final (sample_state [])
  = Some (SQL_SUCCESS, chars "select 5--7 from t", (Char <$> chars "select 5") ++ [Comment (chars "--7 from t")]).
Proof. vm_compute. reflexivity. Qed.

(** The result of copying the text in front of a marker is not looked at: when memory
    runs out there, the parameters are written without it, and the call still succeeds. *)
Theorem InsertParams_loses_text :
  (fun '(ret, f, _) => (ret, contents f)) <$>
    MADB_InsertParams sample_config 0
      (MkParamStmt (MkStmtDescs 1 1 2 2 1 1) 2 0 (chars "select 'a text that does not fit the buffer', ?, ?" ++ [0]) [46; 49]%nat)
      0 0 0 sample_final (sample_state [false])
  = Some (SQL_SUCCESS, chars "-7, 'a\'; -- '").
Proof. vm_compute. reflexivity. Qed.

End ParamsProps.
