(* ===== verification/ClientLib.v ===== *)
(** * ClientLib: the connection of the client library

    Models the text protocol side of [libmariadb/libmariadb/mariadb_lib.c]: sending a
    query, reading its results, storing, using and freeing a result, stepping to the
    next one.  The packets are decoded: the server answers a query with a list of
    [response]s, which the connection reads one by one.  The server is an argument.
    Allocations of the library succeed, automatic reconnection is off. *)

From Stdlib Require Import ZArith Lia.
From stdpp Require Import base strings numbers option list.
From S2P Require Import Prelude Odbc Errors SqlTypes Ird.
Import ErrorOps.

Definition MYSQL_STATUS_READY := 0.
Definition MYSQL_STATUS_GET_RESULT := 1.
Definition MYSQL_STATUS_USE_RESULT := 2.

Definition row := list (option (list Z)).

(** One answer to a query.  The last packet of each answer says whether another one
    follows; [flag] is what the packet behind the columns of a result set says.  An
    error can come instead of the end of the rows. *)
Inductive response :=
| RespOk (affected : Z)
| RespRows (cols : list column) (flag : bool) (rows : list row) (broken : option native_diag)
| RespErr (d : native_diag)
| RespLost.

Class Server (A : Type) := respond : list Z -> A -> list response * A.

(** The connection ([MYSQL]): [my_more] is SERVER_MORE_RESULTS_EXIST of [server_status],
    [my_pending] the answers not read yet and [my_unread] the rows of the current result
    that are still to be read, with what comes behind them. *)
Record MYSQL (A : Type) := MkMysql {
  my_status : Z;
  my_more : bool;
  my_connected : bool;
  my_fields : option (list column);
  my_field_count : Z;
  my_affected_rows : Z;
  my_diag : native_diag;
  my_pending : list response;
  my_unread : list row;
  my_broken : option native_diag;
  my_server : A;
}.
Arguments MkMysql {A}. Arguments my_status {A}. Arguments my_more {A}. Arguments my_connected {A}.
Arguments my_fields {A}. Arguments my_field_count {A}. Arguments my_affected_rows {A}. Arguments my_diag {A}.
Arguments my_pending {A}. Arguments my_unread {A}. Arguments my_broken {A}. Arguments my_server {A}.

(** A result ([MYSQL_RES]): [res_data] is NULL for an unbuffered one, [res_handle] tells
    whether it still has its connection. *)
Record MYSQL_RES := MkRes {
  res_fields : list column;
  res_data : option (list row);
  res_handle : bool;
}.

Module Client.

Definition SQLSTATE_UNKNOWN : list Z := chars "HY000".
Definition CR_SERVER_GONE_ERROR := 2006.
Definition CR_SERVER_LOST := 2013.
Definition CR_COMMANDS_OUT_OF_SYNC := 2014.
Definition MYSQL_COUNT_ERROR := 2 ^ 64 - 1.

Definition server_gone := Native SQLSTATE_UNKNOWN (chars "MySQL server has gone away") CR_SERVER_GONE_ERROR.
Definition server_lost := Native SQLSTATE_UNKNOWN (chars "Lost connection to MySQL server during query") CR_SERVER_LOST.
Definition out_of_sync := Native SQLSTATE_UNKNOWN (chars "Commands out of sync; you can't run this command now") CR_COMMANDS_OUT_OF_SYNC.
Definition no_diag := Native (chars "00000") [] 0.

Section Connection.
Context {A : Type}.
Implicit Types m : MYSQL A.

Definition set_diag m (d : native_diag) : MYSQL A :=
  MkMysql (my_status m) (my_more m) (my_connected m) (my_fields m) (my_field_count m) (my_affected_rows m) d
    (my_pending m) (my_unread m) (my_broken m) (my_server m).
Definition set_status m (n : Z) : MYSQL A :=
  MkMysql n (my_more m) (my_connected m) (my_fields m) (my_field_count m) (my_affected_rows m) (my_diag m)
    (my_pending m) (my_unread m) (my_broken m) (my_server m).
Definition set_more m (b : bool) : MYSQL A :=
  MkMysql (my_status m) b (my_connected m) (my_fields m) (my_field_count m) (my_affected_rows m) (my_diag m)
    (my_pending m) (my_unread m) (my_broken m) (my_server m).
Definition set_fields m (f : option (list column)) (n : Z) : MYSQL A :=
  MkMysql (my_status m) (my_more m) (my_connected m) f n (my_affected_rows m) (my_diag m)
    (my_pending m) (my_unread m) (my_broken m) (my_server m).
Definition set_affected m (n : Z) : MYSQL A :=
  MkMysql (my_status m) (my_more m) (my_connected m) (my_fields m) (my_field_count m) n (my_diag m)
    (my_pending m) (my_unread m) (my_broken m) (my_server m).
Definition set_pending m (p : list response) : MYSQL A :=
  MkMysql (my_status m) (my_more m) (my_connected m) (my_fields m) (my_field_count m) (my_affected_rows m) (my_diag m)
    p (my_unread m) (my_broken m) (my_server m).
Definition set_unread m (rs : list row) (broken : option native_diag) : MYSQL A :=
  MkMysql (my_status m) (my_more m) (my_connected m) (my_fields m) (my_field_count m) (my_affected_rows m) (my_diag m)
    (my_pending m) rs broken (my_server m).
Definition set_connected m (b : bool) : MYSQL A :=
  MkMysql (my_status m) (my_more m) b (my_fields m) (my_field_count m) (my_affected_rows m) (my_diag m)
    (my_pending m) (my_unread m) (my_broken m) (my_server m).
Definition set_server m (a : A) : MYSQL A :=
  MkMysql (my_status m) (my_more m) (my_connected m) (my_fields m) (my_field_count m) (my_affected_rows m) (my_diag m)
    (my_pending m) (my_unread m) (my_broken m) a.

Definition free_old_query m : MYSQL A := set_fields m None 0.

(** An error packet, and the end of the connection, in [ma_net_safe_read]. *)
Definition error_packet m (d : native_diag) : MYSQL A := set_more (set_diag m d) false.
Definition end_server m : MYSQL A := set_diag (free_old_query (set_connected m false)) server_lost.

(** [mthd_my_read_query_result]: the next answer; [true] is an error. *)
Definition read_query_result m : bool * MYSQL A :=
  match my_pending m with
  | [] | RespLost :: _ => (true, end_server m)
  | RespErr d :: rest => (true, error_packet (set_pending m rest) d)
  | RespOk affected :: rest =>
      (false, set_more (set_affected (free_old_query (set_pending m rest)) affected) (bool_decide (rest <> [])))
  | RespRows cols flag rows broken :: rest =>
      (false, set_unread (set_more (set_status (set_fields (set_pending m rest) (Some cols) (Z.of_nat (length cols)))
                MYSQL_STATUS_GET_RESULT) flag) rows broken)
  end.

(** [mysql_real_query], with [mthd_my_send_cmd], on a connection without
    MYSQL_OPT_RECONNECT: [mariadb_reconnect] then answers at once that the server has gone
    away, where it would otherwise open a new session. *)
Definition mysql_real_query `{Server A} (query : list Z) m : bool * MYSQL A :=
  let m1 := free_old_query m in
  if negb (my_connected m1) then (true, set_diag m1 server_gone)
  else if negb (my_status m1 =? MYSQL_STATUS_READY) || my_more m1 then (true, set_diag m1 out_of_sync)
  else
    let '(rs, a) := respond query (my_server m1) in
    read_query_result (set_pending (set_server (set_affected (set_diag m1 no_diag) MYSQL_COUNT_ERROR) a) rs).

(** [mthd_my_read_rows]: all rows that are left. *)
Definition read_rows m : option (list row) * MYSQL A :=
  match my_broken m with
  | Some d => (None, error_packet (set_unread m [] None) d)
  | None => (Some (my_unread m), set_more (set_unread m [] None) (bool_decide (my_pending m <> [])))
  end.

Definition mysql_store_result m : option MYSQL_RES * MYSQL A :=
  match my_fields m with
  | None => (None, m)
  | Some cols =>
      if negb (my_status m =? MYSQL_STATUS_GET_RESULT) then (None, set_diag m out_of_sync)
      else
        match read_rows (set_status m MYSQL_STATUS_READY) with
        | (None, m1) => (None, m1)
        | (Some rs, m1) =>
            (Some (MkRes cols (Some rs) false),
             set_fields (set_affected m1 (Z.of_nat (length rs))) None (my_field_count m1))
        end
  end.

Definition mysql_use_result m : option MYSQL_RES * MYSQL A :=
  match my_fields m with
  | None => (None, m)
  | Some cols =>
      if negb (my_status m =? MYSQL_STATUS_GET_RESULT) then (None, set_diag m out_of_sync)
      else (Some (MkRes cols None true), set_status (set_fields m None (my_field_count m)) MYSQL_STATUS_USE_RESULT)
  end.

(** [mthd_my_skip_result]: the rows are read and dropped; the flag for more results is
    only changed by an error. *)
Definition mthd_my_skip_result m : MYSQL A :=
  match my_broken m with
  | Some d => error_packet (set_unread m [] None) d
  | None => set_unread m [] None
  end.

Definition mysql_free_result (r : option MYSQL_RES) m : MYSQL A :=
  match r with
  | Some r =>
      if res_handle r && (my_status m =? MYSQL_STATUS_USE_RESULT)
      then set_status (mthd_my_skip_result m) MYSQL_STATUS_READY else m
  | None => m
  end.

Definition mysql_more_results m : bool := my_more m.

(** [mysql_next_result]: 0, an error (1), or -1 when there are no more. *)
Definition mysql_next_result m : Z * MYSQL A :=
  if negb (my_status m =? MYSQL_STATUS_READY) then (1, set_diag m out_of_sync)
  else
    let m1 := set_affected (set_diag m no_diag) MYSQL_COUNT_ERROR in
    if my_more m1 then let '(failed, m2) := read_query_result m1 in (if (failed : bool) then 1 else 0, m2)
    else (-1, m1).

End Connection.

End Client.
