(* ===== verification/StmtState.v ===== *)
(** * StmtState: the state of a statement

    The statement handle ([MADB_Stmt] of [ma_odbc.h]) as preparing, executing and closing
    use it.  The structures of the client library and its results are handles into
    tables of live objects, so that sharing, double frees and dangling pointers are
    visible: an operation on an object that is gone has no result. *)

From Stdlib Require Import ZArith Lia.
From stdpp Require Import base strings numbers option list gmap.
From S2P Require Import Prelude Odbc Errors Parse SqlTypes Desc Ird StmtAttr Params ClientLib.
Import ErrorOps DescOps Params Client.

(** [MYSQL_STMT]: [hs_result] is the result whose rows it points at. *)
Record MYSQL_STMT := MkHandle {
  hs_affected_rows : Z;
  hs_fields : list column;
  hs_field_count : Z;
  hs_bind_param_done : bool;
  hs_state : Z;
  hs_result : option positive;
}.

Definition MYSQL_STMT_INITTED := 0.
Definition MYSQL_STMT_USE_OR_STORE_CALLED := 4.

(** The states of a statement. *)
Definition MADB_SS_INITED := 0.
Definition MADB_SS_EMULATED := 1.
Definition MADB_SS_PREPARED := 2.
Definition MADB_SS_EXECUTED := 3.
Definition MADB_SS_OUTPARAMSFETCHED := 4.

(** What does not change: the statement's own handle, the settings of the connection and
    of the statement, the charset, the number of records that can be allocated. *)
Record stmt_config := MkStmtConfig {
  sc_self : positive;
  sc_params : param_config;
  sc_mem : nat;
  sc_ird : ird_config;
  sc_NoSsps : bool;
  sc_NoCache : bool;
  sc_FallbackCsps : bool;
  sc_RewriteCallSP : bool;
  sc_Options : MADB_StmtOptions;
}.

Record MADB_Stmt (A : Type) := MkStmt {
  ms_params : param_state; (** descriptors, the application's memory, [Error], the allocator *)
  ms_mysql : MYSQL A; (** [Connection->mariadb] *)
  ms_handles : gmap positive MYSQL_STMT; (** the live MYSQL_STMT *)
  ms_results : gmap positive MYSQL_RES; (** the live MYSQL_RES *)
  ms_sent : list (list Z); (** the texts handed to mysql_real_query so far *)
  ms_locks : Z; (** how often this thread holds the connection's lock *)
  ms_stmt : option positive;
  ms_MultiStmts : option (list (option positive));
  ms_CspsMultiStmtResult : option (list (option positive));
  ms_MultiStmtNr : nat;
  ms_CspsResult : option positive;
  ms_Query : MADB_QUERY;
  ms_ParamCount : Z;
  ms_binds : bool; (** [params] is allocated *)
  ms_RebindParams : bool;
  ms_State : Z;
  ms_AffectedRows : Z;
  ms_LastRowFetched : Z;
  ms_Position : Z; (** [Cursor.Position] *)
  ms_Next : option nat; (** [Cursor.Next] *)
  ms_CharOffset : option (list Z);
  ms_Lengths : option (list Z);
  ms_result : bool; (** [result] is allocated *)
  ms_metadata : option (list column);
  ms_PutParam : Z;
  ms_Status : Z;
  ms_PositionedCommand : bool;
  ms_PositionedCursor : option positive;
  ms_ForceCsps : bool;
}.
Arguments MkStmt {A}. Arguments ms_params {A}. Arguments ms_mysql {A}. Arguments ms_handles {A}.
Arguments ms_results {A}. Arguments ms_sent {A}. Arguments ms_locks {A}. Arguments ms_stmt {A}.
Arguments ms_MultiStmts {A}. Arguments ms_CspsMultiStmtResult {A}. Arguments ms_MultiStmtNr {A}.
Arguments ms_CspsResult {A}. Arguments ms_Query {A}. Arguments ms_ParamCount {A}. Arguments ms_binds {A}.
Arguments ms_RebindParams {A}. Arguments ms_State {A}. Arguments ms_AffectedRows {A}. Arguments ms_LastRowFetched {A}.
Arguments ms_Position {A}. Arguments ms_Next {A}. Arguments ms_CharOffset {A}. Arguments ms_Lengths {A}.
Arguments ms_result {A}. Arguments ms_metadata {A}. Arguments ms_PutParam {A}. Arguments ms_Status {A}.
Arguments ms_PositionedCommand {A}. Arguments ms_PositionedCursor {A}. Arguments ms_ForceCsps {A}.

Module StmtState.

Section State.
Context {A : Type}.
Implicit Types s : MADB_Stmt A.

Definition set_params s (x : param_state) : MADB_Stmt A :=
  MkStmt x (ms_mysql s) (ms_handles s) (ms_results s) (ms_sent s) (ms_locks s) (ms_stmt s) (ms_MultiStmts s)
    (ms_CspsMultiStmtResult s) (ms_MultiStmtNr s) (ms_CspsResult s) (ms_Query s) (ms_ParamCount s) (ms_binds s)
    (ms_RebindParams s) (ms_State s) (ms_AffectedRows s) (ms_LastRowFetched s) (ms_Position s) (ms_Next s)
    (ms_CharOffset s) (ms_Lengths s) (ms_result s) (ms_metadata s) (ms_PutParam s) (ms_Status s)
    (ms_PositionedCommand s) (ms_PositionedCursor s) (ms_ForceCsps s).
Definition set_mysql s (x : MYSQL A) : MADB_Stmt A :=
  MkStmt (ms_params s) x (ms_handles s) (ms_results s) (ms_sent s) (ms_locks s) (ms_stmt s) (ms_MultiStmts s)
    (ms_CspsMultiStmtResult s) (ms_MultiStmtNr s) (ms_CspsResult s) (ms_Query s) (ms_ParamCount s) (ms_binds s)
    (ms_RebindParams s) (ms_State s) (ms_AffectedRows s) (ms_LastRowFetched s) (ms_Position s) (ms_Next s)
    (ms_CharOffset s) (ms_Lengths s) (ms_result s) (ms_metadata s) (ms_PutParam s) (ms_Status s)
    (ms_PositionedCommand s) (ms_PositionedCursor s) (ms_ForceCsps s).
Definition set_handles s (x : gmap positive MYSQL_STMT) : MADB_Stmt A :=
  MkStmt (ms_params s) (ms_mysql s) x (ms_results s) (ms_sent s) (ms_locks s) (ms_stmt s) (ms_MultiStmts s)
    (ms_CspsMultiStmtResult s) (ms_MultiStmtNr s) (ms_CspsResult s) (ms_Query s) (ms_ParamCount s) (ms_binds s)
    (ms_RebindParams s) (ms_State s) (ms_AffectedRows s) (ms_LastRowFetched s) (ms_Position s) (ms_Next s)
    (ms_CharOffset s) (ms_Lengths s) (ms_result s) (ms_metadata s) (ms_PutParam s) (ms_Status s)
    (ms_PositionedCommand s) (ms_PositionedCursor s) (ms_ForceCsps s).
Definition set_results s (x : gmap positive MYSQL_RES) : MADB_Stmt A :=
  MkStmt (ms_params s) (ms_mysql s) (ms_handles s) x (ms_sent s) (ms_locks s) (ms_stmt s) (ms_MultiStmts s)
    (ms_CspsMultiStmtResult s) (ms_MultiStmtNr s) (ms_CspsResult s) (ms_Query s) (ms_ParamCount s) (ms_binds s)
    (ms_RebindParams s) (ms_State s) (ms_AffectedRows s) (ms_LastRowFetched s) (ms_Position s) (ms_Next s)
    (ms_CharOffset s) (ms_Lengths s) (ms_result s) (ms_metadata s) (ms_PutParam s) (ms_Status s)
    (ms_PositionedCommand s) (ms_PositionedCursor s) (ms_ForceCsps s).
Definition set_sent s (x : list (list Z)) : MADB_Stmt A :=
  MkStmt (ms_params s) (ms_mysql s) (ms_handles s) (ms_results s) x (ms_locks s) (ms_stmt s) (ms_MultiStmts s)
    (ms_CspsMultiStmtResult s) (ms_MultiStmtNr s) (ms_CspsResult s) (ms_Query s) (ms_ParamCount s) (ms_binds s)
    (ms_RebindParams s) (ms_State s) (ms_AffectedRows s) (ms_LastRowFetched s) (ms_Position s) (ms_Next s)
    (ms_CharOffset s) (ms_Lengths s) (ms_result s) (ms_metadata s) (ms_PutParam s) (ms_Status s)
    (ms_PositionedCommand s) (ms_PositionedCursor s) (ms_ForceCsps s).
Definition set_locks s (x : Z) : MADB_Stmt A :=
  MkStmt (ms_params s) (ms_mysql s) (ms_handles s) (ms_results s) (ms_sent s) x (ms_stmt s) (ms_MultiStmts s)
    (ms_CspsMultiStmtResult s) (ms_MultiStmtNr s) (ms_CspsResult s) (ms_Query s) (ms_ParamCount s) (ms_binds s)
    (ms_RebindParams s) (ms_State s) (ms_AffectedRows s) (ms_LastRowFetched s) (ms_Position s) (ms_Next s)
    (ms_CharOffset s) (ms_Lengths s) (ms_result s) (ms_metadata s) (ms_PutParam s) (ms_Status s)
    (ms_PositionedCommand s) (ms_PositionedCursor s) (ms_ForceCsps s).
Definition set_stmt s (x : option positive) : MADB_Stmt A :=
  MkStmt (ms_params s) (ms_mysql s) (ms_handles s) (ms_results s) (ms_sent s) (ms_locks s) x (ms_MultiStmts s)
    (ms_CspsMultiStmtResult s) (ms_MultiStmtNr s) (ms_CspsResult s) (ms_Query s) (ms_ParamCount s) (ms_binds s)
    (ms_RebindParams s) (ms_State s) (ms_AffectedRows s) (ms_LastRowFetched s) (ms_Position s) (ms_Next s)
    (ms_CharOffset s) (ms_Lengths s) (ms_result s) (ms_metadata s) (ms_PutParam s) (ms_Status s)
    (ms_PositionedCommand s) (ms_PositionedCursor s) (ms_ForceCsps s).
Definition set_MultiStmts s (x : option (list (option positive))) : MADB_Stmt A :=
  MkStmt (ms_params s) (ms_mysql s) (ms_handles s) (ms_results s) (ms_sent s) (ms_locks s) (ms_stmt s) x
    (ms_CspsMultiStmtResult s) (ms_MultiStmtNr s) (ms_CspsResult s) (ms_Query s) (ms_ParamCount s) (ms_binds s)
    (ms_RebindParams s) (ms_State s) (ms_AffectedRows s) (ms_LastRowFetched s) (ms_Position s) (ms_Next s)
    (ms_CharOffset s) (ms_Lengths s) (ms_result s) (ms_metadata s) (ms_PutParam s) (ms_Status s)
    (ms_PositionedCommand s) (ms_PositionedCursor s) (ms_ForceCsps s).
Definition set_CspsMultiStmtResult s (x : option (list (option positive))) : MADB_Stmt A :=
  MkStmt (ms_params s) (ms_mysql s) (ms_handles s) (ms_results s) (ms_sent s) (ms_locks s) (ms_stmt s)
    (ms_MultiStmts s) x (ms_MultiStmtNr s) (ms_CspsResult s) (ms_Query s) (ms_ParamCount s) (ms_binds s)
    (ms_RebindParams s) (ms_State s) (ms_AffectedRows s) (ms_LastRowFetched s) (ms_Position s) (ms_Next s)
    (ms_CharOffset s) (ms_Lengths s) (ms_result s) (ms_metadata s) (ms_PutParam s) (ms_Status s)
    (ms_PositionedCommand s) (ms_PositionedCursor s) (ms_ForceCsps s).
Definition set_MultiStmtNr s (x : nat) : MADB_Stmt A :=
  MkStmt (ms_params s) (ms_mysql s) (ms_handles s) (ms_results s) (ms_sent s) (ms_locks s) (ms_stmt s)
    (ms_MultiStmts s) (ms_CspsMultiStmtResult s) x (ms_CspsResult s) (ms_Query s) (ms_ParamCount s) (ms_binds s)
    (ms_RebindParams s) (ms_State s) (ms_AffectedRows s) (ms_LastRowFetched s) (ms_Position s) (ms_Next s)
    (ms_CharOffset s) (ms_Lengths s) (ms_result s) (ms_metadata s) (ms_PutParam s) (ms_Status s)
    (ms_PositionedCommand s) (ms_PositionedCursor s) (ms_ForceCsps s).
Definition set_CspsResult s (x : option positive) : MADB_Stmt A :=
  MkStmt (ms_params s) (ms_mysql s) (ms_handles s) (ms_results s) (ms_sent s) (ms_locks s) (ms_stmt s)
    (ms_MultiStmts s) (ms_CspsMultiStmtResult s) (ms_MultiStmtNr s) x (ms_Query s) (ms_ParamCount s) (ms_binds s)
    (ms_RebindParams s) (ms_State s) (ms_AffectedRows s) (ms_LastRowFetched s) (ms_Position s) (ms_Next s)
    (ms_CharOffset s) (ms_Lengths s) (ms_result s) (ms_metadata s) (ms_PutParam s) (ms_Status s)
    (ms_PositionedCommand s) (ms_PositionedCursor s) (ms_ForceCsps s).
Definition set_Query s (x : MADB_QUERY) : MADB_Stmt A :=
  MkStmt (ms_params s) (ms_mysql s) (ms_handles s) (ms_results s) (ms_sent s) (ms_locks s) (ms_stmt s)
    (ms_MultiStmts s) (ms_CspsMultiStmtResult s) (ms_MultiStmtNr s) (ms_CspsResult s) x (ms_ParamCount s)
    (ms_binds s) (ms_RebindParams s) (ms_State s) (ms_AffectedRows s) (ms_LastRowFetched s) (ms_Position s)
    (ms_Next s) (ms_CharOffset s) (ms_Lengths s) (ms_result s) (ms_metadata s) (ms_PutParam s) (ms_Status s)
    (ms_PositionedCommand s) (ms_PositionedCursor s) (ms_ForceCsps s).
Definition set_ParamCount s (x : Z) : MADB_Stmt A :=
  MkStmt (ms_params s) (ms_mysql s) (ms_handles s) (ms_results s) (ms_sent s) (ms_locks s) (ms_stmt s)
    (ms_MultiStmts s) (ms_CspsMultiStmtResult s) (ms_MultiStmtNr s) (ms_CspsResult s) (ms_Query s) x (ms_binds s)
    (ms_RebindParams s) (ms_State s) (ms_AffectedRows s) (ms_LastRowFetched s) (ms_Position s) (ms_Next s)
    (ms_CharOffset s) (ms_Lengths s) (ms_result s) (ms_metadata s) (ms_PutParam s) (ms_Status s)
    (ms_PositionedCommand s) (ms_PositionedCursor s) (ms_ForceCsps s).
Definition set_binds s (x : bool) : MADB_Stmt A :=
  MkStmt (ms_params s) (ms_mysql s) (ms_handles s) (ms_results s) (ms_sent s) (ms_locks s) (ms_stmt s)
    (ms_MultiStmts s) (ms_CspsMultiStmtResult s) (ms_MultiStmtNr s) (ms_CspsResult s) (ms_Query s) (ms_ParamCount s)
    x (ms_RebindParams s) (ms_State s) (ms_AffectedRows s) (ms_LastRowFetched s) (ms_Position s) (ms_Next s)
    (ms_CharOffset s) (ms_Lengths s) (ms_result s) (ms_metadata s) (ms_PutParam s) (ms_Status s)
    (ms_PositionedCommand s) (ms_PositionedCursor s) (ms_ForceCsps s).
Definition set_RebindParams s (x : bool) : MADB_Stmt A :=
  MkStmt (ms_params s) (ms_mysql s) (ms_handles s) (ms_results s) (ms_sent s) (ms_locks s) (ms_stmt s)
    (ms_MultiStmts s) (ms_CspsMultiStmtResult s) (ms_MultiStmtNr s) (ms_CspsResult s) (ms_Query s) (ms_ParamCount s)
    (ms_binds s) x (ms_State s) (ms_AffectedRows s) (ms_LastRowFetched s) (ms_Position s) (ms_Next s)
    (ms_CharOffset s) (ms_Lengths s) (ms_result s) (ms_metadata s) (ms_PutParam s) (ms_Status s)
    (ms_PositionedCommand s) (ms_PositionedCursor s) (ms_ForceCsps s).
Definition set_State s (x : Z) : MADB_Stmt A :=
  MkStmt (ms_params s) (ms_mysql s) (ms_handles s) (ms_results s) (ms_sent s) (ms_locks s) (ms_stmt s)
    (ms_MultiStmts s) (ms_CspsMultiStmtResult s) (ms_MultiStmtNr s) (ms_CspsResult s) (ms_Query s) (ms_ParamCount s)
    (ms_binds s) (ms_RebindParams s) x (ms_AffectedRows s) (ms_LastRowFetched s) (ms_Position s) (ms_Next s)
    (ms_CharOffset s) (ms_Lengths s) (ms_result s) (ms_metadata s) (ms_PutParam s) (ms_Status s)
    (ms_PositionedCommand s) (ms_PositionedCursor s) (ms_ForceCsps s).
Definition set_AffectedRows s (x : Z) : MADB_Stmt A :=
  MkStmt (ms_params s) (ms_mysql s) (ms_handles s) (ms_results s) (ms_sent s) (ms_locks s) (ms_stmt s)
    (ms_MultiStmts s) (ms_CspsMultiStmtResult s) (ms_MultiStmtNr s) (ms_CspsResult s) (ms_Query s) (ms_ParamCount s)
    (ms_binds s) (ms_RebindParams s) (ms_State s) x (ms_LastRowFetched s) (ms_Position s) (ms_Next s)
    (ms_CharOffset s) (ms_Lengths s) (ms_result s) (ms_metadata s) (ms_PutParam s) (ms_Status s)
    (ms_PositionedCommand s) (ms_PositionedCursor s) (ms_ForceCsps s).
Definition set_LastRowFetched s (x : Z) : MADB_Stmt A :=
  MkStmt (ms_params s) (ms_mysql s) (ms_handles s) (ms_results s) (ms_sent s) (ms_locks s) (ms_stmt s)
    (ms_MultiStmts s) (ms_CspsMultiStmtResult s) (ms_MultiStmtNr s) (ms_CspsResult s) (ms_Query s) (ms_ParamCount s)
    (ms_binds s) (ms_RebindParams s) (ms_State s) (ms_AffectedRows s) x (ms_Position s) (ms_Next s) (ms_CharOffset s)
    (ms_Lengths s) (ms_result s) (ms_metadata s) (ms_PutParam s) (ms_Status s) (ms_PositionedCommand s)
    (ms_PositionedCursor s) (ms_ForceCsps s).
Definition set_Position s (x : Z) : MADB_Stmt A :=
  MkStmt (ms_params s) (ms_mysql s) (ms_handles s) (ms_results s) (ms_sent s) (ms_locks s) (ms_stmt s)
    (ms_MultiStmts s) (ms_CspsMultiStmtResult s) (ms_MultiStmtNr s) (ms_CspsResult s) (ms_Query s) (ms_ParamCount s)
    (ms_binds s) (ms_RebindParams s) (ms_State s) (ms_AffectedRows s) (ms_LastRowFetched s) x (ms_Next s)
    (ms_CharOffset s) (ms_Lengths s) (ms_result s) (ms_metadata s) (ms_PutParam s) (ms_Status s)
    (ms_PositionedCommand s) (ms_PositionedCursor s) (ms_ForceCsps s).
Definition set_Next s (x : option nat) : MADB_Stmt A :=
  MkStmt (ms_params s) (ms_mysql s) (ms_handles s) (ms_results s) (ms_sent s) (ms_locks s) (ms_stmt s)
    (ms_MultiStmts s) (ms_CspsMultiStmtResult s) (ms_MultiStmtNr s) (ms_CspsResult s) (ms_Query s) (ms_ParamCount s)
    (ms_binds s) (ms_RebindParams s) (ms_State s) (ms_AffectedRows s) (ms_LastRowFetched s) (ms_Position s) x
    (ms_CharOffset s) (ms_Lengths s) (ms_result s) (ms_metadata s) (ms_PutParam s) (ms_Status s)
    (ms_PositionedCommand s) (ms_PositionedCursor s) (ms_ForceCsps s).
Definition set_CharOffset s (x : option (list Z)) : MADB_Stmt A :=
  MkStmt (ms_params s) (ms_mysql s) (ms_handles s) (ms_results s) (ms_sent s) (ms_locks s) (ms_stmt s)
    (ms_MultiStmts s) (ms_CspsMultiStmtResult s) (ms_MultiStmtNr s) (ms_CspsResult s) (ms_Query s) (ms_ParamCount s)
    (ms_binds s) (ms_RebindParams s) (ms_State s) (ms_AffectedRows s) (ms_LastRowFetched s) (ms_Position s)
    (ms_Next s) x (ms_Lengths s) (ms_result s) (ms_metadata s) (ms_PutParam s) (ms_Status s) (ms_PositionedCommand s)
    (ms_PositionedCursor s) (ms_ForceCsps s).
Definition set_Lengths s (x : option (list Z)) : MADB_Stmt A :=
  MkStmt (ms_params s) (ms_mysql s) (ms_handles s) (ms_results s) (ms_sent s) (ms_locks s) (ms_stmt s)
    (ms_MultiStmts s) (ms_CspsMultiStmtResult s) (ms_MultiStmtNr s) (ms_CspsResult s) (ms_Query s) (ms_ParamCount s)
    (ms_binds s) (ms_RebindParams s) (ms_State s) (ms_AffectedRows s) (ms_LastRowFetched s) (ms_Position s)
    (ms_Next s) (ms_CharOffset s) x (ms_result s) (ms_metadata s) (ms_PutParam s) (ms_Status s)
    (ms_PositionedCommand s) (ms_PositionedCursor s) (ms_ForceCsps s).
Definition set_result s (x : bool) : MADB_Stmt A :=
  MkStmt (ms_params s) (ms_mysql s) (ms_handles s) (ms_results s) (ms_sent s) (ms_locks s) (ms_stmt s)
    (ms_MultiStmts s) (ms_CspsMultiStmtResult s) (ms_MultiStmtNr s) (ms_CspsResult s) (ms_Query s) (ms_ParamCount s)
    (ms_binds s) (ms_RebindParams s) (ms_State s) (ms_AffectedRows s) (ms_LastRowFetched s) (ms_Position s)
    (ms_Next s) (ms_CharOffset s) (ms_Lengths s) x (ms_metadata s) (ms_PutParam s) (ms_Status s)
    (ms_PositionedCommand s) (ms_PositionedCursor s) (ms_ForceCsps s).
Definition set_metadata s (x : option (list column)) : MADB_Stmt A :=
  MkStmt (ms_params s) (ms_mysql s) (ms_handles s) (ms_results s) (ms_sent s) (ms_locks s) (ms_stmt s)
    (ms_MultiStmts s) (ms_CspsMultiStmtResult s) (ms_MultiStmtNr s) (ms_CspsResult s) (ms_Query s) (ms_ParamCount s)
    (ms_binds s) (ms_RebindParams s) (ms_State s) (ms_AffectedRows s) (ms_LastRowFetched s) (ms_Position s)
    (ms_Next s) (ms_CharOffset s) (ms_Lengths s) (ms_result s) x (ms_PutParam s) (ms_Status s)
    (ms_PositionedCommand s) (ms_PositionedCursor s) (ms_ForceCsps s).
Definition set_PutParam s (x : Z) : MADB_Stmt A :=
  MkStmt (ms_params s) (ms_mysql s) (ms_handles s) (ms_results s) (ms_sent s) (ms_locks s) (ms_stmt s)
    (ms_MultiStmts s) (ms_CspsMultiStmtResult s) (ms_MultiStmtNr s) (ms_CspsResult s) (ms_Query s) (ms_ParamCount s)
    (ms_binds s) (ms_RebindParams s) (ms_State s) (ms_AffectedRows s) (ms_LastRowFetched s) (ms_Position s)
    (ms_Next s) (ms_CharOffset s) (ms_Lengths s) (ms_result s) (ms_metadata s) x (ms_Status s)
    (ms_PositionedCommand s) (ms_PositionedCursor s) (ms_ForceCsps s).
Definition set_Status s (x : Z) : MADB_Stmt A :=
  MkStmt (ms_params s) (ms_mysql s) (ms_handles s) (ms_results s) (ms_sent s) (ms_locks s) (ms_stmt s)
    (ms_MultiStmts s) (ms_CspsMultiStmtResult s) (ms_MultiStmtNr s) (ms_CspsResult s) (ms_Query s) (ms_ParamCount s)
    (ms_binds s) (ms_RebindParams s) (ms_State s) (ms_AffectedRows s) (ms_LastRowFetched s) (ms_Position s)
    (ms_Next s) (ms_CharOffset s) (ms_Lengths s) (ms_result s) (ms_metadata s) (ms_PutParam s) x
    (ms_PositionedCommand s) (ms_PositionedCursor s) (ms_ForceCsps s).
Definition set_PositionedCommand s (x : bool) : MADB_Stmt A :=
  MkStmt (ms_params s) (ms_mysql s) (ms_handles s) (ms_results s) (ms_sent s) (ms_locks s) (ms_stmt s)
    (ms_MultiStmts s) (ms_CspsMultiStmtResult s) (ms_MultiStmtNr s) (ms_CspsResult s) (ms_Query s) (ms_ParamCount s)
    (ms_binds s) (ms_RebindParams s) (ms_State s) (ms_AffectedRows s) (ms_LastRowFetched s) (ms_Position s)
    (ms_Next s) (ms_CharOffset s) (ms_Lengths s) (ms_result s) (ms_metadata s) (ms_PutParam s) (ms_Status s) x
    (ms_PositionedCursor s) (ms_ForceCsps s).
Definition set_PositionedCursor s (x : option positive) : MADB_Stmt A :=
  MkStmt (ms_params s) (ms_mysql s) (ms_handles s) (ms_results s) (ms_sent s) (ms_locks s) (ms_stmt s)
    (ms_MultiStmts s) (ms_CspsMultiStmtResult s) (ms_MultiStmtNr s) (ms_CspsResult s) (ms_Query s) (ms_ParamCount s)
    (ms_binds s) (ms_RebindParams s) (ms_State s) (ms_AffectedRows s) (ms_LastRowFetched s) (ms_Position s)
    (ms_Next s) (ms_CharOffset s) (ms_Lengths s) (ms_result s) (ms_metadata s) (ms_PutParam s) (ms_Status s)
    (ms_PositionedCommand s) x (ms_ForceCsps s).
Definition set_ForceCsps s (x : bool) : MADB_Stmt A :=
  MkStmt (ms_params s) (ms_mysql s) (ms_handles s) (ms_results s) (ms_sent s) (ms_locks s) (ms_stmt s)
    (ms_MultiStmts s) (ms_CspsMultiStmtResult s) (ms_MultiStmtNr s) (ms_CspsResult s) (ms_Query s) (ms_ParamCount s)
    (ms_binds s) (ms_RebindParams s) (ms_State s) (ms_AffectedRows s) (ms_LastRowFetched s) (ms_Position s)
    (ms_Next s) (ms_CharOffset s) (ms_Lengths s) (ms_result s) (ms_metadata s) (ms_PutParam s) (ms_Status s)
    (ms_PositionedCommand s) (ms_PositionedCursor s) x.

(** ** Shorthands *)

Definition world_of s : world := pm_world (ms_params s).
Definition memory_of s : memory := pm_memory (ms_params s).
Definition error_of s : MADB_Error := pm_Error (ms_params s).
Definition put_world s (w : world) : MADB_Stmt A := set_params s (with_desc_world (ms_params s) w).
Definition put_memory s (m : memory) : MADB_Stmt A := set_params s (with_memory (ms_params s) m).
Definition put_error s (E : MADB_Error) : MADB_Stmt A := set_params s (Params.with_error (ms_params s) E).
Definition next_answer s : bool * MADB_Stmt A :=
  let '(ok, p) := answer (ms_params s) in (ok, set_params s p).

(** [MADB_SetError] and [MADB_SetNativeError] for the connection: the return value. *)
Definition stmt_fail s (code : nat) (msg : option (list Z)) (native : Z) : Z * MADB_Stmt A :=
  let E := MADB_SetError (error_of s) code msg native in (ReturnValue E, put_error s E).
Definition native_fail s : Z * MADB_Stmt A :=
  let E := MADB_SetNativeError (error_of s) (Some (my_diag (ms_mysql s))) in (ReturnValue E, put_error s E).

Definition LOCK s : MADB_Stmt A := set_locks s (ms_locks s + 1).
Definition UNLOCK s : MADB_Stmt A := set_locks s (ms_locks s - 1).

Definition own_descs (c : stmt_config) s : option stmt_descs := stmts (world_of s) !! sc_self c.
Definition header_of (h : positive) s : option MADB_Header := Header <$> descs (world_of s) !! h.

(** The structure [Stmt->stmt] points at. *)
Definition the_handle s : option (positive * MYSQL_STMT) := h ← ms_stmt s; x ← ms_handles s !! h; Some (h, x).
Definition put_handle s (h : positive) (x : MYSQL_STMT) : MADB_Stmt A := set_handles s (<[h := x]> (ms_handles s)).

(** An address above all that are in use. *)
Definition fresh_key {X} (m : gmap positive X) : positive := Pos.succ (map_fold (fun k _ n => Pos.max k n) 1%positive m).

Definition set_affected_rows (x : MYSQL_STMT) (n : Z) : MYSQL_STMT :=
  MkHandle n (hs_fields x) (hs_field_count x) (hs_bind_param_done x) (hs_state x) (hs_result x).

End State.

Definition MADB_SSPS_ENABLED {A} (c : stmt_config) (s : MADB_Stmt A) : bool := negb (sc_NoSsps c) && negb (ms_ForceCsps s).
Definition MADB_SSPS_DISABLED {A} (c : stmt_config) (s : MADB_Stmt A) : bool := negb (MADB_SSPS_ENABLED c s).
Definition STMT_NO_CACHE (c : stmt_config) : bool := (CursorType (sc_Options c) =? SQL_CURSOR_FORWARD_ONLY) && sc_NoCache c.
Definition MADB_POSITIONED_COMMAND {A} (s : MADB_Stmt A) : bool :=
  ms_PositionedCommand s && bool_decide (is_Some (ms_PositionedCursor s)).

End StmtState.
