(* ===== verification/Execute.v ===== *)
(** * Execute: executing a statement with client-side parameters

    Models the text branch of [MADB_StmtExecute] of [ma_statement.c] with its helpers
    ([CspsInitStatementFromMultistatement], [CspsInitStatementParams],
    [CspsRunStatementQuery], [CspsReceiveStatementResults], [MADB_CspsFreeResult],
    [MADB_CspsCopyResult], [MADB_ExecuteQuery], [FetchMetadata]),
    [MADB_InstallStmt] and [MADB_NewStmtHandle] of [ma_helper.c], and
    [MADB_StmtResetResultStructures] and [MADB_StmtMoreResults] of [ma_result.c], on the
    statement of StmtState.v and the connection of ClientLib.v.  Positioned updates and
    the branch for server-side statements are arguments.  [ResetInternalLength] clears a
    field of the parameter records that nothing here reads (DataAtExec.v has it). *)

From Stdlib Require Import ZArith Lia.
From stdpp Require Import base strings numbers option list gmap.
From S2P Require Import Prelude Odbc Errors Dynamic Parse SqlTypes Desc Ird StmtAttr Params ClientLib StmtState.
Import ErrorOps DynString DescOps Ird Params Client StmtState Scan Tokenizer.

Definition S2_MAX_PARAMS := 1024000.

Definition SQL_PARAM_IGNORE := 1.
Definition SQL_PARAM_SUCCESS := 0.
Definition SQL_PARAM_ERROR := 5.
Definition SQL_PARAM_UNUSED := 7.
Definition SQL_PARAM_DIAG_UNAVAILABLE := 1.

Inductive CspsControlFlowResult := CCFR_OK | CCFR_CONTINUE | CCFR_ERROR.

(** How a loop goes on: with the next round, or at the label [end]; with [ErrorCount] and
    [ret]. *)
Inductive outcome (A : Type) :=
| Next (ErrorCount ret : Z) (s : MADB_Stmt A)
| Goto_end (ErrorCount ret : Z) (s : MADB_Stmt A).
Arguments Next {A}. Arguments Goto_end {A}.

Module Execute.

(** ** Results *)

Section Results.
Context {A : Type} (c : stmt_config).
Implicit Types s : MADB_Stmt A.

(** [while (mysql_more_results) mysql_next_result], within [fuel] rounds. *)
Fixpoint drain (fuel : nat) (m : MYSQL A) : option (MYSQL A) :=
  match fuel with
  | O => None
  | S fuel' => if mysql_more_results m then drain fuel' (mysql_next_result m).2 else Some m
  end.

Definition clear_result (x : MYSQL_STMT) : MYSQL_STMT :=
  MkHandle (hs_affected_rows x) [] 0 (hs_bind_param_done x) (hs_state x) None.

(** [MADB_CspsFreeResult] for the result [r] of the structure [h]; the caller clears its
    pointer.  [fuel] bounds the rounds of the loop over further results. *)
Definition MADB_CspsFreeResult (fuel : nat) (r h : option positive) (FreeStmtResults : bool) s : option (MADB_Stmt A) :=
  if MADB_SSPS_DISABLED c s then
    match r with
    | None => Some s
    | Some r =>
        s1 ← (match h with
              | None => Some s
              | Some h =>
                  x ← ms_handles s !! h;
                  let s' := put_handle s h (clear_result x) in
                  if FreeStmtResults then set_mysql s' <$> drain fuel (ms_mysql s') else Some s'
              end);
        res ← ms_results s1 !! r;
        Some (set_results (set_mysql s1 (mysql_free_result (Some res) (ms_mysql s1))) (delete r (ms_results s1)))
    end
  else Some s.

(** [MADB_CspsCopyResult] *)
Definition MADB_CspsCopyResult (r : option positive) (h : option positive) s : option (MADB_Stmt A) :=
  if MADB_SSPS_DISABLED c s then
    match r, h with
    | Some r, Some h =>
        res ← ms_results s !! r;
        x ← ms_handles s !! h;
        Some (put_handle s h (MkHandle (hs_affected_rows x) (res_fields res) (Z.of_nat (length (res_fields res)))
                (hs_bind_param_done x) (hs_state x) (match res_data res with Some _ => Some r | None => hs_result x end)))
    | _, _ => Some s
    end
  else Some s.

(** A result the library has handed out gets its place among the live ones. *)
Definition keep_result (res : option MYSQL_RES) s : option positive * MADB_Stmt A :=
  match res with
  | None => (None, s)
  | Some res => let r := fresh_key (ms_results s) in (Some r, set_results s (<[r := res]> (ms_results s)))
  end.

(** [MADB_StmtResetResultStructures]: the arrays have a place for each column. *)
Definition MADB_StmtResetResultStructures s : option (MADB_Stmt A) :=
  '(_, x) ← the_handle s;
  let n := Z.to_nat (hs_field_count x) in
  let finish s' := set_Next (set_Position (set_LastRowFetched s' 0) (-1)) None in
  if (n =? 0)%nat then Some (finish (set_Lengths (set_CharOffset s None) None))
  else
    let '(ok1, s1) := next_answer s in
    let '(ok2, s2) := next_answer s1 in
    if ok1 && ok2 then Some (finish (set_Lengths (set_CharOffset s2 (Some (replicate n 0))) (Some (replicate n 0))))
    else None.

(** [FetchMetadata] and the description of the columns in the row descriptor; without
    columns there is no metadata, and its fields are read through a NULL pointer. *)
Definition describe_columns s : option (MADB_Stmt A) :=
  '(_, x) ← the_handle s;
  if hs_field_count x =? 0 then None else
  d ← own_descs c s;
  '(_, w) ← MADB_DescSetIrdMetadata (sc_ird c) (sc_mem c) (Ird d) (hs_fields x) (world_of s);
  Some (put_world (set_metadata s (Some (hs_fields x))) w).

Definition forget_columns s : option (MADB_Stmt A) :=
  d ← own_descs c s; w ← MADB_DescFree (world_of s) (Ird d) true; Some (put_world s w).

(** [MADB_InstallStmt] *)
Definition MADB_InstallStmt (h : option positive) s : option (MADB_Stmt A) :=
  let s1 := set_stmt s h in
  '(_, x) ← the_handle s1;
  if hs_field_count x =? 0 then
    s2 ← forget_columns s1; Some (set_AffectedRows s2 (wraps 64 (hs_affected_rows x)))
  else s2 ← MADB_StmtResetResultStructures (set_AffectedRows s1 0); describe_columns s2.

(** [MADB_NewStmtHandle]: NULL when there is no memory. *)
Definition MADB_NewStmtHandle s : option positive * MADB_Stmt A :=
  let '(ok, s1) := next_answer s in
  if ok then
    let h := fresh_key (ms_handles s1) in (Some h, put_handle s1 h (MkHandle 0 [] 0 false MYSQL_STMT_INITTED None))
  else (None, (stmt_fail s1 MADB_ERR_HY001 None 0).2).

End Results.

(** ** One set of parameters *)

Section Execute.
Context {A : Type} `{Server A} (c : stmt_config).
Implicit Types s : MADB_Stmt A.

(** An element of a status array, and writing one; a NULL array is passed over. *)
Definition status_at (hd : MADB_Header) (m : memory) (j : Z) : option Z :=
  if ArrayStatusPtr hd =? 0 then Some SQL_PARAM_SUCCESS else peek_u 2 m (ArrayStatusPtr hd + 2 * j).
Definition little (n : nat) (v : Z) : list Z := (fun i => v / 256 ^ Z.of_nat i mod 256) <$> seq 0 n.
Definition put_status (hd : MADB_Header) (j v : Z) (m : memory) : option memory :=
  if ArrayStatusPtr hd =? 0 then Some m else poke m (ArrayStatusPtr hd + 2 * j) (little 2 v).
Definition is_ignored (apd_hd : MADB_Header) (m : memory) (j : Z) : option bool :=
  (fun v => negb (ArrayStatusPtr apd_hd =? 0) && (v =? SQL_PARAM_IGNORE)) <$> status_at apd_hd m j.

Definition param_stmt_of (d : stmt_descs) s : param_stmt :=
  MkParamStmt d (ms_ParamCount s) (ms_PutParam s) (drop (RefinedText (ms_Query s)) (Parse.text (ms_Query s)))
    (ParamPositions (ms_Query s)).

Definition count_row (ipd_hd : MADB_Header) (m : memory) : option memory :=
  if RowsProcessedPtr ipd_hd =? 0 then Some m
  else n ← peek_u 8 m (RowsProcessedPtr ipd_hd); poke m (RowsProcessedPtr ipd_hd) (little 8 (wrapu 64 (n + 1))).

(** [CspsInitStatementParams]: row [ParamSetIdx] is counted and, unless it is to be ignored,
    its parameters are inserted into the text at [CurQuery]. *)
Definition CspsInitStatementParams (CurQuery ParamOffset : nat) (ParamSetIdx ret : Z) (query : MADB_DynString) s
    : option (CspsControlFlowResult * Z * MADB_DynString * MADB_Stmt A) :=
  d ← own_descs c s;
  apd_hd ← header_of (Apd d) s;
  ipd_hd ← header_of (Ipd d) s;
  m1 ← count_row ipd_hd (memory_of s);
  ignored ← is_ignored apd_hd m1 ParamSetIdx;
  if (ignored : bool) then
    m2 ← put_status ipd_hd ParamSetIdx SQL_PARAM_UNUSED m1; Some (CCFR_CONTINUE, ret, query, put_memory s m2)
  else
    let s1 := put_memory s m1 in
    '(ret1, query1, p) ← MADB_InsertParams (sc_params c) (sc_mem c) (param_stmt_of d s1) CurQuery (wrapu 32 ParamSetIdx) ParamOffset
                           query (ms_params s1);
    let s2 := set_params s1 p in
    if negb (SQL_SUCCEEDED ret1) then Some (CCFR_ERROR, ret1, query1, s2)
    else if ms_RebindParams s2 && negb (ms_ParamCount s2 =? 0) then
      '(h, x) ← the_handle s2;
      Some (CCFR_OK, ret1, query1,
        set_RebindParams (put_handle s2 h (MkHandle (hs_affected_rows x) (hs_fields x) (hs_field_count x) true (hs_state x) (hs_result x)))
          false)
    else Some (CCFR_OK, ret1, query1, s2).

(** A query sent on the connection. *)
Definition send (query : list Z) s : bool * MADB_Stmt A :=
  let '(failed, m) := mysql_real_query query (ms_mysql s) in
  (failed, set_sent (set_mysql s m) (ms_sent s ++ [query])).

(** [CspsRunStatementQuery]: the return value and [ErrorCount]. *)
Definition CspsRunStatementQuery (query : MADB_DynString) (ErrorCount : Z) s : option (Z * Z * MADB_Stmt A) :=
  let s1 :=
    if 0 <? my_field_count (ms_mysql s) then
      let '(r, m) := mysql_use_result (ms_mysql s) in set_mysql s (mysql_free_result r m)
    else s in
  '(h, x) ← the_handle s1;
  let '(failed, s2) := send (contents query) s1 in
  if (failed : bool) then
    let '(ret, s3) := native_fail s2 in Some (ret, wrapu 32 (ErrorCount + 1), s3)
  else
    Some (SQL_SUCCESS, ErrorCount,
      if my_field_count (ms_mysql s2) =? 0
      then put_handle s2 h (set_affected_rows x (wrapu 64 (hs_affected_rows x + my_affected_rows (ms_mysql s2)))) else s2).

(** [CspsReceiveStatementResults]: the new [ret]. *)
Definition CspsReceiveStatementResults (ret : Z) s : option (Z * MADB_Stmt A) :=
  s0 ← MADB_CspsFreeResult c 0 (ms_CspsResult s) (ms_stmt s) false s;
  let s1 := if MADB_SSPS_DISABLED c s then set_CspsResult s0 None else s0 in
  '(h, _) ← the_handle s1;
  if 0 <? my_field_count (ms_mysql s1) then
    let '(res, m) := if STMT_NO_CACHE c then mysql_use_result (ms_mysql s1) else mysql_store_result (ms_mysql s1) in
    let s2 := set_mysql s1 m in
    let '(ret1, s3) :=
      if n_errno (my_diag m) =? 0 then (ret, s2)
      else (SQL_ERROR, (stmt_fail s2 MADB_ERR_HY001 (Some (n_error (my_diag m))) (n_errno (my_diag m))).2) in
    let '(r, s4) := keep_result res s3 in
    if bool_decide (is_Some r) then
      s5 ← MADB_CspsCopyResult c r (Some h) s4;
      x ← ms_handles s5 !! h;
      Some (ret1, set_CspsResult (put_handle s5 h (MkHandle (hs_affected_rows x) (hs_fields x) (hs_field_count x)
                    (hs_bind_param_done x) MYSQL_STMT_USE_OR_STORE_CALLED (hs_result x))) r)
    else Some (ret1, s4)
  else
    '(_, x) ← the_handle s1;
    Some (ret, if SQL_SUCCEEDED ret && bool_decide (ms_MultiStmts s1 = None)
               then set_AffectedRows s1 (wraps 64 (ms_AffectedRows s1 + hs_affected_rows x)) else s1).

(** ** The loops over the rows of parameters *)

(** A local dynamic string; that it may not have been allocated is not looked at. *)
Definition new_string s : option (MADB_DynString * MADB_Stmt A) :=
  let '(ok, s1) := next_answer s in
  '(_, d) ← MADB_InitDynamicString (pc_junk (sc_params c)) ok (Some []) 1024 1024;
  Some (d, s1).

(** The status of a row whose query was run. *)
Definition report_row (status : Z) (j : Z) s : option (MADB_Stmt A) :=
  d ← own_descs c s;
  apd_hd ← header_of (Apd d) s;
  ipd_hd ← header_of (Ipd d) s;
  if ArrayStatusPtr ipd_hd =? 0 then Some s
  else
    ignored ← is_ignored apd_hd (memory_of s) j;
    if (ignored : bool) then Some s else put_memory s <$> put_status ipd_hd j status (memory_of s).

(** One query for each row, [n] rows from number [j]. *)
Fixpoint rows_loop (n : nat) (j : Z) (CurQuery ParamOffset : nat) (ArraySize ErrorCount ret : Z) s : option (outcome A) :=
  match n with
  | O => Some (Next ErrorCount ret s)
  | S n' =>
      '(final, s1) ← new_string s;
      '(flow, ret1, final1, s2) ← CspsInitStatementParams CurQuery ParamOffset j ret final s1;
      match flow with
      | CCFR_CONTINUE => rows_loop n' (j + 1) CurQuery ParamOffset ArraySize ErrorCount ret1 s2
      | CCFR_ERROR => Some (Goto_end ErrorCount ret1 s2)
      | CCFR_OK =>
          '(ret2, ErrorCount', s3) ← CspsRunStatementQuery final1 ErrorCount s2;
          let status := if SQL_SUCCEEDED ret2 then SQL_PARAM_SUCCESS
                        else if j =? wrapu 64 (ArraySize - 1) then SQL_PARAM_ERROR else SQL_PARAM_DIAG_UNAVAILABLE in
          s4 ← report_row status j s3;
          rows_loop n' (j + 1) CurQuery ParamOffset ArraySize ErrorCount' ret2 s4
      end
  end.

(** An append whose result is not looked at. *)
Definition append_ignoring (t : list Z) (d : MADB_DynString) s : option (MADB_DynString * MADB_Stmt A) :=
  let '(ok, s1) := next_answer s in
  '(_, d1) ← MADB_DynstrAppendMem (pc_junk (sc_params c)) ok d t;
  Some (d1, s1).

(** The string behind [str + offset]. *)
Definition string_from (d : MADB_DynString) (offset : nat) : option (list Z) :=
  b ← str d; if (offset <=? length b)%nat then Some (cstr (drop offset b)) else None.

(** The values of the rows of one batch, appended to [combined]. *)
Fixpoint batch_loop (n : nat) (j : Z) (CurQuery ParamOffset valuesOffset : nat) (rowsInBatch ErrorCount ret : Z)
    (combined : MADB_DynString) s : option (outcome A * MADB_DynString) :=
  match n with
  | O => Some (Next ErrorCount ret s, combined)
  | S n' =>
      '(final, s1) ← new_string s;
      '(flow, ret1, final1, s2) ← CspsInitStatementParams CurQuery ParamOffset j ret final s1;
      match flow with
      | CCFR_CONTINUE => batch_loop n' (j + 1) CurQuery ParamOffset valuesOffset rowsInBatch ErrorCount ret1 combined s2
      | CCFR_ERROR => Some (Goto_end ErrorCount ret1 s2, combined)
      | CCFR_OK =>
          '(combined', s3) ← (if 0 <? length_ final1 then
                                '(c1, s3) ← (if negb (j mod rowsInBatch =? 0) then append_ignoring (chars ",") combined s2
                                             else Some (combined, s2));
                                t ← string_from final1 valuesOffset;
                                append_ignoring t c1 s3
                              else Some (combined, s2));
          batch_loop n' (j + 1) CurQuery ParamOffset valuesOffset rowsInBatch ErrorCount ret1 combined' s3
      end
  end.

(** The statuses of the rows of one batch. *)
Fixpoint report_rows (status : Z) (n : nat) (j : Z) s : option (MADB_Stmt A) :=
  match n with
  | O => Some s
  | S n' => s1 ← report_row status j s; report_rows status n' (j + 1) s1
  end.

(** The batches from number [batchNum], [n] of them. *)
Fixpoint batches_loop (n : nat) (batchNum : Z) (CurQuery ParamOffset valuesOffset : nat) (numParamRows rowsInBatch ErrorCount ret : Z) s
    : option (outcome A) :=
  match n with
  | O => Some (Next ErrorCount ret s)
  | S n' =>
      let j := batchNum * rowsInBatch in
      let count := Z.to_nat (Z.min numParamRows (j + rowsInBatch) - j) in
      '(combined, s1) ← new_string s;
      start ← MADB_Token (ms_Query s1) 0;
      if (length (Parse.text (ms_Query s1)) <? start + valuesOffset)%nat then None
      else
        '(combined1, s2) ← append_ignoring (take valuesOffset (drop start (Parse.text (ms_Query s1)))) combined s1;
        '(o, combined2) ← batch_loop count j CurQuery ParamOffset valuesOffset rowsInBatch ErrorCount ret combined1 s2;
        match o with
        | Goto_end ErrorCount1 ret1 s3 => Some (Goto_end ErrorCount1 ret1 s3)
        | Next ErrorCount1 _ s3 =>
            '(ret2, ErrorCount2, s4) ← CspsRunStatementQuery combined2 ErrorCount1 s3;
            s5 ← report_rows (if SQL_SUCCEEDED ret2 then SQL_PARAM_SUCCESS else SQL_PARAM_ERROR) count j s4;
            batches_loop n' (batchNum + 1) CurQuery ParamOffset valuesOffset numParamRows rowsInBatch ErrorCount2 ret2 s5
        end
  end.

(** ** One statement of the query *)

(** Whether an INSERT is sent with the values of many rows. *)
Definition rewriteInsert (q : MADB_QUERY) (numParamRows : Z) : bool :=
  (1 <? numParamRows) && bool_decide (QueryType q = MADB_QUERY_INSERT) &&
  negb (MADB_FindToken q (chars "VALUES") =? 0)%nat && (MADB_FindToken q (chars "RETURNING") =? 0)%nat &&
  (MADB_FindToken q (chars "VALUES") <? MADB_FindToken q (chars "?"))%nat &&
  (MADB_FindToken q (chars "ON DUPLICATE KEY UPDATE") =? 0)%nat && negb (QUERY_IS_MULTISTMT q).

Definition execute_one (CurQuery ParamOffset : nat) (ErrorCount ret : Z) s : option (outcome A) :=
  d ← own_descs c s;
  apd_hd ← header_of (Apd d) s;
  let numParamRows := if 0 <? ms_ParamCount s then wraps 32 (ArraySize apd_hd) else 1 in
  if rewriteInsert (ms_Query s) numParamRows then
    let rowsInBatch := S2_MAX_PARAMS / ms_ParamCount s in
    let valuesOffset := (MADB_FindToken (ms_Query s) (chars "VALUES") + 6)%nat in
    o ← batches_loop (Z.to_nat ((numParamRows + rowsInBatch - 1) / rowsInBatch)) 0 CurQuery ParamOffset valuesOffset numParamRows
          rowsInBatch ErrorCount ret s;
    match o with
    | Goto_end _ _ _ => Some o
    | Next ErrorCount1 ret1 s1 =>
        '(_, x) ← the_handle s1;
        Some (Next (if ret1 =? SQL_ERROR then wrapu 32 numParamRows else ErrorCount1) ret1
                (set_AffectedRows s1 (wraps 64 (hs_affected_rows x))))
    end
  else
    o ← rows_loop (Z.to_nat (wrapu 64 numParamRows)) 0 CurQuery ParamOffset (ArraySize apd_hd) ErrorCount ret s;
    match o with
    | Goto_end _ _ _ => Some o
    | Next ErrorCount1 ret1 s1 => '(ret2, s2) ← CspsReceiveStatementResults ret1 s1; Some (Next ErrorCount1 ret2 s2)
    end.

(** ** Batches of statements *)

(** How many of the parameter positions from number [ParamPosId] are in front of [stop]. *)
Fixpoint count_params (ps : list nat) (stop : nat) : nat :=
  match ps with
  | [] => 0
  | p :: ps' => if (stop <=? p)%nat then 0 else S (count_params ps' stop)
  end.

(** [CspsInitStatementFromMultistatement]: [None] for the first component is a statement
    that is passed over; otherwise the new [ParamPosId]. *)
Definition CspsInitStatementFromMultistatement (StatementNr CurQuery ParamPosId : nat) s : option (option nat * MADB_Stmt A) :=
  let q := ms_Query s in
  let finish s1 :=
    rs ← ms_CspsMultiStmtResult s1;
    r ← rs !! StatementNr;
    let s2 := set_RebindParams (set_CspsResult s1 r) true in
    let stop := (CurQuery + strlen (Parse.text q) (RefinedText q + CurQuery))%nat in
    let ParamCount := count_params (drop ParamPosId (ParamPositions q)) stop in
    let '(ok, s3) :=
      if negb (wrapu 32 (ms_ParamCount s2) =? Z.of_nat ParamCount) then
        let '(ok, s') := next_answer (set_ParamCount s2 (wraps 16 (Z.of_nat ParamCount))) in (ok, set_binds s' ok)
      else (ms_binds s2, s2) in
    if ok || (ParamCount =? 0)%nat then Some (Some (ParamPosId + ParamCount)%nat, s3) else None in
  let existing := l ← ms_MultiStmts s; h ← l !! StatementNr; h in
  match existing with
  | Some h => finish (set_stmt s (Some h))
  | None =>
      if RefinedLength q <=? Z.of_nat CurQuery then Some (None, s)
      else
        let place h s1 :=
          l ← ms_MultiStmts s1;
          if (StatementNr <? length l)%nat then finish (set_MultiStmts s1 (Some (<[StatementNr := h]> l))) else None in
        if (StatementNr =? 0)%nat then
          let '(ok1, s1) := next_answer s in
          let '(ok2, s2) := next_answer s1 in
          if ok1 && ok2 then
            let none := replicate (STMT_COUNT q) None in
            place (ms_stmt s2) (set_CspsMultiStmtResult (set_MultiStmts s2 (Some none)) (Some none))
          else None
        else let '(h, s1) := MADB_NewStmtHandle s in place h (set_stmt s1 h)
  end.

(** The loop over the statements, [n] from number [StatementNr]. *)
Fixpoint statements_loop (n StatementNr CurQuery ParamOffset ParamPosId : nat) (ErrorCount ret : Z) s : option (outcome A) :=
  match n with
  | O => Some (Next ErrorCount ret s)
  | S n' =>
      if QUERY_IS_MULTISTMT (ms_Query s) then
        '(init, s1) ← CspsInitStatementFromMultistatement StatementNr CurQuery ParamPosId s;
        match init with
        | None => statements_loop n' (S StatementNr) CurQuery ParamOffset ParamPosId ErrorCount ret s1
        | Some ParamPosId' =>
            o ← execute_one CurQuery ParamOffset ErrorCount ret s1;
            match o with
            | Goto_end _ _ _ => Some o
            | Next ErrorCount1 ret1 s2 =>
                rs ← ms_CspsMultiStmtResult s2;
                if (length rs <=? StatementNr)%nat then None
                else
                  let s3 := set_CspsResult (set_CspsMultiStmtResult s2 (Some (<[StatementNr := ms_CspsResult s2]> rs))) None in
                  let q := ms_Query s3 in
                  statements_loop n' (S StatementNr) (CurQuery + strlen (Parse.text q) (RefinedText q + CurQuery) + 1)
                    (ParamOffset + Z.to_nat (ms_ParamCount s3)) ParamPosId' ErrorCount1 ret1 s3
            end
        end
      else
        o ← execute_one CurQuery ParamOffset ErrorCount ret s;
        match o with
        | Goto_end _ _ _ => Some o
        | Next ErrorCount1 ret1 s2 => statements_loop n' (S StatementNr) CurQuery ParamOffset ParamPosId ErrorCount1 ret1 s2
        end
  end.

(** ** MADB_StmtExecute *)

(** [MADB_ExecuteQuery] *)
Definition MADB_ExecuteQuery (StatementText : list Z) s : Z * MADB_Stmt A :=
  let '(failed, s1) := send StatementText (LOCK s) in
  if (failed : bool) then (SQL_ERROR, UNLOCK (native_fail s1).2)
  else (SQL_SUCCESS, UNLOCK (set_AffectedRows (put_error s1 (MADB_CLEAR_ERROR (error_of s1))) (wraps 64 (my_affected_rows (ms_mysql s1))))).

(** What follows the loop over the statements. *)
Definition install_first s : option (MADB_Stmt A) :=
  s1 ← (match ms_MultiStmts s with
        | Some l =>
            h ← l !! 0%nat;
            s1 ← MADB_InstallStmt c h (set_MultiStmtNr s 0);
            rs ← ms_CspsMultiStmtResult s1; r ← rs !! 0%nat;
            Some (set_CspsResult s1 r)
        | None =>
            '(_, x) ← the_handle s;
            if 0 <? hs_field_count x then
              s1 ← MADB_StmtResetResultStructures s; s2 ← describe_columns c s1; Some (set_AffectedRows s2 (-1))
            else Some s
        end);
  Some (set_State s1 MADB_SS_EXECUTED).

(** The return code from [ErrorCount]. *)
Definition execute_code (ErrorCount ArraySize ret : Z) : Z :=
  if ErrorCount =? 0 then ret else if ErrorCount <? ArraySize then SQL_SUCCESS_WITH_INFO else SQL_ERROR.

(** From the label [end]. *)
Definition execute_end (ErrorCount ret : Z) s : option (Z * MADB_Stmt A) :=
  let s1 := set_LastRowFetched (UNLOCK s) 0 in
  d ← own_descs c s1;
  apd_hd ← header_of (Apd d) s1;
  let ret1 := execute_code ErrorCount (ArraySize apd_hd) ret in
  if SQL_SUCCEEDED ret1 then Some (ret1, s1)
  else if NativeError (error_of s1) =? 1295 then
    let s2 := set_State s1 MADB_SS_EMULATED in
    Some (MADB_ExecuteQuery (Original (ms_Query s2)) (put_error s2 (MADB_CLEAR_ERROR (error_of s2))))
  else Some (ret1, s1).

(** The branch for client-side statements, up to the label [end]. *)
Definition execute_text s : option (Z * MADB_Stmt A) :=
  let s1 := set_AffectedRows (LOCK s) 0 in
  s2 ← (match ms_stmt s1 with
        | None => Some s1
        | Some h => x ← ms_handles s1 !! h; Some (put_handle s1 h (set_affected_rows x 0))
        end);
  d ← own_descs c s2;
  ipd_hd ← header_of (Ipd d) s2;
  m ← (if RowsProcessedPtr ipd_hd =? 0 then Some (memory_of s2) else poke (memory_of s2) (RowsProcessedPtr ipd_hd) (little 8 0));
  o ← statements_loop (STMT_COUNT (ms_Query s2)) 0 0 0 0 0 SQL_SUCCESS (put_memory s2 m);
  match o with
  | Goto_end ErrorCount ret s3 => execute_end ErrorCount ret s3
  | Next ErrorCount ret s3 => s4 ← install_first s3; execute_end ErrorCount ret s4
  end.

Definition MADB_StmtExecute (positioned binary : MADB_Stmt A -> option (Z * MADB_Stmt A)) s : option (Z * MADB_Stmt A) :=
  let s1 := put_error s (MADB_CLEAR_ERROR (error_of s)) in
  if ms_State s1 =? MADB_SS_EMULATED then Some (MADB_ExecuteQuery (Original (ms_Query s1)) s1)
  else if MADB_POSITIONED_COMMAND s1 then positioned s1
  else
    let '(ok, s2) := if ms_binds s1 then (true, s1) else let '(ok, s') := next_answer s1 in (ok, set_binds s' ok) in
    if negb ok then Some (stmt_fail s2 MADB_ERR_HY001 None 0)
    else if MADB_SSPS_DISABLED c s2 then execute_text s2 else binary s2.

(** ** MADB_StmtMoreResults *)

(** [binary] is the branch for server-side statements. *)
Definition MADB_StmtMoreResults (binary : MADB_Stmt A -> option (Z * MADB_Stmt A)) s : option (Z * MADB_Stmt A) :=
  match ms_stmt s with
  | None => Some (stmt_fail s MADB_ERR_08S01 None 0)
  | Some h =>
      let s0 := set_result s false in
      match ms_MultiStmts s0 with
      | Some l =>
          if (S (ms_MultiStmtNr s0) =? STMT_COUNT (ms_Query s0))%nat then Some (SQL_NO_DATA, s0)
          else
            let nr := S (ms_MultiStmtNr s0) in
            h' ← l !! nr;
            s1 ← MADB_InstallStmt c h' (set_MultiStmtNr s0 nr);
            s2 ← (if MADB_SSPS_DISABLED c s1 then rs ← ms_CspsMultiStmtResult s1; r ← rs !! nr; Some (set_CspsResult s1 r) else Some s1);
            Some (SQL_SUCCESS, s2)
      | None =>
          if ms_State s0 =? MADB_SS_EMULATED then
            if negb (mysql_more_results (ms_mysql s0)) then Some (SQL_NO_DATA, s0)
            else
              let s1 := LOCK s0 in
              let '(next, m) := mysql_next_result (ms_mysql s1) in
              let s2 := set_mysql s1 m in
              if 0 <? next then
                let '(rc, s3) := stmt_fail s2 MADB_ERR_HY000 (Some (n_error (my_diag m))) 0 in Some (rc, UNLOCK s3)
              else if negb (my_field_count m =? 0) then
                let '(res, m1) := mysql_store_result m in
                let '(rc, s3) := stmt_fail (set_mysql s2 (mysql_free_result res m1)) MADB_ERR_01000
                                   (Some (chars "Internal error - unexpected text result received")) 0 in
                Some (rc, UNLOCK s3)
              else Some (SQL_SUCCESS, UNLOCK (set_AffectedRows s2 (wraps 64 (my_affected_rows m))))
          else if MADB_SSPS_DISABLED c s0 then
            x ← ms_handles s0 !! h;
            if negb (mysql_more_results (ms_mysql s0)) then Some (SQL_NO_DATA, s0)
            else
              let s1 := LOCK s0 in
              let '(next, m) := mysql_next_result (ms_mysql s1) in
              let s2 := set_mysql s1 m in
              '(ret, s3) ←
                (if negb (next =? 0) then Some (stmt_fail s2 MADB_ERR_HY000 (Some (n_error (my_diag m))) 0)
                 else
                   let s3 := put_handle s2 h (clear_result x) in
                   s4 ← (match ms_CspsResult s3 with
                         | None => Some s3
                         | Some r =>
                             res ← ms_results s3 !! r;
                             Some (set_CspsResult (set_results (set_mysql s3 (mysql_free_result (Some res) (ms_mysql s3)))
                                     (delete r (ms_results s3))) None)
                         end);
                   if 0 <? my_field_count (ms_mysql s4) then
                     let '(res, m1) := mysql_store_result (ms_mysql s4) in
                     let '(r, s5) := keep_result res (set_mysql s4 m1) in
                     s6 ← MADB_CspsCopyResult c r (Some h) (set_CspsResult s5 r);
                     s7 ← describe_columns c s6;
                     Some (SQL_SUCCESS, set_AffectedRows s7 0)
                   else
                     s5 ← forget_columns c s4;
                     Some (SQL_SUCCESS, set_AffectedRows s5 (wraps 64 (my_affected_rows (ms_mysql s4)))));
              s8 ← MADB_StmtResetResultStructures (UNLOCK s3);
              Some (ret, s8)
          else binary s0
      end
  end.

End Execute.

End Execute.
