(* ===== verification/ExecProps.v ===== *)
(** * ExecProps: properties of executing a statement

    The theorems about Execute.v: one query for each row of the parameter arrays, the
    statuses and counts written for the application, INSERT statements with the values
    of many rows, batches of statements and walking through their results. *)

From Stdlib Require Import ZArith Lia.
From stdpp Require Import base strings numbers option list gmap.
From S2P Require Import Prelude Odbc Errors Dynamic Parse SqlTypes Desc Ird StmtAttr Numeric TypeConv ParamText Params ClientLib StmtState Execute.
Import ErrorOps DynString DescOps Ird Params ParamTextProps ParamsProps Client StmtState Scan Tokenizer Execute.

Module ExecMemory.

(** ** Reading and writing the application's memory *)

Lemma memory_insert (m : memory) a b x : (<[a := b]> m : memory) !! x = if decide (x = a) then Some b else m !! x.
Proof.
  case_decide as H; [subst; apply (lookup_insert_eq (M := gmap Z))|]. apply (lookup_insert_ne (M := gmap Z)). congruence.
Qed.

Lemma poke_lookup l : forall m a m' x, poke m a l = Some m' ->
  m' !! x = if decide (a <= x < a + Z.of_nat (length l)) then l !! Z.to_nat (x - a) else m !! x.
Proof.
  induction l as [|b l IH]; intros m a m' x; cbn [poke].
  - intros [= <-]. by rewrite decide_False by (cbn; lia).
  - destruct (m !! a) eqn:Ea; [|done]. cbn [mbind option_bind]. intros H%(IH _ _ _ x). rewrite H. cbn [length].
    rewrite memory_insert. destruct (decide (x = a)) as [->|Hne].
    + rewrite decide_False, decide_True by lia. by rewrite Z.sub_diag.
    + case_decide; case_decide; try lia; [|done].
      by replace (Z.to_nat (x - a)) with (S (Z.to_nat (x - (a + 1)))) by lia.
Qed.

Lemma poke_defined l : forall m a, (forall i, 0 <= i < Z.of_nat (length l) -> is_Some (m !! (a + i))) -> is_Some (poke m a l).
Proof.
  induction l as [|b l IH]; intros m a H; cbn [poke]; [done|].
  destruct (H 0 ltac:(cbn; lia)) as [v Hv]. rewrite Z.add_0_r in Hv. rewrite Hv. cbn [mbind option_bind]. apply IH.
  intros i Hi. rewrite <- Z.add_assoc, memory_insert, decide_False by lia. apply H. cbn. lia.
Qed.

Lemma peek_ext n : forall m m' a, (forall i, 0 <= i < Z.of_nat n -> m' !! (a + i) = m !! (a + i)) -> peek n m' a = peek n m a.
Proof.
  induction n as [|n IH]; intros m m' a H; cbn [peek]; [done|].
  pose proof (H 0 ltac:(lia)) as H0. rewrite Z.add_0_r in H0. rewrite H0, (IH m m' (a + 1)); [done|].
  intros i Hi. rewrite <- Z.add_assoc. apply H. lia.
Qed.

Lemma peek_lookup m l : forall a, (forall i, (i < length l)%nat -> m !! (a + Z.of_nat i) = l !! i) -> peek (length l) m a = Some l.
Proof.
  induction l as [|b l IH]; intros a H; cbn [length peek]; [done|].
  pose proof (H 0%nat ltac:(cbn; lia)) as H0. rewrite Z.add_0_r in H0. rewrite H0. cbn [lookup list_lookup mbind option_bind].
  rewrite IH; [done|]. intros i Hi. rewrite <- Z.add_assoc. specialize (H (S i) ltac:(cbn; lia)).
  by replace (1 + Z.of_nat i) with (Z.of_nat (S i)) by lia.
Qed.

Lemma peek_poke m a l m' : poke m a l = Some m' -> peek (length l) m' a = Some l.
Proof.
  intros H. apply peek_lookup. intros i Hi. rewrite (poke_lookup _ _ _ _ _ H), decide_True by lia.
  by replace (Z.to_nat (a + Z.of_nat i - a)) with i by lia.
Qed.

Lemma length_little n v : length (little n v) = n.
Proof. unfold little. by rewrite length_fmap, length_seq. Qed.

Lemma little_S n v : little (S n) v = v mod 256 :: little n (v / 256).
Proof.
  unfold little. cbn [seq fmap list_fmap]. f_equal; [by rewrite Z.div_1_r|].
  rewrite <- fmap_S_seq, <- list_fmap_compose. apply list_fmap_ext. intros i x _. unfold compose. cbv beta.
  rewrite Nat2Z.inj_succ, Z.pow_succ_r by lia. by rewrite Z.div_div by (try apply Z.pow_pos_nonneg; lia).
Qed.

Lemma little_value n : forall v, NumericProps.le_value (little n v) = v mod 256 ^ Z.of_nat n.
Proof.
  induction n as [|n IH]; intros v; [by rewrite Z.mod_1_r|]. rewrite little_S. cbn [NumericProps.le_value]. rewrite IH.
  rewrite Nat2Z.inj_succ, Z.pow_succ_r by lia. rewrite Z.rem_mul_r by (try apply Z.pow_pos_nonneg; lia). lia.
Qed.

Lemma peek_u_poke n m a v m' : poke m a (little n v) = Some m' -> peek_u n m' a = Some (v mod 256 ^ Z.of_nat n).
Proof.
  intros H. unfold peek_u. apply peek_poke in H. rewrite length_little in H. rewrite H. cbn. by rewrite little_value.
Qed.

(** ** What the driver writes *)

(** The places the driver writes to: the array for the statuses of [n] rows and the
    counter of rows, where the descriptor has them; they are writable and apart. *)
Section Areas.
Context (hd : MADB_Header) (n : nat).
Local Notation P := (ArrayStatusPtr hd).
Local Notation R := (RowsProcessedPtr hd).

Record areas (m : memory) : Prop := {
  ar_status : P <> 0 -> forall i, 0 <= i < 2 * Z.of_nat n -> is_Some (m !! (P + i));
  ar_count : R <> 0 -> forall i, 0 <= i < 8 -> is_Some (m !! (R + i));
  ar_apart : P <> 0 -> R <> 0 -> P + 2 * Z.of_nat n <= R \/ R + 8 <= P;
}.

Definition driver_area (a : Z) : Prop := (P <> 0 /\ P <= a < P + 2 * Z.of_nat n) \/ (R <> 0 /\ R <= a < R + 8).

Record same_outside (m m' : memory) : Prop := {
  so_same : forall a, ~ driver_area a -> m' !! a = m !! a;
  so_dom : forall a, is_Some (m !! a) -> is_Some (m' !! a);
}.

(** The statuses and the count the application sees. *)
Record row_view (m : memory) (sts : list Z) (k : Z) : Prop := {
  rv_status : P <> 0 -> forall i v, sts !! i = Some v -> peek_u 2 m (P + 2 * Z.of_nat i) = Some v;
  rv_count : R <> 0 -> peek_u 8 m R = Some k;
}.

Lemma same_outside_refl m : same_outside m m.
Proof. by split. Qed.
Lemma same_outside_trans m1 m2 m3 : same_outside m1 m2 -> same_outside m2 m3 -> same_outside m1 m3.
Proof. intros [A1 B1] [A2 B2]. split; [|by auto]. intros a Ha. by rewrite A2, A1. Qed.

Lemma areas_same m m' : areas m -> same_outside m m' -> areas m'.
Proof. intros [A1 A2 A3] [_ D]. split; [..|done]; intros; apply D; auto. Qed.

Lemma peek_u_same k m m' a : (forall x, a <= x < a + Z.of_nat k -> m' !! x = m !! x) -> peek_u k m' a = peek_u k m a.
Proof. intros H. unfold peek_u. by rewrite (peek_ext k m m') by (intros; apply H; lia). Qed.

(** Writing into an area changes nothing else. *)
Lemma poke_area m a l m' : poke m a l = Some m' -> (forall x, a <= x < a + Z.of_nat (length l) -> driver_area x) -> same_outside m m'.
Proof.
  intros Hp Ha. split.
  - intros x Hx. rewrite (poke_lookup _ _ _ _ _ Hp). case_decide; [by destruct Hx; apply Ha|done].
  - intros x Hx. rewrite (poke_lookup _ _ _ _ _ Hp). case_decide; [|done]. apply lookup_lt_is_Some. lia.
Qed.

Lemma put_status_ok j v m sts k : areas m -> (j < n)%nat -> length sts = n -> 0 <= v < 65536 -> row_view m sts k ->
  exists m', put_status hd (Z.of_nat j) v m = Some m' /\ same_outside m m' /\ row_view m' (<[j := v]> sts) k.
Proof.
  intros Ha Hj Hl Hv [V1 V2]. unfold put_status. destruct (Z.eqb_spec P 0) as [HP|HP].
  { exists m. split_and!; [done|apply same_outside_refl|]. split; [done|by auto]. }
  destruct (poke_defined (little 2 v) m (P + 2 * Z.of_nat j)) as [m' Hm].
  { intros i Hi. rewrite length_little in Hi. rewrite <- Z.add_assoc. apply (ar_status _ Ha HP). lia. }
  exists m'. split_and!; [done|..].
  - apply (poke_area _ _ _ _ Hm). intros x Hx. rewrite length_little in Hx. left. split; [done|]. lia.
  - split.
    + intros _ i w Hw. destruct (decide (i = j)) as [->|Hne].
      * rewrite list_lookup_insert_eq in Hw by lia. injection Hw as <-. rewrite (peek_u_poke _ _ _ _ _ Hm).
        by rewrite Z.mod_small by (change (256 ^ Z.of_nat 2) with 65536; lia).
      * rewrite list_lookup_insert_ne in Hw by done. rewrite (peek_u_same 2 m m').
        -- by apply V1.
        -- intros x Hx. rewrite (poke_lookup _ _ _ _ _ Hm). rewrite length_little. rewrite decide_False; [done|lia].
    + intros HR. rewrite (peek_u_same 8 m m'); [by apply V2|]. intros x Hx. rewrite (poke_lookup _ _ _ _ _ Hm), length_little.
      rewrite decide_False; [done|]. destruct (ar_apart _ Ha HP HR); lia.
Qed.

Lemma count_write k' m m' sts k : areas m -> R <> 0 -> length sts = n -> poke m R (little 8 k') = Some m' -> row_view m sts k -> 0 <= k' < 2 ^ 64 ->
  same_outside m m' /\ row_view m' sts k'.
Proof.
  intros Ha HR Hl Hm [V1 V2] Hk. split.
  - apply (poke_area _ _ _ _ Hm). intros x Hx. rewrite length_little in Hx. right. split; [done|]. lia.
  - split.
    + intros HP i w Hw. rewrite (peek_u_same 2 m m'); [by apply V1|]. intros x Hx. apply lookup_lt_Some in Hw.
      rewrite (poke_lookup _ _ _ _ _ Hm), length_little. rewrite decide_False; [done|]. destruct (ar_apart _ Ha HP HR); lia.
    + intros _. rewrite (peek_u_poke _ _ _ _ _ Hm). by rewrite Z.mod_small by (change (256 ^ Z.of_nat 8) with (2 ^ 64); lia).
Qed.

Lemma count_row_ok m sts k : areas m -> length sts = n -> row_view m sts k -> 0 <= k < 2 ^ 64 - 1 ->
  exists m', count_row hd m = Some m' /\ same_outside m m' /\ row_view m' sts (k + 1).
Proof.
  intros Ha Hl Hv Hk. unfold count_row. destruct (Z.eqb_spec R 0) as [HR|HR].
  { exists m. split_and!; [done|apply same_outside_refl|]. split; [apply Hv|done]. }
  rewrite (rv_count _ _ _ Hv HR). cbn [mbind option_bind]. rewrite wrapu_id by lia.
  destruct (poke_defined (little 8 (k + 1)) m R) as [m' Hm]; [rewrite length_little; by apply (ar_count _ Ha HR)|].
  exists m'. split; [done|]. apply (count_write _ _ _ _ k Ha HR Hl Hm Hv). lia.
Qed.

Lemma peek_defined k : forall m a, (forall i, 0 <= i < Z.of_nat k -> is_Some (m !! (a + i))) -> is_Some (peek k m a).
Proof.
  induction k as [|k IH]; intros m a Ha; cbn [peek]; [done|]. destruct (Ha 0 ltac:(lia)) as [b Hb]. rewrite Z.add_0_r in Hb. rewrite Hb.
  destruct (IH m (a + 1)) as [l Hl]; [intros i Hi; rewrite <- Z.add_assoc; apply Ha; lia|]. cbn [mbind option_bind]. by rewrite Hl.
Qed.

(** Whatever the memory holds at first is some statuses and some count. *)
Lemma row_view_exists m : areas m -> exists sts k, length sts = n /\ row_view m sts k.
Proof.
  intros Ha. exists ((fun i => default 0 (peek_u 2 m (P + 2 * Z.of_nat i))) <$> seq 0 n), (default 0 (peek_u 8 m R)).
  split; [by rewrite length_fmap, length_seq|]. split.
  - intros HP i v Hv. apply list_lookup_fmap_Some in Hv as (i' & -> & [-> Hi]%lookup_seq). rewrite Nat.add_0_l.
    destruct (peek_defined 2 m (P + 2 * Z.of_nat i)) as [l Hl].
    { intros j Hj. rewrite <- Z.add_assoc. apply (ar_status _ Ha HP). lia. }
    unfold peek_u. by rewrite Hl.
  - intros HR. destruct (peek_defined 8 m R) as [l Hl]; [by apply (ar_count _ Ha HR)|]. unfold peek_u. by rewrite Hl.
Qed.

(** The count is set to zero before the first row. *)
Lemma zero_count_ok m : areas m -> exists m' sts,
  (if R =? 0 then Some m else poke m R (little 8 0)) = Some m' /\ same_outside m m' /\ length sts = n /\ row_view m' sts 0.
Proof.
  intros Ha. destruct (row_view_exists m Ha) as (sts & k & Hl & Hv). destruct (Z.eqb_spec R 0) as [HR|HR].
  - exists m, sts. split_and!; [done|apply same_outside_refl|done|]. split; [apply Hv|done].
  - destruct (poke_defined (little 8 0) m R) as [m' Hm]; [rewrite length_little; by apply (ar_count _ Ha HR)|].
    destruct (count_write 0 m m' sts k Ha HR Hl Hm Hv) as [? ?]; [lia|]. by exists m', sts.
Qed.

End Areas.

End ExecMemory.

Module ExecProps.
Import ExecMemory.

(** ** The rows of the parameter arrays *)

(** The result of one row: ignored, run, or refused with a diagnosis. *)
Definition row_result := option (option native_diag).

Definition native_ret (d : native_diag) : Z := ReturnValue (MADB_SetNativeError calloc_error (Some d)).
Definition result_ret (r : option native_diag) : Z := match r with None => SQL_SUCCESS | Some d => native_ret d end.

(** The status the application sees for row [j] of [size]. *)
Definition row_status (size j : Z) (r : row_result) : Z :=
  match r with
  | None => SQL_PARAM_UNUSED
  | Some r => if SQL_SUCCEEDED (result_ret r) then SQL_PARAM_SUCCESS
              else if j =? size - 1 then SQL_PARAM_ERROR else SQL_PARAM_DIAG_UNAVAILABLE
  end.

(** The return code and the error record after the rows, and the number of failed ones. *)
Definition row_ret (ret : Z) (r : row_result) : Z := match r with Some r => result_ret r | None => ret end.
Definition row_error (E : MADB_Error) (r : row_result) : MADB_Error :=
  match r with Some (Some d) => MADB_SetNativeError E (Some d) | _ => E end.
Definition last_ret : Z -> list row_result -> Z := foldl row_ret.
Definition last_error : MADB_Error -> list row_result -> MADB_Error := foldl row_error.
Definition is_failure (r : row_result) : bool := match r with Some (Some _) => true | _ => false end.
Definition failures (rs : list row_result) : nat := length (filter (fun r => is_failure r = true) rs).

Lemma failures_cons r rs : failures (r :: rs) = ((if is_failure r then 1 else 0) + failures rs)%nat.
Proof. unfold failures. rewrite filter_cons. destruct (is_failure r); [by rewrite decide_True|by rewrite decide_False]. Qed.

Section Server.
Context {A : Type} `{Server A}.
Implicit Types s : MADB_Stmt A.

(** A result nobody has fetched is dropped before the next query. *)
Definition drop_pending (m : MYSQL A) : MYSQL A :=
  if 0 <? my_field_count m then let '(r, m1) := mysql_use_result m in mysql_free_result r m1 else m.

(** The query of a row sent: what becomes of it, the connection and the number of affected
    rows so far. *)
Definition run_row (row : option (list Z)) (m : MYSQL A) (affected : Z) : row_result * MYSQL A * Z :=
  match row with
  | None => (None, m, affected)
  | Some t =>
      let '(failed, m1) := mysql_real_query t (drop_pending m) in
      (Some (if (failed : bool) then Some (my_diag m1) else None), m1,
       if negb failed && (my_field_count m1 =? 0) then wrapu 64 (affected + my_affected_rows m1) else affected)
  end.

(** The queries of the rows, one after the other. *)
Fixpoint run_rows (rows : list (option (list Z))) (m : MYSQL A) (affected : Z) : list row_result * MYSQL A * Z :=
  match rows with
  | [] => ([], m, affected)
  | row :: rows' =>
      let '(r, m1, affected1) := run_row row m affected in
      let '(rs, m', affected') := run_rows rows' m1 affected1 in (r :: rs, m', affected')
  end.

(** The parts of a statement the loops change. *)
Definition upd s (p : param_state) (m : MYSQL A) (hs : gmap positive MYSQL_STMT) (sent : list (list Z)) (rebind : bool) : MADB_Stmt A :=
  set_RebindParams (set_sent (set_handles (set_mysql (set_params s p) m) hs) sent) rebind.
Definition upd_handle (x : MYSQL_STMT) (affected : Z) (done : bool) : MYSQL_STMT :=
  MkHandle affected (hs_fields x) (hs_field_count x) done (hs_state x) (hs_result x).

Lemma native_ret_any E d : ReturnValue (MADB_SetNativeError E (Some d)) = native_ret d.
Proof. reflexivity. Qed.

(** *** The setting: a statement with its parameters bound *)

Context (c : stmt_config) (w : world) (q : MADB_QUERY) (put : Z) (d : stmt_descs) (apd_hd ipd_hd : MADB_Header).
Context (rs : list (MADB_DescRecord * MADB_DescRecord)) (CurQuery ParamOffset n : nat) (m0 : memory).

Definition query_text : list Z := drop (RefinedText q) (Parse.text q).
Definition query_end : nat := (CurQuery + strlen query_text CurQuery)%nat.
Definition query_params : list nat := take (length rs) (drop ParamOffset (ParamPositions q)).
Definition the_params : param_stmt := MkParamStmt d (Z.of_nat (length rs)) put query_text (ParamPositions q).

(** The text of the statement with the literals of one row. *)
Definition row_text (lits : list (list Z)) : list Z := fill (take query_end query_text) CurQuery query_params lits.

Record prepared : Prop := {
  pr_descs : stmts w !! sc_self c = Some d;
  pr_apd : Header <$> descs w !! Apd d = Some apd_hd;
  pr_ipd : Header <$> descs w !! Ipd d = Some ipd_hd;
  pr_bound : bound_params w the_params ParamOffset rs;
  pr_len : Z.of_nat (length query_text) < 2 ^ 32;
  pr_off : (CurQuery <= length query_text)%nat;
  pr_ps : length query_params = length rs;
  pr_offsets : offsets_ok CurQuery query_params query_end;
  pr_n : Z.of_nat n < 2 ^ 31;
  pr_areas : areas ipd_hd n m0;
}.

(** A row that is to be ignored, or one with the given literals: whatever the driver has
    written into its own places by then. *)
Definition row_ok (i : nat) (r : option (list (list Z))) : Prop :=
  forall m E, same_outside ipd_hd n m0 m ->
  match r with
  | None => is_ignored apd_hd m (Z.of_nat i) = Some true
  | Some lits =>
      is_ignored apd_hd m (Z.of_nat i) = Some false /\
      param_literals (sc_params c) the_params (Z.of_nat i) rs SQL_SUCCESS (MkParamState w m E []) = Some (SQL_SUCCESS, lits, m, E) /\
      Z.of_nat (length (row_text lits)) < 2 ^ 60
  end.

(** The statement while its rows are run. *)
Record running s (sts : list Z) (k : Z) (h : positive) (x : MYSQL_STMT) : Prop := {
  ru_world : world_of s = w;
  ru_query : ms_Query s = q;
  ru_count : ms_ParamCount s = Z.of_nat (length rs);
  ru_put : ms_PutParam s = put;
  ru_same : same_outside ipd_hd n m0 (memory_of s);
  ru_view : row_view ipd_hd (memory_of s) sts k;
  ru_length : length sts = n;
  ru_rows : 0 <= k < 2 ^ 64 - Z.of_nat n;
  ru_answers : false ∉ pm_answers (ms_params s);
  ru_stmt : ms_stmt s = Some h;
  ru_handle : ms_handles s !! h = Some x;
}.

Lemma ru_areas s sts k h x : prepared -> running s sts k h x -> areas ipd_hd n (memory_of s).
Proof. intros Hp Hr. eapply areas_same; [apply Hp|apply Hr]. Qed.

Lemma world_descs s : prepared -> world_of s = w ->
  own_descs c s = Some d /\ header_of (Apd d) s = Some apd_hd /\ header_of (Ipd d) s = Some ipd_hd.
Proof. intros [] Hw. unfold own_descs, header_of. by rewrite Hw. Qed.

Lemma ru_descs s sts k h x : prepared -> running s sts k h x ->
  own_descs c s = Some d /\ header_of (Apd d) s = Some apd_hd /\ header_of (Ipd d) s = Some ipd_hd.
Proof. intros Hp Hr. by apply world_descs, Hr. Qed.

(** The descriptors of the statement, looked up one after the other. *)
Ltac use_descs Hp Hr :=
  let D1 := fresh in let D2 := fresh in let D3 := fresh in
  destruct (ru_descs _ _ _ _ _ Hp Hr) as (D1 & D2 & D3);
  rewrite D1; cbn [mbind option_bind]; rewrite D2; cbn [mbind option_bind]; rewrite D3; cbn [mbind option_bind]; clear D1 D2 D3.

Lemma param_literals_answers pc ps idx ret l (p : param_state) :
  param_literals pc ps idx l ret (MkParamState (pm_world p) (pm_memory p) (pm_Error p) []) = param_literals pc ps idx l ret p.
Proof. destruct l as [|[]]; reflexivity. Qed.

Lemma new_string_ok s : false ∉ pm_answers (ms_params s) ->
  exists f p, new_string c s = Some (f, set_params s p) /\ wf f /\ contents f = [] /\ same_but_answers (ms_params s) p.
Proof.
  intros Ha. unfold new_string, next_answer. destruct (answer_ok _ Ha) as (p & -> & Hp).
  assert (exists f, MADB_InitDynamicString (pc_junk (sc_params c)) true (Some []) 1024 1024 = Some (false, f) /\ wf f /\ contents f = [])
    as (f & -> & Hw & Hc) by (apply (MADB_InitDynamicString_cases (pc_junk (sc_params c)) [] 1024 1024); cbn; lia).
  by exists f, p.
Qed.

(** Only answers of the allocator are used. *)
Lemma running_answers s sts k h x p : running s sts k h x -> same_but_answers (ms_params s) p -> running (set_params s p) sts k h x.
Proof.
  intros [] [W M E An]. split; try done; unfold world_of, memory_of in *; cbn [ms_params set_params]; rewrite ?W, ?M; auto.
Qed.

Lemma running_memory s sts k h x m sts' k' : running s sts k h x -> same_outside ipd_hd n (memory_of s) m -> row_view ipd_hd m sts' k' ->
  length sts' = n -> 0 <= k' < 2 ^ 64 - Z.of_nat n -> running (put_memory s m) sts' k' h x.
Proof. intros [] Hm Hv Hl Hk. split; try done. eapply same_outside_trans; [exact ru_same0|exact Hm]. Qed.

(** A row to be ignored is counted and marked as unused. *)
Lemma InitStatementParams_ignored s sts k h x j ret f : prepared -> running s sts k h x -> row_ok j None -> (j < n)%nat ->
  k + 1 < 2 ^ 64 - Z.of_nat n ->
  exists m, CspsInitStatementParams c CurQuery ParamOffset (Z.of_nat j) ret f s = Some (CCFR_CONTINUE, ret, f, put_memory s m) /\
    running (put_memory s m) (<[j := SQL_PARAM_UNUSED]> sts) (k + 1) h x.
Proof.
  intros Hp Hr Hrow Hj Hk. unfold CspsInitStatementParams. use_descs Hp Hr.
  pose proof (ru_areas _ _ _ _ _ Hp Hr) as Ha. destruct Hr as [] eqn:HR. clear HR.
  destruct (count_row_ok ipd_hd n (memory_of s) sts k Ha) as (m1 & -> & S1 & V1); [done..|lia|]. cbn [mbind option_bind].
  rewrite (Hrow m1 (error_of s)) by (by eapply same_outside_trans). cbn [mbind option_bind].
  destruct (put_status_ok ipd_hd n j SQL_PARAM_UNUSED m1 sts (k + 1)) as (m2 & -> & S2 & V2);
    [by eapply areas_same|done|done|by vm_compute|done|]. cbn [mbind option_bind].
  exists m2. split; [done|]. eapply running_memory; [exact Hr|by eapply same_outside_trans|done|by rewrite length_insert|lia].
Qed.

(** The text of another row is the statement's text with the literals of the row. *)
Lemma InitStatementParams_text s sts k h x j ret f lits : prepared -> running s sts k h x -> row_ok j (Some lits) -> (j < n)%nat ->
  k + 1 < 2 ^ 64 - Z.of_nat n -> wf f -> contents f = [] ->
  exists f' p hs rebind done,
    CspsInitStatementParams c CurQuery ParamOffset (Z.of_nat j) ret f s =
      Some (CCFR_OK, SQL_SUCCESS, f', upd s p (ms_mysql s) hs (ms_sent s) rebind) /\
    wf f' /\ contents f' = row_text lits /\ pm_Error p = error_of s /\
    hs = <[h := upd_handle x (hs_affected_rows x) done]> (ms_handles s) /\
    running (upd s p (ms_mysql s) hs (ms_sent s) rebind) sts (k + 1) h (upd_handle x (hs_affected_rows x) done).
Proof.
  intros Hp Hr Hrow Hj Hk Hf Hf0. unfold CspsInitStatementParams. use_descs Hp Hr.
  pose proof (ru_areas _ _ _ _ _ Hp Hr) as Ha. pose proof Hr as [W Q PC PU SO V L R An St Hx].
  destruct (count_row_ok ipd_hd n (memory_of s) sts k Ha) as (m1 & -> & S1 & V1); [done..|lia|]. cbn [mbind option_bind].
  destruct (Hrow m1 (error_of s)) as (-> & Hlit & Hbig); [by eapply same_outside_trans|]. cbn [mbind option_bind].
  assert (param_stmt_of d (put_memory s m1) = the_params) as ->.
  { unfold param_stmt_of, the_params, query_text. cbn. by rewrite Q, PC, PU. }
  pose proof (pr_n Hp) as Hn. rewrite wrapu_id by lia.
  assert (query_end <= length query_text)%nat as Hend.
  { unfold query_end. pose proof (strlen_le query_text CurQuery). pose proof (pr_off Hp). lia. }
  assert (length_ f = 0) as Hl0 by (rewrite <- length_contents, Hf0 by done; done).
  destruct (InsertParams_fill (sc_params c) (sc_mem c) the_params (Z.of_nat j) query_end Hend (pr_len Hp) rs CurQuery ParamOffset f
    (ms_params (put_memory s m1)) SQL_SUCCESS lits m1 (error_of s) query_params) as (f' & p & -> & Hf' & Hc' & W' & M' & E' & A'); try done.
  - cbn. change (pm_world (ms_params s)) with (world_of s). rewrite W. apply Hp.
  - apply Hp.
  - apply Hp.
  - rewrite <- param_literals_answers. cbn. change (pm_world (ms_params s)) with (world_of s). by rewrite W.
  - cbn [the_params pq_text]. fold (row_text lits). lia.
  - cbn [mbind option_bind]. rewrite Hf0 in Hc'. cbn [app] in Hc'.
    set (s2 := set_params (put_memory s m1) p).
    assert (forall rebind done, running (upd s p (ms_mysql s) (<[h:=upd_handle x (hs_affected_rows x) done]> (ms_handles s)) (ms_sent s) rebind)
      sts (k + 1) h (upd_handle x (hs_affected_rows x) done)) as Hrun.
    { intros rebind done. split; cbn; try done; unfold world_of, memory_of; cbn; rewrite ?W', ?M'; cbn; try done.
      - by eapply same_outside_trans.
      - lia.
      - apply lookup_insert_eq. }
    assert (the_handle s2 = Some (h, x)) as Hh by (unfold the_handle; cbn; by rewrite St; cbn; rewrite Hx).
    destruct (ms_RebindParams s2 && negb (ms_ParamCount s2 =? 0)).
    + rewrite Hh. cbn [mbind option_bind].
      exists f', p, (<[h:=upd_handle x (hs_affected_rows x) true]> (ms_handles s)), false, true. by split_and!.
    + exists f', p, (<[h:=upd_handle x (hs_affected_rows x) (hs_bind_param_done x)]> (ms_handles s)), (ms_RebindParams s), (hs_bind_param_done x).
      split_and!; try done.
      replace (upd_handle x (hs_affected_rows x) (hs_bind_param_done x)) with x by (by destruct x). rewrite insert_id by done. by destruct s.
Qed.

(** Running the query of a row: its result, the connection and the affected rows. *)
Lemma RunStatementQuery_run s sts k h x f EC r m1 affected : running s sts k h x -> 0 <= EC < 2 ^ 32 - 1 ->
  run_row (Some (contents f)) (ms_mysql s) (hs_affected_rows x) = (Some r, m1, affected) ->
  exists s' x', CspsRunStatementQuery f EC s = Some (result_ret r, EC + (if is_failure (Some r) then 1 else 0), s') /\
    s' = upd s (Params.with_error (ms_params s) (row_error (error_of s) (Some r))) m1 (<[h := x']> (ms_handles s)) (ms_sent s ++ [contents f])
           (ms_RebindParams s) /\
    x' = upd_handle x affected (hs_bind_param_done x) /\ running s' sts k h x'.
Proof.
  intros [W Q PC PU SO V L R An St Hx] HEC. unfold CspsRunStatementQuery, send, run_row.
  match goal with |- context [the_handle ?t] => set (s1 := t) end.
  assert (s1 = set_mysql s (drop_pending (ms_mysql s))) as ->.
  { unfold s1, drop_pending. destruct (0 <? my_field_count _); [|by destruct s]. by destruct (mysql_use_result _). }
  assert (the_handle (set_mysql s (drop_pending (ms_mysql s))) = Some (h, x)) as -> by (unfold the_handle; cbn; rewrite St; cbn; by rewrite Hx).
  cbn [mbind option_bind ms_mysql set_mysql]. destruct (mysql_real_query (contents f) (drop_pending (ms_mysql s))) as [failed m2] eqn:Eq.
  intros [= <- <- <-]. do 2 eexists. split; [|split; [reflexivity|split; [reflexivity|]]].
  all: assert (upd_handle x (hs_affected_rows x) (hs_bind_param_done x) = x) as Hid by (by destruct x).
  - destruct failed; cbn [negb andb is_failure].
    + rewrite Hid, insert_id by done. cbn. rewrite wrapu_id by lia. destruct s as [p0]. cbn. do 3 f_equal.
    + cbn. rewrite Z.add_0_r. destruct (my_field_count m2 =? 0); [by destruct s as [[? ? ? ?]]|].
      rewrite Hid, insert_id by done. by destruct s as [[? ? ? ?]].
  - by split; cbn; try done; apply lookup_insert_eq.
Qed.

Lemma report_row_ok s sts k h x v j : prepared -> running s sts k h x -> is_ignored apd_hd (memory_of s) (Z.of_nat j) = Some false ->
  (j < n)%nat -> 0 <= v < 65536 ->
  exists m, report_row c v (Z.of_nat j) s = Some (put_memory s m) /\ running (put_memory s m) (<[j := v]> sts) k h x.
Proof.
  intros Hp Hr Hi Hj Hv. unfold report_row. use_descs Hp Hr. pose proof (ru_areas _ _ _ _ _ Hp Hr) as Ha. pose proof Hr as [W Q PC PU SO V L R An St Hx].
  destruct (put_status_ok ipd_hd n j v (memory_of s) sts k) as (m & Em & S1 & V1); [done..|].
  exists m. assert (running (put_memory s m) (<[j:=v]> sts) k h x) as Hr'.
  { eapply running_memory; try done. by rewrite length_insert. }
  split; [|done]. unfold put_status in *. destruct (ArrayStatusPtr ipd_hd =? 0).
  - injection Em as <-. by destruct s as [[? ? ? ?]].
  - rewrite Hi. cbn [mbind option_bind]. by rewrite Em.
Qed.

(** One round of the loop over the rows. *)
Lemma rows_loop_step row j EC ret s sts k h x r m1 affected : prepared -> running s sts k h x -> row_ok j row -> (j < n)%nat ->
  k + 1 < 2 ^ 64 - Z.of_nat n -> 0 <= EC < 2 ^ 32 - 1 -> run_row (row_text <$> row) (ms_mysql s) (hs_affected_rows x) = (r, m1, affected) ->
  exists p done rebind,
    let x' := upd_handle x affected done in
    let s' := upd s p m1 (<[h := x']> (ms_handles s)) (ms_sent s ++ from_option (fun lits => [row_text lits]) [] row) rebind in
    (forall i, rows_loop c (S i) (Z.of_nat j) CurQuery ParamOffset (Z.of_nat n) EC ret s =
      rows_loop c i (Z.of_nat (S j)) CurQuery ParamOffset (Z.of_nat n) (EC + (if is_failure r then 1 else 0)) (row_ret ret r) s') /\
    running s' (<[j := row_status (Z.of_nat n) (Z.of_nat j) r]> sts) (k + 1) h x' /\ pm_Error p = row_error (error_of s) r.
Proof.
  intros Hp Hr Hrow Hj Hk HEC Hrun. cbn [rows_loop]. replace (Z.of_nat j + 1) with (Z.of_nat (S j)) by lia.
  destruct (new_string_ok s (ru_answers _ _ _ _ _ Hr)) as (f & p0 & -> & Hf & Hf0 & Hp0). cbn [mbind option_bind].
  pose proof (running_answers _ _ _ _ _ _ Hr Hp0) as Hr0. destruct row as [lits|].
  - destruct (InitStatementParams_text (set_params s p0) sts k h x j ret f lits Hp Hr0 Hrow Hj Hk Hf Hf0)
      as (f' & p1 & hs & rb & bd & -> & Hf' & Hc' & HE1 & -> & Hr1). cbn [mbind option_bind]. cbn [fmap option_fmap option_map] in Hrun.
    remember (upd (set_params s p0) p1 _ _ _ rb) as s1 eqn:Es1. rewrite <- Hc' in Hrun. assert (exists r', r = Some r') as [r' ->].
    { unfold run_row in Hrun. destruct (mysql_real_query _ _). injection Hrun as <- _ _. by eexists. }
    assert (ms_mysql s1 = ms_mysql s) as Hm1 by (by subst s1). rewrite <- Hm1 in Hrun.
    destruct (RunStatementQuery_run s1 sts (k + 1) h _ f' EC r' m1 affected Hr1 HEC Hrun) as (s2 & x2 & -> & Hs2 & Hx2 & Hr2). cbn [mbind option_bind].
    assert (wrapu 64 (Z.of_nat n - 1) = Z.of_nat n - 1) as -> by (pose proof (pr_n Hp); apply wrapu_id; lia).
    destruct (report_row_ok s2 sts (k + 1) h x2 (row_status (Z.of_nat n) (Z.of_nat j) (Some r')) j Hp Hr2) as (m2 & Em & Hr3);
      [apply (Hrow (memory_of s2) (error_of s)), Hr2|lia|unfold row_status; repeat case_match; by vm_compute|].
    unfold row_status in Em at 1. rewrite Em. cbn [mbind option_bind]. clear Em.
    exists (with_memory (Params.with_error p1 (row_error (pm_Error p1) (Some r'))) m2), bd, rb. cbv zeta.
    replace (upd s _ _ _ _ _) with (put_memory s2 m2).
    + rewrite Hx2 in Hr3. split_and!; [done|done|]. cbn [pm_Error with_memory Params.with_error]. rewrite HE1.
      change (error_of (set_params s p0)) with (pm_Error p0). by rewrite (sba_Error _ _ Hp0).
    + subst s2 x2 s1. rewrite Hc'. cbn [from_option upd ms_handles set_RebindParams set_sent set_handles]. by rewrite insert_insert_eq.
  - destruct (InitStatementParams_ignored (set_params s p0) sts k h x j ret f Hp Hr0 Hrow Hj Hk) as (m2 & -> & Hr1).
    injection Hrun as <- <- <-. exists (with_memory p0 m2), (hs_bind_param_done x), (ms_RebindParams s). cbn [mbind option_bind is_failure].
    rewrite Z.add_0_r. replace (upd_handle x (hs_affected_rows x) (hs_bind_param_done x)) with x by (by destruct x).
    rewrite insert_id by apply Hr. cbn [from_option]. rewrite app_nil_r.
    replace (upd s (with_memory p0 m2) _ _ _ _) with (put_memory (set_params s p0) m2) by (by destruct s).
    split_and!; try done. apply (sba_Error _ _ Hp0).
Qed.

(** The loop over the rows: the queries of the rows that are not ignored are sent in
    order, whatever becomes of each; statuses and count tell what happened. *)
Lemma rows_loop_run : prepared -> forall rows j EC ret s sts k h x res m' affected,
  running s sts k h x -> (forall i r, rows !! i = Some r -> row_ok (j + i) r) -> (j + length rows <= n)%nat ->
  k + Z.of_nat (length rows) < 2 ^ 64 - Z.of_nat n -> 0 <= EC < 2 ^ 32 - Z.of_nat (length rows) ->
  let texts := (fun r => row_text <$> r) <$> rows in
  run_rows texts (ms_mysql s) (hs_affected_rows x) = (res, m', affected) ->
  exists p done rebind sts',
    let x' := upd_handle x affected done in
    let s' := upd s p m' (<[h := x']> (ms_handles s)) (ms_sent s ++ omap id texts) rebind in
    rows_loop c (length rows) (Z.of_nat j) CurQuery ParamOffset (Z.of_nat n) EC ret s =
      Some (Next (EC + Z.of_nat (failures res)) (last_ret ret res) s') /\
    running s' sts' (k + Z.of_nat (length rows)) h x' /\ pm_Error p = last_error (error_of s) res /\
    (forall i, (i < j)%nat -> sts' !! i = sts !! i) /\
    (forall i r, res !! i = Some r -> sts' !! (j + i)%nat = Some (row_status (Z.of_nat n) (Z.of_nat (j + i)) r)).
Proof.
  intros Hp. induction rows as [|row rows IH]; intros j EC ret s sts k h x res m' affected Hr Hrows Hj Hk HEC texts Hrun; subst texts.
  { injection Hrun as <- <- <-. exists (ms_params s), (hs_bind_param_done x), (ms_RebindParams s), sts.
    replace (upd_handle x (hs_affected_rows x) (hs_bind_param_done x)) with x by (by destruct x). cbn [fmap list_fmap omap list_omap].
    rewrite insert_id by apply Hr. rewrite app_nil_r. replace (upd s _ _ _ _ _) with s by (by destruct s). cbv zeta.
    cbn [length]. change (failures []) with 0%nat. rewrite !Z.add_0_r. by split_and!. }
  cbn [length fmap list_fmap run_rows] in *.
  destruct (run_row (row_text <$> row) (ms_mysql s) (hs_affected_rows x)) as [[r m1] aff1] eqn:E1.
  pose proof (Hrows 0%nat row eq_refl) as Hrow. rewrite Nat.add_0_r in Hrow.
  destruct (rows_loop_step row j EC ret s sts k h x r m1 aff1 Hp Hr Hrow ltac:(lia) ltac:(lia) ltac:(lia) E1)
    as (p1 & bd1 & rb1 & Estep & Hr1 & HE1). rewrite Estep. clear Estep.
  match type of Hr1 with running ?t _ _ _ ?y => set (s1 := t) in *; set (x1 := y) in * end.
  destruct (run_rows _ m1 aff1) as [[res' m2] aff2] eqn:E2. injection Hrun as <- <- <-.
  assert (0 <= (if is_failure r then 1 else 0) <= 1) as Hf1 by (destruct (is_failure r); lia).
  destruct (IH (S j) (EC + (if is_failure r then 1 else 0)) (row_ret ret r) s1 _ (k + 1) h x1 res' m2 aff2 Hr1)
    as (p & bd & rb & sts' & -> & Hr2 & HE & Hlow & Hst); [|lia..|exact E2|].
  { intros i r' Hi. replace (S j + i)%nat with (j + S i)%nat by lia. by apply Hrows. }
  exists p, bd, rb, sts'. cbv zeta.
  match type of Hr2 with running ?t _ _ _ _ => replace (upd s p m2 _ _ rb) with t end.
  2: { unfold s1, x1. cbn [upd ms_handles ms_sent set_RebindParams set_sent set_handles]. rewrite insert_insert_eq.
       by destruct row; cbn [from_option fmap option_fmap option_map omap list_omap id]; rewrite <- app_assoc. }
  split_and!.
  - rewrite failures_cons. do 2 f_equal. destruct (is_failure r); lia.
  - by replace (k + Z.of_nat (S (length rows))) with (k + 1 + Z.of_nat (length rows)) by lia.
  - rewrite HE. change (error_of s1) with (pm_Error p1). by rewrite HE1.
  - intros i Hi. rewrite Hlow by lia. by rewrite list_lookup_insert_ne by lia.
  - intros [|i] r' Hi.
    + injection Hi as <-. rewrite Nat.add_0_r, Hlow by lia. apply list_lookup_insert_eq. rewrite (ru_length _ _ _ _ _ Hr). lia.
    + replace (j + S i)%nat with (S j + i)%nat by lia. by apply Hst.
Qed.

End Server.

Section Whole.
Context {A : Type} `{Server A}.
Implicit Types s : MADB_Stmt A.

(** A prepared statement, alone in its query, with all its parameters bound to arrays of
    [n] values. *)
Record ready (c : stmt_config) s (rs : list (MADB_DescRecord * MADB_DescRecord)) (d : stmt_descs) (apd_hd ipd_hd : MADB_Header)
    (n : nat) (h : positive) (x : MYSQL_STMT) : Prop := {
  rd_ssps : MADB_SSPS_DISABLED c s = true;
  rd_state : ms_State s <> MADB_SS_EMULATED;
  rd_positioned : MADB_POSITIONED_COMMAND s = false;
  rd_binds : ms_binds s = true;
  rd_single : STMT_COUNT (ms_Query s) = 1%nat;
  rd_prepared : prepared c (world_of s) (ms_Query s) (ms_PutParam s) d apd_hd ipd_hd rs 0 0 n (memory_of s);
  rd_count : ms_ParamCount s = Z.of_nat (length rs);
  rd_params : rs <> [];
  rd_size : ArraySize apd_hd = Z.of_nat n;
  rd_stmt : ms_stmt s = Some h;
  rd_handle : ms_handles s !! h = Some x;
  rd_multi : ms_MultiStmts s = None;
  rd_answers : false ∉ pm_answers (ms_params s);
}.

(** Up to the loop over the rows. *)
Lemma execute_text_start c s rs d apd_hd ipd_hd n h x : ready c s rs d apd_hd ipd_hd n h x ->
  exists m sts, let s1 := put_memory (put_handle (set_AffectedRows (LOCK s) 0) h (set_affected_rows x 0)) m in
    running (world_of s) (ms_Query s) (ms_PutParam s) ipd_hd rs n (memory_of s) s1 sts 0 h (set_affected_rows x 0) /\
    execute_text c s =
      (o ← execute_one c 0 0 0 SQL_SUCCESS s1;
       match o with
       | Goto_end ErrorCount ret s3 => execute_end c ErrorCount ret s3
       | Next ErrorCount ret s3 => s4 ← install_first c s3; execute_end c ErrorCount ret s4
       end).
Proof.
  intros Hr. pose proof (rd_prepared _ _ _ _ _ _ _ _ _ Hr) as Hp.
  destruct (zero_count_ok ipd_hd n (memory_of s) (pr_areas _ _ _ _ _ _ _ _ _ _ _ _ Hp)) as (m & sts & Em & Hs & Hl & Hv).
  exists m, sts. cbv zeta. split.
  { pose proof (pr_n _ _ _ _ _ _ _ _ _ _ _ _ Hp). destruct Hr. split; try done; [lia|]. apply lookup_insert_eq. }
  unfold execute_text. cbn [ms_stmt ms_handles set_AffectedRows LOCK set_locks]. rewrite (rd_stmt _ _ _ _ _ _ _ _ _ Hr).
  rewrite (rd_handle _ _ _ _ _ _ _ _ _ Hr). cbn [mbind option_bind].
  set (s2 := put_handle _ h _). destruct (world_descs c (world_of s) _ _ _ _ _ _ _ _ _ _ s2 Hp eq_refl) as (-> & _ & E2). cbn [mbind option_bind].
  rewrite E2. cbn [mbind option_bind]. change (memory_of s2) with (memory_of s). rewrite Em. cbn [mbind option_bind].
  change (ms_Query s2) with (ms_Query s). rewrite (rd_single _ _ _ _ _ _ _ _ _ Hr). cbn [statements_loop].
  change (ms_Query (put_memory s2 m)) with (ms_Query s). unfold QUERY_IS_MULTISTMT. rewrite (rd_single _ _ _ _ _ _ _ _ _ Hr).
  change (1 <? 1)%nat with false. cbn match. destruct (execute_one _ _ _ _ _ _) as [[]|]; reflexivity.
Qed.

Lemma ready_error c s rs d apd_hd ipd_hd n h x E : ready c s rs d apd_hd ipd_hd n h x -> ready c (put_error s E) rs d apd_hd ipd_hd n h x.
Proof. by intros []. Qed.

(** A statement that is ready is executed in the text branch. *)
Lemma StmtExecute_text c s rs d apd_hd ipd_hd n h x positioned binary : ready c s rs d apd_hd ipd_hd n h x ->
  MADB_StmtExecute c positioned binary s = execute_text c (put_error s (MADB_CLEAR_ERROR (error_of s))).
Proof.
  intros [H1 H2 H3 H4 _ _ _ _ _ _ _ _]. unfold MADB_StmtExecute. set (s1 := put_error s _).
  change (ms_State s1) with (ms_State s). rewrite (proj2 (Z.eqb_neq _ _) H2).
  change (MADB_POSITIONED_COMMAND s1) with (MADB_POSITIONED_COMMAND s). rewrite H3. change (ms_binds s1) with (ms_binds s). rewrite H4.
  cbn [negb]. change (MADB_SSPS_DISABLED c s1) with (MADB_SSPS_DISABLED c s). by rewrite H1.
Qed.

(** Without a result set there is nothing to receive but the number of affected rows. *)
Lemma ReceiveStatementResults_none c s ret h x : MADB_SSPS_DISABLED c s = true -> ms_CspsResult s = None -> the_handle s = Some (h, x) ->
  my_field_count (ms_mysql s) = 0 -> ms_MultiStmts s = None ->
  CspsReceiveStatementResults c ret s =
    Some (ret, if SQL_SUCCEEDED ret then set_AffectedRows s (wraps 64 (ms_AffectedRows s + hs_affected_rows x)) else s).
Proof.
  intros H1 H2 H3 H4 H5. unfold CspsReceiveStatementResults, MADB_CspsFreeResult. rewrite H1, H2. cbn [mbind option_bind].
  assert (set_CspsResult s None = s) as -> by (destruct s; cbn in *; by subst). rewrite H3. cbn [mbind option_bind].
  rewrite H4. change (0 <? 0) with false. cbn match. rewrite H5, bool_decide_eq_true_2, andb_true_r by done. reflexivity.
Qed.

Lemma execute_end_code c s EC ret d hd : own_descs c s = Some d -> header_of (Apd d) s = Some hd -> NativeError (error_of s) <> 1295 ->
  execute_end c EC ret s = Some (execute_code EC (ArraySize hd) ret, set_LastRowFetched (UNLOCK s) 0).
Proof.
  intros H1 H2 H3. unfold execute_end. change (own_descs c (set_LastRowFetched (UNLOCK s) 0)) with (own_descs c s). rewrite H1.
  cbn [mbind option_bind]. change (header_of (Apd d) (set_LastRowFetched (UNLOCK s) 0)) with (header_of (Apd d) s). rewrite H2.
  cbn [mbind option_bind]. change (error_of (set_LastRowFetched (UNLOCK s) 0)) with (error_of s). rewrite (proj2 (Z.eqb_neq _ _) H3).
  by destruct (SQL_SUCCEEDED _).
Qed.

(** The end of an execution without a result set. *)
Lemma execute_finish c s h x EC ret d hd : ms_MultiStmts s = None -> the_handle s = Some (h, x) -> hs_field_count x = 0 ->
  own_descs c s = Some d -> header_of (Apd d) s = Some hd -> NativeError (error_of s) <> 1295 ->
  exists s', (s4 ← install_first c s; execute_end c EC ret s4) = Some (execute_code EC (ArraySize hd) ret, s') /\
    memory_of s' = memory_of s /\ ms_mysql s' = ms_mysql s /\ ms_sent s' = ms_sent s /\ error_of s' = error_of s /\
    ms_AffectedRows s' = ms_AffectedRows s /\ ms_State s' = MADB_SS_EXECUTED /\ ms_locks s' = ms_locks s - 1.
Proof.
  intros H1 H2 H3 H4 H5 H6. unfold install_first. rewrite H1, H2. cbn [mbind option_bind]. rewrite H3. change (0 <? 0) with false.
  cbn [mbind option_bind]. rewrite (execute_end_code c (set_State s MADB_SS_EXECUTED) EC ret d hd H4 H5 H6). eexists. split; [reflexivity|].
  by split_and!.
Qed.

(** A statement that is not rewritten is executed row by row. *)
Lemma execute_one_rows c s rs d apd_hd ipd_hd n k EC ret m0 : k = n ->
  prepared c (world_of s) (ms_Query s) (ms_PutParam s) d apd_hd ipd_hd rs 0 0 n m0 -> ms_ParamCount s = Z.of_nat (length rs) -> rs <> [] ->
  ArraySize apd_hd = Z.of_nat n -> rewriteInsert (ms_Query s) (Z.of_nat n) = false ->
  execute_one c 0 0 EC ret s =
    (o ← rows_loop c k 0 0 0 (Z.of_nat n) EC ret s;
     match o with
     | Goto_end _ _ _ => Some o
     | Next EC1 ret1 s1 => '(ret2, s2) ← CspsReceiveStatementResults c ret1 s1; Some (Next EC1 ret2 s2)
     end).
Proof.
  intros -> Hp Hc Hrs Hs Hrw. unfold execute_one. destruct (world_descs _ _ _ _ _ _ _ _ _ _ _ _ s Hp eq_refl) as (-> & E2 & _).
  cbn [mbind option_bind]. rewrite E2. cbn [mbind option_bind]. pose proof (pr_n _ _ _ _ _ _ _ _ _ _ _ _ Hp) as Hn.
  rewrite Hc, Hs. destruct (Z.ltb_spec 0 (Z.of_nat (length rs))); [|destruct rs; [done|cbn in *; lia]].
  rewrite wraps_id by lia. rewrite Hrw, wrapu_id, Nat2Z.id by lia. reflexivity.
Qed.

(** C3. Executing a statement with arrays of parameters sends one query for each row that is
    not ignored, in order, with the literals of the row in place of the markers, and goes
    on after a query that fails.  Afterwards the application finds the number of rows,
    for each row whether it was left out, executed or refused, and nothing else of its
    memory changed; the return code follows from the number of refused rows; the error
    record is that of the last refused query; the affected rows of the queries are added
    up, unless the last query was refused; the lock is released.  (A statement without a
    result set, whose INSERT is not rewritten and that the server can prepare.) *)
Theorem StmtExecute_rows c s rs d apd_hd ipd_hd n h x rows positioned binary res m' affected :
  let texts := (fun r => row_text (ms_Query s) rs 0 0 <$> r) <$> rows in
  let last := last_ret SQL_SUCCESS res in
  ready c s rs d apd_hd ipd_hd n h x -> ms_CspsResult s = None -> hs_field_count x = 0 -> rewriteInsert (ms_Query s) (Z.of_nat n) = false ->
  length rows = n ->
  (forall i r, rows !! i = Some r -> row_ok c (world_of s) (ms_Query s) (ms_PutParam s) d apd_hd ipd_hd rs 0 0 n (memory_of s) i r) ->
  run_rows texts (ms_mysql s) 0 = (res, m', affected) -> my_field_count m' = 0 ->
  NativeError (last_error (MADB_CLEAR_ERROR (error_of s)) res) <> 1295 ->
  exists s' sts, MADB_StmtExecute c positioned binary s = Some (execute_code (Z.of_nat (failures res)) (Z.of_nat n) last, s') /\
    ms_sent s' = ms_sent s ++ omap id texts /\ ms_mysql s' = m' /\
    row_view ipd_hd (memory_of s') sts (Z.of_nat n) /\
    (forall i r, res !! i = Some r -> sts !! i = Some (row_status (Z.of_nat n) (Z.of_nat i) r)) /\
    same_outside ipd_hd n (memory_of s) (memory_of s') /\ error_of s' = last_error (MADB_CLEAR_ERROR (error_of s)) res /\
    ms_AffectedRows s' = (if SQL_SUCCEEDED last then wraps 64 affected else 0) /\
    ms_State s' = MADB_SS_EXECUTED /\ ms_locks s' = ms_locks s.
Proof.
  intros texts last Hr Hcs Hfc Hrw Hlen Hrows Hrun Hm' Hne. rewrite (StmtExecute_text c s rs d apd_hd ipd_hd n h x) by done.
  apply (ready_error _ _ _ _ _ _ _ _ _ (MADB_CLEAR_ERROR (error_of s))) in Hr. set (s0 := put_error s _) in Hr |- *.
  pose proof (rd_prepared _ _ _ _ _ _ _ _ _ Hr) as Hp. pose proof (pr_n _ _ _ _ _ _ _ _ _ _ _ _ Hp) as Hn.
  destruct (execute_text_start c s0 _ _ _ _ _ _ _ Hr) as (m1 & sts0 & Hru & ->).
  match type of Hru with running _ _ _ _ _ _ _ ?t _ _ _ _ => remember t as s1 eqn:Es1 end.
  assert (ms_mysql s1 = ms_mysql s) as Hm1 by (by subst s1).
  destruct (rows_loop_run c _ _ _ _ _ _ _ _ _ _ _ Hp rows 0 0 SQL_SUCCESS s1 sts0 0 h _ res m' affected Hru) as
    (p & bd & rb & sts & Eloop & Hru' & HE & _ & Hsts);
    [exact Hrows|lia|lia|lia|rewrite Hm1; exact Hrun|].
  match type of Hru' with running _ _ _ _ _ _ _ ?t _ _ _ _ => remember t as s2 eqn:Es2 end.
  assert (the_handle s2 = Some (h, upd_handle (set_affected_rows x 0) affected bd)) as Hh.
  { unfold the_handle. rewrite (ru_stmt _ _ _ _ _ _ _ _ _ _ _ _ Hru'). cbn [mbind option_bind]. by rewrite (ru_handle _ _ _ _ _ _ _ _ _ _ _ _ Hru'). }
  rewrite (execute_one_rows c s1 rs d apd_hd ipd_hd n (length rows) _ _ (memory_of s0)) by (rewrite ?Es1; by destruct Hr).
  change 0 with (Z.of_nat 0) at 1. rewrite Eloop. cbn [mbind option_bind].
  assert (ms_MultiStmts s2 = None) as Hmul by (rewrite Es2, Es1; exact (rd_multi _ _ _ _ _ _ _ _ _ Hr)).
  rewrite (ReceiveStatementResults_none c s2 _ h _ ltac:(rewrite Es2, Es1; exact (rd_ssps _ _ _ _ _ _ _ _ _ Hr)) ltac:(rewrite Es2, Es1; exact Hcs)
    Hh ltac:(rewrite Es2; exact Hm') Hmul). cbn [mbind option_bind].
  match goal with |- context [install_first c ?t] => set (s3 := t) end.
  assert (error_of s2 = last_error (MADB_CLEAR_ERROR (error_of s)) res) as He2 by (rewrite Es2; unfold error_of; cbn [ms_params upd]; by rewrite Es1 in HE).
  assert (the_handle s3 = the_handle s2 /\ ms_MultiStmts s3 = None /\ world_of s3 = world_of s2 /\ error_of s3 = error_of s2 /\
    memory_of s3 = memory_of s2 /\ ms_mysql s3 = ms_mysql s2 /\ ms_sent s3 = ms_sent s2 /\ ms_locks s3 = ms_locks s2) as
    (Hh3 & Hm3 & Hw3 & He3 & Hmem3 & Hmy3 & Hs3 & Hl3) by (unfold s3; by destruct (SQL_SUCCEEDED _)).
  destruct (world_descs c _ _ _ _ _ _ _ _ _ _ _ s3 Hp) as (D1 & D2 & _); [by rewrite Hw3, (ru_world _ _ _ _ _ _ _ _ _ _ _ _ Hru')|].
  rewrite Hh in Hh3. rewrite Z.add_0_l. fold last. destruct (execute_finish c s3 h _ (Z.of_nat (failures res)) last d apd_hd Hm3 Hh3 Hfc D1 D2) as
    (s4 & -> & F1 & F2 & F3 & F4 & F5 & F6 & F7); [by rewrite He3, He2|].
  exists s4, sts. rewrite F1, F2, F3, F4, F5, F6, F7, Hmem3, Hmy3, Hs3, He3, Hl3, (rd_size _ _ _ _ _ _ _ _ _ Hr). split_and!; try done.
  - by rewrite Es2, Es1.
  - by rewrite Es2.
  - pose proof (ru_view _ _ _ _ _ _ _ _ _ _ _ _ Hru') as Hv. by rewrite Hlen in Hv.
  - exact (ru_same _ _ _ _ _ _ _ _ _ _ _ _ Hru').
  - unfold s3. fold last. destruct (SQL_SUCCEEDED last); by rewrite Es2, Es1.
  - rewrite Es2, Es1. cbn. lia.
Qed.

End Whole.

(** ** INSERT with the values of many rows *)

(** Literals hold no NUL, so neither does the text of a row. *)
Lemma literal_text_nonzero pc quotes t : Forall (fun b => b <> 0) (literal_text pc quotes t).
Proof.
  unfold literal_text. destruct quotes; [|apply cstr_nonzero]. constructor; [by vm_compute|].
  apply Forall_app. split; [apply cstr_nonzero|by repeat constructor].
Qed.

Lemma param_literal_nonzero pc q apd ipd idx p ret lit m E : param_literal pc q apd ipd idx p = Some (ret, lit, m, E) ->
  Forall (fun b => b <> 0) lit.
Proof.
  assert (Forall (fun b => b <> 0) (chars "NULL")) as Hnull by (vm_compute; repeat constructor; congruence).
  unfold param_literal. destruct (descs _ !! Apd _); [|done]. destruct (descs _ !! Ipd _); [|done].
  cbn [fmap option_fmap option_map mbind option_bind]. destruct (bound_at _ _ (ptr (num apd IndicatorPtr)) _ _ ≫= _) as [ind|]; [|done].
  cbn [mbind option_bind]. destruct (bound_at _ _ (ptr (num apd OctetLengthPtr)) _ _ ≫= _) as [len|]; [|done].
  cbn [mbind option_bind]. destruct (if IS_DAE len then _ else _) as [dp|]; [|done]. cbn [mbind option_bind].
  destruct (text_of _ _) as [dv|]; [|done]. cbn [mbind option_bind]. destruct (IS_DAE len && _); [done|].
  destruct (bool_decide _); [by intros [= <- <- <- <-]|]. destruct (bool_decide _).
  - destruct dv as [t|]; [|by intros [= <- <- <- <-]]. destruct (_ <? 2 ^ 60); [|done]. intros [= <- <- <- <-]. apply (literal_text_nonzero pc true).
  - destruct (param_value _ _ _ _ _ _ _) as [[[]]|]; cbn [mbind option_bind]; [|done..].
    destruct (_ <? 2 ^ 60); [|done]. intros [= <- <- <- <-]. apply literal_text_nonzero.
Qed.

Lemma param_literals_nonzero pc q idx l : forall ret p ret' lits m E, param_literals pc q idx l ret p = Some (ret', lits, m, E) ->
  Forall (Forall (fun b => b <> 0)) lits.
Proof.
  induction l as [|[apd ipd] l IH]; intros ret p ret' lits m E; cbn [param_literals]; [by intros [= <- <- <- <-]|].
  destruct (param_literal _ _ _ _ _ _) as [[[[r1 lit] m1] E1]|] eqn:El; [|done]. cbn [mbind option_bind].
  destruct (SQL_SUCCEEDED r1); [|done]. destruct (param_literals _ _ _ _ _ _) as [[[[r2 lits2] m2] E2]|] eqn:El2; [|done].
  intros [= <- <- <- <-]. constructor; [by eapply param_literal_nonzero|by eapply IH].
Qed.

Lemma fill_nonzero C ps : forall from lits, Forall (fun b => b <> 0) C -> Forall (Forall (fun b => b <> 0)) lits ->
  Forall (fun b => b <> 0) (fill C from ps lits).
Proof.
  induction ps as [|p ps IH]; intros from lits HC HL; cbn [fill]; [by apply Forall_drop|].
  destruct lits as [|lit lits]; [by apply Forall_drop|]. apply Forall_cons in HL as [H1 H2].
  apply Forall_app. split; [by apply Forall_take, Forall_drop|]. apply Forall_app. split; [done|by apply IH].
Qed.

(** The text in front of the first marker is that of the query. *)
Lemma fill_prefix C from ps lits off : from = 0%nat -> (off <= length C)%nat -> match ps with [] => True | p :: _ => (off <= p)%nat end ->
  take off (fill C from ps lits) = take off C.
Proof.
  intros -> Hl Hp. destruct ps as [|p ps]; [done|]. destruct lits as [|lit lits]; [done|]. cbn [fill]. rewrite drop_0, Nat.sub_0_r.
  destruct (Nat.le_gt_cases p (length C)).
  - rewrite take_app_le by (rewrite length_take; lia). rewrite take_take. f_equal. lia.
  - rewrite (take_ge C p) by lia. by rewrite take_app_le by lia.
Qed.

(** The statuses of the rows of a batch, from number [j]: ignored rows, and the others. *)
Fixpoint mark_rows (which : option (list (list Z)) -> bool) (status : Z) (j : nat) (rows : list (option (list (list Z)))) (sts : list Z) : list Z :=
  match rows with
  | [] => sts
  | r :: rows' => mark_rows which status (S j) rows' (if which r then <[j := status]> sts else sts)
  end.
Definition left_out (r : option (list (list Z))) : bool := match r with None => true | Some _ => false end.
Definition sent_row (r : option (list (list Z))) : bool := negb (left_out r).

Lemma length_mark_rows which v rows : forall j sts, length (mark_rows which v j rows sts) = length sts.
Proof. induction rows as [|r rows IH]; intros j sts; cbn; [done|]. rewrite IH. case_match; by rewrite ?length_insert. Qed.

Lemma mark_rows_outside which v rows : forall j sts i, (i < j)%nat \/ (j + length rows <= i)%nat -> mark_rows which v j rows sts !! i = sts !! i.
Proof.
  induction rows as [|r rows IH]; intros j sts i Hi; cbn in *; [done|]. rewrite IH by lia.
  destruct (which r); [|done]. by rewrite list_lookup_insert_ne by lia.
Qed.

Lemma mark_rows_inside which v rows : forall j sts i r, rows !! i = Some r -> (j + length rows <= length sts)%nat ->
  mark_rows which v j rows sts !! (j + i)%nat = if which r then Some v else sts !! (j + i)%nat.
Proof.
  induction rows as [|r0 rows IH]; intros j sts i r Hi Hl; cbn in *; [done|]. destruct i as [|i].
  - injection Hi as ->. rewrite Nat.add_0_r, mark_rows_outside by lia. destruct (which r); [|done]. apply list_lookup_insert_eq. lia.
  - replace (j + S i)%nat with (S j + i)%nat by lia. rewrite (IH (S j) _ i r Hi) by (case_match; rewrite ?length_insert; lia).
    destruct (which r); [done|]. destruct (which r0); [|done]. by rewrite list_lookup_insert_ne by lia.
Qed.

Section Insert.
Context {A : Type} `{Server A} (c : stmt_config) (w : world) (q : MADB_QUERY) (put : Z) (d : stmt_descs) (apd_hd ipd_hd : MADB_Header).
Context (rs : list (MADB_DescRecord * MADB_DescRecord)) (n : nat) (m0 : memory) (vo R : nat).
Implicit Types s : MADB_Stmt A.

(** The values of a row, and of the rows of a batch. *)
Definition row_values (lits : list (list Z)) : list Z := drop vo (row_text q rs 0 0 lits).
Fixpoint batch_values (i : nat) (rows : list (option (list (list Z)))) : list Z :=
  match rows with
  | [] => []
  | None :: rows' => batch_values (S i) rows'
  | Some lits :: rows' => (if (i =? 0)%nat then [] else chars ",") ++ row_values lits ++ batch_values (S i) rows'
  end.

Local Notation prepared := (prepared c w q put d apd_hd ipd_hd rs 0 0 n m0).
Local Notation running := (running w q put ipd_hd rs n m0).
Local Notation row_ok := (row_ok c w q put d apd_hd ipd_hd rs 0 0 n m0).

Lemma row_text_nonzero i lits : row_ok i (Some lits) -> Forall (fun b => b <> 0) (row_text q rs 0 0 lits).
Proof.
  intros Hrow. destruct (Hrow m0 calloc_error (same_outside_refl _ _ _)) as (_ & Hl & _). apply param_literals_nonzero in Hl.
  apply fill_nonzero; [|done]. unfold query_end. rewrite Nat.add_0_l. unfold strlen, cstr_at. rewrite drop_0, take_cstr. apply cstr_nonzero.
Qed.

Lemma string_from_row f i lits : wf f -> contents f = row_text q rs 0 0 lits -> row_ok i (Some lits) ->
  (vo <= length (row_text q rs 0 0 lits))%nat -> string_from f vo = Some (row_values lits).
Proof.
  intros Hw Hc Hrow Hvo. apply row_text_nonzero in Hrow. pose proof (length_contents f Hw) as Hlc. destruct Hw as (b & Hb & Hlb & Hl & _ & _ & H0).
  unfold string_from. rewrite Hb. cbn [mbind option_bind]. unfold contents in Hc, Hlc. rewrite Hb in Hc, Hlc. cbn [default from_option id] in Hc, Hlc.
  rewrite Hc in Hlc. rewrite (proj2 (Nat.leb_le _ _)) by lia. f_equal. unfold row_values.
  rewrite <- (take_drop (Z.to_nat (length_ f)) b) at 1. rewrite Hc, drop_app_le by lia.
  destruct (drop (Z.to_nat (length_ f)) b) as [|z t] eqn:Ed.
  { apply (f_equal length) in Ed. rewrite length_drop in Ed. cbn in Ed. lia. }
  assert (z = 0) as ->; [|apply cstr_app_nul; by apply Forall_drop].
  pose proof (rd_drop b (Z.to_nat (length_ f)) 0) as Hd. by rewrite Ed, Nat.add_0_r, H0 in Hd.
Qed.

Lemma append_ignoring_ok s t f : false ∉ pm_answers (ms_params s) -> wf f -> length_ f + Z.of_nat (length t) < 2 ^ 62 ->
  exists f' p, append_ignoring c t f s = Some (f', set_params s p) /\ wf f' /\ contents f' = contents f ++ t /\ same_but_answers (ms_params s) p.
Proof.
  intros Ha Hf Hl. unfold append_ignoring, next_answer. destruct (append_ok (sc_params c) t f (ms_params s) Hf Hl Ha) as (f' & p & E & Hf' & Hc' & Hs).
  unfold append in E. destruct (answer (ms_params s)) as [ok p1]. destruct (MADB_DynstrAppendMem _ _ _ _) as [[fl f1]|]; [|done].
  cbn [mbind option_bind] in *. injection E as -> -> ->. by exists f', p.
Qed.

(** The text of a row has the text in front of the values, and so more than nothing. *)
Lemma row_text_long lits : prepared -> (vo <= query_end q 0)%nat ->
  match query_params q rs 0 with [] => True | p :: _ => (vo <= p)%nat end ->
  take vo (row_text q rs 0 0 lits) = take vo (query_text q) /\ (vo <= length (row_text q rs 0 0 lits))%nat.
Proof.
  intros Hp Hvo Hps. assert (query_end q 0 <= length (query_text q))%nat as He.
  { unfold query_end. pose proof (strlen_le (query_text q) 0). lia. }
  assert (take vo (row_text q rs 0 0 lits) = take vo (query_text q)) as Ht.
  { unfold row_text. rewrite fill_prefix by (try done; rewrite length_take; lia). rewrite take_take. f_equal. lia. }
  split; [done|]. apply (f_equal length) in Ht. rewrite !length_take in Ht. lia.
Qed.

Context (Hp : prepared) (HR : (0 < R)%nat) (Hvo : (vo <= query_end q 0)%nat).
Context (Hps : match query_params q rs 0 with [] => True | p :: _ => (vo <= p)%nat end) (Hvo0 : (0 < vo)%nat).

(** One row of a batch: its values are appended, behind a comma unless it is the first
    row of the batch. *)
Lemma batch_loop_step row b i EC ret s sts k h x f : running s sts k h x -> row_ok (b * R + i) row -> (b * R + i < n)%nat -> (i < R)%nat ->
  k + 1 < 2 ^ 64 - Z.of_nat n -> wf f -> length_ f < 2 ^ 61 ->
  exists s' f' ret' p done rebind,
    (forall l, batch_loop c (S l) (Z.of_nat (b * R + i)) 0 0 vo (Z.of_nat R) EC ret f s =
      batch_loop c l (Z.of_nat (b * R + S i)) 0 0 vo (Z.of_nat R) EC ret' f' s') /\
    s' = upd s p (ms_mysql s) (<[h := upd_handle x (hs_affected_rows x) done]> (ms_handles s)) (ms_sent s) rebind /\
    wf f' /\ contents f' = contents f ++ batch_values i [row] /\ pm_Error p = error_of s /\
    running s' (mark_rows left_out SQL_PARAM_UNUSED (b * R + i) [row] sts) (k + 1) h (upd_handle x (hs_affected_rows x) done).
Proof using Hp HR Hvo Hps Hvo0.
  intros Hr Hrow Hj Hi Hk Hf Hl. cbn [batch_loop mark_rows]. replace (Z.of_nat (b * R + i) + 1) with (Z.of_nat (b * R + S i)) by lia.
  destruct (new_string_ok c s (ru_answers _ _ _ _ _ _ _ _ _ _ _ _ Hr)) as (g & p0 & -> & Hg & Hg0 & Hp0). cbn [mbind option_bind].
  pose proof (running_answers _ _ _ _ _ _ _ _ _ _ _ _ _ Hr Hp0) as Hr0. destruct row as [lits|].
  - destruct (InitStatementParams_text c _ _ _ _ _ _ _ _ _ _ _ (set_params s p0) sts k h x _ ret g lits Hp Hr0 Hrow Hj Hk Hg Hg0)
      as (g' & p1 & hs & rb & bd & -> & Hg' & Hc' & HE1 & -> & Hr1). cbn [mbind option_bind].
    remember (upd (set_params s p0) p1 _ _ _ rb) as s1 eqn:Es1.
    destruct (row_text_long lits Hp Hvo Hps) as [_ Hlong].
    assert (0 <? length_ g' = true) as ->.
    { apply Z.ltb_lt. rewrite <- length_contents, Hc' by done. lia. }
    rewrite (string_from_row g' (b * R + i) lits) by done.
    assert (negb (Z.of_nat (b * R + i) mod Z.of_nat R =? 0) = negb (i =? 0)%nat) as ->.
    { f_equal. replace (Z.of_nat (b * R + i)) with (Z.of_nat i + Z.of_nat b * Z.of_nat R) by lia. rewrite Z_mod_plus_full, Z.mod_small by lia.
      apply eq_true_iff_eq. rewrite Z.eqb_eq, Nat.eqb_eq. lia. }
    assert (exists f1 p2, (if negb (i =? 0)%nat then append_ignoring c (chars ",") f s1 else Some (f, s1)) = Some (f1, set_params s1 p2) /\
      wf f1 /\ contents f1 = contents f ++ (if (i =? 0)%nat then [] else chars ",") /\ same_but_answers (ms_params s1) p2) as (f1 & p2 & -> & Hf1 & Hc1 & Hs2).
    { destruct (i =? 0)%nat; cbn [negb].
      - exists f, (ms_params s1). rewrite app_nil_r. split_and!; [by destruct s1|done|done|apply sba_refl].
      - apply append_ignoring_ok; [by apply Hr1|done|cbn; lia]. }
    cbn [mbind option_bind]. pose proof (running_answers _ _ _ _ _ _ _ _ _ _ _ _ _ Hr1 Hs2) as Hr2.
    assert (length_ f1 + Z.of_nat (length (row_values lits)) < 2 ^ 62) as Hb.
    { pose proof (append_length _ _ _ Hf Hf1 Hc1) as L1. destruct (Hrow m0 calloc_error (same_outside_refl _ _ _)) as (_ & _ & Hbig).
      unfold row_values. rewrite length_drop. destruct (i =? 0)%nat; cbn in L1; lia. }
    destruct (append_ignoring_ok (set_params s1 p2) (row_values lits) f1) as (f2 & p3 & -> & Hf2 & Hc2 & Hs3); [by apply Hr2|done|done|].
    cbn [mbind option_bind]. pose proof (running_answers _ _ _ _ _ _ _ _ _ _ _ _ _ Hr2 Hs3) as Hr3.
    eexists _, f2, SQL_SUCCESS, p3, bd, rb. split; [reflexivity|]. split_and!; [by rewrite Es1|done| | |exact Hr3].
    + rewrite Hc2, Hc1. cbn [batch_values]. by rewrite app_nil_r, <- app_assoc.
    + pose proof (sba_Error _ _ Hs3) as E3. pose proof (sba_Error _ _ Hs2) as E2. cbn [ms_params set_params] in E3. rewrite E3, E2, Es1.
      cbn [ms_params upd set_RebindParams set_sent set_handles set_mysql set_params]. rewrite HE1.
      change (error_of (set_params s p0)) with (pm_Error p0). apply (sba_Error _ _ Hp0).
  - destruct (InitStatementParams_ignored c _ _ _ _ _ _ _ _ _ _ _ (set_params s p0) sts k h x _ ret g Hp Hr0 Hrow Hj Hk) as (m2 & -> & Hr1).
    cbn [mbind option_bind]. eexists _, f, ret, (with_memory p0 m2), (hs_bind_param_done x), (ms_RebindParams s). split; [reflexivity|].
    replace (upd_handle x (hs_affected_rows x) (hs_bind_param_done x)) with x by (by destruct x).
    rewrite insert_id by apply Hr. rewrite app_nil_r. split_and!; [by destruct s|done|done|apply (sba_Error _ _ Hp0)|exact Hr1].
Qed.

(** All rows of a batch. *)
Lemma batch_loop_run b : forall rows i EC ret s sts k h x f,
  running s sts k h x -> (forall l r, rows !! l = Some r -> row_ok (b * R + i + l) r) -> (b * R + i + length rows <= n)%nat -> (i + length rows <= R)%nat ->
  k + Z.of_nat (length rows) < 2 ^ 64 - Z.of_nat n -> wf f -> length_ f + Z.of_nat (length (batch_values i rows)) < 2 ^ 61 ->
  exists s' f' ret' p done rebind,
    batch_loop c (length rows) (Z.of_nat (b * R + i)) 0 0 vo (Z.of_nat R) EC ret f s = Some (Next EC ret' s', f') /\
    s' = upd s p (ms_mysql s) (<[h := upd_handle x (hs_affected_rows x) done]> (ms_handles s)) (ms_sent s) rebind /\
    wf f' /\ contents f' = contents f ++ batch_values i rows /\ pm_Error p = error_of s /\
    running s' (mark_rows left_out SQL_PARAM_UNUSED (b * R + i) rows sts) (k + Z.of_nat (length rows)) h (upd_handle x (hs_affected_rows x) done).
Proof using Hp HR Hvo Hps Hvo0.
  induction rows as [|row rows IH]; intros i EC ret s sts k h x f Hr Hrows Hn HiR Hk Hf Hl.
  { cbn [length batch_loop batch_values mark_rows]. exists s, f, ret, (ms_params s), (hs_bind_param_done x), (ms_RebindParams s).
    replace (upd_handle x (hs_affected_rows x) (hs_bind_param_done x)) with x by (by destruct x).
    rewrite insert_id by apply Hr. rewrite app_nil_r, Z.add_0_r. split_and!; try done. by destruct s. }
  cbn [length] in *. pose proof (Hrows 0%nat row eq_refl) as Hrow. rewrite Nat.add_0_r in Hrow.
  assert (batch_values i (row :: rows) = batch_values i [row] ++ batch_values (S i) rows) as Hbv.
  { destruct row; cbn [batch_values]; [|done]. by rewrite app_nil_r, <- app_assoc. }
  rewrite Hbv in *. rewrite length_app in Hl.
  destruct (batch_loop_step row b i EC ret s sts k h x f Hr Hrow ltac:(lia) ltac:(lia) ltac:(lia) Hf ltac:(lia))
    as (s1 & f1 & ret1 & p1 & bd1 & rb1 & -> & Es1 & Hf1 & Hc1 & HE1 & Hr1).
  pose proof (append_length _ _ _ Hf Hf1 Hc1) as L1.
  destruct (IH (S i) EC ret1 s1 _ (k + 1) h _ f1 Hr1) as (s' & f' & ret' & p & bd & rb & -> & Es' & Hf' & Hc' & HE' & Hr'); [|lia..|done|lia|].
  { intros l r Hlr. replace (b * R + S i + l)%nat with (b * R + i + S l)%nat by lia. by apply Hrows. }
  exists s', f', ret', p, bd, rb. split_and!; try done.
  - rewrite Es', Es1. cbn [upd ms_handles ms_mysql ms_sent set_RebindParams set_sent set_handles set_mysql]. by rewrite insert_insert_eq.
  - by rewrite Hc', Hc1, app_assoc.
  - rewrite HE', Es1. exact HE1.
  - replace (k + Z.of_nat (S (length rows))) with (k + 1 + Z.of_nat (length rows)) by lia.
    replace (b * R + S i)%nat with (S (b * R + i)) in Hr' by lia. exact Hr'.
Qed.

(** The status of the batch is written for the rows that are not ignored. *)
Lemma report_rows_run v : 0 <= v < 65536 -> forall rows j s sts k h x, running s sts k h x ->
  (forall l r, rows !! l = Some r -> row_ok (j + l) r) -> (j + length rows <= n)%nat ->
  exists m, report_rows c v (length rows) (Z.of_nat j) s = Some (put_memory s m) /\ running (put_memory s m) (mark_rows sent_row v j rows sts) k h x.
Proof using Hp HR Hvo Hvo0.
  intros Hv. induction rows as [|row rows IH]; intros j s sts k h x Hr Hrows Hn; cbn [length report_rows mark_rows].
  { exists (memory_of s). replace (put_memory s (memory_of s)) with s by (by destruct s as [[]]). done. }
  cbn [length] in *. pose proof (Hrows 0%nat row eq_refl) as Hrow. rewrite Nat.add_0_r in Hrow. specialize (Hrow (memory_of s) (error_of s) (ru_same _ _ _ _ _ _ _ _ _ _ _ _ Hr)).
  assert (exists m, report_row c v (Z.of_nat j) s = Some (put_memory s m) /\
    running (put_memory s m) (if sent_row row then <[j := v]> sts else sts) k h x) as (m1 & -> & Hr1).
  { destruct row as [lits|]; cbn [sent_row left_out negb].
    - apply (report_row_ok c _ _ _ _ _ _ _ _ _ _ _ s sts k h x v j Hp Hr); [apply Hrow|lia|done].
    - unfold report_row. destruct (ru_descs _ _ _ _ _ _ _ _ _ _ _ _ _ _ _ _ _ Hp Hr) as (-> & D2 & D3). cbn [mbind option_bind].
      rewrite D2. cbn [mbind option_bind]. rewrite D3. cbn [mbind option_bind]. exists (memory_of s).
      replace (put_memory s (memory_of s)) with s by (by destruct s as [[]]). split; [|done]. rewrite Hrow. by destruct (_ =? 0). }
  cbn [mbind option_bind]. replace (Z.of_nat j + 1) with (Z.of_nat (S j)) by lia.
  destruct (IH (S j) _ _ _ _ _ Hr1) as (m2 & -> & Hr2); [|lia|by exists m2].
  intros l r Hl. replace (S j + l)%nat with (j + S l)%nat by lia. by apply Hrows.
Qed.

Context (Htok : MADB_Token q 0 = Some (RefinedText q)).

(** The query of a batch. *)
Definition batch_text (rows : list (option (list (list Z)))) : list Z := take vo (query_text q) ++ batch_values 0 rows.
Definition batch_status (r : option native_diag) : Z := if SQL_SUCCEEDED (result_ret r) then SQL_PARAM_SUCCESS else SQL_PARAM_ERROR.

Lemma batches_loop_step rows b EC ret s sts k h x r m1 affected :
  running s sts k h x -> (forall l r, rows !! l = Some r -> row_ok (b * R + l) r) -> length rows = Nat.min R (n - b * R) -> (b * R <= n)%nat ->
  k + Z.of_nat (length rows) < 2 ^ 64 - Z.of_nat n -> 0 <= EC < 2 ^ 32 - 1 -> Z.of_nat (length (batch_text rows)) < 2 ^ 60 ->
  run_row (Some (batch_text rows)) (ms_mysql s) (hs_affected_rows x) = (Some r, m1, affected) ->
  exists s' p done rebind,
    (forall l, batches_loop c (S l) (Z.of_nat b) 0 0 vo (Z.of_nat n) (Z.of_nat R) EC ret s =
      batches_loop c l (Z.of_nat (S b)) 0 0 vo (Z.of_nat n) (Z.of_nat R) (EC + (if is_failure (Some r) then 1 else 0)) (result_ret r) s') /\
    s' = upd s p m1 (<[h := upd_handle x affected done]> (ms_handles s)) (ms_sent s ++ [batch_text rows]) rebind /\
    pm_Error p = row_error (error_of s) (Some r) /\
    running s' (mark_rows sent_row (batch_status r) (b * R) rows (mark_rows left_out SQL_PARAM_UNUSED (b * R) rows sts)) (k + Z.of_nat (length rows)) h
      (upd_handle x affected done).
Proof using All.
  intros Hr Hrows Hlen Hb Hk HEC Hbig Hrun. cbn [batches_loop]. cbv zeta.
  assert (Z.to_nat (Z.min (Z.of_nat n) (Z.of_nat b * Z.of_nat R + Z.of_nat R) - Z.of_nat b * Z.of_nat R) = length rows) as -> by lia.
  destruct (new_string_ok c s (ru_answers _ _ _ _ _ _ _ _ _ _ _ _ Hr)) as (f & p0 & -> & Hf & Hf0 & Hp0). cbn [mbind option_bind].
  pose proof (running_answers _ _ _ _ _ _ _ _ _ _ _ _ _ Hr Hp0) as Hr0. pose proof (ru_query _ _ _ _ _ _ _ _ _ _ _ _ Hr0) as Hq0.
  remember (set_params s p0) as s0 eqn:Es0. rewrite Hq0, Htok. cbn [mbind option_bind]. assert (query_end q 0 <= length (query_text q))%nat as He.
  { unfold query_end. pose proof (strlen_le (query_text q) 0). lia. }
  assert (length (query_text q) = (length (Parse.text q) - RefinedText q)%nat) as Hlt by (unfold query_text; apply length_drop).
  rewrite (proj2 (Nat.ltb_ge _ _)) by lia. fold (query_text q).
  assert (length_ f = 0) as Hl0 by (rewrite <- length_contents, Hf0 by done; done).
  unfold batch_text in Hbig. rewrite length_app in Hbig.
  destruct (append_ignoring_ok s0 (take vo (query_text q)) f) as (f1 & p1 & -> & Hf1 & Hc1 & Hs1); [by apply Hr0|done|lia|].
  cbn [mbind option_bind]. pose proof (running_answers _ _ _ _ _ _ _ _ _ _ _ _ _ Hr0 Hs1) as Hr1.
  remember (set_params s0 p1) as s1 eqn:Es1. pose proof (append_length _ _ _ Hf Hf1 Hc1) as L1. replace (Z.of_nat b * Z.of_nat R) with (Z.of_nat (b * R + 0)) by lia.
  destruct (batch_loop_run b rows 0 EC ret _ sts k h x f1 Hr1) as (s2 & f2 & ret2 & p2 & bd & rb & -> & Es2 & Hf2 & Hc2 & HE2 & Hr2); [|lia..|done|lia|].
  { intros l r0 Hlr. rewrite Nat.add_0_r. by apply Hrows. }
  cbn [mbind option_bind]. rewrite Hc1, Hf0 in Hc2. cbn [app] in Hc2. fold (batch_text rows) in Hc2.
  rewrite <- Hc2 in Hrun. assert (ms_mysql s2 = ms_mysql s) as Hm2 by (by rewrite Es2, Es1, Es0). rewrite <- Hm2 in Hrun.
  destruct (RunStatementQuery_run _ _ _ _ _ _ _ s2 _ _ h _ f2 EC r m1 affected Hr2 HEC Hrun) as (s3 & x3 & -> & Es3 & Ex3 & Hr3). cbn [mbind option_bind].
  rewrite Nat.add_0_r in *.
  destruct (report_rows_run (batch_status r)) with (rows := rows) (j := (b * R)%nat) (s := s3) (sts := mark_rows left_out SQL_PARAM_UNUSED (b * R) rows sts)
    (k := k + Z.of_nat (length rows)) (h := h) (x := x3) as (m4 & Em & Hr4); [unfold batch_status; destruct (SQL_SUCCEEDED _); by vm_compute|done|done|lia|].
  unfold batch_status in Em at 1. rewrite Em. clear Em. cbn [mbind option_bind]. replace (Z.of_nat b + 1) with (Z.of_nat (S b)) by lia.
  exists (put_memory s3 m4), (with_memory (Params.with_error p2 (row_error (pm_Error p2) (Some r))) m4), bd, rb. split_and!.
  - done.
  - rewrite Es3, Es2, Ex3, Hc2, Es1, Es0. cbn [upd ms_handles ms_sent set_RebindParams set_sent set_handles]. by rewrite insert_insert_eq.
  - cbn [pm_Error with_memory Params.with_error]. rewrite HE2, Es1. change (error_of (set_params s0 p1)) with (pm_Error p1).
    rewrite (sba_Error _ _ Hs1), Es0. change (pm_Error (ms_params (set_params s p0))) with (pm_Error p0). by rewrite (sba_Error _ _ Hp0).
  - rewrite Ex3 in Hr4. exact Hr4.
Qed.

Fixpoint chunks (fuel : nat) (rows : list (option (list (list Z)))) : list (list (option (list (list Z)))) :=
  match fuel with O => [] | S fuel' => take R rows :: chunks fuel' (drop R rows) end.

(** The status of a row whose batch had the result [r]. *)
Definition inserted_status (row : option (list (list Z))) (r : option native_diag) : Z := if left_out row then SQL_PARAM_UNUSED else batch_status r.

Lemma run_rows_cons t ts (m : MYSQL A) a res m' a' : run_rows (Some t :: ts) m a = (res, m', a') ->
  exists r m1 a1 res', run_row (Some t) m a = (Some r, m1, a1) /\ run_rows ts m1 a1 = (res', m', a') /\ res = Some r :: res'.
Proof.
  cbn [run_rows run_row]. destruct (mysql_real_query t (drop_pending m)) as [failed m1].
  match goal with |- context [run_rows ts m1 ?x] => destruct (run_rows ts m1 x) as [[res' m2] a2] eqn:E end. intros [= <- <- <-].
  by eexists _, _, _, res'.
Qed.

(** All batches. *)
Lemma batches_loop_run : forall nb b rows EC ret s sts k h x res m' affected,
  running s sts k h x -> (forall l r, rows !! l = Some r -> row_ok (b * R + l) r) -> length rows = (n - b * R)%nat -> (length rows <= nb * R < length rows + R)%nat ->
  k + Z.of_nat (length rows) < 2 ^ 64 - Z.of_nat n -> 0 <= EC < 2 ^ 32 - Z.of_nat nb ->
  Forall (fun l => Z.of_nat (length (batch_text l)) < 2 ^ 60) (chunks nb rows) ->
  run_rows (Some <$> (batch_text <$> chunks nb rows)) (ms_mysql s) (hs_affected_rows x) = (res, m', affected) ->
  exists s' p done rebind sts',
    batches_loop c nb (Z.of_nat b) 0 0 vo (Z.of_nat n) (Z.of_nat R) EC ret s = Some (Next (EC + Z.of_nat (failures res)) (last_ret ret res) s') /\
    s' = upd s p m' (<[h := upd_handle x affected done]> (ms_handles s)) (ms_sent s ++ (batch_text <$> chunks nb rows)) rebind /\
    pm_Error p = last_error (error_of s) res /\
    running s' sts' (k + Z.of_nat (length rows)) h (upd_handle x affected done) /\
    (forall i, (i < b * R)%nat -> sts' !! i = sts !! i) /\
    (forall i row r, rows !! i = Some row -> res !! (i / R)%nat = Some (Some r) -> sts' !! (b * R + i)%nat = Some (inserted_status row r)).
Proof using All.
  induction nb as [|nb IH]; intros b rows EC ret s sts k h x res m' affected Hr Hrows Hn Hcov Hk HEC Hbig Hrun; cbn [chunks] in *.
  { assert (rows = []) as -> by (destruct rows; [done|cbn in *; lia]). injection Hrun as <- <- <-.
    exists s, (ms_params s), (hs_bind_param_done x), (ms_RebindParams s), sts. replace (upd_handle x (hs_affected_rows x) (hs_bind_param_done x)) with x by (by destruct x).
    rewrite insert_id by apply Hr. cbn [batches_loop fmap list_fmap length]. rewrite app_nil_r, !Z.add_0_r. split_and!; try done. by destruct s. }
  apply Forall_cons in Hbig as [Hb1 Hb2]. cbn [fmap list_fmap] in Hrun. apply run_rows_cons in Hrun as (r & m1 & a1 & res' & E1 & E2 & ->).
  assert (length (take R rows) = Nat.min R (n - b * R)) as Hlt by (rewrite length_take; lia).
  assert (length (drop R rows) = (length rows - R)%nat) as Hld by apply length_drop.
  destruct (batches_loop_step (take R rows) b EC ret s sts k h x r m1 a1 Hr) as (s1 & p1 & bd1 & rb1 & -> & Es1 & HE1 & Hr1);
    [|done|lia|lia|lia|done|done|].
  { intros l r0 Hl. apply lookup_take_Some in Hl as [Hl _]. by apply Hrows. }
  assert (0 <= (if is_failure (Some r) then 1 else 0) <= 1) as Hf1 by (destruct (is_failure _); lia).
  rewrite length_take in Hr1.
  destruct (IH (S b) (drop R rows) (EC + (if is_failure (Some r) then 1 else 0)) (result_ret r) s1 _ _ h _ res' m' affected Hr1)
    as (s' & p & bd & rb & sts' & -> & Es' & HE' & Hr' & Hlow & Hst).
  { intros l r0 Hl. rewrite lookup_drop in Hl. replace (S b * R + l)%nat with (b * R + (R + l))%nat by lia. by apply Hrows. }
  all: try lia; try done.
  { rewrite Es1. exact E2. }
  exists s', p, bd, rb, sts'. split_and!.
  - rewrite failures_cons. do 2 f_equal. destruct (is_failure (Some r)); lia.
  - rewrite Es', Es1. cbn [upd ms_handles ms_mysql ms_sent set_RebindParams set_sent set_handles set_mysql fmap list_fmap].
    by rewrite insert_insert_eq, <- app_assoc.
  - rewrite HE', Es1. change (error_of (upd s p1 _ _ _ _)) with (pm_Error p1). by rewrite HE1.
  - replace (k + Z.of_nat (length rows)) with (k + Z.of_nat (Nat.min R (length rows)) + Z.of_nat (length (drop R rows))) by lia. exact Hr'.
  - intros i Hi. rewrite Hlow by lia. by rewrite !mark_rows_outside by lia.
  - intros i row r0 Hi Hres. destruct (Nat.lt_ge_cases i R) as [HiR|HiR].
    + rewrite Nat.div_small in Hres by done. injection Hres as ->. rewrite Hlow by lia.
      assert (take R rows !! i = Some row) as Ht by (by rewrite lookup_take_lt).
      pose proof (ru_length _ _ _ _ _ _ _ _ _ _ _ _ Hr) as Hsl.
      rewrite (mark_rows_inside _ _ _ _ _ i row Ht) by (rewrite length_mark_rows; lia). unfold inserted_status, sent_row.
      destruct (left_out row) eqn:El; cbn [negb]; [|done]. rewrite (mark_rows_inside _ _ _ _ _ i row Ht) by lia. by rewrite El.
    + replace (b * R + i)%nat with (S b * R + (i - R))%nat by lia. apply Hst.
      * rewrite lookup_drop. by replace (R + (i - R))%nat with i by lia.
      * replace i with (i - R + 1 * R)%nat in Hres by lia. rewrite Nat.div_add in Hres by lia.
        by rewrite Nat.add_1_r in Hres.
Qed.

End Insert.

(** The batches hold every row once and in order. *)
Lemma chunks_concat R nb : (0 < R)%nat -> forall rows, (length rows <= nb * R)%nat -> concat (chunks R nb rows) = rows.
Proof.
  intros HR. induction nb as [|nb IH]; intros rows Hl; cbn [chunks concat]; [by destruct rows; [|cbn in Hl; lia]|].
  rewrite IH by (rewrite length_drop; lia). apply take_drop.
Qed.

Lemma chunks_length R nb : forall rows, length (chunks R nb rows) = nb /\ Forall (fun l => (length l <= R)%nat) (chunks R nb rows).
Proof. induction nb as [|nb IH]; intros rows; cbn; [done|]. destruct (IH (drop R rows)) as [-> HF]. split; [done|]. constructor; [rewrite length_take; lia|done]. Qed.

(** Without ignored rows the values of a batch are those of its rows, with commas in between. *)
Lemma batch_values_all q rs vo lits ls :
  batch_values q rs vo 0 (Some <$> lits :: ls) = row_values q rs vo lits ++ concat ((fun l => chars "," ++ row_values q rs vo l) <$> ls).
Proof.
  cbn [fmap list_fmap batch_values]. change (0 =? 0)%nat with true. cbn [app]. f_equal. generalize 1%nat as i, (Nat.lt_0_succ 0).
  induction ls as [|l ls IH]; intros i Hi; cbn [fmap list_fmap batch_values concat]; [done|]. destruct (Nat.eqb_spec i 0); [lia|].
  rewrite (IH (S i)) by lia. by rewrite <- !app_assoc.
Qed.

Section WholeInsert.
Context {A : Type} `{Server A}.
Implicit Types s : MADB_Stmt A.

Definition values_offset (q : MADB_QUERY) : nat := (MADB_FindToken q (chars "VALUES") + 6)%nat.
Definition rows_in_batch (rs : list (MADB_DescRecord * MADB_DescRecord)) : nat := Z.to_nat (S2_MAX_PARAMS / Z.of_nat (length rs)).
Definition batch_count (n R : nat) : nat := ((n + R - 1) / R)%nat.

(** An INSERT the driver rewrites: its first token is its first character, and the values
    begin in front of the first marker. *)
Record insert_ready s (rs : list (MADB_DescRecord * MADB_DescRecord)) (n : nat) : Prop := {
  ir_rewrite : rewriteInsert (ms_Query s) (Z.of_nat n) = true;
  ir_token : MADB_Token (ms_Query s) 0 = Some (RefinedText (ms_Query s));
  ir_values : (values_offset (ms_Query s) <= query_end (ms_Query s) 0)%nat;
  ir_marker : match query_params (ms_Query s) rs 0 with [] => True | p :: _ => (values_offset (ms_Query s) <= p)%nat end;
  ir_count : (length rs < 2 ^ 15)%nat;
}.

Lemma rows_in_batch_pos (rs : list (MADB_DescRecord * MADB_DescRecord)) : rs <> [] -> (length rs < 2 ^ 15)%nat ->
  (0 < rows_in_batch rs)%nat /\ Z.of_nat (rows_in_batch rs) = S2_MAX_PARAMS / Z.of_nat (length rs) /\
  Z.of_nat (rows_in_batch rs * length rs) <= S2_MAX_PARAMS.
Proof.
  intros Hrs Hl. assert (0 < Z.of_nat (length rs) <= 32768) as Hb by (destruct rs; [done|]; change (2 ^ 15)%nat with (Z.to_nat 32768) in Hl; cbn in *; lia).
  unfold rows_in_batch, S2_MAX_PARAMS. pose proof (Z.div_le_compat_l 1024000 (Z.of_nat (length rs)) 32768 ltac:(lia) ltac:(lia)).
  change (1024000 / 32768) with 31 in *. pose proof (Z.mul_div_le 1024000 (Z.of_nat (length rs)) ltac:(lia)). nia.
Qed.

Lemma batch_count_ok n R : (0 < R)%nat -> (n <= batch_count n R * R < n + R)%nat.
Proof.
  intros HR. unfold batch_count. pose proof (Nat.div_mod_eq (n + R - 1) R). pose proof (Nat.mod_upper_bound (n + R - 1) R ltac:(lia)). nia.
Qed.

Lemma batch_count_bound n R : (0 < R)%nat -> (batch_count n R <= n)%nat.
Proof. intros HR. pose proof (batch_count_ok n R HR). destruct n; nia. Qed.

(** An INSERT with many rows is executed batch by batch. *)
Lemma execute_one_insert c s rs d apd_hd ipd_hd n EC ret m0 :
  prepared c (world_of s) (ms_Query s) (ms_PutParam s) d apd_hd ipd_hd rs 0 0 n m0 -> ms_ParamCount s = Z.of_nat (length rs) -> rs <> [] ->
  ArraySize apd_hd = Z.of_nat n -> insert_ready s rs n ->
  execute_one c 0 0 EC ret s =
    (o ← batches_loop c (batch_count n (rows_in_batch rs)) 0 0 0 (values_offset (ms_Query s)) (Z.of_nat n) (Z.of_nat (rows_in_batch rs)) EC ret s;
     match o with
     | Goto_end _ _ _ => Some o
     | Next EC1 ret1 s1 =>
         '(_, x) ← the_handle s1;
         Some (Next (if ret1 =? SQL_ERROR then Z.of_nat n else EC1) ret1 (set_AffectedRows s1 (wraps 64 (hs_affected_rows x))))
     end).
Proof.
  intros Hp Hc Hrs Hs Hir. unfold execute_one. destruct (world_descs _ _ _ _ _ _ _ _ _ _ _ _ s Hp eq_refl) as (-> & E2 & _).
  cbn [mbind option_bind]. rewrite E2. cbn [mbind option_bind]. pose proof (pr_n _ _ _ _ _ _ _ _ _ _ _ _ Hp) as Hn.
  rewrite Hc, Hs. destruct (Z.ltb_spec 0 (Z.of_nat (length rs))); [|destruct rs; [done|cbn in *; lia]].
  rewrite wraps_id by lia. rewrite (ir_rewrite _ _ _ Hir). destruct (rows_in_batch_pos rs Hrs (ir_count _ _ _ Hir)) as (Hpos & <- & _).
  fold (values_offset (ms_Query s)). rewrite wrapu_id by lia.
  replace (Z.to_nat ((Z.of_nat n + Z.of_nat (rows_in_batch rs) - 1) / Z.of_nat (rows_in_batch rs))) with (batch_count n (rows_in_batch rs)); [done|].
  unfold batch_count. replace (Z.of_nat n + Z.of_nat (rows_in_batch rs) - 1) with (Z.of_nat (n + rows_in_batch rs - 1)) by lia.
  by rewrite <- Nat2Z.inj_div, Nat2Z.id.
Qed.

(** C4. An INSERT ... VALUES statement with arrays of parameters is sent as few statements, each
    with the values of many rows: the text up to VALUES and behind it the values of the
    rows, separated by commas ([batch_values_all]; [insert_first_row_ignored] has the
    exception).  The batches contain every row once and in order, each has at most
    S2_MAX_PARAMS parameters, and there are no more of them than needed.  Every row gets the
    result of its batch as status; all failed rows count when the last batch failed; the
    affected rows of the batches are added up. *)
Theorem StmtExecute_insert c s rs d apd_hd ipd_hd n h x rows positioned binary res m' affected :
  let q := ms_Query s in
  let R := rows_in_batch rs in
  let batches := chunks R (batch_count n R) rows in
  let texts := batch_text q rs (values_offset q) <$> batches in
  let last := last_ret SQL_SUCCESS res in
  ready c s rs d apd_hd ipd_hd n h x -> insert_ready s rs n -> hs_field_count x = 0 -> length rows = n ->
  (forall i r, rows !! i = Some r -> row_ok c (world_of s) q (ms_PutParam s) d apd_hd ipd_hd rs 0 0 n (memory_of s) i r) ->
  Forall (fun t => Z.of_nat (length t) < 2 ^ 60) texts ->
  run_rows (Some <$> texts) (ms_mysql s) 0 = (res, m', affected) ->
  NativeError (last_error (MADB_CLEAR_ERROR (error_of s)) res) <> 1295 ->
  (concat batches = rows /\ Forall (fun l => Z.of_nat (length l * length rs) <= S2_MAX_PARAMS) batches /\ (length texts * R < n + R)%nat) /\
  exists s' sts, MADB_StmtExecute c positioned binary s =
      Some (execute_code (if last =? SQL_ERROR then Z.of_nat n else Z.of_nat (failures res)) (Z.of_nat n) last, s') /\
    ms_sent s' = ms_sent s ++ texts /\ ms_mysql s' = m' /\
    row_view ipd_hd (memory_of s') sts (Z.of_nat n) /\
    (forall i row r, rows !! i = Some row -> res !! (i / R)%nat = Some (Some r) -> sts !! i = Some (inserted_status row r)) /\
    same_outside ipd_hd n (memory_of s) (memory_of s') /\ error_of s' = last_error (MADB_CLEAR_ERROR (error_of s)) res /\
    ms_AffectedRows s' = wraps 64 affected /\ ms_State s' = MADB_SS_EXECUTED /\ ms_locks s' = ms_locks s.
Proof.
  intros q R batches texts last Hr Hir Hfc Hlen Hrows Hbig Hrun Hne.
  destruct (rows_in_batch_pos rs (rd_params _ _ _ _ _ _ _ _ _ Hr) (ir_count _ _ _ Hir)) as (Hpos & _ & Hmax). fold R in Hpos, Hmax.
  pose proof (batch_count_ok n R Hpos) as Hcnt. destruct (chunks_length R (batch_count n R) rows) as [Hnb HFR].
  split; [split_and!|].
  { by apply chunks_concat; [|rewrite Hlen; lia]. }
  { eapply Forall_impl; [exact HFR|]. intros l Hl. cbv beta in *. nia. }
  { unfold texts. rewrite length_fmap. unfold batches. rewrite Hnb. lia. }
  rewrite (StmtExecute_text c s rs d apd_hd ipd_hd n h x) by done.
  apply (ready_error _ _ _ _ _ _ _ _ _ (MADB_CLEAR_ERROR (error_of s))) in Hr. set (s0 := put_error s _) in Hr |- *.
  pose proof (rd_prepared _ _ _ _ _ _ _ _ _ Hr) as Hp. pose proof (pr_n _ _ _ _ _ _ _ _ _ _ _ _ Hp) as Hn.
  destruct (execute_text_start c s0 _ _ _ _ _ _ _ Hr) as (m1 & sts0 & Hru & ->).
  match type of Hru with running _ _ _ _ _ _ _ ?t _ _ _ _ => remember t as s1 eqn:Es1 end.
  assert (ms_mysql s1 = ms_mysql s) as Hm1 by (by subst s1).
  destruct (batches_loop_run c (world_of s0) q _ _ _ _ rs n (memory_of s0) (values_offset q) R Hp Hpos (ir_values _ _ _ Hir) (ir_marker _ _ _ Hir)
    ltac:(unfold values_offset; lia) (ir_token _ _ _ Hir) (batch_count n R) 0 rows 0 SQL_SUCCESS s1 sts0 0 h _ res m' affected Hru)
    as (s2 & p & bd & rb & sts & Eloop & Es2 & HE & Hru' & _ & Hsts);
    [exact Hrows|lia|lia|lia|pose proof (batch_count_bound n R Hpos); lia|by apply Forall_fmap in Hbig|rewrite Hm1; exact Hrun|].
  assert (the_handle s2 = Some (h, upd_handle (set_affected_rows x 0) affected bd)) as Hh.
  { unfold the_handle. rewrite (ru_stmt _ _ _ _ _ _ _ _ _ _ _ _ Hru'). cbn [mbind option_bind]. by rewrite (ru_handle _ _ _ _ _ _ _ _ _ _ _ _ Hru'). }
  rewrite (execute_one_insert c s1 rs d apd_hd ipd_hd n _ _ (memory_of s0)) by (rewrite ?Es1; by destruct Hr, Hir).
  assert (values_offset (ms_Query s1) = values_offset q) as -> by (by rewrite Es1). fold R. change 0 with (Z.of_nat 0) at 1. rewrite Eloop. cbn [mbind option_bind].
  rewrite Hh. cbn [mbind option_bind hs_affected_rows upd_handle]. rewrite Z.add_0_l. fold last. set (s3 := set_AffectedRows s2 _).
  destruct (world_descs c _ _ _ _ _ _ _ _ _ _ _ s3 Hp) as (D1 & D2 & _); [exact (ru_world _ _ _ _ _ _ _ _ _ _ _ _ Hru')|].
  assert (error_of s3 = last_error (MADB_CLEAR_ERROR (error_of s)) res) as He3.
  { change (error_of s3) with (error_of s2). rewrite Es2. unfold error_of. cbn [ms_params upd]. by rewrite Es1 in HE. }
  destruct (execute_finish c s3 h (upd_handle (set_affected_rows x 0) affected bd) (if last =? SQL_ERROR then Z.of_nat n else Z.of_nat (failures res)) last d apd_hd)
    as (s4 & -> & F1 & F2 & F3 & F4 & F5 & F6 & F7); [|exact Hh|exact Hfc|exact D1|exact D2|by rewrite He3|].
  { unfold s3. rewrite Es2, Es1. exact (rd_multi _ _ _ _ _ _ _ _ _ Hr). }
  exists s4, sts. rewrite F1, F2, F3, F4, F5, F6, F7, (rd_size _ _ _ _ _ _ _ _ _ Hr). split_and!; try done.
  - change (ms_sent s3) with (ms_sent s2). by rewrite Es2, Es1.
  - change (ms_mysql s3) with (ms_mysql s2). by rewrite Es2.
  - pose proof (ru_view _ _ _ _ _ _ _ _ _ _ _ _ Hru') as Hv. by rewrite Hlen in Hv.
  - exact (ru_same _ _ _ _ _ _ _ _ _ _ _ _ Hru').
  - change (ms_locks s3) with (ms_locks s2). rewrite Es2, Es1. cbn. lia.
Qed.

End WholeInsert.

(** *** An UPDATE with three rows: the second one is ignored, the third one refused *)

Definition array_memory : memory :=
  list_to_map (zip (Z.add 1000 ∘ Z.of_nat <$> seq 0 12) [1; 0; 0; 0; 2; 0; 0; 0; 3; 0; 0; 0] ++
               zip (Z.add 3000 ∘ Z.of_nat <$> seq 0 6) [0; 0; 1; 0; 0; 0] ++
               zip (Z.add 4000 ∘ Z.of_nat <$> seq 0 6) (replicate 6 9) ++ zip (Z.add 5000 ∘ Z.of_nat <$> seq 0 8) (replicate 8 9)).

Definition array_apd : MADB_DescRecord := set_num (sample_apd SQL_C_LONG 1000) OctetLength 4.
Definition array_ipd : MADB_DescRecord := set_num zero_record Type_ SQL_INTEGER.
Definition array_apd_header (status : Z) : MADB_Header := MkHeader 0 3 status 0 0 1 0.
Definition array_ipd_header : MADB_Header := MkHeader 0 0 4000 0 0 1 5000.
Definition array_descs : stmt_descs := MkStmtDescs 1 1 2 3 1 1.
Definition array_world (status : Z) : world :=
  MkWorld {[ 1%positive := MkDesc (array_apd_header status) MADB_DESC_APD false [array_apd] [] calloc_error;
             2%positive := MkDesc array_ipd_header MADB_DESC_IPD false [array_ipd] [] calloc_error;
             3%positive := MkDesc (MkHeader 0 0 0 0 0 0 0) MADB_DESC_IRD false [] [] calloc_error ]}
    {[ 1%positive := array_descs ]} [] ∅.

(** A server that refuses a third query. *)
#[local] Instance sample_server : Server nat :=
  fun _ i => ([if (i =? 1)%nat then RespErr (Native (chars "23000") (chars "Duplicate entry") 1062) else RespOk 1], S i).

Definition array_config : stmt_config :=
  MkStmtConfig 1 sample_config 10 (MkIrdConfig false false (fun _ => None) 4 false) true false false false (MkOptions 0 0 0 0 0 0 0 0 0).
Definition idle_connection : MYSQL nat := MkMysql 0 false true None 0 0 no_diag [] [] None 0%nat.
Definition fresh_handle : MYSQL_STMT := MkHandle 7 [] 0 false MYSQL_STMT_INITTED None.

Definition array_query (t : string) : MADB_QUERY := default (ParseProps.sample_query t true) (ParseQuery (ParseProps.sample_query t true) false).
Definition array_stmt (status : Z) (t : string) : MADB_Stmt nat :=
  MkStmt (MkParamState (array_world status) array_memory calloc_error []) idle_connection {[ 1%positive := fresh_handle ]} ∅ [] 0
    (Some 1%positive) None None 0 None (array_query t) 1 true true MADB_SS_PREPARED 0 0 0 None None None false None (-1) 0 false None false.

Definition array_rows : list (option (list (list Z))) := [Some [chars "1"]; None; Some [chars "3"]].

Lemma array_prepared status q :
  length (query_params q [(array_apd, array_ipd)] 0) = 1%nat ->
  offsets_ok 0 (query_params q [(array_apd, array_ipd)] 0) (query_end q 0) ->
  Z.of_nat (length (query_text q)) < 2 ^ 32 ->
  prepared array_config (array_world status) q (-1) array_descs (array_apd_header status) array_ipd_header [(array_apd, array_ipd)] 0 0 3 array_memory.
Proof.
  intros H1 H2 H3. split; [by vm_compute|by vm_compute|by vm_compute| |exact H3|lia|exact H1|exact H2|by vm_compute|].
  - split.
    + intros h [-> | ->]; eexists; (split; [reflexivity|]); vm_compute; congruence.
    + intros [|j] r Hr; [|by destruct j]. cbn in Hr. injection Hr as <-. split; [by vm_compute|]. vm_compute. congruence.
    + intros [|j] r Hr; [|by destruct j]. cbn in Hr. injection Hr as <-. by vm_compute.
  - split; [intros _ i Hi|intros _ i Hi|intros _ _; left; vm_compute; congruence].
    + assert (i = 0 \/ i = 1 \/ i = 2 \/ i = 3 \/ i = 4 \/ i = 5) as Hi' by (cbn in Hi; lia).
      destruct_or! Hi'; subst i; vm_compute; eauto.
    + assert (i = 0 \/ i = 1 \/ i = 2 \/ i = 3 \/ i = 4 \/ i = 5 \/ i = 6 \/ i = 7) as Hi' by lia.
      destruct_or! Hi'; subst i; vm_compute; eauto.
Qed.

Lemma array_literal status q m E (idx v : Z) : peek_u 4 m (1000 + idx * 4) = Some v -> 0 <= v < 10 -> 0 <= idx < 3 ->
  param_literals sample_config (the_params q (-1) array_descs [(array_apd, array_ipd)]) idx [(array_apd, array_ipd)] SQL_SUCCESS
    (MkParamState (array_world status) m E []) = Some (SQL_SUCCESS, [[48 + v]], m, E).
Proof.
  intros Hv Hr Hi. cbn [param_literals]. unfold param_literal. cbn [pm_world pm_memory pm_Error the_params pq_descs array_descs Apd Ipd].
  assert (descs (array_world status) !! 1%positive = Some (MkDesc (array_apd_header status) MADB_DESC_APD false [array_apd] [] calloc_error)) as ->
    by (by vm_compute).
  assert (descs (array_world status) !! 2%positive = Some (MkDesc array_ipd_header MADB_DESC_IPD false [array_ipd] [] calloc_error)) as ->
    by (by vm_compute).
  cbn [fmap option_fmap option_map mbind option_bind Header].
  change (ptr (num array_apd IndicatorPtr)) with (@None Z). change (ptr (num array_apd OctetLengthPtr)) with (@None Z).
  change (ptr (num array_apd DataPtr)) with (Some 1000). cbn [bound_at mbind option_bind len_at IS_DAE array_apd_header BindOffsetPtr andb].
  change (0 =? 0) with true. cbn [mbind option_bind]. change (text_of _ _) with (Some (@None (list Z))). cbn [mbind option_bind default from_option].
  rewrite !bool_decide_eq_false_2 by done.
  assert (Numeric.GetBindOffset 0 0 (Some 1000) idx 4 = Some (1000 + idx * 4)) as Hg.
  { unfold Numeric.GetBindOffset. change (0 =? _) with true. cbv zeta match. rewrite (wrapu_id 64 (0 + 4 * idx)), wrapu_id by lia. f_equal. lia. }
  cbn [array_apd_header BindType]. change (num array_apd OctetLength) with 4. rewrite Hg. cbn [mbind option_bind].
  unfold param_value. change (num array_apd ConciseType) with SQL_C_LONG. cbv zeta. cbn [default from_option id].
  change (integer_size SQL_C_LONG) with 4%nat. rewrite Hv. assert (v = 0 \/ v = 1 \/ v = 2 \/ v = 3 \/ v = 4 \/ v = 5 \/ v = 6 \/ v = 7 \/ v = 8 \/ v = 9) as Hc by lia.
  destruct_or! Hc; subst v; reflexivity.
Qed.

Lemma array_rows_ok t i r : array_rows !! i = Some r ->
  Z.of_nat (length (row_text (array_query t) [(array_apd, array_ipd)] 0 0 (default [] r))) < 2 ^ 60 ->
  row_ok array_config (array_world 3000) (array_query t) (-1) array_descs (array_apd_header 3000) array_ipd_header [(array_apd, array_ipd)] 0 0 3
    array_memory i r.
Proof.
  intros Hi Hb m E Hm.
  assert (forall k a, a + Z.of_nat k <= 4000 -> peek_u k m a = peek_u k array_memory a) as Hpeek.
  { intros k a Ha. apply peek_u_same. intros x Hx. apply (so_same _ _ _ _ Hm). intros [[_ D]|[_ D]]; cbn in D; lia. }
  assert (forall j, 0 <= j < 3 -> is_ignored (array_apd_header 3000) m j = is_ignored (array_apd_header 3000) array_memory j) as Hig.
  { intros j Hj. unfold is_ignored, status_at. cbn [array_apd_header ArrayStatusPtr]. change (3000 =? 0) with false. cbn match. by rewrite Hpeek by lia. }
  destruct i as [|[|[|i]]]; cbn in Hi; [| | |done]; injection Hi as <-; cbn [default from_option id] in Hb.
  - rewrite Hig by done. split_and!; [done| |done]. apply (array_literal _ _ _ _ _ 1); [rewrite Hpeek by done|..]; by vm_compute.
  - rewrite Hig by done. by vm_compute.
  - rewrite Hig by done. split_and!; [done| |done]. apply (array_literal _ _ _ _ _ 3); [rewrite Hpeek by done|..]; by vm_compute.
Qed.

Lemma array_ready status t : STMT_COUNT (array_query t) = 1%nat ->
  length (query_params (array_query t) [(array_apd, array_ipd)] 0) = 1%nat ->
  offsets_ok 0 (query_params (array_query t) [(array_apd, array_ipd)] 0) (query_end (array_query t) 0) ->
  Z.of_nat (length (query_text (array_query t))) < 2 ^ 32 ->
  ready array_config (array_stmt status t) [(array_apd, array_ipd)] array_descs (array_apd_header status) array_ipd_header 3 1 fresh_handle.
Proof.
  intros H0 H1 H2 H3. split; try done; [by apply array_prepared|apply not_elem_of_nil].
Qed.

Lemma StmtExecute_rows_witness :
  exists s' sts, MADB_StmtExecute array_config (fun _ => None) (fun _ => None) (array_stmt 3000 "update t set a=? where b=1") =
      Some (SQL_SUCCESS_WITH_INFO, s') /\
    ms_sent s' = [chars "update t set a=1 where b=1"; chars "update t set a=3 where b=1"] /\
    row_view array_ipd_header (memory_of s') sts 3 /\
    sts !! 0%nat = Some SQL_PARAM_SUCCESS /\ sts !! 1%nat = Some SQL_PARAM_UNUSED /\ sts !! 2%nat = Some SQL_PARAM_ERROR.
Proof.
  destruct (StmtExecute_rows array_config (array_stmt 3000 "update t set a=? where b=1") [(array_apd, array_ipd)] array_descs (array_apd_header 3000)
    array_ipd_header 3 1 fresh_handle array_rows (fun _ => None) (fun _ => None)
    [Some None; None; Some (Some (Native (chars "23000") (chars "Duplicate entry") 1062))]
    (snd (fst (run_rows [Some (chars "update t set a=1 where b=1"); None; Some (chars "update t set a=3 where b=1")] idle_connection 0))) 1)
    as (s' & sts & E & Hs & _ & Hv & Hst & _).
  - apply array_ready; vm_compute; repeat constructor; congruence.
  - done.
  - done.
  - by vm_compute.
  - done.
  - intros i r Hi. apply array_rows_ok; [exact Hi|]. destruct i as [|[|[|i]]]; cbn in Hi; [| | |done]; injection Hi as <-; by vm_compute.
  - by vm_compute.
  - by vm_compute.
  - vm_compute. congruence.
  - exists s', sts. split_and!; [rewrite E; by vm_compute|rewrite Hs; by vm_compute|exact Hv|by rewrite (Hst 0%nat _ eq_refl)|
      by rewrite (Hst 1%nat _ eq_refl)|by rewrite (Hst 2%nat _ eq_refl)].
Defined.

(** *** An INSERT with three rows *)

Definition insert_rows : list (option (list (list Z))) := [Some [chars "1"]; Some [chars "2"]; Some [chars "3"]].

Lemma insert_rows_ok t i r : insert_rows !! i = Some r ->
  Z.of_nat (length (row_text (array_query t) [(array_apd, array_ipd)] 0 0 (default [] r))) < 2 ^ 60 ->
  row_ok array_config (array_world 0) (array_query t) (-1) array_descs (array_apd_header 0) array_ipd_header [(array_apd, array_ipd)] 0 0 3
    array_memory i r.
Proof.
  intros Hi Hb m E Hm.
  assert (forall k a, a + Z.of_nat k <= 4000 -> peek_u k m a = peek_u k array_memory a) as Hpeek.
  { intros k a Ha. apply peek_u_same. intros x Hx. apply (so_same _ _ _ _ Hm). intros [[_ D]|[_ D]]; cbn in D; lia. }
  destruct i as [|[|[|i]]]; cbn in Hi; [| | |done]; injection Hi as <-; cbn [default from_option id] in Hb; split_and!; try done.
  - apply (array_literal _ _ _ _ _ 1); [rewrite Hpeek by done|..]; by vm_compute.
  - apply (array_literal _ _ _ _ _ 2); [rewrite Hpeek by done|..]; by vm_compute.
  - apply (array_literal _ _ _ _ _ 3); [rewrite Hpeek by done|..]; by vm_compute.
Qed.

Definition insert_text : string := "insert into t values(?)".

Lemma StmtExecute_insert_witness :
  exists s' sts, MADB_StmtExecute array_config (fun _ => None) (fun _ => None) (array_stmt 0 insert_text) = Some (SQL_SUCCESS, s') /\
    ms_sent s' = [chars "insert into t values(1),(2),(3)"] /\ row_view array_ipd_header (memory_of s') sts 3 /\
    sts !! 2%nat = Some SQL_PARAM_SUCCESS.
Proof.
  assert (batch_text (ms_Query (array_stmt 0 insert_text)) [(array_apd, array_ipd)] (values_offset (ms_Query (array_stmt 0 insert_text))) <$>
    chunks (rows_in_batch [(array_apd, array_ipd)]) (batch_count 3 (rows_in_batch [(array_apd, array_ipd)])) insert_rows =
    [chars "insert into t values(1),(2),(3)"]) as Ht by (vm_compute; reflexivity).
  destruct (StmtExecute_insert array_config (array_stmt 0 insert_text) [(array_apd, array_ipd)] array_descs (array_apd_header 0)
    array_ipd_header 3 1 fresh_handle insert_rows (fun _ => None) (fun _ => None) [Some None]
    (snd (fst (run_rows [Some (chars "insert into t values(1),(2),(3)")] idle_connection 0))) 1) as (_ & s' & sts & E & Hs & _ & Hv & Hst & _).
  - apply array_ready; vm_compute; repeat constructor; congruence.
  - split; [by vm_compute|by vm_compute|vm_compute; lia|vm_compute; lia|]. cbn [length]. change (2 ^ 15)%nat with (Z.to_nat 32768). lia.
  - done.
  - done.
  - intros i r Hi. apply insert_rows_ok; [exact Hi|]. destruct i as [|[|[|i]]]; cbn in Hi; [| | |done]; injection Hi as <-; by vm_compute.
  - rewrite Ht. constructor; [by vm_compute|constructor].
  - rewrite Ht. by vm_compute.
  - vm_compute. congruence.
  - exists s', sts. rewrite Ht in Hs.
    split_and!; [rewrite E; by vm_compute|exact Hs|exact Hv|]. apply (Hst 2%nat (Some [chars "3"]) None eq_refl). by vm_compute.
Defined.

(** When the first row of a batch is to be ignored, the values of the next one are put behind
    a comma all the same: the statement sent is not SQL.  And when all rows are ignored the
    INSERT is sent without any values. *)
Theorem insert_first_row_ignored :
  let sent status m := (fun r => ms_sent r.2) <$> MADB_StmtExecute array_config (fun _ => None) (fun _ => None)
    (put_memory (array_stmt status insert_text) m) in
  sent 3000 (<[3002 := 0]> (<[3000 := 1]> array_memory)) = Some [chars "insert into t values,(2),(3)"] /\
  sent 3000 (<[3004 := 1]> (<[3000 := 1]> array_memory)) = Some [chars "insert into t values"].
Proof. split; vm_compute; reflexivity. Qed.

End ExecProps.
