(* ===== verification/Results.v ===== *)
(** * Results: results that are left over, and the results of a batch

    Theorems about the loop that reads what is left of a query's answers when a result is
    freed ([MADB_CspsFreeResult] of [ma_statement.c], on the connection of ClientLib.v)
    and about SQLMoreResults after a batch of statements (Execute.v). *)

From Stdlib Require Import ZArith Lia.
From stdpp Require Import base strings numbers option list gmap.
From S2P Require Import Prelude Odbc Errors Parse SqlTypes Desc Ird StmtAttr Params ClientLib StmtState Execute.
Import ErrorOps DescOps Ird IrdProps Client StmtState Execute.

Module Results.

(** ** Reading the answers that are left *)

Section Drain.
Context {A : Type}.
Implicit Types m : MYSQL A.

(** Which answers the loop gets to the end of: it never reads the rows of a result set, and a
    lost connection keeps its flag. *)
Fixpoint drains (l : list response) : bool :=
  match l with
  | [] => true
  | RespOk _ :: l' => drains l'
  | RespErr _ :: _ => true
  | RespRows _ flag _ _ :: _ => negb flag
  | RespLost :: _ => false
  end.

(** A connection between two answers. *)
Record between m : Prop := {
  bt_status : my_status m = MYSQL_STATUS_READY;
  bt_more : my_more m = bool_decide (my_pending m <> []);
}.

(** Once the next answer cannot be read, nothing changes any more. *)
Definition stuck m : Prop := my_more m = true /\ (my_status m <> MYSQL_STATUS_READY \/ my_pending m = [] \/ exists l, my_pending m = RespLost :: l).

Lemma stuck_next m : stuck m -> stuck (mysql_next_result m).2.
Proof.
  intros [Hm Hs]. unfold mysql_next_result. destruct (Z.eqb_spec (my_status m) MYSQL_STATUS_READY) as [Er|Er]; cbn [negb].
  - destruct Hs as [Hs|Hs]; [done|]. cbn [my_more set_affected set_diag]. rewrite Hm. unfold read_query_result. cbn [my_pending set_affected set_diag].
    split; destruct Hs as [Hp|[l Hp]]; rewrite Hp; [done|done|by right; left|right; right; by exists l].
  - split; [done|]. by left.
Qed.

Lemma stuck_drain fuel : forall m, stuck m -> drain fuel m = None.
Proof.
  induction fuel as [|fuel IH]; intros m Hs; cbn [drain]; [done|]. unfold mysql_more_results. rewrite (proj1 Hs).
  by apply IH, stuck_next.
Qed.

(** More fuel does not change the result. *)
Lemma drain_mono fuel : forall fuel' m m', (fuel <= fuel')%nat -> drain fuel m = Some m' -> drain fuel' m = Some m'.
Proof.
  induction fuel as [|fuel IH]; intros [|fuel'] m m' Hf Hd; [done..|lia|]. cbn [drain] in *.
  destruct (mysql_more_results m); [|done]. apply (IH fuel'); [lia|done].
Qed.

Lemma drain_cases l : forall m, my_pending m = l -> between m ->
  if drains l then exists m', drain (S (length l)) m = Some m' /\ my_more m' = false else forall fuel, drain fuel m = None.
Proof.
  induction l as [|r l IH]; intros m Hp [Hs Hm]; rewrite Hp in Hm.
  { cbn. unfold mysql_more_results. rewrite Hm. by exists m. }
  rewrite bool_decide_eq_true_2 in Hm by done.
  set (m1 := set_affected (set_diag m no_diag) MYSQL_COUNT_ERROR).
  assert (forall fuel, drain (S fuel) m = drain fuel (read_query_result m1).2) as Estep.
  { intros fuel. cbn [drain]. unfold mysql_more_results. rewrite Hm. unfold mysql_next_result. rewrite Hs. cbn [negb Z.eqb].
    change (my_more (set_affected (set_diag m no_diag) MYSQL_COUNT_ERROR)) with (my_more m). rewrite Hm. fold m1. by destruct (read_query_result m1). }
  cbn [length drains]. unfold read_query_result in Estep. change (my_pending m1) with (my_pending m) in Estep. rewrite Hp in Estep.
  destruct r as [a|cols flag rows broken|d|]; cbn [snd] in Estep.
  - set (m2 := set_more _ _) in Estep. assert (between m2) as Hb by (split; [exact Hs|done]).
    specialize (IH m2 eq_refl Hb). destruct (drains l); [|intros [|fuel]; [done|rewrite Estep; apply IH]]. by rewrite Estep.
  - destruct flag; cbn [negb].
    + intros [|fuel]; [done|]. rewrite Estep. apply stuck_drain. split; [done|]. by left.
    + rewrite Estep. eexists. split; [destruct l; reflexivity|done].
  - rewrite Estep. eexists. split; [destruct l; reflexivity|done].
  - intros [|fuel]; [done|]. rewrite Estep. apply stuck_drain. split; [exact Hm|]. right; right. by exists l.
Qed.

End Drain.

(** C21. Closing a statement frees its result after reading all answers that are left with
    mysql_next_result, which does not read rows: with a stored result the loop ends, and
    with as many rounds as there are answers, exactly when no further result set with more
    answers behind it is left and the connection is not lost.  Otherwise, and for every
    unbuffered result of a query with several answers, it runs forever. *)
Theorem CspsFreeResult_ends {A} (c : stmt_config) (s : MADB_Stmt A) r h res x :
  MADB_SSPS_DISABLED c s = true -> ms_results s !! r = Some res -> ms_handles s !! h = Some x ->
  (between (ms_mysql s) -> forall fuel, (length (my_pending (ms_mysql s)) < fuel)%nat ->
    (drains (my_pending (ms_mysql s)) = true <-> is_Some (MADB_CspsFreeResult c fuel (Some r) (Some h) true s))) /\
  (my_status (ms_mysql s) = MYSQL_STATUS_USE_RESULT -> my_more (ms_mysql s) = true ->
    forall fuel, MADB_CspsFreeResult c fuel (Some r) (Some h) true s = None).
Proof.
  intros Hd Hr Hx. unfold MADB_CspsFreeResult. rewrite Hd, Hx. cbn [mbind option_bind]. set (s1 := put_handle s h (clear_result x)).
  change (ms_mysql s1) with (ms_mysql s). split.
  - intros Hb fuel Hf. pose proof (drain_cases (my_pending (ms_mysql s)) (ms_mysql s) eq_refl Hb) as Hc. destruct (drains _).
    + destruct Hc as (m' & Hm & _). rewrite (drain_mono _ fuel _ _ Hf Hm). cbn. rewrite Hr. cbn. by split.
    + rewrite Hc. cbn. split; [done|]. by intros [].
  - intros Hs Hm fuel. rewrite stuck_drain; [done|]. split; [done|]. left. by rewrite Hs.
Qed.

(** A CALL that returned two result sets and an OK: the first result is stored, then the
    statement is closed. *)
Definition two_sets : list response := [RespRows [] true [] None; RespOk 0].
Definition sample_close (l : list response) : MADB_Stmt unit :=
  MkStmt (MkParamState (MkWorld ∅ ∅ [] ∅) ∅ calloc_error []) (MkMysql 0 (bool_decide (l <> [])) true None 0 0 no_diag l [] None tt)
    {[ 1%positive := MkHandle 0 [] 0 false MYSQL_STMT_USE_OR_STORE_CALLED (Some 1%positive) ]} {[ 1%positive := MkRes [] (Some []) false ]} [] 0
    (Some 1%positive) None None 0 (Some 1%positive) (ParseProps.sample_query "call p()" true) 0 true true MADB_SS_EXECUTED 0 0 0 None None None
    false None (-1) 0 false None false.
Definition sample_close_config : stmt_config :=
  MkStmtConfig 1 ParamsProps.sample_config 10 (MkIrdConfig false false (fun _ => None) 4 false) true false false false (MkOptions 0 0 0 0 0 0 0 0 0).

Lemma CspsFreeResult_ends_witness :
  is_Some (MADB_CspsFreeResult sample_close_config 3 (Some 1%positive) (Some 1%positive) true (sample_close [RespOk 1; RespOk 2])) /\
  ~ is_Some (MADB_CspsFreeResult sample_close_config 1000 (Some 1%positive) (Some 1%positive) true (sample_close two_sets)).
Proof.
  split.
  - destruct (CspsFreeResult_ends sample_close_config (sample_close [RespOk 1; RespOk 2]) 1 1 (MkRes [] (Some []) false)
      (MkHandle 0 [] 0 false MYSQL_STMT_USE_OR_STORE_CALLED (Some 1%positive)) eq_refl eq_refl eq_refl) as [He _].
    apply (He ltac:(by split) 3%nat); [cbn; lia|done].
  - destruct (CspsFreeResult_ends sample_close_config (sample_close two_sets) 1 1 (MkRes [] (Some []) false)
      (MkHandle 0 [] 0 false MYSQL_STMT_USE_OR_STORE_CALLED (Some 1%positive)) eq_refl eq_refl eq_refl) as [He _].
    intros Hs. apply (He ltac:(by split) 1000%nat) in Hs; [done|apply Nat.ltb_lt; by vm_compute].
Defined.

(** ** The results of a batch of statements *)

Section More.
Context {A : Type} (c : stmt_config).
Implicit Types s : MADB_Stmt A.

(** SQLMoreResults called [n] times: each return code with the statement after the call. *)
Fixpoint more_results (binary : MADB_Stmt A -> option (Z * MADB_Stmt A)) (n : nat) s : option (list (Z * MADB_Stmt A) * MADB_Stmt A) :=
  match n with
  | O => Some ([], s)
  | S n' =>
      '(rc, s1) ← MADB_StmtMoreResults c binary s;
      '(l, s2) ← more_results binary n' s1;
      Some ((rc, s1) :: l, s2)
  end.

(** A batch executed on the client side, with or without result sets: [hs] are its MYSQL_STMT
    structures with the contents [xs], [rs] the results, [k] the number of the current
    statement.  Memory can be had, and the row descriptor owns its texts. *)
Record batch_executed (hs : list positive) (rs : list (option positive)) (xs : list MYSQL_STMT) s (k : nat) : Prop := {
  be_ssps : MADB_SSPS_DISABLED c s = true;
  be_current : ms_MultiStmtNr s = k;
  be_count : STMT_COUNT (ms_Query s) = length xs;
  be_stmt : is_Some (ms_stmt s);
  be_handles : ms_MultiStmts s = Some (Some <$> hs) /\ Forall2 (fun h x => ms_handles s !! h = Some x) hs xs;
  be_results : ms_CspsMultiStmtResult s = Some rs /\ length rs = length xs;
  be_fields : Forall (fun x => hs_field_count x = Z.of_nat (length (hs_fields x)) /\ hs_field_count x < 32767) xs;
  be_memory : false ∉ pm_answers (ms_params s) /\ (1 <= sc_mem c)%nat;
  be_ird : exists d ird, own_descs c s = Some d /\ descs (world_of s) !! Ird d = Some ird /\ DescType ird = MADB_DESC_IRD /\
    AppType ird = false /\ texts_apart (blocks (world_of s)) (Records ird);
}.

(** Statement [k] of the batch is the current one: its structure and result are installed,
    SQLRowCount has its affected rows (0 with a result set), and the row descriptor
    describes its columns; at a result set the cursor is before the first row. *)
Record is_current (hs : list positive) (rs : list (option positive)) (xs : list MYSQL_STMT) s (k : nat) : Prop := {
  ic_number : ms_MultiStmtNr s = k;
  ic_handle : exists h, hs !! k = Some h /\ ms_stmt s = Some h;
  ic_result : rs !! k = Some (ms_CspsResult s);
  ic_shown : exists x d ird, xs !! k = Some x /\ own_descs c s = Some d /\ descs (world_of s) !! Ird d = Some ird /\
    Count (Header ird) = Z.of_nat (length (hs_fields x)) /\ describes (sc_ird c) (hs_fields x) (blocks (world_of s)) ird 0 /\
    ms_AffectedRows s = (if hs_field_count x =? 0 then wraps 64 (hs_affected_rows x) else 0) /\
    (hs_field_count x <> 0 -> ms_LastRowFetched s = 0 /\ ms_Position s = -1 /\ ms_metadata s = Some (hs_fields x));
}.

(** The statement with another row descriptor of its own. *)
Lemma Reset_ok s h x : ms_stmt s = Some h -> ms_handles s !! h = Some x -> false ∉ pm_answers (ms_params s) ->
  exists s', MADB_StmtResetResultStructures s = Some s' /\ world_of s' = world_of s /\ false ∉ pm_answers (ms_params s') /\
    ms_LastRowFetched s' = 0 /\ ms_Position s' = -1 /\
    (ms_stmt s', ms_handles s', ms_MultiStmts s', ms_CspsMultiStmtResult s', ms_MultiStmtNr s', ms_Query s', ms_AffectedRows s') =
    (ms_stmt s, ms_handles s, ms_MultiStmts s, ms_CspsMultiStmtResult s, ms_MultiStmtNr s, ms_Query s, ms_AffectedRows s) /\
    MADB_SSPS_DISABLED c s' = MADB_SSPS_DISABLED c s.
Proof.
  intros Hs Hh Ha. unfold MADB_StmtResetResultStructures, the_handle. rewrite Hs. cbn [mbind option_bind]. rewrite Hh. cbn [mbind option_bind].
  destruct (_ =? 0)%nat; [eexists; split; [reflexivity|]; by rewrite <- Hs|]. unfold next_answer.
  destruct (ParamsProps.answer_ok _ Ha) as (p1 & -> & S1). cbn [ms_params set_params].
  destruct (ParamsProps.answer_ok p1) as (p2 & E2 & S2); [by apply (ParamsProps.sba_answers _ _ S1)|].
  change (ms_params (set_params s p1)) with p1. rewrite E2. cbn [andb]. eexists. split; [reflexivity|]. rewrite <- Hs.
  unfold world_of. cbn. rewrite (ParamsProps.sba_world _ _ S2), (ParamsProps.sba_world _ _ S1). split_and!; try done.
  by apply (ParamsProps.sba_answers _ _ S2), (ParamsProps.sba_answers _ _ S1).
Qed.

(** [MADB_InstallStmt] for a statement of the batch. *)
Lemma InstallStmt_ok s h x d ird : ms_handles s !! h = Some x -> hs_field_count x = Z.of_nat (length (hs_fields x)) /\ hs_field_count x < 32767 ->
  false ∉ pm_answers (ms_params s) -> (1 <= sc_mem c)%nat -> own_descs c s = Some d -> descs (world_of s) !! Ird d = Some ird ->
  DescType ird = MADB_DESC_IRD -> AppType ird = false -> texts_apart (blocks (world_of s)) (Records ird) ->
  exists s' ird', MADB_InstallStmt c (Some h) s = Some s' /\ false ∉ pm_answers (ms_params s') /\ own_descs c s' = Some d /\
    descs (world_of s') !! Ird d = Some ird' /\ DescType ird' = MADB_DESC_IRD /\ AppType ird' = false /\
    texts_apart (blocks (world_of s')) (Records ird') /\ Count (Header ird') = Z.of_nat (length (hs_fields x)) /\
    describes (sc_ird c) (hs_fields x) (blocks (world_of s')) ird' 0 /\
    (ms_stmt s', ms_handles s', ms_MultiStmts s', ms_CspsMultiStmtResult s', ms_MultiStmtNr s', ms_Query s') =
    (Some h, ms_handles s, ms_MultiStmts s, ms_CspsMultiStmtResult s, ms_MultiStmtNr s, ms_Query s) /\
    MADB_SSPS_DISABLED c s' = MADB_SSPS_DISABLED c s /\
    ms_AffectedRows s' = (if hs_field_count x =? 0 then wraps 64 (hs_affected_rows x) else 0) /\
    (hs_field_count x <> 0 -> ms_LastRowFetched s' = 0 /\ ms_Position s' = -1 /\ ms_metadata s' = Some (hs_fields x)).
Proof.
  intros Hh [Hf H32] Ha Hm Hd Hi Ht Hap Hta. unfold MADB_InstallStmt, the_handle. cbn [ms_stmt set_stmt mbind option_bind].
  change (ms_handles (set_stmt s (Some h))) with (ms_handles s). rewrite Hh. cbn [mbind option_bind].
  destruct (Z.eqb_spec (hs_field_count x) 0) as [Hz|Hz].
  - assert (hs_fields x = []) as Hnil by (apply length_zero_iff_nil; lia). unfold forget_columns.
    change (own_descs c (set_stmt s (Some h))) with (own_descs c s). rewrite Hd. cbn [mbind option_bind].
    change (world_of (set_stmt s (Some h))) with (world_of s).
    destruct (DescFree_ird _ _ _ Hi Ht Hap Hta) as (w' & ird' & -> & E1 & E2 & E3 & E4 & E5 & E6). cbn [mbind option_bind].
    eexists _, ird'. split; [reflexivity|]. split; [done|]. split; [unfold own_descs, world_of; cbn; by rewrite E2|].
    split; [unfold world_of; cbn; by rewrite E1, lookup_insert_eq|]. split_and!; try done.
    + rewrite E5. apply texts_none.
    + by rewrite E6, Hnil.
    + rewrite Hnil. by intros j co Hj.
  - destruct (Reset_ok (set_AffectedRows (set_stmt s (Some h)) 0) h x eq_refl Hh Ha) as (s2 & -> & W2 & A2 & L2 & P2 & E2 & D2).
    cbn [mbind option_bind]. injection E2 as F1 F2 F3 F4 F5 F6 F7. unfold describe_columns, the_handle. rewrite F1. cbn [mbind option_bind ms_stmt set_AffectedRows set_stmt].
    rewrite F2. cbn [ms_handles set_AffectedRows set_stmt]. rewrite Hh. cbn [mbind option_bind]. rewrite (proj2 (Z.eqb_neq _ _)) by done.
    change (world_of (set_AffectedRows _ _)) with (world_of s) in W2.
    assert (own_descs c s2 = Some d) as -> by (unfold own_descs in *; by rewrite W2). cbn [mbind option_bind]. rewrite W2.
    destruct (DescSetIrdMetadata_ok (sc_ird c) (sc_mem c) (Ird d) (hs_fields x) (world_of s) ird Hi Ht Hap Hta ltac:(lia) Hm)
      as (w' & ird' & -> & E1 & E2 & E3 & E4 & E5 & E6 & E7). cbn [mbind option_bind].
    eexists _, ird'. split; [reflexivity|]. split; [done|]. split; [unfold own_descs, world_of; cbn; by rewrite E2|].
    split; [unfold world_of; cbn; by rewrite E1, lookup_insert_eq|]. split_and!; try done. cbn. by rewrite F1, F2, F3, F4, F5, F6.
Qed.

(** The next statement of the batch is installed. *)
Lemma MoreResults_step binary hs rs xs s k : batch_executed hs rs xs s k -> (S k < length xs)%nat ->
  exists s', MADB_StmtMoreResults c binary s = Some (SQL_SUCCESS, s') /\ batch_executed hs rs xs s' (S k) /\ is_current hs rs xs s' (S k).
Proof.
  intros [H1 H2 H3 [h0 H4] [H5 H6] [H8 H9] H10 [Hm1 Hm2] (d & ird & D1 & D2 & D3 & D4 & D5)] Hlt.
  destruct (lookup_lt_is_Some_2 xs (S k) Hlt) as [x Hx]. destruct (Forall2_lookup_r _ _ _ _ _ H6 Hx) as (h & Hh & Hhx).
  destruct (lookup_lt_is_Some_2 rs (S k) ltac:(lia)) as [r Hr]. unfold MADB_StmtMoreResults. rewrite H4. set (s0 := set_result s false).
  change (ms_MultiStmts s0) with (ms_MultiStmts s). rewrite H5. change (ms_MultiStmtNr s0) with (ms_MultiStmtNr s). rewrite H2.
  change (ms_Query s0) with (ms_Query s). rewrite H3, (proj2 (Nat.eqb_neq _ _)) by lia. rewrite list_lookup_fmap, Hh. cbn [fmap option_fmap option_map mbind option_bind].
  rewrite Forall_lookup in H10. pose proof (H10 _ _ Hx) as Hxf.
  destruct (InstallStmt_ok (set_MultiStmtNr s0 (S k)) h x d ird) as (s1 & ird' & -> & A1 & A2 & A3 & A4 & A5 & A6 & A7 & A8 & A9 & A10 & A11 & A12); try done.
  injection A9 as B1 B2 B3 B4 B5 B6. cbn [mbind option_bind]. rewrite A10. change (MADB_SSPS_DISABLED c (set_MultiStmtNr s0 (S k))) with (MADB_SSPS_DISABLED c s).
  rewrite H1, B4. change (ms_CspsMultiStmtResult (set_MultiStmtNr s0 (S k))) with (ms_CspsMultiStmtResult s). rewrite H8. cbn [mbind option_bind]. rewrite Hr. cbn [mbind option_bind].
  eexists. split; [reflexivity|]. split.
  - split.
    + change (MADB_SSPS_DISABLED c s1 = true). by rewrite A10.
    + exact B5.
    + change (STMT_COUNT (ms_Query s1) = length xs). by rewrite B6.
    + change (is_Some (ms_stmt s1)). by rewrite B1.
    + change (ms_MultiStmts s1 = Some (Some <$> hs) /\ Forall2 (fun h x => ms_handles s1 !! h = Some x) hs xs). by rewrite B3, B2.
    + change (ms_CspsMultiStmtResult s1 = Some rs /\ length rs = length xs). by rewrite B4.
    + by apply Forall_lookup.
    + by split.
    + by exists d, ird'.
  - split; [exact B5|by exists h|done|]. exists x, d, ird'. split_and!; done.
Qed.

Lemma MoreResults_end binary hs rs xs s k : batch_executed hs rs xs s k -> S k = length xs ->
  MADB_StmtMoreResults c binary s = Some (SQL_NO_DATA, set_result s false).
Proof.
  intros [H1 H2 H3 [h0 H4] [H5 _] _ _ _ _] Hk. unfold MADB_StmtMoreResults. rewrite H4.
  change (ms_MultiStmts (set_result s false)) with (ms_MultiStmts s). rewrite H5. change (ms_MultiStmtNr (set_result s false)) with (ms_MultiStmtNr s).
  change (ms_Query (set_result s false)) with (ms_Query s). by rewrite H2, H3, (proj2 (Nat.eqb_eq _ _)) by lia.
Qed.

Lemma MoreResults_from binary hs rs xs n : forall k s, batch_executed hs rs xs s k -> (S k + n = length xs)%nat ->
  exists l s', more_results binary (S n) s = Some (l ++ [(SQL_NO_DATA, s')], s') /\ length l = n /\
    (forall j rc s1, l !! j = Some (rc, s1) -> rc = SQL_SUCCESS /\ is_current hs rs xs s1 (S k + j)) /\
    (is_current hs rs xs s k -> is_current hs rs xs s' (k + n)).
Proof.
  induction n as [|n IH]; intros k s Hb Hk.
  - exists [], (set_result s false). cbn [more_results]. rewrite (MoreResults_end binary _ _ _ _ _ Hb) by lia. cbn. split_and!; try done.
    intros [? ? ? ?]. rewrite Nat.add_0_r. by split.
  - destruct (MoreResults_step binary _ _ _ _ _ Hb ltac:(lia)) as (s1 & Es & Hb1 & Hc1).
    destruct (IH (S k) s1 Hb1 ltac:(lia)) as (l & s' & Hm & Hl & Hall & Hlast). exists ((SQL_SUCCESS, s1) :: l), s'.
    change (more_results binary (S (S n)) s) with ('(rc, s1) ← MADB_StmtMoreResults c binary s; '(l, s2) ← more_results binary (S n) s1;
      Some ((rc, s1) :: l, s2)). rewrite Es. cbn [mbind option_bind]. rewrite Hm. cbn [mbind option_bind]. split_and!; [done|cbn; lia| |].
    + intros [|j] rc s2 Hj; cbn in Hj; [injection Hj as <- <-; by rewrite Nat.add_0_r|]. destruct (Hall j rc s2 Hj) as [-> Hc]. split; [done|].
      rewrite <- Nat.add_succ_comm. exact Hc.
    + intros _. replace (k + S n)%nat with (S k + n)%nat by lia. by apply Hlast.
Qed.

(** C22. After a batch of statements executed on the client side, with or without result sets,
    SQLMoreResults goes through all of them in order: each call succeeds and makes the next
    statement current, with its structure, its result, its columns in the row descriptor and its
    affected rows; the call after the last one returns SQL_NO_DATA and leaves the last one
    current.  Memory for the column arrays and descriptor records can be had. *)
Theorem MoreResults_walk binary hs rs xs s : batch_executed hs rs xs s 0 -> is_current hs rs xs s 0 ->
  exists l s', more_results binary (length xs) s = Some (l ++ [(SQL_NO_DATA, s')], s') /\ S (length l) = length xs /\
    (forall j rc s1, l !! j = Some (rc, s1) -> rc = SQL_SUCCESS /\ is_current hs rs xs s1 (S j)) /\
    is_current hs rs xs s' (length xs - 1).
Proof.
  intros Hb Hc. destruct (ic_shown _ _ _ _ _ Hc) as (x & _ & _ & Hx & _). pose proof (lookup_lt_Some _ _ _ Hx) as Hlen.
  destruct (MoreResults_from binary hs rs xs (length xs - 1) 0 s Hb ltac:(lia)) as (l & s' & Hm & Hl & Hall & Hlast). exists l, s'.
  replace (S (length xs - 1)) with (length xs) in Hm by lia. split; [exact Hm|]. split; [lia|]. split; [exact Hall|]. by apply Hlast.
Qed.

End More.

(** A DELETE of five rows and a SELECT of one column. *)
Definition batch_query : MADB_QUERY :=
  default (ParseProps.sample_query "" true) (Tokenizer.ParseQuery (ParseProps.sample_query "delete from t;select c from t" true) false).
Definition batch_handles : list MYSQL_STMT :=
  [MkHandle 5 [] 0 true 0 None; MkHandle 0 [IrdProps.sample_column] 1 true 0 (Some 1%positive)].
Definition batch_world : world :=
  MkWorld {[ 1%positive := MkDesc (MkHeader 0 1 0 0 0 0 0) MADB_DESC_IRD false [] [] calloc_error ]} {[ 1%positive := MkStmtDescs 1 1 1 1 1 1 ]} [] ∅.
Definition batch_stmt : MADB_Stmt unit :=
  MkStmt (MkParamState batch_world ∅ calloc_error []) (MkMysql 0 false true None 0 3 no_diag [] [] None tt)
    (list_to_map (zip [1%positive; 2%positive] batch_handles)) {[ 1%positive := MkRes [IrdProps.sample_column] (Some []) false ]} [] 0
    (Some 1%positive) (Some [Some 1%positive; Some 2%positive]) (Some [None; Some 1%positive]) 0 None
    batch_query 0 true true MADB_SS_EXECUTED 5 0 0 None None None false None (-1) 0 false None false.

Lemma MoreResults_walk_witness :
  exists s1 s', more_results sample_close_config (fun _ => None) 2 batch_stmt = Some ([(SQL_SUCCESS, s1); (SQL_NO_DATA, s')], s') /\
    ms_stmt s1 = Some 2%positive /\ ms_CspsResult s1 = Some 1%positive /\ ms_AffectedRows s1 = 0.
Proof.
  destruct (MoreResults_walk sample_close_config (fun _ => None) [1%positive; 2%positive] [None; Some 1%positive] batch_handles batch_stmt)
    as (l & s' & Hm & Hl & Hall & _).
  - split; try done.
    + split; [done|]. by repeat constructor.
    + by repeat constructor.
    + split; [apply not_elem_of_nil|by vm_compute; lia].
    + eexists _, _. split_and!; try reflexivity. apply IrdProps.texts_none.
  - split; try done; [by exists 1%positive|]. eexists _, _, _. split_and!; try reflexivity; [by intros j co Hj|done].
  - destruct l as [|[rc s1] [|? l]]; cbn in Hl; [lia| |lia]. exists s1, s'. destruct (Hall 0%nat rc s1 eq_refl) as [-> [_ (h & Hh & Hs) Hr (x & d & ird & Hx & _ & _ & _ & _ & Ha & _)]].
    cbn in Hh, Hr, Hx. injection Hh as <-. injection Hr as <-. injection Hx as <-. split_and!; [exact Hm|exact Hs|done|exact Ha].
Defined.

End Results.
