(* ===== verification/Prepare.v ===== *)
(** * Prepare: preparing, resetting and closing a statement

    Models, on the statement of StmtState.v, the life of a statement between executions:
    [MADB_StmtReset], [MADB_StmtPrepare], [MADB_EDPrepare], [MADB_FindCursor],
    [MADB_StmtExecDirect] and the SQL_CLOSE and SQL_DROP parts of [MADB_StmtFree] in
    [ma_statement.c], [CloseMultiStatements], [GetMultiStatements] and [EmulatedCleanup]
    in [ma_helper.c], and what they use of [mariadb_stmt.c].  The structures of the client
    library belong to client-side statements, so [prepared_on_server] is never set.
    Preparing on the server, the condition of a positioned command (StrBuild.v) and the
    generated parser of escape sequences are arguments. *)

From Stdlib Require Import ZArith Lia.
From stdpp Require Import base strings numbers option list gmap.
From S2P Require Import Prelude Decimal Charset Odbc Errors Dynamic Parse Unescape SqlTypes Desc Ird StmtAttr Params ClientLib StmtState Execute.
Import ErrorOps DescOps Ird Params Client StmtState Scan Tokenizer Unescape Execute Wide.

Definition MADB_MIN_QUERY_LEN := 5.

Module Prepare.

(** ** The client library's side of a client-side statement *)

Section Handles.
Context {A : Type} (c : stmt_config).
Implicit Types s : MADB_Stmt A.

(** [mysql_stmt_close]: with a connection [mysql_stmt_internal_reset] makes it ready,
    whatever it was doing.  Without one a structure that was used fails the assertion in
    [net_stmt_close], and there is nothing to flush from. *)
Definition mysql_stmt_close (h : option positive) s : option (MADB_Stmt A) :=
  match h with
  | None => Some s
  | Some h =>
      x ← ms_handles s !! h;
      let gone := set_handles s (delete h (ms_handles s)) in
      let m := set_diag (ms_mysql s) no_diag in
      if my_connected m then Some (set_mysql gone (set_status m MYSQL_STATUS_READY))
      else if negb (my_status m =? MYSQL_STATUS_READY) || (MYSQL_STMT_INITTED <? hs_state x) then None
      else Some (set_mysql gone m)
  end.

(** [mysql_stmt_free_result] and [mysql_stmt_reset] of a structure that was not prepared
    on the server: the first clears the connection's error, the second does nothing. *)
Definition mysql_stmt_free_result (h : option positive) s : option (MADB_Stmt A) :=
  h ← h; _ ← ms_handles s !! h; Some (set_mysql s (set_diag (ms_mysql s) no_diag)).
Definition mysql_stmt_reset (h : option positive) s : option (MADB_Stmt A) :=
  h ← h; _ ← ms_handles s !! h; Some s.

(** [MADB_STMT_CLOSE_STMT] *)
Definition MADB_STMT_CLOSE_STMT s : option (MADB_Stmt A) :=
  s1 ← mysql_stmt_close (ms_stmt s) s; Some (set_stmt s1 None).

(** [EmulatedCleanup], with the fuel of its loop. *)
Definition EmulatedCleanup (fuel : nat) (m : MYSQL A) : option (MYSQL A) :=
  m1 ← drain fuel m;
  if (my_status m1 =? MYSQL_STATUS_USE_RESULT) || (my_status m1 =? MYSQL_STATUS_GET_RESULT) || negb (Z.land (my_status m1) 8 =? 0)
  then Some (set_status (mthd_my_skip_result m1) MYSQL_STATUS_READY)
  else Some m1.

(** [MADB_CspsFreeResult(Stmt, &Stmt->CspsMultiStmtResult[i], Stmt->MultiStmts[i], TRUE)] *)
Definition free_batch_result (fuel i : nat) (h : option positive) s : option (MADB_Stmt A) :=
  if MADB_SSPS_DISABLED c s then
    rs ← ms_CspsMultiStmtResult s;
    r ← rs !! i;
    s1 ← MADB_CspsFreeResult c fuel r h true s;
    Some (set_CspsMultiStmtResult s1 (Some (<[i := None]> rs)))
  else Some s.

(** [MADB_CspsFreeResult(Stmt, &Stmt->CspsResult, Stmt->stmt, TRUE)] *)
Definition free_own_result (fuel : nat) s : option (MADB_Stmt A) :=
  s1 ← MADB_CspsFreeResult c fuel (ms_CspsResult s) (ms_stmt s) true s;
  Some (if MADB_SSPS_DISABLED c s then set_CspsResult s1 None else s1).

(** [CloseMultiStatements]: [n] statements from number [i], then the arrays. *)
Fixpoint close_batch (fuel n i : nat) s : option (MADB_Stmt A) :=
  match n with
  | O => Some s
  | S n' =>
      l ← ms_MultiStmts s;
      h ← l !! i;
      s1 ← free_batch_result fuel i h s;
      s2 ← mysql_stmt_close h s1;
      close_batch fuel n' (S i) s2
  end.

Definition CloseMultiStatements (fuel : nat) s : option (MADB_Stmt A) :=
  s1 ← close_batch fuel (STMT_COUNT (ms_Query s)) 0 s;
  Some (set_stmt (set_CspsResult (set_MultiStmts (set_CspsMultiStmtResult s1 None) None) None) None).

(** [MADB_NewStmtHandle] assigned to [Stmt->stmt]. *)
Definition new_stmt s : MADB_Stmt A := let '(h, s1) := MADB_NewStmtHandle s in set_stmt s1 h.

(** ** MADB_StmtReset *)

Definition reset_handles (fuel : nat) s : option (MADB_Stmt A) :=
  if negb (QUERY_IS_MULTISTMT (ms_Query s)) || bool_decide (ms_MultiStmts s = None) then
    s1 ← (if MADB_SS_PREPARED <? ms_State s
          then s1 ← free_own_result fuel s; mysql_stmt_free_result (ms_stmt s1) s1 else Some s);
    if MADB_SS_PREPARED <=? ms_State s1 then s2 ← MADB_STMT_CLOSE_STMT s1; Some (new_stmt s2) else Some s1
  else s1 ← CloseMultiStatements fuel s; Some (new_stmt s1).

Definition RESET_DAE s : MADB_Stmt A := set_PutParam (set_Status s 0) (-1).

(** The switch over the state, each case falling through to the next. *)
Definition reset_executed s : MADB_Stmt A := RESET_DAE (set_Lengths (set_CharOffset (set_result s false) None) None).

Definition reset_prepared s : option (MADB_Stmt A) :=
  d ← own_descs c s;
  desc ← descs (world_of s) !! Ird d;
  let hd := Header desc in
  let hd' := MkHeader (AllocType hd) (ArraySize hd) (ArrayStatusPtr hd) (BindOffsetPtr hd) (BindType hd) 0 (RowsProcessedPtr hd) in
  Some (put_world (set_PositionedCursor (set_metadata s None) None) (put_desc (world_of s) (Ird d) (with_header desc hd'))).

Definition reset_emulated (fuel : nat) s : option (MADB_Stmt A) := set_mysql s <$> EmulatedCleanup fuel (ms_mysql s).

Definition reset_rest s : MADB_Stmt A :=
  let s1 := set_State (set_ForceCsps (set_PositionedCommand s false) false) MADB_SS_INITED in
  put_error s1 (MADB_CLEAR_ERROR (error_of s1)).

Definition reset_state (fuel : nat) s : option (MADB_Stmt A) :=
  let st := ms_State s in
  let s1 := if (st =? MADB_SS_EXECUTED) || (st =? MADB_SS_OUTPARAMSFETCHED) then reset_executed s else s in
  s2 ← (if (MADB_SS_PREPARED <=? st) && (st <=? MADB_SS_OUTPARAMSFETCHED) then reset_prepared s1 else Some s1);
  s3 ← (if (MADB_SS_EMULATED <=? st) && (st <=? MADB_SS_OUTPARAMSFETCHED) then reset_emulated fuel s2 else Some s2);
  Some (reset_rest s3).

Definition MADB_StmtReset (fuel : nat) s : option (MADB_Stmt A) := s1 ← reset_handles fuel s; reset_state fuel s1.

(** ** Closing and freeing *)

(** [RESET_STMT_STATE] *)
Definition RESET_STMT_STATE s : MADB_Stmt A :=
  set_State s (if MADB_SS_EMULATED <=? ms_State s
               then if ms_State s =? MADB_SS_EMULATED then MADB_SS_EMULATED else MADB_SS_PREPARED
               else MADB_SS_INITED).

(** The loop of SQL_CLOSE over the statements of a batch. *)
Fixpoint reset_batch (fuel n i : nat) s : option (MADB_Stmt A) :=
  match n with
  | O => Some s
  | S n' =>
      l ← ms_MultiStmts s;
      h ← l !! i;
      s1 ← (match h with
            | None => Some s
            | Some _ => s1 ← free_batch_result fuel i h s; mysql_stmt_reset h s1
            end);
      reset_batch fuel n' (S i) s1
  end.

(** SQL_CLOSE of [MADB_StmtFree]. *)
Definition close_result (fuel : nat) s : option (MADB_Stmt A) :=
  s1 ← forget_columns c s;
  s2 ← (if (MADB_SS_PREPARED <? ms_State s1) && negb (QUERY_IS_MULTISTMT (ms_Query s1)) then
          s' ← free_own_result fuel s1;
          s'' ← mysql_stmt_free_result (ms_stmt s') s';
          UNLOCK <$> mysql_stmt_reset (ms_stmt s'') (LOCK s'')
        else Some s1);
  s3 ← (if QUERY_IS_MULTISTMT (ms_Query s2) && bool_decide (is_Some (ms_MultiStmts s2))
        then UNLOCK <$> reset_batch fuel (STMT_COUNT (ms_Query s2)) 0 (LOCK s2) else Some s2);
  Some (RESET_DAE (RESET_STMT_STATE (set_Lengths (set_CharOffset (set_result (set_metadata s3 None) false) None) None))).

Definition MADB_StmtFree_CLOSE (fuel : nat) s : option (Z * MADB_Stmt A) :=
  s1 ← (match ms_stmt s with Some _ => close_result fuel s | None => Some s end);
  s2 ← (if ms_State s1 =? MADB_SS_EMULATED
        then s' ← reset_emulated fuel (LOCK s1); Some (UNLOCK s') else Some s1);
  Some (SQL_SUCCESS, s2).

(** The loop of SQL_DROP over the statements of a batch, and the part of SQL_DROP
    that frees results and structures under the lock. *)
Fixpoint drop_batch (fuel n i : nat) s : option (MADB_Stmt A) :=
  match n with
  | O => Some s
  | S n' =>
      l ← ms_MultiStmts s;
      h ← l !! i;
      s1 ← (match h with
            | None => Some s
            | Some _ => s1 ← free_batch_result fuel i h s; s2 ← mysql_stmt_free_result h s1; mysql_stmt_close h s2
            end);
      drop_batch fuel n' (S i) s1
  end.

Definition drop_handles (fuel : nat) s : option (MADB_Stmt A) :=
  let s0 := LOCK s in
  s1 ← (if ms_State s0 =? MADB_SS_EMULATED then reset_emulated fuel s0 else Some s0);
  s2 ← (if QUERY_IS_MULTISTMT (ms_Query s1) && bool_decide (is_Some (ms_MultiStmts s1)) then
          s' ← drop_batch fuel (STMT_COUNT (ms_Query s1)) 0 s1;
          Some (set_MultiStmtNr (set_CspsMultiStmtResult (set_MultiStmts s' None) None) 0)
        else match ms_stmt s1 with
             | Some _ => s' ← free_own_result fuel s1; MADB_STMT_CLOSE_STMT s'
             | None => Some s1
             end);
  Some (UNLOCK (set_Query s2 (MADB_DeleteQuery (ms_Query s2)))).

(** ** The structures of a batch *)

(** The arrays have a place of the size of a MYSQL_STMT, more than 64 pointers, for
    every statement. *)
Definition place_handle (q : MADB_QUERY) (i : nat) (h : option positive) (l : list (option positive)) : option (list (option positive)) :=
  if (i <? 64 * STMT_COUNT q)%nat then Some (<[i := h]> (l ++ replicate (S i - length l) None)) else None.

(** The loop of [GetMultiStatements]: a structure for each NUL-terminated piece of the
    text.  [n] bounds the rounds. *)
Fixpoint new_handles (n i p : nat) s : option (MADB_Stmt A) :=
  match n with
  | O => None
  | S n' =>
      let q := ms_Query s in
      if Z.of_nat p <? RefinedLength q then
        let '(h, s1) := if (i =? 0)%nat then (ms_stmt s, s) else MADB_NewStmtHandle s in
        l ← ms_MultiStmts s1;
        l' ← place_handle q i h l;
        new_handles n' (S i) (p + strlen (Parse.text q) (RefinedText q + p) + 1) (set_MultiStmts s1 (Some l'))
      else Some s
  end.

(** [GetMultiStatements] for client-side statements, which cannot fail. *)
Definition GetMultiStatements s : option (MADB_Stmt A) :=
  let '(ok1, s1) := next_answer (set_MultiStmtNr s 0) in
  let '(ok2, s2) := next_answer s1 in
  let none := replicate (STMT_COUNT (ms_Query s)) None in
  new_handles (S (length (Parse.text (ms_Query s)))) 0 0
    (set_CspsMultiStmtResult (set_MultiStmts s2 (if ok1 then Some none else None)) (if ok2 then Some none else None)).

End Handles.

(** ** MADB_StmtPrepare *)

Section Prepare.
Context {A : Type} `{Server A} (c : stmt_config).
Implicit Types s : MADB_Stmt A.

(** What the definitions of other components and the server decide: the parser of escape
    sequences, the MULTI_STATEMENTS option, the names of the cursors of the connection's
    statements, the condition of a positioned command and the number of columns of its
    index, and preparing on the server. *)
Record prepare_env := MkPrepareEnv {
  pe_yyparse : MADB_Error -> list Z -> list Z + MADB_Error;
  pe_multi : bool;
  pe_cursors : list (positive * option (list Z));
  pe_where : positive -> list Z;
  pe_index : positive -> Z;
  pe_regular : MADB_Stmt A -> option (Z * MADB_Stmt A);
  pe_batch : MADB_Stmt A -> option (bool * MADB_Stmt A);
}.
Context (e : prepare_env) (fuel : nat).

(** [MADB_FindCursor] *)
Definition named_cursor (CursorName : list Z) (x : positive * option (list Z)) : bool :=
  negb (bool_decide (x.1 = sc_self c)) && match x.2 with Some n => stricmp_eq n CursorName | None => false end.

Definition MADB_FindCursor (CursorName : list Z) s : option positive * MADB_Stmt A :=
  match find (named_cursor CursorName) (pe_cursors e) with
  | Some x => (Some x.1, s)
  | None => (None, (stmt_fail s MADB_ERR_34000 None 0).2)
  end.

(** [MADB_EDPrepare] *)
Definition alloc_params (n : Z) s : MADB_Stmt A :=
  if n =? 0 then set_ParamCount s n else let '(ok, s1) := next_answer (set_ParamCount s n) in set_binds s1 ok.

Definition MADB_EDPrepare s : option (Z * MADB_Stmt A) :=
  d ← own_descs c s;
  hd ← header_of (Apd d) s;
  let idx := match ms_PositionedCursor s with Some p => if MADB_POSITIONED_COMMAND s then pe_index e p else 0 | None => 0 end in
  Some (SQL_SUCCESS, alloc_params (wraps 16 (Count hd + idx)) s).

(** The check for statements the binary protocol cannot handle. *)
Definition is_dml (t : enum_madb_query_type) : bool :=
  match t with MADB_QUERY_INSERT | MADB_QUERY_UPDATE | MADB_QUERY_DELETE => true | _ => false end.

Definition choose_protocol s : MADB_Stmt A :=
  let q := ms_Query s in
  let HasDml := existsb (fun x => is_dml (sq_QueryType x)) (SubQuery q) in
  let HasUnsupported := existsb (fun x => MADB_QueryTypeUnsupportedBySsps (sq_QueryType x)) (SubQuery q) in
  let DmlReturning := HasDml && negb (MADB_FindToken q (chars "RETURNING") =? 0)%nat in
  let s1 := if DmlReturning then set_Query s (set_returns_result q true) else s in
  if sc_FallbackCsps c && (DmlReturning || HasUnsupported) then set_ForceCsps s1 true else s1.

(** A new text for the query, tokenized again: the old query is deleted first. *)
Definition replace_query (t : list Z) s : option (MADB_Stmt A) :=
  q ← MADB_ParseQuery (Query (t ++ [0]) [] 0 (Z.of_nat (length t)) [] [] false [] false MADB_QUERY_NO_RESULT false) false;
  Some (set_Query s q).

Definition refined (q : MADB_QUERY) : list Z := cstr_at (Parse.text q) (RefinedText q).

(** WHERE CURRENT OF: [None] as code means going on. *)
Definition prepare_positioned s : option (option Z * MADB_Stmt A) :=
  match MADB_ParseCursorName (ms_Query s) with
  | None => Some (None, s)
  | Some (name, WhereOffset) =>
      let q := ms_Query s in
      let CursorName := cstr_at (Parse.text q) name in
      match QueryType q with
      | MADB_QUERY_DELETE =>
          let '(found, s1) := MADB_FindCursor CursorName (set_PositionedCommand s true) in
          let s2 := set_PositionedCursor s1 found in
          match found with
          | None => Some (Some (ReturnValue (error_of s2)), s2)
          | Some p =>
              let t := take WhereOffset (drop (RefinedText q) (Parse.text q)) ++ pe_where e p in
              if MADB_SSPS_DISABLED c s2 then s3 ← replace_query t s2; Some (None, s3)
              else Some (None, set_Query s2 (Query (Parse.text q) t (RefinedText q) (RefinedLength q) (Tokens q) (SubQuery q)
                                true (ParamPositions q) (ReturnsResult q) (QueryType q) (BatchAllowed q)))
          end
      | MADB_QUERY_UPDATE =>
          let '(rc, s1) := stmt_fail s MADB_ERR_HYC00 (Some (chars "UPDATE clause is not supported for a positioned command")) 0 in
          Some (Some rc, s1)
      | _ =>
          let '(rc, s1) := stmt_fail s MADB_ERR_42000 (Some (chars "Invalid SQL Syntax: DELETE is expected for a positioned command")) 0 in
          Some (Some rc, s1)
      end
  end.

(** The SELECT that keeps to the maximal number of rows. *)
Definition limit_rows s : option (MADB_Stmt A) :=
  let q := ms_Query s in
  let n := length (Tokens q) in
  if negb (MaxRows (sc_Options c) =? 0) && bool_decide (QueryType q = MADB_QUERY_SELECT) then
    let limit := chars ") LIMIT " ++ dec (wraps 64 (MaxRows (sc_Options c))) in
    let for_update :=
      if (2 <=? n)%nat && bool_decide (is_Some (MADB_CompareToken q (n - 1) (chars "UPDATE") 6))
      then MADB_CompareToken q (n - 2) (chars "FOR") 3 else None in
    let t := match for_update with
             | Some off => chars "SELECT * FROM (" ++ take off (refined q) ++ limit ++ chars " FOR UPDATE"
             | None => chars "SELECT * FROM (" ++ refined q ++ limit
             end in
    let '(ok, s1) := next_answer s in
    if (ok : bool) then replace_query t s1 else None
  else Some s.

(** What is done without the lock, after the checks for batches. *)
Definition prepare_single s : option (Z * MADB_Stmt A) :=
  if negb (MADB_ValidateStmt (ms_Query s)) then
    Some (stmt_fail s MADB_ERR_HY000 (Some (chars "SQL command SET NAMES is not allowed")) 0)
  else
    '(rc, s1) ← prepare_positioned s;
    match rc with
    | Some rc => Some (rc, s1)
    | None =>
        s2 ← limit_rows s1;
        let q := ms_Query s2 in
        if negb (ReturnsResult q) && negb (HasParameters q) && negb (QUERY_IS_MULTISTMT q && negb (BatchAllowed q)) then
          Some (SQL_SUCCESS, set_State s2 MADB_SS_EMULATED)
        else if MADB_SSPS_DISABLED c s2 then
          Some (SQL_SUCCESS, set_State (alloc_params (wraps 16 (Z.of_nat (length (ParamPositions q)))) s2) MADB_SS_PREPARED)
        else pe_regular e s2
    end.

(** A batch whose statements are prepared one by one. *)
Definition is_batch (q : MADB_QUERY) : bool :=
  QueryIsPossiblyMultistmt (QueryType q) && QUERY_IS_MULTISTMT q && (ReturnsResult q || HasParameters q) && BatchAllowed q.

Definition MADB_StmtPrepare (StatementText : option (list Z)) (TextLength : Z) (ExecDirect : bool) s : option (Z * MADB_Stmt A) :=
  s1 ← MADB_StmtReset c fuel (LOCK s);
  let len := match StatementText with Some b => SafeStrlen b TextLength | None => 0 end in
  if len <? MADB_MIN_QUERY_LEN then Some (stmt_fail s1 MADB_ERR_42000 None 0)
  else
    parsed ← MADB_ResetParser (pe_yyparse e) (pe_multi e) (error_of s1) (ms_Query s1) StatementText (Z.to_nat len);
    match parsed with
    | inr E =>
        let q0 := MADB_DeleteQuery (ms_Query s1) in
        Some (ReturnValue E, set_Query (put_error s1 E)
               (Query (Parse.text q0) (Original q0) (RefinedText q0) (RefinedLength q0) (Tokens q0) (SubQuery q0) (HasParameters q0)
                  (ParamPositions q0) (ReturnsResult q0) (QueryType q0) (pe_multi e)))
    | inl q0 =>
        q ← MADB_ParseQuery q0 (sc_RewriteCallSP c);
        let s2 := choose_protocol (set_Query s1 q) in
        if QUERY_IS_MULTISTMT (ms_Query s2) && STMT_NO_CACHE c then
          Some (stmt_fail s2 MADB_ERR_HY000
                 (Some (chars "Execution of the multi-statement is not supported with Forward-Only cursor and NO_CACHE option enabled")) 0)
        else if is_batch (ms_Query s2) then
          if MADB_SSPS_ENABLED c s2 && ExecDirect then MADB_EDPrepare s2
          else if MADB_SSPS_DISABLED c s2 then s3 ← GetMultiStatements s2; Some (SQL_SUCCESS, UNLOCK s3)
          else
            '(failed, s3) ← pe_batch e s2;
            if (failed : bool) then Some (ReturnValue (error_of s3), s3) else Some (SQL_SUCCESS, UNLOCK s3)
        else prepare_single (UNLOCK s2)
    end.

(** ** MADB_StmtExecDirect *)

Definition MADB_StmtExecDirect (positioned binary : MADB_Stmt A -> option (Z * MADB_Stmt A)) (StatementText : option (list Z)) (TextLength : Z) s
    : option (Z * MADB_Stmt A) :=
  '(ret, s1) ← MADB_StmtPrepare StatementText TextLength true s;
  let native := NativeError (error_of s1) in
  if negb (SQL_SUCCEEDED ret) && negb ((native =? 1295) || (native =? 1064)) then Some (ret, s1)
  else
    let s2 := if SQL_SUCCEEDED ret then s1 else set_State s1 MADB_SS_EMULATED in
    let ExecDirect := negb (QUERY_IS_MULTISTMT (ms_Query s2)) in
    '(ret2, s3) ← MADB_StmtExecute c positioned binary s2;
    if SQL_SUCCEEDED ret2 then Some (ret2, s3)
    else if NativeError (error_of s3) =? 1295 then
      '(_, s4) ← MADB_StmtPrepare StatementText TextLength ExecDirect s3;
      MADB_StmtExecute c positioned binary (set_State s4 MADB_SS_EMULATED)
    else MADB_StmtExecute c positioned binary s3.

End Prepare.
End Prepare.
