(* ===== verification/Lifecycle.v ===== *)
(** * Lifecycle: properties of preparing, executing and closing statements

    The lock of the connection, the ownership of the structures and results of the client
    library, and the composition of preparing with executing (Prepare.v, Execute.v). *)

From Stdlib Require Import ZArith Lia.
From stdpp Require Import base strings numbers option list gmap sets.
From S2P Require Import Prelude Decimal Charset Odbc Errors Dynamic Parse Unescape SqlTypes Desc Ird StmtAttr Params ClientLib StmtState Execute Prepare.
Import ErrorOps DescOps Ird Params Client StmtState Scan Tokenizer Unescape Execute Wide Prepare.

Module Lifecycle.

(** Takes a successful chain of binds apart. *)
Ltac binds :=
  repeat match goal with
  | H : context [let '(_, _) := ?x in _] |- _ => let E := fresh "E" in destruct x eqn:E
  | H : _ ≫= _ = Some _ |- _ => let x := fresh "x" in let E := fresh "E" in apply bind_Some in H as (x & E & H)
  | H : _ <$> _ = Some _ |- _ => let x := fresh "x" in let E := fresh "E" in apply fmap_Some in H as (x & E & ->)
  | H : Some _ = Some _ |- _ => injection H as H; subst
  | H : (_, _) = (_, _) |- _ => injection H as ? ?; subst
  | H : None = Some _ |- _ => discriminate H
  end.

(** ** The lock *)

Section Lock.
Context {A : Type} (c : stmt_config).
Implicit Types s : MADB_Stmt A.

(** What closing and resetting leave alone. *)
Record keeps s s' : Prop := {
  kp_locks : ms_locks s' = ms_locks s;
  kp_sent : ms_sent s' = ms_sent s;
  kp_query : ms_Query s' = ms_Query s;
  kp_memory : memory_of s' = memory_of s;
  kp_force : ms_ForceCsps s' = ms_ForceCsps s;
  kp_state : ms_State s' = ms_State s;
}.

Lemma keeps_refl s : keeps s s.
Proof. by split. Qed.
Lemma keeps_trans s1 s2 s3 : keeps s1 s2 -> keeps s2 s3 -> keeps s1 s3.
Proof. intros [] []. split; congruence. Qed.

Lemma next_answer_keeps s ok s' : next_answer s = (ok, s') -> keeps s s'.
Proof. unfold next_answer, answer. destruct (pm_answers (ms_params s)); intros [= <- <-]; by split. Qed.

Lemma NewStmtHandle_keeps s h s' : MADB_NewStmtHandle s = (h, s') -> keeps s s'.
Proof.
  unfold MADB_NewStmtHandle. destruct (next_answer s) as [ok s1] eqn:E. apply next_answer_keeps in E.
  destruct ok; intros [= <- <-]; (eapply keeps_trans; [exact E|by split]).
Qed.

Lemma new_stmt_keeps s : keeps s (new_stmt s).
Proof.
  unfold new_stmt. destruct (MADB_NewStmtHandle s) as [h s1] eqn:E. apply NewStmtHandle_keeps in E.
  eapply keeps_trans; [exact E|by split].
Qed.

Lemma CspsFreeResult_keeps fuel r h b s s' : MADB_CspsFreeResult c fuel r h b s = Some s' -> keeps s s'.
Proof.
  unfold MADB_CspsFreeResult. destruct (MADB_SSPS_DISABLED c s); [|by intros [= <-]]. destruct r as [r|]; [|by intros [= <-]].
  destruct h as [h|]; cbn; [|intros H; binds; by split]. intros H. binds. destruct b; binds; by split.
Qed.

Lemma stmt_close_keeps h s s' : mysql_stmt_close h s = Some s' -> keeps s s'.
Proof.
  unfold mysql_stmt_close. destruct h; [|by intros [= <-]]. intros H. binds. cbv zeta in H.
  destruct (my_connected _); [binds; by split|]. destruct (_ || _); binds. by split.
Qed.

Lemma free_batch_keeps fuel i h s s' : free_batch_result c fuel i h s = Some s' -> keeps s s'.
Proof.
  unfold free_batch_result. destruct (MADB_SSPS_DISABLED c s); [|by intros [= <-]]. intros H. binds.
  match goal with E : MADB_CspsFreeResult _ _ _ _ _ _ = _ |- _ => apply CspsFreeResult_keeps in E as [] end. by split.
Qed.

Lemma close_batch_keeps fuel n : forall i s s', close_batch c fuel n i s = Some s' -> keeps s s'.
Proof.
  induction n as [|n IH]; intros i s s' H; cbn in H; [by injection H as <-|]. binds.
  match goal with E : free_batch_result _ _ _ _ _ = _ |- _ => apply free_batch_keeps in E end.
  match goal with E : mysql_stmt_close _ _ = _ |- _ => apply stmt_close_keeps in E end.
  eauto using keeps_trans.
Qed.

Lemma reset_handles_keeps fuel s s' : reset_handles c fuel s = Some s' -> keeps s s'.
Proof.
  unfold reset_handles. destruct (_ || _).
  - intros H. binds. assert (keeps s x) as Hx.
    { destruct (_ <? _); [|by binds]. unfold free_own_result, mysql_stmt_free_result in E. binds.
      match goal with E : MADB_CspsFreeResult _ _ _ _ _ _ = _ |- _ => apply CspsFreeResult_keeps in E as [] end.
      destruct (MADB_SSPS_DISABLED c s); by split. }
    destruct (_ <=? _); binds; [|done]. unfold MADB_STMT_CLOSE_STMT in E0. binds.
    eapply keeps_trans; [exact Hx|]. eapply keeps_trans; [|apply new_stmt_keeps]. apply stmt_close_keeps in E1 as []. by split.
  - intros H. binds. unfold CloseMultiStatements in E. binds. apply close_batch_keeps in E0.
    eapply keeps_trans; [exact E0|]. eapply keeps_trans; [|apply new_stmt_keeps]. by split.
Qed.

Definition quiet s s' : Prop := ms_locks s' = ms_locks s /\ ms_sent s' = ms_sent s /\ memory_of s' = memory_of s.

Lemma reset_state_quiet fuel s s' : reset_state c fuel s = Some s' ->
  quiet s s' /\ ms_Query s' = ms_Query s /\ ms_ForceCsps s' = false /\ ms_State s' = MADB_SS_INITED.
Proof.
  unfold reset_state. intros H. binds.
  assert (quiet s x /\ ms_Query x = ms_Query s) as [Hx Hq].
  { destruct (_ && _) in E; [unfold reset_prepared in E; binds|injection E as <-]; by destruct (_ || _). }
  assert (quiet x x0 /\ ms_Query x0 = ms_Query x) as [Hx0 Hq0].
  { destruct (_ && _) in E0; [unfold reset_emulated in E0; binds|injection E0 as <-]; done. }
  destruct Hx as (? & ? & ?), Hx0 as (? & ? & ?). unfold reset_rest, quiet. cbn. unfold memory_of in *. cbn. split_and!; congruence.
Qed.

Lemma StmtReset_quiet fuel s s' : MADB_StmtReset c fuel s = Some s' ->
  quiet s s' /\ ms_Query s' = ms_Query s /\ ms_ForceCsps s' = false /\ ms_State s' = MADB_SS_INITED.
Proof.
  unfold MADB_StmtReset. intros H. binds. apply reset_handles_keeps in E as []. apply reset_state_quiet in H as ((? & ? & ?) & ? & ? & ?).
  unfold quiet. split_and!; congruence.
Qed.

Lemma new_handles_keeps n : forall i p s s', new_handles n i p s = Some s' -> keeps s s'.
Proof.
  induction n as [|n IH]; intros i p s s' H; cbn [new_handles] in H; [done|]. destruct (_ <? _); [|by injection H as <-].
  destruct (if (i =? 0)%nat then _ else _) as [h s1] eqn:Eh. assert (keeps s s1) as Hk.
  { destruct (i =? 0)%nat; [injection Eh as <- <-; by split|by eapply NewStmtHandle_keeps]. }
  binds. apply IH in H. eapply keeps_trans; [exact Hk|]. eapply keeps_trans; [|exact H]. by split.
Qed.

Lemma GetMultiStatements_keeps s s' : GetMultiStatements s = Some s' -> keeps s s'.
Proof.
  unfold GetMultiStatements. intros H. destruct (next_answer (set_MultiStmtNr s 0)) as [ok1 s1] eqn:E1. destruct (next_answer s1) as [ok2 s2] eqn:E2.
  apply next_answer_keeps in E1, E2. apply new_handles_keeps in H.
  eapply keeps_trans; [|eapply keeps_trans; [exact E1|eapply keeps_trans; [exact E2|eapply keeps_trans; [|exact H]]]]; by split.
Qed.

End Lock.

Section PrepareLock.
Context {A : Type} (c : stmt_config) (e : @prepare_env A) (fuel : nat).
Implicit Types s : MADB_Stmt A.

Lemma replace_query_quiet t s s' : replace_query t s = Some s' -> quiet s s' /\ ms_ForceCsps s' = ms_ForceCsps s.
Proof. unfold replace_query. intros H. binds. done. Qed.

Lemma alloc_params_quiet n s : quiet s (alloc_params n s) /\ ms_ForceCsps (alloc_params n s) = ms_ForceCsps s.
Proof.
  unfold alloc_params. destruct (_ =? _); [done|]. destruct (next_answer _) as [ok s1] eqn:E. by apply next_answer_keeps in E as [].
Qed.

Lemma limit_rows_quiet s s' : limit_rows c s = Some s' -> quiet s s' /\ ms_ForceCsps s' = ms_ForceCsps s.
Proof.
  unfold limit_rows. destruct (_ && _); [|by intros [= <-]]. cbv zeta. destruct (next_answer s) as [ok s1] eqn:E. apply next_answer_keeps in E as [].
  destruct ok; [|done]. intros H. apply replace_query_quiet in H as [(? & ? & ?) ?]. unfold quiet. split_and!; congruence.
Qed.

Lemma prepare_positioned_quiet s rc s' : prepare_positioned c e s = Some (rc, s') -> quiet s s' /\ ms_ForceCsps s' = ms_ForceCsps s.
Proof.
  unfold prepare_positioned. destruct (MADB_ParseCursorName _) as [[name off]|]; [|by intros [= <- <-]].
  destruct (QueryType _); cbn; intros H; binds; try done. unfold MADB_FindCursor in *. destruct (find _ _); binds; [|done].
  cbn in H. destruct (MADB_SSPS_DISABLED _ _); binds; [|done]. by apply replace_query_quiet in E.
Qed.

Hypothesis (Hcsps : sc_NoSsps c = true).

Lemma ssps_disabled s : MADB_SSPS_DISABLED c s = true.
Proof using Hcsps. unfold MADB_SSPS_DISABLED, MADB_SSPS_ENABLED. by rewrite Hcsps. Qed.
Lemma ssps_enabled s : MADB_SSPS_ENABLED c s = false.
Proof using Hcsps. unfold MADB_SSPS_ENABLED. by rewrite Hcsps. Qed.

Lemma prepare_single_quiet s rc s' : prepare_single c e s = Some (rc, s') -> quiet s s'.
Proof using Hcsps.
  unfold prepare_single. destruct (negb _); [by intros [= <- <-]|]. intros H. binds. apply prepare_positioned_quiet in E as [(Q1 & Q2 & Q3) _].
  match type of H with match ?o with _ => _ end = _ => destruct o end; [by binds|]. binds. apply limit_rows_quiet in E as [(Q4 & Q5 & Q6) _].
  cbv zeta in H. rewrite ssps_disabled in H. destruct (_ && _) in H; binds; unfold quiet; [unfold memory_of in *; cbn; split_and!; congruence|].
  match goal with |- context [alloc_params ?n ?t] => destruct (alloc_params_quiet n t) as [(Q7 & Q8 & Q9) _] end.
  unfold quiet, memory_of in *. cbn in *. split_and!; congruence.
Qed.

(** The calls of SQLPrepare that leave without releasing the lock: a text that is too
    short, an escape sequence that cannot be parsed, a batch without a cached result. *)
Definition text_length (StatementText : option (list Z)) (TextLength : Z) : Z :=
  match StatementText with Some b => SafeStrlen b TextLength | None => 0 end.

Definition abandoned (E : MADB_Error) (StatementText : option (list Z)) (TextLength : Z) : bool :=
  (text_length StatementText TextLength <? MADB_MIN_QUERY_LEN) ||
  match MADB_ResetParser (pe_yyparse e) (pe_multi e) E empty_query StatementText (Z.to_nat (text_length StatementText TextLength)) with
  | Some (inr _) => true
  | Some (inl q0) =>
      match MADB_ParseQuery q0 (sc_RewriteCallSP c) with
      | Some q => QUERY_IS_MULTISTMT q && STMT_NO_CACHE c
      | None => false
      end
  | None => false
  end.

Lemma reset_parser_query yyparse multi E q T n : MADB_ResetParser yyparse multi E empty_query T n = MADB_ResetParser yyparse multi E q T n.
Proof. done. Qed.

Lemma stmt_fail_quiet s code msg native rc s' : stmt_fail s code msg native = (rc, s') -> quiet s s'.
Proof. unfold stmt_fail. intros [= <- <-]. done. Qed.

Lemma unlock_quiet s : ms_locks (UNLOCK s) = ms_locks s - 1 /\ ms_sent (UNLOCK s) = ms_sent s /\ memory_of (UNLOCK s) = memory_of s.
Proof. done. Qed.

Lemma batch_quiet ExecDirect s rc s' :
  (if MADB_SSPS_ENABLED c s && ExecDirect then MADB_EDPrepare c e s
   else if MADB_SSPS_DISABLED c s then s3 ← GetMultiStatements s; Some (SQL_SUCCESS, UNLOCK s3)
   else '(failed, s3) ← pe_batch e s; if (failed : bool) then Some (ReturnValue (error_of s3), s3) else Some (SQL_SUCCESS, UNLOCK s3))
  = Some (rc, s') ->
  ms_locks s' = ms_locks s - 1 /\ ms_sent s' = ms_sent s /\ memory_of s' = memory_of s.
Proof using Hcsps.
  rewrite ssps_enabled, ssps_disabled. cbn [andb]. intros H. apply bind_Some in H as (s3 & E & H).
  apply GetMultiStatements_keeps in E as [K1 K2 _ K4 _ _]. apply (inj Some) in H. injection H as _ <-.
  destruct (unlock_quiet s3) as (U1 & U2 & U3). split_and!; congruence.
Qed.

Lemma choose_protocol_quiet s : quiet s (choose_protocol c s) /\ SubQuery (ms_Query (choose_protocol c s)) = SubQuery (ms_Query s).
Proof. unfold choose_protocol. cbv zeta. destruct (_ && _), (_ && _); done. Qed.

(** C25. MADB_StmtPrepare returns with the lock as it was taken, except when it returns early:
    then the lock of the connection stays held by this thread, exactly in the three cases of
    [abandoned].  Nothing is sent, and the memory of the application is not written. *)
Theorem Prepare_lock StatementText TextLength ExecDirect s rc s' :
  MADB_StmtPrepare c e fuel StatementText TextLength ExecDirect s = Some (rc, s') ->
  exists E, ms_locks s' = ms_locks s + Z.b2z (abandoned E StatementText TextLength) /\
    ms_sent s' = ms_sent s /\ memory_of s' = memory_of s.
Proof using Hcsps.
  unfold MADB_StmtPrepare, abandoned. fold (text_length StatementText TextLength). intros H. binds.
  apply StmtReset_quiet in E as ((R1 & R2 & R3) & _). exists (error_of x). cbv zeta in H.
  change (ms_locks (LOCK s)) with (ms_locks s + 1) in R1. change (ms_sent (LOCK s)) with (ms_sent s) in R2.
  change (memory_of (LOCK s)) with (memory_of s) in R3. remember (text_length StatementText TextLength) as len eqn:Elen. clear Elen.
  destruct (len <? MADB_MIN_QUERY_LEN); [apply (inj Some) in H; apply stmt_fail_quiet in H as (? & ? & ?); cbn [orb Z.b2z]; split_and!; congruence|].
  cbn [orb]. binds. rewrite (reset_parser_query _ _ _ (ms_Query x)), E.
  destruct x0 as [q0|E0]; [|injection H as <- <-; cbn [Z.b2z]; exact (conj R1 (conj R2 R3))]. binds. rewrite E0.
  destruct (choose_protocol_quiet (set_Query x x0)) as [(C1 & C2 & C3) C4]. remember (choose_protocol c (set_Query x x0)) as s2 eqn:Es2. clear Es2.
  replace (QUERY_IS_MULTISTMT (ms_Query s2)) with (QUERY_IS_MULTISTMT x0) in H by (unfold QUERY_IS_MULTISTMT, STMT_COUNT; by rewrite C4).
  change (ms_locks (set_Query x x0)) with (ms_locks x) in C1. change (ms_sent (set_Query x x0)) with (ms_sent x) in C2.
  change (memory_of (set_Query x x0)) with (memory_of x) in C3. destruct (QUERY_IS_MULTISTMT x0 && STMT_NO_CACHE c).
  { apply (inj Some) in H. apply stmt_fail_quiet in H as (? & ? & ?). cbn [Z.b2z]. split_and!; congruence. }
  cbn [Z.b2z]. rewrite Z.add_0_r. destruct (is_batch _).
  - destruct (batch_quiet _ _ _ _ H) as (B1 & B2 & B3). split_and!; [lia|congruence..].
  - destruct (prepare_single_quiet _ _ _ H) as (P1 & P2 & P3). destruct (unlock_quiet s2) as (U1 & U2 & U3). split_and!; [lia|congruence..].
Qed.

End PrepareLock.

(** ** Direct execution *)

Section Direct.
Context {A : Type} `{Server A} (c : stmt_config) (e : @prepare_env A) (fuel : nat).
Implicit Types s : MADB_Stmt A.

Definition code_of (failed : bool) : Z := if failed then SQL_ERROR else SQL_SUCCESS.

(** Executing a statement that was not prepared sends its text, whatever came before. *)
Lemma emulated_execute positioned binary s failed m : ms_State s = MADB_SS_EMULATED ->
  mysql_real_query (Original (ms_Query s)) (ms_mysql s) = (failed, m) ->
  exists s', MADB_StmtExecute c positioned binary s = Some (code_of failed, s') /\
    ms_sent s' = ms_sent s ++ [Original (ms_Query s)] /\ ms_mysql s' = m /\ ms_State s' = MADB_SS_EMULATED /\
    ms_Query s' = ms_Query s /\ ms_locks s' = ms_locks s /\
    (failed = true -> NativeError (error_of s') = n_errno (my_diag m)).
Proof.
  intros Hs Hq. unfold MADB_StmtExecute. cbv zeta. change (ms_State (put_error s _)) with (ms_State s). rewrite Hs. cbn [Z.eqb MADB_SS_EMULATED Pos.eqb].
  unfold MADB_ExecuteQuery, send. change (ms_mysql (LOCK _)) with (ms_mysql s). change (Original _) with (Original (ms_Query s)) at 1. rewrite Hq.
  destruct failed; cbn [fst snd native_fail]; eexists; (split; [reflexivity|]); split_and!; try done; cbn; lia.
Qed.

(** C26. SQLExecDirect of a statement without parameters and results (DDL, INSERT, UPDATE and
    so on with literals) sends the text once when it succeeds.  When the server refuses it,
    for any reason but that it cannot be prepared, the same text is sent a second time. *)
Theorem ExecDirect_repeats positioned binary StatementText TextLength s s1 failed m1 :
  MADB_StmtPrepare c e fuel StatementText TextLength true s = Some (SQL_SUCCESS, s1) -> ms_State s1 = MADB_SS_EMULATED ->
  let t := Original (ms_Query s1) in
  mysql_real_query t (ms_mysql s1) = (failed, m1) -> n_errno (my_diag m1) <> 1295 ->
  exists s', MADB_StmtExecDirect c e fuel positioned binary StatementText TextLength s =
      Some (code_of (failed && (mysql_real_query t m1).1), s') /\
    ms_sent s' = ms_sent s1 ++ (if failed then [t; t] else [t]) /\
    ms_mysql s' = (if failed then (mysql_real_query t m1).2 else m1) /\ ms_locks s' = ms_locks s1.
Proof.
  intros Hp Hs t Hq Hne. unfold MADB_StmtExecDirect. rewrite Hp. cbn [mbind option_bind]. change (SQL_SUCCEEDED SQL_SUCCESS) with true. cbn [negb andb].
  destruct (emulated_execute positioned binary s1 failed m1 Hs Hq) as (s2 & E2 & S2 & M2 & St2 & Q2 & L2 & N2). rewrite E2. cbn [mbind option_bind].
  destruct failed; cbn [code_of]; [|change (SQL_SUCCEEDED SQL_SUCCESS) with true; exists s2; by rewrite andb_false_l].
  change (SQL_SUCCEEDED SQL_ERROR) with false. cbv iota. rewrite N2, (proj2 (Z.eqb_neq _ _) Hne) by done. cbn [andb].
  destruct (mysql_real_query t m1) as [failed2 m2] eqn:Eq2.
  destruct (emulated_execute positioned binary s2 failed2 m2 St2) as (s3 & E3 & S3 & M3 & _ & _ & L3 & _); [rewrite Q2, M2; exact Eq2|].
  exists s3. split_and!; [exact E3|by rewrite S3, S2, Q2, <- app_assoc|exact M3|congruence].
Qed.

End Direct.

(** ** Ownership *)

Section Owned.
Context {A : Type} (c : stmt_config).
Hypothesis (Hcsps : sc_NoSsps c = true).
Implicit Types s : MADB_Stmt A.

(** The connection is alive and no further answer is waiting. *)
Definition calm s : Prop := my_connected (ms_mysql s) = true /\ my_more (ms_mysql s) = false.

(** The live structures are those of [hs] and the live results those of [rs], each once. *)
Record live s (hs rs : list positive) : Prop := {
  lv_handles : dom (ms_handles s) = list_to_set (C := gset positive) hs;
  lv_results : dom (ms_results s) = list_to_set (C := gset positive) rs;
  lv_handles_once : NoDup hs;
  lv_results_once : NoDup rs;
}.

(** A result has a structure. *)
Definition placed (l rs : list (option positive)) : Prop := forall i h r, l !! i = Some h -> rs !! i = Some r -> is_Some r -> is_Some h.

(** What a statement owns between two calls: its structure and result, or those of the
    statements of its batch.  [lost] are structures no pointer leads to any more; a batch
    has a structure for each piece of its text, possibly more than it counts statements. *)
Definition owned (lost : list positive) s : Prop :=
  match ms_MultiStmts s with
  | None => live s (option_list (ms_stmt s) ++ lost) (option_list (ms_CspsResult s))
  | Some l =>
      exists rs, ms_CspsMultiStmtResult s = Some rs /\ length rs = STMT_COUNT (ms_Query s) /\ (length rs <= length l)%nat /\
        QUERY_IS_MULTISTMT (ms_Query s) = true /\ placed l rs /\ live s (omap id l ++ lost) (omap id rs)
  end.

(** The structures of a batch that are not counted. *)
Definition surplus s : list positive :=
  match ms_MultiStmts s with None => [] | Some l => omap id (drop (STMT_COUNT (ms_Query s)) l) end.

Lemma drain_calm fuel (m : MYSQL A) : my_more m = false -> drain (S fuel) m = Some m.
Proof. intros Hm. cbn. unfold mysql_more_results. by rewrite Hm. Qed.

Lemma free_result_calm res (m : MYSQL A) : my_connected m = true -> my_more m = false ->
  my_connected (mysql_free_result res m) = true /\ my_more (mysql_free_result res m) = false.
Proof.
  intros H1 H2. destruct res as [r|]; [|done]. cbn. destruct (_ && _); [|done]. unfold mthd_my_skip_result. by destruct (my_broken m).
Qed.

(** Freeing a result that is live, or none. *)
Lemma CspsFreeResult_live fuel r h s : calm s -> (forall k, r = Some k -> is_Some (ms_results s !! k)) ->
  (forall k, h = Some k -> is_Some (ms_handles s !! k)) ->
  exists hs m, MADB_CspsFreeResult c (S fuel) r h true s =
      Some (set_results (set_mysql (set_handles s hs) m) (match r with Some k => delete k (ms_results s) | None => ms_results s end)) /\
    dom hs = dom (ms_handles s) /\ my_connected m = true /\ my_more m = false.
Proof using Hcsps.
  intros [Hc Hm] Hr Hh. unfold MADB_CspsFreeResult. rewrite ssps_disabled by done. destruct r as [k|].
  2: { exists (ms_handles s), (ms_mysql s). by destruct s. }
  destruct (Hr k eq_refl) as [res Eres]. destruct h as [h|].
  - destruct (Hh h eq_refl) as [x Ex]. rewrite Ex. cbn [mbind option_bind]. change (ms_mysql (put_handle s h (clear_result x))) with (ms_mysql s).
    rewrite drain_calm by done. cbn [fmap option_fmap option_map mbind option_bind]. change (ms_results (set_mysql _ _)) with (ms_results s). rewrite Eres.
    cbn [mbind option_bind]. destruct (free_result_calm (Some res) (ms_mysql s) Hc Hm). eexists _, _. split; [reflexivity|]. split_and!; [|done..].
    apply dom_insert_lookup_L. by eexists.
  - cbn [mbind option_bind]. rewrite Eres. cbn [mbind option_bind]. destruct (free_result_calm (Some res) (ms_mysql s) Hc Hm).
    exists (ms_handles s). eexists. split; [by destruct s|]. done.
Qed.

Lemma stmt_close_live h s : calm s -> (forall k, h = Some k -> is_Some (ms_handles s !! k)) ->
  exists m, mysql_stmt_close h s = Some (set_mysql (set_handles s (match h with Some k => delete k (ms_handles s) | None => ms_handles s end)) m) /\
    my_connected m = true /\ my_more m = false.
Proof.
  intros [Hc Hm] Hh. unfold mysql_stmt_close. destruct h as [h|]; [|exists (ms_mysql s); by destruct s].
  destruct (Hh h eq_refl) as [x Ex]. rewrite Ex. cbn [mbind option_bind]. change (my_connected (set_diag (ms_mysql s) no_diag)) with (my_connected (ms_mysql s)).
  rewrite Hc. by eexists.
Qed.

Lemma live_delete_result s hs rs k m hs' : live s hs (k :: rs) -> dom hs' = dom (ms_handles s) ->
  live (set_results (set_mysql (set_handles s hs') m) (delete k (ms_results s))) hs rs.
Proof.
  intros [H1 H2 H3 H4] Hd. apply NoDup_cons in H4 as [H4 H5]. split; cbn; [congruence| |done..]. rewrite dom_delete_L, H2. set_solver.
Qed.

Lemma live_delete_handle s hs rs k m : live s (k :: hs) rs -> live (set_mysql (set_handles s (delete k (ms_handles s))) m) hs rs.
Proof.
  intros [H1 H2 H3 H4]. apply NoDup_cons in H3 as [H3 H5]. split; cbn; [|done..]. rewrite dom_delete_L, H1. set_solver.
Qed.

(** The arrays of the batch, and the fields that show where a statement is. *)
Record same_batch s s' : Prop := {
  sb_keeps : keeps s s';
  sb_multi : ms_MultiStmts s' = ms_MultiStmts s;
  sb_stmt : ms_stmt s' = ms_stmt s;
  sb_world : world_of s' = world_of s;
  sb_answers : pm_answers (ms_params s') = pm_answers (ms_params s);
}.

Lemma same_batch_refl s : same_batch s s.
Proof. split; [apply keeps_refl|done..]. Qed.
Lemma same_batch_trans s1 s2 s3 : same_batch s1 s2 -> same_batch s2 s3 -> same_batch s1 s3.
Proof. intros [] []. split; [by eapply keeps_trans|congruence..]. Qed.

Lemma live_handle s hs rs (h : option positive) : live s (option_list h ++ hs) rs -> forall k, h = Some k -> is_Some (ms_handles s !! k).
Proof. intros [H _ _ _] k ->. apply elem_of_dom. rewrite H. set_solver. Qed.
Lemma live_result s hs rs (r : option positive) : live s hs (option_list r ++ rs) -> forall k, r = Some k -> is_Some (ms_results s !! k).
Proof. intros [_ H _ _] k ->. apply elem_of_dom. rewrite H. set_solver. Qed.

Lemma free_batch_live fuel i h r hs rl rs s : calm s -> ms_CspsMultiStmtResult s = Some rs -> rs !! i = Some r ->
  live s (option_list h ++ hs) (option_list r ++ rl) ->
  exists s1, free_batch_result c (S fuel) i h s = Some s1 /\ calm s1 /\ live s1 (option_list h ++ hs) rl /\
    ms_CspsMultiStmtResult s1 = Some (<[i := None]> rs) /\ same_batch s s1.
Proof using Hcsps.
  intros Hc Hrs Hi Hl. unfold free_batch_result. rewrite ssps_disabled, Hrs by done. cbn [mbind option_bind]. rewrite Hi. cbn [mbind option_bind].
  destruct (CspsFreeResult_live fuel r h s Hc (live_result _ _ _ _ Hl) (live_handle _ _ _ _ Hl)) as (hs' & m & -> & Hd & C1 & C2).
  cbn [mbind option_bind]. eexists. split; [reflexivity|]. split; [by split|]. split; [|split; [done|(split; [by split|done..])]].
  destruct r as [k|]; [|destruct Hl; split; cbn; congruence || done].
  destruct (live_delete_result _ _ _ _ m hs' Hl Hd). by split.
Qed.

Lemma close_handle_live h hs rl s : calm s -> live s (option_list h ++ hs) rl ->
  exists s1, mysql_stmt_close h s = Some s1 /\ calm s1 /\ live s1 hs rl /\
    ms_CspsMultiStmtResult s1 = ms_CspsMultiStmtResult s /\ same_batch s s1.
Proof.
  intros Hc Hl. destruct (stmt_close_live h s Hc (live_handle _ _ _ _ Hl)) as (m & -> & C1 & C2). eexists. split; [reflexivity|].
  split; [by split|]. split; [|split; [done|(split; [by split|done..])]]. destruct h as [k|]; [|destruct Hl; by split]. by apply live_delete_handle.
Qed.

Lemma omap_id_drop (l : list (option positive)) i h : l !! i = Some h -> omap id (drop i l) = option_list h ++ omap id (drop (S i) l).
Proof. intros Hi. rewrite (drop_S _ _ _ Hi). by destruct h. Qed.

Lemma free_result_handle h s : is_Some h -> (forall k, h = Some k -> is_Some (ms_handles s !! k)) ->
  mysql_stmt_free_result h s = Some (set_mysql s (set_diag (ms_mysql s) no_diag)) /\ mysql_stmt_reset h s = Some s.
Proof. intros [k ->] Hk. destruct (Hk k eq_refl) as [x Hx]. unfold mysql_stmt_free_result, mysql_stmt_reset. cbn. by rewrite Hx. Qed.

Lemma placed_insert l rs i : placed l rs -> placed l (<[i := None]> rs).
Proof.
  intros H j h r Hh Hr. destruct (decide (j = i)) as [->|Hne]; [|rewrite list_lookup_insert_ne in Hr by done; by apply (H j)].
  apply list_lookup_insert_Some in Hr as [(_ & <- & _)|[? _]]; [by intros []|done].
Qed.

(** The three loops over a batch. *)
Section Loops.
Context (fuel : nat) (l : list (option positive)) (lost : list positive).

Lemma close_batch_live n : forall i s rs, calm s -> ms_MultiStmts s = Some l -> ms_CspsMultiStmtResult s = Some rs -> (i + n = length rs)%nat ->
  (length rs <= length l)%nat -> live s (omap id (drop i l) ++ lost) (omap id (drop i rs)) ->
  exists s', close_batch c (S fuel) n i s = Some s' /\ calm s' /\ live s' (omap id (drop (i + n) l) ++ lost) [] /\ same_batch s s'.
Proof using Hcsps.
  induction n as [|n IH]; intros i s rs Hc Hl Hrs Hn Hlen Hlive.
  - exists s. rewrite (drop_ge rs) in Hlive by lia. rewrite Nat.add_0_r. split_and!; try done; apply same_batch_refl.
  - destruct (lookup_lt_is_Some_2 l i ltac:(lia)) as [h Hh]. destruct (lookup_lt_is_Some_2 rs i ltac:(lia)) as [r Hr].
    rewrite (omap_id_drop _ _ _ Hh), (omap_id_drop _ _ _ Hr), <- app_assoc in Hlive. cbn [close_batch]. rewrite Hl. cbn [mbind option_bind]. rewrite Hh. cbn [mbind option_bind].
    destruct (free_batch_live fuel i h r _ _ rs s Hc Hrs Hr Hlive) as (s1 & -> & C1 & L1 & R1 & B1). cbn [mbind option_bind].
    destruct (close_handle_live h _ _ s1 C1 L1) as (s2 & -> & C2 & L2 & R2 & B2). cbn [mbind option_bind].
    pose proof (same_batch_trans _ _ _ B1 B2) as B. rewrite R1 in R2.
    destruct (IH (S i) s2 (<[i := None]> rs)) as (s' & -> & C' & L' & B'); [done|rewrite (sb_multi _ _ B); done|done|rewrite length_insert; lia|by rewrite length_insert| |].
    { by rewrite drop_insert_lt by lia. }
    rewrite Nat.add_succ_comm in L'. exists s'. split_and!; try done. by eapply same_batch_trans.
Qed.

Lemma drop_batch_live n : forall i s rs, calm s -> ms_MultiStmts s = Some l -> ms_CspsMultiStmtResult s = Some rs -> (i + n = length rs)%nat ->
  (length rs <= length l)%nat -> placed l rs -> live s (omap id (drop i l) ++ lost) (omap id (drop i rs)) ->
  exists s', drop_batch c (S fuel) n i s = Some s' /\ calm s' /\ live s' (omap id (drop (i + n) l) ++ lost) [] /\ same_batch s s'.
Proof using Hcsps.
  induction n as [|n IH]; intros i s rs Hc Hl Hrs Hn Hlen HF Hlive.
  - exists s. rewrite (drop_ge rs) in Hlive by lia. rewrite Nat.add_0_r. split_and!; try done; apply same_batch_refl.
  - destruct (lookup_lt_is_Some_2 l i ltac:(lia)) as [h Hh]. destruct (lookup_lt_is_Some_2 rs i ltac:(lia)) as [r Hr].
    pose proof (HF i h r Hh Hr) as Hhr.
    rewrite (omap_id_drop _ _ _ Hh), (omap_id_drop _ _ _ Hr), <- app_assoc in Hlive. cbn [drop_batch]. rewrite Hl. cbn [mbind option_bind]. rewrite Hh. cbn [mbind option_bind].
    destruct h as [h|].
    + destruct (free_batch_live fuel i (Some h) r _ _ rs s Hc Hrs Hr Hlive) as (s1 & -> & C1 & L1 & R1 & B1). cbn [mbind option_bind].
      rewrite (proj1 (free_result_handle (Some h) s1 ltac:(by eexists) (live_handle _ _ _ _ L1))). cbn [mbind option_bind].
      destruct (close_handle_live (Some h) (omap id (drop (S i) l) ++ lost) (omap id (drop (S i) rs)) (set_mysql s1 (set_diag (ms_mysql s1) no_diag)))
        as (s2 & -> & C2 & L2 & R2 & B2); [exact C1|destruct L1; by split|]. cbn [mbind option_bind].
      assert (same_batch s s2) as B by (eapply same_batch_trans; [exact B1|]; eapply same_batch_trans; [|exact B2]; (split; [by split|done..])).
      change (ms_CspsMultiStmtResult (set_mysql s1 _)) with (ms_CspsMultiStmtResult s1) in R2. rewrite R1 in R2.
      destruct (IH (S i) s2 (<[i := None]> rs)) as (s' & -> & C' & L' & B');
        [done|rewrite (sb_multi _ _ B); done|done|rewrite length_insert; lia|by rewrite length_insert|by apply placed_insert|by rewrite drop_insert_lt by lia|].
      rewrite Nat.add_succ_comm in L'. exists s'. split_and!; try done. by eapply same_batch_trans.
    + destruct r as [r|]; [destruct (Hhr ltac:(by eexists)); done|]. cbn [mbind option_bind]. rewrite <- Nat.add_succ_comm. apply (IH (S i) s rs); try done. lia.
Qed.

Lemma reset_batch_live n : forall i s rs, calm s -> ms_MultiStmts s = Some l -> ms_CspsMultiStmtResult s = Some rs -> (i + n = length rs)%nat ->
  (length rs <= length l)%nat -> placed l rs -> live s (omap id l ++ lost) (omap id (drop i rs)) -> Forall (fun r => r = None) (take i rs) ->
  exists s' rs', reset_batch c (S fuel) n i s = Some s' /\ calm s' /\ live s' (omap id l ++ lost) [] /\ same_batch s s' /\
    ms_CspsMultiStmtResult s' = Some rs' /\ length rs' = length rs /\ Forall (fun r => r = None) rs'.
Proof using Hcsps.
  induction n as [|n IH]; intros i s rs Hc Hl Hrs Hn Hlen HF Hlive Hnone.
  - exists s, rs. rewrite drop_ge in Hlive by lia. rewrite take_ge in Hnone by lia. split_and!; try done; apply same_batch_refl.
  - destruct (lookup_lt_is_Some_2 l i ltac:(lia)) as [h Hh]. destruct (lookup_lt_is_Some_2 rs i ltac:(lia)) as [r Hr].
    pose proof (HF i h r Hh Hr) as Hhr. rewrite (omap_id_drop _ _ _ Hr) in Hlive. cbn [reset_batch]. rewrite Hl. cbn [mbind option_bind]. rewrite Hh. cbn [mbind option_bind].
    destruct h as [h|].
    + assert (exists l1 l2, l = l1 ++ Some h :: l2) as (l1 & l2 & El) by (exists (take i l), (drop (S i) l); by rewrite take_drop_middle).
      assert (omap id l ++ lost ≡ₚ option_list (Some h) ++ (omap id l1 ++ omap id l2 ++ lost)) as Hp by (rewrite El, omap_app; cbn; by rewrite <- app_assoc, Permutation_middle).
      assert (forall t rl, live t (omap id l ++ lost) rl <-> live t (option_list (Some h) ++ (omap id l1 ++ omap id l2 ++ lost)) rl) as Hperm.
      { intros t rl. split; intros [? ? ? ?]; split; try done; [by rewrite <- Hp|by rewrite <- Hp|by rewrite Hp|by rewrite Hp]. }
      apply Hperm in Hlive. destruct (free_batch_live fuel i (Some h) r _ _ rs s Hc Hrs Hr Hlive) as (s1 & -> & C1 & L1 & R1 & B1). cbn [mbind option_bind].
      rewrite (proj2 (free_result_handle (Some h) s1 ltac:(by eexists) (live_handle _ _ _ _ L1))). cbn [mbind option_bind]. apply Hperm in L1.
      destruct (IH (S i) s1 (<[i := None]> rs)) as (s' & rs' & -> & C' & L' & B' & R' & N');
        [done|rewrite (sb_multi _ _ B1); done|done|rewrite length_insert; lia|by rewrite length_insert|by apply placed_insert|by rewrite drop_insert_lt by lia| |].
      { rewrite (take_S_r _ _ None) by (apply list_lookup_insert_eq; lia). rewrite take_insert_ge by lia. apply Forall_app. split; [done|by repeat constructor]. }
      rewrite length_insert in N'. exists s', rs'. split_and!; try done; [by eapply same_batch_trans|apply N'..].
    + destruct r as [r|]; [destruct (Hhr ltac:(by eexists)); done|]. cbn [mbind option_bind].
      apply (IH (S i) s rs); try done; [lia|]. rewrite (take_S_r _ _ _ Hr). apply Forall_app. split; [done|by repeat constructor].
Qed.

End Loops.

(** *** The operations *)

(** A statement between two calls on a calm connection: without a structure or without an
    execution it has no result. *)
Record consistent (lost : list positive) s : Prop := {
  cs_calm : calm s;
  cs_owned : owned lost s;
  cs_stmt : ms_stmt s = None -> ms_MultiStmts s = None /\ ms_State s <= MADB_SS_PREPARED;
  cs_result : ms_MultiStmts s = None -> ms_State s <= MADB_SS_PREPARED \/ QUERY_IS_MULTISTMT (ms_Query s) = true -> ms_CspsResult s = None;
  cs_state : MADB_SS_INITED <= ms_State s <= MADB_SS_OUTPARAMSFETCHED;
  cs_ird : exists d desc, own_descs c s = Some d /\ descs (world_of s) !! Ird d = Some desc /\ is_Some (MADB_DescFree (world_of s) (Ird d) true);
}.

Lemma free_own_live fuel s lost : calm s -> live s (option_list (ms_stmt s) ++ lost) (option_list (ms_CspsResult s)) ->
  exists s1, free_own_result c (S fuel) s = Some s1 /\ calm s1 /\ live s1 (option_list (ms_stmt s) ++ lost) [] /\ ms_CspsResult s1 = None /\ same_batch s s1.
Proof using Hcsps.
  intros Hc Hl. unfold free_own_result. rewrite ssps_disabled by done.
  destruct (CspsFreeResult_live fuel (ms_CspsResult s) (ms_stmt s) s Hc) as (hs & m & -> & Hd & C1 & C2).
  { apply (live_result s (option_list (ms_stmt s) ++ lost) []). by rewrite app_nil_r. }
  { by apply (live_handle s lost (option_list (ms_CspsResult s))). }
  cbn [mbind option_bind]. eexists. split; [reflexivity|]. split; [by split|]. split; [|split; [done|(split; [by split|done..])]].
  destruct (ms_CspsResult s) as [k|]; [|destruct Hl; split; cbn; congruence || done]. destruct (live_delete_result _ _ _ _ m hs Hl Hd). by split.
Qed.

Lemma fresh_key_fresh {X} (m : gmap positive X) : m !! fresh_key m = None.
Proof.
  assert (forall k, is_Some (m !! k) -> (k <= map_fold (fun k _ n => Pos.max k n) 1 m)%positive) as H.
  { apply (map_fold_weak_ind (fun (n : positive) (m : gmap positive X) => forall k, is_Some (m !! k) -> (k <= n)%positive)).
    - intros k [x Hx]. by rewrite lookup_empty in Hx.
    - intros j x n r Hj IH k Hk. destruct (decide (k = j)) as [->|Hne]; [lia|]. rewrite lookup_insert_ne in Hk by done.
      specialize (IH k Hk). lia. }
  unfold fresh_key. destruct (m !! _) as [x|] eqn:E; [|done]. specialize (H _ (ex_intro _ x E)). lia.
Qed.

Lemma new_stmt_live s lost : live s lost [] ->
  live (new_stmt s) (option_list (ms_stmt (new_stmt s)) ++ lost) [] /\ ms_mysql (new_stmt s) = ms_mysql s /\ ms_MultiStmts (new_stmt s) = ms_MultiStmts s /\
  ms_CspsResult (new_stmt s) = ms_CspsResult s /\ world_of (new_stmt s) = world_of s /\ keeps s (new_stmt s).
Proof.
  intros [H1 H2 H3 H4]. assert (fresh_key (ms_handles s) ∉ lost) as Hf.
  { intros Hin. assert (fresh_key (ms_handles s) ∈ dom (ms_handles s)) as [x Hx]%elem_of_dom by (rewrite H1; by apply elem_of_list_to_set).
    by rewrite fresh_key_fresh in Hx. }
  unfold new_stmt, MADB_NewStmtHandle, next_answer, answer.
  destruct (pm_answers (ms_params s)) as [|[|] l]; cbn; (split; [|split_and!; try done; by split]);
    split; cbn; try done; try (by apply NoDup_cons); rewrite ?dom_insert_L, ?H1; set_solver.
Qed.

Lemma EmulatedCleanup_calm fuel (m : MYSQL A) : my_connected m = true -> my_more m = false ->
  exists m', EmulatedCleanup (S fuel) m = Some m' /\ my_connected m' = true /\ my_more m' = false.
Proof.
  intros H1 H2. unfold EmulatedCleanup. rewrite drain_calm by done. cbn [mbind option_bind]. destruct (_ || _); eexists; (split; [reflexivity|]); [|done].
  unfold mthd_my_skip_result. by destruct (my_broken m).
Qed.

Lemma reset_state_live fuel s d desc hs : calm s -> own_descs c s = Some d -> descs (world_of s) !! Ird d = Some desc -> live s hs [] ->
  exists s', reset_state c (S fuel) s = Some s' /\ calm s' /\ live s' hs [] /\ ms_stmt s' = ms_stmt s /\
    ms_MultiStmts s' = ms_MultiStmts s /\ ms_CspsResult s' = ms_CspsResult s.
Proof.
  intros Hc Hd Hi Hl. unfold reset_state. cbv zeta. set (s1 := if _ || _ then reset_executed s else s).
  assert (calm s1 /\ own_descs c s1 = Some d /\ world_of s1 = world_of s /\ live s1 hs [] /\ ms_stmt s1 = ms_stmt s /\
    ms_MultiStmts s1 = ms_MultiStmts s /\ ms_CspsResult s1 = ms_CspsResult s) as (C1 & D1 & W1 & L1 & S1 & M1 & R1).
  { unfold s1. destruct (_ || _); split_and!; try done. destruct Hl. by split. }
  assert (exists s2, (if (MADB_SS_PREPARED <=? ms_State s) && (ms_State s <=? MADB_SS_OUTPARAMSFETCHED) then reset_prepared c s1 else Some s1) = Some s2 /\
    calm s2 /\ live s2 hs [] /\ ms_stmt s2 = ms_stmt s /\ ms_MultiStmts s2 = ms_MultiStmts s /\ ms_CspsResult s2 = ms_CspsResult s) as (s2 & -> & C2 & L2 & S2 & M2 & R2).
  { destruct (_ && _); [|by exists s1]. unfold reset_prepared. rewrite D1. cbn [mbind option_bind]. rewrite W1, Hi. cbn [mbind option_bind].
    eexists. split; [reflexivity|]. split_and!; try done. destruct L1. by split. }
  cbn [mbind option_bind].
  assert (exists s3, (if (MADB_SS_EMULATED <=? ms_State s) && (ms_State s <=? MADB_SS_OUTPARAMSFETCHED) then reset_emulated (S fuel) s2 else Some s2) = Some s3 /\
    calm s3 /\ live s3 hs [] /\ ms_stmt s3 = ms_stmt s /\ ms_MultiStmts s3 = ms_MultiStmts s /\ ms_CspsResult s3 = ms_CspsResult s) as (s3 & -> & C3 & L3 & S3 & M3 & R3).
  { destruct (_ && _); [|by exists s2]. unfold reset_emulated. destruct (EmulatedCleanup_calm fuel (ms_mysql s2) (proj1 C2) (proj2 C2)) as (m & -> & ? & ?).
    eexists. split; [reflexivity|]. split_and!; try done. destruct L2. by split. }
  cbn [mbind option_bind]. eexists. split; [reflexivity|]. split_and!; try done. destruct L3. by split.
Qed.

(** A single structure is closed and replaced. *)
Lemma renew_live s lost : calm s -> live s (option_list (ms_stmt s) ++ lost) [] ->
  exists s2, MADB_STMT_CLOSE_STMT s = Some s2 /\ calm s2 /\ live s2 lost [] /\ ms_MultiStmts s2 = ms_MultiStmts s /\
    ms_CspsResult s2 = ms_CspsResult s /\ world_of s2 = world_of s /\ keeps s s2.
Proof.
  intros Hc Hl. unfold MADB_STMT_CLOSE_STMT. destruct (stmt_close_live (ms_stmt s) s Hc) as (m & -> & C1 & C2).
  { by apply (live_handle s lost []). }
  cbn [mbind option_bind]. eexists. split; [reflexivity|]. split; [by split|]. split; [|split_and!; try done; by split].
  destruct (ms_stmt s) as [k|]; [destruct (live_delete_handle _ _ _ _ m Hl); by split|destruct Hl; by split].
Qed.

Lemma reset_handles_live fuel lost s : consistent lost s ->
  exists s', reset_handles c (S fuel) s = Some s' /\ calm s' /\ live s' (option_list (ms_stmt s') ++ surplus s ++ lost) [] /\ ms_MultiStmts s' = None /\
    ms_CspsResult s' = None /\ world_of s' = world_of s /\ keeps s s'.
Proof using Hcsps.
  intros [Hc Ho Hst Hres Hs _]. unfold reset_handles, owned, surplus in *. destruct (ms_MultiStmts s) as [l|] eqn:El.
  - destruct Ho as (rs & Hrs & Hl & Hlen & Hq & _ & Hlive). rewrite Hq. cbn [negb orb]. rewrite bool_decide_eq_false_2 by done. unfold CloseMultiStatements.
    rewrite <- Hl. destruct (close_batch_live fuel l lost (length rs) 0 s rs Hc El Hrs eq_refl Hlen Hlive) as (s1 & -> & C1 & L1 & B1). cbn [mbind option_bind].
    match goal with |- context [new_stmt ?t] => set (s2 := t) end. assert (live s2 (omap id (drop (length rs) l) ++ lost) []) as L2 by (destruct L1; by split).
    destruct (new_stmt_live s2 _ L2) as (L3 & E1 & E2 & E3 & E4 & E5). eexists. split; [reflexivity|]. unfold calm. rewrite E1, E2, E3, E4.
    split_and!; try done; [apply C1|apply C1|apply B1|]. eapply keeps_trans; [|exact E5]. eapply keeps_trans; [apply B1|]. by split.
  - rewrite bool_decide_eq_true_2, orb_true_r by done.
    assert (exists s1, (if MADB_SS_PREPARED <? ms_State s then s1 ← free_own_result c (S fuel) s; mysql_stmt_free_result (ms_stmt s1) s1 else Some s) = Some s1 /\
      calm s1 /\ live s1 (option_list (ms_stmt s1) ++ lost) [] /\ ms_MultiStmts s1 = None /\ ms_CspsResult s1 = None /\ world_of s1 = world_of s /\ keeps s s1)
      as (s1 & -> & C1 & L1 & M1 & R1 & W1 & K1).
    { destruct (Z.ltb_spec MADB_SS_PREPARED (ms_State s)) as [Hlt|Hle].
      - destruct (free_own_live fuel s lost Hc Ho) as (s1 & -> & C1 & L1 & R1 & B1). cbn [mbind option_bind]. rewrite <- (sb_stmt _ _ B1) in L1.
        rewrite (proj1 (free_result_handle (ms_stmt s1) s1 ltac:(rewrite (sb_stmt _ _ B1); destruct (ms_stmt s); [done|destruct (Hst eq_refl); lia])
          (live_handle s1 lost [] _ L1))).
        eexists. split; [reflexivity|]. split_and!; try done; [destruct L1; by split|rewrite <- El; apply B1|apply B1|destruct (sb_keeps _ _ B1); by split].
      - pose proof (Hres eq_refl (or_introl Hle)) as Hr. rewrite Hr in Ho. exists s. split_and!; done || apply keeps_refl. }
    cbn [mbind option_bind]. destruct (MADB_SS_PREPARED <=? ms_State s1).
    + destruct (renew_live s1 lost C1 L1) as (s2 & -> & C2 & L2 & M2 & R2 & W2 & K2). cbn [mbind option_bind].
      destruct (new_stmt_live s2 lost L2) as (L3 & E1 & E2 & E3 & E4 & E5). eexists. split; [reflexivity|]. unfold calm. rewrite E1, E2, E3, E4.
      split_and!; try done; [apply C2|apply C2|congruence..|]. eauto using keeps_trans.
    + exists s1. split_and!; done.
Qed.

Lemma Reset_owned fuel lost s : consistent lost s ->
  exists s', MADB_StmtReset c (S fuel) s = Some s' /\ calm s' /\ ms_MultiStmts s' = None /\ ms_CspsResult s' = None /\
    live s' (option_list (ms_stmt s') ++ surplus s ++ lost) [] /\ ms_locks s' = ms_locks s.
Proof using Hcsps.
  intros Hcs. destruct (cs_ird _ _ Hcs) as (d & desc & Hd & Hi & _).
  destruct (reset_handles_live fuel lost s Hcs) as (s1 & E1 & C1 & L1 & M1 & R1 & W1 & K1). unfold MADB_StmtReset. rewrite E1. cbn [mbind option_bind].
  destruct (reset_state_live fuel s1 d desc (option_list (ms_stmt s1) ++ surplus s ++ lost)) as (s2 & E2 & C2 & L2 & S2 & M2 & R2);
    [done|unfold own_descs in *; by rewrite W1|by rewrite W1|done|]. rewrite E2. exists s2. rewrite S2.
  split_and!; try done; [congruence..|]. apply reset_state_quiet in E2 as [(Q & _ & _) _]. rewrite Q. apply K1.
Qed.

(** The cleanup of a statement that was sent without being prepared. *)
Lemma cleanup_live fuel s hs rs : calm s -> live s hs rs ->
  exists s', reset_emulated (S fuel) s = Some s' /\ calm s' /\ live s' hs rs /\ same_batch s s' /\
    ms_CspsResult s' = ms_CspsResult s /\ ms_CspsMultiStmtResult s' = ms_CspsMultiStmtResult s.
Proof.
  intros [H1 H2] Hl. unfold reset_emulated. destruct (EmulatedCleanup_calm fuel (ms_mysql s) H1 H2) as (m & -> & ? & ?).
  eexists. split; [reflexivity|]. split; [by split|]. split; [destruct Hl; by split|]. split; [|done]. split; [by split|done..].
Qed.

Lemma drop_owned fuel lost s : consistent lost s ->
  exists s', drop_handles c (S fuel) s = Some s' /\ live s' (surplus s ++ lost) [] /\ ms_locks s' = ms_locks s.
Proof using Hcsps.
  intros [Hc Ho Hst Hres Hs _]. unfold drop_handles. set (s0 := LOCK s).
  set (hs := match ms_MultiStmts s with None => option_list (ms_stmt s) | Some l => omap id l end ++ lost).
  set (rs := match ms_MultiStmts s with None => option_list (ms_CspsResult s) | Some _ => omap id (default [] (ms_CspsMultiStmtResult s)) end).
  assert (live s0 hs rs) as L0.
  { unfold owned, hs, rs in *. destruct (ms_MultiStmts s); [destruct Ho as (rs' & -> & _ & _ & _ & _ & [])|destruct Ho]; by split. }
  assert (exists s1, (if ms_State s0 =? MADB_SS_EMULATED then reset_emulated (S fuel) s0 else Some s0) = Some s1 /\ calm s1 /\ live s1 hs rs /\ same_batch s0 s1 /\
    ms_CspsResult s1 = ms_CspsResult s /\ ms_CspsMultiStmtResult s1 = ms_CspsMultiStmtResult s) as (s1 & -> & C1 & L1 & B1 & R1 & RM1).
  { destruct (_ =? _); [exact (cleanup_live fuel s0 hs rs Hc L0)|]. exists s0. split_and!; try done; apply same_batch_refl. }
  cbn [mbind option_bind]. destruct B1 as [K1 M1 S1 _ _]. change (ms_MultiStmts s0) with (ms_MultiStmts s) in M1. change (ms_stmt s0) with (ms_stmt s) in S1.
  rewrite (kp_query _ _ K1), M1, S1. change (ms_Query s0) with (ms_Query s). unfold owned, hs, rs, surplus in *. destruct (ms_MultiStmts s) as [l|] eqn:El.
  - destruct Ho as (rs' & Hrs & Hl & Hlen & Hq & HF & _). rewrite Hq, bool_decide_eq_true_2, <- Hl, Hrs in * by done. cbn [andb default].
    destruct (drop_batch_live fuel l lost (length rs') 0 s1 rs' C1 M1 RM1 eq_refl Hlen HF L1) as (s2 & -> & _ & [] & [K2 _ _ _ _]).
    cbn [mbind option_bind]. eexists. split; [reflexivity|]. split; [by split|]. destruct K1, K2. cbn in *. lia.
  - rewrite bool_decide_eq_false_2, andb_false_r by (by intros []). destruct (ms_stmt s) as [h|] eqn:Eh.
    + rewrite <- S1, <- R1 in L1. destruct (free_own_live fuel s1 lost C1 L1) as (s2 & -> & C2 & L2 & _ & [K2 _ S2 _ _]). cbn [mbind option_bind].
      rewrite <- S2 in L2. destruct (renew_live s2 lost C2 L2) as (s3 & -> & _ & [] & _ & _ & _ & K3). cbn [mbind option_bind].
      eexists. split; [reflexivity|]. split; [by split|]. destruct K1, K2, K3. cbn in *. lia.
    + destruct (Hst eq_refl) as [_ Hle]. rewrite (Hres eq_refl (or_introl Hle)) in L1. cbn [mbind option_bind].
      eexists. split; [reflexivity|]. split; [destruct L1; by split|]. destruct K1. cbn in *. lia.
Qed.

(** What closing leaves: the same structures and no result. *)
Definition closed (lost : list positive) s s' : Prop :=
  calm s' /\ ms_stmt s' = ms_stmt s /\ ms_MultiStmts s' = ms_MultiStmts s /\ ms_Query s' = ms_Query s /\ ms_locks s' = ms_locks s /\
  match ms_MultiStmts s with
  | None => live s' (option_list (ms_stmt s) ++ lost) [] /\ ms_CspsResult s' = None
  | Some l => live s' (omap id l ++ lost) [] /\ exists rs, ms_CspsMultiStmtResult s' = Some rs /\ length rs = STMT_COUNT (ms_Query s) /\ Forall (fun r => r = None) rs
  end.

Lemma closed_owned lost s s' : owned lost s -> closed lost s s' -> owned lost s' /\ ms_results s' = ∅ /\ dom (ms_handles s') = dom (ms_handles s).
Proof.
  intros Ho (_ & Hst & Hm & Hq & _ & H). unfold owned in *. rewrite Hm, Hst, Hq. destruct (ms_MultiStmts s) as [l|].
  - destruct H as [Hl (rs & Hrs & Hlen & HN)], Ho as (rs0 & _ & Hl0 & Hl1 & Hmq & _ & Hlive).
    assert (omap id rs = []) as Enil by (clear Hlen Hrs; induction HN as [|r rs -> _ IH]; [done|exact IH]).
    split_and!; [|apply dom_empty_inv_L; by rewrite (lv_results _ _ _ Hl)|by rewrite (lv_handles _ _ _ Hl), (lv_handles _ _ _ Hlive)].
    exists rs. rewrite Enil. split_and!; try done; [lia|]. intros i h r _ Hr. rewrite Forall_lookup in HN. rewrite (HN _ _ Hr). by intros [].
  - destruct H as [Hl Hr]. rewrite Hr. split_and!; [done|apply dom_empty_inv_L; by rewrite (lv_results _ _ _ Hl)|by rewrite (lv_handles _ _ _ Hl), (lv_handles _ _ _ Ho)].
Qed.

(** The end of SQL_CLOSE. *)
Definition closing_fields s : MADB_Stmt A :=
  RESET_DAE (RESET_STMT_STATE (set_Lengths (set_CharOffset (set_result (set_metadata s None) false) None) None)).

Lemma closing_fields_same s hs : live s hs [] -> calm s -> live (closing_fields s) hs [] /\ calm (closing_fields s).
Proof. intros [] ?. split; [by split|done]. Qed.

Lemma close_result_closed fuel lost s : consistent lost s -> is_Some (ms_stmt s) -> exists s', close_result c (S fuel) s = Some s' /\ closed lost s s'.
Proof using Hcsps.
  intros [Hc Ho Hst Hres Hs (d & desc & Hd & Hi & w & Hw)] Hh. unfold close_result, forget_columns. rewrite Hd. cbn [mbind option_bind]. rewrite Hw. cbn [mbind option_bind].
  set (s1 := put_world s w). change (ms_State s1) with (ms_State s). change (ms_Query s1) with (ms_Query s). unfold closed, owned in *.
  destruct (ms_MultiStmts s) as [l|] eqn:El.
  - destruct Ho as (rs & Hrs & Hl & Hlen & Hq & HF & Hlive). rewrite Hq, andb_false_r. cbn [mbind option_bind]. change (ms_MultiStmts s1) with (ms_MultiStmts s).
    change (ms_Query s1) with (ms_Query s). rewrite Hq, El, bool_decide_eq_true_2 by done. cbn [andb]. rewrite <- Hl.
    destruct (reset_batch_live fuel l lost (length rs) 0 (LOCK s1) rs) as (s2 & rs' & -> & C2 & L2 & [K2 M2 S2 _ _] & R2 & N2);
      [exact Hc|exact El|exact Hrs|done|exact Hlen|exact HF|destruct Hlive; by split|constructor|].
    cbn [fmap option_fmap option_map mbind option_bind]. eexists. split; [reflexivity|].
    destruct (closing_fields_same (UNLOCK s2) (omap id l ++ lost)) as [L3 C3]; [destruct L2; by split|exact C2|].
    split_and!; try done; [etrans; [exact M2|exact El]|exact (kp_query _ _ K2)|destruct K2; cbn in *; lia|by exists rs'].
  - assert (exists s2, (if (MADB_SS_PREPARED <? ms_State s) && negb (QUERY_IS_MULTISTMT (ms_Query s)) then
        s' ← free_own_result c (S fuel) s1; s'' ← mysql_stmt_free_result (ms_stmt s') s'; UNLOCK <$> mysql_stmt_reset (ms_stmt s'') (LOCK s'')
      else Some s1) = Some s2 /\ calm s2 /\ live s2 (option_list (ms_stmt s) ++ lost) [] /\ ms_CspsResult s2 = None /\ ms_stmt s2 = ms_stmt s /\
      ms_MultiStmts s2 = None /\ ms_Query s2 = ms_Query s /\ ms_locks s2 = ms_locks s) as (s2 & -> & C2 & L2 & R2 & S2 & M2 & Q2 & K2).
    { destruct (Z.ltb_spec MADB_SS_PREPARED (ms_State s)) as [Hlt|Hle]; cbn [andb];
        [destruct (QUERY_IS_MULTISTMT (ms_Query s)) eqn:Eq; cbn [negb]|].
      - rewrite (Hres eq_refl (or_intror eq_refl)) in Ho. exists s1. split_and!; try done; [destruct Ho; by split|exact (Hres eq_refl (or_intror eq_refl))].
      - destruct (free_own_live fuel s1 lost Hc ltac:(destruct Ho; by split)) as (s2 & -> & C2 & L2 & R2 & [K2 M2 S2 _ _]). cbn [mbind option_bind].
        change (ms_stmt s1) with (ms_stmt s) in *. rewrite <- S2 in L2, Hh |- *.
        destruct (free_result_handle (ms_stmt s2) s2 Hh (live_handle s2 lost [] _ L2)) as [-> _]. cbn [mbind option_bind].
        match goal with |- context [mysql_stmt_reset (ms_stmt ?t) ?u] => destruct (free_result_handle (ms_stmt t) u Hh
          (live_handle u lost [] _ ltac:(destruct L2; by split))) as [_ ->] end. cbn [fmap option_fmap option_map].
        eexists. split; [reflexivity|]. destruct K2. split_and!; try done; [destruct L2; by split|by rewrite <- El|cbn in *; lia].
      - rewrite (Hres eq_refl (or_introl Hle)) in Ho. exists s1. split_and!; try done; [destruct Ho; by split|exact (Hres eq_refl (or_introl Hle))]. }
    cbn [mbind option_bind]. rewrite M2, bool_decide_eq_false_2, andb_false_r by (by intros []). cbn [mbind option_bind].
    eexists. split; [reflexivity|]. destruct (closing_fields_same s2 (option_list (ms_stmt s) ++ lost) L2 C2) as [L3 C3]. split_and!; done.
Qed.

Lemma Close_owned fuel lost s : consistent lost s ->
  exists s', MADB_StmtFree_CLOSE c (S fuel) s = Some (SQL_SUCCESS, s') /\ closed lost s s'.
Proof using Hcsps.
  intros Hcs. unfold MADB_StmtFree_CLOSE.
  assert (exists s1, (match ms_stmt s with Some _ => close_result c (S fuel) s | None => Some s end) = Some s1 /\ closed lost s s1) as (s1 & -> & Hcl).
  { destruct (ms_stmt s) eqn:Eh; [apply close_result_closed; [done|by eexists]|]. exists s. split; [done|]. destruct Hcs as [Hc Ho Hst Hres _ _].
    destruct (Hst Eh) as [Em Hle]. unfold closed, owned in *. rewrite Em in *. pose proof (Hres eq_refl (or_introl Hle)) as Hr. rewrite Hr in Ho. split_and!; done. }
  cbn [mbind option_bind]. destruct (_ =? _); [|by exists s1]. destruct Hcl as (C1 & S1 & M1 & Q1 & K1 & H1). cbn [mbind option_bind].
  set (hs := match ms_MultiStmts s with None => option_list (ms_stmt s) | Some l => omap id l end ++ lost).
  assert (live (LOCK s1) hs []) as L1 by (unfold hs; destruct (ms_MultiStmts s); destruct H1 as [[] _]; by split).
  destruct (cleanup_live fuel (LOCK s1) hs [] C1 L1) as (s2 & -> & C2 & L2 & [K2 M2 S2 _ _] & R2 & RM2). cbn [mbind option_bind].
  eexists. split; [reflexivity|]. destruct K2. cbn in *. unfold closed, hs in *. split_and!; try done; cbn; [congruence..|lia|].
  rewrite R2, RM2. destruct (ms_MultiStmts s); destruct H1 as [_ ?]; split; try done; destruct L2; by split.
Qed.

(** C23. Who owns the structures and results of the client library.  A statement owns one
    structure and one result, or those of the pieces of its batch.  For every such statement,
    executed or not, with a live connection and no answer waiting: resetting it frees every
    result and leaves at most the new structure; SQL_CLOSE frees every result and keeps the
    structures; SQL_DROP frees every result.  Resetting and dropping free the structures of
    exactly the counted statements of a batch: what stays allocated without a pointer to it are
    the structures of the pieces that are not counted, none where the two numbers
    agree.  None of them frees something twice or uses something freed, and all of them give the
    lock back. *)
Theorem lifecycle_owned fuel lost s : consistent lost s ->
  (exists s', MADB_StmtReset c (S fuel) s = Some s' /\ owned (surplus s ++ lost) s' /\ ms_results s' = ∅ /\ ms_MultiStmts s' = None /\ ms_locks s' = ms_locks s) /\
  (exists s', MADB_StmtFree_CLOSE c (S fuel) s = Some (SQL_SUCCESS, s') /\ owned lost s' /\ ms_results s' = ∅ /\
     dom (ms_handles s') = dom (ms_handles s) /\ ms_locks s' = ms_locks s) /\
  (exists s', drop_handles c (S fuel) s = Some s' /\ dom (ms_handles s') = list_to_set (surplus s ++ lost) /\ ms_results s' = ∅ /\ ms_locks s' = ms_locks s) /\
  (forall l, ms_MultiStmts s = Some l -> length l = STMT_COUNT (ms_Query s) -> surplus s = []).
Proof using Hcsps.
  intros Hcs. split_and!.
  - destruct (Reset_owned fuel lost s Hcs) as (s' & E & _ & M & R & L & K). exists s'. unfold owned. rewrite M, R.
    split_and!; try done. apply dom_empty_inv_L. by rewrite (lv_results _ _ _ L).
  - destruct (Close_owned fuel lost s Hcs) as (s' & E & Hcl). exists s'. destruct (closed_owned lost s s' (cs_owned _ _ Hcs) Hcl) as (? & ? & ?).
    split_and!; try done. apply Hcl.
  - destruct (drop_owned fuel lost s Hcs) as (s' & E & [L1 L2 _ _] & K). exists s'. split_and!; try done; by apply dom_empty_inv_L.
  - intros l Hl Hn. unfold surplus. by rewrite Hl, drop_ge by lia.
Qed.

End Owned.

(** ** What preparing stores *)

Section PrepareText.
Context {A : Type} (c : stmt_config) (e : @prepare_env A).
Hypothesis (Hcsps : sc_NoSsps c = true) (Hcall : sc_RewriteCallSP c = false) (Hmax : MaxRows (sc_Options c) = 0).
Implicit Types s : MADB_Stmt A.

Lemma ParseCursorName_returns q b : MADB_ParseCursorName (set_returns_result q b) = MADB_ParseCursorName q.
Proof.
  unfold MADB_ParseCursorName. change (Tokens (set_returns_result q b)) with (Tokens q). destruct (_ <? 4)%nat; [done|].
  generalize 0%nat as i, (length (Tokens q) - 3)%nat as n. intros i n. revert i. induction n as [|n IH]; intros i; [done|].
  cbn [ParseCursorName_loop]. rewrite IH. reflexivity.
Qed.

Lemma consistent_lock lost s : consistent c lost s -> consistent c lost (LOCK s).
Proof.
  intros [Hc Ho H1 H2 H3 H4]. split; try done. unfold owned in *. change (ms_MultiStmts (LOCK s)) with (ms_MultiStmts s).
  destruct (ms_MultiStmts s); [destruct Ho as (rs & ? & ? & ? & ? & ? & []); exists rs; by split_and!|destruct Ho; by split].
Qed.

(** The text of a call, with its length or NUL-terminated. *)
Lemma text_length_C C n : Forall (fun c => c <> 0) C -> n < 0 \/ n = Z.of_nat (length C) -> SafeStrlen (C ++ [0]) n = Z.of_nat (length C).
Proof.
  intros HF Hn. rewrite CharsetProps.SafeStrlen_SqlwcsLen. destruct Hn as [Hn|Hn].
  - by rewrite CharsetProps.SqlwcsLen_unbounded, cstr_app_nul.
  - rewrite CharsetProps.SqlwcsLen_bound, cstr_app_nul, Hn, Nat2Z.id, Nat.min_id by (done || lia). done.
Qed.

(** What the parser makes of a text without escape sequences, whatever the error record. *)
Definition parsed_query (C : list Z) : option MADB_QUERY :=
  match MADB_ResetParser (pe_yyparse e) (pe_multi e) calloc_error empty_query (Some (C ++ [0])) (length C) with
  | Some (inl q0) => MADB_ParseQuery q0 false
  | _ => None
  end.

(** The question marks of the scanned text outside comments and quoted strings. *)
Definition markers (C : list Z) : list nat :=
  let T := UnescapeProps.scanned_text C in ParseProps.placeholders (length T) 0 T.

Lemma parse_plain E q C : Forall (fun c => c <> 0) C -> Z.of_nat (length C) < 2 ^ 31 ->
  Forall (fun c => c <> $"{" /\ c <> $"}") (UnescapeProps.unquoted None C) -> starts_with (chars "{") (ltrim C) = false ->
  exists q0 q1, MADB_ResetParser (pe_yyparse e) (pe_multi e) E q (Some (C ++ [0])) (length C) = Some (inl q0) /\
    MADB_ParseQuery q0 false = Some q1 /\ parsed_query C = Some q1 /\ Original q1 = UnescapeProps.kept_text C /\
    ParamPositions q1 = markers C /\ (HasParameters q1 = true <-> markers C <> []).
Proof.
  intros HF H31 Hb Hs. unfold parsed_query, MADB_ResetParser. change (MADB_DeleteQuery _) with empty_query.
  rewrite !UnescapeProps.MADB_UnescapeQuery_identity by (rewrite ?length_app, ?take_app_length; cbn; done || lia). rewrite take_app_length.
  match goal with |- context [Some (inl ?q)] => set (q0 := q) end.
  destruct (UnescapeProps.ParseQuery_front_text q0 false C) as (q1 & Ep & Hok & Hlen & Hh & Ho & Hk); try done.
  destruct (ParseProps.ParseQuery_placeholders q1 (UnescapeProps.refined_text q1) Hok eq_refl Hlen) as (q' & Eq & Hps).
  destruct (ParseProps.ParseQuery_original q1 q' false Hok Hh Eq) as [Ho' Hp'].
  rewrite Hk in Hps. fold (markers C) in Hps. exists q0, q'. rewrite Ep, <- Hps. split_and!; try done; [congruence|by apply Hp'..].
Qed.

Lemma alloc_params_same n s : let s' := alloc_params n s in
  ms_Query s' = ms_Query s /\ ms_ParamCount s' = n /\ ms_MultiStmts s' = ms_MultiStmts s /\ ms_handles s' = ms_handles s /\ ms_results s' = ms_results s /\
  ms_stmt s' = ms_stmt s /\ ms_CspsResult s' = ms_CspsResult s.
Proof.
  cbv zeta. unfold alloc_params. destruct (_ =? _); [done|]. unfold next_answer, answer. by destruct (pm_answers _).
Qed.

(** Whether a statement is prepared or only sent as it is. *)
Definition prepared_state (q : MADB_QUERY) : Z := if ReturnsResult q || HasParameters q then MADB_SS_PREPARED else MADB_SS_EMULATED.

Lemma prepare_single_text s : QUERY_IS_MULTISTMT (ms_Query s) = false -> MADB_ValidateStmt (ms_Query s) = true -> MADB_ParseCursorName (ms_Query s) = None ->
  exists s', prepare_single c e s = Some (SQL_SUCCESS, s') /\ ms_State s' = prepared_state (ms_Query s) /\ ms_Query s' = ms_Query s /\
    (ms_State s' = MADB_SS_PREPARED -> ms_ParamCount s' = wraps 16 (Z.of_nat (length (ParamPositions (ms_Query s))))) /\
    ms_MultiStmts s' = ms_MultiStmts s /\ ms_handles s' = ms_handles s /\ ms_results s' = ms_results s /\ ms_stmt s' = ms_stmt s /\ ms_CspsResult s' = ms_CspsResult s.
Proof using Hcsps Hmax.
  intros Hq Hv Hn. unfold prepare_single, prepare_positioned, limit_rows. rewrite Hv, Hn. cbn [negb mbind option_bind]. rewrite Hmax. cbn [Z.eqb negb andb mbind option_bind].
  rewrite Hq. unfold prepared_state. destruct (ReturnsResult _); cbn [negb andb orb]; [|destruct (HasParameters _); cbn [negb andb]];
    rewrite ?ssps_disabled by done; [| |eexists; (split; [reflexivity|]); by split_and!];
    (match goal with |- context [alloc_params ?n ?t] => destruct (alloc_params_same n t) as (? & ? & ? & ? & ? & ? & ?) end; eexists; split; [reflexivity|]; by split_and!).
Qed.

Lemma choose_protocol_same s : let s' := choose_protocol c s in
  (exists b, ms_Query s' = set_returns_result (ms_Query s) b) /\ ms_MultiStmts s' = ms_MultiStmts s /\ ms_handles s' = ms_handles s /\
  ms_results s' = ms_results s /\ ms_stmt s' = ms_stmt s /\ ms_CspsResult s' = ms_CspsResult s.
Proof.
  cbv zeta. unfold choose_protocol. cbv zeta.
  assert (exists b, ms_Query s = set_returns_result (ms_Query s) b) as Hid by (exists (ReturnsResult (ms_Query s)); by destruct (ms_Query s)).
  destruct (_ && negb _); destruct (_ && (_ || _)); split_and!; try done; by exists true.
Qed.

(** C24. SQLPrepare with client-side statements, neither a row limit nor the rewriting of
    CALL being set.  A statement without escape sequences that the parser takes for a single
    one, that needs no other current statement and names no cursor, is stored without being
    sent: the text kept for execution is the statement without blanks in front and without
    blanks and semicolons at its end, and the parameters are exactly the question marks
    outside comments and quoted strings of that text behind its leading comments, in
    order; their number decides whether it is prepared.  The results and structures of
    what was prepared before are freed, and the lock is given back. *)
Theorem Prepare_text fuel lost s C TextLength ExecDirect : consistent c lost s -> Forall (fun c => c <> 0) C -> 5 <= Z.of_nat (length C) < 2 ^ 31 ->
  TextLength < 0 \/ TextLength = Z.of_nat (length C) ->
  Forall (fun c => c <> $"{" /\ c <> $"}") (UnescapeProps.unquoted None C) -> starts_with (chars "{") (ltrim C) = false ->
  exists q, parsed_query C = Some q /\
    (QUERY_IS_MULTISTMT q = false -> MADB_ValidateStmt q = true -> MADB_ParseCursorName q = None ->
     exists s', MADB_StmtPrepare c e (S fuel) (Some (C ++ [0])) TextLength ExecDirect s = Some (SQL_SUCCESS, s') /\
       Original (ms_Query s') = UnescapeProps.kept_text C /\ ParamPositions (ms_Query s') = markers C /\
       (HasParameters (ms_Query s') = true <-> markers C <> []) /\ (exists b, ms_Query s' = set_returns_result q b) /\
       (markers C <> [] -> ms_State s' = MADB_SS_PREPARED) /\
       (ms_State s' = MADB_SS_PREPARED -> ms_ParamCount s' = wraps 16 (Z.of_nat (length (markers C)))) /\
       (ms_State s' = MADB_SS_PREPARED \/ ms_State s' = MADB_SS_EMULATED /\ ReturnsResult (ms_Query s') = false) /\
       owned (surplus s ++ lost) s' /\ ms_results s' = ∅ /\ ms_MultiStmts s' = None /\ ms_locks s' = ms_locks s /\ ms_sent s' = ms_sent s).
Proof using Hcsps Hcall Hmax.
  intros Hcs HF Hlen Htl Hb Hbr. destruct (Reset_owned c Hcsps fuel lost (LOCK s) (consistent_lock lost s Hcs)) as (s1 & E1 & _ & M1 & R1 & L1 & K1).
  destruct (parse_plain (error_of s1) (ms_Query s1) C HF ltac:(lia) Hb Hbr) as (q0 & q & E2 & E3 & Hpq & Ho & Hps & Hhas).
  exists q. split; [exact Hpq|]. intros Hq Hv Hn. pose proof (StmtReset_quiet _ _ _ _ E1) as ((_ & Q2 & _) & _).
  unfold MADB_StmtPrepare. rewrite E1. cbn [mbind option_bind]. rewrite (text_length_C C TextLength HF Htl). cbv zeta.
  destruct (Z.ltb_spec (Z.of_nat (length C)) MADB_MIN_QUERY_LEN) as [Hlt|_]; [unfold MADB_MIN_QUERY_LEN in Hlt; lia|]. rewrite Nat2Z.id, E2. cbn [mbind option_bind].
  rewrite Hcall, E3. cbn [mbind option_bind]. destruct (choose_protocol_same (set_Query s1 q)) as ([b Hb'] & C1 & C2 & C3 & C4 & C5).
  destruct (choose_protocol_quiet c (set_Query s1 q)) as [(P1 & P2 & P3) _].
  remember (choose_protocol c (set_Query s1 q)) as s2 eqn:Es2. clear Es2. change (ms_Query (set_Query s1 q)) with q in Hb'.
  assert (QUERY_IS_MULTISTMT (ms_Query s2) = false) as Hq2 by (by rewrite Hb').
  rewrite Hq2. unfold is_batch. rewrite Hq2, andb_false_r. cbn [andb].
  destruct (prepare_single_text (UNLOCK s2)) as (s3 & E5 & F1 & F2 & F3 & F4 & F5 & F6 & F7 & F8);
    [done|change (ms_Query (UNLOCK s2)) with (ms_Query s2); by rewrite Hb'|change (ms_Query (UNLOCK s2)) with (ms_Query s2); by rewrite Hb', ParseCursorName_returns|].
  change (ms_Query (UNLOCK s2)) with (ms_Query s2) in *. exists s3. split; [exact E5|].
  assert (ms_Query s3 = set_returns_result q b) as Hq3 by congruence. rewrite F1, <- F2, Hq3. unfold prepared_state.
  change (HasParameters (set_returns_result q b)) with (HasParameters q). change (Original (set_returns_result q b)) with (Original q).
  change (ParamPositions (set_returns_result q b)) with (ParamPositions q). change (ReturnsResult (set_returns_result q b)) with b.
  split; [exact Ho|]. split; [exact Hps|]. split; [exact Hhas|]. split; [by exists b|].
  split; [intros Hm; apply Hhas in Hm; by rewrite Hm, orb_true_r|].
  split; [intros Hp; rewrite F3, Hb'; [by rewrite <- Hps|]; by rewrite F1, <- F2, Hq3|].
  split; [destruct b; [by left|]; cbn [orb]; destruct (HasParameters q); [by left|by right]|].
  change (surplus (LOCK s)) with (surplus s) in L1. assert (live s3 (option_list (ms_stmt s3) ++ surplus s ++ lost) []) as L3.
  { rewrite F7. change (ms_stmt (UNLOCK s2)) with (ms_stmt s2). rewrite C4. destruct L1 as [L1a L1b L1c L1d].
    split; [|..]; rewrite ?F5, ?F6; change (ms_handles (UNLOCK s2)) with (ms_handles s2); change (ms_results (UNLOCK s2)) with (ms_results s2);
      rewrite ?C2, ?C3; done. }
  assert (ms_MultiStmts s3 = None) as M3 by (rewrite F4; etrans; [exact C1|exact M1]).
  assert (ms_CspsResult s3 = None) as R3 by (rewrite F8; etrans; [exact C5|exact R1]).
  split_and!; [unfold owned; by rewrite M3, R3|apply dom_empty_inv_L; by rewrite (lv_results _ _ _ L3)|done|..].
  - apply (prepare_single_quiet c e Hcsps) in E5 as (Q3 & _ & _). destruct (unlock_quiet s2) as (U & _ & _).
    change (ms_locks (set_Query s1 q)) with (ms_locks s1) in P1. change (ms_locks (LOCK s)) with (ms_locks s + 1) in K1. lia.
  - apply (prepare_single_quiet c e Hcsps) in E5 as (_ & Q3 & _). rewrite Q3. etrans; [exact P2|exact Q2].
Qed.

End PrepareText.

(** ** Examples *)

(** Braces are refused by the parser; a statement just allocated on an idle connection. *)
Definition sample_env {A} : @prepare_env A :=
  MkPrepareEnv (fun E _ => inr (MADB_SetError E MADB_ERR_42000 None 0)) true [] (fun _ => []) (fun _ => 0) (fun _ => None) (fun _ => None).
Definition idle_config : stmt_config :=
  MkStmtConfig 1 ParamsProps.sample_config 10 (MkIrdConfig false false (fun _ => None) 4 false) true false false false (MkOptions 0 0 0 0 0 0 0 0 0).
Definition empty_desc (t : Z) : MADB_Desc := MkDesc (MkHeader 0 1 0 0 0 0 0) t false [] [] calloc_error.
Definition idle_world : world :=
  MkWorld {[ 1%positive := empty_desc MADB_DESC_APD; 2%positive := empty_desc MADB_DESC_IPD; 3%positive := empty_desc MADB_DESC_IRD ]}
    {[ 1%positive := MkStmtDescs 1 1 2 3 1 1 ]} [] ∅.
Definition idle_stmt : MADB_Stmt nat :=
  MkStmt (MkParamState idle_world ∅ calloc_error []) (MkMysql 0 false true None 0 0 no_diag [] [] None 0%nat)
    {[ 1%positive := MkHandle 0 [] 0 false MYSQL_STMT_INITTED None ]} ∅ [] 0 (Some 1%positive) None None 0 None empty_query 0 false false MADB_SS_INITED
    0 0 0 None None None false None (-1) 0 false None false.
Definition prepared_as (t : string) : option (Z * MADB_Stmt nat) :=
  MADB_StmtPrepare idle_config sample_env 1 (Some (chars t ++ [0])) (-3) false idle_stmt.

(** The text "abc" is too short: the lock stays taken. *)
Lemma Prepare_lock_witness : exists s', prepared_as "abc" = Some (SQL_ERROR, s') /\ ms_locks s' = 1.
Proof.
  destruct (prepared_as "abc") as [[rc s']|] eqn:E; [|exfalso; revert E; by vm_compute]. exists s'.
  destruct (Prepare_lock idle_config sample_env 1 eq_refl (Some (chars "abc" ++ [0])) (-3) false idle_stmt rc s' E) as (E' & HL & _).
  split; [|by rewrite HL]. revert E. vm_compute. by intros [= <- _].
Defined.

(** A server that refuses everything. *)
#[local] Instance refusing : Server nat := fun _ i => ([RespErr (Native (chars "23000") (chars "Duplicate entry") 1062)], S i).

Definition direct_text : option (list Z) := Some (chars "insert into t values(1)" ++ [0]).

(** The INSERT reaches the server twice. *)
Lemma ExecDirect_repeats_witness :
  exists s', MADB_StmtExecDirect idle_config sample_env 1 (fun _ => None) (fun _ => None) direct_text (-3) idle_stmt = Some (SQL_ERROR, s') /\
    ms_sent s' = [chars "insert into t values(1)"; chars "insert into t values(1)"] /\ my_server (ms_mysql s') = 2%nat.
Proof.
  destruct (MADB_StmtPrepare idle_config sample_env 1 direct_text (-3) true idle_stmt) as [[rc s1]|] eqn:E; [|exfalso; revert E; by vm_compute].
  assert (rc = SQL_SUCCESS /\ ms_State s1 = MADB_SS_EMULATED /\ Original (ms_Query s1) = chars "insert into t values(1)" /\
    ms_mysql s1 = ms_mysql idle_stmt /\ ms_sent s1 = []) as (-> & Hs & Ht & Hm & Hsent) by (revert E; vm_compute; intros [= <- <-]; done).
  destruct (ExecDirect_repeats idle_config sample_env 1 (fun _ => None) (fun _ => None) direct_text (-3) idle_stmt s1 true
    (mysql_real_query (chars "insert into t values(1)") (ms_mysql idle_stmt)).2 E Hs) as (s' & E' & S' & M' & _).
  { rewrite Ht, Hm. by vm_compute. }
  { vm_compute. congruence. }
  rewrite Ht in *. exists s'. split_and!; [exact E'|by rewrite S', Hsent|by rewrite M'].
Defined.

(** A batch of three pieces, two of them counted, after its execution: the first one has a
    result, and dropping the statement loses the structure of the third. *)
Definition owning_stmt : MADB_Stmt nat :=
  set_State (set_Query (set_CspsResult (set_CspsMultiStmtResult (set_MultiStmts (set_results (set_handles idle_stmt
    {[ 1%positive := MkHandle 0 [] 0 false MYSQL_STMT_USE_OR_STORE_CALLED (Some 1%positive); 2%positive := MkHandle 0 [] 0 false MYSQL_STMT_INITTED None;
       3%positive := MkHandle 0 [] 0 false MYSQL_STMT_INITTED None ]})
    {[ 1%positive := MkRes [] (Some []) false ]}) (Some [Some 1%positive; Some 2%positive; Some 3%positive])) (Some [Some 1%positive; None])) (Some 1%positive))
    (default empty_query (ParseQuery (ParseProps.sample_query "select 1;delete from t;commit" true) false))) MADB_SS_EXECUTED.

Lemma lifecycle_owned_witness :
  exists s', drop_handles idle_config 1 owning_stmt = Some s' /\ dom (ms_handles s') = {[ 3%positive ]} /\ ms_results s' = ∅.
Proof.
  destruct (lifecycle_owned idle_config eq_refl 0 [] owning_stmt) as (_ & _ & (s' & E & H1 & H2 & _) & _);
    [|exists s'; split; [exact E|split; [rewrite H1; by vm_compute|exact H2]]].
  split.
  - by split.
  - exists [Some 1%positive; None]. split_and!; [by vm_compute|by vm_compute|vm_compute; lia|by vm_compute| |].
    + intros [|[|i]] h r Hh Hr; [injection Hh as <-; by eexists|injection Hr as <-; by intros []|done].
    + split; [by vm_compute|by vm_compute| |]; (apply (bool_decide_unpack _); by vm_compute).
  - intros Hn. by vm_compute in Hn.
  - intros Hn. by vm_compute in Hn.
  - vm_compute. split; congruence.
  - eexists _, _. split; [by vm_compute|]. split; [by vm_compute|]. vm_compute. by eexists.
Defined.

(** Dropping a batch that was prepared and not executed frees all its structures: the first one is
    the statement's own. *)
Theorem prepared_batch_dropped :
  ('(_, s1) ← prepared_as "select 1;select 2"; s2 ← drop_handles idle_config 1 s1; Some (ms_MultiStmts s1, dom (ms_handles s2))) =
  Some (Some [Some 1%positive; Some 2%positive], ∅).
Proof. vm_compute. reflexivity. Qed.

(** "select ? from t where a='?' ;" has one parameter. *)
Definition marker_text : list Z := chars " select ? from t where a='?' ;".

Lemma Prepare_text_witness :
  exists s', MADB_StmtPrepare idle_config sample_env 1 (Some (marker_text ++ [0])) (-3) false idle_stmt = Some (SQL_SUCCESS, s') /\
    Original (ms_Query s') = chars "select ? from t where a='?'" /\ ms_State s' = MADB_SS_PREPARED /\ ms_ParamCount s' = 1 /\ ms_locks s' = 0.
Proof.
  destruct (Prepare_text idle_config sample_env eq_refl eq_refl eq_refl 0 [] idle_stmt marker_text (-3) false) as (q & Hq & Hgo).
  - split; [by split|split; [by vm_compute..|apply (bool_decide_unpack _); by vm_compute|constructor]|done|done|vm_compute; split; congruence|].
    eexists _, _. split; [by vm_compute|]. split; [by vm_compute|]. vm_compute. by eexists.
  - apply (bool_decide_unpack _). by vm_compute.
  - vm_compute. split; congruence.
  - left. lia.
  - apply (bool_decide_unpack _). by vm_compute.
  - by vm_compute.
  - assert (QUERY_IS_MULTISTMT q = false /\ MADB_ValidateStmt q = true /\ MADB_ParseCursorName q = None)
      as (H1 & H2 & H3) by (revert Hq; vm_compute; intros [= <-]; done).
    destruct (Hgo H1 H2 H3) as (s' & E & Ho & _ & _ & _ & Hst & Hpc & _ & _ & _ & _ & HL & _). exists s'.
    assert (ms_State s' = MADB_SS_PREPARED) as Hs by (apply Hst; by vm_compute).
    split_and!; [exact E|rewrite Ho; by vm_compute|exact Hs|rewrite (Hpc Hs); by vm_compute|by rewrite HL].
Defined.

(** In a batch every piece of the text gets a structure, but the statements are counted by
    their second word: a last statement of one word has a structure that is never closed
    and is never executed; behind an empty statement everything is shifted, so that the
    empty text is executed in place of the last statement. *)
Definition batch_summary (t : string) : option (nat * option (list (option positive)) * list (list Z)) :=
  '(_, s1) ← prepared_as t;
  '(_, s2) ← MADB_StmtExecute idle_config (fun _ => None) (fun _ => None) (set_binds s1 true);
  Some (STMT_COUNT (ms_Query s2), ms_MultiStmts s2, ms_sent s2).

Theorem batch_statement_lost :
  batch_summary "select 1;select 2;commit" =
    Some (2%nat, Some [Some 1%positive; Some 2%positive; Some 3%positive], [chars "select 1"; chars "select 2"]) /\
  batch_summary "select 1;;select 2" = Some (2%nat, Some [Some 1%positive; Some 2%positive; Some 3%positive], [chars "select 1"; []]).
Proof. split; vm_compute; reflexivity. Qed.

End Lifecycle.
