(* ===== verification/Conn.v ===== *)
(** * Conn: the connection handle

    Models, from [ma_connection.c], the connection handle ([MADB_Dbc] of [ma_odbc.h]) and
    its operations: allocation, attributes, the end of a transaction, the check of the
    connection and SQLGetFunctions, on the client library's connection of ClientLib.v, with
    the commands they use of [mariadb_lib.c].  Strings are those of the ANSI driver; the
    conversion of wide strings, the automatic reconnection and the statement that reads
    the current database are arguments.  A handle is not NULL: the operations clear the
    error through it before they compare it with NULL. *)

From Stdlib Require Import ZArith Lia.
From stdpp Require Import base strings numbers option list functions.
From S2P Require Import Prelude Charset Odbc Errors Diag SqlTypes Desc Ird ClientLib Dsn.
Import ErrorOps Diag Client Wide DescOps.

Definition SQL_ATTR_ACCESS_MODE := 101.
Definition SQL_ATTR_AUTOCOMMIT := 102.
Definition SQL_ATTR_LOGIN_TIMEOUT := 103.
Definition SQL_ATTR_TRACE := 104.
Definition SQL_ATTR_TRACEFILE := 105.
Definition SQL_ATTR_TRANSLATE_LIB := 106.
Definition SQL_ATTR_TRANSLATE_OPTION := 107.
Definition SQL_ATTR_TXN_ISOLATION := 108.
Definition SQL_ATTR_CURRENT_CATALOG := 109.
Definition SQL_ATTR_ODBC_CURSORS := 110.
Definition SQL_ATTR_QUIET_MODE := 111.
Definition SQL_ATTR_PACKET_SIZE := 112.
Definition SQL_ATTR_CONNECTION_TIMEOUT := 113.
Definition SQL_ATTR_ANSI_APP := 115.
Definition SQL_ATTR_ENLIST_IN_DTC := 1207.
Definition SQL_ATTR_CONNECTION_DEAD := 1209.
Definition SQL_ATTR_AUTO_IPD := 10001.

Definition SQL_MODE_READ_WRITE := 0.
Definition SQL_ASYNC_ENABLE_OFF := 0.
Definition SQL_AUTOCOMMIT_OFF := 0.
Definition SQL_AUTOCOMMIT_ON := 1.
Definition SQL_CUR_USE_IF_NEEDED := 0.
Definition SQL_CUR_USE_ODBC := 1.
Definition SQL_CUR_USE_DRIVER := 2.
Definition SQL_CD_FALSE := 0.
Definition SQL_CD_TRUE := 1.
Definition SQL_COMMIT := 0.
Definition SQL_ROLLBACK := 1.
Definition SQL_TRANSACTION_READ_UNCOMMITTED := 1.
Definition SQL_TRANSACTION_READ_COMMITTED := 2.
Definition SQL_TRANSACTION_REPEATABLE_READ := 4.
Definition SQL_TRANSACTION_SERIALIZABLE := 8.

Definition SQL_API_SQLALLOCCONNECT := 1.
Definition SQL_API_SQLALLOCENV := 2.
Definition SQL_API_SQLALLOCHANDLE := 1001.
Definition SQL_API_SQLALLOCSTMT := 3.
Definition SQL_API_SQLBINDCOL := 4.
Definition SQL_API_SQLBINDPARAM := 1002.
Definition SQL_API_SQLCANCEL := 5.
Definition SQL_API_SQLCLOSECURSOR := 1003.
Definition SQL_API_SQLCOLATTRIBUTE := 6.
Definition SQL_API_SQLCOLUMNS := 40.
Definition SQL_API_SQLCONNECT := 7.
Definition SQL_API_SQLCOPYDESC := 1004.
Definition SQL_API_SQLDATASOURCES := 57.
Definition SQL_API_SQLDESCRIBECOL := 8.
Definition SQL_API_SQLDISCONNECT := 9.
Definition SQL_API_SQLENDTRAN := 1005.
Definition SQL_API_SQLERROR := 10.
Definition SQL_API_SQLEXECDIRECT := 11.
Definition SQL_API_SQLEXECUTE := 12.
Definition SQL_API_SQLFETCH := 13.
Definition SQL_API_SQLFETCHSCROLL := 1021.
Definition SQL_API_SQLFREECONNECT := 14.
Definition SQL_API_SQLFREEENV := 15.
Definition SQL_API_SQLFREEHANDLE := 1006.
Definition SQL_API_SQLFREESTMT := 16.
Definition SQL_API_SQLGETCONNECTATTR := 1007.
Definition SQL_API_SQLGETCONNECTOPTION := 42.
Definition SQL_API_SQLGETCURSORNAME := 17.
Definition SQL_API_SQLGETDATA := 43.
Definition SQL_API_SQLGETDESCFIELD := 1008.
Definition SQL_API_SQLGETDESCREC := 1009.
Definition SQL_API_SQLGETDIAGFIELD := 1010.
Definition SQL_API_SQLGETDIAGREC := 1011.
Definition SQL_API_SQLGETENVATTR := 1012.
Definition SQL_API_SQLGETFUNCTIONS := 44.
Definition SQL_API_SQLGETINFO := 45.
Definition SQL_API_SQLGETSTMTATTR := 1014.
Definition SQL_API_SQLGETSTMTOPTION := 46.
Definition SQL_API_SQLGETTYPEINFO := 47.
Definition SQL_API_SQLNUMRESULTCOLS := 18.
Definition SQL_API_SQLPARAMDATA := 48.
Definition SQL_API_SQLPREPARE := 19.
Definition SQL_API_SQLPUTDATA := 49.
Definition SQL_API_SQLROWCOUNT := 20.
Definition SQL_API_SQLSETCONNECTATTR := 1016.
Definition SQL_API_SQLSETCONNECTOPTION := 50.
Definition SQL_API_SQLSETCURSORNAME := 21.
Definition SQL_API_SQLSETDESCFIELD := 1017.
Definition SQL_API_SQLSETENVATTR := 1019.
Definition SQL_API_SQLSETPARAM := 22.
Definition SQL_API_SQLSETSTMTATTR := 1020.
Definition SQL_API_SQLSETSTMTOPTION := 51.
Definition SQL_API_SQLSPECIALCOLUMNS := 52.
Definition SQL_API_SQLSTATISTICS := 53.
Definition SQL_API_SQLTABLES := 54.
Definition SQL_API_SQLTRANSACT := 23.
Definition SQL_API_SQLBULKOPERATIONS := 24.
Definition SQL_API_SQLBINDPARAMETER := 72.
Definition SQL_API_SQLCOLATTRIBUTES := 6.
Definition SQL_API_SQLCOLUMNPRIVILEGES := 56.
Definition SQL_API_SQLDESCRIBEPARAM := 58.
Definition SQL_API_SQLDRIVERCONNECT := 41.
Definition SQL_API_SQLDRIVERS := 71.
Definition SQL_API_SQLEXTENDEDFETCH := 59.
Definition SQL_API_SQLMORERESULTS := 61.
Definition SQL_API_SQLNATIVESQL := 62.
Definition SQL_API_SQLNUMPARAMS := 63.
Definition SQL_API_SQLPARAMOPTIONS := 64.
Definition SQL_API_SQLPRIMARYKEYS := 65.
Definition SQL_API_SQLPROCEDURECOLUMNS := 66.
Definition SQL_API_SQLPROCEDURES := 67.
Definition SQL_API_SQLSETPOS := 68.
Definition SQL_API_SQLSETSCROLLOPTIONS := 69.
Definition SQL_API_SQLTABLEPRIVILEGES := 70.
Definition SQL_API_ALL_FUNCTIONS := 0.
Definition SQL_API_ODBC3_ALL_FUNCTIONS := 999.
Definition SQL_API_ODBC3_ALL_FUNCTIONS_SIZE := 250%nat.

(** ** Data *)

(** The numeric fields of [MADB_Dbc]. *)
Inductive dbc_field :=
| AccessMode | IsAnsi | IsolationLevel | AsyncEnable | AutoCommit | EnlistInDtc | LoginTimeout | MetadataId
| OdbcCursors | PacketSize | QuietMode | TxnIsolation | DBCharsetnr | DbcOptions.

#[export] Instance dbc_field_eq_dec : EqDecision dbc_field.
Proof. solve_decision. Defined.

(** Where [ConnOrSrcCharset] points. *)
Inductive charset_ref := CS_NULL | CS_SourceAnsi | CS_Connection.

(** A command that was sent: COM_QUERY or COM_INIT_DB, its text, and whether it failed. *)
Inductive command_code := COM_INIT_DB | COM_QUERY | COM_PING.

#[export] Instance command_code_eq_dec : EqDecision command_code.
Proof. solve_decision. Defined.

Record MADB_Dbc (A : Type) := MkDbc {
  db_mariadb : option (MYSQL A);
  db_num : dbc_field -> Z;
  db_CatalogName : option (list Z);
  db_Charset : option (list Z); (** the name of [Charset] *)
  db_ConnOrSrcCharset : charset_ref;
  db_Error : MADB_Error;
  db_locks : Z; (** how often this thread holds the lock of the connection *)
  db_log : list (command_code * list Z * bool); (** commands sent, and whether they failed *)
}.
Arguments MkDbc {A}. Arguments db_mariadb {A}. Arguments db_num {A}. Arguments db_CatalogName {A}. Arguments db_Charset {A}.
Arguments db_ConnOrSrcCharset {A}. Arguments db_Error {A}. Arguments db_locks {A}. Arguments db_log {A}.

(** The answer of a server to a command that is not a query. *)
Class Commands (A : Type) := answer : command_code -> list Z -> A -> response * A.

Module Conn.

(** [MADB_IsolationLevel] *)
Definition MADB_IsolationLevel : list (Z * string) :=
  [(SQL_TRANSACTION_REPEATABLE_READ, "REPEATABLE READ"); (SQL_TRANSACTION_READ_COMMITTED, "READ COMMITTED");
   (SQL_TRANSACTION_READ_UNCOMMITTED, "READ UNCOMMITTED"); (SQL_TRANSACTION_SERIALIZABLE, "SERIALIZABLE")]%string.

Definition isolation_query (name : string) : list Z := chars "SET SESSION TRANSACTION ISOLATION LEVEL " ++ chars name.

Section Connection.
Context {A : Type} `{Server A} `{Commands A}.
Implicit Types d : MADB_Dbc A.

Definition set_mariadb d (m : option (MYSQL A)) : MADB_Dbc A :=
  MkDbc m (db_num d) (db_CatalogName d) (db_Charset d) (db_ConnOrSrcCharset d) (db_Error d) (db_locks d) (db_log d).
Definition set_field d (f : dbc_field) (v : Z) : MADB_Dbc A :=
  MkDbc (db_mariadb d) (<[f := v]> (db_num d)) (db_CatalogName d) (db_Charset d) (db_ConnOrSrcCharset d) (db_Error d) (db_locks d) (db_log d).
Definition set_catalog d (c : option (list Z)) : MADB_Dbc A :=
  MkDbc (db_mariadb d) (db_num d) c (db_Charset d) (db_ConnOrSrcCharset d) (db_Error d) (db_locks d) (db_log d).
Definition set_charset d (c : option (list Z)) (r : charset_ref) : MADB_Dbc A :=
  MkDbc (db_mariadb d) (db_num d) (db_CatalogName d) c r (db_Error d) (db_locks d) (db_log d).
Definition set_error d (E : MADB_Error) : MADB_Dbc A :=
  MkDbc (db_mariadb d) (db_num d) (db_CatalogName d) (db_Charset d) (db_ConnOrSrcCharset d) E (db_locks d) (db_log d).
Definition add_locks d (n : Z) : MADB_Dbc A :=
  MkDbc (db_mariadb d) (db_num d) (db_CatalogName d) (db_Charset d) (db_ConnOrSrcCharset d) (db_Error d) (db_locks d + n) (db_log d).
Definition add_log d (c : command_code) (t : list Z) (failed : bool) : MADB_Dbc A :=
  MkDbc (db_mariadb d) (db_num d) (db_CatalogName d) (db_Charset d) (db_ConnOrSrcCharset d) (db_Error d) (db_locks d)
    (db_log d ++ [(c, t, failed)]).

(** [LOCK_MARIADB] and [UNLOCK_MARIADB] *)
Definition LOCK d := add_locks d 1.
Definition UNLOCK d := add_locks d (-1).

(** [MADB_SetError] on the handle, and the return code. *)
Definition fail d (code : nat) (msg : option (list Z)) (native : Z) : Z * MADB_Dbc A :=
  let E := MADB_SetError (db_Error d) code msg native in (ReturnValue E, set_error d E).
Definition dbc_native_fail d (m : MYSQL A) : Z * MADB_Dbc A :=
  let E := MADB_SetNativeError (db_Error d) (Some (my_diag m)) in (ReturnValue E, set_error d E).
Definition finish d : Z * MADB_Dbc A := (ReturnValue (db_Error d), d).

(** ** Commands of the client library *)

(** [ma_simple_command] of a command whose answer is one packet.  [reconnect] is
    [mariadb_reconnect]: the connection afterwards, or nothing when it fails. *)
Definition ma_simple_command (reconnect : MYSQL A -> option (MYSQL A)) (c : command_code) (arg : list Z) (m : MYSQL A) : Z * MYSQL A :=
  match (if my_connected m then Some m else reconnect m) with
  | None => (1, set_diag m server_gone)
  | Some m =>
      if negb (my_status m =? MYSQL_STATUS_READY) || my_more m then (-1, set_diag m out_of_sync)
      else
        let '(r, a) := answer c arg (my_server m) in
        let m1 := set_server (set_affected (set_diag m no_diag) MYSQL_COUNT_ERROR) a in
        match r with
        | RespErr d => (1, error_packet m1 d)
        | RespLost => (1, end_server m1)
        | _ => (0, m1)
        end
  end.

Definition no_reconnect (m : MYSQL A) : option (MYSQL A) := None.

Definition mysql_select_db (db : option (list Z)) (m : MYSQL A) : Z * MYSQL A :=
  match db with
  | None => (1, m)
  | Some db => ma_simple_command no_reconnect COM_INIT_DB db m
  end.

Definition mysql_ping (reconnect : option (MYSQL A -> option (MYSQL A))) (m : MYSQL A) : Z * MYSQL A :=
  match reconnect with
  | None => ma_simple_command no_reconnect COM_PING [] m
  | Some f => let '(rc, m1) := ma_simple_command f COM_PING [] m in
              if rc =? 0 then (rc, m1) else ma_simple_command f COM_PING [] m1
  end.

Definition autocommit_query (mode : Z) : list Z := if mode =? 0 then chars "SET autocommit=0" else chars "SET autocommit=1".
Definition mysql_autocommit (mode : Z) (m : MYSQL A) : bool * MYSQL A := mysql_real_query (autocommit_query mode) m.
Definition mysql_commit (m : MYSQL A) : bool * MYSQL A := mysql_real_query (chars "COMMIT") m.
Definition mysql_rollback (m : MYSQL A) : bool * MYSQL A := mysql_real_query (chars "ROLLBACK") m.

(** A query on the connection of the handle: it failed, and the handle. *)
Definition run d (m : MYSQL A) (t : list Z) : bool * MADB_Dbc A :=
  let '(failed, m') := mysql_real_query t m in (failed, add_log (set_mariadb d (Some m')) COM_QUERY t failed).

(** The error of the connection in its own record. *)
Definition report d (code : nat) : Z * MADB_Dbc A :=
  match db_mariadb d with
  | Some m => fail d code (Some (n_error (my_diag m))) (n_errno (my_diag m))
  | None => fail d code None 0
  end.

(** ** Allocation *)

(** What [MADB_CALLOC] and [MADB_DbcInit] leave in a new handle. *)
Definition new_dbc (prefix : list Z) : MADB_Dbc A :=
  MkDbc None (<[AutoCommit := 4]> (fun _ => 0)) None None CS_NULL (MADB_PutErrorPrefix prefix None calloc_error) 0 [].

(** The environment: its error and its connections. *)
Definition MADB_DbcInit (prefix : list Z) (block : option positive) (EnvError : MADB_Error) (Dbcs : list positive)
    : option (MADB_Dbc A) * MADB_Error * list positive :=
  let E := MADB_CLEAR_ERROR EnvError in
  match block with
  | Some p => (Some (new_dbc prefix), E, p :: Dbcs)
  | None => (None, MADB_SetError E MADB_ERR_HY001 None 0, Dbcs)
  end.

(** ** Attributes *)

(** [MADB_CHECK_ATTRIBUTE]: [true] when it returns HY024.  The second [if] is the body of
    the first one. *)
Fixpoint MADB_CHECK_ATTRIBUTE (ValidAttrs : list Z) (ok : bool) (my_attr : Z) : bool :=
  match ValidAttrs with
  | [] => false
  | v :: rest =>
      if ok then false
      else
        let ok := v =? my_attr in
        if ok then if negb ok then true else MADB_CHECK_ATTRIBUTE rest ok my_attr
        else MADB_CHECK_ATTRIBUTE rest ok my_attr
  end.

(** A value that is replaced by the only one supported. *)
Definition set_fixed d (f : dbc_field) (ValuePtr v : Z) : Z * MADB_Dbc A :=
  finish (set_field (if ValuePtr =? v then d else (fail d MADB_ERR_01S02 None 0).2) f v).

Definition set_autocommit (ValuePtr : Z) d : Z * MADB_Dbc A :=
  if MADB_CHECK_ATTRIBUTE [SQL_AUTOCOMMIT_ON; SQL_AUTOCOMMIT_OFF] false ValuePtr then fail d MADB_ERR_HY024 None 0
  else
    match db_mariadb d with
    | None => finish (set_field d AutoCommit (wrapu 32 ValuePtr))
    | Some m =>
        if negb (db_num d EnlistInDtc =? 0) then fail d MADB_ERR_25000 None 0
        else
          let mode := wraps 8 ValuePtr in
          let '(failed, m') := mysql_autocommit mode m in
          let d1 := add_log (set_mariadb d (Some m')) COM_QUERY (autocommit_query mode) failed in
          if failed : bool then report d1 MADB_ERR_HY001 else finish (set_field d1 AutoCommit (wrapu 32 ValuePtr))
    end.

(** [text] is what [ValuePtr] points at; a NULL pointer has length 0. *)
Definition set_current_catalog (from_wchar : option (list Z) -> Z -> option (list Z)) (text : option (list Z)) (StringLength : Z)
    (isWChar : bool) d : Z * MADB_Dbc A :=
  let name :=
    if isWChar then from_wchar text StringLength
    else Some (match text with Some b => take (Z.to_nat (SafeStrlen b StringLength)) (cstr b) | None => [] end) in
  let d1 := set_catalog d name in
  match db_mariadb d with
  | None => finish d1
  | Some m =>
      let '(rc, m') := mysql_select_db name m in
      let d2 := set_mariadb d1 (Some m') in
      let d3 := match name with Some n => add_log d2 COM_INIT_DB n (negb (rc =? 0)) | None => d2 end in
      if rc =? 0 then finish d3 else report d3 MADB_ERR_HY001
  end.

Definition set_packet_size (ValuePtr : Z) d : Z * MADB_Dbc A :=
  match db_mariadb d with
  | Some _ => fail d MADB_ERR_HY001 None 0
  | None => finish (set_field d PacketSize (wrapu 32 ValuePtr))
  end.

Definition set_isolation (ValuePtr : Z) d : Z * MADB_Dbc A :=
  match db_mariadb d with
  | None => finish (set_field d TxnIsolation (wraps 32 ValuePtr))
  | Some m =>
      match find (fun x => x.1 =? wraps 64 ValuePtr) MADB_IsolationLevel with
      | None => fail d MADB_ERR_HY024 None 0
      | Some (_, name) =>
          let '(failed, d1) := run (LOCK d) m (isolation_query name) in
          if failed : bool then report (UNLOCK d1) MADB_ERR_HY001
          else finish (set_field (UNLOCK d1) TxnIsolation (wraps 32 ValuePtr))
      end
  end.

(** [ansi] is the name of [SourceAnsiCs]. *)
Definition set_ansi (ansi : option (list Z)) (ValuePtr : Z) d : Z * MADB_Dbc A :=
  finish (if ValuePtr =? 0 then set_field d IsAnsi 0 else set_charset (set_field d IsAnsi 1) ansi CS_SourceAnsi).

Definition MADB_DbcSetAttr (from_wchar : option (list Z) -> Z -> option (list Z)) (ansi : option (list Z))
    (Attribute ValuePtr : Z) (text : option (list Z)) (StringLength : Z) (isWChar : bool) d0 : Z * MADB_Dbc A :=
  let d := set_error d0 (MADB_CLEAR_ERROR (db_Error d0)) in
  if Attribute =? SQL_ATTR_ACCESS_MODE then set_fixed d AccessMode ValuePtr SQL_MODE_READ_WRITE
  else if Attribute =? SQL_ATTR_ANSI_APP then set_ansi ansi ValuePtr d
  else if Attribute =? SQL_ATTR_ASYNC_ENABLE then set_fixed d AsyncEnable ValuePtr SQL_ASYNC_ENABLE_OFF
  else if Attribute =? SQL_ATTR_AUTO_IPD then fail d MADB_ERR_HY092 None 0
  else if Attribute =? SQL_ATTR_AUTOCOMMIT then set_autocommit ValuePtr d
  else if Attribute =? SQL_ATTR_CONNECTION_DEAD then fail d MADB_ERR_HY092 None 0
  else if Attribute =? SQL_ATTR_CURRENT_CATALOG then set_current_catalog from_wchar text StringLength isWChar d
  else if Attribute =? SQL_ATTR_LOGIN_TIMEOUT then finish (set_field d LoginTimeout (wrapu 32 ValuePtr))
  else if Attribute =? SQL_ATTR_METADATA_ID then finish (set_field d MetadataId (wrapu 32 ValuePtr))
  else if Attribute =? SQL_ATTR_ODBC_CURSORS then
    if MADB_CHECK_ATTRIBUTE [SQL_CUR_USE_IF_NEEDED; SQL_CUR_USE_ODBC; SQL_CUR_USE_DRIVER] false ValuePtr
    then fail d MADB_ERR_HY024 None 0 else set_fixed d OdbcCursors ValuePtr SQL_CUR_USE_ODBC
  else if Attribute =? SQL_ATTR_ENLIST_IN_DTC then fail d MADB_ERR_HYC00 None 0
  else if Attribute =? SQL_ATTR_PACKET_SIZE then set_packet_size ValuePtr d
  else if Attribute =? SQL_ATTR_QUIET_MODE then finish (set_field d QuietMode ValuePtr)
  else if Attribute =? SQL_ATTR_TXN_ISOLATION then set_isolation ValuePtr d
  else finish d.

(** The bytes of a number, and writing them at [ValuePtr]; a buffer that is too short is
    overrun. *)
Fixpoint le_bytes (n : nat) (v : Z) : list Z :=
  match n with
  | O => []
  | S n' => wrapu 8 v :: le_bytes n' (Z.shiftr v 8)
  end.
Fixpoint le_value (l : list Z) : Z :=
  match l with
  | [] => 0
  | c :: l' => c + 256 * le_value l'
  end.
Definition write_number (n : nat) (v : Z) (buf : list Z) : option (list Z) :=
  if (n <=? length buf)%nat then Some (blit buf 0 (le_bytes n v)) else None.

(** [MADB_Dbc_GetCurrentDB]: [query] allocates a statement, executes the query, fetches
    and reads the column; it gives nothing when there is no statement, the error of the
    statement, or the text read.  The result is the code, the length (if it is stored), the
    buffer and the handle. *)
Definition current_db_query : list Z := chars "SELECT IF(DATABASE() IS NOT NULL AND DATABASE() != '',DATABASE(),'null')".

Definition MADB_Dbc_GetCurrentDB (query : list Z -> MADB_Dbc A -> option (MADB_Error + list Z) * MADB_Dbc A)
    (CurrentDB : option (list Z)) (CurrentDBLength : Z) d0 : Z * option Z * option (list Z) * MADB_Dbc A :=
  let d := set_error d0 (MADB_CLEAR_ERROR (db_Error d0)) in
  match query current_db_query d with
  | (None, d1) => (SQL_ERROR, None, CurrentDB, d1)
  | (Some (inl E), d1) =>
      let d2 := set_error d1 (MADB_CopyError (db_Error d1) E) in (ReturnValue (db_Error d2), None, CurrentDB, d2)
  | (Some (inr text), d1) =>
      let '(size, buf, E) := MADB_SetString CurrentDB CurrentDBLength (Some text) SQL_NTS (db_Error d1) in
      let d2 := set_error d1 E in (ReturnValue E, Some (wraps 16 size), buf, d2)
  end.

(** SQL_ATTR_CURRENT_CATALOG: when the database is unknown, the name set before.  [junk] is
    the uninitialised [StrLen]. *)
Definition get_catalog (query : list Z -> MADB_Dbc A -> option (MADB_Error + list Z) * MADB_Dbc A) (junk : Z)
    (buf : option (list Z)) (BufferLength : Z) d : Z * Z * option (list Z) * MADB_Dbc A :=
  let '(ret, len, buf1, d1) := MADB_Dbc_GetCurrentDB query buf BufferLength d in
  match db_CatalogName d1 with
  | Some name =>
      if SQL_SUCCEEDED ret then (ret, default junk len, buf1, d1)
      else
        let '(size, buf2, E) := MADB_SetString buf1 BufferLength (Some name) (Z.of_nat (length (cstr name))) (MADB_CLEAR_ERROR (db_Error d1)) in
        (SQL_SUCCESS, wraps 16 size, buf2, set_error d1 E)
  | None => (ret, default junk len, buf1, d1)
  end.

(** The first row of a stored result. *)
Definition mysql_fetch_row (r : option MYSQL_RES) : option row := r ← r; rows ← res_data r; rows !! 0%nat.

(** SQL_ATTR_TXN_ISOLATION: the level set, or the one of the session.  A row without a
    value is compared through a NULL pointer. *)
Definition isolation_variable : list Z :=
  chars "SELECT VARIABLE_VALUE FROM INFORMATION_SCHEMA.SESSION_VARIABLES WHERE VARIABLE_NAME='TX_ISOLATION'".

Definition get_isolation d : option (Z * Z * MADB_Dbc A) :=
  if negb (db_num d TxnIsolation =? 0) then Some (ReturnValue (db_Error d), db_num d TxnIsolation, d)
  else
    match db_mariadb d with
    | None => Some (ReturnValue (db_Error d), SQL_TRANSACTION_REPEATABLE_READ, d)
    | Some m =>
        let '(failed, d1) := run (LOCK d) m isolation_variable in
        m1 ← db_mariadb d1;
        if failed : bool then
          let '(rc, d2) := dbc_native_fail (UNLOCK d1) m1 in Some (rc, SQL_TRANSACTION_REPEATABLE_READ, d2)
        else
          let '(res, m2) := mysql_store_result m1 in
          v ← match mysql_fetch_row res with
              | None => Some SQL_TRANSACTION_REPEATABLE_READ
              | Some r =>
                  x ← r !! 0%nat;
                  t ← x;
                  Some (match find (fun y => bool_decide (cstr t = chars y.2)) MADB_IsolationLevel with
                        | Some (v, _) => v
                        | None => SQL_TRANSACTION_REPEATABLE_READ
                        end)
              end;
          let d2 := set_mariadb (UNLOCK d1) (Some (mysql_free_result res m2)) in
          Some (ReturnValue (db_Error d2), v, d2)
    end.

(** [MADB_DbcGetAttr]: the code, the buffer at [ValuePtr], what is stored at
    [StringLengthPtr] and the handle.  [addr] is [ValuePtr] as a number.  [None]: the buffer
    is overrun or there is no connection to ping. *)
Definition MADB_DbcGetAttr (query : list Z -> MADB_Dbc A -> option (MADB_Error + list Z) * MADB_Dbc A) (junk net_buffer_length : Z)
    (Attribute addr : Z) (ValuePtr : option (list Z)) (BufferLength : Z) (has_length : bool) d0
    : option (Z * option (list Z) * option Z * MADB_Dbc A) :=
  let d := set_error d0 (MADB_CLEAR_ERROR (db_Error d0)) in
  match ValuePtr with
  | None =>
      if negb (Attribute =? SQL_ATTR_CURRENT_CATALOG) then Some (SQL_SUCCESS, None, None, d)
      else if negb has_length then let '(rc, d1) := fail d MADB_ERR_01004 None 0 in Some (rc, None, None, d1)
      else let '(rc, len, b, d1) := get_catalog query junk None BufferLength d in Some (rc, b, Some len, d1)
  | Some buf =>
      let number n v d := b ← write_number n v buf; Some (ReturnValue (db_Error d), Some b, None, d) in
      if Attribute =? SQL_ATTR_CURRENT_CATALOG then
        if negb has_length && (BufferLength =? 0) then let '(rc, d1) := fail d MADB_ERR_01004 None 0 in Some (rc, Some buf, None, d1)
        else
          let '(rc, len, b, d1) := get_catalog query junk (Some buf) BufferLength d in
          Some (rc, b, if has_length then Some len else None, d1)
      else if Attribute =? SQL_ATTR_ACCESS_MODE then number 4%nat SQL_MODE_READ_WRITE d
      else if Attribute =? SQL_ATTR_ASYNC_ENABLE then number 8%nat SQL_ASYNC_ENABLE_OFF d
      else if Attribute =? SQL_ATTR_AUTO_IPD then number 4%nat SQL_FALSE d
      else if Attribute =? SQL_ATTR_AUTOCOMMIT then number 4%nat (db_num d AutoCommit) d
      else if Attribute =? SQL_ATTR_CONNECTION_DEAD then
        m ← db_mariadb d;
        let '(rc, m1) := mysql_ping None m in
        let errno := n_errno (my_diag m1) in
        number 4%nat (if negb (rc =? 0) && ((errno =? CR_SERVER_GONE_ERROR) || (errno =? CR_SERVER_LOST)) then SQL_CD_TRUE else SQL_CD_FALSE)
          (add_log (set_mariadb d (Some m1)) COM_PING [] (negb (rc =? 0)))
      else if Attribute =? SQL_ATTR_LOGIN_TIMEOUT then number 4%nat (db_num d LoginTimeout) d
      else if Attribute =? SQL_ATTR_CONNECTION_TIMEOUT then number 4%nat 0 d
      else if Attribute =? SQL_ATTR_METADATA_ID then
        b ← write_number 4 (db_num d MetadataId) buf;
        b' ← write_number 4 SQL_CUR_USE_ODBC b;
        Some (ReturnValue (db_Error d), Some b', None, d)
      else if Attribute =? SQL_ATTR_ODBC_CURSORS then number 4%nat SQL_CUR_USE_ODBC d
      else if Attribute =? SQL_ATTR_ENLIST_IN_DTC then let '(rc, d1) := fail d MADB_ERR_HYC00 None 0 in Some (rc, Some buf, None, d1)
      else if Attribute =? SQL_ATTR_PACKET_SIZE then number 4%nat net_buffer_length d
      else if Attribute =? SQL_ATTR_QUIET_MODE then Some (ReturnValue (db_Error d), Some buf, None, set_field d QuietMode addr)
      else if (Attribute =? SQL_ATTR_TRACE) || (Attribute =? SQL_ATTR_TRACEFILE) || (Attribute =? SQL_ATTR_TRANSLATE_LIB)
              || (Attribute =? SQL_ATTR_TRANSLATE_OPTION) then Some (ReturnValue (db_Error d), Some buf, None, d)
      else if Attribute =? SQL_ATTR_ANSI_APP then number 4%nat SQL_SUCCESS d
      else if Attribute =? SQL_ATTR_TXN_ISOLATION then
        '(rc, v, d1) ← get_isolation d;
        b ← write_number 8 v buf;
        Some (rc, Some b, None, d1)
      else let '(rc, d1) := fail d MADB_ERR_HYC00 None 0 in Some (rc, Some buf, None, d1)
  end.

(** ** Transactions and the state of the connection *)

(** [CheckConnection]: with AUTO_RECONNECT the client library tries [reconnect]. *)
Definition CheckConnection (reconnect : MYSQL A -> option (MYSQL A)) d : bool * MADB_Dbc A :=
  match db_mariadb d with
  | None => (false, d)
  | Some m =>
      if my_connected m then (true, d)
      else if negb (Z.land (db_num d DbcOptions) MADB_OPT_FLAG_AUTO_RECONNECT =? 0) then
        let '(rc, m1) := mysql_ping (Some reconnect) m in
        (rc =? 0, add_log (set_mariadb d (Some m1)) COM_PING [] (negb (rc =? 0)))
      else (false, d)
  end.

Definition end_transaction (t : list Z) d : MADB_Dbc A :=
  match db_mariadb d with
  | None => d
  | Some m =>
      let '(failed, d1) := run d m t in
      match (failed : bool), db_mariadb d1 with
      | true, Some m1 => (dbc_native_fail d1 m1).2
      | _, _ => d1
      end
  end.

Definition MADB_DbcEndTran (CompletionType : Z) d0 : Z * MADB_Dbc A :=
  let d := LOCK (set_error d0 (MADB_CLEAR_ERROR (db_Error d0))) in
  finish (UNLOCK (if CompletionType =? SQL_ROLLBACK then end_transaction (chars "ROLLBACK") d
                  else if CompletionType =? SQL_COMMIT then end_transaction (chars "COMMIT") d
                  else (fail d MADB_ERR_HY012 None 0).2)).

(** [MA_SQLEndTran]: of an environment, with all its connections, and of a connection. *)
Definition EndTran_ENV (CompletionType : Z) (Dbcs : list (MADB_Dbc A)) : Z * list (MADB_Dbc A) :=
  (SQL_SUCCESS, map (fun d => (MADB_DbcEndTran CompletionType d).2) Dbcs).
Definition EndTran_DBC (CompletionType : Z) d : Z * MADB_Dbc A :=
  finish (match db_mariadb d with
          | None => (fail d MADB_ERR_08002 None 0).2
          | Some _ => (MADB_DbcEndTran CompletionType d).2
          end).

(** [SQLDisconnect], behind the loops that free the statements and descriptors of the
    connection. *)
Definition disconnect d : Z * MADB_Dbc A :=
  let '(ret, d1) := match db_mariadb d with
                    | Some _ => (SQL_SUCCESS, set_mariadb d None)
                    | None => fail d MADB_ERR_08003 None 0
                    end in
  (ret, set_charset d1 (db_Charset d1) CS_NULL).

(** ** SQLGetFunctions *)

(** [MADB_supported_api] *)
Definition MADB_supported_api : list Z :=
  [SQL_API_SQLALLOCCONNECT; SQL_API_SQLALLOCENV; SQL_API_SQLALLOCHANDLE; SQL_API_SQLALLOCSTMT;
   SQL_API_SQLBINDCOL; SQL_API_SQLBINDPARAM; SQL_API_SQLCANCEL; SQL_API_SQLCLOSECURSOR;
   SQL_API_SQLCOLATTRIBUTE; SQL_API_SQLCOLUMNS; SQL_API_SQLCONNECT; SQL_API_SQLCOPYDESC;
   SQL_API_SQLDATASOURCES; SQL_API_SQLDESCRIBECOL; SQL_API_SQLDISCONNECT; SQL_API_SQLENDTRAN;
   SQL_API_SQLERROR; SQL_API_SQLEXECDIRECT; SQL_API_SQLEXECUTE; SQL_API_SQLFETCH;
   SQL_API_SQLFETCHSCROLL; SQL_API_SQLFREECONNECT; SQL_API_SQLFREEENV; SQL_API_SQLFREEHANDLE;
   SQL_API_SQLFREESTMT; SQL_API_SQLGETCONNECTATTR; SQL_API_SQLGETCONNECTOPTION; SQL_API_SQLGETCURSORNAME;
   SQL_API_SQLGETDATA; SQL_API_SQLGETDESCFIELD; SQL_API_SQLGETDESCREC; SQL_API_SQLGETDIAGFIELD;
   SQL_API_SQLGETDIAGREC; SQL_API_SQLGETENVATTR; SQL_API_SQLGETFUNCTIONS; SQL_API_SQLGETINFO;
   SQL_API_SQLGETSTMTATTR; SQL_API_SQLGETSTMTOPTION; SQL_API_SQLGETTYPEINFO; SQL_API_SQLNUMRESULTCOLS;
   SQL_API_SQLPARAMDATA; SQL_API_SQLPREPARE; SQL_API_SQLPUTDATA; SQL_API_SQLROWCOUNT;
   SQL_API_SQLSETCONNECTATTR; SQL_API_SQLSETCONNECTOPTION; SQL_API_SQLSETCURSORNAME; SQL_API_SQLSETDESCFIELD;
   SQL_API_SQLSETENVATTR; SQL_API_SQLSETPARAM; SQL_API_SQLSETSTMTATTR; SQL_API_SQLSETSTMTOPTION;
   SQL_API_SQLSPECIALCOLUMNS; SQL_API_SQLSTATISTICS; SQL_API_SQLTABLES; SQL_API_SQLTRANSACT;
   SQL_API_SQLBULKOPERATIONS; SQL_API_SQLBINDPARAMETER; SQL_API_SQLCOLATTRIBUTES; SQL_API_SQLCOLUMNPRIVILEGES;
   SQL_API_SQLDESCRIBEPARAM; SQL_API_SQLDRIVERCONNECT; SQL_API_SQLDRIVERS; SQL_API_SQLEXTENDEDFETCH;
   SQL_API_SQLMORERESULTS; SQL_API_SQLNATIVESQL; SQL_API_SQLNUMPARAMS; SQL_API_SQLPARAMOPTIONS;
   SQL_API_SQLPRIMARYKEYS; SQL_API_SQLPROCEDURECOLUMNS; SQL_API_SQLPROCEDURES; SQL_API_SQLSETPOS;
   SQL_API_SQLSETSCROLLOPTIONS; SQL_API_SQLTABLEPRIVILEGES].

(** The application's array of SQLUSMALLINT; a write behind it is undefined. *)
Definition clear_array (n : nat) (b : list Z) : option (list Z) :=
  if (n <=? length b)%nat then Some (replicate n 0 ++ drop n b) else None.
Definition array_write (b : list Z) (i v : Z) : option (list Z) :=
  if (0 <=? i) && (i <? Z.of_nat (length b)) then Some (<[Z.to_nat i := wrapu 16 v]> b) else None.

Fixpoint bit_functions (api : list Z) (b : list Z) : option (list Z) :=
  match api with
  | [] => Some b
  | function :: api' =>
      let i := Z.shiftr function 4 in
      old ← b !! Z.to_nat i;
      b' ← array_write b i (Z.lor old (Z.shiftl 1 (Z.land function 15)));
      bit_functions api' b'
  end.

Fixpoint flag_functions (api : list Z) (b : list Z) : option (list Z) :=
  match api with
  | [] => Some b
  | function :: api' =>
      b' ← (if function <? 100 then array_write b function SQL_TRUE else Some b);
      flag_functions api' b'
  end.

Definition MADB_DbcGetFunctions (FunctionId : Z) (SupportedPtr : list Z) d : option (Z * list Z * MADB_Dbc A) :=
  if FunctionId =? SQL_API_ODBC3_ALL_FUNCTIONS then
    b ← clear_array SQL_API_ODBC3_ALL_FUNCTIONS_SIZE SupportedPtr;
    b' ← bit_functions MADB_supported_api b;
    Some (SQL_SUCCESS, b', d)
  else if FunctionId =? SQL_API_ALL_FUNCTIONS then
    b ← clear_array 100 SupportedPtr;
    b' ← flag_functions MADB_supported_api b;
    Some (SQL_SUCCESS, b', d)
  else
    b ← array_write SupportedPtr 0 SQL_FALSE;
    if existsb (Z.eqb FunctionId) MADB_supported_api then b' ← array_write b 0 SQL_TRUE; Some (SQL_SUCCESS, b', d)
    else
      let native := match db_mariadb d with Some m => n_errno (my_diag m) | None => 0 end in
      let '(rc, d1) := fail d MADB_ERR_HY095 (Some (chars "Function type out of range")) native in
      Some (rc, b, d1).

End Connection.
End Conn.
