(* ===== verification/Connect.v ===== *)
(** * Connect: establishing a connection

    Models [MADB_DbcConnect] and [MADB_DbcDriverConnect] of [ma_connection.c],
    [SetDBCharsetnr] of [ma_helper.c], [InitClientCharset] of [ma_string.c] and
    [SQLConnectCommon] of [odbc_3_api.c], on the data source of Dsn.v and the handle of
    Conn.v: the options given to the client library, in order, the call of
    [mysql_real_connect] and what is sent to the server afterwards.  The client library's
    [mysql_real_connect] and its character sets, the profile of the installer and the
    browser login are arguments.  The platform is posix, where no dialog can be shown. *)

From Stdlib Require Import ZArith Lia.
From stdpp Require Import base strings numbers option list functions.
From S2P Require Import Prelude Decimal Charset Odbc Errors Diag SqlTypes Desc Ird ClientLib Dsn Conn.
Import ErrorOps Diag Client Wide Mbstr DescOps DsnOps Conn.

Definition CLIENT_FOUND_ROWS := 2.
Definition CLIENT_NO_SCHEMA := 16.
Definition CLIENT_COMPRESS := 32.
Definition CLIENT_IGNORE_SPACE := 256.
Definition CLIENT_MULTI_STATEMENTS := 65536.
Definition MADB_OPT_FLAG_FOUND_ROWS := 2.
Definition MADB_OPT_FLAG_NO_SCHEMA := 64.
Definition MADB_OPT_FLAG_COMPRESSED_PROTO := 2048.
Definition MADB_OPT_FLAG_IGNORE_SPACE := 4096.
Definition MADB_OPT_FLAG_MULTI_STATEMENTS := 67108864.
Definition MYSQL_PROTOCOL_SOCKET := 2.
Definition SQL_DRIVER_NOPROMPT := 0.
Definition SQL_DRIVER_COMPLETE := 1.
Definition SQL_DRIVER_PROMPT := 2.
Definition SQL_DRIVER_COMPLETE_REQUIRED := 3.

(** The options of the client library the driver sets. *)
Inductive mysql_option :=
| MYSQL_PLUGIN_DIR | MYSQL_READ_DEFAULT_GROUP | MYSQL_SET_CHARSET_NAME | MYSQL_INIT_COMMAND | MYSQL_OPT_CONNECT_TIMEOUT
| MYSQL_OPT_READ_TIMEOUT | MYSQL_OPT_WRITE_TIMEOUT | MYSQL_OPT_RECONNECT | MYSQL_OPT_NAMED_PIPE | MARIADB_OPT_INTERACTIVE
| MYSQL_REPORT_DATA_TRUNCATION | MYSQL_OPT_PROTOCOL | MYSQL_OPT_SSL_ENFORCE | MYSQL_OPT_SSL_KEY | MYSQL_OPT_SSL_CERT
| MYSQL_OPT_SSL_CA | MYSQL_OPT_SSL_CAPATH | MYSQL_OPT_SSL_CIPHER | MARIADB_OPT_TLS_VERSION | MYSQL_OPT_SSL_VERIFY_SERVER_CERT
| MYSQL_OPT_SSL_CRL | MYSQL_OPT_SSL_CRLPATH | MYSQL_SERVER_PUBLIC_KEY | MARIADB_OPT_TLS_PEER_FP | MARIADB_OPT_TLS_PEER_FP_LIST
| MARIADB_OPT_TLS_PASSPHRASE | MYSQL_OPT_CONNECT_ATTR_ADD.

#[export] Instance mysql_option_eq_dec : EqDecision mysql_option.
Proof. solve_decision. Defined.

Inductive option_value := OptText (t : list Z) | OptNum (n : Z) | OptPair (k v : list Z).

Definition options := list (mysql_option * option_value).

(** One call of [mysql_real_connect], with the options set on the handle so far. *)
Record connect_call := MkCall {
  cc_options : options;
  cc_host : option (list Z);
  cc_user : option (list Z);
  cc_passwd : option (list Z);
  cc_db : option (list Z);
  cc_port : Z;
  cc_socket : option (list Z);
  cc_flags : Z;
}.

(** What is outside: the client library ([mysql_init], [mysql_real_connect], its character
    sets by name and by collation, the name of the charset of the locale), the
    default plugin directory, the driver's version, the size of SQLWCHAR and the browser. *)
Record connect_env (A : Type) := MkConnectEnv {
  ce_init : option (MYSQL A);
  ce_real_connect : connect_call -> MYSQL A -> bool * MYSQL A;
  ce_charset : list Z -> option (list Z);
  ce_collation : list Z -> option Z;
  ce_auto_charset : list Z;
  ce_plugins : option (list Z);
  ce_driver_name : list Z;
  ce_version : list Z;
  ce_iOdbc : bool;
  ce_browser : MADB_Dsn -> option (list Z) -> bool -> MADB_Dbc A -> bool * MADB_Dsn * MADB_Dbc A;
}.
Arguments MkConnectEnv {A}. Arguments ce_init {A}. Arguments ce_real_connect {A}. Arguments ce_charset {A}. Arguments ce_collation {A}.
Arguments ce_auto_charset {A}. Arguments ce_plugins {A}. Arguments ce_driver_name {A}. Arguments ce_version {A}.
Arguments ce_iOdbc {A}. Arguments ce_browser {A}.

Module Connect.

(** [MADB_IS_EMPTY]: the empty string stands for NULL and for "". *)
Definition text_of (x : option (list Z)) : list Z := default [] x.
Definition is_empty (t : list Z) : bool := bool_decide (t = []).

(** An option set from a text unless it is empty, and from a number unless it is 0. *)
Definition text_option (o : mysql_option) (t : list Z) : options := if is_empty t then [] else [(o, OptText t)].
Definition number_option (o : mysql_option) (n : Z) : options := if n =? 0 then [] else [(o, OptNum n)].

(** ** Options *)

(** The text for MARIADB_OPT_TLS_VERSION, written into an array of 26 bytes. *)
Fixpoint tls_text (versions : list (string * Z)) (bits : Z) (NeedComma : bool) : list Z :=
  match versions with
  | [] => []
  | (name, bit) :: rest =>
      if Z.land bits bit =? 0 then tls_text rest bits NeedComma
      else (if NeedComma then [$","] else []) ++ chars name ++ tls_text rest bits true
  end.
Definition TlsVersion_size : nat := 26.
Definition tls_version (bits : Z) : option (list Z) :=
  let t := tls_text TlsVersions bits false in if (length t <? TlsVersion_size)%nat then Some t else None.

Definition ssl_files (Dsn : MADB_Dsn) : list (mysql_option * list Z) :=
  map (fun '(o, f) => (o, ltrim (text_of (str Dsn f))))
    [(MYSQL_OPT_SSL_KEY, SslKey); (MYSQL_OPT_SSL_CERT, SslCert); (MYSQL_OPT_SSL_CA, SslCa); (MYSQL_OPT_SSL_CAPATH, SslCaPath);
     (MYSQL_OPT_SSL_CIPHER, SslCipher)].

(** The block for certificates, ciphers and the verification of the server. *)
Definition ssl_options (Dsn : MADB_Dsn) : option options :=
  let files := ssl_files Dsn in
  own ← (if forallb (fun x => is_empty x.2) files then Some []
         else
           v ← (if 0 <? num Dsn TlsVersion
                then t ← tls_version (num Dsn TlsVersion); Some [(MARIADB_OPT_TLS_VERSION, OptText t)] else Some []);
           Some ((MYSQL_OPT_SSL_ENFORCE, OptNum 1) :: flat_map (fun x => text_option x.1 x.2) files ++ v));
  Some (own ++ [(MYSQL_OPT_SSL_VERIFY_SERVER_CERT, OptNum (if num Dsn SslVerify =? 0 then 0 else 0x01010101))]).

(** [strtok] with the delimiters ",:". *)
Definition is_separator (c : Z) : bool := (c =? $",") || (c =? $":").
Fixpoint tokens (l cur : list Z) : list (list Z) :=
  let flush rest := match cur with [] => rest | _ => cur :: rest end in
  match l with
  | [] => flush []
  | c :: l' => if is_separator c then flush (tokens l' []) else tokens l' (cur ++ [c])
  end.

(** Every second token is a value, a key at the end is dropped. *)
Fixpoint pairs (ts : list (list Z)) : list (list Z * list Z) :=
  match ts with
  | key :: value :: ts' => (key, value) :: pairs ts'
  | _ => []
  end.
Definition attribute (k v : list Z) : mysql_option * option_value := (MYSQL_OPT_CONNECT_ATTR_ADD, OptPair k v).
Definition conn_attrs (t : list Z) : options := map (fun x => attribute x.1 x.2) (pairs (tokens t [])).

Definition client_flags (Options : Z) : Z :=
  let flag f c := if Z.land Options f =? 0 then 0 else c in
  Z.lor (Z.lor (Z.lor (Z.lor (flag MADB_OPT_FLAG_NO_SCHEMA CLIENT_NO_SCHEMA) (flag MADB_OPT_FLAG_IGNORE_SPACE CLIENT_IGNORE_SPACE))
    (flag MADB_OPT_FLAG_FOUND_ROWS CLIENT_FOUND_ROWS)) (flag MADB_OPT_FLAG_COMPRESSED_PROTO CLIENT_COMPRESS))
    (flag MADB_OPT_FLAG_MULTI_STATEMENTS CLIENT_MULTI_STATEMENTS).

Section Connecting.
Context {A : Type} `{Server A} `{Commands A} (e : connect_env A).
Implicit Types d : MADB_Dbc A.

(** The directory of the plugins, and the protocol for a socket. *)
Definition plugin_option (dir : list Z) : options :=
  match dir with
  | [] => match ce_plugins e with Some p => [(MYSQL_PLUGIN_DIR, OptText p)] | None => [] end
  | p => [(MYSQL_PLUGIN_DIR, OptText p)]
  end.
Definition protocol_option (socket : option (list Z)) : options :=
  match socket with Some _ => [(MYSQL_OPT_PROTOCOL, OptNum MYSQL_PROTOCOL_SOCKET)] | None => [] end.

(** All options, in the order they are set; [None] if the text of the TLS versions does not fit. *)
Definition connect_options (Dsn : MADB_Dsn) (csname : list Z) : option options :=
  ssl ← ssl_options Dsn;
  let t f := text_of (str Dsn f) in
  Some (
    plugin_option (t ConnCPluginsDir)
    ++ (if num Dsn ReadMycnf =? 0 then [] else [(MYSQL_READ_DEFAULT_GROUP, OptText (chars "odbc"))])
    ++ [(MYSQL_SET_CHARSET_NAME, OptText csname)]
    ++ text_option MYSQL_INIT_COMMAND (t InitCommand)
    ++ number_option MYSQL_OPT_CONNECT_TIMEOUT (num Dsn ConnectionTimeout)
    ++ number_option MYSQL_OPT_READ_TIMEOUT (num Dsn ReadTimeout)
    ++ number_option MYSQL_OPT_WRITE_TIMEOUT (num Dsn WriteTimeout)
    ++ (if Z.land (num Dsn Options) MADB_OPT_FLAG_AUTO_RECONNECT =? 0 then [] else [(MYSQL_OPT_RECONNECT, OptNum 1)])
    ++ (if num Dsn IsNamedPipe =? 0 then [] else [(MYSQL_OPT_NAMED_PIPE, OptText (t ServerName))])
    ++ (if num Dsn InteractiveClient =? 0 then [] else [(MARIADB_OPT_INTERACTIVE, OptNum 1)])
    ++ [(MYSQL_REPORT_DATA_TRUNCATION, OptNum 1)]
    ++ protocol_option (str Dsn Socket)
    ++ ssl
    ++ (if num Dsn ForceTls =? 0 then [] else [(MYSQL_OPT_SSL_ENFORCE, OptNum 0x01010101)])
    ++ text_option MYSQL_OPT_SSL_CRL (t SslCrl)
    ++ text_option MYSQL_OPT_SSL_CRLPATH (t SslCrlPath)
    ++ text_option MYSQL_SERVER_PUBLIC_KEY (t ServerKey)
    ++ text_option MARIADB_OPT_TLS_PEER_FP (t TlsPeerFp)
    ++ text_option MARIADB_OPT_TLS_PEER_FP_LIST (t TlsPeerFpList)
    ++ text_option MARIADB_OPT_TLS_PASSPHRASE (t TlsKeyPwd)
    ++ [attribute (chars "_driver_name") (ce_driver_name e); attribute (chars "_driver_version") (ce_version e)]
    ++ (if is_empty (t App) then [] else [attribute (chars "program_name") (t App)])
    ++ conn_attrs (t ConnAttrs)).

(** [InitClientCharset] *)
Definition InitClientCharset (name : list Z) : option (list Z) := ce_charset e (cstr (MADB_ToLower name (replicate 32 0) 32)).

(** The charset of the connection: the handle, or the error. *)
Definition choose_charset (Dsn : MADB_Dsn) d : (list Z * MADB_Dbc A) + MADB_Dbc A :=
  let cs_name :=
    match text_of (str Dsn CharacterSet) with
    | [] => if db_num d IsAnsi =? 0 then [] else ce_auto_charset e
    | n => n
    end in
  match InitClientCharset (if is_empty cs_name then chars "utf8" else cs_name) with
  | None => inr (fail d MADB_ERR_HY001 (Some (chars "Charset is not supported")) 0).2
  | Some csname =>
      let d1 := set_charset d (Some csname) (db_ConnOrSrcCharset d) in
      if ce_iOdbc e && bool_decide (csname = chars "swe7") then
        inr (fail d1 MADB_ERR_HY001 (Some (chars "Charset SWE7 is not supported with iODBC")) 0).2
      else inl (csname, if (db_num d IsAnsi =? 0) || ce_iOdbc e then set_charset d1 (Some csname) CS_Connection else d1)
  end.

(** ** After the connection was made *)

Definition version_query : list Z := chars "SELECT @@memsql_version, @@aggregator_id".
Definition collation_query : list Z := chars "SELECT @@collation_database".

(** A query whose first row is read: [inr] when it fails, with the handle unlocked. *)
Definition read_first_row d (m : MYSQL A) (t : list Z) : option ((option row * MADB_Dbc A) + (MYSQL A * MADB_Dbc A)) :=
  let '(failed, d1) := run (LOCK d) m t in
  m1 ← db_mariadb d1;
  if failed : bool then Some (inr (m1, UNLOCK d1))
  else
    let '(res, m2) := mysql_store_result m1 in
    Some (inl (mysql_fetch_row res, set_mariadb (UNLOCK d1) (Some (mysql_free_result res m2)))).

(** [SetDBCharsetnr]: a NULL value is compared as a string. *)
Definition SetDBCharsetnr d : option (MADB_Dbc A) :=
  m ← db_mariadb d;
  r ← read_first_row d m collation_query;
  match r with
  | inr (m1, d1) => Some (dbc_native_fail (set_field d1 DBCharsetnr 0) m1).2
  | inl (None, d1) => Some (set_field d1 DBCharsetnr 0)
  | inl (Some rw, d1) =>
      x ← rw !! 0%nat;
      collation ← x;
      Some (set_field d1 DBCharsetnr (default 0 (ce_collation e (cstr collation))))
  end.

(** The level of [IsolationLevel]: [true] when the query fails. *)
Definition apply_isolation d : bool * MADB_Dbc A :=
  if db_num d IsolationLevel =? 0 then (false, d)
  else
    match find (fun x => x.1 =? db_num d IsolationLevel) MADB_IsolationLevel, db_mariadb d with
    | Some (_, name), Some m => run d m (isolation_query name)
    | _, _ => (false, d)
    end.

(** [mysql_native_err], and [end]: a connection with an error is closed. *)
Definition close_on_error d : Z * MADB_Dbc A :=
  let rc := ReturnValue (db_Error d) in
  if rc =? SQL_ERROR then (rc, set_mariadb d None) else (rc, d).
Definition native_error d : Z * MADB_Dbc A :=
  close_on_error (match db_mariadb d with Some m => (dbc_native_fail d m).2 | None => d end).

Definition select_catalog d : bool * MADB_Dbc A :=
  match db_CatalogName d, db_mariadb d with
  | Some ((_ :: _) as name), Some m =>
      let '(rc, m1) := mysql_select_db (Some name) m in
      (negb (rc =? 0), add_log (set_mariadb d (Some m1)) COM_INIT_DB name (negb (rc =? 0)))
  | _, _ => (false, d)
  end.

(** The version of the server; the result is given up without closing when the query fails. *)
Definition ask_version d : option (MADB_Dbc A + (Z * MADB_Dbc A)) :=
  m ← db_mariadb d;
  r ← read_first_row d m version_query;
  match r with
  | inr (m1, d1) => Some (inr (dbc_native_fail d1 m1))
  | inl (None, d1) => Some (inl d1)
  | inl (Some rw, d1) => x ← rw !! 1%nat; _ ← x; Some (inl d1)
  end.

Definition after_connect (Dsn : MADB_Dsn) d : option (Z * MADB_Dbc A) :=
  let '(failed, d1) := select_catalog d in
  if failed : bool then Some (native_error d1)
  else
    m ← db_mariadb d1;
    let '(failed, d2) := run d1 m (autocommit_query (wraps 8 (db_num d1 AutoCommit))) in
    if failed : bool then Some (native_error d2)
    else
      v ← (if num Dsn CompatMode =? 0 then ask_version d2 else Some (inl d2));
      match v with
      | inr r => Some r
      | inl d3 =>
          d4 ← SetDBCharsetnr d3;
          let '(failed, d5) := apply_isolation d4 in
          Some (if failed : bool then native_error d5 else close_on_error d5)
      end.

(** ** MADB_DbcConnect *)

Definition real_connect_call (Dsn : MADB_Dsn) (opts : options) : connect_call :=
  MkCall opts (match str Dsn Socket with Some _ => Some (chars "localhost") | None => str Dsn ServerName end)
    (str Dsn UserName) (str Dsn Password)
    (match str Dsn Catalog with Some ((_ :: _) as c) => Some c | _ => None end)
    (num Dsn Port) (str Dsn Socket) (client_flags (num Dsn Options)).

(** The label real_connect; [again] says that the browser may be asked once more, [old] are
    the options set on the handle before.  The calls of mysql_real_connect are the
    third component. *)
Fixpoint real_connect (again : nat) (email : option (list Z)) (Dsn : MADB_Dsn) (old : options) d0
    : option (Z * MADB_Dsn * list connect_call * MADB_Dbc A) :=
  let d := set_error d0 (MADB_CLEAR_ERROR (db_Error d0)) in
  match (match db_mariadb d with Some m => Some m | None => ce_init e end) with
  | None =>
      let '(rc, d1) := close_on_error (fail d MADB_ERR_HY001 None 0).2 in Some (rc, Dsn, [], d1)
  | Some m =>
      match choose_charset Dsn (set_mariadb d (Some m)) with
      | inr d1 => let '(rc, d2) := close_on_error d1 in Some (rc, Dsn, [], d2)
      | inl (csname, d1) =>
          new ← connect_options Dsn csname;
          let opts := old ++ new in
          let call := real_connect_call Dsn opts in
          let '(failed, m1) := ce_real_connect e call m in
          let d2 := set_mariadb (set_field d1 DbcOptions (num Dsn Options)) (Some m1) in
          if negb failed then '(rc, d3) ← after_connect Dsn d2; Some (rc, Dsn, [call], d3)
          else
            match again with
            | S again' =>
                if num Dsn IsBrowserAuth =? 0 then let '(rc, d3) := native_error d2 in Some (rc, Dsn, [call], d3)
                else
                  let '(refused, Dsn1, d3) := ce_browser e (set_str (set_str Dsn UserName None) Password None) email false d2 in
                  if refused : bool then let '(rc, d4) := close_on_error d3 in Some (rc, Dsn1, [call], d4)
                  else '(rc, Dsn2, calls, d4) ← real_connect again' email Dsn1 opts d3; Some (rc, Dsn2, call :: calls, d4)
            | O => let '(rc, d3) := native_error d2 in Some (rc, Dsn, [call], d3)
            end
      end
  end.

(** The JWT is sent as the password. *)
Definition use_jwt (Dsn : MADB_Dsn) : MADB_Dsn :=
  match str Dsn JWT with
  | None => Dsn
  | Some jwt =>
      let Dsn1 := set_str Dsn Password (Some jwt) in
      set_str (if is_empty (text_of (str Dsn UserName)) then set_str Dsn1 UserName (Some (chars "*")) else Dsn1) JWT None
  end.

(** [MADB_DbcConnect].  The version and aggregator the server answers are kept by the client
    library as options nothing here reads; they are not part of the state. *)
Definition MADB_DbcConnect (Dsn : MADB_Dsn) d : option (Z * MADB_Dsn * list connect_call * MADB_Dbc A) :=
  let emailForSSO := str Dsn UserName in
  let Dsn1 := use_jwt Dsn in
  if num Dsn1 IsBrowserAuth =? 0 then real_connect 1 emailForSSO Dsn1 [] d
  else
    let '(refused, Dsn2, d1) := ce_browser e Dsn1 emailForSSO true d in
    if refused : bool then let '(rc, d2) := close_on_error d1 in Some (rc, Dsn2, [], d2)
    else real_connect 1 emailForSSO Dsn2 [] d1.

(** ** The entry points *)

(** [MADB_DSN_SET_STR] *)
Definition MADB_DSN_SET_STR (Dsn : MADB_Dsn) (item : dsn_field) (value : option (list Z)) (len : Z) : option MADB_Dsn :=
  match value with
  | None => Some Dsn
  | Some b =>
      if len =? 0 then Some Dsn
      else
        let n := if len =? SQL_NTS then wraps 16 (Z.of_nat (length (cstr b))) else len in
        if (0 <=? n) && (n <=? Z.of_nat (length b)) then Some (set_str Dsn item (Some (cstr (take (Z.to_nat n) b)))) else None
  end.

(** [SQLConnectCommon]: the code, the data source the connection keeps, and the handle. *)
Definition SQLConnectCommon (profile : list Z -> string -> list Z) (reconnect : MYSQL A -> option (MYSQL A))
    (ServerName : option (list Z)) (NameLength1 : Z) (UserName' : option (list Z)) (NameLength2 : Z) (Authentication : option (list Z))
    (NameLength3 : Z) d0 : option (Z * option MADB_Dsn * MADB_Dbc A) :=
  let d := set_error d0 (MADB_CLEAR_ERROR (db_Error d0)) in
  let '(connected, d1) := CheckConnection reconnect d in
  if connected : bool then Some (SQL_ERROR, None, (fail d1 MADB_ERR_08002 None 0).2)
  else if match ServerName with Some b => bool_decide (cstr b = []) | None => false end then
    let '(rc, d2) := fail d1 MADB_ERR_HY000 (Some (chars "Invalid DSN")) 0 in Some (rc, None, d2)
  else
    Dsn1 ← MADB_DSN_SET_STR MADB_DSN_Init DSNName ServerName NameLength1;
    let Dsn2 := (MADB_ReadDSN profile Dsn1 None true).2 in
    Dsn3 ← MADB_DSN_SET_STR Dsn2 UserName UserName' NameLength2;
    Dsn4 ← MADB_DSN_SET_STR Dsn3 Password Authentication NameLength3;
    '(rc, Dsn5, _, d2) ← MADB_DbcConnect Dsn4 d1;
    Some (rc, if SQL_SUCCEEDED rc then Some Dsn5 else None, d2).

(** The connection string copied for the application: [strncpy] up to the size of its
    buffer; reading behind the end of the string's block is undefined. *)
Definition copy_out (In Out : list Z) (BufferLength : Z) : option (list Z) :=
  let n := Z.to_nat BufferLength in
  if (bool_decide (length (cstr In) < length In)%nat || bool_decide (n <= length In)%nat) && (n <=? length Out)%nat
  then Some (strncpy Out 0 (cstr In) n) else None.

(** The label [end]: without a dialog the string that came in is handed back. *)
Definition driver_connected (In : list Z) (StringLength1 : Z) (Out : option (list Z)) (BufferLength ret : Z) d
    : option (Z * option (list Z) * Z * MADB_Dbc A) :=
  let Length := wrapu 64 (if StringLength1 =? SQL_NTS then wraps 16 (Z.of_nat (length (cstr In))) else StringLength1) in
  out ← (match Out with
         | Some b => if BufferLength =? 0 then Some (Some b) else b' ← copy_out In b BufferLength; Some (Some b')
         | None => Some None
         end);
  if bool_decide (is_Some Out) && negb (BufferLength =? 0) && (BufferLength <? Length)
  then let '(rc, d1) := fail d MADB_ERR_01004 None 0 in Some (rc, out, wraps 16 Length, d1)
  else Some (ret, out, wraps 16 Length, d).

Definition credentials (Dsn : MADB_Dsn) : Z :=
  Z.b2z (bool_decide (is_Some (str Dsn Password))) + Z.b2z (bool_decide (is_Some (str Dsn JWT))) + Z.b2z (negb (num Dsn IsBrowserAuth =? 0)).

(** A dialog would be needed: the checks before it is found that there is none. *)
Definition no_dialog (driver : list Z -> option bool) (WindowHandle : bool) (Dsn : MADB_Dsn) d : MADB_Dbc A :=
  if negb WindowHandle then
    if ReturnValue (db_Error d) =? SQL_SUCCESS then (fail d MADB_ERR_IM008 None 0).2 else d
  else
    match str Dsn Driver with
    | None => (fail d MADB_ERR_IM007 None 0).2
    | Some name =>
        match driver name with
        | None => (fail d MADB_ERR_IM003 None 0).2
        | Some false => (fail d MADB_ERR_HY000 (Some (chars "Couldn't determine setup library")) 0).2
        | Some true => (fail d MADB_ERR_HY000 (Some (chars "Prompting is not supported on this platform")) 0).2
        end
    end.

(** [MADB_DbcDriverConnect]: the code, the data source the connection keeps, the output
    buffer, the length stored and the calls of mysql_real_connect.  [driver] looks a driver
    up and says whether it has a setup library. *)
Record driver_result := MkDriverResult {
  dr_rc : Z;
  dr_dsn : option MADB_Dsn;
  dr_out : option (list Z);
  dr_length2 : option Z;
  dr_calls : list connect_call;
  dr_dbc : MADB_Dbc A;
}.

Definition MADB_DbcDriverConnect (profile : list Z -> string -> list Z) (driver : list Z -> option bool) (WindowHandle : bool)
    (InConnectionString : option (list Z)) (StringLength1 : Z) (Out : option (list Z)) (BufferLength DriverCompletion : Z) d0
    : option driver_result :=
  let d := set_error d0 (MADB_CLEAR_ERROR (db_Error d0)) in
  let failed calls d := MkDriverResult (ReturnValue (db_Error d)) None Out None calls d in
  '(read, Dsn) ← MADB_ReadConnString profile MADB_DSN_Init InConnectionString StringLength1 ($";");
  if negb (read : bool) then Some (failed [] (fail d MADB_ERR_HY000 (Some (chars "Error while parsing DSN")) 0).2)
  else
    let d1 := set_field d DbcOptions (num Dsn Options) in
    if 1 <? credentials Dsn then
      Some (failed [] (fail d1 MADB_ERR_HY000 (Some (chars "Only one of PASSWORD, JWT, BROWSER_SSO can be specified")) 0).2)
    else
      let completion := if num Dsn ConnectPrompt =? 0 then DriverCompletion else SQL_DRIVER_NOPROMPT in
      if case completion [SQL_DRIVER_COMPLETE_REQUIRED; SQL_DRIVER_COMPLETE; SQL_DRIVER_NOPROMPT] then
        '(rc, Dsn1, calls, d2) ← MADB_DbcConnect Dsn d1;
        if SQL_SUCCEEDED rc then
          In ← InConnectionString;
          '(rc', out, len, d3) ← driver_connected In StringLength1 Out BufferLength SQL_SUCCESS d2;
          Some (MkDriverResult rc' (Some (MADB_DsnUpdateOptionsFields Dsn1)) out (Some len) calls d3)
        else if completion =? SQL_DRIVER_NOPROMPT then Some (failed calls d2)
        else Some (failed calls (no_dialog driver WindowHandle Dsn1 d2))
      else if completion =? SQL_DRIVER_PROMPT then Some (failed [] (no_dialog driver WindowHandle Dsn d1))
      else Some (failed [] (fail d1 MADB_ERR_HY110 None 0).2).

End Connecting.
End Connect.
