(* ===== verification/ConnProps.v ===== *)
(** * ConnProps: theorems about the connection handle

    The three forms of SQLGetFunctions agree; attributes read back; what setting an
    attribute can change; and the session of an open connection follows the attributes
    under every sequence of operations. *)

From Stdlib Require Import ZArith Lia.
From stdpp Require Import base strings numbers option list functions relations.
From S2P Require Import Prelude Charset Odbc Errors Diag SqlTypes Desc Ird ClientLib Dsn Conn Connect.
Import Wide ErrorOps Diag Client Conn Connect.

Module ConnProps.

(** ** SQLGetFunctions *)

Section Functions.
Context {A : Type}.
Implicit Types d : MADB_Dbc A.

(** The macro SQL_FUNC_EXISTS of the ODBC headers. *)
Definition SQL_FUNC_EXISTS (b : list Z) (f : Z) : bool :=
  Z.testbit (default 0 (b !! Z.to_nat (Z.shiftr f 4))) (Z.land f 15).

Definition word (v : Z) : Prop := 0 <= v < 2 ^ 16.

Lemma land_15 f : Z.land f 15 = f mod 16.
Proof. exact (Z.land_ones f 4 ltac:(lia)). Qed.
Lemma shiftr_4 f : Z.shiftr f 4 = f / 16.
Proof. by rewrite Z.shiftr_div_pow2. Qed.

(** Setting one bit: the word keeps its width and the other bits. *)
Lemma lor_bit_word v k : word v -> 0 <= k < 16 -> wrapu 16 (Z.lor v (Z.shiftl 1 k)) = Z.lor v (Z.shiftl 1 k) /\ word (Z.lor v (Z.shiftl 1 k)).
Proof.
  intros [Hv1 Hv2] Hk. rewrite Z.shiftl_1_l. assert (0 <= Z.lor v (2 ^ k)) as H0 by (apply Z.lor_nonneg; lia).
  assert (Z.lor v (2 ^ k) < 2 ^ 16) as H1.
  { destruct (decide (v = 0)) as [->|Hne]; [rewrite Z.lor_0_l; apply Z.pow_lt_mono_r; lia|].
    apply Z.log2_lt_pow2; [assert (Z.lor v (2 ^ k) <> 0); [|lia]; intros [-> _]%Z.lor_eq_0_iff; done|].
    rewrite Z.log2_lor, Z.log2_pow2 by lia. apply Z.max_lub_lt; [|lia]. apply Z.log2_lt_pow2; lia. }
  split; [apply wrapu_id; lia|]. done.
Qed.

Lemma lor_bit_testbit v k j : 0 <= k -> Z.testbit (Z.lor v (Z.shiftl 1 k)) j = Z.testbit v j || (j =? k).
Proof. intros Hk. rewrite Z.lor_spec, Z.shiftl_1_l, Z.pow2_bits_eqb by lia. by rewrite (Z.eqb_sym k j). Qed.

Lemma array_write_in b i v : 0 <= i < Z.of_nat (length b) -> array_write b i v = Some (<[Z.to_nat i := wrapu 16 v]> b).
Proof. intros Hi. unfold array_write. destruct (Z.leb_spec 0 i), (Z.ltb_spec i (Z.of_nat (length b))); done || lia. Qed.

Lemma bit_functions_spec api : forall b, Forall (fun a => 0 <= a < 16 * Z.of_nat (length b)) api -> Forall word b ->
  exists b', bit_functions api b = Some b' /\ length b' = length b /\
    forall f, 0 <= f < 16 * Z.of_nat (length b) -> SQL_FUNC_EXISTS b' f = SQL_FUNC_EXISTS b f || existsb (Z.eqb f) api.
Proof.
  induction api as [|a api IH]; intros b HF Hb; [exists b; split_and!; [done..|]; intros; by rewrite orb_false_r|].
  apply Forall_cons in HF as [Ha HF]. cbn [bit_functions existsb]. rewrite shiftr_4, land_15.
  assert (0 <= a / 16 < Z.of_nat (length b)) as Hi by (split; [apply Z.div_pos; lia|apply Z.div_lt_upper_bound; lia]).
  destruct (lookup_lt_is_Some_2 b (Z.to_nat (a / 16))) as [old Hold]; [lia|]. rewrite Hold. cbn [mbind option_bind].
  pose proof (Z.mod_pos_bound a 16 ltac:(lia)) as Hm.
  destruct (lor_bit_word old (a mod 16)) as [Hw1 Hw2]; [by eapply Forall_lookup_1 in Hold|lia|].
  rewrite array_write_in, Hw1 by done. cbn [mbind option_bind].
  remember (<[Z.to_nat (a / 16) := Z.lor old (Z.shiftl 1 (a mod 16))]> b) as b1 eqn:Eb1.
  assert (length b1 = length b) as Hl by (subst b1; apply length_insert).
  destruct (IH b1) as (b' & E & L & S); [by rewrite Hl|subst b1; by apply Forall_insert|].
  exists b'. split; [done|]. split; [congruence|]. intros f Hf. rewrite S by (by rewrite Hl).
  assert (SQL_FUNC_EXISTS b1 f = SQL_FUNC_EXISTS b f || (f =? a)) as ->.
  { unfold SQL_FUNC_EXISTS. rewrite shiftr_4, land_15. subst b1. destruct (decide (f / 16 = a / 16)) as [E16|E16].
    - rewrite E16, list_lookup_insert_eq by lia. rewrite Hold. cbn [from_option id]. rewrite lor_bit_testbit by lia. f_equal.
      destruct (Z.eqb_spec f a), (Z.eqb_spec (f mod 16) (a mod 16)); try done; [congruence|].
      pose proof (Z.div_mod f 16). pose proof (Z.div_mod a 16). lia.
    - rewrite list_lookup_insert_ne by (pose proof (Z.div_pos f 16); lia).
      destruct (Z.eqb_spec f a); [congruence|]. by rewrite orb_false_r. }
  by rewrite <- orb_assoc.
Qed.

(** The words behind the ones the table needs are left alone. *)
Lemma array_write_app b t i v b' : array_write b i v = Some b' -> array_write (b ++ t) i v = Some (b' ++ t).
Proof.
  unfold array_write. destruct (Z.leb_spec 0 i), (Z.ltb_spec i (Z.of_nat (length b))); cbn [andb]; try done. intros [= <-].
  rewrite length_app. destruct (Z.ltb_spec i (Z.of_nat (length b + length t))); [|lia]. by rewrite insert_app_l by lia.
Qed.

Lemma bit_functions_app t api : forall b b', bit_functions api b = Some b' -> bit_functions api (b ++ t) = Some (b' ++ t).
Proof.
  induction api as [|a api IH]; intros b b'; cbn [bit_functions]; [by intros [= <-]|]. cbv zeta.
  destruct (b !! Z.to_nat (Z.shiftr a 4)) as [old|] eqn:E; [|done]. rewrite (lookup_app_l_Some _ _ _ _ E). cbn [mbind option_bind].
  destruct (array_write b _ _) as [b1|] eqn:E1; [|done]. rewrite (array_write_app _ _ _ _ _ E1). cbn [mbind option_bind]. apply IH.
Qed.

Lemma clear_array_spec n b : (n <= length b)%nat -> clear_array n b = Some (replicate n 0 ++ drop n b).
Proof. intros Hn. unfold clear_array. by rewrite (proj2 (Nat.leb_le _ _) Hn). Qed.

Lemma flag_functions_spec api : forall b, Forall (fun a => 0 <= a) api -> (100 <= length b)%nat ->
  exists b', flag_functions api b = Some b' /\ length b' = length b /\
    forall f, (f < 100)%nat -> b' !! f = if existsb (Z.eqb (Z.of_nat f)) api then Some SQL_TRUE else b !! f.
Proof.
  induction api as [|a api IH]; intros b HF Hb; [by exists b|].
  apply Forall_cons in HF as [Ha HF]. cbn [flag_functions existsb].
  assert (exists b1, (if a <? 100 then array_write b a SQL_TRUE else Some b) = Some b1 /\ length b1 = length b /\
    forall f, (f < 100)%nat -> b1 !! f = if Z.of_nat f =? a then Some SQL_TRUE else b !! f) as (b1 & -> & L1 & S1).
  { destruct (Z.ltb_spec a 100).
    - rewrite array_write_in by lia. eexists. split; [done|]. rewrite length_insert. split; [done|]. intros f Hf.
      destruct (Z.eqb_spec (Z.of_nat f) a) as [<-|]; [rewrite Nat2Z.id, list_lookup_insert_eq by lia; done|].
      rewrite list_lookup_insert_ne by lia. done.
    - exists b. split_and!; try done. intros f Hf. destruct (Z.eqb_spec (Z.of_nat f) a); [lia|done]. }
  cbn [mbind option_bind]. destruct (IH b1 HF) as (b' & E & L & S); [lia|]. exists b'. split; [done|]. split; [congruence|].
  intros f Hf. rewrite S, S1 by done. by destruct (Z.of_nat f =? a), (existsb (Z.eqb (Z.of_nat f)) api).
Qed.

Definition supported (f : Z) : bool := existsb (Z.eqb f) MADB_supported_api.

Lemma supported_range : Forall (fun a => 0 <= a < 16 * Z.of_nat SQL_API_ODBC3_ALL_FUNCTIONS_SIZE) MADB_supported_api.
Proof. apply (bool_decide_eq_true_1 _). vm_compute. reflexivity. Qed.

(** The error of a function that is not supported. *)
Lemma not_supported_error d native :
  fail d MADB_ERR_HY095 (Some (chars "Function type out of range")) native =
    (SQL_ERROR, set_error d (MADB_SetError (db_Error d) MADB_ERR_HY095 (Some (chars "Function type out of range")) native)) .
Proof. unfold fail. cbv zeta. f_equal. unfold MADB_SetError. cbn [ReturnValue]. by case_match. Qed.

(** SQLGetFunctions gives one answer in three forms.  For every function id of ODBC the
    bit of the ODBC 3 bitmap, for the first hundred ids the element of the ODBC 2 array, and
    the answer for the single id say the same, whether the function is in the driver's table;
    an id that is not gives SQL_ERROR.  The calls write nothing behind the 250 words, the 100
    words or the one word of the application's array. *)
Theorem GetFunctions_agree d b3 b2 b1 : (250 <= length b3)%nat -> (100 <= length b2)%nat -> b1 <> [] ->
  exists r3 r2, MADB_DbcGetFunctions SQL_API_ODBC3_ALL_FUNCTIONS b3 d = Some (SQL_SUCCESS, r3, d) /\
    MADB_DbcGetFunctions SQL_API_ALL_FUNCTIONS b2 d = Some (SQL_SUCCESS, r2, d) /\
    drop 250 r3 = drop 250 b3 /\ length r2 = length b2 /\
    (forall f, 0 <= f < 4000 -> SQL_FUNC_EXISTS r3 f = supported f) /\
    (forall f, (f < 100)%nat -> r2 !! f = Some (if supported (Z.of_nat f) then SQL_TRUE else SQL_FALSE)) /\
    (forall f, f <> SQL_API_ODBC3_ALL_FUNCTIONS -> f <> SQL_API_ALL_FUNCTIONS ->
       exists r1 d', MADB_DbcGetFunctions f b1 d = Some (if supported f then SQL_SUCCESS else SQL_ERROR, r1, d') /\
         r1 = (if supported f then SQL_TRUE else SQL_FALSE) :: drop 1 b1).
Proof.
  intros H3 H2 H1.
  destruct (bit_functions_spec MADB_supported_api (replicate 250 0)) as (w & Ew & Lw & Sw);
    [rewrite length_replicate; exact supported_range|by apply Forall_replicate|].
  destruct (flag_functions_spec MADB_supported_api (replicate 100 0 ++ drop 100 b2)) as (r2 & E2 & L2 & S2);
    [exact (Forall_impl _ _ _ supported_range (fun a Ha => proj1 Ha))|rewrite length_app, length_replicate; lia|].
  assert (length w = 250%nat) as Lw' by (rewrite Lw; apply length_replicate).
  exists (w ++ drop 250 b3), r2. split_and!.
  - unfold MADB_DbcGetFunctions. rewrite Z.eqb_refl, clear_array_spec by done. cbn [mbind option_bind].
    by rewrite (bit_functions_app _ _ _ _ Ew).
  - unfold MADB_DbcGetFunctions. rewrite (proj2 (Z.eqb_neq _ _)), Z.eqb_refl, clear_array_spec by done. cbn [mbind option_bind].
    by rewrite E2.
  - by rewrite drop_app_length'.
  - rewrite L2, length_app, length_replicate, length_drop. lia.
  - intros f Hf. rewrite length_replicate in Sw. specialize (Sw f ltac:(lia)).
    assert (SQL_FUNC_EXISTS (replicate 250 0) f = false) as E0
      by (unfold SQL_FUNC_EXISTS; rewrite lookup_replicate_2; [apply Z.testbit_0_l|]; rewrite shiftr_4; apply Nat2Z.inj_lt;
          rewrite Z2Nat.id; [apply Z.div_lt_upper_bound|apply Z.div_pos]; lia).
    rewrite E0, orb_false_l in Sw. unfold supported. rewrite <- Sw. unfold SQL_FUNC_EXISTS.
    rewrite lookup_app_l; [done|]. rewrite shiftr_4, Lw'. apply Nat2Z.inj_lt. rewrite Z2Nat.id; [apply Z.div_lt_upper_bound|apply Z.div_pos]; lia.
  - intros f Hf. rewrite S2, lookup_app_l, lookup_replicate_2 by (rewrite ?length_replicate; lia). unfold supported. by case_match.
  - clear -H1. intros f Hf3 Hf0. unfold MADB_DbcGetFunctions. rewrite !(proj2 (Z.eqb_neq _ _)) by done. fold (supported f).
    destruct b1 as [|c b1]; [done|]. rewrite array_write_in by (cbn; lia). cbn [mbind option_bind]. destruct (supported f).
    + rewrite array_write_in by (rewrite length_insert; cbn; lia). cbn [mbind option_bind]. by eexists _, d.
    + rewrite not_supported_error. by eexists _, _.
Qed.

End Functions.

Lemma GetFunctions_agree_witness :
  (250 <= length (replicate 300 7))%nat /\ (100 <= length (replicate 100 7))%nat /\
  exists r3 r2 : list Z, SQL_FUNC_EXISTS r3 SQL_API_SQLSETPOS = true /\ r2 !! Z.to_nat SQL_API_SQLSETPOS = Some SQL_TRUE /\
    SQL_FUNC_EXISTS r3 60 = false /\ r2 !! 60%nat = Some SQL_FALSE.
Proof.
  split; [cbn; lia|]. split; [cbn; lia|].
  destruct (@GetFunctions_agree nat (new_dbc []) (replicate 300 7) (replicate 100 7) [0]) as (r3 & r2 & _ & _ & _ & _ & H3 & H2 & _);
    [cbn; lia|cbn; lia|done|].
  exists r3, r2. rewrite !H3 by (vm_compute; done). split_and!; [reflexivity| |reflexivity|].
  - rewrite H2 by (vm_compute; lia). reflexivity.
  - rewrite H2 by lia. reflexivity.
Defined.


(** ** The session of the server, as the commands that succeeded set it *)

Definition autocommit_of (x : command_code * list Z * bool) : option bool :=
  match x with
  | (COM_QUERY, t, false) =>
      if bool_decide (t = autocommit_query 1) then Some true else if bool_decide (t = autocommit_query 0) then Some false else None
  | _ => None
  end.
Definition session_autocommit (log : list (command_code * list Z * bool)) : option bool := last (omap autocommit_of log).

Lemma session_snoc l x : session_autocommit (l ++ [x]) = match autocommit_of x with Some b => Some b | None => session_autocommit l end.
Proof.
  unfold session_autocommit. rewrite omap_app. cbn [omap list_omap]. destruct (autocommit_of x); [by rewrite last_snoc|]. by rewrite app_nil_r.
Qed.

Lemma session_autocommit_query l mode : session_autocommit (l ++ [(COM_QUERY, autocommit_query mode, false)]) = Some (negb (mode =? 0)).
Proof. rewrite session_snoc. unfold autocommit_query. by destruct (mode =? 0). Qed.

Lemma session_neutral l l' : Forall (fun x => autocommit_of x = None) l' -> session_autocommit (l ++ l') = session_autocommit l.
Proof.
  intros HF. unfold session_autocommit. rewrite omap_app. replace (omap autocommit_of l') with (@nil bool); [by rewrite app_nil_r|].
  induction HF as [|x l' Hx HF IH]; [done|]. cbn [omap list_omap]. by rewrite Hx.
Qed.

Lemma isolation_neutral name failed : autocommit_of (COM_QUERY, isolation_query name, failed) = None.
Proof. by destruct failed. Qed.

(** ** Attributes *)

Lemma check_attribute_never valid : forall ok a, MADB_CHECK_ATTRIBUTE valid ok a = false.
Proof. induction valid as [|v valid IH]; intros [] a; cbn; [done..|]. rewrite IH. by destruct (v =? a). Qed.

Section Attributes.
Context {A : Type} `{Server A} `{Commands A}.
Implicit Types d : MADB_Dbc A.

Lemma clear_success E : ReturnValue (MADB_CLEAR_ERROR E) = SQL_SUCCESS.
Proof. done. Qed.

(** The return code of an error depends on its state only. *)
Definition code_of_error (code : nat) : Z :=
  return_of_state (strcpy_s (SQL_SQLSTATE_SIZE + 1) (chars (row_SqlState (err_row code)))) SQL_ERROR.
Lemma fail_code d code msg native : code <> MADB_ERR_HY000 -> (fail d code msg native).1 = code_of_error code.
Proof.
  intros Hc. unfold fail, MADB_SetError. cbn [ReturnValue fst]. by rewrite (proj2 (Nat.eqb_neq _ _) Hc), andb_false_r.
Qed.
Lemma report_code d code : code <> MADB_ERR_HY000 -> (report d code).1 = code_of_error code.
Proof. intros Hc. unfold report. by case_match; apply fail_code. Qed.

(** The field an attribute is stored in. *)
Definition own_field (a : Z) : option dbc_field :=
  if a =? SQL_ATTR_ACCESS_MODE then Some AccessMode else if a =? SQL_ATTR_ANSI_APP then Some IsAnsi
  else if a =? SQL_ATTR_ASYNC_ENABLE then Some AsyncEnable else if a =? SQL_ATTR_AUTOCOMMIT then Some AutoCommit
  else if a =? SQL_ATTR_LOGIN_TIMEOUT then Some LoginTimeout else if a =? SQL_ATTR_METADATA_ID then Some MetadataId
  else if a =? SQL_ATTR_ODBC_CURSORS then Some OdbcCursors else if a =? SQL_ATTR_PACKET_SIZE then Some PacketSize
  else if a =? SQL_ATTR_QUIET_MODE then Some QuietMode else if a =? SQL_ATTR_TXN_ISOLATION then Some TxnIsolation
  else None.

(** What an operation that stores into the field [own] may change: that field, when it
    does not fail, and the log by one command, which succeeded unless the operation failed. *)
Record effect (own : option dbc_field) (catalog : bool) d (r : Z * MADB_Dbc A) : Prop := {
  ef_code : r.1 = ReturnValue (db_Error r.2);
  ef_locks : db_locks r.2 = db_locks d;
  ef_open : db_mariadb r.2 = None <-> db_mariadb d = None;
  ef_fields : forall f, own <> Some f -> db_num r.2 f = db_num d f;
  ef_failed : r.1 = SQL_ERROR -> forall f, db_num r.2 f = db_num d f;
  ef_catalog : catalog = false -> db_CatalogName r.2 = db_CatalogName d;
  ef_log : exists l, db_log r.2 = db_log d ++ l /\ (length l <= 1)%nat /\ (db_mariadb d = None -> l = []) /\
    (r.1 <> SQL_ERROR -> Forall (fun x => x.2 = false) l) /\ (own <> Some AutoCommit -> Forall (fun x => autocommit_of x = None) l);
}.

Lemma no_log (l : list (command_code * list Z * bool)) (Q R S : Prop) :
  exists l', l = l ++ l' /\ (length l' <= 1)%nat /\ (Q -> l' = []) /\ (R -> Forall (fun x => x.2 = false) l') /\
    (S -> Forall (fun x => autocommit_of x = None) l').
Proof. exists []. rewrite app_nil_r. split_and!; [done|cbn; lia|done|constructor..]. Qed.

Lemma effect_fail own cat d code msg native : effect own cat d (fail d code msg native).
Proof. split; try done. apply no_log. Qed.

Lemma effect_finish own cat d d' : ReturnValue (db_Error d') <> SQL_ERROR -> db_locks d' = db_locks d ->
  db_mariadb d' = db_mariadb d -> (forall f, own <> Some f -> db_num d' f = db_num d f) ->
  (cat = false -> db_CatalogName d' = db_CatalogName d) -> db_log d' = db_log d -> effect own cat d (finish d').
Proof.
  intros H1 H2 H3 H4 H5 H6. split; cbn [finish fst snd]; try done; [by rewrite H3|]. rewrite H6. apply no_log.
Qed.

Lemma set_field_other d f v g : Some f <> Some g -> db_num (set_field d f v) g = db_num d g.
Proof. intros Hne. cbn. apply fn_lookup_insert_ne. congruence. Qed.

Lemma effect_store cat d f v : ReturnValue (db_Error d) <> SQL_ERROR -> effect (Some f) cat d (finish (set_field d f v)).
Proof. intros Hr. apply effect_finish; try done. intros g. apply set_field_other. Qed.

Lemma effect_fixed cat d f v w : ReturnValue (db_Error d) <> SQL_ERROR -> effect (Some f) cat d (set_fixed d f v w).
Proof.
  intros Hr. unfold set_fixed. apply effect_finish; try (by destruct (v =? w)).
  intros g Hg. rewrite set_field_other by done. by destruct (v =? w).
Qed.

(** A command on the open connection, then success or an error. *)
Lemma effect_command own cat d d' rc l : db_locks d' = db_locks d -> (db_mariadb d' = None <-> db_mariadb d = None) ->
  db_mariadb d <> None -> rc = ReturnValue (db_Error d') ->
  (forall f, own <> Some f -> db_num d' f = db_num d f) -> (rc = SQL_ERROR -> forall f, db_num d' f = db_num d f) ->
  (cat = false -> db_CatalogName d' = db_CatalogName d) -> db_log d' = db_log d ++ l -> (length l <= 1)%nat ->
  (rc <> SQL_ERROR -> Forall (fun x => x.2 = false) l) -> (own <> Some AutoCommit -> Forall (fun x => autocommit_of x = None) l) ->
  effect own cat d (rc, d').
Proof. intros. split; cbn [fst snd]; try done. exists l. split_and!; done. Qed.

Lemma report_same d code : let d' := (report d code).2 in
  (report d code).1 = ReturnValue (db_Error d') /\ db_locks d' = db_locks d /\ db_mariadb d' = db_mariadb d /\
  db_num d' = db_num d /\ db_CatalogName d' = db_CatalogName d /\ db_log d' = db_log d.
Proof. unfold report. by destruct (db_mariadb d) eqn:E. Qed.


Lemma effect_autocommit cat v d : ReturnValue (db_Error d) <> SQL_ERROR -> effect (Some AutoCommit) cat d (set_autocommit v d).
Proof.
  intros Hr. unfold set_autocommit. rewrite check_attribute_never. destruct (db_mariadb d) as [m|] eqn:Em; [|by apply effect_store].
  destruct (negb _); [apply effect_fail|]. destruct (mysql_autocommit _ m) as [failed m']. destruct failed.
  - remember (add_log _ _ _ _) as d1 eqn:Ed1. destruct (report_same d1 MADB_ERR_HY001) as (R1 & R2 & R3 & R4 & R5 & R6).
    rewrite (surjective_pairing (report d1 MADB_ERR_HY001)). rewrite report_code in * by done.
    eapply effect_command; rewrite ?R2, ?R3, ?R4, ?R5, ?R6, ?Em; subst d1; try done; cbn; lia.
  - eapply effect_command; rewrite ?Em; try done; [|by constructor]. intros f Hf. by rewrite set_field_other.
Qed.

Lemma effect_isolation cat v d : ReturnValue (db_Error d) <> SQL_ERROR -> effect (Some TxnIsolation) cat d (set_isolation v d).
Proof.
  intros Hr. unfold set_isolation. destruct (db_mariadb d) as [m|] eqn:Em; [|by apply effect_store].
  destruct (find _ _) as [[lv name]|]; [|apply effect_fail]. unfold run. destruct (mysql_real_query _ m) as [failed m']. destruct failed.
  - remember (UNLOCK _) as d1 eqn:Ed1. destruct (report_same d1 MADB_ERR_HY001) as (R1 & R2 & R3 & R4 & R5 & R6).
    rewrite (surjective_pairing (report d1 MADB_ERR_HY001)). rewrite report_code in * by done.
    eapply effect_command; rewrite ?R2, ?R3, ?R4, ?R5, ?R6, ?Em; subst d1; try done; [cbn; lia|intros _; by apply Forall_singleton, isolation_neutral].
  - eapply effect_command; rewrite ?Em; try done; [cbn; lia| |by constructor|intros _; by apply Forall_singleton, isolation_neutral].
    intros f Hf. by rewrite set_field_other.
Qed.

Lemma effect_set_catalog from_wchar text len wide d : ReturnValue (db_Error d) <> SQL_ERROR ->
  effect None true d (set_current_catalog from_wchar text len wide d).
Proof.
  intros Hr. unfold set_current_catalog. cbv zeta. remember (if wide then _ else _) as name eqn:En. clear En.
  destruct (db_mariadb d) as [m|] eqn:Em; [|by apply effect_finish]. destruct (mysql_select_db name m) as [rc m'].
  remember (match name with Some n => _ | None => _ end) as d3 eqn:E3.
  assert (exists l, db_log d3 = db_log d ++ l /\ (length l <= 1)%nat /\ (rc = 0 -> Forall (fun x => x.2 = false) l) /\
    Forall (fun x => autocommit_of x = None) l) as (l & L1 & L2 & L3 & L4).
  { subst d3. destruct name as [n|]; [|exists []; rewrite app_nil_r; split_and!; [done|cbn; lia|constructor..]].
    exists [(COM_INIT_DB, n, negb (rc =? 0))]. split_and!; [done|cbn; lia| |by repeat constructor]. intros ->. by constructor. }
  assert (db_locks d3 = db_locks d /\ db_num d3 = db_num d /\ db_mariadb d3 = Some m' /\ db_Error d3 = db_Error d) as (D1 & D2 & D3 & D4)
    by (subst d3; by destruct name).
  clear E3. destruct (Z.eqb_spec rc 0) as [->|Hne].
  - eapply effect_command; rewrite ?Em, ?D1, ?D2, ?D3, ?D4; try done. intros _. by apply L3.
  - destruct (report_same d3 MADB_ERR_HY001) as (R1 & R2 & R3 & R4 & R5 & R6).
    rewrite (surjective_pairing (report d3 MADB_ERR_HY001)). rewrite report_code in * by done.
    eapply effect_command; rewrite ?R2, ?R3, ?R4, ?R6, ?D1, ?D2, ?D3, ?Em; try done; exact L1.
Qed.

Lemma effect_ansi cat ansi v d : ReturnValue (db_Error d) <> SQL_ERROR -> effect (Some IsAnsi) cat d (set_ansi ansi v d).
Proof.
  intros Hr. unfold set_ansi. apply effect_finish; destruct (v =? 0); try done; intros f Hf;
    [exact (set_field_other d IsAnsi 0 f Hf)|exact (set_field_other d IsAnsi 1 f Hf)].
Qed.

Lemma effect_packet cat v d : ReturnValue (db_Error d) <> SQL_ERROR -> effect (Some PacketSize) cat d (set_packet_size v d).
Proof. intros Hr. unfold set_packet_size. destruct (db_mariadb d) eqn:Em; [apply effect_fail|by apply effect_store]. Qed.

(** Clearing the error changes nothing that an effect compares. *)
Lemma effect_clear own cat d r : effect own cat (set_error d (MADB_CLEAR_ERROR (db_Error d))) r -> effect own cat d r.
Proof. intros []. by split. Qed.

Lemma SetAttr_effect from_wchar ansi a v text len wide d :
  effect (own_field a) (a =? SQL_ATTR_CURRENT_CATALOG) d (MADB_DbcSetAttr from_wchar ansi a v text len wide d).
Proof.
  apply effect_clear. unfold MADB_DbcSetAttr, own_field. cbv zeta. remember (set_error d _) as d1 eqn:E1.
  assert (ReturnValue (db_Error d1) <> SQL_ERROR) as Hr by (subst d1; done). clear E1 d.
  repeat match goal with
  | |- context [if a =? ?c then _ else _] => destruct (Z.eqb_spec a c) as [->|]; cbn [Z.eqb Pos.eqb]
  end; first [apply effect_fail | by apply effect_fixed | by apply effect_store | by apply effect_ansi | by apply effect_autocommit
    | by apply effect_isolation | by apply effect_set_catalog | by apply effect_packet
    | rewrite check_attribute_never; by apply effect_fixed | by apply effect_finish].
Qed.

(** The name of a catalog as SQLSetConnectAttr takes it from its arguments. *)
Definition named_catalog (from_wchar : option (list Z) -> Z -> option (list Z)) (text : option (list Z)) (len : Z) (wide : bool) : option (list Z) :=
  if wide then from_wchar text len
  else Some (match text with Some b => if len <? 0 then cstr b else take (Z.to_nat len) (cstr b) | None => [] end).

Lemma take_SafeStrlen b len : take (Z.to_nat (SafeStrlen b len)) (cstr b) = if len <? 0 then cstr b else take (Z.to_nat len) (cstr b).
Proof.
  rewrite CharsetProps.SafeStrlen_SqlwcsLen. destruct (Z.ltb_spec len 0).
  - rewrite CharsetProps.SqlwcsLen_unbounded by done. apply take_ge. lia.
  - rewrite CharsetProps.SqlwcsLen_bound, Nat2Z.id by done. destruct (Nat.min_spec (Z.to_nat len) (length (cstr b))) as [[? ->]|[? ->]]; [done|].
    rewrite !take_ge by lia. done.
Qed.

Lemma set_current_catalog_kept from_wchar text len wide d rc d' :
  ReturnValue (db_Error d) = SQL_SUCCESS -> set_current_catalog from_wchar text len wide d = (rc, d') ->
  db_CatalogName d' = named_catalog from_wchar text len wide /\
  (rc = SQL_ERROR <-> exists m, db_mariadb d = Some m /\ (mysql_select_db (named_catalog from_wchar text len wide) m).1 <> 0).
Proof.
  intros Hr. unfold set_current_catalog. cbv zeta. remember (if wide then _ else _) as name eqn:En.
  assert (name = named_catalog from_wchar text len wide) as -> by (subst name; unfold named_catalog; destruct wide, text; rewrite ?take_SafeStrlen; done).
  clear En.
  destruct (db_mariadb d) as [m|] eqn:Em.
  2: { intros [= <- <-]. split; [done|]. cbn [db_Error set_catalog]. rewrite Hr. split; [done|]. by intros (m & ? & _). }
  destruct (mysql_select_db (named_catalog from_wchar text len wide) m) as [c m'] eqn:Es.
  remember (match named_catalog _ _ _ _ with Some n => _ | None => _ end) as d3 eqn:E3.
  assert (db_CatalogName d3 = named_catalog from_wchar text len wide /\ db_Error d3 = db_Error d) as [D1 D2]
    by (subst d3; by destruct (named_catalog _ _ _ _)).
  destruct (Z.eqb_spec c 0) as [->|Hc].
  - intros [= <- <-]. rewrite D2, Hr. split; [done|]. split; [done|]. intros (m1 & [= <-] & Hc). by rewrite Es in Hc.
  - intros E. destruct (report_same d3 MADB_ERR_HY001) as (_ & _ & _ & _ & R5 & _). pose proof (report_code d3 MADB_ERR_HY001) as R.
    rewrite E in R, R5. cbn [fst snd] in R, R5. split; [congruence|]. split; [|by rewrite R]. intros _. exists m. by rewrite Es.
Qed.

(** C30. Setting a connection attribute, whatever the attribute, the value and the state of
    the connection: the lock is given back and the connection stays open or closed; only
    the field of this attribute can change, and only when the call does not fail; one command
    at most is sent, none without a connection, and one that fails makes the call fail.  The
    name of the catalog is the exception: SQL_ATTR_CURRENT_CATALOG replaces it before the
    server is asked, so the new name stays also when the call fails, which it does exactly
    when the server refuses the database; no other attribute changes the name. *)
Theorem SetAttr_frame from_wchar ansi a v text len wide d rc d' : MADB_DbcSetAttr from_wchar ansi a v text len wide d = (rc, d') ->
  db_locks d' = db_locks d /\ (db_mariadb d' = None <-> db_mariadb d = None) /\
  (forall f, own_field a <> Some f -> db_num d' f = db_num d f) /\ (rc = SQL_ERROR -> forall f, db_num d' f = db_num d f) /\
  (a <> SQL_ATTR_CURRENT_CATALOG -> db_CatalogName d' = db_CatalogName d) /\
  (a = SQL_ATTR_CURRENT_CATALOG -> db_CatalogName d' = named_catalog from_wchar text len wide /\
    (rc = SQL_ERROR <-> exists m, db_mariadb d = Some m /\ (mysql_select_db (named_catalog from_wchar text len wide) m).1 <> 0)) /\
  exists l, db_log d' = db_log d ++ l /\ (length l <= 1)%nat /\ (db_mariadb d = None -> l = []) /\ (rc <> SQL_ERROR -> Forall (fun x => x.2 = false) l).
Proof.
  intros E. destruct (SetAttr_effect from_wchar ansi a v text len wide d) as [_ E1 E2 E3 E4 E5 (l & E6 & E7 & E8 & E9 & _)]. rewrite E in *.
  split_and!; try done; [intros Ha; apply E5; by apply Z.eqb_neq| |by exists l]. intros ->.
  by apply (set_current_catalog_kept from_wchar text len wide (set_error d (MADB_CLEAR_ERROR (db_Error d)))).
Qed.


(** *** Reading back *)

Lemma le_bytes_length n : forall v, length (le_bytes n v) = n.
Proof. induction n as [|n IH]; intros v; cbn; [done|]. by rewrite IH. Qed.

Lemma le_value_bytes n : forall v, le_value (le_bytes n v) = v mod 2 ^ (8 * Z.of_nat n).
Proof.
  induction n as [|n IH]; intros v; [by rewrite Z.mod_1_r|]. cbn [le_bytes le_value]. rewrite IH, Z.shiftr_div_pow2 by lia. unfold wrapu.
  replace (8 * Z.of_nat (S n)) with (8 + 8 * Z.of_nat n) by lia. rewrite Z.pow_add_r by lia. change (2 ^ 8) with 256.
  rewrite Z.rem_mul_r; lia.
Qed.

(** The number at the start of the application's buffer. *)
Definition read_number (n : nat) (b : list Z) : Z := le_value (take n b).

Lemma write_read n v b : (n <= length b)%nat ->
  exists b', write_number n v b = Some b' /\ read_number n b' = v mod 2 ^ (8 * Z.of_nat n) /\ length b' = length b /\ drop n b' = drop n b.
Proof.
  intros Hn. unfold write_number. rewrite (proj2 (Nat.leb_le _ _) Hn). eexists. split; [done|]. unfold blit, read_number.
  rewrite take_0, app_nil_l, le_bytes_length. rewrite (take_ge (le_bytes n v)) by (rewrite le_bytes_length; lia). rewrite Nat.add_0_l.
  rewrite take_app_length', drop_app_length', length_app, length_drop, le_bytes_length by (by rewrite le_bytes_length).
  split_and!; [apply le_value_bytes|lia|done].
Qed.

(** The width of an attribute, and what is read after [v] was set. *)
Definition attribute_size (a : Z) : nat := if case a [SQL_ATTR_ASYNC_ENABLE; SQL_ATTR_TXN_ISOLATION] then 8 else 4.
Definition read_after (a v : Z) : Z :=
  if case a [SQL_ATTR_ACCESS_MODE; SQL_ATTR_ASYNC_ENABLE] then 0
  else if case a [SQL_ATTR_ODBC_CURSORS; SQL_ATTR_METADATA_ID] then SQL_CUR_USE_ODBC else v.

Definition stored_attributes : list Z :=
  [SQL_ATTR_ACCESS_MODE; SQL_ATTR_ASYNC_ENABLE; SQL_ATTR_AUTOCOMMIT; SQL_ATTR_LOGIN_TIMEOUT; SQL_ATTR_METADATA_ID; SQL_ATTR_ODBC_CURSORS;
   SQL_ATTR_TXN_ISOLATION].

Lemma getattr_number query junk nbl a addr buf len hl d n v : (n <= length buf)%nat -> 
  (forall b, write_number n v buf = Some b ->
    MADB_DbcGetAttr query junk nbl a addr (Some buf) len hl d = Some (SQL_SUCCESS, Some b, None, set_error d (MADB_CLEAR_ERROR (db_Error d)))) ->
  exists b, MADB_DbcGetAttr query junk nbl a addr (Some buf) len hl d = Some (SQL_SUCCESS, Some b, None, set_error d (MADB_CLEAR_ERROR (db_Error d))) /\
    read_number n b = v mod 2 ^ (8 * Z.of_nat n) /\ drop n b = drop n buf.
Proof. intros Hn Hg. destruct (write_read n v buf Hn) as (b & E & R & _ & D). exists b. split_and!; auto. Qed.

(** What a successful call leaves in the field of the attribute. *)
Lemma setattr_field from_wchar ansi a v text len wide d rc d' : MADB_DbcSetAttr from_wchar ansi a v text len wide d = (rc, d') -> rc <> SQL_ERROR ->
  (a = SQL_ATTR_AUTOCOMMIT -> db_num d' AutoCommit = wrapu 32 v) /\ (a = SQL_ATTR_LOGIN_TIMEOUT -> db_num d' LoginTimeout = wrapu 32 v) /\
  (a = SQL_ATTR_TXN_ISOLATION -> db_num d' TxnIsolation = wraps 32 v).
Proof.
  intros Hs Hrc. split_and!; intros ->.
  - change (MADB_DbcSetAttr from_wchar ansi SQL_ATTR_AUTOCOMMIT v text len wide d) with
      (set_autocommit v (set_error d (MADB_CLEAR_ERROR (db_Error d)))) in Hs.
    unfold set_autocommit in Hs. rewrite check_attribute_never in Hs. destruct (db_mariadb _) as [m|]; [|by injection Hs as _ <-].
    destruct (negb _); [injection Hs as <- <-; by destruct Hrc|]. destruct (mysql_autocommit _ _) as [[] m']; [|by injection Hs as _ <-].
    destruct Hrc. apply (f_equal fst) in Hs. cbn [fst] in Hs. rewrite <- Hs. by apply report_code.
  - change (MADB_DbcSetAttr from_wchar ansi SQL_ATTR_LOGIN_TIMEOUT v text len wide d) with
      (finish (set_field (set_error d (MADB_CLEAR_ERROR (db_Error d))) LoginTimeout (wrapu 32 v))) in Hs. by injection Hs as _ <-.
  - change (MADB_DbcSetAttr from_wchar ansi SQL_ATTR_TXN_ISOLATION v text len wide d) with
      (set_isolation v (set_error d (MADB_CLEAR_ERROR (db_Error d)))) in Hs.
    unfold set_isolation in Hs. destruct (db_mariadb _) as [m|]; [|by injection Hs as _ <-].
    destruct (find _ _) as [[lv name]|]; [|injection Hs as <- <-; by destruct Hrc]. unfold run in Hs.
    destruct (mysql_real_query _ _) as [[] m']; [|by injection Hs as _ <-].
    destruct Hrc. apply (f_equal fst) in Hs. cbn [fst] in Hs. rewrite <- Hs. by apply report_code.
Qed.

(** The branches of SQLGetConnectAttr for a buffer of the application. *)
Section Branches.
Context (query : list Z -> MADB_Dbc A -> option (MADB_Error + list Z) * MADB_Dbc A) (junk nbl addr : Z) (buf : list Z) (len : Z) (hl : bool) (d : MADB_Dbc A).
Notation get a := (MADB_DbcGetAttr query junk nbl a addr (Some buf) len hl d).
Notation cleared := (set_error d (MADB_CLEAR_ERROR (db_Error d))).
Notation number n v := (b ← write_number n v buf; Some (SQL_SUCCESS, Some b, None, cleared)).

Lemma getattr_eq_access : get SQL_ATTR_ACCESS_MODE = number 4%nat SQL_MODE_READ_WRITE.
Proof. reflexivity. Qed.
Lemma getattr_eq_async : get SQL_ATTR_ASYNC_ENABLE = number 8%nat SQL_ASYNC_ENABLE_OFF.
Proof. reflexivity. Qed.
Lemma getattr_eq_autocommit : get SQL_ATTR_AUTOCOMMIT = number 4%nat (db_num d AutoCommit).
Proof. reflexivity. Qed.
Lemma getattr_eq_login : get SQL_ATTR_LOGIN_TIMEOUT = number 4%nat (db_num d LoginTimeout).
Proof. reflexivity. Qed.
Lemma getattr_eq_cursors : get SQL_ATTR_ODBC_CURSORS = number 4%nat SQL_CUR_USE_ODBC.
Proof. reflexivity. Qed.
Lemma getattr_eq_metadata : get SQL_ATTR_METADATA_ID =
  (b ← write_number 4 (db_num d MetadataId) buf; b' ← write_number 4 SQL_CUR_USE_ODBC b; Some (SQL_SUCCESS, Some b', None, cleared)).
Proof. reflexivity. Qed.
Lemma getattr_eq_isolation : get SQL_ATTR_TXN_ISOLATION =
  ('(rc, v, d1) ← get_isolation cleared; b ← write_number 8 v buf; Some (rc, Some b, None, d1)).
Proof. reflexivity. Qed.
End Branches.

(** The second of two writes of one width is the one that stays. *)
Lemma write_number_again n v w b b1 b2 : write_number n v b = Some b1 -> write_number n w b = Some b2 -> write_number n w b1 = Some b2.
Proof.
  unfold write_number. destruct (Nat.leb_spec n (length b)) as [Hn|]; [|done]. intros [= <-] [= <-]. unfold blit.
  rewrite !take_0, !app_nil_l, !Nat.add_0_l, !Nat.sub_0_r, !le_bytes_length.
  rewrite !(take_ge (le_bytes _ _)) by (rewrite le_bytes_length, ?length_app, ?le_bytes_length, ?length_drop; lia).
  rewrite length_app, length_drop, le_bytes_length. rewrite (proj2 (Nat.leb_le _ _)) by lia.
  by rewrite drop_app_length' by (by rewrite le_bytes_length).
Qed.

(** C31. Connection attributes read back.  After SQLSetConnectAttr did not fail,
    SQLGetConnectAttr gives the value that was set, for AUTOCOMMIT, LOGIN_TIMEOUT and
    TXN_ISOLATION (except 0), whatever was done before, with or without a connection; the
    attributes with a single supported value give that one; and SQL_ATTR_METADATA_ID gives
    SQL_CUR_USE_ODBC, the value of another attribute.  Nothing else of the application's
    buffer is written. *)
Theorem SetAttr_GetAttr from_wchar ansi a v text len wide d rc d' query junk nbl addr buf blen hl :
  MADB_DbcSetAttr from_wchar ansi a v text len wide d = (rc, d') -> rc <> SQL_ERROR -> a ∈ stored_attributes ->
  0 <= v < 2 ^ 31 -> (a = SQL_ATTR_TXN_ISOLATION -> v <> 0) -> (attribute_size a <= length buf)%nat ->
  exists b, MADB_DbcGetAttr query junk nbl a addr (Some buf) blen hl d' = Some (SQL_SUCCESS, Some b, None, set_error d' (MADB_CLEAR_ERROR (db_Error d'))) /\
    read_number (attribute_size a) b = read_after a v /\ drop (attribute_size a) b = drop (attribute_size a) buf.
Proof.
  intros Hs Hrc Ha Hv Ht Hb. destruct (setattr_field _ _ _ _ _ _ _ _ _ _ Hs Hrc) as (F1 & F2 & F3).
  assert (read_after a v mod 2 ^ (8 * Z.of_nat (attribute_size a)) = read_after a v) as Hmod.
  { apply Z.mod_small. unfold read_after. assert (2 ^ 32 <= 2 ^ (8 * Z.of_nat (attribute_size a))) as Hp
      by (apply Z.pow_le_mono_r; [lia|]; unfold attribute_size; case_match; lia). unfold SQL_CUR_USE_ODBC. repeat case_match; lia. }
  setoid_rewrite <- Hmod. clear Hmod. unfold stored_attributes in Ha. rewrite !elem_of_cons in Ha.
  destruct Ha as [->|[->|[->|[->|[->|[->|[->|[]%elem_of_nil]]]]]]]; apply getattr_number; try done; intros b Hw.
  - change (write_number 4 SQL_MODE_READ_WRITE buf = Some b) in Hw. etrans; [by apply getattr_eq_access|]. by rewrite Hw.
  - change (write_number 8 SQL_ASYNC_ENABLE_OFF buf = Some b) in Hw. etrans; [by apply getattr_eq_async|]. by rewrite Hw.
  - change (write_number 4 v buf = Some b) in Hw. etrans; [by apply getattr_eq_autocommit|]. rewrite F1, wrapu_id by (done || lia). by rewrite Hw.
  - change (write_number 4 v buf = Some b) in Hw. etrans; [by apply getattr_eq_login|]. rewrite F2, wrapu_id by (done || lia). by rewrite Hw.
  - change (write_number 4 SQL_CUR_USE_ODBC buf = Some b) in Hw. etrans; [by apply getattr_eq_metadata|].
    destruct (write_read 4 (db_num d' MetadataId) buf Hb) as (b1 & E1 & _ & L1 & D1). rewrite E1. cbn [mbind option_bind].
    rewrite (write_number_again _ _ _ _ _ _ E1 Hw). done.
  - change (write_number 4 SQL_CUR_USE_ODBC buf = Some b) in Hw. etrans; [by apply getattr_eq_cursors|]. by rewrite Hw.
  - change (write_number 8 v buf = Some b) in Hw. etrans; [by apply getattr_eq_isolation|]. unfold get_isolation. change (db_num (set_error d' _) TxnIsolation) with (db_num d' TxnIsolation).
    rewrite F3 by done. assert (wraps 32 v = v) as -> by (unfold wraps; rewrite Z.mod_small; lia).
    rewrite (proj2 (Z.eqb_neq v 0)) by auto. cbn [negb mbind option_bind]. by rewrite Hw.
Qed.

End Attributes.

(** ** Examples *)

#[local] Instance accepting_server : Server nat := fun _ a => ([RespOk 0], a).
#[local] Instance accepting_commands : Commands nat := fun _ _ a => (RespOk 0, a).
Definition open_dbc : MADB_Dbc nat := set_mariadb (new_dbc []) (Some (MkMysql MYSQL_STATUS_READY false true None 0 0 no_diag [] [] None 0%nat)).

Lemma SetAttr_frame_witness : exists rc d', MADB_DbcSetAttr (fun _ _ => None) None SQL_ATTR_TXN_ISOLATION 3 None 0 false open_dbc = (rc, d') /\
  rc = SQL_ERROR /\ db_num d' TxnIsolation = 0 /\ db_locks d' = 0.
Proof.
  destruct (MADB_DbcSetAttr (fun _ _ => None) None SQL_ATTR_TXN_ISOLATION 3 None 0 false open_dbc) as [rc d'] eqn:E. exists rc, d'. split; [done|].
  assert (rc = SQL_ERROR) as Hrc by (apply (f_equal fst) in E; vm_compute in E; done).
  destruct (SetAttr_frame (fun _ _ => None) None SQL_ATTR_TXN_ISOLATION 3 None 0 false open_dbc rc d' E) as (H1 & _ & _ & H2 & _).
  split_and!; [done|by rewrite (H2 Hrc)|exact H1].
Defined.

Lemma SetAttr_GetAttr_witness : exists d' b,
  MADB_DbcSetAttr (fun _ _ => None) None SQL_ATTR_TXN_ISOLATION SQL_TRANSACTION_SERIALIZABLE None 0 false open_dbc = (SQL_SUCCESS, d') /\
  read_number 8 b = SQL_TRANSACTION_SERIALIZABLE.
Proof.
  destruct (MADB_DbcSetAttr (fun _ _ => None) None SQL_ATTR_TXN_ISOLATION SQL_TRANSACTION_SERIALIZABLE None 0 false open_dbc) as [rc d'] eqn:E.
  assert (rc = SQL_SUCCESS) as -> by (apply (f_equal fst) in E; vm_compute in E; done).
  destruct (SetAttr_GetAttr (fun _ _ => None) None SQL_ATTR_TXN_ISOLATION SQL_TRANSACTION_SERIALIZABLE None 0 false open_dbc SQL_SUCCESS d'
    (fun _ d => (None, d)) 0 8192 0 (replicate 8 0) 0 false) as (b & _ & Hb & _); [exact E|done|repeat constructor|vm_compute; done|done|vm_compute; lia|].
  exists d', b. split; [done|exact Hb].
Defined.

(** The check of the values of an attribute accepts everything: autocommit can be set to 256,
    which switches it off at the server and reads back as 256. *)
Definition odd_autocommit : Z * Z * list (command_code * list Z * bool) :=
  let '(rc, d) := MADB_DbcSetAttr (fun _ _ => None) None SQL_ATTR_AUTOCOMMIT 256 None 0 false open_dbc in (rc, db_num d AutoCommit, db_log d).
Theorem autocommit_unchecked : odd_autocommit = (SQL_SUCCESS, 256, [(COM_QUERY, chars "SET autocommit=0", false)]).
Proof. vm_compute. reflexivity. Qed.

End ConnProps.
