(* ===== verification/ConnectProps.v ===== *)
(** * ConnectProps: theorems about connecting

    What [MADB_DbcConnect] sends and leaves behind, the TLS options and the connection
    attributes it sets, the session of an open connection under every sequence of operations
    on the handle, and reconnecting with a printed connection string. *)

From Stdlib Require Import ZArith Lia.
From stdpp Require Import base strings numbers option list functions relations.
From S2P Require Import Prelude Decimal Charset Odbc Errors Diag SqlTypes Desc Ird ClientLib Dsn Conn Connect ConnProps.
Import ErrorOps Diag Client DsnOps DsnProps Conn Connect ConnProps.

Module ConnectProps.

(** ** Commands and the log *)

(** An error of the client library that is reported as one: its state is not of the classes
    00 and 01. *)
Definition error_diag (x : native_diag) : Prop := forall E, ReturnValue (MADB_SetNativeError E (Some x)) = SQL_ERROR.

Lemma server_gone_error : error_diag server_gone.
Proof. done. Qed.
Lemma server_lost_error : error_diag server_lost.
Proof. done. Qed.
Lemma out_of_sync_error : error_diag out_of_sync.
Proof. done. Qed.

(** A server whose error packets carry a state of an error. *)
Definition errors_are_errors {A} `{Server A} `{Commands A} : Prop :=
  (forall t a x, RespErr x ∈ (respond t a).1 -> error_diag x) /\ (forall c t a x, (answer c t a).1 = RespErr x -> error_diag x).

Section Queries.
Context {A : Type} `{Server A} `{Commands A}.
Implicit Types d : MADB_Dbc A.

Lemma real_query_error t (m m' : MYSQL A) : errors_are_errors -> mysql_real_query t m = (true, m') -> error_diag (my_diag m').
Proof.
  intros [He _]. unfold mysql_real_query. destruct (negb _); [intros [= <-]; apply server_gone_error|].
  destruct (_ || _); [intros [= <-]; apply out_of_sync_error|]. specialize (He t (my_server (free_old_query m))).
  destruct (respond _ _) as [rs a]. cbn [fst] in He. unfold read_query_result. cbn [my_pending set_pending].
  destruct rs as [|[| |x|] rs]; intros [= <-]; try apply server_lost_error. cbn. apply He. by left.
Qed.

Lemma select_db_error db (m m' : MYSQL A) rc : errors_are_errors -> mysql_select_db (Some db) m = (rc, m') -> rc <> 0 -> error_diag (my_diag m').
Proof.
  intros [_ He]. cbn [mysql_select_db]. unfold ma_simple_command, no_reconnect.
  destruct (my_connected m); [|intros [= <- <-] _; apply server_gone_error].
  destruct (_ || _); [intros [= <- <-] _; apply out_of_sync_error|]. specialize (He COM_INIT_DB db (my_server m)).
  destruct (answer _ _ _) as [r a]. cbn [fst] in He.
  destruct r as [| |x|]; intros [= <- <-] Hne; done || by apply He.
Qed.

(** What a query on the handle changes. *)
Record queried d d' (t : list Z) (failed : bool) : Prop := {
  qu_locks : db_locks d' = db_locks d;
  qu_open : db_mariadb d' <> None;
  qu_num : db_num d' = db_num d;
  qu_catalog : db_CatalogName d' = db_CatalogName d;
  qu_error : db_Error d' = db_Error d;
  qu_log : db_log d' = db_log d ++ [(COM_QUERY, t, failed)];
}.

Lemma run_queried d m t failed d' : run d m t = (failed, d') -> queried d d' t failed.
Proof. unfold run. destruct (mysql_real_query t m) as [f m']. intros [= <- <-]. by split. Qed.

Lemma run_failed d m t d' : errors_are_errors -> run d m t = (true, d') -> exists m', db_mariadb d' = Some m' /\ error_diag (my_diag m').
Proof.
  intros He. unfold run. destruct (mysql_real_query t m) as [f m'] eqn:E. intros [= -> <-]. exists m'. split; [done|]. by eapply real_query_error.
Qed.

(** The rows of every answer to [t] have a value in column [i]. *)
Definition answers_with (t : list Z) (i : nat) : Prop :=
  forall (a : A) cols flag rows broken, RespRows cols flag rows broken ∈ (respond t a).1 -> Forall (fun rw : row => exists x, rw !! i = Some (Some x)) rows.

Lemma read_first_row_spec d m t : exists r, read_first_row d m t = Some r /\
  match r with
  | inl (rw, d') => queried d d' t false /\ (forall i, answers_with t i -> match rw with Some rw => exists x, rw !! i = Some (Some x) | None => True end)
  | inr (m', d') => queried d d' t true /\ db_mariadb d' = Some m' /\ (errors_are_errors -> error_diag (my_diag m'))
  end.
Proof.
  unfold read_first_row, run. destruct (mysql_real_query t m) as [failed m1] eqn:E. cbn [db_mariadb add_log set_mariadb mbind option_bind].
  destruct failed.
  - eexists. split; [done|]. cbn. split; [split; cbn; try done; lia|]. split; [done|]. intros He. by eapply real_query_error.
  - destruct (mysql_store_result m1) as [res m2] eqn:E2. eexists. split; [done|]. cbn. split; [split; cbn; try done; lia|].
    intros i Hi. unfold mysql_fetch_row. destruct res as [res|]; [|done]. cbn [mbind option_bind].
    unfold mysql_store_result in E2. destruct (my_fields m1) as [cols|] eqn:Ef; [|done]. destruct (negb _); [done|].
    unfold read_rows in E2. cbn [my_broken set_status my_unread] in E2. destruct (my_broken m1); [done|]. injection E2 as <- _. cbn [res_data mbind option_bind].
    destruct (my_unread m1 !! 0%nat) as [rw|] eqn:Er; [|done].
    unfold mysql_real_query in E. destruct (negb _); [done|]. destruct (_ || _); [done|].
    specialize (Hi (my_server (free_old_query m))). destruct (respond _ _) as [rs a]. cbn [fst] in Hi. unfold read_query_result in E. cbn [my_pending set_pending] in E.
    destruct rs as [|[| cols' flag rows broken | |] rs]; try done; injection E as <-; [done|]. cbn in Er.
    exact (proj1 (Forall_lookup _ rows) (Hi cols' flag rows broken ltac:(by left)) _ _ Er).
Qed.

End Queries.

(** ** After the connection was made *)

Section After.
Context {A : Type} `{Server A} `{Commands A} (e : connect_env A).
Hypothesis (Herr : @errors_are_errors A _ _).
Implicit Types d : MADB_Dbc A.

(** The commands of a connection that was set up without an error. *)
Definition setup_commands (Dsn : MADB_Dsn) d : list (command_code * list Z * bool) :=
  match db_CatalogName d with Some ((_ :: _) as name) => [(COM_INIT_DB, name, false)] | _ => [] end
  ++ [(COM_QUERY, autocommit_query (wraps 8 (db_num d AutoCommit)), false)]
  ++ (if num Dsn CompatMode =? 0 then [(COM_QUERY, version_query, false)] else [])
  ++ [(COM_QUERY, collation_query, false)].

(** What setting up changes besides the connection, the error and the log. *)
Record kept d d' : Prop := {
  ke_locks : db_locks d' = db_locks d;
  ke_num : forall f, f <> DBCharsetnr -> f <> DbcOptions -> db_num d' f = db_num d f;
  ke_catalog : db_CatalogName d' = db_CatalogName d;
}.

Lemma kept_refl d : kept d d.
Proof. by split. Qed.
Lemma kept_trans d1 d2 d3 : kept d1 d2 -> kept d2 d3 -> kept d1 d3.
Proof. intros [A1 A2 A3] [B1 B2 B3]. split; [congruence| |congruence]. intros f Hf Ho. by rewrite B2, A2. Qed.
Lemma queried_kept d d' t failed : queried d d' t failed -> kept d d'.
Proof. intros []. split; try done. intros f _ _. congruence. Qed.

Lemma native_error_closes d m : db_mariadb d = Some m -> error_diag (my_diag m) ->
  exists d', native_error d = (SQL_ERROR, d') /\ db_mariadb d' = None /\ kept d d' /\ ReturnValue (db_Error d') = SQL_ERROR.
Proof.
  intros Em He. unfold native_error, close_on_error, dbc_native_fail. rewrite Em. cbn [snd db_Error set_error].
  rewrite He. cbn [Z.eqb]. eexists. split_and!; try done. apply He.
Qed.

Lemma select_catalog_spec d : db_mariadb d <> None -> exists failed d', select_catalog d = (failed, d') /\
  db_mariadb d' <> None /\ kept d d' /\ db_Error d' = db_Error d /\ db_num d' = db_num d /\
  db_log d' = db_log d ++ match db_CatalogName d with Some ((_ :: _) as name) => [(COM_INIT_DB, name, failed)] | _ => [] end /\
  (failed = true -> exists m, db_mariadb d' = Some m /\ error_diag (my_diag m)).
Proof using Herr.
  intros Hm. unfold select_catalog. destruct (db_CatalogName d) as [[|c name]|] eqn:Ec;
    [exists false, d; rewrite app_nil_r; split_and!; done| |exists false, d; rewrite app_nil_r; split_and!; done].
  destruct (db_mariadb d) as [m|] eqn:Em; [|done]. destruct (mysql_select_db (Some (c :: name)) m) as [rc m1] eqn:E.
  eexists _, _. split; [done|]. split_and!; try done. intros Hf. exists m1. split; [done|]. eapply select_db_error; [done|exact E|].
  by destruct (Z.eqb_spec rc 0).
Qed.

Lemma SetDBCharsetnr_spec d : db_mariadb d <> None -> answers_with collation_query 0 ->
  exists failed d', SetDBCharsetnr e d = Some d' /\ db_mariadb d' <> None /\ kept d d' /\
    db_log d' = db_log d ++ [(COM_QUERY, collation_query, failed)] /\
    (if (failed : bool) then ReturnValue (db_Error d') = SQL_ERROR else db_Error d' = db_Error d).
Proof using Herr.
  intros Hm Hrow. unfold SetDBCharsetnr. destruct (db_mariadb d) as [m|]; [|done]. cbn [mbind option_bind].
  destruct (read_first_row_spec d m collation_query) as (r & -> & Hr). cbn [mbind option_bind]. destruct r as [[rw d1]|[m1 d1]].
  - destruct Hr as [[Q1 Q2 Q3 Q4 Q5 Q6] Hr]. specialize (Hr 0%nat Hrow). exists false.
    destruct rw as [rw|]; [destruct Hr as [x ->]; cbn [mbind option_bind]|]; eexists; (split; [done|]); split_and!; try done;
      split; try done; intros f Hf _; cbn; rewrite fn_lookup_insert_ne by done; by rewrite Q3.
  - destruct Hr as ([Q1 Q2 Q3 Q4 Q5 Q6] & _ & Hd). exists true. eexists. split; [done|]. split_and!; try done.
    + split; try done. intros f Hf _. cbn. rewrite fn_lookup_insert_ne by done. by rewrite Q3.
    + by apply Hd.
Qed.

Lemma ask_version_spec d : db_mariadb d <> None -> answers_with version_query 1 ->
  exists r, ask_version d = Some r /\
    match r with
    | inl d' => queried d d' version_query false
    | inr (rc, d') => rc = SQL_ERROR /\ ReturnValue (db_Error d') = SQL_ERROR /\ db_mariadb d' <> None /\ kept d d' /\
        db_log d' = db_log d ++ [(COM_QUERY, version_query, true)]
    end.
Proof using Herr.
  intros Hm Hrow. unfold ask_version. destruct (db_mariadb d) as [m|]; [|done]. cbn [mbind option_bind].
  destruct (read_first_row_spec d m version_query) as (r & -> & Hr). cbn [mbind option_bind]. destruct r as [[rw d1]|[m1 d1]].
  - destruct Hr as [Q Hr]. specialize (Hr 1%nat Hrow). destruct rw as [rw|]; [destruct Hr as [x ->]; cbn [mbind option_bind]|]; by eexists.
  - destruct Hr as (Q & _ & Hd). eexists. split; [done|]. unfold dbc_native_fail. cbn [db_Error set_error]. rewrite Hd by done.
    pose proof (queried_kept _ _ _ _ Q) as []. destruct Q. by split_and!.
Qed.

(** How setting up ends: with the commands of [setup_commands], or closed, or open after the
    query for the version failed. *)
Record set_up (Dsn : MADB_Dsn) d (rc : Z) d' : Prop := {
  su_kept : kept d d';
  su_code : rc = ReturnValue (db_Error d');
  su_success : SQL_SUCCEEDED rc = true -> db_mariadb d' <> None /\ db_log d' = db_log d ++ setup_commands Dsn d;
  su_failure : SQL_SUCCEEDED rc = false -> rc = SQL_ERROR /\
    (db_mariadb d' = None \/ (num Dsn CompatMode = 0 /\ last (db_log d') = Some (COM_QUERY, version_query, true)));
  su_session : db_mariadb d' <> None -> session_autocommit (db_log d') = Some (negb (wraps 8 (db_num d AutoCommit) =? 0));
}.

Lemma run_fold d t m : exists failed d', run d m t = (failed, d') /\ queried d d' t failed /\
  (failed = true -> exists m', db_mariadb d' = Some m' /\ error_diag (my_diag m')).
Proof using Herr.
  destruct (run d m t) as [failed d'] eqn:E. exists failed, d'. split; [done|]. split; [by apply run_queried in E|]. intros ->. by eapply run_failed.
Qed.

Lemma closed_set_up Dsn d0 d d' : kept d0 d -> kept d d' -> ReturnValue (db_Error d') = SQL_ERROR -> db_mariadb d' = None -> set_up Dsn d0 SQL_ERROR d'.
Proof. intros K1 K2 Hr Hm. split; [by eapply kept_trans|done|done|by auto|done]. Qed.

Lemma after_connect_spec Dsn d : db_mariadb d <> None -> ReturnValue (db_Error d) = SQL_SUCCESS -> db_num d IsolationLevel = 0 ->
  answers_with version_query 1 -> answers_with collation_query 0 ->
  exists rc d', after_connect e Dsn d = Some (rc, d') /\ set_up Dsn d rc d'.
Proof using Herr.
  intros Hm Hok Hi Hv Hc. unfold after_connect.
  destruct (select_catalog_spec d Hm) as (f1 & d1 & -> & M1 & K1 & E1 & N1 & L1 & F1). destruct f1.
  { destruct F1 as (m & Em & He); [done|]. destruct (native_error_closes d1 m Em He) as (d2 & -> & M2 & K2 & L2). eexists _, _. split; [done|].
    by eapply closed_set_up. }
  destruct (db_mariadb d1) as [m|] eqn:Em; [|done]. cbn [mbind option_bind].
  destruct (run_fold d1 (autocommit_query (wraps 8 (db_num d1 AutoCommit))) m) as (f2 & d2 & -> & Q2 & F2). rewrite N1 in Q2.
  assert (kept d d2) as K2 by (eapply kept_trans; [done|by eapply queried_kept]). destruct f2.
  { destruct F2 as (m2 & Em2 & He2); [done|]. destruct (native_error_closes d2 m2 Em2 He2) as (d3 & -> & M3 & K3 & L3). eexists _, _. split; [done|].
    by eapply closed_set_up. }
  assert (session_autocommit (db_log d2) = Some (negb (wraps 8 (db_num d AutoCommit) =? 0))) as S2
    by (rewrite (qu_log _ _ _ _ Q2); apply session_autocommit_query).
  assert (exists r, (if num Dsn CompatMode =? 0 then ask_version d2 else Some (inl d2)) = Some r /\
    match r with
    | inl d3 => db_mariadb d3 <> None /\ kept d d3 /\ db_Error d3 = db_Error d2 /\ 
        db_log d3 = db_log d2 ++ (if num Dsn CompatMode =? 0 then [(COM_QUERY, version_query, false)] else [])
    | inr (rc, d3) => num Dsn CompatMode = 0 /\ rc = SQL_ERROR /\ ReturnValue (db_Error d3) = SQL_ERROR /\ db_mariadb d3 <> None /\ kept d d3 /\ db_log d3 = db_log d2 ++ [(COM_QUERY, version_query, true)]
    end) as (r & -> & Hr).
  { destruct (Z.eqb_spec (num Dsn CompatMode) 0) as [E0|E0].
    - destruct (ask_version_spec d2) as (r & -> & Hr); [apply Q2|done|]. exists r. split; [done|]. destruct r as [d3|[rc d3]].
      + pose proof (kept_trans _ _ _ K2 (queried_kept _ _ _ _ Hr)). destruct Hr. by split_and!.
      + destruct Hr as (-> & R3 & M3 & K3 & L3). split_and!; try done. by eapply kept_trans.
    - eexists. split; [done|]. rewrite app_nil_r. split_and!; try done; apply Q2. }
  cbn [mbind option_bind]. destruct r as [d3|[rc d3]].
  2: { destruct Hr as (E0 & -> & R3 & M3 & K3 & L3). eexists _, _. split; [done|]. split; [done|done|done| |].
       - intros _. split; [done|]. right. split; [done|]. by rewrite L3, last_snoc.
       - intros _. by rewrite L3, session_snoc. }
  destruct Hr as (M3 & K3 & E3 & L3). destruct (SetDBCharsetnr_spec d3 M3 Hc) as (f4 & d4 & -> & M4 & K4 & L4 & R4). cbn [mbind option_bind].
  unfold apply_isolation. rewrite (ke_num _ _ K4), (ke_num _ _ K3), Hi by done. cbn [Z.eqb]. unfold close_on_error.
  assert (kept d d4) as K by (by eapply kept_trans).
  assert (session_autocommit (db_log d4) = Some (negb (wraps 8 (db_num d AutoCommit) =? 0))) as S4.
  { rewrite L4, session_snoc. rewrite L3. destruct f4, (num Dsn CompatMode =? 0); cbn -[session_autocommit]; rewrite ?session_snoc, ?app_nil_r; done. }
  destruct f4.
  - rewrite R4. cbn [Z.eqb SQL_ERROR]. eexists _, _. split; [done|]. split; [destruct K; by split|done|done|by auto|done].
  - rewrite R4, E3, (qu_error _ _ _ _ Q2), E1, Hok. cbn [Z.eqb SQL_ERROR SQL_SUCCESS]. eexists _, _. split; [done|].
    split; [done|by rewrite R4, E3, (qu_error _ _ _ _ Q2), E1| |done|done]. intros _. split; [done|]. rewrite L4, L3, (qu_log _ _ _ _ Q2), L1. unfold setup_commands. by rewrite <- !app_assoc.
Qed.

(** What [mysql_real_connect] reports when it fails is an error. *)
Hypothesis (Hconn : forall c m m', ce_real_connect e c m = (true, m') -> error_diag (my_diag m')).

Lemma tls_version_fits bits : tls_version bits = Some (tls_text TlsVersions bits false).
Proof. unfold tls_version, TlsVersions. cbn [tls_text]. by destruct (_ =? 0), (_ =? 0), (_ =? 0). Qed.

Lemma connect_options_total Dsn csname : exists opts, connect_options e Dsn csname = Some opts.
Proof.
  unfold connect_options, ssl_options. cbv zeta. destruct (forallb _ _); cbn [mbind option_bind]; [by eexists|].
  destruct (0 <? _); [rewrite tls_version_fits|]; cbn [mbind option_bind]; by eexists.
Qed.

(** The calls of mysql_real_connect: none, or one with the options of the data source. *)
Definition one_call (Dsn : MADB_Dsn) (calls : list connect_call) : Prop :=
  calls = [] \/ exists csname opts, connect_options e Dsn csname = Some opts /\ calls = [real_connect_call Dsn opts].

Lemma close_on_fail d code msg native : code <> MADB_ERR_HY000 -> code_of_error code = SQL_ERROR ->
  exists d', close_on_error (fail d code msg native).2 = (SQL_ERROR, d') /\ db_mariadb d' = None /\ kept d d' /\ ReturnValue (db_Error d') = SQL_ERROR.
Proof.
  intros Hc He. unfold close_on_error. change (ReturnValue (db_Error (fail d code msg native).2)) with (fail d code msg native).1.
  rewrite fail_code, He by done. cbn [Z.eqb SQL_ERROR]. eexists. split_and!; try done.
  change (ReturnValue (db_Error (set_mariadb (fail d code msg native).2 None))) with (fail d code msg native).1. by rewrite fail_code.
Qed.

(** Setting up seen from a handle with the same settings. *)
Lemma set_up_base Dsn d0 d rc d' : kept d0 d -> db_log d = db_log d0 -> db_num d AutoCommit = db_num d0 AutoCommit -> set_up Dsn d rc d' -> set_up Dsn d0 rc d'.
Proof.
  intros K L N [S1 S0 S2 S3 S4]. split; [by eapply kept_trans|done| |done|by rewrite <- N]. intros Hs. destruct (S2 Hs) as [M E]. split; [done|].
  rewrite E, L. unfold setup_commands. by rewrite (ke_catalog _ _ K), N.
Qed.

Lemma choose_charset_spec Dsn d : match choose_charset e Dsn d with
  | inl (_, d') => kept d d' /\ db_mariadb d' = db_mariadb d /\ db_Error d' = db_Error d /\ db_log d' = db_log d /\ db_num d' = db_num d /\
      db_CatalogName d' = db_CatalogName d
  | inr d' => exists d1 code msg, d' = (fail d1 code msg 0).2 /\ code = MADB_ERR_HY001 /\ kept d d1
  end.
Proof.
  unfold choose_charset. cbv zeta. destruct (InitClientCharset _ _) as [csname|]; [|by eexists _, _, _].
  destruct (_ && _); [by eexists _, _, _|]. by destruct (_ || _).
Qed.

(** From the label real_connect on, once there is a handle [m] of the client library. *)
Lemma after_charset Dsn d d0 m : kept d d0 -> db_log d0 = db_log d -> ReturnValue (db_Error d0) = SQL_SUCCESS -> db_num d IsolationLevel = 0 ->
  answers_with version_query 1 -> answers_with collation_query 0 ->
  match choose_charset e Dsn (set_mariadb d0 (Some m)) with
  | inr d1 => exists d2, close_on_error d1 = (SQL_ERROR, d2) /\ set_up Dsn d SQL_ERROR d2
  | inl (csname, d1) => forall m1, let d2 := set_mariadb (set_field d1 DbcOptions (num Dsn Options)) (Some m1) in
      (exists rc d3, after_connect e Dsn d2 = Some (rc, d3) /\ set_up Dsn d rc d3) /\
      (error_diag (my_diag m1) -> exists d3, native_error d2 = (SQL_ERROR, d3) /\ set_up Dsn d SQL_ERROR d3)
  end.
Proof using Herr.
  intros K0 L0 R0 Hi Hv Hc. pose proof (choose_charset_spec Dsn (set_mariadb d0 (Some m))) as Hs.
  destruct (choose_charset e Dsn _) as [[csname d1]|d1].
  - destruct Hs as (K1 & _ & E1 & L1 & N1 & C1). intros m1 d2.
    assert (kept d d2) as K2.
    { destruct K0 as [A1 A2 A3], K1 as [B1 B2 B3]. split; [etrans; [exact B1|exact A1]| |etrans; [exact B3|exact A3]].
      intros f Hf Ho. cbn. rewrite fn_lookup_insert_ne by done. etrans; [exact (B2 f Hf Ho)|exact (A2 f Hf Ho)]. }
    split.
    + destruct (after_connect_spec Dsn d2) as (rc & d3 & -> & Hsu); [done|by cbn; rewrite E1| |done|done|].
      { rewrite (ke_num _ _ K2) by done. done. }
      exists rc, d3. split; [done|]. eapply set_up_base; [exact K2| | |exact Hsu]; [cbn; by rewrite L1|by rewrite (ke_num _ _ K2)].
    + intros He. destruct (native_error_closes d2 m1 eq_refl He) as (d3 & -> & M3 & K3 & R3). exists d3. split; [done|]. by eapply closed_set_up.
  - destruct Hs as (d1' & code & msg & -> & -> & K1). destruct (close_on_fail d1' MADB_ERR_HY001 msg 0) as (d2 & -> & M2 & K2 & R2); [done|done|].
    exists d2. split; [done|]. eapply closed_set_up; [|exact K2|done|done]. eapply kept_trans; [exact K0|]. destruct K1. by split.
Qed.

Lemma real_connect_plain again email Dsn d : num Dsn IsBrowserAuth = 0 -> db_mariadb d = None -> db_num d IsolationLevel = 0 ->
  answers_with version_query 1 -> answers_with collation_query 0 ->
  exists rc calls d', real_connect e again email Dsn [] d = Some (rc, Dsn, calls, d') /\ one_call Dsn calls /\ set_up Dsn d rc d'.
Proof using Herr Hconn.
  intros Hb Hm Hi Hv Hc. remember (set_error d (MADB_CLEAR_ERROR (db_Error d))) as d0 eqn:E0.
  assert (kept d d0 /\ db_mariadb d0 = None /\ db_log d0 = db_log d /\ ReturnValue (db_Error d0) = SQL_SUCCESS) as (K0 & M0 & L0 & R0) by (subst d0; done).
  destruct again; cbn [real_connect]; rewrite <- E0, M0; (destruct (ce_init e) as [m|];
    [|destruct (close_on_fail d0 MADB_ERR_HY001 None 0) as (d2 & -> & M2 & K2 & R2); [done|done|];
      exists SQL_ERROR, [], d2; split; [done|]; split; [by left|]; by eapply closed_set_up]);
    pose proof (after_charset Dsn d d0 m K0 L0 R0 Hi Hv Hc) as Hs; destruct (choose_charset e Dsn _) as [[csname d1]|d1];
    [|destruct Hs as (d2 & -> & Hsu); exists SQL_ERROR, [], d2; split; [done|]; by split; [left|]
     | |destruct Hs as (d2 & -> & Hsu); exists SQL_ERROR, [], d2; split; [done|]; by split; [left|]];
    destruct (connect_options_total Dsn csname) as [opts Eo]; rewrite Eo; cbn [mbind option_bind app];
    destruct (ce_real_connect e (real_connect_call Dsn opts) m) as [failed m1] eqn:Ec; destruct (Hs m1) as [Hs1 Hs2]; rewrite ?Hb; cbn [Z.eqb];
    (destruct failed; cbn [negb];
     [destruct (Hs2 (Hconn _ _ _ Ec)) as (d3 & -> & Hsu)|destruct Hs1 as (rc & d3 & -> & Hsu); cbn [mbind option_bind]]);
    eexists _, _, d3; (split; [done|]); (split; [right; by eexists _, _|exact Hsu]).
Qed.



Lemma use_jwt_num Dsn f : num (use_jwt Dsn) f = num Dsn f.
Proof. unfold use_jwt. destruct (str Dsn JWT); [|done]. by destruct (is_empty _). Qed.

Lemma Connect_plain Dsn d : num Dsn IsBrowserAuth = 0 -> db_mariadb d = None -> db_num d IsolationLevel = 0 ->
  answers_with version_query 1 -> answers_with collation_query 0 ->
  exists rc calls d', MADB_DbcConnect e Dsn d = Some (rc, use_jwt Dsn, calls, d') /\ one_call (use_jwt Dsn) calls /\ set_up (use_jwt Dsn) d rc d'.
Proof using Herr Hconn.
  intros Hb Hm Hi Hv Hc. unfold MADB_DbcConnect. rewrite use_jwt_num, Hb. cbn [Z.eqb]. apply real_connect_plain; try done. by rewrite use_jwt_num.
Qed.

(** C7. Connecting with a data source that does not use the browser login, from a handle
    without a connection, always comes to an end with an answer: at most one attempt is
    made, with the options of the data source.  On success the connection is open and
    exactly these commands were sent, all successful and in this order: selecting the
    catalog if one was set, autocommit as the attribute says, the version unless the
    compatibility mode is on, the collation of the database.  On failure the connection is closed again, or it
    is left open, which happens only after the query for the version failed.  The lock is given
    back and the attributes are unchanged. *)
Theorem Connect_session Dsn d : num Dsn IsBrowserAuth = 0 -> db_mariadb d = None -> db_num d IsolationLevel = 0 ->
  answers_with version_query 1 -> answers_with collation_query 0 ->
  exists rc calls d', MADB_DbcConnect e Dsn d = Some (rc, use_jwt Dsn, calls, d') /\ one_call (use_jwt Dsn) calls /\ kept d d' /\
    (SQL_SUCCEEDED rc = true -> db_mariadb d' <> None /\ db_log d' = db_log d ++ setup_commands Dsn d) /\
    (SQL_SUCCEEDED rc = false -> rc = SQL_ERROR /\
      (db_mariadb d' = None \/ (num Dsn CompatMode = 0 /\ last (db_log d') = Some (COM_QUERY, version_query, true)))).
Proof using Herr Hconn.
  intros Hb Hm Hi Hv Hc. destruct (Connect_plain Dsn d Hb Hm Hi Hv Hc) as (rc & calls & d' & E & H1 & [S1 _ S2 S3 _]).
  exists rc, calls, d'. unfold setup_commands in *. rewrite use_jwt_num in *. by split_and!.
Qed.

(** ** The session under every sequence of operations *)

(** What reading the current database may do with the connection. *)
Definition query_reads (query : list Z -> MADB_Dbc A -> option (MADB_Error + list Z) * MADB_Dbc A) : Prop :=
  forall t d r d', query t d = (r, d') -> kept d d' /\ db_num d' = db_num d /\ (db_mariadb d' = None <-> db_mariadb d = None) /\
    exists l, db_log d' = db_log d ++ l /\ Forall (fun x => autocommit_of x = None) l.

(** The data source leaves the automatic reconnection of the client library off: neither
    AUTO_RECONNECT nor an option file, which may switch it on.  With it the library would
    open a new session behind a lost one, with the autocommit mode of the server. *)
Definition never_reconnects (Dsn : MADB_Dsn) : Prop :=
  Z.land (num Dsn Options) MADB_OPT_FLAG_AUTO_RECONNECT = 0 /\ num Dsn ReadMycnf = 0.

(** The operations of an application on a connection handle. *)
Inductive dbc_step : MADB_Dbc A -> MADB_Dbc A -> Prop :=
| step_set from_wchar ansi a v text len wide d : dbc_step d (MADB_DbcSetAttr from_wchar ansi a v text len wide d).2
| step_get query junk nbl a addr buf len hl d r b l d' : query_reads query ->
    MADB_DbcGetAttr query junk nbl a addr buf len hl d = Some (r, b, l, d') -> dbc_step d d'
| step_functions f b d r b' d' : MADB_DbcGetFunctions f b d = Some (r, b', d') -> dbc_step d d'
| step_end ct d : dbc_step d (EndTran_DBC ct d).2
| step_connect Dsn d rc Dsn' calls d' : num Dsn IsBrowserAuth = 0 -> never_reconnects Dsn -> db_mariadb d = None ->
    MADB_DbcConnect e Dsn d = Some (rc, Dsn', calls, d') -> dbc_step d d'
| step_disconnect d : dbc_step d (disconnect d).2.

(** The attribute of autocommit is the mode of the session; nobody holds the lock; the fields
    no operation sets. *)
Record in_session (locks : Z) d : Prop := {
  is_locks : db_locks d = locks;
  is_isolation : db_num d IsolationLevel = 0;
  is_dtc : db_num d EnlistInDtc = 0;
  is_mode : db_mariadb d <> None -> session_autocommit (db_log d) = Some (negb (wraps 8 (db_num d AutoCommit) =? 0));
}.

(** An operation that sends nothing about autocommit and does not open a connection. *)
Lemma in_session_quiet locks d d' l : in_session locks d -> db_locks d' = db_locks d -> (db_mariadb d' <> None -> db_mariadb d <> None) ->
  (forall f, f ∈ [IsolationLevel; EnlistInDtc; AutoCommit] -> db_num d' f = db_num d f) -> db_log d' = db_log d ++ l ->
  Forall (fun x => autocommit_of x = None) l -> in_session locks d'.
Proof.
  intros [I1 I2 I3 I4] Hl Hm Hn Hlog HF. split; [congruence|rewrite Hn; set_solver..|]. intros Ho.
  rewrite Hlog, session_neutral, Hn by (done || set_solver). by apply I4, Hm.
Qed.

Lemma in_session_same locks d d' : in_session locks d -> db_locks d' = db_locks d -> (db_mariadb d' <> None -> db_mariadb d <> None) ->
  (forall f, f ∈ [IsolationLevel; EnlistInDtc; AutoCommit] -> db_num d' f = db_num d f) -> db_log d' = db_log d -> in_session locks d'.
Proof. intros. eapply (in_session_quiet locks d d' []); rewrite ?app_nil_r; auto. Qed.

Lemma wraps8_wrapu32 v : wraps 8 (wrapu 32 v) = wraps 8 v.
Proof. unfold wraps, wrapu. change (2 ^ 32) with 4294967296. change (2 ^ 8) with 256. change (2 ^ (8 - 1)) with 128. Z.div_mod_to_equations. lia. Qed.

Lemma autocommit_in_session locks v d : in_session locks d -> in_session locks (set_autocommit v d).2.
Proof.
  intros Hs. unfold set_autocommit. rewrite check_attribute_never. destruct (db_mariadb d) as [m|] eqn:Em.
  2: { destruct Hs. by split. }
  rewrite (is_dtc _ _ Hs). cbn [Z.eqb negb]. destruct (mysql_autocommit _ m) as [[] m'].
  - remember (add_log _ _ _ _) as d1 eqn:Ed1. destruct (report_same d1 MADB_ERR_HY001) as (R1 & R2 & R3 & R4 & R5 & R6).
    eapply in_session_quiet; [exact Hs|rewrite R2; by subst d1|by rewrite Em|intros f _; rewrite R4; by subst d1|rewrite R6; subst d1; done|].
    by apply Forall_singleton.
  - destruct Hs as [I1 I2 I3 I4]. split; try done. intros _. cbn [finish snd set_field db_log add_log set_mariadb db_num].
    rewrite session_autocommit_query. do 2 f_equal. rewrite fn_lookup_insert. by rewrite wraps8_wrapu32.
Qed.

Lemma set_in_session locks from_wchar ansi a v text len wide d : in_session locks d -> in_session locks (MADB_DbcSetAttr from_wchar ansi a v text len wide d).2.
Proof.
  intros Hs. destruct (decide (a = SQL_ATTR_AUTOCOMMIT)) as [->|Ha].
  { change (MADB_DbcSetAttr from_wchar ansi SQL_ATTR_AUTOCOMMIT v text len wide d) with (set_autocommit v (set_error d (MADB_CLEAR_ERROR (db_Error d)))).
    apply autocommit_in_session. destruct Hs. by split. }
  destruct (SetAttr_effect from_wchar ansi a v text len wide d) as [_ E1 E2 E3 _ _ (l & E6 & _ & _ & _ & E7)].
  assert (own_field a <> Some AutoCommit /\ own_field a <> Some IsolationLevel /\ own_field a <> Some EnlistInDtc) as (H1 & H2 & H3).
  { unfold own_field. repeat (case_match; [split_and!; done || (exfalso; by apply Ha, Z.eqb_eq)|]). done. }
  eapply in_session_quiet; [exact Hs|done|by rewrite E2| |exact E6|by apply E7].
  intros f Hf. apply E3. set_solver.
Qed.

Lemma end_transaction_quiet locks t d : in_session locks d -> autocommit_of (COM_QUERY, t, false) = None -> in_session locks (end_transaction t d).
Proof.
  intros Hs Ht. unfold end_transaction. destruct (db_mariadb d) as [m|] eqn:Em; [|done]. destruct (run d m t) as [failed d1] eqn:E.
  apply run_queried in E as [Q1 Q2 Q3 Q4 Q5 Q6]. destruct (db_mariadb d1) as [m1|] eqn:Em1; [|done].
  assert (in_session locks d1) as Hs1.
  { eapply in_session_quiet; [exact Hs|done|by rewrite Em|intros; by rewrite Q3|exact Q6|]. by destruct failed; apply Forall_singleton. }
  destruct failed; [|done]. eapply in_session_same; [exact Hs1|done..].
Qed.

Lemma end_in_session locks ct d : in_session locks d -> in_session locks (EndTran_DBC ct d).2.
Proof.
  intros Hs. unfold EndTran_DBC. destruct (db_mariadb d) as [m|] eqn:Em; [|by eapply in_session_same].
  unfold MADB_DbcEndTran. cbn [finish snd]. remember (LOCK _) as d1 eqn:E1.
  assert (in_session (locks + 1) d1) as H1 by (subst d1; destruct Hs; split; try done; cbn; lia).
  assert (forall d2, in_session (locks + 1) d2 -> in_session locks (UNLOCK d2)) as Hu by (intros d2 []; split; try done; cbn; lia).
  apply Hu. destruct (ct =? SQL_ROLLBACK); [by apply end_transaction_quiet|]. destruct (ct =? SQL_COMMIT); [by apply end_transaction_quiet|].
  by eapply in_session_same.
Qed.

Lemma error_in_session locks d E : in_session locks d -> in_session locks (set_error d E).
Proof. intros Hs. by eapply in_session_same. Qed.

Lemma catalog_in_session locks query junk buf len d r l b d' : query_reads query -> in_session locks d ->
  get_catalog query junk buf len d = (r, l, b, d') -> in_session locks d'.
Proof.
  intros Hq Hs. unfold get_catalog, MADB_Dbc_GetCurrentDB. destruct (query current_db_query _) as [res d1] eqn:E.
  assert (in_session locks d1) as Hs1.
  { destruct (Hq _ _ _ _ E) as ([K1 _ _] & N & M & l' & L & HF).
    eapply (in_session_quiet locks (set_error d (MADB_CLEAR_ERROR (db_Error d)))); [by apply error_in_session|exact K1|by rewrite M|by rewrite N|exact L|exact HF]. }
  destruct res as [[E1|text]|]; [| destruct (MADB_SetString _ _ _ _ _) as [[sz b1] E1] |];
    cbn [db_CatalogName set_error]; (destruct (db_CatalogName d1) as [name|]; [destruct (SQL_SUCCEEDED _)|]);
    try (intros [= _ _ _ <-]; done || by apply error_in_session);
    destruct (MADB_SetString _ _ _ _ _) as [[sz' b2] E2]; intros [= _ _ _ <-]; by repeat apply error_in_session.
Qed.

Lemma isolation_in_session locks d r v d' : in_session locks d -> get_isolation d = Some (r, v, d') -> in_session locks d'.
Proof.
  intros Hs. unfold get_isolation. destruct (negb _); [by intros [= _ _ <-]|]. destruct (db_mariadb d) as [m|] eqn:Em; [|by intros [= _ _ <-]].
  destruct (run (LOCK d) m isolation_variable) as [failed d1] eqn:E. apply run_queried in E as [Q1 Q2 Q3 Q4 Q5 Q6].
  assert (in_session locks (UNLOCK d1)) as Hs1.
  { eapply in_session_quiet; [exact Hs|cbn; rewrite Q1; cbn; lia|by rewrite Em|cbn; by rewrite Q3|exact Q6|]. by destruct failed; apply Forall_singleton. }
  destruct (db_mariadb d1) as [m1|] eqn:Em1; [|done]. cbn [mbind option_bind]. destruct failed.
  - unfold dbc_native_fail. intros [= _ _ <-]. by apply error_in_session.
  - destruct (mysql_store_result m1) as [res m2]. intros (x & _ & [= _ _ <-])%bind_Some.
    eapply in_session_same; [exact Hs1|done|cbn; by rewrite Em1|done..].
Qed.

Lemma get_in_session locks query junk nbl a addr buf len hl d r b l d' : query_reads query -> in_session locks d ->
  MADB_DbcGetAttr query junk nbl a addr buf len hl d = Some (r, b, l, d') -> in_session locks d'.
Proof.
  intros Hq Hs. unfold MADB_DbcGetAttr. cbv zeta.
  apply (error_in_session _ _ (MADB_CLEAR_ERROR (db_Error d))) in Hs. remember (set_error d _) as d0 eqn:E0. clear E0 d.
  assert (forall code, in_session locks (fail d0 code None 0).2) as Hf by (intros; by apply error_in_session).
  assert (forall n v, (b0 ← write_number n v (default [] buf); Some (ReturnValue (db_Error d0), Some b0, None, d0)) = Some (r, b, l, d') -> in_session locks d')
    as Hn by (intros n v (? & _ & [= _ _ _ <-])%bind_Some; done).
  assert (forall bf, (let '(rc, d1) := fail d0 MADB_ERR_01004 None 0 in Some (rc, bf, None, d1)) = Some (r, b, l, d') -> in_session locks d')
    as Hf1 by (intros bf [= _ _ _ <-]; apply Hf).
  assert (forall bf, (let '(rc, d1) := fail d0 MADB_ERR_HYC00 None 0 in Some (rc, bf, None, d1)) = Some (r, b, l, d') -> in_session locks d')
    as Hf2 by (intros bf [= _ _ _ <-]; apply Hf).
  destruct buf as [buf|].
  2: { destruct (negb _); [by intros [= _ _ _ <-]|]. destruct (negb _); [apply Hf1|].
       destruct (get_catalog _ _ _ _ _) as [[[rc len'] b'] d1] eqn:E. intros [= _ _ _ <-]. by eapply catalog_in_session. }
  destruct (a =? SQL_ATTR_CURRENT_CATALOG).
  { destruct (_ && _); [apply Hf1|]. destruct (get_catalog _ _ _ _ _) as [[[rc len'] b'] d1] eqn:E. intros [= _ _ _ <-]. by eapply catalog_in_session. }
  repeat match goal with
  | |- (if a =? SQL_ATTR_CONNECTION_DEAD then _ else _) = _ -> _ => destruct (a =? SQL_ATTR_CONNECTION_DEAD)
  | |- (if a =? ?k then _ else _) = _ -> _ => destruct (a =? k); [first [apply Hn|apply Hf2|idtac]|]
  | |- (if _ || _ then _ else _) = _ -> _ => destruct (_ || _); [by intros [= _ _ _ <-]|]
  end; [| | | |apply Hf2].
  - intros (m & Em & Hr)%bind_Some. destruct (mysql_ping None m) as [rc m1]. apply bind_Some in Hr as (b1 & _ & [= _ _ _ <-]).
    eapply in_session_quiet; [exact Hs|done|by rewrite Em|done|done|by apply Forall_singleton].
  - intros (b1 & _ & (b2 & _ & [= _ _ _ <-])%bind_Some)%bind_Some. done.
  - intros [= _ _ _ <-]. eapply in_session_same; [exact Hs|done|done| |done]. intros f Hq'. apply fn_lookup_insert_ne. intros <-.
    rewrite !elem_of_cons, elem_of_nil in Hq'. naive_solver.
  - intros ([[rc v] d1] & E & (b1 & _ & [= _ _ _ <-])%bind_Some)%bind_Some. by eapply isolation_in_session.
Qed.


Lemma functions_in_session locks f b d r b' d' : in_session locks d -> MADB_DbcGetFunctions f b d = Some (r, b', d') -> in_session locks d'.
Proof.
  intros Hs. unfold MADB_DbcGetFunctions. destruct (f =? _); [|destruct (f =? _)].
  1,2: intros (b1 & _ & (b2 & _ & [= _ _ <-])%bind_Some)%bind_Some; done.
  intros (b1 & _ & Hr)%bind_Some. destruct (existsb _ _); [by apply bind_Some in Hr as (b2 & _ & [= _ _ <-])|].
  unfold fail in Hr. injection Hr as _ _ <-. by apply error_in_session.
Qed.

Lemma connect_in_session locks Dsn d rc Dsn' calls d' : num Dsn IsBrowserAuth = 0 -> db_mariadb d = None ->
  answers_with version_query 1 -> answers_with collation_query 0 ->
  in_session locks d -> MADB_DbcConnect e Dsn d = Some (rc, Dsn', calls, d') -> in_session locks d'.
Proof using Herr Hconn.
  intros Hb Hm Hv Hc [I1 I2 I3 I4] E. destruct (Connect_plain Dsn d Hb Hm I2 Hv Hc) as (rc1 & calls1 & d1 & E1 & _ & [[K1 K2 K3] _ _ _ S4]).
  rewrite E1 in E. injection E as _ _ _ <-. split; [congruence|by rewrite K2|by rewrite K2|]. intros Ho. rewrite S4, K2 by done. done.
Qed.


End After.

(** ** The options of a connection *)

(** The values an option was given, in order. *)
Definition values (o : mysql_option) (opts : options) : list option_value := omap (fun x => if decide (x.1 = o) then Some x.2 else None) opts.

Lemma values_app o a b : values o (a ++ b) = values o a ++ values o b.
Proof. apply omap_app. Qed.
Lemma values_text o o' t : values o (text_option o' t) = if decide (o' = o) then if is_empty t then [] else [OptText t] else [].
Proof. unfold text_option, values. destruct (is_empty t); cbn; by destruct (decide (o' = o)). Qed.
Lemma values_number o o' n : values o (number_option o' n) = if decide (o' = o) then if n =? 0 then [] else [OptNum n] else [].
Proof. unfold number_option, values. destruct (n =? 0); cbn; by destruct (decide (o' = o)). Qed.
Lemma values_attrs o t : o <> MYSQL_OPT_CONNECT_ATTR_ADD -> values o (conn_attrs t) = [].
Proof. intros Ho. unfold conn_attrs, values. induction (pairs _) as [|x l IH]; [done|]. cbn. by destruct (decide _). Qed.

(** The text of the TLS versions is read back by the parser of data sources. *)
Lemma land_pow2 b k : 0 <= k -> Z.land b (2 ^ k) = if Z.testbit b k then 2 ^ k else 0.
Proof.
  intros Hk. apply Z.bits_inj'. intros n Hn. rewrite Z.land_spec, Z.pow2_bits_eqb by lia. destruct (Z.eqb_spec k n) as [->|].
  - rewrite andb_true_r. destruct (Z.testbit b n); [by rewrite Z.pow2_bits_eqb, Z.eqb_refl by lia|by rewrite Z.testbit_0_l].
  - rewrite andb_false_r. destruct (Z.testbit b k); [rewrite Z.pow2_bits_eqb by lia; symmetry; by apply Z.eqb_neq|by rewrite Z.testbit_0_l].
Qed.

Lemma tls_text_bits bits : tls_bits (tls_text TlsVersions bits false) = Z.land bits 7.
Proof.
  change 7 with (Z.lor (2 ^ 0) (Z.lor (2 ^ 1) (2 ^ 2))). rewrite !Z.land_lor_distr_r, !land_pow2 by lia. unfold TlsVersions. cbn [tls_text].
  change MADB_TLSV11 with (2 ^ 0). change MADB_TLSV12 with (2 ^ 1). change MADB_TLSV13 with (2 ^ 2). rewrite !land_pow2 by lia.
  destruct (Z.testbit bits 0), (Z.testbit bits 1), (Z.testbit bits 2); vm_compute; reflexivity.
Qed.

Section Options.
Context {A : Type} `{Server A} `{Commands A} (e : connect_env A).
Implicit Types d : MADB_Dbc A.

Definition has_ssl_file (Dsn : MADB_Dsn) : bool := negb (forallb (fun x => is_empty x.2) (ssl_files Dsn)).

Lemma real_connect_calls again email Dsn d rc Dsn' calls d' : num Dsn IsBrowserAuth = 0 ->
  real_connect e again email Dsn [] d = Some (rc, Dsn', calls, d') -> one_call e Dsn calls.
Proof.
  intros Hb. destruct again; cbn [real_connect]; cbv zeta; (destruct (match db_mariadb _ with Some m => Some m | None => _ end) as [m|];
    [|destruct (close_on_error _) as [rc1 d1]; intros [= _ _ <- _]; by left]);
    (destruct (choose_charset e Dsn _) as [[csname d1]|d1]; [|destruct (close_on_error _) as [rc1 d2]; intros [= _ _ <- _]; by left]);
    rewrite ?Hb; cbn [Z.eqb]; intros (opts & Eo & Hr)%bind_Some; right; exists csname, opts; (split; [done|]); cbn [app] in Hr;
    destruct (ce_real_connect e _ m) as [[] m1]; cbn [negb] in Hr;
    first [ destruct (native_error _) as [rc1 d3]; by injection Hr as _ _ <- _
          | apply bind_Some in Hr as ([rc1 d3] & _ & Hr); by injection Hr as _ _ <- _ ].
Qed.

Lemma use_jwt_str Dsn f : f ∉ [Password; UserName; JWT] -> str (use_jwt Dsn) f = str Dsn f.
Proof.
  rewrite !not_elem_of_cons. intros (H1 & H2 & H3 & _). unfold use_jwt. destruct (str Dsn JWT); [|done].
  destruct (is_empty _); cbn; rewrite !fn_lookup_insert_ne by done; done.
Qed.

Lemma use_jwt_ssl Dsn : ssl_files (use_jwt Dsn) = ssl_files Dsn.
Proof. unfold ssl_files. cbn [map]. rewrite !use_jwt_str by (apply (bool_decide_eq_true_1 _); vm_compute; reflexivity). done. Qed.

Lemma values_if o o' (b : bool) v : values o (if b then [] else [(o', v)]) = if decide (o' = o) then if b then [] else [v] else [].
Proof. unfold values. destruct b; cbn; by destruct (decide (o' = o)). Qed.
Lemma values_cons o o' v l : values o ((o', v) :: l) = (if decide (o' = o) then [v] else []) ++ values o l.
Proof. unfold values. cbn. by destruct (decide (o' = o)). Qed.

(** Collects the values of one option from the pieces of an option list. *)
Ltac collect :=
  repeat first [rewrite values_app | rewrite values_cons | rewrite values_text | rewrite values_number | rewrite values_if | rewrite values_attrs by done];
  repeat (rewrite decide_False by done || rewrite decide_True by done); cbn [values omap list_omap app]; rewrite ?app_nil_r.

(** The options that do not come from the block for TLS. *)
Definition tls_option (o : mysql_option) : bool :=
  match o with
  | MYSQL_OPT_SSL_ENFORCE | MYSQL_OPT_SSL_KEY | MYSQL_OPT_SSL_CERT | MYSQL_OPT_SSL_CA | MYSQL_OPT_SSL_CAPATH | MYSQL_OPT_SSL_CIPHER
  | MARIADB_OPT_TLS_VERSION | MYSQL_OPT_SSL_VERIFY_SERVER_CERT => true
  | _ => false
  end.

Lemma connect_options_tls Dsn csname opts o : connect_options e Dsn csname = Some opts -> tls_option o = true ->
  exists ssl, ssl_options Dsn = Some ssl /\
    values o opts = values o ssl ++ (if decide (MYSQL_OPT_SSL_ENFORCE = o) then if num Dsn ForceTls =? 0 then [] else [OptNum 0x01010101] else []).
Proof.
  unfold connect_options. intros (ssl & -> & Ho)%bind_Some Ht. exists ssl. split; [done|]. apply (inj Some) in Ho. subst opts.
  assert (forall dir, values o (plugin_option e dir) = []) as Hp.
  { intros [|c dir]; unfold plugin_option; [destruct (ce_plugins e) as [p|]; [|done]|]; rewrite values_cons; destruct o; done. }
  assert (forall x, values o (protocol_option x) = []) as Hs by (intros [x|]; [cbn [protocol_option]; rewrite values_cons; by destruct o|done]).
  rewrite !values_app, Hp, Hs. unfold attribute. destruct o; try discriminate Ht; clear; collect; done.
Qed.

Lemma ssl_values Dsn ssl : ssl_options Dsn = Some ssl ->
  values MYSQL_OPT_SSL_ENFORCE ssl = (if has_ssl_file Dsn then [OptNum 1] else []) /\
  values MYSQL_OPT_SSL_VERIFY_SERVER_CERT ssl = [OptNum (if num Dsn SslVerify =? 0 then 0 else 0x01010101)] /\
  values MARIADB_OPT_TLS_VERSION ssl = (if has_ssl_file Dsn && (0 <? num Dsn TlsVersion) then [OptText (tls_text TlsVersions (num Dsn TlsVersion) false)] else []) /\
  (forall o t, (o, t) ∈ ssl_files Dsn -> values o ssl = if is_empty t then [] else [OptText t]).
Proof.
  unfold ssl_options, has_ssl_file. cbv zeta. intros (own & Ho & Hs)%bind_Some. apply (inj Some) in Hs. subst ssl.
  destruct (forallb _ _) eqn:Ef; cbn [negb andb].
  - apply (inj Some) in Ho. subst own. split_and!; try (by collect). intros o t Hin.
    assert (is_empty t = true) as -> by (apply list_elem_of_In in Hin; by apply (proj1 (forallb_forall _ _) Ef (o, t))).
    unfold ssl_files in Hin. cbn [map] in Hin. rewrite !elem_of_cons, elem_of_nil in Hin.
    destruct Hin as [[= -> _]|[[= -> _]|[[= -> _]|[[= -> _]|[[= -> _]|[]]]]]]; by collect.
  - assert (own = (MYSQL_OPT_SSL_ENFORCE, OptNum 1) :: flat_map (fun x => text_option x.1 x.2) (ssl_files Dsn) ++
      (if 0 <? num Dsn TlsVersion then [(MARIADB_OPT_TLS_VERSION, OptText (tls_text TlsVersions (num Dsn TlsVersion) false))] else [])) as ->.
    { rewrite tls_version_fits in Ho. destruct (0 <? _); cbn [mbind option_bind] in Ho; by injection Ho as <-. }
    clear Ho Ef. unfold ssl_files. cbn [map flat_map fst snd]. split_and!.
    1,2,3: destruct (0 <? _); collect; done.
    intros o t Hin. rewrite !elem_of_cons, elem_of_nil in Hin.
    destruct Hin as [[= -> ->]|[[= -> ->]|[[= -> ->]|[[= -> ->]|[[= -> ->]|[]]]]]]; destruct (0 <? _); collect; done.
Qed.

(** C8. TLS.  Every attempt to connect with a data source without browser login sets these
    options: encryption is required, as the last value the client library is given, when a
    certificate, key, CA or cipher is configured or FORCETLS is on, and is not mentioned
    otherwise; the certificate of the server is verified exactly when SSLVERIFY asks for it;
    each configured file is passed on without leading blanks; and the list of TLS versions,
    which fits its buffer and reads back as the versions of the data source, is passed on
    only when a file or cipher is configured (FORCETLS alone ignores TLSVERSION). *)
Theorem Connect_tls Dsn d rc Dsn' calls d' c : num Dsn IsBrowserAuth = 0 -> MADB_DbcConnect e Dsn d = Some (rc, Dsn', calls, d') -> c ∈ calls ->
  let opts := cc_options c in
  (if has_ssl_file Dsn || negb (num Dsn ForceTls =? 0) then exists n, n <> 0 /\ last (values MYSQL_OPT_SSL_ENFORCE opts) = Some (OptNum n)
   else values MYSQL_OPT_SSL_ENFORCE opts = []) /\
  values MYSQL_OPT_SSL_VERIFY_SERVER_CERT opts = [OptNum (if num Dsn SslVerify =? 0 then 0 else 0x01010101)] /\
  (forall o t, (o, t) ∈ ssl_files Dsn -> values o opts = if is_empty t then [] else [OptText t]) /\
  (if has_ssl_file Dsn && (0 <? num Dsn TlsVersion)
   then exists t, values MARIADB_OPT_TLS_VERSION opts = [OptText t] /\ (length t < TlsVersion_size)%nat /\ tls_bits t = Z.land (num Dsn TlsVersion) 7
   else values MARIADB_OPT_TLS_VERSION opts = []).
Proof.
  intros Hb Hc Hin. unfold MADB_DbcConnect in Hc. rewrite use_jwt_num, Hb in Hc. cbn [Z.eqb] in Hc.
  apply real_connect_calls in Hc as [->|(csname & opts & Eo & ->)]; [by apply elem_of_nil in Hin| |by rewrite use_jwt_num].
  apply list_elem_of_singleton in Hin as ->. cbn [cc_options real_connect_call].
  assert (forall o, tls_option o = true -> exists ssl, ssl_options (use_jwt Dsn) = Some ssl /\ values o opts = values o ssl ++
    (if decide (MYSQL_OPT_SSL_ENFORCE = o) then if num Dsn ForceTls =? 0 then [] else [OptNum 0x01010101] else [])) as Hv
    by (intros o Ho; rewrite <- (use_jwt_num Dsn ForceTls); by eapply connect_options_tls).
  destruct (Hv MYSQL_OPT_SSL_ENFORCE eq_refl) as (ssl & Es & V1). destruct (ssl_values _ _ Es) as (S1 & S2 & S3 & S4).
  unfold has_ssl_file in S1, S3. rewrite use_jwt_ssl in S1, S3, S4. rewrite use_jwt_num in S2, S3. fold (has_ssl_file Dsn) in S1, S3.
  split_and!.
  - rewrite V1, S1, decide_True by done. destruct (has_ssl_file Dsn), (num Dsn ForceTls =? 0); cbn; try done; (eexists; split; [|reflexivity]; done).
  - destruct (Hv MYSQL_OPT_SSL_VERIFY_SERVER_CERT eq_refl) as (ssl' & Es' & ->). rewrite Es in Es'. injection Es' as <-.
    rewrite S2, decide_False by done. done.
  - intros o t Ht. assert (tls_option o = true /\ o <> MYSQL_OPT_SSL_ENFORCE) as [Ho1 Ho2].
    { unfold ssl_files in Ht. cbn [map] in Ht. rewrite !elem_of_cons, elem_of_nil in Ht.
      destruct Ht as [[= -> _]|[[= -> _]|[[= -> _]|[[= -> _]|[[= -> _]|[]]]]]]; done. }
    destruct (Hv o Ho1) as (ssl' & Es' & ->). rewrite Es in Es'. injection Es' as <-. rewrite decide_False, app_nil_r by done. by apply S4.
  - destruct (Hv MARIADB_OPT_TLS_VERSION eq_refl) as (ssl' & Es' & ->). rewrite Es in Es'. injection Es' as <-.
    rewrite S3, decide_False, app_nil_r by done. destruct (_ && _); [|done]. eexists. split; [done|]. split; [|apply tls_text_bits].
    pose proof (tls_version_fits (num Dsn TlsVersion)) as Hf. unfold tls_version in Hf. cbv zeta in Hf.
    destruct (_ <? _)%nat eqn:El; [by apply Nat.ltb_lt|done].
Qed.

End Options.

(** ** Connecting again with a printed connection string *)

Section Reconnect.
Context {A : Type} `{Server A} `{Commands A} (e : connect_env A).
Hypothesis (Herr : @errors_are_errors A _ _).
Hypothesis (Hconn : forall c m m', ce_real_connect e c m = (true, m') -> error_diag (my_diag m')).
Implicit Types d : MADB_Dbc A.

(** Where and as whom a call connects. *)
Definition endpoint (c : connect_call) : list Z * list Z * list Z * list Z * Z * list Z :=
  (text_of (cc_host c), text_of (cc_user c), text_of (cc_passwd c), text_of (cc_db c), cc_port c, text_of (cc_socket c)).

Definition reparsed (Dsn : MADB_Dsn) : MADB_Dsn := store_all MADB_DSN_Init (dsn_pairs Dsn).

Lemma reparsed_str Dsn i row : DsnKeys !! i = Some row -> IsAlias row = false -> is_string row = true ->
  str (reparsed Dsn) (field_of row) = match str Dsn (field_of row) with Some [] => None | x => x end.
Proof.
  intros Hi Ha Hs. destruct (roundtrip_fields Dsn MADB_DSN_Init i row Hi Ha) as [H1 _]. unfold reparsed. rewrite H1 by done.
  unfold row_value. rewrite Ha. unfold is_string in Hs. destruct (Type_ row); try done; by destruct (str Dsn (field_of row)) as [[|]|].
Qed.

Lemma reparsed_port Dsn : 0 <= num Dsn Port < 2 ^ 32 -> num (reparsed Dsn) Port = num Dsn Port.
Proof.
  intros Hr. destruct (roundtrip_fields Dsn MADB_DSN_Init 11 (key_row 11) eq_refl eq_refl) as [_ H2].
  change (field_of (key_row 11)) with Port in H2. unfold reparsed. rewrite H2; [|done|apply (bool_decide_eq_true_1 _); vm_compute; reflexivity].
  unfold row_value. cbn [IsAlias key_row DsnKeys lookup list_lookup Type_ field_of DsnOffset default from_option id].
  destruct (Z.eqb_spec (num Dsn Port) 0) as [->|]; [done|]. by apply wrapu_strtoul_dec.
Qed.

Lemma reparsed_browser Dsn : num Dsn IsBrowserAuth = 0 -> num (reparsed Dsn) IsBrowserAuth = 0.
Proof.
  intros Hb. unfold reparsed. destruct (printed_split Dsn 43 (key_row 43) eq_refl) as (p1 & p2 & -> & F1 & F2).
  assert (row_value Dsn (key_row 43) = None) as ->.
  { unfold row_value. cbn [IsAlias key_row DsnKeys lookup list_lookup Type_ field_of DsnOffset default from_option id]. by rewrite Hb. }
  destruct (store_all_frame 43 (key_row 43) (p1 ++ [] ++ p2) MADB_DSN_Init eq_refl eq_refl) as [_ H2]; [apply Forall_app; by split|].
  apply H2. apply (bool_decide_eq_true_1 _). vm_compute. reflexivity.
Qed.

(** The printed text and what the driver reads from it; a name of a data source is only
    looked up when there is no driver. *)
Lemma read_printed profile Dsn n : Forall pair_ok (dsn_pairs Dsn) -> (length (pairs_text (dsn_pairs Dsn)) < 2048)%nat ->
  (length (pairs_text (dsn_pairs Dsn)) < n)%nat -> text_of (str Dsn DSNName) = [] \/ text_of (str Dsn Driver) <> [] ->
  exists out, MADB_DsnToString Dsn n = Some (out, Z.of_nat (length (pairs_text (dsn_pairs Dsn)))) /\
    MADB_ReadConnString profile MADB_DSN_Init (Some out) SQL_NTS ($";") = Some (true, reparsed Dsn).
Proof.
  intros HF Hl Hn Hd. destruct (DsnToString_parse Dsn MADB_DSN_Init n HF Hl Hn) as (out & E1 & E2). exists out. split; [done|].
  unfold MADB_ReadConnString. rewrite E2. fold (reparsed Dsn).
  pose proof (reparsed_str Dsn 0 (key_row 0) eq_refl eq_refl eq_refl) as S1. pose proof (reparsed_str Dsn 2 (key_row 2) eq_refl eq_refl eq_refl) as S2.
  change (field_of (key_row 0)) with DSNName in S1. change (field_of (key_row 2)) with Driver in S2.
  revert S1 S2. generalize (reparsed Dsn). clear -Hd. intros D S1 S2. rewrite S1, S2. destruct Hd as [Hd|Hd].
  - destruct (str Dsn DSNName) as [[|c v]|]; try discriminate Hd; reflexivity.
  - destruct (str Dsn Driver) as [[|c v]|]; [by destruct Hd| |by destruct Hd]. cbn [length Nat.eqb]. by rewrite andb_false_r.
Qed.

(** The data source that is read connects where the printed one does. *)
Lemma reparsed_endpoint Dsn opts : 0 <= num Dsn Port < 2 ^ 32 -> text_of (str Dsn JWT) = [] -> str Dsn Socket <> Some [] ->
  use_jwt (reparsed Dsn) = reparsed Dsn /\ str (reparsed Dsn) JWT = None /\
  endpoint (real_connect_call (reparsed Dsn) opts) = endpoint (real_connect_call Dsn []).
Proof.
  intros Hp Hj Hso. pose proof (reparsed_port Dsn Hp) as Hp'. pose proof (fun i row H1 H2 H3 => reparsed_str Dsn i row H1 H2 H3) as S.
  pose proof (S 7%nat (key_row 7) eq_refl eq_refl eq_refl) as S7. pose proof (S 8%nat (key_row 8) eq_refl eq_refl eq_refl) as S8.
  pose proof (S 9%nat (key_row 9) eq_refl eq_refl eq_refl) as S9. pose proof (S 10%nat (key_row 10) eq_refl eq_refl eq_refl) as S10.
  pose proof (S 29%nat (key_row 29) eq_refl eq_refl eq_refl) as S29. pose proof (S 45%nat (key_row 45) eq_refl eq_refl eq_refl) as S45.
  change (field_of (key_row 7)) with ServerName in S7. change (field_of (key_row 8)) with UserName in S8. change (field_of (key_row 9)) with Password in S9.
  change (field_of (key_row 10)) with Catalog in S10. change (field_of (key_row 29)) with Socket in S29. change (field_of (key_row 45)) with JWT in S45.
  clear S. revert Hp' S7 S8 S9 S10 S29 S45. generalize (reparsed Dsn). intros D Hp' S7 S8 S9 S10 S29 S45.
  assert (str D JWT = None) as HJ by (rewrite S45; by destruct (str Dsn JWT) as [[|]|]).
  split; [unfold use_jwt; by rewrite HJ|]. split; [done|]. unfold endpoint, real_connect_call.
  cbn [cc_host cc_user cc_passwd cc_db cc_port cc_socket]. rewrite Hp', S7, S8, S9, S10, S29. clear -Hso. repeat match goal with |- (_, _) = (_, _) => apply (f_equal2 pair); [|try done] end.
  - destruct (str Dsn Socket) as [[|]|]; [done|done|]. by destruct (str Dsn ServerName) as [[|]|].
  - by destruct (str Dsn UserName) as [[|]|].
  - by destruct (str Dsn Password) as [[|]|].
  - by destruct (str Dsn Catalog) as [[|]|].
  - by destruct (str Dsn Socket) as [[|]|].
Qed.



End Reconnect.

(** ** Connection attributes *)

(** The text of pairs, as a data source lists them. *)
Fixpoint attrs_text (ps : list (list Z * list Z)) : list Z :=
  match ps with
  | [] => []
  | [(k, v)] => k ++ $":" :: v
  | (k, v) :: ps' => k ++ $":" :: v ++ $"," :: attrs_text ps'
  end.

Definition token_ok (t : list Z) : Prop := t <> [] /\ Forall (fun c => is_separator c = false) t.

Lemma tokens_word w : forall cur rest, Forall (fun c => is_separator c = false) w -> tokens (w ++ rest) cur = tokens rest (cur ++ w).
Proof.
  induction w as [|c w IH]; intros cur rest HF; [by rewrite app_nil_r|]. apply Forall_cons in HF as [Hc HF]. cbn [app tokens]. rewrite Hc, IH by done.
  by rewrite <- app_assoc.
Qed.

Lemma tokens_separator w c rest : token_ok w -> is_separator c = true -> tokens (w ++ c :: rest) [] = w :: tokens rest [].
Proof. intros [Hw HF] Hc. rewrite tokens_word by done. cbn [app tokens]. rewrite Hc. by destruct w. Qed.

Lemma tokens_last w : token_ok w -> tokens w [] = [w].
Proof. intros [Hw HF]. rewrite <- (app_nil_r w) at 1. rewrite tokens_word by done. cbn. by destruct w. Qed.

(** The attributes of the data source are passed on, each with its value, in order. *)
Theorem conn_attrs_text ps : Forall (fun p => token_ok p.1 /\ token_ok p.2) ps -> conn_attrs (attrs_text ps) = map (fun p => attribute p.1 p.2) ps.
Proof.
  intros HF. unfold conn_attrs. f_equal. induction HF as [|[k v] ps [Hk Hv] HF IH]; [done|]. cbn [fst snd] in *.
  destruct ps as [|p ps].
  - cbn [attrs_text]. rewrite tokens_separator, tokens_last by done. done.
  - change (attrs_text ((k, v) :: p :: ps)) with (k ++ $":" :: v ++ $"," :: attrs_text (p :: ps)). rewrite !tokens_separator by done. cbn [pairs]. by rewrite IH.
Qed.

(** ** Examples *)

(** A server; in state 1 it refuses the query for the version. *)
#[local] Instance sample_server : Server nat := fun t a =>
  (if bool_decide (t = version_query) then
     if (a =? 1)%nat then [RespErr (Native (chars "42000") (chars "denied") 1142)] else [RespRows [] false [[Some (chars "8.1.1"); Some (chars "1")]] None]
   else if bool_decide (t = collation_query) then [RespRows [] false [[Some (chars "utf8_general_ci")]] None] else [RespOk 0], a).
#[local] Instance sample_commands : Commands nat := fun _ _ a => (RespOk 0, a).

Definition sample_mysql : MYSQL nat := MkMysql MYSQL_STATUS_READY false true None 0 0 no_diag [] [] None 0%nat.
Definition sample_env : connect_env nat :=
  MkConnectEnv (Some sample_mysql) (fun _ m => (false, m)) Some (fun _ => Some 33) (chars "utf8") None (chars "driver") (chars "1.0") false
    (fun D _ _ d => (true, D, d)).
Definition sample_dsn : MADB_Dsn :=
  set_num (set_num (set_str (set_str (set_str (set_str MADB_DSN_Init ServerName (Some (chars "db1"))) UserName (Some (chars "root"))) SslCa (Some (chars " ca.pem")))
    Driver (Some (chars "S2"))) Port 3306) TlsVersion 6.

Lemma sample_errors : @errors_are_errors nat _ _.
Proof.
  split; [|done]. intros t a x. unfold respond, sample_server. cbn [fst].
  destruct (bool_decide _); [destruct (a =? 1)%nat|destruct (bool_decide _)]; intros Hin%list_elem_of_singleton; try done. by injection Hin as ->.
Qed.
Lemma sample_version : @answers_with nat _ version_query 1.
Proof.
  intros a cols flag rows broken. unfold respond, sample_server. cbn [fst]. rewrite bool_decide_eq_true_2 by done.
  destruct (a =? 1)%nat; [by intros ?%list_elem_of_singleton|]. intros [= -> -> -> ->]%list_elem_of_singleton. apply Forall_singleton. by eexists.
Qed.
Lemma sample_collation : @answers_with nat _ collation_query 0.
Proof.
  intros a cols flag rows broken. unfold respond, sample_server. cbn [fst]. rewrite bool_decide_eq_false_2 by done. rewrite bool_decide_eq_true_2 by done.
  intros [= -> -> -> ->]%list_elem_of_singleton. apply Forall_singleton. by eexists.
Qed.
Lemma sample_connects : forall c m m', ce_real_connect sample_env c m = (true, m') -> error_diag (my_diag m').
Proof. done. Qed.

Lemma Connect_session_witness : exists rc calls d', MADB_DbcConnect sample_env sample_dsn (new_dbc []) = Some (rc, use_jwt sample_dsn, calls, d') /\
  one_call sample_env (use_jwt sample_dsn) calls /\ kept (new_dbc []) d' /\
  (SQL_SUCCEEDED rc = true -> db_mariadb d' <> None /\ db_log d' = setup_commands sample_dsn (new_dbc [] : MADB_Dbc nat)).
Proof.
  destruct (Connect_session sample_env sample_errors sample_connects sample_dsn (new_dbc [])) as (rc & calls & d' & H1 & H2 & H3 & H4 & _);
    [reflexivity|reflexivity|reflexivity|exact sample_version|exact sample_collation|].
  exists rc, calls, d'. split_and!; done.
Defined.

Definition connected : MADB_Dbc nat :=
  match MADB_DbcConnect sample_env sample_dsn (new_dbc []) with Some (_, _, _, d) => d | None => new_dbc [] end.
Definition manual_commit : MADB_Dbc nat := (MADB_DbcSetAttr (fun _ _ => None) None SQL_ATTR_AUTOCOMMIT SQL_AUTOCOMMIT_OFF None 0 false connected).2.

Lemma connected_eq : exists rc D calls, MADB_DbcConnect sample_env sample_dsn (new_dbc []) = Some (rc, D, calls, connected).
Proof.
  unfold connected. destruct (MADB_DbcConnect sample_env sample_dsn (new_dbc [])) as [[[[rc D] calls] d]|] eqn:E; [by exists rc, D, calls|].
  vm_compute in E. discriminate E.
Qed.


Lemma Connect_tls_witness : exists c : connect_call,
  values MYSQL_OPT_SSL_CA (cc_options c) = [OptText (chars "ca.pem")] /\
  exists t, values MARIADB_OPT_TLS_VERSION (cc_options c) = [OptText t] /\ tls_bits t = 6.
Proof.
  destruct connected_eq as (rc & D & calls & E). assert (exists c, c ∈ calls) as [c Hc].
  { vm_compute in E. injection E as _ _ <-. eexists. by left. }
  exists c. destruct (Connect_tls sample_env sample_dsn (new_dbc []) rc D calls connected c) as (_ & _ & H1 & H2); [reflexivity|exact E|exact Hc|].
  split; [apply (H1 MYSQL_OPT_SSL_CA (chars "ca.pem")); apply (bool_decide_eq_true_1 _); vm_compute; reflexivity|].
  change (has_ssl_file sample_dsn && (0 <? num sample_dsn TlsVersion)) with true in H2. destruct H2 as (t & T1 & _ & T2). by exists t.
Defined.


Definition printed_dsn : MADB_Dsn :=
  set_num (set_str (set_str (set_str (set_str MADB_DSN_Init ServerName (Some (chars "db1"))) UserName (Some (chars "root"))) Password (Some (chars "a;b")))
    Driver (Some (chars "S2"))) Port 3306.


(** A connection whose server refuses the query for the version is reported as failed and
    left open; connecting again with the handle is refused, because it is in use. *)
Definition refusing_env : connect_env nat :=
  MkConnectEnv (Some (set_server sample_mysql 1%nat)) (fun _ m => (false, m)) Some (fun _ => Some 33) (chars "utf8") None (chars "driver") (chars "1.0") false
    (fun D _ _ d => (true, D, d)).
Definition connect_twice : option (Z * bool * Z * list Z) :=
  '(rc1, _, _, d1) ← MADB_DbcConnect refusing_env sample_dsn (new_dbc []);
  '(rc2, _, d2) ← SQLConnectCommon sample_env (fun _ _ => []) (fun _ => None) (Some (chars "S2" ++ [0])) SQL_NTS None 0 None 0 d1;
  Some (rc1, bool_decide (is_Some (my_server <$> db_mariadb d1)), rc2, SqlState (db_Error d2)).
Theorem refused_version_left_open : connect_twice = Some (SQL_ERROR, true, SQL_ERROR, chars "08002").
Proof. vm_compute. reflexivity. Qed.

(** A level of isolation set before connecting is reported and never sent. *)
Definition early_isolation : option (list (command_code * list Z * bool) * Z) :=
  let d := (MADB_DbcSetAttr (fun _ _ => None) None SQL_ATTR_TXN_ISOLATION SQL_TRANSACTION_SERIALIZABLE None 0 false (new_dbc [])).2 in
  '(_, _, _, d1) ← MADB_DbcConnect sample_env sample_dsn d;
  '(_, b, _, _) ← MADB_DbcGetAttr (fun _ d => (None, d)) 0 8192 SQL_ATTR_TXN_ISOLATION 0 (Some (replicate 8 0)) 0 false d1;
  b ← b;
  Some (db_log d1, read_number 8 b).
Theorem isolation_before_connecting :
  early_isolation = Some ([(COM_QUERY, autocommit_query 1, false); (COM_QUERY, version_query, false); (COM_QUERY, collation_query, false)],
                          SQL_TRANSACTION_SERIALIZABLE).
Proof. vm_compute. reflexivity. Qed.

End ConnectProps.
