(* ===== verification/GetData.v ===== *)
(** * GetData: SQLGetData

    Models [SQLGetData] of [odbc_3_api.c], [MADB_StmtGetData], [MADB_GetBookmark] and
    [MADB_FetchColumnCsps] of [ma_statement.c], with [MADB_SetString] and
    [MADB_ConvertAnsi2Unicode] of [ma_platform_posix.c] for a wide destination.  A row is
    the list of its columns as the client library left them ([fetched_col]); the
    descriptors are those of Desc.v, the conversions those of TypeConv.v and Numeric.v.
    The character conversion itself (iconv) is an argument.  Results of the text
    protocol only. *)

From Stdlib Require Import ZArith Lia.
From stdpp Require Import base strings numbers option list gmap.
From S2P Require Import Prelude Charset Odbc Errors SqlTypes Desc Numeric TypeConv.
Import ErrorOps SqlTypes Wide Mbstr Numeric TypeConv DescOps.

Definition SQL_ARD_TYPE := -99.
Definition sizeof_MYSQL_TIME : Z := 40.
Definition sizeof_SQLULEN : Z := 8.

(** A column of the row that was fetched: the field, the pointer to its text ([None] for
    NULL) and [length_value] of its bind structure. *)
Record fetched_col := MkFetchedCol {
  fc_type : Z;
  fc_charsetnr : Z;
  fc_row : option (list Z);
  fc_length_value : Z;
}.

(** What does not change: the allocator's answer, the date of [localtime], the charset of the
    connection and its conversion, [iconv], to the units of the driver manager (or its error
    code), the error of
    the client library's statement, old bytes of the stack, the bookmark
    options and the position of the cursor. *)
Record get_config := MkGetConfig {
  gc_alloc : bool;
  gc_today : SQL_DATE_STRUCT;
  gc_charset : charset;
  gc_iconv : list Z -> Z + list Z;
  gc_charlen : Z -> Z;
  gc_diag : option native_diag;
  gc_stack : list Z;
  gc_UseBookmarks : Z;
  gc_Position : Z;
}.

(** The statement: [gs_bind] and [gs_fetching] say whether it has bind structures and is
    fetching. *)
Record get_stmt := MkGetStmt {
  gs_world : world;
  gs_Ard : positive;
  gs_Ird : positive;
  gs_cols : list fetched_col;
  gs_bind : bool;
  gs_fetching : bool;
  gs_CharOffset : list Z;
  gs_Lengths : list Z;
  gs_Last : Z;
  gs_Error : MADB_Error;
}.

(** What is left at [TargetValuePtr]: bytes, or one of the structures. *)
Inductive target :=
| TNothing
| TBytes (b : list Z)
| TInt (size v : Z)
| TReal (size : Z) (text : list Z)
| TTime (t : app_time)
| TInterval (h m s : Z) (negative : bool) (type : Z)
| TNumeric (n : SQL_NUMERIC_STRUCT).

(** The code, the target, the variable at [StrLen_or_IndPtr] and the statement. *)
Record get_result := MkGet {
  gr_rc : Z;
  gr_target : target;
  gr_ind : option Z;
  gr_stmt : get_stmt;
}.

Module GetData.

Section Get.
Context (c : get_config).
Implicit Types (s : get_stmt).

Definition set_world s (w : world) : get_stmt :=
  MkGetStmt w (gs_Ard s) (gs_Ird s) (gs_cols s) (gs_bind s) (gs_fetching s) (gs_CharOffset s) (gs_Lengths s) (gs_Last s) (gs_Error s).
Definition set_offset s (i : nat) (v : Z) : get_stmt :=
  MkGetStmt (gs_world s) (gs_Ard s) (gs_Ird s) (gs_cols s) (gs_bind s) (gs_fetching s) (<[i := v]> (gs_CharOffset s)) (gs_Lengths s)
    (gs_Last s) (gs_Error s).
Definition set_length s (i : nat) (v : Z) : get_stmt :=
  MkGetStmt (gs_world s) (gs_Ard s) (gs_Ird s) (gs_cols s) (gs_bind s) (gs_fetching s) (gs_CharOffset s) (<[i := v]> (gs_Lengths s))
    (gs_Last s) (gs_Error s).
Definition set_last s (v : Z) : get_stmt :=
  MkGetStmt (gs_world s) (gs_Ard s) (gs_Ird s) (gs_cols s) (gs_bind s) (gs_fetching s) (gs_CharOffset s) (gs_Lengths s) v (gs_Error s).
Definition set_error s (E : MADB_Error) : get_stmt :=
  MkGetStmt (gs_world s) (gs_Ard s) (gs_Ird s) (gs_cols s) (gs_bind s) (gs_fetching s) (gs_CharOffset s) (gs_Lengths s) (gs_Last s) E.

Definition offset_of s (i : nat) : Z := default 0 (gs_CharOffset s !! i).
Definition length_of s (i : nat) : Z := default 0 (gs_Lengths s !! i).

(** An error is recorded; nothing else is written. *)
Definition refuse s (code : nat) (t : target) (ind : option Z) : get_result :=
  let E := MADB_SetError (gs_Error s) code None 0 in MkGet (ReturnValue E) t ind (set_error s E).
Definition native_refuse s (t : target) (ind : option Z) : get_result :=
  let E := MADB_SetNativeError (gs_Error s) (gc_diag c) in MkGet (ReturnValue E) t ind (set_error s E).

(** ** One column *)

(** [MADB_FetchColumnCsps] of a column that is not NULL: the code, what was written, and the
    error record.  [*bind.length] is then the length of the text. *)
Definition MADB_FetchColumnCsps s (bind : MYSQL_BIND) (col : fetched_col) (v : list Z) : option (Z * option fetched * get_stmt) :=
  if negb (gs_fetching s) then
    let E := MADB_SetError (gs_Error s) MADB_ERR_HY000 (Some (chars "Statement is in a wrong state when fetching a column")) 0 in
    Some (ReturnValue E, None, set_error s E)
  else
    '(rc, f) ← MADB_CspsConvertSql2C (gs_Error s) (fc_type col) bind v;
    Some (rc, Some f, match f with FetchedTime (inl E) => set_error s E | _ => s end).

(** [OK_SUCCESS_OR_TRUNCATION] *)
Definition fetch_ok (rc : Z) : bool := SQL_SUCCEEDED rc || (rc =? MYSQL_DATA_TRUNCATED).

(** ** Wide strings *)

Definition E2BIG : Z := 7.
Definition conversion_error (E : MADB_Error) (errno : Z) : MADB_Error :=
  MADB_SetError E MADB_ERR_HY000 (Some (chars "Ansi to Unicode conversion error occurred")) errno.

(** [MADB_ConvertAnsi2Unicode] of a NUL-terminated text into a buffer of [UnicodeLength]
    units: the units written from its start, and the length in characters. *)
Definition MADB_ConvertAnsi2Unicode (Ansi : list Z) (UnicodeLength : Z) (Error : MADB_Error) : option (list Z * Z * MADB_Error) :=
  let E := MADB_CLEAR_ERROR Error in
  if UnicodeLength <? 0 then Some ([], 0, MADB_SetError E MADB_ERR_HY090 None 0)
  else
    n ← MbstrCharLen (Some (Ansi ++ [0])) (Z.of_nat (length Ansi)) (gc_charset c);
    let Required := n + 1 in
    if UnicodeLength =? 0 then Some ([], n, E)
    else
      let own := UnicodeLength <? Required in
      let room := if own then Required else UnicodeLength in
      match gc_iconv c Ansi with
      | inl errno => Some ([], n, conversion_error E errno)
      | inr units =>
          if room <? Z.of_nat (length units) + 1 then Some ([], n, conversion_error E E2BIG)
          else
            let Tmp := units ++ [0] in
            len ← SqlwcsCharLen (gc_charlen c) (S (length Tmp)) Tmp (2 * Z.of_nat (length Tmp));
            if own then Some (take (Z.to_nat (UnicodeLength - 1)) Tmp ++ [0], len, MADB_SetError E MADB_ERR_01004 None 0)
            else Some (Tmp, len, E)
      end.

(** [MADB_SetString] with a charset, a destination and room for [DestLength] units. *)
Definition SetString_wide (DestLength : Z) (Src : list Z) (SrcLength : Z) (Error : MADB_Error) : option (list Z * Z * MADB_Error) :=
  if (SrcLength =? 0) || bool_decide (cstr Src = []) then Some ([0], 0, Error)
  else MADB_ConvertAnsi2Unicode (cstr Src) DestLength Error.

(** The bytes of units. *)
Definition unit_bytes (l : list Z) : list Z := flat_map (fun u => [wrapu 8 u; wrapu 8 (Z.shiftr u 8)]) l.

(** ** Bookmarks *)

Definition MADB_GetBookmark s (TargetType BufferLength : Z) (ind : option Z) : get_result :=
  if gc_UseBookmarks c =? SQL_UB_OFF then refuse s MADB_ERR_07009 TNothing ind
  else if ((gc_UseBookmarks c =? SQL_UB_VARIABLE) && negb (TargetType =? SQL_C_VARBOOKMARK))
       || (negb (gc_UseBookmarks c =? SQL_UB_VARIABLE) && (TargetType =? SQL_C_VARBOOKMARK))
  then refuse s MADB_ERR_HY003 TNothing ind
  else if (TargetType =? SQL_C_BOOKMARK) && (wrapu 64 BufferLength <=? sizeof_SQLULEN)
  then MkGet SQL_SUCCESS (TInt sizeof_SQLULEN (wrapu 64 (gc_Position c))) ((fun _ => sizeof_SQLULEN) <$> ind) s
  else MkGet SQL_SUCCESS TNothing ind s.

(** ** MADB_StmtGetData *)

(** The end of the function: a column without a length is marked as read. *)
Definition mark_read s (Offset : nat) (buffer_length length_value : Z) (InternalUse : bool) (t : target) (ind : option Z) : get_result :=
  let s1 := if negb InternalUse && (length_of s Offset =? 0) then set_offset s Offset (Z.max (wrapu 64 buffer_length) (wrapu 64 length_value)) else s in
  MkGet (ReturnValue (gs_Error s1)) t ind s1.

(** The text of a column, in a block of [length_value + 1] zeroed bytes.  Reading more bytes
    than the block has is undefined. *)
Definition client_text s (col : fetched_col) (v : list Z) (from : nat) : option (Z * list Z * get_stmt) :=
  let size := Z.to_nat (fc_length_value col + 1) in
  '(rc, f, s1) ← MADB_FetchColumnCsps s (MkBind MYSQL_TYPE_STRING false from size (replicate size 0)) col v;
  match f with
  | Some (FetchedBytes b _ _) => Some (rc, b, s1)
  | _ => Some (rc, replicate size 0, s1)
  end.

(** A time read from a text column or converted by the fetch: an early end, or the time. *)
Definition column_time s (ird : MADB_DescRecord) (col : fetched_col) (v : list Z) (Interval : bool) (buffer_type : Z) (ind : option Z)
    : option (get_result + (MYSQL_TIME * get_stmt)) :=
  if case (num ird ConciseType) [SQL_CHAR; SQL_VARCHAR] then
    if negb (gc_alloc c) then Some (inl (refuse s MADB_ERR_HY001 TNothing ind))
    else
      '(rc, b, s1) ← client_text s col v 0;
      if negb (fetch_ok rc) then Some (inl (native_refuse s1 TNothing ind))
      else if (length b <? length v)%nat then None
      else
        match MADB_Str2Ts (cstr (take (length v) b)) Interval (gs_Error s1) with
        | inl E => Some (inl (MkGet (ReturnValue E) TNothing ind (set_error s1 E)))
        | inr (tm, _) => Some (inr (tm, s1))
        end
  else
    '(rc, f, s1) ← MADB_FetchColumnCsps s (MkBind buffer_type false 0 (Z.to_nat sizeof_MYSQL_TIME) []) col v;
    if negb (fetch_ok rc) then Some (inl (native_refuse s1 TNothing ind))
    else
      match f with
      | Some (FetchedTime (inr (tm, _))) => Some (inr (tm, s1))
      | _ => None
      end.

Definition get_time s (Offset : nat) (ird : MADB_DescRecord) (col : fetched_col) (v : list Z) (OdbcType : Z) (ind : option Z) (InternalUse : bool)
    : option get_result :=
  let buffer_type := if case OdbcType [SQL_C_TIME; SQL_C_TYPE_TIME] && case (num ird ConciseType) [SQL_TIME; SQL_TYPE_TIME]
                     then MYSQL_TYPE_TIME else MYSQL_TYPE_TIMESTAMP in
  let is_text := case (num ird ConciseType) [SQL_CHAR; SQL_VARCHAR] in
  r ← column_time s ird col v false buffer_type ind;
  match r with
  | inl r => Some r
  | inr (tm, s1) =>
      let blen := if is_text then fc_length_value col + 1 else sizeof_MYSQL_TIME in
      match MADB_CopyMadbTimestamp (gc_today c) tm true (bool_decide (is_Some ind)) OdbcType (num ird ConciseType) (gs_Error s1) with
      | TsError E => Some (MkGet (ReturnValue E) TNothing ind (set_error s1 E))
      | TsNull => Some (mark_read s1 Offset blen (Z.of_nat (length v)) InternalUse TNothing ((fun _ => SQL_NULL_DATA) <$> ind))
      | TsValue t len warning =>
          let s2 := match warning with Some E => set_error s1 E | None => s1 end in
          Some (mark_read s2 Offset blen (Z.of_nat (length v)) InternalUse (from_option TTime TNothing t)
            (match ind, len with Some _, Some l => Some l | _, _ => ind end))
      end
  end.

Definition get_interval s (Offset : nat) (ird : MADB_DescRecord) (col : fetched_col) (v : list Z) (TargetType : Z) (ind : option Z)
    (InternalUse : bool) : option get_result :=
  let is_text := case (num ird ConciseType) [SQL_CHAR; SQL_VARCHAR] in
  r ← column_time s ird col v true (if fc_type col =? MYSQL_TYPE_TIME then MYSQL_TYPE_TIME else MYSQL_TYPE_TIMESTAMP) ind;
  match r with
  | inl r => Some r
  | inr (tm, s1) =>
      if 99999 <? hour tm then Some (refuse s1 MADB_ERR_22015 TNothing ind)
      else
        let minutes := TargetType =? SQL_C_INTERVAL_HOUR_TO_MINUTE in
        let t := TInterval (hour tm) (minute tm) (if minutes then 0 else second tm) (neg tm)
                   (if minutes then SQL_C_INTERVAL_HOUR_TO_MINUTE else SQL_C_INTERVAL_HOUR_TO_SECOND) in
        if minutes && negb (second tm =? 0) then Some (refuse s1 MADB_ERR_01S07 t ind)
        else Some (mark_read s1 Offset (if is_text then fc_length_value col + 1 else sizeof_MYSQL_TIME) (Z.of_nat (length v)) InternalUse t
                     ((fun _ => sizeof_SQL_INTERVAL_STRUCT) <$> ind))
  end.

(** A byte at an index of the application's buffer. *)
Definition put_byte (b : list Z) (i v : Z) : option (list Z) :=
  if (0 <=? i) && (i <? Z.of_nat (length b)) then Some (<[Z.to_nat i := v]> b) else None.

(** Texts and binary data: the part from the current offset on.  [z] is [ZeroTerminated];
    the buffer of the application has at least [BufferLength] bytes. *)
Definition get_bytes s (Offset : nat) (col : fetched_col) (v : list Z) (MadbType : Z) (z : bool) (buf : list Z) (BufferLength : Z)
    (ind : option Z) (InternalUse : bool) : option get_result :=
  let total := Z.of_nat (length v) in
  let Current := if InternalUse then 0 else offset_of s Offset in
  let zt := Z.b2z z in
  let fetch from := MADB_FetchColumnCsps s (MkBind MadbType false (Z.to_nat from) (Z.to_nat BufferLength) buf) col v in
  if Z.of_nat (length buf) <? BufferLength then None
  else if (BufferLength =? 0) && bool_decide (is_Some ind) then
    '(rc, _, s1) ← fetch (offset_of s Offset);
    if negb (fetch_ok rc) then Some (native_refuse s1 (TBytes buf) ind)
    else
      let s2 := if negb InternalUse && (offset_of s1 Offset =? 0) then set_length s1 Offset total else s1 in
      let len := if InternalUse then total else wraps 64 (length_of s2 Offset - offset_of s2 Offset) in
      let s3 := set_error s2 (MADB_SetError (gs_Error s2) MADB_ERR_01004 None 0) in
      Some (MkGet SQL_SUCCESS_WITH_INFO (TBytes buf) (Some len) s3)
  else
    '(rc, f, s1) ← fetch Current;
    if negb (fetch_ok rc) then Some (native_refuse s1 (TBytes buf) ind)
    else
      b ← (match f with Some (FetchedBytes b _ _) => Some b | _ => None end);
      let s2 := if negb InternalUse && (offset_of s1 Offset =? 0) then set_length s1 Offset total else s1 in
      b1 ← (if z then put_byte b (if total <? BufferLength then total else BufferLength - 1) 0 else Some b);
      let ind1 := (fun _ => wraps 64 (total - Current)) <$> ind in
      let s3 := if InternalUse then s2
                else set_offset s2 Offset (wrapu 64 (offset_of s2 Offset + Z.min (wrapu 64 (BufferLength - zt)) total)) in
      if negb InternalUse && negb (BufferLength - zt =? 0) && (offset_of s3 Offset <? length_of s3 Offset)
      then Some (refuse s3 MADB_ERR_01004 (TBytes b1) ind1)
      else if from_option (fun l => BufferLength - zt <? l) false ind1
      then Some (MkGet SQL_SUCCESS_WITH_INFO (TBytes b1) ind1 (set_error s3 (MADB_SetError (gs_Error s3) MADB_ERR_01004 None 0)))
      else Some (mark_read s3 Offset BufferLength total InternalUse (TBytes b1) ind1).

(** ** Wide texts *)

(** The buffer of the IRD record holds units; freeing it and putting a new one there. *)
Definition set_internal s (Offset : nat) (units : option (list Z)) : option get_stmt :=
  let w := gs_world s in
  d ← descs w !! gs_Ird s;
  r ← Records d !! Offset;
  bl ← release (blocks w) (text r InternalBuffer);
  let '(bl1, p) := match units with Some u => let '(bl', p) := strdup bl u in (bl', Some p) | None => (bl, None) end in
  Some (set_world s (put_blocks (put_desc w (gs_Ird s) (with_records d (<[Offset := set_text r InternalBuffer p]> (Records d)))) bl1)).

Definition internal_units s (ird : MADB_DescRecord) : option (option (list Z)) := text_of (blocks (gs_world s)) (text ird InternalBuffer).

(** The first call for a value: its units in the buffer of the application or in a buffer of
    the record.  The result is the length in characters, the units written to the
    application, and the units of the record. *)
Definition first_wide s (Offset : nat) (col : fetched_col) (v : list Z) (BufferLength : Z) (ind : option Z)
    : option (get_result + (Z * option (list Z) * option (list Z) * get_stmt)) :=
  if negb (gc_alloc c) then Some (inl (refuse s MADB_ERR_HY001 TNothing ind))
  else
    '(rc, b, s1) ← client_text s col v (Z.to_nat (offset_of s Offset));
    if negb (fetch_ok rc) then Some (inl (native_refuse s1 TNothing ind))
    else if fc_length_value col =? 0 then Some (inr (0, if 2 <=? BufferLength then Some [0] else None, None, s1))
    else
      let SrcLength := fc_length_value col - offset_of s1 Offset in
      CharLength ← MbstrCharLen (Some b) SrcLength (gc_charset c);
      let Required := (CharLength + 1) * 4 in
      r ← (if BufferLength =? 0 then Some (CharLength, None, None, gs_Error s1)
           else
             let own := BufferLength <? Required in
             '(u, len, E) ← SetString_wide (if own then Required / 2 else BufferLength / 2) b SrcLength (gs_Error s1);
             Some (len, if own then None else Some u, if own then Some (u ++ replicate (Z.to_nat (Required / 2) - length u) 0) else None, E));
      let '(len, app, internal, E) := r in
      let s2 := set_error s1 E in
      if negb (BufferLength =? 0) && negb (SQL_SUCCEEDED (ReturnValue E))
      then Some (inl (MkGet (ReturnValue E) (from_option (fun u => TBytes (unit_bytes u)) TNothing app) ind s2))
      else
        let s3 := if offset_of s2 Offset =? 0 then set_length s2 Offset (wrapu 64 (len * 2)) else s2 in
        s4 ← (match internal with Some u => set_internal s3 Offset (Some u) | None => Some s3 end);
        Some (inr (len, app, internal, s4)).

(** The bytes of [units] at the start of the application's buffer. *)
Definition put_units (buf units : list Z) : option (list Z) :=
  if (length (unit_bytes units) <=? length buf)%nat then Some (blit buf 0 (unit_bytes units)) else None.

Definition get_wide s (Offset : nat) (ird : MADB_DescRecord) (col : fetched_col) (v : list Z) (buf : list Z) (BufferLength0 : Z)
    (ind : option Z) (InternalUse : bool) : option get_result :=
  let BufferLength := Z.land BufferLength0 (Z.lnot 1) in
  old ← internal_units s ird;
  r ← (match old with
       | None => first_wide s Offset col v BufferLength ind
       | Some u =>
           let rest := drop (Z.to_nat (offset_of s Offset / 2)) u in
           if (length u <? Z.to_nat (offset_of s Offset / 2))%nat then None
           else Some (inr (SqlwcsLen rest (-1), None, Some u, s))
       end);
  match r with
  | inl r => Some r
  | inr (CharLength, app, internal, s1) =>
      let ind1 := (fun _ => wraps 64 (CharLength * 2)) <$> ind in
      if BufferLength =? 0 then Some (refuse s1 MADB_ERR_01004 (TBytes buf) ind1)
      else
        let copied := Z.min (BufferLength - 2) (CharLength * 2) in
        b ← (match internal with
             | Some u => put_units buf (take (Z.to_nat (copied / 2)) (drop (Z.to_nat (offset_of s1 Offset / 2)) u) ++ [0])
             | None => match app with Some u => put_units buf u | None => Some buf end
             end);
        if BufferLength / 2 <=? CharLength
        then Some (refuse (set_offset s1 Offset (wrapu 64 (offset_of s1 Offset + (BufferLength - 2)))) MADB_ERR_01004 (TBytes b) ind1)
        else
          s2 ← set_internal (set_offset s1 Offset (length_of s1 Offset)) Offset None;
          Some (mark_read s2 Offset (if bool_decide (old = None) then fc_length_value col + 1 else 0)
            (if bool_decide (old = None) then Z.of_nat (length v) else 0) InternalUse (TBytes b) ind1)
  end.

(** ** Numbers *)

Definition numeric_size : Z := MADB_DEFAULT_PRECISION + 2.

Definition get_numeric s (Offset : nat) (col : fetched_col) (v : list Z) (old : SQL_NUMERIC_STRUCT) (ind : option Z) (InternalUse : bool)
    : option get_result :=
  '(w1, ard) ← MADB_DescGetInternalRecord 1 (gs_world s) (gs_Ard s) (Z.of_nat Offset) MADB_DESC_READ;
  let s0 := set_world s w1 in
  let size := Z.to_nat numeric_size in
  '(rc, f, s1) ← MADB_FetchColumnCsps s0 (MkBind MYSQL_TYPE_DECIMAL false 0 size (replicate size 0)) col v;
  if negb (fetch_ok rc) then Some (native_refuse s1 TNothing ind)
  else
    b ← (match f with Some (FetchedBytes b _ _) => Some b | _ => None end);
    let s2 := set_error s1 (MADB_CLEAR_ERROR (gs_Error s1)) in
    if numeric_size <? fc_length_value col then Some (refuse s2 MADB_ERR_22003 TNothing ind)
    else
      i ← ard;
      r ← get_record w1 (gs_Ard s) i;
      if bool_decide (0 ∉ b) then None
      else
        let '(err, n) := MADB_CharToSQLNumeric (gc_stack c) (Some (cstr b)) (num r Precision) (num r Scale) (Some old) in
        let s3 := if err =? SQL_SUCCESS then s2 else set_error s2 (MADB_SetError (gs_Error s2) (Z.to_nat err) None 0) in
        let t := from_option TNumeric TNothing n in
        if err =? SQL_ERROR then Some (MkGet SQL_ERROR t ind s3)
        else Some (mark_read s3 Offset numeric_size (Z.of_nat (length v)) InternalUse t ((fun _ => sizeof_SQL_NUMERIC_STRUCT) <$> ind)).

(** The size the fetch leaves in the bind structure, and what it wrote. *)
Definition fixed_size (f : fetched) (blen : Z) : Z * target :=
  match f with
  | FetchedInt r => (ir_length r, TInt (ir_length r) (ir_value r))
  | FetchedBytes b _ _ => (blen, TBytes b)
  | FetchedReal size t => (size, TReal size t)
  | FetchedTime _ => (blen, TNothing)
  end.

Definition get_fixed s (Offset : nat) (ird : MADB_DescRecord) (col : fetched_col) (v : list Z) (MadbType : Z) (unsigned : bool)
    (type_length : Z) (buf : list Z) (BufferLength : Z) (ind : option Z) (InternalUse : bool) : option get_result :=
  let blen := if (type_length =? 0) && (0 <? BufferLength) then BufferLength else type_length in
  '(rc, f, s1) ← MADB_FetchColumnCsps s (MkBind MadbType unsigned 0 (Z.to_nat blen) buf) col v;
  if negb (fetch_ok rc) then Some (native_refuse s1 TNothing ind)
  else
    f ← f;
    let '(size, t) := fixed_size f blen in
    let octets := num ird OctetLength in
    let ind1 := (fun _ => if (size =? 0) || ((wrapu 64 octets <? Z.of_nat (length v)) && (octets <? size)) then octets else size) <$> ind in
    Some (mark_read s1 Offset size (Z.of_nat (length v)) InternalUse t ind1).

(** The type asked for: an early end, or the type. *)
Definition target_type s (Offset : nat) (ird : MADB_DescRecord) (TargetType : Z) (ind : option Z) : option ((get_result + Z) * get_stmt) :=
  if TargetType =? SQL_ARD_TYPE then
    '(w1, ard) ← MADB_DescGetInternalRecord 1 (gs_world s) (gs_Ard s) (Z.of_nat Offset) MADB_DESC_READ;
    let s1 := set_world s w1 in
    match ard with
    | None => Some (inl (refuse s1 MADB_ERR_07009 TNothing ind), s1)
    | Some i => r ← get_record w1 (gs_Ard s) i; Some (inr (num r ConciseType), s1)
    end
  else Some (inr (if TargetType =? SQL_C_DEFAULT then num ird ConciseType else TargetType), s).

(** [MADB_StmtGetData]; [old] is what a SQL_NUMERIC_STRUCT at the target holds. *)
Definition MADB_StmtGetData (Col TargetType : Z) (buf : list Z) (old : SQL_NUMERIC_STRUCT) (BufferLength : Z) (ind : option Z)
    (InternalUse : bool) s0 : option get_result :=
  let Offset := Z.to_nat (wrapu 16 (Col - 1)) in
  _ ← (if InternalUse then Some 0 else gs_CharOffset s0 !! Offset);
  let s := set_error s0 (MADB_CLEAR_ERROR (gs_Error s0)) in
  if negb (gs_bind s) then Some (refuse s MADB_ERR_HY109 TNothing ind)
  else
    col ← gs_cols s !! Offset;
    match fc_row col with
    | None =>
        match ind with
        | None => Some (refuse s MADB_ERR_22002 TNothing ind)
        | Some _ => Some (MkGet SQL_SUCCESS TNothing (Some SQL_NULL_DATA) s)
        end
    | Some v =>
        '(w1, i) ← MADB_DescGetInternalRecord 1 (gs_world s) (gs_Ird s) (Z.of_nat Offset) MADB_DESC_READ;
        let s1 := set_world s w1 in
        match i with
        | None => Some (refuse s1 MADB_ERR_07009 TNothing ind)
        | Some i =>
            ird ← get_record w1 (gs_Ird s) i;
            '(t, s2) ← target_type s1 Offset ird TargetType ind;
            match t with
            | inl r => Some r
            | inr OdbcType =>
                let '(MadbType, unsigned, type_length) := MADB_GetMaDBTypeAndLength OdbcType 0 in
                if case OdbcType [SQL_DATE; SQL_C_TYPE_DATE; SQL_TIMESTAMP; SQL_C_TYPE_TIMESTAMP; SQL_TIME; SQL_C_TYPE_TIME]
                then get_time s2 Offset ird col v OdbcType ind InternalUse
                else if case OdbcType [SQL_C_INTERVAL_HOUR_TO_MINUTE; SQL_C_INTERVAL_HOUR_TO_SECOND]
                then get_interval s2 Offset ird col v TargetType ind InternalUse
                else if case OdbcType [SQL_WCHAR; SQL_WVARCHAR; SQL_WLONGVARCHAR]
                then get_wide s2 Offset ird col v buf BufferLength ind InternalUse
                else if case OdbcType [SQL_CHAR; SQL_VARCHAR] then
                  if (fc_type col =? MYSQL_TYPE_BLOB) && (fc_charsetnr col =? 63) && (BufferLength =? 0) && bool_decide (is_Some ind)
                  then Some (MkGet SQL_SUCCESS_WITH_INFO TNothing (Some (wraps 64 (fc_length_value col * 2))) s2)
                  else get_bytes s2 Offset col v MadbType true buf BufferLength ind InternalUse
                else if case OdbcType [SQL_LONGVARCHAR; SQL_BINARY; SQL_VARBINARY; SQL_LONGVARBINARY]
                then get_bytes s2 Offset col v MadbType false buf BufferLength ind InternalUse
                else if OdbcType =? SQL_NUMERIC then get_numeric s2 Offset col v old ind InternalUse
                else get_fixed s2 Offset ird col v MadbType unsigned type_length buf BufferLength ind InternalUse
            end
        end
    end.

(** [SQLGetData]: the arrays are read before anything is checked. *)
Definition SQLGetData (Col TargetType : Z) (Target : option (list Z)) (old : SQL_NUMERIC_STRUCT) (BufferLength : Z) (ind : option Z) s0
    : option get_result :=
  let s := set_error s0 (MADB_CLEAR_ERROR (gs_Error s0)) in
  match Target with
  | None => Some (refuse s MADB_ERR_HY009 TNothing ind)
  | Some buf =>
      if Col =? 0 then Some (MADB_GetBookmark s TargetType BufferLength ind)
      else
        let i := Z.to_nat (Col - 1) in
        off ← gs_CharOffset s !! i;
        len ← gs_Lengths s !! i;
        if (0 <? off) && (len <=? off) then Some (MkGet SQL_NO_DATA TNothing ind s)
        else if BufferLength <? 0 then Some (refuse s MADB_ERR_HY090 TNothing ind)
        else
          s1 ← (if gs_Last s =? Col then Some s
                else
                  '(w1, r) ← MADB_DescGetInternalRecord 1 (gs_world s) (gs_Ird s) (Col - 1) MADB_DESC_READ;
                  let s1 := set_world s w1 in
                  s2 ← (match r with Some _ => set_internal s1 i None | None => Some s1 end);
                  Some (set_offset s2 i 0));
          MADB_StmtGetData Col TargetType buf old BufferLength ind false (set_last s1 Col)
  end.

End Get.
End GetData.
