(* ===== verification/GetDataProps.v ===== *)
(** * GetDataProps: what SQLGetData delivers

    Theorems about GetData.v: a long value read in pieces, values of fixed length, and
    examples of conversions whose failure is not reported. *)

From Stdlib Require Import ZArith Lia.
From stdpp Require Import base strings numbers option list functions gmap.
From S2P Require Import Prelude Charset Odbc Errors SqlTypes Desc Numeric TypeConv GetData.
Import ErrorOps SqlTypes Wide Mbstr Numeric TypeConv TypeConvProps DescOps DescProps GetData.

Module GetDataProps.

(** ** A value in pieces *)

(** The targets that take the bytes of a value, and whether they get a terminator. *)
Definition byte_target (t : Z) : option bool :=
  if case t [SQL_CHAR; SQL_VARCHAR] then Some true
  else if case t [SQL_LONGVARCHAR; SQL_BINARY; SQL_VARBINARY; SQL_LONGVARBINARY] then Some false else None.

(** The record of the column has no buffer of its own. *)
Definition record_ready (w : world) (h : positive) (i : nat) : Prop :=
  exists d r, descs w !! h = Some d /\ Records d !! i = Some r /\ text r InternalBuffer = None.

(** What an application should see of a value it reads in pieces, with room for [k] bytes in
    each: the next part of the value and a warning as long as there is more, then the rest,
    then no data. *)
Fixpoint pieces (rooms : list nat) (rest : list Z) : list (Z * list Z * Z * bool) :=
  match rooms with
  | [] => []
  | k :: rooms' =>
      if (k <? length rest)%nat then (SQL_SUCCESS_WITH_INFO, take k rest, Z.of_nat (length rest), true) :: pieces rooms' (drop k rest)
      else (SQL_SUCCESS, rest, Z.of_nat (length rest), true) :: map (fun _ => (SQL_NO_DATA, [], 0, true)) rooms'
  end.

Definition rooms (z : bool) (bufs : list (list Z)) : list nat := map (fun b => (length b - Z.to_nat (Z.b2z z))%nat) bufs.

Lemma pieces_all ks : forall rest, concat (map (fun x => x.1.1.2) (pieces ks rest)) = take (sum_list ks) rest.
Proof.
  induction ks as [|k ks IH]; intros rest; [by rewrite take_0|]. cbn [pieces sum_list sum_list_with].
  change (sum_list_with id ks) with (sum_list ks). destruct (Nat.ltb_spec k (length rest)) as [Hk|Hk].
  - cbn [map concat fst snd]. rewrite IH. change (id k) with k. by rewrite take_take_drop.
  - cbn [map concat fst snd]. rewrite map_map. cbn [fst snd].
    assert (concat (map (fun _ : nat => @nil Z) ks) = []) as -> by (clear; by induction ks).
    rewrite app_nil_r. change (id k) with k. by rewrite take_ge by lia.
Qed.

Section Pieces.
Context (c : get_config) (Col : Z) (col : fetched_col) (v : list Z).
Hypothesis Col_range : 1 <= Col <= 32767.
Hypothesis col_value : fc_row col = Some v.
Hypothesis col_type : fc_type col <> MYSQL_TYPE_BIT.
Hypothesis v_length : Z.of_nat (length v) < 2 ^ 62.

Let i : nat := Z.to_nat (Col - 1).

(** A row was fetched and [o] bytes of the column were read, more are left or none was read. *)
Record reading (o : nat) (s : get_stmt) : Prop := {
  rd_bind : gs_bind s = true;
  rd_fetching : gs_fetching s = true;
  rd_col : gs_cols s !! i = Some col;
  rd_offset : gs_CharOffset s !! i = Some (Z.of_nat o);
  rd_length : exists L, gs_Lengths s !! i = Some L /\ (o <> 0%nat -> L = Z.of_nat (length v));
  rd_last : gs_Last s = Col \/ o = 0%nat;
  rd_left : (o < length v)%nat \/ o = 0%nat;
  rd_ird : record_ready (gs_world s) (gs_Ird s) i;
}.

(** The column was read to its end. *)
Record read_out (s : get_stmt) : Prop := {
  ro_offset : exists o L, gs_CharOffset s !! i = Some o /\ gs_Lengths s !! i = Some L /\ 0 < o /\ L <= o;
}.

(** What one call gives: [n] bytes of buffer, from the offset [o]. *)
Record delivered (z : bool) (n o : nat) (r : get_result) : Prop := {
  de_ind : gr_ind r = Some (Z.of_nat (length v - o));
  de_bytes : exists b, gr_target r = TBytes b /\ length b = n /\
    take (n - Z.to_nat (Z.b2z z)) (take (length v - o) b) = take (n - Z.to_nat (Z.b2z z)) (drop o v) /\
    (z = true -> b !! Nat.min (n - 1) (length v - o) = Some 0);
  de_state : if (n - Z.to_nat (Z.b2z z) <? length v - o)%nat
    then gr_rc r = SQL_SUCCESS_WITH_INFO /\ SqlState (gs_Error (gr_stmt r)) = chars "01004" /\
      reading (o + (n - Z.to_nat (Z.b2z z))) (gr_stmt r) /\ gs_Last (gr_stmt r) = Col
    else gr_rc r = SQL_SUCCESS /\ read_out (gr_stmt r);
}.

Lemma ready_record w h : record_ready w h i ->
  exists w' d r, MADB_DescGetInternalRecord 1 w h (Col - 1) MADB_DESC_READ = Some (w', Some (Col - 1)) /\
    descs w' !! h = Some d /\ Records d !! i = Some r /\ text r InternalBuffer = None.
Proof.
  intros (d & r & Hd & Hr & Hi). pose proof (lookup_lt_Some _ _ _ Hr) as Hl. unfold i in Hl.
  destruct (MADB_DescGetInternalRecord_spec 1 w h d (Col - 1) MADB_DESC_READ) as (w' & d' & new & E & Hw & _ & _ & HR & _);
    [done|lia|lia|lia|].
  exists w', d', r. split; [exact E|]. rewrite Hw, lookup_insert_eq. split; [done|]. rewrite HR. split; [|done].
  by apply lookup_app_l_Some.
Qed.

Lemma record_at w h d r : descs w !! h = Some d -> Records d !! i = Some r -> get_record w h (Col - 1) = Some r.
Proof. intros Hd Hr. rewrite (get_record_at _ _ d) by (done || lia). exact Hr. Qed.

(** The part of SQLGetData in front of MADB_StmtGetData: nothing of the column changes. *)
Lemma set_internal_none s d r : descs (gs_world s) !! gs_Ird s = Some d -> Records d !! i = Some r -> text r InternalBuffer = None ->
  exists w', set_internal s i None = Some (set_world s w') /\ record_ready w' (gs_Ird s) i.
Proof.
  intros Hd Hr Hi. unfold set_internal. rewrite Hd. cbn [mbind option_bind]. rewrite Hr. cbn [mbind option_bind]. rewrite Hi.
  cbn [release mbind option_bind]. eexists. split; [reflexivity|].
  eexists _, _. split; [apply lookup_insert_eq|]. split; [apply list_lookup_insert_eq, (lookup_lt_Some _ _ _ Hr)|].
  cbn [text set_text]. apply fn_lookup_insert.
Qed.

(** The terminator leaves the bytes in front of it alone. *)
Lemma terminate b rem total : (rem <= total)%nat -> (0 < length b)%nat -> ((rem < length b)%nat -> b !! rem = Some 0) ->
  exists b1, put_byte b (if Z.of_nat total <? Z.of_nat (length b) then Z.of_nat total else Z.of_nat (length b) - 1) 0 = Some b1 /\
    length b1 = length b /\ take (length b - 1) (take rem b1) = take (length b - 1) (take rem b) /\ b1 !! Nat.min (length b - 1) rem = Some 0.
Proof.
  intros Hr Hb H0. set (p := if _ <? _ then _ else _). assert (exists q, p = Z.of_nat q /\ (q < length b)%nat /\ (Nat.min (length b - 1) rem <= q)%nat /\
    (length b <= rem -> q = length b - 1)%nat) as (q & Ep & Hq & Hm & He).
  { subst p. destruct (Z.ltb_spec (Z.of_nat total) (Z.of_nat (length b))); [exists total|exists (length b - 1)%nat]; lia. }
  rewrite Ep. clearbody p. unfold put_byte. rewrite (proj2 (Z.leb_le _ _)), (proj2 (Z.ltb_lt _ _)) by lia. cbn [andb]. rewrite Nat2Z.id.
  eexists. split; [reflexivity|]. rewrite length_insert. split; [done|]. split.
  - rewrite !take_take. apply take_insert_ge. lia.
  - destruct (decide (q = Nat.min (length b - 1) rem)) as [->|Hne]; [apply list_lookup_insert_eq; lia|].
    rewrite list_lookup_insert_ne by done. replace (Nat.min (length b - 1) rem) with rem by lia. apply H0. lia.
Qed.

(** The state after the length was recorded. *)
Lemma recorded_length s o : reading o s -> exists s', (if negb false && (offset_of s i =? 0) then set_length s i (Z.of_nat (length v)) else s) = s' /\
  gs_Lengths s' !! i = Some (Z.of_nat (length v)) /\ gs_bind s' = true /\ gs_fetching s' = true /\ gs_cols s' !! i = Some col /\
  gs_CharOffset s' !! i = Some (Z.of_nat o) /\ gs_Last s' = gs_Last s /\ gs_Error s' = gs_Error s /\ record_ready (gs_world s') (gs_Ird s') i.
Proof.
  intros [R1 R2 R3 R4 (L & R5 & R5') _ _ R8]. 
  assert (offset_of s i = Z.of_nat o) as -> by (unfold offset_of; by rewrite R4). cbn [negb andb].
  destruct (Z.eqb_spec (Z.of_nat o) 0) as [E|E]; cbv iota; eexists; (split; [reflexivity|]); [|rewrite R5' in R5 by lia; by split_and!].
  cbn [set_length gs_Lengths]. rewrite list_lookup_insert_eq by exact (lookup_lt_Some _ _ _ R5). by split_and!.
Qed.

(** The part of MADB_StmtGetData for bytes. *)
Lemma bytes_piece s t z buf o ind : reading o s -> gs_Last s = Col -> ReturnValue (gs_Error s) = SQL_SUCCESS ->
  text_buffer t = true -> (Z.to_nat (Z.b2z z) < length buf)%nat -> Z.of_nat (length buf) < 2 ^ 62 ->
  exists r, get_bytes c s i col v t z buf (Z.of_nat (length buf)) (Some ind) false = Some r /\ delivered z (length buf) o r.
Proof.
  intros HR Hl HE Ht Hz Hn. destruct (recorded_length s o HR) as (s2 & E2 & S1 & S2 & S3 & S4 & S5 & S6 & S7 & S8).
  destruct HR as [_ R2 _ R4 _ _ R7 _]. unfold get_bytes. cbv zeta.
  assert (offset_of s i = Z.of_nat o) as Ho by (unfold offset_of; by rewrite R4).
  rewrite Z.ltb_irrefl. rewrite (proj2 (Z.eqb_neq (Z.of_nat (length buf)) 0)) by lia. cbn [andb]. rewrite Ho, !Nat2Z.id in *.
  unfold MADB_FetchColumnCsps. rewrite R2. cbn [negb].
  destruct (fetch_text_spec (gs_Error s) (fc_type col) (MkBind t false o (length buf) buf) v)
    as (b & rc & err & E & B1 & B2 & B3 & _ & B5 & B6); [done|done|cbn; lia|done|]. cbn [buffer_length offset buffer] in *.
  rewrite E. cbn [mbind option_bind].
  assert (fetch_ok rc = true) as ->.
  { unfold fetch_ok. destruct (Nat.ltb_spec (length buf) (length v - o)) as [H|H]; [apply B5 in H|apply B6 in H]; destruct H as [-> _]; done. }
  cbn [negb]. rewrite Ho. cbn [negb] in E2. rewrite E2. clear E2 E B5 B6.
  set (n := length buf) in *. set (zt := Z.to_nat (Z.b2z z)) in *. assert (Z.b2z z = Z.of_nat zt) as Hzt by (subst zt; by destruct z).
  assert (exists b1, (if z then put_byte b (if Z.of_nat (length v) <? Z.of_nat n then Z.of_nat (length v) else Z.of_nat n - 1) 0 else Some b) = Some b1 /\
    length b1 = n /\ take (n - zt) (take (length v - o) b1) = take (n - zt) (drop o v) /\ (z = true -> b1 !! Nat.min (n - 1) (length v - o) = Some 0))
    as (b1 & -> & D1 & D2 & D3).
  { assert (take (n - zt) (take (length v - o) b) = take (n - zt) (drop o v)) as Hp.
    { rewrite take_take. transitivity (take (Nat.min (n - zt) (length v - o)) (take (Nat.min n (length v - o)) b));
        [by rewrite take_take; f_equal; lia|]. rewrite B2, take_take. rewrite <- (take_ge (drop o v) (length v - o)) at 2 by (rewrite length_drop; lia).
      rewrite take_take. f_equal. lia. }
    destruct z; [|by exists b]. rewrite <- B1 in *. destruct (terminate b (length v - o) (length v)) as (b1 & P1 & P2 & P3 & P4); [lia|lia| |].
    - intros H. rewrite <- B3; f_equal; lia.
    - exists b1. assert (zt = 1%nat) as Ez by done. rewrite Ez in *. split_and!; [exact P1|done|by rewrite P3|by intros _]. }
  cbn [mbind option_bind]. clear B1 B2 B3. rewrite Hzt. cbn [fmap option_fmap option_map from_option].
  assert (wraps 64 (Z.of_nat (length v) - Z.of_nat o) = Z.of_nat (length v - o)) as -> by (rewrite wraps_id by lia; lia).
  assert (wrapu 64 (Z.of_nat n - Z.of_nat zt) = Z.of_nat (n - zt)) as -> by (rewrite wrapu_id by lia; lia).
  assert (offset_of s2 i = Z.of_nat o) as Ho2 by (unfold offset_of; by rewrite S5). rewrite Ho2, wrapu_id by lia.
  set (o' := Z.of_nat o + Z.min _ _). set (s3 := set_offset s2 i o').
  assert (offset_of s3 i = o' /\ length_of s3 i = Z.of_nat (length v)) as [-> HL3].
  { unfold offset_of, length_of, s3. cbn [set_offset gs_CharOffset gs_Lengths]. by rewrite list_lookup_insert_eq, S1 by exact (lookup_lt_Some _ _ _ S5). }
  assert (gs_CharOffset s3 !! i = Some o') as HO3 by (apply list_lookup_insert_eq, (lookup_lt_Some _ _ _ S5)).
  rewrite HL3, (proj2 (Z.eqb_neq (Z.of_nat n - Z.of_nat zt) 0)) by lia. cbn [negb andb].
  destruct (Nat.ltb_spec (n - zt) (length v - o)) as [Hk|Hk].
  - assert (o' = Z.of_nat (o + (n - zt))) as Eo by (subst o'; lia). rewrite (proj2 (Z.ltb_lt _ _)) by lia.
    eexists. split; [reflexivity|]. split; cbn [refuse gr_ind gr_target gr_rc gr_stmt]; [done|by exists b1|].
    fold zt. rewrite (proj2 (Nat.ltb_lt _ _)) by lia. split; [done|]. split; [done|]. split; [|cbn; congruence].
    split; cbn [set_error gs_bind gs_fetching gs_cols gs_CharOffset gs_Lengths gs_Last gs_world gs_Ird]; try done.
    + by rewrite HO3, Eo.
    + exists (Z.of_nat (length v)). by split.
    + left. cbn. congruence.
    + left. lia.
  - rewrite (proj2 (Z.ltb_ge o' _)) by lia. rewrite (proj2 (Z.ltb_ge (Z.of_nat n - Z.of_nat zt) _)) by lia.
    eexists. split; [reflexivity|]. unfold mark_read. rewrite HL3. cbn [negb andb].
    split; [by destruct (_ =? 0)|destruct (_ =? 0); by exists b1|]. fold zt. rewrite (proj2 (Nat.ltb_ge _ _)) by lia.
    split; [destruct (_ =? 0); cbn; congruence|]. split. destruct (Z.eqb_spec (Z.of_nat (length v)) 0) as [Ez|Ez].
    + eexists _, _. split; [apply list_lookup_insert_eq, (lookup_lt_Some _ _ _ HO3)|]. split; [exact S1|]. rewrite !wrapu_id by lia. lia.
    + eexists _, _. split; [exact HO3|]. split; [exact S1|]. lia.
Qed.

(** Changes that keep a column as it is. *)
Lemma reading_error o s E : reading o s -> reading o (set_error s E).
Proof. by intros [R1 R2 R3 R4 R5 R6 R7 R8]. Qed.
Lemma reading_world o s w : reading o s -> record_ready w (gs_Ird s) i -> reading o (set_world s w).
Proof. by intros [R1 R2 R3 R4 R5 R6 R7 R8]. Qed.
Lemma reading_last o s : reading o s -> reading o (set_last s Col).
Proof. intros [R1 R2 R3 R4 R5 R6 R7 R8]. split; try done. by left. Qed.

Lemma stmt_piece s t z buf old o ind : reading o s -> gs_Last s = Col -> byte_target t = Some z ->
  (Z.to_nat (Z.b2z z) < length buf)%nat -> Z.of_nat (length buf) < 2 ^ 62 ->
  exists r, MADB_StmtGetData c Col t buf old (Z.of_nat (length buf)) (Some ind) false s = Some r /\ delivered z (length buf) o r.
Proof.
  intros HR Hl Ht Hz Hn. unfold MADB_StmtGetData. cbv zeta. rewrite wrapu_id by lia. fold i.
  pose proof HR as [R1 _ R3 R4 _ _ _ R8]. rewrite R4. cbn [mbind option_bind set_error gs_bind gs_cols gs_world gs_Ird gs_Ard]. rewrite R1, R3. cbn [negb mbind option_bind].
  rewrite col_value. replace (Z.of_nat i) with (Col - 1) by (unfold i; lia).
  destruct (ready_record _ _ R8) as (w' & d & r & E & Hd & Hr & Hi). rewrite E. cbn [mbind option_bind].
  rewrite (record_at _ _ _ _ Hd Hr). cbn [mbind option_bind].
  assert (exists m, MADB_GetMaDBTypeAndLength t 0 = (m, false, 0) /\ text_buffer m = true /\ t <> SQL_ARD_TYPE /\ t <> SQL_C_DEFAULT /\
    case t [SQL_DATE; SQL_C_TYPE_DATE; SQL_TIMESTAMP; SQL_C_TYPE_TIMESTAMP; SQL_TIME; SQL_C_TYPE_TIME] = false /\
    case t [SQL_C_INTERVAL_HOUR_TO_MINUTE; SQL_C_INTERVAL_HOUR_TO_SECOND] = false /\ case t [SQL_WCHAR; SQL_WVARCHAR; SQL_WLONGVARCHAR] = false)
    as (m & Em & Hm & N1 & N2 & C1 & C2 & C3).
  { unfold byte_target, case in Ht. cbn [existsb] in Ht.
    repeat match type of Ht with
    | context [t =? ?k] => destruct (Z.eqb_spec t k) as [->|]; [eexists; split_and!; (reflexivity || discriminate)|]
    end. discriminate Ht. }
  unfold target_type. rewrite (proj2 (Z.eqb_neq _ _) N1), (proj2 (Z.eqb_neq _ _) N2). cbn [mbind option_bind].
  rewrite Em, C1, C2, C3. clear Em C1 C2 C3.
  assert (reading o (set_world (set_error s (MADB_CLEAR_ERROR (gs_Error s))) w')) as HR'
    by (apply reading_world; [by apply reading_error|]; by exists d, r).
  pose proof (bytes_piece _ m z buf o ind HR' Hl ltac:(done) Hm Hz Hn) as Hp. unfold byte_target in Ht.
  rewrite (proj2 (Z.eqb_neq (Z.of_nat (length buf)) 0)), andb_false_r by lia. cbn [andb].
  destruct (case t [SQL_CHAR; SQL_VARCHAR]); [by injection Ht as <-|].
  destruct (case t [SQL_LONGVARCHAR; SQL_BINARY; SQL_VARBINARY; SQL_LONGVARBINARY]); [by injection Ht as <-|discriminate].
Qed.

Lemma piece s t z buf old o ind : reading o s -> byte_target t = Some z -> (Z.to_nat (Z.b2z z) < length buf)%nat -> Z.of_nat (length buf) < 2 ^ 62 ->
  exists r, SQLGetData c Col t (Some buf) old (Z.of_nat (length buf)) (Some ind) s = Some r /\ delivered z (length buf) o r.
Proof.
  intros HR0 Ht Hz Hn. unfold SQLGetData. cbv zeta. rewrite (proj2 (Z.eqb_neq Col 0)) by lia. fold i.
  apply (reading_error _ _ (MADB_CLEAR_ERROR (gs_Error s))) in HR0. remember (set_error s _) as s0 eqn:E0. clear s E0.
  pose proof HR0 as [_ _ _ R4 (L & R5 & R5') R6 R7 R8]. rewrite R4, R5. cbn [mbind option_bind].
  assert ((0 <? Z.of_nat o) && (L <=? Z.of_nat o) = false) as ->.
  { destruct (Z.ltb_spec 0 (Z.of_nat o)); [|done]. rewrite R5' by lia. apply Z.leb_gt. lia. }
  rewrite (proj2 (Z.ltb_ge _ _)) by lia. destruct (Z.eqb_spec (gs_Last s0) Col) as [El|El].
  - cbn [mbind option_bind]. by apply stmt_piece; [apply reading_last|..].
  - destruct R6 as [|Eo]; [done|]. subst o. destruct (ready_record _ _ R8) as (w' & d & r & -> & Hd & Hr & Hi). cbn [mbind option_bind].
    destruct (set_internal_none (set_world s0 w') d r Hd Hr Hi) as (w2 & -> & H2). cbn [mbind option_bind].
    apply stmt_piece; try done. apply reading_last. apply (reading_world _ _ w2) in HR0; [|done].
    destruct HR0 as [Q1 Q2 Q3 Q4 Q5 Q6 Q7 Q8]. split; try done. cbn [set_offset gs_CharOffset set_world] in *.
    apply list_lookup_insert_eq, (lookup_lt_Some _ _ _ Q4).
Qed.

(** After the end there is no data. *)
Lemma no_more s t buf old n ind : read_out s -> exists r, SQLGetData c Col t (Some buf) old n ind s = Some r /\
  gr_rc r = SQL_NO_DATA /\ gr_target r = TNothing /\ gr_ind r = ind /\ read_out (gr_stmt r).
Proof.
  intros [(o & L & H1 & H2 & H3 & H4)]. unfold SQLGetData. cbv zeta. rewrite (proj2 (Z.eqb_neq Col 0)) by lia. fold i.
  cbn [set_error gs_CharOffset gs_Lengths]. rewrite H1, H2. cbn [mbind option_bind].
  rewrite (proj2 (Z.ltb_lt _ _)), (proj2 (Z.leb_le _ _)) by lia. eexists. split; [reflexivity|]. split_and!; try done. split. by exists o, L.
Qed.

(** The application: it calls SQLGetData with one buffer after another.  What it sees of a call
    is the code, the bytes that fit the buffer of those that are left, their number, and whether
    the text is terminated. *)
Definition seen (z : bool) (n : nat) (r : get_result) : Z * list Z * Z * bool :=
  let left_bytes := default 0 (gr_ind r) in
  match gr_target r with
  | TBytes b => (gr_rc r, take (n - Z.to_nat (Z.b2z z)) (take (Z.to_nat left_bytes) b), left_bytes,
                 negb z || bool_decide (b !! Nat.min (n - 1) (Z.to_nat left_bytes) = Some 0))
  | _ => (gr_rc r, [], left_bytes, true)
  end.

Fixpoint read_all (t : Z) (z : bool) (old : SQL_NUMERIC_STRUCT) (bufs : list (list Z)) (s : get_stmt)
    : option (list (Z * list Z * Z * bool) * get_stmt) :=
  match bufs with
  | [] => Some ([], s)
  | buf :: bufs' =>
      r ← SQLGetData c Col t (Some buf) old (Z.of_nat (length buf)) (Some 0) s;
      '(l, s') ← read_all t z old bufs' (gr_stmt r);
      Some (seen z (length buf) r :: l, s')
  end.

Lemma read_out_all t z old bufs : forall s, read_out s ->
  exists s', read_all t z old bufs s = Some (map (fun _ => (SQL_NO_DATA, [], 0, true)) bufs, s').
Proof.
  induction bufs as [|b bufs IH]; intros s Hs; [by eexists|]. cbn [read_all].
  destruct (no_more s t b old (Z.of_nat (length b)) (Some 0) Hs) as (r & -> & E1 & E2 & E3 & Hs'). cbn [mbind option_bind].
  destruct (IH _ Hs') as (s' & ->). cbn [mbind option_bind]. exists s'. unfold seen. by rewrite E1, E2, E3.
Qed.

Lemma seen_delivered z n o r : delivered z n o r ->
  seen z n r = (gr_rc r, take (n - Z.to_nat (Z.b2z z)) (drop o v), Z.of_nat (length v - o), true).
Proof.
  intros [D1 (b & D2 & _ & D3 & D4) _]. unfold seen. rewrite D1, D2. cbn [from_option id]. rewrite Nat2Z.id, D3. f_equal.
  destruct z; [|done]. by rewrite bool_decide_eq_true_2 by auto.
Qed.

Lemma read_from t z old bufs : byte_target t = Some z -> Forall (fun b => (Z.to_nat (Z.b2z z) < length b)%nat /\ Z.of_nat (length b) < 2 ^ 62) bufs ->
  forall o s, reading o s -> exists s', read_all t z old bufs s = Some (pieces (rooms z bufs) (drop o v), s').
Proof.
  intros Ht HF. induction HF as [|b bufs [Hb1 Hb2] HF IH]; intros o s HR; [by eexists|]. cbn [read_all rooms map pieces].
  destruct (piece s t z b old o 0 HR Ht Hb1 Hb2) as (r & -> & HD). cbn [mbind option_bind]. rewrite (seen_delivered _ _ _ _ HD), length_drop.
  destruct HD as [_ _ HD]. destruct (Nat.ltb_spec (length b - Z.to_nat (Z.b2z z)) (length v - o)) as [Hk|Hk].
  - destruct HD as (-> & _ & HR' & _). destruct (IH _ _ HR') as (s' & ->). cbn [mbind option_bind]. exists s'. unfold rooms.
    by rewrite drop_drop.
  - destruct HD as (-> & Ho). destruct (read_out_all t z old bufs _ Ho) as (s' & ->). cbn [mbind option_bind]. exists s'.
    rewrite map_map, take_ge by (rewrite length_drop; lia). done.
Qed.

End Pieces.

(** C10. A long value read in pieces.  A column of a fetched row that is not NULL is read with
    SQLGetData, as text or as binary data, into buffers of any sizes that have room for at
    least one byte (and the terminator).  Each call delivers the next part of the value, as
    much as fits, with the number of bytes that were left; it returns SQL_SUCCESS_WITH_INFO as
    long as there is more, SQL_SUCCESS for the last part, and SQL_NO_DATA from then on; texts
    are always terminated.  The parts together are the value, if there is room for it. *)
Theorem GetData_pieces c Col col v t z old bufs s : 1 <= Col <= 32767 -> fc_row col = Some v -> fc_type col <> MYSQL_TYPE_BIT ->
  Z.of_nat (length v) < 2 ^ 62 -> byte_target t = Some z -> reading Col col v 0 s ->
  Forall (fun b => (Z.to_nat (Z.b2z z) < length b)%nat /\ Z.of_nat (length b) < 2 ^ 62) bufs ->
  exists l s', read_all c Col t z old bufs s = Some (l, s') /\ l = pieces (rooms z bufs) v /\
    concat (map (fun x => x.1.1.2) l) = take (sum_list (rooms z bufs)) v.
Proof.
  intros H1 H2 H3 H4 Ht HR HF. destruct (read_from c Col col v H1 H2 H3 H4 t z old bufs Ht HF 0 s HR) as (s' & E).
  exists (pieces (rooms z bufs) v), s'. split; [exact E|]. split; [done|]. apply pieces_all.
Qed.

(** ** Examples *)

(** A row of three columns, a text, a number and a long text, with an application row
    descriptor without records. *)
Definition sample_config : get_config :=
  MkGetConfig true (MkDateS 2024 5 17) utf8_cs inr CharOctetLen16 (Some (Native (chars "00000") [] 0)) [] SQL_UB_OFF 0.
Definition sample_record (type : Z) : MADB_DescRecord := set_num (set_num zero_record ConciseType type) OctetLength 20.
Definition sample_ird : MADB_Desc :=
  with_records (sample_desc MADB_DESC_IRD false 0) [sample_record SQL_VARCHAR; sample_record SQL_INTEGER; sample_record SQL_LONGVARCHAR].
Definition sample_world : world := MkWorld (<[2%positive := sample_ird]> {[1%positive := sample_desc MADB_DESC_ARD false 0]}) ∅ [] ∅.
Definition sample_col (type : Z) (text : string) : fetched_col :=
  MkFetchedCol type 33 (Some (chars text)) (Z.of_nat (length (chars text))).
Definition sample_stmt : get_stmt :=
  MkGetStmt sample_world 1 2 [sample_col MYSQL_TYPE_VAR_STRING "singlestore"; sample_col MYSQL_TYPE_LONG "300"; sample_col MYSQL_TYPE_BLOB "a-b"]
    true true [0; 0; 0] [0; 0; 0] 0 ErrorProps.zero_error.
Definition sample_numeric : SQL_NUMERIC_STRUCT := MkNumeric 0 0 0 [].

Lemma GetData_pieces_witness : exists l s',
  read_all sample_config 1 SQL_C_CHAR true sample_numeric [replicate 5 0; replicate 6 0; replicate 4 0; replicate 4 0] sample_stmt = Some (l, s') /\
  l = [(SQL_SUCCESS_WITH_INFO, chars "sing", 11, true); (SQL_SUCCESS_WITH_INFO, chars "lesto", 7, true); (SQL_SUCCESS, chars "re", 2, true);
       (SQL_NO_DATA, [], 0, true)].
Proof.
  destruct (GetData_pieces sample_config 1 (sample_col MYSQL_TYPE_VAR_STRING "singlestore") (chars "singlestore") SQL_C_CHAR true sample_numeric
    [replicate 5 0; replicate 6 0; replicate 4 0; replicate 4 0] sample_stmt) as (l & s' & E & El & _).
  - lia.
  - reflexivity.
  - discriminate.
  - vm_compute. reflexivity.
  - reflexivity.
  - split; try reflexivity; [exists 0; split; [reflexivity|done]|by right|by right|].
    exists sample_ird, (sample_record SQL_VARCHAR). split_and!; reflexivity.
  - repeat constructor; vm_compute; lia.
  - exists l, s'. split; [exact E|]. rewrite El. vm_compute. reflexivity.
Defined.

Definition get_one (Col TargetType BufferLength : Z) (ind : option Z) : option (Z * target * option Z) :=
  r ← SQLGetData sample_config Col TargetType (Some (replicate 20 0)) sample_numeric BufferLength ind sample_stmt;
  Some (gr_rc r, gr_target r, gr_ind r).

(** A number that does not fit is reported as read: 300 becomes the signed byte 44. *)
Theorem overflow_not_reported : get_one 2 SQL_C_STINYINT 0 (Some 0) = Some (SQL_SUCCESS, TInt 1 44, Some 1).
Proof. vm_compute. reflexivity. Qed.

(** A long text that is no timestamp is reported as read, and nothing is written. *)
Theorem bad_timestamp_not_reported : get_one 3 SQL_C_TYPE_TIMESTAMP 0 (Some 0) = Some (SQL_SUCCESS, TNothing, Some 0).
Proof. vm_compute. reflexivity. Qed.

(** SQL_C_NUMERIC needs a record of the application's descriptor: the first column gets one,
    for another the missing record is followed. *)
Theorem numeric_without_record : get_one 2 SQL_C_NUMERIC 0 (Some 0) = None.
Proof. vm_compute. reflexivity. Qed.

(** An empty buffer without a length variable: the terminator is written in front of it. *)
Theorem empty_buffer_underrun : get_one 1 SQL_C_CHAR 0 None = None.
Proof. vm_compute. reflexivity. Qed.

End GetDataProps.
