(* ===== verification/RowFetch.v ===== *)
(** * RowFetch: the columns of one row

    Models, from [ma_statement.c], what a fetch does with the columns of one row of the text
    protocol: [MADB_PrepareBind], the loop of [MADB_FetchCsps], [MADB_FixFetchedValues],
    [SwitchEndianness], and [mysql_stmt_bind_result] of the client library.  The
    application's memory is the map of Params.v, the descriptors are those of Desc.v.  The
    buffer of a record of the application's descriptor ([InternalBuffer]) is the one its bind
    structure points at and is kept there.  A buffer of the application is as long as the
    record says.  [strtod] is an argument, like the conversion of wide characters of GetData.v.
    The machine is little endian.  The cursor of the client library, which a NULL without an
    indicator moves back to the first row of the rowset, is not part of this state. *)

From Stdlib Require Import ZArith Lia.
From stdpp Require Import base strings numbers option list gmap.
From S2P Require Import Prelude Charset Odbc Errors SqlTypes Desc Numeric TypeConv Params StmtState Execute Cursor GetData.
Import ErrorOps SqlTypes Mbstr Numeric TypeConv DescOps Params Execute GetData.

(** What a bind structure points at: a buffer of the application, a buffer of the driver, or
    a MYSQL_TIME of the driver. *)
Inductive bind_buffer := NoBuffer | AppBuffer (a : Z) | OwnBuffer (b : list Z) | OwnTime (t : MYSQL_TIME).

(** A bind structure.  [cb_own_length]: its [length] points at the [length_value] of the
    structure in [Stmt->result]; otherwise it is NULL, which the client library replaces by
    its own [length_value]. *)
Record col_bind := MkColBind {
  cb_dummy : bool;
  cb_type : Z;
  cb_unsigned : bool;
  cb_size : Z;
  cb_buffer : bind_buffer;
  cb_own_length : bool;
  cb_length_value : Z;
}.

(** The structure [calloc] hands out. *)
Definition zero_bind : col_bind := MkColBind false 0 false 0 NoBuffer false 0.

(** A column of the result: the type of its field and its longest value. *)
Record row_field := MkRowField { rf_type : Z; rf_max_length : Z }.

(** What the client library keeps of a column after a fetch: the copy of the bind structure,
    and whether the value is NULL or did not fit. *)
Record col_out := MkColOut { co_bind : col_bind; co_null : bool; co_error : bool; co_row : option (list Z) }.

(** [strtod], as the bytes of a float or double; what [sscanf] leaves of a time it cannot
    read; and the rest of the configuration of SQLGetData. *)
Record row_config := MkRowConfig {
  rc_get : get_config;
  rc_strtod : Z -> list Z -> list Z;
  rc_partial : list Z -> MYSQL_TIME;
  rc_fields : list row_field;
}.

Record row_state := MkRowState {
  rs_world : world;
  rs_Ard : positive;
  rs_Ird : positive;
  rs_memory : memory;
  rs_result : list col_bind;
  rs_Error : MADB_Error;
}.

Module RowFetch.

Section Row.
Context (c : row_config).
Implicit Types (s : row_state).

Definition with_world s (w : world) : row_state := MkRowState w (rs_Ard s) (rs_Ird s) (rs_memory s) (rs_result s) (rs_Error s).
Definition with_memory s (m : memory) : row_state := MkRowState (rs_world s) (rs_Ard s) (rs_Ird s) m (rs_result s) (rs_Error s).
Definition with_result s (i : nat) (b : col_bind) : row_state :=
  MkRowState (rs_world s) (rs_Ard s) (rs_Ird s) (rs_memory s) (<[i := b]> (rs_result s)) (rs_Error s).
Definition with_error s (E : MADB_Error) : row_state := MkRowState (rs_world s) (rs_Ard s) (rs_Ird s) (rs_memory s) (rs_result s) E.

Definition set_dummy (b : col_bind) (d : bool) : col_bind :=
  MkColBind d (cb_type b) (cb_unsigned b) (cb_size b) (cb_buffer b) (cb_own_length b) (cb_length_value b).
Definition set_buffer (b : col_bind) (x : bind_buffer) : col_bind :=
  MkColBind (cb_dummy b) (cb_type b) (cb_unsigned b) (cb_size b) x (cb_own_length b) (cb_length_value b).
Definition set_size (b : col_bind) (n : Z) : col_bind :=
  MkColBind (cb_dummy b) (cb_type b) (cb_unsigned b) n (cb_buffer b) (cb_own_length b) (cb_length_value b).
Definition set_length_value (b : col_bind) (n : Z) : col_bind :=
  MkColBind (cb_dummy b) (cb_type b) (cb_unsigned b) (cb_size b) (cb_buffer b) (cb_own_length b) n.

(** A column bound to a buffer of a type and size. *)
Definition bind_to (b : col_bind) (x : bind_buffer) (size type : Z) (unsigned : bool) : col_bind :=
  MkColBind false type unsigned size x true (cb_length_value b).

Definition row_fail s (code : nat) : Z * row_state :=
  let E := MADB_SetError (rs_Error s) code None 0 in (ReturnValue E, with_error s E).

(** The record of a column in the application's descriptor; reading the first one that is
    missing creates it. *)
Definition ard_record s (i : nat) : option (row_state * option MADB_DescRecord) :=
  '(w, r) ← MADB_DescGetInternalRecord 1 (rs_world s) (rs_Ard s) (Z.of_nat i) MADB_DESC_READ;
  match r with
  | None => Some (with_world s w, None)
  | Some k => rec ← get_record w (rs_Ard s) k; Some (with_world s w, Some rec)
  end.
Definition ird_record s (i : nat) : option (row_state * MADB_DescRecord) :=
  '(w, r) ← MADB_DescGetInternalRecord 1 (rs_world s) (rs_Ird s) (Z.of_nat i) MADB_DESC_READ;
  k ← r; rec ← get_record w (rs_Ird s) k; Some (with_world s w, rec).

Definition ard_header s : option MADB_Header := d ← descs (rs_world s) !! rs_Ard s; Some (Header d).

(** ** MADB_PrepareBind *)

Definition MADB_BinaryFieldType (FieldType : Z) : bool := case FieldType [SQL_BINARY; SQL_VARBINARY; SQL_LONGVARBINARY; SQL_BIT].

Definition char_column (ird : MADB_DescRecord) : bool := case (num ird ConciseType) [SQL_CHAR; SQL_VARCHAR].

(** Numbers that are fetched through a buffer when the column is binary. *)
Definition small_number (t : Z) : bool :=
  case t [SQL_C_TINYINT; SQL_C_UTINYINT; SQL_C_STINYINT; SQL_C_SHORT; SQL_C_SSHORT; SQL_C_USHORT; SQL_C_FLOAT; SQL_C_LONG; SQL_C_ULONG;
          SQL_C_SLONG; SQL_C_DOUBLE].

Definition zeros (n : Z) : bind_buffer := OwnBuffer (replicate (Z.to_nat n) 0).

(** The switch: the structure, or the error. *)
Definition bind_structure (b : col_bind) (a : Z) (ard ird : MADB_DescRecord) (f : row_field) : nat + col_bind :=
  let octets := num ard OctetLength in
  let t := if num ard ConciseType =? SQL_C_DEFAULT then MADB_GetDefaultType (num ird ConciseType) else num ard ConciseType in
  let time_buffer type :=
    if char_column ird then
      if gc_alloc (rc_get c) then inr (bind_to b (zeros (rf_max_length f + 1)) (rf_max_length f + 1) MYSQL_TYPE_STRING (cb_unsigned b))
      else inl MADB_ERR_HY001
    else inr (bind_to b (OwnTime zero_time) sizeof_MYSQL_TIME type (cb_unsigned b)) in
  let direct :=
    if negb (MADB_CheckODBCType t) then inl MADB_ERR_07006
    else let '(type, unsigned, size) := MADB_GetMaDBTypeAndLength t octets in inr (bind_to b (AppBuffer a) size type unsigned) in
  if t =? SQL_C_WCHAR then
    let n := octets * 3 / 2 in inr (bind_to b (zeros n) n MYSQL_TYPE_STRING (cb_unsigned b))
  else if t =? SQL_C_CHAR then inr (bind_to b (AppBuffer a) octets MYSQL_TYPE_STRING (cb_unsigned b))
  else if t =? SQL_C_NUMERIC then inr (bind_to b (zeros numeric_size) numeric_size MYSQL_TYPE_STRING (cb_unsigned b))
  else if case t [SQL_TYPE_TIMESTAMP; SQL_TYPE_DATE; SQL_TYPE_TIME; SQL_C_TIMESTAMP; SQL_C_TIME; SQL_C_DATE]
  then time_buffer MYSQL_TYPE_TIMESTAMP
  else if case t [SQL_C_INTERVAL_HOUR_TO_MINUTE; SQL_C_INTERVAL_HOUR_TO_SECOND]
  then time_buffer (if rf_type f =? MYSQL_TYPE_TIME then MYSQL_TYPE_TIME else MYSQL_TYPE_TIMESTAMP)
  else if t =? SQL_C_BIT then inr (bind_to b (zeros 8) 8 MYSQL_TYPE_LONGLONG (cb_unsigned b))
  else if small_number t && MADB_BinaryFieldType (num ird ConciseType) then
    let n := Z.min (num ird OctetLength) octets in inr (bind_to b (zeros n) n MYSQL_TYPE_BLOB (cb_unsigned b))
  else direct.

(** One column: an early return, or the next column. *)
Definition prepare_column (RowNumber : Z) (i : nat) s : option (option Z * row_state) :=
  b ← rs_result s !! i;
  f ← rc_fields c !! i;
  '(s1, ard) ← ard_record s i;
  match ard with
  | None => Some (None, with_result s1 i (set_dummy b true))
  | Some ard =>
      if num ard inUse =? 0 then Some (None, with_result s1 i (set_dummy b true))
      else
        hd ← ard_header s1;
        a ← bound_at (rs_memory s1) hd (ptr (num ard DataPtr)) RowNumber (num ard OctetLength);
        match a with
        | None => Some (None, with_result s1 i (set_dummy b true))
        | Some a =>
            '(s2, ird) ← ird_record s1 i;
            match bind_structure b a ard ird f with
            | inl code => let '(rc, s3) := row_fail s2 code in Some (Some rc, s3)
            | inr b' => Some (None, with_result s2 i b')
            end
        end
  end.

Fixpoint prepare_loop (RowNumber : Z) (n i : nat) s : option (Z * row_state) :=
  match n with
  | O => Some (SQL_SUCCESS, s)
  | S n' =>
      '(r, s1) ← prepare_column RowNumber i s;
      match r with
      | Some rc => Some (rc, s1)
      | None => prepare_loop RowNumber n' (S i) s1
      end
  end.

Definition MADB_PrepareBind (RowNumber : Z) s : option (Z * row_state) := prepare_loop RowNumber (length (rc_fields c)) 0 s.

(** ** mysql_stmt_bind_result *)

(** The length of the types that have one. *)
Definition type_length (t : Z) : option Z :=
  if case t [MYSQL_TYPE_NULL] then Some 0
  else if case t [MYSQL_TYPE_TINY] then Some 1
  else if case t [MYSQL_TYPE_SHORT; MYSQL_TYPE_YEAR] then Some 2
  else if case t [MYSQL_TYPE_INT24; MYSQL_TYPE_LONG; MYSQL_TYPE_FLOAT] then Some 4
  else if case t [MYSQL_TYPE_LONGLONG; MYSQL_TYPE_DOUBLE] then Some 8
  else if case t [MYSQL_TYPE_TIME; MYSQL_TYPE_DATE; MYSQL_TYPE_DATETIME; MYSQL_TYPE_TIMESTAMP] then Some sizeof_MYSQL_TIME
  else None.

(** The structure in [Stmt->result] and its copy; the types are those the driver uses, which
    the client library supports. *)
Definition bind_result (b : col_bind) : col_bind * col_bind :=
  match type_length (cb_type b) with
  | None => (b, b)
  | Some n => (if cb_own_length b then set_length_value b n else b, set_length_value b n)
  end.

Definition mysql_stmt_bind_result s : row_state * list col_out :=
  (MkRowState (rs_world s) (rs_Ard s) (rs_Ird s) (rs_memory s) (map (fun b => (bind_result b).1) (rs_result s)) (rs_Error s),
   map (fun b => MkColOut (bind_result b).2 false false None) (rs_result s)).

(** [*bind.length] *)
Definition out_length (r : col_bind) (o : col_out) : Z := if cb_own_length (co_bind o) then cb_length_value r else cb_length_value (co_bind o).
Definition store_length (r : col_bind) (o : col_out) (n : Z) : col_bind * col_out :=
  if cb_own_length (co_bind o) then (set_length_value r n, o)
  else (r, MkColOut (set_length_value (co_bind o) n) (co_null o) (co_error o) (co_row o)).

(** ** MADB_FetchCsps *)

(** The bytes a conversion leaves in a buffer, and the error of a time. *)
Definition write_fetched (m : memory) (x : bind_buffer) (v : list Z) (f : fetched) : option (memory * bind_buffer) :=
  let bytes l := match x with
                 | AppBuffer a => m' ← poke m a l; Some (m', x)
                 | OwnBuffer b => if (length l <=? length b)%nat then Some (m, OwnBuffer (blit b 0 l)) else None
                 | _ => None
                 end in
  match f with
  | FetchedInt r => bytes (little (Z.to_nat (ir_length r)) (ir_value r))
  | FetchedBytes b _ _ => bytes b
  | FetchedReal size t => bytes (rc_strtod c size t)
  | FetchedTime (inl _) => match x with OwnTime _ => Some (m, OwnTime (rc_partial c v)) | _ => None end
  | FetchedTime (inr (t, _)) => match x with OwnTime _ => Some (m, OwnTime t) | _ => None end
  end.

Definition fetched_error (f : fetched) : bool :=
  match f with FetchedInt r => ir_error r | FetchedBytes _ e _ => e | _ => false end.

(** What is in a buffer. *)
Definition buffer_bytes (m : memory) (x : bind_buffer) (n : nat) : option (list Z) :=
  match x with
  | AppBuffer a => peek n m a
  | OwnBuffer b => Some b
  | OwnTime _ => Some []
  | NoBuffer => None
  end.

(** A value that is not NULL, in a column that is bound: the code of the conversion. *)
Definition convert_column (f : row_field) (r : col_bind) (o : col_out) (v : list Z) s : option (Z * col_bind * col_out * row_state) :=
  let b := co_bind o in
  old ← buffer_bytes (rs_memory s) (cb_buffer b) (Z.to_nat (cb_size b));
  '(rc, g) ← MADB_CspsConvertSql2C (rs_Error s) (rf_type f) (MkBind (cb_type b) (cb_unsigned b) 0 (Z.to_nat (cb_size b)) old) v;
  '(m, x) ← write_fetched (rs_memory s) (cb_buffer b) v g;
  let s1 := with_memory (match g with FetchedTime (inl E) => with_error s E | _ => s end) m in
  let o1 := MkColOut (set_buffer (match g with FetchedInt i => set_size b (ir_length i) | FetchedReal n _ => set_size b n | _ => b end) x)
              false (fetched_error g) (Some v) in
  let '(r1, o2) := match g with FetchedBytes _ _ n => store_length (set_buffer r x) o1 (Z.of_nat n) | _ => (set_buffer r x, o1) end in
  Some (rc, r1, o2, s1).

Definition fetch_column (f : row_field) (r : col_bind) (o : col_out) (v : option (list Z)) s : option (option Z * col_bind * col_out * row_state) :=
  match v with
  | None => Some (None, r, MkColOut (co_bind o) true false None, s)
  | Some v =>
      if cb_dummy (co_bind o) then
        let '(r1, o1) := store_length r (MkColOut (co_bind o) false false (Some v)) (Z.of_nat (length v)) in Some (None, r1, o1, s)
      else '(rc, r1, o1, s1) ← convert_column f r o v s; Some (Some rc, r1, o1, s1)
  end.

(** The loop over the columns; the codes of the conversions in order. *)
Fixpoint fetch_columns (i : nat) (row : list (option (list Z))) (outs : list col_out) s : option (list Z * list col_out * row_state) :=
  match row, outs with
  | v :: row', o :: outs' =>
      f ← rc_fields c !! i;
      r ← rs_result s !! i;
      '(rc, r1, o1, s1) ← fetch_column f r o v s;
      '(rcs, outs1, s2) ← fetch_columns (S i) row' outs' (with_result s1 i r1);
      Some (match rc with Some rc => rc :: rcs | None => rcs end, o1 :: outs1, s2)
  | _, _ => Some ([], outs, s)
  end.

Definition MADB_FetchCsps_row (row : list (option (list Z))) (outs : list col_out) s : option (Z * list col_out * row_state) :=
  '(rcs, outs1, s1) ← fetch_columns 0 row outs s; Some (Cursor.fields_rc SQL_SUCCESS rcs, outs1, s1).

(** ** MADB_FixFetchedValues *)

(** [CALC_ALL_FLDS_RC] *)
Definition CALC_ALL_FLDS_RC (agg field : Z) : Z := if negb (field =? SQL_SUCCESS) && negb (agg =? SQL_ERROR) then field else agg.

(** The length variable; without one a local variable takes the value. *)
Definition put_len (LengthPtr : option Z) (v : Z) (m : memory) : option memory :=
  match LengthPtr with Some a => poke m a (little 8 v) | None => Some m end.

(** The structures of the application in memory. *)
Definition app_time_bytes (t : app_time) : list Z :=
  match t with
  | AppTs t => little 2 (ts_year t) ++ little 2 (ts_month t) ++ little 2 (ts_day t) ++ little 2 (ts_hour t) ++ little 2 (ts_minute t)
               ++ little 2 (ts_second t) ++ little 4 (ts_fraction t)
  | AppTime t => little 2 (t_hour t) ++ little 2 (t_minute t) ++ little 2 (t_second t)
  | AppDate d => little 2 (d_year d) ++ little 2 (d_month d) ++ little 2 (d_day d)
  end.
Definition numeric_bytes (n : SQL_NUMERIC_STRUCT) : list Z := [wrapu 8 (precision n); wrapu 8 (scale n); wrapu 8 (sign n)] ++ val n.

(** The time in the buffer of a column: from its text, or as the fetch left it. *)
Definition fetched_time (ird : MADB_DescRecord) (x : bind_buffer) (len : Z) (E : MADB_Error) : option (MADB_Error + MYSQL_TIME) :=
  if char_column ird then
    match x with
    | OwnBuffer b =>
        if (length b <? Z.to_nat len)%nat then None
        else Some (match MADB_Str2Ts (cstr (take (Z.to_nat len) b)) false E with inl E' => inl E' | inr (t, _) => inr t end)
    | _ => None
    end
  else match x with OwnTime t => Some (inr t) | _ => None end.

(** The cases of the switch for a value that is not NULL: the code of the field (the numeric
    case keeps it to itself), and an early return. *)
Definition fix_time (today : SQL_DATE_STRUCT) (ard ird : MADB_DescRecord) (x : bind_buffer) (len : Z) (Data LengthPtr IndicatorPtr : option Z) s
    : option (Z * row_state) :=
  t ← (match Data with Some _ => fetched_time ird x len (rs_Error s) | None => if char_column ird then None else Some (inr zero_time) end);
  match t with
  | inl E => Some (ReturnValue E, with_error s E)
  | inr tm =>
      match MADB_CopyMadbTimestamp today tm (bool_decide (is_Some Data)) (bool_decide (is_Some IndicatorPtr)) (num ard Type_)
              (num ird ConciseType) (rs_Error s) with
      | TsError E => Some (ReturnValue E, with_error s E)
      | TsNull => a ← IndicatorPtr; m ← poke (rs_memory s) a (little 8 SQL_NULL_DATA); Some (SQL_SUCCESS, with_memory s m)
      | TsValue v l w =>
          m1 ← (match v, Data with Some t, Some a => poke (rs_memory s) a (app_time_bytes t) | _, _ => Some (rs_memory s) end);
          m2 ← (match l with Some n => put_len LengthPtr n m1 | None => Some m1 end);
          let s1 := with_memory s m2 in
          Some (match w with Some E => (ReturnValue E, with_error s1 E) | None => (SQL_SUCCESS, s1) end)
      end
  end.

Definition fix_interval (ard ird : MADB_DescRecord) (x : bind_buffer) (len : Z) (Data LengthPtr : option Z) s : option (Z * row_state) :=
  t ← (match Data with Some _ => fetched_time ird x len (rs_Error s) | None => if char_column ird then None else Some (inr zero_time) end);
  match t with
  | inl E => Some (ReturnValue E, with_error s E)
  | inr tm =>
      match Data with
      | None => m ← put_len LengthPtr sizeof_SQL_INTERVAL_STRUCT (rs_memory s); Some (SQL_SUCCESS, with_memory s m)
      | Some a =>
          if 99999 <? hour tm then Some (row_fail s MADB_ERR_22015)
          else
            let minutes := num ard Type_ =? SQL_C_INTERVAL_HOUR_TO_MINUTE in
            m1 ← poke (rs_memory s) (a + 12) (little 4 (hour tm));
            m2 ← poke m1 (a + 16) (little 4 (minute tm));
            m3 ← poke m2 (a + 4) (little 2 (if neg tm then SQL_TRUE else SQL_FALSE));
            m4 ← poke m3 (a + 20) (little 4 (if minutes then 0 else second tm));
            m5 ← poke m4 a (little 4 (if minutes then SQL_C_INTERVAL_HOUR_TO_MINUTE else SQL_C_INTERVAL_HOUR_TO_SECOND));
            let s1 := with_memory s m5 in
            if minutes && negb (second tm =? 0) then Some (row_fail s1 MADB_ERR_01S07)
            else m6 ← put_len LengthPtr sizeof_SQL_INTERVAL_STRUCT m5; Some (SQL_SUCCESS, with_memory s m6)
      end
  end.

(** SQL_C_NUMERIC: [inl] returns from the function. *)
Definition fix_numeric (RowNumber : Z) (hd : MADB_Header) (f : row_field) (ard : MADB_DescRecord) (r : col_bind) (Data LengthPtr : option Z) s
    : option ((Z * row_state) + row_state) :=
  let s0 := with_error s (MADB_CLEAR_ERROR (rs_Error s)) in
  if bool_decide (is_Some Data) && (cb_size r <? rf_max_length f) then Some (inl (row_fail s0 MADB_ERR_22003))
  else
    s1 ← (match cb_buffer r, Data with
          | OwnBuffer b, Some a =>
              if bool_decide (0 ∉ b) then None
              else
                let '(err, n) := MADB_CharToSQLNumeric (gc_stack (rc_get c)) (Some (cstr b)) (num ard Precision) (num ard Scale)
                                   (Some (MkNumeric 0 0 0 [])) in
                m1 ← (match n with Some n => poke (rs_memory s0) a (numeric_bytes n) | None => Some (rs_memory s0) end);
                Some (with_memory (if err =? 0 then s0 else (row_fail s0 (Z.to_nat err)).2) m1)
          | _, None => Some s0
          | _, _ => None
          end);
    m2 ← (if ArrayStatusPtr hd =? 0 then Some (rs_memory s1)
          else poke (rs_memory s1) (ArrayStatusPtr hd + 2 * RowNumber) (little 2 (ReturnValue (rs_Error s1))));
    m3 ← put_len LengthPtr sizeof_SQL_NUMERIC_STRUCT m2;
    Some (inr (with_memory s1 m3)).

(** SQL_C_WCHAR: the length of the record, in bytes, is given as the number of units. *)
Definition fix_wide (ard : MADB_DescRecord) (x : bind_buffer) (len : Z) (Data LengthPtr : option Z) s : option row_state :=
  match x, Data with
  | OwnBuffer b, Some a =>
      '(u, n, E) ← (if num ard OctetLength =? 0 then
                      n ← MbstrCharLen (Some b) len (gc_charset (rc_get c));
                      Some ([], if (n =? 0) && (0 <? len) then len else n, MADB_SetError (rs_Error s) MADB_ERR_01004 None 0)
                    else SetString_wide (rc_get c) (num ard OctetLength) b len (rs_Error s));
      m1 ← poke (rs_memory s) a (unit_bytes u);
      m2 ← put_len LengthPtr (n * 2) m1;
      Some (with_error (with_memory s m2) E)
  | _, _ => None
  end.

(** Numbers from a binary column: the bytes of the value, filled up with zeros. *)
Definition fix_binary (ard : MADB_DescRecord) (r : col_bind) (len : Z) (Data LengthPtr : option Z) s : option row_state :=
  match Data with
  | None => Some s
  | Some a =>
      match cb_buffer r with
      | OwnBuffer b =>
          let n := Z.to_nat (num ard OctetLength) in
          let bytes := if (n <=? Z.to_nat (cb_size r))%nat then take n b else take (Z.to_nat (cb_size r)) b ++ replicate (n - Z.to_nat (cb_size r)) 0 in
          m1 ← poke (rs_memory s) a bytes;
          m2 ← put_len LengthPtr len m1;
          Some (with_memory s m2)
      | _ => None
      end
  end.

(** SQL_C_BIT *)
Definition fix_bit (ard : MADB_DescRecord) (r : col_bind) (Data : option Z) s : option row_state :=
  a ← Data;
  match cb_buffer r with
  | OwnBuffer b =>
      m1 ← poke (rs_memory s) a (replicate (Z.to_nat (num ard OctetLength)) 0);
      m2 ← poke m1 a [if NumericProps.le_value b =? 0 then 0 else 1];
      Some (with_memory s m2)
  | _ => None
  end.

(** With more than one row in the rowset the buffer of the bind structure moves to the next
    row; a buffer of the driver is left behind. *)
Definition next_buffer (RowNumber : Z) (hd : MADB_Header) (ard : MADB_DescRecord) (r : col_bind) : col_bind :=
  if 1 <? ArraySize hd then
    set_buffer r
      (if negb (BindType hd =? 0)
       then match cb_buffer r with AppBuffer a => AppBuffer (a + BindType hd) | _ => NoBuffer end
       else AppBuffer (num ard DataPtr + (RowNumber + 1) * num ard OctetLength))
  else r.

Definition fix_value (RowNumber : Z) (i : nat) (hd : MADB_Header) (f : row_field) (ard ird : MADB_DescRecord) (r : col_bind) (o : col_out)
    (Data LengthPtr IndicatorPtr : option Z) s : option ((Z * row_state) + (Z * row_state)) :=
  let t := num ard ConciseType in
  let len := out_length r o in
  let quiet (x : option row_state) : option ((Z * row_state) + (Z * row_state)) := s1 ← x; Some (inr (SQL_SUCCESS, s1)) in
  if t =? SQL_C_BIT then quiet (fix_bit ard r Data s)
  else if case t [SQL_C_TYPE_TIMESTAMP; SQL_C_TYPE_DATE; SQL_C_TYPE_TIME; SQL_C_TIMESTAMP; SQL_C_TIME; SQL_C_DATE]
  then x ← fix_time (gc_today (rc_get c)) ard ird (cb_buffer r) len Data LengthPtr IndicatorPtr s; Some (inr x)
  else if case t [SQL_C_INTERVAL_HOUR_TO_MINUTE; SQL_C_INTERVAL_HOUR_TO_SECOND]
  then x ← fix_interval ard ird (cb_buffer r) len Data LengthPtr s; Some (inr x)
  else if t =? SQL_C_NUMERIC then
    x ← fix_numeric RowNumber hd f ard r Data LengthPtr s;
    Some (match x with inl y => inl y | inr s1 => inr (SQL_SUCCESS, s1) end)
  else if t =? SQL_C_WCHAR then quiet (fix_wide ard (cb_buffer r) len Data LengthPtr s)
  else if small_number t && MADB_BinaryFieldType (num ird ConciseType) then quiet (fix_binary ard r len Data LengthPtr s)
  else
    quiet (match Data with
           | None => Some s
           | Some _ =>
               m ← put_len LengthPtr len (rs_memory s);
               Some (with_memory (with_result s i (next_buffer RowNumber hd ard r)) m)
           end).

(** An indicator apart from the length is cleared. *)
Definition clear_indicator (LengthPtr IndicatorPtr : option Z) (m : memory) : option memory :=
  match IndicatorPtr with
  | None => Some m
  | Some a =>
      if bool_decide (IndicatorPtr = LengthPtr) then Some m
      else v ← peek_len m a; if v <? 0 then poke m a (little 8 0) else Some m
  end.

(** One column: an early return, or the code so far. *)
Definition fix_fetched (RowNumber : Z) (i : nat) (o : col_out) (rc : Z) s : option ((Z * row_state) + (Z * row_state)) :=
  '(s1, ard) ← ard_record s i;
  match ard with
  | None => Some (inr (rc, s1))
  | Some ard =>
      if num ard inUse =? 0 then Some (inr (rc, s1))
      else
        hd ← ard_header s1;
        LengthPtr ← bound_at (rs_memory s1) hd (ptr (num ard OctetLengthPtr)) RowNumber 8;
        IndicatorPtr ← bound_at (rs_memory s1) hd (ptr (num ard IndicatorPtr)) RowNumber 8;
        Data ← bound_at (rs_memory s1) hd (ptr (num ard DataPtr)) RowNumber (num ard OctetLength);
        m1 ← clear_indicator LengthPtr IndicatorPtr (rs_memory s1);
        '(s2, ird) ← ird_record (with_memory s1 m1) i;
        if co_null o then
          match IndicatorPtr with
          | Some a => m2 ← poke (rs_memory s2) a (little 8 SQL_NULL_DATA); Some (inr (rc, with_memory s2 m2))
          | None => Some (inr (row_fail s2 MADB_ERR_22002))
          end
        else
          f ← rc_fields c !! i;
          r ← rs_result s2 !! i;
          x ← fix_value RowNumber i hd f ard ird r o Data LengthPtr IndicatorPtr s2;
          Some (match x with
                | inl y => inl y
                | inr (field, s3) => inr (CALC_ALL_FLDS_RC rc field, s3)
                end)
  end.

Fixpoint fix_loop (RowNumber : Z) (i : nat) (outs : list col_out) (rc : Z) s : option (Z * row_state) :=
  match outs with
  | [] => Some (rc, s)
  | o :: outs' =>
      x ← fix_fetched RowNumber i o rc s;
      match x with
      | inl y => Some y
      | inr (rc', s1) => fix_loop RowNumber (S i) outs' rc' s1
      end
  end.

Definition MADB_FixFetchedValues (RowNumber : Z) (outs : list col_out) s : option (Z * row_state) := fix_loop RowNumber 0 outs SQL_SUCCESS s.

(** ** A row, as MADB_StmtFetch treats it *)

(** The code of the fetch and that of the conversions; [inl]: the bind structures could not be
    prepared. *)
Definition row_columns (RowNumber : Z) (row : list (option (list Z))) s : option ((Z * row_state) + (Z * Z * list col_out * row_state)) :=
  '(rc, s1) ← MADB_PrepareBind RowNumber s;
  if negb (SQL_SUCCEEDED rc) then Some (inl (rc, s1))
  else
    let '(s2, outs) := mysql_stmt_bind_result s1 in
    '(fetched, outs1, s3) ← MADB_FetchCsps_row row outs s2;
    '(fixed, s4) ← MADB_FixFetchedValues RowNumber outs1 s3;
    Some (inr (fetched, fixed, outs1, s4)).

End Row.
End RowFetch.
