(* ===== verification/RowFetchProps.v ===== *)
(** * RowFetchProps: what a fetched row leaves in the application's memory

    Theorems about RowFetch.v: the values of the columns bound as text, binary data or
    integers reach the buffers they are bound to, their lengths and NULLs the variables of the
    application, and nothing else is written; and examples of columns that are not delivered. *)

From Stdlib Require Import ZArith Lia.
From stdpp Require Import base strings numbers option list functions gmap.
From S2P Require Import Prelude Decimal Charset Odbc Errors SqlTypes Desc Numeric TypeConv Params StmtState Execute ExecProps Cursor GetData RowFetch.
Import ErrorOps SqlTypes Numeric TypeConv TypeConvProps DescOps DescProps Params Execute ExecMemory GetData RowFetch.

Module RowFetchProps.

(** ** Reading records and memory *)

Lemma insert_same {A} (m : gmap positive A) k x : m !! k = Some x -> <[k := x]> m = m.
Proof. apply insert_id. Qed.

(** A record that exists is read without a change. *)
Lemma read_existing mem w h d i : descs w !! h = Some d -> (i < length (Records d))%nat -> Z.of_nat i < Count (Header d) ->
  MADB_DescGetInternalRecord mem w h (Z.of_nat i) MADB_DESC_READ = Some (w, Some (Z.of_nat i)).
Proof.
  intros Hd Hi Hc. unfold MADB_DescGetInternalRecord. rewrite Hd. cbn [mbind option_bind].
  rewrite (proj2 (Z.ltb_ge (Z.of_nat (length (Records d))) _)) by lia. cbn [andb].
  replace (Z.to_nat (Z.of_nat i + 1 - Z.of_nat (length (Records d)))) with 0%nat by lia. cbn [grow_records].
  rewrite (proj2 (Z.ltb_ge (Count (Header d)) _)) by lia. do 2 f_equal.
  destruct w as [ds ss dl bl]. unfold put_desc, put_blocks. cbn [descs stmts Descrs blocks] in *. f_equal.
  apply insert_same. rewrite Hd. by destruct d.
Qed.

(** The memory outside an area. *)
Record kept_outside (F : Z -> Prop) (m m' : memory) : Prop := {
  ko_same : forall x, ~ F x -> m' !! x = m !! x;
  ko_mapped : forall x, is_Some (m !! x) -> is_Some (m' !! x);
}.

Lemma outside_refl F m : kept_outside F m m.
Proof. by split. Qed.
Lemma outside_trans F m1 m2 m3 : kept_outside F m1 m2 -> kept_outside F m2 m3 -> kept_outside F m1 m3.
Proof. intros [A1 B1] [A2 B2]. split; [|by auto]. intros x Hx. by rewrite A2, A1. Qed.
Lemma outside_weaken (F G : Z -> Prop) m m' : (forall x, F x -> G x) -> kept_outside F m m' -> kept_outside G m m'.
Proof. intros H [A B]. split; [|done]. intros x Hx. apply A. auto. Qed.

Definition span (a n : Z) (x : Z) : Prop := a <= x < a + n.

Lemma poke_kept m a l : (forall x, span a (Z.of_nat (length l)) x -> is_Some (m !! x)) ->
  exists m', poke m a l = Some m' /\ kept_outside (span a (Z.of_nat (length l))) m m' /\ peek (length l) m' a = Some l.
Proof.
  intros H. destruct (poke_defined l m a) as [m' E]; [intros k Hk; apply H; unfold span; lia|].
  exists m'. split; [done|]. split; [|by eapply peek_poke]. split; intros x Hx; rewrite (poke_lookup _ _ _ _ _ E).
  - by rewrite decide_False.
  - case_decide as Hd; [|done]. apply lookup_lt_is_Some. lia.
Qed.

Lemma peek_kept F m m' a n : kept_outside F m m' -> (forall x, span a (Z.of_nat n) x -> ~ F x) -> peek n m' a = peek n m a.
Proof. intros [A _] H. apply peek_ext. intros k Hk. apply A, H. unfold span. lia. Qed.

Lemma peek_take n k m a l : peek n m a = Some l -> (k <= n)%nat -> peek k m a = Some (take k l).
Proof.
  revert k a l. induction n as [|n IH]; intros k a l; cbn [peek].
  - intros [= <-] Hk. by destruct k; [|lia].
  - destruct (m !! a) as [b|] eqn:Ea; [|done]. cbn [mbind option_bind]. destruct (peek n m (a + 1)) as [l'|] eqn:El; [|done].
    cbn [mbind option_bind]. intros [= <-] Hk. destruct k as [|k]; [done|]. cbn [peek take]. rewrite Ea. cbn [mbind option_bind].
    by rewrite (IH k (a + 1) l' El) by lia.
Qed.

Lemma peek_length n : forall m a l, peek n m a = Some l -> length l = n.
Proof.
  induction n as [|n IH]; intros m a l; cbn [peek]; [by intros [= <-]|]. destruct (m !! a); [|done]. cbn [mbind option_bind].
  destruct (peek n m (a + 1)) as [l'|] eqn:E; [|done]. cbn [mbind option_bind]. intros [= <-]. cbn. f_equal. by eapply IH.
Qed.

(** ** One column *)

(** The C types considered: texts, binary data, and integers from columns that hold them as text. *)
Definition text_type (t : Z) : bool := case t [SQL_C_CHAR; SQL_C_BINARY].
Definition int_type (t : Z) : bool :=
  case t [SQL_C_TINYINT; SQL_C_STINYINT; SQL_C_UTINYINT; SQL_C_SHORT; SQL_C_SSHORT; SQL_C_USHORT; SQL_C_LONG; SQL_C_SLONG; SQL_C_ULONG;
          SQL_C_SBIGINT; SQL_C_UBIGINT].
Definition char_field (t : Z) : bool :=
  negb (case t [MYSQL_TYPE_BIT; MYSQL_TYPE_TINY_BLOB; MYSQL_TYPE_BLOB; MYSQL_TYPE_MEDIUM_BLOB; MYSQL_TYPE_LONG_BLOB]).

Record simple (ard ird : MADB_DescRecord) (f : row_field) : Prop := {
  si_octets : 0 <= num ard OctetLength < 2 ^ 31;
  si_field : rf_type f <> MYSQL_TYPE_BIT;
  si_type : text_type (num ard ConciseType) = true \/
    (int_type (num ard ConciseType) = true /\ char_field (rf_type f) = true /\ MADB_BinaryFieldType (num ird ConciseType) = false);
}.

(** The type and the size a column is bound with. *)
Definition bound_type (ard : MADB_DescRecord) : Z * Z :=
  if num ard ConciseType =? SQL_C_CHAR then (MYSQL_TYPE_STRING, num ard OctetLength)
  else let '(t, _, n) := MADB_GetMaDBTypeAndLength (num ard ConciseType) (num ard OctetLength) in (t, n).
Definition bound_unsigned (ard : MADB_DescRecord) : bool := (MADB_GetMaDBTypeAndLength (num ard ConciseType) (num ard OctetLength)).1.2.

(** What a value leaves in a buffer of [n] bytes: the value and a NUL, or as much of it as fits,
    without one. *)
Definition text_image (n : nat) (v : list Z) : list Z := if (length v <? n)%nat then v ++ [0] else take n v.

(** What the application gets of a value: the bytes at the start of its buffer, the length, and
    whether the value did not fit. *)
Definition column_image (ard : MADB_DescRecord) (v : list Z) : option (list Z * Z * bool) :=
  if text_type (num ard ConciseType)
  then Some (text_image (Z.to_nat (num ard OctetLength)) v, Z.of_nat (length v), (Z.to_nat (num ard OctetLength) <? length v)%nat)
  else
    r ← MADB_ConvertCharToInteger (bound_type ard).1 (bound_unsigned ard) v (length v);
    Some (little (Z.to_nat (ir_length r)) (ir_value r), ir_length r, ir_error r).

Lemma text_image_length n v : (length (text_image n v) <= n)%nat.
Proof. unfold text_image. destruct (Nat.ltb_spec (length v) n); rewrite ?length_app, ?length_take; cbn; lia. Qed.

(** The structure a column of a simple type is bound with. *)
Definition simple_bind (b : col_bind) (a : Z) (ard : MADB_DescRecord) : col_bind :=
  bind_to b (AppBuffer a) (bound_type ard).2 (bound_type ard).1
    (if num ard ConciseType =? SQL_C_CHAR then cb_unsigned b else bound_unsigned ard).

Lemma bind_simple c b a ard ird f : simple ard ird f -> bind_structure c b a ard ird f = inr (simple_bind b a ard).
Proof.
  intros [_ _ H]. unfold bind_structure, simple_bind, bound_type, bound_unsigned. cbv zeta.
  destruct H as [H|(H & _ & ->)]; unfold text_type, int_type, case in H; cbn [existsb] in H;
    repeat match type of H with
    | context [?x =? ?k] => destruct (Z.eqb_spec x k) as [->|]; [cbn; rewrite ?andb_false_r; reflexivity|]
    end; discriminate H.
Qed.

(** The two kinds of types the buffers have. *)
Lemma text_bound ard : text_type (num ard ConciseType) = true ->
  text_buffer (bound_type ard).1 = true /\ (bound_type ard).2 = num ard OctetLength /\ type_length (bound_type ard).1 = None.
Proof.
  unfold bound_type, text_type, case. cbn [existsb]. intros H.
  repeat match type of H with
  | context [?x =? ?k] => destruct (Z.eqb_spec x k) as [->|]; [cbn; done|]
  end. discriminate H.
Qed.

Lemma int_bound ard v : int_type (num ard ConciseType) = true -> exists r,
  MADB_ConvertCharToInteger (bound_type ard).1 (bound_unsigned ard) v (length v) = Some r /\
  type_length (bound_type ard).1 = Some (ir_length r) /\ (bound_type ard).2 = ir_length r /\ 0 < ir_length r <= 8 /\
  ir_rc r = (if ir_error r then MYSQL_DATA_TRUNCATED else SQL_SUCCESS) /\ text_buffer (bound_type ard).1 = false /\
  case (bound_type ard).1 [MYSQL_TYPE_TINY; MYSQL_TYPE_SHORT; MYSQL_TYPE_YEAR; MYSQL_TYPE_INT24; MYSQL_TYPE_LONG; MYSQL_TYPE_LONGLONG] = true.
Proof.
  unfold bound_type, bound_unsigned, int_type, case. cbn [existsb]. intros H.
  repeat match type of H with
  | context [?x =? ?k] => destruct (Z.eqb_spec x k) as [->|]; [unfold MADB_ConvertCharToInteger; cbn -[strtol strtoul wraps wrapu scan_int];
      eexists; split; [reflexivity|]; split_and!; first [reflexivity|cbn; lia|cbn; by destruct (_ || _)|cbn; by destruct (_ <? _)%nat]|]
  end. discriminate H.
Qed.

(** A value is converted into the buffer it is bound to. *)
Lemma convert_simple c ard ird f b0 a v s : simple ard ird f ->
  let b := simple_bind b0 a ard in
  (forall x, span a (bound_type ard).2 x -> is_Some (rs_memory s !! x)) ->
  exists img len err r1 o1 m', column_image ard v = Some (img, len, err) /\
    convert_column c f (bind_result b).1 (MkColOut (bind_result b).2 false false None) v s
      = Some (if err then MYSQL_DATA_TRUNCATED else SQL_SUCCESS, r1, o1, with_memory s m') /\
    kept_outside (span a (bound_type ard).2) (rs_memory s) m' /\ peek (length img) m' a = Some img /\
    co_null o1 = false /\ co_error o1 = err /\ out_length r1 o1 = len.
Proof.
  intros Hs b Hm. pose proof Hs as [Ho Hf Ht]. unfold column_image. destruct (text_type (num ard ConciseType)) eqn:Et.
  - destruct (text_bound ard Et) as (T1 & T2 & T3). eexists _, _, _.
    assert (bind_result b = (b, b)) as -> by (unfold bind_result, b, simple_bind; cbn [cb_type bind_to]; by rewrite T3).
    cbn [fst snd]. unfold convert_column. cbn [co_bind]. change (cb_buffer b) with (AppBuffer a). change (cb_size b) with (bound_type ard).2.
    change (cb_type b) with (bound_type ard).1. rewrite T2 in *. set (n := Z.to_nat (num ard OctetLength)).
    cbn [buffer_bytes]. destruct (peek_defined n (rs_memory s) a) as [old Eold]; [intros k Hk; apply Hm; unfold span; lia|].
    rewrite Eold. cbn [mbind option_bind]. assert (length old = n) as Hl by exact (peek_length _ _ _ _ Eold).
    destruct (fetch_text_spec (rs_Error s) (rf_type f) (MkBind (bound_type ard).1 (cb_unsigned b) 0 n old) v)
      as (bs & rc & err & E & B1 & B2 & B3 & _ & B5 & B6); [done|done|cbn; lia|done|]. cbn [buffer_length offset buffer] in *.
    rewrite drop_0, Nat.sub_0_r in *. rewrite E. cbn [mbind option_bind write_fetched].
    destruct (poke_kept (rs_memory s) a bs) as (m' & -> & K & P); [intros x Hx; apply Hm; unfold span in *; lia|].
    assert (take (length (text_image n v)) bs = text_image n v) as Himg.
    { unfold text_image. destruct (Nat.ltb_spec (length v) n) as [Hv|Hv].
      - rewrite length_app. cbn [length]. replace (Nat.min n (length v)) with (length v) in * by lia.
        rewrite Nat.add_1_r, (take_S_r bs (length v) 0) by (apply B3; lia). by rewrite B2, firstn_all.
      - rewrite length_take. replace (Nat.min n (length v)) with n in * by lia. exact B2. }
    assert (peek (length (text_image n v)) m' a = Some (text_image n v)) as HP.
    { rewrite <- Himg at 2. eapply peek_take; [by rewrite B1 in P|]. apply text_image_length. }
    cbn [mbind option_bind]. eexists _, _, m'. split; [reflexivity|]. split; [|split_and!].
    + assert (rc = if (n <? length v)%nat then MYSQL_DATA_TRUNCATED else SQL_SUCCESS) as ->.
      { destruct (Nat.ltb_spec n (length v)) as [H|H]; [apply B5 in H|apply B6 in H]; by destruct H. }
      unfold store_length. cbn. reflexivity.
    + eapply outside_weaken; [|exact K]. intros x. unfold span. lia.
    + exact HP.
    + done.
    + change (err = (n <? length v)%nat). destruct (Nat.ltb_spec n (length v)) as [H|H]; [apply B5 in H|apply B6 in H]; by destruct H.
    + done.
  - destruct Ht as [|(Hi & Hf2 & _)]; [done|]. destruct (int_bound ard v Hi) as (r & E & L1 & L2 & L3 & L4 & L5 & L6).
    rewrite E. cbn [mbind option_bind]. eexists _, _, _.
    assert (bind_result b = (set_length_value b (ir_length r), set_length_value b (ir_length r))) as ->
      by (unfold bind_result, b, simple_bind; cbn [cb_type bind_to cb_own_length]; by rewrite L1).
    cbn [fst snd]. unfold convert_column. cbn [co_bind]. change (cb_buffer _) with (AppBuffer a). change (cb_size _) with (bound_type ard).2.
    change (cb_type _) with (bound_type ard).1. rewrite L2 in *.
    assert (num ard ConciseType =? SQL_C_CHAR = false) as Hc by (apply Z.eqb_neq; intros Hc; by rewrite Hc in Et).
    assert (cb_unsigned (set_length_value b (ir_length r)) = bound_unsigned ard) as -> by (unfold b, simple_bind; cbn; by rewrite Hc).
    cbn [buffer_bytes]. destruct (peek_defined (Z.to_nat (ir_length r)) (rs_memory s) a) as [old ->]; [intros k Hk; apply Hm; unfold span; lia|].
    cbn [mbind option_bind]. unfold MADB_CspsConvertSql2C. rewrite (proj2 (Z.eqb_neq _ _) Hf). cbn [buffer_type is_unsigned].
    rewrite L6. unfold char_field in Hf2. apply negb_true_iff in Hf2. rewrite Hf2, E. cbn [mbind option_bind write_fetched].
    destruct (poke_kept (rs_memory s) a (little (Z.to_nat (ir_length r)) (ir_value r))) as (m' & -> & K & P);
      [intros x Hx; apply Hm; unfold span in *; rewrite length_little in Hx; lia|].
    cbn [mbind option_bind]. eexists _, _, m'. split; [reflexivity|]. split; [by rewrite L4|]. split_and!; try done.
    eapply outside_weaken; [|exact K]. intros x. unfold span. rewrite length_little. lia.
Qed.

Lemma image_fits ard ird f v img len err : simple ard ird f -> column_image ard v = Some (img, len, err) ->
  Z.of_nat (length img) <= (bound_type ard).2 /\ 0 <= (bound_type ard).2.
Proof.
  intros [Ho _ Ht]. unfold column_image. destruct (text_type (num ard ConciseType)) eqn:Et.
  - destruct (text_bound ard Et) as (_ & -> & _). intros [= <- _ _]. pose proof (text_image_length (Z.to_nat (num ard OctetLength)) v). lia.
  - destruct Ht as [|(Hi & _)]; [done|]. destruct (int_bound ard v Hi) as (r & -> & _ & -> & ? & _). cbn [mbind option_bind].
    intros [= <- _ _]. rewrite length_little. lia.
Qed.

(** ** A row *)

Section Row.
Context (c : row_config) (w : world) (ha hi : positive) (da di : MADB_Desc) (N : Z) (row : list (option (list Z))).
Local Notation n := (length (rc_fields c)).

(** The descriptors have records for all columns and there is no bind offset. *)
Record row_setting : Prop := {
  st_ard : descs w !! ha = Some da;
  st_ird : descs w !! hi = Some di;
  st_ards : length (Records da) = n;
  st_irds : length (Records di) = n;
  st_counts : Z.of_nat n <= Count (Header da) /\ Z.of_nat n <= Count (Header di);
  st_offset : BindOffsetPtr (Header da) = 0;
  st_row : length row = n;
}.

(** An address of the application's variable or buffer for this row. *)
Definition place (p size : Z) : option Z := GetBindOffset (BindType (Header da)) 0 (ptr p) N size.
Definition data_place (ard : MADB_DescRecord) : option Z := place (num ard DataPtr) (num ard OctetLength).
Definition is_bound (ard : MADB_DescRecord) : Prop := num ard inUse <> 0.

Record column (i : nat) (ard ird : MADB_DescRecord) (f : row_field) (v : option (list Z)) : Prop := {
  cl_ard : Records da !! i = Some ard;
  cl_ird : Records di !! i = Some ird;
  cl_field : rc_fields c !! i = Some f;
  cl_value : row !! i = Some v;
}.

(** The columns that are bound have a buffer of a simple type, and an indicator if the value is NULL. *)
Definition columns_ok : Prop := forall i ard ird f v, column i ard ird f v -> is_bound ard ->
  num ard DataPtr <> 0 /\ simple ard ird f /\ (v = None -> num ard IndicatorPtr <> 0).

(** The buffers, and the variables for lengths and indicators. *)
Definition data_area (i : nat) (x : Z) : Prop :=
  exists ard a, Records da !! i = Some ard /\ is_bound ard /\ data_place ard = Some a /\ span a (bound_type ard).2 x.
Definition variable (ard : MADB_DescRecord) (a : Z) : Prop := place (num ard OctetLengthPtr) 8 = Some a \/ place (num ard IndicatorPtr) 8 = Some a.
Definition variable_area (i : nat) (x : Z) : Prop :=
  exists ard a, Records da !! i = Some ard /\ is_bound ard /\ variable ard a /\ span a 8 x.

(** All of them are memory of the application, and apart from each other; length and indicator
    of a column may be one variable. *)
Record memory_ready (m : memory) : Prop := {
  mr_data : forall i x, data_area i x -> is_Some (m !! x);
  mr_vars : forall i x, variable_area i x -> is_Some (m !! x);
}.
Record areas_apart : Prop := {
  ap_data : forall i j x, data_area i x -> data_area j x -> i = j;
  ap_vars : forall i j x, variable_area i x -> variable_area j x -> i = j;
  ap_both : forall i j x, data_area i x -> variable_area j x -> False;
  ap_own : forall i ard a b x, Records da !! i = Some ard -> is_bound ard -> variable ard a -> variable ard b -> span a 8 x -> span b 8 x -> a = b;
}.

Context (HS : row_setting) (HC : columns_ok) (HA : areas_apart).

Record at_row (m : memory) (s : row_state) : Prop := {
  ar_world : rs_world s = w;
  ar_ard : rs_Ard s = ha;
  ar_ird : rs_Ird s = hi;
  ar_memory : rs_memory s = m;
  ar_result : length (rs_result s) = n;
}.

Lemma column_at i : (i < n)%nat -> exists ard ird f v, column i ard ird f v.
Proof.
  intros Hi. destruct HS as [_ _ H1 H2 _ _ H3].
  destruct (lookup_lt_is_Some_2 (Records da) i) as [ard ?]; [lia|]. destruct (lookup_lt_is_Some_2 (Records di) i) as [ird ?]; [lia|].
  destruct (lookup_lt_is_Some_2 (rc_fields c) i) as [f ?]; [lia|]. destruct (lookup_lt_is_Some_2 row i) as [v ?]; [lia|]. by exists ard, ird, f, v.
Qed.

Lemma column_lt i ard ird f v : column i ard ird f v -> (i < n)%nat.
Proof. intros [_ _ H _]. exact (lookup_lt_Some _ _ _ H). Qed.

Lemma place_spec m p size : bound_at m (Header da) (ptr p) N size = Some (place p size).
Proof. unfold bound_at, place. destruct (ptr p); [|done]. rewrite (st_offset HS), Z.eqb_refl. done. Qed.

Lemma place_some p size : p <> 0 -> is_Some (place p size).
Proof. intros H. unfold place, ptr. rewrite (proj2 (Z.eqb_neq _ _) H). cbn. by eexists. Qed.

Lemma with_world_same m s : at_row m s -> with_world s w = s.
Proof. intros [<- _ _ _ _]. by destruct s. Qed.

Lemma ard_read m s i ard ird f v : at_row m s -> column i ard ird f v -> ard_record s i = Some (s, Some ard).
Proof.
  intros Ha Hc. pose proof (column_lt _ _ _ _ _ Hc) as Hi. pose proof Ha as [Ew Ea _ _ _]. destruct HS as [H1 _ H3 _ [H4 _] _ _]. unfold ard_record.
  rewrite Ew, Ea, (read_existing _ _ _ da) by (done || lia). cbn [mbind option_bind]. rewrite (get_record_at _ _ da) by (done || lia).
  rewrite Nat2Z.id, (cl_ard _ _ _ _ _ Hc). cbn [mbind option_bind]. by rewrite (with_world_same m).
Qed.

Lemma ird_read m s i ard ird f v : at_row m s -> column i ard ird f v -> ird_record s i = Some (s, ird).
Proof.
  intros Ha Hc. pose proof (column_lt _ _ _ _ _ Hc) as Hi. pose proof Ha as [Ew _ Ei _ _]. destruct HS as [_ H1 _ H3 [_ H4] _ _]. unfold ird_record.
  rewrite Ew, Ei, (read_existing _ _ _ di) by (done || lia). cbn [mbind option_bind]. rewrite (get_record_at _ _ di) by (done || lia).
  rewrite Nat2Z.id, (cl_ird _ _ _ _ _ Hc). cbn [mbind option_bind]. by rewrite (with_world_same m).
Qed.

Lemma header_read m s : at_row m s -> ard_header s = Some (Header da).
Proof. intros [E1 E2 _ _ _]. unfold ard_header. by rewrite E1, E2, (st_ard HS). Qed.

(** *** Preparing *)

Definition prepared (ard : MADB_DescRecord) (b : col_bind) : col_bind :=
  if num ard inUse =? 0 then set_dummy b true
  else match data_place ard with Some a => simple_bind b a ard | None => set_dummy b true end.

Lemma prepare_one m s i ard ird f v b : at_row m s -> column i ard ird f v -> rs_result s !! i = Some b ->
  prepare_column c N i s = Some (None, with_result s i (prepared ard b)).
Proof.
  intros Ha Hc Hb. unfold prepare_column, prepared. rewrite Hb, (cl_field _ _ _ _ _ Hc). cbn [mbind option_bind].
  rewrite (ard_read _ _ _ _ _ _ _ Ha Hc). cbn [mbind option_bind]. destruct (Z.eqb_spec (num ard inUse) 0) as [|Hu]; [done|].
  rewrite (header_read _ _ Ha). cbn [mbind option_bind]. rewrite place_spec. cbn [mbind option_bind]. unfold data_place.
  destruct (HC _ _ _ _ _ Hc Hu) as (Hd & Hs & _). destruct (place_some (num ard DataPtr) (num ard OctetLength) Hd) as [a ->].
  rewrite (ird_read _ _ _ _ _ _ _ Ha Hc). cbn [mbind option_bind]. by rewrite bind_simple with (1 := Hs).
Qed.

Lemma prepare_pass m k : forall i s, at_row m s -> (i + k = n)%nat -> exists s', prepare_loop c N k i s = Some (SQL_SUCCESS, s') /\ at_row m s' /\
  rs_Error s' = rs_Error s /\ (forall j, (j < i)%nat -> rs_result s' !! j = rs_result s !! j) /\
  (forall j ard ird f v, (i <= j)%nat -> column j ard ird f v -> exists b, rs_result s' !! j = Some (prepared ard b)).
Proof.
  induction k as [|k IH]; intros i s Ha Hk.
  - exists s. split_and!; try done. intros j ard ird f v Hj Hc%column_lt. lia.
  - destruct (column_at i) as (ard & ird & f & v & Hc); [lia|]. destruct (lookup_lt_is_Some_2 (rs_result s) i) as [b Hb]; [rewrite (ar_result _ _ Ha); lia|].
    cbn [prepare_loop]. rewrite (prepare_one _ _ _ _ _ _ _ _ Ha Hc Hb). cbn [mbind option_bind].
    destruct (IH (S i) (with_result s i (prepared ard b))) as (s' & -> & Ha' & E & F & G); [|lia|].
    { destruct Ha as [A1 A2 A3 A4 A5]. split; try done. cbn. by rewrite length_insert. }
    exists s'. split_and!; try done.
    + intros j Hj. rewrite F by lia. cbn. by rewrite list_lookup_insert_ne by lia.
    + intros j ard' ird' f' v' Hj Hc'. destruct (decide (j = i)) as [->|]; [|apply (G j ard' ird' f' v'); [lia|done]].
      exists b. rewrite F by lia. destruct Hc, Hc'. simplify_eq. cbn. rewrite list_lookup_insert_eq; [done|]. rewrite (ar_result _ _ Ha). lia.
Qed.

(** *** Fetching *)

(** The value of a column is in its buffer. *)
Definition in_buffer (m : memory) (i : nat) : Prop := forall ard ird f x a, column i ard ird f (Some x) -> is_bound ard -> data_place ard = Some a ->
  exists img len err, column_image ard x = Some (img, len, err) /\ peek (length img) m a = Some img.

Lemma in_buffer_kept F m m' i : kept_outside F m m' -> (forall x, data_area i x -> ~ F x) -> in_buffer m i -> in_buffer m' i.
Proof.
  intros HK HF H ard ird f x a Hc Hu Hd. destruct (H ard ird f x a Hc Hu Hd) as (img & len & err & E & P).
  exists img, len, err. split; [done|]. rewrite <- P. eapply peek_kept; [exact HK|]. intros y Hy. apply HF.
  destruct (HC _ _ _ _ _ Hc Hu) as (_ & Hs & _). destruct (image_fits _ _ _ _ _ _ _ Hs E) as [E1 E2].
  exists ard, a. split_and!; try done; [by apply Hc|]. unfold span in *. lia.
Qed.

(** What the client library keeps of a column. *)
Record col_fetched (ard : MADB_DescRecord) (v : option (list Z)) (r : col_bind) (o : col_out) : Prop := {
  cf_null : co_null o = bool_decide (v = None);
  cf_length : forall x, v = Some x -> is_bound ard -> exists img err, column_image ard x = Some (img, out_length r o, err);
}.

(** The code of a column. *)
Definition column_code (ard : MADB_DescRecord) (v : option (list Z)) : list Z :=
  match v with
  | Some x => if num ard inUse =? 0 then []
              else match column_image ard x with Some (_, _, err) => [if err : bool then MYSQL_DATA_TRUNCATED else SQL_SUCCESS] | None => [] end
  | None => []
  end.

Lemma prepared_dummy ard b : is_bound ard -> num ard DataPtr <> 0 -> exists a, data_place ard = Some a /\ prepared ard b = simple_bind b a ard.
Proof.
  intros Hu Hd. unfold prepared. rewrite (proj2 (Z.eqb_neq _ _) Hu). destruct (place_some (num ard DataPtr) (num ard OctetLength) Hd) as [a Ha].
  exists a. unfold data_place. by rewrite Ha.
Qed.

Lemma bind_result_flags b : cb_dummy (bind_result b).2 = cb_dummy b.
Proof. unfold bind_result. by destruct (type_length _). Qed.

Lemma fetch_one m s i ard ird f v b : at_row m s -> memory_ready m -> column i ard ird f v -> let p := prepared ard b in
  exists m' r1 o1 rc, fetch_column c f (bind_result p).1 (MkColOut (bind_result p).2 false false None) v s = Some (rc, r1, o1, with_memory s m') /\
    kept_outside (data_area i) m m' /\ in_buffer m' i /\ col_fetched ard v r1 o1 /\ option_list rc = column_code ard v.
Proof.
  intros Ha Hm Hc p. assert (s = with_memory s m) as Es by (destruct Ha as [_ _ _ <- _]; by destruct s).
  unfold fetch_column, column_code. destruct v as [x|].
  - cbn [co_bind]. rewrite bind_result_flags. destruct (Z.eqb_spec (num ard inUse) 0) as [Hu|Hu].
    + assert (cb_dummy p = true) as -> by (unfold p, prepared; by rewrite Hu). unfold store_length. cbn [co_bind].
      destruct (cb_own_length (bind_result p).2); exists m; eexists _, _, None; (split; [rewrite <- Es; reflexivity|]); (split; [apply outside_refl|]);
        (split; [intros ard' ? ? ? ? Hc' Hb; destruct Hc, Hc'; by simplify_eq|]); (split; [|done]); (split; [done|by intros ? _ Hb]).
    + destruct (HC _ _ _ _ _ Hc Hu) as (Hd & Hs & _). destruct (prepared_dummy ard b Hu Hd) as (a & Hp & Ep). fold p in Ep. rewrite Ep.
      cbn [cb_dummy simple_bind bind_to]. destruct (convert_simple c ard ird f b a x s Hs) as (img & len & err & r1 & o1 & m' & E1 & E2 & K & P & F1 & F2 & F3).
      { intros y Hy. rewrite (ar_memory _ _ Ha). apply (mr_data _ Hm i). exists ard, a. split_and!; try done. by apply Hc. }
      rewrite E2. cbn [mbind option_bind]. rewrite E1, (ar_memory _ _ Ha) in *. eexists m', r1, o1, _. split; [reflexivity|]. split_and!.
      * eapply outside_weaken; [|exact K]. intros y Hy. exists ard, a. split_and!; try done. by apply Hc.
      * intros ard' ird' f' x' a' Hc' _ Hp'. destruct Hc, Hc'. simplify_eq. eexists _, _, _. by split.
      * split; [done|]. intros ? [= <-] _. exists img, err. by rewrite F3.
      * by destruct err.
  - exists m. eexists _, _, None. split; [rewrite <- Es; reflexivity|]. split; [apply outside_refl|].
    split; [intros ? ? ? ? ? Hc'; destruct Hc, Hc'; congruence|]. split; [|done]. by split.
Qed.

(** The codes of the columns from [i] on. *)
Fixpoint codes (ards : list MADB_DescRecord) (vs : list (option (list Z))) : list Z :=
  match ards, vs with
  | ard :: ards', v :: vs' => column_code ard v ++ codes ards' vs'
  | _, _ => []
  end.

Lemma ready_kept F m m' : kept_outside F m m' -> memory_ready m -> memory_ready m'.
Proof. intros [_ K] [H1 H2]. split; intros i x Hx; apply K; [by apply (H1 i)|by apply (H2 i)]. Qed.

Lemma at_row_update m s m' i r : at_row m s -> at_row m' (with_result (with_memory s m') i r).
Proof. intros [A1 A2 A3 A4 A5]. split; try done. cbn. by rewrite length_insert. Qed.

Lemma fetch_pass k : forall i m s outs, (i + k = n)%nat -> length outs = k -> at_row m s -> memory_ready m ->
  (forall j ard ird f v, (i <= j)%nat -> column j ard ird f v -> exists b,
     rs_result s !! j = Some (bind_result (prepared ard b)).1 /\ outs !! (j - i)%nat = Some (MkColOut (bind_result (prepared ard b)).2 false false None)) ->
  exists outs' m' s', fetch_columns c i (drop i row) outs s = Some (codes (drop i (Records da)) (drop i row), outs', s') /\ at_row m' s' /\
    rs_Error s' = rs_Error s /\ length outs' = k /\ memory_ready m' /\ kept_outside (fun x => exists j, (i <= j)%nat /\ data_area j x) m m' /\
    (forall j, (j < i)%nat -> rs_result s' !! j = rs_result s !! j) /\
    (forall j ard ird f v, (i <= j)%nat -> column j ard ird f v -> in_buffer m' j /\ exists r o, rs_result s' !! j = Some r /\
       outs' !! (j - i)%nat = Some o /\ col_fetched ard v r o).
Proof.
  induction k as [|k IH]; intros i m s outs Hk Hl Ha Hm Hp.
  - destruct outs; [|done]. exists [], m, s. rewrite (drop_ge row), (drop_ge (Records da)) by (rewrite ?(st_row HS), ?(st_ards HS); lia).
    split; [done|]. split_and!; try done. intros j ard ird f v Hj Hc%column_lt. lia.
  - destruct outs as [|o outs]; [done|]. destruct (column_at i) as (ard & ird & f & v & Hc); [lia|].
    rewrite (drop_S row v) by apply Hc. rewrite (drop_S (Records da) ard) by apply Hc. cbn [fetch_columns codes].
    rewrite (cl_field _ _ _ _ _ Hc). destruct (Hp i ard ird f v ltac:(lia) Hc) as (b & E1 & E2). rewrite Nat.sub_diag in E2. injection E2 as ->.
    rewrite E1. cbn [mbind option_bind]. destruct (fetch_one m s i ard ird f v b Ha Hm Hc) as (m1 & r1 & o1 & rc & E & K & B & F & C).
    rewrite E. cbn [mbind option_bind].
    destruct (IH (S i) m1 (with_result (with_memory s m1) i r1) outs) as (outs' & m' & s' & E' & Ha' & Er & Hl' & Hm' & K' & R' & C').
    + lia.
    + cbn in Hl. lia.
    + by eapply at_row_update.
    + by eapply ready_kept.
    + intros j ard' ird' f' v' Hj Hc'. destruct (Hp j ard' ird' f' v' ltac:(lia) Hc') as (b' & G1 & G2). exists b'.
      replace (j - i)%nat with (S (j - S i)) in G2 by lia. split; [|exact G2]. cbn. by rewrite list_lookup_insert_ne by lia.
    + rewrite E'. cbn [mbind option_bind]. exists (o1 :: outs'), m', s'. split; [by rewrite <- C; destruct rc|]. split_and!; try done.
      * cbn. by f_equal.
      * eapply outside_trans; (eapply outside_weaken; [|eassumption]); cbn; [intros x Hx; by exists i|intros x (j & Hj & Hx); exists j; split; [lia|done]].
      * intros j Hj. rewrite R' by lia. cbn. by rewrite list_lookup_insert_ne by lia.
      * intros j ard' ird' f' v' Hj Hc'. destruct (decide (j = i)) as [->|Hne].
        -- split; [eapply in_buffer_kept; [exact K'| |exact B]; intros x Hx (j & Hj' & Hx'); pose proof (ap_data HA _ _ _ Hx Hx'); lia|].
           exists r1, o1. rewrite R', Nat.sub_diag by lia. destruct Hc, Hc'. simplify_eq. split_and!; try done. cbn.
           apply list_lookup_insert_eq. rewrite (ar_result _ _ Ha). lia.
        -- replace (j - i)%nat with (S (j - S i)) by lia. apply (C' j ard' ird' f' v'); [lia|done].
Qed.

(** *** Lengths and indicators *)

(** The variables of a column. *)
Definition in_variables (m : memory) (i : nat) : Prop := forall ard ird f v, column i ard ird f v -> is_bound ard ->
  match v with
  | None => forall a, place (num ard IndicatorPtr) 8 = Some a -> peek_len m a = Some SQL_NULL_DATA
  | Some x => forall a, place (num ard OctetLengthPtr) 8 = Some a -> exists img len err, column_image ard x = Some (img, len, err) /\ peek_len m a = Some (wraps 64 len)
  end.

Lemma peek_len_kept F m m' a : kept_outside F m m' -> (forall x, span a 8 x -> ~ F x) -> peek_len m' a = peek_len m a.
Proof. intros K H. unfold peek_len, peek_u. by rewrite (peek_kept F m m' a 8 K H). Qed.

Lemma in_variables_kept F m m' i : kept_outside F m m' -> (forall x, variable_area i x -> ~ F x) -> in_variables m i -> in_variables m' i.
Proof.
  intros HK HF H ard ird f v Hc Hu. specialize (H ard ird f v Hc Hu).
  assert (forall a, variable ard a -> peek_len m' a = peek_len m a) as Hv.
  { intros a Hva. eapply peek_len_kept; [exact HK|]. intros x Hx. apply HF. exists ard, a. split_and!; try done. by apply Hc. }
  destruct v as [x|]; intros a Hp; [rewrite Hv by (by left)|rewrite Hv by (by right)]; by apply H.
Qed.

Lemma poke_variable m a v : (forall x, span a 8 x -> is_Some (m !! x)) ->
  exists m', poke m a (little 8 v) = Some m' /\ kept_outside (span a 8) m m' /\ peek_len m' a = Some (wraps 64 v).
Proof.
  intros H. destruct (poke_kept m a (little 8 v)) as (m' & E & K & P); rewrite length_little in *; [exact H|].
  exists m'. split; [done|]. split; [done|]. unfold peek_len. rewrite (peek_u_poke 8 m a v m' E). cbn [fmap option_fmap option_map]. f_equal.
  unfold wraps. change (256 ^ Z.of_nat 8) with (2 ^ 64). rewrite Z.add_mod_idemp_l by lia. done.
Qed.

Lemma with_memory_same m s : at_row m s -> with_memory s m = s.
Proof. intros [_ _ _ <- _]. by destruct s. Qed.

Lemma with_result_same s i b : rs_result s !! i = Some b -> with_result s i b = s.
Proof. intros H. destruct s. unfold with_result. cbn in *. f_equal. by apply list_insert_id. Qed.

Lemma at_row_result m s i b : at_row m s -> at_row m (with_result s i b).
Proof. intros [A1 A2 A3 A4 A5]. split; try done. cbn. by rewrite length_insert. Qed.

Lemma at_row_memory m s m' : at_row m s -> at_row m' (with_memory s m').
Proof. by intros [A1 A2 A3 A4 A5]. Qed.

(** The clearing of the indicator stays in the variables of the column. *)
Lemma clear_kept m i ard : Records da !! i = Some ard -> is_bound ard -> memory_ready m ->
  exists m', clear_indicator (place (num ard OctetLengthPtr) 8) (place (num ard IndicatorPtr) 8) m = Some m' /\ kept_outside (variable_area i) m m'.
Proof.
  intros Hr Hu Hm. unfold clear_indicator. destruct (place (num ard IndicatorPtr) 8) as [a|] eqn:Ea; [|exists m; split; [done|apply outside_refl]].
  case_bool_decide; [exists m; split; [done|apply outside_refl]|].
  assert (forall x, span a 8 x -> variable_area i x) as Hv by (intros x Hx; exists ard, a; split_and!; try done; by right).
  destruct (peek_defined 8 m a) as [l El]; [intros k Hk; apply (mr_vars _ Hm i), Hv; unfold span; lia|].
  unfold peek_len, peek_u. rewrite El. cbn [fmap option_fmap option_map mbind option_bind].
  case_match; [|exists m; split; [done|apply outside_refl]].
  destruct (poke_variable m a 0) as (m' & E & K & _); [intros x Hx; by apply (mr_vars _ Hm i), Hv|].
  exists m'. split; [done|]. by eapply outside_weaken.
Qed.

(** A simple type needs no more than its length. *)
Lemma fix_simple RowNumber i hd f ard ird r o a LengthPtr IndicatorPtr s : simple ard ird f ->
  fix_value c RowNumber i hd f ard ird r o (Some a) LengthPtr IndicatorPtr s =
    (m ← put_len LengthPtr (out_length r o) (rs_memory s); Some (inr (SQL_SUCCESS, with_memory (with_result s i (next_buffer RowNumber hd ard r)) m))).
Proof.
  intros [_ _ H]. unfold fix_value. cbv zeta.
  assert (num ard ConciseType =? SQL_C_BIT = false /\
    case (num ard ConciseType) [SQL_C_TYPE_TIMESTAMP; SQL_C_TYPE_DATE; SQL_C_TYPE_TIME; SQL_C_TIMESTAMP; SQL_C_TIME; SQL_C_DATE] = false /\
    case (num ard ConciseType) [SQL_C_INTERVAL_HOUR_TO_MINUTE; SQL_C_INTERVAL_HOUR_TO_SECOND] = false /\
    (num ard ConciseType =? SQL_C_NUMERIC) = false /\ (num ard ConciseType =? SQL_C_WCHAR) = false /\
    small_number (num ard ConciseType) && MADB_BinaryFieldType (num ird ConciseType) = false) as (-> & -> & -> & -> & -> & ->).
  { destruct H as [H|(H & _ & ->)]; unfold text_type, int_type, case in H; cbn [existsb] in H;
      repeat match type of H with
      | context [?x =? ?k] => destruct (Z.eqb_spec x k) as [->|]; [rewrite ?andb_false_r; split_and!; reflexivity|]
      end; discriminate H. }
  by destruct (put_len LengthPtr (out_length r o) (rs_memory s)).
Qed.

Lemma fix_one m s i ard ird f v r o : at_row m s -> memory_ready m -> column i ard ird f v -> rs_result s !! i = Some r -> col_fetched ard v r o ->
  exists b m', fix_fetched c N i o SQL_SUCCESS s = Some (inr (SQL_SUCCESS, with_memory (with_result s i b) m')) /\
    kept_outside (variable_area i) m m' /\ in_variables m' i.
Proof.
  intros Ha Hm Hc Hr HF. unfold fix_fetched. rewrite (ard_read _ _ _ _ _ _ _ Ha Hc). cbn [mbind option_bind].
  destruct (Z.eqb_spec (num ard inUse) 0) as [Hu|Hu].
  { exists r, m. rewrite (with_result_same s i r Hr), (with_memory_same m s Ha). split; [done|]. split; [apply outside_refl|]. intros ard' ? ? ? Hc' Hb. destruct Hc, Hc'. by simplify_eq. }
  rewrite (header_read _ _ Ha). cbn [mbind option_bind]. rewrite !place_spec. cbn [mbind option_bind].
  destruct (HC _ _ _ _ _ Hc Hu) as (Hd & Hs & Hn). pose proof (cl_ard _ _ _ _ _ Hc) as Hrec.
  destruct (clear_kept m i ard Hrec Hu Hm) as (m1 & E1 & K1). rewrite (ar_memory _ _ Ha), E1. cbn [mbind option_bind].
  pose proof (at_row_memory _ _ m1 Ha) as Ha1. pose proof (ready_kept _ _ _ K1 Hm) as Hm1.
  rewrite (ird_read _ _ _ _ _ _ _ Ha1 Hc). cbn [mbind option_bind]. rewrite (cf_null _ _ _ _ HF).
  assert (forall a, variable ard a -> forall x, span a 8 x -> variable_area i x) as Hv by (intros a Hva x Hx; by exists ard, a).
  assert (forall m' a, variable ard a -> kept_outside (span a 8) m1 m' -> kept_outside (variable_area i) m m') as Hk.
  { intros m' a Hva K. eapply outside_trans; [exact K1|]. eapply outside_weaken; [|exact K]. by apply Hv. }
  destruct v as [x|]; [rewrite bool_decide_eq_false_2 by done|rewrite bool_decide_eq_true_2 by done].
  - rewrite (cl_field _ _ _ _ _ Hc). cbn [mbind option_bind with_memory rs_result]. rewrite Hr. cbn [mbind option_bind].
    destruct (place_some (num ard DataPtr) (num ard OctetLength) Hd) as [a Hpa]. rewrite Hpa, (fix_simple _ _ _ _ _ _ _ _ _ _ _ _ Hs).
    destruct (cf_length _ _ _ _ HF x eq_refl Hu) as (img & err & Ei). cbn [with_memory rs_memory].
    destruct (place (num ard OctetLengthPtr) 8) as [b|] eqn:Eb; cbn [put_len].
    + destruct (poke_variable m1 b (out_length r o)) as (m2 & -> & K2 & P2); [intros y Hy; apply (mr_vars _ Hm1 i), (Hv b); [by left|done]|].
      cbn [mbind option_bind]. eexists _, m2. split; [done|]. split; [eapply Hk; [by left|exact K2]|].
      intros ard' ird' f' v' Hc' _. destruct Hc, Hc'. simplify_eq. intros a' Ha'. simplify_eq. by exists img, (out_length r o), err.
    + cbn [mbind option_bind]. eexists _, m1. split; [done|]. split; [exact K1|]. intros ard' ird' f' v' Hc' _. destruct Hc, Hc'. simplify_eq. by intros ? ?; simplify_eq.
  - destruct (place_some (num ard IndicatorPtr) 8 (Hn eq_refl)) as [b Eb]. rewrite Eb.
    destruct (poke_variable m1 b SQL_NULL_DATA) as (m2 & E2 & K2 & P2); [intros y Hy; apply (mr_vars _ Hm1 i), (Hv b); [by right|done]|].
    cbn [with_memory rs_memory]. rewrite E2. cbn [mbind option_bind]. exists r, m2. rewrite (with_result_same s i r Hr). split; [done|]. split; [eapply Hk; [by right|exact K2]|].
    intros ard' ird' f' v' Hc' _. destruct Hc, Hc'. simplify_eq. intros a' Ha'. simplify_eq. exact P2.
Qed.

Lemma fix_pass k : forall i m s outs, (i + k = n)%nat -> length outs = k -> at_row m s -> memory_ready m ->
  (forall j ard ird f v, (i <= j)%nat -> column j ard ird f v -> exists r o, rs_result s !! j = Some r /\ outs !! (j - i)%nat = Some o /\ col_fetched ard v r o) ->
  exists s' m', fix_loop c N i outs SQL_SUCCESS s = Some (SQL_SUCCESS, s') /\ at_row m' s' /\ rs_Error s' = rs_Error s /\
    kept_outside (fun x => exists j, (i <= j)%nat /\ variable_area j x) m m' /\ (forall j, (i <= j)%nat -> in_variables m' j).
Proof.
  induction k as [|k IH]; intros i m s outs Hk Hl Ha Hm Hp.
  - destruct outs; [|done]. exists s, m. cbn [fix_loop]. do 3 (split; [done|]). split; [apply outside_refl|].
    intros j Hj ard ird f v Hc%column_lt. lia.
  - destruct outs as [|o outs]; [done|]. destruct (column_at i) as (ard & ird & f & v & Hc); [lia|].
    destruct (Hp i ard ird f v ltac:(lia) Hc) as (r & o' & E1 & E2 & HF). rewrite Nat.sub_diag in E2. injection E2 as <-. cbn [fix_loop].
    destruct (fix_one m s i ard ird f v r o Ha Hm Hc E1 HF) as (b & m1 & -> & K1 & V1). cbn [mbind option_bind].
    destruct (IH (S i) m1 (with_memory (with_result s i b) m1) outs) as (s' & m' & -> & Ha' & Er' & K2 & V2).
    + lia.
    + cbn in Hl. lia.
    + apply (at_row_memory m). by apply at_row_result.
    + by eapply ready_kept.
    + intros j ard' ird' f' v' Hj Hc'. destruct (Hp j ard' ird' f' v' ltac:(lia) Hc') as (r' & o'' & G1 & G2 & G3). exists r', o''.
      replace (j - i)%nat with (S (j - S i)) in G2 by lia. cbn. rewrite list_lookup_insert_ne by lia. by split_and!.
    + exists s', m'. split; [done|]. split; [done|]. split; [by rewrite Er'|]. split.
      * eapply outside_trans; (eapply outside_weaken; [|eassumption]); cbn; [intros x Hx; by exists i|intros x (j & Hj & Hx); exists j; split; [lia|done]].
      * intros j Hj. destruct (decide (j = i)) as [->|]; [|apply V2; lia].
        eapply in_variables_kept; [exact K2| |exact V1]. intros x Hx (j & Hj' & Hx'). pose proof (ap_vars HA _ _ _ Hx Hx'). lia.
Qed.

Lemma code_cases ard v : Forall (fun x => x = MYSQL_DATA_TRUNCATED \/ x = SQL_SUCCESS) (column_code ard v).
Proof.
  unfold column_code. destruct v as [x|]; [|constructor]. destruct (_ =? 0); [constructor|]. destruct (column_image ard x) as [[[? ?] []]|]; repeat constructor; by (left + right).
Qed.
Lemma codes_cases : forall ards vs, Forall (fun x => x = MYSQL_DATA_TRUNCATED \/ x = SQL_SUCCESS) (codes ards vs).
Proof. induction ards as [|ard ards IH]; intros [|v vs]; cbn [codes]; try constructor. apply Forall_app. split; [apply code_cases|apply IH]. Qed.

Lemma fields_rc_codes l : Forall (fun x => x = MYSQL_DATA_TRUNCATED \/ x = SQL_SUCCESS) l -> forall rc, rc = MYSQL_DATA_TRUNCATED \/ rc = SQL_SUCCESS ->
  Cursor.fields_rc rc l = if bool_decide (MYSQL_DATA_TRUNCATED ∈ rc :: l) then MYSQL_DATA_TRUNCATED else SQL_SUCCESS.
Proof.
  induction 1 as [|x l Hx HF IH]; intros rc Hrc.
  - cbn [Cursor.fields_rc]. destruct Hrc as [-> | ->]; [rewrite bool_decide_eq_true_2 by left; done|]. by rewrite bool_decide_eq_false_2 by (by intros ?%list_elem_of_singleton).
  - cbn [Cursor.fields_rc]. rewrite IH by (destruct Hx as [-> | ->], Hrc as [-> | ->]; cbn; auto).
    erewrite bool_decide_ext; [reflexivity|]. rewrite !elem_of_cons. destruct Hx as [-> | ->], Hrc as [-> | ->]; cbn; naive_solver.
Qed.

Lemma whole_row m s : at_row m s -> memory_ready m ->
  exists fetched outs s' m', row_columns c N row s = Some (inr (fetched, SQL_SUCCESS, outs, s')) /\ at_row m' s' /\ rs_Error s' = rs_Error s /\
    fetched = (if bool_decide (MYSQL_DATA_TRUNCATED ∈ codes (Records da) row) then MYSQL_DATA_TRUNCATED else SQL_SUCCESS) /\
    kept_outside (fun x => exists i, data_area i x \/ variable_area i x) m m' /\ forall i, in_buffer m' i /\ in_variables m' i.
Proof.
  intros Ha Hm. unfold row_columns, MADB_PrepareBind. destruct (prepare_pass m n 0 s Ha) as (s1 & -> & Ha1 & Er & _ & P1); [lia|].
  cbn [mbind option_bind]. change (negb (SQL_SUCCEEDED SQL_SUCCESS)) with false. cbv iota. unfold mysql_stmt_bind_result.
  set (s2 := MkRowState _ _ _ _ _ _). set (outs := map _ _). assert (at_row m s2) as Ha2.
  { destruct Ha1 as [A1 A2 A3 A4 A5]. split; try done. cbn. by rewrite length_map. }
  destruct (fetch_pass n 0 m s2 outs) as (outs' & m1 & s3 & E3 & Ha3 & Er3 & Hl3 & Hm3 & K3 & _ & F3); [lia| |done|done| |].
  { subst outs. rewrite length_map. apply Ha1. }
  { intros j ard ird f v _ Hc. destruct (P1 j ard ird f v ltac:(lia) Hc) as (b & Eb). exists b. rewrite Nat.sub_0_r. subst s2 outs. cbn [rs_result].
    rewrite !list_lookup_fmap, Eb. done. }
  rewrite drop_0, !drop_0 in E3. unfold MADB_FetchCsps_row. rewrite E3. cbn [mbind option_bind]. unfold MADB_FixFetchedValues.
  destruct (fix_pass n 0 m1 s3 outs') as (s4 & m' & -> & Ha4 & Er4 & K4 & V4); [lia|done|done|done| |].
  { intros j ard ird f v Hj Hc. destruct (F3 j ard ird f v Hj Hc) as (_ & r & o & H1 & H2 & H3). by exists r, o. }
  cbn [mbind option_bind]. eexists _, outs', _, m'. split; [reflexivity|]. split; [done|]. split; [by rewrite Er4, Er3|]. split_and!.
  - rewrite fields_rc_codes by (apply codes_cases || (by right)). erewrite bool_decide_ext; [reflexivity|]. rewrite elem_of_cons. naive_solver.
  - eapply outside_trans; (eapply outside_weaken; [|eassumption]); cbn; intros x (j & _ & Hx); exists j; auto.
  - intros i. split; [|apply V4; lia]. destruct (decide (i < n)%nat) as [Hi|Hi].
    + destruct (column_at i Hi) as (ard & ird & f & v & Hc). destruct (F3 i ard ird f v ltac:(lia) Hc) as (HB & _).
      eapply in_buffer_kept; [exact K4| |exact HB]. intros x Hx (j & _ & Hx'). by eapply (ap_both HA).
    + intros ard ird f x a Hc%column_lt. lia.
Qed.

End Row.

(** ** What the application is promised *)

(** The integer types of C: bits, and whether unsigned. *)
Definition c_integer (t : Z) : option (Z * bool) :=
  if case t [SQL_C_TINYINT; SQL_C_STINYINT] then Some (8, false) else if t =? SQL_C_UTINYINT then Some (8, true)
  else if case t [SQL_C_SHORT; SQL_C_SSHORT] then Some (16, false) else if t =? SQL_C_USHORT then Some (16, true)
  else if case t [SQL_C_LONG; SQL_C_SLONG] then Some (32, false) else if t =? SQL_C_ULONG then Some (32, true)
  else if t =? SQL_C_SBIGINT then Some (64, false) else if t =? SQL_C_UBIGINT then Some (64, true)
  else None.

(** What the value [x] of a column leaves: the bytes at the start of the buffer, the length,
    and whether truncation is reported.  A text or binary value: as much of it as the
    buffer has room for, the length of the whole value, reported when it is longer than the buffer.
    An integer: the little-endian bytes of the number ([int_delivered] says which number
    and when it is reported), and the size of the type. *)
Inductive delivers (ard : MADB_DescRecord) (x : list Z) : list Z -> Z -> bool -> Prop :=
| delivers_text : text_type (num ard ConciseType) = true ->
    delivers ard x (text_image (Z.to_nat (num ard OctetLength)) x) (Z.of_nat (length x)) (Z.to_nat (num ard OctetLength) <? length x)%nat
| delivers_integer w u z v err : c_integer (num ard ConciseType) = Some (w, u) -> x = dec z -> int_delivered w u z v err ->
    delivers ard x (little (Z.to_nat (w / 8)) v) (w / 8) err.

Lemma dec_inj z z' : dec z = dec z' -> z = z'.
Proof. intros E. apply (f_equal scan_int) in E. rewrite !scan_whole in E. injection E as E1 E2. destruct (Z.ltb_spec z 0), (Z.ltb_spec z' 0); (done || lia). Qed.

Lemma int_delivered_flag w u z v err v' err' : int_delivered w u z v err -> int_delivered w u z v' err' -> err = err'.
Proof. intros [] []; done || congruence. Qed.

Lemma c_integer_bound ard w u : c_integer (num ard ConciseType) = Some (w, u) ->
  text_type (num ard ConciseType) = false /\ int_width (bound_type ard).1 = Some w /\ bound_unsigned ard = u.
Proof.
  unfold c_integer, bound_type, bound_unsigned, text_type, case. cbn [existsb]. intros H.
  repeat match type of H with
  | context [?x =? ?k] => destruct (Z.eqb_spec x k) as [E|]; [rewrite ?E in *; cbn in H; injection H as <- <-; by vm_compute|cbn [orb] in H]
  end. discriminate H.
Qed.

Lemma int_type_integer ard : int_type (num ard ConciseType) = true -> exists w u, c_integer (num ard ConciseType) = Some (w, u).
Proof.
  unfold c_integer, int_type, case. cbn [existsb]. intros H.
  repeat match type of H with
  | context [?x =? ?k] => destruct (Z.eqb_spec x k) as [E|]; [rewrite ?E; eexists _, _; vm_compute; reflexivity|cbn [orb] in H]
  end. discriminate H.
Qed.

(** The image of a value is what is promised. *)
Lemma image_delivers ard ird f x img len err : simple ard ird f -> (int_type (num ard ConciseType) = true -> exists z, x = dec z) ->
  column_image ard x = Some (img, len, err) -> delivers ard x img len err.
Proof.
  intros [_ _ Ht] Hz. unfold column_image. destruct (text_type (num ard ConciseType)) eqn:Et; [intros [= <- <- <-]; by apply delivers_text|].
  destruct Ht as [|(Hi & _)]; [done|]. destruct (Hz Hi) as [z ->]. destruct (int_type_integer ard Hi) as (w & u & Ec).
  destruct (c_integer_bound ard w u Ec) as (_ & Hw & Hu). rewrite Hu.
  destruct (ConvertCharToInteger_delivers _ u w z Hw) as (r & -> & HD & _ & Hl). cbn [mbind option_bind]. intros [= <- <- <-]. rewrite Hl.
  by apply (delivers_integer ard (dec z) w u z).
Qed.

Lemma delivers_flag ard x img len err img' len' err' : delivers ard x img len err -> delivers ard x img' len' err' -> err = err'.
Proof.
  intros H1 H2. destruct H1 as [T1|w u z v err C1 E1 D1], H2 as [T2|w' u' z' v' err' C2 E2 D2]; [done|..].
  - destruct (c_integer_bound _ _ _ C2). congruence.
  - destruct (c_integer_bound _ _ _ C1). congruence.
  - rewrite C1 in C2. injection C2 as <- <-. assert (z = z') as <- by (apply dec_inj; congruence). by eapply int_delivered_flag.
Qed.

Lemma codes_truncated : forall ards vs, MYSQL_DATA_TRUNCATED ∈ codes ards vs <->
  exists i ard x img len, ards !! i = Some ard /\ vs !! i = Some (Some x) /\ is_bound ard /\ column_image ard x = Some (img, len, true).
Proof.
  induction ards as [|ard ards IH]; intros [|v vs]; cbn [codes].
  1-3: split; [by intros ?%elem_of_nil|]; intros ([|i] & ? & ? & ? & ? & H1 & H2 & _); done.
  rewrite elem_of_app, IH. split.
  - intros [H|(i & H)]; [|by exists (S i)]. unfold column_code in H. destruct v as [x|]; [|by apply elem_of_nil in H].
    destruct (Z.eqb_spec (num ard inUse) 0); [by apply elem_of_nil in H|]. destruct (column_image ard x) as [[[img len] err]|] eqn:E; [|by apply elem_of_nil in H].
    apply list_elem_of_singleton in H. destruct err; [|done]. by exists 0%nat, ard, x, img, len.
  - intros ([|i] & ard' & x & img & len & H1 & H2 & H3 & H4); [left|right; by exists i, ard', x, img, len].
    injection H1 as <-. injection H2 as ->. unfold column_code. rewrite (proj2 (Z.eqb_neq _ _) H3), H4. by left.
Qed.

(** The values of columns bound as integers are decimal texts. *)
Definition integers_decimal (c : row_config) (da di : MADB_Desc) (row : list (option (list Z))) : Prop :=
  forall i ard ird f x, column c da di row i ard ird f (Some x) -> is_bound ard -> int_type (num ard ConciseType) = true -> exists z, x = dec z.

(** C9. A row of the result in the application's memory.  The columns of a row are fetched into
    the buffers bound for it, as text, binary data or integers, in memory of the application
    that is apart; there is an indicator where the value is NULL, and the integers come
    as decimal texts.  Then every bound column is delivered ([delivers]): a text or binary value as far as
    it fits, with the length of the whole value, followed by a NUL if there is room behind it; an integer in
    the range of its type exactly; or the indicator says NULL.  No other memory is changed.
    The fetch reports truncation exactly when a text is longer than its buffer or an integer is out of range
    and not one of those that are stored silently ([passes_silently]: the 64-bit types, where the nearest limit is
    stored, and unsigned types with a number just above -2^64); the conversions report success. *)
Theorem row_delivered c w ha hi da di N row m s : row_setting c w ha hi da di row -> columns_ok c da di row -> integers_decimal c da di row ->
  areas_apart da N -> at_row c w ha hi m s -> memory_ready da N m ->
  exists fetched outs s' m', row_columns c N row s = Some (inr (fetched, SQL_SUCCESS, outs, s')) /\ rs_memory s' = m' /\
    rs_world s' = w /\ rs_Error s' = rs_Error s /\
    kept_outside (fun x => exists i, data_area da N i x \/ variable_area da N i x) m m' /\
    (forall i ard ird f v, column c da di row i ard ird f v -> is_bound ard ->
      match v with
      | None => forall a, place da N (num ard IndicatorPtr) 8 = Some a -> peek_len m' a = Some SQL_NULL_DATA
      | Some x => exists a img len err, data_place da N ard = Some a /\ delivers ard x img len err /\ peek (length img) m' a = Some img /\
          forall b, place da N (num ard OctetLengthPtr) 8 = Some b -> peek_len m' b = Some (wraps 64 len)
      end) /\
    (fetched = MYSQL_DATA_TRUNCATED \/ fetched = SQL_SUCCESS) /\
    (fetched = MYSQL_DATA_TRUNCATED <->
      exists i ard ird f x img len, column c da di row i ard ird f (Some x) /\ is_bound ard /\ delivers ard x img len true).
Proof.
  intros HS HC HI HA Ha Hm.
  destruct (whole_row c w ha hi da di N row HS HC HA m s Ha Hm) as (fetched & outs & s' & m' & E & [A1 _ _ A4 _] & Er & Ef & K & HV).
  assert (forall i ard ird f x img len err, column c da di row i ard ird f (Some x) -> is_bound ard -> column_image ard x = Some (img, len, err) ->
    delivers ard x img len err) as HD.
  { intros i ard ird f x img len err Hc Hu. destruct (HC _ _ _ _ _ Hc Hu) as (_ & Hs & _). apply (image_delivers ard ird f); eauto. }
  exists fetched, outs, s', m'. do 5 (split; [done|]). split_and!.
  - intros i ard ird f v Hc Hu. destruct (HV i) as [HB HVar]. destruct v as [x|]; [|exact (HVar ard ird f None Hc Hu)].
    destruct (HC _ _ _ _ _ Hc Hu) as (Hp & _). destruct (place_some da N (num ard DataPtr) (num ard OctetLength) Hp) as [a Hpl].
    destruct (HB ard ird f x a Hc Hu Hpl) as (img & len & err & EI & P). exists a, img, len, err. split; [done|]. split; [by eapply HD|]. split; [done|].
    intros b Hb. destruct (HVar ard ird f (Some x) Hc Hu b Hb) as (img' & len' & err' & EI' & P'). congruence.
  - subst fetched. case_bool_decide; auto.
  - subst fetched. case_bool_decide as Hin.
    + split; [intros _|done]. apply codes_truncated in Hin as (i & ard & x & img & len & H1 & H2 & H3 & H4).
      destruct (column_at c w ha hi da di row HS i) as (ard' & ird & f & v & Hc); [rewrite <- (st_row _ _ _ _ _ _ _ HS); by eapply lookup_lt_Some|].
      pose proof Hc as [C1 _ _ C4]. simplify_eq. exists i, ard, ird, f, x, img, len. split_and!; [done|done|by eapply HD].
    + split; [done|]. intros (i & ard & ird & f & x & img & len & Hc & Hu & H). exfalso. apply Hin. apply codes_truncated.
      destruct (HC _ _ _ _ _ Hc Hu) as (Hp & _). destruct (place_some da N (num ard DataPtr) (num ard OctetLength) Hp) as [a Hpl].
      destruct (HV i) as [HB _]. destruct (HB ard ird f x a Hc Hu Hpl) as (img' & len' & err' & EI & _).
      assert (err' = true) as -> by (symmetry; eapply delivers_flag; [exact H|by eapply HD]).
      exists i, ard, x, img', len'. split_and!; try done; apply Hc.
Qed.

(** ** Examples *)

(** A record of the application: type, address, size, and one variable for length and indicator. *)
Definition app_record (type data octets var : Z) : MADB_DescRecord :=
  set_num (set_num (set_num (set_num (set_num (set_num (set_num zero_record ConciseType type) Type_ type) DataPtr data) OctetLength octets)
    OctetLengthPtr var) IndicatorPtr var) inUse 1.
Definition ird_of (type : Z) : MADB_DescRecord := set_num (set_num zero_record ConciseType type) OctetLength 20.
Definition with_columns (type : Z) (rs : list MADB_DescRecord) : MADB_Desc :=
  MkDesc (MkHeader 0 1 0 0 0 (Z.of_nat (length rs)) 0) type false rs [] ErrorProps.zero_error.
Definition get_sample : get_config :=
  MkGetConfig true (MkDateS 2024 5 17) Mbstr.utf8_cs inr Wide.CharOctetLen16 (Some (Native (chars "00000") [] 0)) (replicate 100 0) SQL_UB_OFF 0.
Definition row_sample (fields : list row_field) : row_config := MkRowConfig get_sample (fun _ _ => []) (fun _ => zero_time) fields.
Definition memory_sample : memory := list_to_map ((fun i => (1000 + Z.of_nat i, 7)) <$> seq 0 100).
Definition state_sample (ards irds : list MADB_DescRecord) : row_state :=
  MkRowState (MkWorld (<[2%positive := with_columns MADB_DESC_IRD irds]> {[1%positive := with_columns MADB_DESC_ARD ards]}) ∅ [] ∅) 1 2
    memory_sample (replicate (length ards) zero_bind) ErrorProps.zero_error.

Definition ards_sample : list MADB_DescRecord :=
  [app_record SQL_C_CHAR 1000 10 1016; app_record SQL_C_SLONG 1032 4 1040; app_record SQL_C_CHAR 1056 8 1064].
Definition irds_sample : list MADB_DescRecord := [ird_of SQL_VARCHAR; ird_of SQL_INTEGER; ird_of SQL_VARCHAR].
Definition fields_sample : list row_field := [MkRowField MYSQL_TYPE_VAR_STRING 20; MkRowField MYSQL_TYPE_LONG 11; MkRowField MYSQL_TYPE_VAR_STRING 20].
Definition values_sample : list (option (list Z)) := [Some (chars "singlestore"); Some (chars "-5"); None].

Lemma sample_mapped x : 1000 <= x < 1100 -> is_Some (memory_sample !! x).
Proof.
  intros Hx. assert (Forall (fun y => is_Some (memory_sample !! y)) (seqZ 1000 100)) as HF by (apply (bool_decide_eq_true_1 _); vm_compute; reflexivity).
  rewrite Forall_forall in HF. apply HF, elem_of_seqZ. lia.
Qed.
Lemma sample_data i x : data_area (with_columns MADB_DESC_ARD ards_sample) 0 i x ->
  (i = 0%nat /\ 1000 <= x < 1010) \/ (i = 1%nat /\ 1032 <= x < 1036) \/ (i = 2%nat /\ 1056 <= x < 1064).
Proof.
  intros (ard & a & H1 & _ & H2 & H3). unfold span in H3. destruct i as [|[|[|]]]; cbn in H1; try discriminate; injection H1 as <-;
    vm_compute in H2; injection H2 as <-.
  - change (bound_type _).2 with 10 in H3. left. split; [done|lia].
  - change (bound_type _).2 with 4 in H3. right. left. split; [done|lia].
  - change (bound_type _).2 with 8 in H3. right. right. split; [done|lia].
Qed.
Lemma sample_variable i ard a : Records (with_columns MADB_DESC_ARD ards_sample) !! i = Some ard -> variable (with_columns MADB_DESC_ARD ards_sample) 0 ard a ->
  (i = 0%nat /\ a = 1016) \/ (i = 1%nat /\ a = 1040) \/ (i = 2%nat /\ a = 1064).
Proof.
  intros H1 H2. destruct i as [|[|[|]]]; cbn in H1; try discriminate; injection H1 as <-; destruct H2 as [H2|H2]; vm_compute in H2; injection H2 as <-; auto.
Qed.
Lemma sample_apart : areas_apart (with_columns MADB_DESC_ARD ards_sample) 0.
Proof.
  split.
  - intros i j x H1%sample_data H2%sample_data. lia.
  - intros i j x (ard & a & H1 & _ & H2 & H3) (ard' & a' & H1' & _ & H2' & H3').
    pose proof (sample_variable _ _ _ H1 H2). pose proof (sample_variable _ _ _ H1' H2'). unfold span in *. lia.
  - intros i j x H1%sample_data (ard & a & H2 & _ & H3 & H4). pose proof (sample_variable _ _ _ H2 H3). unfold span in *. lia.
  - intros i ard a b x H1 _ H2 H3 _ _. pose proof (sample_variable _ _ _ H1 H2). pose proof (sample_variable _ _ _ H1 H3). lia.
Qed.

Lemma row_delivered_witness : exists fetched outs s' m',
  row_columns (row_sample fields_sample) 0 values_sample (state_sample ards_sample irds_sample) = Some (inr (fetched, SQL_SUCCESS, outs, s')) /\
  rs_memory s' = m' /\ fetched = MYSQL_DATA_TRUNCATED.
Proof.
  destruct (row_delivered (row_sample fields_sample) (rs_world (state_sample ards_sample irds_sample)) 1 2 (with_columns MADB_DESC_ARD ards_sample)
    (with_columns MADB_DESC_IRD irds_sample) 0 values_sample memory_sample (state_sample ards_sample irds_sample))
    as (fetched & outs & s' & m' & E & Em & _ & _ & _ & _ & _ & Ef).
  - split; try reflexivity. split; vm_compute; discriminate.
  - intros i ard ird f v [H1 H2 H3 H4] _. destruct i as [|[|[|]]]; cbn in H1, H2, H3, H4; try discriminate; injection H1 as <-; injection H2 as <-;
      injection H3 as <-; injection H4 as <-; (split; [vm_compute; discriminate|]); (split; [|vm_compute; discriminate]);
      (split; [vm_compute; split; (discriminate || reflexivity)|vm_compute; discriminate|]); [by left|right; by split_and!|by left].
  - intros i ard ird f x [H1 _ _ H4] _ Hi. destruct i as [|[|[|]]]; cbn in H1, H4; try discriminate; injection H1 as <-; injection H4 as <-;
      [discriminate Hi|exists (-5); reflexivity].
  - exact sample_apart.
  - by split.
  - split; intros i x Hx.
    + apply sample_data in Hx. apply sample_mapped. lia.
    + destruct Hx as (ard & a & H1 & _ & H2 & H3). pose proof (sample_variable _ _ _ H1 H2). apply sample_mapped. unfold span in *. lia.
  - exists fetched, outs, s', m'. split; [exact E|]. split; [exact Em|]. apply Ef.
    eexists 0%nat, _, _, _, _, _, _. split; [by split|]. split; [vm_compute; discriminate|].
    exact (delivers_text (app_record SQL_C_CHAR 1000 10 1016) (chars "singlestore") eq_refl).
Defined.

(** One column of a row: the codes, and the bytes from its buffer on. *)
Definition one_column (ard ird : MADB_DescRecord) (f : row_field) (v : string) (k : nat) : option (Z * Z * list Z * option Z * Z) :=
  match row_columns (row_sample [f]) 0 [Some (chars v)] (state_sample [ard] [ird]) with
  | Some (inr (fetched, fixed, _, s)) =>
      b ← peek k (rs_memory s) 1000; Some (fetched, fixed, b, peek_len (rs_memory s) (num ard OctetLengthPtr), ReturnValue (rs_Error s))
  | _ => None
  end.

(** A text as long as its buffer is reported as fetched and not terminated: the byte behind
    the buffer is still the old one. *)
Theorem text_not_terminated : one_column (app_record SQL_C_CHAR 1000 5 1080) (ird_of SQL_VARCHAR) (MkRowField MYSQL_TYPE_VAR_STRING 20) "hello" 6 =
  Some (SQL_SUCCESS, SQL_SUCCESS, chars "hello" ++ [7], Some 5, SQL_SUCCESS).
Proof. vm_compute. reflexivity. Qed.

(** A timestamp bound as SQL_C_DEFAULT never reaches its buffer, which is reported as filled
    with 40 bytes. *)
Theorem default_type_lost : one_column (app_record SQL_C_DEFAULT 1000 16 1080) (ird_of SQL_TYPE_TIMESTAMP) (MkRowField MYSQL_TYPE_TIMESTAMP 19)
    "2024-05-17 10:11:12" 16 = Some (SQL_SUCCESS, SQL_SUCCESS, replicate 16 7, Some sizeof_MYSQL_TIME, SQL_SUCCESS).
Proof. vm_compute. reflexivity. Qed.

(** A wide text is written behind its buffer: the size in bytes is taken for the number of
    characters, so that seven of them go into a buffer of eight bytes. *)
Theorem wide_text_overrun : one_column (app_record SQL_C_WCHAR 1000 8 1080) (ird_of SQL_VARCHAR) (MkRowField MYSQL_TYPE_VAR_STRING 20) "singles" 16 =
  Some (SQL_SUCCESS, SQL_SUCCESS, unit_bytes (chars "singles" ++ [0]), Some 14, SQL_SUCCESS).
Proof. vm_compute. reflexivity. Qed.

(** A number with too many digits for its precision is an error in the record of the
    statement only: the conversion of the row succeeds. *)
Theorem numeric_error_lost : match one_column (set_num (app_record SQL_C_NUMERIC 1000 19 1080) Precision 2) (ird_of SQL_DECIMAL)
    (MkRowField MYSQL_TYPE_NEWDECIMAL 5) "12345" 1 with Some (fetched, fixed, _, _, rc) => (fetched, fixed, rc) | None => (0, 0, 0) end =
  (SQL_SUCCESS, SQL_SUCCESS, SQL_ERROR).
Proof. vm_compute. reflexivity. Qed.

End RowFetchProps.
