(* ===== verification/CatalogText.v ===== *)
(** * CatalogText: the fixed parts of the catalog queries

    The macros of [ma_statement.h] that make the SELECT lists of SQLColumns,
    SQLProcedureColumns and SQLSpecialColumns, one definition for each, and the choice
    among them by the version of ODBC and the kind of driver.  [XSTR] writes a constant of
    the ODBC headers, which put negative numbers in parentheses. *)

From Stdlib Require Import ZArith.
From stdpp Require Import base strings list.
From S2P Require Import Prelude Decimal Odbc.

Definition SQL_PARAM_TYPE_UNKNOWN := 0.
Definition SQL_PARAM_INPUT_OUTPUT := 2.
Definition SQL_PARAM_OUTPUT := 4.
Definition SQL_RETURN_VALUE := 5.
Definition SQL_PC_UNKNOWN := 0.

Module CatalogText.

Definition XSTR (v : Z) : list Z := if v <? 0 then $"(" :: dec v ++ [$")"] else dec v.

Definition MADB_DATA_TYPE_ODBC2 : list Z :=
  chars " WHEN 'date' THEN " ++ XSTR SQL_DATE ++ chars " WHEN 'time' THEN " ++ XSTR SQL_TIME ++ chars " WHEN 'datetime' THEN " ++
  XSTR SQL_TIMESTAMP ++ chars " WHEN 'timestamp' THEN " ++ XSTR SQL_TIMESTAMP.
Definition MADB_DATA_TYPE_ODBC3 : list Z :=
  chars " WHEN 'date' THEN " ++ XSTR SQL_TYPE_DATE ++ chars " WHEN 'time' THEN " ++ XSTR SQL_TYPE_TIME ++ chars " WHEN 'datetime' THEN " ++
  XSTR SQL_TYPE_TIMESTAMP ++ chars " WHEN 'timestamp' THEN " ++ XSTR SQL_TYPE_TIMESTAMP.
Definition MADB_SQL_DATA_TYPE : list Z :=
  chars " WHEN 'date' THEN " ++ XSTR SQL_DATETIME ++ chars " WHEN 'time' THEN " ++ XSTR SQL_DATETIME ++ chars " WHEN 'datetime' THEN " ++
  XSTR SQL_DATETIME ++ chars " WHEN 'timestamp' THEN " ++ XSTR SQL_DATETIME.
Definition MADB_DATA_TYPE_UNICODE : list Z :=
  chars " WHEN 'char' THEN " ++ XSTR SQL_WCHAR ++ chars " WHEN 'varchar' THEN " ++ XSTR SQL_WVARCHAR ++ chars " WHEN 'longtext' THEN " ++
  XSTR SQL_WLONGVARCHAR ++ chars " WHEN 'mediumtext' THEN " ++ XSTR SQL_WLONGVARCHAR ++ chars " WHEN 'text' THEN " ++
  XSTR SQL_WLONGVARCHAR ++ chars " WHEN 'tinytext' THEN " ++ XSTR SQL_WLONGVARCHAR ++ chars " WHEN 'json' THEN " ++ XSTR SQL_WLONGVARCHAR ++
  chars " WHEN 'enum' THEN " ++ XSTR SQL_WVARCHAR ++ chars " WHEN 'set' THEN " ++ XSTR SQL_WVARCHAR.
Definition MADB_DATA_TYPE_ANSI : list Z :=
  chars " WHEN 'char' THEN " ++ XSTR SQL_CHAR ++ chars " WHEN 'varchar' THEN " ++ XSTR SQL_VARCHAR ++ chars " WHEN 'longtext' THEN " ++
  XSTR SQL_LONGVARCHAR ++ chars " WHEN 'mediumtext' THEN " ++ XSTR SQL_LONGVARCHAR ++ chars " WHEN 'text' THEN " ++ XSTR SQL_LONGVARCHAR ++
  chars " WHEN 'tinytext' THEN " ++ XSTR SQL_LONGVARCHAR ++ chars " WHEN 'json' THEN " ++ XSTR SQL_LONGVARCHAR ++
  chars " WHEN 'enum' THEN " ++ XSTR SQL_VARCHAR ++ chars " WHEN 'set' THEN " ++ XSTR SQL_VARCHAR.
Definition MADB_DATA_TYPE_NUMERIC : list Z :=
  chars "CASE DATA_TYPE WHEN 'bit' THEN " ++ XSTR SQL_BINARY ++ chars " WHEN 'tinyint' THEN " ++ XSTR SQL_TINYINT ++
  chars " WHEN 'smallint' THEN " ++ XSTR SQL_SMALLINT ++ chars " WHEN 'mediumint' THEN " ++ XSTR SQL_INTEGER ++ chars " WHEN 'int' THEN " ++
  XSTR SQL_INTEGER ++ chars " WHEN 'bigint' THEN " ++ XSTR SQL_BIGINT ++ chars " WHEN 'double' THEN " ++ XSTR SQL_DOUBLE ++
  chars " WHEN 'float' THEN " ++ XSTR SQL_REAL ++ chars " WHEN 'decimal' THEN " ++ XSTR SQL_DECIMAL ++ chars " WHEN 'newdecimal' THEN " ++
  XSTR SQL_DECIMAL ++ chars " WHEN 'year' THEN " ++ XSTR SQL_SMALLINT.
Definition MADB_DATA_TYPE_BINARY : list Z :=
  chars " WHEN 'binary' THEN " ++ XSTR SQL_BINARY ++ chars " WHEN 'varbinary' THEN " ++ XSTR SQL_VARBINARY ++
  chars " WHEN 'longblob' THEN " ++ XSTR SQL_LONGVARBINARY ++ chars " WHEN 'mediumblob' THEN " ++ XSTR SQL_LONGVARBINARY ++
  chars " WHEN 'blob' THEN " ++ XSTR SQL_LONGVARBINARY ++ chars " WHEN 'tinyblob' THEN " ++ XSTR SQL_LONGVARBINARY ++
  chars " WHEN 'geography' THEN " ++ XSTR SQL_VARBINARY ++ chars " WHEN 'geographypoint' THEN " ++ XSTR SQL_VARBINARY ++
  chars " END :> SMALLINT".
Definition MADB_DATA_TYPE_ODBC3A : list Z :=
  MADB_DATA_TYPE_NUMERIC ++ MADB_DATA_TYPE_ODBC3 ++ MADB_DATA_TYPE_ANSI ++ MADB_DATA_TYPE_BINARY.
Definition MADB_DATA_TYPE_ODBC3U : list Z :=
  MADB_DATA_TYPE_NUMERIC ++ MADB_DATA_TYPE_ODBC3 ++ MADB_DATA_TYPE_UNICODE ++ MADB_DATA_TYPE_BINARY.
Definition MADB_DATA_TYPE_ODBC2A : list Z :=
  MADB_DATA_TYPE_NUMERIC ++ MADB_DATA_TYPE_ODBC2 ++ MADB_DATA_TYPE_ANSI ++ MADB_DATA_TYPE_BINARY.
Definition MADB_DATA_TYPE_ODBC2U : list Z :=
  MADB_DATA_TYPE_NUMERIC ++ MADB_DATA_TYPE_ODBC2 ++ MADB_DATA_TYPE_UNICODE ++ MADB_DATA_TYPE_BINARY.
Definition MADB_COLUMNS_TYPE_NAME : list Z :=
  chars "IF (COLUMN_TYPE LIKE '%UNSIGNED%', CONCAT(DATA_TYPE, ' unsigned'), DATA_TYPE)".
Definition MADB_COLUMNS_COLUMN_SIZE : list Z :=

  chars "CASE WHEN DATA_TYPE = 'bit' THEN 1 WHEN DATA_TYPE IN ('tinyint', 'smallint', 'mediumint', 'int', 'bigint', 'decimal', 'newdecimal') THEN NUMERIC_PRECISION WHEN DATA_TYPE = 'date' THEN 10 WHEN DATA_TYPE = 'time' THEN IF(COLUMN_TYPE = 'time(6)', 15, 8) WHEN DATA_TYPE = 'datetime' THEN IF(COLUMN_TYPE = 'datetime(6)', 26, 19) WHEN DATA_TYPE = 'timestamp' THEN IF(COLUMN_TYPE = 'timestamp(6)', 26, 19) WHEN DATA_TYPE = 'year' THEN 4 WHEN DATA_TYPE = 'tinytext' THEN 255 WHEN DATA_TYPE = 'text' THEN 65535 WHEN DATA_TYPE = 'mediumtext' THEN 16777215 WHEN DATA_TYPE = 'longtext' THEN 1073741823 WHEN DATA_TYPE = 'double' THEN 15 WHEN DATA_TYPE = 'float' THEN 7 ELSE CHARACTER_MAXIMUM_LENGTH END :> INT".
Definition MADB_COLUMNS_BUFFER_LEN : list Z :=

  chars "CASE DATA_TYPE WHEN 'bit' THEN 1 WHEN 'tinyint' THEN 1 WHEN 'smallint' THEN 2 WHEN 'mediumint' THEN 3 WHEN 'int' THEN 4 WHEN 'bigint' THEN 8 WHEN 'double' THEN 8 WHEN 'float' THEN 4 WHEN 'decimal' THEN NUMERIC_PRECISION+2 WHEN 'newdecimal' THEN NUMERIC_PRECISION+2 WHEN 'date' THEN 6 WHEN 'time' THEN 6 WHEN 'datetime' THEN 16 WHEN 'timestamp' THEN 16 WHEN 'year' THEN 2 ELSE CHARACTER_OCTET_LENGTH END :> INT".
Definition MADB_COLUMNS_DECIMAL_DIGITS : list Z :=

  chars "CASE DATA_TYPE WHEN 'decimal' THEN NUMERIC_SCALE WHEN 'newdecimal' THEN NUMERIC_SCALE  WHEN 'tinyint' THEN 0 WHEN 'smallint' THEN 0 WHEN 'mediumint' THEN 0 WHEN 'int' THEN 0 WHEN 'bigint' THEN 0 WHEN 'date' THEN 0 WHEN 'time' THEN IF(COLUMN_TYPE = 'time(6)', 6, 0) WHEN 'datetime' THEN IF(COLUMN_TYPE = 'datetime(6)', 6, 0) WHEN 'timestamp' THEN IF(COLUMN_TYPE = 'timestamp(6)', 6, 0) END :> SMALLINT".
Definition MADB_COLUMNS_NUM_PREC_RADIX : list Z :=

  chars "CASE WHEN DATA_TYPE IN ('tinyint', 'smallint', 'mediumint', 'int', 'bigint', 'double', 'float', 'decimal', 'newdecimal', 'year') THEN 10 END :> SMALLINT".
Definition MADB_COLUMNS_NULLABLE : list Z :=
  chars "CASE WHEN IS_NULLABLE = 'YES' THEN " ++ XSTR SQL_NULLABLE ++ chars " ELSE " ++ XSTR SQL_NO_NULLS ++ chars " END :> SMALLINT".
Definition MADB_SQL_DATA_TYPE_ODBCA : list Z :=
  MADB_DATA_TYPE_NUMERIC ++ MADB_SQL_DATA_TYPE ++ MADB_DATA_TYPE_ANSI ++ MADB_DATA_TYPE_BINARY.
Definition MADB_SQL_DATA_TYPE_ODBCU : list Z :=
  MADB_DATA_TYPE_NUMERIC ++ MADB_SQL_DATA_TYPE ++ MADB_DATA_TYPE_UNICODE ++ MADB_DATA_TYPE_BINARY.
Definition MADB_COLUMNS_DATETIME_SUB : list Z :=
  chars "CASE WHEN DATA_TYPE = 'date' THEN " ++ XSTR SQL_CODE_DATE ++ chars " WHEN DATA_TYPE = 'time' THEN " ++ XSTR SQL_CODE_TIME ++
  chars " WHEN DATA_TYPE = 'datetime' THEN " ++ XSTR SQL_CODE_TIMESTAMP ++ chars " WHEN DATA_TYPE = 'timestamp' THEN " ++
  XSTR SQL_CODE_TIMESTAMP ++ chars " END :> SMALLINT".
Definition MADB_COLUMNSp1 : list Z :=
  chars "SELECT TABLE_SCHEMA AS TABLE_CAT, NULL AS TABLE_SCHEM, TABLE_NAME, COLUMN_NAME, ".
Definition MADB_COLUMNSp2 : list Z :=
  chars " AS DATA_TYPE, " ++ MADB_COLUMNS_TYPE_NAME ++ chars " AS TYPE_NAME, " ++ MADB_COLUMNS_COLUMN_SIZE ++ chars " AS COLUMN_SIZE, " ++
  MADB_COLUMNS_BUFFER_LEN ++ chars " AS BUFFER_LENGTH, " ++ MADB_COLUMNS_DECIMAL_DIGITS ++ chars " AS DECIMAL_DIGITS, " ++
  MADB_COLUMNS_NUM_PREC_RADIX ++ chars " AS NUM_PREC_RADIX, " ++ MADB_COLUMNS_NULLABLE ++
  chars " AS NULLABLE, NULL AS REMARKS, COLUMN_DEFAULT AS COLUMN_DEF, ".
Definition MADB_COLUMNSp3 : list Z :=
  chars " AS SQL_DATA_TYPE, " ++ MADB_COLUMNS_DATETIME_SUB ++
  chars " AS SQL_DATETIME_SUB, CHARACTER_OCTET_LENGTH :> INT AS CHAR_OCTET_LENGTH, ORDINAL_POSITION, IS_NULLABLE FROM INFORMATION_SCHEMA.COLUMNS".
Definition MADB_COLUMNS_ODBC3U : list Z :=
  MADB_COLUMNSp1 ++ MADB_DATA_TYPE_ODBC3U ++ MADB_COLUMNSp2 ++ MADB_SQL_DATA_TYPE_ODBCU ++ MADB_COLUMNSp3.
Definition MADB_COLUMNS_ODBC2U : list Z :=
  MADB_COLUMNSp1 ++ MADB_DATA_TYPE_ODBC2U ++ MADB_COLUMNSp2 ++ MADB_SQL_DATA_TYPE_ODBCU ++ MADB_COLUMNSp3.
Definition MADB_COLUMNS_ODBC3A : list Z :=
  MADB_COLUMNSp1 ++ MADB_DATA_TYPE_ODBC3A ++ MADB_COLUMNSp2 ++ MADB_SQL_DATA_TYPE_ODBCA ++ MADB_COLUMNSp3.
Definition MADB_COLUMNS_ODBC2A : list Z :=
  MADB_COLUMNSp1 ++ MADB_DATA_TYPE_ODBC2A ++ MADB_COLUMNSp2 ++ MADB_SQL_DATA_TYPE_ODBCA ++ MADB_COLUMNSp3.
Definition MADB_PROCEDURE_COLUMNS_COLUMN_TYPE : list Z :=
  chars "CASE PARAMETER_MODE   WHEN 'IN' THEN " ++ XSTR SQL_PARAM_INPUT ++ chars "  WHEN 'OUT' THEN " ++ XSTR SQL_PARAM_OUTPUT ++
  chars "  WHEN 'INOUT' THEN " ++ XSTR SQL_PARAM_INPUT_OUTPUT ++ chars "  ELSE IF(PARAMETER_MODE IS NULL, " ++ XSTR SQL_RETURN_VALUE ++
  chars ", " ++ XSTR SQL_PARAM_TYPE_UNKNOWN ++ chars ") END :> SMALLINT".
Definition MADB_PROCEDURE_COLUMNS_NULLABLE : list Z :=
  chars "CASE WHEN DTD_IDENTIFIER LIKE '%%NOT NULL%%' THEN " ++ XSTR SQL_NO_NULLS ++ chars " ELSE " ++ XSTR SQL_NULLABLE ++
  chars " END :> SMALLINT".
Definition MADB_PROCEDURE_COLUMNS_DEFAULT_VALUE : list Z :=

  chars "IF(dtd_identifier like '%%DEFAULT%%', RIGHT(dtd_identifier, LENGTH(dtd_identifier) - (REGEXP_INSTR(dtd_identifier, 'DEFAULT [^\s]+') + 7)), NULL) ".
Definition MADB_PROCEDURE_COLUMNS_COLUMN_SIZE : list Z :=

  chars "CASE WHEN DATA_TYPE = 'bit' THEN 1 WHEN DATA_TYPE IN ('tinyint', 'smallint', 'mediumint', 'int', 'bigint', 'decimal', 'newdecimal') THEN NUMERIC_PRECISION WHEN DATA_TYPE = 'date' THEN 10 WHEN DATA_TYPE = 'time' THEN IF(DTD_IDENTIFIER like '%%time(6)%%', 15, 8) WHEN DATA_TYPE = 'datetime' THEN IF(DTD_IDENTIFIER like '%%datetime(6)%%', 26, 19) WHEN DATA_TYPE = 'timestamp' THEN IF(DTD_IDENTIFIER like '%%timestamp(6)%%', 26, 19) WHEN DATA_TYPE = 'year' THEN 4 WHEN DATA_TYPE = 'tinytext' THEN 255 WHEN DATA_TYPE = 'text' THEN 65535 WHEN DATA_TYPE = 'mediumtext' THEN 16777215 WHEN DATA_TYPE = 'longtext' THEN 1073741823 WHEN DATA_TYPE = 'double' THEN 15 WHEN DATA_TYPE = 'float' THEN 7 ELSE CHARACTER_MAXIMUM_LENGTH END :> INT".
Definition MADB_PROCEDURE_COLUMNS_BUFFER_LEN : list Z :=

  chars "CASE DATA_TYPE WHEN 'bit' THEN 1 WHEN 'tinyint' THEN 1 WHEN 'smallint' THEN 2 WHEN 'mediumint' THEN 3 WHEN 'int' THEN 4 WHEN 'bigint' THEN 8 WHEN 'double' THEN 8 WHEN 'float' THEN 4 WHEN 'decimal' THEN NUMERIC_PRECISION+2 WHEN 'newdecimal' THEN NUMERIC_PRECISION+2 WHEN 'date' THEN 6 WHEN 'time' THEN 6 WHEN 'datetime' THEN 16 WHEN 'timestamp' THEN 16 WHEN 'year' THEN 2 WHEN 'longtext' THEN 1073741823 WHEN 'longblob' THEN 1073741823 ELSE CHARACTER_OCTET_LENGTH END :> INT".
Definition MADB_PROCEDURE_COLUMNS_DECIMAL_DIGITS : list Z :=

  chars "CASE DATA_TYPE WHEN 'decimal' THEN NUMERIC_SCALE WHEN 'newdecimal' THEN NUMERIC_SCALE WHEN 'tinyint' THEN 0 WHEN 'smallint' THEN 0 WHEN 'mediumint' THEN 0 WHEN 'int' THEN 0 WHEN 'bigint' THEN 0 WHEN 'date' THEN 0 WHEN 'time' THEN IF(DTD_IDENTIFIER like '%%time(6)%%', 6, 0) WHEN 'datetime' THEN IF(DTD_IDENTIFIER like '%%datetime(6)%%', 6, 0) WHEN 'timestamp' THEN IF(DTD_IDENTIFIER like '%%timestamp(6)%%', 6, 0) END :> SMALLINT".
Definition MADB_PROCEDURE_COLUMNS_TYPE_NAME : list Z :=

  chars "CASE DATA_TYPE WHEN 'char' THEN IF(DTD_IDENTIFIER LIKE '%%binary%%', 'binary', LOWER(DATA_TYPE)) WHEN 'varchar' THEN IF(DTD_IDENTIFIER LIKE '%%varbinary%%', 'varbinary', LOWER(DATA_TYPE)) WHEN 'longtext' THEN IF(DTD_IDENTIFIER LIKE '%%longblob%%', 'longblob', LOWER(DATA_TYPE)) WHEN 'mediumtext' THEN IF(DTD_IDENTIFIER LIKE '%%mediumblob%%', 'mediumblob', LOWER(DATA_TYPE)) WHEN 'text' THEN IF(DTD_IDENTIFIER LIKE '%%blob%%', 'blob', LOWER(DATA_TYPE)) WHEN 'tinytext' THEN IF(DTD_IDENTIFIER LIKE '%%tinyblob%%', 'tinyblob', LOWER(DATA_TYPE)) ELSE IF (DTD_IDENTIFIER LIKE '%%UNSIGNED%%', CONCAT(LOWER(DATA_TYPE), ' unsigned'), LOWER(DATA_TYPE)) END".
Definition MADB_PROCEDURE_COLUMNSp1 : list Z :=

  chars "SELECT SPECIFIC_SCHEMA AS PROCEDURE_CAT, NULL AS PROCEDURE_SCHEM, SPECIFIC_NAME AS PROCEDURE_NAME, IF(PARAMETER_NAME IS NULL, '', PARAMETER_NAME) AS COLUMN_NAME, " ++
  MADB_PROCEDURE_COLUMNS_COLUMN_TYPE ++ chars " AS COLUMN_TYPE,".
Definition MADB_PROCEDURE_COLUMNSp2 : list Z :=
  chars " AS DATA_TYPE, " ++ MADB_PROCEDURE_COLUMNS_TYPE_NAME ++ chars " AS TYPE_NAME, " ++ MADB_PROCEDURE_COLUMNS_COLUMN_SIZE ++
  chars " AS COLUMN_SIZE, " ++ MADB_PROCEDURE_COLUMNS_BUFFER_LEN ++ chars " AS BUFFER_LENGTH, " ++ MADB_PROCEDURE_COLUMNS_DECIMAL_DIGITS ++
  chars " AS DECIMAL_DIGITS, " ++ MADB_COLUMNS_NUM_PREC_RADIX ++ chars " AS NUM_PREC_RADIX," ++ MADB_PROCEDURE_COLUMNS_NULLABLE ++
  chars " AS NULLABLE,NULL AS REMARKS, " ++ MADB_PROCEDURE_COLUMNS_DEFAULT_VALUE ++ chars " AS COLUMN_DEF,".
Definition MADB_PROCEDURE_COLUMNSp3 : list Z :=
  chars " AS SQL_DATA_TYPE, " ++ MADB_COLUMNS_DATETIME_SUB ++
  chars " AS SQL_DATETIME_SUB, LEAST(CHARACTER_OCTET_LENGTH, 1073741823) AS CHAR_OCTET_LENGTH, ORDINAL_POSITION, IF(DTD_IDENTIFIER LIKE '%%NOT NULL%%', 'NO', 'YES') AS IS_NULLABLE FROM INFORMATION_SCHEMA.PARAMETERS ".
Definition MADB_PROCEDURE_COLUMNS_DATA_TYPE_UNICODE : list Z :=
  chars " WHEN 'char' THEN IF(DTD_IDENTIFIER LIKE '%%binary%%', " ++ XSTR SQL_BINARY ++ chars ", " ++ XSTR SQL_WCHAR ++
  chars ") WHEN 'varchar' THEN IF(DTD_IDENTIFIER LIKE '%%varbinary%%', " ++ XSTR SQL_VARBINARY ++ chars ", " ++ XSTR SQL_WVARCHAR ++
  chars ") WHEN 'longtext' THEN IF(DTD_IDENTIFIER LIKE '%%longblob%%', " ++ XSTR SQL_LONGVARBINARY ++ chars ", " ++ XSTR SQL_WLONGVARCHAR ++
  chars ") WHEN 'mediumtext' THEN IF(DTD_IDENTIFIER LIKE '%%mediumblob%%', " ++ XSTR SQL_LONGVARBINARY ++ chars ", " ++
  XSTR SQL_WLONGVARCHAR ++ chars ") WHEN 'text' THEN IF(DTD_IDENTIFIER LIKE '%%blob%%', " ++ XSTR SQL_LONGVARBINARY ++ chars ", " ++
  XSTR SQL_WLONGVARCHAR ++ chars ") WHEN 'tinytext' THEN IF(DTD_IDENTIFIER LIKE '%%tinyblob%%', " ++ XSTR SQL_LONGVARBINARY ++ chars ", " ++
  XSTR SQL_WLONGVARCHAR ++ chars ") WHEN 'json' THEN " ++ XSTR SQL_WLONGVARCHAR ++ chars " WHEN 'enum' THEN " ++ XSTR SQL_WVARCHAR ++
  chars " WHEN 'set' THEN " ++ XSTR SQL_WVARCHAR.
Definition MADB_PROCEDURE_COLUMNS_DATA_TYPE_ANSI : list Z :=
  chars " WHEN 'char' THEN IF(DTD_IDENTIFIER LIKE '%%binary%%', " ++ XSTR SQL_BINARY ++ chars ", " ++ XSTR SQL_CHAR ++
  chars ") WHEN 'varchar' THEN IF(DTD_IDENTIFIER LIKE '%%varbinary%%', " ++ XSTR SQL_VARBINARY ++ chars ", " ++ XSTR SQL_VARCHAR ++
  chars ") WHEN 'longtext' THEN IF(DTD_IDENTIFIER LIKE '%%longblob%%', " ++ XSTR SQL_LONGVARBINARY ++ chars ", " ++ XSTR SQL_LONGVARCHAR ++
  chars ") WHEN 'mediumtext' THEN IF(DTD_IDENTIFIER LIKE '%%mediumblob%%', " ++ XSTR SQL_LONGVARBINARY ++ chars ", " ++
  XSTR SQL_LONGVARCHAR ++ chars ") WHEN 'text' THEN IF(DTD_IDENTIFIER LIKE '%%blob%%', " ++ XSTR SQL_LONGVARBINARY ++ chars ", " ++
  XSTR SQL_LONGVARCHAR ++ chars ") WHEN 'tinytext' THEN IF(DTD_IDENTIFIER LIKE '%%tinyblob%%', " ++ XSTR SQL_LONGVARBINARY ++ chars ", " ++
  XSTR SQL_LONGVARCHAR ++ chars ") WHEN 'json' THEN " ++ XSTR SQL_LONGVARCHAR ++ chars " WHEN 'enum' THEN " ++ XSTR SQL_VARCHAR ++
  chars " WHEN 'set' THEN " ++ XSTR SQL_VARCHAR.
Definition MADB_PROCEDURE_COLUMNS_DATA_TYPE_ODBC3A : list Z :=
  MADB_DATA_TYPE_NUMERIC ++ MADB_DATA_TYPE_ODBC3 ++ MADB_PROCEDURE_COLUMNS_DATA_TYPE_ANSI ++ MADB_DATA_TYPE_BINARY.
Definition MADB_PROCEDURE_COLUMNS_DATA_TYPE_ODBC3U : list Z :=
  MADB_DATA_TYPE_NUMERIC ++ MADB_DATA_TYPE_ODBC3 ++ MADB_PROCEDURE_COLUMNS_DATA_TYPE_UNICODE ++ MADB_DATA_TYPE_BINARY.
Definition MADB_PROCEDURE_COLUMNS_DATA_TYPE_ODBC2A : list Z :=
  MADB_DATA_TYPE_NUMERIC ++ MADB_DATA_TYPE_ODBC2 ++ MADB_PROCEDURE_COLUMNS_DATA_TYPE_ANSI ++ MADB_DATA_TYPE_BINARY.
Definition MADB_PROCEDURE_COLUMNS_DATA_TYPE_ODBC2U : list Z :=
  MADB_DATA_TYPE_NUMERIC ++ MADB_DATA_TYPE_ODBC2 ++ MADB_PROCEDURE_COLUMNS_DATA_TYPE_UNICODE ++ MADB_DATA_TYPE_BINARY.
Definition MADB_PROCEDURE_COLUMNS_SQL_DATA_TYPE_ODBCA : list Z :=
  MADB_DATA_TYPE_NUMERIC ++ MADB_SQL_DATA_TYPE ++ MADB_PROCEDURE_COLUMNS_DATA_TYPE_ANSI ++ MADB_DATA_TYPE_BINARY.
Definition MADB_PROCEDURE_COLUMNS_SQL_DATA_TYPE_ODBCU : list Z :=
  MADB_DATA_TYPE_NUMERIC ++ MADB_SQL_DATA_TYPE ++ MADB_PROCEDURE_COLUMNS_DATA_TYPE_UNICODE ++ MADB_DATA_TYPE_BINARY.
Definition MADB_PROCEDURE_COLUMNS_ODBC3U : list Z :=
  MADB_PROCEDURE_COLUMNSp1 ++ MADB_PROCEDURE_COLUMNS_DATA_TYPE_ODBC3U ++ MADB_PROCEDURE_COLUMNSp2 ++
  MADB_PROCEDURE_COLUMNS_SQL_DATA_TYPE_ODBCU ++ MADB_PROCEDURE_COLUMNSp3.
Definition MADB_PROCEDURE_COLUMNS_ODBC2U : list Z :=
  MADB_PROCEDURE_COLUMNSp1 ++ MADB_PROCEDURE_COLUMNS_DATA_TYPE_ODBC2U ++ MADB_PROCEDURE_COLUMNSp2 ++
  MADB_PROCEDURE_COLUMNS_SQL_DATA_TYPE_ODBCU ++ MADB_PROCEDURE_COLUMNSp3.
Definition MADB_PROCEDURE_COLUMNS_ODBC3A : list Z :=
  MADB_PROCEDURE_COLUMNSp1 ++ MADB_PROCEDURE_COLUMNS_DATA_TYPE_ODBC3A ++ MADB_PROCEDURE_COLUMNSp2 ++
  MADB_PROCEDURE_COLUMNS_SQL_DATA_TYPE_ODBCA ++ MADB_PROCEDURE_COLUMNSp3.
Definition MADB_PROCEDURE_COLUMNS_ODBC2A : list Z :=
  MADB_PROCEDURE_COLUMNSp1 ++ MADB_PROCEDURE_COLUMNS_DATA_TYPE_ODBC2A ++ MADB_PROCEDURE_COLUMNSp2 ++
  MADB_PROCEDURE_COLUMNS_SQL_DATA_TYPE_ODBCA ++ MADB_PROCEDURE_COLUMNSp3.
Definition MADB_SPECIAL_COLUMNSp1 : list Z :=
  chars "SELECT NULL AS SCOPE, COLUMN_NAME, ".
Definition MADB_SPECIAL_COLUMNSp2 : list Z :=
  chars " AS DATA_TYPE, " ++ MADB_COLUMNS_TYPE_NAME ++ chars " AS TYPE_NAME, " ++ MADB_COLUMNS_COLUMN_SIZE ++ chars " AS COLUMN_SIZE, " ++
  MADB_COLUMNS_BUFFER_LEN ++ chars " AS BUFFER_LENGTH, " ++ MADB_COLUMNS_DECIMAL_DIGITS ++ chars " AS DECIMAL_DIGITS, " ++
  XSTR SQL_PC_UNKNOWN ++ chars " AS PSEUDO_COLUMN FROM INFORMATION_SCHEMA.COLUMNS".
Definition MADB_SPECIAL_COLUMNS_ODBC3U : list Z :=
  MADB_SPECIAL_COLUMNSp1 ++ MADB_DATA_TYPE_ODBC3U ++ MADB_SPECIAL_COLUMNSp2.
Definition MADB_SPECIAL_COLUMNS_ODBC3A : list Z :=
  MADB_SPECIAL_COLUMNSp1 ++ MADB_DATA_TYPE_ODBC3A ++ MADB_SPECIAL_COLUMNSp2.
Definition MADB_SPECIAL_COLUMNS_ODBC2U : list Z :=
  MADB_SPECIAL_COLUMNSp1 ++ MADB_DATA_TYPE_ODBC2U ++ MADB_SPECIAL_COLUMNSp2.
Definition MADB_SPECIAL_COLUMNS_ODBC2A : list Z :=
  MADB_SPECIAL_COLUMNSp1 ++ MADB_DATA_TYPE_ODBC2A ++ MADB_SPECIAL_COLUMNSp2.

(** The text for a connection: [odbc3] for [OdbcVersion >= SQL_OV_ODBC3]. *)
Definition by_version (odbc3 ansi : bool) (t3a t3u t2a t2u : list Z) : list Z :=
  if odbc3 then (if ansi then t3a else t3u) else (if ansi then t2a else t2u).
Definition MADB_COLUMNS (odbc3 ansi : bool) : list Z :=
  by_version odbc3 ansi MADB_COLUMNS_ODBC3A MADB_COLUMNS_ODBC3U MADB_COLUMNS_ODBC2A MADB_COLUMNS_ODBC2U.
Definition MADB_PROCEDURE_COLUMNS (odbc3 ansi : bool) : list Z :=
  by_version odbc3 ansi MADB_PROCEDURE_COLUMNS_ODBC3A MADB_PROCEDURE_COLUMNS_ODBC3U MADB_PROCEDURE_COLUMNS_ODBC2A MADB_PROCEDURE_COLUMNS_ODBC2U.
Definition MADB_SPECIAL_COLUMNS (odbc3 ansi : bool) : list Z :=
  by_version odbc3 ansi MADB_SPECIAL_COLUMNS_ODBC3A MADB_SPECIAL_COLUMNS_ODBC3U MADB_SPECIAL_COLUMNS_ODBC2A MADB_SPECIAL_COLUMNS_ODBC2U.

End CatalogText.
