(* ===== verification/Catalog.v ===== *)
(** * Catalog: the catalog functions that ask INFORMATION_SCHEMA

    Models, from [ma_statement.c], [MADB_StmtColumnPrivileges],
    [MADB_StmtTablePrivileges], [MADB_StmtTables], [MADB_StmtStatistics],
    [MADB_StmtColumns], [MADB_StmtProcedureColumns], [MADB_StmtPrimaryKeys],
    [MADB_StmtSpecialColumns], [MADB_StmtProcedures] and [MADB_StmtForeignKeys], and
    [_snprintf] of [ma_platform_posix.c].  Some build their query in an array of the
    stack with [_snprintf], some with the dynamic strings of Dynamic.v, some in a block
    of the heap; a write outside of any of them has no result.  The query is executed by
    the statement's method [ExecDirect], which is an argument (Prepare.v has the
    driver's).  A name is what its pointer points at, with the length that was given. *)

From Stdlib Require Import ZArith Lia.
From stdpp Require Import base strings numbers option list gmap.
From S2P Require Import Prelude Decimal Charset Odbc Errors Dynamic SqlTypes Desc Ird StrBuild StmtAttr Escape Params ClientLib StmtState CatalogText.
Import ErrorOps DynString Wide DescOps Escape StrBuild Params StmtState CatalogText.

Record name := MkName { nm_buf : option (list Z); nm_len : Z }.

(** [Connection->mariadb->db], and whether the environment asked for ODBC 3. *)
Record catalog_env := MkCatalogEnv { ce_db : option (list Z); ce_odbc3 : bool }.

Definition SQL_INDEX_UNIQUE := 0.
Definition SQL_INDEX_OTHER := 3.
Definition SQL_BEST_ROWID := 1.
Definition SQL_ROWVER := 2.
Definition SQL_PT_UNKNOWN := 0.
Definition SQL_PT_PROCEDURE := 1.
Definition SQL_PT_FUNCTION := 2.
Definition SQL_CASCADE := 0.
Definition SQL_RESTRICT := 1.
Definition SQL_SET_NULL := 2.
Definition SQL_NO_ACTION := 3.
Definition SQL_SET_DEFAULT := 4.
Definition SQL_NOT_DEFERRABLE := 7.
(** SQL_ALL_CATALOGS, SQL_ALL_SCHEMAS and SQL_ALL_TABLE_TYPES *)
Definition SQL_ALL : list Z := [$"%"; 0].

Module Catalog.

(** ** Arguments *)

(** [strncmp] says equal; a negative [n] is a size without a bound. *)
Fixpoint strncmp_eq (a b : list Z) (n : Z) : bool :=
  if n =? 0 then true
  else match a, b with
       | x :: a', y :: b' => (x =? y) && ((x =? 0) || strncmp_eq a' b' (n - 1))
       | _, _ => false
       end.

Definition is_given (n : name) : bool := bool_decide (is_Some (nm_buf n)).

(** [ADJUST_LENGTH] of a length of type SQLSMALLINT. *)
Definition ADJUST_LENGTH (n : name) : name :=
  MkName (nm_buf n) (match nm_buf n with Some b => wraps 16 (SafeStrlen b (nm_len n)) | None => 0 end).

(** The bytes [memcpy] takes for the length, the string [%s] prints, the part [%.*s]
    prints, and the first character. *)
Definition arg_bytes (n : name) : option (list Z) :=
  b ← nm_buf n; if (0 <=? nm_len n) && (nm_len n <=? Z.of_nat (length b)) then Some (take (Z.to_nat (nm_len n)) b) else None.
Definition arg_string (n : name) : option (list Z) := b ← nm_buf n; if bool_decide (0 ∈ b) then Some (cstr b) else None.
Definition arg_part (n : name) : option (list Z) :=
  b ← nm_buf n;
  if nm_len n <? 0 then arg_string n
  else if bool_decide (0 ∈ b) || (nm_len n <=? Z.of_nat (length b)) then Some (take (Z.to_nat (nm_len n)) (cstr b)) else None.
Definition arg_first (n : name) : option Z := b ← nm_buf n; head b.

(** [Name && Name[0]] *)
Definition not_empty (n : name) : option bool :=
  match nm_buf n with None => Some false | Some _ => x ← arg_first n; Some (negb (x =? 0)) end.

Definition equals_all (n : name) : bool := strncmp_eq (default [] (nm_buf n)) SQL_ALL (nm_len n).

(** ** Printing into an array *)

Definition vsnprintf (b : list Z) (p count : Z) (t : list Z) : option (list Z) :=
  if count =? 0 then Some b else memcpy b p (take (Z.to_nat (count - 1)) t ++ [0]).

(** [_snprintf]: a text that is longer than the space gives a negative number. *)
Definition snprintf_posix (b : list Z) (p count : Z) (t : list Z) : option (list Z * Z) :=
  b1 ← vsnprintf b p count t;
  let result := Z.of_nat (length t) in
  Some (b1, if count <? result then wraps 32 (wrapu 64 (count - result - 1)) else result).

(** [p += _snprintf(p, size - strlen(StmtStr), ...)] *)
Definition print (size : Z) (t : list Z) (x : list Z * Z) : option (list Z * Z) :=
  '(b, n) ← snprintf_posix x.1 x.2 (wrapu 64 (size - Z.of_nat (strlen x.1 0))) t;
  Some (b, x.2 + n).

(** A name between two texts. *)
Definition around (before : string) (n : name) (after : string) : option (list Z) :=
  t ← arg_string n; Some (chars before ++ t ++ chars after).

(** The first print, into the whole array. *)
Definition start_print (junk : Z) (size : nat) (count : Z) (t : list Z) : option (list Z * Z) :=
  snprintf_posix (replicate size junk) 0 count t.

Section Functions.
Context {A : Type} (c : stmt_config) (e : catalog_env) (ExecDirect : option (list Z) -> Z -> MADB_Stmt A -> option (Z * MADB_Stmt A)).
Implicit Types s : MADB_Stmt A.

Definition junk : Z := pc_junk (sc_params c).
Definition clear_error s : MADB_Stmt A := put_error s (MADB_CLEAR_ERROR (error_of s)).
Definition refuse_call s (code : nat) (msg : string) : option (Z * MADB_Stmt A) := Some (stmt_fail s code (Some (chars msg)) 0).

(** The columns of a result that was opened are described as ODBC wants them; what
    [ColsTypeFixArr] keeps for a later execution is not part of the state. *)
Definition fix_types (infos : list MADB_ShortTypeInfo) s : option (MADB_Stmt A) :=
  d ← own_descs c s;
  desc ← descs (world_of s) !! Ird d;
  desc' ← Ird.MADB_FixColumnDataTypes (sc_ird c) (fun i => infos !! i) desc;
  Some (put_world s (put_desc (world_of s) (Ird d) desc')).

Definition and_fix (infos : list MADB_ShortTypeInfo) (r : option (Z * MADB_Stmt A)) : option (Z * MADB_Stmt A) :=
  '(ret, s) ← r;
  if SQL_SUCCEEDED ret then s1 ← fix_types infos s; Some (ret, s1) else Some (ret, s).

Definition varchar (nullable : Z) : MADB_ShortTypeInfo := MkShort SQL_VARCHAR false nullable 0 0.
Definition smallint (nullable : Z) : MADB_ShortTypeInfo := MkShort SQL_SMALLINT false nullable 0 0.
Definition integer (nullable : Z) : MADB_ShortTypeInfo := MkShort SQL_INTEGER false nullable 0 0.
Definition SqlTablesColType : list MADB_ShortTypeInfo :=
  [varchar SQL_NO_NULLS; varchar SQL_NULLABLE; varchar SQL_NO_NULLS; varchar SQL_NO_NULLS; varchar SQL_NO_NULLS].
Definition SqlStatsColType : list MADB_ShortTypeInfo :=
  [varchar SQL_NULLABLE; varchar SQL_NULLABLE; varchar SQL_NO_NULLS; smallint SQL_NULLABLE; varchar SQL_NULLABLE; varchar SQL_NULLABLE;
   smallint SQL_NO_NULLS; smallint SQL_NULLABLE; varchar SQL_NULLABLE; MkShort SQL_CHAR false SQL_NULLABLE 2 0; integer SQL_NULLABLE;
   integer SQL_NULLABLE; varchar SQL_NULLABLE].
Definition SqlColumnsColType : list MADB_ShortTypeInfo :=
  [varchar SQL_NULLABLE; varchar SQL_NULLABLE; varchar SQL_NO_NULLS; varchar SQL_NO_NULLS; smallint SQL_NO_NULLS; varchar SQL_NO_NULLS;
   integer SQL_NULLABLE; integer SQL_NULLABLE; smallint SQL_NULLABLE; smallint SQL_NULLABLE; smallint SQL_NO_NULLS; varchar SQL_NULLABLE;
   varchar SQL_NULLABLE; smallint SQL_NO_NULLS; smallint SQL_NULLABLE; integer SQL_NULLABLE; integer SQL_NO_NULLS; varchar SQL_NULLABLE].

(** ** Queries in arrays *)

Definition column_privileges_text : list Z :=
  chars "SELECT TABLE_SCHEMA AS TABLE_CAT, NULL as TABLE_SCHEM, TABLE_NAME,COLUMN_NAME, NULL AS GRANTOR, GRANTEE, PRIVILEGE_TYPE AS PRIVILEGE,IS_GRANTABLE FROM INFORMATION_SCHEMA.COLUMN_PRIVILEGES WHERE 1=0".

Definition MADB_StmtColumnPrivileges (CatalogName SchemaName TableName ColumnName : name) s : option (Z * MADB_Stmt A) :=
  let s1 := clear_error s in
  if negb (is_given TableName) || (nm_len TableName =? 0) then refuse_call s1 MADB_ERR_HY009 "Tablename is required"
  else
    '(b, _) ← start_print junk 1024 1024 column_privileges_text;
    '(ret, s2) ← ExecDirect (Some b) (wraps 32 (Z.of_nat (strlen b 0))) s1;
    if SQL_SUCCEEDED ret
    then refuse_call s2 MADB_ERR_01000 "COLUMN_PRIVILEGES is currently not supported, so the empty result is returned."
    else Some (ret, s2).

Definition table_privileges_text : list Z :=
  chars "SELECT TABLE_SCHEMA AS TABLE_CAT, NULL AS TABLE_SCHEM, TABLE_NAME, NULL AS GRANTOR, GRANTEE, PRIVILEGE_TYPE AS PRIVILEGE, IS_GRANTABLE FROM INFORMATION_SCHEMA.TABLE_PRIVILEGES WHERE ".

Definition MADB_StmtTablePrivileges (CatalogName SchemaName TableName : name) s : option (Z * MADB_Stmt A) :=
  let s1 := clear_error s in
  x0 ← start_print junk 1024 1024 table_privileges_text;
  t1 ← (if is_given CatalogName then around "TABLE_SCHEMA LIKE '" CatalogName "' "
        else Some (chars "TABLE_SCHEMA LIKE IF(DATABASE(), DATABASE(), '%') "));
  x1 ← print 1024 t1 x0;
  x2 ← (if is_given TableName then t2 ← around "AND TABLE_NAME LIKE '" TableName "' "; print 1024 t2 x1 else Some x1);
  x3 ← print 1024 (chars "ORDER BY TABLE_SCHEM, TABLE_NAME, PRIVILEGE") x2;
  ExecDirect (Some x3.1) (wraps 32 (Z.of_nat (strlen x3.1 0))) s1.

Definition statistics_text : list Z :=
  chars "SELECT TABLE_SCHEMA AS TABLE_CAT, NULL AS TABLE_SCHEM, TABLE_NAME, NON_UNIQUE, NULL AS INDEX_QUALIFIER, INDEX_NAME, " ++
  dec SQL_INDEX_OTHER ++
  chars " AS TYPE, SEQ_IN_INDEX AS ORDINAL_POSITION, COLUMN_NAME, COLLATION AS ASC_OR_DESC, CARDINALITY, NULL AS PAGES, NULL AS FILTER_CONDITION FROM INFORMATION_SCHEMA.STATISTICS ".

Definition MADB_StmtStatistics (CatalogName SchemaName TableName : name) (Unique : Z) s : option (Z * MADB_Stmt A) :=
  let s1 := clear_error s in
  if negb (is_given TableName) || (nm_len TableName =? 0) then refuse_call s1 MADB_ERR_HY009 "Tablename is required"
  else
    '(b, _) ← start_print junk 1024 1024 statistics_text;
    given ← not_empty CatalogName;
    t1 ← (if (given : bool) then around "WHERE TABLE_SCHEMA LIKE '" CatalogName "' "
          else Some (chars "WHERE TABLE_SCHEMA LIKE IF(DATABASE() IS NOT NULL, DATABASE(), '%') "));
    x1 ← print 1023 t1 (b, Z.of_nat (strlen b 0));
    t2 ← around "AND TABLE_NAME LIKE '" TableName "' ";
    x2 ← print 1023 t2 x1;
    x3 ← (if Unique =? SQL_INDEX_UNIQUE then print 1023 (chars "AND NON_UNIQUE=0 ") x2 else Some x2);
    x4 ← print 1023 (chars "ORDER BY NON_UNIQUE, INDEX_NAME, ORDINAL_POSITION") x3;
    and_fix SqlStatsColType (ExecDirect (Some x4.1) SQL_NTS s1).

Definition primary_keys_text : list Z :=
  chars "SELECT TABLE_SCHEMA AS TABLE_CAT, NULL AS TABLE_SCHEM, TABLE_NAME, COLUMN_NAME, ORDINAL_POSITION KEY_SEQ, 'PRIMARY' PK_NAME FROM INFORMATION_SCHEMA.COLUMNS WHERE COLUMN_KEY = 'pri' AND ".

Definition MADB_StmtPrimaryKeys (CatalogName SchemaName TableName : name) s : option (Z * MADB_Stmt A) :=
  let s1 := clear_error s in
  if negb (is_given TableName) || (nm_len TableName =? 0) then refuse_call s1 MADB_ERR_HY009 "Tablename is required"
  else
    x0 ← start_print junk 2048 1024 primary_keys_text;
    given ← not_empty CatalogName;
    t1 ← (if (given : bool) then around "TABLE_SCHEMA LIKE '" CatalogName "' "
          else Some (chars "TABLE_SCHEMA LIKE IF(DATABASE() IS NOT NULL, DATABASE(), '%') "));
    x1 ← print 2048 t1 x0;
    t2 ← around "AND TABLE_NAME LIKE '" TableName "' ";
    x2 ← print 2048 t2 x1;
    x3 ← print 2048 (chars " ORDER BY TABLE_SCHEMA, TABLE_NAME, ORDINAL_POSITION") x2;
    ExecDirect (Some x3.1) SQL_NTS s1.

Definition procedures_text : list Z :=
  chars "SELECT ROUTINE_SCHEMA AS PROCEDURE_CAT, NULL AS PROCEDURE_SCHEM, SPECIFIC_NAME PROCEDURE_NAME, NULL NUM_INPUT_PARAMS, NULL NUM_OUTPUT_PARAMS, NULL NUM_RESULT_SETS, ROUTINE_COMMENT REMARKS, CASE ROUTINE_TYPE   WHEN 'FUNCTION' THEN " ++
  XSTR SQL_PT_FUNCTION ++ chars "  WHEN 'PROCEDURE' THEN " ++ XSTR SQL_PT_PROCEDURE ++ chars "  ELSE " ++ XSTR SQL_PT_UNKNOWN ++
  chars " END PROCEDURE_TYPE FROM INFORMATION_SCHEMA.ROUTINES ".

Definition MADB_StmtProcedures (CatalogName SchemaName ProcName : name) s : option (Z * MADB_Stmt A) :=
  let s1 := clear_error s in
  x0 ← start_print junk 2048 2048 procedures_text;
  given ← not_empty CatalogName;
  t1 ← (if (given : bool) then around "WHERE ROUTINE_SCHEMA LIKE '" CatalogName "' " else Some (chars "WHERE ROUTINE_SCHEMA LIKE DATABASE() "));
  x1 ← print 2048 t1 x0;
  named ← not_empty ProcName;
  x2 ← (if (named : bool) then t2 ← around "AND SPECIFIC_NAME LIKE '" ProcName "' "; print 2048 t2 x1 else Some x1);
  x3 ← print 2048 (chars " ORDER BY ROUTINE_SCHEMA, SPECIFIC_NAME") x2;
  ExecDirect (Some x3.1) SQL_NTS s1.

(** ** A query in a block of the heap *)

(** [p += snprintf(p, StmtEnd - p, ...)] with the check behind it. *)
Definition print_checked (Length : Z) (t : list Z) (x : list Z * Z) : option (nat + list Z * Z) :=
  b ← vsnprintf x.1 x.2 (Length - x.2) t;
  let p := x.2 + Z.of_nat (length t) in
  Some (if Length <=? p then inl MADB_ERR_HY001 else inr (b, p)).

Definition and_then (r : option (nat + list Z * Z)) (f : list Z * Z -> option (nat + list Z * Z)) : option (nat + list Z * Z) :=
  x ← r; match x with inl code => Some (inl code) | inr y => f y end.

Definition ProcedureColumnsNormal (Length : Z) (CatalogName ProcName ColumnName : name) (x : list Z * Z) : option (nat + list Z * Z) :=
  t1 ← (if is_given CatalogName then t ← arg_part CatalogName; Some (chars "WHERE SPECIFIC_SCHEMA='" ++ t ++ chars "' ")
        else Some (chars "WHERE SPECIFIC_SCHEMA LIKE DATABASE() "));
  and_then (print_checked Length t1 x) (fun x1 =>
    and_then (if is_given ProcName
              then t ← arg_part ProcName; print_checked Length (chars "AND SPECIFIC_NAME LIKE '" ++ t ++ chars "' ") x1
              else Some (inr x1)) (fun x2 =>
      if is_given ColumnName then
        given ← not_empty ColumnName;
        if (given : bool) then t ← arg_part ColumnName; print_checked Length (chars "AND PARAMETER_NAME LIKE '" ++ t ++ chars "' ") x2
        else print_checked Length (chars "AND PARAMETER_NAME IS NULL ") x2
      else Some (inr x2))).

Definition ProcedureColumnsIdentifier (Length : Z) (CatalogName SchemaName ProcName ColumnName : name) (x : list Z * Z)
    : option (nat + list Z * Z) :=
  if negb (is_given CatalogName && is_given SchemaName && is_given ProcName && is_given ColumnName) then Some (inl MADB_ERR_HY009)
  else
    cat ← arg_bytes CatalogName;
    proc ← arg_bytes ProcName;
    col ← arg_bytes ColumnName;
    match ProcessIdentifierString cat, ProcessIdentifierString proc, ProcessIdentifierString col with
    | Some cat', Some proc', Some col' =>
        and_then (print_checked Length (chars "WHERE SPECIFIC_SCHEMA=" ++ cat' ++ chars " ") x) (fun x1 =>
          and_then (print_checked Length (chars "AND SPECIFIC_NAME=" ++ proc' ++ chars " ") x1) (fun x2 =>
            print_checked Length (chars "AND PARAMETER_NAME=" ++ col' ++ chars " ") x2))
    | _, _, _ => Some (inl MADB_ERR_42000)
    end.

(** The end of the query, and its execution. *)
Definition finish_block (Length : Z) (r : option (nat + list Z * Z)) s : option (Z * MADB_Stmt A) :=
  y ← r;
  match y with
  | inl code => Some (stmt_fail s code None 0)
  | inr (b, p) =>
      let tail := chars " ORDER BY SPECIFIC_SCHEMA, SPECIFIC_NAME, ORDINAL_POSITION" in
      b1 ← vsnprintf b p (Length - p) tail;
      let p1 := p + Z.of_nat (length tail) in
      if Length - 1 <=? p1 then Some (stmt_fail s MADB_ERR_HY001 None 0) else ExecDirect (Some b1) (wraps 32 p1) s
  end.

Definition MADB_StmtProcedureColumns (CatalogName0 SchemaName0 ProcName0 ColumnName0 : name) s : option (Z * MADB_Stmt A) :=
  let s1 := clear_error s in
  let CatalogName := ADJUST_LENGTH CatalogName0 in
  let SchemaName := ADJUST_LENGTH SchemaName0 in
  let ProcName := ADJUST_LENGTH ProcName0 in
  let ColumnName := ADJUST_LENGTH ColumnName0 in
  let QueryPrefix := MADB_PROCEDURE_COLUMNS (ce_odbc3 e) (IsAnsi (sc_ird c)) in
  let Offset := Z.of_nat (length QueryPrefix) in
  let Length := Offset + 1024 in
  let '(ok, s2) := next_answer s1 in
  if negb ok then Some (stmt_fail s2 MADB_ERR_HY001 None 0)
  else
    let x := (QueryPrefix ++ replicate 1024 0, Offset) in
    finish_block Length (if negb (MetadataId (sc_Options c) =? 0) then ProcedureColumnsIdentifier Length CatalogName SchemaName ProcName ColumnName x
                         else ProcedureColumnsNormal Length CatalogName ProcName ColumnName x) s2.

(** ** Queries in dynamic strings *)

(** [MADB_InitDynamicString]; that it may fail is not looked at. *)
Definition open_text (init : list Z) (size inc : Z) s : option builder :=
  let '(ok, s1) := next_answer s in
  '(_, d) ← MADB_InitDynamicString junk ok (Some init) size inc;
  Some (MkBuilder (pm_answers (ms_params s1)) d (error_of s1)).

Definition close_text (b : builder) s : MADB_Stmt A :=
  set_params s (MkParamState (pm_world (ms_params s)) (pm_memory (ms_params s)) (sb_Error b) (answers b)).

(** Appends whose results are not looked at. *)
Fixpoint appends (l : list (list Z)) (b : builder) : option builder :=
  match l with
  | [] => Some b
  | t :: l' => '(_, b1) ← StrBuild.append junk t b; appends l' b1
  end.

Definition run_text (b : builder) s : option (Z * MADB_Stmt A) := ExecDirect (str (dyn b)) SQL_NTS (close_text b s).

Definition all_catalogs_text : list Z :=
  chars "SELECT SCHEMA_NAME AS TABLE_CAT, CONVERT(NULL,CHAR(64)) AS TABLE_SCHEM, CONVERT(NULL,CHAR(64)) AS TABLE_NAME, NULL AS TABLE_TYPE, NULL AS REMARKS FROM INFORMATION_SCHEMA.SCHEMATA GROUP BY SCHEMA_NAME ORDER BY SCHEMA_NAME".
Definition all_types_text : list Z :=
  chars "SELECT NULL AS TABLE_CAT, NULL AS TABLE_SCHEM, NULL AS TABLE_NAME, 'TABLE' AS TABLE_TYPE, NULL AS REMARKS FROM DUAL UNION SELECT NULL, NULL, NULL, 'VIEW', NULL FROM DUAL UNION SELECT NULL, NULL, NULL, 'SYSTEM VIEW', NULL FROM DUAL".
Definition no_tables_text : list Z :=
  chars "SELECT NULL AS TABLE_CAT, NULL AS TABLE_SCHEM, NULL AS TABLE_NAME, NULL AS TABLE_TYPE, NULL AS REMARKS FROM DUAL WHERE 1=0".
Definition tables_text : list Z :=
  chars "SELECT TABLE_SCHEMA AS TABLE_CAT, NULL AS TABLE_SCHEM, TABLE_NAME, if(TABLE_TYPE='BASE TABLE','TABLE',TABLE_TYPE) AS TABLE_TYPE ,TABLE_COMMENT AS REMARKS FROM INFORMATION_SCHEMA.TABLES WHERE 1=1 ".

(** The types of tables that are asked for: a type counts when its name occurs anywhere in
    the argument. *)
Definition myTypes : list (list Z) := [chars "TABLE"; chars "VIEW"; chars "SYNONYM"].
Definition type_appends (TableType : list Z) (t : list Z) : list (list Z) :=
  match strstr TableType t with
  | None => []
  | Some _ => if bool_decide (is_Some (strstr t (chars "TABLE"))) then [chars ", 'BASE TABLE'"] else [chars ", '"; t; chars "'"]
  end.

Definition MADB_StmtTables (CatalogName0 SchemaName0 TableName0 TableType0 : name) s : option (Z * MADB_Stmt A) :=
  let CatalogName1 := ADJUST_LENGTH CatalogName0 in
  let SchemaName := ADJUST_LENGTH SchemaName0 in
  let TableName := ADJUST_LENGTH TableName0 in
  let TableType := ADJUST_LENGTH TableType0 in
  if (64 <? nm_len CatalogName1) || (64 <? nm_len TableName)
  then refuse_call s MADB_ERR_HY090 "Table and catalog names are limited to 64 chars"
  else
    let CatalogName := if nm_len CatalogName1 =? 0
                       then match ce_db e with Some d => MkName (Some (d ++ [0])) (wraps 16 (Z.of_nat (length d))) | None => CatalogName1 end
                       else CatalogName1 in
    let no_table := is_given TableName && (nm_len TableName =? 0) in
    let no_schema := is_given SchemaName && (nm_len SchemaName =? 0) in
    b ← (if is_given CatalogName && negb (nm_len CatalogName =? 0) && no_table && no_schema && equals_all CatalogName
         then open_text all_catalogs_text 8192 512 s
         else if is_given CatalogName && (nm_len CatalogName =? 0) && no_table && no_schema && is_given TableType
                 && negb (nm_len TableType =? 0) && equals_all TableType
         then open_text all_types_text 8192 512 s
         else if is_given SchemaName && ((equals_all SchemaName && is_given CatalogName && (nm_len CatalogName =? 0) && no_table)
                                         || negb (equals_all SchemaName))
         then open_text no_tables_text 8192 512 s
         else
           b0 ← open_text tables_text 8192 512 s;
           let Quote := if negb (MetadataId (sc_Options c) =? 0) then chars "`" else chars "'" in
           b1 ← (if is_given CatalogName then
                   t ← arg_bytes CatalogName; appends [chars " AND TABLE_SCHEMA "; chars "LIKE "; Quote; t; Quote] b0
                 else Some b0);
           b2 ← (if is_given TableName && negb (nm_len TableName =? 0) then
                   t ← arg_bytes TableName; appends [chars " AND TABLE_NAME LIKE "; Quote; t; Quote] b1
                 else Some b1);
           b3 ← (if is_given TableType && negb (nm_len TableType =? 0) && negb (equals_all TableType) then
                   t ← arg_string TableType;
                   appends ([chars " AND TABLE_TYPE IN (''"] ++ flat_map (type_appends t) myTypes ++ [chars ") "]) b2
                 else Some b2);
           appends [chars " ORDER BY TABLE_SCHEMA, TABLE_NAME, TABLE_TYPE"] b3);
    and_fix SqlTablesColType (run_text b s).

Notation "f '||!' g" := (or_else f g) (at level 66, left associativity).

(** A name in quotes behind a text; one failure report for the whole. *)
Definition name_condition (before : string) (n : name) (b : builder) : option (bool * builder) :=
  t ← arg_bytes n; memory (StrBuild.append junk (chars before) ||! StrBuild.append junk t ||! StrBuild.append junk (chars "' ")) b.
Definition one_text (t : string) : builder -> option (bool * builder) := memory (StrBuild.append junk (chars t)).
Definition only_if (x : bool) (f : builder -> option (bool * builder)) : builder -> option (bool * builder) := if x then f else skip.

(** The query is executed when all of it was written. *)
Definition finish_text (r : option (bool * builder)) s : option (Z * MADB_Stmt A) :=
  '(failed, b) ← r;
  if (failed : bool) then Some (ReturnValue (sb_Error b), close_text b s) else run_text b s.

Definition catalog_condition (CatalogName : name) : builder -> option (bool * builder) :=
  if is_given CatalogName then name_condition "'" CatalogName else one_text "DATABASE() ".

Definition MADB_StmtColumns (CatalogName0 SchemaName0 TableName0 ColumnName0 : name) s : option (Z * MADB_Stmt A) :=
  b0 ← open_text [] 8192 1024 s;
  let b1 := MkBuilder (answers b0) (dyn b0) (MADB_CLEAR_ERROR (sb_Error b0)) in
  let CatalogName := ADJUST_LENGTH CatalogName0 in
  let TableName := ADJUST_LENGTH TableName0 in
  let ColumnName := ADJUST_LENGTH ColumnName0 in
  '(failed, b) ← (memory (StrBuild.append junk (MADB_COLUMNS (ce_odbc3 e) (IsAnsi (sc_ird c)))) ||! one_text " WHERE TABLE_SCHEMA = " ||!
                  catalog_condition CatalogName ||!
                  only_if (is_given TableName) (name_condition "AND TABLE_NAME LIKE '" TableName) ||!
                  only_if (is_given ColumnName) (name_condition "AND COLUMN_NAME LIKE '" ColumnName) ||!
                  one_text " ORDER BY TABLE_SCHEMA, TABLE_NAME, ORDINAL_POSITION") b1;
  if (failed : bool) then Some (ReturnValue (sb_Error b), close_text b s) else and_fix SqlColumnsColType (run_text b s).

Definition MADB_StmtSpecialColumns (IdentifierType : Z) (CatalogName0 SchemaName0 TableName0 : name) (Nullable : Z) s : option (Z * MADB_Stmt A) :=
  if negb (is_given TableName0) || (nm_len TableName0 =? 0) then refuse_call s MADB_ERR_HY009 "TableName is required"
  else
    b0 ← open_text [] 2048 1024 s;
    let b1 := MkBuilder (answers b0) (dyn b0) (MADB_CLEAR_ERROR (sb_Error b0)) in
    let CatalogName := ADJUST_LENGTH CatalogName0 in
    let TableName := ADJUST_LENGTH TableName0 in
    finish_text ((memory (StrBuild.append junk (MADB_SPECIAL_COLUMNS (ce_odbc3 e) (IsAnsi (sc_ird c)))) ||! one_text " WHERE TABLE_SCHEMA = " ||!
                  catalog_condition CatalogName ||!
                  only_if (is_given TableName && negb (nm_len TableName =? 0)) (name_condition "AND TABLE_NAME LIKE '" TableName) ||!
                  only_if (Nullable =? SQL_NO_NULLS) (one_text "AND IS_NULLABLE <> 'YES' ") ||!
                  (if IdentifierType =? SQL_BEST_ROWID then one_text "AND COLUMN_KEY IN ('PRI', 'UNI') "
                   else only_if (IdentifierType =? SQL_ROWVER)
                          (one_text "AND EXTRA LIKE '%%on update%%' AND COLUMN_KEY NOT IN ('PRI', 'UNI') ")) ||!
                  one_text " ORDER BY TABLE_SCHEMA, TABLE_NAME, COLUMN_KEY") b1) s.

Definition rule_cases (head tail : string) : list Z :=
  chars head ++ chars "  WHEN 'RESTRICT' THEN " ++ XSTR SQL_RESTRICT ++ chars "  WHEN 'NO ACTION' THEN " ++ XSTR SQL_NO_ACTION ++
  chars "  WHEN 'CASCADE' THEN " ++ XSTR SQL_CASCADE ++ chars "  WHEN 'SET NULL' THEN " ++ XSTR SQL_SET_NULL ++
  chars "  WHEN 'SET DEFAULT' THEN " ++ XSTR SQL_SET_DEFAULT ++ chars tail.
Definition foreign_keys_text : list Z :=
  chars "SELECT A.REFERENCED_TABLE_SCHEMA PKTABLE_CAT, NULL PKTABLE_SCHEM, A.REFERENCED_TABLE_NAME PKTABLE_NAME, A.REFERENCED_COLUMN_NAME PKCOLUMN_NAME, A.TABLE_SCHEMA FKTABLE_CAT, NULL FKTABLE_SCHEM, A.TABLE_NAME FKTABLE_NAME, A.COLUMN_NAME FKCOLUMN_NAME, A.POSITION_IN_UNIQUE_CONSTRAINT KEY_SEQ, " ++
  rule_cases "CASE update_rule " " END UPDATE_RULE, " ++ rule_cases "CASE DELETE_RULE" "  END DELETE_RULE," ++
  chars "A.CONSTRAINT_NAME FK_NAME, 'PRIMARY' PK_NAME," ++ XSTR SQL_NOT_DEFERRABLE ++
  chars " AS DEFERRABILITY  FROM INFORMATION_SCHEMA.KEY_COLUMN_USAGE A JOIN INFORMATION_SCHEMA.KEY_COLUMN_USAGE B ON (B.TABLE_SCHEMA = A.REFERENCED_TABLE_SCHEMA AND B.TABLE_NAME = A.REFERENCED_TABLE_NAME AND B.COLUMN_NAME = A.REFERENCED_COLUMN_NAME) JOIN INFORMATION_SCHEMA.REFERENTIAL_CONSTRAINTS RC ON (RC.CONSTRAINT_NAME = A.CONSTRAINT_NAME AND RC.TABLE_NAME = A.TABLE_NAME AND RC.CONSTRAINT_SCHEMA = A.TABLE_SCHEMA) WHERE B.CONSTRAINT_NAME= 'PRIMARY'".

(** A name escaped into [EscapeBuf], which has 256 bytes. *)
Definition EscapeBuf_size : nat := 256.
Definition escaped_name (n : name) : option (list Z) :=
  b ← nm_buf n;
  if (nm_len n <? 0) || (Z.of_nat (length b) <? Z.min (nm_len n) 255) then None
  else
    let '(stored, _) := mysql_real_escape_string (pc_no_backslash (sc_params c)) (pc_charset (sc_params c)) (take (Z.to_nat (Z.min (nm_len n) 255)) b) in
    if (EscapeBuf_size <? length stored)%nat then None else Some (cstr stored).

(** The conditions for one of the two tables. *)
Definition key_conditions (Table CatalogName : name) (schema like no_catalog table : string) (b : builder) : option builder :=
  given ← not_empty Table;
  if negb given then Some b
  else
    b1 ← appends [chars schema] b;
    in_catalog ← not_empty CatalogName;
    b2 ← (if (in_catalog : bool) then t ← escaped_name CatalogName; appends [chars like; t; chars "' "] b1 else appends [chars no_catalog] b1);
    b3 ← appends [chars table] b2;
    t ← escaped_name Table;
    appends [t; chars "' "] b3.

Definition MADB_StmtForeignKeys (PKCatalogName0 PKSchemaName0 PKTableName0 FKCatalogName0 FKSchemaName0 FKTableName0 : name) s
    : option (Z * MADB_Stmt A) :=
  let s1 := clear_error s in
  let PKCatalogName := ADJUST_LENGTH PKCatalogName0 in
  let PKTableName := ADJUST_LENGTH PKTableName0 in
  let FKCatalogName := ADJUST_LENGTH FKCatalogName0 in
  let FKTableName := ADJUST_LENGTH FKTableName0 in
  if (negb (is_given PKTableName) || (nm_len PKTableName =? 0)) && (negb (is_given FKTableName) || (nm_len FKTableName =? 0))
  then refuse_call s1 MADB_ERR_HY009 "PKTableName or FKTableName are required"
  else
    b0 ← open_text foreign_keys_text 8192 128 s1;
    b1 ← key_conditions PKTableName PKCatalogName " AND A.REFERENCED_TABLE_SCHEMA " "LIKE '" "= DATABASE()" " AND A.REFERENCED_TABLE_NAME = '" b0;
    b2 ← key_conditions FKTableName FKCatalogName " AND A.TABLE_SCHEMA = " "'" "DATABASE() " " AND A.TABLE_NAME = '" b1;
    b3 ← appends [chars "ORDER BY FKTABLE_CAT, FKTABLE_SCHEM, FKTABLE_NAME, KEY_SEQ, PKTABLE_NAME"] b2;
    run_text b3 s1.

End Functions.
End Catalog.
