(* ===== verification/CatalogProps.v ===== *)
(** * CatalogProps: what the catalog functions send

    Theorems about Catalog.v: a specification of each function (refuse the call, or send a
    query made of fixed parts and names in quotes, and what follows), the fact that the
    functions implement it while their buffers are large enough, and what the query looks
    like to the scanner of Parse.v; and examples of names that overrun a buffer or change
    the query. *)

From Stdlib Require Import ZArith Lia.
From stdpp Require Import base strings numbers option list functions gmap.
From S2P Require Import Prelude Decimal Charset Odbc Errors Dynamic Parse SqlTypes Desc Ird StrBuild StmtAttr Escape ParamText Params ClientLib StmtState Execute Prepare Lifecycle CatalogText Catalog.
Import ErrorOps DynString Wide DescOps Escape EscapeProps StrBuild StrBuildProps ParamTextProps Tokenizer ParseProps StmtState CatalogText Catalog.

Module CatalogProps.

(** ** Queries made of parts *)

(** A fixed text, or a text between two quotes [q]. *)
Inductive part := Fixed (t : list Z) | Lit (q : Z) (t : list Z).
Definition part_text (p : part) : list Z := match p with Fixed t => t | Lit q t => q :: t ++ [q] end.
Definition text_of_parts (ps : list part) : list Z := concat (part_text <$> ps).

(** A text that can stand in front of any other: its quoted strings are closed, it has no
    comment and does not end with half of a comment's start. *)
Fixpoint closed_text (n : nat) (l : list Z) : bool :=
  match l with
  | [] => true
  | c :: l' =>
      match n with
      | O => false
      | S n' =>
          if (0 <? comment_len l)%nat then false
          else if is_quote c then match closing (negb (c =? $"`")) c l' with Some k => closed_text n' (drop (S k) l') | None => false end
          else negb (bool_decide (l' = []) && ((c =? $"-") || (c =? $"/"))) && closed_text n' l'
      end
  end.

Lemma pieces_closed n : forall l r m, closed_text n l = true -> (length l + length r <= m)%nat ->
  pieces m (l ++ r) = pieces (length l) l ++ pieces m r.
Proof.
  induction n as [|n IH]; intros [|c l] r m Hc Hm; try done. cbn [closed_text] in Hc.
  destruct (Nat.ltb_spec 0 (comment_len (c :: l))) as [|Hz]; [done|]. apply Nat.le_0_r in Hz.
  destruct m as [|m]; [cbn in Hm; lia|]. cbn [length] in Hm. rewrite (pieces_fuel (S m) m r) by lia.
  change ((c :: l) ++ r) with (c :: l ++ r). cbn [pieces length]. rewrite Hz. cbn [Nat.ltb Nat.leb].
  destruct (is_quote c) eqn:Eq.
  - destruct (closing (negb (c =? $"`")) c l) as [k|] eqn:Ek; [|done]. pose proof (closing_lt _ _ _ _ Ek) as Hk.
    rewrite comment_len_plain_head by (by apply is_quote_plain in Eq as (? & ? & ? & ?)). cbn [Nat.ltb Nat.leb].
    assert (closing (negb (c =? $"`")) c (l ++ r) = Some k) as Ek2.
    { rewrite <- (take_drop (S k) l), <- app_assoc. by apply closing_app. }
    unfold quoted_len. rewrite Ek, Ek2. rewrite take_app_le, drop_app_le by lia. cbn [app]. f_equal.
    rewrite (IH (drop (S k) l) r m Hc) by (rewrite length_drop; lia). f_equal. apply pieces_fuel; rewrite length_drop; lia.
  - apply andb_true_iff in Hc as [He Hc]. apply comment_len_zero in Hz as [Hh Ho].
    assert (comment_len (c :: l ++ r) = 0%nat) as ->.
    { apply comment_len_zero. split; [done|]. intros d Hd. destruct l as [|x l]; [|by apply Ho].
      rewrite bool_decide_eq_true_2 in He by done. apply negb_true_iff in He. cbn [andb] in He. apply orb_false_iff in He as [H1 H2].
      unfold opens. by rewrite H1, H2. }
    cbn [Nat.ltb Nat.leb app]. f_equal. apply IH; [done|lia].
Qed.

(** A text that ends at the closing quote whatever comes behind it. *)
Definition sealed (q : Z) (t : list Z) : Prop := forall rest, closing (negb (q =? $"`")) q (t ++ q :: rest) = Some (length t).

Lemma sealed_plain q t : q ∉ t -> (q = $"`" \/ 92 ∉ t) -> sealed q t.
Proof.
  intros Hq Hb rest. induction t as [|c t IH]; cbn [closing app length]; [by rewrite Z.eqb_refl|].
  apply not_elem_of_cons in Hq as [Hc Hq]. rewrite (proj2 (Z.eqb_neq c q)) by done.
  assert (negb (q =? $"`") && (c =? 92) = false) as ->.
  { destruct Hb as [->|Hb]; [done|]. apply not_elem_of_cons in Hb as [Hb _]. rewrite (proj2 (Z.eqb_neq c 92)) by done. apply andb_false_r. }
  rewrite IH; [done|done|]. destruct Hb as [|Hb]; [by left|right]. by apply not_elem_of_cons in Hb as [_ ?].
Qed.

Lemma pieces_sealed q t r m : is_quote q = true -> sealed q t -> (S (S (length t)) + length r <= m)%nat ->
  pieces m ((q :: t ++ [q]) ++ r) = Quoted (q :: t ++ [q]) :: pieces m r.
Proof.
  intros Hq Hs Hm. destruct m as [|m]; [lia|]. rewrite (pieces_fuel (S m) m r) by lia. cbn [app pieces].
  rewrite comment_len_plain_head by (by apply is_quote_plain in Hq as (? & ? & ? & ?)). rewrite Hq. cbn [Nat.ltb Nat.leb].
  unfold quoted_len. rewrite <- app_assoc. cbn [app]. rewrite Hs.
  replace (S (length t)) with (length (t ++ [q])) by (rewrite length_app; cbn; lia).
  replace (t ++ q :: r) with ((t ++ [q]) ++ r) by (by rewrite <- app_assoc). by rewrite take_app_length, drop_app_length.
Qed.

Definition good_part (p : part) : Prop :=
  match p with Fixed t => closed_text (length t) t = true | Lit q t => is_quote q = true /\ sealed q t end.
Definition part_pieces (p : part) : list piece :=
  match p with Fixed t => pieces (length t) t | Lit q t => [Quoted (q :: t ++ [q])] end.

(** The scanner sees the parts one by one, and every text in quotes as one string. *)
Lemma parts_pieces ps : Forall good_part ps -> forall m, (length (text_of_parts ps) <= m)%nat ->
  pieces m (text_of_parts ps) = concat (part_pieces <$> ps).
Proof.
  induction 1 as [|p ps Hp HF IH]; intros m Hm; [by destruct m|]. unfold text_of_parts in *. cbn [fmap list_fmap concat] in *.
  rewrite length_app in Hm. destruct p as [t|q t]; cbn [part_text part_pieces good_part] in *.
  - rewrite (pieces_closed (length t)) by (done || lia). by rewrite IH by lia.
  - cbn [length] in Hm. rewrite length_app in Hm. cbn [length] in Hm. destruct Hp. rewrite pieces_sealed by (done || lia).
    by rewrite IH by lia.
Qed.

(** ** The specification *)

Inductive call :=
| ColumnPrivileges (cat schema table column : name)
| TablePrivileges (cat schema table : name)
| Tables (cat schema table type : name)
| Statistics (cat schema table : name) (Unique : Z)
| Columns (cat schema table column : name)
| ProcedureColumns (cat schema proc column : name)
| PrimaryKeys (cat schema table : name)
| SpecialColumns (IdentifierType : Z) (cat schema table : name) (nulls : Z)
| Procedures (cat schema proc : name)
| ForeignKeys (pkcat pkschema pktable fkcat fkschema fktable : name).

Definition names_of (x : call) : list name :=
  match x with
  | ColumnPrivileges a b c d | Tables a b c d | Columns a b c d | ProcedureColumns a b c d => [a; b; c; d]
  | TablePrivileges a b c | Statistics a b c _ | PrimaryKeys a b c | SpecialColumns _ a b c _ | Procedures a b c => [a; b; c]
  | ForeignKeys a b c d e f => [a; b; c; d; e; f]
  end.

(** What a call comes to: an error, or a query and what is done behind it. *)
Inductive followup := Nothing | Describe (infos : list MADB_ShortTypeInfo) | Warn (code : nat) (msg : string).
Inductive plan := Refuse (code : nat) (msg : option (list Z)) | Send (ps : list part) (f : followup).

(** The string an argument stands for. *)
Definition value (n : name) : option (list Z) := cstr <$> nm_buf n.

(** A condition on a name: the text in front, the name, a blank. *)
Definition named (before : string) (v : list Z) : list part := [Fixed (chars before); Lit ($"'") v; Fixed (chars " ")].
Definition text (t : string) : list part := [Fixed (chars t)].
Definition if_named (before : string) (v : option (list Z)) (otherwise : list part) : list part :=
  match v with Some t => named before t | None => otherwise end.
Definition non_empty (v : option (list Z)) : option (list Z) := match v with Some (x :: t) => Some (x :: t) | _ => None end.
Definition lit_if (before : string) (q : Z) (v : option (list Z)) : list part :=
  match v with Some t => [Fixed (chars before); Lit q t] | None => [] end.
Definition no_name (n : name) : bool := negb (is_given n) || (nm_len n =? 0).

(** The name between the quotes [ProcessIdentifierString] puts around it. *)
Definition identifier (v : option (list Z)) : option (list Z) := r ← v; q ← ProcessIdentifierString r; Some (removelast (tail q)).

(** The types that are asked for. *)
Definition types_part (type : option (list Z)) : list part :=
  match non_empty type with
  | Some t => if bool_decide (t = [$"%"]) then []
              else [Fixed (chars " AND TABLE_TYPE IN (''" ++ concat (flat_map (type_appends t) myTypes) ++ chars ") ")]
  | None => []
  end.

Section Spec.
Context (c : stmt_config) (e : catalog_env).

(** The name of the table or catalog of a key: at most 255 bytes of it, escaped, with a
    terminator. *)
Definition key_bytes (t : list Z) : list Z := (mysql_real_escape_string (pc_no_backslash (sc_params c)) (pc_charset (sc_params c)) (take 255 t)).1.
Definition key_name (t : list Z) : list Z := cstr (key_bytes t).

Definition tables_plan (cat schema table type : option (list Z)) : list part :=
  let q := if negb (MetadataId (sc_Options c) =? 0) then $"`" else $"'" in
  let all := [$"%"] in
  let cat' := match non_empty cat with Some t => Some t | None => match ce_db e with Some d => Some d | None => cat end end in
  if bool_decide (cat' = Some all /\ table = Some [] /\ schema = Some []) then [Fixed all_catalogs_text]
  else if bool_decide (cat' = Some [] /\ table = Some [] /\ schema = Some [] /\ type = Some all) then [Fixed all_types_text]
  else if bool_decide (is_Some schema /\ (schema ∉ [Some []; Some all] \/ (cat' = Some [] /\ table = Some []))) then [Fixed no_tables_text]
  else
    [Fixed tables_text] ++
    lit_if " AND TABLE_SCHEMA LIKE " q cat' ++ lit_if " AND TABLE_NAME LIKE " q (non_empty table) ++ types_part type ++
    text " ORDER BY TABLE_SCHEMA, TABLE_NAME, TABLE_TYPE".

(** The part of the query of SQLProcedureColumns behind the SELECT list. *)
Definition procedure_columns_parts (cat proc column : option (list Z)) : list part :=
  if_named "WHERE SPECIFIC_SCHEMA=" cat (text "WHERE SPECIFIC_SCHEMA LIKE DATABASE() ") ++
  if_named "AND SPECIFIC_NAME LIKE " proc [] ++
  match column with Some [] => text "AND PARAMETER_NAME IS NULL " | _ => if_named "AND PARAMETER_NAME LIKE " column [] end.
Definition identifier_parts (cat proc column : list Z) : list part :=
  named "WHERE SPECIFIC_SCHEMA=" cat ++ named "AND SPECIFIC_NAME=" proc ++ named "AND PARAMETER_NAME=" column.

Definition procedure_columns_plan (ps : list part) : plan :=
  let behind := ps ++ text " ORDER BY SPECIFIC_SCHEMA, SPECIFIC_NAME, ORDINAL_POSITION" in
  if (1023 <=? length (text_of_parts behind))%nat then Refuse MADB_ERR_HY001 None
  else Send (Fixed (MADB_PROCEDURE_COLUMNS (ce_odbc3 e) (IsAnsi (sc_ird c))) :: behind) Nothing.

Definition key_parts (table cat : option (list Z)) (schema like no_catalog tab : string) : list part :=
  match non_empty table with
  | None => []
  | Some t =>
      text schema ++ match non_empty cat with Some d => named like (key_name d) | None => text no_catalog end ++ named tab (key_name t)
  end.

Definition required : option (list Z) := Some (chars "Tablename is required").

Definition plan_of (x : call) : plan :=
  match x with
  | ColumnPrivileges _ _ table _ =>
      if no_name table then Refuse MADB_ERR_HY009 required
      else Send [Fixed column_privileges_text]
             (Warn MADB_ERR_01000 "COLUMN_PRIVILEGES is currently not supported, so the empty result is returned.")
  | TablePrivileges cat _ table =>
      Send ([Fixed table_privileges_text] ++
            if_named "TABLE_SCHEMA LIKE " (value cat) (text "TABLE_SCHEMA LIKE IF(DATABASE(), DATABASE(), '%') ") ++
            if_named "AND TABLE_NAME LIKE " (value table) [] ++ text "ORDER BY TABLE_SCHEM, TABLE_NAME, PRIVILEGE") Nothing
  | Tables cat schema table type =>
      if (64 <? length (default [] (value cat)))%nat || (64 <? length (default [] (value table)))%nat
      then Refuse MADB_ERR_HY090 (Some (chars "Table and catalog names are limited to 64 chars"))
      else Send (tables_plan (value cat) (value schema) (value table) (value type)) (Describe SqlTablesColType)
  | Statistics cat _ table Unique =>
      if no_name table then Refuse MADB_ERR_HY009 required
      else Send ([Fixed statistics_text] ++
                 if_named "WHERE TABLE_SCHEMA LIKE " (non_empty (value cat))
                   (text "WHERE TABLE_SCHEMA LIKE IF(DATABASE() IS NOT NULL, DATABASE(), '%') ") ++
                 if_named "AND TABLE_NAME LIKE " (value table) [] ++
                 (if Unique =? SQL_INDEX_UNIQUE then text "AND NON_UNIQUE=0 " else []) ++
                 text "ORDER BY NON_UNIQUE, INDEX_NAME, ORDINAL_POSITION") (Describe SqlStatsColType)
  | Columns cat _ table column =>
      Send ([Fixed (MADB_COLUMNS (ce_odbc3 e) (IsAnsi (sc_ird c)))] ++ text " WHERE TABLE_SCHEMA = " ++
            if_named "" (value cat) (text "DATABASE() ") ++ if_named "AND TABLE_NAME LIKE " (value table) [] ++
            if_named "AND COLUMN_NAME LIKE " (value column) [] ++ text " ORDER BY TABLE_SCHEMA, TABLE_NAME, ORDINAL_POSITION")
           (Describe SqlColumnsColType)
  | ProcedureColumns cat schema proc column =>
      if MetadataId (sc_Options c) =? 0
      then procedure_columns_plan (procedure_columns_parts (value cat) (value proc) (value column))
      else if negb (is_given cat && is_given schema && is_given proc && is_given column) then Refuse MADB_ERR_HY009 None
      else
        match identifier (value cat), identifier (value proc), identifier (value column) with
        | Some a, Some b, Some d => procedure_columns_plan (identifier_parts a b d)
        | _, _, _ => Refuse MADB_ERR_42000 None
        end
  | PrimaryKeys cat _ table =>
      if no_name table then Refuse MADB_ERR_HY009 required
      else Send ([Fixed primary_keys_text] ++
                 if_named "TABLE_SCHEMA LIKE " (non_empty (value cat)) (text "TABLE_SCHEMA LIKE IF(DATABASE() IS NOT NULL, DATABASE(), '%') ") ++
                 if_named "AND TABLE_NAME LIKE " (value table) [] ++ text " ORDER BY TABLE_SCHEMA, TABLE_NAME, ORDINAL_POSITION") Nothing
  | SpecialColumns IdentifierType cat _ table nulls =>
      if no_name table then Refuse MADB_ERR_HY009 (Some (chars "TableName is required"))
      else Send ([Fixed (MADB_SPECIAL_COLUMNS (ce_odbc3 e) (IsAnsi (sc_ird c)))] ++ text " WHERE TABLE_SCHEMA = " ++
                 if_named "" (value cat) (text "DATABASE() ") ++ if_named "AND TABLE_NAME LIKE " (non_empty (value table)) [] ++
                 (if nulls =? SQL_NO_NULLS then text "AND IS_NULLABLE <> 'YES' " else []) ++
                 (if IdentifierType =? SQL_BEST_ROWID then text "AND COLUMN_KEY IN ('PRI', 'UNI') "
                  else if IdentifierType =? SQL_ROWVER then text "AND EXTRA LIKE '%%on update%%' AND COLUMN_KEY NOT IN ('PRI', 'UNI') "
                  else []) ++ text " ORDER BY TABLE_SCHEMA, TABLE_NAME, COLUMN_KEY") Nothing
  | Procedures cat _ proc =>
      Send ([Fixed procedures_text] ++
            if_named "WHERE ROUTINE_SCHEMA LIKE " (non_empty (value cat)) (text "WHERE ROUTINE_SCHEMA LIKE DATABASE() ") ++
            if_named "AND SPECIFIC_NAME LIKE " (non_empty (value proc)) [] ++ text " ORDER BY ROUTINE_SCHEMA, SPECIFIC_NAME") Nothing
  | ForeignKeys pkcat _ pktable fkcat _ fktable =>
      if bool_decide (non_empty (value pktable) = None) && bool_decide (non_empty (value fktable) = None)
      then Refuse MADB_ERR_HY009 (Some (chars "PKTableName or FKTableName are required"))
      else Send ([Fixed foreign_keys_text] ++
                 key_parts (value pktable) (value pkcat) " AND A.REFERENCED_TABLE_SCHEMA " "LIKE " "= DATABASE()" " AND A.REFERENCED_TABLE_NAME = " ++
                 key_parts (value fktable) (value fkcat) " AND A.TABLE_SCHEMA = " "" "DATABASE() " " AND A.TABLE_NAME = " ++
                 text "ORDER BY FKTABLE_CAT, FKTABLE_SCHEM, FKTABLE_NAME, KEY_SEQ, PKTABLE_NAME") Nothing
  end.

(** The room for a query: the array it is printed into, or what a string can hold. *)
Definition room (x : call) : Z :=
  match x with
  | ColumnPrivileges _ _ _ _ | TablePrivileges _ _ _ => 1024
  | Statistics _ _ _ _ => 1023
  | PrimaryKeys _ _ _ | Procedures _ _ _ => 2048
  | _ => 2 ^ 31
  end.

(** The query fits, and the escaped names of SQLForeignKeys into their buffer. *)
Definition fits (x : call) : Prop :=
  match plan_of x with Send ps _ => Z.of_nat (length (text_of_parts ps)) < room x | Refuse _ _ => True end /\
  match x with
  | ForeignKeys _ _ _ _ _ _ => forall n t, n ∈ names_of x -> value n = Some t -> (length (key_bytes t) <= EscapeBuf_size)%nat
  | _ => True
  end.

End Spec.

(** An argument as applications pass it: NULL, or a string with its length or SQL_NTS. *)
Definition passes (n : name) : Prop :=
  match nm_buf n with
  | None => True
  | Some b => exists t, b = t ++ [0] /\ Forall (fun c => 0 < c < 256) t /\ Z.of_nat (length t) < 2 ^ 15 /\ (nm_len n = SQL_NTS \/ nm_len n = Z.of_nat (length t))
  end.

Section Run.
Context {A : Type} (c : stmt_config) (e : catalog_env) (ExecDirect : option (list Z) -> Z -> MADB_Stmt A -> option (Z * MADB_Stmt A)).
Implicit Types s : MADB_Stmt A.

Definition run (x : call) s : option (Z * MADB_Stmt A) :=
  match x with
  | ColumnPrivileges a b t d => MADB_StmtColumnPrivileges c ExecDirect a b t d s
  | TablePrivileges a b t => MADB_StmtTablePrivileges c ExecDirect a b t s
  | Tables a b t d => MADB_StmtTables c e ExecDirect a b t d s
  | Statistics a b t u => MADB_StmtStatistics c ExecDirect a b t u s
  | Columns a b t d => MADB_StmtColumns c e ExecDirect a b t d s
  | ProcedureColumns a b p d => MADB_StmtProcedureColumns c e ExecDirect a b p d s
  | PrimaryKeys a b t => MADB_StmtPrimaryKeys c ExecDirect a b t s
  | SpecialColumns i a b t n => MADB_StmtSpecialColumns c e ExecDirect i a b t n s
  | Procedures a b p => MADB_StmtProcedures c ExecDirect a b p s
  | ForeignKeys a b t a' b' t' => MADB_StmtForeignKeys c ExecDirect a b t a' b' t' s
  end.

Definition follow (f : followup) (r : option (Z * MADB_Stmt A)) : option (Z * MADB_Stmt A) :=
  match f with
  | Nothing => r
  | Describe infos => and_fix c infos r
  | Warn code msg => '(ret, s) ← r; if SQL_SUCCEEDED ret then refuse_call s code msg else Some (ret, s)
  end.

(** Up to the error record, which may have been cleared, and the answers of the
    allocator. *)
Definition ready s s' : Prop :=
  exists E l, s' = set_params s (Params.MkParamState (Params.pm_world (ms_params s)) (Params.pm_memory (ms_params s)) E l) /\
    (E = error_of s \/ E = MADB_CLEAR_ERROR (error_of s)).

(** The text of a buffer that is handed over with a length or SQL_NTS. *)
Definition sent_text (buf : list Z) (len : Z) : list Z := take (Z.to_nat (SafeStrlen buf len)) buf.

Definition implements (x : call) s : Prop :=
  match plan_of c e x with
  | Refuse code msg => exists s', ready s s' /\ run x s = Some (stmt_fail s' code msg 0)
  | Send ps f => exists buf len s', ready s s' /\ sent_text buf len = text_of_parts ps /\ run x s = follow f (ExecDirect (Some buf) len s')
  end.

End Run.

(** ** Arguments *)

Definition nonzero (l : list Z) : Prop := Forall (fun c => c <> 0) l.

Lemma nonzero_check l : forallb (fun c => negb (c =? 0)) l = true -> nonzero l.
Proof. intros H. apply Forall_forall. intros c Hc ->. rewrite forallb_forall in H. apply list_elem_of_In, H in Hc. done. Qed.

(** Membership in a list that is written out. *)
Ltac in_list := repeat first [by left | right].

Ltac nz := apply nonzero_check; vm_compute; reflexivity.

(** A name that is not printed, or one that is. *)
Definition named_by (n : name) (v : option (list Z)) : Prop := v = None \/ exists t, v = Some t /\ nonzero t /\ arg_string n = Some t.

(** The two kinds of arguments. *)
Inductive arg (n : name) : option (list Z) -> Prop :=
| arg_null : nm_buf n = None -> arg n None
| arg_text t : nm_buf n = Some (t ++ [0]) -> nonzero t -> Forall (fun c => 0 < c < 256) t -> Z.of_nat (length t) < 2 ^ 15 ->
    (nm_len n = SQL_NTS \/ nm_len n = Z.of_nat (length t)) -> arg n (Some t).

Lemma passes_arg n : passes n -> arg n (value n).
Proof.
  unfold passes, value. destruct (nm_buf n) as [b|] eqn:E; cbn; [|by constructor]. intros (t & -> & Hb & Hl & Hn).
  assert (nonzero t) as Hz by (eapply Forall_impl; [exact Hb|]; cbn; lia). rewrite cstr_app_nul by done. by constructor.
Qed.

Lemma given_value n v : arg n v -> is_given n = bool_decide (is_Some v).
Proof. unfold is_given. intros [-> |t -> _ _ _]; [done|]. by rewrite !bool_decide_eq_true_2. Qed.
Lemma required_name n v : arg n v -> no_name n = false -> is_Some v.
Proof. intros H [Hg _]%orb_false_iff. apply negb_false_iff in Hg. rewrite (given_value n v H) in Hg. by apply bool_decide_eq_true in Hg. Qed.
Lemma given_adjusted n v : arg n v -> is_given (ADJUST_LENGTH n) = bool_decide (is_Some v).
Proof. exact (given_value n v). Qed.
Lemma arg_string_ok n t : arg n (Some t) -> arg_string n = Some t.
Proof.
  intros H. inversion H as [|t' E Hz _ _ _]. subst t'. unfold arg_string. rewrite E. cbn [mbind option_bind].
  rewrite bool_decide_eq_true_2 by (apply elem_of_app; right; by left). by rewrite cstr_app_nul.
Qed.
Lemma adjusted n v : arg n v -> arg (ADJUST_LENGTH n) v /\ nm_len (ADJUST_LENGTH n) = match v with Some t => Z.of_nat (length t) | None => 0 end.
Proof.
  unfold ADJUST_LENGTH. intros [E|t E Hz Hb Hl Hn]; rewrite E; cbn [nm_len]; [by split; [constructor|]|].
  assert (wraps 16 (SafeStrlen (t ++ [0]) (nm_len n)) = Z.of_nat (length t)) as ->.
  { rewrite Lifecycle.Lifecycle.text_length_C by (first [exact Hz|destruct Hn as [-> | ->]; [by left|by right]]). apply wraps_id; change (2 ^ (16 - 1)) with (2 ^ 15); lia. }
  split; [|done]. constructor; auto.
Qed.
Lemma given_not_empty n v : arg n v -> is_given (ADJUST_LENGTH n) && negb (nm_len (ADJUST_LENGTH n) =? 0) = bool_decide (is_Some (non_empty v)).
Proof.
  intros H. rewrite (given_adjusted n v H), (proj2 (adjusted n v H)). destruct v as [[|x t]|]; [done| |done]. rewrite !bool_decide_eq_true_2 by done. done.
Qed.
Lemma non_empty_arg n v t : arg n v -> non_empty v = Some t -> arg n (Some t).
Proof. intros H E. destruct v as [[|x u]|]; try done. cbn in E. by injection E as <-. Qed.
Lemma arg_bytes_ok n t : arg n (Some t) -> arg_bytes (ADJUST_LENGTH n) = Some t.
Proof.
  intros H. destruct (adjusted n _ H) as [_ Hl]. inversion H as [|t' E _ _ _ _]. subst t'. unfold arg_bytes. rewrite Hl.
  change (nm_buf (ADJUST_LENGTH n)) with (nm_buf n). rewrite E. cbn [mbind option_bind]. rewrite length_app, Nat2Z.id.
  rewrite (proj2 (Z.leb_le 0 _)), (proj2 (Z.leb_le _ (Z.of_nat _))) by lia. cbn [andb]. by rewrite take_app_length.
Qed.
Lemma arg_part_ok n t : arg n (Some t) -> arg_part (ADJUST_LENGTH n) = Some t.
Proof.
  intros H. destruct (adjusted n _ H) as [_ Hl]. inversion H as [|t' E Hz _ _ _]. subst t'. unfold arg_part. rewrite Hl.
  change (nm_buf (ADJUST_LENGTH n)) with (nm_buf n). rewrite E. cbn [mbind option_bind].
  rewrite (proj2 (Z.ltb_ge _ 0)) by lia. rewrite bool_decide_eq_true_2 by (apply elem_of_app; right; by left). cbn [orb].
  rewrite Nat2Z.id, cstr_app_nul by done. by rewrite firstn_all.
Qed.
Lemma not_empty_ok n v : arg n v -> not_empty n = Some (bool_decide (is_Some (non_empty v))).
Proof.
  intros [E|t E Hz _ _ _]; unfold not_empty, arg_first; rewrite E; [done|]. cbn [mbind option_bind]. destruct t as [|x t]; [done|].
  apply Forall_cons in Hz as [Hx _]. cbn. by rewrite (proj2 (Z.eqb_neq x 0)).
Qed.
Lemma arg_not_empty n v : arg n v -> named_by n (non_empty v).
Proof. intros H. inversion H as [E|t E Hz]; subst v; [by left|]. destruct t as [|x t]; [by left|]. right. exists (x :: t). split_and!; [done..|]. by apply arg_string_ok. Qed.
Lemma arg_named n v : arg n v -> named_by n v.
Proof. intros H. inversion H as [E|t E Hz]; subst v; [by left|]. right. exists t. split_and!; [done..|]. by apply arg_string_ok. Qed.
Lemma equals_all_ok n t : arg n (Some t) -> equals_all (ADJUST_LENGTH n) = bool_decide (t = [] \/ t = [$"%"]).
Proof.
  intros H. destruct (adjusted n _ H) as [_ Hl]. inversion H as [|t' E Hz _ _ _]. subst t'. unfold equals_all. rewrite Hl.
  change (nm_buf (ADJUST_LENGTH n)) with (nm_buf n). rewrite E. change (default [] (Some (t ++ [0]))) with (t ++ [0]). symmetry. unfold SQL_ALL.
  destruct t as [|x [|y t]]; [done| |].
  - cbn [app strncmp_eq length]. change (Z.of_nat 1 =? 0) with false. change (Z.of_nat 1 - 1 =? 0) with true. cbv iota.
    rewrite orb_true_r, andb_true_r. destruct (Z.eqb_spec x ($"%")) as [->|Hx]; [by apply bool_decide_eq_true; right|].
    apply bool_decide_eq_false. by intros [?|[= ?]].
  - rewrite bool_decide_eq_false_2 by (intros [?|?]; done). cbn [app strncmp_eq length].
    rewrite (proj2 (Z.eqb_neq (Z.of_nat (S (S (length t)))) 0)) by lia. destruct (x =? $"%"); [|done]. cbn [andb].
    apply Forall_cons in Hz as [Hx Hz]. apply Forall_cons in Hz as [Hy _]. rewrite (proj2 (Z.eqb_neq x 0)) by done. cbn [orb].
    rewrite (proj2 (Z.eqb_neq (Z.of_nat (S (S (length t))) - 1) 0)) by lia. by rewrite (proj2 (Z.eqb_neq y 0)).
Qed.

(** ** Texts of parts *)

Lemma parts_app ps qs : text_of_parts (ps ++ qs) = text_of_parts ps ++ text_of_parts qs.
Proof. unfold text_of_parts. by rewrite fmap_app, concat_app. Qed.
Lemma parts_text t : text_of_parts (text t) = chars t.
Proof. apply app_nil_r. Qed.
Lemma parts_fixed t : text_of_parts [Fixed t] = t.
Proof. apply app_nil_r. Qed.
Lemma parts_named before v : text_of_parts (named before v) = chars before ++ [$"'"] ++ v ++ chars "' ".
Proof. unfold text_of_parts, named. cbn. by rewrite <- !app_assoc. Qed.
Lemma parts_nonzero ps : Forall (fun p => nonzero (part_text p)) ps -> nonzero (text_of_parts ps).
Proof. intros H. unfold nonzero, text_of_parts. apply Forall_concat, Forall_fmap. exact H. Qed.
Lemma nonzero_app a b : nonzero a -> nonzero b -> nonzero (a ++ b).
Proof. intros. by apply Forall_app. Qed.
Lemma nonzero_named before v : nonzero (chars before) -> nonzero v -> nonzero (text_of_parts (named before v)).
Proof. intros. rewrite parts_named. repeat apply nonzero_app; try done; nz. Qed.
Lemma nonzero_if_named n before v ps : named_by n v -> nonzero (chars before) -> nonzero (text_of_parts ps) -> nonzero (text_of_parts (if_named before v ps)).
Proof. intros [->|(t & -> & Hz & _)] Hb Hp; cbn [if_named]; [done|]. by apply nonzero_named. Qed.
Lemma nonzero_if_non_empty n before v ps : arg n v -> nonzero (chars before) -> nonzero (text_of_parts ps) ->
  nonzero (text_of_parts (if_named before (non_empty v) ps)).
Proof. intros H%arg_not_empty Hb Hp. by eapply nonzero_if_named. Qed.

(** A name printed between two texts. *)
Lemma around_ok (before before' : string) n t : named_by n (Some t) -> chars before' = chars before ++ [$"'"] ->
  around before' n "' " = Some (text_of_parts (named before t)).
Proof. intros [|(t' & [= <-] & _ & H)] E; [done|]. unfold around. rewrite H. cbn [mbind option_bind]. by rewrite parts_named, E, <- !app_assoc. Qed.

(** ** Arrays *)

(** An array that holds a text, with the pointer behind it. *)
Definition holds (N : nat) (t : list Z) (x : list Z * Z) : Prop :=
  exists rest, x = (t ++ 0 :: rest, Z.of_nat (length t)) /\ length (t ++ 0 :: rest) = N /\ nonzero t.

Lemma vsnprintf_ok t u r count : Z.of_nat (length u) < count -> (length u < length r)%nat ->
  vsnprintf (t ++ r) (Z.of_nat (length t)) count u = Some (t ++ u ++ 0 :: drop (S (length u)) r).
Proof.
  intros Hc Hr. unfold vsnprintf. rewrite (proj2 (Z.eqb_neq count 0)) by lia. rewrite (take_ge u) by lia.
  rewrite memcpy_Some by (rewrite ?length_app; cbn [length]; lia). unfold blit. rewrite Nat2Z.id, take_app_length, length_app.
  replace (length t + length r - length t)%nat with (length r) by lia. rewrite take_ge by (rewrite length_app; cbn [length]; lia).
  rewrite length_app, drop_app_ge by lia. cbn [length]. rewrite <- app_assoc. do 3 f_equal. cbn [app]. f_equal. f_equal. lia.
Qed.

Lemma strlen_holds t rest : nonzero t -> strlen (t ++ 0 :: rest) 0 = length t.
Proof.
  intros Hz. unfold strlen, cstr_at. by rewrite drop_0, cstr_app_nul.
Qed.

Lemma holds_end N t x : holds N t x -> Z.of_nat (strlen x.1 0) = x.2.
Proof. intros (rest & -> & _ & Hz). cbn [fst snd]. by rewrite strlen_holds. Qed.

Lemma start_print_ok c N count u : nonzero u -> Z.of_nat (length u) < count -> (length u < N)%nat ->
  exists x, start_print (junk c) N count u = Some x /\ holds N u x.
Proof.
  intros Hz Hc HN. unfold start_print, snprintf_posix. change (replicate N (junk c)) with ([] ++ replicate N (junk c)).
  rewrite (vsnprintf_ok [] u _ count) by (rewrite ?length_replicate; done). cbn [mbind option_bind]. rewrite (proj2 (Z.ltb_ge _ _)) by lia.
  eexists. split; [reflexivity|]. exists (drop (S (length u)) (replicate N (junk c))). split_and!; [done| |done].
  rewrite length_app. cbn [length]. rewrite length_drop, length_replicate. lia.
Qed.

Lemma print_ok N size t u x : holds N t x -> nonzero u -> Z.of_nat (length t + length u) < size <= Z.of_nat N -> Z.of_nat N < 2 ^ 31 ->
  exists x', print size u x = Some x' /\ holds N (t ++ u) x'.
Proof.
  intros (rest & -> & HN & Hz) Hu Hs Hb. unfold print, snprintf_posix. cbn [fst snd]. rewrite strlen_holds by done.
  rewrite length_app in HN. cbn [length] in HN. rewrite wrapu_id by lia.
  rewrite vsnprintf_ok by (cbn [length]; lia). cbn [mbind option_bind]. rewrite (proj2 (Z.ltb_ge _ _)) by lia.
  eexists. split; [reflexivity|]. exists (drop (length u) rest). split_and!.
  - f_equal; [by rewrite <- app_assoc|]. rewrite length_app. lia.
  - rewrite <- app_assoc, !length_app. cbn [length]. rewrite length_drop. lia.
  - by apply nonzero_app.
Qed.

(** The text that is executed. *)
Lemma sent_prefix t rest len : nonzero t -> len < 0 \/ len = Z.of_nat (length t) -> sent_text (t ++ 0 :: rest) len = t.
Proof.
  intros Hz Hl. unfold sent_text. rewrite CharsetProps.SafeStrlen_SqlwcsLen.
  pose proof (cstr_app_nul t rest Hz) as Hc.
  destruct Hl as [Hl|Hl].
  - rewrite CharsetProps.SqlwcsLen_unbounded, Hc by lia. by rewrite Nat2Z.id, take_app_length.
  - rewrite CharsetProps.SqlwcsLen_bound, Hc, Hl, !Nat2Z.id, Nat.min_id by lia. by rewrite take_app_length.
Qed.

Lemma sent_holds N t x len : holds N t x -> len < 0 \/ len = Z.of_nat (length t) -> sent_text x.1 len = t.
Proof. intros (rest & -> & _ & Hz) Hl. by apply sent_prefix. Qed.

(** *** The functions that print into arrays *)

Section Arrays.
Context {A : Type} (c : stmt_config) (e : catalog_env) (ExecDirect : option (list Z) -> Z -> MADB_Stmt A -> option (Z * MADB_Stmt A)).
Implicit Types s : MADB_Stmt A.

Lemma ready_clear s : ready s (clear_error s).
Proof. exists (MADB_CLEAR_ERROR (error_of s)), (Params.pm_answers (ms_params s)). split; [done|by right]. Qed.
Lemma ready_refl s : ready s s.
Proof. exists (error_of s), (Params.pm_answers (ms_params s)). split; [|by left]. by destruct s as [[]]. Qed.

Section Parts.
Context (N : nat) (size : Z).
Hypothesis (HN : size <= Z.of_nat N) (Hs : Z.of_nat N < 2 ^ 31).

(** Printing further parts. *)
Lemma print_parts ps qs x : holds N (text_of_parts ps) x -> nonzero (text_of_parts qs) -> Z.of_nat (length (text_of_parts (ps ++ qs))) < size ->
  exists x', print size (text_of_parts qs) x = Some x' /\ holds N (text_of_parts (ps ++ qs)) x'.
Proof. rewrite parts_app, length_app. intros. eapply print_ok; try done; lia. Qed.

(** A condition that depends on a name: with another text when it is missing, or nothing. *)
Lemma print_choice ps before before' otherwise n v x : named_by n v -> chars before' = chars before ++ [$"'"] -> holds N (text_of_parts ps) x ->
  nonzero (chars before) -> nonzero (chars otherwise) -> Z.of_nat (length (text_of_parts (ps ++ if_named before v (text otherwise)))) < size ->
  exists x', (t ← (if bool_decide (is_Some v) then around before' n "' " else Some (chars otherwise)); print size t x) = Some x' /\
    holds N (text_of_parts (ps ++ if_named before v (text otherwise))) x'.
Proof.
  intros Ha Hb Hh H1 H2 Hl.
  destruct (print_parts ps (if_named before v (text otherwise)) x Hh ltac:(eapply nonzero_if_named; rewrite ?parts_text; done) Hl) as (x' & E & H).
  exists x'. split; [|done]. rewrite <- E. destruct v as [t|]; cbn [if_named].
  - rewrite bool_decide_eq_true_2 by done. by rewrite (around_ok before before' n t).
  - by rewrite parts_text.
Qed.
Lemma print_optional ps before before' n v x : named_by n v -> chars before' = chars before ++ [$"'"] -> holds N (text_of_parts ps) x ->
  nonzero (chars before) -> Z.of_nat (length (text_of_parts (ps ++ if_named before v []))) < size ->
  exists x', (if bool_decide (is_Some v) then t ← around before' n "' "; print size t x else Some x) = Some x' /\
    holds N (text_of_parts (ps ++ if_named before v [])) x'.
Proof.
  intros Ha Hb Hh H1 Hl. destruct v as [t|]; cbn [if_named] in *; [|exists x; by rewrite app_nil_r].
  rewrite bool_decide_eq_true_2 by done. rewrite (around_ok before before' n t) by done. apply print_parts; try done.
  destruct Ha as [|(t' & [= <-] & Hz & _)]; [done|]. by apply nonzero_named.
Qed.

End Parts.

Lemma parts_length ps qs : length (text_of_parts (ps ++ qs)) = (length (text_of_parts ps) + length (text_of_parts qs))%nat.
Proof. by rewrite parts_app, length_app. Qed.

(** The next print of a chain: the lemma that says what it does, and the array behind it. *)
Ltac print_next L x H :=
  let E := fresh "Eq" in destruct L as (x & E & H);
    [first [nz | rewrite parts_text; nz]..|rewrite ?parts_length in *; lia|];
  first [rewrite E | (let t := fresh "t" in destruct (if bool_decide _ then _ else _) as [t|]; [|done]; cbn [mbind option_bind] in E |- *; rewrite E)
        | (rewrite parts_text in E; rewrite E)]; clear E; cbn [mbind option_bind].

Ltac print_first T x H :=
  let E := fresh "Eq" in match goal with |- context [start_print (junk c) ?N ?n T] =>
    destruct (start_print_ok c N n T) as (x & E & H); [nz|by vm_compute|apply Nat.ltb_lt; by vm_compute|] end;
  rewrite E; clear E; rewrite <- (parts_fixed T) in H; cbn [mbind option_bind].

Lemma array_done N t x len f s : holds N t x -> len < 0 \/ len = Z.of_nat (length t) ->
  exists buf len' s', ready s s' /\ sent_text buf len' = t /\ follow c f (ExecDirect (Some x.1) len (clear_error s)) = follow c f (ExecDirect (Some buf) len' s').
Proof. intros H Hl. exists x.1, len, (clear_error s). split; [apply ready_clear|]. split; [by eapply sent_holds|done]. Qed.

Lemma strlen_array N t x : holds N t x -> Z.of_nat N < 2 ^ 31 -> wraps 32 (Z.of_nat (strlen x.1 0)) = Z.of_nat (length t).
Proof.
  intros (rest & -> & HN & Hz) Hb. cbn [fst]. rewrite strlen_holds by done. rewrite length_app in HN. rewrite wraps_id by lia. done.
Qed.

Lemma TablePrivileges_ok cat schema table s : passes cat -> passes table -> fits c e (TablePrivileges cat schema table) ->
  implements c e ExecDirect (TablePrivileges cat schema table) s.
Proof.
  intros Hc%passes_arg Ht%passes_arg [Hf _]. unfold implements. cbn [plan_of run room] in *. unfold MADB_StmtTablePrivileges.
  rewrite (given_value cat _ Hc), (given_value table _ Ht). rewrite !app_assoc in *. print_first table_privileges_text x0 H0.
  print_next (print_choice 1024 1024 ltac:(lia) ltac:(lia) _ "TABLE_SCHEMA LIKE " "TABLE_SCHEMA LIKE '"
    "TABLE_SCHEMA LIKE IF(DATABASE(), DATABASE(), '%') " cat _ x0 (arg_named _ _ Hc) eq_refl H0) x1 H1.
  print_next (print_optional 1024 1024 ltac:(lia) ltac:(lia) _ "AND TABLE_NAME LIKE " "AND TABLE_NAME LIKE '" table _ x1 (arg_named _ _ Ht) eq_refl H1) x2 H2.
  print_next (print_parts 1024 1024 ltac:(lia) ltac:(lia) _ (text "ORDER BY TABLE_SCHEM, TABLE_NAME, PRIVILEGE") x2 H2) x3 H3.
  refine (array_done 1024 _ x3 _ Nothing s H3 _). right. eapply strlen_array; [exact H3|lia].
Qed.

Lemma Statistics_ok cat schema table Unique s : passes cat -> passes table -> fits c e (Statistics cat schema table Unique) ->
  implements c e ExecDirect (Statistics cat schema table Unique) s.
Proof.
  intros Hc%passes_arg Ht%passes_arg [Hf _]. unfold implements. cbn [plan_of run room] in *. unfold MADB_StmtStatistics. unfold no_name in *.
  destruct (negb (is_given table) || (nm_len table =? 0)) eqn:En; [exists (clear_error s); split; [apply ready_clear|done]|].
  destruct (required_name table _ Ht En) as [t Et].
  rewrite Et in *. cbn [if_named] in *. rewrite !app_assoc in *.
  destruct (start_print_ok c 1024 1024 statistics_text) as ([b p] & -> & H0); [nz|by vm_compute|apply Nat.ltb_lt; by vm_compute|]. cbn [mbind option_bind].
  assert (Z.of_nat (strlen b 0) = p) as -> by (by apply (holds_end _ _ _ H0)).
  rewrite <- (parts_fixed statistics_text) in H0. rewrite (not_empty_ok cat _ Hc). cbn [mbind option_bind].
  print_next (print_choice 1024 1023 ltac:(lia) ltac:(lia) _ "WHERE TABLE_SCHEMA LIKE " "WHERE TABLE_SCHEMA LIKE '"
    "WHERE TABLE_SCHEMA LIKE IF(DATABASE() IS NOT NULL, DATABASE(), '%') " cat _ _ (arg_not_empty cat _ Hc) eq_refl H0) x1 H1.
  rewrite (around_ok "AND TABLE_NAME LIKE " "AND TABLE_NAME LIKE '" table t (arg_named _ _ Ht) eq_refl). cbn [mbind option_bind].
  destruct (print_parts 1024 1023 ltac:(lia) ltac:(lia) _ (named "AND TABLE_NAME LIKE " t) x1 H1) as (x2 & -> & H2);
    [apply nonzero_named; [nz|by inversion Ht]|rewrite ?parts_length in *; lia|]. cbn [mbind option_bind].
  assert (exists x3, (if Unique =? SQL_INDEX_UNIQUE then print 1023 (chars "AND NON_UNIQUE=0 ") x2 else Some x2) = Some x3 /\
    holds 1024 (text_of_parts (((([Fixed statistics_text] ++ if_named "WHERE TABLE_SCHEMA LIKE " (non_empty (value cat))
       (text "WHERE TABLE_SCHEMA LIKE IF(DATABASE() IS NOT NULL, DATABASE(), '%') ")) ++ named "AND TABLE_NAME LIKE " t) ++
       (if Unique =? SQL_INDEX_UNIQUE then text "AND NON_UNIQUE=0 " else [])))) x3) as (x3 & -> & H3).
  { destruct (Unique =? SQL_INDEX_UNIQUE); [|exists x2; by rewrite app_nil_r].
    rewrite <- (parts_text "AND NON_UNIQUE=0 "). apply (print_parts 1024 1023); [lia|lia|done|rewrite parts_text; nz|rewrite !parts_length in *; lia]. }
  cbn [mbind option_bind].
  print_next (print_parts 1024 1023 ltac:(lia) ltac:(lia) _ (text "ORDER BY NON_UNIQUE, INDEX_NAME, ORDINAL_POSITION") x3 H3) x4 H4.
  refine (array_done 1024 _ x4 _ (Describe SqlStatsColType) s H4 _). by left.
Qed.

Lemma PrimaryKeys_ok cat schema table s : passes cat -> passes table -> fits c e (PrimaryKeys cat schema table) ->
  implements c e ExecDirect (PrimaryKeys cat schema table) s.
Proof.
  intros Hc%passes_arg Ht%passes_arg [Hf _]. unfold implements. cbn [plan_of run room] in *. unfold MADB_StmtPrimaryKeys. unfold no_name in *.
  destruct (negb (is_given table) || (nm_len table =? 0)) eqn:En; [exists (clear_error s); split; [apply ready_clear|done]|].
  destruct (required_name table _ Ht En) as [t Et].
  rewrite Et in *. cbn [if_named] in *. rewrite !app_assoc in *. print_first primary_keys_text x0 H0. rewrite (not_empty_ok cat _ Hc). cbn [mbind option_bind].
  print_next (print_choice 2048 2048 ltac:(lia) ltac:(lia) _ "TABLE_SCHEMA LIKE " "TABLE_SCHEMA LIKE '"
    "TABLE_SCHEMA LIKE IF(DATABASE() IS NOT NULL, DATABASE(), '%') " cat _ _ (arg_not_empty cat _ Hc) eq_refl H0) x1 H1.
  rewrite (around_ok "AND TABLE_NAME LIKE " "AND TABLE_NAME LIKE '" table t (arg_named _ _ Ht) eq_refl). cbn [mbind option_bind].
  destruct (print_parts 2048 2048 ltac:(lia) ltac:(lia) _ (named "AND TABLE_NAME LIKE " t) x1 H1) as (x2 & -> & H2);
    [apply nonzero_named; [nz|by inversion Ht]|rewrite ?parts_length in *; lia|]. cbn [mbind option_bind].
  print_next (print_parts 2048 2048 ltac:(lia) ltac:(lia) _ (text " ORDER BY TABLE_SCHEMA, TABLE_NAME, ORDINAL_POSITION") x2 H2) x3 H3.
  refine (array_done 2048 _ x3 _ Nothing s H3 _). by left.
Qed.

Lemma Procedures_ok cat schema proc s : passes cat -> passes proc -> fits c e (Procedures cat schema proc) ->
  implements c e ExecDirect (Procedures cat schema proc) s.
Proof.
  intros Hc%passes_arg Hp%passes_arg [Hf _]. unfold implements. cbn [plan_of run room] in *. unfold MADB_StmtProcedures.
  rewrite !app_assoc in *. print_first procedures_text x0 H0. rewrite (not_empty_ok cat _ Hc), (not_empty_ok proc _ Hp). cbn [mbind option_bind].
  print_next (print_choice 2048 2048 ltac:(lia) ltac:(lia) _ "WHERE ROUTINE_SCHEMA LIKE " "WHERE ROUTINE_SCHEMA LIKE '"
    "WHERE ROUTINE_SCHEMA LIKE DATABASE() " cat _ _ (arg_not_empty cat _ Hc) eq_refl H0) x1 H1.
  print_next (print_optional 2048 2048 ltac:(lia) ltac:(lia) _ "AND SPECIFIC_NAME LIKE " "AND SPECIFIC_NAME LIKE '" proc _ x1
    (arg_not_empty proc _ Hp) eq_refl H1) x2 H2.
  print_next (print_parts 2048 2048 ltac:(lia) ltac:(lia) _ (text " ORDER BY ROUTINE_SCHEMA, SPECIFIC_NAME") x2 H2) x3 H3.
  refine (array_done 2048 _ x3 _ Nothing s H3 _). by left.
Qed.

Lemma ColumnPrivileges_ok cat schema table column s : implements c e ExecDirect (ColumnPrivileges cat schema table column) s.
Proof.
  unfold implements. cbn [plan_of run]. unfold MADB_StmtColumnPrivileges, no_name.
  destruct (negb (is_given table) || (nm_len table =? 0)); [exists (clear_error s); split; [apply ready_clear|done]|].
  destruct (start_print_ok c 1024 1024 column_privileges_text) as ([b p] & -> & H); [nz|by vm_compute|apply Nat.ltb_lt; by vm_compute|]. cbn [mbind option_bind].
  rewrite parts_fixed. refine (array_done 1024 _ (b, p) _ (Warn _ _) s H _). right. eapply (strlen_array 1024 _ (b, p)); [exact H|lia].
Qed.

End Arrays.

(** *** Dynamic strings *)

(** A string under construction that holds a text, with the error record. *)
Definition built (E : MADB_Error) (t : list Z) (b : builder) : Prop :=
  wf (dyn b) /\ contents (dyn b) = t /\ sb_Error b = E /\ false ∉ answers b.

Lemma wf_block d t : wf d -> contents d = t -> exists rest, str d = Some (t ++ 0 :: rest).
Proof.
  intros (b & Hb & Hlb & Hl & _ & _ & H0) Hc. unfold contents in Hc. rewrite Hb in *. cbn [default from_option id] in Hc. subst t.
  destruct (drop (Z.to_nat (length_ d)) b) as [|z l] eqn:Ed.
  { apply (f_equal length) in Ed. rewrite length_drop in Ed. cbn in Ed. lia. }
  exists l. f_equal. rewrite <- (take_drop (Z.to_nat (length_ d)) b) at 1. rewrite Ed.
  pose proof (rd_drop b (Z.to_nat (length_ d)) 0) as Hd. rewrite Ed, Nat.add_0_r, H0 in Hd. cbn in Hd. by rewrite Hd.
Qed.

Lemma built_length E t b : built E t b -> length_ (dyn b) = Z.of_nat (length t).
Proof. intros (Hw & <- & _). by rewrite length_contents. Qed.

Lemma produces_built E t u f b : produces f u -> built E t b -> Z.of_nat (length (t ++ u)) < 2 ^ 62 -> exists b', f b = Some (false, b') /\ built E (t ++ u) b'.
Proof.
  intros Hf Hb Hl. pose proof (built_length _ _ _ Hb) as Hn. destruct Hb as (Hw & Hc & He & Ha). rewrite length_app in Hl.
  destruct (produces_ok f u b Hf Hw ltac:(lia) Ha) as (b' & E' & Hw' & Hc' & He' & Ha'). exists b'. split; [done|]. split_and!; congruence.
Qed.

Lemma appends_ok c E l : forall t b, built E t b -> Z.of_nat (length (t ++ concat l)) < 2 ^ 62 ->
  exists b', appends c l b = Some b' /\ built E (t ++ concat l) b'.
Proof.
  induction l as [|u l IH]; intros t b Hb Hl; cbn [appends concat] in *; [exists b; by rewrite app_nil_r|].
  rewrite app_assoc in *. destruct (produces_built E t u _ b (produces_append (junk c) u) Hb) as (b1 & -> & H1); [rewrite length_app in Hl; lia|].
  cbn [mbind option_bind]. by apply IH.
Qed.

(** *** The tests of SQLTables *)

Lemma is_empty_ok n v : arg n v -> is_given (ADJUST_LENGTH n) && (nm_len (ADJUST_LENGTH n) =? 0) = bool_decide (v = Some []).
Proof.
  intros H. rewrite (given_adjusted n v H), (proj2 (adjusted n v H)). destruct v as [[|x t]|]; done.
Qed.
Lemma is_all_ok n v : arg n v ->
  is_given (ADJUST_LENGTH n) && negb (nm_len (ADJUST_LENGTH n) =? 0) && equals_all (ADJUST_LENGTH n) = bool_decide (v = Some [$"%"]).
Proof.
  intros H. rewrite (given_not_empty n v H). destruct v as [[|x t]|]; [done| |done]. rewrite bool_decide_eq_true_2 by done.
  rewrite (equals_all_ok n _ H). cbn [andb]. apply bool_decide_ext. split; [by intros [?|[= -> ->]]|intros [= -> ->]; by right].
Qed.

(** The tests of SQLTables, in terms of the strings. *)
Section Tests.
Context (cat schema table type : name) (C S T Y : option (list Z)).
Hypothesis (Hc : arg cat C) (Hs : arg schema S) (Ht : arg table T) (Hy : arg type Y).
Let all := [$"%"].
Let no_table := is_given (ADJUST_LENGTH table) && (nm_len (ADJUST_LENGTH table) =? 0).
Let no_schema := is_given (ADJUST_LENGTH schema) && (nm_len (ADJUST_LENGTH schema) =? 0).

Lemma lists_catalogs : is_given (ADJUST_LENGTH cat) && negb (nm_len (ADJUST_LENGTH cat) =? 0) && no_table && no_schema && equals_all (ADJUST_LENGTH cat)
  = bool_decide (C = Some all /\ T = Some [] /\ S = Some []).
Proof.
  unfold no_table, no_schema. rewrite (is_empty_ok _ _ Hs), (is_empty_ok _ _ Ht).
  pose proof (is_all_ok _ _ Hc) as H. repeat (destruct (equals_all (ADJUST_LENGTH cat)), (is_given _ && negb _); cbn [andb] in *);
    rewrite ?andb_true_r, ?andb_false_r; repeat case_bool_decide; naive_solver.
Qed.

Lemma lists_types : is_given (ADJUST_LENGTH cat) && (nm_len (ADJUST_LENGTH cat) =? 0) && no_table && no_schema && is_given (ADJUST_LENGTH type)
    && negb (nm_len (ADJUST_LENGTH type) =? 0) && equals_all (ADJUST_LENGTH type)
  = bool_decide (C = Some [] /\ T = Some [] /\ S = Some [] /\ Y = Some all).
Proof.
  unfold no_table, no_schema. rewrite (is_empty_ok _ _ Hs), (is_empty_ok _ _ Ht), (is_empty_ok _ _ Hc).
  rewrite <- (andb_assoc _ (is_given (ADJUST_LENGTH type))), <- andb_assoc, (is_all_ok _ _ Hy). repeat case_bool_decide; naive_solver.
Qed.

Lemma lists_nothing : is_given (ADJUST_LENGTH schema) && ((equals_all (ADJUST_LENGTH schema) && is_given (ADJUST_LENGTH cat) && (nm_len (ADJUST_LENGTH cat) =? 0)
    && no_table) || negb (equals_all (ADJUST_LENGTH schema)))
  = bool_decide (is_Some S /\ (S ∉ [Some []; Some all] \/ (C = Some [] /\ T = Some []))).
Proof.
  unfold no_table. rewrite (is_empty_ok _ _ Ht), <- (andb_assoc _ (is_given (ADJUST_LENGTH cat))), (is_empty_ok _ _ Hc), (given_adjusted _ _ Hs).
  destruct S as [t|]; [|symmetry; apply bool_decide_eq_false; by intros [[? ?] ?]].
  rewrite (equals_all_ok _ _ Hs), bool_decide_eq_true_2 by done. cbn [andb].
  assert (Some t ∉ [Some []; Some all] <-> ~ (t = [] \/ t = [$"%"])) as Hin by (rewrite !not_elem_of_cons; unfold all; set_solver).
  destruct (bool_decide (t = [] \/ t = [$"%"])) eqn:Eb; [apply bool_decide_eq_true in Eb|apply bool_decide_eq_false in Eb]; cbn [andb negb];
    rewrite ?orb_false_r; repeat case_bool_decide; try done; naive_solver.
Qed.
End Tests.

Section Strings.
Context {A : Type} (c : stmt_config) (e : catalog_env) (ExecDirect : option (list Z) -> Z -> MADB_Stmt A -> option (Z * MADB_Stmt A)).
Implicit Types s : MADB_Stmt A.

Lemma open_ok init size inc s : false ∉ Params.pm_answers (ms_params s) -> Z.of_nat (length init) < size < 2 ^ 32 -> 0 < inc < 2 ^ 32 ->
  exists b, open_text c init size inc s = Some b /\ built (error_of s) init b.
Proof.
  intros Ha Hs Hi. unfold open_text, next_answer. destruct (Params.ParamsProps.answer_ok _ Ha) as (p & -> & [Hw Hm He Hans]).
  destruct (MADB_InitDynamicString_cases (junk c) init size inc ltac:(lia) ltac:(lia) Hi) as [_ H].
  destruct H as (d & -> & Hd & Hc); [lia|]. cbn [mbind option_bind]. eexists. split; [reflexivity|]. split_and!; auto.
Qed.

(** The string is sent. *)
Lemma run_ok E t b s : built E t b -> nonzero t -> E = error_of s \/ E = MADB_CLEAR_ERROR (error_of s) ->
  exists buf len s', ready s s' /\ sent_text buf len = t /\ run_text ExecDirect b s = ExecDirect (Some buf) len s'.
Proof.
  intros (Hw & Hc & He & _) Hz HE. destruct (wf_block _ _ Hw Hc) as (rest & Hb). unfold run_text. rewrite Hb.
  exists (t ++ 0 :: rest), SQL_NTS, (close_text b s). split_and!; [|by apply sent_prefix; [|left]|done].
  exists (sb_Error b), (answers b). split; [done|]. by rewrite He.
Qed.

(** Parts that are appended with a check. *)
Lemma produces_parts f g ps qs : produces f (text_of_parts ps) -> produces g (text_of_parts qs) -> produces (or_else f g) (text_of_parts (ps ++ qs)).
Proof. rewrite parts_app. apply produces_or. Qed.
Lemma produces_text t : produces (one_text c t) (text_of_parts (text t)).
Proof. rewrite parts_text. apply produces_memory, produces_append. Qed.
Lemma produces_name before before' n t : arg n (Some t) -> chars before' = chars before ++ [$"'"] ->
  produces (name_condition c before' (ADJUST_LENGTH n)) (text_of_parts (named before t)).
Proof.
  intros Ha Hb b. unfold name_condition. rewrite (arg_bytes_ok n t Ha). cbn [mbind option_bind]. revert b.
  rewrite parts_named, app_assoc, <- Hb, app_assoc. refine (produces_memory _ _ _). repeat apply produces_or; apply produces_append.
Qed.
Lemma produces_choice before before' n v f ps : (forall t, v = Some t -> arg n (Some t)) -> chars before' = chars before ++ [$"'"] -> (v = None -> produces f (text_of_parts ps)) ->
  produces (if bool_decide (is_Some v) then name_condition c before' (ADJUST_LENGTH n) else f) (text_of_parts (if_named before v ps)).
Proof.
  intros Ha Hb Hf. destruct v as [t|]; cbn [if_named]; [|by apply Hf]. rewrite bool_decide_eq_true_2 by done. apply produces_name; auto.
Qed.
Lemma produces_only_if x f ps : produces f (text_of_parts ps) -> produces (only_if x f) (text_of_parts (if x then ps else [])).
Proof. intros H. destruct x; [done|]. apply produces_skip. Qed.

(** A query of parts that is built and sent. *)
Lemma send_built ps f s E b : built E (text_of_parts ps) b -> nonzero (text_of_parts ps) -> E = error_of s \/ E = MADB_CLEAR_ERROR (error_of s) ->
  exists buf len s', ready s s' /\ sent_text buf len = text_of_parts ps /\ follow c f (run_text ExecDirect b s) = follow c f (ExecDirect (Some buf) len s').
Proof. intros Hb Hz HE. destruct (run_ok E _ b s Hb Hz HE) as (buf & len & s' & Hr & Ht & ->). eauto 10. Qed.

(** Builders that start with an empty string and clear the error record. *)
Lemma build_ok f ps size s : false ∉ Params.pm_answers (ms_params s) -> 0 < size < 2 ^ 32 -> produces f (text_of_parts ps) ->
  Z.of_nat (length (text_of_parts ps)) < 2 ^ 31 ->
  exists b0 b, open_text c [] size 1024 s = Some b0 /\
    f (MkBuilder (answers b0) (dyn b0) (MADB_CLEAR_ERROR (sb_Error b0))) = Some (false, b) /\ built (MADB_CLEAR_ERROR (error_of s)) (text_of_parts ps) b.
Proof.
  intros Ha Hs Hf Hl. destruct (open_ok [] size 1024 s Ha) as (b0 & -> & (Hw & Hc & He & Ha0)); [cbn; lia|lia|]. exists b0.
  destruct (produces_built (MADB_CLEAR_ERROR (error_of s)) [] _ f (MkBuilder (answers b0) (dyn b0) (MADB_CLEAR_ERROR (sb_Error b0))) Hf) as (b & E & Hb).
  - split_and!; [done..| |done]. cbn. by rewrite He.
  - cbn [app]. lia.
  - by exists b.
Qed.

Lemma nonzero_parts_app ps qs : nonzero (text_of_parts ps) -> nonzero (text_of_parts qs) -> nonzero (text_of_parts (ps ++ qs)).
Proof. rewrite parts_app. apply nonzero_app. Qed.
Lemma nonzero_text t : nonzero (chars t) -> nonzero (text_of_parts (text t)).
Proof. by rewrite parts_text. Qed.
Lemma nonzero_fixed t : nonzero t -> nonzero (text_of_parts [Fixed t]).
Proof. by rewrite parts_fixed. Qed.

Ltac nzp := repeat first [assumption | apply nonzero_parts_app | (apply nonzero_text; nz) | by constructor | (eapply nonzero_if_named; [eassumption|nz|])].

Lemma nonzero_queries odbc3 ansi : nonzero (MADB_COLUMNS odbc3 ansi) /\ nonzero (MADB_SPECIAL_COLUMNS odbc3 ansi) /\ nonzero (MADB_PROCEDURE_COLUMNS odbc3 ansi).
Proof. destruct odbc3, ansi; split_and!; nz. Qed.

Lemma Columns_ok cat schema table column s : passes cat -> passes table -> passes column -> false ∉ Params.pm_answers (ms_params s) ->
  fits c e (Columns cat schema table column) -> implements c e ExecDirect (Columns cat schema table column) s.
Proof.
  intros Hc%passes_arg Ht%passes_arg Hl%passes_arg Ha [Hf _]. unfold implements. cbn [plan_of run room] in *. unfold MADB_StmtColumns, catalog_condition.
  pose proof (arg_named _ _ Hc) as Nc. pose proof (arg_named _ _ Ht) as Nt. pose proof (arg_named _ _ Hl) as Nl.
  destruct (nonzero_queries (ce_odbc3 e) (IsAnsi (sc_ird c))) as (Z1 & _ & _).
  rewrite (given_adjusted _ _ Hc), (given_adjusted _ _ Ht), (given_adjusted _ _ Hl). unfold only_if. rewrite !app_assoc in *.
  match type of Hf with Z.of_nat (length (text_of_parts ?ps)) < _ =>
    match goal with |- context [?f (MkBuilder _ _ _)] => destruct (build_ok f ps 8192 s Ha ltac:(lia)) as (b0 & b & -> & E & Hb) end end; [|done|].
  - repeat apply produces_parts; try apply produces_text.
    + rewrite parts_fixed. apply produces_memory, produces_append.
    + apply produces_choice; [by intros ? <-|done|intros _; apply produces_text].
    + apply produces_choice; [by intros ? <-|done|intros _; apply produces_skip].
    + apply produces_choice; [by intros ? <-|done|intros _; apply produces_skip].
  - cbn [mbind option_bind]. rewrite E. cbn [mbind option_bind]. apply (send_built _ (Describe SqlColumnsColType) s _ b Hb); [|by right].
    apply nonzero_fixed in Z1. nzp.
Qed.

Lemma SpecialColumns_ok IdentifierType cat schema table nulls s : passes cat -> passes table -> false ∉ Params.pm_answers (ms_params s) ->
  fits c e (SpecialColumns IdentifierType cat schema table nulls) -> implements c e ExecDirect (SpecialColumns IdentifierType cat schema table nulls) s.
Proof.
  intros Hc%passes_arg Ht%passes_arg Ha [Hf _]. unfold implements. cbn [plan_of run room] in *. unfold MADB_StmtSpecialColumns, catalog_condition.
  unfold no_name in *. destruct (negb (is_given table) || (nm_len table =? 0)); [exists s; split; [apply ready_refl|done]|].
  pose proof (arg_named _ _ Hc) as Nc. pose proof (arg_not_empty _ _ Ht) as Nt.
  destruct (nonzero_queries (ce_odbc3 e) (IsAnsi (sc_ird c))) as (_ & Z1 & _).
  rewrite (given_adjusted _ _ Hc), (given_not_empty _ _ Ht). rewrite !app_assoc in *. unfold finish_text.
  match type of Hf with Z.of_nat (length (text_of_parts ?ps)) < _ =>
    match goal with |- context [?f (MkBuilder _ _ _)] => destruct (build_ok f ps 2048 s Ha ltac:(lia)) as (b0 & b & -> & E & Hb) end end; [|done|].
  - repeat apply produces_parts; try apply produces_text.
    + rewrite parts_fixed. apply produces_memory, produces_append.
    + apply produces_choice; [by intros ? <-|done|intros _; apply produces_text].
    + apply produces_choice; [by intros t; apply non_empty_arg|done|intros _; apply produces_skip].
    + apply produces_only_if, produces_text.
    + destruct (IdentifierType =? SQL_BEST_ROWID); [apply produces_text|]. apply produces_only_if, produces_text.
  - cbn [mbind option_bind]. rewrite E. cbn [mbind option_bind]. apply (send_built _ Nothing s _ b Hb); [|by right].
    apply nonzero_fixed in Z1. destruct (nulls =? SQL_NO_NULLS), (IdentifierType =? SQL_BEST_ROWID), (IdentifierType =? SQL_ROWVER); nzp.
Qed.

Lemma append_parts E ps qs l b : built E (text_of_parts ps) b -> concat l = text_of_parts qs -> Z.of_nat (length (text_of_parts (ps ++ qs))) < 2 ^ 31 ->
  exists b', appends c l b = Some b' /\ built E (text_of_parts (ps ++ qs)) b'.
Proof. intros Hb Hl Hn. rewrite parts_app in *. rewrite <- Hl in *. apply appends_ok; [done|lia]. Qed.

(** *** SQLTables *)

(** The catalog that is used: the current database when none is given. *)
Definition used_catalog (cat : name) : name :=
  match non_empty (value cat), ce_db e with
  | None, Some d => MkName (Some (d ++ [0])) (Z.of_nat (length d))
  | _, _ => cat
  end.

Lemma used_catalog_ok cat : arg cat (value cat) -> (forall d, ce_db e = Some d -> Forall (fun c => 0 < c < 256) d /\ Z.of_nat (length d) < 2 ^ 15) ->
  arg (used_catalog cat) (match non_empty (value cat) with Some t => Some t | None => match ce_db e with Some d => Some d | None => value cat end end) /\
  (if nm_len (ADJUST_LENGTH cat) =? 0
   then match ce_db e with Some d => MkName (Some (d ++ [0])) (wraps 16 (Z.of_nat (length d))) | None => ADJUST_LENGTH cat end
   else ADJUST_LENGTH cat) = ADJUST_LENGTH (used_catalog cat).
Proof.
  intros Hc Hd. rewrite (proj2 (adjusted _ _ Hc)). unfold used_catalog.
  assert (forall d, ce_db e = Some d -> arg (MkName (Some (d ++ [0])) (Z.of_nat (length d))) (Some d)) as Hdb.
  { intros d [H1 H2]%Hd. assert (nonzero d) by (eapply Forall_impl; [exact H1|]; cbn; lia). constructor; auto. }
  assert (forall d, ce_db e = Some d -> ADJUST_LENGTH (MkName (Some (d ++ [0])) (Z.of_nat (length d))) =
    MkName (Some (d ++ [0])) (wraps 16 (Z.of_nat (length d)))) as Hadj.
  { intros d E. pose proof (proj2 (adjusted _ _ (Hdb d E))) as Hl. destruct (Hd d E) as [_ Hb]. unfold ADJUST_LENGTH in *. cbn [nm_buf nm_len] in *.
    f_equal. rewrite Hl. symmetry. apply wraps_id; change (2 ^ (16 - 1)) with (2 ^ 15); lia. }
  destruct (value cat) as [[|x t]|] eqn:Ev; cbn [non_empty length]; change (Z.of_nat 0 =? 0) with true; change (0 =? 0) with true; cbv iota.
  - destruct (ce_db e) as [d|] eqn:Ed; [|done]. split; [by apply Hdb|]. by rewrite Hadj.
  - done.
  - destruct (ce_db e) as [d|] eqn:Ed; [|done]. split; [by apply Hdb|]. by rewrite Hadj.
Qed.

(** A fixed query. *)
Lemma Tables_open t s : false ∉ Params.pm_answers (ms_params s) -> nonzero t -> Z.of_nat (length t) < 8192 ->
  exists b, open_text c t 8192 512 s = Some b /\ built (error_of s) (text_of_parts [Fixed t]) b /\ nonzero (text_of_parts [Fixed t]).
Proof. intros Ha Hz Hl. rewrite parts_fixed. destruct (open_ok t 8192 512 s Ha) as (b & -> & Hb); [lia|lia|]. by exists b. Qed.

Lemma Tables_fixed t s : false ∉ Params.pm_answers (ms_params s) -> nonzero t -> Z.of_nat (length t) < 8192 ->
  exists buf len s', ready s s' /\ sent_text buf len = text_of_parts [Fixed t] /\
    (b ← open_text c t 8192 512 s; and_fix c SqlTablesColType (run_text ExecDirect b s)) = follow c (Describe SqlTablesColType) (ExecDirect (Some buf) len s').
Proof.
  intros Ha Hz Hl. destruct (Tables_open t s Ha Hz Hl) as (b & -> & Hb & Hz'). by apply (send_built _ (Describe SqlTablesColType) s _ b Hb); [|left].
Qed.

(** A name in quotes that is appended when there is one. *)
Lemma append_lit E ps before q n v l b : (forall t, v = Some t -> arg n (Some t)) -> concat l = chars before -> built E (text_of_parts ps) b ->
  Z.of_nat (length (text_of_parts (ps ++ lit_if before q v))) < 2 ^ 31 ->
  exists b', (if bool_decide (is_Some v) then t ← arg_bytes (ADJUST_LENGTH n); appends c (l ++ [[q]; t; [q]]) b else Some b) = Some b' /\
    built E (text_of_parts (ps ++ lit_if before q v)) b'.
Proof.
  intros Ha Hl Hb Hn. destruct v as [t|]; cbn [lit_if] in *; [|exists b; by rewrite app_nil_r].
  rewrite bool_decide_eq_true_2, (arg_bytes_ok n t) by auto. cbn [mbind option_bind]. apply append_parts; [done| |done].
  rewrite concat_app, Hl. unfold text_of_parts. cbn. by rewrite app_nil_r.
Qed.

Lemma nonzero_lit before q v : nonzero (chars before) -> q <> 0 -> (forall t, v = Some t -> nonzero t) -> nonzero (text_of_parts (lit_if before q v)).
Proof.
  intros Hb Hq Hv. destruct v as [t|]; [|by constructor]. apply parts_nonzero. repeat constructor; [done|done|]. apply nonzero_app; [by apply Hv|by repeat constructor].
Qed.
Lemma arg_nonzero n t : arg n (Some t) -> nonzero t.
Proof. intros H. by inversion H. Qed.

Lemma append_types E ps n v b : arg n v -> built E (text_of_parts ps) b -> Z.of_nat (length (text_of_parts (ps ++ types_part v))) < 2 ^ 31 ->
  exists b', (if is_given (ADJUST_LENGTH n) && negb (nm_len (ADJUST_LENGTH n) =? 0) && negb (equals_all (ADJUST_LENGTH n)) then
      t ← arg_string (ADJUST_LENGTH n);
      appends c ([chars " AND TABLE_TYPE IN (''"] ++ flat_map (type_appends t) myTypes ++ [chars ") "]) b
    else Some b) = Some b' /\ built E (text_of_parts (ps ++ types_part v)) b'.
Proof.
  intros Ha Hb Hn. rewrite (given_not_empty n v Ha). unfold types_part in *. destruct v as [[|x t]|]; cbn [non_empty] in *;
    [exists b; by rewrite app_nil_r| |exists b; by rewrite app_nil_r].
  rewrite bool_decide_eq_true_2 by done. rewrite (equals_all_ok n _ Ha). cbn [andb].
  rewrite (bool_decide_ext (x :: t = [] \/ x :: t = [$"%"]) (x :: t = [$"%"])) by (split; [by intros [?|?]|by right]).
  destruct (bool_decide (x :: t = [$"%"])); cbn [negb]; [exists b; by rewrite app_nil_r|].
  rewrite (arg_string_ok _ _ (proj1 (adjusted n _ Ha))). cbn [mbind option_bind]. apply append_parts; [done| |done].
  rewrite parts_fixed. cbn [app concat]. rewrite concat_app. cbn [concat]. by rewrite app_nil_r.
Qed.

Lemma nonzero_types v : nonzero (text_of_parts (types_part v)).
Proof.
  unfold types_part. destruct (non_empty v) as [t|]; [|by constructor]. case_bool_decide; [by constructor|]. rewrite parts_fixed.
  repeat apply nonzero_app; [nz| |nz]. unfold myTypes. cbn [flat_map]. unfold type_appends.
  repeat case_match; nz.
Qed.

Lemma Tables_ok cat schema table type s : passes cat -> passes schema -> passes table -> passes type -> false ∉ Params.pm_answers (ms_params s) ->
  (forall d, ce_db e = Some d -> Forall (fun c => 0 < c < 256) d /\ Z.of_nat (length d) < 2 ^ 15) ->
  fits c e (Tables cat schema table type) -> implements c e ExecDirect (Tables cat schema table type) s.
Proof.
  intros Hc%passes_arg Hs%passes_arg Ht%passes_arg Hy%passes_arg Ha Hd [Hf _]. unfold implements. cbn [plan_of run room] in *.
  unfold MADB_StmtTables. cbv zeta.
  rewrite (proj2 (adjusted _ _ Hc)), (proj2 (adjusted _ _ Ht)).
  assert (forall v : option (list Z), (64 <? match v with Some t => Z.of_nat (length t) | None => 0 end) = (64 <? length (default [] v))%nat) as HL.
  { intros [t|]; [|done]. cbn [default from_option id]. destruct (Nat.ltb_spec 64 (length t)); [apply Z.ltb_lt|apply Z.ltb_ge]; lia. }
  rewrite !HL in *. destruct (_ || _); [exists s; split; [apply ready_refl|done]|]. rewrite <- (proj2 (adjusted _ _ Hc)), <- (proj2 (adjusted _ _ Ht)).
  destruct (used_catalog_ok cat Hc Hd) as [Hu ->]. unfold tables_plan in *. cbv zeta in *. set (C := match non_empty _ with Some _ => _ | None => _ end) in *.
  rewrite (lists_catalogs _ _ _ _ _ _ Hu Hs Ht), (lists_types _ _ _ _ _ _ _ _ Hu Hs Ht Hy), (lists_nothing _ _ _ _ _ _ _ _ Hu Hs Ht Hy).
  assert (HF : forall t, t ∈ [all_catalogs_text; all_types_text; no_tables_text; tables_text] -> nonzero t /\ Z.of_nat (length t) < 8192)
    by (apply Forall_forall; repeat constructor; try nz; by vm_compute).
  destruct (bool_decide (C = _ /\ _)); [by apply Tables_fixed; [|apply HF; set_solver..]|].
  destruct (bool_decide (C = _ /\ _)); [by apply Tables_fixed; [|apply HF; set_solver..]|].
  destruct (bool_decide (is_Some _ /\ _)); [by apply Tables_fixed; [|apply HF; set_solver..]|].
  destruct (Tables_open tables_text s Ha) as (b0 & -> & H0 & Z0); [by apply HF; set_solver..|]. cbn [mbind option_bind].
  rewrite (given_adjusted _ _ Hu), (given_not_empty _ _ Ht). set (q := if negb _ then $"`" else $"'") in *.
  replace (if negb (MetadataId (sc_Options c) =? 0) then chars "`" else chars "'") with [q] by (unfold q; by destruct (negb _)).
  assert (q <> 0) by (unfold q; by destruct (negb _)). rewrite !app_assoc in *.
  destruct (append_lit _ _ " AND TABLE_SCHEMA LIKE " q (used_catalog cat) C [chars " AND TABLE_SCHEMA "; chars "LIKE "] b0 ltac:(by intros ? <-) eq_refl H0)
    as (b1 & E1 & H1); [rewrite !parts_length in *; lia|]. cbn [app] in E1. rewrite E1. clear E1. cbn [mbind option_bind].
  destruct (append_lit _ _ " AND TABLE_NAME LIKE " q table (non_empty (value table)) [chars " AND TABLE_NAME LIKE "] b1
    (fun t => non_empty_arg _ _ t Ht) eq_refl H1) as (b2 & E2 & H2); [rewrite !parts_length in *; lia|]. cbn [app] in E2. rewrite E2. clear E2. cbn [mbind option_bind].
  destruct (append_types _ _ type (value type) b2 Hy H2) as (b3 & -> & H3); [rewrite !parts_length in *; lia|]. cbn [mbind option_bind].
  destruct (append_parts _ _ (text " ORDER BY TABLE_SCHEMA, TABLE_NAME, TABLE_TYPE") [chars " ORDER BY TABLE_SCHEMA, TABLE_NAME, TABLE_TYPE"] b3 H3 eq_refl)
    as (b4 & -> & H4); [done|]. cbn [mbind option_bind].
  apply (send_built _ (Describe SqlTablesColType) s _ b4 H4); [|by left]. repeat apply nonzero_parts_app; [done| | | |apply nonzero_text; nz].
  - apply nonzero_lit; [nz|done|]. intros t ->. by eapply arg_nonzero.
  - apply nonzero_lit; [nz|done|]. intros t E. exact (arg_nonzero _ _ (non_empty_arg _ _ _ Ht E)).
  - apply nonzero_types.
Qed.

(** *** SQLForeignKeys *)

Lemma escaped_name_ok n t : arg n (Some t) -> (length (key_bytes c t) <= EscapeBuf_size)%nat -> escaped_name c (ADJUST_LENGTH n) = Some (key_name c t).
Proof.
  intros H Hk. destruct (adjusted n _ H) as [_ Hl]. inversion H as [|t' E _ _ _ _]. subst t'. unfold escaped_name. rewrite Hl.
  change (nm_buf (ADJUST_LENGTH n)) with (nm_buf n). rewrite E. cbn [mbind option_bind]. rewrite length_app, (proj2 (Z.ltb_ge _ 0)), (proj2 (Z.ltb_ge _ _)) by lia.
  cbn [orb]. assert (take (Z.to_nat (Z.min (Z.of_nat (length t)) 255)) (t ++ [0]) = take 255 t) as ->.
  { rewrite take_app_le by lia. destruct (Z.le_gt_cases (Z.of_nat (length t)) 255).
    - rewrite Z.min_l, Nat2Z.id by lia. by rewrite !take_ge by lia.
    - by rewrite Z.min_r by lia. }
  unfold key_name, key_bytes in *. destruct (mysql_real_escape_string _ _ _) as [stored n0]. cbn [fst] in *.
  rewrite (proj2 (Nat.ltb_ge _ _)) by lia. done.
Qed.

Lemma key_conditions_ok E ps Table Catalog T D (schema like like' no_catalog tab tab' : string) b :
  arg Table T -> arg Catalog D -> (forall t, T = Some t \/ D = Some t -> (length (key_bytes c t) <= EscapeBuf_size)%nat) ->
  chars like' = chars like ++ [$"'"] -> chars tab' = chars tab ++ [$"'"] -> built E (text_of_parts ps) b ->
  Z.of_nat (length (text_of_parts (ps ++ key_parts c T D schema like no_catalog tab))) < 2 ^ 31 ->
  exists b', key_conditions c (ADJUST_LENGTH Table) (ADJUST_LENGTH Catalog) schema like' no_catalog tab' b = Some b' /\
    built E (text_of_parts (ps ++ key_parts c T D schema like no_catalog tab)) b'.
Proof.
  intros HT HD Hk Hl Ht Hb Hn. unfold key_conditions.
  rewrite (not_empty_ok _ _ (proj1 (adjusted _ _ HT))), (not_empty_ok _ _ (proj1 (adjusted _ _ HD))). cbn [mbind option_bind].
  unfold key_parts in *. destruct (non_empty T) as [t|] eqn:ET; [|exists b; by rewrite app_nil_r].
  rewrite bool_decide_eq_true_2 by done. cbn [negb]. pose proof (non_empty_arg _ _ _ HT ET) as HT'. rewrite !app_assoc in *.
  destruct (append_parts E _ (text schema) [chars schema] b Hb eq_refl) as (b1 & -> & H1); [rewrite !parts_length in *; lia|]. cbn [mbind option_bind].
  assert (exists b2, (if bool_decide (is_Some (non_empty D)) then t ← escaped_name c (ADJUST_LENGTH Catalog); appends c [chars like'; t; chars "' "] b1
                      else appends c [chars no_catalog] b1) = Some b2 /\
    built E (text_of_parts ((ps ++ text schema) ++ match non_empty D with Some d => named like (key_name c d) | None => text no_catalog end)) b2)
    as (b2 & -> & H2).
  { destruct (non_empty D) as [d|] eqn:ED; [rewrite bool_decide_eq_true_2 by done|];
      [|apply (append_parts E _ (text no_catalog)); [done|done|rewrite !parts_length in *; lia]].
    rewrite (escaped_name_ok Catalog d) by (eauto using non_empty_arg; destruct D as [[|x d']|]; try done; injection ED as <-; auto). cbn [mbind option_bind].
    apply append_parts; [done| |rewrite !parts_length in *; lia]. rewrite parts_named. cbn [concat]. by rewrite Hl, app_nil_r, <- !app_assoc. }
  cbn [mbind option_bind].
  destruct (appends_ok c E [chars tab'] _ b2 H2) as (b3 & -> & H3); [cbn [concat]; rewrite app_nil_r, Ht, length_app; rewrite !parts_length in *; rewrite parts_named in Hn; rewrite !length_app in *; lia|].
  cbn [mbind option_bind]. rewrite (escaped_name_ok Table t HT') by (destruct T as [[|x t']|]; try done; injection ET as <-; auto). cbn [mbind option_bind].
  assert (text_of_parts (((ps ++ text schema) ++ match non_empty D with Some d => named like (key_name c d) | None => text no_catalog end) ++
    named tab (key_name c t)) = (text_of_parts ((ps ++ text schema) ++ match non_empty D with Some d => named like (key_name c d) | None => text no_catalog end) ++
    concat [chars tab']) ++ concat [key_name c t; chars "' "]) as Eq.
  { rewrite parts_app, parts_named. cbn [concat]. by rewrite !app_nil_r, Ht, <- !app_assoc. }
  rewrite Eq in *. apply appends_ok; [done|lia].
Qed.

Lemma ready_cleared s s' : ready (clear_error s) s' -> ready s s'.
Proof.
  intros (E & l & -> & HE). exists E, l. split; [done|]. right. destruct HE as [-> | ->]; [done|].
  unfold clear_error, error_of, MADB_CLEAR_ERROR. cbn -[store]. by rewrite ErrorProps.store_same.
Qed.

Lemma nonzero_key_parts T D schema like no_catalog tab : nonzero (chars schema) -> nonzero (chars like) -> nonzero (chars no_catalog) -> nonzero (chars tab) ->
  nonzero (text_of_parts (key_parts c T D schema like no_catalog tab)).
Proof.
  intros. unfold key_parts. destruct (non_empty T); [|by constructor]. repeat apply nonzero_parts_app.
  - by apply nonzero_text.
  - destruct (non_empty D); [|by apply nonzero_text]. apply nonzero_named; [done|apply cstr_nonzero].
  - apply nonzero_named; [done|apply cstr_nonzero].
Qed.

Lemma ForeignKeys_ok pkcat pkschema pktable fkcat fkschema fktable s :
  Forall passes [pkcat; pktable; fkcat; fktable] -> false ∉ Params.pm_answers (ms_params s) ->
  fits c e (ForeignKeys pkcat pkschema pktable fkcat fkschema fktable) -> implements c e ExecDirect (ForeignKeys pkcat pkschema pktable fkcat fkschema fktable) s.
Proof.
  intros HP Ha [Hf Hk]. apply Forall_cons in HP as [Pc%passes_arg HP]. apply Forall_cons in HP as [Pt%passes_arg HP].
  apply Forall_cons in HP as [Fc%passes_arg HP]. apply Forall_cons in HP as [Ft%passes_arg _]. unfold implements. cbn [plan_of run room names_of] in *. unfold MADB_StmtForeignKeys.
  assert (forall n v, arg n v -> negb (is_given (ADJUST_LENGTH n)) || (nm_len (ADJUST_LENGTH n) =? 0) = bool_decide (non_empty v = None)) as Hno.
  { intros n v Hn. pose proof (given_not_empty n v Hn) as E. rewrite <- (negb_involutive (_ || _)), negb_orb, negb_involutive, E.
    destruct (non_empty v); [rewrite bool_decide_eq_true_2 by done|]; by repeat case_bool_decide. }
  rewrite (Hno pktable (value pktable)), (Hno fktable (value fktable)) by done. clear Hno.
  destruct (_ && _); [exists (clear_error s); split; [apply ready_clear|done]|].
  destruct (open_ok foreign_keys_text 8192 128 (clear_error s) Ha) as (b0 & -> & H0); [by vm_compute|done|]. rewrite <- (parts_fixed foreign_keys_text) in H0.
  cbn [mbind option_bind]. rewrite !app_assoc in *.
  assert (forall n m t, n ∈ [pkcat; pkschema; pktable; fkcat; fkschema; fktable] -> m ∈ [pkcat; pkschema; pktable; fkcat; fkschema; fktable] ->
    value n = Some t \/ value m = Some t -> (length (key_bytes c t) <= EscapeBuf_size)%nat) as Hb 
    by (intros n m t Hn Hm [E|E]; [exact (Hk n t Hn E)|exact (Hk m t Hm E)]).
  destruct (key_conditions_ok _ _ pktable pkcat (value pktable) (value pkcat) " AND A.REFERENCED_TABLE_SCHEMA " "LIKE " "LIKE '" "= DATABASE()"
    " AND A.REFERENCED_TABLE_NAME = " " AND A.REFERENCED_TABLE_NAME = '" b0 Pt Pc (fun t => Hb pktable pkcat t ltac:(in_list) ltac:(in_list)) eq_refl eq_refl H0) as (b1 & -> & H1);
    [rewrite !parts_length in *; lia|]. cbn [mbind option_bind].
  destruct (key_conditions_ok _ _ fktable fkcat (value fktable) (value fkcat) " AND A.TABLE_SCHEMA = " "" "'" "DATABASE() "
    " AND A.TABLE_NAME = " " AND A.TABLE_NAME = '" b1 Ft Fc (fun t => Hb fktable fkcat t ltac:(in_list) ltac:(in_list)) eq_refl eq_refl H1) as (b2 & -> & H2);
    [rewrite !parts_length in *; lia|]. cbn [mbind option_bind].
  destruct (append_parts _ _ (text "ORDER BY FKTABLE_CAT, FKTABLE_SCHEM, FKTABLE_NAME, KEY_SEQ, PKTABLE_NAME") 
    [chars "ORDER BY FKTABLE_CAT, FKTABLE_SCHEM, FKTABLE_NAME, KEY_SEQ, PKTABLE_NAME"] b2 H2 eq_refl) as (b3 & -> & H3); [done|].
  cbn [mbind option_bind]. destruct (send_built _ Nothing (clear_error s) _ b3 H3) as (buf & len & s' & Hr & Ht & E); [|by left|].
  - repeat apply nonzero_parts_app; try (apply nonzero_text; nz); [apply nonzero_fixed; nz|apply nonzero_key_parts; nz..].
  - exists buf, len, s'. split; [by apply ready_cleared|done].
Qed.

End Strings.

(** *** A block of the heap *)

Lemma vsnprintf_cut t u r count : count = Z.of_nat (length r) -> 0 < count <= Z.of_nat (length u) ->
  vsnprintf (t ++ r) (Z.of_nat (length t)) count u = Some (t ++ take (length r - 1) u ++ [0]).
Proof.
  intros -> Hc. unfold vsnprintf. rewrite (proj2 (Z.eqb_neq _ 0)) by lia. replace (Z.to_nat (Z.of_nat (length r) - 1)) with (length r - 1)%nat by lia.
  assert (length (take (length r - 1) u ++ [0]) = length r) as Hl by (rewrite length_app, length_take; cbn [length]; lia).
  rewrite memcpy_Some by (rewrite ?length_app in *; lia). unfold blit. rewrite Nat2Z.id, take_app_length, length_app.
  replace (length t + length r - length t)%nat with (length r) by lia. rewrite take_ge by lia. rewrite Hl, drop_ge by (rewrite length_app; lia).
  by rewrite app_nil_r.
Qed.

(** The text was printed, or it did not fit and the function gives up. *)
Definition checked (N : nat) (t : list Z) (r : option (nat + list Z * Z)) : Prop :=
  (r = Some (inl MADB_ERR_HY001) /\ (N <= length t)%nat) \/ exists x, r = Some (inr x) /\ holds N t x.

Lemma checked_print N t u x : holds N t x -> nonzero u -> checked N (t ++ u) (print_checked (Z.of_nat N) u x).
Proof.
  intros (rest & -> & HN & Hz) Hu. unfold print_checked. cbn [fst snd]. rewrite length_app in HN. cbn [length] in HN.
  destruct (Nat.lt_ge_cases (length t + length u) N) as [Hl|Hl].
  - right. rewrite vsnprintf_ok by (cbn [length]; lia). cbn [mbind option_bind]. rewrite (proj2 (Z.leb_gt _ _)) by lia.
    eexists. split; [reflexivity|]. exists (drop (length u) rest). split_and!.
    + f_equal; [by rewrite <- app_assoc|]. rewrite length_app. lia.
    + rewrite <- app_assoc, !length_app. cbn [length]. rewrite length_drop. lia.
    + by apply nonzero_app.
  - left. rewrite vsnprintf_cut by (cbn [length]; lia). cbn [mbind option_bind]. rewrite (proj2 (Z.leb_le _ _)) by lia.
    split; [done|]. rewrite length_app. lia.
Qed.

Lemma checked_then N t u r f : checked N t r -> (forall x, holds N t x -> checked N (t ++ u) (f x)) -> checked N (t ++ u) (and_then r f).
Proof.
  intros [[-> Hl]|(x & -> & Hx)] Hf; cbn [and_then mbind option_bind]; [|by apply Hf]. left. split; [done|]. rewrite length_app. lia.
Qed.
Lemma checked_none N t x : holds N t x -> checked N (t ++ []) (Some (inr x)).
Proof. intros H. rewrite app_nil_r. right. by exists x. Qed.

(** A name that is printed when it is given. *)
Lemma checked_name N t before before' n v x : arg n v -> chars before' = chars before ++ [$"'"] -> nonzero (chars before) -> holds N t x ->
  checked N (t ++ text_of_parts (if_named before v []))
    (if bool_decide (is_Some v) then u ← arg_part (ADJUST_LENGTH n); print_checked (Z.of_nat N) (chars before' ++ u ++ chars "' ") x else Some (inr x)).
Proof.
  intros Ha Hb Hz Hx. destruct v as [u|]; cbn [if_named]; [|by apply checked_none]. rewrite bool_decide_eq_true_2, (arg_part_ok n u Ha) by done.
  cbn [mbind option_bind]. replace (chars before' ++ u ++ chars "' ") with (text_of_parts (named before u)) by (by rewrite parts_named, Hb, <- !app_assoc).
  apply checked_print; [done|]. apply nonzero_named; [done|by eapply arg_nonzero].
Qed.

Lemma ProcedureColumnsNormal_ok N t cat proc column C P L x : arg cat C -> arg proc P -> arg column L -> holds N t x ->
  checked N (t ++ text_of_parts (procedure_columns_parts C P L))
    (ProcedureColumnsNormal (Z.of_nat N) (ADJUST_LENGTH cat) (ADJUST_LENGTH proc) (ADJUST_LENGTH column) x).
Proof.
  intros Hc Hp Hl Hx. unfold ProcedureColumnsNormal, procedure_columns_parts. rewrite (given_adjusted _ _ Hc), (given_adjusted _ _ Hp), (given_adjusted _ _ Hl).
  set (t1 := text_of_parts (if_named "WHERE SPECIFIC_SCHEMA=" C (text "WHERE SPECIFIC_SCHEMA LIKE DATABASE() "))).
  assert ((if bool_decide (is_Some C) then u ← arg_part (ADJUST_LENGTH cat); Some (chars "WHERE SPECIFIC_SCHEMA='" ++ u ++ chars "' ")
           else Some (chars "WHERE SPECIFIC_SCHEMA LIKE DATABASE() ")) = Some t1) as ->.
  { unfold t1. destruct C as [u|]; cbn [if_named]; [|by rewrite parts_text]. rewrite bool_decide_eq_true_2, (arg_part_ok cat u Hc) by done. by rewrite parts_named. }
  assert (nonzero t1) as Hz1.
  { eapply nonzero_if_named; [by apply arg_named|nz|]. rewrite parts_text. nz. }
  cbn [mbind option_bind]. rewrite !parts_app, app_assoc. fold t1. apply checked_then; [by apply checked_print|]. intros x1 H1.
  rewrite app_assoc. apply checked_then; [apply checked_name; [done|done|nz|done]|]. intros x2 H2.
  destruct L as [[|y u]|]; [| |by apply checked_none].
  - rewrite bool_decide_eq_true_2, (not_empty_ok _ _ (proj1 (adjusted _ _ Hl))) by done. cbn [mbind option_bind non_empty].
    rewrite parts_text. apply checked_print; [done|nz].
  - rewrite (not_empty_ok _ _ (proj1 (adjusted _ _ Hl))). cbn [mbind option_bind non_empty]. rewrite !bool_decide_eq_true_2 by done.
    pose proof (checked_name N _ "AND PARAMETER_NAME LIKE " "AND PARAMETER_NAME LIKE '" column _ x2 Hl eq_refl ltac:(nz) H2) as H.
    by rewrite bool_decide_eq_true_2 in H by done.
Qed.

(** What [ProcessIdentifierString] makes of a name. *)
Lemma identifier_ok v : match identifier (Some v) with
  | Some t => ProcessIdentifierString v = Some ($"'" :: t ++ [$"'"]) /\ nonzero t
  | None => ProcessIdentifierString v = None
  end.
Proof.
  unfold identifier. cbn [mbind option_bind]. destruct (ProcessIdentifierString v) as [o|] eqn:E; [|done]. cbn [mbind option_bind].
  destruct (proj1 (ProcessIdentifierString_correct v) o E) as (_ & Hz & body & ->). cbn [tail]. rewrite removelast_last. split; [done|].
  apply Forall_cons in Hz as [_ Hz]. by apply Forall_app in Hz as [Hz _].
Qed.

Lemma ProcedureColumnsIdentifier_ok N t cat schema proc column C P L x : arg cat (Some C) -> is_given schema = true -> arg proc (Some P) -> arg column (Some L) ->
  holds N t x ->
  let r := ProcedureColumnsIdentifier (Z.of_nat N) (ADJUST_LENGTH cat) (ADJUST_LENGTH schema) (ADJUST_LENGTH proc) (ADJUST_LENGTH column) x in
  match identifier (Some C), identifier (Some P), identifier (Some L) with
  | Some a, Some b, Some d => checked N (t ++ text_of_parts (identifier_parts a b d)) r
  | _, _, _ => r = Some (inl MADB_ERR_42000)
  end.
Proof.
  intros Hc Hs Hp Hl Hx. unfold ProcedureColumnsIdentifier. rewrite (given_adjusted _ _ Hc), (given_adjusted _ _ Hp), (given_adjusted _ _ Hl).
  change (is_given (ADJUST_LENGTH schema)) with (is_given schema). rewrite Hs, !bool_decide_eq_true_2 by done. cbn [andb negb].
  rewrite (arg_bytes_ok _ _ Hc), (arg_bytes_ok _ _ Hp), (arg_bytes_ok _ _ Hl). cbn [mbind option_bind].
  pose proof (identifier_ok C) as IC. pose proof (identifier_ok P) as IP. pose proof (identifier_ok L) as IL.
  destruct (identifier (Some C)) as [a|]; [destruct IC as [-> Za]|by rewrite IC].
  destruct (identifier (Some P)) as [b|]; [destruct IP as [-> Zb]|by rewrite IP].
  destruct (identifier (Some L)) as [d|]; [destruct IL as [-> Zd]|by rewrite IL].
  unfold identifier_parts. rewrite !parts_app.
  assert (forall before u, chars before ++ ($"'" :: u ++ [$"'"]) ++ chars " " = text_of_parts (named before u)) as EN.
  { intros before u. rewrite parts_named. cbn [app]. by rewrite <- app_assoc. }
  rewrite !EN, app_assoc. apply checked_then; [apply checked_print; [done|apply nonzero_named; [nz|done]]|]. intros x1 H1.
  rewrite app_assoc. apply checked_then; [apply checked_print; [done|apply nonzero_named; [nz|done]]|]. intros x2 H2.
  apply checked_print; [done|apply nonzero_named; [nz|done]].
Qed.

Section Block.
Context {A : Type} (c : stmt_config) (e : catalog_env) (ExecDirect : option (list Z) -> Z -> MADB_Stmt A -> option (Z * MADB_Stmt A)).
Implicit Types s : MADB_Stmt A.

Lemma prefix_length odbc3 ansi : Z.of_nat (length (MADB_PROCEDURE_COLUMNS odbc3 ansi)) < 2 ^ 16.
Proof. destruct odbc3, ansi; by vm_compute. Qed.

(** The end of the query, behind parts that were printed or did not fit. *)
Lemma procedure_columns_done ps r s' : let prefix := MADB_PROCEDURE_COLUMNS (ce_odbc3 e) (IsAnsi (sc_ird c)) in
  let N := (length prefix + 1024)%nat in checked N (prefix ++ text_of_parts ps) r ->
  match procedure_columns_plan c e ps with
  | Refuse code msg => finish_block ExecDirect (Z.of_nat N) r s' = Some (stmt_fail s' code msg 0)
  | Send ps f => exists buf len, sent_text buf len = text_of_parts ps /\ finish_block ExecDirect (Z.of_nat N) r s' = follow c f (ExecDirect (Some buf) len s')
  end.
Proof.
  intros prefix N Hr. unfold procedure_columns_plan. rewrite parts_length, parts_text. fold prefix.
  pose proof (prefix_length (ce_odbc3 e) (IsAnsi (sc_ird c))) as Hpl. fold prefix in Hpl.
  unfold text. set (tl := chars " ORDER BY SPECIFIC_SCHEMA, SPECIFIC_NAME, ORDINAL_POSITION"). destruct Hr as [[-> Hl]|(x & -> & Hx)].
  - rewrite length_app in Hl. rewrite (proj2 (Nat.leb_le _ _)) by (unfold N in Hl; lia). done.
  - unfold finish_block. cbn [mbind option_bind]. destruct Hx as (rest & -> & HN & Hz). pose proof (length_app prefix (text_of_parts ps)) as HT.
    set (T := prefix ++ text_of_parts ps) in *. rewrite length_app in HN. cbn [length] in HN. fold tl.
    assert (nonzero tl) as Htl by (unfold tl; nz). clearbody tl. destruct (Nat.leb_spec 1023 (length (text_of_parts ps) + length tl)) as [Hl|Hl].
    + assert (exists b1, vsnprintf (T ++ 0 :: rest) (Z.of_nat (length T)) (Z.of_nat N - Z.of_nat (length T)) tl = Some b1) as (b1 & ->).
      { destruct (Z.lt_ge_cases (Z.of_nat (length tl)) (Z.of_nat N - Z.of_nat (length T))).
        - eexists. apply vsnprintf_ok; cbn [length]; lia.
        - eexists. apply vsnprintf_cut; cbn [length]; lia. }
      cbn [mbind option_bind]. rewrite (proj2 (Z.leb_le _ _)) by (unfold N; lia). done.
    + rewrite vsnprintf_ok by (cbn [length]; unfold N in *; lia). cbn [mbind option_bind].
      rewrite (proj2 (Z.leb_gt _ _)) by (unfold N; lia). rewrite wraps_id by (change (2 ^ (32 - 1)) with 2147483648; lia). rewrite app_assoc.
      eexists _, _. split; [|reflexivity]. change (Fixed prefix :: ?l) with ([Fixed prefix] ++ l). rewrite !parts_app, !parts_fixed.
      rewrite app_assoc. fold T. apply sent_prefix; [by apply nonzero_app|]. right. rewrite length_app. lia.
Qed.

Lemma ProcedureColumns_ok cat schema proc column s : Forall passes [cat; schema; proc; column] -> false ∉ Params.pm_answers (ms_params s) ->
  implements c e ExecDirect (ProcedureColumns cat schema proc column) s.
Proof.
  intros HP Ha. apply Forall_cons in HP as [Hc%passes_arg HP]. apply Forall_cons in HP as [_ HP].
  apply Forall_cons in HP as [Hp%passes_arg HP]. apply Forall_cons in HP as [Hl%passes_arg _].
  destruct (Params.ParamsProps.answer_ok _ (Ha : false ∉ Params.pm_answers (ms_params (clear_error s)))) as (p & E & [Hw Hm He _]).
  set (s2 := set_params (clear_error s) p).
  assert (ready s s2) as Hr.
  { exists (MADB_CLEAR_ERROR (error_of s)), (Params.pm_answers p). split; [|by right]. unfold s2. destruct p. cbn in *. by subst. }
  unfold implements. cbn [plan_of run]. unfold MADB_StmtProcedureColumns, next_answer. rewrite E. cbn [negb]. fold s2.
  set (prefix := MADB_PROCEDURE_COLUMNS _ _). set (x := (prefix ++ replicate 1024 0, _)).
  assert (holds (length prefix + 1024) prefix x) as Hx.
  { exists (replicate 1023 0). split_and!; [done|rewrite length_app; cbn [length]; rewrite length_replicate; lia|apply nonzero_queries]. }
  replace (Z.of_nat (length prefix) + 1024) with (Z.of_nat (length prefix + 1024)) by lia. clearbody x.
  assert (forall ps r, checked (length prefix + 1024) (prefix ++ text_of_parts ps) r ->
    match procedure_columns_plan c e ps with
    | Refuse code msg => exists s', ready s s' /\ finish_block ExecDirect (Z.of_nat (length prefix + 1024)) r s2 = Some (stmt_fail s' code msg 0)
    | Send ps f => exists buf len s', ready s s' /\ sent_text buf len = text_of_parts ps /\
        finish_block ExecDirect (Z.of_nat (length prefix + 1024)) r s2 = follow c f (ExecDirect (Some buf) len s')
    end) as Hdone.
  { intros ps r H. pose proof (procedure_columns_done ps r s2 H) as Hd. destruct (procedure_columns_plan c e ps); [by exists s2|].
    destruct Hd as (buf & len & ? & ?). by exists buf, len, s2. }
  destruct (MetadataId (sc_Options c) =? 0); cbn [negb]; [apply Hdone; by apply ProcedureColumnsNormal_ok|].
  pose proof (given_value _ _ Hc) as Gc. pose proof (given_value _ _ Hp) as Gp. pose proof (given_value _ _ Hl) as Gl.
  destruct (is_given cat && is_given schema && is_given proc && is_given column) eqn:Eg; cbn [negb].
  2: { exists s2. split; [done|]. unfold ProcedureColumnsIdentifier. change (is_given (ADJUST_LENGTH ?n)) with (is_given n). by rewrite Eg. }
  apply andb_true_iff in Eg as [Eg E4]. apply andb_true_iff in Eg as [Eg E3]. apply andb_true_iff in Eg as [E1 E2].
  rewrite Gc in E1. rewrite Gp in E3. rewrite Gl in E4. apply bool_decide_eq_true in E1 as [C EC], E3 as [P EP], E4 as [L EL].
  rewrite EC, EP, EL in *. pose proof (ProcedureColumnsIdentifier_ok _ _ cat schema proc column C P L x Hc E2 Hp Hl Hx) as HI. cbv zeta in HI.
  destruct (identifier (Some C)), (identifier (Some P)), (identifier (Some L)); [by apply Hdone|rewrite HI; by exists s2..].
Qed.

End Block.

(** ** The structure of the queries *)

(** A text without quotes and backslashes. *)
Definition harmless (t : list Z) : Prop := Forall (fun c => c <> $"'" /\ c <> $"`" /\ c <> 92) t.

Lemma harmless_sealed q t : harmless t -> q = $"'" \/ q = $"`" -> sealed q t.
Proof.
  intros H Hq. unfold harmless in H. rewrite Forall_forall in H. apply sealed_plain; [|right; intros Hin; by apply H in Hin as (_ & _ & ?)].
  intros Hin. apply H in Hin as (? & ? & _). by destruct Hq.
Qed.

Lemma good_text t : closed_text (length (chars t)) (chars t) = true -> Forall good_part (text t).
Proof. intros H. by repeat constructor. Qed.
Lemma good_fixed t : closed_text (length t) t = true -> Forall good_part [Fixed t].
Proof. intros H. by repeat constructor. Qed.
Lemma good_named before v : closed_text (length (chars before)) (chars before) = true -> sealed ($"'") v -> Forall good_part (named before v).
Proof. intros Hb Hv. repeat constructor; done. Qed.
Lemma good_if_named before v ps : closed_text (length (chars before)) (chars before) = true -> (forall t, v = Some t -> sealed ($"'") t) ->
  Forall good_part ps -> Forall good_part (if_named before v ps).
Proof. intros Hb Hv Hp. destruct v; [|done]. apply good_named; auto. Qed.
Lemma good_lit_if before q v : closed_text (length (chars before)) (chars before) = true -> q = $"'" \/ q = $"`" ->
  (forall t, v = Some t -> harmless t) -> Forall good_part (lit_if before q v).
Proof.
  intros Hb Hq Hv. destruct v as [t|]; [|constructor]. repeat constructor; [done|by destruct Hq as [-> | ->]|by apply harmless_sealed; auto].
Qed.
Lemma good_types v : Forall good_part (types_part v).
Proof.
  unfold types_part. destruct (non_empty v) as [t|]; [|constructor]. case_bool_decide; [constructor|]. apply good_fixed. unfold myTypes. cbn [flat_map].
  unfold type_appends. repeat case_match; by vm_compute.
Qed.
Lemma good_queries odbc3 ansi : Forall good_part [Fixed (MADB_COLUMNS odbc3 ansi)] /\ Forall good_part [Fixed (MADB_SPECIAL_COLUMNS odbc3 ansi)] /\
  Forall good_part [Fixed (MADB_PROCEDURE_COLUMNS odbc3 ansi)].
Proof. destruct odbc3, ansi; split_and!; apply good_fixed; by vm_compute. Qed.

Lemma last_char_sub r r' : last_char r = Some r' -> r' ⊆ r.
Proof.
  induction r as [|x r IH]; cbn; [by intros [= <-]|]. destruct (x =? 0); [done|]. destruct (isspace x); [|by intros [= <-]]. intros H%IH. set_solver.
Qed.
Lemma elem_rev (l : list Z) x : x ∈ rev l -> x ∈ l.
Proof. by rewrite !list_elem_of_In, <- in_rev. Qed.
Lemma toupper_harmless x : x <> $"'" /\ x <> $"`" /\ x <> 92 -> toupper x <> $"'" /\ toupper x <> $"`" /\ toupper x <> 92.
Proof. intros H. unfold toupper, islower. case_match; [|done]. bprop. cbn. lia. Qed.

Lemma identifier_harmless v t : harmless v -> identifier (Some v) = Some t -> harmless t.
Proof.
  intros Hv. unfold identifier, ProcessIdentifierString. cbn [mbind option_bind]. destruct (last_char (rev v)) as [r|] eqn:El; [|done]. cbn [mbind option_bind].
  apply last_char_sub in El. unfold harmless in Hv. rewrite Forall_forall in Hv.
  assert (forall y, y ∈ r -> y <> $"'" /\ y <> $"`" /\ y <> 92) as Hr by (intros y Hy; apply Hv; exact (elem_rev _ _ (El y Hy))).
  destruct r as [|y r]; [intros [= <-]; by constructor|]. destruct (Z.eqb_spec y QUOTE_IN) as [->|Hq]; [by destruct (Hr QUOTE_IN ltac:(left)) as (_ & ? & _)|].
  cbn [andb]. destruct (hd 0 v =? QUOTE_IN); [done|]. destruct (body_ok 0 _); [|done]. cbn [mbind option_bind tail]. rewrite removelast_last. intros [= <-].
  apply Forall_fmap, Forall_forall. intros z Hz. apply toupper_harmless, Hr. exact (elem_rev (y :: r) z Hz).
Qed.

Section Structure.
Context (c : stmt_config) (e : catalog_env).

(** The names cannot leave their quotes: they have no quotes and backslashes, or they are
    escaped. *)
Definition contained (x : call) : Prop :=
  match x with
  | ForeignKeys _ _ _ _ _ _ => AsciiSafe (pc_charset (sc_params c)) /\ pc_no_backslash (sc_params c) = false
  | _ => (forall n t, n ∈ names_of x -> value n = Some t -> harmless t) /\ (forall d, ce_db e = Some d -> harmless d)
  end.

Lemma key_name_sealed t : AsciiSafe (pc_charset (sc_params c)) -> pc_no_backslash (sc_params c) = false -> Forall byte_ok t -> sealed ($"'") (key_name c t).
Proof.
  intros Hc Hb Ht rest. destruct (escape_text_spec (pc_charset (sc_params c)) (take 255 t) Hc) as [He _]; [by apply Forall_take|].
  unfold key_name, key_bytes. rewrite Hb. by eapply escaped_closing.
Qed.

Lemma good_key_parts T D schema like no_catalog tab : (forall t, T = Some t \/ D = Some t -> sealed ($"'") (key_name c t)) ->
  Forall (fun t => closed_text (length (chars t)) (chars t) = true) [schema; like; no_catalog; tab] ->
  Forall good_part (key_parts c T D schema like no_catalog tab).
Proof.
  intros Hk HF. repeat (apply Forall_cons in HF as [? HF]). unfold key_parts. destruct T as [[|x t]|]; [constructor| |constructor]. cbn [non_empty].
  apply Forall_app. split; [by apply good_text|]. apply Forall_app. split; [|apply good_named; auto].
  destruct D as [[|y d]|]; cbn [non_empty]; [by apply good_text|apply good_named; auto|by apply good_text].
Qed.

Lemma good_procedure_columns ps : Forall good_part ps -> forall qs f, procedure_columns_plan c e ps = Send qs f -> Forall good_part qs.
Proof.
  intros Hp qs f. unfold procedure_columns_plan. destruct (_ <=? _)%nat; [done|]. intros [= <- _].
  apply (Forall_app good_part [_]). split; [apply good_queries|]. apply Forall_app. split; [done|apply good_text; by vm_compute].
Qed.

(** Names without quotes and backslashes, as they are and as identifiers. *)
Section Harmless.
Context (names : list name).
Hypothesis (Hh : forall n t, n ∈ names -> value n = Some t -> harmless t).

Lemma harmless_value n t : n ∈ names -> value n = Some t -> sealed ($"'") t.
Proof. intros Hn Hv. apply harmless_sealed; eauto. Qed.
Lemma harmless_non_empty n t : n ∈ names -> non_empty (value n) = Some t -> sealed ($"'") t.
Proof. intros Hn Hv. destruct (value n) as [[|y u]|] eqn:E; try done. cbn in Hv. injection Hv as <-. by eapply harmless_value. Qed.
Lemma harmless_identifier n t : n ∈ names -> identifier (value n) = Some t -> sealed ($"'") t.
Proof.
  intros Hn Hi. destruct (value n) as [u|] eqn:E; [|done]. apply harmless_sealed; [|by left]. eapply identifier_harmless; [|done]. eauto.
Qed.
End Harmless.

Lemma send_parts ps qs f g : Send ps f = Send qs g -> ps = qs.
Proof. by intros [= ->]. Qed.

Ltac sealed_names Hh := intros ? ?; first [eapply (harmless_value _ Hh); [|eassumption]; in_list | eapply (harmless_non_empty _ Hh); [|eassumption]; in_list].
Ltac good Hh := repeat first [assumption | by constructor | apply Forall_app; split | (apply good_text; by vm_compute) | (apply good_fixed; by vm_compute)
  | apply good_queries | apply good_types | (apply good_if_named; [by vm_compute|sealed_names Hh|]) ].

Lemma good_tables cat schema table type : (forall n t, n ∈ [cat; schema; table; type] -> value n = Some t -> harmless t) ->
  (forall d, ce_db e = Some d -> harmless d) -> Forall good_part (tables_plan c e (value cat) (value schema) (value table) (value type)).
Proof.
  intros Hh Hd. unfold tables_plan. set (C := match non_empty _ with Some _ => _ | None => _ end). set (q := if negb _ then $"`" else $"'").
  assert (q = $"'" \/ q = $"`") as Hq by (unfold q; destruct (negb _); auto).
  repeat (destruct (bool_decide _); [apply good_fixed; by vm_compute|]). good Hh.
  - apply good_lit_if; [by vm_compute|done|]. intros t. unfold C. destruct (value cat) as [[|y u]|] eqn:E; cbn [non_empty].
    + destruct (ce_db e); [intros [= <-]; auto|]. intros [= <-]. constructor.
    + intros [= <-]. eapply Hh; [|exact E]. in_list.
    + destruct (ce_db e); [intros [= <-]; auto|done].
  - apply good_lit_if; [by vm_compute|done|]. intros t Ht. destruct (value table) as [[|y u]|] eqn:E; try done. cbn in Ht. injection Ht as <-.
    eapply Hh; [|exact E]. in_list.
Qed.

Lemma good_foreign_keys pkcat pkschema pktable fkcat fkschema fktable ps f :
  AsciiSafe (pc_charset (sc_params c)) /\ pc_no_backslash (sc_params c) = false -> Forall passes [pkcat; pkschema; pktable; fkcat; fkschema; fktable] ->
  plan_of c e (ForeignKeys pkcat pkschema pktable fkcat fkschema fktable) = Send ps f -> Forall good_part ps.
Proof.
  intros [Hc Hb] HP HS. cbn [plan_of] in HS. destruct (_ && _); [done|]. apply send_parts in HS as <-. rewrite Forall_forall in HP.
  assert (forall n t, n ∈ [pkcat; pkschema; pktable; fkcat; fkschema; fktable] -> value n = Some t -> sealed ($"'") (key_name c t)) as Hs.
  { intros n t Hn Hv. apply HP, passes_arg in Hn. rewrite Hv in Hn. inversion Hn as [|? ? ? Hby]. apply key_name_sealed; [done..|].
    eapply Forall_impl; [exact Hby|]. unfold byte_ok. intros. lia. }
  repeat (apply Forall_app; split); try (apply good_text; by vm_compute); try (apply good_fixed; by vm_compute).
  - apply good_key_parts; [|repeat constructor; by vm_compute]. intros t [E|E]; (eapply Hs; [|exact E]; in_list).
  - apply good_key_parts; [|repeat constructor; by vm_compute]. intros t [E|E]; (eapply Hs; [|exact E]; in_list).
Qed.

(** The parts of every query: fixed texts that end outside of quotes and comments, and
    names that cannot leave their quotes. *)
Lemma plan_good x ps f : Forall passes (names_of x) -> contained x -> plan_of c e x = Send ps f -> Forall good_part ps.
Proof.
  intros HP Hc HS. destruct x; try (by eapply good_foreign_keys); destruct Hc as [Hc Hd]; cbn [plan_of names_of] in *; revert HS.
  - destruct (no_name _); [done|]. intros <-%send_parts. good Hc.
  - intros <-%send_parts. good Hc.
  - destruct (_ || _); [done|]. intros <-%send_parts. by apply good_tables.
  - destruct (no_name _); [done|]. intros <-%send_parts. destruct (Unique =? _); good Hc.
  - intros <-%send_parts. good Hc.
  - destruct (_ =? _); [|destruct (negb _); [done|]; destruct (identifier (value cat)) as [i|] eqn:E1, (identifier (value proc)) as [j|] eqn:E2,
      (identifier (value column)) as [k|] eqn:E3; try done]; apply good_procedure_columns.
    + unfold procedure_columns_parts. destruct (value column) as [[|y u]|] eqn:E; good Hc. apply good_named; [by vm_compute|].
      eapply (harmless_value _ Hc); [|exact E]. in_list.
    + unfold identifier_parts. repeat (apply Forall_app; split); (apply good_named; [by vm_compute|]);
        (eapply (harmless_identifier _ Hc); [|eassumption]; in_list).
  - destruct (no_name _); [done|]. intros <-%send_parts. good Hc.
  - destruct (no_name _); [done|]. intros <-%send_parts. destruct (nulls =? _), (IdentifierType =? SQL_BEST_ROWID), (IdentifierType =? SQL_ROWVER); good Hc.
  - intros <-%send_parts. good Hc.
Qed.

End Structure.

(** ** The catalog functions *)

Section Claims.
Context {A : Type} (c : stmt_config) (e : catalog_env) (ExecDirect : option (list Z) -> Z -> MADB_Stmt A -> option (Z * MADB_Stmt A)).
Context (x : call) (s : MADB_Stmt A).
Hypothesis (Hnames : Forall passes (names_of x)) (Hmem : false ∉ Params.pm_answers (ms_params s)).
Hypothesis (Hdb : forall d, ce_db e = Some d -> Forall (fun c => 0 < c < 256) d /\ Z.of_nat (length d) < 2 ^ 15).

Lemma catalog_implements : fits c e x -> implements c e ExecDirect x s.
Proof using Hnames Hmem Hdb.
  intros Hf. pose proof Hnames as HF. rewrite Forall_forall in HF. destruct x; cbn [names_of] in *.
  - apply ColumnPrivileges_ok.
  - apply TablePrivileges_ok; [apply HF; in_list..|done].
  - apply Tables_ok; [apply HF; in_list..|done|done|done].
  - apply Statistics_ok; [apply HF; in_list..|done].
  - apply Columns_ok; [apply HF; in_list..|done|done].
  - by apply ProcedureColumns_ok.
  - apply PrimaryKeys_ok; [apply HF; in_list..|done].
  - apply SpecialColumns_ok; [apply HF; in_list..|done|done].
  - apply Procedures_ok; [apply HF; in_list..|done].
  - apply ForeignKeys_ok; [|done|done]. repeat constructor; apply HF; in_list.
Qed.

(** C11. The catalog functions: a call with arguments that are NULL or strings with their
    length or SQL_NTS does what its specification says when memory can be had and the
    query and the escaped names fit into their buffers: it is refused with the error of
    the specification, or the query of fixed parts and quoted names, and nothing else, is
    executed; then the columns are described or a warning is set when the execution
    succeeded. *)
Theorem catalog_query : fits c e x -> implements c e ExecDirect x s.
Proof using Hnames Hmem Hdb. apply catalog_implements. Qed.

(** C12. The structure of the queries of the catalog functions: with names that have no
    quotes and no backslashes, and for SQLForeignKeys, which escapes them, with any
    names, the scanner of the driver finds in the executed text the parts of the
    specification: every name is one quoted string, and what is around the names is
    scanned as if it stood alone. *)
Theorem catalog_structure ps f : fits c e x -> contained c e x -> plan_of c e x = Send ps f ->
  exists buf len s', ready s s' /\ run c e ExecDirect x s = follow c f (ExecDirect (Some buf) len s') /\
    pieces (length (sent_text buf len)) (sent_text buf len) = concat (part_pieces <$> ps).
Proof using Hnames Hmem Hdb.
  intros Hf Hc Hp. pose proof (catalog_implements Hf) as Hi. unfold implements in Hi. rewrite Hp in Hi. destruct Hi as (buf & len & s' & Hr & Ht & E).
  exists buf, len, s'. split_and!; [done..|]. rewrite Ht. apply parts_pieces; [|done]. by eapply plan_good.
Qed.

End Claims.

(** ** Examples *)

(** A string that is passed with SQL_NTS, and a connection that only records. *)
Definition name_of (t : list Z) : name := MkName (Some (t ++ [0])) SQL_NTS.
Definition no_argument : name := MkName None 0.
Definition recorded (buf : option (list Z)) (len : Z) (s : MADB_Stmt nat) : option (Z * MADB_Stmt nat) :=
  b ← buf; Some (SQL_SUCCESS, set_sent s (ms_sent s ++ [sent_text b len])).
Definition sent_by (r : option (Z * MADB_Stmt nat)) : option (list (list Z)) := '(_, s) ← r; Some (ms_sent s).
Definition no_db : catalog_env := MkCatalogEnv None true.

Lemma name_passes t : forallb (fun c => (0 <? c) && (c <? 256)) t = true -> Z.of_nat (length t) < 2 ^ 15 -> passes (name_of t).
Proof.
  intros H Hl. exists t. split_and!; [done| |done|by left]. apply Forall_forall. intros y Hy. rewrite forallb_forall in H.
  apply list_elem_of_In, H in Hy. lia.
Qed.
Lemma null_passes : passes no_argument.
Proof. done. Qed.

Definition example_tables : call := Tables (name_of (chars "shop")) no_argument (name_of (chars "t%")) (name_of (chars "VIEW")).

Lemma catalog_query_witness : exists buf len s',
  sent_text buf len = tables_text ++ chars " AND TABLE_SCHEMA LIKE 'shop' AND TABLE_NAME LIKE 't%' AND TABLE_TYPE IN ('', 'VIEW')  ORDER BY TABLE_SCHEMA, TABLE_NAME, TABLE_TYPE" /\
  run Lifecycle.idle_config no_db recorded example_tables Lifecycle.idle_stmt =
    follow Lifecycle.idle_config (Describe SqlTablesColType) (recorded (Some buf) len s').
Proof.
  pose proof (catalog_query Lifecycle.idle_config no_db recorded example_tables Lifecycle.idle_stmt) as H. unfold implements in H.
  destruct (plan_of Lifecycle.idle_config no_db example_tables) as [|ps f] eqn:Ep; [by vm_compute in Ep|].
  destruct H as (buf & len & s' & _ & Ht & E).
  - repeat constructor; (apply name_passes; by vm_compute) || done.
  - apply not_elem_of_nil.
  - done.
  - split; by vm_compute.
  - assert (f = Describe SqlTablesColType) as -> by (vm_compute in Ep; injection Ep as _ <-; reflexivity).
    exists buf, len, s'. split; [|exact E]. rewrite Ht. vm_compute in Ep. injection Ep as <-. by vm_compute.
Defined.

(** Quotes and backslashes in the name of a key's table. *)
Definition example_keys : call :=
  ForeignKeys no_argument no_argument (name_of (chars "o'clock \' OR 1=1")) no_argument no_argument no_argument.

Lemma catalog_structure_witness : exists buf len s',
  run Lifecycle.idle_config no_db recorded example_keys Lifecycle.idle_stmt = recorded (Some buf) len s' /\
  pieces (length (sent_text buf len)) (sent_text buf len) =
    pieces (length foreign_keys_text) foreign_keys_text ++ (Char <$> chars " AND A.REFERENCED_TABLE_SCHEMA = DATABASE() AND A.REFERENCED_TABLE_NAME = ") ++
    [Quoted (chars "'o\'clock \\\' OR 1=1'")] ++ (Char <$> chars " ORDER BY FKTABLE_CAT, FKTABLE_SCHEM, FKTABLE_NAME, KEY_SEQ, PKTABLE_NAME").
Proof.
  destruct (plan_of Lifecycle.idle_config no_db example_keys) as [|ps f] eqn:Ep; [by vm_compute in Ep|].
  destruct (catalog_structure Lifecycle.idle_config no_db recorded example_keys Lifecycle.idle_stmt) with (ps := ps) (f := f) as (buf & len & s' & _ & E & Hp).
  - repeat constructor; (apply name_passes; by vm_compute) || done.
  - apply not_elem_of_nil.
  - done.
  - split; [by vm_compute|]. intros n t Hn Hv. apply Nat.leb_le.
    repeat (apply elem_of_cons in Hn as [->|Hn]; [first [by vm_compute in Hv | vm_compute in Hv; injection Hv as <-; by vm_compute]|]).
    by apply elem_of_nil in Hn.
  - split; [apply _|reflexivity].
  - exact Ep.
  - exists buf, len, s'. vm_compute in Ep. injection Ep as <- <-. split; [exact E|]. rewrite Hp. by vm_compute.
Defined.

(** A name with a quote in any other function becomes part of the query. *)
Example name_changes_query :
  let x := Tables (name_of (chars "shop")) no_argument (name_of (chars "x' OR '1'='1")) no_argument in
  sent_by (run Lifecycle.idle_config no_db recorded x Lifecycle.idle_stmt) =
    Some [tables_text ++ chars " AND TABLE_SCHEMA LIKE 'shop' AND TABLE_NAME LIKE 'x' OR '1'='1' ORDER BY TABLE_SCHEMA, TABLE_NAME, TABLE_TYPE"].
Proof. by vm_compute. Qed.

(** A catalog name of 860 characters makes [_snprintf] return a negative number: the
    pointer moves back into the text, where the next terminator is written, and a query
    that ends in the middle of its list of columns is sent.  With 1600 characters the
    terminator is written in front of the array. *)
Example long_name_cuts_query :
  let x n := TablePrivileges (name_of (replicate n ($"a"))) no_argument no_argument in
  sent_by (run Lifecycle.idle_config no_db recorded (x 860%nat) Lifecycle.idle_stmt) = Some [take 142 table_privileges_text] /\
  run Lifecycle.idle_config no_db recorded (x 1600%nat) Lifecycle.idle_stmt = None.
Proof. by vm_compute. Qed.

(** The buffer for an escaped name is too small for 128 quotes. *)
Example escaped_name_overruns :
  let x n := ForeignKeys no_argument no_argument (name_of (replicate n 39)) no_argument no_argument no_argument in
  is_Some (run Lifecycle.idle_config no_db recorded (x 127%nat) Lifecycle.idle_stmt) /\
  run Lifecycle.idle_config no_db recorded (x 128%nat) Lifecycle.idle_stmt = None.
Proof. split; [vm_compute; by eexists|by vm_compute]. Qed.

(** SQLTables with the empty catalog lists the types of tables only without a current
    database: otherwise the database takes the catalog's place. *)
Example types_need_no_database :
  let x := Tables (name_of []) (name_of []) (name_of []) (name_of (chars "%")) in
  sent_by (run Lifecycle.idle_config no_db recorded x Lifecycle.idle_stmt) = Some [all_types_text] /\
  sent_by (run Lifecycle.idle_config (MkCatalogEnv (Some (chars "shop")) true) recorded x Lifecycle.idle_stmt) =
    Some [tables_text ++ chars " AND TABLE_SCHEMA LIKE 'shop' ORDER BY TABLE_SCHEMA, TABLE_NAME, TABLE_TYPE"].
Proof. by vm_compute. Qed.

End CatalogProps.
